(* ===== verification/_CoqProject ===== *)
-Q . S2P
Prelude.v
PyFloat.v
FloatRound.v
FloatValue.v
PyStr.v
Regex.v
RedisKeys.v
Settings.v
Effects.v
Database.v
Uncertainty.v
CircuitBreaker.v
Resilience.v
Registry.v
Classifier.v
Replan.v
AgentIO.v
Citation.v
Synthesis.v
FanOut.v
CacheClient.v
Critic.v
Graph.v
Gateway.v
Auth.v
Accounts.v
ApiKeys.v
RateLimiter.v
Scaling.v
Checkpointer.v
Alerting.v
AlertJob.v
Trace.v
Investigations.v
Research.v
EvalHarness.v
PatternMining.v
Plugins.v
Scheduler.v
Simulation.v
Calibration.v
DataSources.v
DomainAgents.v
Causal.v
Backup.v
PyTime.v
Ingestion.v
Literature.v
Metrics.v
AdminRoutes.v
SdkTypes.v
SdkModels.v
SdkAdminModels.v
SdkApi.v
Sdk.v
SdkServer.v
ApiStability.v
Cli.v
PyText.v
Requirements.v
ReleaseDocs.v
CreateAdmin.v
Scaffold.v
