(* ===== verification/Prelude.v ===== *)
(** * GaiaOS: a verification library for its Python core

    GaiaOS answers environmental questions.  A request enters through the HTTP
    gateway (authentication chain, rate limiter) and its routes; an investigation
    becomes a row and a queued job that a worker runs as a LangGraph state machine
    (supervisor, parallel domain agents, optional simulation, synthesis of cited
    claims, critic, bounded replanning, finalize), with every external call behind
    retry, circuit breaker and cache.  Redis holds breaker documents, cached
    source results, token buckets, graph checkpoints, the job queue and the event
    channel that clients follow; PostgreSQL holds users, keys, investigations,
    metrics, alert rules and incidents, hazard events and mined patterns.

    This library translates that core (the files under [src/] named below) into
    executable definitions with the source's names and proves what each part
    promises.  Numbered theorems (C1, C2, ...) are the development's properties;
    the others are lemmas or consequences kept beside them.

    ** Files

    Foundations (no source of their own; the language and its libraries):
    - [Prelude]: results and exceptions as values, notations, tactics, the hint
      database [gaia], lemmas on lists and booleans.
    - [PyFloat], [FloatRound]: Python's [float] as binary64 ([spec_float], 53
      bits), [min]/[max]/[sum] (3.12's compensated summation), order lemmas,
      monotonicity of rounding, closure of the valid numbers.
    - [FloatValue]: finite floats as multiples of the smallest one; exact integers,
      interpolation between two of them.
    - [PyStr], [Regex]: the [str] methods and the fragment of [re] in use; the
      matcher [run] is proved equal to the declarative semantics [matches].
    - [PyTime]: the calendar of [datetime], [strptime] and [strftime]; dates are a
      bijection with ordinals, printed dates are read back.
    - [Effects]: the state-and-exception monad [M S], its triples, JSON values,
      and the interface class [Redis] with its laws ([RedisUp] when the service
      answers); [MemRedis] implements it with a clock, expiry and scripted outages.
    - [Database]: a SQLAlchemy session over the tables of a component (class
      [Db]): every statement may fail, as scripted; commits, refreshes, swallowed
      failures, and the attributes that a rollback expires.

    Infrastructure:
    - [RedisKeys] ([cache/keys.py]): key builders; distinct namespaces never meet.
    - [Settings] ([config/settings.py]): all settings with defaults, the
      production validator, derived properties.
    - [CircuitBreaker] ([resilience/circuit_breaker.py]): the operations over
      [Redis]; the abstract machine [breaker] with [b_query], [b_failure],
      [b_success]; [cstep], workers that run the operations on one Redis with
      their writes still under way.
    - [Resilience] ([resilience/retry_policy.py], [resilience/degraded_mode.py]):
      [resilient_call]; [tenacity] is the class [Tenacity].
    - [CacheClient] ([cache/client.py], [orchestrator/schemas/events.py]): events,
      [parse_event], [subscribe], the event-loop-bound client.
    - [Checkpointer] ([orchestrator/graph/checkpointer.py]): normalization,
      [aput], [aput_writes], [aget_tuple], [alist]; the states of [Graph] as the
      objects that are serialized.
    - [Scaling] ([workers/scaling_policy.py]): pool size, telemetry, sustained
      breaches.
    - [Alerting] ([alerting/]): rule and objective evaluation, webhook delivery;
      [AlertJob] ([workers/jobs/alert_evaluation_job.py], [AlertRepository]): the
      cycle that opens, announces and resolves incidents.
    - [Metrics] ([metrics/]): events, the rows and counters they leave, the rollup
      queries.

    Gateway and routes:
    - [Gateway] ([gateway/middleware.py], [context.py] and the two stubs): the
      records [AuthProvider] and [RateLimiter] with their frame laws, [dispatch].
    - [Auth] ([auth/*.py]): API-key and JWT providers (PyJWT is the class [Jwt]),
      route dependencies, password policy.
    - [Accounts] ([app/api/v1/auth.py], [UserRepository], [auth/email_service.py]):
      the tables of users and reset tokens, every route on them, and [reach], the
      histories of requests, failures and clock changes.
    - [ApiKeys] ([app/api/v1/api_keys.py]): issue, list, revoke, likewise.
    - [RateLimiter] ([gateway/rate_limiter_redis.py]): the Lua token bucket in
      binary64 and [check] over the class [Scripts].
    - [Investigations] ([app/api/v1/investigations*.py],
      [workers/jobs/investigation_job.py], [InvestigationRepository]): the routes,
      one attempt of the job, [rq_run] (RQ's retries) and the rows they leave.
    - [AdminRoutes] ([app/api/v1/admin_metrics.py], [admin_alerts.py], [health.py]):
      rollups and the Prometheus exposition over [Metrics], [Scaling] and
      [CircuitBreaker], alert rules and incidents over [AlertJob], the probes.

    Investigation:
    - [AgentIO], [Uncertainty]: the typed contracts and [propagate_uncertainty].
    - [Registry], [Classifier], [Replan], [Critic], [Citation], [Synthesis],
      [FanOut]: one file per agent-side component of [orchestrator/].  The fan-out
      is an event loop: tasks advance from one await to the next in the order of
      an arbitrary schedule.
    - [Graph] ([orchestrator/graph/builder.py]): nodes, routes and edges;
      [node_fun] and [next_node] are the graph, [execute] runs it one node per
      super-step, [gstep] is the same as a step relation.  Everything outside the
      graph (agents, LLM replies, simulation, database) is a field of [Env], an
      arbitrary function.
    - [Trace] ([orchestrator/explainability/trace_transformer.py]): the stored
      trace as a graph of steps for display.
    - [Plugins] ([orchestrator/agents/plugin_loader.py], [initialize_plugins] of
      [workers/worker.py]): plugins from entry point to registry.
    - [Simulation] ([simulation_engine/], [orchestrator/agents/simulation/]): the
      models, their parameter files and cache, the agent; [Calibration]
      ([simulation_engine/calibration/], [workers/jobs/calibration_job.py]): fits,
      promotion gate, versioned files, job.
    - [DataSources] ([tools/]): the HTTP clients of the public data services,
      geocoding and the nearest station, each call through [resilient_call];
      [DomainAgents] ([orchestrator/agents/{seismic,ocean,air_quality,wildfire,
      atmosphere}/agent.py]): what the agents make of the answers.
    - [Literature] ([db/session.py], [orchestrator/agents/literature_rag/],
      [LiteratureRepository], [ingestion/literature_seed.py]): engines and session
      factories per event loop, embeddings, hybrid search, the agent, seeding.
    - [Causal] ([db/causal_repository.py], [tools/osm_boundaries/],
      [orchestrator/agents/causal_chain/]): the recursive query as levels of rows,
      the boundary cache and table, the agent.

    Public data and periodic jobs:
    - [Research] ([app/api/v1/anonymization.py], [research.py],
      [workers/jobs/dataset_export_job.py]): anonymized listings and export.
    - [PatternMining] ([workers/jobs/pattern_mining_job.py]): statistics and
      versioned findings.
    - [EvalHarness] ([eval/metrics/], [eval/harness/]): metrics, benchmark runs,
      regression gate.
    - [Scheduler] ([workers/scheduler.py]): registration of recurring jobs.
    - [Ingestion] ([ingestion/scheduled/], [workers/jobs/ingestion_jobs.py],
      [literature_ingestion_job.py]): adapters, cursors, chunks and the two jobs.
    - [Backup] ([ops/backup/], [workers/jobs/backup_jobs.py]): storage backends,
      backup runs with retention, restore drills, snapshot checks; the world holds
      files, databases and bucket, and the rows the runners write into the main
      database ([database_at] puts them in their tables).

    Clients and release gate:
    - [SdkTypes], [SdkModels], [SdkAdminModels] ([sdk/python/gaiaos_sdk/_generated/models]):
      the data classes, one record, [_to_dict] and [_from_dict] each; the class
      [Model] states that what is written is read back and that what is read is
      well formed.
    - [SdkApi] ([_generated/client.py], [_generated/api/]): per endpoint the
      request, the parsing of the answer and the four ways to call it.
    - [Sdk] ([client.py], [exceptions.py], [streaming.py]): the synchronous and the
      asynchronous client over an arbitrary exchange [send]; [SdkServer] puts the
      routes of [Investigations] and the providers of [Auth] at its other end.
    - [Cli] ([cli/gaiaos_cli/]): the stored configuration and the commands, as
      exit status, printed lines and files.
    - [ApiStability] ([scripts/verify_api_stability.py]): the comparison of two
      OpenAPI documents.
    - [PyText] (lines, [split], [pathlib]), [Requirements]
      ([scripts/check_requirements_drift.py], [regenerate_lockfiles.py]):
      requirements files with inclusions, lockfiles and their check.
    - [ReleaseDocs] ([scripts/verify_release_readiness.py],
      [verify_documentation_drift.py], [generate_release_notes.py]): release gates
      and notes.
    - [CreateAdmin] ([tools/create_admin.py]): the first administrator, over
      [Accounts]; [Scaffold] ([orchestrator/plugins/scaffold.py]): the files of a
      new agent.

    ** What the theorems show

    - Graph: it stops within 12 super-steps (C1), which nodes run and what the
      stored trace says (C6), the answer is the last verified synthesis (C7),
      completion without any LLM (C8), the published events (C9); the job always
      settles its row (C11).
    - Evidence integrity: the citation index equals linear scans (C3), synthesis
      cites only gathered evidence on any LLM reply (C5); combined intervals are
      valid (C29); cached data is flagged as such (C12).
    - Ingestion and literature: events and papers are stored once, in step with
      their cursor (C16); what a search returns (C17); with an accepted replica
      URL, sessions belong to open engines of their loop (C36).
    - Causal chains: the queries return exactly the chains of the tables (C13) and
      the agent survives every failure (C37).
    - Routing and resilience: fan-out reports what each agent ended in (C10); the
      breaker refines its machine (C2) and keeps its documents valid under
      interleavings (C39); [resilient_call] is total (C40).
    - Gateway: context restored and nothing unchecked reaches a handler (C28); who
      can be the current user (C21); bucket levels (C4).
    - Accounts and keys: the tables' invariant over all histories (C18), reset
      tokens (C19), login (C20), keys from issue to revocation (C22, C23).
    - Storage and operations: checkpoint round trip (C38), the life cycle of an
      alert rule and the open incidents (C26, C27); a backup can be restored
      (C14), what a successful drill means (C15); which rows a rollup counts (C33)
      and where its latencies lie (C34).
    - Public data and analyses: what an anonymized record can depend on (C24),
      what an export publishes (C25), what a mining run finds (C30).
    - Clients: what the SDK returns for an investigation the server holds (C31),
      payloads survive reading and writing (C35), what the release gate on the API
      accepts (C32).

    ** Bounds and fuel

    [execute] takes LangGraph's recursion limit as fuel; a measure on node and
    [replan_count] shows that 12 is enough from any state with a non-negative
    count, so 25, the default limit, is never reached.  [Regex.run] bounds a star
    by the length of the remaining text, enough because an iteration that consumes
    nothing adds no position.  [RateLimiter] proves exact bursts for capacities
    below [MAX_CAP] = 1000, where subtracting one token at a time is exact by
    evaluation; the bound on levels (C4) has no such limit.
    [AlertJob] resolves at most one page of 50 incidents per cycle, as the code
    does.  [rq_run] consumes one outcome per attempt; RQ makes at most one more
    than its retries.  [Requirements.parse_file] takes the depth of inclusions as
    fuel; one more than there are files is enough (theorem [drift_check_total]).

    ** Parameters

    Code outside the repository is a class or an argument with the documented
    behaviour as laws: [Redis]/[RedisUp] (GET, SET), [RedisScan] (SCAN),
    [Scripts] (EVALSHA/EVAL), [Tenacity], [IsoTime] (ISO 8601 text of instants),
    [Postgres] (order of rows without ORDER BY), [Jwt], [Argon2], [Pydantic]
    (acceptance of well-typed values), [JsonPlus] (LangGraph's serializer); random secrets and identifiers ([token_urlsafe],
    [uuid4], [token_hex]) are indexed draws, and theorems that need it say that
    draws differ or that digests of draws do.  Each has an executable instance
    that the witnesses use.  YAML text, the C library's [pow], the shuffle of a
    seeded generator, version specifiers, imports, cron strings, HTTP requests,
    the C library's trigonometry, PostGIS predicates, PostgreSQL's rankings, XML and
    ISO timestamps ([DateTimes] in the SDK), one HTTP exchange of the SDK,
    requirement specifiers ([Packaging]), pip's report, git's output, embeddings, [pg_dump] and [psql] are
    plain arguments; [RawText] turns the text of an answer into JSON or a failure.

    ** Not modelled

    Prompt texts, logging and its configuration (observational); the network below
    an HTTP request; SQL text, engines and migrations (tables are values here);
    text beyond ASCII in string methods; the admin UI (TypeScript); scripts that
    only drive build tools, and the MCP servers, thin layers over the modelled
    clients; application set-up ([app/main.py]: FastAPI wiring and start-up probes
    in SQL); argument parsing and layout of the command line.

    ** Plan

    Every component with logic of its own is modelled.  What is left are the parts
    above and, inside modelled components, what the manifest marks as partly
    modelled: the prompts of the agents, the synchronous wrappers of the
    checkpointer, and the command lines of the evaluation harness. *)

From Stdlib Require Export ZArith Lia.
From stdpp Require Export base option numbers strings gmap list.

(** ** Scope of the library's notations *)

Declare Scope gaia_scope.
Delimit Scope gaia_scope with gaia.
#[global] Open Scope Z_scope.

(** ** Python exceptions as values *)

(** The outcome of a Python call: a returned value or a raised exception. *)
Inductive result (E A : Type) : Type :=
| Ok (a : A)
| Raise (e : E).
Arguments Ok {E A} a.
Arguments Raise {E A} e.

Definition result_bind {E A B} (m : result E A) (k : A -> result E B) : result E B :=
  match m with Ok a => k a | Raise e => Raise e end.

#[global] Instance result_ret E : MRet (result E) := fun A a => Ok a.
#[global] Instance result_mbind E : MBind (result E) := fun A B k m => result_bind m k.

#[global] Instance result_fmap E : FMap (result E) :=
  fun A B f m => match m with Ok a => Ok (f a) | Raise e => Raise e end.

(** Collect the results of a raising function over a list, in order, stopping
    at the first exception (a Python loop or comprehension). *)
Fixpoint result_mapM {E A B} (f : A -> result E B) (l : list A) : result E (list B) :=
  match l with
  | [] => Ok []
  | a :: l => b ← f a; bs ← result_mapM f l; Ok (b :: bs)
  end.

Definition is_ok {E A} (r : result E A) : bool :=
  match r with Ok _ => true | Raise _ => false end.

(** [try: r except E: h] *)
Definition catch {E A} (r : result E A) (h : E -> A) : A :=
  match r with Ok a => a | Raise e => h e end.

(** ** Proof automation *)

Create HintDb gaia.

(** Case analysis on the scrutinee of the goal or of a hypothesis. *)
Ltac split_match :=
  match goal with
  | |- context [match ?x with _ => _ end] => destruct x eqn:?
  | H : context [match ?x with _ => _ end] |- _ => destruct x eqn:?
  end.

(** Turn the boolean tests of the code into propositions. *)
Ltac bool_to_prop :=
  repeat match goal with
  | H : andb _ _ = true |- _ => apply andb_true_iff in H as [? ?]
  | H : orb _ _ = false |- _ => apply orb_false_iff in H as [? ?]
  | H : negb _ = true |- _ => apply negb_true_iff in H
  | H : negb _ = false |- _ => apply negb_false_iff in H
  | H : Z.leb _ _ = true |- _ => apply Z.leb_le in H
  | H : Z.leb _ _ = false |- _ => apply Z.leb_gt in H
  | H : Z.ltb _ _ = true |- _ => apply Z.ltb_lt in H
  | H : Z.ltb _ _ = false |- _ => apply Z.ltb_ge in H
  | H : Z.eqb _ _ = true |- _ => apply Z.eqb_eq in H
  | H : Z.eqb _ _ = false |- _ => apply Z.eqb_neq in H
  | H : bool_decide _ = true |- _ => apply bool_decide_eq_true in H
  | H : bool_decide _ = false |- _ => apply bool_decide_eq_false in H
  | H : String.eqb _ _ = true |- _ => apply String.eqb_eq in H
  | H : String.eqb _ _ = false |- _ => apply String.eqb_neq in H
  end.

(** Split every test the code makes, then finish the cases that are linear
    arithmetic or equality reasoning. *)
Ltac by_cases := repeat (split_match; simplify_eq); bool_to_prop; simplify_eq; try done; try lia.

(** ** Results *)

Lemma result_bind_ok {E A B} (m : result E A) (k : A -> result E B) b :
  (m ≫= k) = Ok b <-> exists a, m = Ok a /\ k a = Ok b.
Proof. destruct m; naive_solver. Qed.

Lemma result_mapM_ok {E A B} (f : A -> result E B) l bs :
  result_mapM f l = Ok bs <-> Forall2 (fun a b => f a = Ok b) l bs.
Proof.
  revert bs; induction l as [|a l IH]; intros bs; simpl.
  - split; [intros [= <-]; constructor | inversion 1; done].
  - rewrite result_bind_ok. setoid_rewrite result_bind_ok. setoid_rewrite IH.
    split.
    + intros (b & Hb & bs' & H & [= <-]). by constructor.
    + inversion 1; subst; eauto 6.
Qed.

(** ** Lists *)

Section lists.
Context {A : Type}.
Implicit Types l : list A.

Lemma existsb_true f l : existsb f l = true <-> exists x, x ∈ l /\ f x = true.
Proof. rewrite existsb_exists. by setoid_rewrite list_elem_of_In. Qed.

Lemma existsb_find f l : existsb f l = match List.find f l with Some _ => true | None => false end.
Proof. induction l as [|x l IH]; cbn; [done|]. by destruct (f x). Qed.

Lemma existsb_false f l : existsb f l = false <-> forall x, x ∈ l -> f x = false.
Proof.
  split.
  - intros H x Hx. destruct (f x) eqn:E; [|done].
    rewrite <- H. symmetry. apply existsb_true. eauto.
  - intros H. destruct (existsb f l) eqn:E; [|done].
    apply existsb_true in E as (x & Hx & Hf). by rewrite H in Hf.
Qed.

Lemma forallb_true f l : forallb f l = true <-> forall x, x ∈ l -> f x = true.
Proof. rewrite forallb_forall. by setoid_rewrite list_elem_of_In. Qed.

(** Python's [xs.append(x)] guarded by [x not in xs]. *)
Definition add_new `{EqDecision A} (l : list A) (x : A) : list A :=
  if decide (x ∈ l) then l else l ++ [x].

Lemma add_new_elem `{EqDecision A} l x y : y ∈ add_new l x <-> y ∈ l \/ y = x.
Proof. unfold add_new. case_decide; set_solver. Qed.

Lemma add_new_NoDup `{EqDecision A} l x : NoDup l -> NoDup (add_new l x).
Proof.
  intros Hl. unfold add_new. case_decide; [done|].
  apply NoDup_app. split; [done|]. split; [set_solver|]. apply NoDup_singleton.
Qed.
End lists.

Lemma omap_length {A B} (f : A -> option B) l : (length (omap f l) <= length l)%nat.
Proof. induction l as [|a l IH]; cbn; [lia|]. destruct (f a); cbn; lia. Qed.

Lemma find_app {A} (f : A -> bool) l k :
  List.find f (l ++ k) = match List.find f l with Some x => Some x | None => List.find f k end.
Proof. induction l as [|x l IH]; simpl; [done|]. by destruct (f x). Qed.

Lemma elem_of_filter_bool {A} (f : A -> bool) (l : list A) x :
  x ∈ List.filter f l <-> x ∈ l /\ f x = true.
Proof. rewrite !list_elem_of_In. apply filter_In. Qed.

Lemma elem_of_flat_map_bool {A B} (f : A -> list B) (l : list A) y :
  y ∈ flat_map f l <-> exists x, x ∈ l /\ y ∈ f x.
Proof. rewrite list_elem_of_In, in_flat_map. by setoid_rewrite list_elem_of_In. Qed.

Lemma NoDup_map_inj {A B} (f : A -> B) l x y : NoDup (map f l) -> x ∈ l -> y ∈ l -> f x = f y -> x = y.
Proof.
  induction l as [|a l IH]; [set_solver|]. cbn. intros [Ha Hl]%NoDup_cons. rewrite !elem_of_cons.
  assert (forall z, z ∈ l -> f z <> f a) as Hz.
  { intros z Hz Hf. apply Ha. apply list_elem_of_fmap. eauto. }
  intros [->|Hx] [->|Hy] Hf; [done | by destruct (Hz y Hy) | by destruct (Hz x Hx) | by apply IH].
Qed.

(** Rows that a query selects by a unique column. *)
Lemma filter_keep_all {A} (f : A -> bool) l : (forall x, x ∈ l -> f x = true) -> List.filter f l = l.
Proof.
  induction l as [|a l IH]; intros H; [done|]. cbn. rewrite H by set_solver. rewrite IH; [done|]. set_solver.
Qed.

Lemma filter_drop_all {A} (f : A -> bool) l : (forall x, x ∈ l -> f x = false) -> List.filter f l = [].
Proof. induction l as [|a l IH]; intros H; [done|]. cbn. rewrite H by set_solver. apply IH. set_solver. Qed.

Lemma NoDup_map_filter {A B} (f : A -> B) (p : A -> bool) l : NoDup (map f l) -> NoDup (map f (List.filter p l)).
Proof.
  induction l as [|a l IH]; [done|]. cbn. intros [Ha Hl]%NoDup_cons. destruct (p a); [|by apply IH].
  cbn. apply NoDup_cons. split; [|by apply IH]. intros (x & E & Hx)%list_elem_of_fmap. apply Ha. rewrite E.
  apply list_elem_of_fmap. exists x. by apply elem_of_filter_bool in Hx as [? _].
Qed.

Lemma NoDup_filter_bool {A} (p : A -> bool) l : NoDup l -> NoDup (List.filter p l).
Proof. rewrite <- (map_id l) at 1. intros H%(NoDup_map_filter id p). by rewrite map_id in H. Qed.

Lemma filter_nonempty {A} (p : A -> bool) l : (exists x, x ∈ l /\ p x = true) <-> (0 < length (List.filter p l))%nat.
Proof.
  rewrite <- existsb_true. induction l as [|a l IH]; cbn; [split; [done|lia]|]. destruct (p a); cbn; [|exact IH].
  split; [lia|done].
Qed.

Lemma filter_unique {A B} (key : A -> B) (f : A -> bool) l :
  NoDup (map key l) -> (forall x y, x ∈ l -> y ∈ l -> f x = true -> f y = true -> key x = key y) ->
  List.filter f l = [] \/ exists x, List.filter f l = [x] /\ x ∈ l /\ f x = true.
Proof.
  induction l as [|a l IH]; [by left|]. intros Hn Hk. cbn. pose proof Hn as [Ha Hl]%NoDup_cons.
  destruct (f a) eqn:E.
  - right. exists a. split; [|split; [set_solver|done]]. f_equal.
    destruct IH as [->|(x & _ & Hx & Hf)]; [done| |done|].
    { intros x y Hx Hy. apply Hk; set_solver. }
    destruct Ha. rewrite (Hk a x); [|set_solver..|done|done]. apply list_elem_of_fmap. eauto.
  - destruct IH as [->|(x & -> & Hx & Hf)]; [done| |by left|].
    { intros x y Hx Hy. apply Hk; set_solver. }
    right. exists x. set_solver.
Qed.

#[export] Hint Resolve add_new_NoDup NoDup_nil_2 : gaia.

(** [if b: raise e] *)
Definition raise_if {E} (b : bool) (e : E) : result E unit := if b then Raise e else Ok tt.

Lemma raise_if_ok {E} b (e : E) u : raise_if b e = Ok u <-> b = false.
Proof. destruct b, u; simpl; split; congruence. Qed.
