(* ===== verification/PyFloat.v ===== *)
(** * Python floats

    Python's [float] is IEEE 754 binary64.  It is modelled by the standard
    library's executable specification [spec_float] at precision 53 and
    exponent bound 1024, so the arithmetic of the components rounds exactly as
    the running program does.  The file gives Python's operators, [min]/[max]
    with their first-argument tie rule, [sum], and the order lemmas that the
    components use.  All order facts are stated for non-NaN values. *)

From Corelib Require Export SpecFloat.
From S2P Require Import Prelude.

Notation float := spec_float.

Definition fprec : Z := 53.
Definition femax : Z := 1024.

Definition fadd : float -> float -> float := SFadd fprec femax.
Definition fsub : float -> float -> float := SFsub fprec femax.
Definition fmul : float -> float -> float := SFmul fprec femax.
Definition fdiv : float -> float -> float := SFdiv fprec femax.
Definition fsqrt : float -> float := SFsqrt fprec femax.
Definition fleb : float -> float -> bool := SFleb.
Definition fltb : float -> float -> bool := SFltb.
Definition feqb : float -> float -> bool := SFeqb.

(** [float(n)] for an integer [n]: correctly rounded. *)
Definition float_of_Z (n : Z) : float := binary_normalize fprec femax n 0 false.

(** The literal [n / d]: a decimal literal is the correctly rounded quotient of
    its integer numerator and power-of-ten denominator (both exact here). *)
Definition flit (n d : Z) : float := fdiv (float_of_Z n) (float_of_Z d).

Definition f0 : float := float_of_Z 0.
Definition f1 : float := float_of_Z 1.

Definition is_nan (x : float) : bool := match x with S754_nan => true | _ => false end.

(** Python's [min(a, b)] and [max(a, b)]: the first argument wins ties. *)
Definition fmin (a b : float) : float := if fltb b a then b else a.
Definition fmax (a b : float) : float := if fltb a b then b else a.

(** [min(xs)] and [max(xs)] of a non-empty sequence [x :: xs]. *)
Definition fmin_list (x : float) (xs : list float) : float := fold_left fmin xs x.
Definition fmax_list (x : float) (xs : list float) : float := fold_left fmax xs x.

(** [sum(xs)] over floats.  Since Python 3.12, the version the project pins, the
    built-in keeps a running error term (Neumaier's compensated summation): after
    [0 + x] for the first item, [acc] is the plain sum and [c] the error, which is
    added at the end when it is non-zero and finite. *)
Definition ffinite (x : float) : bool :=
  match x with S754_zero _ | S754_finite _ _ _ => true | _ => false end.

Definition neumaier (st : float * float) (x : float) : float * float :=
  let '(acc, c) := st in
  let t := fadd acc x in
  (t, if fleb (SFabs x) (SFabs acc) then fadd c (fadd (fsub acc t) x)
      else fadd c (fadd (fsub x t) acc)).

Definition fsum (xs : list float) : float :=
  match xs with
  | [] => f0
  | x :: xs =>
      let '(acc, c) := fold_left neumaier xs (fadd f0 x, f0) in
      if negb (feqb c f0) && ffinite c then fadd acc c else acc
  end.

#[global] Arguments fadd : simpl never.
#[global] Arguments fsub : simpl never.
#[global] Arguments fmul : simpl never.
#[global] Arguments fdiv : simpl never.
#[global] Arguments float_of_Z : simpl never.
#[global] Arguments flit : simpl never.

(** [int(x)]: truncation toward zero; infinities and NaN raise. *)
Definition float_trunc (x : float) : option Z :=
  match x with
  | S754_zero _ => Some 0
  | S754_finite s m e =>
      let a := if 0 <=? e then Z.pos m * 2 ^ e else Z.pos m / 2 ^ (- e) in
      Some (if s then - a else a)
  | _ => None
  end.

(** [math.floor(x)] and [math.ceil(x)]. *)
Definition float_floor (x : float) : option Z :=
  match x with
  | S754_zero _ => Some 0
  | S754_finite s m e =>
      let n := if s then - Z.pos m else Z.pos m in
      Some (if 0 <=? e then n * 2 ^ e else n / 2 ^ (- e))
  | _ => None
  end.
Definition float_ceil (x : float) : option Z := Z.opp <$> float_floor (SFopp x).

(** [n / d] on integers, [0 < d]: the correctly rounded quotient. *)
Definition int_truediv (n : Z) (d : positive) : float :=
  match n with
  | 0 => f0
  | Zpos a => SFdiv fprec femax (S754_finite false a 0) (S754_finite false d 0)
  | Zneg a => SFdiv fprec femax (S754_finite true a 0) (S754_finite false d 0)
  end.

(** The integer nearest to [n / d], ties to even. *)
Definition nearest_even (n d : Z) : Z :=
  let q := n / d in
  match 2 * (n mod d) ?= d with
  | Lt => q
  | Gt => q + 1
  | Eq => if Z.even q then q else q + 1
  end.

(** [round(x, digits)], [digits > 0]: the exact value to that many decimals, ties to even, read
    back; infinities and NaN are returned as they are. *)
Definition fround (digits : nat) (x : float) : float :=
  match x with
  | S754_finite s m e =>
      let scale := Pos.pow 10 (Pos.of_nat digits) in
      let units := if 0 <=? e then Z.pos (m * scale) * 2 ^ e
                   else nearest_even (Z.pos (m * scale)) (2 ^ (- e)) in
      let y := int_truediv units scale in
      if s then SFopp y else y
  | _ => x
  end.

Definition fround2 : float -> float := fround 2.

Example fround2_values :
  (fround2 (flit 2675 1000), fround2 (flit 125 1000), fround2 (fdiv (float_of_Z 200) (float_of_Z 3))) =
  (flit 267 100, flit 12 100, flit 6667 100).
Proof. by vm_compute. Qed.

(** ** Order *)

(** A sort key whose lexicographic order is the float order. *)
Definition fkey (x : float) : Z * Z * Z :=
  match x with
  | S754_infinity true => (-2, 0, 0)
  | S754_finite true m e => (-1, - e, - Z.pos m)
  | S754_zero _ | S754_nan => (0, 0, 0)
  | S754_finite false m e => (1, e, Z.pos m)
  | S754_infinity false => (2, 0, 0)
  end.

Definition klt (a b : Z * Z * Z) : Prop :=
  let '(a1, a2, a3) := a in
  let '(b1, b2, b3) := b in
  a1 < b1 \/ (a1 = b1 /\ (a2 < b2 \/ (a2 = b2 /\ a3 < b3))).

Lemma SFcompare_key x y c :
  SFcompare x y = Some c ->
  match c with
  | Lt => klt (fkey x) (fkey y)
  | Eq => fkey x = fkey y
  | Gt => klt (fkey y) (fkey x)
  end.
Proof.
  destruct x as [[]|[]| |[] m1 e1], y as [[]|[]| |[] m2 e2]; simpl;
    intros [= <-]; simpl; try lia; try done;
    change (Pos.compare_cont Eq m1 m2) with (Pos.compare m1 m2);
    destruct (Z.compare_spec e1 e2); try lia; subst;
    destruct (Pos.compare_spec m1 m2); simpl; subst; try lia; done.
Qed.

Lemma SFcompare_total x y :
  is_nan x = false -> is_nan y = false -> exists c, SFcompare x y = Some c.
Proof. destruct x, y; simpl; try done; eauto. Qed.

Lemma SFcompare_nan x y c : SFcompare x y = Some c -> is_nan x = false /\ is_nan y = false.
Proof. destruct x as [| | |[]], y as [| | |[]]; simpl; done. Qed.

Definition fle (x y : float) : Prop := fleb x y = true.
Definition flt (x y : float) : Prop := fltb x y = true.

Lemma fle_key x y :
  fle x y <-> is_nan x = false /\ is_nan y = false /\ ~ klt (fkey y) (fkey x).
Proof.
  unfold fle, fleb, SFleb. split.
  - destruct (SFcompare x y) as [c|] eqn:E; [|done].
    pose proof (SFcompare_nan _ _ _ E) as [? ?]. apply SFcompare_key in E.
    intros Hc. repeat split; try done.
    destruct c; try done; unfold klt in *; destruct (fkey x) as [[??]?], (fkey y) as [[??]?];
      simplify_eq; lia.
  - intros (Hx & Hy & Hn). destruct (SFcompare_total x y Hx Hy) as [c E].
    rewrite E. apply SFcompare_key in E. by destruct c.
Qed.

Lemma flt_key x y :
  flt x y <-> is_nan x = false /\ is_nan y = false /\ klt (fkey x) (fkey y).
Proof.
  unfold flt, fltb, SFltb. split.
  - destruct (SFcompare x y) as [c|] eqn:E; [|done].
    pose proof (SFcompare_nan _ _ _ E) as [? ?]. apply SFcompare_key in E.
    by destruct c.
  - intros (Hx & Hy & Hn). destruct (SFcompare_total x y Hx Hy) as [c E].
    rewrite E. apply SFcompare_key in E. unfold klt in *.
    destruct c; try done; destruct (fkey x) as [[??]?], (fkey y) as [[??]?];
      simplify_eq; lia.
Qed.

Ltac fkeys :=
  rewrite ?fle_key, ?flt_key in *; unfold klt in *;
  repeat match goal with
  | |- context [fkey ?x] => destruct (fkey x) as [[? ?] ?]
  | H : context [fkey ?x] |- _ => destruct (fkey x) as [[? ?] ?]
  end.

Ltac ford := fkeys; naive_solver lia.

Lemma fle_refl x : is_nan x = false -> fle x x.
Proof. ford. Qed.
Lemma fle_trans x y z : fle x y -> fle y z -> fle x z.
Proof. ford. Qed.
Lemma flt_le x y : flt x y -> fle x y.
Proof. ford. Qed.
Lemma fle_total x y : is_nan x = false -> is_nan y = false -> fle x y \/ fle y x.
Proof.
  intros Hx Hy. destruct (SFcompare_total x y Hx Hy) as [c E]. apply SFcompare_key in E.
  destruct c; [left|left|right]; fkeys; naive_solver lia.
Qed.
Lemma flt_not_le x y : flt x y -> ~ fle y x.
Proof. ford. Qed.
Lemma not_flt_le x y : is_nan x = false -> is_nan y = false -> fltb x y = false -> fle y x.
Proof.
  intros Hx Hy H. assert (~ flt x y) by (unfold flt; congruence). fkeys. naive_solver.
Qed.
Lemma fle_nan x y : fle x y -> is_nan x = false /\ is_nan y = false.
Proof. ford. Qed.
Lemma fle_flt_trans x y z : fle x y -> flt y z -> flt x z.
Proof. ford. Qed.
Lemma flt_fle_trans x y z : flt x y -> fle y z -> flt x z.
Proof. ford. Qed.

(** ** [min] and [max] *)

Lemma fmin_cases a b : fmin a b = a \/ fmin a b = b.
Proof. unfold fmin. destruct (fltb b a); auto. Qed.
Lemma fmax_cases a b : fmax a b = a \/ fmax a b = b.
Proof. unfold fmax. destruct (fltb a b); auto. Qed.

Lemma fmin_nan a b : is_nan a = false -> is_nan b = false -> is_nan (fmin a b) = false.
Proof. destruct (fmin_cases a b) as [-> | ->]; auto. Qed.
Lemma fmax_nan a b : is_nan a = false -> is_nan b = false -> is_nan (fmax a b) = false.
Proof. destruct (fmax_cases a b) as [-> | ->]; auto. Qed.

Lemma fmin_le_l a b : is_nan a = false -> fle (fmin a b) a.
Proof.
  intros Ha. unfold fmin. destruct (fltb b a) eqn:E; [by apply flt_le | by apply fle_refl].
Qed.
Lemma fmin_le_r a b : is_nan a = false -> is_nan b = false -> fle (fmin a b) b.
Proof.
  intros Ha Hb. unfold fmin. destruct (fltb b a) eqn:E; [by apply fle_refl | by apply not_flt_le].
Qed.
Lemma fmax_ge_l a b : is_nan a = false -> fle a (fmax a b).
Proof.
  intros Ha. unfold fmax. destruct (fltb a b) eqn:E; [by apply flt_le | by apply fle_refl].
Qed.
Lemma fmax_ge_r a b : is_nan a = false -> is_nan b = false -> fle b (fmax a b).
Proof.
  intros Ha Hb. unfold fmax. destruct (fltb a b) eqn:E; [by apply fle_refl | by apply not_flt_le].
Qed.
Lemma fmin_glb x a b : fle x a -> fle x b -> fle x (fmin a b).
Proof. destruct (fmin_cases a b) as [-> | ->]; auto. Qed.
Lemma fmax_lub x a b : fle a x -> fle b x -> fle (fmax a b) x.
Proof. destruct (fmax_cases a b) as [-> | ->]; auto. Qed.

Create HintDb pyfloat.
#[export] Hint Resolve fmin_nan fmax_nan fmin_le_l fmin_le_r fmax_ge_l fmax_ge_r
  fmin_glb fmax_lub fle_refl flt_le : pyfloat.

Lemma fmin_list_le x xs y :
  Forall (fun v => is_nan v = false) (x :: xs) -> y ∈ x :: xs -> fle (fmin_list x xs) y.
Proof.
  unfold fmin_list. revert x y. induction xs as [|z xs IH]; intros x y Hn Hy; simpl.
  - apply list_elem_of_singleton in Hy as ->. inversion Hn; auto with pyfloat.
  - apply Forall_cons in Hn as [Hx [Hz Hxs]%Forall_cons].
    assert (is_nan (fmin x z) = false) by auto with pyfloat.
    apply elem_of_cons in Hy as [->|Hy].
    + eapply fle_trans; [|apply (fmin_le_l x z)]; [|done].
      apply IH; [by constructor | by left].
    + apply elem_of_cons in Hy as [->|Hy].
      * eapply fle_trans; [|apply (fmin_le_r x z)]; [|done..].
        apply IH; [by constructor | by left].
      * apply IH; [by constructor | by right].
Qed.

Lemma fmax_list_ge x xs y :
  Forall (fun v => is_nan v = false) (x :: xs) -> y ∈ x :: xs -> fle y (fmax_list x xs).
Proof.
  unfold fmax_list. revert x y. induction xs as [|z xs IH]; intros x y Hn Hy; simpl.
  - apply list_elem_of_singleton in Hy as ->. inversion Hn; auto with pyfloat.
  - apply Forall_cons in Hn as [Hx [Hz Hxs]%Forall_cons].
    assert (is_nan (fmax x z) = false) by auto with pyfloat.
    apply elem_of_cons in Hy as [->|Hy].
    + eapply fle_trans; [apply (fmax_ge_l x z); done|].
      apply IH; [by constructor | by left].
    + apply elem_of_cons in Hy as [->|Hy].
      * eapply fle_trans; [apply (fmax_ge_r x z); done|].
        apply IH; [by constructor | by left].
      * apply IH; [by constructor | by right].
Qed.

Lemma fold_select_elem (f : float -> float -> float) x xs :
  (forall a b, f a b = a \/ f a b = b) -> fold_left f xs x ∈ x :: xs.
Proof.
  intros Hf. revert x. induction xs as [|z xs IH]; intros x; simpl; [by left|].
  specialize (IH (f x z)). destruct (Hf x z) as [E|E]; rewrite E in IH |- *; set_solver.
Qed.

Lemma fmin_list_elem x xs : fmin_list x xs ∈ x :: xs.
Proof. apply fold_select_elem, fmin_cases. Qed.
Lemma fmax_list_elem x xs : fmax_list x xs ∈ x :: xs.
Proof. apply fold_select_elem, fmax_cases. Qed.

(** ** Arithmetic does not invent NaN *)

Definition is_finite (x : float) : bool :=
  match x with S754_zero _ | S754_finite _ _ _ => true | _ => false end.

Section rounding.
Lemma shr_1_nonneg mrs : 0 <= shr_m mrs -> 0 <= shr_m (shr_1 mrs).
Proof. destruct mrs as [[|[p|p|]|[p|p|]] r s]; simpl; lia. Qed.

Lemma iter_shr_nonneg p mrs : 0 <= shr_m mrs -> 0 <= shr_m (SpecFloat.iter_pos shr_1 p mrs).
Proof. revert mrs. induction p; simpl; auto using shr_1_nonneg. Qed.

Lemma shr_fexp_nonneg m e l : 0 <= m -> 0 <= shr_m (shr_fexp fprec femax m e l).1.
Proof.
  intros Hm. unfold shr_fexp, shr.
  assert (0 <= shr_m (shr_record_of_loc m l)) by by destruct l as [|[]].
  destruct (_ - e); simpl; auto using iter_shr_nonneg.
Qed.

Lemma round_nearest_even_nonneg m l : 0 <= m -> 0 <= round_nearest_even m l.
Proof. destruct l as [|[]]; simpl; try lia. destruct (Z.even m); lia. Qed.

(** Rounding keeps the sign. *)
Definition signed (s : bool) (x : float) : Prop :=
  match x with S754_zero s' | S754_infinity s' | S754_finite s' _ _ => s' = s | S754_nan => False end.

Lemma binary_round_aux_signed sx mx ex lx : 0 <= mx -> signed sx (binary_round_aux fprec femax sx mx ex lx).
Proof.
  intros Hm. unfold binary_round_aux.
  pose proof (shr_fexp_nonneg mx ex lx Hm) as H1.
  destruct (shr_fexp fprec femax mx ex lx) as [mrs e1]. simpl in H1.
  pose proof (shr_fexp_nonneg _ e1 loc_Exact
    (round_nearest_even_nonneg _ (loc_of_shr_record mrs) H1)) as H2.
  destruct (shr_fexp fprec femax _ e1 loc_Exact) as [mrs2 e2]. simpl in H2.
  destruct (shr_m mrs2); [done| |lia]. by destruct (e2 <=? _).
Qed.

Lemma binary_round_aux_nan sx mx ex lx :
  0 <= mx -> is_nan (binary_round_aux fprec femax sx mx ex lx) = false.
Proof. intros Hm. pose proof (binary_round_aux_signed sx mx ex lx Hm) as Hs. by destruct (binary_round_aux _ _ _ _ _ _). Qed.

Lemma binary_round_nan sx mx ex : is_nan (binary_round fprec femax sx mx ex) = false.
Proof.
  unfold binary_round. destruct (shl_align mx ex _). by apply binary_round_aux_nan.
Qed.

Lemma binary_normalize_nan m e s : is_nan (binary_normalize fprec femax m e s) = false.
Proof. destruct m; simpl; auto using binary_round_nan. Qed.
End rounding.

Lemma float_of_Z_nan n : is_nan (float_of_Z n) = false.
Proof. apply binary_normalize_nan. Qed.

Lemma fsub_nan x y : is_finite x = true -> is_nan y = false -> is_nan (fsub x y) = false.
Proof.
  unfold fsub. destruct x as [[]| | |sx mx ex], y as [[]|[]| |sy my ey]; try done; intros _ _.
  apply binary_normalize_nan.
Qed.

Lemma fadd_nan x y : is_finite x = true -> is_nan y = false -> is_nan (fadd x y) = false.
Proof.
  unfold fadd. destruct x as [[]| | |sx mx ex], y as [[]|[]| |sy my ey]; try done; intros _ _.
  apply binary_normalize_nan.
Qed.

Lemma fmul_nan x y : is_finite x = true -> is_finite y = true -> is_nan (fmul x y) = false.
Proof.
  unfold fmul. destruct x as [[]| | |sx mx ex], y as [[]| | |sy my ey]; try done; intros _ _.
  by apply binary_round_aux_nan.
Qed.

Lemma fdiv_signed sx mx ex sy my ey :
  signed (xorb sx sy) (fdiv (S754_finite sx mx ex) (S754_finite sy my ey)).
Proof.
  unfold fdiv, SFdiv, SFdiv_core_binary.
  set (m' := match _ with Z0 => _ | Zpos _ => _ | Zneg _ => _ end).
  assert (0 <= m') as Hm'.
  { unfold m'. destruct (_ - _ - _) as [|p|p]; try lia. apply Z.shiftl_nonneg. lia. }
  pose proof (Z_div_mod m' (Z.pos my) ltac:(lia)) as Hq.
  destruct (Z.div_eucl m' (Z.pos my)) as [q r]. apply binary_round_aux_signed. nia.
Qed.

Lemma fdiv_nan x s m e : is_nan x = false -> is_nan (fdiv x (S754_finite s m e)) = false.
Proof.
  destruct x as [[]|[]| |sx mx ex]; try done. intros _.
  pose proof (fdiv_signed sx mx ex s m e) as Hs. by destruct (fdiv _ _).
Qed.

Lemma unit_interval_finite x : fle f0 x -> fle x f1 -> is_finite x = true /\ is_nan x = false.
Proof. destruct x as [|[]| |]; done. Qed.
