(* ===== verification/FloatRound.v ===== *)
(** * Rounding is monotone against representable numbers

    Subtracting a non-negative number never gives more than the minuend, and
    adding one never gives less than the augend, in binary64 with
    round-to-nearest-even.  The proof follows [binary_round] of the standard
    library's specification: shifting right by [n] bits leaves the quotient and
    remembers whether the division was exact, so the rounded significand lies
    between floor and ceiling, and a canonical bound is never crossed. *)

From S2P Require Import Prelude PyFloat.

(** A datum of the format: canonical significand and exponent. *)
Definition fvalid (x : float) : bool := valid_binary fprec femax x.

Notation fexp64 := (fexp fprec femax).
Notation emin64 := (emin fprec femax).

Lemma fexp64_eq e : fexp64 e = Z.max (e - 53) (-1074).
Proof. reflexivity. Qed.

(** ** Digits *)

Lemma digits2_pos_bounds m :
  2 ^ (Z.pos (digits2_pos m) - 1) <= Z.pos m < 2 ^ Z.pos (digits2_pos m).
Proof.
  induction m as [m IH|m IH|]; cbn [digits2_pos]; [| |by vm_compute];
    rewrite Pos2Z.inj_succ, <- Z.add_1_r;
    replace (Z.pos (digits2_pos m) + 1 - 1) with (Z.pos (digits2_pos m) - 1 + 1) by lia;
    rewrite !Z.pow_add_r by lia; change (2 ^ 1) with 2.
  - rewrite (Pos2Z.inj_xI m). lia.
  - rewrite (Pos2Z.inj_xO m). lia.
Qed.

(** The number of digits is determined by the binade. *)
Lemma digits2_pos_le m k : 0 <= k -> Z.pos m < 2 ^ k -> Z.pos (digits2_pos m) <= k.
Proof.
  intros Hk Hm. pose proof (digits2_pos_bounds m) as [H _].
  assert (2 ^ (Z.pos (digits2_pos m) - 1) < 2 ^ k) as Hlt by lia.
  apply Z.pow_lt_mono_r_iff in Hlt; lia.
Qed.

Lemma digits2_pos_ge m k : 0 <= k -> 2 ^ k <= Z.pos m -> k + 1 <= Z.pos (digits2_pos m).
Proof.
  intros Hk Hm. pose proof (digits2_pos_bounds m) as [_ H].
  assert (2 ^ k < 2 ^ Z.pos (digits2_pos m)) as Hlt by lia.
  apply Z.pow_lt_mono_r_iff in Hlt; lia.
Qed.

Lemma pos_iter_xO m p : Z.pos (Pos.iter xO m p) = Z.pos m * 2 ^ Z.pos p.
Proof.
  revert m. induction p as [|p IH] using Pos.peano_ind; intros m.
  - simpl. lia.
  - rewrite Pos.iter_succ, Pos2Z.inj_xO, IH, Pos2Z.inj_succ, Z.pow_succ_r by lia. lia.
Qed.

Lemma digits2_pos_shift m p :
  Z.pos (digits2_pos (Pos.iter xO m p)) = Z.pos (digits2_pos m) + Z.pos p.
Proof.
  induction p as [|p IH] using Pos.peano_ind.
  - simpl. lia.
  - rewrite Pos.iter_succ. cbn [digits2_pos]. lia.
Qed.

(** ** Right shifts *)

(** [mrs] is [M] shifted right by [n] bits: quotient, and exactness flags that
    are clear when the division is exact. *)
Definition shr_inv (M n : Z) (mrs : shr_record) : Prop :=
  shr_m mrs = M / 2 ^ n /\ (M mod 2 ^ n = 0 -> shr_r mrs = false /\ shr_s mrs = false).

Lemma shr_1_spec mrs :
  0 <= shr_m mrs ->
  shr_m (shr_1 mrs) = shr_m mrs / 2 /\ shr_r (shr_1 mrs) = Z.odd (shr_m mrs) /\
  shr_s (shr_1 mrs) = shr_r mrs || shr_s mrs.
Proof.
  destruct mrs as [m r s]; simpl. intros Hm. destruct m as [|[p|p|]|p]; simpl; try lia; try done.
  - split; [|done]. rewrite (Pos2Z.inj_xI p). apply (Z.div_unique _ _ _ 1); lia.
  - split; [|done]. rewrite (Pos2Z.inj_xO p). apply (Z.div_unique _ _ _ 0); lia.
Qed.

Lemma shr_inv_step M n mrs :
  0 <= M -> 0 <= n -> shr_inv M n mrs -> shr_inv M (n + 1) (shr_1 mrs).
Proof.
  intros HM Hn [Hm Hx].
  assert (0 < 2 ^ n) as Hp by (apply Z.pow_pos_nonneg; lia).
  assert (0 <= shr_m mrs) as Hq by (rewrite Hm; by apply Z.div_pos).
  destruct (shr_1_spec mrs Hq) as (E1 & E2 & E3). unfold shr_inv.
  rewrite Z.pow_add_r by lia. change (2 ^ 1) with 2. split.
  - rewrite E1, Hm. by rewrite Z.div_div by lia.
  - intros Hmod. rewrite Z.rem_mul_r in Hmod by lia.
    pose proof (Z.mod_pos_bound M (2 ^ n) Hp). pose proof (Z.mod_pos_bound (M / 2 ^ n) 2 ltac:(lia)).
    assert (M mod 2 ^ n = 0) as Hz0 by nia. assert ((M / 2 ^ n) mod 2 = 0) as Hz1 by nia.
    destruct (Hx Hz0) as [Hr Hs]. rewrite E2, E3, Hr, Hs. split; [|done].
    rewrite Hm, <- Z.negb_even, Zeven_mod, Hz1. done.
Qed.

Lemma shr_inv_iter M n p mrs :
  0 <= M -> 0 <= n -> shr_inv M n mrs -> shr_inv M (n + Z.pos p) (SpecFloat.iter_pos shr_1 p mrs).
Proof.
  intros HM. revert n mrs. induction p as [p IH|p IH|]; intros n mrs Hn H; cbn [SpecFloat.iter_pos].
  - replace (n + Z.pos p~1) with (n + 1 + Z.pos p + Z.pos p) by lia.
    apply IH; [lia|]. apply IH; [lia|]. by apply shr_inv_step.
  - replace (n + Z.pos p~0) with (n + Z.pos p + Z.pos p) by lia.
    apply IH; [lia|]. by apply IH.
  - by apply shr_inv_step.
Qed.

Lemma shr_exact M e n :
  0 <= M ->
  shr_inv M (Z.max 0 n) (shr (shr_record_of_loc M loc_Exact) e n).1 /\
  (shr (shr_record_of_loc M loc_Exact) e n).2 = e + Z.max 0 n.
Proof.
  intros HM. unfold shr. destruct n as [|p|p]; simpl.
  - split; [|lia]. split; simpl; [by rewrite Z.div_1_r | done].
  - split; [|lia]. apply (shr_inv_iter M 0 p); [done|lia|].
    split; simpl; [by rewrite Z.div_1_r | done].
  - split; [|lia]. split; simpl; [by rewrite Z.div_1_r | done].
Qed.

(** The rounded quotient lies between floor and ceiling. *)
Lemma round_between M n mrs K :
  0 <= M -> 0 <= n -> shr_inv M n mrs ->
  let r := round_nearest_even (shr_m mrs) (loc_of_shr_record mrs) in
  M / 2 ^ n <= r /\ (M <= K * 2 ^ n -> r <= K).
Proof.
  intros HM Hn [Hm Hx] r.
  assert (0 < 2 ^ n) as Hp by (apply Z.pow_pos_nonneg; lia).
  assert (r = M / 2 ^ n \/ (r = M / 2 ^ n + 1 /\ M mod 2 ^ n <> 0)) as Hr.
  { unfold r. rewrite Hm. destruct mrs as [m [] []]; simpl in *;
      try (destruct (Z.even (M / 2 ^ n))); auto; right; (split; [done|]); intros H0;
      destruct (Hx H0); done. }
  pose proof (Z.div_mod M (2 ^ n) ltac:(lia)) as Hd. pose proof (Z.mod_pos_bound M (2 ^ n) Hp).
  split; [lia|]. intros HK. destruct Hr as [->|[-> Hne]].
  - apply Z.div_le_upper_bound; lia.
  - assert (M <> K * 2 ^ n) by (intros E; rewrite E, Z.mod_mul in Hne; lia).
    assert (M / 2 ^ n < K) by (apply Z.div_lt_upper_bound; lia). lia.
Qed.

(** ** Rounding a positive number *)

(** The significand and exponent that [binary_round] settles on after its first
    rounding, for a positive number [d * 2^e]. *)
Lemma binary_round_first d e E :
  E = fexp64 (Z.pos (digits2_pos d) + e) ->
  exists n mrs mz,
    n = Z.max 0 (E - e) /\ shr_inv mz n mrs /\ 0 <= mz /\
    mz = Z.pos d * 2 ^ Z.max 0 (e - E) /\
    binary_round fprec femax false d e =
      (let '(mrs'', e'') := shr_fexp fprec femax
         (round_nearest_even (shr_m mrs) (loc_of_shr_record mrs)) E loc_Exact in
       match shr_m mrs'' with
       | Z0 => S754_zero false
       | Zpos m => if e'' <=? femax - fprec then S754_finite false m e'' else S754_infinity false
       | _ => S754_nan
       end).
Proof.
  intros HE.
  assert (forall M, shr_inv M 0 (shr_record_of_loc M loc_Exact)) as Hinit
    by (intros M; split; simpl; [by rewrite Z.div_1_r | done]).
  unfold binary_round, shl_align. rewrite <- HE. destruct (E - e) as [|p|p] eqn:Hd.
  - exists 0, (shr_record_of_loc (Z.pos d) loc_Exact), (Z.pos d).
    split; [lia|]. split; [apply Hinit|]. split; [lia|].
    split; [rewrite Z.max_l by lia; simpl; lia|].
    unfold binary_round_aux, shr_fexp at 1, Zdigits2. rewrite <- HE, Hd. cbn [shr].
    by replace E with e by lia.
  - exists (Z.pos p), (SpecFloat.iter_pos shr_1 p (shr_record_of_loc (Z.pos d) loc_Exact)), (Z.pos d).
    split; [lia|]. split; [by apply (shr_inv_iter _ 0)|].
    split; [lia|]. split; [rewrite Z.max_l by lia; simpl; lia|].
    unfold binary_round_aux, shr_fexp at 1, Zdigits2. rewrite <- HE, Hd. cbn [shr].
    by replace (e + Z.pos p) with E by lia.
  - exists 0, (shr_record_of_loc (Z.pos (Pos.iter xO d p)) loc_Exact), (Z.pos (Pos.iter xO d p)).
    split; [lia|]. split; [apply Hinit|]. split; [lia|]. split.
    { rewrite pos_iter_xO, Z.max_r by lia. by replace (e - E) with (Z.pos p) by lia. }
    unfold binary_round_aux, shr_fexp at 1, Zdigits2. rewrite digits2_pos_shift.
    replace (Z.pos (digits2_pos d) + Z.pos p + E) with (Z.pos (digits2_pos d) + e) by lia.
    by rewrite <- HE, Z.sub_diag.
Qed.

(** The second shift: nothing below [2^53], one bit at [2^53]. *)
Lemma second_shift m E :
  -1074 <= E -> 0 <= m <= 2 ^ 53 ->
  let '(mrs, e) := shr_fexp fprec femax m E loc_Exact in
  (m < 2 ^ 53 /\ shr_m mrs = m /\ e = E) \/ (m = 2 ^ 53 /\ shr_m mrs = 2 ^ 52 /\ e = E + 1).
Proof.
  intros HE Hm. destruct (decide (m = 2 ^ 53)) as [->|Hne].
  - unfold shr_fexp. change (Zdigits2 (2 ^ 53)) with 54. rewrite fexp64_eq.
    replace (Z.max (54 + E - 53) (-1074) - E) with 1 by lia.
    destruct (shr_exact (2 ^ 53) E 1 ltac:(lia)) as [[H1 _] H2].
    destruct (shr (shr_record_of_loc (2 ^ 53) loc_Exact) E 1) as [mrs e]. simpl in H1, H2.
    right. split; [done|]. split; [by rewrite H1 | lia].
  - unfold shr_fexp. rewrite fexp64_eq.
    assert (Zdigits2 m <= 53) as Hdig.
    { destruct m as [|p|p]; simpl; try lia. apply digits2_pos_le; lia. }
    destruct (Z.max (Zdigits2 m + E - 53) (-1074) - E) as [|p|p] eqn:Hs; simpl; [|lia|];
      left; repeat split; lia.
Qed.

(** ** Comparison with a canonical number *)

Lemma bounded_spec m e :
  bounded fprec femax m e = true ->
  Z.max (Z.pos (digits2_pos m) + e - 53) (-1074) = e /\ e <= 971 /\ Z.pos m < 2 ^ 53 /\
  (-1074 < e -> 2 ^ 52 <= Z.pos m).
Proof.
  unfold bounded, canonical_mantissa. rewrite andb_true_iff, Z.eqb_eq, Z.leb_le, fexp64_eq.
  change (femax - fprec) with 971. intros [H1 H2]. pose proof (digits2_pos_bounds m) as [Hl Hu].
  split; [done|]. split; [done|]. split.
  - eapply Z.lt_le_trans; [exact Hu|]. apply Z.pow_le_mono_r; lia.
  - intros He. eapply Z.le_trans; [|exact Hl]. apply Z.pow_le_mono_r; lia.
Qed.

(** [d * 2^e <= m * 2^x] with [e <= x]. *)
Lemma digits_mono d e m x :
  e <= x -> Z.pos d <= Z.pos m * 2 ^ (x - e) ->
  Z.pos (digits2_pos d) + e <= Z.pos (digits2_pos m) + x.
Proof.
  intros Hx Hd. pose proof (digits2_pos_bounds m) as [_ Hm].
  assert (Z.pos (digits2_pos d) <= Z.pos (digits2_pos m) + (x - e)); [|lia].
  apply digits2_pos_le; [lia|]. eapply Z.le_lt_trans; [exact Hd|].
  rewrite Z.pow_add_r by lia. apply Z.mul_lt_mono_pos_r; [apply Z.pow_pos_nonneg; lia | done].
Qed.

Lemma digits_mono_ge d e m x :
  e <= x -> Z.pos m * 2 ^ (x - e) <= Z.pos d ->
  Z.pos (digits2_pos m) + x <= Z.pos (digits2_pos d) + e.
Proof.
  intros Hx Hd. pose proof (digits2_pos_bounds m) as [Hm _].
  assert (Z.pos (digits2_pos m) - 1 + (x - e) + 1 <= Z.pos (digits2_pos d)); [|lia].
  apply digits2_pos_ge; [lia|]. eapply Z.le_trans; [|exact Hd].
  rewrite Z.pow_add_r by lia. apply Z.mul_le_mono_nonneg_r; [apply Z.pow_nonneg; lia | done].
Qed.

(** ** The two rounding bounds *)

Lemma scaled_le d e m x E :
  e <= x -> E <= x -> Z.pos d <= Z.pos m * 2 ^ (x - e) ->
  Z.pos d * 2 ^ Z.max 0 (e - E) <= Z.pos m * 2 ^ (x - E) * 2 ^ Z.max 0 (E - e).
Proof.
  intros He HE Hd. destruct (Z.le_ge_cases e E) as [Hle|Hle].
  - rewrite Z.max_l, Z.max_r by lia. rewrite <- Z.mul_assoc, <- Z.pow_add_r by lia.
    replace (x - E + (E - e)) with (x - e) by lia. lia.
  - rewrite Z.max_r, Z.max_l by lia. rewrite Z.mul_1_r.
    replace (x - E) with (x - e + (e - E)) by lia. rewrite Z.pow_add_r, Z.mul_assoc by lia.
    apply Z.mul_le_mono_nonneg_r; [apply Z.pow_nonneg; lia | done].
Qed.

Lemma scaled_ge d e m x :
  e <= x -> Z.pos m * 2 ^ (x - e) <= Z.pos d ->
  Z.pos m * 2 ^ Z.max 0 (x - e) <= Z.pos d * 2 ^ Z.max 0 (e - x).
Proof. intros He Hd. rewrite Z.max_r, Z.max_l by lia. simpl. lia. Qed.

(** The significand before rounding is below [2^53] units. *)
Lemma scaled_digits d e E :
  Z.pos (digits2_pos d) + e - 53 <= E ->
  Z.pos d * 2 ^ Z.max 0 (e - E) <= 2 ^ 53 * 2 ^ Z.max 0 (E - e).
Proof.
  intros HE. pose proof (digits2_pos_bounds d) as [_ Hd].
  rewrite <- Z.pow_add_r by lia.
  assert (Z.pos d * 2 ^ Z.max 0 (e - E) <= 2 ^ Z.pos (digits2_pos d) * 2 ^ Z.max 0 (e - E))
    by (apply Z.mul_le_mono_nonneg_r; [apply Z.pow_nonneg; lia | lia]).
  eapply Z.le_trans; [eassumption|]. rewrite <- Z.pow_add_r by lia.
  apply Z.pow_le_mono_r; lia.
Qed.

Lemma fle_finite m1 e1 m2 e2 :
  e1 < e2 \/ (e1 = e2 /\ Z.pos m1 <= Z.pos m2) ->
  fle (S754_finite false m1 e1) (S754_finite false m2 e2).
Proof. intros H. apply fle_key. split; [done|]. split; [done|]. simpl. lia. Qed.

Lemma round_le d e mx ex :
  bounded fprec femax mx ex = true -> e <= ex -> Z.pos d <= Z.pos mx * 2 ^ (ex - e) ->
  fle (binary_round fprec femax false d e) (S754_finite false mx ex).
Proof.
  intros (Hcan & Hmax & Hlt & Hnorm)%bounded_spec He Hd.
  destruct (binary_round_first d e _ eq_refl) as (n & mrs & mz & -> & Hinv & Hmz & Emz & ->).
  set (E := fexp64 (Z.pos (digits2_pos d) + e)) in *.
  assert (E = Z.max (Z.pos (digits2_pos d) + e - 53) (-1074)) as HE by reflexivity.
  pose proof (digits_mono d e mx ex He Hd) as Hdig. assert (E <= ex) as HEx by lia.
  pose proof (round_between mz (Z.max 0 (E - e)) mrs (Z.pos mx * 2 ^ (ex - E)) Hmz ltac:(lia) Hinv) as [Hlo Hup].
  pose proof (round_between mz (Z.max 0 (E - e)) mrs (2 ^ 53) Hmz ltac:(lia) Hinv) as [_ H53].
  set (r := round_nearest_even (shr_m mrs) (loc_of_shr_record mrs)) in *.
  specialize (Hup ltac:(rewrite Emz; by apply scaled_le)).
  specialize (H53 ltac:(rewrite Emz; apply scaled_digits; lia)).
  assert (0 <= mz / 2 ^ Z.max 0 (E - e)) by (apply Z.div_pos; [done | apply Z.pow_pos_nonneg; lia]).
  pose proof (second_shift r E ltac:(lia) ltac:(lia)) as Hs.
  destruct (shr_fexp fprec femax r E loc_Exact) as [mrs2 e2]. change (femax - fprec) with 971.
  destruct Hs as [(Hr & -> & ->)|(Hr & -> & ->)].
  - destruct r as [|p|p]; [reflexivity| |lia]. rewrite (proj2 (Z.leb_le _ _)) by lia.
    apply fle_finite. destruct (decide (E = ex)) as [HEe|]; [|lia].
    right. rewrite HEe, Z.sub_diag, Z.mul_1_r in Hup. lia.
  - assert (E < ex) as HEl.
    { destruct (decide (E = ex)) as [HEe|]; [|lia]. rewrite HEe, Z.sub_diag, Z.mul_1_r in Hup. lia. }
    change (2 ^ 52) with 4503599627370496 in *. rewrite (proj2 (Z.leb_le _ _)) by lia.
    apply fle_finite. destruct (decide (E + 1 = ex)); [|lia]. right. split; [done|]. lia.
Qed.

Lemma round_ge d e mx ex :
  bounded fprec femax mx ex = true -> e <= ex -> Z.pos mx * 2 ^ (ex - e) <= Z.pos d ->
  fle (S754_finite false mx ex) (binary_round fprec femax false d e).
Proof.
  intros (Hcan & Hmax & Hlt & Hnorm)%bounded_spec He Hd.
  destruct (binary_round_first d e _ eq_refl) as (n & mrs & mz & -> & Hinv & Hmz & Emz & ->).
  set (E := fexp64 (Z.pos (digits2_pos d) + e)) in *.
  assert (E = Z.max (Z.pos (digits2_pos d) + e - 53) (-1074)) as HE by reflexivity.
  pose proof (digits_mono_ge d e mx ex He Hd) as Hdig. assert (ex <= E) as HEx by lia.
  pose proof (round_between mz (Z.max 0 (E - e)) mrs (2 ^ 53) Hmz ltac:(lia) Hinv) as [Hlo H53].
  set (r := round_nearest_even (shr_m mrs) (loc_of_shr_record mrs)) in *.
  specialize (H53 ltac:(rewrite Emz; apply scaled_digits; lia)).
  assert (0 < 2 ^ Z.max 0 (E - e)) as Hpow by (apply Z.pow_pos_nonneg; lia).
  assert ((E = ex /\ Z.pos mx <= r) \/ (ex < E /\ 0 < r)) as Hr.
  { destruct (decide (E = ex)) as [HEe|HEe]; [left|right]; (split; [lia|]).
    - eapply Z.le_trans; [|exact Hlo]. apply Z.div_le_lower_bound; [lia|].
      rewrite Emz, Z.mul_comm, HEe. by apply scaled_ge.
    - eapply Z.lt_le_trans; [|exact Hlo]. apply Z.div_str_pos. split; [done|].
      rewrite Emz. pose proof (digits2_pos_bounds d) as [Hb _].
      assert (Z.max 0 (e - E) = 0 \/ E < e) as [Hm|Hm] by lia.
      + rewrite Hm, Z.mul_1_r. eapply Z.le_trans; [|exact Hb]. apply Z.pow_le_mono_r; lia.
      + lia. }
  pose proof (second_shift r E ltac:(lia) ltac:(lia)) as Hs.
  destruct (shr_fexp fprec femax r E loc_Exact) as [mrs2 e2]. change (femax - fprec) with 971.
  destruct Hs as [(Hr' & -> & ->)|(Hr' & -> & ->)].
  - destruct r as [|p|p]; [lia| |lia]. destruct (Z.leb_spec E 971).
    + apply fle_finite. lia.
    + reflexivity.
  - change (2 ^ 52) with 4503599627370496. destruct (Z.leb_spec (E + 1) 971).
    + apply fle_finite. lia.
    + reflexivity.
Qed.

(** ** Subtraction and addition of non-negative numbers *)

(** [+0.0], [-0.0] or a positive finite number. *)
Definition nonneg_finite (x : float) : bool :=
  match x with S754_zero _ | S754_finite false _ _ => true | _ => false end.

Lemma shl_align_value m e e' : e' <= e -> Z.pos (fst (shl_align m e e')) = Z.pos m * 2 ^ (e - e').
Proof.
  intros He. unfold shl_align. destruct (e' - e) as [|p|p] eqn:E; simpl; [|lia|].
  - replace (e - e') with 0 by lia. lia.
  - rewrite pos_iter_xO. f_equal. f_equal. lia.
Qed.

Lemma binary_round_sign sx m e :
  match binary_round fprec femax sx m e with
  | S754_zero s | S754_infinity s | S754_finite s _ _ => s = sx
  | S754_nan => False
  end.
Proof.
  pose proof (binary_round_nan sx m e) as Hn. revert Hn. unfold binary_round, binary_round_aux.
  destruct (shl_align m e _) as [mz ez]. destruct (shr_fexp fprec femax _ ez loc_Exact) as [mrs e1].
  destruct (shr_fexp fprec femax _ e1 loc_Exact) as [mrs2 e2].
  destruct (shr_m mrs2); [done| |done]. by destruct (e2 <=? _).
Qed.

Lemma fsub_le x y :
  fvalid x = true -> nonneg_finite x = true -> nonneg_finite y = true -> fle (fsub x y) x.
Proof.
  destruct x as [sx| | |[] mx ex]; try done; destruct y as [sy| | |[] my ey]; try done; intros Hx _ _.
  - destruct sx, sy; reflexivity.
  - by apply fle_refl.
  - unfold fsub, SFsub. cbn [cond_Zopp].
    rewrite !shl_align_value by lia. set (ez := Z.min ex ey).
    assert (0 < Z.pos my * 2 ^ (ey - ez)) by (apply Z.mul_pos_pos; [lia | apply Z.pow_pos_nonneg; lia]).
    destruct (Z.pos mx * 2 ^ (ex - ez) - Z.pos my * 2 ^ (ey - ez)) as [|p|p] eqn:ED.
    + reflexivity.
    + cbn [binary_normalize]. apply round_le; [exact Hx | lia | lia].
    + cbn [binary_normalize]. pose proof (binary_round_sign true p ez) as Hs.
      destruct (binary_round fprec femax true p ez); try done; by rewrite Hs.
Qed.

Lemma fadd_ge x y :
  fvalid x = true -> nonneg_finite x = true -> nonneg_finite y = true -> fle x (fadd x y).
Proof.
  destruct x as [sx| | |[] mx ex]; try done; destruct y as [sy| | |[] my ey]; try done; intros Hx _ _.
  - destruct sx, sy; reflexivity.
  - by apply fle_refl.
  - unfold fadd, SFadd. cbn [cond_Zopp].
    rewrite !shl_align_value by lia. set (ez := Z.min ex ey).
    assert (0 < Z.pos my * 2 ^ (ey - ez)) by (apply Z.mul_pos_pos; [lia | apply Z.pow_pos_nonneg; lia]).
    assert (0 < Z.pos mx * 2 ^ (ex - ez)) by (apply Z.mul_pos_pos; [lia | apply Z.pow_pos_nonneg; lia]).
    destruct (Z.pos mx * 2 ^ (ex - ez) + Z.pos my * 2 ^ (ey - ez)) as [|p|p] eqn:ED; [lia| |lia].
    cbn [binary_normalize]. apply round_ge; [exact Hx | lia | lia].
Qed.

(** The order on canonical numbers is the order of values. *)
Lemma fle_value m1 e1 m2 e2 :
  bounded fprec femax m1 e1 = true -> bounded fprec femax m2 e2 = true ->
  fle (S754_finite false m1 e1) (S754_finite false m2 e2) ->
  Z.pos m1 * 2 ^ (e1 - Z.min e1 e2) <= Z.pos m2 * 2 ^ (e2 - Z.min e1 e2).
Proof.
  intros (H1 & _ & Hl1 & _)%bounded_spec (H2 & _ & _ & Hn2)%bounded_spec Hle%fle_key.
  simpl in Hle. destruct (decide (e1 = e2)) as [->|Hne].
  - rewrite Z.min_id, Z.sub_diag. lia.
  - assert (e1 < e2) by lia. rewrite Z.min_l by lia. rewrite Z.sub_diag, Z.mul_1_r.
    specialize (Hn2 ltac:(lia)). replace (e2 - e1) with (1 + (e2 - e1 - 1)) by lia.
    rewrite Z.pow_add_r by lia. assert (1 <= 2 ^ (e2 - e1 - 1)) by (apply (Z.pow_le_mono_r 2 0); lia).
    change (2 ^ 1) with 2. change (2 ^ 53) with (2 * 2 ^ 52) in Hl1. nia.
Qed.

(** Taking away no more than there is leaves a non-negative number. *)
Lemma fsub_nonneg x y :
  fvalid x = true -> fvalid y = true -> nonneg_finite x = true -> nonneg_finite y = true ->
  fle y x -> fle f0 (fsub x y).
Proof.
  destruct x as [sx| | |[] mx ex]; try done; destruct y as [sy| | |[] my ey]; try done;
    intros Hx Hy _ _ Hle.
  - destruct sx, sy; reflexivity.
  - unfold fsub, SFsub. cbn [cond_Zopp].
    rewrite !shl_align_value by lia. rewrite (Z.min_comm ex ey).
    pose proof (fle_value my ey mx ex Hy Hx Hle) as Hv. set (ez := Z.min ey ex) in *.
    destruct (Z.pos mx * 2 ^ (ex - ez) - Z.pos my * 2 ^ (ey - ez)) as [|p|p] eqn:ED; [reflexivity| |lia].
    cbn [binary_normalize]. pose proof (binary_round_sign false p ez) as Hs.
    destruct (binary_round fprec femax false p ez); try done; by rewrite Hs.
Qed.

(** ** Results are data of the format *)

(** What [binary_round_aux] builds from a rounded significand [r] at exponent [E]. *)
Definition settle (r E : Z) : float :=
  let '(mrs, e) := shr_fexp fprec femax r E loc_Exact in
  match shr_m mrs with
  | Z0 => S754_zero false
  | Zpos m => if e <=? femax - fprec then S754_finite false m e else S754_infinity false
  | _ => S754_nan
  end.

Lemma bounded_intro m e :
  -1074 <= e <= 971 -> Z.pos m < 2 ^ 53 -> (e = -1074 \/ 2 ^ 52 <= Z.pos m) ->
  bounded fprec femax m e = true.
Proof.
  intros He Hlt Hn. unfold bounded, canonical_mantissa.
  rewrite andb_true_iff, Z.eqb_eq, Z.leb_le, fexp64_eq. change (femax - fprec) with 971.
  pose proof (digits2_pos_le m 53 ltac:(lia) Hlt). split; [|lia].
  destruct Hn as [->|Hn]; [lia|]. pose proof (digits2_pos_ge m 52 ltac:(lia) Hn). lia.
Qed.

Lemma settle_valid r E :
  -1074 <= E -> 0 <= r <= 2 ^ 53 -> (E = -1074 \/ 2 ^ 52 <= r) -> fvalid (settle r E) = true.
Proof.
  intros HE Hr Hn. unfold settle. pose proof (second_shift r E HE Hr) as Hs.
  destruct (shr_fexp fprec femax r E loc_Exact) as [mrs e]. change (femax - fprec) with 971.
  destruct Hs as [(H1 & -> & ->)|(H1 & -> & ->)].
  - destruct r as [|p|p]; [done| |lia]. destruct (Z.leb_spec E 971); [|done].
    cbn. apply bounded_intro; lia.
  - change (2 ^ 52) with 4503599627370496 in *. destruct (Z.leb_spec (E + 1) 971); [|done].
    cbn -[bounded]. apply bounded_intro; lia.
Qed.

(** A significand with enough digits before rounding has 53 afterwards. *)
Lemma rounded_bounds mz n mrs E D :
  0 < mz -> 0 <= n -> shr_inv mz n mrs ->
  mz <= 2 ^ 53 * 2 ^ n -> (E = -1074 \/ (2 ^ (D - 1) <= mz /\ D - n = 53)) ->
  let r := round_nearest_even (shr_m mrs) (loc_of_shr_record mrs) in
  0 <= r <= 2 ^ 53 /\ (E = -1074 \/ 2 ^ 52 <= r).
Proof.
  intros Hm Hn Hinv Hup Hlo r.
  pose proof (round_between mz n mrs (2 ^ 53) ltac:(lia) Hn Hinv) as [H1 H2]. fold r in H1, H2.
  assert (0 < 2 ^ n) by (apply Z.pow_pos_nonneg; lia).
  assert (0 <= mz / 2 ^ n) by (apply Z.div_pos; lia). split; [auto with lia|].
  destruct Hlo as [HE|[Hd HD]]; [by left|]. right. eapply Z.le_trans; [|exact H1].
  apply Z.div_le_lower_bound; [lia|]. rewrite <- Z.pow_add_r by lia.
  by replace (n + 52) with (D - 1) by lia.
Qed.

Lemma binary_round_valid d e : fvalid (binary_round fprec femax false d e) = true.
Proof.
  destruct (binary_round_first d e _ eq_refl) as (n & mrs & mz & -> & Hinv & Hmz & Emz & ->).
  set (E := fexp64 (Z.pos (digits2_pos d) + e)) in *.
  assert (E = Z.max (Z.pos (digits2_pos d) + e - 53) (-1074)) as HE by reflexivity.
  pose proof (digits2_pos_bounds d) as [Hb _].
  assert (0 < 2 ^ Z.max 0 (e - E)) by (apply Z.pow_pos_nonneg; lia).
  destruct (rounded_bounds mz (Z.max 0 (E - e)) mrs E
              (Z.pos (digits2_pos d) + Z.max 0 (e - E))) as [Hr Hn]; [nia | lia | done | | |].
  - rewrite Emz. apply scaled_digits. lia.
  - destruct (decide (E = -1074)) as [|Hne]; [by left|right]. split; [|lia].
    rewrite Emz. replace (Z.pos (digits2_pos d) + Z.max 0 (e - E) - 1)
      with (Z.pos (digits2_pos d) - 1 + Z.max 0 (e - E)) by lia.
    rewrite Z.pow_add_r by lia. nia.
  - apply settle_valid; [lia | done | done].
Qed.

Lemma fadd_valid x y :
  fvalid x = true -> fvalid y = true -> nonneg_finite x = true -> nonneg_finite y = true ->
  fvalid (fadd x y) = true.
Proof.
  destruct x as [sx| | |[] mx ex]; try done; destruct y as [sy| | |[] my ey]; try done; intros Hx Hy _ _.
  - by destruct sx, sy.
  - unfold fadd, SFadd. cbn [cond_Zopp]. rewrite !shl_align_value by lia. set (ez := Z.min ex ey).
    assert (0 < Z.pos my * 2 ^ (ey - ez)) by (apply Z.mul_pos_pos; [lia | apply Z.pow_pos_nonneg; lia]).
    assert (0 < Z.pos mx * 2 ^ (ex - ez)) by (apply Z.mul_pos_pos; [lia | apply Z.pow_pos_nonneg; lia]).
    destruct (Z.pos mx * 2 ^ (ex - ez) + Z.pos my * 2 ^ (ey - ez)) as [|p|p] eqn:E; [lia| |lia].
    apply binary_round_valid.
Qed.

Lemma fsub_valid x y :
  fvalid x = true -> fvalid y = true -> nonneg_finite x = true -> nonneg_finite y = true ->
  fle y x -> fvalid (fsub x y) = true.
Proof.
  destruct x as [sx| | |[] mx ex]; try done; destruct y as [sy| | |[] my ey]; try done;
    intros Hx Hy _ _ Hle; [by destruct sx, sy|].
  unfold fsub, SFsub. cbn [cond_Zopp]. rewrite !shl_align_value by lia. rewrite (Z.min_comm ex ey).
  pose proof (fle_value my ey mx ex Hy Hx Hle) as Hv.
  set (ez := Z.min ey ex) in *.
  destruct (Z.pos mx * 2 ^ (ex - ez) - Z.pos my * 2 ^ (ey - ez)) as [|p|p] eqn:E; [done| |lia].
  apply binary_round_valid.
Qed.

Lemma fmul_settle mx ex my ey :
  bounded fprec femax mx ex = true -> bounded fprec femax my ey = true ->
  exists r E, fmul (S754_finite false mx ex) (S754_finite false my ey) = settle r E /\
    -1074 <= E /\ 0 <= r <= 2 ^ 53 /\ (E = -1074 \/ 2 ^ 52 <= r).
Proof.
  intros Hx Hy. apply bounded_spec in Hx as (Hcx & _ & Hx1 & Hx2). apply bounded_spec in Hy as (Hcy & _ & Hy1 & Hy2).
  unfold fmul, SFmul, binary_round_aux, shr_fexp at 1. cbn [xorb].
  set (M := Z.pos (mx * my)). set (e := ex + ey). set (D := Zdigits2 M).
  assert (fexp64 (D + e) = Z.max (D + e - 53) (-1074)) as HE by reflexivity. set (E := fexp64 (D + e)) in *.
  pose proof (digits2_pos_bounds (mx * my)) as [Hb1 Hb2]. fold M in Hb1, Hb2.
  change (Z.pos (digits2_pos (mx * my))) with D in Hb1, Hb2.
  assert (e <= E) as HeE.
  { destruct (decide (-1074 < ex)), (decide (-1074 < ey)); [| | |lia].
    all: assert (53 <= D); [|lia]; apply (digits2_pos_ge (mx * my) 52); lia. }
  destruct (shr_exact M e (E - e) ltac:(lia)) as [Hinv He2].
  destruct (shr (shr_record_of_loc M loc_Exact) e (E - e)) as [mrs e2]. cbn in Hinv, He2.
  replace e2 with E by lia. rewrite Z.max_r in Hinv by lia.
  destruct (rounded_bounds M (E - e) mrs E D) as [Hr Hn]; [lia | lia | done | | |].
  - rewrite <- Z.pow_add_r by lia. eapply Z.le_trans; [apply Z.lt_le_incl, Hb2|]. apply Z.pow_le_mono_r; lia.
  - destruct (decide (E = -1074)); [by left | right]. split; [done | lia].
  - eexists _, E. split; [reflexivity|]. split; [lia | done].
Qed.

(** A settled number is [+0.0], positive, or overflowed. *)
Lemma settle_nonneg r E : -1074 <= E -> 0 <= r <= 2 ^ 53 -> fle f0 (settle r E).
Proof.
  intros HE Hr. unfold settle. pose proof (second_shift r E HE Hr) as Hs.
  destruct (shr_fexp fprec femax r E loc_Exact) as [mrs e].
  assert (0 <= shr_m mrs) by (destruct Hs as [(? & -> & _)|(? & -> & _)]; lia).
  destruct (shr_m mrs); [done| |lia]. by destruct (e <=? _).
Qed.

Lemma fmul_nonneg_valid x y :
  fvalid x = true -> fvalid y = true -> nonneg_finite x = true -> nonneg_finite y = true ->
  fvalid (fmul x y) = true /\ fle f0 (fmul x y).
Proof.
  destruct x as [sx| | |[] mx ex]; try done; destruct y as [sy| | |[] my ey]; try done; intros Hx Hy _ _.
  destruct (fmul_settle mx ex my ey Hx Hy) as (r & E & -> & HE & Hr & Hn).
  split; [by apply settle_valid | by apply settle_nonneg].
Qed.

Lemma nonneg_cases x : fle f0 x -> nonneg_finite x = true \/ x = S754_infinity false.
Proof. destruct x as [|[]| |[] m e]; try done; auto. Qed.

Lemma below_finite x y : fle f0 x -> fle x y -> nonneg_finite y = true -> nonneg_finite x = true.
Proof.
  intros H0 Hle Hy. destruct (nonneg_cases x H0) as [? | ->]; [done|].
  destruct y as [| | |[] m e]; done.
Qed.

(** ** Quotients *)

Lemma iter_shr_m p : forall mrs, 0 <= shr_m mrs ->
  shr_m (SpecFloat.iter_pos shr_1 p mrs) = shr_m mrs / 2 ^ Z.pos p.
Proof.
  assert (forall mrs q, 0 <= shr_m mrs / 2 ^ Z.pos q \/ shr_m mrs < 0) as Hd.
  { intros mrs q. destruct (Z.lt_ge_cases (shr_m mrs) 0); [by right|left]. apply Z.div_pos; [lia|]. apply Z.pow_pos_nonneg; lia. }
  assert (forall a x y, 0 <= a -> a / 2 ^ Z.pos x / 2 ^ Z.pos y = a / 2 ^ (Z.pos x + Z.pos y)) as Hdd.
  { intros a x y Ha. rewrite Z.div_div, <- Z.pow_add_r by (lia || apply Z.pow_nonzero; lia || apply Z.pow_pos_nonneg; lia). done. }
  induction p as [p IH|p IH|]; intros mrs Hm; cbn [SpecFloat.iter_pos].
  - destruct (shr_1_spec mrs Hm) as [E1 _]. assert (0 <= shr_m (shr_1 mrs)) as H1 by (rewrite E1; apply Z.div_pos; lia).
    rewrite IH, IH; [|done|rewrite IH by done; destruct (Hd (shr_1 mrs) p); lia].
    rewrite Hdd by done. rewrite E1. change 2 with (2 ^ Z.pos 1) at 1.
    rewrite Z.div_div, <- Z.pow_add_r by (lia || apply Z.pow_nonzero; lia || apply Z.pow_pos_nonneg; lia).
    f_equal. f_equal. lia.
  - rewrite IH, IH; [|done|rewrite IH by done; destruct (Hd mrs p); lia]. rewrite Hdd by done. f_equal. f_equal. lia.
  - by destruct (shr_1_spec mrs Hm) as [-> _].
Qed.

Lemma shr_quotient M e n l : 0 <= M -> 0 <= n ->
  shr_m (shr (shr_record_of_loc M l) e n).1 = M / 2 ^ n /\ (shr (shr_record_of_loc M l) e n).2 = e + n.
Proof.
  intros HM Hn. assert (shr_m (shr_record_of_loc M l) = M) as E by by destruct l as [|[]].
  destruct n as [|p|p]; cbn [shr fst snd]; [by rewrite E, Z.div_1_r, Z.add_0_r| |lia].
  rewrite iter_shr_m by (by rewrite E). by rewrite E.
Qed.

Lemma round_one_up m l : 0 <= m -> m <= round_nearest_even m l <= m + 1.
Proof. intros Hm. destruct l as [|[]]; cbn; try lia. destruct (Z.even m); lia. Qed.

(** Rounding at a coarser exponent gives a datum of the format, whatever was cut off. *)
Lemma binary_round_aux_valid s M e l : 0 <= M -> e <= fexp64 (Zdigits2 M + e) ->
  fvalid (binary_round_aux fprec femax s M e l) = true.
Proof.
  intros HM He. set (E := fexp64 (Zdigits2 M + e)) in *. set (n := E - e).
  assert (0 <= n) as Hn by (unfold n; lia).
  unfold binary_round_aux, shr_fexp at 1. fold E n. destruct (shr_quotient M e n l HM Hn) as [Em Ee].
  destruct (shr (shr_record_of_loc M l) e n) as [mrs e1]. cbn in Em, Ee. replace e1 with E by lia.
  set (r := round_nearest_even (shr_m mrs) (loc_of_shr_record mrs)).
  assert (0 <= M / 2 ^ n) as Hq by (apply Z.div_pos; [lia|apply Z.pow_pos_nonneg; lia]).
  pose proof (round_one_up (shr_m mrs) (loc_of_shr_record mrs) ltac:(lia)) as Hr. fold r in Hr.
  assert (E = Z.max (Zdigits2 M + e - 53) (-1074)) as HE by reflexivity.
  assert (0 <= r <= 2 ^ 53 /\ (E = -1074 \/ 2 ^ 52 <= r)) as [Hr1 Hr2].
  { destruct M as [|m|m]; [|pose proof (digits2_pos_bounds m) as [Hb1 Hb2]|lia].
    - rewrite Zdiv_0_l in *. cbn in HE. split; [lia|]. left. lia.
    - cbn [Zdigits2] in HE. set (D := Z.pos (digits2_pos m)) in *.
      assert (Z.pos m / 2 ^ n < 2 ^ 53).
      { apply Z.div_lt_upper_bound; [apply Z.pow_pos_nonneg; lia|]. rewrite <- Z.pow_add_r by lia.
        eapply Z.lt_le_trans; [exact Hb2|]. apply Z.pow_le_mono_r; lia. }
      split; [lia|]. destruct (decide (E = -1074)); [by left|right].
      assert (2 ^ 52 <= Z.pos m / 2 ^ n); [|lia]. apply Z.div_le_lower_bound; [apply Z.pow_pos_nonneg; lia|].
      rewrite <- Z.pow_add_r by lia. by replace (n + 52) with (D - 1) by lia. }
  pose proof (settle_valid r E ltac:(lia) Hr1 Hr2) as Hv. unfold settle in Hv.
  destruct (shr_fexp fprec femax r E loc_Exact) as [mrs2 e2]. destruct (shr_m mrs2); try done.
  destruct (e2 <=? femax - fprec); [exact Hv|done].
Qed.

(** A quotient is always a datum of the format. *)
Lemma fdiv_valid x y : fvalid (fdiv x y) = true.
Proof.
  destruct x as [sx|sx| |sx m1 e1], y as [sy|sy| |sy m2 e2]; try done.
  unfold fdiv, SFdiv, SFdiv_core_binary.
  set (d1 := Zdigits2 (Z.pos m1)). set (d2 := Zdigits2 (Z.pos m2)).
  set (F := fexp64 (d1 + e1 - (d2 + e2))). set (e' := Z.min F (e1 - e2)). set (s := e1 - e2 - e').
  assert (F = Z.max (d1 + e1 - (d2 + e2) - 53) (-1074)) as HF by reflexivity.
  assert (0 <= s) as Hs by (unfold s, e'; lia).
  pose proof (digits2_pos_bounds m1) as [Ha1 Ha2]. pose proof (digits2_pos_bounds m2) as [Hb1 Hb2].
  change (Z.pos (digits2_pos m1)) with d1 in *. change (Z.pos (digits2_pos m2)) with d2 in *.
  assert (match s with Zpos _ => Z.shiftl (Z.pos m1) s | Z0 => Z.pos m1 | Zneg _ => 0 end = Z.pos m1 * 2 ^ s) as ->.
  { destruct s as [|p|p]; [lia| |lia]. apply Z.shiftl_mul_pow2. lia. }
  pose proof (Z.pow_pos_nonneg 2 s ltac:(lia) Hs) as Hps.
  destruct (Z.div_eucl (Z.pos m1 * 2 ^ s) (Z.pos m2)) as [q r] eqn:Eq.
  assert (q = Z.pos m1 * 2 ^ s / Z.pos m2) as -> by (unfold Z.div; by rewrite Eq).
  assert (0 <= Z.pos m1 * 2 ^ s / Z.pos m2) as Hq by (apply Z.div_pos; lia).
  apply binary_round_aux_valid; [done|].
  set (Q := Z.pos m1 * 2 ^ s / Z.pos m2) in *.
  assert (d1 = Z.pos (digits2_pos m1) /\ d2 = Z.pos (digits2_pos m2)) as [Hd1 Hd2] by done.
  destruct (Z.lt_ge_cases (d1 + s - d2 - 1) 0) as [Hlt|Hge].
  - rewrite fexp64_eq. unfold e', s in *. lia.
  - assert (2 ^ (d1 + s - d2 - 1) <= Q) as HQ.
    { apply Z.div_le_lower_bound; [lia|]. eapply Z.le_trans; [|apply Z.mul_le_mono_nonneg_r; [lia|exact Ha1]].
      rewrite <- Z.pow_add_r by lia. replace (d1 - 1 + s) with (d2 + (d1 + s - d2 - 1)) by lia.
      rewrite Z.pow_add_r by lia. apply Z.mul_le_mono_nonneg_r; [apply Z.pow_nonneg; lia|lia]. }
    assert (d1 + s - d2 <= Zdigits2 Q) as HD.
    { pose proof (Z.pow_pos_nonneg 2 (d1 + s - d2 - 1) ltac:(lia) Hge). destruct Q as [|m|m]; [lia| |lia].
      cbn [Zdigits2]. pose proof (digits2_pos_ge m (d1 + s - d2 - 1) Hge HQ). lia. }
    rewrite fexp64_eq. unfold e', s in *. lia.
Qed.

Lemma signed_nonneg x : signed false x -> fle f0 x.
Proof. by destruct x as [|[]| |[]]. Qed.

Lemma int_truediv_nonneg n d : 0 <= n -> fle f0 (int_truediv n d) /\ fvalid (int_truediv n d) = true.
Proof.
  destruct n as [|a|a]; intros Hn; [done| |lia].
  split; [apply signed_nonneg, (fdiv_signed false a 0 false d 0) | apply fdiv_valid].
Qed.

(** ** Products *)

(** A product is the exact product of the significands, rounded. *)
Lemma fmul_round mx ex my ey :
  bounded fprec femax mx ex = true -> bounded fprec femax my ey = true ->
  fmul (S754_finite false mx ex) (S754_finite false my ey) = binary_round fprec femax false (mx * my) (ex + ey).
Proof.
  intros (Hcx & _ & Hx1 & Hx2)%bounded_spec (Hcy & _ & Hy1 & Hy2)%bounded_spec.
  unfold fmul, SFmul, binary_round. cbn [xorb].
  assert (ex + ey <= fexp64 (Z.pos (digits2_pos (mx * my)) + (ex + ey))) as He.
  { rewrite fexp64_eq. destruct (decide (-1074 < ex)), (decide (-1074 < ey)); [| | |lia].
    all: assert (53 <= Z.pos (digits2_pos (mx * my))); [|lia]; apply (digits2_pos_ge (mx * my) 52); lia. }
  unfold shl_align. change (fexp fprec femax) with fexp64.
  destruct (fexp64 (Z.pos (digits2_pos (mx * my)) + (ex + ey)) - (ex + ey)) eqn:E; [done | done | lia].
Qed.

(** Multiplying by a number between 1 and [2^53] does not decrease. *)
Lemma fmul_ge x my ey :
  fvalid x = true -> nonneg_finite x = true -> bounded fprec femax my ey = true ->
  ey <= 0 -> 2 ^ (- ey) <= Z.pos my -> fle x (fmul x (S754_finite false my ey)).
Proof.
  destruct x as [[]| | |[] mx ex]; try done. intros Hx _ Hy He Hm.
  rewrite fmul_round by done. apply round_ge; [done | lia |].
  replace (ex - (ex + ey)) with (- ey) by lia. rewrite Pos2Z.inj_mul. apply Z.mul_le_mono_nonneg_l; lia.
Qed.

