(* ===== verification/FloatValue.v ===== *)
(** * Values of floats

    The finite non-negative floats as multiples of the smallest one: their order is
    the order of these integers, rounding a number of the format changes nothing,
    integers below [2^53] are exact with their differences, and interpolation
    between two of them stays between them. *)

From S2P Require Import Prelude PyFloat FloatRound.

(** ** Values

    Every finite number is a multiple of [2^-1074]: [val] counts them. *)

Definition val (x : float) : Z :=
  match x with S754_finite _ m e => Z.pos m * 2 ^ (e + 1074) | _ => 0 end.

Lemma val_scaled m e k : -1074 <= k <= e -> Z.pos m * 2 ^ (e + 1074) = Z.pos m * 2 ^ (e - k) * 2 ^ (k + 1074).
Proof. intros H. rewrite <- Z.mul_assoc, <- Z.pow_add_r by lia. do 2 f_equal. lia. Qed.

Lemma val_nonneg x : nonneg_finite x = true -> 0 <= val x.
Proof. destruct x as [| | |[] m e]; try done. intros _. cbn. pose proof (Z.pow_nonneg 2 (e + 1074)). lia. Qed.

Lemma fle_val x y : fvalid x = true -> fvalid y = true -> nonneg_finite x = true -> nonneg_finite y = true ->
  fle x y <-> val x <= val y.
Proof.
  intros Hx Hy Nx Ny. pose proof (val_nonneg x Nx) as Px. pose proof (val_nonneg y Ny) as Py.
  destruct x as [sx| | |[] mx ex]; try done; destruct y as [sy| | |[] my ey]; try done.
  all: try (pose proof (proj1 (bounded_spec _ _ Hx)) as Ex); try (pose proof (proj1 (bounded_spec _ _ Hy)) as Ey).
  all: try (assert (0 < 2 ^ (ex + 1074)) by (apply Z.pow_pos_nonneg; lia)).
  all: try (assert (0 < 2 ^ (ey + 1074)) by (apply Z.pow_pos_nonneg; lia)); cbn [val] in *.
  - split; [by destruct sy | nia].
  - rewrite (val_scaled mx ex (Z.min ex ey)), (val_scaled my ey (Z.min ex ey)) by lia.
    assert (0 < 2 ^ (Z.min ex ey + 1074)) by (apply Z.pow_pos_nonneg; lia). split.
    + intros Hv%fle_value; [|done..]. nia.
    + intros Hv. destruct (fle_total (S754_finite false mx ex) (S754_finite false my ey)) as [?|Hle]; [done..|].
      apply fle_value in Hle as Hv'; [|done..]. rewrite (Z.min_comm ey ex) in Hv'.
      assert (Z.pos mx * 2 ^ (ex - Z.min ex ey) = Z.pos my * 2 ^ (ey - Z.min ex ey)) as Heq by nia.
      apply fle_finite. apply fle_key in Hle. cbn in Hle. destruct (decide (ex = ey)) as [->|Hne].
      { right. split; [done|]. rewrite Z.min_id, Z.sub_diag in Heq. lia. }
      exfalso. assert (ey < ex) by lia. rewrite Z.min_r, Z.sub_diag in Heq by lia.
      pose proof (bounded_spec _ _ Hx) as (_ & _ & _ & H52). pose proof (bounded_spec _ _ Hy) as (_ & _ & H53 & _).
      specialize (H52 ltac:(lia)). assert (2 <= 2 ^ (ex - ey)) by (apply (Z.pow_le_mono_r 2 1); lia).
      change (2 ^ 53) with (2 * 2 ^ 52) in H53. nia.
Qed.

(** A value of at most 53 bits has a canonical form. *)
Lemma canonical_form d e : Z.pos d < 2 ^ 53 -> -1074 <= e <= 971 ->
  exists m x, bounded fprec femax m x = true /\ x <= e /\ Z.pos m = Z.pos d * 2 ^ (e - x).
Proof.
  intros Hd He. set (x := Z.max (Z.pos (digits2_pos d) + e - 53) (-1074)).
  pose proof (digits2_pos_le d 53 ltac:(lia) Hd) as H53. pose proof (digits2_pos_bounds d) as [Hl Hu].
  assert (x <= e) as Hx by lia.
  assert (0 < 2 ^ (e - x)) as Hp by (apply Z.pow_pos_nonneg; lia).
  destruct (Z.pos d * 2 ^ (e - x)) as [|m|m] eqn:Em; [nia| |nia]. exists m, x. split; [|done].
  apply bounded_intro; [lia | |].
  - rewrite <- Em. eapply Z.lt_le_trans; [apply Z.mul_lt_mono_pos_r; [exact Hp | exact Hu]|].
    rewrite <- Z.pow_add_r by lia. apply Z.pow_le_mono_r; lia.
  - destruct (decide (x = -1074)); [by left|right]. rewrite <- Em.
    eapply Z.le_trans; [|apply Z.mul_le_mono_nonneg_r; [lia | exact Hl]].
    rewrite <- Z.pow_add_r by lia. apply Z.pow_le_mono_r; lia.
Qed.

(** Rounding a number of the format gives it back. *)
Lemma binary_round_exact d e m x : bounded fprec femax m x = true -> x <= e -> Z.pos m = Z.pos d * 2 ^ (e - x) ->
  binary_round fprec femax false d e = S754_finite false m x.
Proof.
  intros Hb Hx Hm. pose proof (bounded_spec _ _ Hb) as (Hcan & Hmax & Hlt & _).
  assert (Z.pos (digits2_pos m) + x = Z.pos (digits2_pos d) + e) as Hdig.
  { apply Z.le_antisymm.
    - apply digits_mono with (m := d) (x := e); [lia | by rewrite Hm].
    - apply digits_mono_ge with (m := d) (x := e); [lia | by rewrite Hm]. }
  destruct (binary_round_first d e _ eq_refl) as (n & mrs & mz & -> & Hinv & Hmz & Emz & ->).
  rewrite fexp64_eq in *. rewrite <- Hdig, Hcan in *.
  rewrite (Z.max_l 0 (x - e)) in * by lia. rewrite Z.max_r in Emz by lia. rewrite <- Hm in Emz.
  destruct (round_between mz 0 mrs (Z.pos m) Hmz ltac:(lia) Hinv) as [Hlo Hup].
  change (2 ^ 0) with 1 in *. rewrite Z.div_1_r in Hlo. specialize (Hup ltac:(lia)).
  set (r := round_nearest_even (shr_m mrs) (loc_of_shr_record mrs)) in *. replace r with (Z.pos m) by lia.
  pose proof (second_shift (Z.pos m) x ltac:(lia) ltac:(lia)) as Hs.
  destruct (shr_fexp fprec femax (Z.pos m) x loc_Exact) as [mrs2 e2].
  destruct Hs as [(_ & -> & ->)|(? & _)]; [|lia]. by rewrite (proj2 (Z.leb_le _ _)).
Qed.

Lemma round_val_exact d e : Z.pos d < 2 ^ 53 -> -1074 <= e <= 971 ->
  nonneg_finite (binary_round fprec femax false d e) = true /\
  val (binary_round fprec femax false d e) = Z.pos d * 2 ^ (e + 1074).
Proof.
  intros Hd He. destruct (canonical_form d e Hd He) as (m & x & Hb & Hx & Hm).
  rewrite (binary_round_exact d e m x Hb Hx Hm). split; [done|]. cbn.
  pose proof (proj1 (bounded_spec _ _ Hb)). rewrite Hm, <- (val_scaled d e x) by lia. done.
Qed.

Lemma round_val_le d e y : -1074 <= e <= 971 -> fvalid y = true -> nonneg_finite y = true ->
  Z.pos d * 2 ^ (e + 1074) <= val y -> fle (binary_round fprec femax false d e) y.
Proof.
  intros He Hy Ny Hle. assert (0 < 2 ^ (e + 1074)) as Hp by (apply Z.pow_pos_nonneg; lia).
  destruct y as [sy| | |[] m x]; try done; cbn [val] in Hle; [nia|].
  pose proof (bounded_spec _ _ Hy) as (Hcan & Hmax & Hlt & _). destruct (Z.le_gt_cases e x) as [Hex|Hex].
  - apply round_le; [done|done|]. rewrite (val_scaled m x e) in Hle by lia.
    by apply Z.mul_le_mono_pos_r in Hle.
  - assert (1 <= 2 ^ (e - x)) by (apply (Z.pow_le_mono_r 2 0); lia).
    assert (Z.pos d < 2 ^ 53) as Hd.
    { rewrite (val_scaled d e x) in Hle by lia.
      apply Z.mul_le_mono_pos_r in Hle; [nia | apply Z.pow_pos_nonneg; lia]. }
    destruct (round_val_exact d e Hd He) as [Hn Hv].
    apply fle_val; [apply binary_round_valid | done | done | done |]. by rewrite Hv.
Qed.

(** ** Integers *)

Definition MAX_INT : Z := 2 ^ 53.

Lemma of_Z_spec n : 0 <= n < MAX_INT ->
  fvalid (float_of_Z n) = true /\ nonneg_finite (float_of_Z n) = true /\ val (float_of_Z n) = n * 2 ^ 1074.
Proof.
  destruct n as [|p|p]; [done| |lia]. intros Hn. unfold float_of_Z. cbn [binary_normalize].
  split; [apply binary_round_valid|]. by apply (round_val_exact p 0 ltac:(unfold MAX_INT in Hn; lia)).
Qed.

Lemma of_Z_le a b : 0 <= a -> a <= b -> b < MAX_INT -> fle (float_of_Z a) (float_of_Z b).
Proof.
  intros Ha Hab Hb. destruct (of_Z_spec a ltac:(lia)) as (? & ? & Va). destruct (of_Z_spec b ltac:(lia)) as (? & ? & Vb).
  apply fle_val; [done..|]. rewrite Va, Vb. apply Z.mul_le_mono_nonneg_r; [by apply Z.pow_nonneg | done].
Qed.

(** The exponents that [fadd] and [fsub] work at. *)
Lemma exponent_range m e : bounded fprec femax m e = true -> -1074 <= e <= 971.
Proof. intros (? & ? & _)%bounded_spec. lia. Qed.

Lemma fadd_val_le x y z : fvalid x = true -> fvalid y = true -> fvalid z = true ->
  nonneg_finite x = true -> nonneg_finite y = true -> nonneg_finite z = true ->
  val x + val y <= val z -> fle (fadd x y) z.
Proof.
  intros Hx Hy Hz Nx Ny Nz Hle. pose proof (val_nonneg x Nx). pose proof (val_nonneg y Ny).
  destruct x as [sx| | |[] mx ex]; try done; destruct y as [sy| | |[] my ey]; try done; cbn [val] in *.
  - apply (fle_val (fadd (S754_zero sx) (S754_zero sy)) z); [by destruct sx, sy | done | by destruct sx, sy | done |].
    by destruct sx, sy.
  - change (fle (S754_finite false my ey) z). apply fle_val; [done..|]. cbn [val]. lia.
  - change (fle (S754_finite false mx ex) z). apply fle_val; [done..|]. cbn [val]. lia.
  - pose proof (exponent_range _ _ Hx). pose proof (exponent_range _ _ Hy).
    unfold fadd, SFadd. cbn [cond_Zopp]. rewrite !shl_align_value by lia.
    rewrite (val_scaled mx ex (Z.min ex ey)), (val_scaled my ey (Z.min ex ey)), <- Z.mul_add_distr_r in Hle by lia.
    set (ez := Z.min ex ey) in *.
    assert (0 < Z.pos my * 2 ^ (ey - ez)) by (apply Z.mul_pos_pos; [lia | apply Z.pow_pos_nonneg; lia]).
    assert (0 < Z.pos mx * 2 ^ (ex - ez)) by (apply Z.mul_pos_pos; [lia | apply Z.pow_pos_nonneg; lia]).
    destruct (Z.pos mx * 2 ^ (ex - ez) + Z.pos my * 2 ^ (ey - ez)) as [|p|p] eqn:E; [lia| |lia].
    cbn [binary_normalize]. apply round_val_le; [lia | done..].
Qed.

Lemma fsub_val_le x y z : fvalid x = true -> fvalid y = true -> fvalid z = true ->
  nonneg_finite x = true -> nonneg_finite y = true -> nonneg_finite z = true ->
  val y <= val x -> val x - val y <= val z -> fle (fsub x y) z.
Proof.
  intros Hx Hy Hz Nx Ny Nz Hyx Hle. pose proof (val_nonneg z Nz).
  destruct x as [sx| | |[] mx ex]; try done; destruct y as [sy| | |[] my ey]; try done; cbn [val] in *.
  - apply (fle_val (fsub (S754_zero sx) (S754_zero sy)) z); [by destruct sx, sy | done | by destruct sx, sy | done |].
    by destruct sx, sy.
  - exfalso. assert (0 < 2 ^ (ey + 1074)); [|nia]. pose proof (exponent_range _ _ Hy). apply Z.pow_pos_nonneg; lia.
  - change (fle (S754_finite false mx ex) z). apply fle_val; [done..|]. cbn [val]. lia.
  - pose proof (exponent_range _ _ Hx). pose proof (exponent_range _ _ Hy).
    unfold fsub, SFsub. cbn [cond_Zopp]. rewrite !shl_align_value by lia.
    rewrite (val_scaled mx ex (Z.min ex ey)), (val_scaled my ey (Z.min ex ey)) in * by lia.
    rewrite <- Z.mul_sub_distr_r in Hle. set (ez := Z.min ex ey) in *.
    assert (0 < 2 ^ (ez + 1074)) by (apply Z.pow_pos_nonneg; lia).
    destruct (Z.pos mx * 2 ^ (ex - ez) - Z.pos my * 2 ^ (ey - ez)) as [|p|p] eqn:E; [|cbn [binary_normalize]|nia].
    + apply fle_val; [done..|]. cbn [val binary_normalize]. lia.
    + apply round_val_le; [lia | done..].
Qed.

Lemma pow_split e : -1074 <= e <= 0 -> 2 ^ 1074 = 2 ^ (- e) * 2 ^ (e + 1074).
Proof. intros He. rewrite <- Z.pow_add_r by lia. f_equal. lia. Qed.

(** Multiplying by a number of the unit interval does not increase. *)
Lemma fmul_le_one t x : fvalid t = true -> fle f0 t -> fle t f1 -> fvalid x = true -> nonneg_finite x = true ->
  fle (fmul t x) x.
Proof.
  intros Ht H0 H1 Hx Nx. pose proof (below_finite t f1 H0 H1 eq_refl) as Nt.
  apply fle_val in H1; [|done..].
  destruct t as [st| | |[] mt et]; try done; destruct x as [sx| | |[] mx ex]; try done.
  - rewrite fmul_round by done. pose proof (exponent_range _ _ Ht).
    change (val f1) with (2 ^ 1074) in H1. cbn [val] in H1.
    assert (et <= 0) as He.
    { destruct (Z.le_gt_cases et 0); [done|]. pose proof (Z.pow_lt_mono_r 2 1074 (et + 1074) eq_refl ltac:(lia) ltac:(lia)).
      pose proof (Z.mul_le_mono_nonneg_r 1 (Z.pos mt) (2 ^ (et + 1074)) ltac:(by apply Z.pow_nonneg) ltac:(lia)). lia. }
    apply round_le; [done | lia |]. rewrite Pos2Z.inj_mul, Z.mul_comm.
    apply Z.mul_le_mono_nonneg_l; [lia|]. replace (ex - (et + ex)) with (- et) by lia.
    rewrite (pow_split et) in H1 by lia.
    apply Z.mul_le_mono_pos_r in H1; [done | apply Z.pow_pos_nonneg; lia].
Qed.

(** ** Interpolation *)

Theorem lerp_between (a b : Z) (t : float) : 0 <= a -> a <= b -> b < MAX_INT ->
  fvalid t = true -> fle f0 t -> fle t f1 ->
  let y := fadd (float_of_Z a) (fmul t (fsub (float_of_Z b) (float_of_Z a))) in
  fle (float_of_Z a) y /\ fle y (float_of_Z b).
Proof.
  intros Ha Hab Hb Ht H0 H1 y.
  destruct (of_Z_spec a ltac:(lia)) as (Va & Na & Ea). destruct (of_Z_spec b ltac:(lia)) as (Vb & Nb & Eb).
  destruct (of_Z_spec (b - a) ltac:(lia)) as (Vd & Nd & Ed).
  pose proof (of_Z_le a b Ha Hab Hb) as Hle.
  assert (fle (fsub (float_of_Z b) (float_of_Z a)) (float_of_Z (b - a))) as Hd.
  { apply fsub_val_le; [done..| |]; rewrite Ea, Eb, ?Ed; [|lia]. by apply fle_val in Hle; [lia|..]. }
  pose proof (fsub_valid _ _ Vb Va Nb Na Hle) as Vs. pose proof (fsub_nonneg _ _ Vb Va Nb Na Hle) as Ps.
  pose proof (below_finite _ _ Ps Hd Nd) as Ns.
  pose proof (below_finite t f1 H0 H1 eq_refl) as Nt.
  destruct (fmul_nonneg_valid t _ Ht Vs Nt Ns) as [Vm Pm].
  pose proof (fmul_le_one t _ Ht H0 H1 Vs Ns) as Hm.
  pose proof (fle_trans _ _ _ Hm Hd) as Hmd. pose proof (below_finite _ _ Pm Hmd Nd) as Nm.
  split; [by apply fadd_ge|]. apply fadd_val_le; [done..|].
  apply fle_val in Hmd; [|done..]. rewrite Ea, Eb. rewrite Ed in Hmd. lia.
Qed.

(** ** Floor and ceiling *)

Lemma floor_val x : fvalid x = true -> nonneg_finite x = true -> float_floor x = Some (val x / 2 ^ 1074).
Proof.
  destruct x as [s| | |[] m e]; try done. intros Hx _. pose proof (exponent_range _ _ Hx). cbn [float_floor val].
  f_equal. destruct (Z.leb_spec 0 e).
  - rewrite Z.pow_add_r, Z.mul_assoc, Z.div_mul by lia. done.
  - rewrite (pow_split e) by lia. rewrite Z.div_mul_cancel_r; [done | |]; apply Z.pow_nonzero; lia.
Qed.

Lemma ceil_val x : fvalid x = true -> nonneg_finite x = true -> float_ceil x = Some (- (- val x / 2 ^ 1074)).
Proof.
  destruct x as [s| | |[] m e]; try done; intros Hx _. pose proof (exponent_range _ _ Hx).
  unfold float_ceil. cbn [SFopp negb float_floor fmap option_fmap option_map val]. do 2 f_equal. destruct (Z.leb_spec 0 e).
  - rewrite Z.pow_add_r, Z.mul_assoc, <- Z.mul_opp_l, Z.div_mul by lia. lia.
  - rewrite (pow_split e), <- Z.mul_opp_l by lia. rewrite Z.div_mul_cancel_r; [done | |]; apply Z.pow_nonzero; lia.
Qed.
