(* ===== verification/PyStr.v ===== *)
(** * Python strings

    Python's [str] methods used by the components, on [string] (one [ascii]
    per character).  Text is restricted to code points below 128: [lower] and
    the whitespace test are Python's on that range. *)

From stdpp Require Import pretty.
From stdpp Require Import sorting.
From S2P Require Import Prelude.
From Stdlib Require Import Ascii.

(** ** Characters *)

(** Code point of a character. *)
Definition ord (c : ascii) : Z := Z.of_N (N_of_ascii c).

(** Characters for which [str.isspace] (and [\s] in a [str] pattern) holds. *)
Definition is_space (c : ascii) : bool :=
  ((9 <=? ord c) && (ord c <=? 13)) || ((28 <=? ord c) && (ord c <=? 32)).

Definition is_upper (c : ascii) : bool := (65 <=? ord c) && (ord c <=? 90).
Definition is_lower_az (c : ascii) : bool := (97 <=? ord c) && (ord c <=? 122).
Definition is_digit (c : ascii) : bool := (48 <=? ord c) && (ord c <=? 57).

(** [\w]: letters, digits and underscore. *)
Definition is_word (c : ascii) : bool :=
  is_upper c || is_lower_az c || is_digit c || (ord c =? 95).

Definition lower_char (c : ascii) : ascii :=
  if is_upper c then ascii_of_N (N_of_ascii c + 32) else c.

(** ** Strings *)

Fixpoint str_map (f : ascii -> ascii) (s : string) : string :=
  match s with
  | EmptyString => EmptyString
  | String c s => String (f c) (str_map f s)
  end.

(** [s.lower()] *)
Definition lower (s : string) : string := str_map lower_char s.

(** [s.startswith(p)] *)
Definition startswith (p s : string) : bool := String.prefix p s.

(** [p in s] *)
Fixpoint contains (p s : string) : bool :=
  String.prefix p s ||
  match s with
  | EmptyString => false
  | String _ s' => contains p s'
  end.

(** [s.lstrip()] *)
Fixpoint lstrip (s : string) : string :=
  match s with
  | EmptyString => EmptyString
  | String c s' => if is_space c then lstrip s' else s
  end.

(** [s.rstrip()] *)
Fixpoint rstrip (s : string) : string :=
  match s with
  | EmptyString => EmptyString
  | String c s' =>
      match rstrip s' with
      | EmptyString => if is_space c then EmptyString else String c EmptyString
      | r => String c r
      end
  end.

(** [s.strip()] *)
Definition strip (s : string) : string := rstrip (lstrip s).

(** [re.sub(r"\s+", "", s)] *)
Fixpoint remove_spaces (s : string) : string :=
  match s with
  | EmptyString => EmptyString
  | String c s' => if is_space c then remove_spaces s' else String c (remove_spaces s')
  end.

(** [s.split(c)[0]]: the text before the first occurrence of [c]. *)
Fixpoint before_char (c : ascii) (s : string) : string :=
  match s with
  | EmptyString => EmptyString
  | String d s' => if Ascii.eqb c d then EmptyString else String d (before_char c s')
  end.

(** [s.split(c)[-1]]: the text after the last occurrence of [c]. *)
Fixpoint after_last_aux (c : ascii) (s acc : string) : string :=
  match s with
  | EmptyString => acc
  | String d s' => if Ascii.eqb c d then after_last_aux c s' s' else after_last_aux c s' acc
  end.
Definition after_last (c : ascii) (s : string) : string := after_last_aux c s s.

(** Truth value of a string. *)
Definition str_truthy (s : string) : bool := negb (String.eqb s "").

(** Truth value of an optional string. *)
Definition ostr_truthy (s : option string) : bool :=
  match s with Some s => str_truthy s | None => false end.

(** [sep.join(xs)] *)
Fixpoint join (sep : string) (xs : list string) : string :=
  match xs with
  | [] => EmptyString
  | [x] => x
  | x :: xs => String.append x (String.append sep (join sep xs))
  end.

(** Whether the character [c] occurs in [s]. *)
Fixpoint has_char (c : ascii) (s : string) : bool :=
  match s with
  | EmptyString => false
  | String d s' => Ascii.eqb c d || has_char c s'
  end.

(** ** Lemmas *)

Lemma append_cons c s t : (String c s +:+ t) = String c (s +:+ t).
Proof. reflexivity. Qed.

Lemma append_assoc (a b c : string) : (a +:+ b) +:+ c = a +:+ (b +:+ c).
Proof. induction a; simpl; [done|]. rewrite !append_cons. by f_equal. Qed.

Lemma length_app_string (a b : string) : String.length (a +:+ b) = (String.length a + String.length b)%nat.
Proof. induction a as [|c a IH]; [done|]. exact (f_equal S IH). Qed.

Lemma append_nil_r (a : string) : a +:+ "" = a.
Proof. induction a; simpl; [done|]. rewrite append_cons. by f_equal. Qed.

Lemma append_inj_l (p a b : string) : p +:+ a = p +:+ b -> a = b.
Proof. apply (inj (String.app p)). Qed.

Lemma has_char_app c a b : has_char c (a +:+ b) = has_char c a || has_char c b.
Proof. induction a; simpl; [done|]. by rewrite IHa, orb_assoc. Qed.

(** Splitting at a separator that does not occur to its right is unambiguous. *)
Lemma append_sep_inj c a1 b1 a2 b2 :
  has_char c b1 = false -> has_char c b2 = false ->
  a1 +:+ String c b1 = a2 +:+ String c b2 -> a1 = a2 /\ b1 = b2.
Proof.
  intros H1 H2. revert a2. induction a1 as [|x a1 IH]; intros a2 E.
  - destruct a2 as [|y a2]; simpl in E; [by injection E|].
    rewrite append_cons in E. injection E as -> ->.
    rewrite has_char_app in H1. simpl in H1. rewrite Ascii.eqb_refl in H1.
    by rewrite orb_true_r in H1.
  - destruct a2 as [|y a2].
    + rewrite append_cons in E. injection E as -> <-.
      rewrite has_char_app in H2. simpl in H2. rewrite Ascii.eqb_refl in H2.
      by rewrite orb_true_r in H2.
    + rewrite !append_cons in E. injection E as -> E.
      destruct (IH a2 E) as [-> ->]. done.
Qed.

(** Splitting at a separator that does not occur to its left is unambiguous. *)
Lemma append_sep_inj_l c a1 b1 a2 b2 :
  has_char c a1 = false -> has_char c a2 = false ->
  a1 +:+ String c b1 = a2 +:+ String c b2 -> a1 = a2 /\ b1 = b2.
Proof.
  revert a2. induction a1 as [|x a1 IH]; intros [|y a2] H1 H2 E; simpl in *.
  - by injection E.
  - rewrite append_cons in E. injection E as -> ->. by rewrite Ascii.eqb_refl in H2.
  - rewrite append_cons in E. injection E as -> <-. by rewrite Ascii.eqb_refl in H1.
  - rewrite !append_cons in E. injection E as -> E.
    apply orb_false_iff in H1 as [_ H1], H2 as [_ H2].
    destruct (IH a2 H1 H2 E) as [-> ->]. done.
Qed.

Lemma prefix_spec p s : String.prefix p s = true <-> exists t, s = p +:+ t.
Proof.
  revert s; induction p as [|c p IH]; intros s; simpl.
  - split; [intros _; by exists s | by destruct s].
  - destruct s as [|d s]; simpl; [split; [done | intros [t [=]]]|].
    destruct (Ascii.ascii_dec c d) as [->|Hne].
    + rewrite IH. split; intros [t E].
      * exists t. by rewrite append_cons, E.
      * exists t. rewrite append_cons in E. by injection E.
    + split; [done|]. intros [t E]. rewrite append_cons in E. congruence.
Qed.

Lemma contains_spec p s : contains p s = true <-> exists a b, s = a +:+ p +:+ b.
Proof.
  revert p; induction s as [|c s IH]; intros p; cbn [contains]; rewrite orb_true_iff, prefix_spec.
  - split.
    + intros [[t Ht]|]; [|done]. exists "", t. done.
    + intros (a & b & E). left. destruct a; [by exists b | done].
  - rewrite IH. split.
    + intros [[t Ht]|(a & b & ->)]; [by exists "", t|].
      exists (String c a), b. by rewrite append_cons.
    + intros ([|d a] & b & E); [left; by exists b|].
      rewrite append_cons in E. injection E as -> ->. right; eauto.
Qed.

Lemma lower_char_not_upper c : is_upper (lower_char c) = false.
Proof. destruct c as [[] [] [] [] [] [] [] []]; vm_compute; reflexivity. Qed.

Lemma lower_idem s : lower (lower s) = lower s.
Proof.
  unfold lower. induction s as [|c s IH]; simpl; [done|]. rewrite IH. f_equal.
  unfold lower_char at 1. by rewrite lower_char_not_upper.
Qed.

Lemma lstrip_head s c s' : lstrip s = String c s' -> is_space c = false.
Proof. induction s as [|d s IH]; simpl; [done|]. destruct (is_space d) eqn:E; [auto|]. by intros [= -> ->]. Qed.

Lemma rstrip_last s a c : rstrip s = a +:+ String c "" -> is_space c = false.
Proof.
  revert a. induction s as [|x s IH]; intros a; simpl; [by destruct a|].
  destruct (rstrip s) as [|y t] eqn:E.
  - destruct (is_space x) eqn:Ex; [by destruct a|]. destruct a as [|z a]; [by intros [= <-]|].
    rewrite append_cons. intros [= _ ?]. by destruct a.
  - destruct a as [|z a]; [by intros [=]|]. rewrite append_cons. intros [= -> E1]. by apply (IH a).
Qed.

Lemma after_last_app c a b : has_char c b = false -> after_last c (a +:+ String c b) = b.
Proof.
  intros Hb. unfold after_last.
  assert (forall s acc, has_char c s = false -> after_last_aux c s acc = acc) as Hno.
  { induction s as [|d s IH]; intros acc Hs; [done|]. simpl in *.
    apply orb_false_iff in Hs as [-> Hs]. auto. }
  generalize (a +:+ String c b) at 2 as acc. induction a as [|d a IH]; intros acc; simpl.
  - rewrite Ascii.eqb_refl. by apply Hno.
  - destruct (Ascii.eqb c d); apply IH.
Qed.

(** A closed-string disequality: the two sides differ at a fixed position. *)
Ltac str_neq := intros E; repeat (rewrite ?append_cons in E; simpl in E); try discriminate E.

(** ** Decimal notation and joined identifiers *)

Fixpoint all_digits (s : string) : bool :=
  match s with EmptyString => true | String c s => (is_digit c || Ascii.eqb c "-"%char) && all_digits s end.

Lemma digits_append a b : all_digits (a +:+ b) = all_digits a && all_digits b.
Proof. induction a as [|c a IH]; [done|]. change (String c a +:+ b) with (String c (a +:+ b)). cbn. by rewrite IH, andb_assoc. Qed.

Lemma pretty_N_go_digits x s : all_digits s = true -> all_digits (pretty_N_go x s) = true.
Proof.
  revert s. induction (N.lt_wf_0 x) as [x _ IH]; intros s Hs.
  destruct (decide (0 < x)%N) as [Hx|Hx].
  - rewrite pretty_N_go_step by done. apply IH; [apply N.div_lt; lia|]. cbn. rewrite Hs, andb_true_r.
    assert (x `mod` 10 < 10)%N as Hm by (apply N.mod_lt; lia).
    assert (is_digit (pretty_N_char (x `mod` 10)) = true) as ->; [|done].
    destruct (x `mod` 10)%N as [|p]; [done|]. do 4 (destruct p as [p|p|]; try done); lia.
  - assert (x = 0)%N as -> by lia. by rewrite pretty_N_go_0.
Qed.

(** [str(n)] of an index. *)
Definition str_nat (n : nat) : string := pretty (N.of_nat n).

Lemma str_nat_digits n : all_digits (str_nat n) = true.
Proof.
  unfold str_nat. destruct (N.of_nat n) as [|p]; [done|]. unfold pretty, pretty_N.
  case_decide; [done|]. by apply pretty_N_go_digits.
Qed.

Lemma digits_before c a b : all_digits a = true -> is_digit c || Ascii.eqb c "-"%char = false ->
  before_char c (a +:+ String c b) = a.
Proof.
  intros Ha Hc. induction a as [|d a IH].
  { change ("" +:+ String c b) with (String c b). cbn. by rewrite Ascii.eqb_refl. }
  rewrite append_cons. cbn in Ha |- *. apply andb_true_iff in Ha as [Hd Ha]. destruct (Ascii.eqb_spec c d) as [->|]; [by rewrite Hd in Hc|].
  f_equal. by apply IH.
Qed.

(** A number followed by an underscore can be read back. *)
Lemma str_nat_sep_inj n m a b : str_nat n +:+ "_" +:+ a = str_nat m +:+ "_" +:+ b -> n = m.
Proof.
  intros E%(f_equal (before_char "_")). 
  change ("_" +:+ a) with (String "_" a) in E. change ("_" +:+ b) with (String "_" b) in E.
  rewrite !digits_before in E by (done || apply str_nat_digits). apply (inj pretty) in E. lia.
Qed.

Lemma str_nat_inj n m : str_nat n = str_nat m -> n = m.
Proof. intros E%(inj pretty). lia. Qed.

(** ** More methods *)

(** [s.replace(old, new)] for single characters. *)
Definition replace_char (old new : ascii) (s : string) : string :=
  str_map (fun c => if Ascii.eqb c old then new else c) s.

Definition upper_char (c : ascii) : ascii :=
  if is_lower_az c then ascii_of_N (N_of_ascii c - 32) else c.

(** [s.title()]: a cased character after an uncased one is capitalised, the others are lowered. *)
Fixpoint title_aux (after_cased : bool) (s : string) : string :=
  match s with
  | EmptyString => EmptyString
  | String c s => String (if after_cased then lower_char c else upper_char c)
                    (title_aux (is_upper c || is_lower_az c) s)
  end.
Definition title (s : string) : string := title_aux false s.

(** [int(s)]: white space around an optional sign and digits, single underscores between digits. *)
Fixpoint int_digits (s : string) (acc : Z) (after_digit : bool) : option Z :=
  match s with
  | EmptyString => if after_digit then Some acc else None
  | String c s =>
      if is_digit c then int_digits s (10 * acc + (ord c - 48)) true
      else if Ascii.eqb c "_"%char && after_digit then int_digits s acc false
      else None
  end.

Definition int_of_str (s : string) : option Z :=
  match strip s with
  | String "-" s => Z.opp <$> int_digits s 0 false
  | String "+" s => int_digits s 0 false
  | s => int_digits s 0 false
  end.

Lemma remove_spaces_length s : (String.length (remove_spaces s) <= String.length s)%nat.
Proof. induction s as [|c s IH]; [done|]. cbn. destruct (is_space c); cbn; lia. Qed.

(** A text without white space. *)
Lemma no_space_cons c s : remove_spaces (String c s) = String c s -> is_space c = false /\ remove_spaces s = s.
Proof.
  cbn. destruct (is_space c); [|by intros [= ->]]. intros H.
  pose proof (remove_spaces_length s) as Hl. rewrite H in Hl. cbn in Hl. lia.
Qed.

(** Order of text by code points; [sorted] of a set of strings. *)
Definition str_le (a b : string) : Prop := String.leb a b = true.
#[global] Instance str_le_dec : RelDecision str_le.
Proof. intros a b. unfold str_le. apply _. Defined.

#[global] Instance str_le_total : Total str_le.
Proof. intros a b. apply String.leb_total. Qed.

Definition sorted_set (l : list string) : list string := merge_sort str_le (remove_dups l).

Lemma sorted_set_spec l : NoDup (sorted_set l) /\ Sorted str_le (sorted_set l) /\ forall s, s ∈ sorted_set l <-> s ∈ l.
Proof.
  unfold sorted_set. split; [rewrite merge_sort_Permutation; apply NoDup_remove_dups|].
  split; [apply Sorted_merge_sort, _|]. intros s. by rewrite merge_sort_Permutation, elem_of_remove_dups.
Qed.
