(* ===== verification/Regex.v ===== *)
(** * Regular expressions

    The fragment of Python's [re] that the sources use: character classes,
    sequencing, alternation, repetition, [\b], [^] and [$].  The components ask
    only whether [re.search] or [re.match] succeeds, so a pattern denotes the
    set of positions it can stop at and greediness does not matter.
    [run] computes that set; [matches] is the declarative semantics, and
    [run_correct] shows that they agree. *)

From S2P Require Import Prelude PyStr.
From Stdlib Require Import Ascii.

Inductive regex :=
| REps
| RChar (p : ascii -> bool)
| RSeq (r1 r2 : regex)
| RAlt (r1 r2 : regex)
| RStar (r : regex)
| RBoundary
| RStart
| REnd.

(** A position in the subject: the character before it and the text after. *)
Definition position : Type := option ascii * string.

Definition word_before (pos : position) : bool :=
  match pos.1 with Some c => is_word c | None => false end.
Definition word_after (pos : position) : bool :=
  match pos.2 with String c _ => is_word c | EmptyString => false end.

(** [$] without [re.MULTILINE]: at the end, or before a final newline. *)
Definition at_end (s : string) : bool :=
  match s with
  | EmptyString => true
  | String c EmptyString => ord c =? 10
  | _ => false
  end.

Section Star.
Variable step : position -> list position.

(** Iterate a step that must consume text; the remaining length bounds the
    number of iterations. *)
Fixpoint star_run (fuel : nat) (pos : position) : list position :=
  pos :: match fuel with
         | O => []
         | S fuel =>
             flat_map (star_run fuel)
               (List.filter (fun pos' => (String.length pos'.2 <? String.length pos.2)%nat)
                  (step pos))
         end.
End Star.

Fixpoint run (r : regex) (pos : position) : list position :=
  match r with
  | REps => [pos]
  | RChar p =>
      match pos.2 with
      | String c s => if p c then [(Some c, s)] else []
      | EmptyString => []
      end
  | RSeq r1 r2 => flat_map (run r2) (run r1 pos)
  | RAlt r1 r2 => run r1 pos ++ run r2 pos
  | RStar r => star_run (run r) (String.length pos.2) pos
  | RBoundary => if xorb (word_before pos) (word_after pos) then [pos] else []
  | RStart => match pos.1 with None => [pos] | Some _ => [] end
  | REnd => if at_end pos.2 then [pos] else []
  end.

(** Whether a list is non-empty. *)
Definition nonempty {A} (l : list A) : bool := match l with [] => false | _ => true end.

(** [re.match(r, s) is not None] *)
Definition re_match (r : regex) (s : string) : bool := nonempty (run r (None, s)).

Fixpoint search_from (r : regex) (prev : option ascii) (s : string) : bool :=
  nonempty (run r (prev, s)) ||
  match s with
  | EmptyString => false
  | String c s' => search_from r (Some c) s'
  end.

(** [re.search(r, s) is not None] *)
Definition re_search (r : regex) (s : string) : bool := search_from r None s.

(** ** Pattern notation *)

Fixpoint RLit (s : string) : regex :=
  match s with
  | EmptyString => REps
  | String c s' => RSeq (RChar (Ascii.eqb c)) (RLit s')
  end.
Definition ROpt (r : regex) : regex := RAlt r REps.
Definition RPlus (r : regex) : regex := RSeq r (RStar r).
Definition RSpace : regex := RChar is_space.
Definition RDigit : regex := RChar is_digit.

(** [\b<word>\b] *)
Definition RWord (s : string) : regex := RSeq RBoundary (RSeq (RLit s) RBoundary).
(** [\b<word>s?\b] *)
Definition RWords (s : string) : regex :=
  RSeq RBoundary (RSeq (RLit s) (RSeq (ROpt (RLit "s")) RBoundary)).
(** [\b<a>\s+<b>\b] *)
Definition RWord2 (a b : string) : regex :=
  RSeq RBoundary (RSeq (RLit a) (RSeq (RPlus RSpace) (RSeq (RLit b) RBoundary))).

(** ** Declarative semantics *)

Inductive matches : regex -> position -> position -> Prop :=
| m_eps pos : matches REps pos pos
| m_char p prev c s : p c = true -> matches (RChar p) (prev, String c s) (Some c, s)
| m_seq r1 r2 a b c : matches r1 a b -> matches r2 b c -> matches (RSeq r1 r2) a c
| m_alt_l r1 r2 a b : matches r1 a b -> matches (RAlt r1 r2) a b
| m_alt_r r1 r2 a b : matches r2 a b -> matches (RAlt r1 r2) a b
| m_star_nil r a : matches (RStar r) a a
| m_star_step r a b c : matches r a b -> matches (RStar r) b c -> matches (RStar r) a c
| m_boundary pos : xorb (word_before pos) (word_after pos) = true -> matches RBoundary pos pos
| m_start s : matches RStart (None, s) (None, s)
| m_end pos : at_end pos.2 = true -> matches REnd pos pos.
#[local] Hint Constructors matches : gaia.

Lemma elem_of_flat_map {A B} (f : A -> list B) l y :
  y ∈ flat_map f l <-> exists x, x ∈ l /\ y ∈ f x.
Proof.
  setoid_rewrite list_elem_of_In. rewrite in_flat_map. done.
Qed.

Lemma elem_of_Lfilter {A} (f : A -> bool) l x : x ∈ List.filter f l <-> x ∈ l /\ f x = true.
Proof. rewrite !list_elem_of_In. apply filter_In. Qed.

(** A match either stays where it is or consumes text. *)
Lemma matches_shrink r a b :
  matches r a b -> a = b \/ (String.length b.2 < String.length a.2)%nat.
Proof. induction 1; simpl; naive_solver lia. Qed.

Lemma star_run_sound r fuel :
  (forall a b, b ∈ run r a -> matches r a b) ->
  forall a b, b ∈ star_run (run r) fuel a -> matches (RStar r) a b.
Proof.
  intros Hr. induction fuel as [|fuel IH]; intros a b; cbn [star_run]; rewrite elem_of_cons.
  - intros [->|H]; [constructor | by apply not_elem_of_nil in H].
  - intros [->|H]; [constructor|].
    apply elem_of_flat_map in H as (c & [Hc _]%elem_of_Lfilter & Hb).
    eapply m_star_step; eauto.
Qed.

Lemma star_run_complete r fuel :
  (forall a b, matches r a b -> b ∈ run r a) ->
  forall a b, (String.length a.2 <= fuel)%nat ->
    matches (RStar r) a b -> b ∈ star_run (run r) fuel a.
Proof.
  intros Hr. induction fuel as [|fuel IHf]; intros a b Hlen Hm;
    remember (RStar r) as rs eqn:Ers; induction Hm; simplify_eq;
    try (apply elem_of_cons; by left).
  - destruct (matches_shrink _ _ _ Hm1) as [->|]; [auto | lia].
  - destruct (matches_shrink _ _ _ Hm1) as [->|Hlt]; [auto|].
    cbn [star_run]. apply elem_of_cons. right. apply elem_of_flat_map.
    exists b. split; [|apply IHf; [lia | done]].
    apply elem_of_Lfilter. split; [auto|]. by apply Nat.ltb_lt.
Qed.

Lemma run_correct r a b : b ∈ run r a <-> matches r a b.
Proof.
  revert a b; induction r; intros a b; split; intros H; cbn [run] in *.
  - apply list_elem_of_singleton in H as ->. constructor.
  - inversion H; subst. by left.
  - destruct a as [prev [|c s]]; simpl in H; [set_solver|].
    destruct (p c) eqn:E; [apply list_elem_of_singleton in H as ->; by constructor | set_solver].
  - inversion H as [|? ? ? ? Hp| | | | | | | |]; subst; simpl. rewrite Hp. by left.
  - apply elem_of_flat_map in H as (c & H1 & H2). econstructor; [by apply IHr1 | by apply IHr2].
  - inversion H; subst. apply elem_of_flat_map. exists b0.
    split; [by apply IHr1 | by apply IHr2].
  - apply elem_of_app in H as [H|H]; [apply m_alt_l; by apply IHr1 | apply m_alt_r; by apply IHr2].
  - apply elem_of_app. inversion H; subst; [left; by apply IHr1 | right; by apply IHr2].
  - eapply star_run_sound; [|done]. intros; by apply IHr.
  - eapply star_run_complete; [|done|done]. intros; by apply IHr.
  - destruct xorb eqn:E; [apply list_elem_of_singleton in H as ->; by constructor | set_solver].
  - inversion H as [| | | | | | |? Hp| |? Hp]; subst. rewrite Hp. by left.
  - destruct a as [[c|] s]; simpl in H; [set_solver|].
    apply list_elem_of_singleton in H as ->. constructor.
  - inversion H; subst. by left.
  - destruct (at_end a.2) eqn:E; [apply list_elem_of_singleton in H as ->; by constructor | set_solver].
  - inversion H as [| | | | | | |? Hp| |? Hp]; subst. rewrite Hp. by left.
Qed.

Lemma nonempty_true {A} (l : list A) : nonempty l = true <-> exists x, x ∈ l.
Proof. destruct l; simpl; split; try done; [intros [x Hx]; set_solver | eexists; by left]. Qed.

Lemma re_match_spec r s : re_match r s = true <-> exists b, matches r (None, s) b.
Proof. unfold re_match. rewrite nonempty_true. by setoid_rewrite run_correct. Qed.

(** A run of characters satisfying [f]. *)
Lemma star_char_inv f a b :
  matches (RStar (RChar f)) a b ->
  exists w, a.2 = w +:+ b.2 /\ (forall c, has_char c w = true -> f c = true).
Proof.
  remember (RStar (RChar f)) as r eqn:Er. intros Hm.
  induction Hm as [| | | | |r a|r a b c Hstep _ Hrest IH| | |]; try discriminate Er.
  - exists "". split; [done | by intros].
  - injection Er as ->. destruct (IH eq_refl) as (w & Ew & Hw).
    inversion Hstep as [|? ? x ? Hx| | | | | | | |]; subst; simpl in *.
    exists (String x w). split; [by rewrite append_cons, Ew|].
    intros d. simpl. rewrite orb_true_iff. intros [->%Ascii.eqb_eq|Hd]; auto.
Qed.

(** What [$] allows after the last matched character. *)
Definition newline : string := String (ascii_of_N 10) "".

Lemma at_end_inv s : at_end s = true -> s = "" \/ s = newline.
Proof.
  destruct s as [|c [|]]; simpl; [by left| |done].
  intros H. right. unfold newline. f_equal. apply Z.eqb_eq in H. unfold ord in H.
  rewrite <- (ascii_N_embedding c). f_equal. lia.
Qed.

(** Takes a match apart along its sequence of literals and anchors. *)
Ltac invert_matches :=
  repeat match goal with
  | H : matches (RSeq _ _) _ _ |- _ => inversion H; clear H; subst
  | H : matches RStart _ _ |- _ => inversion H; clear H; subst
  | H : matches (RChar _) _ _ |- _ => inversion H; clear H; subst
  | H : matches REnd _ _ |- _ => inversion H; clear H; subst
  end.
