(* ===== verification/RedisKeys.v ===== *)
(** * Redis key naming ([src/cache/keys.py])

    The f-strings of [RedisKeyBuilder] and the checkpointer's own key patterns,
    and the proofs that keys of different namespaces never meet and that a key
    determines its arguments. *)

From S2P Require Import Prelude PyStr.
From Stdlib Require Import Ascii.

Module RedisKeyBuilder.

Definition cache_key (key : string) : string := "gaiaos:cache:" +:+ key.

Definition checkpoint_key (thread_id : string) : string := "gaiaos:checkpoint:" +:+ thread_id.

Definition rate_limit_key (identifier action : string) : string :=
  "gaiaos:ratelimit:" +:+ identifier +:+ ":" +:+ action.

Definition event_channel_key (investigation_id : string) : string :=
  "gaiaos:events:" +:+ investigation_id.

Definition circuit_key (source : string) : string := "gaiaos:circuit:" +:+ source.

Definition source_cache_key (source key : string) : string :=
  "gaiaos:cache:" +:+ source +:+ ":" +:+ key.

End RedisKeyBuilder.
Import RedisKeyBuilder.

(** ** Key determines arguments *)

#[global] Instance circuit_key_inj : Inj (=) (=) circuit_key.
Proof. intros a b. apply append_inj_l. Qed.

#[global] Instance event_channel_key_inj : Inj (=) (=) event_channel_key.
Proof. intros a b. apply append_inj_l. Qed.

Lemma rate_limit_key_inj i1 a1 i2 a2 :
  has_char ":" a1 = false -> has_char ":" a2 = false ->
  rate_limit_key i1 a1 = rate_limit_key i2 a2 -> i1 = i2 /\ a1 = a2.
Proof.
  intros H1 H2 E%append_inj_l. by apply (append_sep_inj ":" i1 a1 i2 a2).
Qed.

Lemma source_cache_key_inj s1 k1 s2 k2 :
  has_char ":" s1 = false -> has_char ":" s2 = false ->
  source_cache_key s1 k1 = source_cache_key s2 k2 -> s1 = s2 /\ k1 = k2.
Proof.
  intros H1 H2 E%append_inj_l. by apply (append_sep_inj_l ":" s1 k1 s2 k2).
Qed.

(** ** Namespaces are disjoint *)

Lemma circuit_key_not_cache source s k : circuit_key source <> source_cache_key s k.
Proof. unfold circuit_key, source_cache_key. str_neq. Qed.

Lemma circuit_key_not_ratelimit source i a : circuit_key source <> rate_limit_key i a.
Proof. unfold circuit_key, rate_limit_key. str_neq. Qed.

Lemma ratelimit_key_not_cache i a s k : rate_limit_key i a <> source_cache_key s k.
Proof. unfold source_cache_key, rate_limit_key. str_neq. Qed.

Lemma checkpoint_key_not_circuit t source : checkpoint_key t <> circuit_key source.
Proof. unfold checkpoint_key, circuit_key. str_neq. Qed.

#[export] Hint Resolve circuit_key_not_cache circuit_key_not_ratelimit ratelimit_key_not_cache
  checkpoint_key_not_circuit : gaia.
