(* ===== verification/Settings.v ===== *)
(** * Application settings ([src/config/settings.py])

    The typed settings, grouped as the source's section comments group them,
    with their defaults; the post-construction validator
    [validate_production_security]; and the derived properties
    [checkpoint_ttl_seconds], [asyncpg_url] and [read_asyncpg_url]. *)

From S2P Require Import Prelude PyFloat PyStr Regex.
From Stdlib Require Import Ascii.

(** [GAIAOS_VERSION] resolves to the version of [pyproject.toml]. *)
Definition GAIAOS_VERSION : string := "1.0.0".

Definition DEFAULT_DEV_JWT_SECRET : string := "dev-secret-key-that-is-at-least-32-chars-long!".

Inductive environment := Dev | Staging | Prod.
Inductive storage_backend := LocalStorage | MinioStorage.

#[global] Instance environment_eq_dec : EqDecision environment.
Proof. solve_decision. Defined.
#[global] Instance storage_backend_eq_dec : EqDecision storage_backend.
Proof. solve_decision. Defined.

Record CoreSettings := {
  gaiaos_env : environment;
  log_level : string;
  database_url : option string;
  read_replica_database_url : option string;
  redis_url : option string;
  openaq_api_key : option string;
  orchestrator_version : string;
  llm_model : string;
  firms_api_key : option string;
  agent_timeout : float;
  enable_agent_collaboration : bool;
  min_cross_domain_evidence : Z;
  plugins_enabled : bool;
  strict_plugin_validation : bool
}.

Definition default_CoreSettings : CoreSettings := {|
  gaiaos_env := Dev;
  log_level := "DEBUG";
  database_url := None;
  read_replica_database_url := None;
  redis_url := None;
  openaq_api_key := None;
  orchestrator_version := GAIAOS_VERSION;
  llm_model := "gpt-4o-mini";
  firms_api_key := None;
  agent_timeout := flit 30 1;
  enable_agent_collaboration := false;
  min_cross_domain_evidence := 2;
  plugins_enabled := true;
  strict_plugin_validation := false
|}.

Record SourceSettings := {
  usgs_api_url : string;
  noaa_api_url : string;
  open_meteo_weather_url : string;
  open_meteo_geocoding_url : string;
  causal_chain_search_radius_meters : float;
  enable_boundary_reasoning : bool;
  nominatim_api_url : string
}.

Definition default_SourceSettings : SourceSettings := {|
  usgs_api_url := "https://earthquake.usgs.gov/fdsnws/event/1/query";
  noaa_api_url := "https://api.tidesandcurrents.noaa.gov/api/prod/datagetter";
  open_meteo_weather_url := "https://api.open-meteo.com/v1/forecast";
  open_meteo_geocoding_url := "https://geocoding-api.open-meteo.com/v1/search";
  causal_chain_search_radius_meters := flit 50000 1;
  enable_boundary_reasoning := true;
  nominatim_api_url := "https://nominatim.openstreetmap.org"
|}.

Record IngestionSettings := {
  enable_usgs_ingestion : bool;
  enable_noaa_ingestion : bool;
  enable_copernicus_ingestion : bool;
  enable_era5_ingestion : bool;
  enable_gdelt_ingestion : bool;
  enable_arxiv_ingestion : bool;
  arxiv_api_url : string;
  arxiv_categories : list string;
  arxiv_max_results : Z;
  ingestion_poll_interval_hours : Z;
  simulation_calibration_interval_days : Z
}.

Definition default_IngestionSettings : IngestionSettings := {|
  enable_usgs_ingestion := true;
  enable_noaa_ingestion := true;
  enable_copernicus_ingestion := true;
  enable_era5_ingestion := true;
  enable_gdelt_ingestion := true;
  enable_arxiv_ingestion := true;
  arxiv_api_url := "https://export.arxiv.org/api/query";
  arxiv_categories := ["physics.ao-ph"; "physics.geo-ph"];
  arxiv_max_results := 50;
  ingestion_poll_interval_hours := 1;
  simulation_calibration_interval_days := 30
|}.

Record PatternSettings := {
  pattern_min_support : Z;
  pattern_min_confidence : float;
  pattern_significance_level : float;
  pattern_lookback_days : Z;
  pattern_mining_interval_hours : Z
}.

Definition default_PatternSettings : PatternSettings := {|
  pattern_min_support := 3;
  pattern_min_confidence := flit 7 10;
  pattern_significance_level := flit 5 100;
  pattern_lookback_days := 90;
  pattern_mining_interval_hours := 24
|}.

Record FeedSettings := {
  firms_api_url : string;
  copernicus_api_url : string;
  era5_api_url : string;
  gdelt_api_url : string;
  gdelt_max_records_per_run : Z
}.

Definition default_FeedSettings : FeedSettings := {|
  firms_api_url := "https://firms.modaps.eosdis.nasa.gov/api/area/csv";
  copernicus_api_url := "https://catalogue.dataspace.copernicus.eu/odata/v1";
  era5_api_url := "https://archive-api.open-meteo.com/v1/archive";
  gdelt_api_url := "https://api.gdeltproject.org/api/v2/doc/doc";
  gdelt_max_records_per_run := 250
|}.

Record LiteratureSettings := {
  embedding_api_key : option string;
  embedding_model : string;
  embedding_dimension : Z;
  chunk_size : Z;
  chunk_overlap : Z
}.

Definition default_LiteratureSettings : LiteratureSettings := {|
  embedding_api_key := None;
  embedding_model := "text-embedding-3-small";
  embedding_dimension := 1536;
  chunk_size := 500;
  chunk_overlap := 50
|}.

Record BackupSettings := {
  backup_cron : string;
  restore_drill_cron : string;
  backup_retention_days : Z;
  backup_storage_path : string;
  backup_storage_backend : storage_backend;
  minio_endpoint : option string;
  minio_access_key : option string;
  minio_secret_key : option string;
  minio_bucket : option string;
  minio_secure : bool;
  minio_auto_create_bucket : bool
}.

Definition default_BackupSettings : BackupSettings := {|
  backup_cron := "0 2 * * *";
  restore_drill_cron := "0 4 1 * *";
  backup_retention_days := 30;
  backup_storage_path := "./backups";
  backup_storage_backend := LocalStorage;
  minio_endpoint := None;
  minio_access_key := None;
  minio_secret_key := None;
  minio_bucket := None;
  minio_secure := false;
  minio_auto_create_bucket := true
|}.

Record ResearchSettings := {
  public_research_api_enabled : bool;
  dataset_export_enabled : bool;
  dataset_export_dir : string;
  research_api_rate_limit : string
}.

Definition default_ResearchSettings : ResearchSettings := {|
  public_research_api_enabled := true;
  dataset_export_enabled := true;
  dataset_export_dir := "./data/exports";
  research_api_rate_limit := "60/minute"
|}.

Record GatewaySettings := {
  enable_auth : bool
}.

Definition default_GatewaySettings : GatewaySettings := {|
  enable_auth := false
|}.

Record RateLimitSettings := {
  enable_rate_limiting : bool;
  rate_limit_requests_per_minute : Z;
  rate_limit_burst : Z
}.

Definition default_RateLimitSettings : RateLimitSettings := {|
  enable_rate_limiting := false;
  rate_limit_requests_per_minute := 60;
  rate_limit_burst := 15
|}.

Record TaskQueueSettings := {
  use_queued_execution : bool;
  job_timeout_seconds : Z;
  job_max_retries : Z;
  checkpoint_ttl_safety_factor : float;
  checkpoint_ttl_seconds_override : option Z
}.

Definition default_TaskQueueSettings : TaskQueueSettings := {|
  use_queued_execution := true;
  job_timeout_seconds := 600;
  job_max_retries := 2;
  checkpoint_ttl_safety_factor := flit 2 1;
  checkpoint_ttl_seconds_override := None
|}.

Record WorkerSettings := {
  worker_pool_size : Z;
  worker_concurrency_per_process : Z;
  worker_target_max_wait_s : float;
  app_cpu_limit : string;
  app_memory_limit : string;
  worker_cpu_limit : string;
  worker_memory_limit : string;
  scheduler_cpu_limit : string;
  scheduler_memory_limit : string;
  scaling_summary_interval_s : Z
}.

Definition default_WorkerSettings : WorkerSettings := {|
  worker_pool_size := 2;
  worker_concurrency_per_process := 1;
  worker_target_max_wait_s := flit 60 1;
  app_cpu_limit := "1.0";
  app_memory_limit := "512M";
  worker_cpu_limit := "1.0";
  worker_memory_limit := "512M";
  scheduler_cpu_limit := "0.5";
  scheduler_memory_limit := "256M";
  scaling_summary_interval_s := 300
|}.

Record ReplanSettings := {
  enable_replan_loop : bool
}.

Definition default_ReplanSettings : ReplanSettings := {|
  enable_replan_loop := false
|}.

Record ResilienceSettings := {
  resilience_bypass : bool;
  circuit_failure_threshold : Z;
  circuit_half_open_timeout_s : Z
}.

Definition default_ResilienceSettings : ResilienceSettings := {|
  resilience_bypass := false;
  circuit_failure_threshold := 5;
  circuit_half_open_timeout_s := 60
|}.

Record AuthSettings := {
  jwt_secret_key : option string;
  jwt_algorithm : string;
  jwt_expiry_minutes : Z;
  jwt_issuer : string;
  jwt_audience : string;
  app_base_url : string;
  password_reset_expiry_minutes : Z;
  password_reset_rate_limit_requests : Z;
  password_reset_rate_limit_window_seconds : Z
}.

Definition default_AuthSettings : AuthSettings := {|
  jwt_secret_key := None;
  jwt_algorithm := "HS256";
  jwt_expiry_minutes := 60;
  jwt_issuer := "gaiaos";
  jwt_audience := "gaiaos-api";
  app_base_url := "http://localhost:8000";
  password_reset_expiry_minutes := 15;
  password_reset_rate_limit_requests := 3;
  password_reset_rate_limit_window_seconds := 900
|}.

Record AlertSettings := {
  alerting_enabled : bool;
  alert_evaluation_interval_minutes : Z;
  alert_webhook_url : option string;
  alert_flapping_min_cycles : Z;
  prometheus_metrics_token : option string
}.

Definition default_AlertSettings : AlertSettings := {|
  alerting_enabled := true;
  alert_evaluation_interval_minutes := 5;
  alert_webhook_url := None;
  alert_flapping_min_cycles := 1;
  prometheus_metrics_token := None
|}.

Record Settings := {
  s_core :> CoreSettings;
  s_source :> SourceSettings;
  s_ingestion :> IngestionSettings;
  s_pattern :> PatternSettings;
  s_feed :> FeedSettings;
  s_literature :> LiteratureSettings;
  s_backup :> BackupSettings;
  s_research :> ResearchSettings;
  s_gateway :> GatewaySettings;
  s_ratelimit :> RateLimitSettings;
  s_taskqueue :> TaskQueueSettings;
  s_worker :> WorkerSettings;
  s_replan :> ReplanSettings;
  s_resilience :> ResilienceSettings;
  s_auth :> AuthSettings;
  s_alert :> AlertSettings
}.

Definition default_Settings : Settings := {|
  s_core := default_CoreSettings;
  s_source := default_SourceSettings;
  s_ingestion := default_IngestionSettings;
  s_pattern := default_PatternSettings;
  s_feed := default_FeedSettings;
  s_literature := default_LiteratureSettings;
  s_backup := default_BackupSettings;
  s_research := default_ResearchSettings;
  s_gateway := default_GatewaySettings;
  s_ratelimit := default_RateLimitSettings;
  s_taskqueue := default_TaskQueueSettings;
  s_worker := default_WorkerSettings;
  s_replan := default_ReplanSettings;
  s_resilience := default_ResilienceSettings;
  s_auth := default_AuthSettings;
  s_alert := default_AlertSettings
|}.

(** ** Field constraints *)

(** The [ge]/[le] bounds that pydantic enforces on the pattern-mining group. *)
Definition pattern_fields_valid (s : PatternSettings) : bool :=
  (1 <=? pattern_min_support s) &&
  fleb f0 (pattern_min_confidence s) && fleb (pattern_min_confidence s) f1 &&
  fleb (flit 1 1000) (pattern_significance_level s) &&
  fleb (pattern_significance_level s) (flit 20 100) &&
  (1 <=? pattern_lookback_days s) && (1 <=? pattern_mining_interval_hours s).

(** ** [validate_production_security] *)

Definition is_deployed (e : environment) : bool :=
  match e with Staging | Prod => true | Dev => false end.
Definition is_prod (e : environment) : bool := match e with Prod => true | _ => false end.

(** [^[a-z0-9][a-z0-9.-]*[a-z0-9]$] *)
Definition bucket_edge (c : ascii) : bool := is_lower_az c || is_digit c.
Definition bucket_inner (c : ascii) : bool := bucket_edge c || Ascii.eqb c "." || Ascii.eqb c "-".
Definition bucket_pattern : regex :=
  RSeq RStart (RSeq (RChar bucket_edge) (RSeq (RStar (RChar bucket_inner))
    (RSeq (RChar bucket_edge) REnd))).

(** [^\d{1,3}\.\d{1,3}\.\d{1,3}\.\d{1,3}$] *)
Definition octet : regex := RSeq RDigit (RSeq (ROpt RDigit) (ROpt RDigit)).
Definition ip_pattern : regex :=
  RSeq RStart (RSeq octet (RSeq (RLit ".") (RSeq octet (RSeq (RLit ".")
    (RSeq octet (RSeq (RLit ".") (RSeq octet REnd))))))).

Definition validate_bucket (bucket : string) : result string unit :=
  let len := Z.of_nat (String.length bucket) in
  raise_if ((len <? 3) || (63 <? len))
    "MINIO_BUCKET name must be between 3 and 63 characters long" ;;
  raise_if (negb (re_match bucket_pattern bucket))
    "MINIO_BUCKET name must consist only of lowercase letters, numbers, dots, or hyphens, and start and end with an alphanumeric character" ;;
  raise_if (contains ".." bucket) "MINIO_BUCKET name must not contain contiguous periods" ;;
  raise_if (re_match ip_pattern bucket) "MINIO_BUCKET name must not be formatted as an IP address".

Definition validate_minio (s : BackupSettings) : result string unit :=
  raise_if (negb (ostr_truthy (minio_endpoint s)))
    "MINIO_ENDPOINT must be set when BACKUP_STORAGE_BACKEND is minio" ;;
  raise_if (negb (ostr_truthy (minio_access_key s)))
    "MINIO_ACCESS_KEY must be set when BACKUP_STORAGE_BACKEND is minio" ;;
  raise_if (negb (ostr_truthy (minio_secret_key s)))
    "MINIO_SECRET_KEY must be set when BACKUP_STORAGE_BACKEND is minio" ;;
  match minio_bucket s with
  | Some (String _ _ as bucket) => validate_bucket bucket
  | _ => Raise "MINIO_BUCKET must be set when BACKUP_STORAGE_BACKEND is minio"
  end.

Definition validate_jwt_secret (secret : option string) : result string unit :=
  match secret with
  | Some (String _ _ as key) =>
      raise_if (Z.of_nat (String.length key) <? 32)
        "JWT_SECRET_KEY must be at least 32 characters long" ;;
      raise_if (String.eqb key DEFAULT_DEV_JWT_SECRET)
        "JWT_SECRET_KEY cannot use the default development secret when ENABLE_AUTH is True or GAIAOS_ENV is staging/prod"
  | _ => Raise "JWT_SECRET_KEY must be set when ENABLE_AUTH is True or GAIAOS_ENV is staging/prod"
  end.

Definition validate_production_security (s : Settings) : result string unit :=
  let env := gaiaos_env s in
  raise_if (is_deployed env && negb (ostr_truthy (database_url s)))
    "DATABASE_URL must be set when GAIAOS_ENV is staging or prod" ;;
  raise_if (is_deployed env && negb (ostr_truthy (redis_url s)))
    "REDIS_URL must be set when GAIAOS_ENV is staging or prod" ;;
  raise_if (is_prod env && negb (enable_auth s))
    "ENABLE_AUTH must be True when GAIAOS_ENV is prod" ;;
  raise_if (is_prod env && negb (enable_rate_limiting s))
    "ENABLE_RATE_LIMITING must be True when GAIAOS_ENV is prod" ;;
  (if enable_auth s || is_deployed env then validate_jwt_secret (jwt_secret_key s) else Ok tt) ;;
  match backup_storage_backend s with
  | MinioStorage => validate_minio s
  | LocalStorage => Ok tt
  end.

(** ** Derived properties *)

(** [checkpoint_ttl_seconds]: [None] when [int()] of the product raises. *)
Definition checkpoint_ttl_seconds (s : TaskQueueSettings) : option Z :=
  match checkpoint_ttl_seconds_override s with
  | Some ttl => Some ttl
  | None =>
      let worst_case_duration := job_timeout_seconds s * (job_max_retries s + 1) in
      float_trunc (fmul (float_of_Z worst_case_duration) (checkpoint_ttl_safety_factor s))
  end.

(** The two [RuntimeError] messages end in the offending URL's [repr] in the
    source; the model keeps the fixed part of the message. *)

(** [url[len(prefix):]] *)
Fixpoint str_drop (n : nat) (s : string) : string :=
  match n, s with
  | S n, String _ s => str_drop n s
  | _, _ => s
  end.

Definition asyncpg_prefix : string := "postgresql+asyncpg://".

Definition rewrite_url (url err : string) : result string string :=
  if startswith "postgresql://" url then Ok (asyncpg_prefix +:+ str_drop (String.length "postgresql://") url)
  else if startswith "postgres://" url then Ok (asyncpg_prefix +:+ str_drop (String.length "postgres://") url)
  else if startswith asyncpg_prefix url then Ok url
  else Raise err.

Definition asyncpg_url (s : Settings) : result string string :=
  match database_url s with
  | Some (String _ _ as url) =>
      rewrite_url url "DATABASE_URL must start with postgresql:// or postgres://"
  | _ => Raise "DATABASE_URL is not set."
  end.

Definition read_asyncpg_url (s : Settings) : result string (option string) :=
  match read_replica_database_url s with
  | Some (String _ _ as url) =>
      Some <$> rewrite_url url "READ_REPLICA_DATABASE_URL must start with postgresql:// or postgres://"
  | _ => Ok None
  end.

(** ** Lemmas *)

Lemma bind_unit_ok {E} (m k : result E unit) : (m ;; k) = Ok tt <-> m = Ok tt /\ k = Ok tt.
Proof. destruct m as [[]|]; naive_solver. Qed.

Lemma ostr_truthy_some o : ostr_truthy o = true <-> exists x, o = Some x /\ x <> "".
Proof.
  unfold ostr_truthy, str_truthy. destruct o as [x|]; [|naive_solver].
  destruct (String.eqb_spec x ""); naive_solver.
Qed.

Lemma validate_jwt_secret_ok secret :
  validate_jwt_secret secret = Ok tt <->
  exists key, secret = Some key /\ 32 <= Z.of_nat (String.length key) /\ key <> DEFAULT_DEV_JWT_SECRET.
Proof.
  unfold validate_jwt_secret. destruct secret as [[|c k]|].
  - split; [done|]. intros (key & [= <-] & Hl & _). simpl in Hl. lia.
  - rewrite bind_unit_ok, !raise_if_ok, Z.ltb_ge, String.eqb_neq. naive_solver.
  - naive_solver.
Qed.

Lemma bucket_pattern_inv bucket :
  re_match bucket_pattern bucket = true ->
  exists c w d tl, bucket = String c (w +:+ String d tl) /\
    bucket_edge c = true /\ bucket_edge d = true /\
    (forall x, has_char x w = true -> bucket_inner x = true) /\ (tl = "" \/ tl = newline).
Proof.
  rewrite re_match_spec. intros [b Hm]. unfold bucket_pattern in Hm.
  invert_matches. match goal with H : matches (RStar _) _ _ |- _ => apply star_char_inv in H as (w & Ew & Hw) end.
  simpl in *. subst. match goal with H : at_end _ = true |- _ => apply at_end_inv in H end. naive_solver.
Qed.

(** ** Properties *)

Section validated.
Variable s : Settings.
Hypothesis validated : validate_production_security s = Ok tt.

Lemma validated_parts :
  (is_deployed (gaiaos_env s) = true ->
     ostr_truthy (database_url s) = true /\ ostr_truthy (redis_url s) = true) /\
  (is_prod (gaiaos_env s) = true -> enable_auth s = true /\ enable_rate_limiting s = true) /\
  (enable_auth s || is_deployed (gaiaos_env s) = true ->
     validate_jwt_secret (jwt_secret_key s) = Ok tt) /\
  (backup_storage_backend s = MinioStorage -> validate_minio s = Ok tt).
Proof.
  revert validated. unfold validate_production_security.
  rewrite !bind_unit_ok, !raise_if_ok. intros (H1 & H2 & H3 & H4 & H5 & H6).
  rewrite !andb_false_iff, !negb_false_iff in H1, H2, H3, H4.
  split; [|split; [|split]].
  - intros Hd. rewrite Hd in *. naive_solver.
  - intros Hd. rewrite Hd in *. naive_solver.
  - intros Hd. by rewrite Hd in H5.
  - intros Hb. by rewrite Hb in H6.
Qed.
End validated.

(** Settings that validate in production have authentication and
    rate limiting on, a database and a Redis URL, and a JWT secret of at least
    32 characters that is not the published development secret. *)
Theorem validated_prod_is_secure (s : Settings) :
  validate_production_security s = Ok tt -> gaiaos_env s = Prod ->
  enable_auth s = true /\ enable_rate_limiting s = true /\
  (exists url, database_url s = Some url /\ url <> "") /\
  (exists url, redis_url s = Some url /\ url <> "") /\
  (exists key, jwt_secret_key s = Some key /\
     32 <= Z.of_nat (String.length key) /\ key <> DEFAULT_DEV_JWT_SECRET).
Proof.
  intros Hv He. destruct (validated_parts s Hv) as (Hurls & Hprod & Hjwt & _).
  rewrite He in *. destruct (Hurls eq_refl) as [Hdb Hredis]. destruct (Hprod eq_refl) as [Hauth Hrate].
  rewrite ostr_truthy_some in Hdb, Hredis.
  rewrite Hauth in Hjwt. specialize (Hjwt eq_refl). rewrite validate_jwt_secret_ok in Hjwt.
  done.
Qed.

(** Settings that validate with the MinIO backend name a bucket of 3
    to 63 characters whose first and last name characters are lower-case
    alphanumeric and whose inner characters are alphanumeric, dots or hyphens;
    the only other character that can occur is one trailing newline, which the
    pattern's [$] lets through. *)
Theorem validated_minio_bucket (s : Settings) :
  validate_production_security s = Ok tt -> backup_storage_backend s = MinioStorage ->
  exists bucket c w d tl,
    minio_bucket s = Some bucket /\ bucket = String c (w +:+ String d tl) /\
    3 <= Z.of_nat (String.length bucket) <= 63 /\
    bucket_edge c = true /\ bucket_edge d = true /\
    (forall x, has_char x w = true -> bucket_inner x = true) /\
    (tl = "" \/ tl = newline) /\
    contains ".." bucket = false /\ re_match ip_pattern bucket = false.
Proof.
  intros Hv Hb. destruct (validated_parts s Hv) as (_ & _ & _ & Hm). specialize (Hm Hb).
  unfold validate_minio in Hm. rewrite !bind_unit_ok in Hm. destruct Hm as (_ & _ & _ & Hm).
  destruct (minio_bucket s) as [bucket|]; [|done].
  assert (validate_bucket bucket = Ok tt) as Hvb by by destruct bucket.
  unfold validate_bucket in Hvb. rewrite !bind_unit_ok, !raise_if_ok in Hvb.
  destruct Hvb as (Hlen & Hpat & Hdots & Hip). bool_to_prop.
  destruct (bucket_pattern_inv _ Hpat) as (c & w & d & tl & E & Hc & Hd & Hw & Htl).
  exists bucket, c, w, d, tl. repeat split; auto; lia.
Qed.

Lemma rewrite_url_ok url err url' :
  rewrite_url url err = Ok url' ->
  exists rest, url' = asyncpg_prefix +:+ rest /\
    (url = "postgresql://" +:+ rest \/ url = "postgres://" +:+ rest \/ url = url').
Proof.
  unfold rewrite_url, startswith. repeat split_match; intros [= <-];
    match goal with H : String.prefix _ _ = true |- _ => apply prefix_spec in H as [rest ->] end.
  - exists rest. split; [done | by left].
  - exists rest. split; [done | by right; left].
  - exists rest. split; [done | by right; right].
Qed.

(** A database URL that is accepted is rewritten to the asyncpg driver:
    the result carries the [postgresql+asyncpg] scheme, everything after the
    original scheme is kept, and rewriting the result again changes nothing. *)
Theorem asyncpg_url_rewrites (s : Settings) (url : string) :
  asyncpg_url s = Ok url ->
  (exists rest, url = asyncpg_prefix +:+ rest /\
     (database_url s = Some ("postgresql://" +:+ rest) \/
      database_url s = Some ("postgres://" +:+ rest) \/ database_url s = Some url)) /\
  forall err, rewrite_url url err = Ok url.
Proof.
  unfold asyncpg_url. destruct (database_url s) as [u|]; [|done].
  intros H. assert (exists err, rewrite_url u err = Ok url) as [err Hr]
    by (destruct u; [done | eauto]).
  destruct (rewrite_url_ok _ _ _ Hr) as (rest & -> & Hrest). split.
  - exists rest. split; [done|]. naive_solver.
  - intros err'. unfold rewrite_url, startswith.
    assert (String.prefix asyncpg_prefix (asyncpg_prefix +:+ rest) = true) as ->
      by (apply prefix_spec; eauto).
    reflexivity.
Qed.

(** Concrete settings used by the witnesses. *)
Definition prod_settings : Settings := {|
  s_core := {|
    gaiaos_env := Prod; log_level := "INFO";
    database_url := Some "postgres://db/gaia"; read_replica_database_url := None;
    redis_url := Some "redis://cache"; openaq_api_key := None;
    orchestrator_version := GAIAOS_VERSION; llm_model := "gpt-4o-mini"; firms_api_key := None;
    agent_timeout := flit 30 1; enable_agent_collaboration := false;
    min_cross_domain_evidence := 2; plugins_enabled := true; strict_plugin_validation := false |};
  s_source := default_SourceSettings; s_ingestion := default_IngestionSettings;
  s_pattern := default_PatternSettings; s_feed := default_FeedSettings;
  s_literature := default_LiteratureSettings;
  s_backup := {|
    backup_cron := "0 2 * * *"; restore_drill_cron := "0 4 1 * *"; backup_retention_days := 30;
    backup_storage_path := "./backups"; backup_storage_backend := MinioStorage;
    minio_endpoint := Some "minio:9000"; minio_access_key := Some "ak";
    minio_secret_key := Some "sk"; minio_bucket := Some ("gaia-backups" +:+ newline);
    minio_secure := true; minio_auto_create_bucket := true |};
  s_research := default_ResearchSettings;
  s_gateway := {| enable_auth := true |};
  s_ratelimit := {| enable_rate_limiting := true; rate_limit_requests_per_minute := 60;
                    rate_limit_burst := 15 |};
  s_taskqueue := default_TaskQueueSettings; s_worker := default_WorkerSettings;
  s_replan := default_ReplanSettings; s_resilience := default_ResilienceSettings;
  s_auth := {|
    jwt_secret_key := Some "0123456789abcdef0123456789abcdef"; jwt_algorithm := "HS256";
    jwt_expiry_minutes := 60; jwt_issuer := "gaiaos"; jwt_audience := "gaiaos-api";
    app_base_url := "http://localhost:8000"; password_reset_expiry_minutes := 15;
    password_reset_rate_limit_requests := 3; password_reset_rate_limit_window_seconds := 900 |};
  s_alert := default_AlertSettings
|}.

Lemma validated_prod_is_secure_witness :
  validate_production_security prod_settings = Ok tt /\ enable_auth prod_settings = true.
Proof.
  split; [reflexivity|].
  destruct (validated_prod_is_secure prod_settings) as [H _]; [reflexivity | reflexivity | exact H].
Defined.

(** The bucket of [prod_settings] ends in a newline and still validates. *)
Lemma validated_minio_bucket_witness :
  validate_production_security prod_settings = Ok tt /\
  exists bucket, minio_bucket prod_settings = Some bucket /\ 3 <= Z.of_nat (String.length bucket) <= 63.
Proof.
  split; [reflexivity|].
  destruct (validated_minio_bucket prod_settings) as (b & ? & ? & ? & ? & Hb & _ & Hl & _);
    [reflexivity | reflexivity | exists b; split; [exact Hb | exact Hl]].
Defined.

Lemma asyncpg_url_rewrites_witness :
  asyncpg_url prod_settings = Ok "postgresql+asyncpg://db/gaia" /\
  rewrite_url "postgresql+asyncpg://db/gaia" "" = Ok "postgresql+asyncpg://db/gaia".
Proof.
  split; [reflexivity|].
  destruct (asyncpg_url_rewrites prod_settings "postgresql+asyncpg://db/gaia") as [_ H];
    [reflexivity | exact (H "")].
Defined.

Example default_checkpoint_ttl : checkpoint_ttl_seconds default_TaskQueueSettings = Some 3600.
Proof. reflexivity. Qed.
