(* ===== verification/Effects.v ===== *)
(** * Effects: exceptions, JSON documents, the Redis service

    Python code that talks to Redis and may raise is written in a
    state-and-exception monad [M S] over an explicit store [S].  Redis itself is
    not part of the repository: it is the interface [Redis], whose laws are the
    documented behaviour of GET and SET (every call may also fail with an
    exception).  [MemRedis] is an executable instance with a clock, key
    expiry and scripted outages; it shows that the laws can hold and serves the
    witnesses.  Instants are integers in microseconds. *)

From S2P Require Import Prelude PyFloat PyStr.
From Stdlib Require Import Ascii.

(** The exceptions the modelled code raises or distinguishes. *)
Inductive pyexn :=
| KeyError
| TypeError
| ValueError
| RuntimeError
| HTTPError (msg : string)
| HTTPException (status : Z) (retry_after : option Z)
| ConnectionError
| TimeoutError (msg : string)
| OtherError (msg : string).

#[global] Instance pyexn_eq_dec : EqDecision pyexn.
Proof. solve_decision. Defined.

(** ** The monad *)

Definition M (S A : Type) : Type := S -> result pyexn A * S.

#[global] Instance M_ret S : MRet (M S) := fun A a s => (Ok a, s).
#[global] Instance M_bind S : MBind (M S) := fun A B k m s =>
  match m s with
  | (Ok a, s') => k a s'
  | (Raise e, s') => (Raise e, s')
  end.

Definition raise {S A} (e : pyexn) : M S A := fun s => (Raise e, s).
Definition lift {S A} (r : result pyexn A) : M S A := fun s => (r, s).

(** [try: m except Exception: h] *)
Definition try_except {S A} (m : M S A) (h : pyexn -> M S A) : M S A := fun s =>
  match m s with
  | (Ok a, s') => (Ok a, s')
  | (Raise e, s') => h e s'
  end.

Lemma M_bind_run {S A B} (m : M S A) (k : A -> M S B) s :
  (m ≫= k) s = match m s with (Ok a, s') => k a s' | (Raise e, s') => (Raise e, s') end.
Proof. reflexivity. Qed.

Lemma M_bind_ok {S A B} (m : M S A) (k : A -> M S B) w b w2 :
  (m ≫= k) w = (Ok b, w2) <-> exists a w1, m w = (Ok a, w1) /\ k a w1 = (Ok b, w2).
Proof. rewrite M_bind_run. destruct (m w) as [[a|e] w1]; naive_solver. Qed.

(** [for x in l: f(x)] *)
Fixpoint for_each {S A} (f : A -> M S unit) (l : list A) : M S unit :=
  match l with
  | [] => mret tt
  | a :: l => f a ≫= fun _ => for_each f l
  end.

(** Hoare triples with a postcondition [E] for the runs that raise. *)
Definition triple {S A} (E : pyexn -> S -> Prop) (P : S -> Prop) (m : M S A) (Q : A -> S -> Prop) : Prop :=
  forall s, P s -> match m s with (Ok a, s') => Q a s' | (Raise e, s') => E e s' end.

Section triples.
Context {S : Type} (E : pyexn -> S -> Prop).

Lemma triple_ret {A} (a : A) (Q : A -> S -> Prop) : triple E (Q a) (mret a) Q.
Proof. by intros s H. Qed.

Lemma triple_bind {A B} P (m : M S A) R (k : A -> M S B) Q :
  triple E P m R -> (forall a, triple E (R a) (k a) Q) -> triple E P (m ≫= k) Q.
Proof.
  intros Hm Hk s HP. rewrite M_bind_run. specialize (Hm s HP).
  destruct (m s) as [[a|e] s']; [by apply Hk | done].
Qed.

Lemma triple_weaken {A} (P P' : S -> Prop) (m : M S A) Q :
  (forall s, P s -> P' s) -> triple E P' m Q -> triple E P m Q.
Proof. intros HP Hm s H. apply Hm. by apply HP. Qed.

Lemma triple_post {A} P (m : M S A) (Q Q' : A -> S -> Prop) :
  triple E P m Q -> (forall a s, Q a s -> Q' a s) -> triple E P m Q'.
Proof. intros Hm HQ s H. specialize (Hm s H). destruct (m s) as [[a|e] s']; auto. Qed.

Lemma triple_ex {A X} (P : X -> S -> Prop) (m : M S A) Q :
  (forall x, triple E (P x) m Q) -> triple E (fun s => exists x, P x s) m Q.
Proof. intros Hm s [x Hx]. by apply (Hm x). Qed.

Lemma triple_pure {A} (phi : Prop) P (m : M S A) Q :
  (phi -> triple E P m Q) -> triple E (fun s => phi /\ P s) m Q.
Proof. intros Hm s [Hphi Hs]. by apply Hm. Qed.

(** Loop rule: the invariant may mention the items already done. *)
Lemma triple_for {A} (I : list A -> S -> Prop) (f : A -> M S unit) l :
  (forall done a todo, l = done ++ a :: todo -> triple E (I done) (f a) (fun _ => I (done ++ [a]))) ->
  triple E (I []) (for_each f l) (fun _ => I l).
Proof.
  intros Hf. enough (forall todo done, l = done ++ todo ->
    triple E (I done) (for_each f todo) (fun _ => I l)) as H by by apply (H l []).
  induction todo as [|a todo IH]; intros don ->.
  - rewrite app_nil_r. by intros s H.
  - cbn. eapply triple_bind; [by eapply Hf|]. intros []. apply IH. by rewrite <- app_assoc.
Qed.
End triples.

Lemma triple_exn {S A} (E E' : pyexn -> S -> Prop) P (m : M S A) Q :
  triple E P m Q -> (forall e s, E e s -> E' e s) -> triple E' P m Q.
Proof. intros Hm HE s H. specialize (Hm s H). destruct (m s) as [[a|e] s']; auto. Qed.

(** Execute a monadic program on its store. *)
Ltac run_M := unfold mbind, M_bind, mret, M_ret, lift, raise, try_except; cbn.

(** ** JSON documents *)

Inductive json :=
| JNull
| JBool (b : bool)
| JInt (n : Z)
| JFloat (x : float)
| JStr (s : string)
| JList (l : list json)
| JObj (fields : list (string * json)).

(** Induction through objects and arrays. *)
Section json_induction.
Variable P : json -> Prop.
Hypothesis Pobj : forall d, Forall (fun kv => P kv.2) d -> P (JObj d).
Hypothesis Plist : forall l, Forall P l -> P (JList l).
Hypothesis Pleaf : forall j, match j with JObj _ | JList _ => True | _ => P j end.

Fixpoint json_ind_nested (j : json) : P j :=
  match j with
  | JObj d => Pobj d ((fix go d : Forall (fun kv => P kv.2) d :=
                         match d with [] => Forall_nil_2 _ | kv :: d => Forall_cons_2 _ kv d (json_ind_nested kv.2) (go d) end) d)
  | JList l => Plist l ((fix go l : Forall P l :=
                           match l with [] => Forall_nil_2 _ | j :: l => Forall_cons_2 _ j l (json_ind_nested j) (go l) end) l)
  | j => Pleaf j
  end.
End json_induction.

Fixpoint assoc {A} (k : string) (l : list (string * A)) : option A :=
  match l with
  | [] => None
  | (k', v) :: l => if String.eqb k k' then Some v else assoc k l
  end.

(** [d[k] = v] on a dict in insertion order. *)
Fixpoint assoc_set {A} (k : string) (v : A) (l : list (string * A)) : list (string * A) :=
  match l with
  | [] => [(k, v)]
  | (k', v') :: l => if String.eqb k k' then (k', v) :: l else (k', v') :: assoc_set k v l
  end.

(** [j[k]] with a string key. *)
Definition jindex (j : json) (k : string) : result pyexn json :=
  match j with
  | JObj fields => match assoc k fields with Some v => Ok v | None => Raise KeyError end
  | _ => Raise TypeError
  end.

(** [j.get(k, d)]; a non-dict has no such method (an [AttributeError]). *)
Definition jget (j : json) (k : string) (d : json) : result pyexn json :=
  match j with
  | JObj fields => Ok (default d (assoc k fields))
  | _ => Raise (OtherError "AttributeError")
  end.

(** [j[k] = v] *)
Definition jset (j : json) (k : string) (v : json) : result pyexn json :=
  match j with
  | JObj fields => Ok (JObj (assoc_set k v fields))
  | _ => Raise TypeError
  end.

(** [j == "..."] *)
Definition jeq_str (j : json) (s : string) : bool :=
  match j with JStr t => String.eqb t s | _ => false end.

(** [j + 1] and [j >= n] on the integer values the code keeps. *)
Definition jincr (j : json) : result pyexn json :=
  match j with
  | JInt n => Ok (JInt (n + 1))
  | JBool b => Ok (JInt (Z.b2z b + 1))
  | JFloat x => Ok (JFloat (fadd x f1))
  | _ => Raise TypeError
  end.

Definition jge (j : json) (n : Z) : result pyexn bool :=
  match j with
  | JInt m => Ok (n <=? m)
  | JBool b => Ok (n <=? Z.b2z b)
  | JFloat x => Ok (fleb (float_of_Z n) x)
  | _ => Raise TypeError
  end.

(** Text stored in Redis, seen through [json.loads]: the document it denotes,
    or text that is not JSON. *)
Inductive text :=
| Json (j : json)
| NotJson (s : string).

Definition json_dumps (j : json) : text := Json j.
Definition json_loads (t : text) : result pyexn json :=
  match t with Json j => Ok j | NotJson _ => Raise ValueError end.

(** [k in d] *)
Definition in_dict {A} (k : string) (d : list (string * A)) : bool :=
  match assoc k d with Some _ => true | None => false end.

Section assoc.
Context {A : Type}.
Implicit Types l : list (string * A).

Lemma assoc_set_eq k v l : assoc k (assoc_set k v l) = Some v.
Proof.
  induction l as [|[k' v'] l IH]; simpl; [by rewrite String.eqb_refl|].
  destruct (String.eqb k k') eqn:E; simpl; by rewrite E.
Qed.

Lemma assoc_set_ne k k' v l : k <> k' -> assoc k' (assoc_set k v l) = assoc k' l.
Proof.
  intros Hne. induction l as [|[k2 v2] l IH]; simpl.
  - by destruct (String.eqb_spec k' k).
  - destruct (String.eqb_spec k k2) as [->|]; simpl.
    + by destruct (String.eqb_spec k' k2).
    + by rewrite IH.
Qed.

Lemma assoc_elem k l : is_Some (assoc k l) <-> k ∈ map fst l.
Proof.
  induction l as [|[k' v] l IH]; simpl.
  - rewrite elem_of_nil. split; [by intros [? [=]] | done].
  - rewrite elem_of_cons. destruct (String.eqb_spec k k') as [->|Hne].
    + split; [by left | eauto].
    + rewrite IH. naive_solver.
Qed.

Lemma in_dict_elem k l : in_dict k l = true <-> k ∈ map fst l.
Proof.
  rewrite <- assoc_elem. unfold in_dict. destruct (assoc k l); split; eauto; try done.
  all: by intros [? [=]].
Qed.

Lemma assoc_set_keys k v l :
  map fst (assoc_set k v l) = if in_dict k l then map fst l else map fst l ++ [k].
Proof.
  unfold in_dict. induction l as [|[k' v'] l IH]; simpl; [done|].
  destruct (String.eqb_spec k k') as [->|Hne]; simpl; [done|].
  rewrite IH. by destruct (assoc k l).
Qed.

Lemma assoc_set_NoDup k v l : NoDup (map fst l) -> NoDup (map fst (assoc_set k v l)).
Proof.
  intros Hl. rewrite assoc_set_keys. destruct (in_dict k l) eqn:E; [done|]. apply NoDup_app. split; [done|].
  split; [|apply NoDup_singleton]. intros x Hx ->%list_elem_of_singleton. by rewrite (proj2 (in_dict_elem _ _) Hx) in E.
Qed.

(** An entry of a dictionary is found under its key. *)
Lemma assoc_entry l k v : NoDup (map fst l) -> (k, v) ∈ l -> assoc k l = Some v.
Proof.
  induction l as [|[k' v'] l IH]; intros Hn Hin; [by apply elem_of_nil in Hin|].
  inversion Hn as [|? ? Hni Hn']; subst. simpl. apply elem_of_cons in Hin as [[= -> ->]|Hin]; [by rewrite String.eqb_refl|].
  destruct (String.eqb_spec k k') as [->|]; [|auto].
  exfalso. apply Hni. apply list_elem_of_In, in_map_iff. exists (k', v). by rewrite <- list_elem_of_In.
Qed.

(** [d.pop(k, None)] removes the key. *)
Lemma assoc_filtered l k : assoc k (List.filter (fun e => negb (String.eqb k e.1)) l) = None.
Proof.
  induction l as [|[k' v] l IH]; simpl; [done|]. destruct (String.eqb k k') eqn:E; simpl; [done|]. by rewrite E.
Qed.
End assoc.

(** ** Redis *)

Class Redis (S V : Type) := {
  view : S -> string -> option V;
  redis_get : string -> M S (option V);
  redis_set : string -> V -> option Z -> M S unit;

  (** GET returns the current value and changes nothing, also when it fails. *)
  redis_get_view k s : forall k', view (redis_get k s).2 k' = view s k';
  redis_get_ok k s v : (redis_get k s).1 = Ok v -> v = view s k;
  (** SET changes one key only; a failed SET may or may not have been applied. *)
  redis_set_frame k v ex s k' : k <> k' -> view (redis_set k v ex s).2 k' = view s k';
  redis_set_ok k v ex s : (redis_set k v ex s).1 = Ok tt -> view (redis_set k v ex s).2 k = Some v;
  redis_set_err k v ex s e : (redis_set k v ex s).1 = Raise e ->
    view (redis_set k v ex s).2 k = view s k \/ view (redis_set k v ex s).2 k = Some v;
}.

(** A store on which every call succeeds. *)
Class RedisUp {S V} `{Redis S V} (up : S -> Prop) := {
  up_get k s : up s -> (redis_get k s).1 = Ok (view s k) /\ up (redis_get k s).2;
  up_set k v s : up s -> (redis_set k v None s).1 = Ok tt /\ up (redis_set k v None s).2;
  up_setex k v ttl s : up s -> 0 < ttl ->
    (redis_set k v (Some ttl) s).1 = Ok tt /\ up (redis_set k v (Some ttl) s).2;
}.

Module MemRedis.
Section mem.
Context {V : Type}.

Record store := Store {
  data : gmap string (V * option Z);   (* value and expiry instant *)
  clock : Z;                           (* microseconds *)
  outages : list bool;                 (* whether each coming call fails *)
}.

Definition live (s : store) (e : V * option Z) : bool :=
  match e.2 with Some t => clock s <? t | None => true end.

Definition mem_view (s : store) (k : string) : option V :=
  match data s !! k with
  | Some e => if live s e then Some e.1 else None
  | None => None
  end.

(** Consume one scripted outcome; an exhausted script means "up". *)
Definition next_fails (s : store) : bool := match outages s with b :: _ => b | [] => false end.
Definition consume (s : store) : store := Store (data s) (clock s) (tl (outages s)).

Definition mem_get (k : string) : M store (option V) := fun s =>
  if next_fails s then (Raise ConnectionError, consume s) else (Ok (mem_view s k), consume s).

Definition mem_set (k : string) (v : V) (ex : option Z) : M store unit := fun s =>
  if next_fails s then (Raise ConnectionError, consume s)
  else match ex with
       | Some ttl =>
           if 0 <? ttl then
             (Ok tt, consume (Store (<[k := (v, Some (clock s + ttl * 1000000))]> (data s))
                                (clock s) (outages s)))
           else (Raise (OtherError "invalid expire time"), consume s)
       | None => (Ok tt, consume (Store (<[k := (v, None)]> (data s)) (clock s) (outages s)))
       end.

(** Time passes between calls. *)
Definition tick (us : Z) (s : store) : store := Store (data s) (clock s + us) (outages s).

Lemma consume_view s k : mem_view (consume s) k = mem_view s k.
Proof. reflexivity. Qed.

#[global] Instance mem_redis : Redis store V.
Proof.
  refine {| view := mem_view; redis_get := mem_get; redis_set := mem_set |}.
  - intros k s k'. unfold mem_get. by destruct (next_fails s).
  - intros k s v. unfold mem_get. by destruct (next_fails s); intros [= ->].
  - intros k v ex s k' Hne. unfold mem_set. destruct (next_fails s); [done|].
    destruct ex as [ttl|]; [destruct (0 <? ttl)|]; simpl; rewrite ?consume_view; try done;
      unfold mem_view; simpl; by rewrite lookup_insert_ne.
  - intros k v ex s. unfold mem_set. destruct (next_fails s); [done|].
    destruct ex as [ttl|]; [destruct (Z.ltb_spec 0 ttl); [|done]|]; intros _;
      unfold mem_view; simpl; rewrite lookup_insert_eq; simpl; [|done].
    unfold live; simpl. rewrite (proj2 (Z.ltb_lt _ _)); [done | lia].
  - intros k v ex s e. unfold mem_set. destruct (next_fails s); [by left|].
    destruct ex as [ttl|]; [destruct (0 <? ttl)|]; by simpl; auto.
Defined.

#[global] Instance mem_redis_up : RedisUp (fun s : store => outages s = []).
Proof.
  constructor.
  - intros k s H. simpl. unfold mem_get, next_fails. rewrite H. simpl. by rewrite ?H.
  - intros k v s H. simpl. unfold mem_set, next_fails. rewrite H. simpl. by rewrite ?H.
  - intros k v ttl s H Ht. simpl. unfold mem_set, next_fails. rewrite H.
    rewrite (proj2 (Z.ltb_lt _ _)) by done. simpl. by rewrite ?H.
Qed.
End mem.
Arguments store : clear implicits.
End MemRedis.

(** ** ISO-8601 timestamps *)

(** [datetime.isoformat] and [datetime.fromisoformat] on aware UTC instants:
    parsing a printed instant gives it back. *)
Class IsoTime := {
  isoformat : Z -> string;
  fromisoformat : string -> option Z;
  iso_roundtrip t : fromisoformat (isoformat t) = Some t;
}.

Module BitIso.
(** An executable codec for the witnesses: sign, then binary digits. *)
Fixpoint print_pos (p : positive) : string :=
  match p with xH => "" | xO p => String "0" (print_pos p) | xI p => String "1" (print_pos p) end.
Fixpoint parse_pos (s : string) : option positive :=
  match s with
  | EmptyString => Some xH
  | String c s' =>
      if Ascii.eqb c "0"%char then xO <$> parse_pos s'
      else if Ascii.eqb c "1"%char then xI <$> parse_pos s' else None
  end.
Definition print_Z (z : Z) : string :=
  match z with Z0 => "Z" | Zpos p => String "P" (print_pos p) | Zneg p => String "N" (print_pos p) end.
Definition parse_Z (s : string) : option Z :=
  match s with
  | String c s' =>
      if Ascii.eqb c "Z"%char then Some 0
      else if Ascii.eqb c "P"%char then Z.pos <$> parse_pos s'
      else if Ascii.eqb c "N"%char then Z.neg <$> parse_pos s' else None
  | EmptyString => None
  end.
Lemma parse_print_pos p : parse_pos (print_pos p) = Some p.
Proof. induction p; simpl; [by rewrite IHp | by rewrite IHp | done]. Qed.
#[export] Instance bit_iso : IsoTime.
Proof.
  refine {| isoformat := print_Z; fromisoformat := parse_Z |}.
  intros [|p|p]; cbn; [done | by rewrite parse_print_pos..].
Defined.
End BitIso.
