(* ===== verification/Database.v ===== *)
(** * Database sessions (the SQLAlchemy surface of [src/db/session.py] and its users)

    What repositories see of an [AsyncSession] created with
    [expire_on_commit=False] and [autoflush=False]: every statement and commit
    may fail; a failed commit is rolled back, leaves the tables as they were and
    expires every object the session has loaded, so that the next attribute
    access raises [MissingGreenlet]; [scalar_one_or_none] raises on a second
    row.  A component's state is any type with an instance of [Db]: a script that
    says which of the coming round trips succeed. *)

From S2P Require Import Prelude Effects.

Class Db (W : Type) := {
  script : W -> list bool;               (* whether each coming round trip succeeds; exhausted: yes *)
  set_script : list bool -> W -> W;
  set_script_script w : set_script (script w) w = w;
  script_set_script cs w : script (set_script cs w) = cs;
}.

Definition db_error : pyexn := OtherError "database error".
Definition integrity_error : pyexn := OtherError "IntegrityError".
Definition multiple_results : pyexn := OtherError "MultipleResultsFound".
Definition missing_greenlet : pyexn := OtherError "MissingGreenlet".

Section session.
Context {W : Type} `{Db W}.

(** One round trip to the database. *)
Definition statement : M W unit := fun w =>
  (if default true (head (script w)) then Ok tt else Raise db_error, set_script (tl (script w)) w).

Definition gets {A} (read : W -> A) : M W A := fun w => (Ok (read w), w).
Definition modify (change : W -> W) : M W unit := fun w => (Ok tt, change w).

(** A query; a commit of a change; a commit under a uniqueness constraint. *)
Definition select {A} (read : W -> A) : M W A := statement ≫= fun _ => gets read.
Definition save (change : W -> W) : M W unit := statement ≫= fun _ => modify change.
Definition save_if (valid : W -> bool) (change : W -> W) : M W unit :=
  statement ≫= fun _ => gets valid ≫= fun ok : bool => if ok then modify change else raise integrity_error.

(** [session.commit()] then [session.refresh]: the row is stored even if reading it back fails. *)
Definition save_refresh (change : W -> W) : M W unit := save change ≫= fun _ => statement.

(** A commit whose failure is rolled back and swallowed; the result says whether
    the objects loaded so far can still be read. *)
Definition save_or_rollback (change : W -> W) : M W bool :=
  try_except (save change ≫= fun _ => mret true) (fun _ => mret false).

(** Reading an attribute of an object loaded before. *)
Definition read_attribute (loaded : bool) : M W unit := if loaded then mret tt else raise missing_greenlet.

Definition scalar_one_or_none {A} (rows : list A) : M W (option A) :=
  match rows with
  | [] => mret None
  | [a] => mret (Some a)
  | _ => raise multiple_results
  end.

(** ** Without failures *)

Lemma statement_ok w : script w = [] -> statement w = (Ok tt, w).
Proof.
  intros Hs. unfold statement. rewrite Hs. cbn. f_equal. rewrite <- Hs. apply set_script_script.
Qed.

Lemma select_ok {A} (read : W -> A) w : script w = [] -> select read w = (Ok (read w), w).
Proof. intros Hs. unfold select. by rewrite M_bind_run, statement_ok. Qed.

Lemma save_ok change w : script w = [] -> save change w = (Ok tt, change w).
Proof. intros Hs. unfold save. by rewrite M_bind_run, statement_ok. Qed.

Lemma save_if_ok valid change w : script w = [] ->
  save_if valid change w = if valid w then (Ok tt, change w) else (Raise integrity_error, w).
Proof.
  intros Hs. unfold save_if. rewrite !M_bind_run, statement_ok by done. cbn. rewrite M_bind_run. cbn.
  by destruct (valid w).
Qed.

Lemma save_refresh_ok change w :
  script w = [] -> script (change w) = [] -> save_refresh change w = (Ok tt, change w).
Proof. intros Hw Hc. unfold save_refresh. by rewrite M_bind_run, save_ok, statement_ok. Qed.

Lemma save_or_rollback_ok change w : script w = [] -> save_or_rollback change w = (Ok true, change w).
Proof. intros Hs. unfold save_or_rollback, try_except. by rewrite M_bind_run, save_ok. Qed.

Lemma find_head_filter {A} (f : A -> bool) l : List.find f l = head (List.filter f l).
Proof. induction l as [|a l IH]; [done|]. cbn. by destruct (f a). Qed.

(** A look-up by a unique column. *)
Lemma lookup_ok {A} (f : A -> bool) (rows : W -> list A) w : script w = [] ->
  List.filter f (rows w) = [] \/ (exists x, List.filter f (rows w) = [x] /\ x ∈ rows w /\ f x = true) ->
  (select (fun w => List.filter f (rows w)) ≫= scalar_one_or_none) w = (Ok (List.find f (rows w)), w).
Proof.
  intros Hs Hu. rewrite M_bind_run, select_ok, find_head_filter by done.
  by destruct Hu as [->|(x & -> & _)].
Qed.

(** Round trips of a scripted session. *)
Lemma statement_next b cs w : script w = b :: cs ->
  statement w = (if b then Ok tt else Raise db_error, set_script cs w).
Proof. intros Hs. unfold statement. by rewrite Hs. Qed.

Lemma save_next b cs change w : script w = b :: cs ->
  save change w = if b then (Ok tt, change (set_script cs w)) else (Raise db_error, set_script cs w).
Proof. intros Hs. unfold save. rewrite M_bind_run, (statement_next b cs) by done. by destruct b. Qed.

Lemma lookup_next {A} (f : A -> bool) (rows : W -> list A) cs w : script w = true :: cs ->
  rows (set_script cs w) = rows w ->
  List.filter f (rows w) = [] \/ (exists x, List.filter f (rows w) = [x] /\ x ∈ rows w /\ f x = true) ->
  (select (fun w => List.filter f (rows w)) ≫= scalar_one_or_none) w = (Ok (List.find f (rows w)), set_script cs w).
Proof.
  intros Hs Hr Hu. unfold select. rewrite !M_bind_run, (statement_next true cs) by done. cbn. rewrite Hr, find_head_filter.
  by destruct Hu as [->|(x & -> & _)].
Qed.

(** ** Runs that return *)

Lemma statement_returns w u w' : statement w = (Ok u, w') -> exists cs, w' = set_script cs w.
Proof. unfold statement. destruct (default true _); intros [= _ <-]; eauto. Qed.

Lemma select_returns {A} (read : W -> A) w a w' : select read w = (Ok a, w') ->
  a = read w' /\ exists cs, w' = set_script cs w.
Proof.
  unfold select. intros (u & w1 & [cs ->]%statement_returns & [= <- <-])%M_bind_ok. eauto.
Qed.

Lemma save_returns change w u w' : save change w = (Ok u, w') -> exists cs, w' = change (set_script cs w).
Proof. unfold save. intros (v & w1 & [cs ->]%statement_returns & [= _ <-])%M_bind_ok. eauto. Qed.

Lemma save_refresh_returns change w u w' : save_refresh change w = (Ok u, w') ->
  exists cs cs', w' = set_script cs' (change (set_script cs w)).
Proof.
  unfold save_refresh. intros (v & w1 & [cs ->]%save_returns & [cs' ->]%statement_returns)%M_bind_ok. eauto.
Qed.

Lemma scalar_returns {A} (rows : list A) w o w' : scalar_one_or_none rows w = (Ok o, w') ->
  w' = w /\ rows = match o with Some a => [a] | None => [] end.
Proof. destruct rows as [|a [|b rows]]; by intros [= <- <-]. Qed.

(** ** Keeping an invariant whatever fails *)

Definition db_exn (e : pyexn) : Prop :=
  e = db_error \/ e = integrity_error \/ e = missing_greenlet.

Definition stable (P : W -> Prop) : Prop := forall cs w, P w -> P (set_script cs w).

Section keeps.
Variables (I P : W -> Prop).

(** A run that raises does so on a failure of the session and keeps [I]. *)
Definition aborted (e : pyexn) (w : W) : Prop := db_exn e /\ I w.

Hypothesis HP : forall w, P w -> I w.
Hypothesis HPs : stable P.

Lemma statement_keeps : triple aborted P statement (fun _ => P).
Proof.
  intros w Hw. unfold statement. destruct (default true (head (script w))); [by apply HPs|].
  split; [by left | by apply HP, HPs].
Qed.

Lemma select_keeps {A} (read : W -> A) : triple aborted P (select read) (fun a w => P w /\ a = read w).
Proof. eapply triple_bind; [exact statement_keeps|]. by intros [] w Hw. Qed.

Lemma save_keeps Q change : (forall w, P w -> Q (change w)) -> triple aborted P (save change) (fun _ => Q).
Proof. intros Hc. eapply triple_bind; [exact statement_keeps|]. intros [] w Hw. by apply Hc. Qed.

Lemma save_if_keeps Q valid change :
  (forall w, P w -> valid w = true -> Q (change w)) -> triple aborted P (save_if valid change) (fun _ => Q).
Proof.
  intros Hc. eapply triple_bind; [exact statement_keeps|]. intros [] w Hw.
  rewrite M_bind_run. cbn. destruct (valid w) eqn:E; cbn; [by apply Hc|]. split; [by right; left | by apply HP].
Qed.

Lemma save_or_rollback_keeps change :
  (forall w, P w -> P (change w)) -> triple aborted P (save_or_rollback change) (fun _ => P).
Proof.
  intros Hc w Hw. unfold save_or_rollback, try_except, save. rewrite !M_bind_run. unfold statement.
  destruct (default true (head (script w))); cbn; [by apply Hc, HPs | by apply HPs].
Qed.

Lemma read_attribute_keeps loaded : triple aborted P (read_attribute loaded) (fun _ => P).
Proof. intros w Hw. destruct loaded; [done|]. split; [by right; right | by apply HP]. Qed.
End keeps.

Lemma save_refresh_keeps (I P : W -> Prop) change :
  (forall w, P w -> I w) -> stable P -> stable I -> (forall w, P w -> I (change w)) ->
  triple (aborted I) P (save_refresh change) (fun _ => I).
Proof.
  intros HP HPs HIs Hc. eapply triple_bind; [by apply (save_keeps I P)|]. intros []. by apply statement_keeps.
Qed.
End session.

Arguments aborted {W} I e w.
Arguments stable {W _} P.

(** ** What a run leaves alone *)

Section frames.
Context {W X : Type} (f : W -> X).

Definition frames {A} (m : M W A) : Prop := forall w, f (m w).2 = f w.

Lemma frames_same {A} (m : M W A) : (forall w, (m w).2 = w) -> frames m.
Proof. intros Hm w. by rewrite Hm. Qed.

Lemma frames_bind {A B} (m : M W A) (k : A -> M W B) : frames m -> (forall a, frames (k a)) -> frames (m ≫= k).
Proof.
  intros Hm Hk w. rewrite M_bind_run. specialize (Hm w). destruct (m w) as [[a|e] w']; cbn in *; [|done].
  by rewrite Hk.
Qed.

Lemma frames_try {A} (m : M W A) h : frames m -> (forall e, frames (h e)) -> frames (try_except m h).
Proof.
  intros Hm Hh w. unfold try_except. specialize (Hm w). destruct (m w) as [[a|e] w']; cbn in *; [done|].
  by rewrite Hh.
Qed.

Context `{!Db W}.
Hypothesis script_frame : forall cs w, f (set_script cs w) = f w.

Lemma frames_statement : frames statement.
Proof. intros w. unfold statement. apply script_frame. Qed.

Lemma frames_select {A} (read : W -> A) : frames (select read).
Proof. apply frames_bind; [apply frames_statement|]. intros []. by apply frames_same. Qed.

Lemma frames_save change : (forall w, f (change w) = f w) -> frames (save change).
Proof. intros Hc. apply frames_bind; [apply frames_statement|]. intros [] w. apply Hc. Qed.
End frames.
