(* ===== verification/Uncertainty.v ===== *)
(** * Uncertainty estimates and their propagation
    ([src/orchestrator/schemas/uncertainty.py],
     [src/orchestrator/agents/synthesis/uncertainty_propagation.py])

    [UncertaintyEstimate] with its pydantic validation as a checked
    constructor, the two conversion class methods, and the combination rule
    [propagate_uncertainty], on binary64 floats. *)

From S2P Require Import Prelude PyFloat FloatRound PyStr.

Inductive SourceType := data_sparsity | model_uncertainty | evidence_conflict | well_supported.

#[global] Instance SourceType_eq_dec : EqDecision SourceType.
Proof. solve_decision. Defined.

Record UncertaintyEstimate := Estimate {
  point_estimate : float;
  lower_bound : float;
  upper_bound : float;
  source : SourceType;
}.

Definition DEFAULT_LEGACY_FALLBACK_MARGIN : float := flit 1 10.
Definition DEFAULT_POINT_ESTIMATE_INTERVAL_MARGIN : float := flit 8 100.

Inductive estimate_error := FieldRange | InvalidInterval | OutOfRange.

(** [ge=0.0, le=1.0] *)
Definition in_unit (x : float) : bool := fleb f0 x && fleb x f1.

(** [validate_bounds] *)
Definition validate_bounds (e : UncertaintyEstimate) : bool :=
  fleb (lower_bound e) (point_estimate e) && fleb (point_estimate e) (upper_bound e).

Definition valid_estimate (e : UncertaintyEstimate) : bool :=
  in_unit (point_estimate e) && in_unit (lower_bound e) && in_unit (upper_bound e) &&
  validate_bounds e.

(** Construction through pydantic: field constraints first, then the model
    validator. *)
Definition make_estimate (pt lo hi : float) (src : SourceType)
    : result estimate_error UncertaintyEstimate :=
  let e := Estimate pt lo hi src in
  raise_if (negb (in_unit pt && in_unit lo && in_unit hi)) FieldRange ;;
  raise_if (negb (validate_bounds e)) InvalidInterval ;;
  Ok e.

Definition from_point_estimate (point_estimate margin : float) (src : SourceType)
    : result estimate_error UncertaintyEstimate :=
  raise_if (negb (fleb f0 point_estimate && fleb point_estimate f1)) OutOfRange ;;
  make_estimate point_estimate (fmax f0 (fsub point_estimate margin))
    (fmin f1 (fadd point_estimate margin)) src.

Definition from_legacy_confidence (confidence : float) (src : SourceType)
    : result estimate_error UncertaintyEstimate :=
  raise_if (negb (fleb f0 confidence && fleb confidence f1)) OutOfRange ;;
  make_estimate confidence (fmax f0 (fsub confidence DEFAULT_LEGACY_FALLBACK_MARGIN))
    (fmin f1 (fadd confidence DEFAULT_LEGACY_FALLBACK_MARGIN)) src.

(** ** Propagation *)

Definition CONFLICT_SPREAD_THRESHOLD : float := flit 15 100.
Definition MIN_CONFLICT_PADDING : float := flit 5 100.

(** [itertools.combinations(xs, 2)] *)
Fixpoint combinations2 {A} (xs : list A) : list (A * A) :=
  match xs with
  | [] => []
  | x :: xs => map (fun y => (x, y)) xs ++ combinations2 xs
  end.

Definition disjoint_pair (p : UncertaintyEstimate * UncertaintyEstimate) : bool :=
  fltb (upper_bound p.1) (lower_bound p.2) || fltb (upper_bound p.2) (lower_bound p.1).

Definition has_source (src : SourceType) (es : list UncertaintyEstimate) : bool :=
  existsb (fun e => bool_decide (source e = src)) es.

(** Steps 1 to 5 of [propagate_uncertainty] on at least two estimates
    [e :: es]. *)
Section combine.
Variables (e : UncertaintyEstimate) (es : list UncertaintyEstimate).

Definition min_pt : float := fmin_list (point_estimate e) (map point_estimate es).
Definition max_pt : float := fmax_list (point_estimate e) (map point_estimate es).
Definition union_lower : float := fmin_list (lower_bound e) (map lower_bound es).
Definition union_upper : float := fmax_list (upper_bound e) (map upper_bound es).
Definition spread : float := fsub max_pt min_pt.

Definition is_conflict : bool :=
  fleb CONFLICT_SPREAD_THRESHOLD spread ||
  existsb disjoint_pair (combinations2 (e :: es)) ||
  has_source evidence_conflict (e :: es).

Definition combined_source : SourceType :=
  if is_conflict then evidence_conflict
  else if has_source data_sparsity (e :: es) then data_sparsity
  else if has_source model_uncertainty (e :: es) then model_uncertainty
  else well_supported.

Definition avg_pt : float :=
  fdiv (fsum (map point_estimate (e :: es))) (float_of_Z (Z.of_nat (length (e :: es)))).

Definition penalty : float := fmax MIN_CONFLICT_PADDING (fdiv spread (float_of_Z 2)).

(** [max(0.0, min(1.0, x))] *)
Definition clamp01 (x : float) : float := fmax f0 (fmin f1 x).

Definition combined_lower : float :=
  let lo := if is_conflict then fsub (fmin union_lower min_pt) penalty else union_lower in
  clamp01 (fmin lo union_lower).

Definition combined_upper : float :=
  let hi := if is_conflict then fadd (fmax union_upper max_pt) penalty else union_upper in
  clamp01 (fmax hi union_upper).

Definition combined_pt : float := fmax combined_lower (fmin combined_upper avg_pt).
End combine.

Definition propagate_uncertainty (estimates : list UncertaintyEstimate)
    : result estimate_error UncertaintyEstimate :=
  match estimates with
  | [] => make_estimate (flit 5 10) f0 f1 model_uncertainty
  | [single] =>
      make_estimate (point_estimate single) (lower_bound single) (upper_bound single) (source single)
  | e :: es =>
      make_estimate (combined_pt e es) (combined_lower e es) (combined_upper e es)
        (combined_source e es)
  end.

(** ** Lemmas *)

Lemma in_unit_spec x : in_unit x = true <-> fle f0 x /\ fle x f1.
Proof. unfold in_unit. by rewrite andb_true_iff. Qed.

Lemma in_unit_finite x : in_unit x = true -> is_finite x = true /\ is_nan x = false.
Proof. rewrite in_unit_spec. intros [? ?]. by apply unit_interval_finite. Qed.

Lemma make_estimate_ok pt lo hi src e :
  make_estimate pt lo hi src = Ok e <->
  e = Estimate pt lo hi src /\ valid_estimate e = true.
Proof.
  unfold make_estimate, valid_estimate.
  destruct (in_unit pt && in_unit lo && in_unit hi) eqn:E1; simpl.
  - destruct (validate_bounds (Estimate pt lo hi src)) eqn:E2; simpl; split.
    + intros [= <-]. simpl. by rewrite E1.
    + intros [-> _]. done.
    + done.
    + intros [-> H]. rewrite E2, andb_false_r in H. done.
  - split; [done|]. intros [-> H]. simpl in H. by rewrite E1 in H.
Qed.

Lemma valid_estimate_spec e :
  valid_estimate e = true <->
  in_unit (point_estimate e) = true /\ in_unit (lower_bound e) = true /\
  in_unit (upper_bound e) = true /\ fle (lower_bound e) (point_estimate e) /\
  fle (point_estimate e) (upper_bound e).
Proof. unfold valid_estimate, validate_bounds. rewrite !andb_true_iff. unfold fle. tauto. Qed.

Lemma clamp01_unit x : is_nan x = false -> in_unit (clamp01 x) = true.
Proof.
  intros Hx. unfold clamp01. apply in_unit_spec. split; [by apply fmax_ge_l|].
  apply fmax_lub; [done|]. by apply fmin_le_l.
Qed.

Lemma clamp01_mono x y : fle x y -> fle (clamp01 x) (clamp01 y).
Proof.
  intros H. destruct (fle_nan _ _ H) as [Hx Hy]. unfold clamp01.
  assert (is_nan (fmin f1 y) = false) by auto with pyfloat.
  apply fmax_lub; [by apply fmax_ge_l|].
  eapply fle_trans; [|by apply fmax_ge_r].
  apply fmin_glb; [by apply fmin_le_l|]. eapply fle_trans; [by apply fmin_le_r | done].
Qed.

Lemma clamp01_le x y : is_nan x = false -> in_unit y = true -> fle x y -> fle (clamp01 x) y.
Proof.
  intros Hx [H0 H1]%in_unit_spec H. unfold clamp01. apply fmax_lub; [done|].
  eapply fle_trans; [by apply fmin_le_r | done].
Qed.

Lemma clamp01_ge x y : is_nan x = false -> in_unit y = true -> fle y x -> fle y (clamp01 x).
Proof.
  intros Hx [H0 H1]%in_unit_spec H. unfold clamp01.
  eapply fle_trans; [|apply fmax_ge_r; auto with pyfloat]. by apply fmin_glb.
Qed.

(** [max(lo, min(hi, x))] lies between [lo] and [hi] even when [x] is NaN. *)
Lemma clamp_between lo hi x : fle lo hi -> fle lo (fmax lo (fmin hi x)) /\ fle (fmax lo (fmin hi x)) hi.
Proof.
  intros H. destruct (fle_nan _ _ H) as [Hlo Hhi].
  split; [by apply fmax_ge_l|]. apply fmax_lub; [done|].
  unfold fmin. destruct (fltb x hi) eqn:E; [by apply flt_le | by apply fle_refl].
Qed.

Section combine_lemmas.
Variables (e : UncertaintyEstimate) (es : list UncertaintyEstimate).
Hypothesis valid : Forall (fun x => valid_estimate x = true) (e :: es).

Lemma field_unit (f : UncertaintyEstimate -> float) x :
  (forall e, valid_estimate e = true -> in_unit (f e) = true) ->
  x ∈ f e :: map f es -> in_unit x = true.
Proof.
  intros Hf Hx. change (f e :: map f es) with (map f (e :: es)) in Hx.
  apply list_elem_of_fmap in Hx as (y & -> & Hy). apply Hf.
  by eapply Forall_forall in valid.
Qed.

Lemma field_not_nan (f : UncertaintyEstimate -> float) :
  (forall e, valid_estimate e = true -> in_unit (f e) = true) ->
  Forall (fun v => is_nan v = false) (f e :: map f es).
Proof. intros Hf. apply Forall_forall. intros x Hx. by eapply in_unit_finite, field_unit. Qed.

Lemma pt_unit x : valid_estimate x = true -> in_unit (point_estimate x) = true.
Proof. rewrite valid_estimate_spec. tauto. Qed.
Lemma lo_unit x : valid_estimate x = true -> in_unit (lower_bound x) = true.
Proof. rewrite valid_estimate_spec. tauto. Qed.
Lemma hi_unit x : valid_estimate x = true -> in_unit (upper_bound x) = true.
Proof. rewrite valid_estimate_spec. tauto. Qed.

Lemma min_pt_unit : in_unit (min_pt e es) = true.
Proof. apply (field_unit point_estimate _ pt_unit), fmin_list_elem. Qed.
Lemma max_pt_unit : in_unit (max_pt e es) = true.
Proof. apply (field_unit point_estimate _ pt_unit), fmax_list_elem. Qed.
Lemma union_lower_unit : in_unit (union_lower e es) = true.
Proof. apply (field_unit lower_bound _ lo_unit), fmin_list_elem. Qed.
Lemma union_upper_unit : in_unit (union_upper e es) = true.
Proof. apply (field_unit upper_bound _ hi_unit), fmax_list_elem. Qed.

Lemma penalty_not_nan : is_nan (penalty e es) = false.
Proof.
  assert (float_of_Z 2 = S754_finite false 4503599627370496 (-51)) as E by (by vm_compute).
  unfold penalty. rewrite E. apply fmax_nan; [by vm_compute|]. apply fdiv_nan.
  unfold spread. apply fsub_nan; eapply in_unit_finite; [apply max_pt_unit | apply min_pt_unit].
Qed.

Lemma raw_lower_not_nan :
  is_nan (if is_conflict e es then fsub (fmin (union_lower e es) (min_pt e es)) (penalty e es)
          else union_lower e es) = false.
Proof.
  pose proof (in_unit_finite _ union_lower_unit) as [? ?].
  pose proof (in_unit_finite _ min_pt_unit) as [? ?].
  destruct is_conflict; [|done]. apply fsub_nan; [|apply penalty_not_nan].
  by destruct (fmin_cases (union_lower e es) (min_pt e es)) as [-> | ->].
Qed.

Lemma raw_upper_not_nan :
  is_nan (if is_conflict e es then fadd (fmax (union_upper e es) (max_pt e es)) (penalty e es)
          else union_upper e es) = false.
Proof.
  pose proof (in_unit_finite _ union_upper_unit) as [? ?].
  pose proof (in_unit_finite _ max_pt_unit) as [? ?].
  destruct is_conflict; [|done]. apply fadd_nan; [|apply penalty_not_nan].
  by destruct (fmax_cases (union_upper e es) (max_pt e es)) as [-> | ->].
Qed.

Lemma combined_lower_le : fle (combined_lower e es) (union_lower e es) /\
  in_unit (combined_lower e es) = true.
Proof.
  pose proof union_lower_unit as Hu. pose proof (in_unit_finite _ Hu) as [_ Hn].
  pose proof raw_lower_not_nan as Hr. unfold combined_lower. cbv zeta.
  split; [|by apply clamp01_unit, fmin_nan].
  apply clamp01_le; [by apply fmin_nan | done | by apply fmin_le_r].
Qed.

Lemma combined_upper_ge : fle (union_upper e es) (combined_upper e es) /\
  in_unit (combined_upper e es) = true.
Proof.
  pose proof union_upper_unit as Hu. pose proof (in_unit_finite _ Hu) as [_ Hn].
  pose proof raw_upper_not_nan as Hr. unfold combined_upper. cbv zeta.
  split; [|by apply clamp01_unit, fmax_nan].
  apply clamp01_ge; [by apply fmax_nan | done | by apply fmax_ge_r].
Qed.

Lemma union_lower_le x : x ∈ e :: es -> fle (union_lower e es) (lower_bound x).
Proof.
  intros Hx. apply fmin_list_le; [by apply field_not_nan, lo_unit|].
  change (lower_bound e :: map lower_bound es) with (lower_bound <$> (e :: es)).
  by apply list_elem_of_fmap_2.
Qed.

Lemma union_upper_ge x : x ∈ e :: es -> fle (upper_bound x) (union_upper e es).
Proof.
  intros Hx. apply fmax_list_ge; [by apply field_not_nan, hi_unit|].
  change (upper_bound e :: map upper_bound es) with (upper_bound <$> (e :: es)).
  by apply list_elem_of_fmap_2.
Qed.

Lemma combined_ordered : fle (combined_lower e es) (combined_upper e es).
Proof.
  destruct combined_lower_le as [Hl _], combined_upper_ge as [Hu _].
  assert (valid_estimate e = true) as (_ & _ & _ & H1 & H2)%valid_estimate_spec
    by by inversion valid.
  eapply fle_trans; [exact Hl|]. eapply fle_trans; [apply (union_lower_le e); by left|].
  eapply fle_trans; [exact H1|]. eapply fle_trans; [exact H2|].
  eapply fle_trans; [apply (union_upper_ge e); by left | exact Hu].
Qed.

Lemma combined_valid :
  valid_estimate (Estimate (combined_pt e es) (combined_lower e es) (combined_upper e es)
    (combined_source e es)) = true.
Proof.
  destruct combined_lower_le as [_ Hl], combined_upper_ge as [_ Hu].
  pose proof (clamp_between _ _ (avg_pt e es) combined_ordered) as [H1 H2].
  apply valid_estimate_spec. simpl. fold (combined_pt e es) in H1, H2.
  repeat split; try done. apply in_unit_spec in Hl as [Hl _], Hu as [_ Hu].
  apply in_unit_spec. split; by eapply fle_trans.
Qed.
End combine_lemmas.

(** An interval around a point: subtracting and adding a non-negative margin
    cannot cross the point, so validation succeeds. *)
Lemma in_unit_nonneg x : in_unit x = true -> nonneg_finite x = true.
Proof. rewrite in_unit_spec. intros [H0 H1]. by destruct x as [|[]| |[]]. Qed.

Lemma margin_interval_ok pt margin src :
  fvalid pt = true -> in_unit pt = true -> nonneg_finite margin = true ->
  make_estimate pt (fmax f0 (fsub pt margin)) (fmin f1 (fadd pt margin)) src =
    Ok (Estimate pt (fmax f0 (fsub pt margin)) (fmin f1 (fadd pt margin)) src).
Proof.
  intros Hv Hpt Hm. pose proof Hpt as [Hp0 Hp1]%in_unit_spec.
  pose proof (fsub_le pt margin Hv (in_unit_nonneg _ Hpt) Hm) as Hl.
  pose proof (fadd_ge pt margin Hv (in_unit_nonneg _ Hpt) Hm) as Hh.
  destruct (fle_nan _ _ Hl) as [Hnl _], (fle_nan _ _ Hh) as [_ Hnh].
  apply make_estimate_ok. split; [done|]. apply valid_estimate_spec. cbn [point_estimate lower_bound upper_bound].
  rewrite !in_unit_spec. repeat split; auto with pyfloat.
  - apply fmax_lub; [done|]. by eapply fle_trans.
  - apply fmin_glb; [done|]. by eapply fle_trans.
Qed.

(** ** Properties *)

(** A legacy confidence converts exactly when it lies in [0, 1]: the result
    is then a valid estimate around it, and otherwise the conversion raises.
    The same holds of [from_point_estimate] for every non-negative finite
    margin, with binary64 rounding of the bounds. *)
Theorem estimate_conversions (c margin : float) (src : SourceType) :
  fvalid c = true -> nonneg_finite margin = true ->
  (in_unit c = true ->
     (exists e, from_legacy_confidence c src = Ok e /\ valid_estimate e = true /\ point_estimate e = c) /\
     (exists e, from_point_estimate c margin src = Ok e /\ valid_estimate e = true /\ point_estimate e = c)) /\
  (in_unit c = false ->
     from_legacy_confidence c src = Raise OutOfRange /\ from_point_estimate c margin src = Raise OutOfRange).
Proof.
  intros Hv Hm. unfold from_legacy_confidence, from_point_estimate. fold (in_unit c).
  split; intros Hc; rewrite Hc; cbn -[make_estimate]; [|done].
  assert (nonneg_finite DEFAULT_LEGACY_FALLBACK_MARGIN = true) as Hd by by vm_compute.
  split; rewrite margin_interval_ok by done; eexists; split; try done; split; try done.
  - by eapply make_estimate_ok, (margin_interval_ok c DEFAULT_LEGACY_FALLBACK_MARGIN src).
  - by eapply make_estimate_ok, (margin_interval_ok c margin src).
Qed.

(** C29. On estimates that pass validation, [propagate_uncertainty] never raises
    and returns an estimate that passes validation: all fields in [0, 1] and
    lower bound <= point estimate <= upper bound, in binary64 arithmetic. *)
Theorem propagate_uncertainty_valid (estimates : list UncertaintyEstimate) :
  Forall (fun x => valid_estimate x = true) estimates ->
  exists e, propagate_uncertainty estimates = Ok e /\ valid_estimate e = true.
Proof.
  intros Hv. destruct estimates as [|e [|e2 es]]; simpl.
  - eexists; split; [apply make_estimate_ok; split; [reflexivity|]|]; by vm_compute.
  - inversion Hv; subst. destruct e. eexists. split; [|done]. by apply make_estimate_ok.
  - eexists; split; [apply make_estimate_ok; split; [reflexivity|]|]; by apply combined_valid.
Qed.

(** The combined interval never narrows: it contains the interval of every
    estimate it was combined from, conflicting or not. *)
Theorem propagate_never_narrows (estimates : list UncertaintyEstimate) (e x : UncertaintyEstimate) :
  Forall (fun x => valid_estimate x = true) estimates ->
  propagate_uncertainty estimates = Ok e -> x ∈ estimates ->
  fle (lower_bound e) (lower_bound x) /\ fle (upper_bound x) (upper_bound e).
Proof.
  intros Hv He Hx. destruct estimates as [|e1 [|e2 es]]; simpl in He; [set_solver| |].
  - apply make_estimate_ok in He as [-> _]. apply list_elem_of_singleton in Hx as ->. simpl.
    inversion Hv as [|? ? H _]; subst.
    split; apply fle_refl; eapply in_unit_finite; [by apply lo_unit | by apply hi_unit].
  - apply make_estimate_ok in He as [-> _]. simpl. split.
    + eapply fle_trans; [by apply combined_lower_le | by apply union_lower_le].
    + eapply fle_trans; [by apply union_upper_ge | by apply combined_upper_ge].
Qed.

Lemma has_source_spec src es : has_source src es = true <-> exists e, e ∈ es /\ source e = src.
Proof.
  unfold has_source. rewrite existsb_true. by setoid_rewrite bool_decide_eq_true.
Qed.

Lemma combinations2_elem {A} (xs : list A) i j x y :
  (i < j)%nat -> xs !! i = Some x -> xs !! j = Some y -> (x, y) ∈ combinations2 xs.
Proof.
  revert i j. induction xs as [|z xs IH]; intros i j Hij Hi Hj; [done|].
  simpl. apply elem_of_app. destruct i as [|i], j as [|j]; simpl in *; try lia.
  - left. simplify_eq. apply list_elem_of_fmap. exists y. split; [done|].
    by eapply list_elem_of_lookup_2.
  - right. apply (IH i j); [lia|done..].
Qed.

(** Two or more estimates combine to [evidence_conflict] exactly when the
    point estimates spread by at least 0.15, or some pair of intervals is
    disjoint, or some estimate already carries a conflict; in particular two
    disjoint intervals at any positions are never averaged away, and the result
    is [well_supported] only if every input is. *)
Theorem propagate_conflict_tag (e1 e2 e : UncertaintyEstimate) (es : list UncertaintyEstimate) :
  let all := e1 :: e2 :: es in
  propagate_uncertainty all = Ok e ->
  (source e = evidence_conflict <->
     fleb CONFLICT_SPREAD_THRESHOLD (spread e1 (e2 :: es)) = true \/
     existsb disjoint_pair (combinations2 all) = true \/
     exists x, x ∈ all /\ source x = evidence_conflict) /\
  (forall i j x y, (i < j)%nat -> all !! i = Some x -> all !! j = Some y ->
     disjoint_pair (x, y) = true -> source e = evidence_conflict) /\
  (source e = well_supported -> forall x, x ∈ all -> source x = well_supported).
Proof.
  intros all He. simpl in He. apply make_estimate_ok in He as [-> _]. cbn [source].
  assert (combined_source e1 (e2 :: es) = evidence_conflict <-> is_conflict e1 (e2 :: es) = true) as Hc.
  { unfold combined_source. destruct is_conflict; [done|].
    destruct has_source; [done|]. by destruct has_source. }
  assert (is_conflict e1 (e2 :: es) = true <->
     fleb CONFLICT_SPREAD_THRESHOLD (spread e1 (e2 :: es)) = true \/
     existsb disjoint_pair (combinations2 all) = true \/
     exists x, x ∈ all /\ source x = evidence_conflict) as Hi.
  { unfold is_conflict. fold all. rewrite !orb_true_iff, has_source_spec. tauto. }
  split; [by rewrite Hc, Hi|]. split.
  - intros i j x y Hij Hx Hy Hd. rewrite Hc, Hi. right; left. apply existsb_true.
    exists (x, y). split; [|done]. by eapply combinations2_elem.
  - unfold combined_source. fold all. intros Hw x Hx. repeat split_match; try done.
    destruct (source x) eqn:Ex; [| | |done]; exfalso.
    + assert (has_source data_sparsity all = true) by (apply has_source_spec; eauto). congruence.
    + assert (has_source model_uncertainty all = true) by (apply has_source_spec; eauto). congruence.
    + assert (has_source evidence_conflict all = true) as Hs by (apply has_source_spec; eauto).
      match goal with H : is_conflict _ _ = false |- _ => unfold is_conflict in H; fold all in H end.
      rewrite Hs, orb_true_r in *. done.
Qed.

(** ** Witnesses *)

Module UncertaintyWitness.
Definition ea : UncertaintyEstimate := Estimate (flit 9 10) (flit 8 10) f1 well_supported.
Definition eb : UncertaintyEstimate := Estimate (flit 2 10) (flit 1 10) (flit 3 10) well_supported.

Definition eab : UncertaintyEstimate :=
  Eval vm_compute in match propagate_uncertainty [ea; eb] with Ok e => e | Raise _ => ea end.

Lemma ab_valid : Forall (fun x => valid_estimate x = true) [ea; eb].
Proof. apply Forall_cons. split; [by vm_compute|]. apply Forall_singleton. by vm_compute. Qed.

Lemma eab_result : propagate_uncertainty [ea; eb] = Ok eab.
Proof. by vm_compute. Qed.

Lemma propagate_uncertainty_valid_witness :
  exists e, propagate_uncertainty [ea; eb] = Ok e /\ valid_estimate e = true.
Proof. apply (propagate_uncertainty_valid [ea; eb]). apply ab_valid. Defined.

Lemma propagate_never_narrows_witness :
  propagate_uncertainty [ea; eb] = Ok eab /\ fle (lower_bound eab) (lower_bound ea).
Proof.
  split; [apply eab_result|].
  apply (propagate_never_narrows [ea; eb] eab ea ab_valid eab_result). left.
Defined.

Lemma propagate_conflict_tag_witness :
  propagate_uncertainty [ea; eb] = Ok eab /\ source eab = evidence_conflict.
Proof.
  split; [apply eab_result|].
  destruct (propagate_conflict_tag ea eb eab [] eab_result) as (_ & H & _).
  apply (H 0%nat 1%nat ea eb); [lia | reflexivity | reflexivity | by vm_compute].
Defined.

Lemma estimate_conversions_witness :
  exists e, from_legacy_confidence (flit 95 100) model_uncertainty = Ok e /\ valid_estimate e = true.
Proof.
  destruct (estimate_conversions (flit 95 100) (flit 1 10) model_uncertainty) as [H _];
    [vm_compute; reflexivity | vm_compute; reflexivity |].
  destruct H as [(e & E & V & _) _]; [vm_compute; reflexivity|]. exists e. exact (conj E V).
Defined.
End UncertaintyWitness.
