(* ===== verification/CircuitBreaker.v ===== *)
(** * Circuit breaker ([src/resilience/circuit_breaker.py])

    The Redis-backed breaker as the source has it: a JSON document per source,
    read, changed and written back.  Part one translates the functions over the
    [Redis] interface.  Part two gives the abstract three-state machine the
    module's header documents and proves that each operation refines it.  Part
    three lets many workers run these operations on one Redis, with the SETs of
    each delayed or lost, and shows the invariant under every interleaving. *)

From S2P Require Import Prelude PyFloat PyStr Settings Effects RedisKeys.
Import RedisKeyBuilder.

Definition CLOSED : string := "closed".
Definition OPEN : string := "open".
Definition HALF_OPEN : string := "half-open".

(** ** The code *)

Definition closed_state : json :=
  JObj [("status", JStr CLOSED); ("failure_count", JInt 0); ("opened_at", JNull)].

Section breaker.
Context {S : Type} `{!Redis S text} `{!IsoTime}.
Implicit Types (s : S) (source : string).

Definition _now_iso (now : Z) : string := isoformat now.

Definition _parse_dt (iso : json) : result pyexn (option Z) :=
  match iso with
  | JNull => Ok None
  | JStr t => Ok (fromisoformat t)
  | _ => Raise TypeError
  end.

Definition _get_state source : M S json :=
  try_except
    (raw ← redis_get (circuit_key source);
     match raw with
     | None => mret closed_state
     | Some raw => mret (catch (json_loads raw) (fun _ => closed_state))
     end)
    (fun _ => mret closed_state).

Definition _set_state source (state : json) : M S unit :=
  try_except (redis_set (circuit_key source) (json_dumps state) None) (fun _ => mret tt).

(** [elapsed >= circuit_half_open_timeout_s], with [elapsed] in microseconds. *)
Definition half_open_due (settings : ResilienceSettings) (now opened_at : Z) : bool :=
  circuit_half_open_timeout_s settings * 1000000 <=? now - opened_at.

Definition is_open (settings : ResilienceSettings) (now : Z) source : M S bool :=
  state ← _get_state source;
  status ← lift (jindex state "status");
  if jeq_str status CLOSED then mret false
  else if jeq_str status HALF_OPEN then mret false
  else
    field ← lift (jget state "opened_at" JNull);
    opened_at ← lift (_parse_dt field);
    match opened_at with
    | None => mret false
    | Some opened_at =>
        if half_open_due settings now opened_at then
          state ← lift (jset state "status" (JStr HALF_OPEN));
          _set_state source state;;
          mret false
        else mret true
    end.

Definition record_failure (settings : ResilienceSettings) (now : Z) source : M S unit :=
  state ← _get_state source;
  count ← lift (jget state "failure_count" (JInt 0));
  count ← lift (jincr count);
  state ← lift (jset state "failure_count" count);
  status ← lift (jindex state "status");
  if jeq_str status CLOSED || jeq_str status HALF_OPEN then
    reached ← lift (jge count (circuit_failure_threshold settings));
    if (reached : bool) then
      state ← lift (jset state "status" (JStr OPEN));
      state ← lift (jset state "opened_at" (JStr (_now_iso now)));
      _set_state source state
    else _set_state source state
  else _set_state source state.

(** [failure_count != 0] for the JSON value of the count. *)
Definition jnonzero (j : json) : bool :=
  match j with
  | JInt n => negb (n =? 0)
  | JBool b => b
  | JFloat x => negb (feqb x f0)
  | _ => true
  end.

Definition record_success source : M S unit :=
  state ← _get_state source;
  previous ← lift (jindex state "status");
  failure_count ← lift (jget state "failure_count" (JInt 0));
  if negb (jeq_str previous CLOSED) || jnonzero failure_count
  then _set_state source closed_state
  else mret tt.

(** [str(state.get("status", CLOSED))] for a string status; other JSON values
    are returned as they are. *)
Definition get_circuit_status source : M S json :=
  state ← _get_state source;
  lift (jget state "status" (JStr CLOSED)).
End breaker.

(** ** The abstract machine *)

Inductive breaker :=
| BClosed (failures : Z)
| BOpen (failures opened_at : Z)
| BHalfOpen (failures opened_at : Z).

#[global] Instance breaker_eq_dec : EqDecision breaker.
Proof. solve_decision. Defined.

Definition failures (b : breaker) : Z :=
  match b with BClosed n | BOpen n _ | BHalfOpen n _ => n end.

Definition breaker_init : breaker := BClosed 0.

Section machine.
Variable settings : ResilienceSettings.

(** A call asks whether it may go to the live source. *)
Definition b_query (now : Z) (b : breaker) : bool * breaker :=
  match b with
  | BOpen n t => if half_open_due settings now t then (false, BHalfOpen n t) else (true, b)
  | _ => (false, b)
  end.

Definition b_failure (now : Z) (b : breaker) : breaker :=
  let n := failures b + 1 in
  match b with
  | BOpen _ t => BOpen n t
  | BClosed _ => if circuit_failure_threshold settings <=? n then BOpen n now else BClosed n
  | BHalfOpen _ t => if circuit_failure_threshold settings <=? n then BOpen n now else BHalfOpen n t
  end.

Definition b_success (b : breaker) : breaker := breaker_init.

(** A breaker that is not closed has reached the threshold; a closed one has
    not. *)
Definition breaker_inv (b : breaker) : Prop :=
  match b with
  | BClosed n => 0 <= n /\ (n < circuit_failure_threshold settings \/ n = 0)
  | BOpen n _ | BHalfOpen n _ => 0 <= n /\ circuit_failure_threshold settings <= n
  end.

Inductive b_step : breaker -> breaker -> Prop :=
| step_query now b : b_step b (b_query now b).2
| step_failure now b : b_step b (b_failure now b)
| step_success b : b_step b (b_success b).

Lemma breaker_inv_init : breaker_inv breaker_init.
Proof. simpl. lia. Qed.

Lemma breaker_inv_query now b : breaker_inv b -> breaker_inv (b_query now b).2.
Proof. destruct b; simpl; try done. by destruct half_open_due. Qed.

Lemma breaker_inv_failure now b : breaker_inv b -> breaker_inv (b_failure now b).
Proof. destruct b; simpl; intros H; by_cases; simpl; lia. Qed.

Lemma breaker_inv_step b b' : b_step b b' -> breaker_inv b -> breaker_inv b'.
Proof.
  destruct 1; [apply breaker_inv_query | apply breaker_inv_failure | intros _; apply breaker_inv_init].
Qed.
End machine.
#[export] Hint Resolve breaker_inv_init breaker_inv_query breaker_inv_failure : gaia.

(** ** Refinement *)

Section refinement.
Context {S : Type} `{!Redis S text} `{!IsoTime}.
Variable settings : ResilienceSettings.
Implicit Types (s : S) (source : string) (b : breaker).

Definition doc (status : string) (count : Z) (opened_at : json) : json :=
  JObj [("status", JStr status); ("failure_count", JInt count); ("opened_at", opened_at)].

(** The document the code keeps for an abstract state. *)
Definition encode_breaker b : json :=
  match b with
  | BClosed n => doc CLOSED n JNull
  | BOpen n t => doc OPEN n (JStr (isoformat t))
  | BHalfOpen n t => doc HALF_OPEN n (JStr (isoformat t))
  end.

(** What Redis holds for a source: a missing key or unreadable text counts as
    a fresh breaker, as in [_get_state]. *)
Definition represents s source b : Prop :=
  match view s (circuit_key source) with
  | Some (Json j) => j = encode_breaker b
  | Some (NotJson _) | None => b = breaker_init
  end.

Lemma closed_state_encodes : closed_state = encode_breaker breaker_init.
Proof. reflexivity. Qed.

Lemma get_state_spec s source b :
  represents s source b ->
  exists b' s', _get_state source s = (Ok (encode_breaker b'), s') /\
    (b' = b \/ b' = breaker_init) /\ (forall k, view s' k = view s k).
Proof.
  intros Hr. unfold _get_state, try_except. rewrite M_bind_run.
  pose proof (redis_get_view (circuit_key source) s) as Hv.
  pose proof (redis_get_ok (circuit_key source) s) as Hok.
  destruct (redis_get (circuit_key source) s) as [[v|e] s'] eqn:E; simpl in *.
  - specialize (Hok v eq_refl). unfold represents in Hr. rewrite <- Hok in Hr.
    exists b, s'. split; [|by split; [left|]].
    destruct v as [[j|t]|]; simpl; by subst.
  - exists breaker_init, s'. auto.
Qed.

Lemma set_state_spec s source j :
  exists s', _set_state source j s = (Ok tt, s') /\
    (forall k, k <> circuit_key source -> view s' k = view s k) /\
    (view s' (circuit_key source) = Some (Json j) \/
     view s' (circuit_key source) = view s (circuit_key source)).
Proof.
  unfold _set_state, try_except.
  pose proof (redis_set_frame (circuit_key source) (json_dumps j) None s) as Hf.
  pose proof (redis_set_ok (circuit_key source) (json_dumps j) None s) as Hok.
  pose proof (redis_set_err (circuit_key source) (json_dumps j) None s) as Herr.
  destruct (redis_set (circuit_key source) (json_dumps j) None s) as [[[]|e] s'] eqn:E;
    simpl in *; exists s'; (split; [done|]; split; [intros k Hk; by apply Hf|]).
  - left. by apply Hok.
  - destruct (Herr e eq_refl); auto.
Qed.

Lemma represents_view s s' source b :
  (forall k, view s' k = view s k) -> represents s source b -> represents s' source b.
Proof. intros Hv. unfold represents. by rewrite Hv. Qed.

Lemma represents_set s s' source j b b' :
  view s' (circuit_key source) = Some (Json j) \/
    view s' (circuit_key source) = view s (circuit_key source) ->
  j = encode_breaker b' -> represents s source b ->
  exists b'', represents s' source b'' /\ (b'' = b' \/ b'' = b).
Proof.
  intros [E|E] Hj Hr; unfold represents in *; rewrite E; [|eauto].
  exists b'. by rewrite Hj; auto.
Qed.

Lemma is_open_run now source s b0 s1 :
  _get_state source s = (Ok (encode_breaker b0), s1) ->
  is_open settings now source s =
  match b0 with
  | BOpen n t =>
      if half_open_due settings now t
      then (_set_state source (encode_breaker (BHalfOpen n t)) ;; mret false) s1
      else (Ok true, s1)
  | _ => (Ok false, s1)
  end.
Proof.
  intros E. unfold is_open. rewrite M_bind_run, E.
  destruct b0 as [n|n t|n t]; run_M; [done| |done].
  rewrite iso_roundtrip. by destruct half_open_due.
Qed.

Lemma record_failure_run now source s b0 s1 :
  _get_state source s = (Ok (encode_breaker b0), s1) ->
  record_failure settings now source s =
  _set_state source (encode_breaker (b_failure settings now b0)) s1.
Proof.
  intros E. unfold record_failure. rewrite M_bind_run, E.
  destruct b0 as [n|n t|n t]; run_M; [|done|];
    by destruct (circuit_failure_threshold settings <=? n + 1).
Qed.

Lemma record_success_run source s b0 s1 :
  _get_state source s = (Ok (encode_breaker b0), s1) ->
  record_success source s =
  if decide (b0 = breaker_init) then (Ok tt, s1)
  else _set_state source (encode_breaker (b_success b0)) s1.
Proof.
  intros E. unfold record_success. rewrite M_bind_run, E.
  destruct b0 as [n|n t|n t]; run_M; case_decide; simplify_eq; try done.
  all: destruct (Z.eqb_spec n 0) as [->|]; try done; unfold breaker_init in *; congruence.
Qed.

(** Outcome of an operation that takes the abstract step [step] and answers
    [ans], when Redis may fail at any call: it returns without raising, leaves
    every other key alone, and leaves for this source the old state, or the
    step taken from the state read, which is the old one or the fresh one. *)
Definition op_effect {A} (m : M S A) (step : breaker -> breaker) (ans : breaker -> A)
    source s b : Prop :=
  exists b0 s' b', m s = (Ok (ans b0), s') /\ (b0 = b \/ b0 = breaker_init) /\
    represents s' source b' /\ (b' = b \/ b' = step b0) /\
    (forall k, k <> circuit_key source -> view s' k = view s k).

Lemma set_after_get source s s1 b b2 :
  represents s source b -> (forall k, view s1 k = view s k) ->
  exists s' b', _set_state source (encode_breaker b2) s1 = (Ok tt, s') /\
    represents s' source b' /\ (b' = b \/ b' = b2) /\
    (forall k, k <> circuit_key source -> view s' k = view s k).
Proof.
  intros Hr Hv. destruct (set_state_spec s1 source (encode_breaker b2)) as (s' & E & Hf & Hk).
  destruct (represents_set s1 s' source _ b b2 Hk eq_refl (represents_view _ _ _ _ Hv Hr))
    as (b' & Hr' & Hb').
  exists s', b'. split; [done|]. split; [done|].
  split; [naive_solver|]. intros k Hne. by rewrite Hf, Hv.
Qed.

Lemma is_open_effect now source s b :
  represents s source b ->
  op_effect (is_open settings now source) (fun b => (b_query settings now b).2)
    (fun b => (b_query settings now b).1) source s b.
Proof.
  intros Hr. destruct (get_state_spec s source b Hr) as (b0 & s1 & E & Hb0 & Hv).
  exists b0. rewrite (is_open_run _ _ _ _ _ E).
  destruct b0 as [n|n t|n t]; unfold b_query; [|destruct half_open_due|]; cbn [fst snd];
    try (exists s1, b; repeat split; auto; by eapply represents_view).
  destruct (set_after_get source s s1 b (BHalfOpen n t) Hr Hv) as (s' & b' & E' & ? & ? & ?).
  exists s', b'. by rewrite M_bind_run, E'.
Qed.

Lemma record_failure_effect now source s b :
  represents s source b ->
  op_effect (record_failure settings now source) (b_failure settings now) (fun _ => tt) source s b.
Proof.
  intros Hr. destruct (get_state_spec s source b Hr) as (b0 & s1 & E & Hb0 & Hv).
  exists b0. rewrite (record_failure_run _ _ _ _ _ E).
  destruct (set_after_get source s s1 b (b_failure settings now b0) Hr Hv) as (s' & b' & ?).
  exists s', b'. naive_solver.
Qed.

Lemma record_success_effect source s b :
  represents s source b ->
  op_effect (record_success source) b_success (fun _ => tt) source s b.
Proof.
  intros Hr. destruct (get_state_spec s source b Hr) as (b0 & s1 & E & Hb0 & Hv).
  exists b0. rewrite (record_success_run _ _ _ _ E). case_decide.
  - exists s1, b. repeat split; auto. by eapply represents_view.
  - destruct (set_after_get source s s1 b (b_success b0) Hr Hv) as (s' & b' & ?).
    exists s', b'. naive_solver.
Qed.
End refinement.

(** A step from the state read keeps the invariant, so does whatever is left. *)
Lemma op_effect_inv {S A} `{!Redis S text} `{!IsoTime} settings (m : M S A) step ans source s b :
  (forall b0, breaker_inv settings b0 -> breaker_inv settings (step b0)) ->
  breaker_inv settings b -> op_effect m step ans source s b ->
  exists a s' b', m s = (Ok a, s') /\ represents s' source b' /\ breaker_inv settings b' /\
    (forall k, k <> circuit_key source -> view s' k = view s k).
Proof.
  intros Hstep Hb (b0 & s' & b' & E & Hb0 & Hr & Hb' & Hf).
  exists (ans b0), s', b'. repeat split; auto.
  destruct Hb' as [->| ->], Hb0 as [->| ->]; auto using breaker_inv_init.
Qed.

Section up.
Context {S : Type} `{!Redis S text} `{!IsoTime} (up : S -> Prop) `{!RedisUp up}.
Implicit Types (s : S) (source : string) (b : breaker).

Lemma get_state_up s source b :
  up s -> represents s source b ->
  exists s', _get_state source s = (Ok (encode_breaker b), s') /\ up s' /\
    (forall k, view s' k = view s k).
Proof.
  intros Hup Hr. unfold _get_state, try_except. rewrite M_bind_run.
  pose proof (redis_get_view (circuit_key source) s) as Hv.
  destruct (up_get (circuit_key source) s Hup) as [Hok Hup'].
  destruct (redis_get (circuit_key source) s) as [r s'] eqn:E; simpl in *. subst r.
  exists s'. split; [|done]. unfold represents in Hr.
  destruct (view s (circuit_key source)) as [[j|t]|]; simpl; by subst.
Qed.

Lemma set_state_up s source b :
  up s -> exists s', _set_state source (encode_breaker b) s = (Ok tt, s') /\ up s' /\
    represents s' source b.
Proof.
  intros Hup. unfold _set_state, try_except.
  pose proof (redis_set_ok (circuit_key source) (json_dumps (encode_breaker b)) None s) as Hk.
  destruct (up_set (circuit_key source) (json_dumps (encode_breaker b)) s Hup) as [Hok Hup'].
  destruct (redis_set _ _ _ s) as [r s'] eqn:E; simpl in *. subst r.
  exists s'. split; [done|]. split; [done|]. unfold represents. by rewrite Hk.
Qed.

(** [m] takes exactly the abstract step and answers as the machine does. *)
Definition op_refines {A} (m : M S A) (step : breaker -> breaker) (ans : breaker -> A)
    source : Prop :=
  forall s b, up s -> represents s source b ->
    exists s', m s = (Ok (ans b), s') /\ up s' /\ represents s' source (step b).

Lemma is_open_refines settings now source :
  op_refines (is_open settings now source) (fun b => (b_query settings now b).2)
    (fun b => (b_query settings now b).1) source.
Proof.
  intros s b Hup Hr. destruct (get_state_up s source b Hup Hr) as (s1 & E & Hup1 & Hv).
  rewrite (is_open_run _ _ _ _ _ _ E).
  destruct b as [n|n t|n t]; unfold b_query; [|destruct half_open_due|]; cbn [fst snd];
    try (exists s1; repeat split; auto; by eapply represents_view).
  destruct (set_state_up s1 source (BHalfOpen n t) Hup1) as (s' & E' & ? & ?).
  exists s'. by rewrite M_bind_run, E'.
Qed.

Lemma record_failure_refines settings now source :
  op_refines (record_failure settings now source) (b_failure settings now) (fun _ => tt) source.
Proof.
  intros s b Hup Hr. destruct (get_state_up s source b Hup Hr) as (s1 & E & Hup1 & Hv).
  rewrite (record_failure_run _ _ _ _ _ _ E). by apply set_state_up.
Qed.

Lemma record_success_refines source :
  op_refines (record_success source) b_success (fun _ => tt) source.
Proof.
  intros s b Hup Hr. destruct (get_state_up s source b Hup Hr) as (s1 & E & Hup1 & Hv).
  rewrite (record_success_run _ _ _ _ E). case_decide; [|by apply set_state_up].
  subst b. exists s1. repeat split; auto. by eapply represents_view.
Qed.
End up.

(** ** Consecutive failures *)

Fixpoint b_failures (settings : ResilienceSettings) (nows : list Z) (b : breaker) : breaker :=
  match nows with
  | [] => b
  | now :: nows => b_failures settings nows (b_failure settings now b)
  end.

Lemma b_failures_closed settings nows n :
  n + Z.of_nat (length nows) < circuit_failure_threshold settings ->
  b_failures settings nows (BClosed n) = BClosed (n + Z.of_nat (length nows)).
Proof.
  revert n. induction nows as [|now nows IH]; intros n Hn; simpl in *; [f_equal; lia|].
  rewrite (proj2 (Z.leb_gt _ _)) by lia. rewrite IH by lia. f_equal. lia.
Qed.

Lemma b_failures_app settings l1 l2 b :
  b_failures settings (l1 ++ l2) b = b_failures settings l2 (b_failures settings l1 b).
Proof. revert b. induction l1; simpl; auto. Qed.

(** ** Concurrent workers

    The operations of many workers on one Redis, for any number of sources.  A
    worker runs [is_open], [record_failure] or [record_success] against what
    Redis shows it when it reads; the SET the code then asks for reaches Redis
    later, or is lost, and in between any other worker may read or write. *)

(** What one operation sees and asks for: the answers of GET, whether the coming
    GETs fail, and the SETs, latest first. *)
Record session := Session {
  shown : string -> option text;
  reads_fail : list bool;
  writes : list (string * text);
}.

Definition session_view (s : session) (k : string) : option text :=
  match assoc k (writes s) with Some v => Some v | None => shown s k end.

#[global] Program Instance session_redis : Redis session text := {|
  view := session_view;
  redis_get k := fun s =>
    (if default false (head (reads_fail s)) then Raise ConnectionError else Ok (session_view s k),
     Session (shown s) (tl (reads_fail s)) (writes s));
  redis_set k v _ := fun s => (Ok tt, Session (shown s) (reads_fail s) ((k, v) :: writes s));
|}.
Next Obligation. done. Qed.
Next Obligation. intros k s v. cbn. by destruct (default false _); intros [= <-]. Qed.
Next Obligation. intros k v ex s k' Hk. unfold session_view. cbn. by rewrite (proj2 (String.eqb_neq _ _) (not_eq_sym Hk)). Qed.
Next Obligation. intros k v ex s _. unfold session_view. cbn. by rewrite String.eqb_refl. Qed.
Next Obligation. done. Qed.

Inductive worker_op := OpQuery (now : Z) | OpFailure (now : Z) | OpSuccess.

Section concurrent.
Context `{!IsoTime}.
Variable settings : ResilienceSettings.

(** A worker's call on a source. *)
Definition worker_call (o : worker_op) (source : string) : M session unit :=
  match o with
  | OpQuery now => is_open settings now source ≫= fun _ => mret tt
  | OpFailure now => record_failure settings now source
  | OpSuccess => record_success source
  end.

(** What Redis holds, and the SETs each busy worker has still to send. *)
Record config := Config {
  shared : gmap string text;
  pending : gmap nat (list (string * text));
}.

Definition config_init : config := Config ∅ ∅.

(** A fresh session on what Redis holds now; its GET may fail. *)
Definition open_session (c : config) (read_fails : bool) : session := Session (fun k => shared c !! k) [read_fails] [].

Inductive cstep : config -> config -> Prop :=
| c_call w o source read_fails c :
    pending c !! w = None ->
    cstep c (Config (shared c) (<[w := rev (writes (worker_call o source (open_session c read_fails)).2)]> (pending c)))
| c_write w k v rest c :
    pending c !! w = Some ((k, v) :: rest) ->
    cstep c (Config (<[k := v]> (shared c)) (<[w := rest]> (pending c)))
| c_write_lost w kv rest c :
    pending c !! w = Some (kv :: rest) ->
    cstep c (Config (shared c) (<[w := rest]> (pending c)))
| c_done w c :
    pending c !! w = Some [] ->
    cstep c (Config (shared c) (delete w (pending c))).

(** A SET that leaves a source in a state of the machine that satisfies its
    invariant. *)
Definition sound_write (kv : string * text) : Prop :=
  exists source b, kv = (circuit_key source, Json (encode_breaker b)) /\ breaker_inv settings b.

Definition sound_store (m : gmap string text) : Prop :=
  forall source, exists b, breaker_inv settings b /\
    match m !! circuit_key source with
    | Some (Json j) => j = encode_breaker b
    | Some (NotJson _) | None => b = breaker_init
    end.

Definition config_inv (c : config) : Prop :=
  sound_store (shared c) /\ map_Forall (fun _ => Forall sound_write) (pending c).

(** Every call returns, and asks for at most one SET, a sound one. *)
Lemma worker_call_sound o source c fails : sound_store (shared c) ->
  exists s', worker_call o source (open_session c fails) = (Ok tt, s') /\ Forall sound_write (rev (writes s')).
Proof.
  intros Hc. destruct (Hc source) as (b & Hb & Hr).
  assert (represents (open_session c fails) source b) as Hrep by exact Hr.
  destruct (get_state_spec (open_session c fails) source b Hrep) as (b0 & s1 & E & Hb0 & _).
  assert (breaker_inv settings b0) as Hinv by (destruct Hb0 as [->| ->]; [done | apply breaker_inv_init]).
  assert (writes s1 = []) as Hw.
  { unfold _get_state, try_except in E. rewrite M_bind_run in E. cbn in E.
    destruct fails; cbn in E; [by injection E as _ <-|]. destruct (shared c !! _) as [[j|t]|]; by injection E as _ <-. }
  assert (forall b', breaker_inv settings b' -> exists s', _set_state source (encode_breaker b') s1 = (Ok tt, s') /\
            Forall sound_write (rev (writes s'))) as Hset.
  { intros b' Hb'. eexists. split; [reflexivity|]. cbn. rewrite Hw. cbn. constructor; [|constructor]. by exists source, b'. }
  destruct o as [now|now|]; cbn [worker_call].
  - rewrite M_bind_run, (is_open_run _ _ _ _ _ _ E).
    destruct b0 as [n|n t|n t]; [|destruct half_open_due|]; try (exists s1; rewrite Hw; by split; [|constructor]).
    destruct (Hset (BHalfOpen n t) Hinv) as (s' & Es & Hs). rewrite M_bind_run, Es. by exists s'.
  - rewrite (record_failure_run _ _ _ _ _ _ E). apply Hset. by apply breaker_inv_failure.
  - rewrite (record_success_run _ _ _ _ E). case_decide; [exists s1; rewrite Hw; by split; [|constructor]|].
    apply Hset, breaker_inv_init.
Qed.

Lemma sound_store_insert m kv : sound_store m -> sound_write kv -> sound_store (<[kv.1 := kv.2]> m).
Proof.
  intros Hm (source & b & -> & Hb) source'. cbn. destruct (decide (circuit_key source = circuit_key source')) as [->|Hne].
  - exists b. by rewrite lookup_insert_eq.
  - rewrite lookup_insert_ne by done. apply Hm.
Qed.

Lemma config_inv_step c c' : cstep c c' -> config_inv c -> config_inv c'.
Proof.
  intros Hs [Hst Hp]. destruct Hs as [w o source fails c Hw|w k v rest c Hw|w kv rest c Hw|w c Hw]; split; cbn [shared pending].
  - exact Hst.
  - apply map_Forall_insert_2; [|done]. destruct (worker_call_sound o source c fails Hst) as (s' & -> & Hs). exact Hs.
  - apply (sound_store_insert _ (k, v)); [done|]. specialize (Hp w _ Hw). cbn in Hp. by apply Forall_cons in Hp as [Hp _].
  - apply map_Forall_insert_2; [|done]. specialize (Hp w _ Hw). cbn in Hp. by apply Forall_cons in Hp as [_ Hp].
  - exact Hst.
  - apply map_Forall_insert_2; [|done]. specialize (Hp w _ Hw). cbn in Hp. by apply Forall_cons in Hp as [_ Hp].
  - exact Hst.
  - by apply map_Forall_delete.
Qed.

Lemma config_inv_reach c : rtc cstep config_init c -> config_inv c.
Proof.
  apply (rtc_ind_r config_inv).
  - split; [|apply map_Forall_empty]. intros source. exists breaker_init. split; [apply breaker_inv_init|].
    cbn. by rewrite lookup_empty.
  - intros c1 c2 _ Hs Hc. by eapply config_inv_step.
Qed.
End concurrent.

(** ** Properties *)

(** C2. While Redis answers, [is_open], [record_failure] and [record_success]
    implement the three-state machine exactly: each returns the machine's
    answer and leaves the document of the machine's next state. *)
Theorem breaker_refines_machine {S} `{!Redis S text} `{!IsoTime} (up : S -> Prop) `{!RedisUp up}
    (settings : ResilienceSettings) (now : Z) (source : string) :
  op_refines up (is_open settings now source) (fun b => (b_query settings now b).2)
    (fun b => (b_query settings now b).1) source /\
  op_refines up (record_failure settings now source) (b_failure settings now) (fun _ => tt) source /\
  op_refines up (record_success source) b_success (fun _ => tt) source.
Proof.
  split; [exact (is_open_refines up settings now source)|].
  split; [exact (record_failure_refines up settings now source)
         |exact (record_success_refines up source)].
Qed.

(** Whatever Redis calls fail, the three operations return without raising
    on a well-formed document, touch only their own source's key, and leave a
    document that satisfies the breaker invariant. *)
Theorem breaker_safe_under_outages {S} `{!Redis S text} `{!IsoTime}
    (settings : ResilienceSettings) (now : Z) (source : string) (s : S) (b : breaker) :
  represents s source b -> breaker_inv settings b ->
  let safe {A} (m : M S A) := exists a s' b', m s = (Ok a, s') /\ represents s' source b' /\
    breaker_inv settings b' /\ (forall k, k <> circuit_key source -> view s' k = view s k) in
  safe (is_open settings now source) /\ safe (record_failure settings now source) /\
  safe (record_success source).
Proof.
  intros Hr Hb safe. split; [|split].
  - eapply op_effect_inv; [|exact Hb|exact (is_open_effect settings now source s b Hr)].
    intros; by apply breaker_inv_query.
  - eapply op_effect_inv; [|exact Hb|exact (record_failure_effect settings now source s b Hr)].
    intros; by apply breaker_inv_failure.
  - eapply op_effect_inv; [|exact Hb|exact (record_success_effect source s b Hr)].
    intros; apply breaker_inv_init.
Qed.

(** From a fresh breaker, fewer failures than the threshold leave it closed
    and counting; the failure that reaches the threshold opens it at that
    instant. *)
Theorem breaker_opens_at_threshold (settings : ResilienceSettings) (nows : list Z) (now : Z) :
  Z.of_nat (length nows) + 1 = circuit_failure_threshold settings ->
  b_failures settings nows breaker_init = BClosed (Z.of_nat (length nows)) /\
  b_failures settings (nows ++ [now]) breaker_init =
    BOpen (circuit_failure_threshold settings) now.
Proof.
  intros Hn.
  assert (b_failures settings nows breaker_init = BClosed (Z.of_nat (length nows))) as E.
  { unfold breaker_init. rewrite b_failures_closed by lia. f_equal. }
  split; [done|]. rewrite b_failures_app, E. simpl.
  rewrite (proj2 (Z.leb_le _ _)) by lia. f_equal. lia.
Qed.

(** In every reachable state, a failed probe of a half-open breaker opens it
    again at once, restarting the waiting time. *)
Theorem half_open_failure_reopens (settings : ResilienceSettings) (b : breaker) (n t now : Z) :
  rtc (b_step settings) breaker_init b -> b = BHalfOpen n t ->
  b_failure settings now b = BOpen (n + 1) now.
Proof.
  intros Hreach ->.
  assert (breaker_inv settings (BHalfOpen n t)) as Hinv.
  { eapply (rtc_ind_r (breaker_inv settings)); [apply breaker_inv_init | | done].
    intros; by eapply breaker_inv_step. }
  simpl in *. rewrite (proj2 (Z.leb_le _ _)) by lia. done.
Qed.

(** An open breaker refuses calls until the half-open timeout has elapsed
    since it opened, and admits the next call from then on. *)
Theorem open_breaker_window (settings : ResilienceSettings) (n t now : Z) :
  (now < t + circuit_half_open_timeout_s settings * 1000000 ->
     b_query settings now (BOpen n t) = (true, BOpen n t)) /\
  (t + circuit_half_open_timeout_s settings * 1000000 <= now ->
     b_query settings now (BOpen n t) = (false, BHalfOpen n t)).
Proof.
  simpl. unfold half_open_due. split; intros H.
  - rewrite (proj2 (Z.leb_gt _ _)) by lia. done.
  - rewrite (proj2 (Z.leb_le _ _)) by lia. done.
Qed.

(** C39. Workers that run [is_open], [record_failure] and [record_success]
    concurrently on one Redis, their reads failing and their writes delayed,
    reordered or lost at will, never break a breaker: whatever the interleaving,
    every source's document is that of a machine state in which a breaker that
    is not closed has reached the threshold and a closed one has not, and the
    next call on any source returns without raising. *)
Theorem breaker_inv_concurrent `{!IsoTime} (settings : ResilienceSettings) (c : config) (source : string) :
  rtc (cstep settings) config_init c ->
  (exists b, represents (open_session c false) source b /\ breaker_inv settings b) /\
  forall now read_fails,
    (exists answer s', is_open settings now source (open_session c read_fails) = (Ok answer, s')) /\
    (exists s', record_failure settings now source (open_session c read_fails) = (Ok tt, s')) /\
    (exists s', record_success source (open_session c read_fails) = (Ok tt, s')).
Proof.
  intros Hc%config_inv_reach. destruct Hc as [Hst _]. destruct (Hst source) as (b & Hb & Hr).
  split; [by exists b|]. intros now fails. split_and!.
  - destruct (worker_call_sound settings (OpQuery now) source c fails Hst) as (s' & E & _). cbn [worker_call] in E.
    apply M_bind_ok in E as (a & s1 & E & _). eauto.
  - destruct (worker_call_sound settings (OpFailure now) source c fails Hst) as (s' & E & _). eauto.
  - destruct (worker_call_sound settings OpSuccess source c fails Hst) as (s' & E & _). eauto.
Qed.

(** A half-open breaker admits every call, not a single probe: [is_open]
    answers [False] as often as it is asked, without changing the state. *)
Theorem half_open_admits_every_call {S} `{!Redis S text} `{!IsoTime} (up : S -> Prop) `{!RedisUp up}
    (settings : ResilienceSettings) (now1 now2 n t : Z) (source : string) (s : S) :
  up s -> represents s source (BHalfOpen n t) ->
  exists s1 s2, is_open settings now1 source s = (Ok false, s1) /\
    is_open settings now2 source s1 = (Ok false, s2) /\ represents s2 source (BHalfOpen n t).
Proof.
  intros Hup Hr.
  destruct (is_open_refines up settings now1 source s _ Hup Hr) as (s1 & E1 & Hup1 & Hr1).
  destruct (is_open_refines up settings now2 source s1 _ Hup1 Hr1) as (s2 & E2 & _ & Hr2).
  eauto 6.
Qed.

(** ** Witnesses *)

Module BreakerWitness.
Import MemRedis BitIso.

Definition settings3 : ResilienceSettings :=
  {| resilience_bypass := false; circuit_failure_threshold := 3; circuit_half_open_timeout_s := 60 |}.

Definition empty_store : store text := Store ∅ 0 [].
(** A store whose first call (the read) fails. *)
Definition flaky_store : store text := Store ∅ 0 [true].
Definition half_open_store : store text :=
  Store {[circuit_key "usgs" := (Json (encode_breaker (BHalfOpen 3 0)), None)]} 0 [].

Lemma breaker_safe_under_outages_witness :
  exists s', record_failure settings3 5 "usgs" flaky_store = (Ok tt, s') /\
    represents s' "usgs" (BClosed 1).
Proof.
  destruct (breaker_safe_under_outages settings3 5 "usgs" flaky_store breaker_init)
    as (_ & (a & s' & b' & E & Hr & _ & _) & _); [reflexivity | simpl; lia |].
  exists s'. destruct a. split; [exact E|].
  vm_compute in E. injection E as <-. reflexivity.
Defined.

Lemma breaker_opens_at_threshold_witness :
  b_failures settings3 [10; 20] breaker_init = BClosed 2 /\
  b_failures settings3 [10; 20; 30] breaker_init = BOpen 3 30.
Proof. exact (breaker_opens_at_threshold settings3 [10; 20] 30 eq_refl). Defined.

Lemma half_open_failure_reopens_witness :
  b_failure settings3 99 (BHalfOpen 3 0) = BOpen 4 99.
Proof.
  apply (half_open_failure_reopens settings3 (BHalfOpen 3 0) 3 0 99); [|reflexivity].
  apply (rtc_l _ _ (BClosed 1)); [exact (step_failure settings3 0 breaker_init)|].
  apply (rtc_l _ _ (BClosed 2)); [exact (step_failure settings3 0 (BClosed 1))|].
  apply (rtc_l _ _ (BOpen 3 0)); [exact (step_failure settings3 0 (BClosed 2))|].
  apply (rtc_l _ _ (BHalfOpen 3 0)); [exact (step_query settings3 60000000 (BOpen 3 0))|].
  apply rtc_refl.
Defined.

Definition failed_write (n : Z) : string * text := (circuit_key "usgs", Json (encode_breaker (BClosed n))).
Definition cfg1 : config := Config ∅ {[0%nat := [failed_write 1]]}.
Definition cfg2 : config := Config ∅ (<[1%nat := [failed_write 1]]> (pending cfg1)).
Definition cfg3 : config := Config {[ (failed_write 1).1 := (failed_write 1).2 ]} (<[0%nat := []]> (pending cfg2)).
Definition cfg4 : config := Config (<[(failed_write 1).1 := (failed_write 1).2]> (shared cfg3)) (<[1%nat := []]> (pending cfg3)).

(** Two workers that both read before either writes: one failure is lost. *)
Lemma lost_update_run : rtc (cstep settings3) config_init cfg4.
Proof.
  apply (rtc_l _ _ cfg1); [exact (c_call settings3 0 (OpFailure 5) "usgs" false config_init eq_refl)|].
  apply (rtc_l _ _ cfg2); [exact (c_call settings3 1 (OpFailure 7) "usgs" false cfg1 eq_refl)|].
  apply (rtc_l _ _ cfg3); [exact (c_write settings3 0 _ _ [] cfg2 eq_refl)|].
  apply (rtc_l _ _ cfg4); [exact (c_write settings3 1 _ _ [] cfg3 eq_refl)|].
  apply rtc_refl.
Qed.

Lemma breaker_inv_concurrent_witness : represents (open_session cfg4 false) "usgs" (BClosed 1) /\
  exists b, represents (open_session cfg4 false) "usgs" b /\ breaker_inv settings3 b.
Proof.
  split; [reflexivity|]. apply (breaker_inv_concurrent settings3 cfg4 "usgs"). apply lost_update_run.
Defined.

Lemma breaker_refines_machine_witness :
  exists s', record_failure settings3 5 "usgs" empty_store = (Ok tt, s') /\
    represents s' "usgs" (BClosed 1).
Proof.
  destruct (breaker_refines_machine (fun s : store text => outages s = []) settings3 5 "usgs")
    as (_ & H & _).
  destruct (H empty_store breaker_init eq_refl eq_refl) as (s' & E & _ & Hr).
  exists s'. exact (conj E Hr).
Defined.

Lemma half_open_admits_every_call_witness :
  exists s1 s2, is_open settings3 1 "usgs" half_open_store = (Ok false, s1) /\
    is_open settings3 2 "usgs" s1 = (Ok false, s2) /\ represents s2 "usgs" (BHalfOpen 3 0).
Proof.
  apply (half_open_admits_every_call (fun s : store text => outages s = [])); reflexivity.
Defined.
End BreakerWitness.
