(* ===== verification/Resilience.v ===== *)
(** * Resilient external calls
    ([src/resilience/retry_policy.py], [src/resilience/degraded_mode.py])

    Every external tool call goes through [resilient_call]: breaker check, live
    attempt with bounded retry, caching of the live value, and fall-back to the
    cached value.  [tenacity] is not part of the repository: its [retry]
    decorator is the interface [Tenacity], whose laws are the documented
    behaviour of [stop_after_attempt], [retry_if_exception_type] and
    [reraise=True]; waiting between attempts takes time but touches nothing. *)

From S2P Require Import Prelude PyFloat PyStr Settings Effects RedisKeys CircuitBreaker.
Import RedisKeyBuilder.

(** ** Retry policy *)

Class Tenacity := {
  retry : forall {S A : Type}, nat -> (pyexn -> bool) -> M S A -> M S A;
  retry_ok {S A} n p (fn : M S A) s a s' :
    fn s = (Ok a, s') -> retry (Datatypes.S n) p fn s = (Ok a, s');
  retry_fatal {S A} n p (fn : M S A) s e s' :
    fn s = (Raise e, s') -> p e = false -> retry (Datatypes.S n) p fn s = (Raise e, s');
  retry_last {S A} p (fn : M S A) s e s' :
    fn s = (Raise e, s') -> retry 1 p fn s = (Raise e, s');
  retry_again {S A} n p (fn : M S A) s e s' :
    fn s = (Raise e, s') -> p e = true ->
    retry (Datatypes.S (Datatypes.S n)) p fn s = retry (Datatypes.S n) p fn s';
}.

Module RetryLoop.
Fixpoint loop {S A} (n : nat) (p : pyexn -> bool) (fn : M S A) : M S A := fun s =>
  match fn s with
  | (Ok a, s') => (Ok a, s')
  | (Raise e, s') =>
      match n with
      | Datatypes.S (Datatypes.S _ as n') => if p e then loop n' p fn s' else (Raise e, s')
      | _ => (Raise e, s')
      end
  end.

#[export] Instance tenacity_loop : Tenacity.
Proof.
  refine {| retry := @loop |}.
  - intros S A n p fn s a s' E. simpl. by rewrite E.
  - intros S A n p fn s e s' E Hp. simpl. rewrite E. destruct n; [done|]. by rewrite Hp.
  - intros S A p fn s e s' E. simpl. by rewrite E.
  - intros S A n p fn s e s' E Hp. cbn [loop]. by rewrite E, Hp.
Defined.
End RetryLoop.

Definition MAX_ATTEMPTS : nat := 3.

Definition is_http_error (e : pyexn) : bool := match e with HTTPError _ => true | _ => false end.

Definition with_retry `{Tenacity} {S A} (fn : M S A) : M S A := retry MAX_ATTEMPTS is_http_error fn.

(** ** Degraded mode *)

Definition TTL_BY_SOURCE : list (string * Z) :=
  [("usgs", 600); ("noaa", 900); ("open_meteo", 300); ("firms", 300); ("openaq", 600);
   ("geocoding", 86400); ("copernicus", 1800); ("era5", 3600); ("gdelt", 900);
   ("osm", 1209600); ("arxiv", 86400)].

Definition _DEFAULT_TTL : Z := 600.

Inductive source_status := Live | Cached | Unavailable.

(** The value is a JSON document; [None] is [JNull]. *)
Record ResilientResult := {
  value : json;
  degraded : bool;
  status : source_status;
}.

Section resilient.
Context {S : Type} `{!Redis S text} `{!IsoTime} `{!Tenacity}.
Implicit Types (s : S) (fn : M S json).

Definition _cache_result (redis_cache_key : string) (v : json) (ttl : Z) : M S unit :=
  try_except (redis_set redis_cache_key (json_dumps v) (Some ttl)) (fun _ => mret tt).

Definition unavailable : ResilientResult :=
  {| value := JNull; degraded := true; status := Unavailable |}.

Definition _serve_from_cache (redis_cache_key : string) : M S ResilientResult :=
  cached ← try_except
    (raw ← redis_get redis_cache_key;
     match raw with
     | Some raw => cached_value ← lift (json_loads raw); mret (Some cached_value)
     | None => mret None
     end)
    (fun _ => mret None);
  mret match cached with
       | Some v => {| value := v; degraded := true; status := Cached |}
       | None => unavailable
       end.

Definition effective_ttl (source : string) (ttl : option Z) : Z :=
  match ttl with
  | Some ttl => ttl
  | None => default _DEFAULT_TTL (assoc source TTL_BY_SOURCE)
  end.

Definition live_result (v : json) : ResilientResult :=
  {| value := v; degraded := false; status := Live |}.

(** [now] is the instant of the breaker check, [now'] that of the failure.
    [RetryError] cannot occur: the policy re-raises the original exception. *)
Definition resilient_call (settings : ResilienceSettings) (now now' : Z)
    (source : string) (fn : M S json) (cache_key : string) (ttl : option Z)
    : M S ResilientResult :=
  if resilience_bypass settings then
    v ← fn; mret (live_result v)
  else
    let redis_cache_key := source_cache_key source cache_key in
    skip ← is_open settings now source;
    if (skip : bool) then _serve_from_cache redis_cache_key
    else
      fun s =>
        match (v ← with_retry fn;
               _cache_result redis_cache_key v (effective_ttl source ttl) ;;
               record_success source ;;
               mret (live_result v)) s with
        | (Raise (HTTPError _), s') =>
            (record_failure settings now' source ;;
             _serve_from_cache redis_cache_key) s'
        | r => r
        end.
End resilient.

(** ** Lemmas *)

Section lemmas.
Context {S : Type} `{!Redis S text} `{!IsoTime} `{!Tenacity}.
Implicit Types (s : S) (fn : M S json).

(** A property of stores kept by every call of [fn] is kept by the retried
    call. *)
Lemma retry_preserves {A} n p (fn : M S A) (P : S -> Prop) s :
  (forall s, P s -> P (fn s).2) -> P s -> P (retry (Datatypes.S n) p fn s).2.
Proof.
  intros Hfn. revert s. induction n as [|n IH]; intros s Hs; pose proof (Hfn s Hs) as Hs';
    destruct (fn s) as [[a|e] s'] eqn:E; simpl in Hs'.
  - by rewrite (retry_ok _ _ _ _ _ _ E).
  - by rewrite (retry_last _ _ _ _ _ E).
  - by rewrite (retry_ok _ _ _ _ _ _ E).
  - destruct (p e) eqn:Hp.
    + rewrite (retry_again _ _ _ _ _ _ E Hp). by apply IH.
    + by rewrite (retry_fatal _ _ _ _ _ _ E Hp).
Qed.

(** The exceptions of the retried call are those of [fn]. *)
Lemma retry_raises {A} n p (fn : M S A) (Q : pyexn -> Prop) s e s' :
  (forall s e s', fn s = (Raise e, s') -> Q e) ->
  retry (Datatypes.S n) p fn s = (Raise e, s') -> Q e.
Proof.
  intros Hfn. revert s. induction n as [|n IH]; intros s Hr;
    destruct (fn s) as [[a|e1] s1] eqn:E.
  - by rewrite (retry_ok _ _ _ _ _ _ E) in Hr.
  - rewrite (retry_last _ _ _ _ _ E) in Hr. simplify_eq. eauto.
  - by rewrite (retry_ok _ _ _ _ _ _ E) in Hr.
  - destruct (p e1) eqn:Hp.
    + rewrite (retry_again _ _ _ _ _ _ E Hp) in Hr. eauto.
    + rewrite (retry_fatal _ _ _ _ _ _ E Hp) in Hr. simplify_eq. eauto.
Qed.

Lemma serve_from_cache_spec key s :
  exists r s', _serve_from_cache key s = (Ok r, s') /\ (forall k, view s' k = view s k) /\
    (r = unavailable \/
     exists j, view s key = Some (Json j) /\ r = {| value := j; degraded := true; status := Cached |}).
Proof.
  unfold _serve_from_cache, try_except. rewrite !M_bind_run.
  pose proof (redis_get_view key s) as Hv. pose proof (redis_get_ok key s) as Hok.
  destruct (redis_get key s) as [[v|e] s1]; simpl in *.
  - specialize (Hok v eq_refl). destruct v as [[j|t]|]; simpl;
      eexists _, _; (split; [done|]; split; [done|]); eauto.
  - eexists _, _; split; [done|]; split; [done|]. by left.
Qed.

Lemma cache_result_spec key v ttl s :
  exists s', _cache_result key v ttl s = (Ok tt, s') /\
    (forall k, k <> key -> view s' k = view s k).
Proof.
  unfold _cache_result, try_except.
  pose proof (redis_set_frame key (json_dumps v) (Some ttl) s) as Hf.
  destruct (redis_set key (json_dumps v) (Some ttl) s) as [[[]|e] s'];
    exists s'; split; try done; intros; by apply Hf.
Qed.

Lemma represents_frame s s' source b key :
  (forall k, k <> source_cache_key key.1 key.2 -> view s' k = view s k) ->
  represents s source b -> represents s' source b.
Proof.
  intros Hv. unfold represents. rewrite Hv; [done|]. apply circuit_key_not_cache.
Qed.
End lemmas.

(** What the fields of a result promise, given the documents cached before. *)
Definition result_ok (cached : option text) (r : ResilientResult) : Prop :=
  match status r with
  | Live => degraded r = false
  | Cached => degraded r = true /\ cached = Some (Json (value r))
  | Unavailable => degraded r = true /\ value r = JNull
  end.

Section calls.
Context {S : Type} `{!Redis S text} `{!IsoTime} `{!Tenacity}.
Variable settings : ResilienceSettings.
Variable fn : M S json.
(** The wrapped call leaves Redis alone. *)
Hypothesis fn_frame : forall s k, view (fn s).2 k = view s k.
Implicit Types (s : S) (b : breaker).

Lemma with_retry_frame s k : view (with_retry fn s).2 k = view s k.
Proof.
  unfold with_retry, MAX_ATTEMPTS.
  apply (retry_preserves 2 is_http_error fn (fun s' => view s' k = view s k)); [|done].
  intros s' <-. apply fn_frame.
Qed.

Lemma serve_result_ok key s s0 :
  view s key = view s0 key ->
  exists r s', _serve_from_cache key s = (Ok r, s') /\ (forall k, view s' k = view s k) /\
    result_ok (view s0 key) r /\ status r <> Live.
Proof.
  intros Hk. destruct (serve_from_cache_spec key s) as (r & s' & E & Hv & Hr).
  exists r, s'. split; [done|]. split; [done|].
  destruct Hr as [->|(j & Hj & ->)]; [done|]. unfold result_ok; simpl. by rewrite <- Hk, Hj.
Qed.

(** The fall-back after an exhausted live attempt. *)
Lemma fallback_ok now source ck s s0 b :
  represents s source b -> breaker_inv settings b ->
  view s (source_cache_key source ck) = view s0 (source_cache_key source ck) ->
  exists r s' b', (record_failure settings now source ;;
                   _serve_from_cache (source_cache_key source ck)) s = (Ok r, s') /\
    result_ok (view s0 (source_cache_key source ck)) r /\ status r <> Live /\
    represents s' source b' /\ breaker_inv settings b'.
Proof.
  intros Hr Hb Hk. rewrite M_bind_run.
  destruct (op_effect_inv settings _ _ _ _ _ _ (breaker_inv_failure settings now) Hb
    (record_failure_effect settings now source s b Hr)) as ([] & s1 & b1 & -> & Hr1 & Hb1 & Hf1).
  destruct (serve_result_ok (source_cache_key source ck) s1 s0) as (r & s2 & -> & Hv2 & ? & ?).
  { rewrite Hf1; [done|]. intros E; symmetry in E; by apply circuit_key_not_cache in E. }
  exists r, s2, b1. repeat split; auto. by eapply represents_view.
Qed.

(** A live value is cached and resets the breaker. *)
Lemma live_ok source ck ttl v s b :
  represents s source b -> breaker_inv settings b ->
  exists s' b', (_cache_result (source_cache_key source ck) v ttl ;;
                 record_success source ;; mret (live_result v)) s = (Ok (live_result v), s') /\
    represents s' source b' /\ breaker_inv settings b'.
Proof.
  intros Hr Hb. rewrite M_bind_run.
  destruct (cache_result_spec (source_cache_key source ck) v ttl s) as (s1 & -> & Hf).
  assert (represents s1 source b) as Hr1 by by apply (represents_frame s s1 source b (source, ck)).
  destruct (op_effect_inv settings _ _ _ _ _ _ (fun _ _ => breaker_inv_init settings) Hb
    (record_success_effect source s1 b Hr1)) as ([] & s2 & b2 & E & Hr2 & Hb2 & _).
  exists s2, b2. by rewrite M_bind_run, E.
Qed.

Hypothesis fn_raises : forall s e s', fn s = (Raise e, s') -> is_http_error e = true.
Hypothesis no_bypass : resilience_bypass settings = false.

Lemma resilient_call_total_aux now now' source ck ttl s b :
  represents s source b -> breaker_inv settings b ->
  exists r s' b', resilient_call settings now now' source fn ck ttl s = (Ok r, s') /\
    result_ok (view s (source_cache_key source ck)) r /\
    represents s' source b' /\ breaker_inv settings b'.
Proof.
  intros Hr Hb. unfold resilient_call. rewrite no_bypass, M_bind_run.
  destruct (op_effect_inv settings _ _ _ _ _ _ (breaker_inv_query settings now) Hb
    (is_open_effect settings now source s b Hr)) as (skip & s1 & b1 & -> & Hr1 & Hb1 & Hf1).
  assert (view s1 (source_cache_key source ck) = view s (source_cache_key source ck)) as Hk1.
  { apply Hf1. intros E; symmetry in E; by apply circuit_key_not_cache in E. }
  destruct skip.
  { destruct (serve_result_ok _ s1 s Hk1) as (r & s2 & -> & Hv2 & ? & _).
    exists r, s2, b1. repeat split; auto. by eapply represents_view. }
  rewrite M_bind_run. pose proof (with_retry_frame s1) as Hf2.
  destruct (with_retry fn s1) as [[v|e] s2] eqn:E; simpl in Hf2.
  - assert (represents s2 source b1) as Hr2 by by eapply represents_view.
    destruct (live_ok source ck (effective_ttl source ttl) v s2 b1 Hr2 Hb1) as (s3 & b3 & -> & ? & ?).
    by exists (live_result v), s3, b3.
  - assert (is_http_error e = true) as He
      by exact (retry_raises 2 is_http_error fn (fun e => is_http_error e = true) s1 e s2 fn_raises E).
    destruct e; try discriminate He.
    assert (represents s2 source b1) as Hr2 by by eapply represents_view.
    destruct (fallback_ok now' source ck s2 s b1 Hr2 Hb1) as (r & s3 & b3 & -> & ? & ? & ? & ?);
      [by rewrite Hf2 | by exists r, s3, b3].
Qed.
End calls.

(** ** Counting attempts and the cache round trip *)

Section counting.
Context {S A : Type} `{!Tenacity}.
Variable calls : S -> Z.
Variable fn : M S A.
Hypothesis fn_counts : forall s, calls (fn s).2 = calls s + 1.

Lemma retry_counts n p s r s' :
  retry (Datatypes.S n) p fn s = (r, s') ->
  1 <= calls s' - calls s <= Z.of_nat n + 1 /\
  (forall e, r = Raise e -> p e = true -> calls s' - calls s = Z.of_nat n + 1).
Proof.
  revert s. induction n as [|n IH]; intros s Hr; pose proof (fn_counts s) as Hc;
    destruct (fn s) as [[a|e] s1] eqn:E; simpl in Hc.
  - rewrite (retry_ok _ _ _ _ _ _ E) in Hr. simplify_eq. split; [lia | done].
  - rewrite (retry_last _ _ _ _ _ E) in Hr. simplify_eq. split; lia.
  - rewrite (retry_ok _ _ _ _ _ _ E) in Hr. simplify_eq. split; [lia | done].
  - destruct (p e) eqn:Hp.
    + rewrite (retry_again _ _ _ _ _ _ E Hp) in Hr. destruct (IH _ Hr) as [Hb Hx].
      split; [lia|]. intros e' -> He'. specialize (Hx e' eq_refl He'). lia.
    + rewrite (retry_fatal _ _ _ _ _ _ E Hp) in Hr. simplify_eq.
      split; [lia|]. intros e' [= <-] He'. congruence.
Qed.
End counting.

Section roundtrip.
Context {S : Type} `{!Redis S text} `{!IsoTime} `{!Tenacity} (up : S -> Prop) `{!RedisUp up}.
Variable settings : ResilienceSettings.
Hypothesis no_bypass : resilience_bypass settings = false.
Implicit Types (s : S) (fn : M S json) (source ck : string).

Lemma is_open_up now source s b :
  up s -> represents s source b -> (b_query settings now b).1 = false ->
  exists s1, is_open settings now source s = (Ok false, s1) /\ up s1 /\
    represents s1 source (b_query settings now b).2 /\
    (forall k, k <> circuit_key source -> view s1 k = view s k).
Proof.
  intros Hup Hr Hq.
  destruct (is_open_refines up settings now source s b Hup Hr) as (s1 & E & Hup1 & Hr1).
  destruct (is_open_effect settings now source s b Hr) as (b0 & s1' & b' & E' & _ & _ & _ & Hf).
  rewrite E in E'. simplify_eq. rewrite Hq in E. by exists s1'.
Qed.

(** A successful call leaves its value in the cache and a fresh breaker. *)
Lemma live_call_caches now now' source fn ck ttl s b v s1 s2 :
  up s -> represents s source b -> (b_query settings now b).1 = false ->
  0 < effective_ttl source ttl ->
  is_open settings now source s = (Ok false, s1) ->
  with_retry fn s1 = (Ok v, s2) -> up s2 -> (forall k, view s2 k = view s1 k) ->
  exists s', resilient_call settings now now' source fn ck ttl s = (Ok (live_result v), s') /\
    up s' /\ represents s' source breaker_init /\
    view s' (source_cache_key source ck) = Some (Json v).
Proof.
  intros Hup Hr Hq Httl Eo Ew Hup2 Hv2.
  unfold resilient_call. rewrite no_bypass, M_bind_run, Eo, M_bind_run, Ew, M_bind_run.
  destruct (is_open_up now source s b Hup Hr Hq) as (s1' & Eo' & _ & Hr1 & _).
  rewrite Eo in Eo'; injection Eo' as <-.
  set (key := source_cache_key source ck). unfold _cache_result, try_except.
  destruct (up_setex key (json_dumps v) (effective_ttl source ttl) s2 Hup2 Httl) as [Eset Hup3].
  pose proof (redis_set_ok key (json_dumps v) (Some (effective_ttl source ttl)) s2 Eset) as Hk3.
  pose proof (redis_set_frame key (json_dumps v) (Some (effective_ttl source ttl)) s2) as Hf3.
  destruct (redis_set key (json_dumps v) (Some (effective_ttl source ttl)) s2) as [r3 s3].
  simpl in *. subst r3. rewrite M_bind_run.
  assert (represents s3 source (b_query settings now b).2) as Hr3.
  { apply (represents_frame s1 s3 source _ (source, ck)); [|done].
    intros k Hk. rewrite Hf3 by (symmetry; done). apply Hv2. }
  destruct (record_success_refines up source s3 _ Hup3 Hr3) as (s4 & E4 & Hup4 & Hr4).
  destruct (record_success_effect source s3 _ Hr3) as (? & ? & ? & E4' & _ & _ & _ & Hf4).
  rewrite E4 in E4' |- *. injection E4' as <-. exists s4. split; [done|].
  split; [done|]. split; [done|]. rewrite Hf4; [done|].
  intros E; symmetry in E; by apply circuit_key_not_cache in E.
Qed.

(** An exhausted call serves what is cached. *)
Lemma exhausted_call_serves now now' source fn ck ttl s b v s1 s2 msg :
  up s -> represents s source b -> (b_query settings now b).1 = false ->
  view s (source_cache_key source ck) = Some (Json v) ->
  is_open settings now source s = (Ok false, s1) ->
  with_retry fn s1 = (Raise (HTTPError msg), s2) -> up s2 -> (forall k, view s2 k = view s1 k) ->
  exists s', resilient_call settings now now' source fn ck ttl s =
    (Ok {| value := v; degraded := true; status := Cached |}, s').
Proof.
  intros Hup Hr Hq Hk Eo Ew Hup2 Hv2.
  unfold resilient_call. rewrite no_bypass, M_bind_run, Eo, M_bind_run, Ew, M_bind_run.
  destruct (is_open_up now source s b Hup Hr Hq) as (s1' & Eo' & _ & Hr1 & Hf1).
  rewrite Eo in Eo'; injection Eo' as <-.
  assert (represents s2 source (b_query settings now b).2) as Hr2 by by eapply represents_view.
  destruct (record_failure_refines up settings now' source s2 _ Hup2 Hr2) as (s3 & E3 & Hup3 & _).
  destruct (record_failure_effect settings now' source s2 _ Hr2) as (? & ? & ? & E3' & _ & _ & _ & Hf3).
  rewrite E3 in E3' |- *. injection E3' as <-.
  assert (view s3 (source_cache_key source ck) = Some (Json v)) as Hk3.
  { assert (source_cache_key source ck <> circuit_key source)
      by (intros E; symmetry in E; by apply circuit_key_not_cache in E).
    by rewrite Hf3, Hv2, Hf1. }
  unfold _serve_from_cache, try_except. rewrite !M_bind_run.
  destruct (up_get (source_cache_key source ck) s3 Hup3) as [Eg _].
  destruct (redis_get (source_cache_key source ck) s3) as [rg s4]. simpl in Eg. subst rg.
  rewrite Hk3. simpl. eauto.
Qed.
End roundtrip.

(** ** Properties *)

(** C40. With the bypass off, when the wrapped call fails only with
    [httpx.HTTPError] and leaves Redis alone, and the breaker's stored document
    is missing, unreadable or one the breaker wrote, [resilient_call] always
    returns, whatever calls to Redis fail: a live result is not degraded, a
    cached one is degraded and is the document that was cached, an unavailable
    one is degraded and empty; and the breaker document stays within its
    invariant.  With the bypass on, the call ends as the wrapped call does, its
    exceptions included, and neither breaker nor cache is used. *)
Theorem resilient_call_total {S} `{!Redis S text} `{!IsoTime} `{!Tenacity}
    (settings : ResilienceSettings) (now now' : Z) (source : string) (fn : M S json) (ck : string)
    (ttl : option Z) (s : S) (b : breaker) :
  (forall s k, view (fn s).2 k = view s k) ->
  (forall s e s', fn s = (Raise e, s') -> is_http_error e = true) ->
  represents s source b -> breaker_inv settings b ->
  if resilience_bypass settings then
    resilient_call settings now now' source fn ck ttl s =
      match fn s with
      | (Ok v, s') => (Ok {| value := v; degraded := false; status := Live |}, s')
      | (Raise e, s') => (Raise e, s')
      end
  else
    exists r s' b', resilient_call settings now now' source fn ck ttl s = (Ok r, s') /\
      result_ok (view s (source_cache_key source ck)) r /\
      represents s' source b' /\ breaker_inv settings b'.
Proof.
  intros. destruct (resilience_bypass settings) eqn:E; [|by eapply resilient_call_total_aux].
  unfold resilient_call. rewrite E, M_bind_run. by destruct (fn s) as [[v|e] s'].
Qed.

(** An exception of the wrapped call other than [httpx.HTTPError] is not
    retried and reaches the caller of [resilient_call], with the breaker and the
    cache left as they were after the breaker check. *)
Theorem resilient_call_propagates {S} `{!Redis S text} `{!IsoTime} `{!Tenacity}
    (settings : ResilienceSettings) (now now' : Z) (source : string) (fn : M S json) (ck : string)
    (ttl : option Z) (s s1 s2 : S) (e : pyexn) :
  resilience_bypass settings = false ->
  is_open settings now source s = (Ok false, s1) ->
  fn s1 = (Raise e, s2) -> is_http_error e = false ->
  resilient_call settings now now' source fn ck ttl s = (Raise e, s2).
Proof.
  intros Hb Ho Hfn He. unfold resilient_call. rewrite Hb, M_bind_run, Ho, M_bind_run.
  unfold with_retry, MAX_ATTEMPTS. rewrite (retry_fatal _ _ _ _ _ _ Hfn He).
  by destruct e.
Qed.

(** While the breaker is open the wrapped call is not made at all: the
    result is what the cache holds, whatever the call would do. *)
Theorem open_circuit_skips_live {S} `{!Redis S text} `{!IsoTime} `{!Tenacity}
    (up : S -> Prop) `{!RedisUp up}
    (settings : ResilienceSettings) (now now' : Z) (source : string) (fn : M S json) (ck : string)
    (ttl : option Z) (s : S) (n t : Z) :
  resilience_bypass settings = false -> up s -> represents s source (BOpen n t) ->
  now < t + circuit_half_open_timeout_s settings * 1000000 ->
  exists r s', resilient_call settings now now' source fn ck ttl s = (Ok r, s') /\
    status r <> Live /\ result_ok (view s (source_cache_key source ck)) r /\
    represents s' source (BOpen n t) /\
    forall fn', resilient_call settings now now' source fn' ck ttl s = (Ok r, s').
Proof.
  intros Hb Hup Hr Hnow. unfold resilient_call. rewrite Hb.
  destruct (get_state_up up s source _ Hup Hr) as (s1 & Eg & _ & Hv1).
  pose proof (is_open_run settings now source s _ s1 Eg) as Eo. simpl in Eo.
  unfold half_open_due in Eo. rewrite (proj2 (Z.leb_gt _ _)) in Eo by lia.
  setoid_rewrite M_bind_run. rewrite Eo.
  destruct (serve_result_ok (source_cache_key source ck) s1 s) as (r & s2 & E & Hv2 & ? & ?);
    [by rewrite Hv1|].
  exists r, s2. repeat split; auto. eapply represents_view; [|exact Hr].
  intros k. by rewrite Hv2, Hv1.
Qed.

(** The wrapped call is attempted at least once and at most three times,
    and a retriable failure is reported only after all three attempts. *)
Theorem with_retry_attempts {S A} `{!Tenacity} (calls : S -> Z) (fn : M S A) (s s' : S)
    (r : result pyexn A) :
  (forall s, calls (fn s).2 = calls s + 1) -> with_retry fn s = (r, s') ->
  1 <= calls s' - calls s <= Z.of_nat MAX_ATTEMPTS /\
  (forall e, r = Raise e -> is_http_error e = true -> calls s' - calls s = Z.of_nat MAX_ATTEMPTS).
Proof. intros Hfn Hr. exact (retry_counts calls fn Hfn 2 is_http_error s r s' Hr). Qed.

(** A value obtained live is what the cache serves later: when a call
    returns a live value and a following call of the same source and cache key
    exhausts its attempts while the entry has not expired, the second result is
    that value, marked degraded and cached. *)
Theorem live_value_served_from_cache {S} `{!Redis S text} `{!IsoTime} `{!Tenacity}
    (up : S -> Prop) `{!RedisUp up} (settings : ResilienceSettings) (source ck : string)
    (ttl : option Z) (now1 now1' now2 now2' : Z) (fn1 fn2 : M S json) (v : json) (msg : string)
    (s : S) (b : breaker) :
  resilience_bypass settings = false -> up s -> represents s source b ->
  (b_query settings now1 b).1 = false -> 0 < effective_ttl source ttl ->
  (forall s, up s -> exists s', fn1 s = (Ok v, s') /\ up s' /\ forall k, view s' k = view s k) ->
  (forall s, up s -> exists s', with_retry fn2 s = (Raise (HTTPError msg), s') /\ up s' /\
     forall k, view s' k = view s k) ->
  exists s1 s2,
    resilient_call settings now1 now1' source fn1 ck ttl s = (Ok (live_result v), s1) /\
    resilient_call settings now2 now2' source fn2 ck ttl s1 =
      (Ok {| value := v; degraded := true; status := Cached |}, s2).
Proof.
  intros Hby Hup Hr Hq Httl Hfn1 Hfn2.
  destruct (is_open_up up settings now1 source s b Hup Hr Hq) as (sa & Ea & Hupa & _ & _).
  destruct (Hfn1 sa Hupa) as (sb & Eb & Hupb & Hvb).
  destruct (live_call_caches up settings Hby now1 now1' source fn1 ck ttl s b v sa sb Hup Hr Hq Httl
    Ea (retry_ok _ _ _ _ _ _ Eb) Hupb Hvb) as (s1 & E1 & Hup1 & Hr1 & Hk1).
  destruct (is_open_up up settings now2 source s1 breaker_init Hup1 Hr1 eq_refl)
    as (sc & Ec & Hupc & _ & _).
  destruct (Hfn2 sc Hupc) as (sd & Ed & Hupd & Hvd).
  destruct (exhausted_call_serves up settings Hby now2 now2' source fn2 ck ttl s1 _ v sc sd msg
    Hup1 Hr1 eq_refl Hk1 Ec Ed Hupd Hvd) as (s2 & E2).
  eauto.
Qed.

(** ** Witnesses *)

Module ResilienceWitness.
Import MemRedis BitIso RetryLoop BreakerWitness.

Definition fn_up : M (store text) json := fun s => (Ok (JInt 7), s).
Definition fn_down : M (store text) json := fun s => (Raise (HTTPError "503"), s).
Definition fn_bug : M (store text) json := fun s => (Raise ValueError, s).
Definition open_store : store text :=
  Store {[circuit_key "usgs" := (Json (encode_breaker (BOpen 3 0)), None)]} 0 [].

Lemma resilient_call_total_witness :
  exists r s', resilient_call settings3 1 2 "usgs" fn_down "k" None flaky_store = (Ok r, s') /\
    status r = Unavailable.
Proof.
  destruct (resilient_call_total settings3 1 2 "usgs" fn_down "k" None flaky_store breaker_init)
    as (r & s' & b' & E & _);
    [reflexivity | intros s e s' [= <-]; reflexivity | reflexivity | simpl; lia |].
  exists r, s'. split; [exact E|]. vm_compute in E. injection E as <- _. reflexivity.
Defined.

Lemma resilient_call_propagates_witness :
  resilient_call settings3 1 2 "usgs" fn_bug "k" None empty_store = (Raise ValueError, empty_store).
Proof.
  apply (resilient_call_propagates settings3 1 2 "usgs" fn_bug "k" None empty_store empty_store);
    reflexivity.
Defined.

Lemma open_circuit_skips_live_witness :
  exists r s', resilient_call settings3 1 2 "usgs" fn_up "k" None open_store = (Ok r, s') /\
    status r <> Live.
Proof.
  destruct (open_circuit_skips_live (fun s : store text => outages s = []) settings3 1 2 "usgs"
    fn_up "k" None open_store 3 0) as (r & s' & E & Hl & _);
    [reflexivity | reflexivity | reflexivity | simpl; lia |].
  exists r, s'. exact (conj E Hl).
Defined.

Definition counting_fn : M Z json := fun s => (Raise (HTTPError "503"), s + 1).

Lemma with_retry_attempts_witness :
  with_retry counting_fn 0 = (Raise (HTTPError "503"), 3) /\
  1 <= 3 - 0 <= Z.of_nat MAX_ATTEMPTS.
Proof.
  split; [reflexivity|].
  destruct (with_retry_attempts (fun s : Z => s) counting_fn 0 3 (Raise (HTTPError "503")))
    as [H _]; [reflexivity | reflexivity | exact H].
Defined.

Lemma live_value_served_from_cache_witness :
  exists s1 s2,
    resilient_call settings3 1 2 "usgs" fn_up "k" None empty_store = (Ok (live_result (JInt 7)), s1) /\
    resilient_call settings3 3 4 "usgs" fn_down "k" None s1 =
      (Ok {| value := JInt 7; degraded := true; status := Cached |}, s2).
Proof.
  apply (live_value_served_from_cache (fun s : store text => outages s = []) settings3 "usgs" "k"
    None 1 2 3 4 fn_up fn_down (JInt 7) "503" empty_store breaker_init);
    [reflexivity | reflexivity | reflexivity | reflexivity | reflexivity | |].
  - intros s Hs. exists s. auto.
  - intros s Hs. exists s. auto.
Defined.
End ResilienceWitness.
