(* ===== verification/Registry.v ===== *)
(** * Agent registry ([src/orchestrator/agents/registry.py],
    [src/orchestrator/schemas/plugin_manifest.py])

    The registry's two dictionaries, in insertion order, with the operations
    that change them, and the lookup that the fan-out coordinator uses.  The
    runner of an agent is a parameter: any callable. *)

From S2P Require Import Prelude PyStr Effects.

Record PluginManifest := {
  m_name : string;
  m_version : string;
  m_domain : string;
  m_entry_point : string;
  m_gaiaos_version_range : string;
  m_required_settings : list string;
  m_eval_benchmark_question_ids : list string;
  m_author : option string;
  m_description : option string;
}.

Section registry.
Context {R : Type}.   (* AgentRunner *)

Record RegisteredPlugin := { manifest : PluginManifest; runner : R; p_status : string }.

Record AgentRegistry := Registry {
  _first_party_registry : list (string * R);
  _plugin_registry : list (string * RegisteredPlugin);
}.

Definition empty_registry : AgentRegistry := Registry [] [].

Definition register (name : string) (r : R) (g : AgentRegistry) : AgentRegistry :=
  Registry (assoc_set name r (_first_party_registry g)) (_plugin_registry g).

Inductive registry_error :=
| DuplicateFirstParty (plugin domain : string)
| DuplicatePlugin (plugin domain existing : string)
| NotRegistered (name : string).

Definition register_plugin (mf : PluginManifest) (r : R) (g : AgentRegistry)
    : result registry_error AgentRegistry :=
  let domain := m_domain mf in
  if in_dict domain (_first_party_registry g) then Raise (DuplicateFirstParty (m_name mf) domain)
  else match assoc domain (_plugin_registry g) with
       | Some existing =>
           Raise (DuplicatePlugin (m_name mf) domain (m_name (manifest existing)))
       | None =>
           Ok (Registry (_first_party_registry g)
                 (assoc_set domain {| manifest := mf; runner := r; p_status := "active" |}
                    (_plugin_registry g)))
       end.

Definition get (name : string) (g : AgentRegistry) : result registry_error R :=
  match assoc name (_first_party_registry g) with
  | Some r => Ok r
  | None =>
      match assoc name (_plugin_registry g) with
      | Some p => Ok (runner p)
      | None => Raise (NotRegistered name)
      end
  end.

Definition list_domains (g : AgentRegistry) : list string :=
  map fst (_first_party_registry g) ++ map fst (_plugin_registry g).

Definition get_plugin_manifest (domain : string) (g : AgentRegistry) : option PluginManifest :=
  manifest <$> assoc domain (_plugin_registry g).

(** [_register] of [register_agents]: skips a domain that is already there. *)
Definition _register (g : AgentRegistry) (entry : string * R) : AgentRegistry :=
  if in_dict entry.1 (_first_party_registry g) then g else register entry.1 entry.2 g.

Definition FIRST_PARTY_DOMAINS : list string :=
  ["air_quality"; "seismic"; "ocean"; "atmosphere"; "wildfire"; "literature"; "causal_chain"].

(** [agent_of d] is the [run] function imported for domain [d]. *)
Definition register_agents (agent_of : string -> R) (g : AgentRegistry) : AgentRegistry :=
  fold_left _register (map (fun d => (d, agent_of d)) FIRST_PARTY_DOMAINS) g.
End registry.
Arguments AgentRegistry : clear implicits.
Arguments RegisteredPlugin : clear implicits.

(** ** Lemmas *)

Section lemmas.
Context {R : Type}.
Implicit Types g : AgentRegistry R.

(** Every registered domain resolves to a runner, and only those. *)
Lemma get_list_domains name g : is_ok (get name g) = true <-> name ∈ list_domains g.
Proof.
  unfold get, list_domains. rewrite elem_of_app, <- !assoc_elem.
  destruct (assoc name (_first_party_registry g)) as [r|]; simpl; [naive_solver|].
  destruct (assoc name (_plugin_registry g)); simpl; split; eauto; try done.
  all: by intros [[? [=]]|[? [=]]].
Qed.

Lemma register_plugin_ok mf r g g' :
  register_plugin mf r g = Ok g' ->
  m_domain mf ∉ list_domains g /\ _first_party_registry g' = _first_party_registry g /\
  list_domains g' = list_domains g ++ [m_domain mf] /\ get (m_domain mf) g' = Ok r.
Proof.
  unfold register_plugin. destruct (in_dict _ _) eqn:E1; [done|].
  destruct (assoc (m_domain mf) (_plugin_registry g)) eqn:E2; [done|]. intros [= <-].
  assert (in_dict (m_domain mf) (_plugin_registry g) = false) as E3 by (unfold in_dict; by rewrite E2).
  unfold list_domains. simpl. rewrite assoc_set_keys, E3, app_assoc.
  split; [|split; [done|split; [done|]]].
  - rewrite elem_of_app, <- !in_dict_elem, E1, E3. naive_solver.
  - unfold get; simpl. unfold in_dict in E1. destruct (assoc (m_domain mf) (_first_party_registry g)); [done|].
    by rewrite assoc_set_eq.
Qed.

(** A plugin registration leaves every other lookup alone. *)
Lemma register_plugin_get_other mf r g g' name :
  register_plugin mf r g = Ok g' -> name <> m_domain mf -> get name g' = get name g.
Proof.
  unfold register_plugin. destruct (in_dict _ _); [done|].
  destruct (assoc (m_domain mf) (_plugin_registry g)); [done|]. intros [= <-] Hne.
  unfold get; simpl. by rewrite assoc_set_ne by done.
Qed.

Lemma register_domains g entry d :
  d ∈ map fst (_first_party_registry (_register g entry)) <->
  d ∈ map fst (_first_party_registry g) \/ d = entry.1.
Proof.
  unfold _register. destruct (in_dict _ _) eqn:E; simpl.
  - apply in_dict_elem in E. naive_solver.
  - rewrite assoc_set_keys, E. set_solver.
Qed.

Lemma register_idem g entry : entry.1 ∈ map fst (_first_party_registry g) -> _register g entry = g.
Proof. intros H%in_dict_elem. unfold _register. by rewrite H. Qed.

Lemma register_fold_domains l g d :
  d ∈ map fst (_first_party_registry (fold_left _register l g)) <->
  d ∈ map fst (_first_party_registry g) \/ d ∈ map fst l.
Proof.
  revert g. induction l as [|e l IH]; intros g; simpl.
  - rewrite elem_of_nil. tauto.
  - rewrite IH, register_domains, elem_of_cons. tauto.
Qed.

Lemma register_fold_idem l g :
  (forall e, e ∈ l -> e.1 ∈ map fst (_first_party_registry g)) -> fold_left _register l g = g.
Proof.
  induction l as [|e l IH]; intros H; simpl; [done|].
  rewrite register_idem by (apply H; by left). apply IH. intros e' He'. apply H. by right.
Qed.

Lemma register_agents_domains agent_of g d :
  d ∈ FIRST_PARTY_DOMAINS -> d ∈ map fst (_first_party_registry (register_agents agent_of g)).
Proof.
  intros Hd. unfold register_agents. apply register_fold_domains. by right.
Qed.

Lemma first_party_get d g : d ∈ map fst (_first_party_registry g) -> exists r, get d g = Ok r.
Proof. intros [r Hr]%assoc_elem. exists r. unfold get. by rewrite Hr. Qed.
End lemmas.

(** ** Plugin registration sequences *)

Inductive plugins_loaded {R} : AgentRegistry R -> AgentRegistry R -> Prop :=
| loaded_none g : plugins_loaded g g
| loaded_ok g g1 g2 mf r :
    register_plugin mf r g = Ok g1 -> plugins_loaded g1 g2 -> plugins_loaded g g2
| loaded_rejected g g2 mf (r : R) e :
    register_plugin mf r g = Raise e -> plugins_loaded g g2 -> plugins_loaded g g2.

Lemma plugins_loaded_first_party {R} (g g' : AgentRegistry R) :
  plugins_loaded g g' -> _first_party_registry g' = _first_party_registry g.
Proof.
  induction 1 as [g|g g1 g2 mf r E _ IH|g g2 mf r e E _ IH]; [done| |done].
  rewrite IH. by apply register_plugin_ok in E as (_ & ? & _).
Qed.

Lemma plugins_loaded_NoDup {R} (g g' : AgentRegistry R) :
  plugins_loaded g g' -> NoDup (list_domains g) -> NoDup (list_domains g').
Proof.
  induction 1 as [g|g g1 g2 mf r E _ IH|g g2 mf r e E _ IH]; intros Hn; [done| |auto].
  apply IH. apply register_plugin_ok in E as (Hni & _ & -> & _).
  apply NoDup_app. split; [done|]. split; [set_solver | apply NoDup_singleton].
Qed.

Lemma plugins_loaded_mono {R} (g g' : AgentRegistry R) name r :
  plugins_loaded g g' -> get name g = Ok r -> get name g' = Ok r.
Proof.
  induction 1 as [g|g g1 g2 mf r' E _ IH|g g2 mf r' e E _ IH]; intros Hg; auto.
  apply IH. destruct (decide (name = m_domain mf)) as [->|Hne].
  - apply register_plugin_ok in E as (Hni & _). exfalso. apply Hni, get_list_domains.
    by rewrite Hg.
  - by rewrite (register_plugin_get_other _ _ _ _ _ E Hne).
Qed.

(** ** Properties *)

(** Plugins extend the registry and never change it: after any sequence of
    registration attempts, accepted or rejected, every domain that resolved
    before resolves to the same runner, the first-party agents are untouched
    and no domain is listed twice. *)
Theorem plugins_never_override {R} (agent_of : string -> R) (g : AgentRegistry R) :
  plugins_loaded (register_agents agent_of empty_registry) g ->
  (forall name r, get name (register_agents agent_of empty_registry) = Ok r -> get name g = Ok r) /\
  _first_party_registry g = _first_party_registry (register_agents agent_of empty_registry) /\
  NoDup (list_domains g).
Proof.
  intros Hl. split; [intros name r; by apply plugins_loaded_mono|].
  split; [by apply plugins_loaded_first_party|].
  eapply plugins_loaded_NoDup; [done|].
  change (list_domains (register_agents agent_of empty_registry)) with FIRST_PARTY_DOMAINS.
  apply (bool_decide_unpack _). by vm_compute.
Qed.

(** [register_agents] registers all seven first-party domains in any
    registry, and calling it again changes nothing. *)
Theorem register_agents_idempotent {R} (agent_of agent_of' : string -> R) (g : AgentRegistry R) :
  (forall d, d ∈ FIRST_PARTY_DOMAINS -> exists r, get d (register_agents agent_of g) = Ok r) /\
  register_agents agent_of' (register_agents agent_of g) = register_agents agent_of g.
Proof.
  split.
  - intros d Hd. by apply first_party_get, register_agents_domains.
  - unfold register_agents at 1. apply register_fold_idem.
    intros e He. apply register_agents_domains.
    apply list_elem_of_fmap in He as (d & -> & Hd). done.
Qed.

Module RegistryWitness.
Definition volcano : PluginManifest :=
  {| m_name := "gaiaos-volcano"; m_version := "1.0.0"; m_domain := "volcanic_activity";
     m_entry_point := "volcano:run"; m_gaiaos_version_range := ">=0.5.0";
     m_required_settings := []; m_eval_benchmark_question_ids := [];
     m_author := None; m_description := None |}.
Definition base : AgentRegistry nat := register_agents String.length empty_registry.
Definition extended : AgentRegistry nat :=
  Registry (_first_party_registry base)
    [("volcanic_activity", {| manifest := volcano; runner := 99%nat; p_status := "active" |})].

Lemma plugins_never_override_witness : NoDup (list_domains extended).
Proof.
  apply (plugins_never_override String.length extended).
  eapply (loaded_ok _ extended _ volcano 99%nat); [reflexivity | constructor].
Defined.
End RegistryWitness.
