(* ===== verification/Classifier.v ===== *)
(** * Query classification ([src/orchestrator/agents/supervisor/classifier.py],
    [src/orchestrator/agents/supervisor/planner.py],
    [src/orchestrator/schemas/complexity.py])

    The keyword patterns, transcribed to [regex], and the classification of a
    query into a complexity tier, target domains and a simulation flag. *)

From S2P Require Import Prelude PyStr Regex Registry.

Inductive ComplexityTier := TRIVIAL | MODERATE | COMPLEX.

#[global] Instance ComplexityTier_eq_dec : EqDecision ComplexityTier.
Proof. solve_decision. Defined.

Definition tier_value (t : ComplexityTier) : string :=
  match t with TRIVIAL => "trivial" | MODERATE => "moderate" | COMPLEX => "complex" end.

(** [\bsimulat(e|ion)\b] *)
Definition simulate_pattern : regex :=
  RSeq RBoundary (RSeq (RLit "simulat") (RSeq (RAlt (RLit "e") (RLit "ion")) RBoundary)).

Definition COMPLEX_KEYWORDS : list regex :=
  [RWord "predict"; RWord "forecast"; simulate_pattern; RWord "causal"; RWord "trigger";
   RWord "affect"; RWords "tsunami"; RWord2 "historical" "modeling"].

Definition MODERATE_KEYWORDS : list regex :=
  [RWord "seismic"; RWord "ocean"; RWord "atmosphere"; RWords "wildfire"; RWords "earthquake";
   RWords "flood"; RWords "hurricane"].

(** [\btidal\s+waves?\b] *)
Definition tidal_pattern : regex :=
  RSeq RBoundary (RSeq (RLit "tidal") (RSeq (RPlus RSpace)
    (RSeq (RLit "wave") (RSeq (ROpt (RLit "s")) RBoundary)))).

(** [\banalog(ue|ues)\b] *)
Definition analog_pattern : regex :=
  RSeq RBoundary (RSeq (RLit "analog") (RSeq (RAlt (RLit "ue") (RLit "ues")) RBoundary)).

Definition DOMAIN_PATTERNS : list (string * list regex) :=
  [("air_quality", [RWord2 "air" "quality"; RWord "pm2.5"; RWord "pm10"; RWord "aqi"]);
   ("seismic", [RWord "seismic"; RWords "earthquake"]);
   ("ocean", [RWords "ocean"; RWord "sea"; RWords "tsunami"; tidal_pattern]);
   ("atmosphere", [RWord "atmosphere"; RWords "wind"; RWord "weather"; RWord2 "air" "temperature"]);
   ("wildfire", [RWords "wildfire"; RWords "fire"]);
   ("literature", [RWord "literature"; RWords "paper"; RWords "report"; RWord "studies";
      RWord "study"; RWord "research"; RWords "article"]);
   ("causal_chain", [RWord "causal"; RWord "trigger"; RWord "affect"; RWord "preceded";
      RWord "correlation"; RWord "linked"; analog_pattern; RWord "chain"])].

Definition sim_keywords : list regex :=
  [RWord "predict"; RWord "forecast"; simulate_pattern; RWord "spread"; RWord "dispersion";
   RWord "enso"; RWord "plume"].

Definition any_match (pats : list regex) (s : string) : bool :=
  existsb (fun pat => re_search pat s) pats.

Record Classification := {
  c_tier : ComplexityTier;
  c_matched_domains : list string;
  c_needs_simulation : bool;
  c_rationale : string;
}.

Definition classify_query_complexity (query : string) : Classification :=
  let query_lower := lower query in
  let is_complex := any_match COMPLEX_KEYWORDS query_lower in
  let is_moderate := any_match MODERATE_KEYWORDS query_lower in
  let matched_domains :=
    map fst (List.filter (fun dp => any_match dp.2 query_lower) DOMAIN_PATTERNS) in
  let needs_simulation := any_match sim_keywords query_lower in
  let '(tier, rationale) :=
    if is_complex then
      (COMPLEX, "Query requires prediction, causal tracking, or historical forecasting.")
    else if is_moderate || (1 <? Z.of_nat (length matched_domains)) then
      (MODERATE, "Query spans multiple domain variables or moderate hazards.")
    else (TRIVIAL, "Query is a simple, single-variable factual retrieval request.") in
  {| c_tier := tier; c_matched_domains := matched_domains;
     c_needs_simulation := needs_simulation; c_rationale := rationale |}.

(** [planner.classify_query]; the classification cannot raise. *)
Definition classify_query (query : string) : ComplexityTier :=
  c_tier (classify_query_complexity query).

(** ** Lemmas *)

Lemma filter_keys_sublist {A B} (f : A * B -> bool) l :
  sublist (map fst (List.filter f l)) (map fst l).
Proof.
  induction l as [|x l IH]; simpl; [constructor|].
  destruct (f x); simpl; by constructor.
Qed.

Lemma matched_domains_sublist query :
  sublist (c_matched_domains (classify_query_complexity query)) (map fst DOMAIN_PATTERNS).
Proof.
  unfold classify_query_complexity.
  destruct (if any_match COMPLEX_KEYWORDS (lower query) then _ else _) as [tier why]. cbn [c_matched_domains].
  apply filter_keys_sublist.
Qed.

Lemma domain_patterns_first_party : map fst DOMAIN_PATTERNS = FIRST_PARTY_DOMAINS.
Proof. reflexivity. Qed.

(** ** Properties *)

(** The domains a query is routed to are listed once each, in the fixed
    pattern order, are first-party domains, and have a registered runner in any
    registry on which [register_agents] has run: routing never produces a
    domain the fan-out cannot resolve. *)
Theorem matched_domains_resolvable {R} (agent_of : string -> R) (g : AgentRegistry R) (query : string) :
  let ds := c_matched_domains (classify_query_complexity query) in
  sublist ds FIRST_PARTY_DOMAINS /\ NoDup ds /\
  forall d, d ∈ ds -> exists r, get d (register_agents agent_of g) = Ok r.
Proof.
  pose proof (matched_domains_sublist query) as Hs. rewrite domain_patterns_first_party in Hs.
  split; [done|]. split.
  - eapply sublist_NoDup; [|done]. apply (bool_decide_unpack _). by vm_compute.
  - intros d Hd. apply first_party_get, register_agents_domains. by eapply elem_of_sublist.
Qed.

(** Classification ignores case: a query and its lower-case form get the same
    tier, domains and simulation flag. *)
Theorem classify_case_insensitive (query : string) :
  classify_query_complexity (lower query) = classify_query_complexity query.
Proof. unfold classify_query_complexity. by rewrite lower_idem. Qed.

(** The tier is COMPLEX exactly when a complex keyword occurs; otherwise it is
    MODERATE when a moderate keyword occurs or at least two domains match; and
    TRIVIAL queries match at most one domain. *)
Theorem classify_tier (query : string) :
  let c := classify_query_complexity query in
  (c_tier c = COMPLEX <-> any_match COMPLEX_KEYWORDS (lower query) = true) /\
  (c_tier c = MODERATE <-> any_match COMPLEX_KEYWORDS (lower query) = false /\
     (any_match MODERATE_KEYWORDS (lower query) = true \/ (2 <= length (c_matched_domains c))%nat)) /\
  (c_tier c = TRIVIAL -> (length (c_matched_domains c) <= 1)%nat).
Proof.
  unfold classify_query_complexity.
  generalize (map fst (List.filter (fun dp => any_match dp.2 (lower query)) DOMAIN_PATTERNS)) as ds.
  generalize (any_match COMPLEX_KEYWORDS (lower query)) as complex.
  generalize (any_match MODERATE_KEYWORDS (lower query)) as moderate.
  intros moderate complex ds.
  destruct complex, moderate; cbn; try destruct (Z.ltb_spec 1 (Z.of_nat (length ds))); cbn;
    repeat split; intros; try done; try lia; naive_solver lia.
Qed.

Example classify_tokyo :
  let c := classify_query_complexity "Seismic activity and AIR  quality in Tokyo" in
  c_tier c = MODERATE /\ c_matched_domains c = ["air_quality"; "seismic"].
Proof. by vm_compute. Qed.

Example classify_no_substring :
  c_matched_domains (classify_query_complexity "seaside firewood") = [].
Proof. by vm_compute. Qed.
