(* ===== verification/Replan.v ===== *)
(** * Critic flags and the replan decision
    ([src/orchestrator/agents/critic/replan.py], [CriticFlag] of
     [src/orchestrator/schemas/synthesis.py])

    Whether a verification pass triggers a replan cycle, and which domains the
    cycle re-queries. *)

From S2P Require Import Prelude PyStr Effects Settings Registry.

Inductive Severity := low | medium | high.

#[global] Instance Severity_eq_dec : EqDecision Severity.
Proof. solve_decision. Defined.

Definition severity_value (s : Severity) : string :=
  match s with low => "low" | medium => "medium" | high => "high" end.

Record CriticFlag := {
  claim_text : string;
  flagged_reason : string;
  severity : Severity;
  flagged_domains : option (list string);
}.

Definition is_high (f : CriticFlag) : bool := bool_decide (severity f = high).

Definition DOMAIN_KEYWORD_MAP : list (string * list string) :=
  [("air_quality", ["air_quality"; "air quality"; "pm2.5"; "pm10"; "aqi"; "no2"; "openaq"]);
   ("seismic", ["seismic"; "earthquake"; "fault"; "magnitude"; "usgs"; "epicenter"; "tremor"]);
   ("ocean", ["ocean"; "sea surface"; "temperature"; "tide"; "noaa"; "sst"; "gulf stream"]);
   ("atmosphere", ["atmosphere"; "weather"; "pressure"; "wind"; "meteo"; "humidity"; "trough"]);
   ("wildfire", ["wildfire"; "fire"; "thermal"; "firms"; "hotspot"; "smoke"; "plume"]);
   ("literature", ["literature"; "paper"; "study"; "research"; "citation"]);
   ("causal_chain", ["causal_chain"; "causal"; "chain"; "causality"]);
   ("simulation", ["simulation"; "dispersion"; "forecast"; "model"])].

Definition should_replan (settings : ReplanSettings) (critic_flags : list CriticFlag)
    (replan_count max_replans : Z) (enabled : option bool) : bool :=
  let is_enabled := default (enable_replan_loop settings) enabled in
  if negb is_enabled then false
  else if max_replans <=? replan_count then false
  else existsb is_high critic_flags.

(** ** Replan targets *)

Section targets.
Variable valid_domains : string -> bool.

(** Strategy 1 on one flag: its structured [flagged_domains]. *)
Definition add_flagged (targets : list string) (flag : CriticFlag) : list string :=
  fold_left (fun targets domain =>
               let domain_clean := lower (strip domain) in
               if valid_domains domain_clean then add_new targets domain_clean else targets)
    (default [] (flagged_domains flag)) targets.

(** Strategy 2 on one flag: keywords in the claim text and the reason. *)
Definition add_keywords (targets : list string) (flag : CriticFlag) : list string :=
  let combined_text := lower (claim_text flag +:+ " " +:+ flagged_reason flag) in
  fold_left (fun targets entry =>
               if valid_domains entry.1 && existsb (fun kw => contains kw combined_text) entry.2
               then add_new targets entry.1 else targets)
    DOMAIN_KEYWORD_MAP targets.
End targets.

Definition nonempty_or {A} (l k : list A) : list A := match l with [] => k | _ => l end.

Definition valid_target (domains : list string) (d : string) : bool :=
  bool_decide (d ∈ domains) || String.eqb d "simulation".

(** [domains] is [agent_registry.list_domains()]. *)
Definition build_replan_targets (domains : list string) (critic_flags : list CriticFlag)
    (fallback_domains : list string) : list string :=
  let valid_domains := valid_target domains in
  let high_flags := List.filter is_high critic_flags in
  let target_flags := nonempty_or high_flags critic_flags in
  nonempty_or (fold_left (add_flagged valid_domains) target_flags [])
    (nonempty_or (fold_left (add_keywords valid_domains) target_flags [])
       (nonempty_or (List.filter valid_domains fallback_domains) ["air_quality"])).

(** ** Lemmas *)

Lemma nonempty_or_cases {A} (l k : list A) :
  (l <> [] /\ nonempty_or l k = l) \/ (l = [] /\ nonempty_or l k = k).
Proof. destruct l; simpl; naive_solver. Qed.

Section invariant.
Variable valid : string -> bool.

(** Accumulated targets are distinct and valid. *)
Definition targets_ok (targets : list string) : Prop :=
  NoDup targets /\ Forall (fun d => valid d = true) targets.

Lemma targets_ok_nil : targets_ok [].
Proof. split; [constructor | constructor]. Qed.

Lemma targets_ok_add targets d : targets_ok targets -> valid d = true -> targets_ok (add_new targets d).
Proof.
  intros [Hn Hv] Hd. split; [by apply add_new_NoDup|].
  apply Forall_forall. intros x [Hx| ->]%add_new_elem; [|done]. by eapply Forall_forall in Hv.
Qed.

(** A fold whose step keeps the invariant keeps it. *)
Lemma targets_ok_fold {A} (step : list string -> A -> list string) xs targets :
  (forall ts x, targets_ok ts -> targets_ok (step ts x)) ->
  targets_ok targets -> targets_ok (fold_left step xs targets).
Proof. intros Hs. revert targets. induction xs; simpl; auto. Qed.

Lemma add_flagged_ok ts flag : targets_ok ts -> targets_ok (add_flagged valid ts flag).
Proof.
  intros H. apply targets_ok_fold; [|done]. intros ts' d Hts.
  cbv zeta. destruct (valid (lower (strip d))) eqn:E; [by apply targets_ok_add | done].
Qed.

Lemma add_keywords_ok ts flag : targets_ok ts -> targets_ok (add_keywords valid ts flag).
Proof.
  intros H. apply targets_ok_fold; [|done]. intros ts' [d kws] Hts. cbn.
  destruct (valid d) eqn:E; [|done]. cbn. destruct existsb; [by apply targets_ok_add | done].
Qed.
End invariant.
#[export] Hint Resolve targets_ok_nil add_flagged_ok add_keywords_ok : gaia.

Lemma filter_targets_ok valid l : NoDup l -> targets_ok valid (List.filter valid l).
Proof.
  intros Hn. split.
  - apply NoDup_ListNoDup. apply List.NoDup_filter. by apply NoDup_ListNoDup.
  - apply Forall_forall. intros x Hx%list_elem_of_In. by apply filter_In in Hx as [_ ?].
Qed.

Lemma add_flagged_elem valid ts flag d :
  d ∈ add_flagged valid ts flag <->
  d ∈ ts \/ exists n, n ∈ default [] (flagged_domains flag) /\ d = lower (strip n) /\ valid d = true.
Proof.
  unfold add_flagged. generalize (default [] (flagged_domains flag)) as ns. intros ns.
  revert ts. induction ns as [|n ns IH]; intros ts; simpl.
  - set_solver.
  - rewrite IH. setoid_rewrite elem_of_cons.
    destruct (valid (lower (strip n))) eqn:E; rewrite ?add_new_elem; split.
    + intros [[H| ->]|(m & Hm & -> & Hv)]; [by left | right; eauto | right; eauto].
    + intros [H|(m & [->|Hm] & -> & Hv)]; [by left; left | by left; right | right; eauto].
    + intros [H|(m & Hm & -> & Hv)]; [by left | right; eauto].
    + intros [H|(m & [->|Hm] & -> & Hv)]; [by left | congruence | right; eauto].
Qed.

Lemma fold_flagged_elem valid flags ts d :
  d ∈ fold_left (add_flagged valid) flags ts <->
  d ∈ ts \/ exists f n, f ∈ flags /\ n ∈ default [] (flagged_domains f) /\
    d = lower (strip n) /\ valid d = true.
Proof.
  revert ts. induction flags as [|f flags IH]; intros ts; simpl.
  - set_solver.
  - rewrite IH, add_flagged_elem. setoid_rewrite elem_of_cons. split.
    + intros [[H|(n & Hn & Hd)]|(g & n & Hg & Hn & Hd)]; eauto 10.
    + intros [H|(g & n & [->|Hg] & Hn & Hd)]; eauto 10.
Qed.

(** ** Properties *)

(** A verification pass triggers a replan exactly when the loop is enabled
    (by override or by settings), fewer than the allowed cycles have run, and
    some flag has high severity. *)
Theorem should_replan_iff (settings : ReplanSettings) (critic_flags : list CriticFlag)
    (replan_count max_replans : Z) (enabled : option bool) :
  should_replan settings critic_flags replan_count max_replans enabled = true <->
  default (enable_replan_loop settings) enabled = true /\ replan_count < max_replans /\
  exists f, f ∈ critic_flags /\ severity f = high.
Proof.
  unfold should_replan. setoid_rewrite <- (bool_decide_eq_true (severity _ = high)).
  rewrite <- (existsb_true is_high). destruct (default _ enabled); simpl; [|naive_solver].
  destruct (Z.leb_spec max_replans replan_count); naive_solver lia.
Qed.

(** The replan targets are never empty, never repeat a domain, and each is a
    registered domain or the simulation, provided the caller's fall-back list
    has no repetition and the air-quality agent is registered. *)
Theorem build_replan_targets_ok (domains : list string) (critic_flags : list CriticFlag)
    (fallback_domains : list string) :
  NoDup fallback_domains -> "air_quality" ∈ domains ->
  let targets := build_replan_targets domains critic_flags fallback_domains in
  targets <> [] /\ NoDup targets /\ forall d, d ∈ targets -> d ∈ domains \/ d = "simulation".
Proof.
  intros Hf Ha targets.
  assert (targets_ok (valid_target domains) targets) as [Hn Hv].
  { unfold targets, build_replan_targets. cbv zeta.
    repeat match goal with
    | |- targets_ok _ (nonempty_or ?l ?k) =>
        destruct (nonempty_or_cases l k) as [[_ ->]|[_ ->]]
    end;
    try (apply targets_ok_fold; auto with gaia); auto using filter_targets_ok.
    apply (targets_ok_add _ []); auto with gaia.
    unfold valid_target. by rewrite bool_decide_true. }
  split; [|split; [done|]].
  - unfold targets, build_replan_targets. cbv zeta.
    repeat match goal with
    | |- nonempty_or ?l ?k <> [] => destruct (nonempty_or_cases l k) as [[? ->]|[_ ->]]; [done|]
    end. done.
  - intros d Hd. eapply Forall_forall in Hv; [|done]. unfold valid_target in Hv.
    apply orb_true_iff in Hv as [Hv|Hv]; [left; by apply bool_decide_eq_true in Hv|].
    right. by apply String.eqb_eq.
Qed.

(** When some target flag names a valid domain in its structured metadata,
    the targets are exactly valid domains named by those flags: keyword guesses
    and fall-backs are not consulted. *)
Theorem structured_targets_first (domains : list string) (critic_flags : list CriticFlag)
    (fallback_domains : list string) :
  let target_flags := nonempty_or (List.filter is_high critic_flags) critic_flags in
  let named d := exists f n, f ∈ target_flags /\ n ∈ default [] (flagged_domains f) /\
    d = lower (strip n) /\ valid_target domains d = true in
  (exists d, named d) ->
  forall d, d ∈ build_replan_targets domains critic_flags fallback_domains <-> named d.
Proof.
  intros target_flags named [d0 Hd0] d. unfold build_replan_targets. cbv zeta. fold target_flags.
  pose proof (fold_flagged_elem (valid_target domains) target_flags []) as Hs.
  set (found := fold_left (add_flagged (valid_target domains)) target_flags []) in *.
  assert (d0 ∈ found) as H0 by (apply Hs; by right).
  destruct (nonempty_or_cases found
    (nonempty_or (fold_left (add_keywords (valid_target domains)) target_flags [])
       (nonempty_or (List.filter (valid_target domains) fallback_domains) ["air_quality"])))
    as [[_ ->]|[E _]]; [|rewrite E in H0; set_solver].
  rewrite Hs. split; [intros [H|H]; [set_solver | done] | by right].
Qed.

Module ReplanWitness.
Definition flag_sim : CriticFlag :=
  {| claim_text := "Plume reaches the coast"; flagged_reason := "unsupported"; severity := high;
     flagged_domains := Some [" Simulation "] |}.

Lemma build_replan_targets_ok_witness :
  build_replan_targets FIRST_PARTY_DOMAINS [flag_sim] ["ocean"] = ["simulation"] /\
  NoDup (build_replan_targets FIRST_PARTY_DOMAINS [flag_sim] ["ocean"]).
Proof.
  split; [reflexivity|].
  apply (build_replan_targets_ok FIRST_PARTY_DOMAINS [flag_sim] ["ocean"]);
    [apply NoDup_singleton | left].
Defined.

Lemma structured_targets_first_witness :
  "simulation" ∈ build_replan_targets FIRST_PARTY_DOMAINS [flag_sim] ["ocean"].
Proof.
  apply (structured_targets_first FIRST_PARTY_DOMAINS [flag_sim] ["ocean"]).
  - exists "simulation", flag_sim, " Simulation ". repeat split; try reflexivity; left.
  - exists flag_sim, " Simulation ". repeat split; try reflexivity; left.
Defined.
End ReplanWitness.
