(* ===== verification/AgentIO.v ===== *)
(** * Agent contracts ([src/orchestrator/schemas/agent_io.py],
    [src/orchestrator/schemas/synthesis.py])

    The typed inputs and outputs of agents and of the synthesis step.  A UUID is
    its canonical text [str(uuid)]; a [datetime] is an instant in microseconds. *)

From S2P Require Import Prelude PyFloat FloatRound PyStr Effects Uncertainty.

Definition uuid : Type := string.

Record Evidence := {
  ev_id : uuid;
  ev_source : string;
  ev_claim : string;
  ev_uncertainty : UncertaintyEstimate;
  ev_retrieved_at : Z;
  ev_document_id : option string;
  ev_chunk_id : option (string + Z);
  ev_title : option string;
  ev_source_url : option string;
  ev_extra_metadata : list (string * json);
  ev_uncertainty_bounds : option (float * float);
  ev_assumptions : option (list string);
}.

(** [Evidence.confidence] *)
Definition ev_confidence (e : Evidence) : float := point_estimate (ev_uncertainty e).

(** Default of the [uncertainty] field of evidence and claims. *)
Definition default_uncertainty : UncertaintyEstimate :=
  Estimate (flit 5 10) (flit 4 10) (flit 6 10) model_uncertainty.

(** The [uncertainty] that [Evidence.__init__] settles on, from the optional
    legacy [confidence] and the optional explicit [uncertainty]. *)
Definition init_uncertainty (confidence : option float) (uncertainty : option UncertaintyEstimate)
    : result estimate_error UncertaintyEstimate :=
  match uncertainty, confidence with
  | Some u, _ => Ok u
  | None, Some c =>
      raise_if (negb (fleb f0 c && fleb c f1)) OutOfRange ;;
      from_legacy_confidence c model_uncertainty
  | None, None => Ok default_uncertainty
  end.

Record SimulationResult := {
  sr_prediction : string;
  sr_uncertainty_bounds : float * float;
  sr_assumptions : list string;
  sr_model_used : string;
  sr_uncertainty : option UncertaintyEstimate;
}.

Record AgentInput := {
  in_investigation_id : uuid;
  in_query : string;
  in_region_hint : option string;
}.

Record AgentOutput := {
  agent_name : string;
  evidence : list Evidence;
  errors : list string;
}.

(** ** Synthesis *)

Record RawCitedEvidence := {
  rc_evidence_id : option uuid;
  rc_source : string;
  rc_claim : string;
  rc_confidence : float;
}.

Inductive ClaimType := single_domain | cross_domain_pattern.

#[global] Instance ClaimType_eq_dec : EqDecision ClaimType.
Proof. solve_decision. Defined.

Record SynthesizedClaim := {
  cl_text : string;
  cl_claim_type : ClaimType;
  cl_supporting_evidence : list Evidence;
  cl_uncertainty : UncertaintyEstimate;
  cl_uncertainty_bounds : option (float * float);
  cl_assumptions : option (list string);
}.

(** [SynthesizedClaim.confidence] *)
Definition cl_confidence (c : SynthesizedClaim) : float := point_estimate (cl_uncertainty c).

(** [SynthesizedClaim.__init__] has the same rule as [Evidence.__init__]. *)
Definition claim_init_uncertainty (confidence : option float) (uncertainty : option UncertaintyEstimate)
    : result estimate_error UncertaintyEstimate := init_uncertainty confidence uncertainty.

Record SynthesisOutput := {
  claims : list SynthesizedClaim;
  evidence_gaps : list string;
}.

(** ** A confidence in the unit interval gives a valid estimate *)

Lemma init_ok c : fvalid c = true -> in_unit c = true ->
  exists u, init_uncertainty (Some c) None = Ok u /\ valid_estimate u = true /\ point_estimate u = c.
Proof.
  intros Hv Hu. assert (nonneg_finite DEFAULT_LEGACY_FALLBACK_MARGIN = true) as Hd by by vm_compute.
  unfold init_uncertainty, from_legacy_confidence. fold (in_unit c). rewrite Hu. cbn -[make_estimate].
  rewrite margin_interval_ok by done. eexists. split; [done|]. split; [|done].
  by eapply make_estimate_ok, (margin_interval_ok c DEFAULT_LEGACY_FALLBACK_MARGIN model_uncertainty).
Qed.

Lemma init_valid c u : init_uncertainty (Some c) None = Ok u -> valid_estimate u = true.
Proof.
  unfold init_uncertainty, from_legacy_confidence. destruct (negb _); [done|].
  cbn -[make_estimate]. intros Hm. by apply make_estimate_ok in Hm as [-> ?].
Qed.
