(* ===== verification/Citation.v ===== *)
(** * Citation mapper ([src/orchestrator/agents/synthesis/citation_mapper.py])

    The evidence pool, its two lookup indices and the telemetry counters as the
    object's state; citations are matched by id first and by normalised text
    otherwise. *)

From S2P Require Import Prelude PyFloat PyStr Effects Uncertainty AgentIO.

Record CitationMapper := Mapper {
  evidence_pool : list Evidence;
  evidence_domain_map : gmap string string;
  id_index : gmap string Evidence;
  text_index : gmap (string * string) (list Evidence);
  total_citations : Z;
  matched_by_id_count : Z;
  matched_by_text_fallback_count : Z;
  citation_missing_id_count : Z;
  citation_ambiguous_fallback_count : Z;
}.

Definition _normalize_text (text : string) : string :=
  if String.eqb text "" then "" else lower (remove_spaces text).

Definition text_key (source claim : string) : string * string :=
  (_normalize_text source, _normalize_text claim).

(** ** Construction *)

Definition add_output_domains (m : gmap string string) (output : AgentOutput) : gmap string string :=
  fold_left (fun m e => <[ev_id e := agent_name output]> m) (evidence output) m.

Definition build_domain_map (outputs : list AgentOutput) : gmap string string :=
  fold_left add_output_domains outputs ∅.

Definition build_id_index (pool : list Evidence) : gmap string Evidence :=
  fold_left (fun m e => <[ev_id e := e]> m) pool ∅.

Definition build_text_index (pool : list Evidence) : gmap (string * string) (list Evidence) :=
  fold_left (fun m e =>
               let key := text_key (ev_source e) (ev_claim e) in
               <[key := default [] (m !! key) ++ [e]]> m)
    pool ∅.

Definition make_mapper (gathered_outputs : list AgentOutput) : CitationMapper :=
  let pool := flat_map evidence gathered_outputs in
  {| evidence_pool := pool;
     evidence_domain_map := build_domain_map gathered_outputs;
     id_index := build_id_index pool;
     text_index := build_text_index pool;
     total_citations := 0; matched_by_id_count := 0; matched_by_text_fallback_count := 0;
     citation_missing_id_count := 0; citation_ambiguous_fallback_count := 0 |}.

(** ** Lookup *)

(** Add to the five counters. *)
Definition count (m : CitationMapper) (by_id by_text missing ambiguous : Z) : CitationMapper :=
  {| evidence_pool := evidence_pool m; evidence_domain_map := evidence_domain_map m;
     id_index := id_index m; text_index := text_index m;
     total_citations := total_citations m + 1;
     matched_by_id_count := matched_by_id_count m + by_id;
     matched_by_text_fallback_count := matched_by_text_fallback_count m + by_text;
     citation_missing_id_count := citation_missing_id_count m + missing;
     citation_ambiguous_fallback_count := citation_ambiguous_fallback_count m + ambiguous |}.

Definition _find_matching_evidence_fields (evidence_id : option uuid) (source claim : string)
    (m : CitationMapper) : option Evidence * CitationMapper :=
  match evidence_id ≫= (fun i => id_index m !! i) with
  | Some e => (Some e, count m 1 0 0 0)
  | None =>
      match default [] (text_index m !! text_key source claim) with
      | [e] => (Some e, count m 0 1 1 0)
      | [] => (None, count m 0 0 1 0)
      | _ => (None, count m 0 0 1 1)
      end
  end.

Definition _find_matching_evidence (cited : RawCitedEvidence) (m : CitationMapper)
    : option Evidence * CitationMapper :=
  _find_matching_evidence_fields (rc_evidence_id cited) (rc_source cited) (rc_claim cited) m.

(** The loop shared by [map_citations] and [_verify_evidence_pool_membership]:
    stop at the first citation without a match. *)
Fixpoint match_all {A} (find : A -> CitationMapper -> option Evidence * CitationMapper)
    (xs : list A) (m : CitationMapper) : option (list Evidence) * CitationMapper :=
  match xs with
  | [] => (Some [], m)
  | x :: xs =>
      match find x m with
      | (None, m) => (None, m)
      | (Some e, m) =>
          match match_all find xs m with
          | (None, m) => (None, m)
          | (Some es, m) => (Some (e :: es), m)
          end
      end
  end.

Definition map_citations (citations : list RawCitedEvidence) (m : CitationMapper)
    : option (list Evidence) * CitationMapper :=
  match citations with
  | [] => (None, m)
  | _ => match_all _find_matching_evidence citations m
  end.

Definition _verify_evidence_pool_membership (evidence_list : list Evidence) (m : CitationMapper)
    : option (list Evidence) * CitationMapper :=
  match evidence_list with
  | [] => (None, m)
  | _ => match_all (fun ev => _find_matching_evidence_fields (Some (ev_id ev)) (ev_source ev) (ev_claim ev))
           evidence_list m
  end.

(** Returns the verdict and the claim as left by the in-place update. *)
Definition validate_claim (claim : SynthesizedClaim) (m : CitationMapper)
    : bool * SynthesizedClaim * CitationMapper :=
  match cl_supporting_evidence claim with
  | [] => (false, claim, m)
  | _ =>
      match _verify_evidence_pool_membership (cl_supporting_evidence claim) m with
      | (None, m) => (false, claim, m)
      | (Some verified, m) =>
          (true, {| cl_text := cl_text claim; cl_claim_type := cl_claim_type claim;
                    cl_supporting_evidence := verified; cl_uncertainty := cl_uncertainty claim;
                    cl_uncertainty_bounds := cl_uncertainty_bounds claim;
                    cl_assumptions := cl_assumptions claim |}, m)
      end
  end.

(** [citation_fallback_rate] *)
Definition citation_fallback_rate (m : CitationMapper) : float :=
  if total_citations m =? 0 then f0
  else fdiv (float_of_Z (matched_by_text_fallback_count m)) (float_of_Z (total_citations m)).

(** ** Domains *)

Definition known_sources : list string :=
  ["usgs"; "noaa"; "openaq"; "open-meteo"; "firms"; "rag"; "causal"; "seismic"; "ocean";
   "wildfire"; "atmosphere"; "air_quality"; "simulation"].

(** Truth value of a JSON value, and [str()] of a string value; the text of a
    non-string value is a parameter. *)
Definition json_truthy (j : json) : bool :=
  match j with
  | JNull => false
  | JBool b => b
  | JInt n => negb (n =? 0)
  | JFloat x => negb (feqb x f0)
  | JStr s => str_truthy s
  | JList l => match l with [] => false | _ => true end
  | JObj l => match l with [] => false | _ => true end
  end.

Section domains.
Variable json_str : json -> string.   (* [str(value)] *)

Definition evidence_domain (m : CitationMapper) (ev : Evidence) : option string :=
  match evidence_domain_map m !! ev_id ev with
  | Some d => Some d
  | None =>
      let meta := default JNull (assoc "domain" (ev_extra_metadata ev)) in
      if json_truthy meta then Some (json_str meta)
      else if str_truthy (ev_source ev) then
        let src_lower := lower (ev_source ev) in
        Some (default (ev_source ev) (List.find (fun known => contains known src_lower) known_sources))
      else None
  end.

Definition get_cited_domains (m : CitationMapper) (supporting : list Evidence) : gset string :=
  list_to_set (omap (evidence_domain m) supporting).
End domains.

(** ** Reference semantics: linear scans over the pool *)

Definition has_id (i : uuid) (e : Evidence) : bool := String.eqb (ev_id e) i.
Definition has_text (key : string * string) (e : Evidence) : bool :=
  bool_decide (text_key (ev_source e) (ev_claim e) = key).

Definition resolve (pool : list Evidence) (evidence_id : option uuid) (source claim : string)
    : option Evidence :=
  match evidence_id ≫= (fun i => List.find (has_id i) (rev pool)) with
  | Some e => Some e
  | None =>
      match List.filter (has_text (text_key source claim)) pool with
      | [e] => Some e
      | _ => None
      end
  end.

Definition resolve_cited (pool : list Evidence) (c : RawCitedEvidence) : option Evidence :=
  resolve pool (rc_evidence_id c) (rc_source c) (rc_claim c).

(** ** Lemmas *)

Lemma build_id_index_lookup pool i :
  build_id_index pool !! i = List.find (has_id i) (rev pool).
Proof.
  unfold build_id_index.
  assert (forall m : gmap string Evidence,
    fold_left (fun m e => <[ev_id e := e]> m) pool m !! i =
    match List.find (has_id i) (rev pool) with Some e => Some e | None => m !! i end) as H.
  { induction pool as [|e pool IH]; intros m; simpl; [done|].
    rewrite IH, find_app. destruct (List.find (has_id i) (rev pool)); [done|]. simpl.
    unfold has_id at 1. destruct (String.eqb_spec (ev_id e) i) as [->|Hne];
      [by rewrite lookup_insert_eq | by rewrite lookup_insert_ne]. }
  rewrite H. by destruct (List.find _ _).
Qed.

Lemma build_text_index_lookup pool key :
  default [] (build_text_index pool !! key) = List.filter (has_text key) pool.
Proof.
  unfold build_text_index.
  assert (forall m : gmap (string * string) (list Evidence),
    default [] (fold_left (fun m e => let key := text_key (ev_source e) (ev_claim e) in
       <[key := default [] (m !! key) ++ [e]]> m) pool m !! key) =
    default [] (m !! key) ++ List.filter (has_text key) pool) as H.
  { induction pool as [|e pool IH]; intros m; cbn [fold_left List.filter]; [by rewrite app_nil_r|].
    rewrite IH. cbv zeta. unfold has_text at 2.
    case_bool_decide as Hk.
    - rewrite Hk, lookup_insert_eq. simpl. by rewrite <- app_assoc.
    - by rewrite lookup_insert_ne. }
  by rewrite H.
Qed.

Lemma filter_unique_elem {A} (f : A -> bool) l e : List.filter f l = [e] -> e ∈ l /\ f e = true.
Proof.
  intros H. assert (In e (List.filter f l)) as Hi by (rewrite H; by left).
  apply filter_In in Hi as [Hi Hf]. split; [by apply list_elem_of_In | done].
Qed.

Lemma resolve_pool pool i source claim e :
  resolve pool i source claim = Some e ->
  e ∈ pool /\ (i = Some (ev_id e) \/
    List.filter (has_text (text_key source claim)) pool = [e]).
Proof.
  unfold resolve. destruct i as [i|]; cbn.
  - destruct (List.find (has_id i) (rev pool)) as [e'|] eqn:E.
    + intros [= ->]. apply List.find_some in E as [Hin Hid].
      apply in_rev, list_elem_of_In in Hin. apply String.eqb_eq in Hid. by subst; auto.
    + destruct (List.filter _ pool) as [|e' [|]] eqn:F; try done. intros [= ->].
      split; [by apply filter_unique_elem in F as [? _] | by right].
  - destruct (List.filter _ pool) as [|e' [|]] eqn:F; try done. intros [= ->].
    split; [by apply filter_unique_elem in F as [? _] | by right].
Qed.

(** Counters and indices through the operations. *)
Section mapper.
Variable outputs : list AgentOutput.
Let pool := flat_map evidence outputs.

(** Same indices as the mapper built from [outputs]. *)
Definition indexes (m : CitationMapper) : Prop :=
  evidence_pool m = pool /\ evidence_domain_map m = build_domain_map outputs /\
  id_index m = build_id_index pool /\ text_index m = build_text_index pool.

Lemma make_mapper_indexes : indexes (make_mapper outputs).
Proof. done. Qed.

Lemma count_indexes m a b c d : indexes m -> indexes (count m a b c d).
Proof. done. Qed.

Lemma find_fields_resolve i source claim m :
  indexes m ->
  (_find_matching_evidence_fields i source claim m).1 = resolve pool i source claim /\
  indexes (_find_matching_evidence_fields i source claim m).2.
Proof.
  intros Hm. pose proof Hm as (_ & _ & Hid & Htext).
  unfold _find_matching_evidence_fields, resolve. rewrite Hid, Htext, build_text_index_lookup.
  assert ((i ≫= (fun i => build_id_index pool !! i)) =
          (i ≫= (fun i => List.find (has_id i) (rev pool)))) as ->
    by (destruct i; [apply build_id_index_lookup | done]).
  destruct (i ≫= _); [done|]. by destruct (List.filter _ pool) as [|? [|]].
Qed.

Lemma match_all_resolve {A} (find : A -> CitationMapper -> option Evidence * CitationMapper)
    (ref : A -> option Evidence) xs m :
  (forall x m, indexes m -> (find x m).1 = ref x /\ indexes (find x m).2) ->
  indexes m ->
  (match_all find xs m).1 = mapM ref xs /\ indexes (match_all find xs m).2.
Proof.
  intros Hf. revert m. induction xs as [|x xs IH]; intros m Hm; simpl; [done|].
  destruct (Hf x m Hm) as [Hr Hi]. destruct (find x m) as [[e|] m1]; simpl in *; rewrite <- Hr; cbn;
    [|done].
  destruct (IH m1 Hi) as [Hr2 Hi2]. destruct (match_all find xs m1) as [[es|] m2]; simpl in *;
    by rewrite <- Hr2.
Qed.

Lemma map_citations_resolve citations m :
  indexes m ->
  (map_citations citations m).1 =
    match citations with [] => None | _ => mapM (resolve_cited pool) citations end /\
  indexes (map_citations citations m).2.
Proof.
  intros Hm. destruct citations as [|c cs]; [done|]. unfold map_citations.
  apply (match_all_resolve _ (resolve_cited pool)); [|done].
  intros x m' Hm'. by apply find_fields_resolve.
Qed.
End mapper.

(** One output either leaves an id's domain alone or, exactly when it holds
    evidence with that id, sets it to the agent's name. *)
Lemma add_output_domains_spec o m i :
  ((exists e, e ∈ evidence o /\ ev_id e = i) /\ add_output_domains m o !! i = Some (agent_name o)) \/
  (~ (exists e, e ∈ evidence o /\ ev_id e = i) /\ add_output_domains m o !! i = m !! i).
Proof.
  unfold add_output_domains. generalize (agent_name o) as a. revert m.
  induction (evidence o) as [|e es IH]; intros m a; simpl; [right; set_solver|].
  destruct (IH (<[ev_id e := a]> m) a) as [[(e' & He' & Hi) ->]|[Hn ->]].
  - left. split; [|done]. exists e'. set_solver.
  - destruct (decide (ev_id e = i)) as [<-|Hne].
    + left. rewrite lookup_insert_eq. set_solver.
    + right. rewrite lookup_insert_ne by done. split; [|done].
      intros (e' & [->|He']%elem_of_cons & Hi); [done | eauto].
Qed.

Lemma fold_domains_spec outputs m i :
  (forall d, fold_left add_output_domains outputs m !! i = Some d -> m !! i = Some d \/
     exists o e, o ∈ outputs /\ e ∈ evidence o /\ ev_id e = i /\ agent_name o = d) /\
  (is_Some (m !! i) \/ (exists o e, o ∈ outputs /\ e ∈ evidence o /\ ev_id e = i) ->
     is_Some (fold_left add_output_domains outputs m !! i)).
Proof.
  revert m. induction outputs as [|o os IH]; intros m; simpl.
  - split; [by left | intros [?|(? & ? & ? & _)]; [done | set_solver]].
  - destruct (IH (add_output_domains m o)) as [H1 H2]. split.
    + intros d [Hd|(o' & e & ?)]%H1; [|right; exists o', e; set_solver].
      destruct (add_output_domains_spec o m i) as [[(e & ? & ?) E]|[_ E]]; rewrite E in Hd; [|by left].
      right. exists o, e. simplify_eq. set_solver.
    + intros Hs. apply H2.
      destruct (add_output_domains_spec o m i) as [[_ ->]|[Hn ->]]; [by left; eauto|].
      destruct Hs as [Hs|(o' & e & [->|Ho']%elem_of_cons & He & Hi)]; [by left | | right; eauto].
      destruct Hn; eauto.
Qed.

(** Every evidence item of the pool has a domain, and domains are agent names. *)
Lemma build_domain_map_spec outputs i :
  (forall d, build_domain_map outputs !! i = Some d ->
     exists o e, o ∈ outputs /\ e ∈ evidence o /\ ev_id e = i /\ agent_name o = d) /\
  (forall o e, o ∈ outputs -> e ∈ evidence o -> ev_id e = i -> is_Some (build_domain_map outputs !! i)).
Proof.
  destruct (fold_domains_spec outputs ∅ i) as [H1 H2]. split.
  - intros d [Hd'|?]%H1; [by rewrite lookup_empty in Hd' | done].
  - intros o e ? ? ?. apply H2. right; eauto.
Qed.

Lemma elem_of_pool outputs e :
  e ∈ flat_map evidence outputs <-> exists o, o ∈ outputs /\ e ∈ evidence o.
Proof. rewrite list_elem_of_In, in_flat_map. by setoid_rewrite list_elem_of_In. Qed.

(** The domains of verified evidence are names of agents that gathered an item the
    claim cites. *)
Lemma cited_domains_agents json_str outputs m supporting d :
  indexes outputs m -> (forall e, e ∈ supporting -> e ∈ flat_map evidence outputs) ->
  d ∈ get_cited_domains json_str m supporting ->
  exists e o e', e ∈ supporting /\ o ∈ outputs /\ agent_name o = d /\ e' ∈ evidence o /\ ev_id e' = ev_id e.
Proof.
  intros (_ & Hd & _) Hs. unfold get_cited_domains.
  rewrite elem_of_list_to_set, list_elem_of_omap. intros (ev & Hev & Hdom). pose proof Hev as Hsup.
  apply Hs, elem_of_pool in Hev as (o & Ho & He). unfold evidence_domain in Hdom. rewrite Hd in Hdom.
  destruct (build_domain_map_spec outputs (ev_id ev)) as [H1 H2].
  destruct (H2 o ev Ho He eq_refl) as [d' Hd']. rewrite Hd' in Hdom. simplify_eq.
  destruct (H1 d Hd') as (o' & e' & Ho' & He' & Hid & <-). by exists ev, o', e'.
Qed.

(** Counter bookkeeping. *)
Definition counters_ok (m : CitationMapper) : Prop :=
  0 <= matched_by_id_count m /\ 0 <= matched_by_text_fallback_count m /\
  0 <= citation_ambiguous_fallback_count m /\
  total_citations m = matched_by_id_count m + citation_missing_id_count m /\
  matched_by_text_fallback_count m + citation_ambiguous_fallback_count m <= citation_missing_id_count m.

Lemma find_fields_counters i source claim m :
  counters_ok m -> counters_ok (_find_matching_evidence_fields i source claim m).2.
Proof.
  unfold _find_matching_evidence_fields, counters_ok. intros H. destruct (i ≫= _); simpl; [lia|].
  destruct (default [] _) as [|? [|]]; simpl; lia.
Qed.

Lemma match_all_counters {A} (find : A -> CitationMapper -> option Evidence * CitationMapper) xs m :
  (forall x m, counters_ok m -> counters_ok (find x m).2) ->
  counters_ok m -> counters_ok (match_all find xs m).2.
Proof.
  intros Hf. revert m. induction xs as [|x xs IH]; intros m Hm; simpl; [done|].
  specialize (Hf x m Hm) as Hx. destruct (find x m) as [[e|] m1]; [|done].
  specialize (IH m1 Hx). by destruct (match_all find xs m1) as [[es|] m2].
Qed.

(** ** Properties *)

(** C3. The indexed mapper computes what two linear scans of the gathered
    evidence would: the latest item with the cited id, else the only item with
    the same normalised source and claim, else failure of the whole list; an
    empty citation list always fails. *)
Theorem map_citations_reference (outputs : list AgentOutput) (citations : list RawCitedEvidence)
    (m : CitationMapper) :
  indexes outputs m ->
  (map_citations citations m).1 =
    match citations with
    | [] => None
    | _ => mapM (resolve_cited (flat_map evidence outputs)) citations
    end.
Proof. intros Hm. by apply map_citations_resolve. Qed.

(** No fabricated citation survives: when citations are accepted, each is
    mapped to an item that some agent gathered, chosen by the cited id or by a
    text match that is unique in the pool, in citation order. *)
Theorem map_citations_no_fabrication (outputs : list AgentOutput)
    (citations : list RawCitedEvidence) (m m' : CitationMapper) (es : list Evidence) :
  indexes outputs m -> map_citations citations m = (Some es, m') ->
  citations <> [] /\
  Forall2 (fun c e => (exists o, o ∈ outputs /\ e ∈ evidence o) /\
    (rc_evidence_id c = Some (ev_id e) \/
     List.filter (has_text (text_key (rc_source c) (rc_claim c))) (flat_map evidence outputs) = [e]))
    citations es.
Proof.
  intros Hm E. destruct (map_citations_resolve outputs citations m Hm) as [Hr _].
  rewrite E in Hr. simpl in Hr. destruct citations as [|c cs]; [done|]. split; [done|].
  symmetry in Hr. apply mapM_Some in Hr. eapply Forall2_impl; [exact Hr|].
  intros c' e' Hc. apply resolve_pool in Hc as [Hp Hc]. split; [by apply elem_of_pool | done].
Qed.

(** Telemetry adds up through any number of citation lists and claim
    validations: every citation is counted once, as matched by id or as missing
    its id, and text matches and ambiguities are among the latter. *)
Theorem citation_counters_add_up (citations : list RawCitedEvidence) (claim : SynthesizedClaim)
    (m : CitationMapper) :
  counters_ok m ->
  counters_ok (map_citations citations m).2 /\ counters_ok (validate_claim claim m).2.
Proof.
  intros Hm. split.
  - unfold map_citations. destruct citations; [done|]. apply match_all_counters; [|done].
    intros c m' H. by apply find_fields_counters.
  - unfold validate_claim, _verify_evidence_pool_membership.
    destruct (cl_supporting_evidence claim) as [|e es]; [done|].
    pose proof (match_all_counters
      (fun ev => _find_matching_evidence_fields (Some (ev_id ev)) (ev_source ev) (ev_claim ev))
      (e :: es) m (fun ev m' => find_fields_counters _ _ _ m') Hm) as H.
    destruct (match_all _ (e :: es) m) as [[es'|] m']; exact H.
Qed.

Module CitationWitness.
Definition ev (i src cl : string) : Evidence :=
  {| ev_id := i; ev_source := src; ev_claim := cl; ev_uncertainty := default_uncertainty;
     ev_retrieved_at := 0; ev_document_id := None; ev_chunk_id := None; ev_title := None;
     ev_source_url := None; ev_extra_metadata := []; ev_uncertainty_bounds := None;
     ev_assumptions := None |}.
Definition outs : list AgentOutput :=
  [{| agent_name := "seismic"; evidence := [ev "a1" "USGS" "M 6.0 quake"]; errors := [] |};
   {| agent_name := "ocean"; evidence := [ev "b2" "NOAA" "Warm SST"]; errors := [] |}].
Definition cite (i : option string) (src cl : string) : RawCitedEvidence :=
  {| rc_evidence_id := i; rc_source := src; rc_claim := cl; rc_confidence := f1 |}.
Definition cites : list RawCitedEvidence := [cite (Some "a1") "" ""; cite None "noaa" "warm sst"].

Lemma map_citations_reference_witness :
  (map_citations cites (make_mapper outs)).1 = Some (flat_map evidence outs).
Proof.
  rewrite (map_citations_reference outs cites (make_mapper outs) (make_mapper_indexes outs)).
  reflexivity.
Defined.

Lemma map_citations_no_fabrication_witness : cites <> [].
Proof.
  apply (map_citations_no_fabrication outs cites (make_mapper outs)
    (map_citations cites (make_mapper outs)).2 (flat_map evidence outs)
    (make_mapper_indexes outs)).
  vm_compute. reflexivity.
Defined.

Lemma citation_counters_add_up_witness : counters_ok (map_citations cites (make_mapper outs)).2.
Proof.
  apply (citation_counters_add_up cites
    {| cl_text := ""; cl_claim_type := single_domain; cl_supporting_evidence := [];
       cl_uncertainty := default_uncertainty; cl_uncertainty_bounds := None;
       cl_assumptions := None |} (make_mapper outs)).
  vm_compute. repeat split; discriminate.
Defined.
End CitationWitness.
