(* ===== verification/Synthesis.v ===== *)
(** * Synthesis agent ([src/orchestrator/agents/synthesis/agent.py])

    [synthesize] from gathered agent outputs and the language model's reply to
    citation-checked claims.  The model's reply is an input: an exception, or the
    JSON document it returned, of any shape.  Prompt construction and telemetry
    logging are not modelled.  Three pieces of code outside the repository are
    parameters: [uuid.UUID] parsing, [str] of a non-string JSON value, and
    pydantic's coercion of a JSON value to a float. *)

From S2P Require Import Prelude PyFloat FloatRound PyStr Effects Settings Uncertainty AgentIO Citation.

(** The list a Python [for] loop over a JSON value goes through.  Iterating a
    non-empty string or dict yields strings, on which the loop bodies' [.get]
    raises. *)
Definition jiter (j : json) : result pyexn (list json) :=
  match j with
  | JList l => Ok l
  | JStr "" | JObj [] => Ok []
  | JStr _ | JObj _ => Raise (OtherError "AttributeError")
  | _ => Raise TypeError
  end.

(** A pydantic [str] field. *)
Definition str_field (j : json) : result pyexn string :=
  match j with JStr s => Ok s | _ => Raise ValueError end.

Definition of_estimate {A} (r : result estimate_error A) : result pyexn A :=
  match r with Ok a => Ok a | Raise _ => Raise ValueError end.

Section synthesis.
Variable parse_uuid : string -> option uuid.
Variable json_str : json -> string.
Variable pyd_float : json -> option float.
Variable settings : CoreSettings.

Definition py_str (j : json) : string := match j with JStr s => s | _ => json_str j end.

Definition all_evidence (outputs : list AgentOutput) : list Evidence := flat_map evidence outputs.

Definition gaps (outputs : list AgentOutput) : list string :=
  map agent_name (List.filter (fun o => match evidence o with [] => true | _ => false end) outputs).

(** A claim without evidence, with confidence 0. *)
Definition unable_claim (text : string) : result pyexn SynthesizedClaim :=
  u ← of_estimate (claim_init_uncertainty (Some f0) None);
  Ok {| cl_text := text; cl_claim_type := single_domain; cl_supporting_evidence := [];
        cl_uncertainty := u; cl_uncertainty_bounds := None; cl_assumptions := None |}.

(** The local fall-back claim for one evidence item. *)
Definition fallback_claim (ev : Evidence) : result pyexn SynthesizedClaim :=
  u ← of_estimate (claim_init_uncertainty (Some (ev_confidence ev)) None);
  Ok {| cl_text := ev_claim ev; cl_claim_type := single_domain; cl_supporting_evidence := [ev];
        cl_uncertainty := u; cl_uncertainty_bounds := ev_uncertainty_bounds ev;
        cl_assumptions := ev_assumptions ev |}.

(** One entry of [raw_claim.get("supporting_evidence", [])]. *)
Definition raw_citation (c : json) : result pyexn RawCitedEvidence :=
  first ← jget c "evidence_id" JNull;
  raw_id ← (if json_truthy first then Ok first else jget c "id" JNull);
  let parsed_uuid := if json_truthy raw_id then parse_uuid (py_str raw_id) else None in
  source ← jindex c "source";
  claim ← jindex c "claim";
  confidence ← jget c "confidence" (JFloat f1);
  source ← str_field source;
  claim ← str_field claim;
  match pyd_float confidence with
  | Some x =>
      if in_unit x then
        Ok {| rc_evidence_id := parsed_uuid; rc_source := source; rc_claim := claim; rc_confidence := x |}
      else Raise ValueError
  | None => Raise ValueError
  end.

(** The last truthy [uncertainty_bounds] and the last truthy [assumptions]. *)
Definition last_bounds (es : list Evidence) : option (float * float) :=
  fold_left (fun acc ev => match ev_uncertainty_bounds ev with Some b => Some b | None => acc end) es None.
Definition last_assumptions (es : list Evidence) : option (list string) :=
  fold_left (fun acc ev => match ev_assumptions ev with Some (a :: l) => Some (a :: l) | _ => acc end) es None.

Definition claim_type_of (j : json) : ClaimType :=
  if jeq_str j "cross_domain_pattern" then cross_domain_pattern else single_domain.

(** The rest of the loop body once the citations are verified. *)
Definition build_claim (raw_claim : json) (verified_ev : list Evidence) (m : CitationMapper)
    : result pyexn (option SynthesizedClaim) :=
  claim_uncertainty ← of_estimate (propagate_uncertainty (map ev_uncertainty verified_ev));
  raw_type ← jget raw_claim "claim_type" (JStr "single_domain");
  text ← jindex raw_claim "text";
  text ← str_field text;
  let candidate :=
    {| cl_text := text; cl_claim_type := claim_type_of raw_type;
       cl_supporting_evidence := verified_ev; cl_uncertainty := claim_uncertainty;
       cl_uncertainty_bounds := Some (default (lower_bound claim_uncertainty, upper_bound claim_uncertainty)
                                        (last_bounds verified_ev));
       cl_assumptions := last_assumptions verified_ev |} in
  let cited_domains := get_cited_domains json_str m (cl_supporting_evidence candidate) in
  if bool_decide (cl_claim_type candidate = cross_domain_pattern) &&
     (Z.of_nat (size cited_domains) <? min_cross_domain_evidence settings)
  then Ok None
  else Ok (Some candidate).

(** One iteration of the claim loop: the accepted claim, if any, and the
    mapper with its counters. *)
Definition process_claim (raw_claim : json) (m : CitationMapper)
    : result pyexn (option SynthesizedClaim * CitationMapper) :=
  entries ← jget raw_claim "supporting_evidence" (JList []);
  entries ← jiter entries;
  citations ← result_mapM raw_citation entries;
  match map_citations citations m with
  | (None, m') => jindex raw_claim "text" ;; Ok (None, m')
  | (Some verified_ev, m') => c ← build_claim raw_claim verified_ev m'; Ok (c, m')
  end.

Fixpoint process_claims (raw_claims : list json) (m : CitationMapper)
    : result pyexn (list SynthesizedClaim) :=
  match raw_claims with
  | [] => Ok []
  | raw :: rest =>
      p ← process_claim raw m;
      cs ← process_claims rest p.2;
      Ok (match p.1 with Some c => c :: cs | None => cs end)
  end.

Definition synthesize (outputs : list AgentOutput) (llm : result pyexn json)
    : result pyexn SynthesisOutput :=
  match all_evidence outputs with
  | [] =>
      c ← unable_claim "Unable to gather sufficient evidence to answer the query.";
      Ok {| claims := [c]; evidence_gaps := gaps outputs |}
  | _ =>
      match llm with
      | Raise _ =>
          cs ← result_mapM fallback_claim (all_evidence outputs);
          Ok {| claims := cs; evidence_gaps := gaps outputs |}
      | Ok parsed =>
          raw ← jget parsed "claims" (JList []);
          raw ← jiter raw;
          valid_claims ← process_claims raw (make_mapper outputs);
          match valid_claims with
          | [] =>
              c ← unable_claim "Unable to gather sufficient evidence to support any synthesized claims.";
              Ok {| claims := [c]; evidence_gaps := gaps outputs |}
          | _ => Ok {| claims := valid_claims; evidence_gaps := gaps outputs |}
          end
      end
  end.
End synthesis.

(** ** Lemmas *)

Section lemmas.
Variable parse_uuid : string -> option uuid.
Variable json_str : json -> string.
Variable pyd_float : json -> option float.
Variable settings : CoreSettings.
Variable outputs : list AgentOutput.

(** What an accepted claim satisfies: it is backed by gathered evidence, and a
    cross-domain claim by enough distinct agents, each of which gathered an item
    that this very claim cites. *)
Definition claim_ok (c : SynthesizedClaim) : Prop :=
  cl_supporting_evidence c <> [] /\
  (forall e, e ∈ cl_supporting_evidence c -> exists o, o ∈ outputs /\ e ∈ evidence o) /\
  (cl_claim_type c = cross_domain_pattern ->
     exists D : gset string, min_cross_domain_evidence settings <= Z.of_nat (size D) /\
       forall d, d ∈ D -> exists e o e', e ∈ cl_supporting_evidence c /\ o ∈ outputs /\ agent_name o = d /\
         e' ∈ evidence o /\ ev_id e' = ev_id e).

Lemma build_claim_ok raw es m c :
  indexes outputs m -> es <> [] -> (forall e, e ∈ es -> e ∈ flat_map evidence outputs) ->
  build_claim json_str settings raw es m = Ok (Some c) -> claim_ok c.
Proof.
  intros Hm Hne Hes. unfold build_claim. rewrite result_bind_ok. intros (u & _ & H).
  rewrite result_bind_ok in H. destruct H as (ty & _ & H).
  rewrite result_bind_ok in H. destruct H as (t & _ & H).
  rewrite result_bind_ok in H. destruct H as (txt & _ & H). cbn in H.
  destruct (bool_decide _ && _) eqn:E; [done|]. injection H as <-. unfold claim_ok. cbn.
  split; [done|]. split.
  - intros e He. by apply elem_of_pool, Hes.
  - intros Hty. apply andb_false_iff in E as [E|E]; [by apply bool_decide_eq_false in E|].
    exists (get_cited_domains json_str m es). split; [by apply Z.ltb_ge in E|].
    intros d Hd. by eapply cited_domains_agents.
Qed.

Lemma mapped_citations_pool citations m es m' :
  indexes outputs m -> map_citations citations m = (Some es, m') ->
  indexes outputs m' /\ es <> [] /\ forall e, e ∈ es -> e ∈ flat_map evidence outputs.
Proof.
  intros Hm E. destruct (map_citations_resolve outputs citations m Hm) as [Hr Hi].
  rewrite E in Hr, Hi. simpl in *. split; [done|].
  destruct citations as [|c cs]; [done|]. symmetry in Hr. apply mapM_Some in Hr.
  split; [by inversion Hr|]. intros e He.
  apply list_elem_of_lookup in He as [i Hi'].
  destruct (Forall2_lookup_r _ _ _ _ _ Hr Hi') as (c' & _ & Hc).
  by apply resolve_pool in Hc as [? _].
Qed.

Lemma map_citations_indexes citations m :
  indexes outputs m -> indexes outputs (map_citations citations m).2.
Proof. intros Hm. by apply map_citations_resolve. Qed.

Lemma process_claim_ok raw m oc m' :
  indexes outputs m ->
  process_claim parse_uuid json_str pyd_float settings raw m = Ok (oc, m') ->
  indexes outputs m' /\ forall c, oc = Some c -> claim_ok c.
Proof.
  intros Hm. unfold process_claim. rewrite result_bind_ok. intros (j & _ & H).
  rewrite result_bind_ok in H. destruct H as (l & _ & H).
  rewrite result_bind_ok in H. destruct H as (cs & _ & H).
  pose proof (map_citations_indexes cs m Hm) as Hi.
  destruct (map_citations cs m) as [[es|] m1] eqn:E.
  - destruct (mapped_citations_pool _ _ _ _ Hm E) as (_ & Hne & Hes).
    rewrite result_bind_ok in H. destruct H as (c & Hc & [= <- <-]).
    split; [done|]. intros c' ->. by eapply build_claim_ok.
  - rewrite result_bind_ok in H. destruct H as (? & _ & [= <- <-]). done.
Qed.

Lemma process_claims_ok raws m cs :
  indexes outputs m ->
  process_claims parse_uuid json_str pyd_float settings raws m = Ok cs -> Forall claim_ok cs.
Proof.
  revert m cs. induction raws as [|raw raws IH]; intros m cs Hm; simpl; [intros [= <-]; constructor|].
  rewrite result_bind_ok. intros ([oc m'] & Hp & H). rewrite result_bind_ok in H.
  destruct H as (cs' & Hcs & [= <-]). simpl in *.
  destruct (process_claim_ok _ _ _ _ Hm Hp) as [Hm' Hc].
  destruct oc as [c|]; [constructor; [by apply Hc|]|]; by eapply IH.
Qed.

Lemma fallback_claim_ok ev c : fallback_claim ev = Ok c ->
  cl_supporting_evidence c = [ev] /\ cl_claim_type c = single_domain /\ cl_text c = ev_claim ev.
Proof. unfold fallback_claim. rewrite result_bind_ok. by intros (u & _ & [= <-]). Qed.

Lemma unable_claim_total text : exists c, unable_claim text = Ok c /\
  cl_supporting_evidence c = [] /\ cl_text c = text /\ cl_claim_type c = single_domain.
Proof.
  unfold unable_claim, claim_init_uncertainty, init_uncertainty.
  destruct (proj1 (estimate_conversions f0 f0 model_uncertainty ltac:(by vm_compute)
    ltac:(by vm_compute)) ltac:(by vm_compute)) as [(e & E & _) _].
  change (negb (fleb f0 f0 && fleb f0 f1)) with false. cbn -[from_legacy_confidence].
  rewrite E. cbn. eauto.
Qed.

(** Each evidence item with a valid estimate has a fall-back claim. *)
Lemma fallback_claim_total ev :
  fvalid (ev_confidence ev) = true -> valid_estimate (ev_uncertainty ev) = true ->
  exists c, fallback_claim ev = Ok c.
Proof.
  intros Hf Hv. apply pt_unit in Hv. unfold fallback_claim, claim_init_uncertainty, init_uncertainty.
  fold (ev_confidence ev) in Hv. fold (in_unit (ev_confidence ev)). rewrite Hv.
  destruct (proj1 (estimate_conversions (ev_confidence ev) f0 model_uncertainty Hf
    ltac:(by vm_compute)) Hv) as [(e & E & _) _].
  cbn -[from_legacy_confidence]. rewrite E. cbn. eauto.
Qed.

Lemma fallback_claims_total evs :
  Forall (fun e => fvalid (ev_confidence e) = true /\ valid_estimate (ev_uncertainty e) = true) evs ->
  exists cs, result_mapM fallback_claim evs = Ok cs.
Proof.
  induction 1 as [|e evs [Hf Hv] _ (cs & IH)]; simpl; [eauto|].
  destruct (fallback_claim_total e Hf Hv) as [c ->]. rewrite IH. cbn. eauto.
Qed.
End lemmas.

(** ** Properties *)

(** C5. Whatever the language model replies, a synthesis that returns has at
    least one claim, lists as gaps exactly the agents without evidence, and
    every claim with citations cites only gathered evidence; the items that a
    cross-domain claim cites come from at least the configured number of
    distinct agents; the only claim without citations is the single "unable to
    gather" one. *)
Theorem synthesize_integrity (parse_uuid : string -> option uuid) (json_str : json -> string)
    (pyd_float : json -> option float) (settings : CoreSettings) (outputs : list AgentOutput)
    (reply : json) (out : SynthesisOutput) :
  synthesize parse_uuid json_str pyd_float settings outputs (Ok reply) = Ok out ->
  evidence_gaps out = gaps outputs /\
  ((claims out <> [] /\ Forall (claim_ok settings outputs) (claims out)) \/
   exists c, claims out = [c] /\ cl_supporting_evidence c = [] /\ cl_claim_type c = single_domain).
Proof.
  unfold synthesize.
  assert (forall text, (c ← unable_claim text; Ok {| claims := [c]; evidence_gaps := gaps outputs |}) = Ok out ->
    evidence_gaps out = gaps outputs /\ exists c, claims out = [c] /\ cl_supporting_evidence c = [] /\
      cl_claim_type c = single_domain) as Hunable.
  { intros text. destruct (unable_claim_total text) as (c & -> & Hc & _ & Ht). cbn.
    intros [= <-]. split; [done|]. by exists c. }
  destruct (all_evidence outputs) as [|e es].
  { intros [Hg Hc]%Hunable. split; [exact Hg | right; exact Hc]. }
  rewrite result_bind_ok. intros (j & _ & H). rewrite result_bind_ok in H.
  destruct H as (l & _ & H). rewrite result_bind_ok in H. destruct H as (cs & Hcs & H).
  apply (process_claims_ok _ _ _ _ outputs) in Hcs; [|apply make_mapper_indexes].
  destruct cs as [|c cs].
  - apply Hunable in H as [Hg Hc]. split; [exact Hg | right; exact Hc].
  - injection H as <-. split; [reflexivity | left]. split; [discriminate | exact Hcs].
Qed.

(** When the language model fails, synthesis still returns: one single-domain
    claim per gathered evidence item, in order, each citing exactly that item;
    or the "unable to gather" claim when nothing was gathered. *)
Theorem synthesize_llm_failure (parse_uuid : string -> option uuid) (json_str : json -> string)
    (pyd_float : json -> option float) (settings : CoreSettings) (outputs : list AgentOutput)
    (e : pyexn) :
  Forall (fun e => fvalid (ev_confidence e) = true /\ valid_estimate (ev_uncertainty e) = true)
    (all_evidence outputs) ->
  exists out, synthesize parse_uuid json_str pyd_float settings outputs (Raise e) = Ok out /\
    evidence_gaps out = gaps outputs /\
    match all_evidence outputs with
    | [] => exists c, claims out = [c] /\ cl_supporting_evidence c = []
    | evs => Forall2 (fun ev c => cl_supporting_evidence c = [ev] /\ cl_text c = ev_claim ev /\
               cl_claim_type c = single_domain) evs (claims out)
    end.
Proof.
  intros Hv. unfold synthesize. destruct (all_evidence outputs) as [|ev evs].
  - destruct (unable_claim_total "Unable to gather sufficient evidence to answer the query.")
      as (c & -> & Hc & _). cbn. eexists. split; [done|]. cbn. eauto.
  - destruct (fallback_claims_total _ Hv) as [cs Hcs]. rewrite Hcs. cbn.
    eexists. split; [done|]. split; [done|]. cbn. apply result_mapM_ok in Hcs.
    eapply Forall2_impl; [exact Hcs|]. intros e' c Hc. by apply fallback_claim_ok in Hc as (? & ? & ?).
Qed.

Module SynthesisWitness.
Import CitationWitness.
Definition cite_json (i src cl : string) : json :=
  JObj [("evidence_id", JStr i); ("source", JStr src); ("claim", JStr cl); ("confidence", JFloat f1)].
Definition reply : json :=
  JObj [("claims", JList [JObj [("text", JStr "Quake and warm sea"); ("claim_type", JStr "cross_domain_pattern");
    ("supporting_evidence", JList [cite_json "a1" "USGS" "M 6.0 quake"; cite_json "b2" "NOAA" "Warm SST"])]])].
Definition to_float (j : json) : option float := match j with JFloat x => Some x | _ => None end.
Definition run (llm : result pyexn json) : result pyexn SynthesisOutput :=
  synthesize Some (fun _ => "") to_float default_CoreSettings outs llm.
Definition out : SynthesisOutput :=
  Eval vm_compute in match run (Ok reply) with Ok o => o | Raise _ => {| claims := []; evidence_gaps := [] |} end.

Lemma out_result : run (Ok reply) = Ok out.
Proof. vm_compute. reflexivity. Qed.

Lemma synthesize_integrity_witness : map cl_claim_type (claims out) = [cross_domain_pattern] /\
  evidence_gaps out = [].
Proof.
  split; [reflexivity|].
  exact (proj1 (synthesize_integrity Some (fun _ => "") to_float default_CoreSettings outs reply out
    out_result)).
Defined.

Lemma outs_valid :
  Forall (fun e => fvalid (ev_confidence e) = true /\ valid_estimate (ev_uncertainty e) = true)
    (all_evidence outs).
Proof. repeat (apply Forall_cons; split; [split; vm_compute; reflexivity|]). constructor. Qed.

Lemma synthesize_llm_failure_witness :
  exists o, run (Raise RuntimeError) = Ok o /\ evidence_gaps o = [].
Proof.
  destruct (synthesize_llm_failure Some (fun _ => "") to_float default_CoreSettings outs RuntimeError
    outs_valid) as (o & E & Hg & _).
  exists o. exact (conj E Hg).
Defined.
End SynthesisWitness.
