(* ===== verification/FanOut.v ===== *)
(** * Parallel fan-out ([src/orchestrator/graph/fan_out_coordinator.py],
    [src/orchestrator/graph/collaboration_bus.py],
    [src/orchestrator/schemas/collaboration.py])

    The coordinator runs one task per domain under [asyncio.gather], turns
    every failure into an output, and then, with collaboration enabled, lets
    each agent refine once on its peers' messages.  The tasks of the first stage
    are interleaved by the event loop: [loop] is its state, [step] one move of
    one task, and a schedule is any sequence of moves; tasks the schedule leaves
    unfinished are run to their end, since [gather] waits for all of them.  What
    an agent does is an input of the model: how it ends, which may depend on
    everything that has happened in the loop so far, its broadcasts, its peer
    hook, and the outcome and broadcasts of its refined run. *)

From S2P Require Import Prelude PyFloat PyStr Effects Uncertainty AgentIO Registry.

(** ** Collaboration bus *)

Record CollaborationMessage := {
  from_agent : string;
  finding_summary : string;
  msg_uncertainty : UncertaintyEstimate;
  suggested_refinement : option (list (string * json));
  msg_round : Z;
}.

Record CollaborationBus := Bus {
  bus_investigation_id : string;
  max_rounds : Z;
  _messages : list CollaborationMessage;
}.

Definition new_bus (investigation_id : string) : CollaborationBus := Bus investigation_id 2 [].

Definition broadcast (message : CollaborationMessage) (bus : CollaborationBus) : CollaborationBus :=
  Bus (bus_investigation_id bus) (max_rounds bus) (_messages bus ++ [message]).

Definition is_peer (requesting_agent : string) (since_round : Z) (msg : CollaborationMessage) : bool :=
  negb (String.eqb (from_agent msg) requesting_agent) && (since_round <=? msg_round msg).

Definition peer_findings (requesting_agent : string) (since_round : Z) (bus : CollaborationBus)
    : list CollaborationMessage :=
  List.filter (is_peer requesting_agent since_round) (_messages bus).

Definition snapshot (bus : CollaborationBus) : list CollaborationMessage := _messages bus.

(** ** Agent runs *)

(** How the awaited agent coroutine ends. *)
Inductive run_outcome :=
| Returned (o : AgentOutput)
| ReturnedNone
| TimedOut
| Failed (msg : string)      (* any [Exception] *)
| Cancelled.                 (* [CancelledError], not an [Exception] *)

Inductive agent_event :=
| Started (agent : string)
| Completed (agent : string) (evidence_count : Z).

(** [AgentOutput] with no evidence and one error. *)
Definition error_output (domain error : string) : AgentOutput :=
  {| agent_name := domain; evidence := []; errors := [error] |}.

(** What [gather(..., return_exceptions=True)] holds for a task: an output,
    [None], an exception, or a cancellation, which is not an [Exception]. *)
Inductive task_value := TOutput (o : AgentOutput) | TNone | TRaised (msg : string) | TCancelled.

(** *** The event loop *)

Inductive task :=
| Created (domain : string)                              (* before its start event *)
| Running (domain : string)                              (* awaiting its agent *)
| Reporting (domain : string) (v : task_value) (n : Z)   (* before its completion event *)
| Done (v : task_value).

(** The tasks, the events published so far, the messages on the bus, and how the
    agents of the tasks ended, by position, latest last. *)
Record loop := Loop {
  tasks : list task;
  events : list agent_event;
  messages : list CollaborationMessage;
  ends : list (nat * run_outcome);
}.

Inductive move :=
| Advance (i : nat)                                (* up to the next await *)
| Broadcasts (i : nat) (m : CollaborationMessage). (* the running agent sends a message *)

Section coordinator.
Variable timeout_text : string.   (* [f"{timeout}"] *)

Definition monitor_value (domain : string) (r : run_outcome) : task_value :=
  match r with
  | Returned o => TOutput o
  | ReturnedNone => TNone
  | TimedOut => TOutput (error_output domain
      ("Agent execution timed out after " +:+ timeout_text +:+ " seconds"))
  | Failed msg => TOutput (error_output domain ("Agent execution failed: " +:+ msg))
  | Cancelled => TCancelled
  end.

(** The evidence count of the completion event; a cancelled run has none. *)
Definition monitor_count (r : run_outcome) : option Z :=
  match r with
  | Returned o => Some (Z.of_nat (length (evidence o)))
  | ReturnedNone | TimedOut | Failed _ => Some 0
  | Cancelled => None
  end.

(** [_run_agent_with_monitoring] after the agent has ended with [r]. *)
Definition after_agent (domain : string) (r : run_outcome) : task :=
  match monitor_count r with
  | Some n => Reporting domain (monitor_value domain r) n
  | None => Done (monitor_value domain r)
  end.

(** [_run_agent_with_monitoring] run on its own, as in the refinement stage: the
    task's value and the events it emits. *)
Definition _run_agent_with_monitoring (domain : string) (r : run_outcome)
    : task_value * list agent_event :=
  (monitor_value domain r,
   Started domain :: match monitor_count r with Some n => [Completed domain n] | None => [] end).

Definition not_found (domain : string) : run_outcome :=
  Returned (error_output domain ("Agent implementation not found for domain: " +:+ domain)).

(** The result list after [gather]: exceptions become outputs, values that are
    neither exceptions nor [AgentOutput] are dropped. *)
Definition collect_one (domain : string) (v : task_value) : option AgentOutput :=
  match v with
  | TOutput o => Some o
  | TRaised msg => Some (error_output domain ("Unhandled exception during agent run: " +:+ msg))
  | TNone | TCancelled => None
  end.

Definition collect (domains : list string) (values : list task_value) : list AgentOutput :=
  omap (fun dv => collect_one dv.1 dv.2) (zip domains values).

Section run.
Context {R : Type}.
Variable registry : AgentRegistry R.
(** How a runner's first run ends, given the loop at that moment. *)
Variable first_run : R -> AgentInput -> loop -> run_outcome.
(** The runner's [on_peer_finding] hook, if it has one: [None] for no
    refinement, an exception is isolated. *)
Variable peer_hook : R -> option (CollaborationMessage -> AgentInput -> result pyexn (option AgentInput)).
(** Outcome and broadcasts of a refined run, given the bus. *)
Variable second_run : R -> AgentInput -> CollaborationBus -> run_outcome * list CollaborationMessage.
(** Whether agents are given a bus. *)
Variable collaboration : bool.

Definition domain_outcome (input : AgentInput) (domain : string) (l : loop) : run_outcome :=
  match get domain registry with
  | Ok r => first_run r input l
  | Raise _ => not_found domain
  end.

(** One move of the loop; a move that does not apply changes nothing. *)
Definition step (input : AgentInput) (l : loop) (mv : move) : loop :=
  match mv with
  | Advance i =>
      match tasks l !! i with
      | Some (Created d) => Loop (<[i := Running d]> (tasks l)) (events l ++ [Started d]) (messages l) (ends l)
      | Some (Running d) =>
          let r := domain_outcome input d l in
          Loop (<[i := after_agent d r]> (tasks l)) (events l) (messages l) (ends l ++ [(i, r)])
      | Some (Reporting d v n) =>
          Loop (<[i := Done v]> (tasks l)) (events l ++ [Completed d n]) (messages l) (ends l)
      | Some (Done _) | None => l
      end
  | Broadcasts i m =>
      match tasks l !! i with
      | Some (Running _) =>
          if collaboration then Loop (tasks l) (events l) (messages l ++ [m]) (ends l) else l
      | _ => l
      end
  end.

Definition start (domains : list string) : loop := Loop (map Created domains) [] [] [].

(** [gather]: the tasks that are not done are advanced until they are. *)
Definition complete (input : AgentInput) (l : loop) (i : nat) : loop :=
  step input (step input (step input l (Advance i)) (Advance i)) (Advance i).

Definition stage_a (schedule : list move) (domains : list string) (input : AgentInput) : loop :=
  fold_left (complete input) (seq 0 (length domains)) (fold_left (step input) schedule (start domains)).

Definition task_result (t : task) : task_value := match t with Done v => v | _ => TNone end.

(** The refinement candidates of one agent, in message order. *)
Definition candidates (hook : CollaborationMessage -> AgentInput -> result pyexn (option AgentInput))
    (input : AgentInput) (msgs : list CollaborationMessage) : list AgentInput :=
  omap (fun msg => match hook msg input with Ok (Some i) => Some i | _ => None end) msgs.

(** The bus and the events of the refinement stage. *)
Record refinement := Refinement { r_bus : CollaborationBus; r_events : list agent_event }.

(** One iteration of stage B at position [idx].  [processed_results[idx] = v]
    raises [IndexError] out of range. *)
Definition refine_one (input : AgentInput) (idx : nat) (domain : string) (results : list (option AgentOutput))
    : M refinement (list (option AgentOutput)) := fun st =>
  match get domain registry with
  | Raise _ => (Ok results, st)
  | Ok r =>
      match peer_hook r with
      | None => (Ok results, st)
      | Some hook =>
          match last (candidates hook input (peer_findings domain 0 (r_bus st))) with
          | None => (Ok results, st)
          | Some refined =>
              let '(outcome, sent) := second_run r refined (r_bus st) in
              let '(v, evs) := _run_agent_with_monitoring domain outcome in
              let st' := Refinement (fold_left (fun b m => broadcast m b) sent (r_bus st)) (r_events st ++ evs) in
              match v with
              | TCancelled => (Raise (OtherError "CancelledError"), st')
              | v =>
                  if (idx <? length results)%nat then
                    (Ok (<[idx := match v with TOutput o => Some o | _ => None end]> results), st')
                  else (Raise (OtherError "IndexError"), st')
              end
          end
      end
  end.

Fixpoint stage_b (input : AgentInput) (idx : nat) (domains : list string) (results : list (option AgentOutput))
    : M refinement (list (option AgentOutput)) :=
  match domains with
  | [] => mret results
  | d :: ds => refine_one input idx d results ≫= fun results => stage_b input (S idx) ds results
  end.

(** [FanOutCoordinator.run]: its result and the events it publishes, in order. *)
Definition run (schedule : list move) (domains : list string) (input : AgentInput)
    : result pyexn (list (option AgentOutput)) * list agent_event :=
  let l := stage_a schedule domains input in
  let processed := map Some (collect domains (map task_result (tasks l))) in
  let bus := Bus (in_investigation_id input) 2 (messages l) in
  if collaboration then
    match snapshot bus with
    | [] => (Ok processed, events l)
    | _ =>
        let '(r, st) := stage_b input 0 domains processed (Refinement bus []) in
        (r, events l ++ r_events st)
    end
  else (Ok processed, events l).
End run.
End coordinator.

(** ** Lemmas *)

(** The agent ends in an output or in an exception that monitoring converts. *)
Definition well_behaved (r : run_outcome) : Prop :=
  match r with ReturnedNone | Cancelled => False | _ => True end.

(** What the coordinator is meant to report for a domain whose agent ended so. *)
Definition report (timeout_text domain : string) (r : run_outcome) : option AgentOutput :=
  match r with
  | Returned o => Some o
  | TimedOut => Some {| agent_name := domain; evidence := [];
      errors := ["Agent execution timed out after " +:+ timeout_text +:+ " seconds"] |}
  | Failed msg => Some {| agent_name := domain; evidence := []; errors := ["Agent execution failed: " +:+ msg] |}
  | ReturnedNone | Cancelled => None
  end.

Lemma collect_report timeout_text domain r :
  collect_one domain (monitor_value timeout_text domain r) = report timeout_text domain r.
Proof. by destruct r. Qed.

Lemma report_well_behaved timeout_text domain r :
  well_behaved r -> exists o, report timeout_text domain r = Some o /\ monitor_value timeout_text domain r = TOutput o.
Proof. destruct r; try done; eauto. Qed.

Lemma not_found_well_behaved domain : well_behaved (not_found domain).
Proof. exact I. Qed.

Section lemmas.
Variable timeout_text : string.
Context {R : Type}.
Variable registry : AgentRegistry R.
Variable first_run : R -> AgentInput -> loop -> run_outcome.
Variable peer_hook : R -> option (CollaborationMessage -> AgentInput -> result pyexn (option AgentInput)).
Variable second_run : R -> AgentInput -> CollaborationBus -> run_outcome * list CollaborationMessage.
Variable collaboration : bool.
Variable input : AgentInput.
Variable domains : list string.
Notation step := (step timeout_text registry first_run collaboration input).
Notation complete := (complete timeout_text registry first_run collaboration input).
Notation outcome := (domain_outcome registry first_run input).

(** How the agent at a position ended, so far. *)
Definition ends_of (i : nat) (l : loop) : list run_outcome :=
  omap (fun e => if bool_decide (e.1 = i) then Some e.2 else None) (ends l).

Lemma ends_of_snoc i j r l ts evs ms :
  ends_of i (Loop ts evs ms (ends l ++ [(j, r)])) = ends_of i l ++ if bool_decide (j = i) then [r] else [].
Proof. unfold ends_of. cbn. rewrite omap_app. cbn. by case_bool_decide. Qed.

(** A task and what is known of its agent. *)
Definition task_ok (l : loop) (i : nat) (d : string) (t : task) : Prop :=
  match t with
  | Created d' | Running d' => d' = d /\ ends_of i l = []
  | Reporting d' v n => d' = d /\ exists r, ends_of i l = [r] /\ v = monitor_value timeout_text d r /\ monitor_count r = Some n
  | Done v => exists r, ends_of i l = [r] /\ v = monitor_value timeout_text d r
  end.

Definition loop_ok (l : loop) : Prop :=
  length (tasks l) = length domains /\ (forall e, e ∈ ends l -> (e.1 < length domains)%nat) /\
  forall i d t, domains !! i = Some d -> tasks l !! i = Some t -> task_ok l i d t.

Lemma start_ok : loop_ok (start domains).
Proof.
  split; [apply length_map|]. split; [by intros e ?%elem_of_nil|]. intros i d t Hd Ht. cbn in Ht.
  rewrite list_lookup_fmap, Hd in Ht. by injection Ht as <-.
Qed.

(** A task changes without an end being logged. *)
Lemma quiet_step l i t' evs : loop_ok l -> (forall d, domains !! i = Some d -> task_ok l i d t') ->
  loop_ok (Loop (<[i := t']> (tasks l)) evs (messages l) (ends l)).
Proof.
  intros (Hlen & He & Hok) Ht. split; [cbn; by rewrite length_insert|]. split; [done|]. intros j d t Hd Hj. cbn in Hj.
  change (task_ok l j d t). destruct (decide (j = i)) as [->|Hne].
  - apply list_lookup_insert_Some in Hj as [(_ & <- & _)|[? _]]; [auto | done].
  - rewrite list_lookup_insert_ne in Hj by done. by apply Hok.
Qed.

Lemma task_domain l i t : loop_ok l -> tasks l !! i = Some t -> exists d, domains !! i = Some d /\ task_ok l i d t.
Proof.
  intros (Hlen & _ & Hok) Ht. assert (i < length domains)%nat as Hi by (rewrite <- Hlen; by eapply lookup_lt_Some).
  destruct (lookup_lt_is_Some_2 domains i Hi) as [d Hd]. eauto.
Qed.

Lemma step_ok l mv : loop_ok l -> loop_ok (step l mv).
Proof.
  intros Hl. destruct mv as [i|i m]; cbn; [|destruct (tasks l !! i) as [[]|]; try done; by destruct collaboration].
  destruct (tasks l !! i) as [t|] eqn:Ht; [|done]. destruct (task_domain l i t Hl Ht) as (d & Hd & Hk).
  destruct t as [d'|d'|d' v n|v]; [| | |done].
  - destruct Hk as [-> Hn]. apply quiet_step; [done|]. intros d2. rewrite Hd. by intros [= <-].
  - destruct Hk as [-> Hn]. set (r := outcome d l). destruct Hl as (Hlen & He & Hok).
    assert (forall j ts, ends_of j (Loop ts (events l) (messages l) (ends l ++ [(i, r)])) =
                      ends_of j l ++ if bool_decide (i = j) then [r] else []) as Hends by (intros; apply ends_of_snoc).
    split; [cbn; by rewrite length_insert|]. split.
    { intros e [?| ->%list_elem_of_singleton]%elem_of_app; [auto|]. rewrite <- Hlen. by eapply lookup_lt_Some. }
    intros j d2 t2 Hd2 Ht2. cbn in Ht2. destruct (decide (j = i)) as [->|Hne].
    + rewrite Hd in Hd2. injection Hd2 as <-.
      apply list_lookup_insert_Some in Ht2 as [(_ & <- & _)|[? _]]; [|done].
      unfold after_agent. destruct (monitor_count r) as [n|] eqn:En; cbn [task_ok]; rewrite Hends, Hn, bool_decide_true by done;
        [split; [done|]|]; exists r; done.
    + rewrite list_lookup_insert_ne in Ht2 by done. specialize (Hok j d2 t2 Hd2 Ht2).
      unfold task_ok in *. rewrite Hends, bool_decide_false, app_nil_r by done. done.
  - destruct Hk as (-> & r & Hr & -> & Hn). apply quiet_step; [done|]. intros d2. rewrite Hd. intros [= <-]. by exists r.
Qed.

(** *** All tasks are done in the end *)

Definition is_done (t : task) : bool := match t with Done _ => true | _ => false end.
Definition done_at (l : loop) (i : nat) : Prop := exists v, tasks l !! i = Some (Done v).

Lemma step_length l mv : length (tasks (step l mv)) = length (tasks l).
Proof.
  destruct mv as [i|i m]; cbn; destruct (tasks l !! i) as [[]|]; cbn; rewrite ?length_insert; try done.
  by destruct collaboration.
Qed.

Lemma step_keeps_done l mv j : done_at l j -> done_at (step l mv) j.
Proof.
  intros [v Hv]. unfold done_at. destruct mv as [i|i m]; cbn.
  - destruct (decide (j = i)) as [->|Hne]; [rewrite Hv; eauto|].
    destruct (tasks l !! i) as [[]|]; cbn; rewrite ?list_lookup_insert_ne by done; eauto.
  - destruct (tasks l !! i) as [[]|]; eauto. destruct collaboration; eauto.
Qed.

Lemma complete_done l i : (i < length (tasks l))%nat -> done_at (complete l i) i.
Proof.
  intros Hi. assert (forall l', length (tasks l') = length (tasks l) -> forall d v n, tasks l' !! i = Some (Reporting d v n) ->
    done_at (step l' (Advance i)) i) as H3.
  { intros l' Hl d v n E. exists v. cbn. rewrite E. cbn. apply list_lookup_insert_eq. lia. }
  assert (forall l', length (tasks l') = length (tasks l) -> forall d, tasks l' !! i = Some (Running d) ->
    done_at (step (step l' (Advance i)) (Advance i)) i) as H2.
  { intros l' Hl d E. set (l2 := step l' (Advance i)).
    assert (length (tasks l2) = length (tasks l)) as Hl2 by (unfold l2; by rewrite step_length).
    assert (tasks l2 !! i = Some (after_agent timeout_text d (outcome d l'))) as E2.
    { unfold l2. cbn. rewrite E. cbn. apply list_lookup_insert_eq. lia. }
    unfold after_agent in E2. destruct (monitor_count _); [by eapply H3|]. apply step_keeps_done. by eexists. }
  unfold complete. destruct (lookup_lt_is_Some_2 _ _ Hi) as [t Ht]. destruct t as [d|d|d v n|v].
  - apply (H2 (step l (Advance i)) (step_length _ _) d). cbn. rewrite Ht. cbn. by apply list_lookup_insert_eq.
  - by apply step_keeps_done, (H2 l eq_refl d).
  - by do 2 apply step_keeps_done; eapply H3.
  - do 3 apply step_keeps_done. by exists v.
Qed.

Lemma stage_a_steps (P : loop -> Prop) schedule : (forall l mv, P l -> P (step l mv)) -> P (start domains) ->
  P (stage_a timeout_text registry first_run collaboration schedule domains input).
Proof.
  intros Hs H0. unfold stage_a.
  assert (P (fold_left step schedule (start domains))) as H1.
  { revert H0. generalize (start domains). induction schedule as [|mv ms IH]; cbn; eauto. }
  revert H1. generalize (fold_left step schedule (start domains)).
  induction (seq 0 (length domains)) as [|i js IH]; intros l Hl; cbn [fold_left]; [done|]. apply IH. by do 3 apply Hs.
Qed.

Lemma stage_a_done schedule i : (i < length domains)%nat ->
  done_at (stage_a timeout_text registry first_run collaboration schedule domains input) i.
Proof.
  intros Hi. unfold stage_a.
  assert (length (tasks (fold_left step schedule (start domains))) = length domains) as Hl.
  { assert (forall l, length (tasks (fold_left step schedule l)) = length (tasks l)) as ->.
    - induction schedule as [|mv ms IH]; intros l; cbn; [done|]. by rewrite IH, step_length.
    - apply length_map. }
  revert Hl. generalize (fold_left step schedule (start domains)).
  assert (i ∈ seq 0 (length domains)) as Hin by (apply elem_of_seq; lia).
  assert (forall js l, done_at l i -> done_at (fold_left complete js l) i) as Hkeep.
  { induction js as [|j js IH]; intros l Hd; cbn [fold_left]; [done|]. apply IH. by do 3 apply step_keeps_done. }
  induction (seq 0 (length domains)) as [|j js IH]; intros l Hl; [by apply elem_of_nil in Hin|]. cbn [fold_left].
  apply elem_of_cons in Hin as [->|Hin].
  - apply Hkeep, complete_done. lia.
  - apply IH; [done|]. unfold complete. by rewrite !step_length.
Qed.

(** The end logged for a position; a position without one would be a run without end. *)
Definition own_end (l : loop) (i : nat) : run_outcome := default ReturnedNone (head (ends_of i l)).

Lemma stage_a_value schedule i d :
  let l := stage_a timeout_text registry first_run collaboration schedule domains input in
  domains !! i = Some d ->
  ends_of i l = [own_end l i] /\ tasks l !! i = Some (Done (monitor_value timeout_text d (own_end l i))).
Proof.
  intros l Hd. assert (loop_ok l) as (Hlen & He & Hok) by (apply stage_a_steps; [apply step_ok | apply start_ok]).
  destruct (stage_a_done schedule i ltac:(by eapply lookup_lt_Some)) as [v Hv]. fold l in Hv.
  destruct (Hok i d _ Hd Hv) as (r & Hr & ->). unfold own_end. by rewrite Hr.
Qed.

Lemma stage_a_length schedule :
  length (tasks (stage_a timeout_text registry first_run collaboration schedule domains input)) = length domains.
Proof.
  apply (stage_a_steps (fun l => length (tasks l) = length domains)); [|apply length_map].
  intros l mv. by rewrite step_length.
Qed.

(** The ends come from the agents, or from the failed runner. *)
Lemma stage_a_ends schedule :
  let l := stage_a timeout_text registry first_run collaboration schedule domains input in
  forall e, e ∈ ends l -> exists d l', domains !! e.1 = Some d /\ e.2 = outcome d l'.
Proof.
  intros l. apply (stage_a_steps (fun l => loop_ok l /\ forall e, e ∈ ends l -> exists d l', domains !! e.1 = Some d /\ e.2 = outcome d l')).
  - intros l' mv [Hl He]. split; [by apply step_ok|].
    destruct mv as [i|i m]; cbn; destruct (tasks l' !! i) as [t|] eqn:Ht; try done.
    + destruct (task_domain l' i t Hl Ht) as (d & Hd & Hk). destruct t; try done. cbn. destruct Hk as [-> _].
      intros e [?| ->%list_elem_of_singleton]%elem_of_app; [auto|]. exists d, l'. done.
    + destruct t; try done. by destruct collaboration.
  - split; [apply start_ok|]. by intros e ?%elem_of_nil.
Qed.

Lemma own_end_outcome schedule i d :
  let l := stage_a timeout_text registry first_run collaboration schedule domains input in
  domains !! i = Some d -> exists l', own_end l i = outcome d l'.
Proof.
  intros l Hd. destruct (stage_a_value schedule i d Hd) as [E _]. fold l in E.
  assert (own_end l i ∈ ends_of i l) as Hin by (rewrite E; by apply list_elem_of_singleton).
  unfold ends_of in Hin. apply list_elem_of_omap in Hin as ([j r] & Hj & Hf). cbn in Hf.
  case_bool_decide as Hji; [|done]. injection Hf as Hr. destruct (stage_a_ends schedule _ Hj) as (d' & l' & Hd' & Hl').
  cbn in *. subst j. rewrite Hd in Hd'. injection Hd' as <-. exists l'. congruence.
Qed.

(** The result list after [gather]. *)
Definition reports (l : loop) : list AgentOutput :=
  omap (fun x => x) (imap (fun i d => report timeout_text d (own_end l i)) domains).

Lemma collect_stage_a schedule :
  let l := stage_a timeout_text registry first_run collaboration schedule domains input in
  collect domains (map task_result (tasks l)) = reports l.
Proof.
  intros l. unfold collect, reports.
  assert (map task_result (tasks l) = imap (fun i d => monitor_value timeout_text d (own_end l i)) domains) as ->.
  { apply list_eq. intros i. rewrite list_lookup_fmap, list_lookup_imap.
    destruct (domains !! i) as [d|] eqn:Hd.
    - destruct (stage_a_value schedule i d Hd) as [_ E]. fold l in E. by rewrite E.
    - apply lookup_ge_None in Hd. rewrite <- (stage_a_length schedule) in Hd. fold l in Hd.
      apply lookup_ge_None in Hd. by rewrite Hd. }
  generalize (own_end l). induction domains as [|d ds IH]; intros f; [done|]. cbn.
  rewrite !collect_report. specialize (IH (fun i => f (S i))). cbn in IH.
  destruct (report timeout_text d (f 0%nat)); [f_equal|]; exact IH.
Qed.

Lemma reports_all l :
  (forall i d, domains !! i = Some d -> well_behaved (own_end l i)) ->
  length (reports l) = length domains /\
  forall i d, domains !! i = Some d -> reports l !! i = report timeout_text d (own_end l i).
Proof.
  unfold reports. generalize (own_end l). induction domains as [|d ds IH]; intros f Hw; [done|]. cbn.
  destruct (report_well_behaved timeout_text d (f 0%nat) (Hw 0%nat d eq_refl)) as (o & E & _). rewrite E.
  destruct (IH (fun i => f (S i)) (fun i => Hw (S i))) as [Hl Hi]. split; [cbn; f_equal; exact Hl|].
  intros [|i] d' Hd; cbn in Hd |- *; [injection Hd as <-; by rewrite E|]. by apply Hi.
Qed.

Lemma reports_of_well_behaved schedule :
  let l := stage_a timeout_text registry first_run collaboration schedule domains input in
  (forall r l', well_behaved (first_run r input l')) ->
  length (reports l) = length domains /\
  forall i d, domains !! i = Some d -> exists l', reports l !! i = report timeout_text d (outcome d l').
Proof.
  intros l Hw. destruct (reports_all l) as [Hlen Hi].
  - intros i d Hd. destruct (own_end_outcome schedule i d Hd) as [l' E]. fold l in E. rewrite E.
    unfold domain_outcome. destruct (get d registry); [apply Hw | apply not_found_well_behaved].
  - split; [done|]. intros i d Hd. destruct (own_end_outcome schedule i d Hd) as [l' E]. fold l in E.
    exists l'. rewrite <- E. auto.
Qed.
End lemmas.

(** *** The refinement stage *)

Section refinement.
Variable timeout_text : string.
Context {R : Type}.
Variable registry : AgentRegistry R.
Variable first_run : R -> AgentInput -> loop -> run_outcome.
Variable peer_hook : R -> option (CollaborationMessage -> AgentInput -> result pyexn (option AgentInput)).
Variable second_run : R -> AgentInput -> CollaborationBus -> run_outcome * list CollaborationMessage.
Variable collaboration : bool.
Variable schedule : list move.
Variable domains : list string.
Variable input : AgentInput.

(** Nothing is refined when no message was sent. *)
Lemma run_quiet :
  let l := stage_a timeout_text registry first_run collaboration schedule domains input in
  messages l = [] ->
  (run timeout_text registry first_run peer_hook second_run collaboration schedule domains input).1 =
  Ok (map Some (reports timeout_text domains l)).
Proof.
  intros l Hm. unfold run. cbv zeta. rewrite collect_stage_a. fold l. cbn. rewrite Hm. by destruct collaboration.
Qed.

(** A property [Q] of every output of the first and of the refined runs holds of
    every output the coordinator returns. *)
Variable Q : AgentOutput -> Prop.
Let good (d : string) (r : run_outcome) : Prop := well_behaved r /\ forall o, report timeout_text d r = Some o -> Q o.

Lemma refine_one_ok idx d ds outs st :
  (forall r i b, good d (second_run r i b).1) -> (idx < length outs)%nat -> Forall Q outs -> ds = d ->
  exists outs' st', refine_one timeout_text registry peer_hook second_run input idx ds (map Some outs) st =
      (Ok (map Some outs'), st') /\ length outs' = length outs /\ Forall Q outs'.
Proof.
  intros H2 Hi HQ ->. unfold refine_one. destruct (get d registry) as [r|e]; [|eauto].
  destruct (peer_hook r) as [hook|]; [|eauto]. destruct (last _) as [refined|]; [|eauto].
  specialize (H2 r refined (r_bus st)). destruct (second_run r refined (r_bus st)) as [oc sent]. cbn in H2.
  destruct H2 as [Hw Hq]. destruct (report_well_behaved timeout_text d oc Hw) as (o & Er & Ev). unfold _run_agent_with_monitoring.
  rewrite Ev, length_map. apply Nat.ltb_lt in Hi. rewrite Hi.
  exists (<[idx := o]> outs). eexists. split; [by rewrite list_fmap_insert|]. split; [apply length_insert|].
  apply Forall_insert; auto.
Qed.

Lemma stage_b_ok ds idx outs st :
  (forall d r i b, good d (second_run r i b).1) -> length outs = (idx + length ds)%nat -> Forall Q outs ->
  exists outs' st', stage_b timeout_text registry peer_hook second_run input idx ds (map Some outs) st =
      (Ok (map Some outs'), st') /\ length outs' = length outs /\ Forall Q outs'.
Proof.
  intros H2. revert idx outs st. induction ds as [|d ds IH]; intros idx outs st Hl HQ; [by exists outs, st|].
  cbn [length] in Hl. cbn [stage_b]. unfold mbind, M_bind.
  destruct (refine_one_ok idx d d outs st (H2 d)) as (o1 & st1 & E1 & Hl1 & HQ1); [lia | done | done |]. rewrite E1.
  destruct (IH (S idx) o1 st1) as (o2 & st2 & E2 & Hl2 & HQ2); [lia | done |].
  exists o2, st2. split; [exact E2|]. split; [congruence | done].
Qed.

Lemma run_all :
  (forall d l, d ∈ domains -> good d (domain_outcome registry first_run input d l)) ->
  (forall d r i b, good d (second_run r i b).1) ->
  exists outs, (run timeout_text registry first_run peer_hook second_run collaboration schedule domains input).1 =
      Ok (map Some outs) /\ length outs = length domains /\ Forall Q outs.
Proof.
  intros H1 H2. unfold run. cbv zeta. rewrite collect_stage_a.
  set (l := stage_a _ _ _ _ _ _ _).
  assert (forall i d, domains !! i = Some d -> good d (own_end l i)) as Hown.
  { intros i d Hd. destruct (own_end_outcome timeout_text registry first_run collaboration input domains schedule i d Hd) as [l' E].
    fold l in E. rewrite E. apply H1. by eapply list_elem_of_lookup_2. }
  destruct (reports_all timeout_text domains l) as [Hlen Hi]; [intros i d Hd; by apply (Hown i d)|].
  set (outs := reports timeout_text domains l) in *.
  assert (Forall Q outs) as HQ.
  { apply Forall_lookup. intros i o Ho.
    assert (i < length domains)%nat as Hlt by (rewrite <- Hlen; by eapply lookup_lt_Some).
    destruct (lookup_lt_is_Some_2 domains i Hlt) as [d Hd]. rewrite (Hi i d Hd) in Ho. by apply (Hown i d). }
  destruct collaboration; [|by exists outs]. destruct (snapshot _); [by exists outs|].
  destruct (stage_b_ok domains 0 outs (Refinement (Bus (in_investigation_id input) 2 (messages l)) [])) as (o & st & E & Hl & Hq); auto.
  rewrite E. exists o. split; [done|]. split; [congruence | done].
Qed.
End refinement.

(** A single unregistered domain: the failed runner's output. *)
Lemma run_unregistered timeout_text {R} (registry : AgentRegistry R) first_run peer_hook second_run collaboration
    schedule d e input : get d registry = Raise e ->
  (run timeout_text registry first_run peer_hook second_run collaboration schedule [d] input).1 =
  Ok [Some (error_output d ("Agent implementation not found for domain: " +:+ d))].
Proof.
  intros He. unfold run. cbv zeta. rewrite collect_stage_a. set (l := stage_a _ _ _ _ _ _ _).
  destruct (own_end_outcome timeout_text registry first_run collaboration input [d] schedule 0 d eq_refl) as [l' E].
  fold l in E. clearbody l. unfold reports. cbn [imap]. rewrite E. unfold domain_outcome. rewrite He. cbn.
  destruct collaboration; [|done]. destruct (messages l) as [|m ms]; [reflexivity|]. cbn [snapshot _messages]. cbn [stage_b].
  unfold refine_one. rewrite M_bind_run, He. reflexivity.
Qed.

Lemma broadcast_all_messages sent bus :
  _messages (fold_left (fun b m => broadcast m b) sent bus) = _messages bus ++ sent.
Proof.
  revert bus. induction sent as [|m sent IH]; intros bus; simpl; [by rewrite app_nil_r|].
  rewrite IH. simpl. by rewrite <- app_assoc.
Qed.

(** ** Properties *)

(** C10. The domain agents run concurrently, in any interleaving the event loop
    chooses, and an agent's run may depend on everything the others have done;
    still every task ends exactly once, an unregistered domain in the failed
    runner's output, and when no message was exchanged the fan-out returns, in
    the order of the domains, exactly what each domain's own agent ended in: its
    output, or the output that names its timeout or its exception.  Agents that
    returned [None] or were cancelled are left out, so with none of those there
    is one output per domain, at the domain's position. *)
Theorem fan_out_one_output_per_domain (timeout_text : string) {R} (registry : AgentRegistry R)
    (first_run : R -> AgentInput -> loop -> run_outcome)
    (peer_hook : R -> option (CollaborationMessage -> AgentInput -> result pyexn (option AgentInput)))
    (second_run : R -> AgentInput -> CollaborationBus -> run_outcome * list CollaborationMessage)
    (collaboration : bool) (schedule : list move) (domains : list string) (input : AgentInput) :
  let l := stage_a timeout_text registry first_run collaboration schedule domains input in
  let returned := (run timeout_text registry first_run peer_hook second_run collaboration schedule domains input).1 in
  let ended i := own_end l i in
  (forall i d, domains !! i = Some d ->
     ends_of i l = [ended i] /\
     (forall e, get d registry = Raise e ->
        report timeout_text d (ended i) =
        Some (error_output d ("Agent implementation not found for domain: " +:+ d)))) /\
  (messages l = [] ->
     returned = Ok (map Some (omap (fun o => o) (imap (fun i d => report timeout_text d (ended i)) domains))) /\
     ((forall i d, domains !! i = Some d -> well_behaved (ended i)) ->
        exists outs, returned = Ok (map Some outs) /\ length outs = length domains /\
          forall i d, domains !! i = Some d -> outs !! i = report timeout_text d (ended i))).
Proof.
  intros l returned ended. split.
  - intros i d Hd. split; [by apply (stage_a_value timeout_text registry first_run collaboration input domains schedule i d)|].
    intros e He. destruct (own_end_outcome timeout_text registry first_run collaboration input domains schedule i d Hd) as [l' E].
    fold l in E. unfold ended. rewrite E. unfold domain_outcome. by rewrite He.
  - intros Hm. assert (returned = Ok (map Some (reports timeout_text domains l))) as E.
    { unfold returned. by apply run_quiet. }
    split; [exact E|]. intros Hw. destruct (reports_all timeout_text domains l Hw) as [Hlen Hi].
    by exists (reports timeout_text domains l).
Qed.

(** With collaboration, whatever messages the bus carries and whatever the
    peer hooks do, raising included, the fan-out still returns one output per
    domain as long as the first and the refined runs end in an output or an
    exception. *)
Theorem fan_out_refinement_total (timeout_text : string) {R} (registry : AgentRegistry R)
    (first_run : R -> AgentInput -> loop -> run_outcome)
    (peer_hook : R -> option (CollaborationMessage -> AgentInput -> result pyexn (option AgentInput)))
    (second_run : R -> AgentInput -> CollaborationBus -> run_outcome * list CollaborationMessage)
    (collaboration : bool) (schedule : list move) (domains : list string) (input : AgentInput) :
  (forall r l, well_behaved (first_run r input l)) ->
  (forall r i b, well_behaved (second_run r i b).1) ->
  exists outs, (run timeout_text registry first_run peer_hook second_run collaboration schedule domains input).1 =
      Ok (map Some outs) /\ length outs = length domains.
Proof.
  intros Hw Hw2.
  destruct (run_all timeout_text registry first_run peer_hook second_run collaboration schedule domains input (fun _ => True))
    as (outs & E & Hl & _); [|by split; auto | by exists outs].
  intros d l _. split; [|done]. unfold domain_outcome. destruct (get d registry); [apply Hw | apply not_found_well_behaved].
Qed.

(** A monitored run announces its start first and, unless it is cancelled,
    announces exactly one completion after it, with the number of evidence
    items of the output it reports. *)
Theorem monitored_run_events (timeout_text domain : string) (r : run_outcome) :
  well_behaved r ->
  (_run_agent_with_monitoring timeout_text domain r).2 =
    [Started domain;
     Completed domain (Z.of_nat (length (default [] (evidence <$> report timeout_text domain r))))].
Proof. by destruct r. Qed.

(** The bus is append-only and a peer query returns exactly the messages of
    other agents from the given round on, in broadcast order. *)
Theorem bus_peer_findings (bus : CollaborationBus) (sent : list CollaborationMessage)
    (agent : string) (since : Z) (msg : CollaborationMessage) :
  let bus' := fold_left (fun b m => broadcast m b) sent bus in
  snapshot bus' = snapshot bus ++ sent /\
  peer_findings agent since bus' = peer_findings agent since bus ++ List.filter (is_peer agent since) sent /\
  (msg ∈ peer_findings agent since bus' <->
     msg ∈ snapshot bus' /\ from_agent msg <> agent /\ since <= msg_round msg).
Proof.
  intros bus'. pose proof (broadcast_all_messages sent bus) as E. fold bus' in E.
  split; [exact E|]. split.
  - unfold peer_findings. by rewrite E, List.filter_app.
  - unfold peer_findings, snapshot. rewrite list_elem_of_In, filter_In, <- list_elem_of_In.
    unfold is_peer. rewrite andb_true_iff, negb_true_iff, String.eqb_neq, Z.leb_le. tauto.
Qed.

Module FanOutWitness.
Import RegistryWitness.
Definition input : AgentInput := {| in_investigation_id := "i"; in_query := "q"; in_region_hint := None |}.
Definition out (n : nat) : AgentOutput := {| agent_name := "a"; evidence := []; errors := [] |}.
Definition first_ok (n : nat) (_ : AgentInput) (l : loop) : run_outcome :=
  if (n =? 5)%nat then TimedOut else Returned (out (length (events l))).
Definition hook (n : nat) : option (CollaborationMessage -> AgentInput -> result pyexn (option AgentInput)) :=
  Some (fun _ i => Ok (Some i)).
Definition second_ok (n : nat) (_ : AgentInput) (_ : CollaborationBus)
    : run_outcome * list CollaborationMessage := (Failed "boom", []).
Definition msg : CollaborationMessage :=
  {| from_agent := "seismic"; finding_summary := "swarm"; msg_uncertainty := default_uncertainty;
     suggested_refinement := None; msg_round := 0 |}.
(** The second task starts first and sends a message before the first one ends. *)
Definition schedule : list move := [Advance 1; Broadcasts 1 msg; Advance 0; Advance 0; Advance 1].

Lemma first_ok_behaved r l : well_behaved (first_ok r input l).
Proof. unfold first_ok. by destruct (_ =? _)%nat. Qed.

Lemma fan_out_one_output_per_domain_witness :
  exists o1 o2, (run "30.0" base first_ok hook second_ok false schedule ["ocean"; "volcano"] input).1 =
    Ok [Some o1; Some o2] /\ errors o2 = ["Agent implementation not found for domain: volcano"].
Proof.
  destruct (fan_out_one_output_per_domain "30.0" base first_ok hook second_ok false schedule ["ocean"; "volcano"] input) as [_ H].
  destruct (H eq_refl) as [E _]. eexists _, _. split; [exact E | reflexivity].
Defined.

Lemma fan_out_refinement_total_witness :
  exists outs, (run "30.0" base first_ok hook second_ok true schedule ["ocean"; "seismic"] input).1 = Ok (map Some outs) /\
    length outs = 2%nat.
Proof.
  apply (fan_out_refinement_total "30.0" base first_ok hook second_ok true schedule ["ocean"; "seismic"] input);
    [intros; apply first_ok_behaved | intros; exact I].
Defined.

Lemma monitored_run_events_witness :
  (_run_agent_with_monitoring "30.0" "ocean" TimedOut).2 = [Started "ocean"; Completed "ocean" 0].
Proof. exact (monitored_run_events "30.0" "ocean" TimedOut I). Defined.

(** An agent that returns [None]: its slot is dropped after [gather]. *)
Definition first_none (n : nat) (_ : AgentInput) (_ : loop) : run_outcome :=
  if (n =? 11)%nat then ReturnedNone else Returned (out n).
End FanOutWitness.

(** An agent that returns [None] is dropped from the results, after which
    stage B indexes by domain position: the refinement of a later agent is then
    written out of range and the whole fan-out raises [IndexError]. *)
Theorem dropped_result_breaks_refinement :
  (run "30.0" RegistryWitness.base FanOutWitness.first_none FanOutWitness.hook FanOutWitness.second_ok
    true [Advance 1; Broadcasts 1 FanOutWitness.msg] ["air_quality"; "ocean"] FanOutWitness.input).1 =
  Raise (OtherError "IndexError").
Proof. reflexivity. Qed.
