(* ===== verification/CacheClient.v ===== *)
(** * Investigation events and the Redis client ([src/orchestrator/schemas/events.py],
    [src/cache/client.py])

    The streamed events, their JSON form, [parse_event], the publisher and the
    subscriber, and the life cycle of the module-level client that is bound to
    one event loop.  Pydantic's field validation is a third-party service: the
    class [Pydantic] states what the code relies on, that a value of the
    declared type is accepted as it is. *)

From S2P Require Import Prelude PyFloat PyStr RedisKeys Settings Effects AgentIO.

(** ** Events *)

Inductive InvestigationEvent :=
| PlanningEvent (status : string)
| AgentStartedEvent (agent at_ : string)
| AgentCompletedEvent (agent : string) (evidence_count : Z)
| SynthesizingEvent (data : list (string * json))
| CriticFlagEvent (claim : string) (confidence : float) (reason : string)
| ReplanningEvent (cycle_number : Z) (targeted_domains : list string) (trigger_reason : string)
| DoneEvent (investigation_id : uuid) (status : string).

Definition event_tag (e : InvestigationEvent) : string :=
  match e with
  | PlanningEvent _ => "planning"
  | AgentStartedEvent _ _ => "agent_started"
  | AgentCompletedEvent _ _ => "agent_completed"
  | SynthesizingEvent _ => "synthesizing"
  | CriticFlagEvent _ _ _ => "critic_flag"
  | ReplanningEvent _ _ _ => "replanning"
  | DoneEvent _ _ => "done"
  end.

(** The payload fields, in declaration order. *)
Definition event_data (e : InvestigationEvent) : list (string * json) :=
  match e with
  | PlanningEvent s => [("status", JStr s)]
  | AgentStartedEvent a t => [("agent", JStr a); ("at", JStr t)]
  | AgentCompletedEvent a n => [("agent", JStr a); ("evidence_count", JInt n)]
  | SynthesizingEvent d => d
  | CriticFlagEvent c x r => [("claim", JStr c); ("confidence", JFloat x); ("reason", JStr r)]
  | ReplanningEvent n ds r =>
      [("cycle_number", JInt n); ("targeted_domains", JList (map JStr ds)); ("trigger_reason", JStr r)]
  | DoneEvent i s => [("investigation_id", JStr i); ("status", JStr s)]
  end.

(** [event.model_dump_json()] *)
Definition model_dump_json (e : InvestigationEvent) : text :=
  json_dumps (JObj [("event", JStr (event_tag e)); ("data", JObj (event_data e))]).

(** Validation of one field by its declared type. *)
Class Pydantic := {
  as_str : json -> option string;
  as_int : json -> option Z;
  as_float : json -> option float;
  as_uuid : json -> option uuid;
  is_uuid : uuid -> Prop;          (* canonical text of a UUID *)
  as_str_ok s : as_str (JStr s) = Some s;
  as_int_ok n : as_int (JInt n) = Some n;
  as_float_ok x : as_float (JFloat x) = Some x;
  as_uuid_ok i : is_uuid i -> as_uuid (JStr i) = Some i;
}.

(** A field of a model: the value given, or the default, or a validation error
    ([pydantic.ValidationError] is a [ValueError]). *)
Definition field {A} (conv : json -> option A) (dflt : option A) (k : string)
    (fields : list (string * json)) : result pyexn A :=
  match assoc k fields, dflt with
  | Some j, _ => match conv j with Some a => Ok a | None => Raise ValueError end
  | None, Some a => Ok a
  | None, None => Raise ValueError
  end.

Definition as_dict (j : json) : option (list (string * json)) :=
  match j with JObj fields => Some fields | _ => None end.

(** The nested payload model; [dflt] when the field has a default factory. *)
Definition data_field (dflt : option (list (string * json))) (fields : list (string * json))
    : result pyexn (list (string * json)) := field as_dict dflt "data" fields.

Section client.
Context `{Pydantic}.

Definition parse_event (json_str : text) : result pyexn InvestigationEvent :=
  data ← json_loads json_str;
  event_type ← jget data "event" JNull;
  let fields := default [] (as_dict data) in
  if jeq_str event_type "planning" then
    d ← data_field (Some []) fields;
    PlanningEvent <$> field as_str (Some "planning") "status" d
  else if jeq_str event_type "agent_started" then
    d ← data_field None fields;
    a ← field as_str None "agent" d;
    AgentStartedEvent a <$> field as_str None "at" d
  else if jeq_str event_type "agent_completed" then
    d ← data_field None fields;
    a ← field as_str None "agent" d;
    AgentCompletedEvent a <$> field as_int None "evidence_count" d
  else if jeq_str event_type "synthesizing" then
    SynthesizingEvent <$> data_field (Some []) fields
  else if jeq_str event_type "critic_flag" then
    d ← data_field None fields;
    c ← field as_str None "claim" d;
    x ← field as_float None "confidence" d;
    CriticFlagEvent c x <$> field as_str None "reason" d
  else if jeq_str event_type "done" then
    d ← data_field None fields;
    i ← field as_uuid None "investigation_id" d;
    DoneEvent i <$> field as_str (Some "complete") "status" d
  else Raise ValueError.

(** The messages [pubsub.listen()] delivers: payloads of published messages and
    other notifications ([subscribe], [unsubscribe], ...), which are skipped. *)
Inductive pubsub_message :=
| Message (data : text)
| Notification.

(** [subscribe]: the events yielded while the connection delivers the given
    messages, and the exception that ends the iteration, if one does. *)
Fixpoint subscribe (incoming : list pubsub_message) : list InvestigationEvent * option pyexn :=
  match incoming with
  | [] => ([], None)
  | Notification :: rest => subscribe rest
  | Message data_str :: rest =>
      match parse_event data_str with
      | Ok e => let '(es, r) := subscribe rest in (e :: es, r)
      | Raise e => ([], Some e)
      end
  end.
End client.

(** ** Client life cycle *)

(** The module globals [redis_client] (a connection and its URL) and
    [_redis_loop], with the sequence of pings the server will answer. *)
Record client_state := ClientState {
  redis_client : option string;   (* the URL the live client is connected to *)
  _redis_loop : option nat;       (* identity of its event loop *)
  opened : nat;                   (* clients created so far *)
  closed : nat;                   (* clients closed so far *)
  pings : list bool;              (* whether each coming ping succeeds *)
}.

(** [init_redis(settings)] run inside event loop [loop]. *)
Definition init_redis (redis_url : option string) (loop : nat) : M client_state unit := fun s =>
  match redis_url with
  | None => (Raise RuntimeError, s)
  | Some url =>
      if default true (head (pings s)) then
        (Ok tt, ClientState (Some url) (Some loop) (S (opened s)) (closed s) (tl (pings s)))
      else
        (Raise RuntimeError,
         ClientState (redis_client s) (_redis_loop s) (S (opened s)) (S (closed s)) (tl (pings s)))
  end.

Definition dispose_redis : M client_state unit := fun s =>
  match redis_client s with
  | Some _ => (Ok tt, ClientState None None (opened s) (S (closed s)) (pings s))
  | None => (Ok tt, s)
  end.

(** [get_redis()] inside event loop [loop]; [settings_url] is
    [get_settings().redis_url].  First the client of another loop is replaced. *)
Definition recreate (settings_url : option string) (loop : nat) : M client_state unit := fun s =>
  if bool_decide (is_Some (redis_client s)) && negb (bool_decide (_redis_loop s = Some loop)) then
    match settings_url with
    | Some url => if String.eqb url "" then dispose_redis s
                  else (dispose_redis ≫= fun _ => init_redis (Some url) loop) s
    | None => dispose_redis s
    end
  else (Ok tt, s).

Definition current_client : M client_state string := fun s =>
  match redis_client s with
  | Some c => (Ok c, s)
  | None => (Raise RuntimeError, s)
  end.

Definition get_redis (settings_url : option string) (loop : nat) : M client_state string :=
  recreate settings_url loop ≫= fun _ => current_client.

(** [publish_event]: the channel and payload of the PUBLISH command. *)
Definition publish_event (investigation_id : uuid) (event : InvestigationEvent) : string * text :=
  (RedisKeyBuilder.event_channel_key investigation_id, model_dump_json event).

(** ** Lemmas *)

Section lemmas.
Context `{Pydantic}.

Definition is_replanning (e : InvestigationEvent) : bool :=
  match e with ReplanningEvent _ _ _ => true | _ => false end.

(** The identifier a completion event carries is a UUID. *)
Definition event_wf (e : InvestigationEvent) : Prop :=
  match e with DoneEvent i _ => is_uuid i | _ => True end.

Lemma parse_dump e : event_wf e ->
  parse_event (model_dump_json e) = if is_replanning e then Raise ValueError else Ok e.
Proof.
  intros Hwf. destruct e as [s|a t|a n|d|c x r|n ds r|i s]; cbn; try reflexivity.
  1-4: by rewrite ?as_str_ok; cbn; rewrite ?as_str_ok, ?as_int_ok, ?as_float_ok; cbn; rewrite ?as_str_ok.
  by rewrite (as_uuid_ok _ Hwf); cbn; rewrite as_str_ok.
Qed.

(** Events published before the first re-planning one. *)
Fixpoint before_replanning (es : list InvestigationEvent) : list InvestigationEvent :=
  match es with
  | [] => []
  | e :: es => if is_replanning e then [] else e :: before_replanning es
  end.

Lemma subscribe_published es : Forall event_wf es ->
  subscribe (map (fun e => Message (model_dump_json e)) es) =
  (before_replanning es, if existsb is_replanning es then Some ValueError else None).
Proof.
  induction 1 as [|e es He _ IH]; [done|]. cbn [map subscribe]. rewrite (parse_dump e He).
  cbn [existsb before_replanning]. destruct (is_replanning e); [done|]. cbn [orb]. by rewrite IH.
Qed.

Lemma before_replanning_id es : existsb is_replanning es = false -> before_replanning es = es.
Proof.
  induction es as [|e es IH]; [done|]. cbn. destruct (is_replanning e); [done|].
  cbn. intros E. by rewrite IH.
Qed.
End lemmas.

(** A live client belongs to a loop, and clients are closed at most once. *)
Definition client_inv (s : client_state) : Prop :=
  (is_Some (redis_client s) <-> is_Some (_redis_loop s)) /\
  (closed s + (match redis_client s with Some _ => 1 | None => 0 end) <= opened s)%nat.

Inductive client_op := Init (url : option string) (loop : nat) | Get (url : option string) (loop : nat) | Dispose.

Definition run_client_op (o : client_op) (s : client_state) : client_state :=
  match o with
  | Init u l => (init_redis u l s).2
  | Get u l => (get_redis u l s).2
  | Dispose => (dispose_redis s).2
  end.

Lemma init_redis_inv u l s : client_inv s -> client_inv (init_redis u l s).2.
Proof.
  intros [H1 H2]. unfold init_redis. destruct u; [|done].
  destruct (default true _); split; cbn; try done; destruct (redis_client s); lia.
Qed.

Lemma dispose_redis_inv s : client_inv s -> client_inv (dispose_redis s).2.
Proof.
  intros [H1 H2]. unfold dispose_redis. destruct (redis_client s) eqn:E; cbn.
  - split; cbn; [by rewrite !is_Some_alt | lia].
  - split; [by rewrite E | by rewrite E].
Qed.

Lemma recreate_inv u l s : client_inv s -> client_inv (recreate u l s).2.
Proof.
  intros Hi. unfold recreate. pose proof (dispose_redis_inv s Hi) as Hd.
  destruct (_ && _); [|done]. destruct u as [url|]; [destruct (String.eqb url "")|]; try done.
  rewrite M_bind_run. destruct (dispose_redis s) as [[[]|e] s1]; [by apply init_redis_inv | done].
Qed.

Lemma get_redis_inv u l s : client_inv s -> client_inv (get_redis u l s).2.
Proof.
  intros Hi. apply (recreate_inv u l) in Hi. unfold get_redis. rewrite M_bind_run.
  destruct (recreate u l s) as [[[]|e] s1]; [|done]. unfold current_client. by destruct (redis_client s1).
Qed.

(** ** Properties *)

(** Every event kind but [replanning] survives
    [model_dump_json] followed by [parse_event]; a [replanning] event, which the
    graph publishes, is rejected as an unknown event type. *)
Theorem parse_event_roundtrip `{Pydantic} (e : InvestigationEvent) :
  event_wf e ->
  (parse_event (model_dump_json e) = Ok e <-> is_replanning e = false) /\
  (is_replanning e = true -> parse_event (model_dump_json e) = Raise ValueError).
Proof. intros Hwf. rewrite (parse_dump e Hwf). by destruct (is_replanning e). Qed.

(** A subscriber receives the published events in order, up to the
    first re-planning event, which ends its stream with an exception: nothing
    after it, the completion event included, is delivered. *)
Theorem subscriber_sees_prefix `{Pydantic} (before after : list InvestigationEvent)
    (n : Z) (ds : list string) (r : string) :
  Forall event_wf (before ++ ReplanningEvent n ds r :: after) ->
  existsb is_replanning before = false ->
  subscribe (map (fun e => Message (model_dump_json e)) before) = (before, None) /\
  subscribe (map (fun e => Message (model_dump_json e)) (before ++ ReplanningEvent n ds r :: after)) =
    (before, Some ValueError).
Proof.
  intros Hwf Hb. pose proof (proj1 (proj1 (Forall_app _ _ _) Hwf)) as Hwb. split.
  - rewrite subscribe_published by done. by rewrite Hb, before_replanning_id.
  - rewrite subscribe_published by done. rewrite existsb_app, Hb. cbn. f_equal.
    clear Hwf Hwb. induction before as [|e es IH]; [done|]. cbn in *.
    destruct (is_replanning e); [done|]. f_equal. by apply IH.
Qed.

(** A client returned by [get_redis] is the live one and is bound to
    the calling event loop, whatever loop it was created in before; a client
    left over from another loop is closed, never leaked. *)
Theorem get_redis_loop_bound (url : option string) (loop : nat) (s s' : client_state) (c : string) :
  client_inv s -> get_redis url loop s = (Ok c, s') ->
  redis_client s' = Some c /\ _redis_loop s' = Some loop /\
  (opened s' - closed s' <= opened s - closed s)%nat.
Proof.
  intros [Hi Hc] Hg. unfold get_redis, recreate, current_client, mbind, M_bind, dispose_redis in Hg.
  destruct (redis_client s) as [c0|] eqn:Ec; cbn in Hg.
  - destruct (bool_decide (_redis_loop s = Some loop)) eqn:El; cbn in Hg.
    + rewrite Ec in Hg. injection Hg as <- <-. apply bool_decide_eq_true in El. by rewrite Ec, El.
    + destruct url as [u|]; [destruct (String.eqb u "")|]; cbn in Hg; try done.
      destruct (default true _); cbn in Hg; [|done]. injection Hg as <- <-. cbn. repeat split; lia.
  - rewrite Ec in Hg. done.
Qed.

(** Any sequence of initialisations, look-ups (from any loops) and
    disposals keeps the client state consistent: the client and its loop are
    set together, and no client is closed twice. *)
Theorem client_state_consistent (ops : list client_op) (ps : list bool) :
  client_inv (fold_left (fun s o => run_client_op o s) ops (ClientState None None 0 0 ps)).
Proof.
  assert (forall s, client_inv s -> client_inv (fold_left (fun s o => run_client_op o s) ops s)) as Hf.
  { induction ops as [|o ops IH]; intros s Hs; [done|]. cbn. apply IH.
    destruct o; cbn; [by apply init_redis_inv | by apply get_redis_inv | by apply dispose_redis_inv]. }
  apply Hf. split; cbn; [by rewrite !is_Some_alt | lia].
Qed.

Module CacheClientWitness.
#[export] Instance strict_pydantic : Pydantic.
Proof.
  refine {| as_str j := match j with JStr s => Some s | _ => None end;
            as_int j := match j with JInt n => Some n | _ => None end;
            as_float j := match j with JFloat x => Some x | _ => None end;
            as_uuid j := match j with JStr s => if String.eqb s "" then None else Some s | _ => None end;
            is_uuid i := i <> "" |}; try reflexivity.
  intros i Hi. by destruct (String.eqb_spec i "").
Defined.

Lemma parse_event_roundtrip_witness :
  parse_event (model_dump_json (CriticFlagEvent "c" (flit 5 10) "r")) =
    Ok (CriticFlagEvent "c" (flit 5 10) "r") /\
  parse_event (model_dump_json (ReplanningEvent 1 ["ocean"] "r")) = Raise ValueError.
Proof.
  split.
  - apply (parse_event_roundtrip (CriticFlagEvent "c" (flit 5 10) "r") I). reflexivity.
  - apply (parse_event_roundtrip (ReplanningEvent 1 ["ocean"] "r") I). reflexivity.
Defined.

Lemma subscriber_sees_prefix_witness :
  subscribe (map (fun e => Message (model_dump_json e))
    ([PlanningEvent "planning"] ++ ReplanningEvent 1 ["ocean"] "r" :: [DoneEvent "u" "complete"])) =
  ([PlanningEvent "planning"], Some ValueError).
Proof.
  apply (subscriber_sees_prefix [PlanningEvent "planning"] [DoneEvent "u" "complete"] 1 ["ocean"] "r").
  - repeat constructor. discriminate.
  - reflexivity.
Defined.

Lemma get_redis_loop_bound_witness :
  let s := ClientState (Some "redis://a") (Some 1%nat) 1 0 [] in
  exists s', get_redis (Some "redis://a") 2 s = (Ok "redis://a", s') /\ _redis_loop s' = Some 2%nat.
Proof.
  eexists. split; [reflexivity|].
  eapply (get_redis_loop_bound (Some "redis://a") 2 (ClientState (Some "redis://a") (Some 1%nat) 1 0 [])
            _ "redis://a"); [|reflexivity].
  split; cbn; [split; eauto | lia].
Defined.
End CacheClientWitness.
