(* ===== verification/Critic.v ===== *)
(** * Critic agent ([src/orchestrator/agents/critic/agent.py])

    The verification pass over synthesized claims.  The LLM is a parameter: its
    reply, already seen through [json.loads], or the exception the call or the
    parsing raised. *)

From S2P Require Import Prelude PyFloat PyStr Effects AgentIO Citation Synthesis Registry Replan.

Definition severity_of (j : json) : result pyexn Severity :=
  match j with
  | JStr "low" => Ok low
  | JStr "medium" => Ok medium
  | JStr "high" => Ok high
  | _ => Raise ValueError
  end.

(** A [list[str] | None] field with default [None]. *)
Definition domains_of (j : option json) : result pyexn (option (list string)) :=
  match j with
  | None | Some JNull => Ok None
  | Some (JList l) => Some <$> result_mapM str_field l
  | Some _ => Raise ValueError
  end.

Definition required (k : string) (fields : list (string * json)) : result pyexn json :=
  match assoc k fields with Some j => Ok j | None => Raise ValueError end.

(** [CriticFlag] built with the reply's item as keyword arguments. *)
Definition make_flag (f : json) : result pyexn CriticFlag :=
  match f with
  | JObj fields =>
      t ← required "claim_text" fields; t ← str_field t;
      r ← required "flagged_reason" fields; r ← str_field r;
      s ← required "severity" fields; s ← severity_of s;
      ds ← domains_of (assoc "flagged_domains" fields);
      Ok {| claim_text := t; flagged_reason := r; severity := s; flagged_domains := ds |}
  | _ => Raise TypeError
  end.

(** Nothing to verify: no claims, or only the unable-to-gather fallback. *)
Definition nothing_to_verify (synthesis : SynthesisOutput) : bool :=
  match claims synthesis with
  | [] => true
  | [c] => contains "Unable to gather" (cl_text c)
  | _ => false
  end.

Definition parse_flags (llm : result pyexn json) : result pyexn (list CriticFlag) :=
  parsed ← llm;
  flags_raw ← jget parsed "flags" (JList []);
  items ← jiter flags_raw;
  result_mapM make_flag items.

(** [verify]: any exception is swallowed and gives no flags. *)
Definition verify (synthesis : SynthesisOutput) (llm : result pyexn json) : list CriticFlag :=
  if nothing_to_verify synthesis then []
  else match parse_flags llm with Ok flags => flags | Raise _ => [] end.

(** ** Lemmas *)

Definition dump_flag (f : CriticFlag) : json :=
  JObj [("claim_text", JStr (claim_text f)); ("flagged_reason", JStr (flagged_reason f));
        ("severity", JStr (severity_value (severity f)));
        ("flagged_domains", match flagged_domains f with
                            | Some ds => JList (map JStr ds) | None => JNull end)].

Lemma str_fields_ok ds : result_mapM str_field (map JStr ds) = Ok ds.
Proof. induction ds as [|d ds IH]; [done|]. cbn. by rewrite IH. Qed.

Lemma make_dump_flag f : make_flag (dump_flag f) = Ok f.
Proof.
  destruct f as [t r s [ds|]]; destruct s; cbn; rewrite ?str_fields_ok; reflexivity.
Qed.

Lemma make_dump_flags fs : result_mapM make_flag (map dump_flag fs) = Ok fs.
Proof. induction fs as [|f fs IH]; [done|]. cbn [map result_mapM]. rewrite make_dump_flag. cbn. by rewrite IH. Qed.

Lemma mapM_one_bad {A B} (f : A -> result pyexn B) (l1 l2 : list A) (a : A) :
  is_ok (f a) = false -> is_ok (result_mapM f (l1 ++ a :: l2)) = false.
Proof.
  intros Ha. induction l1 as [|b l1 IH]; cbn.
  - by destruct (f a).
  - destruct (f b); [|done]. cbn. by destruct (result_mapM f (l1 ++ a :: l2)).
Qed.

(** ** Properties *)

(** The critic fails open and all-or-nothing: a well-formed reply is
    taken over flag by flag, in order; an unavailable or malformed one, or a
    single malformed item among valid flags, yields no flags at all. *)
Theorem verify_all_or_nothing (synthesis : SynthesisOutput) (flags : list CriticFlag)
    (l1 l2 : list json) (bad : json) (e : pyexn) :
  nothing_to_verify synthesis = false ->
  is_ok (make_flag bad) = false ->
  verify synthesis (Ok (JObj [("flags", JList (map dump_flag flags))])) = flags /\
  verify synthesis (Ok (JObj [("flags", JList (l1 ++ bad :: l2))])) = [] /\
  verify synthesis (Raise e) = [].
Proof.
  intros Hn Hb. unfold verify. rewrite Hn. split; [|split; [|done]].
  - unfold parse_flags. cbn. by rewrite make_dump_flags.
  - unfold parse_flags. cbn. pose proof (mapM_one_bad make_flag l1 l2 bad Hb).
    by destruct (result_mapM make_flag (l1 ++ bad :: l2)).
Qed.

Module CriticWitness.
Definition claim (t : string) : SynthesizedClaim :=
  {| cl_text := t; cl_claim_type := single_domain; cl_supporting_evidence := [];
     cl_uncertainty := default_uncertainty; cl_uncertainty_bounds := None; cl_assumptions := None |}.
Definition synthesis : SynthesisOutput := {| claims := [claim "PM2.5 rose"]; evidence_gaps := [] |}.
Definition flag : CriticFlag :=
  {| claim_text := "PM2.5 rose"; flagged_reason := "single station"; severity := high;
     flagged_domains := Some ["air_quality"] |}.

Lemma verify_all_or_nothing_witness :
  verify synthesis (Ok (JObj [("flags", JList [dump_flag flag])])) = [flag] /\
  verify synthesis (Ok (JObj [("flags", JList [dump_flag flag; JNull])])) = [].
Proof.
  destruct (verify_all_or_nothing synthesis [flag] [dump_flag flag] [] JNull TypeError eq_refl eq_refl)
    as (H1 & H2 & _).
  exact (conj H1 H2).
Defined.
End CriticWitness.
