(* ===== verification/Graph.v ===== *)
(** * Investigation graph ([src/orchestrator/graph/builder.py],
    [src/orchestrator/schemas/graph_state.py])

    The LangGraph state machine: the channels with their reducers, the node
    functions, the routing functions and the edges, executed one node at a time.
    What the agents, the LLM, the simulation and the database do is the
    environment [Env], any value of it: where a call is made once per replan
    cycle, the environment gives one answer per cycle.  Event publication may
    fail at any call; [_safe_publish_event] swallows the failure. *)

From stdpp Require Import pretty.
From Stdlib Require Import Ascii.
From S2P Require Import Prelude PyFloat FloatRound PyStr Effects Settings Uncertainty AgentIO.
From S2P Require Import Citation Synthesis Registry Classifier Replan Critic FanOut CacheClient.

(** ** State *)

Record TaskGraphState := State {
  investigation_id : uuid;
  query : string;
  complexity_tier : option ComplexityTier;
  matched_domains : list string;
  agent_outputs : list (option AgentOutput);   (* a coordinator may leave [None] in a slot *)
  synthesis_output : option SynthesisOutput;
  critic_flags : list CriticFlag;
  needs_simulation : bool;
  final_answer : option string;
  replan_count : Z;
}.

(** A node returns the channels it writes. *)
Inductive channel_write :=
| WTier (t : ComplexityTier)
| WDomains (ds : list string)
| WNeedsSimulation (b : bool)
| WOutputs (os : list (option AgentOutput))
| WSynthesis (s : SynthesisOutput)
| WFlags (fs : list CriticFlag)
| WAnswer (a : string)
| WReplanCount (n : Z).

(** The last value wins, except for [agent_outputs], whose reducer is
    [operator.add]. *)
Definition apply_write (s : TaskGraphState) (w : channel_write) : TaskGraphState :=
  let 'State i q t ds os so fs ns fa rc := s in
  match w with
  | WTier t => State i q (Some t) ds os so fs ns fa rc
  | WDomains ds => State i q t ds os so fs ns fa rc
  | WNeedsSimulation ns => State i q t ds os so fs ns fa rc
  | WOutputs os' => State i q t ds (os ++ os') so fs ns fa rc
  | WSynthesis so => State i q t ds os (Some so) fs ns fa rc
  | WFlags fs => State i q t ds os so fs ns fa rc
  | WAnswer a => State i q t ds os so fs ns (Some a) rc
  | WReplanCount rc => State i q t ds os so fs ns fa rc
  end.

Definition apply_writes (s : TaskGraphState) (ws : list channel_write) : TaskGraphState :=
  fold_left apply_write ws s.

(** ** Environment *)

Inductive db_mode := Uninitialised | RowFound | NoSuchRow | CommitFails (e : pyexn).

Record Env (R : Type) := {
  e_core : CoreSettings;
  e_replan : ReplanSettings;
  e_registry : AgentRegistry R;
  e_timeout_text : string;
  (** The interleaving of the agent tasks the event loop chooses in a cycle. *)
  e_schedule : nat -> list move;
  e_first_run : nat -> R -> AgentInput -> loop -> run_outcome;
  e_peer_hook : R -> option (CollaborationMessage -> AgentInput -> result pyexn (option AgentInput));
  e_second_run : nat -> R -> AgentInput -> CollaborationBus -> run_outcome * list CollaborationMessage;
  e_simulation : AgentInput -> list (option AgentOutput) -> result pyexn AgentOutput;
  e_air_quality : AgentInput -> result pyexn AgentOutput;
  e_synthesis_llm : nat -> result pyexn json;
  e_critic_llm : nat -> result pyexn json;
  e_parse_uuid : string -> option uuid;
  e_json_str : json -> string;
  e_pyd_float : json -> option float;
  e_fmt2 : float -> string;                 (* [f"{x:.2f}"] *)
  e_bounds_str : float * float -> string;   (* [str] of a pair of floats *)
  e_now : string;                           (* current time, ISO-8601 with [Z] *)
  e_db : db_mode;
}.
Arguments e_core {R}. Arguments e_replan {R}. Arguments e_registry {R}. Arguments e_timeout_text {R}.
Arguments e_first_run {R}. Arguments e_peer_hook {R}. Arguments e_second_run {R}.
Arguments e_schedule {R}. Arguments e_simulation {R}. Arguments e_air_quality {R}.
Arguments e_synthesis_llm {R}. Arguments e_critic_llm {R}. Arguments e_parse_uuid {R}.
Arguments e_json_str {R}. Arguments e_pyd_float {R}. Arguments e_fmt2 {R}. Arguments e_bounds_str {R}.
Arguments e_now {R}. Arguments e_db {R}.

Inductive node :=
| supervisor | air_quality | fan_out | simulation | synthesis | critic | replan | finalize.

#[global] Instance node_eq_dec : EqDecision node.
Proof. solve_decision. Defined.

Definition node_name (n : node) : string :=
  match n with
  | supervisor => "supervisor" | air_quality => "air_quality" | fan_out => "fan_out"
  | simulation => "simulation" | synthesis => "synthesis" | critic => "critic"
  | replan => "replan" | finalize => "finalize"
  end.

(** The persisted fields of the investigation row. *)
Record InvestigationRow := {
  r_status : string;
  r_complexity_tier : string;
  r_answer : string;
  r_confidence : float;
  r_nodes_executed : list string;
  r_evidence_count : Z;
  r_replan_count : Z;
  r_critic_flags : list (string * string * string);
}.

(** Side effects: events delivered to the channel, the outcomes of the coming
    publications, the stored row, and the nodes entered so far. *)
Record world := World {
  published : list InvestigationEvent;
  publish_ok : list bool;
  row : option InvestigationRow;
  visited : list node;
}.

(** ** Nodes *)

Definition newline : string := String "010" EmptyString.

Definition _safe_publish_event (event : InvestigationEvent) : M world unit := fun w =>
  let ok := default true (head (publish_ok w)) in
  (Ok tt, World (if ok then published w ++ [event] else published w) (tl (publish_ok w)) (row w) (visited w)).

Fixpoint publish_all (events : list InvestigationEvent) : M world unit :=
  match events with
  | [] => mret tt
  | e :: es => _safe_publish_event e ≫= fun _ => publish_all es
  end.

(** [out.evidence] on every output; [None] has no attribute. *)
Definition unwrap_outputs (os : list (option AgentOutput)) : result pyexn (list AgentOutput) :=
  result_mapM (fun o => match o with Some o => Ok o | None => Raise (OtherError "AttributeError") end) os.

Section nodes.
Context {R : Type}.
Variable env : Env R.

(** The pure classifier; the node guards against its failing. *)
Definition classify (q : string) : result pyexn Classification := Ok (classify_query_complexity q).

Definition supervisor_node (s : TaskGraphState) : M world (list channel_write) :=
  _safe_publish_event (PlanningEvent "planning") ≫= fun _ =>
  mret (match classify (query s) with
        | Ok r => [WTier (c_tier r); WDomains (c_matched_domains r); WNeedsSimulation (c_needs_simulation r)]
        | Raise _ => [WTier MODERATE; WDomains []; WNeedsSimulation false]
        end).

Definition route_by_complexity (s : TaskGraphState) : node := fan_out.

Definition node_input (s : TaskGraphState) : AgentInput :=
  {| in_investigation_id := investigation_id s; in_query := query s; in_region_hint := None |}.

Definition air_quality_node (s : TaskGraphState) : M world (list channel_write) :=
  _safe_publish_event (AgentStartedEvent "air_quality" (e_now env)) ≫= fun _ =>
  lift (e_air_quality env (node_input s)) ≫= fun output =>
  _safe_publish_event (AgentCompletedEvent "air_quality" (Z.of_nat (length (evidence output)))) ≫= fun _ =>
  mret [WOutputs [Some output]].

Definition agent_event_published (e : agent_event) : InvestigationEvent :=
  match e with
  | Started agent => AgentStartedEvent agent (e_now env)
  | Completed agent evidence_count => AgentCompletedEvent agent evidence_count
  end.

(** [FanOutCoordinator.run] in replan cycle [cycle]: the events of its tasks are
    published in the order of the interleaving. *)
Definition coordinator_run (cycle : nat) (domains : list string) (s : TaskGraphState)
    : M world (list (option AgentOutput)) :=
  let '(outputs, events) :=
    FanOut.run (e_timeout_text env) (e_registry env) (e_first_run env cycle) (e_peer_hook env)
      (e_second_run env cycle) (enable_agent_collaboration (e_core env)) (e_schedule env cycle) domains (node_input s) in
  publish_all (map agent_event_published events) ≫= fun _ => lift outputs.

Definition fan_out_node (s : TaskGraphState) : M world (list channel_write) :=
  coordinator_run 0 (matched_domains s) s ≫= fun outputs => mret [WOutputs outputs].

Definition claim_lines (c : SynthesizedClaim) : list string :=
  ("- **Claim:** " +:+ cl_text c +:+ " (Confidence: " +:+ e_fmt2 env (cl_confidence c) +:+ ")") ::
  match cl_uncertainty_bounds c with
  | Some b => ["  - *Uncertainty Bounds:* " +:+ e_bounds_str env b]
  | None => []
  end ++
  match cl_assumptions c with
  | Some ((_ :: _) as a) => ["  - *Assumptions:* " +:+ PyStr.join ", " a]
  | _ => []
  end ++
  imap (fun i ev => "  - Citation [" +:+ pretty (N.of_nat (S i)) +:+ "]: " +:+ ev_claim ev
                    +:+ " (Source: " +:+ ev_source ev +:+ ")") (cl_supporting_evidence c).

Definition render_synthesis_output (o : SynthesisOutput) : string :=
  PyStr.join newline
    (("### Synthesized Answer" +:+ newline) ::
     flat_map claim_lines (claims o) ++
     match evidence_gaps o with
     | [] => []
     | gaps => (newline +:+ "### Identified Gaps") ::
               map (fun gap => "- No evidence gathered for domain: " +:+ gap) gaps
     end).

Definition simulation_node (s : TaskGraphState) : M world (list channel_write) :=
  _safe_publish_event (AgentStartedEvent "simulation" (e_now env)) ≫= fun _ =>
  lift (e_simulation env (node_input s) (agent_outputs s)) ≫= fun output =>
  _safe_publish_event (AgentCompletedEvent "simulation" (Z.of_nat (length (evidence output)))) ≫= fun _ =>
  mret [WOutputs [Some output]].

Definition route_after_domain_agents (s : TaskGraphState) : node :=
  if needs_simulation s then simulation else synthesis.

Definition cycle_of (s : TaskGraphState) : nat := Z.to_nat (replan_count s).

Definition synthesis_node (s : TaskGraphState) : M world (list channel_write) :=
  _safe_publish_event (SynthesizingEvent []) ≫= fun _ =>
  lift (os ← unwrap_outputs (agent_outputs s);
        synthesize (e_parse_uuid env) (e_json_str env) (e_pyd_float env) (e_core env) os
          (e_synthesis_llm env (cycle_of s))) ≫= fun o =>
  mret [WSynthesis o].

(** Confidence of the first claim with the flagged text, else [0.0]. *)
Definition flag_confidence (cs : list SynthesizedClaim) (f : CriticFlag) : float :=
  match List.find (fun c => String.eqb (cl_text c) (claim_text f)) cs with
  | Some c => cl_confidence c
  | None => f0
  end.

Definition critic_node (s : TaskGraphState) : M world (list channel_write) :=
  match synthesis_output s with
  | None => mret [WFlags []; WAnswer "No synthesized output to verify."]
  | Some o =>
      let flags := verify o (e_critic_llm env (cycle_of s)) in
      publish_all (map (fun f => CriticFlagEvent (claim_text f) (flag_confidence (claims o) f)
                                   (flagged_reason f)) flags) ≫= fun _ =>
      mret [WFlags flags; WAnswer (render_synthesis_output o)]
  end.

Definition route_after_critic (s : TaskGraphState) : node :=
  if should_replan (e_replan env) (critic_flags s) (replan_count s) 2 None then replan else finalize.

Definition trigger_reason (flags : list CriticFlag) : string :=
  match List.filter is_high flags, flags with
  | f :: _, _ => flagged_reason f
  | [], f :: _ => flagged_reason f
  | [], [] => "Critic verification flag"
  end.

Definition replan_node (s : TaskGraphState) : M world (list channel_write) :=
  let count := replan_count s + 1 in
  let targets := build_replan_targets (list_domains (e_registry env)) (critic_flags s)
                   (matched_domains s) in
  _safe_publish_event (ReplanningEvent count targets (trigger_reason (critic_flags s))) ≫= fun _ =>
  coordinator_run (Z.to_nat count) targets s ≫= fun outputs =>
  mret [WReplanCount count; WOutputs outputs].

Definition conflict_note : string := newline +:+ newline +:+ "Unresolved conflicting evidence.".

Definition final_text (s : TaskGraphState) : string :=
  let base :=
    match final_answer s with
    | Some (String _ _ as a) => a
    | _ => match synthesis_output s with
           | Some o => render_synthesis_output o
           | None => "No synthesis output."
           end
    end in
  if (2 <=? replan_count s) && existsb is_high (critic_flags s) then base +:+ conflict_note else base.

Definition avg_confidence (s : TaskGraphState) : float :=
  match synthesis_output s with
  | Some o => match claims o with
              | [] => f0
              | cs => fdiv (fsum (map cl_confidence cs)) (float_of_Z (Z.of_nat (length cs)))
              end
  | None => f0
  end.

Definition tier_val (s : TaskGraphState) : string :=
  match complexity_tier s with Some t => tier_value t | None => tier_value TRIVIAL end.

Definition nodes_executed (s : TaskGraphState) : list string :=
  ["supervisor"; "fan_out"] ++ (if needs_simulation s then ["simulation"] else []) ++
  ["synthesis"; "critic"] ++ (if 0 <? replan_count s then ["replan"] else []) ++ ["finalize"].

Definition finalize_row (s : TaskGraphState) (os : list AgentOutput) : InvestigationRow :=
  {| r_status := "complete"; r_complexity_tier := tier_val s; r_answer := final_text s;
     r_confidence := avg_confidence s; r_nodes_executed := nodes_executed s;
     r_evidence_count := Z.of_nat (list_sum (map (fun o => length (evidence o)) os));
     r_replan_count := replan_count s;
     r_critic_flags := map (fun f => (claim_text f, flagged_reason f, severity_value (severity f)))
                         (critic_flags s) |}.

Definition store_row (r : InvestigationRow) : M world unit := fun w =>
  match e_db env with
  | Uninitialised | NoSuchRow => (Ok tt, w)
  | RowFound => (Ok tt, World (published w) (publish_ok w) (Some r) (visited w))
  | CommitFails e => (Raise e, w)
  end.

Definition finalize_node (s : TaskGraphState) : M world (list channel_write) :=
  lift (unwrap_outputs (agent_outputs s)) ≫= fun os =>
  store_row (finalize_row s os) ≫= fun _ =>
  _safe_publish_event (DoneEvent (investigation_id s) "complete") ≫= fun _ =>
  mret [WAnswer (final_text s)].

(** ** The graph *)

Definition node_fun (n : node) : TaskGraphState -> M world (list channel_write) :=
  match n with
  | supervisor => supervisor_node
  | air_quality => air_quality_node
  | fan_out => fan_out_node
  | simulation => simulation_node
  | synthesis => synthesis_node
  | critic => critic_node
  | replan => replan_node
  | finalize => finalize_node
  end.

(** The edges of [build_graph]; [None] is [END]. *)
Definition next_node (n : node) (s : TaskGraphState) : option node :=
  match n with
  | supervisor => Some (route_by_complexity s)
  | air_quality => Some (route_after_domain_agents s)
  | fan_out => Some (route_after_domain_agents s)
  | simulation => Some synthesis
  | synthesis => Some critic
  | critic => Some (route_after_critic s)
  | replan => Some synthesis
  | finalize => None
  end.

Definition enter (n : node) : M world unit := fun w =>
  (Ok tt, World (published w) (publish_ok w) (row w) (visited w ++ [n])).

(** One super-step: run the node, apply its writes. *)
Definition run_node (n : node) (s : TaskGraphState) : M world TaskGraphState :=
  enter n ≫= fun _ => node_fun n s ≫= fun ws => mret (apply_writes s ws).

(** Execution from a node, limited to [limit] super-steps. *)
Fixpoint execute (limit : nat) (n : node) (s : TaskGraphState) : M world TaskGraphState :=
  match limit with
  | O => raise (OtherError "GraphRecursionError")
  | S limit =>
      run_node n s ≫= fun s' =>
      match next_node n s' with
      | Some n' => execute limit n' s'
      | None => mret s'
      end
  end.

(** LangGraph's default [recursion_limit]. *)
Definition recursion_limit : nat := 25.

(** [graph.ainvoke(state)] on a fresh thread. *)
Definition ainvoke (s : TaskGraphState) : M world TaskGraphState := execute recursion_limit supervisor s.

(** The state machine as a relation between a node about to run (or [END]). *)
Definition config : Type := option node * TaskGraphState * world.

Inductive gstep : config -> config -> Prop :=
| gstep_node n s w s' w' :
    run_node n s w = (Ok s', w') ->
    gstep (Some n, s, w) (next_node n s', s', w').
End nodes.

(** The input of [investigation_job] on a fresh thread. *)
Definition initial_state (i : uuid) (q : string) : TaskGraphState :=
  State i q None [] [] None [] false None 0.

Definition initial_world (publishes : list bool) : world := World [] publishes None [].

(** ** Lemmas *)

(** Programs that relate the worlds before and after by a preorder, whether they
    return or raise. *)
Section keeps.
Variable P : world -> world -> Prop.
Context `{!PreOrder P}.

Definition keeps {A} (m : M world A) : Prop := forall w, P w (m w).2.

Lemma keeps_ret {A} (a : A) : keeps (mret a).
Proof. intros w. reflexivity. Qed.
Lemma keeps_lift {A} (r : result pyexn A) : keeps (lift r).
Proof. intros w. reflexivity. Qed.
Lemma keeps_bind {A B} (m : M world A) (k : A -> M world B) :
  keeps m -> (forall a, keeps (k a)) -> keeps (m ≫= k).
Proof.
  intros Hm Hk w. rewrite M_bind_run. specialize (Hm w). destruct (m w) as [[a|e] w1]; [|done].
  etrans; [exact Hm | apply Hk].
Qed.
Lemma keeps_publish_all es :
  Forall (fun e => keeps (_safe_publish_event e)) es -> keeps (publish_all es).
Proof.
  induction 1 as [|e es He _ IH]; [apply keeps_ret|]. cbn. by apply keeps_bind.
Qed.
End keeps.

Ltac keeps_step :=
  first [ apply keeps_lift; tc_solve | apply keeps_ret; tc_solve
        | apply keeps_bind; [tc_solve | |intros ?] ].

(** Nodes do not touch the visit log. *)
Definition same_visits (w w' : world) : Prop := visited w' = visited w.
#[global] Instance same_visits_preorder : PreOrder same_visits.
Proof. split; [done | intros ??? H1 H2; unfold same_visits in *; congruence]. Qed.

(** With Redis up, only events of kind [K] are published. *)
Definition emits (K : InvestigationEvent -> Prop) (w w' : world) : Prop :=
  publish_ok w = [] ->
  publish_ok w' = [] /\ exists es, published w' = published w ++ es /\ Forall K es.
#[global] Instance emits_preorder K : PreOrder (emits K).
Proof.
  split.
  - intros w H. split; [done|]. exists []. split; [by rewrite app_nil_r | constructor].
  - intros w1 w2 w3 H12 H23 H. destruct (H12 H) as [H2 (es & E & HK)].
    destruct (H23 H2) as [H3 (es' & E' & HK')]. split; [done|]. exists (es ++ es').
    rewrite E', E, app_assoc. split; [done | by apply Forall_app].
Qed.

Lemma publish_visits e : keeps same_visits (_safe_publish_event e).
Proof. intros w. reflexivity. Qed.

Lemma publish_emits (K : InvestigationEvent -> Prop) e : K e -> keeps (emits K) (_safe_publish_event e).
Proof. intros He w Hw. unfold _safe_publish_event. rewrite Hw. cbn. split; [done|]. by exists [e]; auto. Qed.

Lemma publish_all_visits es : keeps same_visits (publish_all es).
Proof. apply keeps_publish_all; [tc_solve|]. apply Forall_true. intros e. apply publish_visits. Qed.

Lemma publish_all_emits (K : InvestigationEvent -> Prop) es : Forall K es -> keeps (emits K) (publish_all es).
Proof.
  intros Hes. apply keeps_publish_all; [tc_solve|].
  eapply Forall_impl; [exact Hes|]. intros e He. by apply publish_emits.
Qed.

(** Neither a re-planning nor a completion event. *)
Definition plain (e : InvestigationEvent) : Prop :=
  match e with ReplanningEvent _ _ _ | DoneEvent _ _ => False | _ => True end.

Section lemmas.
Context {R : Type}.
Variable env : Env R.
Implicit Types (s : TaskGraphState) (w : world) (ws : list channel_write).

Lemma store_row_visits r : keeps same_visits (store_row env r).
Proof. intros w. unfold store_row. by destruct (e_db env). Qed.

Lemma coordinator_visits k ds s : keeps same_visits (coordinator_run env k ds s).
Proof.
  unfold coordinator_run. destruct (FanOut.run _ _ _ _ _ _ _ _ _) as [outputs evs].
  keeps_step; [apply publish_all_visits | keeps_step].
Qed.

Lemma node_visits n s : keeps same_visits (node_fun env n s).
Proof.
  destruct n; cbn [node_fun]; unfold supervisor_node, air_quality_node, fan_out_node,
    simulation_node, synthesis_node, critic_node, replan_node, finalize_node;
    try destruct (synthesis_output s);
    repeat first [ apply coordinator_visits | keeps_step | apply publish_visits | apply publish_all_visits | apply store_row_visits ].
Qed.

(** The channels each node writes. *)
Definition node_shape (n : node) (s : TaskGraphState) (ws : list channel_write) : Prop :=
  match n with
  | supervisor =>
      let r := classify_query_complexity (query s) in
      ws = [WTier (c_tier r); WDomains (c_matched_domains r); WNeedsSimulation (c_needs_simulation r)]
  | air_quality | fan_out | simulation => exists os, ws = [WOutputs os]
  | synthesis => exists o, ws = [WSynthesis o]
  | critic =>
      match synthesis_output s with
      | None => ws = [WFlags []; WAnswer "No synthesized output to verify."]
      | Some o => ws = [WFlags (verify o (e_critic_llm env (cycle_of s)));
                        WAnswer (render_synthesis_output env o)]
      end
  | replan => exists os, ws = [WReplanCount (replan_count s + 1); WOutputs os]
  | finalize => ws = [WAnswer (final_text env s)]
  end.

Lemma node_writes n s w ws w' : node_fun env n s w = (Ok ws, w') -> node_shape n s ws.
Proof.
  destruct n; cbn [node_fun node_shape]; unfold supervisor_node, air_quality_node, fan_out_node,
    simulation_node, synthesis_node, critic_node, replan_node, finalize_node;
    try destruct (synthesis_output s);
    repeat (setoid_rewrite M_bind_ok); unfold mret, M_ret; naive_solver.
Qed.

Lemma run_node_ok n s w s' w' :
  run_node env n s w = (Ok s', w') ->
  exists ws, node_shape n s ws /\ s' = apply_writes s ws /\ visited w' = visited w ++ [n] /\
    (exists w1, visited w1 = visited w ++ [n] /\ published w1 = published w /\
       publish_ok w1 = publish_ok w /\ row w1 = row w /\ node_fun env n s w1 = (Ok ws, w')).
Proof.
  unfold run_node. rewrite M_bind_ok. intros ([] & w1 & [= <-] & H).
  apply M_bind_ok in H as (ws & w2 & Hn & [= <- <-]). exists ws.
  split; [by eapply node_writes|]. split; [done|].
  pose proof (node_visits n s (World (published w) (publish_ok w) (row w) (visited w ++ [n]))) as Hv.
  rewrite Hn in Hv. cbn in Hv. split; [exact Hv|].
  eexists. split_and!; [..|exact Hn]; done.
Qed.

(** *** Termination *)

Definition budget (s : TaskGraphState) : nat := Z.to_nat (2 - replan_count s).

(** Super-steps left from a node, at most. *)
Definition measure (n : node) (s : TaskGraphState) : nat :=
  let k := budget s in
  match n with
  | finalize => 1
  | replan => 4 + 3 * (k - 1)
  | critic => 2 + 3 * k
  | synthesis => 3 + 3 * k
  | simulation => 4 + 3 * k
  | fan_out | air_quality => 5 + 3 * k
  | supervisor => 6 + 3 * k
  end.

Lemma shape_replan_count n s ws : node_shape n s ws ->
  replan_count (apply_writes s ws) =
  match n with replan => replan_count s + 1 | _ => replan_count s end.
Proof.
  destruct s, n; cbn; try (intros [? ->]); try (intros ->); try reflexivity.
  destruct synthesis_output0; by intros ->.
Qed.

Lemma shape_needs_simulation n s ws : node_shape n s ws -> n <> supervisor ->
  needs_simulation (apply_writes s ws) = needs_simulation s.
Proof.
  destruct s, n; cbn; try (intros [? ->]); try (intros ->); try done.
  destruct synthesis_output0; by intros ->.
Qed.

Lemma measure_decreases n s w s' w' n' :
  run_node env n s w = (Ok s', w') -> next_node env n s' = Some n' ->
  (measure n' s' < measure n s)%nat.
Proof.
  intros (ws & Hs & -> & _)%run_node_ok Hn. apply shape_replan_count in Hs as Hrc.
  unfold measure, budget. rewrite Hrc.
  destruct n; cbn in Hn; simplify_eq; unfold route_by_complexity, route_after_domain_agents; cbn; try lia.
  1-2: destruct (needs_simulation _); lia.
  unfold route_after_critic, should_replan. rewrite Hrc. cbn.
  destruct (negb _); [lia|]. destruct (Z.leb_spec 2 (replan_count s)); [lia|].
  destruct (existsb _ _); lia.
Qed.

Lemma execute_enough n s w limit :
  (measure n s <= limit)%nat -> execute env limit n s w = execute env (measure n s) n s w.
Proof.
  remember (measure n s) as m eqn:Em. assert (measure n s <= m)%nat as Hm by lia. clear Em.
  revert limit n s w Hm. induction m as [|m IH]; intros limit n s w Hm Hl.
  - exfalso. unfold measure in Hm. destruct n; lia.
  - destruct limit as [|limit]; [lia|]. cbn [execute]. rewrite !M_bind_run.
    destruct (run_node env n s w) as [[s'|e] w'] eqn:Er; [|done].
    destruct (next_node env n s') as [n'|] eqn:En; [|done].
    pose proof (measure_decreases _ _ _ _ _ _ Er En). apply IH; lia.
Qed.

Lemma execute_steps limit n s w s' w' :
  execute env limit n s w = (Ok s', w') -> rtc (gstep env) (Some n, s, w) (None, s', w').
Proof.
  revert n s w. induction limit as [|limit IH]; intros n s w; [done|]. cbn [execute]. rewrite M_bind_ok.
  intros (s1 & w1 & Hr & Hk). eapply rtc_l; [by apply gstep_node|].
  destruct (next_node env n s1) as [n'|]; [by apply IH | by injection Hk as <- <-].
Qed.

(** *** Invariants *)

Definition prefix (s : TaskGraphState) : list node :=
  [supervisor; fan_out] ++ (if needs_simulation s then [simulation] else []).
Definition cycles (s : TaskGraphState) : list node :=
  concat (replicate (Z.to_nat (replan_count s)) [synthesis; critic; replan]).

Definition path_inv (c : config) : Prop :=
  let '(pos, s, w) := c in
  0 <= replan_count s <= 2 /\
      match pos with
  | Some supervisor => visited w = [] /\ replan_count s = 0
  | Some air_quality => False
  | Some fan_out => visited w = [supervisor] /\ replan_count s = 0
  | Some simulation => visited w = [supervisor; fan_out] /\ needs_simulation s = true /\ replan_count s = 0
  | Some synthesis => visited w = prefix s ++ cycles s
  | Some critic => visited w = prefix s ++ cycles s ++ [synthesis]
  | Some replan => visited w = prefix s ++ cycles s ++ [synthesis; critic] /\ replan_count s < 2
  | Some finalize => visited w = prefix s ++ cycles s ++ [synthesis; critic]
  | None => visited w = prefix s ++ cycles s ++ [synthesis; critic; finalize]
  end.

Lemma cycles_succ s s' : 0 <= replan_count s -> replan_count s' = replan_count s + 1 ->
  cycles s' = cycles s ++ [synthesis; critic; replan].
Proof.
  intros H0 E. unfold cycles. rewrite E, Z2Nat.inj_add, Nat.add_1_r by lia.
  by rewrite replicate_S_end, concat_app.
Qed.

Lemma path_inv_step c c' : gstep env c c' -> path_inv c -> path_inv c'.
Proof.
  intros [n s w s' w' Hr] [Hb Hp].
  apply run_node_ok in Hr as (ws & Hs & -> & Hv & _).
  pose proof (shape_replan_count _ _ _ Hs) as Hrc.
  pose proof (shape_needs_simulation _ _ _ Hs) as Hns.
  assert (n <> supervisor -> prefix (apply_writes s ws) = prefix s) as Hpre
    by (intros Hn; unfold prefix; by rewrite (Hns Hn)).
  assert (n <> replan -> cycles (apply_writes s ws) = cycles s) as Hcyc
    by (intros Hn; unfold cycles; rewrite Hrc; by destruct n).
  destruct n; cbn [next_node]; unfold route_by_complexity, path_inv.
  - destruct Hp as [Hp Hz]. rewrite Hv, Hrc, Hp. split; [lia | split; [done | lia]].
  - done.
  - destruct Hp as [Hp Hz]. unfold route_after_domain_agents. rewrite Hrc.
    destruct (needs_simulation (apply_writes s ws)) eqn:E; rewrite Hv, Hp.
    + split; [lia|]. split; [done | split; [done | lia]].
    + split; [lia|]. unfold prefix, cycles. by rewrite E, Hrc, Hz.
  - destruct Hp as (Hp & Hn & Hz). rewrite Hv, Hp, Hrc, Hpre, Hcyc by done.
    split; [lia|]. unfold prefix, cycles. by rewrite Hn, Hz.
  - rewrite Hv, Hp, Hrc, Hpre, Hcyc by done. by rewrite <- !app_assoc.
  - assert (visited w' = prefix s ++ cycles s ++ [synthesis; critic]) as E
      by (rewrite Hv, Hp; by rewrite <- !app_assoc).
    unfold route_after_critic, should_replan. rewrite Hrc, E, Hpre, Hcyc by done.
    destruct (negb _); [done|]. destruct (Z.leb_spec 2 (replan_count s)); [done|].
    by destruct (existsb _ _).
  - destruct Hp as [Hp Hlt]. rewrite Hrc. split; [lia|].
    rewrite Hv, Hp, Hpre, (cycles_succ s (apply_writes s ws) (proj1 Hb) Hrc) by done.
    by rewrite <- !app_assoc.
  - rewrite Hv, Hp, Hrc, Hpre, Hcyc by done. by rewrite <- !app_assoc.
Qed.

(** The answer and the flags are those of the last synthesis. *)
Definition answer_inv (c : config) : Prop :=
  let '(pos, s, w) := c in
  match pos with
  | Some critic => is_Some (synthesis_output s)
  | Some replan | Some finalize =>
      exists o, synthesis_output s = Some o /\
      final_answer s = Some (render_synthesis_output env o) /\
        critic_flags s = verify o (e_critic_llm env (cycle_of s))
  | None =>
      exists o, synthesis_output s = Some o /\
      critic_flags s = verify o (e_critic_llm env (cycle_of s)) /\
        final_answer s = Some (if (2 <=? replan_count s) && existsb is_high (critic_flags s)
                               then render_synthesis_output env o +:+ conflict_note
                               else render_synthesis_output env o)
  | _ => True
  end.

Lemma final_text_render s o : final_answer s = Some (render_synthesis_output env o) ->
  final_text env s = if (2 <=? replan_count s) && existsb is_high (critic_flags s)
                     then render_synthesis_output env o +:+ conflict_note
                     else render_synthesis_output env o.
Proof.
  intros E. unfold final_text. rewrite E. unfold render_synthesis_output at 1 4.
  by destruct (flat_map _ _ ++ _).
Qed.

Lemma answer_inv_step c c' : gstep env c c' -> answer_inv c -> answer_inv c'.
Proof.
  intros [n s w s' w' Hr] Hp. apply run_node_ok in Hr as (ws & Hs & -> & _).
  destruct n; cbn [next_node]; unfold route_by_complexity, answer_inv in *; try done;
    cbn in Hs.
  - unfold route_after_domain_agents. by destruct (needs_simulation _).
  - unfold route_after_domain_agents. by destruct (needs_simulation _).
  - destruct Hs as [o ->]. destruct s. cbn. eauto.
  - destruct Hp as [o Ho]. rewrite Ho in Hs. subst ws.
    unfold route_after_critic. destruct (should_replan _ _ _ _ _); destruct s; cbn in *; subst; eauto.
  - destruct Hp as (o & Ho & Ha & Hf). subst ws. pose proof (final_text_render s o Ha) as Et.
    exists o. destruct s; cbn in *. by rewrite <- Et.
Qed.

(** *** Events *)

Lemma coordinator_emits k ds s : keeps (emits plain) (coordinator_run env k ds s).
Proof.
  unfold coordinator_run. destruct (FanOut.run _ _ _ _ _ _ _ _ _) as [outputs evs].
  keeps_step; [apply publish_all_emits, Forall_map, Forall_true; by intros [] | keeps_step].
Qed.

Lemma node_emits n s : n <> replan -> n <> finalize ->
  keeps (emits plain) (node_fun env n s).
Proof.
  intros Hn1 Hn2. destruct n; try done; cbn [node_fun];
    unfold supervisor_node, air_quality_node, fan_out_node, simulation_node, synthesis_node, critic_node;
    try destruct (synthesis_output s);
    repeat first [ apply coordinator_emits | keeps_step | apply publish_emits; exact I
                 | apply publish_all_emits, Forall_map, Forall_true; intros ?; exact I ].
Qed.

Definition not_done (e : InvestigationEvent) : Prop :=
  match e with DoneEvent _ _ => False | _ => True end.
Definition replans (es : list InvestigationEvent) : nat := length (List.filter is_replanning es).

Definition event_inv (i : uuid) (c : config) : Prop :=
  let '(pos, s, w) := c in
  publish_ok w = [] /\ investigation_id s = i /\ 0 <= replan_count s /\
  replans (published w) = Z.to_nat (replan_count s) /\
  match pos with
  | Some _ => Forall not_done (published w)
  | None => exists es, published w = es ++ [DoneEvent i "complete"] /\ Forall not_done es
  end.

Lemma plain_facts es : Forall plain es -> Forall not_done es /\ replans es = 0%nat.
Proof.
  intros H. split; [eapply Forall_impl; [exact H|]; by intros []|].
  unfold replans. induction H as [|e es He _ IH]; [done|]. by destruct e.
Qed.

Lemma replans_app es es' : replans (es ++ es') = (replans es + replans es')%nat.
Proof. unfold replans. by rewrite List.filter_app, length_app. Qed.

Lemma shape_investigation_id n s ws : node_shape n s ws ->
  investigation_id (apply_writes s ws) = investigation_id s.
Proof.
  destruct s, n; cbn; try (intros [? ->]); try (intros ->); try done.
  destruct synthesis_output0; by intros ->.
Qed.

(** What a node adds to the channel when Redis is up. *)
Lemma node_events n s w ws w' : publish_ok w = [] ->
  node_fun env n s w = (Ok ws, w') ->
  publish_ok w' = [] /\ exists es, published w' = published w ++ es /\
    match n with
    | finalize => es = [DoneEvent (investigation_id s) "complete"]
    | replan => Forall not_done es /\ replans es = 1%nat
    | _ => Forall not_done es /\ replans es = 0%nat
    end.
Proof.
  intros Hw Hn. destruct (decide (n = replan)) as [->|Hn1]; [|destruct (decide (n = finalize)) as [->|Hn2]].
  - cbn [node_fun] in Hn. unfold replan_node in Hn.
    apply M_bind_ok in Hn as ([] & w1 & H1 & Hn). apply M_bind_ok in Hn as (os & w2 & H2 & [= <- <-]).
    unfold _safe_publish_event in H1. rewrite Hw in H1. injection H1 as <-.
    match type of H2 with coordinator_run _ ?k ?ds ?st ?w1 = _ =>
      pose proof (coordinator_emits k ds st w1) as Hc end.
    rewrite H2 in Hc. destruct (Hc eq_refl) as [Hok (es & Hp & Hes)]. cbn in Hp.
    split; [done|]. eexists (_ :: es). split; [rewrite Hp, <- app_assoc; reflexivity|].
    destruct (plain_facts es Hes) as [Hd Hr]. split; [by constructor|]. cbn. unfold replans in *. cbn. lia.
  - cbn [node_fun] in Hn. unfold finalize_node in Hn.
    apply M_bind_ok in Hn as (os & w1 & [= _ <-] & Hn). apply M_bind_ok in Hn as ([] & w2 & H2 & Hn).
    apply M_bind_ok in Hn as ([] & w3 & H3 & [= _ <-]).
    assert (published w2 = published w /\ publish_ok w2 = []) as [Hp Hok].
    { unfold store_row in H2. by destruct (e_db env); simplify_eq. }
    unfold _safe_publish_event in H3. rewrite Hok in H3. injection H3 as <-. cbn. rewrite Hp. eauto.
  - pose proof (node_emits n s Hn1 Hn2 w Hw) as He. rewrite Hn in He.
    destruct He as [Hok (es & Hp & Hes)]. split; [done|]. exists es. split; [done|].
    apply plain_facts in Hes. by destruct n.
Qed.

Lemma event_inv_step i c c' : gstep env c c' -> event_inv i c -> event_inv i c'.
Proof.
  intros [n s w s' w' Hr] (Hok & Hi & H0 & Hrc & Hnd). cbn in Hnd.
  apply run_node_ok in Hr as (ws & Hs & -> & _ & w1 & _ & Hp1 & Hok1 & _ & Hn).
  pose proof (shape_replan_count _ _ _ Hs) as Ec. pose proof (shape_investigation_id _ _ _ Hs) as Ei.
  destruct (node_events n s w1 ws w') as [Hok' (es & Hp & Hes)]; [congruence | done |].
  unfold event_inv. rewrite Hp, Hp1, replans_app, Hrc, Ei, Ec, Hi. split; [done|]. split; [done|].
  destruct (decide (n = finalize)) as [->|Hnf].
  - cbn [next_node]. rewrite Hes, Hi. unfold replans. cbn. split; [done|]. split; [lia|]. eauto.
  - assert (Forall not_done es /\ Z.of_nat (replans es) = (match n with replan => 1 | _ => 0 end)) as [Hd Hr]
      by (destruct n; try done; destruct Hes as [? ->]; done).
    assert (is_Some (next_node env n (apply_writes s ws))) as [n' ->] by (destruct n; try done; eexists; done).
    split; [destruct n; lia|]. split; [destruct n; lia|]. by apply Forall_app.
Qed.

(** The stored row is the one of the final state. *)
Definition row_inv (c : config) : Prop :=
  let '(pos, s, w) := c in
  match pos with
  | Some _ => True
  | None => e_db env = RowFound -> exists r os,
      row w = Some r /\ unwrap_outputs (agent_outputs s) = Ok os /\
      r_status r = "complete" /\ final_answer s = Some (r_answer r) /\
      r_nodes_executed r = nodes_executed s /\ r_replan_count r = replan_count s /\
      r_evidence_count r = Z.of_nat (length (flat_map evidence os))
  end.

Lemma evidence_total (os : list AgentOutput) :
  list_sum (map (fun o => length (evidence o)) os) = length (flat_map evidence os).
Proof. induction os as [|o os IH]; [done|]. cbn. by rewrite length_app, <- IH. Qed.

Lemma row_inv_step c c' : gstep env c c' -> row_inv c'.
Proof.
  intros [n s w s' w' Hr]. apply run_node_ok in Hr as (ws & Hs & -> & _ & w1 & _ & _ & _ & _ & Hn).
  destruct n; try done. cbn [next_node row_inv]. intros Hdb. cbn in Hs. subst ws.
  cbn [node_fun] in Hn. unfold finalize_node in Hn.
  apply M_bind_ok in Hn as (os & w2 & Hl & Hn). injection Hl as Hos <-.
  apply M_bind_ok in Hn as ([] & w3 & H2 & Hn).
  apply M_bind_ok in Hn as ([] & w4 & H3 & Hn). unfold store_row in H2. rewrite Hdb in H2.
  injection H2 as <-. injection H3 as <-. injection Hn as <-.
  exists (finalize_row env s os), os. destruct s. cbn in *. rewrite evidence_total. done.
Qed.

(** *** Reachability *)

Lemma reach_inv (I : config -> Prop) c c' :
  (forall c c', gstep env c c' -> I c -> I c') -> rtc (gstep env) c c' -> I c -> I c'.
Proof. intros Hstep. induction 1; eauto. Qed.

Lemma reach_path i q pub c : rtc (gstep env) (Some supervisor, initial_state i q, initial_world pub) c ->
  path_inv c /\ answer_inv c.
Proof.
  intros Hr. split.
  - eapply reach_inv; [apply path_inv_step | exact Hr | by cbn].
  - eapply reach_inv; [apply answer_inv_step | exact Hr | done].
Qed.

Lemma reach_events i q s w :
  rtc (gstep env) (Some supervisor, initial_state i q, initial_world []) (None, s, w) ->
  event_inv i (None, s, w).
Proof.
  intros Hr. eapply (reach_inv (event_inv i)); [intros c c'; by apply event_inv_step | exact Hr |].
  cbn. split_and!; try done.
Qed.

(** *** Runs without the LLM *)

Lemma unwrap_some os : unwrap_outputs (map Some os) = Ok os.
Proof. unfold unwrap_outputs. induction os as [|o os IH]; [done|]. cbn. by rewrite IH. Qed.

(** From every world, the program returns a value with property [P]. *)
Definition returns {A} (m : M world A) (P : A -> Prop) : Prop :=
  forall w, exists a w', m w = (Ok a, w') /\ P a.

Lemma returns_bind {A B} (m : M world A) (k : A -> M world B) P Q :
  returns m P -> (forall a, P a -> returns (k a) Q) -> returns (m ≫= k) Q.
Proof.
  intros Hm Hk w. destruct (Hm w) as (a & w1 & E & Ha). destruct (Hk a Ha w1) as (b & w2 & E' & Hb).
  exists b, w2. by rewrite M_bind_run, E.
Qed.
Lemma returns_ret {A} (a : A) (P : A -> Prop) : P a -> returns (mret a) P.
Proof. intros Ha w. by exists a, w. Qed.
Lemma returns_lift {A} (a : A) (P : A -> Prop) : P a -> returns (lift (Ok a)) P.
Proof. intros Ha w. by exists a, w. Qed.
Lemma returns_publish e : returns (_safe_publish_event e) (fun _ => True).
Proof. intros w. eexists _, _. by split. Qed.
Lemma returns_publish_all es : returns (publish_all es) (fun _ => True).
Proof.
  induction es as [|e es IH]; [by apply returns_ret|]. cbn.
  eapply returns_bind; [apply returns_publish | done].
Qed.
Lemma returns_node n s P :
  returns (node_fun env n s) (fun ws => P (apply_writes s ws)) -> returns (run_node env n s) P.
Proof.
  intros H. unfold run_node. apply returns_bind with (P := fun _ => True); [intros w; by eexists _, _|].
  intros [] _. eapply returns_bind; [exact H|]. intros ws Hw. by apply returns_ret.
Qed.

(** Outputs the synthesis can fall back on. *)
Definition usable (o : AgentOutput) : Prop :=
  Forall (fun e => fvalid (ev_confidence e) = true /\ valid_estimate (ev_uncertainty e) = true) (evidence o).

(** The agent ends in such an output, in a timeout or in an exception. *)
Definition ends_usable (r : run_outcome) : Prop :=
  match r with Returned o => usable o | TimedOut | Failed _ => True | ReturnedNone | Cancelled => False end.

Lemma ends_usable_report txt d r : ends_usable r ->
  well_behaved r /\ forall o, report txt d r = Some o -> usable o.
Proof. destruct r; intros H; try done; (split; [done|]); intros o' [= <-]; [done|constructor|constructor]. Qed.

Lemma coordinator_usable k ds s :
  (forall d r l, d ∈ ds -> get d (e_registry env) = Ok r -> ends_usable (e_first_run env k r (node_input s) l)) ->
  (forall r refined bus, ends_usable (e_second_run env k r refined bus).1) ->
  exists os, Forall usable os /\ returns (coordinator_run env k ds s) (fun outs => outs = map Some os).
Proof.
  intros H1 H2. unfold coordinator_run.
  match goal with |- context [FanOut.run ?tt ?reg ?f1 ?h ?f2 ?c ?sch _ ?i] =>
    destruct (run_all tt reg f1 h f2 c sch ds i usable) as (os & E & _ & Hos) end.
  - intros d l Hd. unfold domain_outcome. destruct (get d (e_registry env)) as [r|] eqn:Er.
    + apply ends_usable_report. eauto.
    + apply ends_usable_report. constructor.
  - intros. by apply ends_usable_report.
  - exists os. split; [done|]. destruct (FanOut.run _ _ _ _ _ _ _ _ _) as [outs evs]. cbn in E. subst outs.
    eapply returns_bind; [apply returns_publish_all|]. intros _ _. by apply returns_lift.
Qed.

Lemma synthesize_without_llm os e : Forall usable os ->
  exists o, synthesize (e_parse_uuid env) (e_json_str env) (e_pyd_float env) (e_core env) os (Raise e) = Ok o.
Proof.
  intros Hos. unfold synthesize, all_evidence.
  assert (Forall (fun e => fvalid (ev_confidence e) = true /\ valid_estimate (ev_uncertainty e) = true)
            (flat_map evidence os)) as Hev.
  { induction Hos as [|o os Ho _ IH]; [constructor|]. cbn. by apply Forall_app. }
  destruct (flat_map evidence os) eqn:E.
  - destruct (unable_claim_total "Unable to gather sufficient evidence to answer the query.") as (c & -> & _).
    cbn. eauto.
  - destruct (fallback_claims_total _ Hev) as [cs ->]. cbn. eauto.
Qed.

(** *** The environment of an LLM outage *)
Section outage.
Hypothesis llm_down : forall k, exists e1 e2,
  e_synthesis_llm env k = Raise e1 /\ e_critic_llm env k = Raise e2.
Hypothesis db_ok : forall e, e_db env <> CommitFails e.

(** Outputs are all present and usable, no replan has happened. *)
Definition gathered (s : TaskGraphState) : Prop :=
  replan_count s = 0 /\ exists os, agent_outputs s = map Some os /\ Forall usable os.

Lemma synthesis_returns s : gathered s ->
  returns (run_node env synthesis s) (fun s' => gathered s' /\ is_Some (synthesis_output s')).
Proof.
  intros (H0 & os & Ho & Hu). apply returns_node. cbn [node_fun]. unfold synthesis_node.
  eapply returns_bind; [apply returns_publish|]. intros _ _.
  destruct (llm_down (cycle_of s)) as (e1 & e2 & -> & _).
  destruct (synthesize_without_llm os e1 Hu) as [o E]. rewrite Ho, unwrap_some.
  change (result_bind (Ok os) ?k) with (k os). cbn [mbind result_mbind result_bind]. rewrite E.
  eapply returns_bind; [apply returns_lift; exact eq_refl|]. intros ? <-. apply returns_ret.
  destruct s. unfold gathered. cbn in *. eauto.
Qed.

Lemma critic_returns s : gathered s -> is_Some (synthesis_output s) ->
  returns (run_node env critic s) (fun s' => gathered s' /\ critic_flags s' = []).
Proof.
  intros Hg [o Ho]. apply returns_node. cbn [node_fun]. unfold critic_node. rewrite Ho.
  destruct (llm_down (cycle_of s)) as (e1 & e2 & _ & ->).
  assert (verify o (Raise e2) = []) as -> by (unfold verify; by destruct (nothing_to_verify o)).
  apply returns_ret. destruct s. unfold gathered in *. by cbn in *.
Qed.

Lemma finalize_returns s : gathered s ->
  returns (run_node env finalize s) (fun s' => replan_count s' = 0).
Proof.
  intros (H0 & os & Ho & _). apply returns_node. cbn [node_fun]. unfold finalize_node.
  rewrite Ho, unwrap_some. eapply returns_bind; [apply returns_lift; exact eq_refl|]. intros ? _.
  eapply returns_bind with (P := fun _ => True).
  { intros w. unfold store_row. destruct (e_db env) eqn:E; [by eexists _, _..|]. by destruct (db_ok e). }
  intros _ _. eapply returns_bind; [apply returns_publish|]. intros _ _. apply returns_ret.
  by destruct s.
Qed.

(** From synthesis on, the graph completes. *)
Lemma tail_returns limit s : gathered s ->
  returns (execute env (3 + limit) synthesis s) (fun s' => replan_count s' = 0).
Proof.
  intros Hg. cbn [execute Nat.add]. eapply returns_bind; [by apply synthesis_returns|].
  intros s1 [Hg1 Ho]. cbn [next_node]. eapply returns_bind; [by apply critic_returns|].
  intros s2 [Hg2 Hf]. cbn [next_node]. unfold route_after_critic, should_replan.
  rewrite Hf, (proj1 Hg2). cbn [existsb].
  destruct (negb _); cbn; (eapply returns_bind; [by apply finalize_returns|]); intros s3 H3;
    by apply returns_ret.
Qed.
End outage.
End lemmas.

(** ** Properties *)

(** C1. The graph always stops within 12 super-steps, however the agents, the
    LLM and Redis behave: LangGraph's recursion limit of 25 is never what ends a
    run, and any larger limit gives the same outcome. *)
Theorem graph_terminates {R} (env : Env R) (s : TaskGraphState) (w : world) (limit : nat) :
  0 <= replan_count s -> (12 <= limit)%nat ->
  execute env limit supervisor s w = execute env 12 supervisor s w /\
  ainvoke env s w = execute env 12 supervisor s w.
Proof.
  intros H0 Hl. assert (measure supervisor s <= 12)%nat as Hm by (unfold measure, budget; lia).
  unfold ainvoke, recursion_limit.
  pose proof (execute_enough env supervisor s w limit ltac:(lia)).
  pose proof (execute_enough env supervisor s w 12 ltac:(lia)).
  pose proof (execute_enough env supervisor s w 25 ltac:(lia)).
  split; congruence.
Qed.

(** C6. A completed investigation visits the supervisor and the fan-out once,
    the simulation exactly when the classifier asked for it, then zero, one or
    two critic-triggered replan cycles, as many as [replan_count] says, and ends
    with synthesis, critic and finalize; the trace stored in the database names
    exactly the distinct nodes that ran. *)
Theorem graph_path {R} (env : Env R) (i : uuid) (q : string) (pub : list bool)
    (s : TaskGraphState) (w : world) :
  ainvoke env (initial_state i q) (initial_world pub) = (Ok s, w) ->
  (0 <= replan_count s <= 2) /\
  visited w = prefix s ++ cycles s ++ [synthesis; critic; finalize] /\
  (e_db env = RowFound -> exists r, row w = Some r /\ r_status r = "complete" /\
     final_answer s = Some (r_answer r) /\
     NoDup (r_nodes_executed r) /\
     forall n, node_name n ∈ r_nodes_executed r <-> n ∈ visited w).
Proof.
  intros Hr. apply execute_steps in Hr.
  destruct (reach_path _ _ _ _ _ Hr) as [[Hb Hv] _]. split; [done|]. split; [done|]. intros Hdb.
  assert (row_inv env (None, s, w)) as Hrow.
  { apply rtc_inv_r in Hr as [Hr|(c & _ & Hr)]; [done|]. by eapply row_inv_step. }
  destruct (Hrow Hdb) as (r & os & E & _ & Hst & Ha & Hn & _). exists r.
  do 3 (split; [done|]). rewrite Hn, Hv. unfold nodes_executed, prefix, cycles.
  assert (replan_count s = 0 \/ replan_count s = 1 \/ replan_count s = 2) as [E0 | [E0 | E0]] by lia; rewrite E0;
    destruct (needs_simulation s); cbn; (split; [apply (bool_decide_unpack _); by vm_compute|]);
    intros []; split; intros Hin; apply (bool_decide_unpack _); apply (bool_decide_pack _) in Hin;
    vm_compute in Hin |- *; done.
Qed.

(** C7. The answer of a completed investigation renders the synthesis the
    critic last verified, its flags are the critic's, and the note on unresolved
    conflicts is appended exactly when two replan cycles were spent and a
    high-severity flag is left. *)
Theorem final_answer_is_last_synthesis {R} (env : Env R) (i : uuid) (q : string) (pub : list bool)
    (s : TaskGraphState) (w : world) :
  ainvoke env (initial_state i q) (initial_world pub) = (Ok s, w) ->
  exists o, synthesis_output s = Some o /\
    critic_flags s = verify o (e_critic_llm env (Z.to_nat (replan_count s))) /\
    final_answer s = Some (if (2 <=? replan_count s) && existsb is_high (critic_flags s)
                           then render_synthesis_output env o +:+ conflict_note
                           else render_synthesis_output env o).
Proof. intros Hr. apply execute_steps in Hr. by apply reach_path in Hr as [_ Ha]. Qed.

(** C9. With Redis up, a completed investigation publishes one re-planning
    event per replan cycle and its completion event last and once. *)
Theorem graph_events {R} (env : Env R) (i : uuid) (q : string) (s : TaskGraphState) (w : world) :
  ainvoke env (initial_state i q) (initial_world []) = (Ok s, w) ->
  replans (published w) = Z.to_nat (replan_count s) /\
  exists es, published w = es ++ [DoneEvent i "complete"] /\ Forall not_done es.
Proof.
  intros Hr. apply execute_steps in Hr.
  destruct (reach_events env i q s w Hr) as (_ & _ & _ & Hn & He). done.
Qed.

(** A client following a completed investigation over the event channel
    sees its completion event exactly when no replan cycle ran: after a
    re-planning event the subscription dies in [parse_event]. *)
Theorem stream_completes_iff_no_replan `{Pydantic} {R} (env : Env R) (i : uuid) (q : string)
    (s : TaskGraphState) (w : world) :
  is_uuid i ->
  ainvoke env (initial_state i q) (initial_world []) = (Ok s, w) ->
  (DoneEvent i "complete" ∈ (subscribe (map (fun e => Message (model_dump_json e)) (published w))).1 <->
   replan_count s = 0).
Proof.
  intros Hi Hr. apply execute_steps in Hr.
  destruct (reach_events env i q s w Hr) as (_ & _ & H0 & Hn & es & Hp & Hd).
  rewrite subscribe_published.
  2: { rewrite Hp. apply Forall_app. split; [|by repeat constructor].
       eapply Forall_impl; [exact Hd|]. by intros []. }
  cbn [fst]. rewrite Hp in Hn |- *. rewrite replans_app in Hn. unfold replans in Hn at 2. cbn in Hn.
  destruct (existsb is_replanning es) eqn:E.
  - split; [|intros Hz; exfalso].
    + intros Hin. exfalso. clear Hn Hp. induction es as [|e es IH]; [done|]. cbn in *.
      inversion Hd as [|?? He Hes]; subst. destruct (is_replanning e); [by inversion Hin|].
      apply elem_of_cons in Hin as [<-|Hin]; [done | by apply IH].
    + rewrite Hz in Hn. apply existsb_exists in E as (e & He & Hre).
      assert (e ∈ List.filter is_replanning es) as Hf
        by (apply list_elem_of_In, filter_In; done).
      unfold replans in Hn. destruct (List.filter is_replanning es); [by inversion Hf | cbn in Hn; lia].
  - rewrite before_replanning_id by (rewrite existsb_app, E; done).
    assert (replans es = 0%nat) as Hz.
    { unfold replans. clear Hn Hp Hd. induction es as [|e es IH]; [done|]. cbn in *.
      destruct (is_replanning e); [done | by apply IH]. }
    split; [lia|]. intros _. apply elem_of_app. right. by apply list_elem_of_singleton.
Qed.

(** C8. An investigation completes without any LLM: when every LLM call fails,
    the registered agents, in their first and in their refined runs, end in an
    output with valid estimates, a timeout or an exception, whatever the
    interleaving and the messages they exchange, the simulation returns and the
    database accepts the row, the graph returns a final state, without replan,
    whether or not Redis accepts the events. *)
Theorem investigation_survives_llm_outage {R} (env : Env R) (i : uuid) (q : string) (pub : list bool) :
  let input := node_input (initial_state i q) in
  (forall k, exists e1 e2, e_synthesis_llm env k = Raise e1 /\ e_critic_llm env k = Raise e2) ->
  (forall e, e_db env <> CommitFails e) ->
  (forall d r l, d ∈ c_matched_domains (classify_query_complexity q) -> get d (e_registry env) = Ok r ->
     ends_usable (e_first_run env 0 r input l)) ->
  (forall r refined bus, ends_usable (e_second_run env 0 r refined bus).1) ->
  (forall os, exists o, e_simulation env input os = Ok o /\ usable o) ->
  exists s w, ainvoke env (initial_state i q) (initial_world pub) = (Ok s, w) /\ replan_count s = 0.
Proof.
  intros input Hllm Hdb Hag Hag2 Hsim.
  apply (fun H : returns (ainvoke env (initial_state i q)) (fun s => replan_count s = 0) => H (initial_world pub)).
  set (cl := classify_query_complexity q) in *.
  set (s1 := State i q (Some (c_tier cl)) (c_matched_domains cl) [] None [] (c_needs_simulation cl) None 0).
  unfold ainvoke, recursion_limit. cbn [execute].
  eapply returns_bind with (P := fun s => s = s1).
  { apply returns_node. cbn [node_fun]. unfold supervisor_node. eapply returns_bind; [apply returns_publish|].
    intros _ _. by apply returns_ret. }
  intros ? ->. cbn [next_node]. unfold route_by_complexity.
  destruct (coordinator_usable env 0 (c_matched_domains cl) s1 Hag Hag2) as (os & Hos & Hrun).
  eapply returns_bind with (P := fun s => s = apply_write s1 (WOutputs (map Some os))).
  { apply returns_node. cbn [node_fun]. unfold fan_out_node.
    eapply returns_bind; [exact Hrun|]. intros ? ->. by apply returns_ret. }
  intros ? ->. cbn [next_node]. unfold route_after_domain_agents.
  change (needs_simulation _) with (c_needs_simulation cl).
  destruct (c_needs_simulation cl).
  - eapply returns_bind with (P := gathered).
    { apply returns_node. cbn [node_fun]. unfold simulation_node. eapply returns_bind; [apply returns_publish|].
      intros _ _. destruct (Hsim (map Some os)) as (o & Eo & Ho).
      change (node_input _) with input. change (agent_outputs _) with (map Some os). rewrite Eo.
      eapply returns_bind; [apply returns_lift; exact eq_refl|]. intros ? <-.
      eapply returns_bind; [apply returns_publish|]. intros _ _. apply returns_ret.
      split; [done|]. exists (os ++ [o]). cbn. rewrite map_app. split; [done|]. apply Forall_app. auto. }
    intros s Hg. by apply (tail_returns env Hllm Hdb 19).
  - apply (tail_returns env Hllm Hdb 20). split; [done|]. by exists os.
Qed.

(** A replan may target [simulation], which the agent registry does
    not hold: with the first-party agents registered, such a cycle runs no agent
    and only adds an output saying that no implementation was found. *)
Theorem replan_simulation_runs_nothing {R} (env : Env R) (agent_of : string -> R) (f : CriticFlag)
    (s : TaskGraphState) (w : world) :
  e_registry env = register_agents agent_of empty_registry ->
  critic_flags s = [f] -> flagged_domains f = Some ["simulation"] ->
  exists w', replan_node env s w =
    (Ok [WReplanCount (replan_count s + 1);
         WOutputs [Some (error_output "simulation" "Agent implementation not found for domain: simulation")]], w').
Proof.
  intros Hreg Hf Hd. unfold replan_node. rewrite Hf.
  assert (build_replan_targets (list_domains (e_registry env)) [f] (matched_domains s) = ["simulation"]) as ->.
  { unfold build_replan_targets. destruct f as [t r sv ds]. cbn in Hd. subst ds. rewrite Hreg. by destruct sv. }
  rewrite M_bind_run. cbn [_safe_publish_event]. unfold _safe_publish_event. rewrite M_bind_run.
  unfold coordinator_run. rewrite Hreg.
  match goal with |- context [FanOut.run ?tt ?reg ?f1 ?h ?f2 ?c ?sch _ ?i] =>
    pose proof (run_unregistered tt reg f1 h f2 c sch "simulation" _ i eq_refl) as E end.
  destruct (FanOut.run _ _ _ _ _ _ _ _ _) as [outs evs]. cbn in E. subst outs.
  rewrite M_bind_run. edestruct returns_publish_all as ([] & w1 & -> & _). cbn. eauto.
Qed.

Module GraphWitness.
Import CacheClientWitness.
Definition ocean_output : AgentOutput :=
  {| agent_name := "ocean";
     evidence := [{| ev_id := "e1"; ev_source := "NOAA"; ev_claim := "SST rose";
                     ev_uncertainty := default_uncertainty; ev_retrieved_at := 0;
                     ev_document_id := None; ev_chunk_id := None; ev_title := None; ev_source_url := None;
                     ev_extra_metadata := []; ev_uncertainty_bounds := None; ev_assumptions := None |}];
     errors := [] |}.
Definition high_flag : CriticFlag :=
  {| claim_text := "SST rose"; flagged_reason := "one buoy only"; severity := high;
     flagged_domains := Some ["ocean"] |}.
Definition flags_reply : json := JObj [("flags", JList [dump_flag high_flag])].

(** Agents that answer, no LLM for synthesis, a critic given by [critic_reply]. *)
Definition env (enabled : bool) (critic_reply : result pyexn json) : Env nat :=
  {| e_core := default_CoreSettings; e_replan := {| enable_replan_loop := enabled |};
     e_registry := register_agents String.length empty_registry; e_timeout_text := "30.0";
     e_schedule := fun _ => [Advance 1]; e_first_run := fun _ _ _ _ => Returned ocean_output; e_peer_hook := fun _ => None;
     e_second_run := fun _ _ _ _ => (Returned ocean_output, []);
     e_simulation := fun _ _ => Ok ocean_output; e_air_quality := fun _ => Ok ocean_output;
     e_synthesis_llm := fun _ => Raise RuntimeError; e_critic_llm := fun _ => critic_reply;
     e_parse_uuid := Some; e_json_str := fun _ => "j"; e_pyd_float := fun _ => None;
     e_fmt2 := fun _ => "0.50"; e_bounds_str := fun _ => "(0.4, 0.6)"; e_now := "t"; e_db := RowFound |}.

Definition q : string := "sea surface temperature of the ocean".
Notation final e := (ainvoke e (initial_state "u" q) (initial_world [])).

Lemma graph_terminates_witness :
  execute (env true (Ok flags_reply)) 40 supervisor (initial_state "u" q) (initial_world []) =
  execute (env true (Ok flags_reply)) 12 supervisor (initial_state "u" q) (initial_world []).
Proof.
  refine (proj1 (graph_terminates (env true (Ok flags_reply)) (initial_state "u" q) (initial_world []) 40 _ _));
    [cbn; lia | lia].
Defined.

Lemma graph_path_witness : exists s w,
  final (env true (Ok flags_reply)) = (Ok s, w) /\ replan_count s = 2 /\
  visited w = prefix s ++ cycles s ++ [synthesis; critic; finalize].
Proof.
  destruct (final (env true (Ok flags_reply))) as [[s|e] w] eqn:E; [|by vm_compute in E].
  exists s, w. split; [done|].
  destruct (graph_path (env true (Ok flags_reply)) "u" q [] s w E) as (_ & Hv & _).
  split; [|exact Hv]. vm_compute in E. by injection E as <- <-.
Defined.

Lemma final_answer_is_last_synthesis_witness : exists s w o,
  final (env true (Ok flags_reply)) = (Ok s, w) /\ synthesis_output s = Some o /\
  final_answer s = Some (render_synthesis_output (env true (Ok flags_reply)) o +:+ conflict_note).
Proof.
  destruct (final (env true (Ok flags_reply))) as [[s|e] w] eqn:E; [|by vm_compute in E].
  destruct (final_answer_is_last_synthesis (env true (Ok flags_reply)) "u" q [] s w E) as (o & Ho & _ & Ha).
  exists s, w, o. split; [done|]. split; [done|]. rewrite Ha.
  assert ((2 <=? replan_count s) && existsb is_high (critic_flags s) = true) as ->; [|done].
  vm_compute in E. by injection E as <- <-.
Defined.

Lemma graph_events_witness : exists s w,
  final (env true (Ok flags_reply)) = (Ok s, w) /\ replans (published w) = 2%nat.
Proof.
  destruct (final (env true (Ok flags_reply))) as [[s|e] w] eqn:E; [|by vm_compute in E].
  exists s, w. split; [done|].
  destruct (graph_events (env true (Ok flags_reply)) "u" q s w E) as [Hn _].
  rewrite Hn. clear Hn. vm_compute in E. by injection E as <- <-.
Defined.

Lemma u_uuid : is_uuid "u".
Proof. change ("u" <> EmptyString). discriminate. Qed.

Lemma stream_completes_iff_no_replan_witness : exists s w,
  final (env true (Ok flags_reply)) = (Ok s, w) /\
  ~ DoneEvent "u" "complete" ∈ (subscribe (map (fun e => Message (model_dump_json e)) (published w))).1.
Proof.
  destruct (final (env true (Ok flags_reply))) as [[s|e] w] eqn:E; [|by vm_compute in E].
  exists s, w. split; [done|].
  pose proof (stream_completes_iff_no_replan (env true (Ok flags_reply)) "u" q s w u_uuid E) as [Hc _].
  intros Hin. apply Hc in Hin. clear Hc. vm_compute in E. injection E as <- <-. discriminate Hin.
Defined.

Lemma ocean_usable : usable ocean_output.
Proof. constructor; [|constructor]. split; by vm_compute. Qed.

Lemma investigation_survives_llm_outage_witness :
  exists s w, final (env true (Raise RuntimeError)) = (Ok s, w) /\ replan_count s = 0.
Proof.
  apply (investigation_survives_llm_outage (env true (Raise RuntimeError)) "u" q []).
  - intros k. by exists RuntimeError, RuntimeError.
  - done.
  - intros d r l _ _. apply ocean_usable.
  - intros r refined bus. apply ocean_usable.
  - intros os. exists ocean_output. split; [done | apply ocean_usable].
Defined.

Lemma replan_simulation_runs_nothing_witness : exists w',
  replan_node (env true (Ok flags_reply))
    (State "u" q None [] [] None
       [{| claim_text := "c"; flagged_reason := "r"; severity := high;
           flagged_domains := Some ["simulation"] |}] false None 0) (initial_world []) =
  (Ok [WReplanCount 1;
       WOutputs [Some (error_output "simulation" "Agent implementation not found for domain: simulation")]], w').
Proof.
  eapply (replan_simulation_runs_nothing (env true (Ok flags_reply)) String.length); reflexivity.
Defined.
End GraphWitness.
