(* ===== verification/Gateway.v ===== *)
(** * Gateway ([src/gateway/middleware.py], [src/gateway/context.py],
    [src/gateway/auth_stub.py], [src/gateway/rate_limit_stub.py])

    Requests with their mutable state, the two provider protocols as records of
    operations with their laws, and [GatewayMiddleware.dispatch] over a store
    that pairs the request-id context variable with the services' state [S]. *)

From S2P Require Import Prelude PyFloat PyStr Effects AgentIO.

(** ** Requests *)

Record User := {
  u_id : uuid;
  u_role : string;
  u_is_active : bool;
  u_is_verified : bool;
  u_deleted_at : option Z;
}.

(** The attributes that the code sets on [request.state]; [None] for absent. *)
Record RequestState := {
  st_request_id : option string;
  st_user : option User;
  st_api_key_id : option string;
  st_api_key_error : option (string * string);
  st_auth_type : option string;
}.

Record Request := {
  method : string;
  path : string;
  headers : list (string * string);   (* names in lower case *)
  client_host : option string;
  req_state : RequestState;
}.

Definition empty_state : RequestState :=
  {| st_request_id := None; st_user := None; st_api_key_id := None; st_api_key_error := None;
     st_auth_type := None |}.

Definition set_state (req : Request) (st : RequestState) : Request :=
  {| method := method req; path := path req; headers := headers req;
     client_host := client_host req; req_state := st |}.

(** [request.headers.get(name)]: header names are case-insensitive. *)
Definition header (req : Request) (name : string) : option string := assoc (lower name) (headers req).

(** A value that is present and truthy. *)
Definition truthy_header (req : Request) (name : string) : option string :=
  match header req name with Some (String _ _ as h) => Some h | _ => None end.

Record Response := {
  status_code : Z;
  resp_headers : list (string * string);
}.

(** ** Providers *)

(** Everything but [request.state] is read-only. *)
Definition same_request (req req' : Request) : Prop :=
  method req' = method req /\ path req' = path req /\ headers req' = headers req /\
  client_host req' = client_host req.

Record AuthProvider (S : Type) := {
  authenticate : Request -> M S Request;
  authenticate_frame req s req' s' : authenticate req s = (Ok req', s') ->
    same_request req req' /\ st_request_id (req_state req') = st_request_id (req_state req);
}.
Arguments authenticate {S}. Arguments authenticate_frame {S}.

Record RateLimiter (S : Type) := { check : Request -> M S unit }.
Arguments check {S}.

Definition AuthStub {S} : AuthProvider S.
Proof.
  refine {| authenticate := fun req => mret req |}.
  by intros req s req' s' [= <- <-].
Defined.

Definition RateLimitStub {S} : RateLimiter S := {| check := fun _ => mret tt |}.

(** ** Middleware *)

Definition REQUEST_ID_HEADER : string := "X-Request-ID".

Section middleware.
Context {S : Type}.
Variable auth_chain : list (AuthProvider S).
Variable rate_limiter : RateLimiter S.

Definition settled (req : Request) : bool :=
  bool_decide (is_Some (st_user (req_state req))) ||
  bool_decide (is_Some (st_api_key_error (req_state req))).

(** The provider loop, leaving at the first provider that settles the request. *)
Fixpoint run_auth_chain (chain : list (AuthProvider S)) (req : Request) : M S Request :=
  match chain with
  | [] => mret req
  | p :: chain => authenticate p req ≫= fun req' =>
                  if settled req' then mret req' else run_auth_chain chain req'
  end.

(** The request-id context variable and the services' state. *)
Definition ctx_state : Type := option string * S.

Definition on_services {A} (m : M S A) : M ctx_state A := fun '(ctx, s) =>
  let '(r, s') := m s in (r, (ctx, s')).

(** [call_next] is the rest of the application; it sees the context variable. *)
Variable call_next : Request -> M ctx_state Response.

Definition guarded (req : Request) : M ctx_state Response :=
  on_services (run_auth_chain auth_chain req) ≫= fun req' =>
  on_services (check rate_limiter req') ≫= fun _ =>
  call_next req'.

Definition attach_id (request_id : string) (req : Request) : Request :=
  let st := req_state req in
  set_state req {| st_request_id := Some request_id; st_user := st_user st;
                   st_api_key_id := st_api_key_id st; st_api_key_error := st_api_key_error st;
                   st_auth_type := st_auth_type st |}.

Definition choose_id (fresh : string) (req : Request) : string :=
  default fresh (truthy_header req REQUEST_ID_HEADER).

(** [fresh] is [str(uuid.uuid4())]; the [finally] clause resets the context
    variable to the value it had before. *)
Definition dispatch (fresh : string) (req : Request) : M ctx_state Response := fun '(ctx, s) =>
  let request_id := choose_id fresh req in
  let '(r, (_, s')) := guarded (attach_id request_id req) (Some request_id, s) in
  (match r with
   | Ok resp => Ok {| status_code := status_code resp;
                      resp_headers := assoc_set REQUEST_ID_HEADER request_id (resp_headers resp) |}
   | Raise e => Raise e
   end, (ctx, s')).
End middleware.

(** ** Lemmas *)

Section lemmas.
Context {S : Type}.
Implicit Types (chain : list (AuthProvider S)) (req : Request) (s : S).

(** A request the chain returned was settled by a provider, or went through all. *)
Lemma chain_frame chain req s req' s' :
  run_auth_chain chain req s = (Ok req', s') ->
  same_request req req' /\ st_request_id (req_state req') = st_request_id (req_state req).
Proof.
  revert req s. induction chain as [|p chain IH]; intros req s; cbn; [by intros [= <- <-]|].
  rewrite M_bind_run. destruct (authenticate p req s) as [[r1|e] s1] eqn:E; [|done].
  apply authenticate_frame in E as [[E1 [E2 [E3 E4]]] Ei].
  destruct (settled r1); [by intros [= <- <-]|]. intros H%IH.
  unfold same_request in *. destruct H as [(H1 & H2 & H3 & H4) H5]. by split_and!; congruence.
Qed.

(** An invariant of every provider is one of the chain. *)
Lemma chain_inv (P : Request -> Prop) chain req s req' s' :
  (forall p r t r' t', p ∈ chain -> P r -> authenticate p r t = (Ok r', t') -> P r') ->
  P req -> run_auth_chain chain req s = (Ok req', s') -> P req'.
Proof.
  revert req s. induction chain as [|p chain IH]; intros req s Hp Hr; cbn; [by intros [= <- <-]|].
  rewrite M_bind_run. destruct (authenticate p req s) as [[r1|e] s1] eqn:E; [|done].
  assert (P r1) as Hr1 by (eapply (Hp p); [by left | exact Hr | exact E]).
  destruct (settled r1); [by intros [= <- <-]|]. apply IH; [|done].
  intros p' r t r' t' Hin. apply Hp. by right.
Qed.
End lemmas.

(** ** Properties *)

(** C28. The middleware leaves the request-id context variable as it found
    it on every outcome, also when a provider, the limiter or the handler raises;
    a response carries the id the handler saw, the upstream id when the header is
    non-empty; and the handler only ever sees a request that passed the auth
    chain and the rate limiter, unchanged but for [request.state]. *)
Theorem dispatch_correct {S} (chain : list (AuthProvider S)) (limiter : RateLimiter S)
    (call_next : Request -> M (ctx_state (S := S)) Response) (fresh : string) (req : Request)
    (ctx : option string) (s : S) :
  let id := choose_id fresh req in
  let '(r, (ctx', _)) := dispatch chain limiter call_next fresh req (ctx, s) in
  ctx' = ctx /\
  (forall resp, r = Ok resp -> exists req' s1 s2 h c' s',
     run_auth_chain chain (attach_id id req) s = (Ok req', s1) /\
     check limiter req' s1 = (Ok tt, s2) /\
     call_next req' (Some id, s2) = (Ok h, (c', s')) /\
     same_request req req' /\ st_request_id (req_state req') = Some id /\
     status_code resp = status_code h /\ assoc REQUEST_ID_HEADER (resp_headers resp) = Some id).
Proof.
  intros id. unfold dispatch. fold id. destruct (guarded _ _ _ _ _) as [r [c' s']] eqn:Eg.
  split; [done|]. intros resp Hr. destruct r as [h|e]; [|done]. injection Hr as <-.
  unfold guarded in Eg. rewrite M_bind_run in Eg. cbn in Eg.
  destruct (run_auth_chain chain (attach_id id req) s) as [[req'|e] s1] eqn:Ec; [|done].
  rewrite M_bind_run in Eg. cbn in Eg. destruct (check limiter req' s1) as [[[]|e] s2] eqn:El; [|done].
  apply chain_frame in Ec as Hf. destruct Hf as [Hf Hid].
  exists req', s1, s2, h, c', s'. do 3 (split; [done|]). split; [exact Hf|]. split; [exact Hid|].
  split; [done|]. cbn. apply assoc_set_eq.
Qed.

(** A request that the auth chain or the rate limiter rejects never
    reaches the handler: the handler's effects do not happen, and the exception is
    the one the provider raised. *)
Theorem rejected_before_handler {S} (chain : list (AuthProvider S)) (limiter : RateLimiter S)
    (call_next call_next' : Request -> M (ctx_state (S := S)) Response) (fresh : string) (req : Request)
    (ctx : option string) (s : S) (e : pyexn) (s' : S) :
  run_auth_chain chain (attach_id (choose_id fresh req) req) s = (Raise e, s') \/
  (exists req' s1, run_auth_chain chain (attach_id (choose_id fresh req) req) s = (Ok req', s1) /\
     check limiter req' s1 = (Raise e, s')) ->
  dispatch chain limiter call_next fresh req (ctx, s) = (Raise e, (ctx, s')) /\
  dispatch chain limiter call_next' fresh req (ctx, s) = (Raise e, (ctx, s')).
Proof.
  intros H. unfold dispatch, guarded. rewrite !M_bind_run. cbn.
  destruct H as [E|(req' & s1 & E & El)]; rewrite E; [done|].
  rewrite !M_bind_run. cbn. by rewrite El.
Qed.

Module GatewayWitness.
Definition req : Request :=
  {| method := "GET"; path := "/api/v1/investigations"; headers := [("x-request-id", "up-1")];
     client_host := Some "10.0.0.1"; req_state := empty_state |}.
Definition full : RateLimiter nat :=
  {| check := fun _ n => (Raise (HTTPException 429 (Some 1)), S n) |}.
Definition handler (_ : Request) : M (ctx_state (S := nat)) Response :=
  mret {| status_code := 200; resp_headers := [] |}.

Lemma rejected_before_handler_witness :
  dispatch [AuthStub] full handler "f" req (None, 0%nat) = (Raise (HTTPException 429 (Some 1)), (None, 1%nat)).
Proof.
  apply (rejected_before_handler [AuthStub] full handler handler "f" req None 0%nat).
  right. by eexists _, _.
Defined.
End GatewayWitness.
