(* ===== verification/Auth.v ===== *)
(** * Authentication and authorization ([src/auth/jwt_provider.py],
    [src/auth/api_key_provider.py], [src/auth/dependencies.py], [src/auth/roles.py],
    [src/auth/password_hashing.py])

    The two providers of the auth chain, the route dependencies that consume
    what they attach to [request.state], and the password policy.  The JWT
    library is the interface [Jwt] (what PyJWT documents of [encode] and
    [decode]); SHA-256 and UUID parsing are parameters.  The tables the providers
    read are a map from key hash to key and from id to user. *)

From Stdlib Require Import Ascii.
From S2P Require Import Prelude PyFloat PyStr Settings Effects AgentIO Gateway.

(** ** Roles *)

Inductive Role := USER | RESEARCHER | ADMIN.

Definition role_value (r : Role) : string :=
  match r with USER => "user" | RESEARCHER => "researcher" | ADMIN => "admin" end.

(** ** Database *)

Record ApiKey := {
  ak_key_id : string;
  ak_owner_id : uuid;
  ak_is_revoked : bool;
  ak_last_used_at : option Z;
}.

Record auth_db := AuthDb {
  db_ready : bool;                 (* [AsyncSessionLocal is not None] *)
  users : gmap string User;
  api_keys : gmap string ApiKey;   (* by [key_hash] *)
}.

(** ** API keys *)

Definition with_error (req : Request) (err : string * string) : Request :=
  let st := req_state req in
  set_state req {| st_request_id := st_request_id st; st_user := None; st_api_key_id := st_api_key_id st;
                   st_api_key_error := Some err; st_auth_type := st_auth_type st |}.

Definition with_user (req : Request) (u : option User) : Request :=
  let st := req_state req in
  set_state req {| st_request_id := st_request_id st; st_user := u; st_api_key_id := st_api_key_id st;
                   st_api_key_error := st_api_key_error st; st_auth_type := st_auth_type st |}.

Definition with_api_key (req : Request) (u : User) (key_id : string) : Request :=
  let st := req_state req in
  set_state req {| st_request_id := st_request_id st; st_user := Some u; st_api_key_id := Some key_id;
                   st_api_key_error := st_api_key_error st; st_auth_type := Some "api_key" |}.

Definition touch_key (k : ApiKey) (now : Z) : ApiKey :=
  {| ak_key_id := ak_key_id k; ak_owner_id := ak_owner_id k; ak_is_revoked := ak_is_revoked k;
     ak_last_used_at := Some now |}.

Section api_key.
Variable sha256 : string -> string.   (* hex digest of the UTF-8 encoding *)
Variable now : Z.

Definition hash_api_key (raw_key : string) : string := sha256 raw_key.

(** [ApiKeyAuthProvider.authenticate] *)
Definition api_key_authenticate (req : Request) : M auth_db Request := fun db =>
  match truthy_header req "X-API-Key" with
  | None => (Ok req, db)
  | Some raw =>
      if negb (db_ready db) then (Ok req, db)
      else match api_keys db !! hash_api_key raw with
           | None => (Ok (with_error req ("invalid_api_key", "Invalid API key.")), db)
           | Some k =>
               if ak_is_revoked k then
                 (Ok (with_error req ("api_key_revoked", "API key has been revoked.")), db)
               else
                 let inactive :=
                   (Ok (with_error req ("account_inactive", "User account is inactive or deleted.")), db) in
                 match users db !! ak_owner_id k with
                 | None => inactive
                 | Some u =>
                     if bool_decide (is_Some (u_deleted_at u)) || negb (u_is_active u) then inactive
                     else (Ok (with_api_key req u (ak_key_id k)),
                           AuthDb (db_ready db) (users db)
                             (<[hash_api_key raw := touch_key k now]> (api_keys db)))
                 end
           end
  end.
End api_key.

(** ** JWT *)

Record claims := Claims {
  sub : option string;
  c_role : string;
  iat : Z;          (* seconds *)
  exp : Z;
  iss : string;
  aud : string;
}.

Inductive jwt_error := ExpiredSignatureError | InvalidTokenError.

(** PyJWT with a symmetric algorithm: decoding an encoded payload with the same
    key and algorithm gives it back when it is not expired, not issued in the
    future, and issuer and audience are the expected ones; a decoded payload has
    passed those checks. *)
Class Jwt := {
  jwt_encode : claims -> string -> string -> string;
  jwt_decode : string -> string -> string -> string -> string -> Z -> result jwt_error claims;
  jwt_roundtrip p key alg now : iat p <= now < exp p ->
    jwt_decode (jwt_encode p key alg) key alg (iss p) (aud p) now = Ok p;
  jwt_checked tok key alg i a now p : jwt_decode tok key alg i a now = Ok p ->
    now < exp p /\ iss p = i /\ aud p = a;
  (** A compact JWS is non-empty and has no white space. *)
  jwt_compact p key alg : str_truthy (jwt_encode p key alg) = true /\
    remove_spaces (jwt_encode p key alg) = jwt_encode p key alg;
}.

Definition truthy (s : option string) : option string :=
  match s with Some (String _ _ as t) => Some t | _ => None end.

(** [a or b] on optional strings and integers. *)
Definition or_str (a : option string) (b : string) : string := default b (truthy a).
Definition or_int (a : option Z) (b : Z) : Z :=
  match a with Some n => if n =? 0 then b else n | None => b end.

(** [s.split()]: the maximal runs of non-white-space characters. *)
Fixpoint words_aux (s cur : string) : list string :=
  match s with
  | EmptyString => if str_truthy cur then [cur] else []
  | String c s =>
      if is_space c then (if str_truthy cur then cur :: words_aux s "" else words_aux s "")
      else words_aux s (cur +:+ String c "")
  end.
Definition py_split (s : string) : list string := words_aux s "".

Definition PUBLIC_PATH_PREFIXES : list string :=
  ["/api/v1/health"; "/api/v1/auth/register"; "/api/v1/auth/login"; "/api/v1/auth/verify-email";
   "/api/v1/auth/resend-verification"; "/docs"; "/openapi.json"; "/redoc"].

Definition under_prefix (path p : string) : bool :=
  String.eqb path p || startswith (p +:+ "/") path.

Definition is_public_endpoint (path : string) : bool :=
  if String.eqb path "/" || existsb (String.eqb path) ["/docs"; "/openapi.json"; "/redoc"] then true
  else existsb (under_prefix path) PUBLIC_PATH_PREFIXES.

Section jwt.
Context `{Jwt}.
Variable settings : AuthSettings.
Variable parse_uuid : string -> option uuid.   (* [uuid.UUID(s)] *)
Variable prometheus_metrics_token : option string.

(** [create_access_token]; [now] in microseconds, timestamps truncated to seconds. *)
Definition create_access_token (user_id role : string) (secret_key : option string)
    (expiry_minutes : option Z) (issuer audience algorithm : option string) (now : Z)
    : result pyexn string :=
  let key := match truthy secret_key with Some k => Some k | None => truthy (jwt_secret_key settings) end in
  match key with
  | None => Raise ValueError
  | Some key =>
      let alg := or_str algorithm (jwt_algorithm settings) in
      let exp_mins := or_int expiry_minutes (jwt_expiry_minutes settings) in
      let iss := or_str issuer (jwt_issuer settings) in
      let aud := or_str audience (jwt_audience settings) in
      let expires := now + exp_mins * 60000000 in
      Ok (jwt_encode (Claims (Some user_id) role (now / 1000000) (expires / 1000000) iss aud) key alg)
  end.

Inductive decode_error := NoKey | JwtError (e : jwt_error).

Definition decode_access_token (token : string) (secret_key : option string) (now : Z)
    : result decode_error claims :=
  let key := match truthy secret_key with Some k => Some k | None => truthy (jwt_secret_key settings) end in
  match key with
  | None => Raise NoKey
  | Some key =>
      match jwt_decode token key (jwt_algorithm settings) (jwt_issuer settings) (jwt_audience settings)
              (now / 1000000) with
      | Ok p => Ok p
      | Raise e => Raise (JwtError e)
      end
  end.

Definition unauthorized : pyexn := HTTPException 401 None.

(** The checks on the account a token names. *)
Definition load_user (db : auth_db) (subject : string) : result pyexn User :=
  match parse_uuid subject with
  | None => Raise unauthorized
  | Some user_uuid =>
      if negb (db_ready db) then Raise RuntimeError
      else match users db !! user_uuid with
           | None => Raise unauthorized
           | Some u =>
               if bool_decide (is_Some (u_deleted_at u)) then Raise unauthorized
               else if negb (u_is_active u) then Raise unauthorized
               else if negb (u_is_verified u) then Raise unauthorized
               else Ok u
           end
  end.

Definition authenticate_token (db : auth_db) (now : Z) (token : string) : result pyexn User :=
  match decode_access_token token None now with
  | Raise NoKey => Raise ValueError
  | Raise (JwtError _) => Raise unauthorized
  | Ok payload =>
      match truthy (sub payload) with
      | None => Raise unauthorized
      | Some subject => load_user db subject
      end
  end.

(** [JWTAuthProvider.authenticate] *)
Definition jwt_authenticate (now : Z) (req : Request) : M auth_db Request := fun db =>
  match truthy_header req "Authorization" with
  | None => (Ok (with_user req None), db)
  | Some auth_header =>
      match py_split auth_header with
      | [scheme; token] =>
          if negb (String.eqb (lower scheme) "bearer") then (Raise unauthorized, db)
          else if match truthy prometheus_metrics_token with
                  | Some t => String.eqb token t
                  | None => false
                  end
          then (Ok (with_user req None), db)
          else match authenticate_token db now token with
               | Ok u => (Ok (with_user req (Some u)), db)
               | Raise e => (Raise e, db)
               end
      | _ => (Raise unauthorized, db)
      end
  end.
End jwt.

(** ** Route dependencies *)

Definition get_current_user (req : Request) : result pyexn User :=
  match st_api_key_error (req_state req) with
  | Some _ => Raise (HTTPException 401 None)
  | None => match st_user (req_state req) with
            | None => Raise (HTTPException 401 None)
            | Some u => Ok u
            end
  end.

Definition get_current_active_user (req : Request) : result pyexn User :=
  u ← get_current_user req;
  if negb (u_is_active u) then Raise (HTTPException 401 None)
  else if negb (u_is_verified u) then Raise (HTTPException 401 None)
  else Ok u.

Definition has_role (u : User) (allowed : list Role) : bool :=
  String.eqb (u_role u) (role_value ADMIN) ||
  existsb (fun r => String.eqb (u_role u) (role_value r)) allowed.

Definition RequireRole (allowed : list Role) (req : Request) : result pyexn User :=
  u ← get_current_active_user req;
  if has_role u allowed then Ok u else Raise (HTTPException 403 None).

Definition check_owner_or_role (resource_user_id : option uuid) (u : User) (allowed : list Role)
    : result pyexn unit :=
  if has_role u allowed then Ok tt
  else match resource_user_id with
       | Some owner => if String.eqb owner (u_id u) then Ok tt else Raise (HTTPException 403 None)
       | None => Raise (HTTPException 403 None)
       end.

(** ** Password policy *)

Fixpoint any_char (f : ascii -> bool) (s : string) : bool :=
  match s with EmptyString => false | String c s => f c || any_char f s end.

Definition special_chars : string := "!@#$%^&*()_+-=[]{}|;:,.<>?".

Definition is_special (c : ascii) : bool := has_char c special_chars.

Definition PasswordPolicyResult : Type := bool * option string.

Definition validate_password_policy (password : string) : PasswordPolicyResult :=
  if (Z.of_nat (String.length password) <? 8) then
    (false, Some "Password must be at least 8 characters long.")
  else if negb (any_char is_upper password) then
    (false, Some "Password must contain at least one uppercase letter.")
  else if negb (any_char is_lower_az password) then
    (false, Some "Password must contain at least one lowercase letter.")
  else if negb (any_char is_digit password) then
    (false, Some "Password must contain at least one digit.")
  else if negb (any_char is_special password) then
    (false, Some "Password must contain at least one special character.")
  else (true, None).

(** ** The providers satisfy the gateway's protocol *)

Lemma api_key_frame sha now req db req' db' :
  api_key_authenticate sha now req db = (Ok req', db') ->
  same_request req req' /\ st_request_id (req_state req') = st_request_id (req_state req).
Proof. unfold api_key_authenticate, same_request. intros H. repeat case_match; simplify_eq; done. Qed.

Lemma jwt_frame `{Jwt} settings parse prom now req db req' db' :
  jwt_authenticate settings parse prom now req db = (Ok req', db') ->
  same_request req req' /\ st_request_id (req_state req') = st_request_id (req_state req).
Proof. unfold jwt_authenticate, same_request. intros E. repeat case_match; simplify_eq; done. Qed.

Definition ApiKeyAuthProvider (sha256 : string -> string) (now : Z) : AuthProvider auth_db :=
  {| authenticate := api_key_authenticate sha256 now; authenticate_frame := api_key_frame sha256 now |}.

Definition JWTAuthProvider `{Jwt} (settings : AuthSettings) (parse_uuid : string -> option uuid)
    (prom : option string) (now : Z) : AuthProvider auth_db :=
  {| authenticate := jwt_authenticate settings parse_uuid prom now;
     authenticate_frame := jwt_frame settings parse_uuid prom now |}.

(** ** Lemmas *)

(** A user that may act: on record, active, not deleted. *)
Definition on_record (db : auth_db) (u : User) : Prop :=
  (exists i, users db !! i = Some u) /\ u_is_active u = true /\ u_deleted_at u = None.

Lemma api_key_users sha now req db r db' :
  api_key_authenticate sha now req db = (r, db') -> users db' = users db /\ db_ready db' = db_ready db.
Proof. unfold api_key_authenticate. intros E. repeat case_match; simplify_eq; done. Qed.

Lemma deleted_false u : bool_decide (is_Some (u_deleted_at u)) = false -> u_deleted_at u = None.
Proof. destruct (u_deleted_at u); [|done]. intros E%bool_decide_eq_false. by destruct E. Qed.

Lemma api_key_user sha now req db req' db' u :
  st_user (req_state req) = None ->
  api_key_authenticate sha now req db = (Ok req', db') -> st_user (req_state req') = Some u ->
  on_record db u.
Proof.
  unfold api_key_authenticate. intros Hn E Hu.
  repeat case_match; simplify_eq; cbn in *; simplify_eq; try congruence.
  bool_to_prop. split; [by eexists|]. split; [done|]. apply deleted_false. by apply bool_decide_eq_false.
Qed.

Section jwt_lemmas.
Context `{Jwt}.
Variable settings : AuthSettings.
Variable parse_uuid : string -> option uuid.
Variable prom : option string.

Lemma authenticate_token_user db now tok u :
  authenticate_token settings parse_uuid db now tok = Ok u -> on_record db u /\ u_is_verified u = true.
Proof.
  unfold authenticate_token, load_user. intros E. repeat case_match; simplify_eq. bool_to_prop.
  split; [|done]. split; [by eexists|]. split; [done|]. apply deleted_false. by apply bool_decide_eq_false.
Qed.

Lemma jwt_user now req db req' db' u :
  jwt_authenticate settings parse_uuid prom now req db = (Ok req', db') ->
  st_user (req_state req') = Some u -> db' = db /\ on_record db u /\ u_is_verified u = true.
Proof.
  unfold jwt_authenticate. intros E Hu. repeat case_match; simplify_eq; cbn in *; simplify_eq.
  all: split; [done|]; by eapply authenticate_token_user.
Qed.
End jwt_lemmas.

Lemma active_user_ok req u : get_current_active_user req = Ok u <->
  st_api_key_error (req_state req) = None /\ st_user (req_state req) = Some u /\
  u_is_active u = true /\ u_is_verified u = true.
Proof.
  unfold get_current_active_user, get_current_user.
  destruct (st_api_key_error _), (st_user _) as [v|]; cbn; try (split; [done | by intros (? & ? & _)]).
  destruct (u_is_active v) eqn:Ea, (u_is_verified v) eqn:Ev; cbn;
    (split; [intros [= <-]; done | intros (_ & [= <-] & ? & ?); congruence]).
Qed.

Lemma words_aux_token s cur : remove_spaces s = s -> str_truthy (cur +:+ s) = true ->
  words_aux s cur = [cur +:+ s].
Proof.
  revert cur. induction s as [|c s IH]; intros cur Hs Hc; cbn.
  - rewrite append_nil_r in *. by rewrite Hc.
  - apply no_space_cons in Hs as [-> Hs]. rewrite IH; rewrite ?append_assoc; done.
Qed.

Lemma split_bearer tok : str_truthy tok = true -> remove_spaces tok = tok ->
  py_split ("Bearer " +:+ tok) = ["Bearer"; tok].
Proof.
  intros Ht Hs. unfold py_split. change (words_aux _ _) with ("Bearer" :: words_aux tok "").
  by rewrite words_aux_token.
Qed.

Lemma any_char_spec f s : any_char f s = true <-> exists c, c ∈ String.list_ascii_of_string s /\ f c = true.
Proof.
  induction s as [|c s IH]; cbn.
  - split; [done|]. intros (c & Hc & _). by inversion Hc.
  - rewrite orb_true_iff, IH. setoid_rewrite elem_of_cons. naive_solver.
Qed.

(** ** Properties *)

(** C21. Behind the configured chain (API key, then JWT), a route that depends
    on the current active user only runs for a user of the database that is
    active, verified and not deleted, whatever headers the request carries. *)
Theorem authenticated_user_is_valid `{Jwt} (sha256 : string -> string) (settings : AuthSettings)
    (parse_uuid : string -> option uuid) (prom : option string) (now : Z)
    (req req' : Request) (db db' : auth_db) (u : User) :
  st_user (req_state req) = None ->
  run_auth_chain [ApiKeyAuthProvider sha256 now; JWTAuthProvider settings parse_uuid prom now] req db
    = (Ok req', db') ->
  get_current_active_user req' = Ok u ->
  (exists i, users db !! i = Some u) /\ u_is_active u = true /\ u_is_verified u = true /\
  u_deleted_at u = None.
Proof.
  intros Hn Hc (Hne & Hu & Ha & Hv)%active_user_ok. cbn in Hc. rewrite M_bind_run in Hc.
  destruct (api_key_authenticate sha256 now req db) as [[r1|e] db1] eqn:E1; [|done].
  assert (on_record db u) as (Hi & _ & Hd); [|by auto].
  destruct (settled r1) eqn:Es.
  - injection Hc as -> <-. by eapply api_key_user.
  - rewrite M_bind_run in Hc.
    destruct (jwt_authenticate _ _ _ _ r1 db1) as [[r2|e] db2] eqn:E2; [|done].
    assert (r2 = req') as -> by (by destruct (settled r2); injection Hc as ->).
    destruct (jwt_user _ _ _ _ _ _ _ _ _ E2 Hu) as (_ & Hr & _).
    apply api_key_users in E1 as [Eu _]. unfold on_record in *. by rewrite <- Eu.
Qed.

(** A request that presents an API key which is unknown, revoked or
    owned by an inactive, deleted or missing account is refused with 401 by every
    authenticated route, also when it carries a valid bearer token: the chain
    never falls through to JWT, and the key is not marked as used. *)
Theorem bad_api_key_never_falls_through `{Jwt} (sha256 : string -> string) (settings : AuthSettings)
    (parse_uuid : string -> option uuid) (prom : option string) (now : Z)
    (req : Request) (db : auth_db) (raw : string) :
  truthy_header req "X-API-Key" = Some raw -> db_ready db = true ->
  match api_keys db !! sha256 raw with
  | None => True
  | Some k => ak_is_revoked k = true \/ forall u, users db !! ak_owner_id k = Some u -> ~ on_record db u
  end ->
  exists req', run_auth_chain [ApiKeyAuthProvider sha256 now; JWTAuthProvider settings parse_uuid prom now] req db
      = (Ok req', db) /\
    get_current_active_user req' = Raise (HTTPException 401 None).
Proof.
  intros Hh Hr Hbad.
  assert (exists err, api_key_authenticate sha256 now req db = (Ok (with_error req err), db)) as [err E].
  { unfold api_key_authenticate, hash_api_key. rewrite Hh, Hr. cbn [negb].
    destruct (api_keys db !! sha256 raw) as [k|]; [|by eexists].
    destruct (ak_is_revoked k) eqn:Ek; [by eexists|]. destruct Hbad as [Hk|Hbad]; [congruence|].
    destruct (users db !! ak_owner_id k) as [u|] eqn:Eu; [|by eexists].
    destruct (bool_decide _ || _) eqn:Eb; [by eexists|]. exfalso. apply (Hbad u eq_refl).
    bool_to_prop. split; [by eexists|]. split; [done|]. apply deleted_false. by apply bool_decide_eq_false. }
  exists (with_error req err). split; [|done].
  cbn [run_auth_chain]. rewrite M_bind_run. cbn [authenticate ApiKeyAuthProvider]. by rewrite E.
Qed.

Lemma token_authenticates `{Jwt} (settings : AuthSettings) (parse_uuid : string -> option uuid)
    (prom : option string) (issued now : Z) (req : Request) (db : auth_db) (u : User) (tok : string) :
  create_access_token settings (u_id u) (u_role u) None None None None None issued = Ok tok ->
  issued <= now -> now / 1000000 < (issued + jwt_expiry_minutes settings * 60000000) / 1000000 ->
  header req "Authorization" = Some ("Bearer " +:+ tok) ->
  truthy prom <> Some tok ->
  str_truthy (u_id u) = true -> parse_uuid (u_id u) = Some (u_id u) ->
  db_ready db = true -> users db !! u_id u = Some u -> on_record db u -> u_is_verified u = true ->
  jwt_authenticate settings parse_uuid prom now req db = (Ok (with_user req (Some u)), db).
Proof.
  intros Ht Hnow Hexp Hh Hp Hid Hparse Hdb Hu (_ & Ha & Hd) Hv.
  unfold create_access_token in Ht. cbn [truthy] in Ht.
  destruct (truthy (jwt_secret_key settings)) as [key|] eqn:Ek; [|done].
  set (p := Claims (Some (u_id u)) (u_role u) (issued / 1000000)
    ((issued + jwt_expiry_minutes settings * 60000000) / 1000000) (jwt_issuer settings)
    (jwt_audience settings)).
  assert (jwt_encode p key (jwt_algorithm settings) = tok) as Et by (by injection Ht). clear Ht.
  pose proof (jwt_compact p key (jwt_algorithm settings)) as [Hc1 Hc2]. rewrite Et in Hc1, Hc2.
  assert (truthy_header req "Authorization" = Some ("Bearer " +:+ tok)) as Hth
    by (unfold truthy_header; by rewrite Hh).
  unfold jwt_authenticate. rewrite Hth, (split_bearer _ Hc1 Hc2).
  change (negb _) with false. cbv iota.
  assert ((match truthy prom with Some t => String.eqb tok t | None => false end) = false) as ->.
  { destruct (truthy prom) as [t|]; [|done]. destruct (String.eqb_spec tok t); [by subst|done]. }
  assert (authenticate_token settings parse_uuid db now tok = Ok u) as ->; [|done].
  unfold authenticate_token, decode_access_token. cbn [truthy]. rewrite Ek, <- Et.
  change (jwt_issuer settings) with (iss p). change (jwt_audience settings) with (aud p).
  rewrite (jwt_roundtrip p) by (split; [by apply Z.div_le_mono | exact Hexp]).
  cbn [sub p]. unfold truthy. destruct (u_id u) as [|c r] eqn:Ei; [done|].
  unfold load_user. rewrite Hparse, Hdb, Hu, Hd, Ha, Hv. done.
Qed.

(** An issued access token logs its user in until it expires: the bearer
    header with a token from [create_access_token] attaches the account, if that
    account is on record, active and verified, at any time from issuing to the
    configured number of minutes later. *)
Theorem issued_token_authenticates `{Jwt} (settings : AuthSettings) (parse_uuid : string -> option uuid)
    (prom : option string) (issued now : Z) (req : Request) (db : auth_db) (u : User) (tok : string) :
  create_access_token settings (u_id u) (u_role u) None None None None None issued = Ok tok ->
  issued <= now -> now / 1000000 < (issued + jwt_expiry_minutes settings * 60000000) / 1000000 ->
  header req "Authorization" = Some ("Bearer " +:+ tok) ->
  truthy prom <> Some tok ->
  str_truthy (u_id u) = true -> parse_uuid (u_id u) = Some (u_id u) ->
  db_ready db = true -> users db !! u_id u = Some u -> on_record db u -> u_is_verified u = true ->
  jwt_authenticate settings parse_uuid prom now req db = (Ok (with_user req (Some u)), db).
Proof. apply token_authenticates. Qed.

(** A password is accepted exactly when it has at least eight characters
    and one of each class: upper case, lower case, digit, special; a refusal always
    names a reason. *)
Theorem password_policy_spec (p : string) :
  let has f := exists c, c ∈ String.list_ascii_of_string p /\ f c = true in
  ((validate_password_policy p).1 = true <->
     (8 <= String.length p)%nat /\ has is_upper /\ has is_lower_az /\ has is_digit /\
     has is_special) /\
  ((validate_password_policy p).1 = false <-> is_Some (validate_password_policy p).2).
Proof.
  intros has. unfold has. rewrite <- !any_char_spec. unfold validate_password_policy.
  destruct (Z.ltb_spec (Z.of_nat (String.length p)) 8); cbn -[any_char].
  { split; [split; [done|]; intros [? _]; lia | by split; eauto]. }
  destruct (any_char is_upper p), (any_char is_lower_az p), (any_char is_digit p),
    (any_char is_special p); cbn -[is_special];
    (split; split; try done; try (by intros (? & ? & ? & ? & ?)); try (by intros [? ?]); eauto).
  intros _. split; [lia | done].
Qed.

Module AuthWitness.
(** A JWT codec: the payload with its key and algorithm, written in bits. *)
Definition pack (p : claims) (key alg : string) : positive :=
  encode (sub p, c_role p, iat p, exp p, iss p, aud p, key, alg).
Definition unpack (n : positive) : option (claims * string * string) :=
  match decode n with
  | Some (s, r, i, e, iss0, aud0, key, alg) => Some (Claims s r i e iss0 aud0, key, alg)
  | None => None
  end.
Lemma unpack_pack p key alg : unpack (pack p key alg) = Some (p, key, alg).
Proof. unfold unpack, pack. rewrite decode_encode. by destruct p. Qed.

Definition bits_decode (tok key alg i a : string) (now : Z) : result jwt_error claims :=
  match tok with
  | String "T" rest =>
      match BitIso.parse_pos rest with
      | Some n =>
          match unpack n with
          | Some (p, key', alg') =>
              if String.eqb key key' && String.eqb alg alg' && String.eqb (iss p) i && String.eqb (aud p) a
                 && (iat p <=? now) then
                if now <? exp p then Ok p else Raise ExpiredSignatureError
              else Raise InvalidTokenError
          | None => Raise InvalidTokenError
          end
      | None => Raise InvalidTokenError
      end
  | _ => Raise InvalidTokenError
  end.

Lemma bits_no_space n : remove_spaces (BitIso.print_pos n) = BitIso.print_pos n.
Proof. induction n as [n IH|n IH|]; cbn; [by rewrite IH..|done]. Qed.

#[export] Instance bits_jwt : Jwt.
Proof.
  refine {| jwt_encode p key alg := String "T" (BitIso.print_pos (pack p key alg)); jwt_decode := bits_decode |}.
  - intros p key alg now [H1 H2]. unfold bits_decode. rewrite BitIso.parse_print_pos, unpack_pack.
    rewrite !String.eqb_refl, (proj2 (Z.leb_le _ _) H1), (proj2 (Z.ltb_lt _ _) H2). done.
  - intros tok key alg i a now p. unfold bits_decode. intros E. repeat case_match; simplify_eq.
    bool_to_prop. auto.
  - intros p key alg. split; [done|]. cbn. by rewrite bits_no_space.
Defined.

Definition alice : User :=
  {| u_id := "u1"; u_role := "admin"; u_is_active := true; u_is_verified := true; u_deleted_at := None |}.
Definition settings : AuthSettings :=
  {| jwt_secret_key := Some "k"; jwt_algorithm := "HS256"; jwt_expiry_minutes := 60; jwt_issuer := "gaiaos";
     jwt_audience := "gaiaos-api"; app_base_url := "b"; password_reset_expiry_minutes := 15;
     password_reset_rate_limit_requests := 3; password_reset_rate_limit_window_seconds := 900 |}.
Definition key1 : ApiKey :=
  {| ak_key_id := "kid"; ak_owner_id := "u1"; ak_is_revoked := false; ak_last_used_at := None |}.
Definition db : auth_db := AuthDb true {[ "u1" := alice ]} {[ "secret" := key1 ]}.
Definition req (h : list (string * string)) : Request :=
  {| method := "GET"; path := "/api/v1/investigations"; headers := h; client_host := None;
     req_state := empty_state |}.
Definition token : string :=
  match create_access_token settings "u1" "admin" None None None None None 0 with Ok t => t | Raise _ => "x" end.

Lemma authenticated_user_is_valid_witness : exists req' db',
  run_auth_chain [ApiKeyAuthProvider id 7; JWTAuthProvider settings Some None 7]
    (req [("x-api-key", "secret")]) db = (Ok req', db') /\
  get_current_active_user req' = Ok alice /\ u_is_verified alice = true.
Proof.
  eexists _, _. split; [reflexivity|]. split; [reflexivity|].
  eapply (authenticated_user_is_valid id settings Some None 7 (req [("x-api-key", "secret")]) _ db _ alice);
    reflexivity.
Defined.

Lemma bad_api_key_never_falls_through_witness : exists req',
  run_auth_chain [ApiKeyAuthProvider id 7; JWTAuthProvider settings Some None 7]
    (req [("x-api-key", "guess"); ("authorization", "Bearer " +:+ token)]) db = (Ok req', db) /\
  get_current_active_user req' = Raise (HTTPException 401 None).
Proof.
  apply (bad_api_key_never_falls_through id settings Some None 7 _ db "guess"); [reflexivity..|].
  change (api_keys db !! id "guess") with (@None ApiKey). exact I.
Defined.

Lemma issued_token_authenticates_witness :
  jwt_authenticate settings Some None 3599000000 (req [("authorization", "Bearer " +:+ token)]) db =
  (Ok (with_user (req [("authorization", "Bearer " +:+ token)]) (Some alice)), db).
Proof.
  apply (issued_token_authenticates settings Some None 0 3599000000
           (req [("authorization", "Bearer " +:+ token)]) db alice token); try reflexivity; try done.
  split; [by exists "u1"|]. done.
Defined.
End AuthWitness.
