(* ===== verification/Accounts.v ===== *)
(** * User accounts ([src/app/api/v1/auth.py], [UserRepository] of
    [src/db/repository.py], [src/auth/email_service.py], [src/auth/password_hashing.py])

    Registration, e-mail verification, login, password reset and deletion over
    the tables [users] and [password_reset_tokens], with every statement
    fallible (see [Database]).  Secrets are drawn one after another from the
    system's generator ([token_urlsafe], [uuid4], the salts of Argon2): the state
    counts the draws.  A request reads one instant of the clock.  Request bodies
    are the validated pydantic models; [EmailStr] is pydantic's. *)

From S2P Require Import Prelude PyFloat PyStr Settings Effects Database AgentIO Gateway Auth.

(** ** Tables *)

Record account := {
  a_id : uuid;
  a_email : string;
  a_hashed_password : string;
  a_full_name : option string;
  a_role : string;
  a_is_active : bool;
  a_is_verified : bool;
  a_verification_token : option string;       (* hashed *)
  a_verification_expires_at : option Z;
  a_last_login_at : option Z;
  a_deleted_at : option Z;
  a_created_at : Z;
}.

Record PasswordResetToken := {
  rt_user_id : uuid;
  rt_hashed_token : string;
  rt_expires_at : Z;
  rt_used_at : option Z;
}.

(** What [DevEmailService] delivers (to the log). *)
Inductive mail :=
| VerificationMail (email verification_url : string)
| PasswordResetMail (user_id email reset_url : string).

Record world := World {
  accounts : list account;
  tokens : list PasswordResetToken;
  drawn : nat;                    (* secrets drawn from the generator *)
  clock : Z;                      (* microseconds *)
  outbox : list mail;
  db : list bool;
}.

#[global] Program Instance accounts_db : Db world := {|
  script := db;
  set_script cs w := World (accounts w) (tokens w) (drawn w) (clock w) (outbox w) cs;
|}.
Solve All Obligations with by intros [].

Definition with_accounts (f : list account -> list account) (w : world) : world :=
  World (f (accounts w)) (tokens w) (drawn w) (clock w) (outbox w) (db w).

Definition deliver (m : mail) : M world unit :=
  modify (fun w => World (accounts w) (tokens w) (drawn w) (clock w) (outbox w ++ [m]) (db w)).

Definition read_clock : M world Z := gets clock.

(** One draw from the generator. *)
Definition draw : M world nat := fun w =>
  (Ok (drawn w), World (accounts w) (tokens w) (S (drawn w)) (clock w) (outbox w) (db w)).

(** [argon2.PasswordHasher]: a hash verifies its own password and no other. *)
Class Argon2 := {
  ph_hash : nat -> string -> string;                   (* salt, password *)
  ph_verify : string -> string -> result pyexn bool;   (* hash, password *)
  ph_verify_hash salt p : ph_verify (ph_hash salt p) p = Ok true;
  ph_verify_only salt p q : ph_verify (ph_hash salt p) q = Ok true -> q = p;
}.

Section accounts.
Context `{Argon2}.
Variable token_urlsafe : nat -> string.      (* [secrets.token_urlsafe(32)] *)
Variable sha256 : string -> string.
Variable uuid4 : nat -> uuid.
Variable settings : AuthSettings.

(** ** Hashing and mail *)

Definition hash_password (password : string) : M world string :=
  draw ≫= fun salt => mret (ph_hash salt password).

Definition verify_password (password hashed_password : string) : bool :=
  match ph_verify hashed_password password with Ok b => b | Raise _ => false end.

Definition generate_verification_token : M world string := draw ≫= fun n => mret (token_urlsafe n).
Definition hash_verification_token (raw_token : string) : string := sha256 raw_token.

Definition send_verification_email (email raw_token : string) : M world unit :=
  deliver (VerificationMail email (app_base_url settings +:+ "/api/v1/auth/verify-email?token=" +:+ raw_token)).

Definition send_password_reset_email (email raw_token user_id : string) : M world unit :=
  deliver (PasswordResetMail user_id email
             (app_base_url settings +:+ "/api/v1/auth/reset?token=" +:+ raw_token)).

(** ** [UserRepository] *)

(** [email.lower().strip()] *)
Definition norm_email (email : string) : string := strip (lower email).

Definition not_deleted (a : account) : bool := bool_decide (a_deleted_at a = None).

Definition get_user_by_email (email : string) (include_deleted : bool) : M world (option account) :=
  select (fun w => List.filter (fun a => String.eqb (a_email a) (norm_email email) &&
                                         (include_deleted || not_deleted a)) (accounts w))
  ≫= scalar_one_or_none.

Definition get_user_by_id (user_id : uuid) (include_deleted : bool) : M world (option account) :=
  select (fun w => List.filter (fun a => String.eqb (a_id a) user_id && (include_deleted || not_deleted a))
                     (accounts w))
  ≫= scalar_one_or_none.

Definition get_user_by_hashed_verification_token (hashed_token : string) : M world (option account) :=
  select (fun w => List.filter (fun a => bool_decide (a_verification_token a = Some hashed_token) && not_deleted a)
                     (accounts w))
  ≫= scalar_one_or_none.

(** The constraints of [users]: primary key, unique e-mail of at most 255 characters. *)
Definition insertable (u : account) (w : world) : bool :=
  forallb (fun a => negb (String.eqb (a_email a) (a_email u)) && negb (String.eqb (a_id a) (a_id u))) (accounts w)
  && (Z.of_nat (String.length (a_email u)) <=? 255).

Definition create_user (email hashed_password : string) (full_name : option string) (role : string)
    (is_verified : bool) (hashed_verification_token : option string)
    (verification_token_expires_at : option Z) : M world account :=
  draw ≫= fun n => read_clock ≫= fun now =>
  let user := {| a_id := uuid4 n; a_email := norm_email email; a_hashed_password := hashed_password;
                 a_full_name := full_name; a_role := role; a_is_active := true; a_is_verified := is_verified;
                 a_verification_token := hashed_verification_token;
                 a_verification_expires_at := verification_token_expires_at; a_last_login_at := None;
                 a_deleted_at := None; a_created_at := now |} in
  save_if (insertable user) (with_accounts (fun l => l ++ [user])) ≫= fun _ =>
  statement ≫= fun _ => mret user.

(** The columns a request changes on one row. *)
Definition update_account (id : uuid) (f : account -> account) (l : list account) : list account :=
  map (fun a => if String.eqb (a_id a) id then f a else a) l.

Definition set_verified (a : account) : account :=
  {| a_id := a_id a; a_email := a_email a; a_hashed_password := a_hashed_password a;
     a_full_name := a_full_name a; a_role := a_role a; a_is_active := a_is_active a; a_is_verified := true;
     a_verification_token := None; a_verification_expires_at := None; a_last_login_at := a_last_login_at a;
     a_deleted_at := a_deleted_at a; a_created_at := a_created_at a |}.

Definition set_last_login (now : Z) (a : account) : account :=
  {| a_id := a_id a; a_email := a_email a; a_hashed_password := a_hashed_password a;
     a_full_name := a_full_name a; a_role := a_role a; a_is_active := a_is_active a;
     a_is_verified := a_is_verified a; a_verification_token := a_verification_token a;
     a_verification_expires_at := a_verification_expires_at a; a_last_login_at := Some now;
     a_deleted_at := a_deleted_at a; a_created_at := a_created_at a |}.

Definition set_verification_token (hashed_token : string) (expires_at : Z) (a : account) : account :=
  {| a_id := a_id a; a_email := a_email a; a_hashed_password := a_hashed_password a;
     a_full_name := a_full_name a; a_role := a_role a; a_is_active := a_is_active a;
     a_is_verified := a_is_verified a; a_verification_token := Some hashed_token;
     a_verification_expires_at := Some expires_at; a_last_login_at := a_last_login_at a;
     a_deleted_at := a_deleted_at a; a_created_at := a_created_at a |}.

Definition set_deleted (now : Z) (a : account) : account :=
  {| a_id := a_id a; a_email := a_email a; a_hashed_password := a_hashed_password a;
     a_full_name := a_full_name a; a_role := a_role a; a_is_active := false;
     a_is_verified := a_is_verified a; a_verification_token := a_verification_token a;
     a_verification_expires_at := a_verification_expires_at a; a_last_login_at := a_last_login_at a;
     a_deleted_at := Some now; a_created_at := a_created_at a |}.

Definition set_password (hashed : string) (a : account) : account :=
  {| a_id := a_id a; a_email := a_email a; a_hashed_password := hashed;
     a_full_name := a_full_name a; a_role := a_role a; a_is_active := a_is_active a;
     a_is_verified := a_is_verified a; a_verification_token := a_verification_token a;
     a_verification_expires_at := a_verification_expires_at a; a_last_login_at := a_last_login_at a;
     a_deleted_at := a_deleted_at a; a_created_at := a_created_at a |}.

Definition verify_user_email (user : account) : M world account :=
  save_refresh (with_accounts (update_account (a_id user) set_verified)) ≫= fun _ => mret (set_verified user).

(** Says whether the session's objects are still loaded. *)
Definition update_last_login (user_id : uuid) : M world bool :=
  get_user_by_id user_id false ≫= fun user =>
  match user with
  | None => mret true
  | Some _ => read_clock ≫= fun now => save_or_rollback (with_accounts (update_account user_id (set_last_login now)))
  end.

Definition update_verification_token (user : account) (hashed_token : string) (expires_at : Z) : M world account :=
  save_refresh (with_accounts (update_account (a_id user) (set_verification_token hashed_token expires_at)))
  ≫= fun _ => mret (set_verification_token hashed_token expires_at user).

Definition soft_delete_user (user_id : uuid) : M world bool :=
  get_user_by_id user_id false ≫= fun user =>
  match user with
  | None => mret false
  | Some _ => read_clock ≫= fun now => save_or_rollback (with_accounts (update_account user_id (set_deleted now)))
  end.

(** The constraints of [password_reset_tokens]: unique hash, existing user. *)
Definition token_insertable (t : PasswordResetToken) (w : world) : bool :=
  forallb (fun t' => negb (String.eqb (rt_hashed_token t') (rt_hashed_token t))) (tokens w)
  && existsb (fun a => String.eqb (a_id a) (rt_user_id t)) (accounts w).

Definition create_password_reset_token (user_id : uuid) (hashed_token : string) (expires_at : Z)
    : M world PasswordResetToken :=
  let t := {| rt_user_id := user_id; rt_hashed_token := hashed_token; rt_expires_at := expires_at;
              rt_used_at := None |} in
  save_if (token_insertable t)
    (fun w => World (accounts w) (tokens w ++ [t]) (drawn w) (clock w) (outbox w) (db w)) ≫= fun _ =>
  statement ≫= fun _ => mret t.

Definition open_token (t : PasswordResetToken) : bool := bool_decide (rt_used_at t = None).

(** [update(PasswordResetToken).where(user_id == ..., used_at IS NULL).values(used_at=now)] *)
Definition consume (user_id : uuid) (now : Z) (l : list PasswordResetToken) : list PasswordResetToken :=
  map (fun t => if String.eqb (rt_user_id t) user_id && open_token t
                then {| rt_user_id := rt_user_id t; rt_hashed_token := rt_hashed_token t;
                        rt_expires_at := rt_expires_at t; rt_used_at := Some now |}
                else t) l.

(** One transaction: the new password and the consumed tokens are committed together. *)
Definition reset_password_with_token (hashed_token new_hashed_password : string) : M world (option account) :=
  read_clock ≫= fun now =>
  (select (fun w => List.filter (fun t => String.eqb (rt_hashed_token t) hashed_token && open_token t &&
                                          (now <? rt_expires_at t)) (tokens w)) ≫= scalar_one_or_none)
  ≫= fun token_obj =>
  match token_obj with
  | None => mret None
  | Some t =>
      get_user_by_id (rt_user_id t) false ≫= fun user =>
      match user with
      | None => mret None
      | Some u =>
          if negb (a_is_active u) then mret None
          else
            statement ≫= fun _ =>
            save_refresh (fun w =>
              World (update_account (a_id u) (set_password new_hashed_password) (accounts w))
                (consume (a_id u) now (tokens w)) (drawn w) (clock w) (outbox w) (db w)) ≫= fun _ =>
            mret (Some (set_password new_hashed_password u))
      end
  end.

(** ** Routes *)

Record UserRegisterRequest := { rr_email : string; rr_password : string; rr_full_name : option string }.

Record UserResponse := {
  ur_id : uuid;
  ur_email : string;
  ur_full_name : option string;
  ur_role : string;
  ur_is_active : bool;
  ur_is_verified : bool;
  ur_created_at : Z;
  ur_last_login_at : option Z;
}.

Inductive response :=
| ErrorResponse (status : Z) (detail : option string) (error_code : string)
| UserBody (status : Z) (u : UserResponse)
| TokenResponse (access_token token_type : string) (expires_in : Z)
| AuthMessageResponse (status : Z) (message : string).

Definition user_response (u : account) : UserResponse :=
  {| ur_id := a_id u; ur_email := a_email u; ur_full_name := a_full_name u; ur_role := a_role u;
     ur_is_active := a_is_active u; ur_is_verified := a_is_verified u; ur_created_at := a_created_at u;
     ur_last_login_at := a_last_login_at u |}.

(** [timedelta(hours=24)] and [timedelta(minutes=...)] in microseconds. *)
Definition verification_lifetime : Z := 24 * 3600000000.
Definition reset_lifetime : Z := password_reset_expiry_minutes settings * 60000000.

Definition register (payload : UserRegisterRequest) : M world response :=
  let policy := validate_password_policy (rr_password payload) in
  if negb policy.1 then mret (ErrorResponse 422 policy.2 "password_policy_violation")
  else
    get_user_by_email (rr_email payload) false ≫= fun existing_user =>
    match existing_user with
    | Some _ => mret (ErrorResponse 409 (Some "An account with this email already exists.") "email_already_exists")
    | None =>
        hash_password (rr_password payload) ≫= fun hashed_pw =>
        generate_verification_token ≫= fun raw_token =>
        read_clock ≫= fun now =>
        create_user (rr_email payload) hashed_pw (rr_full_name payload) (role_value USER) false
          (Some (hash_verification_token raw_token)) (Some (now + verification_lifetime)) ≫= fun user =>
        send_verification_email (a_email user) raw_token ≫= fun _ =>
        mret (UserBody 201 (user_response user))
    end.

Definition login `{Jwt} (email password : string) : M world response :=
  get_user_by_email email false ≫= fun user =>
  match user with
  | None => mret (ErrorResponse 401 (Some "Invalid email or password.") "invalid_credentials")
  | Some u =>
      if negb (verify_password password (a_hashed_password u)) then
        mret (ErrorResponse 401 (Some "Invalid email or password.") "invalid_credentials")
      else if negb (a_is_active u) then
        mret (ErrorResponse 401 (Some "User account is inactive.") "account_inactive")
      else if negb (a_is_verified u) then
        mret (ErrorResponse 401 (Some "Email address is not verified.") "email_unverified")
      else
        update_last_login (a_id u) ≫= fun loaded =>
        read_attribute loaded ≫= fun _ =>
        read_clock ≫= fun now =>
        lift (create_access_token settings (a_id u) (a_role u) None None None None None now) ≫= fun token =>
        mret (TokenResponse token "bearer" (jwt_expiry_minutes settings * 60))
  end.

Definition verify_email (token : string) : M world response :=
  get_user_by_hashed_verification_token (hash_verification_token token) ≫= fun user =>
  let invalid := ErrorResponse 400 (Some "Invalid or expired verification token.") "invalid_verification_token" in
  match user with
  | None => mret invalid
  | Some u =>
      match a_verification_expires_at u with
      | None => mret invalid
      | Some expires =>
          read_clock ≫= fun now =>
          if expires <? now then
            mret (ErrorResponse 400 (Some "Verification token has expired.") "verification_token_expired")
          else
            verify_user_email u ≫= fun _ =>
            mret (AuthMessageResponse 200 "Email address verified successfully.")
      end
  end.

Definition resent : response :=
  AuthMessageResponse 200 "If an unverified account exists with that email, a verification link has been sent.".

Definition resend_verification (email : string) : M world response :=
  get_user_by_email email false ≫= fun user =>
  match user with
  | None => mret resent
  | Some u =>
      if negb (a_is_verified u) && a_is_active u then
        generate_verification_token ≫= fun raw_token =>
        read_clock ≫= fun now =>
        update_verification_token u (hash_verification_token raw_token) (now + verification_lifetime) ≫= fun u' =>
        send_verification_email (a_email u') raw_token ≫= fun _ => mret resent
      else mret resent
  end.

Definition get_me (current_user : account) : response := UserBody 200 (user_response current_user).

Definition reset_requested : response :=
  AuthMessageResponse 202 "If an account with this email exists, a password reset link has been sent.".

Definition request_password_reset (email : string) : M world response :=
  get_user_by_email email false ≫= fun user =>
  let dummy := generate_verification_token ≫= fun _ => mret reset_requested in
  match user with
  | None => dummy
  | Some u =>
      if a_is_active u then
        generate_verification_token ≫= fun raw_token =>
        read_clock ≫= fun now =>
        create_password_reset_token (a_id u) (hash_verification_token raw_token) (now + reset_lifetime) ≫= fun _ =>
        send_password_reset_email (a_email u) raw_token (a_id u) ≫= fun _ =>
        mret reset_requested
      else dummy
  end.

Definition reset_password (token new_password : string) : M world response :=
  let policy := validate_password_policy new_password in
  if negb policy.1 then mret (ErrorResponse 422 policy.2 "password_policy_violation")
  else
    hash_password new_password ≫= fun new_hashed_pw =>
    reset_password_with_token (hash_verification_token token) new_hashed_pw ≫= fun user =>
    match user with
    | None => mret (ErrorResponse 400 (Some "Invalid or expired password reset token.") "invalid_or_expired_token")
    | Some _ => mret (AuthMessageResponse 200 "Password has been reset successfully. Please log in with your new password.")
    end.
End accounts.

(** ** Updated rows *)

Lemma update_account_elem id f l a : a ∈ update_account id f l <->
  exists b, b ∈ l /\ a = if String.eqb (a_id b) id then f b else b.
Proof.
  unfold update_account. rewrite list_elem_of_In, in_map_iff. setoid_rewrite list_elem_of_In. naive_solver.
Qed.

Lemma update_account_map {B} (col : account -> B) id f l :
  (forall a, col (f a) = col a) -> map col (update_account id f l) = map col l.
Proof.
  intros Hf. unfold update_account. rewrite map_map. apply map_ext. intros a. by destruct (String.eqb (a_id a) id).
Qed.

Lemma consume_elem id now l t : t ∈ consume id now l <->
  exists s, s ∈ l /\ t = if String.eqb (rt_user_id s) id && open_token s
    then {| rt_user_id := rt_user_id s; rt_hashed_token := rt_hashed_token s; rt_expires_at := rt_expires_at s;
            rt_used_at := Some now |} else s.
Proof. unfold consume. rewrite list_elem_of_In, in_map_iff. setoid_rewrite list_elem_of_In. naive_solver. Qed.

Lemma consume_map {B} (col : PasswordResetToken -> B) id now l :
  (forall s u, col {| rt_user_id := rt_user_id s; rt_hashed_token := rt_hashed_token s;
                      rt_expires_at := rt_expires_at s; rt_used_at := u |} = col s) ->
  map col (consume id now l) = map col l.
Proof. intros Hc. unfold consume. rewrite map_map. apply map_ext. intros s. case_match; [apply Hc | done]. Qed.

Lemma consumed_closed id now l t : t ∈ consume id now l -> rt_user_id t = id -> open_token t = false.
Proof.
  intros (s & Hs & ->)%consume_elem. destruct (String.eqb_spec (rt_user_id s) id) as [E|E]; cbn; [|done].
  by destruct (open_token s) eqn:Eo.
Qed.

Lemma find_unique {A} (f : A -> bool) l x : x ∈ l -> f x = true ->
  (forall y, y ∈ l -> f y = true -> y = x) -> List.find f l = Some x.
Proof.
  intros Hx Hf Hu. destruct (List.find f l) as [y|] eqn:E.
  - apply find_some in E as [Hy%list_elem_of_In Ey]. f_equal. by apply Hu.
  - apply find_none with (x := x) in E; [by rewrite Hf in E | by apply list_elem_of_In].
Qed.

(** ** Invariant *)

Section invariant.
Context `{Argon2} `{Jwt}.
Variable token_urlsafe : nat -> string.
Variable sha256 : string -> string.
Variable uuid4 : nat -> uuid.
Variable settings : AuthSettings.

Definition verifiable (h : string) (a : account) : Prop := a_verification_token a = Some h.

(** Ids, e-mails, verification tokens and reset tokens are unique (only the
    second and the last are enforced by the database), reset tokens belong to
    accounts, deleted accounts are inactive. *)
Record inv (w : world) : Prop := Inv {
  inv_ids : NoDup (map a_id (accounts w));
  inv_emails : NoDup (map a_email (accounts w));
  inv_verification : forall a b h, a ∈ accounts w -> b ∈ accounts w ->
    verifiable h a -> verifiable h b -> a_id a = a_id b;
  inv_drawn : forall a h, a ∈ accounts w -> verifiable h a ->
    exists n, (n < drawn w)%nat /\ h = sha256 (token_urlsafe n);
  inv_deleted : forall a, a ∈ accounts w -> not_deleted a = false -> a_is_active a = false;
  inv_tokens : NoDup (map rt_hashed_token (tokens w));
  inv_owner : forall t, t ∈ tokens w -> rt_user_id t ∈ map a_id (accounts w);
}.

(** What no operation undoes: accounts keep id and e-mail, deletion is final, a
    consumed reset token stays consumed. *)
Definition account_le (a b : account) : Prop :=
  a_id a = a_id b /\ a_email a = a_email b /\ a_created_at a = a_created_at b /\ a_role a = a_role b /\
  (not_deleted a = false -> not_deleted b = false).

Definition token_le (s t : PasswordResetToken) : Prop :=
  rt_user_id s = rt_user_id t /\ rt_hashed_token s = rt_hashed_token t /\ rt_expires_at s = rt_expires_at t /\
  (open_token s = false -> t = s).

Record evolves (w w' : world) : Prop := Evolves {
  ev_accounts : forall a, a ∈ accounts w -> exists b, b ∈ accounts w' /\ account_le a b;
  ev_tokens : forall s, s ∈ tokens w -> exists t, t ∈ tokens w' /\ token_le s t;
  ev_drawn : (drawn w <= drawn w')%nat;
}.

#[export] Instance evolves_preorder : PreOrder evolves.
Proof.
  split.
  - intros w. split; [| |done]; intros x Hx; exists x; unfold account_le, token_le; naive_solver.
  - intros w1 w2 w3 [A1 T1 D1] [A2 T2 D2]. split; [| |lia].
    + intros a (b & (c & Hc & H2)%A2 & H1)%A1. exists c. unfold account_le in *. naive_solver congruence.
    + intros a (b & (c & Hc & H2)%T2 & H1)%T1. exists c. unfold token_le in *. naive_solver congruence.
Qed.

Definition same_tables (w w' : world) : Prop :=
  accounts w' = accounts w /\ tokens w' = tokens w /\ (drawn w <= drawn w')%nat.

Lemma same_tables_inv w w' : same_tables w w' -> inv w -> inv w' /\ evolves w w'.
Proof.
  intros (Ha & Ht & Hd) Hw. split.
  - destruct Hw as [H1 H2 H3 H4 H5 H6 H7]. split; rewrite ?Ha, ?Ht; try done.
    intros a h Hin Hv. destruct (H4 a h Hin Hv) as (n & Hn & ->). exists n. split; [lia|done].
  - split; rewrite ?Ha, ?Ht; [| |done]; intros x Hx; exists x; unfold account_le, token_le; naive_solver.
Qed.

(** *** Changes of the tables *)

(** A change of one row that keeps its identity. *)
Record row_change (id : uuid) (f : account -> account) (w : world) : Prop := {
  rc_id : forall a, a_id (f a) = a_id a;
  rc_email : forall a, a_email (f a) = a_email a;
  rc_rest : forall a, a_created_at (f a) = a_created_at a /\ a_role (f a) = a_role a;
  rc_deleted : forall a, not_deleted (f a) = false -> (not_deleted a = false -> a_is_active a = false) ->
    a_is_active (f a) = false;
  rc_final : forall a, not_deleted a = false -> not_deleted (f a) = false;
  rc_token : forall a h, verifiable h (f a) -> verifiable h a \/
    (exists n, (n < drawn w)%nat /\ h = sha256 (token_urlsafe n)) /\ (forall b, b ∈ accounts w -> ~ verifiable h b);
}.

Lemma row_change_inv id f w : row_change id f w -> inv w ->
  inv (with_accounts (update_account id f) w) /\ evolves w (with_accounts (update_account id f) w).
Proof.
  intros [Ri Re Rr Rd Rf Rt] [H1 H2 H3 H4 H5 H6 H7]. split.
  - split; cbn; rewrite ?(update_account_map a_id), ?(update_account_map a_email) by done; try done.
    + intros a b h (a0 & Ha & ->)%update_account_elem (b0 & Hb & ->)%update_account_elem.
      destruct (String.eqb_spec (a_id a0) id) as [Ea|Ea], (String.eqb_spec (a_id b0) id) as [Eb|Eb]; rewrite ?Ri.
      * congruence.
      * intros [Hv|[_ Hn]]%Rt Hb'; [by apply (H3 a0 b0 h) | by destruct (Hn b0)].
      * intros Ha' [Hv|[_ Hn]]%Rt; [by apply (H3 a0 b0 h) | by destruct (Hn a0)].
      * by apply H3.
    + intros a h (a0 & Ha & ->)%update_account_elem. destruct (String.eqb (a_id a0) id); [|by apply H4].
      intros [Hv|[Hn _]]%Rt; [by apply (H4 a0) | done].
    + intros a (a0 & Ha & ->)%update_account_elem. destruct (String.eqb (a_id a0) id); [|by apply H5].
      intros Hd. apply Rd; [done|]. by apply H5.
  - split; cbn; [| |done].
    + intros a Ha. exists (if String.eqb (a_id a) id then f a else a). split; [apply update_account_elem; eauto|].
      destruct (String.eqb (a_id a) id); [|by unfold account_le].
      unfold account_le. rewrite Ri, Re. specialize (Rr a). specialize (Rf a). naive_solver.
    + intros t Ht. exists t. unfold token_le. naive_solver.
Qed.

Lemma set_verified_change id w : row_change id set_verified w.
Proof. split; try done. intros a Hd Hi. by apply Hi. Qed.

Lemma set_last_login_change id now w : row_change id (set_last_login now) w.
Proof. split; try done. - intros a Hd Hi. by apply Hi. - by left. Qed.

Lemma set_deleted_change id now w : row_change id (set_deleted now) w.
Proof. split; try done. by left. Qed.

Lemma set_password_change id hashed w : row_change id (set_password hashed) w.
Proof. split; try done. - intros a Hd Hi. by apply Hi. - by left. Qed.

Lemma set_token_change id n expires w : inv w -> (n < drawn w)%nat ->
  (forall b, b ∈ accounts w -> ~ verifiable (sha256 (token_urlsafe n)) b) ->
  row_change id (set_verification_token (sha256 (token_urlsafe n)) expires) w.
Proof.
  intros Hw Hn Hf. split; try done.
  - intros a Hd Hi. by apply Hi.
  - intros a h [= <-]. right. eauto.
Qed.

Lemma insert_account_inv u w : insertable u w = true -> not_deleted u = true ->
  (forall h, verifiable h u -> (exists n, (n < drawn w)%nat /\ h = sha256 (token_urlsafe n)) /\
    forall b, b ∈ accounts w -> ~ verifiable h b) ->
  inv w -> inv (with_accounts (fun l => l ++ [u]) w) /\ evolves w (with_accounts (fun l => l ++ [u]) w).
Proof.
  unfold insertable. intros [Hu _]%andb_true_iff Hd Hv [H1 H2 H3 H4 H5 H6 H7].
  assert (forall a, a ∈ accounts w -> a_email a <> a_email u /\ a_id a <> a_id u) as Hne.
  { intros a Ha. specialize (proj1 (forallb_true _ _) Hu a Ha). rewrite andb_true_iff, !negb_true_iff, !String.eqb_neq.
    done. }
  split; [split; cbn | split; cbn; [| |done]].
  - rewrite map_app. apply NoDup_app. split; [done|]. split; [|apply NoDup_singleton].
    intros x Hx ->%list_elem_of_singleton. apply list_elem_of_fmap in Hx as (a & Ex & Ha). by destruct (Hne a Ha) as [_ []].
  - rewrite map_app. apply NoDup_app. split; [done|]. split; [|apply NoDup_singleton].
    intros x Hx ->%list_elem_of_singleton. apply list_elem_of_fmap in Hx as (a & Ex & Ha). by destruct (Hne a Ha) as [[] _].
  - intros a b h [Ha| ->%list_elem_of_singleton]%elem_of_app [Hb| ->%list_elem_of_singleton]%elem_of_app Va Vb;
      [by eapply H3 | by destruct (proj2 (Hv h Vb) a) | by destruct (proj2 (Hv h Va) b) | done].
  - intros a h [Ha| ->%list_elem_of_singleton]%elem_of_app Va; [by eapply H4 | by apply Hv].
  - intros a [Ha| ->%list_elem_of_singleton]%elem_of_app Ea; [by apply H5 | by rewrite Hd in Ea].
  - done.
  - intros t Ht. rewrite map_app. apply elem_of_app. left. by apply H7.
  - intros a Ha. exists a. split; [set_solver | by unfold account_le].
  - intros t Ht. exists t. unfold token_le. naive_solver.
Qed.

Lemma insert_token_inv t w : token_insertable t w = true -> inv w ->
  let w' := World (accounts w) (tokens w ++ [t]) (drawn w) (clock w) (outbox w) (db w) in
  inv w' /\ evolves w w'.
Proof.
  unfold token_insertable. intros [Hh Ho]%andb_true_iff [H1 H2 H3 H4 H5 H6 H7].
  split; [split; cbn; try done | split; cbn; [| |done]].
  - rewrite map_app. apply NoDup_app. split; [done|]. split; [|apply NoDup_singleton].
    intros x Hx ->%list_elem_of_singleton. apply list_elem_of_fmap in Hx as (s & Ex & Hs).
    specialize (proj1 (forallb_true _ _) Hh s Hs). by rewrite negb_true_iff, String.eqb_neq, <- Ex.
  - intros s [Hs| ->%list_elem_of_singleton]%elem_of_app; [by apply H7|].
    apply existsb_true in Ho as (a & Ha & E%String.eqb_eq). apply list_elem_of_fmap. eauto.
  - intros a Ha. exists a. split; [done | by unfold account_le].
  - intros s Hs. exists s. split; [set_solver|]. unfold token_le. naive_solver.
Qed.

Definition after_reset (id : uuid) (now : Z) (hashed : string) (w : world) : world :=
  World (update_account id (set_password hashed) (accounts w)) (consume id now (tokens w)) (drawn w) (clock w)
    (outbox w) (db w).

Lemma after_reset_inv id now hashed w : inv w ->
  inv (after_reset id now hashed w) /\ evolves w (after_reset id now hashed w).
Proof.
  intros Hw. destruct (row_change_inv id _ w (set_password_change id hashed w) Hw) as [[H1 H2 H3 H4 H5 H6 H7] [E1 E2 E3]].
  split; [split; cbn in *; try done | split; cbn in *; try done].
  - by rewrite consume_map.
  - intros t (s & Hs & ->)%consume_elem. destruct (String.eqb (rt_user_id s) id && open_token s); exact (H7 s Hs).
  - intros s Hs. eexists. split; [by apply consume_elem; eauto|]. unfold token_le.
    destruct (open_token s) eqn:Eo; rewrite ?andb_false_r; [|done]. by destruct (String.eqb (rt_user_id s) id).
Qed.

(** *** Requests keep the invariant and undo nothing *)

(** Distinct draws of 32 random bytes have distinct digests. *)
Hypothesis tokens_distinct : forall i j, sha256 (token_urlsafe i) = sha256 (token_urlsafe j) -> i = j.

Section keeps.
Variable w0 : world.

Definition since (w : world) : Prop := inv w /\ evolves w0 w.

(** Requests end in a response or in one of the session's exceptions. *)
Notation keeps m := (triple (aborted since) since m (fun _ => since)).

Lemma since_step w w' : since w -> inv w' /\ evolves w w' -> since w'.
Proof. intros [_ H1] [Hw H2]. split; [done|]. by etrans. Qed.

Lemma since_same w w' : same_tables w w' -> since w -> since w'.
Proof. intros Hs Hw. apply (since_step w); [done|]. apply same_tables_inv; [done | apply Hw]. Qed.

Lemma since_stable : stable since.
Proof. intros cs w. apply since_same. by split_and!. Qed.

Lemma account_ret {A} (a : A) : keeps (mret a).
Proof. by intros w Hw. Qed.

Lemma clock_keeps (P : world -> Prop) : triple (aborted since) P read_clock (fun _ => P).
Proof. by intros w Hw. Qed.

Lemma deliver_keeps m : keeps (deliver m).
Proof. intros w. apply since_same. by split_and!. Qed.

(** A draw is a secret that is in no table yet. *)
Definition fresh_draw (n : nat) (w : world) : Prop :=
  (n < drawn w)%nat /\ forall b, b ∈ accounts w -> ~ verifiable (sha256 (token_urlsafe n)) b.

Lemma draw_keeps : triple (aborted since) since draw (fun n w => since w /\ fresh_draw n w).
Proof.
  intros w Hw. cbn. split; [apply (since_same w); [|done]; split_and!; cbn; [done..|lia]|]. split; cbn; [lia|].
  intros b Hb Hv. destruct (inv_drawn _ (proj1 Hw) b _ Hb Hv) as (m & Hm & E%tokens_distinct). lia.
Qed.

Lemma draw_keeps_fresh n : triple (aborted since) (fun w => since w /\ fresh_draw n w) draw
  (fun _ w => since w /\ fresh_draw n w).
Proof.
  intros w [Hw [Hn Hf]]. cbn. split; [apply (since_same w); [|done]; split_and!; cbn; [done..|lia]|].
  split; cbn; [lia|done].
Qed.

Lemma fresh_stable n : stable (fun w => since w /\ fresh_draw n w).
Proof. intros cs w [Hw Hf]. split; [by apply since_stable | done]. Qed.

Lemma unique_row {B} (key : account -> B) f :
  (forall w, inv w -> NoDup (map key (accounts w)) /\
     forall x y, x ∈ accounts w -> y ∈ accounts w -> f x = true -> f y = true -> key x = key y) ->
  triple (aborted since) since (select (fun w => List.filter f (accounts w)) ≫= scalar_one_or_none)
    (fun o w => since w /\ match o with Some a => a ∈ accounts w /\ f a = true
                                       | None => List.filter f (accounts w) = [] end).
Proof.
  intros Hf. eapply triple_bind; [by apply select_keeps; [|apply since_stable]|].
  intros rows w [Hw ->]. destruct (Hf w (proj1 Hw)) as [Hn Hk].
  destruct (filter_unique key f (accounts w) Hn Hk) as [E|(x & E & Hx & Ex)]; rewrite E; cbn; auto.
Qed.

Lemma by_email_keeps email incl : triple (aborted since) since (get_user_by_email email incl)
  (fun o w => since w /\ match o with
     | Some a => a ∈ accounts w /\ String.eqb (a_email a) (norm_email email) && (incl || not_deleted a) = true
     | None => List.filter (fun a => String.eqb (a_email a) (norm_email email) && (incl || not_deleted a))
                 (accounts w) = [] end).
Proof.
  apply (unique_row a_email). intros w Hw. split; [apply Hw|]. intros x y _ _.
  by intros [->%String.eqb_eq _]%andb_true_iff [->%String.eqb_eq _]%andb_true_iff.
Qed.

Lemma by_id_keeps id incl : triple (aborted since) since (get_user_by_id id incl)
  (fun o w => since w /\ match o with
     | Some a => a ∈ accounts w /\ String.eqb (a_id a) id && (incl || not_deleted a) = true
     | None => List.filter (fun a => String.eqb (a_id a) id && (incl || not_deleted a)) (accounts w) = [] end).
Proof.
  apply (unique_row a_id). intros w Hw. split; [apply Hw|]. intros x y _ _.
  by intros [->%String.eqb_eq _]%andb_true_iff [->%String.eqb_eq _]%andb_true_iff.
Qed.

Lemma by_token_keeps h : triple (aborted since) since (get_user_by_hashed_verification_token h)
  (fun o w => since w /\ match o with
     | Some a => a ∈ accounts w /\ bool_decide (a_verification_token a = Some h) && not_deleted a = true
     | None => List.filter (fun a => bool_decide (a_verification_token a = Some h) && not_deleted a)
                 (accounts w) = [] end).
Proof.
  apply (unique_row a_id). intros w Hw. split; [apply Hw|]. intros x y Hx Hy.
  intros [Ex%bool_decide_eq_true _]%andb_true_iff [Ey%bool_decide_eq_true _]%andb_true_iff.
  by apply (inv_verification w Hw x y h).
Qed.

Lemma hash_password_keeps password : keeps (hash_password password).
Proof.
  eapply triple_bind; [apply draw_keeps|]. intros n. eapply triple_weaken; [by intros w [Hw _]|].
  apply (triple_ret _ _ (fun _ => since)).
Qed.

Lemma row_keeps id f : (forall w, inv w -> row_change id f w) ->
  keeps (save_refresh (with_accounts (update_account id f))).
Proof.
  intros Hf. apply save_refresh_keeps; [done | apply since_stable..|]. intros w Hw.
  apply (since_step w); [done|]. apply row_change_inv; [|apply Hw]. apply Hf, Hw.
Qed.

Lemma row_keeps_swallow id f : (forall w, inv w -> row_change id f w) ->
  keeps (save_or_rollback (with_accounts (update_account id f))).
Proof.
  intros Hf. apply save_or_rollback_keeps; [apply since_stable|]. intros w Hw.
  apply (since_step w); [done|]. apply row_change_inv; [|apply Hw]. apply Hf, Hw.
Qed.

Lemma create_user_keeps email hashed name role n expires :
  triple (aborted since) (fun w => since w /\ fresh_draw n w)
    (create_user uuid4 email hashed name role false (Some (sha256 (token_urlsafe n))) expires) (fun _ => since).
Proof.
  unfold create_user. eapply triple_bind; [apply draw_keeps_fresh|]. intros m.
  eapply triple_bind; [apply clock_keeps|]. intros now. cbv zeta.
  eapply triple_bind; [eapply (save_if_keeps since _ _ _ since)|].
  - intros w [Hw [Hn Hf]] Hi. apply (since_step w); [done|]. apply insert_account_inv; [done..| |apply Hw].
    intros h [= <-]. eauto.
  - intros []. eapply triple_bind; [apply statement_keeps; [done | apply since_stable]|].
    intros []. apply (triple_ret _ _ (fun _ => since)).
  Unshelve. all: [> by intros w [Hw _] | apply fresh_stable].
Qed.

Lemma token_keeps : triple (aborted since) since (generate_verification_token token_urlsafe)
  (fun t w => exists n, t = token_urlsafe n /\ since w /\ fresh_draw n w).
Proof.
  eapply triple_bind; [apply draw_keeps|]. intros n w Hw. cbn. eauto.
Qed.

(** After a look-up only the invariant matters. *)
Ltac forget := eapply triple_weaken; [by intros ? [? _]|].

Lemma register_keeps payload : keeps (register token_urlsafe sha256 uuid4 settings payload).
Proof.
  unfold register. destruct (negb _); [apply account_ret|].
  eapply triple_bind; [apply by_email_keeps|]. intros [u|]; forget; [apply account_ret|].
  eapply triple_bind; [apply hash_password_keeps|]. intros hashed.
  eapply triple_bind; [apply token_keeps|]. intros t. apply triple_ex. intros n. apply triple_pure. intros ->.
  eapply triple_bind; [apply clock_keeps|]. intros now.
  eapply triple_bind; [apply create_user_keeps|]. intros u.
  eapply triple_bind; [apply deliver_keeps|]. intros []. apply account_ret.
Qed.

Lemma update_last_login_keeps id : keeps (update_last_login id).
Proof.
  unfold update_last_login. eapply triple_bind; [apply by_id_keeps|]. intros [u|]; forget; [|apply account_ret].
  eapply triple_bind; [apply clock_keeps|]. intros now. apply row_keeps_swallow. intros w _. apply set_last_login_change.
Qed.

Lemma soft_delete_keeps id : keeps (soft_delete_user id).
Proof.
  unfold soft_delete_user. eapply triple_bind; [apply by_id_keeps|]. intros [u|]; forget; [|apply account_ret].
  eapply triple_bind; [apply clock_keeps|]. intros now. apply row_keeps_swallow. intros w _. apply set_deleted_change.
Qed.

Lemma verify_email_keeps token : keeps (verify_email sha256 token).
Proof.
  unfold verify_email. eapply triple_bind; [apply by_token_keeps|]. intros [u|]; forget; [|apply account_ret].
  destruct (a_verification_expires_at u) as [expires|]; [|apply account_ret].
  eapply triple_bind; [apply clock_keeps|]. intros now. destruct (expires <? now); [apply account_ret|].
  eapply triple_bind; [|intros ?; apply account_ret]. unfold verify_user_email.
  eapply triple_bind; [apply row_keeps; intros w _; apply set_verified_change|]. intros []. apply account_ret.
Qed.

Lemma resend_keeps email : keeps (resend_verification token_urlsafe sha256 settings email).
Proof.
  unfold resend_verification. eapply triple_bind; [apply by_email_keeps|]. intros [u|]; forget; [|apply account_ret].
  destruct (negb (a_is_verified u) && a_is_active u); [|apply account_ret].
  eapply triple_bind; [apply token_keeps|]. intros t. apply triple_ex. intros n. apply triple_pure. intros ->.
  eapply triple_bind; [apply clock_keeps|]. intros now.
  eapply triple_bind; [|intros u'; eapply triple_bind; [apply deliver_keeps|]; intros []; apply account_ret].
  unfold update_verification_token.
  apply (triple_bind _ _ _ (fun _ => since)); [|intros []; apply (triple_ret _ _ (fun _ => since))].
  apply save_refresh_keeps; [by intros w [Hw _] | apply fresh_stable | apply since_stable |].
  intros w [Hw [Hn Hf]]. apply (since_step w); [done|]. apply row_change_inv; [|apply Hw].
  apply set_token_change; [apply Hw | done..].
Qed.

Lemma request_reset_keeps email : keeps (request_password_reset token_urlsafe sha256 settings email).
Proof.
  unfold request_password_reset.
  assert (keeps (generate_verification_token token_urlsafe ≫= fun _ => mret reset_requested)) as Hd.
  { eapply triple_bind; [apply token_keeps|]. intros t w (n & _ & Hw & _). exact Hw. }
  eapply triple_bind; [apply by_email_keeps|]. intros [u|]; forget; [|exact Hd].
  destruct (a_is_active u); [|exact Hd].
  eapply triple_bind; [apply token_keeps|]. intros t. apply triple_ex. intros n. apply triple_pure. intros ->. forget.
  eapply triple_bind; [apply clock_keeps|]. intros now.
  eapply triple_bind; [|intros ?; eapply triple_bind; [apply deliver_keeps|]; intros []; apply account_ret].
  unfold create_password_reset_token. eapply triple_bind; [eapply (save_if_keeps since since _ _ since)|].
  - intros w Hw Hi. apply (since_step w); [done|]. apply insert_token_inv; [done | apply Hw].
  - intros []. eapply triple_bind; [apply statement_keeps; [done | apply since_stable]|]. intros []. apply account_ret.
  Unshelve. all: [> done | apply since_stable].
Qed.

Lemma open_token_unique h now w : inv w ->
  let f t := String.eqb (rt_hashed_token t) h && open_token t && (now <? rt_expires_at t) in
  List.filter f (tokens w) = [] \/ exists t, List.filter f (tokens w) = [t] /\ t ∈ tokens w /\ f t = true.
Proof.
  intros Hw f. apply (filter_unique rt_hashed_token); [apply Hw|]. unfold f. intros x y _ _.
  by intros [[->%String.eqb_eq _]%andb_true_iff _]%andb_true_iff [[->%String.eqb_eq _]%andb_true_iff _]%andb_true_iff.
Qed.

Lemma reset_with_token_keeps h hashed : keeps (reset_password_with_token h hashed).
Proof.
  unfold reset_password_with_token. eapply triple_bind; [apply clock_keeps|]. intros now.
  eapply triple_bind; [eapply triple_bind; [apply select_keeps; [done | apply since_stable]|]|].
  { intros rows w [Hw ->]. instantiate (1 := fun _ => since).
    destruct (open_token_unique h now w (proj1 Hw)) as [E|(t & E & _)]; cbv zeta in E; rewrite E; exact Hw. }
  intros [t|]; [|apply account_ret]. eapply triple_bind; [apply by_id_keeps|]. intros [u|]; forget; [|apply account_ret].
  destruct (negb (a_is_active u)); [apply account_ret|].
  eapply triple_bind; [apply statement_keeps; [done | apply since_stable]|]. intros [].
  apply (triple_bind _ _ _ (fun _ => since)); [|intros []; apply account_ret].
  apply save_refresh_keeps; [done | apply since_stable..|]. intros w Hw. apply (since_step w); [done|].
  apply after_reset_inv, Hw.
Qed.

Lemma reset_keeps token password : keeps (reset_password sha256 token password).
Proof.
  unfold reset_password. destruct (negb _); [apply account_ret|].
  eapply triple_bind; [apply hash_password_keeps|]. intros hashed.
  eapply triple_bind; [apply reset_with_token_keeps|]. intros [u|]; apply account_ret.
Qed.

(** Login may also find no signing key. *)
Definition login_aborted (e : pyexn) (w : world) : Prop := (db_exn e \/ e = ValueError) /\ since w.

Lemma login_keeps email password : triple login_aborted since (login settings email password) (fun _ => since).
Proof.
  assert (forall A P (m : M world A) Q, triple (aborted since) P m Q -> triple login_aborted P m Q) as Hup.
  { intros A P m Q Hm. eapply triple_exn; [exact Hm|]. intros e w [He Hw]. split; [by left|done]. }
  unfold login. eapply triple_bind; [apply Hup, by_email_keeps|]. intros [u|]; forget; [|apply (triple_ret _ _ (fun _ => since))].
  repeat (case_match; [apply (triple_ret _ _ (fun _ => since))|]).
  eapply triple_bind; [apply Hup, update_last_login_keeps|]. intros loaded.
  eapply triple_bind; [apply Hup, read_attribute_keeps; done|]. intros [].
  eapply triple_bind; [apply Hup, clock_keeps|]. intros now. 
  apply (triple_bind _ _ _ (fun _ => since)); [|intros t; apply (triple_ret _ _ (fun _ => since))].
  intros w Hw. cbn. unfold create_access_token. cbn [truthy]. destruct (truthy (jwt_secret_key settings)); [exact Hw|].
  split; [by right|done].
Qed.
End keeps.

(** ** Histories *)

Inductive operation :=
| Register (payload : UserRegisterRequest)
| Login (email password : string)
| VerifyEmail (token : string)
| ResendVerification (email : string)
| RequestPasswordReset (email : string)
| ResetPassword (token new_password : string)
| SoftDelete (user_id : uuid).

Definition perform (op : operation) : M world unit :=
  match op with
  | Register payload => register token_urlsafe sha256 uuid4 settings payload ≫= fun _ => mret tt
  | Login email password => login settings email password ≫= fun _ => mret tt
  | VerifyEmail token => verify_email sha256 token ≫= fun _ => mret tt
  | ResendVerification email => resend_verification token_urlsafe sha256 settings email ≫= fun _ => mret tt
  | RequestPasswordReset email => request_password_reset token_urlsafe sha256 settings email ≫= fun _ => mret tt
  | ResetPassword token password => reset_password sha256 token password ≫= fun _ => mret tt
  | SoftDelete id => soft_delete_user id ≫= fun _ => mret tt
  end.

(** Between operations time passes and the database's health changes. *)
Inductive reach : world -> world -> Prop :=
| reach_refl w : reach w w
| reach_env w now cs w' :
    reach (World (accounts w) (tokens w) (drawn w) now (outbox w) cs) w' -> reach w w'
| reach_op w op w' : reach (perform op w).2 w' -> reach w w'.

Lemma perform_keeps w0 op : triple (login_aborted w0) (since w0) (perform op) (fun _ => since w0).
Proof.
  assert (forall A (m : M world A), triple (login_aborted w0) (since w0) m (fun _ => since w0) ->
    triple (login_aborted w0) (since w0) (m ≫= fun _ => mret tt) (fun _ => since w0)) as Hseq.
  { intros A m Hm. eapply triple_bind; [exact Hm|]. intros a. apply (triple_ret _ _ (fun _ => since w0)). }
  assert (forall A (m : M world A), triple (aborted (since w0)) (since w0) m (fun _ => since w0) ->
    triple (login_aborted w0) (since w0) m (fun _ => since w0)) as Hup.
  { intros A m Hm. eapply triple_exn; [exact Hm|]. intros e w [He Hw]. split; [by left|done]. }
  destruct op; apply Hseq; [apply Hup, register_keeps | apply login_keeps | apply Hup, verify_email_keeps |
    apply Hup, resend_keeps | apply Hup, request_reset_keeps | apply Hup, reset_keeps | apply Hup, soft_delete_keeps].
Qed.

Lemma since_refl w : inv w -> since w w.
Proof. by split. Qed.

Lemma perform_inv op w : inv w -> inv (perform op w).2 /\ evolves w (perform op w).2.
Proof.
  intros Hw. pose proof (perform_keeps w op w (since_refl w Hw)) as Hp.
  destruct (perform op w) as [[a|e] w']; [exact Hp | exact (proj2 Hp)].
Qed.

Lemma account_reach_inv w w' : reach w w' -> inv w -> inv w' /\ evolves w w'.
Proof.
  induction 1 as [w|w now cs w' _ IH|w op w' _ IH]; intros Hw.
  - by split.
  - destruct (same_tables_inv w (World (accounts w) (tokens w) (drawn w) now (outbox w) cs)) as [H1 H2];
      [by split_and! | done|].
    destruct (IH H1) as [H3 H4]. split; [done|]. by etrans.
  - destruct (perform_inv op w Hw) as [H1 H2]. destruct (IH H1) as [H3 H4]. split; [done|]. by etrans.
Qed.

(** *** Password reset *)

Lemma by_id_returns id incl w o w' : get_user_by_id id incl w = (Ok o, w') ->
  (exists cs, w' = set_script cs w) /\
  List.filter (fun a => String.eqb (a_id a) id && (incl || not_deleted a)) (accounts w) =
    match o with Some a => [a] | None => [] end.
Proof.
  unfold get_user_by_id. intros (rows & w1 & [-> [cs ->]]%select_returns & [-> E]%scalar_returns)%M_bind_ok. eauto.
Qed.

(** A reset that succeeds found an open token and closed every token of its account. *)
Lemma reset_returns h hashed w u w' : reset_password_with_token h hashed w = (Ok (Some u), w') ->
  exists t, t ∈ tokens w /\ rt_hashed_token t = h /\ open_token t = true /\ clock w < rt_expires_at t /\
    tokens w' = consume (rt_user_id t) (clock w) (tokens w) /\
    accounts w' = update_account (rt_user_id t) (set_password hashed) (accounts w).
Proof.
  unfold reset_password_with_token. intros (now & w1 & [= <- <-] & H1)%M_bind_ok.
  apply M_bind_ok in H1 as (o & w2 & (rows & w3 & [-> [cs ->]]%select_returns & [-> E]%scalar_returns)%M_bind_ok & H1).
  destruct o as [t|]; [|by simplify_eq].
  apply M_bind_ok in H1 as (v & w3 & [[cs1 ->] Eu]%by_id_returns & H1).
  destruct v as [v|]; [|by simplify_eq]. destruct (negb (a_is_active v)); [by simplify_eq|].
  apply M_bind_ok in H1 as ([] & w4 & [cs2 ->]%statement_returns & H1).
  apply M_bind_ok in H1 as ([] & w5 & (cs3 & cs4 & ->)%save_refresh_returns & [= <- <-]).
  assert (t ∈ List.filter (fun t => String.eqb (rt_hashed_token t) h && open_token t && (clock w <? rt_expires_at t))
            (tokens w)) as Ht by (cbn in E; rewrite E; set_solver).
  assert (a_id v = rt_user_id t) as Ev.
  { assert (v ∈ [v]) as Hv by set_solver. rewrite <- Eu in Hv. apply elem_of_filter_bool in Hv as [_ Hv].
    by apply andb_true_iff in Hv as [->%String.eqb_eq _]. }
  apply elem_of_filter_bool in Ht as [Ht [[E1%String.eqb_eq E2]%andb_true_iff E3%Z.ltb_lt]%andb_true_iff].
  exists t. cbn. rewrite Ev. done.
Qed.

(** A closed token resets nothing, now or later. *)
Lemma closed_token_useless t w w' raw password r w'' : inv w -> t ∈ tokens w -> open_token t = false ->
  reach w w' -> sha256 raw = rt_hashed_token t -> reset_password sha256 raw password w' = (Ok r, w'') ->
  (exists status detail code, r = ErrorResponse status detail code /\ 400 <= status) /\ accounts w'' = accounts w'.
Proof.
  intros Hw Ht Hc Hreach Hraw Hr. destruct (account_reach_inv _ _ Hreach Hw) as [Hw' [_ Et _]].
  destruct (Et t Ht) as (t' & Ht' & _ & _ & _ & Heq). specialize (Heq Hc). subst t'.
  unfold reset_password in Hr. destruct (negb _); [injection Hr as <- <-; split; [eexists _, _, _; split; [done|lia]|done]|].
  apply M_bind_ok in Hr as (hashed & w1 & (n & w2 & [= <- <-] & [= <- <-])%M_bind_ok & Hr).
  apply M_bind_ok in Hr as (o & w3 & Ho & Hr). destruct o as [u|].
  - exfalso. apply reset_returns in Ho as (s & Hs & Eh & Eo & _). cbn in Hs.
    assert (s = t) as ->; [|by rewrite Hc in Eo].
    apply (NoDup_map_inj rt_hashed_token (tokens w')); [apply Hw' | done..|]. by rewrite Eh.
  - injection Hr as <- <-. split; [eexists _, _, _; split; [done|lia]|].
    unfold reset_password_with_token in Ho. apply M_bind_ok in Ho as (now & w1 & [= <- <-] & Ho).
    apply M_bind_ok in Ho as (o & w2 & (rows & w4 & [-> [cs ->]]%select_returns & [-> E]%scalar_returns)%M_bind_ok & Ho).
    destruct o as [s|]; [|by injection Ho as <-]. exfalso. cbn in E.
    assert (s ∈ [s]) as Hs by set_solver. rewrite <- E in Hs.
    apply elem_of_filter_bool in Hs as [Hs [[Eh%String.eqb_eq Eo]%andb_true_iff _]%andb_true_iff].
    assert (s = t) as ->; [|by rewrite Hc in Eo].
    apply (NoDup_map_inj rt_hashed_token (tokens w')); [apply Hw' | done..|]. unfold hash_verification_token in Eh. congruence.
Qed.

(** *** Runs on a healthy database *)

Definition at_time (now : Z) (w : world) : world :=
  World (accounts w) (tokens w) (drawn w) now (outbox w) (db w).

Definition found_by_email (email : string) (w : world) : option account :=
  List.find (fun a => String.eqb (a_email a) (norm_email email) && (false || not_deleted a)) (accounts w).

Lemma by_email_run email w : inv w -> db w = [] ->
  get_user_by_email email false w = (Ok (found_by_email email w), w).
Proof.
  intros Hw Hs. apply (lookup_ok _ accounts); [done|]. apply (filter_unique a_email); [apply Hw|]. intros x y _ _.
  by intros [->%String.eqb_eq _]%andb_true_iff [->%String.eqb_eq _]%andb_true_iff.
Qed.

Lemma found_email a email w : inv w -> a ∈ accounts w -> a_email a = norm_email email -> not_deleted a = true ->
  found_by_email email w = Some a.
Proof.
  intros Hw Ha He Hd. apply find_unique; [done| |].
  - by rewrite He, String.eqb_refl, Hd.
  - intros b Hb [Eb%String.eqb_eq _]%andb_true_iff.
    apply (NoDup_map_inj a_email (accounts w)); [apply Hw | done..|]. by rewrite Eb.
Qed.

Lemma not_found_email email w : (forall a, a ∈ accounts w -> a_email a = norm_email email -> not_deleted a = false) ->
  found_by_email email w = None.
Proof.
  intros Hn. unfold found_by_email. destruct (List.find _ _) as [a|] eqn:E; [|done].
  apply find_some in E as [Ha%list_elem_of_In [Ea%String.eqb_eq Ed]%andb_true_iff].
  cbn in Ed. by rewrite (Hn a Ha Ea) in Ed.
Qed.

Lemma by_id_run a w : inv w -> db w = [] -> a ∈ accounts w -> not_deleted a = true ->
  get_user_by_id (a_id a) false w = (Ok (Some a), w).
Proof.
  intros Hw Hs Ha Hd. unfold get_user_by_id. rewrite (lookup_ok _ accounts); [|done|].
  - f_equal. f_equal. apply find_unique; [done | by rewrite String.eqb_refl, Hd |].
    intros b Hb [Eb%String.eqb_eq _]%andb_true_iff. by apply (NoDup_map_inj a_id (accounts w)); [apply Hw|..].
  - apply (filter_unique a_id); [apply Hw|]. intros x y _ _.
    by intros [->%String.eqb_eq _]%andb_true_iff [->%String.eqb_eq _]%andb_true_iff.
Qed.

Lemma update_last_login_run a w : inv w -> db w = [] -> a ∈ accounts w -> not_deleted a = true ->
  update_last_login (a_id a) w =
    (Ok true, with_accounts (update_account (a_id a) (set_last_login (clock w))) w).
Proof.
  intros Hw Hs Ha Hd. unfold update_last_login. rewrite M_bind_run, by_id_run by done.
  rewrite M_bind_run. cbn -[save_or_rollback]. by rewrite save_or_rollback_ok.
Qed.

Definition invalid_credentials : response :=
  ErrorResponse 401 (Some "Invalid email or password.") "invalid_credentials".

(** Login of an account on record. *)
Lemma login_run a email password w : inv w -> db w = [] -> a ∈ accounts w ->
  a_email a = norm_email email -> not_deleted a = true ->
  login settings email password w =
    if negb (verify_password password (a_hashed_password a)) then (Ok invalid_credentials, w)
    else if negb (a_is_active a) then (Ok (ErrorResponse 401 (Some "User account is inactive.") "account_inactive"), w)
    else if negb (a_is_verified a) then
      (Ok (ErrorResponse 401 (Some "Email address is not verified.") "email_unverified"), w)
    else
      let w' := with_accounts (update_account (a_id a) (set_last_login (clock w))) w in
      match create_access_token settings (a_id a) (a_role a) None None None None None (clock w) with
      | Ok token => (Ok (TokenResponse token "bearer" (jwt_expiry_minutes settings * 60)), w')
      | Raise e => (Raise e, w')
      end.
Proof.
  intros Hw Hs Ha He Hd. unfold login. rewrite M_bind_run, by_email_run, (found_email a) by done.
  destruct (negb (verify_password _ _)); [done|]. destruct (negb (a_is_active a)); [done|].
  destruct (negb (a_is_verified a)); [done|]. rewrite M_bind_run, update_last_login_run by done.
  cbn -[create_access_token]. unfold read_attribute. rewrite !M_bind_run. cbn -[create_access_token].
  rewrite M_bind_run. cbn -[create_access_token]. rewrite M_bind_run. unfold lift.
  by destruct (create_access_token _ _ _ _ _ _ _ _ _).
Qed.

Lemma verify_own salt p : verify_password p (ph_hash salt p) = true.
Proof. unfold verify_password. by rewrite ph_verify_hash. Qed.

Lemma verify_other salt p q : q <> p -> verify_password q (ph_hash salt p) = false.
Proof.
  intros Hne. unfold verify_password. destruct (ph_verify _ _) as [[]|] eqn:E; [|done..].
  apply ph_verify_only in E. done.
Qed.

(** What the authentication providers see of the tables. *)
Definition as_user (a : account) : User :=
  {| u_id := a_id a; u_role := a_role a; u_is_active := a_is_active a; u_is_verified := a_is_verified a;
     u_deleted_at := a_deleted_at a |}.

Definition auth_view (keys : gmap string ApiKey) (w : world) : auth_db :=
  AuthDb true (list_to_map (map (fun a => (a_id a, as_user a)) (accounts w))) keys.

Lemma auth_view_lookup keys w a : inv w -> a ∈ accounts w -> users (auth_view keys w) !! a_id a = Some (as_user a).
Proof.
  intros Hw Ha. cbn. apply elem_of_list_to_map.
  - rewrite <- list_fmap_compose. apply (inv_ids w Hw).
  - apply list_elem_of_fmap. by exists a.
Qed.

(** *** Registration *)

(** The account that [register] stores in [w]. *)
Definition registered (payload : UserRegisterRequest) (w : world) : account :=
  {| a_id := uuid4 (S (S (drawn w))); a_email := norm_email (rr_email payload);
     a_hashed_password := ph_hash (drawn w) (rr_password payload); a_full_name := rr_full_name payload;
     a_role := "user"; a_is_active := true; a_is_verified := false;
     a_verification_token := Some (sha256 (token_urlsafe (S (drawn w))));
     a_verification_expires_at := Some (clock w + verification_lifetime); a_last_login_at := None;
     a_deleted_at := None; a_created_at := clock w |}.

Definition verification_mail (email raw : string) : mail :=
  VerificationMail email (app_base_url settings +:+ "/api/v1/auth/verify-email?token=" +:+ raw).

(** Run the draws and clock readings in front of the next statement. *)
Ltac run_binds := repeat (rewrite M_bind_run; cbn -[save_if statement insertable token_insertable]).

Lemma register_run payload w : inv w -> db w = [] -> (validate_password_policy (rr_password payload)).1 = true ->
  found_by_email (rr_email payload) w = None ->
  let u := registered payload w in
  let drawn3 := World (accounts w) (tokens w) (S (S (S (drawn w)))) (clock w) (outbox w) (db w) in
  register token_urlsafe sha256 uuid4 settings payload w =
    if insertable u w
    then (Ok (UserBody 201 (user_response u)),
          World (accounts w ++ [u]) (tokens w) (S (S (S (drawn w)))) (clock w)
            (outbox w ++ [verification_mail (a_email u) (token_urlsafe (S (drawn w)))]) (db w))
    else (Raise integrity_error, drawn3).
Proof.
  intros Hw Hs Hp Hf u drawn3. unfold register. rewrite Hp. cbn [negb].
  rewrite M_bind_run, by_email_run, Hf by done. unfold hash_password, generate_verification_token, create_user.
  run_binds. fold drawn3. rewrite save_if_ok by done. change (insertable _ drawn3) with (insertable u w).
  destruct (insertable u w); [|done]. rewrite M_bind_run, statement_ok by done. done.
Qed.

Lemma insertable_ok u w : (forall a, a ∈ accounts w -> a_email a <> a_email u /\ a_id a <> a_id u) ->
  Z.of_nat (String.length (a_email u)) <= 255 -> insertable u w = true.
Proof.
  intros Hne Hl. unfold insertable. apply andb_true_iff. split; [|by apply Z.leb_le].
  apply forallb_true. intros a Ha. destruct (Hne a Ha) as [H1%String.eqb_neq H2%String.eqb_neq]. by rewrite H1, H2.
Qed.

Lemma verify_email_run a raw expires w : inv w -> db w = [] -> a ∈ accounts w -> not_deleted a = true ->
  a_verification_token a = Some (sha256 raw) -> a_verification_expires_at a = Some expires -> clock w <= expires ->
  verify_email sha256 raw w = (Ok (AuthMessageResponse 200 "Email address verified successfully."),
    with_accounts (update_account (a_id a) set_verified) w).
Proof.
  intros Hw Hs Ha Hd Hv Hx Hc. unfold verify_email, get_user_by_hashed_verification_token.
  rewrite M_bind_run, (lookup_ok _ accounts); [|done|].
  - rewrite (find_unique _ _ a); [|done| |].
    + rewrite Hx. rewrite M_bind_run. cbn -[verify_user_email]. rewrite (proj2 (Z.ltb_ge _ _)) by lia.
      unfold verify_user_email. by rewrite !M_bind_run, save_refresh_ok.
    + unfold hash_verification_token. by rewrite bool_decide_eq_true_2, Hd.
    + intros b Hb [Eb%bool_decide_eq_true _]%andb_true_iff.
      apply (NoDup_map_inj a_id (accounts w)); [apply Hw|done..|]. by apply (inv_verification w Hw b a (sha256 raw)).
  - apply (filter_unique a_id); [apply Hw|]. intros x y Hx' Hy.
    intros [Ex%bool_decide_eq_true _]%andb_true_iff [Ey%bool_decide_eq_true _]%andb_true_iff.
    by apply (inv_verification w Hw x y (hash_verification_token sha256 raw)).
Qed.

(** A verification token no account carries is refused. *)
Lemma verify_email_unknown raw w : db w = [] -> (forall a, a ∈ accounts w -> ~ verifiable (sha256 raw) a) ->
  verify_email sha256 raw w =
    (Ok (ErrorResponse 400 (Some "Invalid or expired verification token.") "invalid_verification_token"), w).
Proof.
  intros Hs Hn. unfold verify_email, get_user_by_hashed_verification_token. rewrite M_bind_run, (lookup_ok _ accounts).
  - destruct (List.find _ _) as [a|] eqn:E; [|done].
    apply find_some in E as [Ha%list_elem_of_In [Ea%bool_decide_eq_true _]%andb_true_iff]. by destruct (Hn a Ha).
  - done.
  - left. destruct (List.filter _ _) as [|a l] eqn:E; [done|]. exfalso.
    assert (a ∈ a :: l) as Ha by set_solver. rewrite <- E in Ha.
    apply elem_of_filter_bool in Ha as [Ha [Ea%bool_decide_eq_true _]%andb_true_iff]. by destruct (Hn a Ha).
Qed.

(** *** Password reset *)

Definition new_token (a : account) (w : world) : PasswordResetToken :=
  {| rt_user_id := a_id a; rt_hashed_token := sha256 (token_urlsafe (drawn w));
     rt_expires_at := clock w + reset_lifetime settings; rt_used_at := None |}.

Lemma request_reset_run a email w : inv w -> db w = [] -> a ∈ accounts w ->
  a_email a = norm_email email -> not_deleted a = true -> a_is_active a = true ->
  (forall t, t ∈ tokens w -> rt_hashed_token t <> sha256 (token_urlsafe (drawn w))) ->
  request_password_reset token_urlsafe sha256 settings email w =
    (Ok reset_requested, World (accounts w) (tokens w ++ [new_token a w]) (S (drawn w)) (clock w)
       (outbox w ++ [PasswordResetMail (a_id a) (a_email a)
          (app_base_url settings +:+ "/api/v1/auth/reset?token=" +:+ token_urlsafe (drawn w))]) (db w)).
Proof.
  intros Hw Hs Ha He Hd Hact Hfresh. unfold request_password_reset.
  rewrite M_bind_run, by_email_run, (found_email a), Hact by done.
  unfold generate_verification_token, create_password_reset_token. run_binds.
  rewrite save_if_ok by done.
  replace (token_insertable _ _) with true.
  - rewrite M_bind_run, statement_ok by done. done.
  - symmetry. apply andb_true_iff. split.
    + apply forallb_true. intros t Ht. apply negb_true_iff, String.eqb_neq. by apply Hfresh.
    + apply existsb_true. exists a. split; [done | apply String.eqb_refl].
Qed.

Lemma reset_run t a raw password w : inv w -> db w = [] -> t ∈ tokens w -> rt_hashed_token t = sha256 raw ->
  open_token t = true -> clock w < rt_expires_at t -> a ∈ accounts w -> rt_user_id t = a_id a ->
  not_deleted a = true -> a_is_active a = true -> (validate_password_policy password).1 = true ->
  reset_password sha256 raw password w =
    (Ok (AuthMessageResponse 200 "Password has been reset successfully. Please log in with your new password."),
     after_reset (a_id a) (clock w) (ph_hash (drawn w) password)
       (World (accounts w) (tokens w) (S (drawn w)) (clock w) (outbox w) (db w))).
Proof.
  intros Hw Hs Ht Hh Ho Hx Ha Hu Hd Hact Hp. unfold reset_password. rewrite Hp. cbn [negb].
  unfold hash_password. rewrite !M_bind_run. cbn -[reset_password_with_token].
  set (w1 := World (accounts w) (tokens w) (S (drawn w)) (clock w) (outbox w) (db w)).
  assert (inv w1) as Hw1 by (apply (same_tables_inv w); [split_and!; cbn; [done..|lia] | done]).
  rewrite M_bind_run. unfold reset_password_with_token. rewrite M_bind_run. cbn -[select get_user_by_id statement save_refresh].
  rewrite M_bind_run, (lookup_ok _ tokens); [|done|].
  - rewrite (find_unique _ _ t); [|done| |].
    + rewrite M_bind_run, Hu, by_id_run, Hact by done. cbn [negb]. rewrite M_bind_run, statement_ok by done.
      by rewrite M_bind_run, save_refresh_ok.
    + unfold hash_verification_token. by rewrite Hh, String.eqb_refl, Ho, (proj2 (Z.ltb_lt _ _)).
    + intros s Hs' [[Eh%String.eqb_eq _]%andb_true_iff _]%andb_true_iff.
      apply (NoDup_map_inj rt_hashed_token (tokens w)); [apply Hw | done..|]. by rewrite Hh.
  - apply (open_token_unique (sha256 raw) (clock w) w1 Hw1).
Qed.
End invariant.

(** ** Properties *)

(** C18. Whatever the users send, whatever statements fail and however the clock
    moves, the account tables keep unique ids, e-mails, verification and reset
    tokens; nothing undoes a deletion or the use of a reset token; and no request
    ends in an exception other than the session's and a missing signing key (in
    particular no look-up finds a second row). *)
Theorem accounts_invariant `{Argon2} `{Jwt} (token_urlsafe : nat -> string) (sha256 : string -> string)
    (uuid4 : nat -> uuid) (settings : AuthSettings) (w w' : world) :
  (forall i j, sha256 (token_urlsafe i) = sha256 (token_urlsafe j) -> i = j) ->
  inv token_urlsafe sha256 w -> reach token_urlsafe sha256 uuid4 settings w w' ->
  inv token_urlsafe sha256 w' /\ evolves w w' /\
  forall op, match (perform token_urlsafe sha256 uuid4 settings op w').1 with
             | Ok _ => True
             | Raise e => db_exn e \/ e = ValueError
             end.
Proof.
  intros Hd Hw Hr. destruct (account_reach_inv _ _ uuid4 settings Hd w w' Hr Hw) as [Hw' He]. split_and!; [done..|].
  intros op. pose proof (perform_keeps _ _ uuid4 settings Hd w' op w' (since_refl _ _ w' Hw')) as Hp.
  destruct (perform _ _ _ _ op w') as [[a|e] w2]; cbn; [done | apply Hp].
Qed.

(** C19. A successful reset uses up every reset token its account had: presented
    again, at any later point of any history, none of them changes a password. *)
Theorem reset_tokens_single_use `{Argon2} `{Jwt} (token_urlsafe : nat -> string) (sha256 : string -> string)
    (uuid4 : nat -> uuid) (settings : AuthSettings) (w w1 : world) (raw password message : string) (status : Z) :
  (forall i j, sha256 (token_urlsafe i) = sha256 (token_urlsafe j) -> i = j) ->
  inv token_urlsafe sha256 w ->
  reset_password sha256 raw password w = (Ok (AuthMessageResponse status message), w1) ->
  exists t, t ∈ tokens w /\ rt_hashed_token t = sha256 raw /\ open_token t = true /\ clock w < rt_expires_at t /\
    forall s raw' password' w2 r w3, s ∈ tokens w -> rt_user_id s = rt_user_id t ->
      rt_hashed_token s = sha256 raw' -> reach token_urlsafe sha256 uuid4 settings w1 w2 ->
      reset_password sha256 raw' password' w2 = (Ok r, w3) ->
      (exists status detail code, r = ErrorResponse status detail code /\ 400 <= status) /\
      accounts w3 = accounts w2.
Proof.
  intros Hd Hw Hr. unfold reset_password in Hr. destruct (negb _); [done|].
  apply M_bind_ok in Hr as (hashed & w2 & (n & w3 & [= <- <-] & [= <- <-])%M_bind_ok & Hr).
  apply M_bind_ok in Hr as ([u|] & w4 & Ho & Hr); [|done]. injection Hr as _ _ <-.
  destruct (reset_returns _ _ Hd _ _ _ _ _ Ho) as (t & Ht & Hh & Hop & Hx & Etok & _). cbn in *.
  exists t. split_and!; [done..|]. intros s raw' password' w2 r w3 Hs Hu Eh Hreach Hrr.
  set (drawn1 := World (accounts w) (tokens w) (S (drawn w)) (clock w) (outbox w) (db w)) in *.
  assert (inv token_urlsafe sha256 w4) as Hw4.
  { pose proof (reset_with_token_keeps token_urlsafe sha256 w (hash_verification_token sha256 raw)
      (ph_hash (drawn w) password) drawn1) as Hk'.
    rewrite Ho in Hk'. apply Hk'. apply (since_same _ _ w w); [split_and!; cbn; [done..|lia] | by apply since_refl]. }
  eapply (closed_token_useless _ _ uuid4 settings Hd
    (if String.eqb (rt_user_id s) (rt_user_id t) && open_token s
     then {| rt_user_id := rt_user_id s; rt_hashed_token := rt_hashed_token s; rt_expires_at := rt_expires_at s;
             rt_used_at := Some (clock w) |} else s) w4 w2 raw' password'); [done| | |done| |done].
  - rewrite Etok. apply consume_elem. by exists s.
  - rewrite Hu, String.eqb_refl. by destruct (open_token s) eqn:E.
  - rewrite Hu, String.eqb_refl. by destruct (open_token s).
Qed.

(** C20. On a healthy database, login issues a token exactly to an account on record
    that is active and verified, for its password; the token then authenticates
    that account until it expires, and only [last_login_at] changes.  Any other
    login is a 401 that changes nothing. *)
Theorem login_correct `{Argon2} `{Jwt} (token_urlsafe : nat -> string) (sha256 : string -> string)
    (settings : AuthSettings) (keys : gmap string ApiKey) (email password : string) (w : world) :
  inv token_urlsafe sha256 w -> db w = [] -> truthy (jwt_secret_key settings) <> None ->
  match found_by_email email w with
  | None => login settings email password w = (Ok invalid_credentials, w)
  | Some a =>
      a ∈ accounts w /\ a_email a = norm_email email /\ not_deleted a = true /\
      if verify_password password (a_hashed_password a) && a_is_active a && a_is_verified a then
        let w' := with_accounts (update_account (a_id a) (set_last_login (clock w))) w in
        exists token, login settings email password w =
          (Ok (TokenResponse token "bearer" (jwt_expiry_minutes settings * 60)), w') /\
        forall parse_uuid prom req now,
          clock w <= now -> now / 1000000 < (clock w + jwt_expiry_minutes settings * 60000000) / 1000000 ->
          header req "Authorization" = Some ("Bearer " +:+ token) -> truthy prom <> Some token ->
          str_truthy (a_id a) = true -> parse_uuid (a_id a) = Some (a_id a) ->
          jwt_authenticate settings parse_uuid prom now req (auth_view keys w') =
            (Ok (with_user req (Some (as_user a))), auth_view keys w')
      else exists detail code, login settings email password w = (Ok (ErrorResponse 401 detail code), w)
  end.
Proof.
  intros Hw Hs Hk. destruct (found_by_email email w) as [a|] eqn:Ef; cycle 1.
  { unfold login. by rewrite M_bind_run, (by_email_run token_urlsafe sha256), Ef by done. }
  unfold found_by_email in Ef.
  apply find_some in Ef as [Ha%list_elem_of_In [He%String.eqb_eq Hd]%andb_true_iff]. cbn in Hd. split_and!; [done..|].
  rewrite (login_run token_urlsafe sha256 settings a) by done.
  destruct (verify_password _ _); cbn; [|by eauto]. destruct (a_is_active a) eqn:Eact; cbn; [|by eauto].
  destruct (a_is_verified a) eqn:Ever; cbn; [|by eauto].
  unfold create_access_token at 1. cbn [truthy]. destruct (truthy (jwt_secret_key settings)) as [key|] eqn:Ekey; [|done].
  eexists. split; [reflexivity|]. intros parse prom req now Hnow Hexp Hh Hp Hid Hparse.
  set (w' := with_accounts (update_account (a_id a) (set_last_login (clock w))) w).
  assert (inv token_urlsafe sha256 w') as Hw'
    by (apply (row_change_inv _ _ (a_id a) _ w (set_last_login_change _ _ (a_id a) (clock w) w) Hw)).
  assert (set_last_login (clock w) a ∈ accounts w') as Ha'.
  { apply update_account_elem. exists a. by rewrite String.eqb_refl. }
  pose proof (auth_view_lookup _ _ keys w' _ Hw' Ha') as Hl.
  change (a_id (set_last_login (clock w) a)) with (u_id (as_user a)) in Hl.
  change (as_user (set_last_login (clock w) a)) with (as_user a) in Hl.
  eapply (token_authenticates settings parse prom (clock w)); try done.
  - unfold create_access_token. cbn [truthy]. rewrite Ekey. reflexivity.
  - split; [by exists (u_id (as_user a))|]. cbn. split; [done|]. unfold not_deleted in Hd.
    by apply bool_decide_eq_true in Hd.
Qed.

(** A new account: registration mails a token; login is refused until the
    mailed token is presented, at any time within 24 hours; from then on the
    password, and no other, logs in, and the mailed token is spent. *)
Theorem registration_lifecycle `{Argon2} `{Jwt} (token_urlsafe : nat -> string) (sha256 : string -> string)
    (uuid4 : nat -> uuid) (settings : AuthSettings) (payload : UserRegisterRequest) (w : world) :
  (forall i j, sha256 (token_urlsafe i) = sha256 (token_urlsafe j) -> i = j) ->
  inv token_urlsafe sha256 w -> db w = [] -> truthy (jwt_secret_key settings) <> None ->
  (validate_password_policy (rr_password payload)).1 = true ->
  Z.of_nat (String.length (norm_email (rr_email payload))) <= 255 ->
  (forall a, a ∈ accounts w -> a_email a <> norm_email (rr_email payload) /\ a_id a <> uuid4 (S (S (drawn w)))) ->
  exists u raw w1,
    register token_urlsafe sha256 uuid4 settings payload w = (Ok (UserBody 201 (user_response u)), w1) /\
    outbox w1 = outbox w ++ [verification_mail settings (norm_email (rr_email payload)) raw] /\
    (exists detail, login settings (rr_email payload) (rr_password payload) w1 =
                      (Ok (ErrorResponse 401 detail "email_unverified"), w1)) /\
    forall now, now <= clock w + verification_lifetime -> exists w2,
      verify_email sha256 raw (at_time now w1) =
        (Ok (AuthMessageResponse 200 "Email address verified successfully."), w2) /\
      (exists token w3, login settings (rr_email payload) (rr_password payload) w2 =
                          (Ok (TokenResponse token "bearer" (jwt_expiry_minutes settings * 60)), w3)) /\
      (forall q, q <> rr_password payload -> login settings (rr_email payload) q w2 = (Ok invalid_credentials, w2)) /\
      (exists detail, verify_email sha256 raw w2 = (Ok (ErrorResponse 400 detail "invalid_verification_token"), w2)).
Proof.
  intros Hd Hw Hs Hk Hp Hl Hnew. set (u := registered token_urlsafe sha256 uuid4 payload w).
  pose proof (register_run token_urlsafe sha256 uuid4 settings payload w Hw Hs Hp) as Hr.
  specialize (Hr (not_found_email _ w (fun a Ha E => False_ind _ (proj1 (Hnew a Ha) E)))).
  cbv zeta in Hr. fold u in Hr. rewrite insertable_ok in Hr by (cbn; auto).
  eexists u, (token_urlsafe (S (drawn w))), _. split; [exact Hr|]. split; [done|].
  set (w1 := World _ _ _ _ _ _) in *.
  assert (inv token_urlsafe sha256 w1) as Hw1.
  { pose proof (register_keeps token_urlsafe sha256 uuid4 settings Hd w payload w (since_refl _ _ w Hw)) as K.
    rewrite Hr in K. apply K. }
  assert (u ∈ accounts w1) as Hu by (cbn; set_solver).
  split.
  { rewrite (login_run token_urlsafe sha256 settings u) by done. cbn [a_hashed_password u registered].
    rewrite verify_own. cbn. eauto. }
  intros now Hnow. eexists.
  assert (inv token_urlsafe sha256 (at_time now w1)) as Hwt by (apply (same_tables_inv _ _ w1); [by split_and! | done]).
  rewrite (verify_email_run token_urlsafe sha256 u (token_urlsafe (S (drawn w))) (clock w + verification_lifetime))
    by done.
  split; [reflexivity|]. set (w2 := with_accounts _ _).
  assert (inv token_urlsafe sha256 w2) as Hw2
    by (apply (row_change_inv _ _ (a_id u) _ _ (set_verified_change _ _ (a_id u) _) Hwt)).
  assert (set_verified u ∈ accounts w2) as Hu2.
  { apply update_account_elem. exists u. by rewrite String.eqb_refl. }
  split_and!.
  - rewrite (login_run token_urlsafe sha256 settings (set_verified u)) by done.
    cbn [a_hashed_password set_verified u registered]. rewrite verify_own. cbn.
    destruct (create_access_token _ _ _ _ _ _ _ _ _) eqn:E; [by eauto|].
    unfold create_access_token in E. cbn [truthy] in E. by destruct (truthy (jwt_secret_key settings)).
  - intros q Hq. rewrite (login_run token_urlsafe sha256 settings (set_verified u)) by done.
    cbn [a_hashed_password set_verified u registered]. by rewrite verify_other.
  - eexists. apply (verify_email_unknown token_urlsafe); [done..|].
    intros a (b & Hb & ->)%update_account_elem. destruct (String.eqb_spec (a_id b) (a_id u)) as [E|E]; [done|].
    intros Hv. destruct E. by apply (inv_verification _ _ _ Hwt b u (sha256 (token_urlsafe (S (drawn w))))).
Qed.

(** Password reset: an active account is mailed a token that, within its
    lifetime, replaces the password; the new password, and no other, then
    passes the check. *)
Theorem password_reset_roundtrip `{Argon2} `{Jwt} (token_urlsafe : nat -> string) (sha256 : string -> string)
    (settings : AuthSettings) (a : account) (email password : string) (w : world) :
  inv token_urlsafe sha256 w -> db w = [] -> truthy (jwt_secret_key settings) <> None ->
  a ∈ accounts w -> a_email a = norm_email email -> not_deleted a = true -> a_is_active a = true ->
  (forall t, t ∈ tokens w -> rt_hashed_token t <> sha256 (token_urlsafe (drawn w))) ->
  (validate_password_policy password).1 = true ->
  exists raw w1,
    request_password_reset token_urlsafe sha256 settings email w = (Ok reset_requested, w1) /\
    outbox w1 = outbox w ++ [PasswordResetMail (a_id a) (a_email a)
                               (app_base_url settings +:+ "/api/v1/auth/reset?token=" +:+ raw)] /\
    forall now, now < clock w + reset_lifetime settings -> exists message w2,
      reset_password sha256 raw password (at_time now w1) = (Ok (AuthMessageResponse 200 message), w2) /\
      (forall q, q <> password -> login settings email q w2 = (Ok invalid_credentials, w2)) /\
      (a_is_verified a = true -> exists token w3, login settings email password w2 =
         (Ok (TokenResponse token "bearer" (jwt_expiry_minutes settings * 60)), w3)).
Proof.
  intros Hw Hs Hk Ha He Hd Hact Hfresh Hp. eexists (token_urlsafe (drawn w)), _.
  split; [by apply request_reset_run|]. split; [done|]. intros now Hnow.
  set (w1 := World (accounts w) (tokens w ++ [new_token token_urlsafe sha256 settings a w]) _ _ _ _).
  assert (inv token_urlsafe sha256 (at_time now w1)) as Hwt.
  { pose proof (insert_token_inv token_urlsafe sha256 (new_token token_urlsafe sha256 settings a w) w) as [Hi _];
      [|done|apply (same_tables_inv _ _ _ (at_time now w1)) in Hi; [apply Hi | split_and!; cbn; [done..|lia]]].
    apply andb_true_iff. split.
    - apply forallb_true. intros t Ht. apply negb_true_iff, String.eqb_neq. by apply Hfresh.
    - apply existsb_true. exists a. split; [done | apply String.eqb_refl]. }
  eexists _, _. rewrite (reset_run token_urlsafe sha256 (new_token token_urlsafe sha256 settings a w) a); try done;
    [|cbn; set_solver].
  split; [reflexivity|]. set (hashed := ph_hash _ _). set (w2 := after_reset _ _ _ _).
  assert (inv token_urlsafe sha256 w2) as Hw2.
  { apply after_reset_inv. by apply (same_tables_inv _ _ (at_time now w1)); [split_and!; cbn; [done..|lia]|]. }
  assert (set_password hashed a ∈ accounts w2) as Ha2.
  { apply update_account_elem. exists a. by rewrite String.eqb_refl. }
  split.
  - intros q Hq. rewrite (login_run token_urlsafe sha256 settings (set_password hashed a)) by done.
    cbn [a_hashed_password set_password]. unfold hashed. by rewrite verify_other.
  - intros Hv. rewrite (login_run token_urlsafe sha256 settings (set_password hashed a)) by done.
    cbn [a_hashed_password set_password a_is_active a_is_verified]. unfold hashed. rewrite verify_own, Hact, Hv. cbn.
    destruct (create_access_token _ _ _ _ _ _ _ _ _) eqn:E; [by eauto|].
    unfold create_access_token in E. cbn [truthy] in E. by destruct (truthy (jwt_secret_key settings)).
Qed.

(** Neither a reset request nor a resent verification tells whether the address
    has an account: on a healthy database the answer is one constant. *)
Theorem no_account_enumeration `{Argon2} (token_urlsafe : nat -> string) (sha256 : string -> string)
    (settings : AuthSettings) (email : string) (w : world) :
  inv token_urlsafe sha256 w -> db w = [] ->
  (forall t, t ∈ tokens w -> rt_hashed_token t <> sha256 (token_urlsafe (drawn w))) ->
  (request_password_reset token_urlsafe sha256 settings email w).1 = Ok reset_requested /\
  (resend_verification token_urlsafe sha256 settings email w).1 = Ok resent.
Proof.
  intros Hw Hs Hfresh. split.
  - destruct (found_by_email email w) as [a|] eqn:Ef; cycle 1.
    { unfold request_password_reset. by rewrite M_bind_run, (by_email_run token_urlsafe sha256), Ef. }
    pose proof Ef as [Ha%list_elem_of_In [He%String.eqb_eq Hd]%andb_true_iff]%find_some.
    destruct (a_is_active a) eqn:Eact; [by rewrite (request_reset_run token_urlsafe sha256 settings a)|].
    unfold request_password_reset. by rewrite M_bind_run, (by_email_run token_urlsafe sha256), Ef, Eact.
  - unfold resend_verification. rewrite M_bind_run, (by_email_run token_urlsafe sha256) by done.
    destruct (found_by_email email w) as [a|]; [|done].
    destruct (negb (a_is_verified a) && a_is_active a); [|done].
    unfold generate_verification_token, update_verification_token.
    repeat (rewrite M_bind_run; cbn -[save_refresh]). by rewrite save_refresh_ok.
Qed.

(** The address of a deleted account stays taken: registration does not answer
    409 but fails on the unique constraint. *)
Theorem deleted_email_fails_registration `{Argon2} (token_urlsafe : nat -> string) (sha256 : string -> string)
    (uuid4 : nat -> uuid) (settings : AuthSettings) (payload : UserRegisterRequest) (a : account) (w : world) :
  inv token_urlsafe sha256 w -> db w = [] -> (validate_password_policy (rr_password payload)).1 = true ->
  a ∈ accounts w -> a_email a = norm_email (rr_email payload) -> not_deleted a = false ->
  (register token_urlsafe sha256 uuid4 settings payload w).1 = Raise integrity_error.
Proof.
  intros Hw Hs Hp Ha He Hd. rewrite (register_run token_urlsafe sha256 uuid4 settings payload w Hw Hs Hp).
  - replace (insertable _ w) with false; [done|]. symmetry. apply andb_false_iff. left.
    apply not_true_iff_false. rewrite forallb_true. intros Hall. specialize (Hall a Ha). cbn in Hall.
    by rewrite He, String.eqb_refl in Hall.
  - apply not_found_email. intros b Hb Eb.
    assert (b = a) as ->; [|done]. apply (NoDup_map_inj a_email (accounts w)); [apply Hw | done..|congruence].
Qed.

(** A failed update of [last_login_at] is swallowed, yet the login fails: the
    rollback expires the account, whose id is read next. *)
Theorem swallowed_update_fails_login `{Argon2} `{Jwt} (token_urlsafe : nat -> string) (sha256 : string -> string)
    (settings : AuthSettings) (a : account) (email password : string) (w : world) :
  inv token_urlsafe sha256 w -> db w = [true; true; false] ->
  a ∈ accounts w -> a_email a = norm_email email -> not_deleted a = true ->
  verify_password password (a_hashed_password a) = true -> a_is_active a = true -> a_is_verified a = true ->
  (login settings email password w).1 = Raise missing_greenlet.
Proof.
  intros Hw Hs Ha He Hd Hp Hact Hv. set (w1 := World (accounts w) (tokens w) (drawn w) (clock w) (outbox w) []).
  assert (inv token_urlsafe sha256 w1) as Hw1 by (apply (same_tables_inv _ _ w); [by split_and! | done]).
  assert (forall cs, let wc := World (accounts w) (tokens w) (drawn w) (clock w) (outbox w) in
    get_user_by_email email false (wc (true :: cs)) = (Ok (Some a), wc cs) /\
    get_user_by_id (a_id a) false (wc (true :: cs)) = (Ok (Some a), wc cs)) as Hlook.
  { intros cs wc. pose proof (by_email_run token_urlsafe sha256 email w1 Hw1 eq_refl) as E1.
    rewrite (found_email token_urlsafe sha256 a) in E1 by done.
    pose proof (by_id_run token_urlsafe sha256 a w1 Hw1 eq_refl Ha Hd) as E2.
    unfold get_user_by_email, get_user_by_id, select in *. rewrite !M_bind_run in *. cbn in *. split.
    - destruct (List.filter _ _) as [|x [|y l]] in E1 |- *; [done | by injection E1 as -> | done].
    - destruct (List.filter _ _) as [|x [|y l]] in E2 |- *; [done | by injection E2 as -> | done]. }
  destruct w as [acc tok dr ck ob cs]. cbn in Hs. subst cs. unfold login, update_last_login.
  rewrite M_bind_run, (proj1 (Hlook _)), Hp, Hact, Hv. cbn [negb]. rewrite !M_bind_run, (proj2 (Hlook _)). done.
Qed.

Module AccountsWitness.
#[local] Existing Instance AuthWitness.bits_jwt.

(** An ideal hash, counters as secrets. *)
#[export] Instance plain_argon2 : Argon2.
Proof.
  refine {| ph_hash _ p := p; ph_verify h p := Ok (String.eqb h p) |}.
  - intros _ p. by rewrite String.eqb_refl.
  - intros _ p q [= ->%String.eqb_eq]. done.
Defined.

Fixpoint unary (n : nat) : string := match n with O => "" | S n => "x" +:+ unary n end.

Lemma unary_inj i j : unary i = unary j -> i = j.
Proof. revert j. induction i as [|i IH]; intros [|j]; cbn; [done..|]. intros [= E%IH]. by subst. Qed.

Definition uuid4 (n : nat) : uuid := "u" +:+ unary n.
Definition settings : AuthSettings := AuthWitness.settings.
Definition password : string := "Abcdef1!".
Definition payload : UserRegisterRequest :=
  {| rr_email := " Ada@Example.org"; rr_password := password; rr_full_name := None |}.

Definition empty : world := World [] [] 0 0 [] [].
Definition ada : account := set_verified (registered unary id uuid4 payload empty).
Definition ada_world : world := World [ada] [] 3 0 [] [].

Lemma empty_inv : inv unary id empty.
Proof. split; try constructor; set_solver. Qed.

Lemma ada_inv : inv unary id ada_world.
Proof.
  split; cbn.
  - apply NoDup_singleton.
  - apply NoDup_singleton.
  - intros a b h ->%list_elem_of_singleton ->%list_elem_of_singleton. done.
  - intros a h ->%list_elem_of_singleton. done.
  - intros a ->%list_elem_of_singleton. done.
  - constructor.
  - set_solver.
Qed.

Lemma accounts_invariant_witness :
  inv unary id (perform unary id uuid4 settings (Register payload) empty).2.
Proof.
  apply (accounts_invariant unary id uuid4 settings empty _ unary_inj empty_inv).
  eapply reach_op, reach_refl.
Defined.

(** Ada asks for a reset twice and uses the second token. *)
Definition asked : world := (perform unary id uuid4 settings (RequestPasswordReset "ada@example.org")
  (perform unary id uuid4 settings (RequestPasswordReset "ada@example.org") ada_world).2).2.

Lemma reset_tokens_single_use_witness : exists w1 t,
  reset_password id (unary 4) "Qwerty2?" asked = (Ok (AuthMessageResponse 200
    "Password has been reset successfully. Please log in with your new password."), w1) /\
  t ∈ tokens asked /\ rt_hashed_token t = unary 4.
Proof.
  destruct (reset_tokens_single_use unary id uuid4 settings asked
    (reset_password id (unary 4) "Qwerty2?" asked).2 (unary 4) "Qwerty2?"
    "Password has been reset successfully. Please log in with your new password." 200 unary_inj) as (t & Ht & Hh & _).
  - assert (reach unary id uuid4 settings ada_world asked) as Hr.
    { apply reach_op with (RequestPasswordReset "ada@example.org").
      apply reach_op with (RequestPasswordReset "ada@example.org"). apply reach_refl. }
    apply (account_reach_inv unary id uuid4 settings unary_inj _ _ Hr ada_inv).
  - by vm_compute.
  - eexists _, t. split; [|done]. by vm_compute.
Defined.

Lemma login_correct_witness : exists token w',
  login settings "ADA@example.org" password ada_world = (Ok (TokenResponse token "bearer" 3600), w').
Proof.
  pose proof (login_correct unary id settings ∅ "ADA@example.org" password ada_world ada_inv eq_refl) as Hl.
  destruct Hl as (_ & _ & _ & token & Hl & _); [done|]. eauto.
Defined.

Lemma registration_lifecycle_witness : exists u raw w1,
  register unary id uuid4 settings payload empty = (Ok (UserBody 201 (user_response u)), w1) /\
  exists w2, verify_email id raw (at_time 1000 w1) =
    (Ok (AuthMessageResponse 200 "Email address verified successfully."), w2).
Proof.
  destruct (registration_lifecycle unary id uuid4 settings payload empty unary_inj empty_inv)
    as (u & raw & w1 & E & _ & _ & Hv); [done | done | by vm_compute | by vm_compute | by intros a ?%elem_of_nil |].
  eexists u, raw, w1. split; [exact E|]. destruct (Hv 1000) as (w2 & E2 & _); [by vm_compute|]. eauto.
Defined.

Lemma password_reset_roundtrip_witness : exists raw w1,
  request_password_reset unary id settings "ada@example.org" ada_world = (Ok reset_requested, w1) /\
  exists message w2, reset_password id raw "Qwerty2?" (at_time 1000 w1) = (Ok (AuthMessageResponse 200 message), w2).
Proof.
  destruct (password_reset_roundtrip unary id settings ada "ada@example.org" "Qwerty2?" ada_world ada_inv)
    as (raw & w1 & E & _ & Hr); [done | done | by constructor | by vm_compute | done | done | by intros t ?%elem_of_nil | by vm_compute |].
  eexists raw, w1. split; [exact E|]. destruct (Hr 1000) as (m & w2 & E2 & _); [by vm_compute|]. eauto.
Defined.

Lemma no_account_enumeration_witness :
  (request_password_reset unary id settings "nobody@example.org" ada_world).1 = Ok reset_requested.
Proof.
  apply (no_account_enumeration unary id settings "nobody@example.org" ada_world ada_inv); [done|].
  by intros t ?%elem_of_nil.
Defined.
End AccountsWitness.
