(* ===== verification/ApiKeys.v ===== *)
(** * API-key management ([src/app/api/v1/api_keys.py], key generation of
    [src/auth/api_key_provider.py], [src/db/models/api_key.py])

    Issuing, listing and revoking keys over the table [api_keys], and what the
    gateway's API-key provider ([Auth]) makes of the keys.  The hexadecimal
    digits of the [n]-th [uuid4()] are a parameter; the users table does not
    change here. *)

From stdpp Require Import sorting.
From S2P Require Import Prelude PyFloat PyStr Settings Effects Database AgentIO Gateway Auth.

Record key_row := {
  k_id : uuid;
  k_key_id : string;
  k_key_hash : string;
  k_name : string;
  k_owner_id : uuid;
  k_is_revoked : bool;
  k_created_at : Z;
  k_revoked_at : option Z;
  k_last_used_at : option Z;
}.

Record world := World {
  keys : list key_row;
  drawn : nat;               (* UUIDs drawn *)
  clock : Z;
  db : list bool;
}.

#[global] Program Instance keys_db : Db world := {|
  script := db;
  set_script cs w := World (keys w) (drawn w) (clock w) cs;
|}.
Solve All Obligations with by intros [].

Definition draw : M world nat := fun w => (Ok (drawn w), World (keys w) (S (drawn w)) (clock w) (db w)).

Record ApiKeyCreatedResponse := {
  kc_id : uuid; kc_key_id : string; kc_name : string; kc_key : string; kc_created_at : Z;
}.

Record ApiKeyResponse := {
  kr_id : uuid; kr_key_id : string; kr_name : string; kr_is_revoked : bool; kr_created_at : Z;
  kr_revoked_at : option Z; kr_last_used_at : option Z;
}.

Section routes.
Variable hex : nat -> string.            (* [uuid.uuid4().hex] *)
Variable str_uuid : string -> uuid.      (* the UUID with those digits *)
Variable sha256 : string -> string.
Variable known_user : uuid -> bool.      (* the ids in [users] *)

(** [f"gaios_live_{uuid4().hex}{uuid4().hex[:8]}"] *)
Definition raw_key (n : nat) : string := "gaios_live_" +:+ hex n +:+ String.substring 0 8 (hex (S n)).

Definition generate_raw_api_key : M world string :=
  draw ≫= fun n => draw ≫= fun m =>
  mret ("gaios_live_" +:+ hex n +:+ String.substring 0 8 (hex m)).

Definition generate_key_id : M world string :=
  draw ≫= fun n => mret ("gaios_key_" +:+ String.substring 0 12 (hex n)).

(** Primary key, unique [key_id], existing owner. *)
Definition insertable (k : key_row) (w : world) : bool :=
  forallb (fun k' => negb (String.eqb (k_key_id k') (k_key_id k)) && negb (String.eqb (k_id k') (k_id k))) (keys w)
  && known_user (k_owner_id k).

Definition with_keys (f : list key_row -> list key_row) (w : world) : world :=
  World (f (keys w)) (drawn w) (clock w) (db w).

Definition create_api_key (name : string) (user : User) : M world ApiKeyCreatedResponse :=
  generate_raw_api_key ≫= fun raw =>
  generate_key_id ≫= fun key_id =>
  draw ≫= fun n =>
  gets clock ≫= fun now =>
  let row := {| k_id := str_uuid (hex n); k_key_id := key_id; k_key_hash := hash_api_key sha256 raw;
                k_name := name; k_owner_id := u_id user; k_is_revoked := false; k_created_at := now;
                k_revoked_at := None; k_last_used_at := None |} in
  save_if (insertable row) (with_keys (fun l => l ++ [row])) ≫= fun _ =>
  statement ≫= fun _ =>
  mret {| kc_id := k_id row; kc_key_id := k_key_id row; kc_name := k_name row; kc_key := raw;
          kc_created_at := k_created_at row |}.

Definition key_response (k : key_row) : ApiKeyResponse :=
  {| kr_id := k_id k; kr_key_id := k_key_id k; kr_name := k_name k; kr_is_revoked := k_is_revoked k;
     kr_created_at := k_created_at k; kr_revoked_at := k_revoked_at k; kr_last_used_at := k_last_used_at k |}.

Definition newer (a b : key_row) : Prop := k_created_at b <= k_created_at a.
#[local] Instance newer_dec : RelDecision newer.
Proof. intros a b. unfold newer. apply _. Defined.

Definition list_api_keys (user : User) : M world (list ApiKeyResponse) :=
  select (fun w => merge_sort newer
    (if String.eqb (u_role user) (role_value ADMIN) then keys w
     else List.filter (fun k => String.eqb (k_owner_id k) (u_id user)) (keys w))) ≫= fun rows =>
  mret (map key_response rows).

Definition set_revoked (now : Z) (k : key_row) : key_row :=
  {| k_id := k_id k; k_key_id := k_key_id k; k_key_hash := k_key_hash k; k_name := k_name k;
     k_owner_id := k_owner_id k; k_is_revoked := true; k_created_at := k_created_at k;
     k_revoked_at := Some now; k_last_used_at := k_last_used_at k |}.

Definition update_key (key_id : string) (f : key_row -> key_row) (l : list key_row) : list key_row :=
  map (fun k => if String.eqb (k_key_id k) key_id then f k else k) l.

Definition revoke_api_key (key_id : string) (user : User) : M world (string * string) :=
  (select (fun w => List.filter (fun k => String.eqb (k_key_id k) key_id) (keys w)) ≫= scalar_one_or_none)
  ≫= fun api_key =>
  match api_key with
  | None => raise (HTTPException 404 None)
  | Some k =>
      lift (check_owner_or_role (Some (k_owner_id k)) user [ADMIN]) ≫= fun _ =>
      (if negb (k_is_revoked k) then
         gets clock ≫= fun now => save (with_keys (update_key key_id (set_revoked now)))
       else mret tt) ≫= fun _ =>
      mret ("revoked", key_id)
  end.

(** What the API-key provider sees, and the mark it leaves on a used key. *)
Definition provider_key (k : key_row) : ApiKey :=
  {| ak_key_id := k_key_id k; ak_owner_id := k_owner_id k; ak_is_revoked := k_is_revoked k;
     ak_last_used_at := k_last_used_at k |}.

Definition auth_view (us : gmap string User) (w : world) : auth_db :=
  AuthDb true us (list_to_map (map (fun k => (k_key_hash k, provider_key k)) (keys w))).

Definition set_used (now : Z) (k : key_row) : key_row :=
  {| k_id := k_id k; k_key_id := k_key_id k; k_key_hash := k_key_hash k; k_name := k_name k;
     k_owner_id := k_owner_id k; k_is_revoked := k_is_revoked k; k_created_at := k_created_at k;
     k_revoked_at := k_revoked_at k; k_last_used_at := Some now |}.

Definition mark_used (raw : string) : M world unit := fun w =>
  (Ok tt, with_keys (map (fun k => if String.eqb (k_key_hash k) (hash_api_key sha256 raw)
                                   then set_used (clock w) k else k)) w).

(** ** Invariant *)

(** Distinct keys have distinct digests. *)
Hypothesis keys_distinct : forall i j, sha256 (raw_key i) = sha256 (raw_key j) -> i = j.

Record inv (w : world) : Prop := Inv {
  inv_key_ids : NoDup (map k_key_id (keys w));
  inv_hashes : NoDup (map k_key_hash (keys w));
  inv_drawn : forall k, k ∈ keys w -> exists n, (S n < drawn w)%nat /\ k_key_hash k = sha256 (raw_key n);
}.

(** Keys keep hash, public id and owner, and stay revoked; the spared key, if
    any, keeps its status. *)
Definition evolves (spared : option string) (w w' : world) : Prop := forall k, k ∈ keys w -> exists k', k' ∈ keys w' /\
  k_key_hash k' = k_key_hash k /\ k_key_id k' = k_key_id k /\ k_owner_id k' = k_owner_id k /\
  (k_is_revoked k = true -> k_is_revoked k' = true) /\
  (spared = Some (k_key_id k) -> k_is_revoked k' = k_is_revoked k).

#[export] Instance evolves_preorder spared : PreOrder (evolves spared).
Proof.
  split; [by intros w k Hk; exists k|]. intros w1 w2 w3 H1 H2 k (k2 & (k3 & Hk3 & E2)%H2 & E1)%H1.
  exists k3. naive_solver congruence.
Qed.

(** A change of rows that keeps their identity. *)
Lemma key_change_inv spared (f : key_row -> key_row) w :
  (forall k, k_key_id (f k) = k_key_id k /\ k_key_hash (f k) = k_key_hash k /\ k_owner_id (f k) = k_owner_id k /\
             (k_is_revoked k = true -> k_is_revoked (f k) = true) /\
             (spared = Some (k_key_id k) -> k_is_revoked (f k) = k_is_revoked k)) ->
  inv w -> inv (with_keys (map f) w) /\ evolves spared w (with_keys (map f) w).
Proof.
  intros Hf [H1 H2 H3]. split; [split; cbn|].
  - rewrite map_map. erewrite map_ext; [exact H1|]. intros k. apply (Hf k).
  - rewrite map_map. erewrite map_ext; [exact H2|]. intros k. apply (Hf k).
  - intros k (k0 & <- & Hk%list_elem_of_In)%list_elem_of_In%in_map_iff. destruct (Hf k0) as (_ & -> & _). by apply H3.
  - intros k Hk. exists (f k). split; [apply list_elem_of_In, in_map, list_elem_of_In, Hk|]. specialize (Hf k). naive_solver.
Qed.

Lemma insert_inv spared k n w : insertable k w = true -> k_key_hash k = sha256 (raw_key n) -> (S n < drawn w)%nat ->
  (forall k', k' ∈ keys w -> k_key_hash k' <> k_key_hash k) ->
  inv w -> inv (with_keys (fun l => l ++ [k]) w) /\ evolves spared w (with_keys (fun l => l ++ [k]) w).
Proof.
  intros [Hi _]%andb_true_iff Hh Hn Hf [H1 H2 H3]. split; [split; cbn|].
  - rewrite map_app. apply NoDup_app. split; [done|]. split; [|apply NoDup_singleton].
    intros x Hx ->%list_elem_of_singleton. apply list_elem_of_fmap in Hx as (k' & E & Hk).
    specialize (proj1 (forallb_true _ _) Hi k' Hk). rewrite andb_true_iff, negb_true_iff, String.eqb_neq. naive_solver.
  - rewrite map_app. apply NoDup_app. split; [done|]. split; [|apply NoDup_singleton].
    intros x Hx ->%list_elem_of_singleton. apply list_elem_of_fmap in Hx as (k' & E & Hk). by destruct (Hf k' Hk).
  - intros k' [Hk| ->%list_elem_of_singleton]%elem_of_app; [by apply H3 | eauto].
  - intros k' Hk. exists k'. split; [cbn; set_solver | done].
Qed.

Section keeps.
Variable spared : option string.
Variable w0 : world.

Definition since (w : world) : Prop := inv w /\ evolves spared w0 w.

(** Routes end in an answer, an HTTP error or one of the session's exceptions. *)
Definition route_aborted (e : pyexn) (w : world) : Prop :=
  (db_exn e \/ e = HTTPException 404 None \/ e = HTTPException 403 None) /\ since w.

Lemma lift_aborted {A} (P : world -> Prop) (m : M world A) Q :
  triple (aborted since) P m Q -> triple route_aborted P m Q.
Proof. intros Hm. eapply triple_exn; [exact Hm|]. intros e w [He Hw]. split; [by left | done]. Qed.

Lemma key_since_step w w' : since w -> inv w' /\ evolves spared w w' -> since w'.
Proof. intros [_ H1] [Hw H2]. split; [done|]. by etrans. Qed.

Lemma more_drawn cs n w : (drawn w <= n)%nat -> since w -> since (World (keys w) n (clock w) cs).
Proof.
  intros Hn [[H1 H2 H3] He]. split; [|done]. split; [done..|]. cbn.
  intros k Hk. destruct (H3 k Hk) as (m & Hm & E). exists m. split; [lia|done].
Qed.

Lemma key_since_stable : stable since.
Proof. intros cs w. by apply more_drawn. Qed.

(** The state between the draws of a key and its insertion. *)
Definition holding (n : nat) (w : world) : Prop :=
  since w /\ (S n < drawn w)%nat /\ forall k, k ∈ keys w -> k_key_hash k <> sha256 (raw_key n).

Lemma raw_keeps : triple route_aborted since generate_raw_api_key
  (fun raw w => exists n, raw = raw_key n /\ holding n w).
Proof.
  intros w Hw. cbn. exists (drawn w). split; [done|]. split; [by apply (more_drawn _ _ w); [cbn; lia|]|]. split; [cbn; lia|].
  intros k Hk E. destruct (inv_drawn _ (proj1 Hw) k Hk) as (m & Hm & E'). rewrite E' in E. apply keys_distinct in E. lia.
Qed.

Lemma draw_holding n : triple route_aborted (holding n) draw (fun _ => holding n).
Proof. intros w (Hw & Hn & Hf). split; [by apply (more_drawn _ _ w); [cbn; lia|]|]. cbn. split; [lia|done]. Qed.

Lemma create_keeps name user : triple route_aborted since (create_api_key name user) (fun _ => since).
Proof.
  unfold create_api_key. eapply triple_bind; [apply raw_keeps|]. intros raw. apply triple_ex. intros n.
  apply triple_pure. intros ->. unfold generate_key_id.
  apply (triple_bind _ _ _ (fun _ => holding n)).
  { eapply triple_bind; [apply draw_holding|]. intros m. apply (triple_ret _ _ (fun _ => holding n)). }
  intros key_id. eapply triple_bind; [apply draw_holding|]. intros m.
  apply (triple_bind _ _ _ (fun _ => holding n)); [by intros w Hw|]. intros now. cbv zeta.
  apply (triple_bind _ _ _ (fun _ => since)).
  - apply lift_aborted, save_if_keeps; [by intros w [Hw _] | |].
    + intros cs w (Hw & Hn & Hf). split; [by apply key_since_stable | done].
    + intros w (Hw & Hn & Hf) Hi. apply (key_since_step w); [done|]. by apply (insert_inv _ _ n); [..|apply Hw].
  - intros []. apply (triple_bind _ _ _ (fun _ => since)); [|intros []; apply (triple_ret _ _ (fun _ => since))].
    apply lift_aborted, statement_keeps; [done | apply key_since_stable].
Qed.

Lemma update_key_change key_id now : spared <> Some key_id -> forall k,
  let f k := if String.eqb (k_key_id k) key_id then set_revoked now k else k in
  k_key_id (f k) = k_key_id k /\ k_key_hash (f k) = k_key_hash k /\ k_owner_id (f k) = k_owner_id k /\
  (k_is_revoked k = true -> k_is_revoked (f k) = true) /\
  (spared = Some (k_key_id k) -> k_is_revoked (f k) = k_is_revoked k).
Proof.
  intros Hs k. cbn. destruct (String.eqb_spec (k_key_id k) key_id) as [<-|Hne]; [|done]. by split_and!.
Qed.

Lemma revoke_keeps key_id user : spared <> Some key_id -> triple route_aborted since (revoke_api_key key_id user) (fun _ => since).
Proof.
  intros Hs. unfold revoke_api_key. apply (triple_bind _ _ _ (fun _ => since)).
  { eapply triple_bind; [apply lift_aborted, select_keeps; [done | apply key_since_stable]|]. intros rows w [Hw ->].
    destruct (filter_unique k_key_id (fun k => String.eqb (k_key_id k) key_id) (keys w)) as [E|(k & E & _)];
      [apply Hw | by intros x y _ _ ->%String.eqb_eq ->%String.eqb_eq | rewrite E; exact Hw..]. }
  intros [k|]; [|intros w Hw; split; [by right; left | done]].
  apply (triple_bind _ _ _ (fun _ => since)).
  { intros w Hw. unfold lift, check_owner_or_role. destruct (has_role user [ADMIN]); [done|].
    destruct (String.eqb _ _); [done|]. split; [by right; right | done]. }
  intros []. apply (triple_bind _ _ _ (fun _ => since)); [|intros []; apply (triple_ret _ _ (fun _ => since))].
  destruct (negb _); [|apply (triple_ret _ _ (fun _ => since))].
  apply (triple_bind _ _ _ (fun _ => since)); [by intros w Hw|]. intros now.
  apply lift_aborted, save_keeps; [done | apply key_since_stable|]. intros w Hw. apply (key_since_step w); [done|].
  apply key_change_inv; [by apply update_key_change | apply Hw].
Qed.

Lemma mark_used_keeps raw : triple route_aborted since (mark_used raw) (fun _ => since).
Proof.
  intros w Hw. cbn. apply (key_since_step w); [done|]. apply key_change_inv; [|apply Hw].
  intros k. by destruct (String.eqb _ _).
Qed.
End keeps.

(** ** Histories *)

Inductive operation :=
| CreateKey (name : string) (user : User)
| RevokeKey (key_id : string) (user : User)
| UseKey (raw : string).

Definition perform (op : operation) : M world unit :=
  match op with
  | CreateKey name user => create_api_key name user ≫= fun _ => mret tt
  | RevokeKey key_id user => revoke_api_key key_id user ≫= fun _ => mret tt
  | UseKey raw => mark_used raw
  end.

Inductive reach : world -> world -> Prop :=
| reach_refl w : reach w w
| reach_env w now cs w' : reach (World (keys w) (drawn w) now cs) w' -> reach w w'
| reach_op w op w' : reach (perform op w).2 w' -> reach w w'.

(** The key an operation would revoke. *)
Definition revokes (op : operation) : option string :=
  match op with RevokeKey key_id _ => Some key_id | CreateKey _ _ | UseKey _ => None end.

(** Histories, of any other operations, in which no revocation names the key. *)
Inductive reach_unrevoked (key_id : string) : world -> world -> Prop :=
| unrevoked_refl w : reach_unrevoked key_id w w
| unrevoked_env w now cs w' :
    reach_unrevoked key_id (World (keys w) (drawn w) now cs) w' -> reach_unrevoked key_id w w'
| unrevoked_op w op w' : revokes op <> Some key_id ->
    reach_unrevoked key_id (perform op w).2 w' -> reach_unrevoked key_id w w'.

Lemma key_step_inv spared op w : (spared = None \/ spared <> revokes op) ->
  inv w -> inv (perform op w).2 /\ evolves spared w (perform op w).2.
Proof.
  intros Hs Hw. assert (triple (route_aborted spared w) (since spared w) (perform op) (fun _ => since spared w)) as Hp.
  { destruct op; cbn; [| |apply mark_used_keeps].
    all: apply (triple_bind _ _ _ (fun _ => since spared w)); [|intros ?; apply (triple_ret _ _ (fun _ => since spared w))].
    - apply create_keeps.
    - apply revoke_keeps. by destruct Hs as [->|Hs]. }
  specialize (Hp w (conj Hw (reflexivity w))). destruct (perform op w) as [[a|e] w']; [exact Hp | exact (proj2 Hp)].
Qed.

Lemma key_reach_inv w w' : reach w w' -> inv w -> inv w' /\ evolves None w w'.
Proof.
  induction 1 as [w|w now cs w' _ IH|w op w' _ IH]; intros Hw.
  - by split.
  - apply IH. destruct Hw. by split.
  - destruct (key_step_inv None op w (or_introl eq_refl) Hw) as [H1 H2]. destruct (IH H1) as [H3 H4].
    split; [done|]. by etrans.
Qed.

Lemma unrevoked_reach_inv key_id w w' : reach_unrevoked key_id w w' -> inv w -> inv w' /\ evolves (Some key_id) w w'.
Proof.
  induction 1 as [w|w now cs w' _ IH|w op w' Hop _ IH]; intros Hw.
  - by split.
  - apply IH. destruct Hw. by split.
  - destruct (key_step_inv (Some key_id) op w (or_intror (not_eq_sym Hop)) Hw) as [H1 H2]. destruct (IH H1) as [H3 H4].
    split; [done|]. by etrans.
Qed.

Lemma view_lookup us w k : inv w -> k ∈ keys w -> api_keys (auth_view us w) !! k_key_hash k = Some (provider_key k).
Proof.
  intros Hw Hk. cbn. apply elem_of_list_to_map.
  - rewrite <- list_fmap_compose. apply (inv_hashes w Hw).
  - apply list_elem_of_fmap. by exists k.
Qed.

Lemma create_returns name user w r w' : create_api_key name user w = (Ok r, w') ->
  exists k, k ∈ keys w' /\ k_key_hash k = hash_api_key sha256 (kc_key r) /\ k_owner_id k = u_id user /\
    k_key_id k = kc_key_id r /\ k_is_revoked k = false.
Proof.
  unfold create_api_key. intros (raw & w1 & _ & H1)%M_bind_ok. apply M_bind_ok in H1 as (kid & w2 & _ & H1).
  apply M_bind_ok in H1 as (n & w3 & _ & H1). apply M_bind_ok in H1 as (now & w4 & _ & H1). cbv zeta in H1.
  apply M_bind_ok in H1 as ([] & w5 & H5 & H1). apply M_bind_ok in H1 as ([] & w6 & [cs ->]%statement_returns & [= <- <-]).
  unfold save_if in H5. apply M_bind_ok in H5 as ([] & w7 & _ & H5). apply M_bind_ok in H5 as (b & w8 & _ & H5).
  destruct b; [|done]. injection H5 as <-. eexists. split; [cbn; apply elem_of_app; right; by apply list_elem_of_singleton|].
  done.
Qed.
End routes.

(** ** Properties *)

(** C22. An issued key authenticates its owner, while the owner is active, right
    after it was created and at any later point of any history of key creations,
    uses and revocations of other keys. *)
Theorem issued_key_authenticates (hex : nat -> string) (str_uuid : string -> uuid) (sha256 : string -> string)
    (known_user : uuid -> bool) (name : string) (user owner : User) (us : gmap string User)
    (w w1 w2 : world) (r : ApiKeyCreatedResponse) (req : Request) (now : Z) :
  (forall i j, sha256 (raw_key hex i) = sha256 (raw_key hex j) -> i = j) ->
  inv hex sha256 w -> create_api_key hex str_uuid sha256 known_user name user w = (Ok r, w1) ->
  reach_unrevoked hex str_uuid sha256 known_user (kc_key_id r) w1 w2 ->
  us !! u_id user = Some owner -> u_deleted_at owner = None -> u_is_active owner = true ->
  truthy_header req "X-API-Key" = Some (kc_key r) ->
  (api_key_authenticate sha256 now req (auth_view us w2)).1 = Ok (with_api_key req owner (kc_key_id r)).
Proof.
  intros Hd Hw Hc Hr Hu Hdel Hact Hh.
  assert (inv hex sha256 w1) as Hw1.
  { pose proof (create_keeps hex str_uuid sha256 known_user Hd None w name user w (conj Hw (reflexivity w))) as K.
    rewrite Hc in K. apply K. }
  destruct (create_returns _ _ _ _ _ _ _ _ _ Hc) as (k & Hk & Eh & Eo & Ei & Er).
  destruct (unrevoked_reach_inv hex str_uuid sha256 known_user Hd _ _ _ Hr Hw1) as [Hw2 He].
  destruct (He k Hk) as (k2 & Hk2 & Eh2 & Ei2 & Eo2 & _ & Er2).
  specialize (Er2 ltac:(by rewrite Ei)).
  unfold api_key_authenticate. rewrite Hh. cbn [db_ready auth_view negb].
  change (hash_api_key sha256 (kc_key r)) with (sha256 (kc_key r)) in *. unfold hash_api_key.
  rewrite <- Eh, <- Eh2, (view_lookup hex sha256 us w2 k2 Hw2 Hk2). cbn [ak_is_revoked provider_key].
  rewrite Er2, Er. cbn [ak_owner_id provider_key users auth_view]. rewrite Eo2, Eo, Hu, Hdel, Hact.
  cbn. by rewrite Ei2, Ei.
Qed.

(** C23. Once revoked, a key is refused at every later point of every history, even
    if its owner is in good standing. *)
Theorem revoked_key_stays_out (hex : nat -> string) (str_uuid : string -> uuid) (sha256 : string -> string)
    (known_user : uuid -> bool) (key_id raw : string) (user : User) (us : gmap string User)
    (w w1 w2 : world) (k : key_row) (a : string * string) (req : Request) (now : Z) :
  (forall i j, sha256 (raw_key hex i) = sha256 (raw_key hex j) -> i = j) ->
  inv hex sha256 w -> k ∈ keys w -> k_key_id k = key_id -> k_key_hash k = sha256 raw ->
  revoke_api_key key_id user w = (Ok a, w1) -> reach hex str_uuid sha256 known_user w1 w2 ->
  truthy_header req "X-API-Key" = Some raw ->
  api_key_authenticate sha256 now req (auth_view us w2) =
    (Ok (with_error req ("api_key_revoked", "API key has been revoked.")), auth_view us w2) /\
  (u_id user = k_owner_id k \/ u_role user = "admin").
Proof.
  intros Hd Hw Hk Ei Eh Hrev Hr Hh.
  assert (inv hex sha256 w1 /\ evolves None w w1) as [Hw1 He1].
  { pose proof (revoke_keeps hex sha256 None w key_id user ltac:(done) w (conj Hw (reflexivity w))) as K. rewrite Hrev in K. exact K. }
  assert ((exists k1, k1 ∈ keys w1 /\ k_key_hash k1 = sha256 raw /\ k_is_revoked k1 = true) /\
          (u_id user = k_owner_id k \/ u_role user = "admin")) as [(k1 & Hk1 & Eh1 & Er1) Hauth].
  { unfold revoke_api_key in Hrev.
    apply M_bind_ok in Hrev as (o & w3 & (rows & w4 & [-> [cs ->]]%select_returns & [-> E]%scalar_returns)%M_bind_ok & Hrev).
    destruct o as [k0|]; [|done]. cbn in E.
    assert (k0 = k) as ->.
    { assert (k ∈ [k0]) as Hin; [|by apply list_elem_of_singleton in Hin].
      rewrite <- E. apply elem_of_filter_bool. split; [done|]. by apply String.eqb_eq. }
    apply M_bind_ok in Hrev as ([] & w5 & [= Hc <-] & Hrev). apply M_bind_ok in Hrev as ([] & w6 & H6 & [= <- <-]).
    split.
    - destruct (k_is_revoked k) eqn:Erev; cbn in H6.
      + injection H6 as <-. by exists k.
      + apply M_bind_ok in H6 as (t & w7 & [= <- <-] & [cs' ->]%save_returns). exists (set_revoked (clock w) k).
        split; [|done]. cbn. apply list_elem_of_In, in_map_iff. exists k. rewrite Ei, String.eqb_refl.
        split; [done | by apply list_elem_of_In].
    - unfold check_owner_or_role, has_role in Hc. cbn in Hc. rewrite orb_false_r, orb_diag in Hc.
      destruct (String.eqb_spec (u_role user) "admin"); [by right|].
      destruct (String.eqb_spec (k_owner_id k) (u_id user)); [by left | done]. }
  split; [|done]. destruct (key_reach_inv hex str_uuid sha256 known_user Hd _ _ Hr Hw1) as [Hw2 He2].
  destruct (He2 k1 Hk1) as (k2 & Hk2 & Eh2 & _ & _ & Er2 & _).
  unfold api_key_authenticate. rewrite Hh. cbn [db_ready auth_view negb]. unfold hash_api_key.
  rewrite <- Eh1, <- Eh2, (view_lookup hex sha256 us w2 k2 Hw2 Hk2). cbn [ak_is_revoked provider_key].
  by rewrite Er2.
Qed.

(** Listing shows an administrator every key and anyone else exactly their own,
    revoked ones included, newest first, never with hash or secret. *)
Theorem list_api_keys_exact (user : User) (w : world) : db w = [] ->
  exists rows, list_api_keys user w = (Ok (map key_response rows), w) /\
    rows ≡ₚ (if String.eqb (u_role user) "admin" then keys w
             else List.filter (fun k => String.eqb (k_owner_id k) (u_id user)) (keys w)) /\
    Sorted newer rows.
Proof.
  intros Hs. eexists. unfold list_api_keys. rewrite M_bind_run, select_ok by done. split; [reflexivity|].
  split; [by rewrite merge_sort_Permutation|]. apply Sorted_merge_sort. intros a b. unfold newer. lia.
Qed.

Module ApiKeysWitness.
Fixpoint unary (n : nat) : string := match n with O => "" | S n => "x" +:+ unary n end.

Lemma unary_length n : String.length (unary n) = n.
Proof. induction n as [|n IH]; [done|]. exact (f_equal S IH). Qed.

(** The digest of the example: the length of a key in unary notation. *)
Definition digest (s : string) : string := unary (String.length s).

Definition unary_hex (n : nat) : string := "........" +:+ unary n.

Lemma distinct i j : digest (raw_key unary_hex i) = digest (raw_key unary_hex j) -> i = j.
Proof.
  unfold digest. intros E%(f_equal String.length). rewrite !unary_length in E. unfold raw_key in E.
  assert (forall n, String.length (String.substring 0 8 (unary_hex n)) = 8%nat) as H8 by by intros [].
  rewrite !length_app_string, !H8 in E. unfold unary_hex in E. rewrite !length_app_string, !unary_length in E. lia.
Qed.

Definition alice : User := AuthWitness.alice.
Definition empty : world := World [] 0 0 [].
Definition users : gmap string User := {[ "u1" := alice ]}.

Lemma no_keys_inv : inv unary_hex digest empty.
Proof. split; try constructor; set_solver. Qed.

Definition issued := create_api_key unary_hex id digest (fun _ => true) "cli" alice empty.
Definition secret : string := match issued.1 with Ok r => kc_key r | Raise _ => "" end.
Definition public : string := match issued.1 with Ok r => kc_key_id r | Raise _ => "" end.
Definition req : Request := AuthWitness.req [("x-api-key", secret)].

(** Between the creation and the use, another key is created and a revocation
    names it. *)
Definition other : operation := CreateKey "ci" alice.
Definition later : world := (perform unary_hex id digest (fun _ => true) (RevokeKey "other" alice)
  (perform unary_hex id digest (fun _ => true) other issued.2).2).2.

Lemma issued_key_authenticates_witness :
  (api_key_authenticate digest 7 req (auth_view users later)).1 = Ok (with_api_key req alice public).
Proof.
  apply (issued_key_authenticates unary_hex id digest (fun _ => true) "cli" alice alice users empty issued.2 later
    {| kc_id := unary_hex 3; kc_key_id := public; kc_name := "cli"; kc_key := secret; kc_created_at := 0 |} req 7
    distinct no_keys_inv); [by vm_compute | | by vm_compute..].
  apply (unrevoked_op _ _ _ _ _ _ other); [done|].
  apply (unrevoked_op _ _ _ _ _ _ (RevokeKey "other" alice)); [by vm_compute|]. apply unrevoked_refl.
Defined.

Lemma revoked_key_stays_out_witness :
  api_key_authenticate digest 7 req (auth_view users (revoke_api_key public alice issued.2).2) =
    (Ok (with_error req ("api_key_revoked", "API key has been revoked.")),
     auth_view users (revoke_api_key public alice issued.2).2).
Proof.
  destruct (revoked_key_stays_out unary_hex id digest (fun _ => true) public secret alice users issued.2
    (revoke_api_key public alice issued.2).2 (revoke_api_key public alice issued.2).2
    (List.hd (Build_key_row "" "" "" "" "" true 0 None None) (keys issued.2)) ("revoked", public) req 7 distinct) as [H _].
  - eapply (key_step_inv unary_hex id digest (fun _ => true) distinct None (CreateKey "cli" alice) empty (or_introl eq_refl) no_keys_inv).
  - apply list_elem_of_In. vm_compute. by left.
  - by vm_compute.
  - by vm_compute.
  - by vm_compute.
  - apply reach_refl.
  - by vm_compute.
  - exact H.
Defined.

Lemma list_api_keys_exact_witness : exists rows, list_api_keys alice issued.2 = (Ok (map key_response rows), issued.2).
Proof.
  destruct (list_api_keys_exact alice issued.2) as (rows & E & _); [by vm_compute | by exists rows].
Defined.
End ApiKeysWitness.
