(* ===== verification/RateLimiter.v ===== *)
(** * Rate limiter ([src/gateway/rate_limiter_redis.py])

    The token-bucket Lua script on binary64 numbers, the identity, scope and
    quota rules, and [RedisRateLimiter.check] against a script service that may
    fail at any call.  Numbers cross the wire as text that denotes them exactly
    (Python's [str], Redis' ["%.17g"]); the retry delay is printed by Lua's
    [tostring] with 14 digits. *)

From Stdlib Require Import Ascii.
From S2P Require Import Prelude PyFloat FloatRound PyStr RedisKeys Settings Effects AgentIO Gateway Auth.

(** ** The Lua script *)

Record bucket := Bucket { tokens : float; last_updated : float }.

(** [math.ceil] on a double, which stays a double. *)
Definition lua_ceil (x : float) : float :=
  match float_ceil x with Some z => float_of_Z z | None => x end.

Record lua_args := Args { max_capacity : float; refill_rate : float; now_ts : float; cost : float }.

(** [{allowed, tostring(tokens), tostring(retry_after)}] *)
Record reply := Reply { allowed : bool; r_tokens : float; r_retry_after : float }.

(** Tokens available now: a new bucket is full, an old one refills with the time
    that passed, up to the capacity. *)
Definition available (a : lua_args) (data : option bucket) : float :=
  match data with
  | None => max_capacity a
  | Some b => fmin (max_capacity a)
                (fadd (tokens b) (fmul (fmax f0 (fsub (now_ts a) (last_updated b))) (refill_rate a)))
  end.

Definition ttl_of (a : lua_args) : float := lua_ceil (fdiv (max_capacity a) (refill_rate a)).

Section script.
(** Whether EXPIRE accepts the number as a TTL. *)
Variable expire_ok : float -> bool.

(** The reply, and the bucket to store with its TTL ([None]: nothing is
    written).  An EXPIRE error aborts the script after the HMSET. *)
Definition token_bucket (a : lua_args) (data : option bucket)
    : result pyexn reply * option (bucket * option float) :=
  let t := available a data in
  if fleb (cost a) t then
    let b := Bucket (fsub t (cost a)) (now_ts a) in
    if expire_ok (ttl_of a) then (Ok (Reply true (tokens b) f0), Some (b, Some (ttl_of a)))
    else (Raise (OtherError "ResponseError"), Some (b, None))
  else (Ok (Reply false t (lua_ceil (fdiv (fsub (cost a) t) (refill_rate a)))), None).
End script.

(** ** Identity, scope, quota *)

Definition EXCLUDED_PATH_PREFIXES : list string :=
  ["/health"; "/api/v1/health"; "/docs"; "/openapi.json"; "/redoc"].

Definition _extract_identity_and_role (req : Request) : string * string :=
  match st_api_key_id (req_state req), st_user (req_state req) with
  | Some k, u => ("api_key:" +:+ k, match u with Some u => u_role u | None => "authenticated" end)
  | None, Some u => ("user:" +:+ u_id u, u_role u)
  | None, None =>
      let ip := match truthy_header req "X-Forwarded-For" with
                | Some h => strip (before_char "," h)
                | None => match truthy (client_host req) with Some h => h | None => "unknown" end
                end in
      ("ip:" +:+ ip, "public")
  end.

Definition _resolve_scope (req : Request) : string :=
  match st_api_key_id (req_state req) with
  | Some _ => "api_key"
  | None =>
      if String.eqb (path req) "/api/v1/auth/request-reset" then "password_reset"
      else if startswith "/api/v1/research" (path req) then "research_api"
      else if startswith "/api/v1/investigations" (path req) then
        (if String.eqb (method req) "POST" then "submit_investigation" else "investigations")
      else if startswith "/api/v1/auth" (path req) then "auth"
      else "api"
  end.

(** [int(s)] on text: white space around, a sign, digits with single underscores. *)
Fixpoint digits_value (acc : Z) (after_digit : bool) (s : string) : option Z :=
  match s with
  | EmptyString => if after_digit then Some acc else None
  | String c s =>
      if is_digit c then digits_value (10 * acc + (ord c - 48)) true s
      else if Ascii.eqb c "_"%char && after_digit then digits_value acc false s
      else None
  end.
Definition int_of_str (s : string) : option Z :=
  match strip s with
  | String "-" r => Z.opp <$> digits_value 0 false r
  | String "+" r => digits_value 0 false r
  | r => digits_value 0 false r
  end.

Definition is_excluded (p : string) : bool :=
  String.eqb p "/" || existsb (under_prefix p) EXCLUDED_PATH_PREFIXES.

(** Python's [int] of Lua's [tostring] of a number: 14 significant digits, so
    an integer literal only below [10^14]. *)
Definition int_of_lua (x : float) : option Z :=
  match float_floor x, float_ceil x with
  | Some f, Some c => if (f =? c) && (Z.abs f <? 10 ^ 14) then Some f else None
  | _, _ => None
  end.

Section limiter.
Variable settings : Settings.

Definition _get_quota_for_role (role : string) : Z * Z :=
  let base_rpm := rate_limit_requests_per_minute settings in
  let base_burst := rate_limit_burst settings in
  let role_lower := lower role in
  if String.eqb role_lower "admin" then (base_rpm * 10, base_burst * 5)
  else if String.eqb role_lower "researcher" then (base_rpm * 3, base_burst * 2)
  else if String.eqb role_lower "user" || String.eqb role_lower "authenticated" then (base_rpm, base_burst)
  else (Z.min base_rpm 10, Z.min base_burst 5).

(** Capacity and refill rate of a request. *)
Definition bucket_parameters (req : Request) : Z * float :=
  let '(_, role) := _extract_identity_and_role req in
  let scope := _resolve_scope req in
  let '(requests_per_minute, burst) := _get_quota_for_role role in
  if String.eqb scope "password_reset" then
    (Z.max 1 (password_reset_rate_limit_requests settings),
     fdiv (float_of_Z (password_reset_rate_limit_requests settings))
          (float_of_Z (Z.max 1 (password_reset_rate_limit_window_seconds settings))))
  else if String.eqb scope "research_api" then
    let rpm := default 60 (int_of_str (before_char "/" (research_api_rate_limit settings))) in
    (Z.max 1 rpm, fdiv (float_of_Z rpm) (float_of_Z 60))
  else (Z.max 1 burst, fdiv (float_of_Z requests_per_minute) (float_of_Z 60)).

Definition request_key (req : Request) : string :=
  RedisKeyBuilder.rate_limit_key (_extract_identity_and_role req).1 (_resolve_scope req).

Definition request_args (req : Request) (now : float) : lua_args :=
  let '(capacity, rate) := bucket_parameters req in
  Args (float_of_Z capacity) rate now (float_of_Z 1).
End limiter.

(** ** The script service *)

Class Scripts (S : Type) := {
  get_client : M S unit;
  script_load : M S string;
  evalsha : string -> string -> lua_args -> M S reply;
  eval : string -> lua_args -> M S reply;
}.

Section check.
Context {S : Type} `{Scripts S}.
Variable settings : Settings.
Variable now : float.   (* [time.time()] *)

(** The limiter's [_script_sha] and the service. *)
Definition limiter_state : Type := option string * S.

Definition serve {A} (m : M S A) : M limiter_state A := fun '(sha, s) =>
  let '(r, s') := m s in (r, (sha, s')).

Definition current_sha : M limiter_state string := fun st =>
  match st.1 with
  | Some sha => (Ok sha, st)
  | None => let '(r, s') := script_load st.2 in
            match r with
            | Ok sha => (Ok sha, (Some sha, s'))
            | Raise e => (Raise e, (None, s'))
            end
  end.

(** EVALSHA, and EVAL when it raises. *)
Definition run_script (key : string) (a : lua_args) : M limiter_state reply :=
  serve get_client ≫= fun _ =>
  current_sha ≫= fun sha =>
  try_except (serve (evalsha sha key a)) (fun _ => serve (eval key a)).

Definition decide_reply (r : reply) : result pyexn unit :=
  match int_of_lua (r_retry_after r) with
  | None => Raise ValueError
  | Some retry_after =>
      if allowed r then Ok tt else Raise (HTTPException 429 (Some (Z.max 1 retry_after)))
  end.

Definition is_http (e : pyexn) : bool := match e with HTTPException _ _ => true | _ => false end.

(** [RedisRateLimiter.check] *)
Definition check (req : Request) : M limiter_state unit :=
  if is_excluded (path req) then mret tt
  else if negb (enable_rate_limiting settings) then mret tt
  else try_except
         (run_script (request_key req) (request_args settings req now) ≫= fun r => lift (decide_reply r))
         (fun e => if is_http e then raise e else mret tt).

Definition RedisRateLimiter : RateLimiter limiter_state := {| Gateway.check := check |}.
End check.

(** ** An in-memory Redis with the script *)

Module MemScripts.
Record store := Store {
  buckets : gmap string (bucket * option Z);   (* with the expiry instant *)
  clock : Z;                                   (* server time, microseconds *)
  loaded : bool;
  faults : list bool;                          (* whether each coming call fails *)
}.

Section mem.
Variable expire_ok : float -> bool.

Definition lookup_bucket (key : string) (s : store) : option bucket :=
  match buckets s !! key with
  | Some (b, Some t) => if clock s <? t then Some b else None
  | Some (b, None) => Some b
  | None => None
  end.

Definition faulty {A} (m : M store A) : M store A := fun s =>
  match faults s with
  | true :: fs => (Raise ConnectionError, Store (buckets s) (clock s) (loaded s) fs)
  | _ => m (Store (buckets s) (clock s) (loaded s) (tl (faults s)))
  end.

(** HMSET keeps the TTL a key has; EXPIRE with a TTL that is not positive deletes it. *)
Definition write (key : string) (w : bucket * option float) (s : store) : store :=
  let old := match buckets s !! key with
             | Some (_, Some t) => if clock s <? t then Some t else None
             | _ => None
             end in
  let b' := match w with
            | (b, None) => <[key := (b, old)]> (buckets s)
            | (b, Some ttl) =>
                match float_ceil ttl with
                | Some z => if 0 <? z then <[key := (b, Some (clock s + z * 1000000))]> (buckets s)
                            else delete key (buckets s)
                | None => <[key := (b, old)]> (buckets s)
                end
            end in
  Store b' (clock s) (loaded s) (faults s).

Definition run_lua (key : string) (a : lua_args) : M store reply := fun s =>
  let '(r, w) := token_bucket expire_ok a (lookup_bucket key s) in
  (r, match w with Some w => write key w s | None => s end).

#[global] Instance mem_scripts : Scripts store := {|
  get_client := faulty (mret tt);
  script_load := faulty (fun s => (Ok "sha", Store (buckets s) (clock s) true (faults s)));
  evalsha := fun sha key a => faulty (fun s =>
    if loaded s && String.eqb sha "sha" then run_lua key a s else (Raise (OtherError "NOSCRIPT"), s));
  eval := fun key a => faulty (run_lua key a);
|}.
End mem.
End MemScripts.
Import MemScripts.

(** ** Lemmas *)

(** The level of a bucket: a finite number of the format, between empty and full. *)
Definition level_ok (cap t : float) : Prop :=
  fvalid t = true /\ nonneg_finite t = true /\ fle f0 t /\ fle t cap.

Lemma nonneg_finite_le0 x : nonneg_finite x = true -> fle f0 x.
Proof. by destruct x as [[]| | |[]]. Qed.

Lemma refill_ok cap rate t d :
  fvalid cap = true -> nonneg_finite cap = true ->
  fvalid rate = true -> nonneg_finite rate = true ->
  fvalid d = true -> nonneg_finite d = true -> level_ok cap t ->
  level_ok cap (fmin cap (fadd t (fmul d rate))).
Proof.
  intros Hc1 Hc2 Hr1 Hr2 Hd1 Hd2 (Ht1 & Ht2 & Ht3 & Ht4).
  destruct (fmul_nonneg_valid d rate Hd1 Hr1 Hd2 Hr2) as [Hm1 Hm2].
  assert (is_nan cap = false) as Hcn by (by destruct cap).
  assert (level_ok cap cap) as Hcap.
  { split_and!; [done | done | by apply nonneg_finite_le0 | by apply fle_refl]. }
  destruct (nonneg_cases _ Hm2) as [Hmf|Hmi].
  - pose proof (fadd_ge t (fmul d rate) Ht1 Ht2 Hmf) as Hge.
    pose proof (fadd_valid t (fmul d rate) Ht1 Hm1 Ht2 Hmf) as Hv.
    unfold fmin. destruct (fltb (fadd t (fmul d rate)) cap) eqn:E; [|done].
    apply flt_le in E. pose proof (fle_trans _ _ _ Ht3 Hge) as H0.
    split_and!; [done | by eapply below_finite | done | done].
  - rewrite Hmi. assert (fadd t (S754_infinity false) = S754_infinity false) as ->
      by (destruct t; (discriminate Ht2 || reflexivity)).
    unfold fmin. destruct cap as [[]| | |[]]; (discriminate Hc2 || exact Hcap).
Qed.

Lemma spend_ok cap t : level_ok cap t -> fle f1 t -> level_ok cap (fsub t f1).
Proof.
  intros (H1 & H2 & H3 & H4) Hle.
  assert (fvalid f1 = true) as Hv by (by vm_compute). assert (nonneg_finite f1 = true) as Hn by (by vm_compute).
  pose proof (fsub_nonneg t f1 H1 Hv H2 Hn Hle) as H0. pose proof (fsub_le t f1 H1 H2 Hn) as Hlt.
  pose proof (fsub_valid t f1 H1 Hv H2 Hn Hle).
  split_and!; [done | exact (below_finite _ _ H0 Hlt H2) | done | exact (fle_trans _ _ _ Hlt H4)].
Qed.

(** The elapsed time the script uses is never negative. *)
Lemma elapsed_ok now last :
  fvalid now = true -> fvalid last = true -> nonneg_finite now = true -> nonneg_finite last = true ->
  fvalid (fmax f0 (fsub now last)) = true /\ nonneg_finite (fmax f0 (fsub now last)) = true.
Proof.
  intros Hv1 Hv2 Hn1 Hn2. unfold fmax. destruct (fltb f0 (fsub now last)) eqn:E; [|by vm_compute].
  assert (is_nan now = false /\ is_nan last = false) as [Hnn Hln] by (by destruct now, last).
  assert (fle last now) as Hle.
  { destruct (fle_total last now Hln Hnn) as [|Hge]; [done|]. exfalso.
    destruct now as [sn| | |[] mn en]; try done; destruct last as [sl| | |[] ml el]; try done.
    - by destruct sn, sl.
    - unfold fsub, SFsub in E. cbn [cond_Zopp] in E. rewrite !shl_align_value in E by lia.
      pose proof (fle_value _ _ _ _ Hv1 Hv2 Hge) as Hval. set (ez := Z.min en el) in *.
      destruct (Z.pos mn * 2 ^ (en - ez) - Z.pos ml * 2 ^ (el - ez)) as [|p|p] eqn:ED; [done|lia|].
      cbn [binary_normalize] in E. pose proof (binary_round_sign true p ez) as Hs.
      by destruct (binary_round fprec femax true p ez) as [|[]| |[]]; rewrite ?Hs in E. }
  split; [by apply fsub_valid|].
  eapply below_finite; [by apply flt_le | by apply fsub_le | done].
Qed.

(** A bucket as the script stores it. *)
Definition bucket_ok (cap : float) (b : bucket) : Prop :=
  level_ok cap (tokens b) /\ fvalid (last_updated b) = true /\ nonneg_finite (last_updated b) = true.

Definition args_ok (a : lua_args) : Prop :=
  fvalid (max_capacity a) = true /\ nonneg_finite (max_capacity a) = true /\
  fvalid (refill_rate a) = true /\ nonneg_finite (refill_rate a) = true /\
  fvalid (now_ts a) = true /\ nonneg_finite (now_ts a) = true /\ cost a = f1.

Lemma available_ok a data : args_ok a ->
  (forall b, data = Some b -> bucket_ok (max_capacity a) b) -> level_ok (max_capacity a) (available a data).
Proof.
  intros (Hc1 & Hc2 & Hr1 & Hr2 & Hn1 & Hn2 & _) Hb. destruct data as [b|]; cbn.
  - destruct (Hb b eq_refl) as (Hl & Hv & Hn).
    destruct (elapsed_ok (now_ts a) (last_updated b) Hn1 Hv Hn2 Hn). by apply refill_ok.
  - split_and!; [done | done | by apply nonneg_finite_le0 | apply fle_refl; by destruct (max_capacity a)].
Qed.

(** *** Integer levels *)

#[global] Instance float_eq_dec : EqDecision float.
Proof. solve_decision. Defined.

Definition MAX_CAP : nat := 1000.

(** Around an integer level [k], taking one token, comparing and adding zero are exact. *)
Definition level_check (n : nat) : bool :=
  let k := Z.of_nat n in
  bool_decide (fsub (float_of_Z (k + 1)) f1 = float_of_Z k) &&
  fltb (float_of_Z k) (float_of_Z (k + 1)) && fleb f1 (float_of_Z (k + 1)) &&
  bool_decide (fadd (float_of_Z k) (S754_zero false) = float_of_Z k) &&
  bool_decide (fadd (float_of_Z k) (S754_zero true) = float_of_Z k).

Lemma levels_exact : forallb level_check (seq 0 MAX_CAP) = true.
Proof. vm_compute. reflexivity. Qed.

Lemma level_exact k : 0 <= k < Z.of_nat MAX_CAP ->
  fsub (float_of_Z (k + 1)) f1 = float_of_Z k /\ flt (float_of_Z k) (float_of_Z (k + 1)) /\
  fle f1 (float_of_Z (k + 1)) /\ forall z, fadd (float_of_Z k) (S754_zero z) = float_of_Z k.
Proof.
  intros Hk. assert (Z.to_nat k ∈ seq 0 MAX_CAP) as Hin by (apply elem_of_seq; lia).
  pose proof (proj1 (forallb_true _ _) levels_exact _ Hin) as H. unfold level_check in H.
  rewrite Z2Nat.id in H by lia. cbn zeta in H. apply andb_prop in H as [H1 H5].
  apply andb_prop in H1 as [H1 H4]. apply andb_prop in H1 as [H1 H3]. apply andb_prop in H1 as [H1 H2].
  apply bool_decide_eq_true in H1, H4, H5. do 3 (split; [done|]). by intros [].
Qed.

Lemma level_mono k c : 0 <= k -> k < c -> c <= Z.of_nat MAX_CAP -> flt (float_of_Z k) (float_of_Z c).
Proof.
  intros Hk Hc Hm. remember (Z.to_nat (c - k - 1)) as n eqn:En. revert c Hc Hm En.
  induction n as [|n IH]; intros c Hc Hm En.
  - replace c with (k + 1) by lia. apply level_exact. lia.
  - assert (flt (float_of_Z k) (float_of_Z (c - 1))) as H1 by (apply IH; lia).
    assert (flt (float_of_Z (c - 1)) (float_of_Z c)) as H2.
    { replace (float_of_Z c) with (float_of_Z (c - 1 + 1)) by (f_equal; lia). apply level_exact. lia. }
    by eapply fle_flt_trans; [apply flt_le|].
Qed.

(** No time passes: the level of a bucket that was just written is what it holds. *)
Lemma fsub_self x : nonneg_finite x = true -> fmax f0 (fsub x x) = f0.
Proof.
  destruct x as [[]| | |[] m e]; try discriminate; intros _; try reflexivity.
  unfold fsub, SFsub. by rewrite Z.sub_diag.
Qed.

Lemma fmul_0_l r : nonneg_finite r = true -> exists z, fmul f0 r = S754_zero z.
Proof. destruct r as [[]| | |[]]; try discriminate; intros _; eexists; reflexivity. Qed.

(** The level just after the bucket was written at the same instant. *)
Lemma available_same_instant cap k rate now :
  0 <= k < Z.of_nat MAX_CAP -> k <= cap -> cap <= Z.of_nat MAX_CAP ->
  nonneg_finite rate = true -> nonneg_finite now = true ->
  available (Args (float_of_Z cap) rate now f1) (Some (Bucket (float_of_Z k) now)) = float_of_Z k.
Proof.
  intros Hk Hkc Hcap Hr Hn. unfold available. cbn [max_capacity tokens now_ts last_updated refill_rate].
  rewrite fsub_self by done. destruct (fmul_0_l rate Hr) as [z ->].
  rewrite (proj2 (proj2 (proj2 (level_exact k Hk)))). unfold fmin.
  destruct (decide (k = cap)) as [->|Hne]; [by destruct (fltb _ _)|].
  pose proof (level_mono k cap ltac:(lia) ltac:(lia) Hcap) as Hlt. unfold flt in Hlt. by rewrite Hlt.
Qed.

(** One request at the instant the bucket was written, with [k] tokens left. *)
Lemma token_bucket_same_instant ok cap k rate now :
  0 <= k < Z.of_nat MAX_CAP -> k <= cap -> cap <= Z.of_nat MAX_CAP ->
  nonneg_finite rate = true -> nonneg_finite now = true ->
  let a := Args (float_of_Z cap) rate now f1 in
  ok (ttl_of a) = true ->
  token_bucket ok a (Some (Bucket (float_of_Z k) now)) =
  if 0 <? k then (Ok (Reply true (float_of_Z (k - 1)) f0), Some (Bucket (float_of_Z (k - 1)) now, Some (ttl_of a)))
  else (Ok (Reply false f0 (lua_ceil (fdiv (fsub f1 f0) rate))), None).
Proof.
  intros Hk Hkc Hcap Hr Hn a Hok. subst a. unfold token_bucket. rewrite available_same_instant by done. cbn [cost].
  destruct (Z.ltb_spec 0 k) as [Hpos|Hz].
  - destruct (level_exact (k - 1) ltac:(lia)) as (E & _ & Hle & _). rewrite Z.sub_add in E, Hle.
    unfold fle in Hle. by rewrite Hle, Hok, E.
  - assert (k = 0) as -> by lia. change (fleb f1 (float_of_Z 0)) with false. reflexivity.
Qed.

(** *** The limiter on a healthy store *)

Section healthy.
Variable expire_ok : float -> bool.
Variable settings : Settings.
Variable now : float.
Notation check := (@check store (mem_scripts expire_ok)).
Notation run_script := (@run_script store (mem_scripts expire_ok)).

(** The script is cached or can be loaded, and no call fails. *)
Definition healthy (st : limiter_state (S := store)) : Prop :=
  faults st.2 = [] /\ (st.1 = None \/ (st.1 = Some "sha" /\ loaded st.2 = true)).

Lemma lookup_write key w s : faults s = [] ->
  match w with (_, Some ttl) => exists z, float_ceil ttl = Some z /\ 0 < z | _ => False end ->
  lookup_bucket key (write key w s) = Some w.1.
Proof.
  destruct w as [b [ttl|]]; [|done]. intros _ (z & Hz & Hpos). unfold write. rewrite Hz.
  rewrite (proj2 (Z.ltb_lt _ _) Hpos). unfold lookup_bucket. cbn. rewrite lookup_insert_eq.
  by rewrite (proj2 (Z.ltb_lt _ _)) by lia.
Qed.

Lemma check_healthy req st r w :
  is_excluded (path req) = false -> enable_rate_limiting settings = true -> healthy st ->
  token_bucket expire_ok (request_args settings req now) (lookup_bucket (request_key req) st.2) = (Ok r, w) ->
  int_of_lua (r_retry_after r) <> None ->
  exists st', check settings now req st = (decide_reply r, st') /\ healthy st' /\
    lookup_bucket (request_key req) st'.2 =
      match w with Some w => lookup_bucket (request_key req) (write (request_key req) w st.2)
                 | None => lookup_bucket (request_key req) st.2 end.
Proof.
  intros Hex Hen [Hf Hsha] Htb Hret. unfold check. rewrite Hex, Hen. cbn [negb].
  destruct st as [sha [bs clk ld fs]]. cbn in Hf, Hsha. subst fs. cbn [snd] in *.
  set (st1 := (Some "sha", match w with
                           | Some w => write (request_key req) w (Store bs clk true [])
                           | None => Store bs clk true [] end) : limiter_state (S := store)).
  assert (run_script (request_key req) (request_args settings req now) (sha, Store bs clk ld []) = (Ok r, st1)) as E.
  { unfold run_script. rewrite !M_bind_run. cbn.
    destruct Hsha as [-> | [-> ->]]; cbn; rewrite M_bind_run; cbn; unfold try_except; cbn;
      unfold run_lua; cbn; unfold lookup_bucket in *; cbn in *; rewrite Htb; reflexivity. }
  exists st1. unfold try_except. rewrite M_bind_run, E. unfold lift, decide_reply.
  split.
  - destruct (int_of_lua (r_retry_after r)) as [n|]; [|done]. by destruct (allowed r).
  - split; [split; [by destruct w as [[? []]|] | right; by destruct w as [[? []]|]]|].
    by destruct w as [[b [t|]]|].
Qed.
End healthy.

(** Whatever fails, the in-memory service answers with a reply of the script or
    with an exception of the Redis client. *)
Lemma mem_run_lua ok key a s r s' : run_lua ok key a s = (r, s') ->
  match r with Ok rep => exists data w, token_bucket ok a data = (Ok rep, w) | Raise e => is_http e = false end.
Proof.
  unfold run_lua. destruct (token_bucket ok a (lookup_bucket key s)) as [r0 w] eqn:E. intros [= <- _].
  destruct r0 as [rep|e]; [by eauto|]. unfold token_bucket in E. repeat case_match; by simplify_eq.
Qed.

Lemma mem_faulty {A} (m : M store A) (P : result pyexn A -> Prop) s :
  P (Raise ConnectionError) -> (forall t, P (m t).1) -> P (faulty m s).1.
Proof. intros H1 H2. unfold faulty. destruct (faults s) as [|[] ?]; [apply H2 | done | apply H2]. Qed.

Lemma mem_run_script ok key a st :
  match (@run_script store (mem_scripts ok) key a st).1 with
  | Ok rep => exists data w, token_bucket ok a data = (Ok rep, w)
  | Raise e => is_http e = false
  end.
Proof.
  set (P := fun r : result pyexn reply => match r with
    Ok rep => exists data w, token_bucket ok a data = (Ok rep, w) | Raise e => is_http e = false end).
  assert (forall t, P (run_lua ok key a t).1) as Hlua.
  { intros t. pose proof (mem_run_lua ok key a t) as H. destruct (run_lua ok key a t) as [r t']. by apply (H r t'). }
  change (P (@run_script store (mem_scripts ok) key a st).1). unfold run_script. rewrite M_bind_run.
  destruct st as [sha s]. cbn [serve get_client mem_scripts].
  pose proof (mem_faulty (mret tt) (fun r => match r with Ok _ => True | Raise e => is_http e = false end) s
    eq_refl (fun _ => I)) as Hg. destruct (faulty (mret tt) s) as [[[]|e] s1]; [|done]. cbn. rewrite M_bind_run.
  assert (match (current_sha (H := mem_scripts ok) (sha, s1)).1 with Ok _ => True | Raise e => is_http e = false end) as Hsha.
  { unfold current_sha. cbn. destruct sha; [done|]. unfold faulty. by destruct (faults s1) as [|[] ?]. }
  destruct (current_sha (H := mem_scripts ok) (sha, s1)) as [[h|e] [sha2 s2]]; [|done].
  unfold try_except. cbn.
  destruct (faulty _ s2) as [[r|e] s3] eqn:E3; cbn.
  - change (P (Ok r, s3).1). rewrite <- E3. apply mem_faulty; [done|].
    intros t. by destruct (loaded t && _).
  - destruct (faulty (run_lua ok key a) s3) as [r s4] eqn:E4. cbn.
    pose proof (mem_faulty (run_lua ok key a) P s3 eq_refl Hlua) as HP. by rewrite E4 in HP.
Qed.

Lemma div_zero_not_finite x : is_finite (lua_ceil (fdiv x f0)) = false /\ int_of_lua (lua_ceil (fdiv x f0)) = None.
Proof. destruct x as [[]|[]| |[]]; by split. Qed.

(** Outcomes of the same request repeated [n] times at one instant. *)
Fixpoint repeat_check (ok : float -> bool) (settings : Settings) (now : float) (req : Request) (n : nat)
    (st : limiter_state (S := store)) : list (result pyexn unit) :=
  match n with
  | O => []
  | S n => let '(r, st') := @check store (mem_scripts ok) settings now req st in
           r :: repeat_check ok settings now req n st'
  end.

Section burst.
Variable ok : float -> bool.
Variable settings : Settings.
Variable now : float.
Variable req : Request.
Variables (cap : Z) (rate : float) (retry z : Z).
Hypothesis Hpar : bucket_parameters settings req = (cap, rate).
Hypothesis Hcap : 1 <= cap < Z.of_nat MAX_CAP.
Hypothesis Hrate : nonneg_finite rate = true.
Hypothesis Hnow : nonneg_finite now = true.
Hypothesis Hex : is_excluded (path req) = false.
Hypothesis Hen : enable_rate_limiting settings = true.
Let a := request_args settings req now.
Hypothesis Hok : ok (ttl_of a) = true.
Hypothesis Httl : float_ceil (ttl_of a) = Some z.
Hypothesis Hz : 0 < z.
Hypothesis Hretry : int_of_lua (lua_ceil (fdiv (fsub f1 f0) rate)) = Some retry.

Definition too_many : result pyexn unit := Raise (HTTPException 429 (Some (Z.max 1 retry))).

Lemma args_eq : a = Args (float_of_Z cap) rate now f1.
Proof. unfold a, request_args. by rewrite Hpar. Qed.

(** The bucket holds [k] tokens, or is new and [k] is the capacity. *)
Definition holds (k : Z) (st : limiter_state (S := store)) : Prop :=
  healthy st /\
  (lookup_bucket (request_key req) st.2 = Some (Bucket (float_of_Z k) now) \/
   (lookup_bucket (request_key req) st.2 = None /\ k = cap)).

Lemma token_bucket_holds k st : 0 <= k <= cap -> holds k st ->
  token_bucket ok a (lookup_bucket (request_key req) st.2) =
  if 0 <? k then (Ok (Reply true (float_of_Z (k - 1)) f0), Some (Bucket (float_of_Z (k - 1)) now, Some (ttl_of a)))
  else (Ok (Reply false f0 (lua_ceil (fdiv (fsub f1 f0) rate))), None).
Proof.
  intros Hk [_ [E|[E ->]]]; rewrite E.
  - pose proof Hok as Hok'. rewrite args_eq in *. apply token_bucket_same_instant; (done || lia).
  - pose proof Hok as Hok'. rewrite args_eq in *.
    rewrite <- (token_bucket_same_instant ok cap cap rate now) by (done || lia).
    unfold token_bucket. rewrite available_same_instant by (done || lia). cbn [available max_capacity cost].
    destruct (level_exact (cap - 1) ltac:(lia)) as (_ & _ & Hle & _). rewrite Z.sub_add in Hle.
    unfold fle in Hle. by rewrite Hle.
Qed.

Lemma repeat_check_holds n k st : 0 <= k <= cap -> holds k st ->
  repeat_check ok settings now req n st =
  replicate (Nat.min n (Z.to_nat k)) (Ok tt) ++ replicate (n - Z.to_nat k) too_many.
Proof.
  revert k st. induction n as [|n IH]; intros k st Hk Hst; [done|].
  pose proof (token_bucket_holds k st Hk Hst) as Ht. cbn [repeat_check]. destruct (Z.ltb_spec 0 k) as [Hp|Hn].
  - destruct (check_healthy ok settings now req st _ _ Hex Hen (proj1 Hst) Ht) as (st' & -> & Hh & Hl); [done|].
    cbn [decide_reply r_retry_after allowed]. change (int_of_lua f0) with (Some 0). cbv iota.
    rewrite lookup_write in Hl; [|apply Hst | by exists z].
    rewrite (IH (k - 1)); [|lia | by split; [|left]].
    replace (Z.to_nat k) with (S (Z.to_nat (k - 1))) by lia. reflexivity.
  - assert (k = 0) as -> by lia.
    destruct (check_healthy ok settings now req st _ _ Hex Hen (proj1 Hst) Ht) as (st' & -> & Hh & Hl).
    { cbn [r_retry_after]. by rewrite Hretry. }
    unfold decide_reply. cbn [r_retry_after allowed]. rewrite Hretry.
    rewrite (IH 0); [|lia|]. 2: { split; [done|]. rewrite Hl. destruct Hst as [_ [?|[? Heq]]]; [by left | lia]. }
    rewrite !Nat.min_0_r, !Nat.sub_0_r. reflexivity.
Qed.
End burst.

(** ** Properties *)

(** On a healthy Redis a caller with no bucket yet gets, at one instant,
    exactly as many requests through as its capacity (burst) says; every further
    one is refused with 429 and a positive [Retry-After]. *)
Theorem burst_limited (ok : float -> bool) (settings : Settings) (now : float) (req : Request)
    (cap : Z) (rate : float) (retry z : Z) (n : nat) (clk : Z) :
  bucket_parameters settings req = (cap, rate) -> 1 <= cap < Z.of_nat MAX_CAP ->
  nonneg_finite rate = true -> nonneg_finite now = true ->
  is_excluded (path req) = false -> enable_rate_limiting settings = true ->
  ok (ttl_of (request_args settings req now)) = true ->
  float_ceil (ttl_of (request_args settings req now)) = Some z -> 0 < z ->
  int_of_lua (lua_ceil (fdiv (fsub f1 f0) rate)) = Some retry ->
  repeat_check ok settings now req n (None, Store ∅ clk false []) =
  replicate (Nat.min n (Z.to_nat cap)) (Ok tt) ++
  replicate (n - Z.to_nat cap) (Raise (HTTPException 429 (Some (Z.max 1 retry)))).
Proof.
  intros. eapply repeat_check_holds; try done; [lia|]. split; [split; [done | by left]|].
  right. split; [|done]. unfold lookup_bucket. cbn. by rewrite lookup_empty.
Qed.

(** C4. The script keeps every bucket between empty and full in binary64
    arithmetic: whatever time passed, also backwards, whatever non-negative
    refill rate, the level it stores is a finite number in [0, capacity], and it
    is one below the available level when the request is admitted. *)
Theorem token_bucket_level (ok : float -> bool) (a : lua_args) (data : option bucket) :
  args_ok a -> (forall b, data = Some b -> bucket_ok (max_capacity a) b) ->
  level_ok (max_capacity a) (available a data) /\
  forall b ttl, (token_bucket ok a data).2 = Some (b, ttl) ->
    fle f1 (available a data) /\ tokens b = fsub (available a data) f1 /\ bucket_ok (max_capacity a) b.
Proof.
  intros Ha Hb. pose proof (available_ok a data Ha Hb) as Hl. split; [done|]. intros b ttl.
  pose proof Ha as (_ & _ & _ & _ & Hv & Hn & Hcost). unfold token_bucket. rewrite Hcost.
  destruct (fleb f1 (available a data)) eqn:E; [|done].
  intros Hw. assert (b = Bucket (fsub (available a data) f1) (now_ts a)) as ->.
  { destruct (ok _); by injection Hw as <- <-. }
  split; [done|]. split; [done|]. split; [by apply spend_ok | done].
Qed.

(** The limiter fails open: [check] either permits the request or raises
    429, and it raises only on a reply that says the bucket is empty; any
    exception of the service (connection, missing script, malformed reply)
    permits the request. *)
Theorem check_fails_open {S : Type} `{Scripts S} (settings : Settings) (now : float) (req : Request)
    (st : limiter_state (S := S)) :
  let script := run_script (request_key req) (request_args settings req now) in
  (forall e, (script st).1 = Raise e -> is_http e = false) ->
  ((check settings now req st).1 = Ok tt \/
   exists r retry, (script st).1 = Ok r /\ allowed r = false /\ int_of_lua (r_retry_after r) = Some retry /\
     (check settings now req st).1 = Raise (HTTPException 429 (Some (Z.max 1 retry)))) /\
  (forall e, (script st).1 = Raise e -> (check settings now req st).1 = Ok tt).
Proof.
  intros script Hs. unfold check. destruct (is_excluded _); [by split; [left|]|].
  destruct (negb _); [by split; [left|]|]. fold script. unfold try_except. rewrite M_bind_run.
  destruct (script st) as [[r|e] st1]; cbn.
  - split; [|done]. unfold decide_reply. destruct (int_of_lua (r_retry_after r)) as [n|] eqn:E; [|by left].
    destruct (allowed r) eqn:Ea; [by left|]. right. exists r, n. done.
  - rewrite (Hs e eq_refl). split; [by left | done].
Qed.

(** A refill rate of zero, as a configured limit of zero requests gives,
    switches the limiter off instead of blocking: no state of the store makes
    [check] refuse a request, since the script then divides by zero and both its
    TTL and its retry delay are infinite. *)
Theorem zero_rate_never_blocks (ok : float -> bool) (settings : Settings) (now : float) (req : Request)
    (cap : Z) (sha : option string) (s : store) :
  bucket_parameters settings req = (cap, f0) ->
  (forall x, ok x = true -> is_finite x = true) ->
  (@check store (mem_scripts ok) settings now req (sha, s)).1 = Ok tt.
Proof.
  intros Hpar Hok. unfold check. destruct (is_excluded _); [done|]. destruct (negb _); [done|].
  unfold try_except. rewrite M_bind_run.
  pose proof (mem_run_script ok (request_key req) (request_args settings req now) (sha, s)) as Hr.
  destruct (run_script _ _ (sha, s)) as [[r|e] st1]; cbn in Hr |- *; [|by rewrite Hr].
  destruct Hr as (data & w & Ht). unfold request_args in Ht. rewrite Hpar in Ht.
  assert (int_of_lua (r_retry_after r) = None) as Hn; [|unfold decide_reply; by rewrite Hn].
  unfold token_bucket, ttl_of in Ht. cbn [max_capacity refill_rate cost] in Ht.
  destruct (fleb _ _).
  - destruct (ok _) eqn:E; [|done]. apply Hok in E.
    destruct (div_zero_not_finite (float_of_Z cap)) as [Hf _]. congruence.
  - injection Ht as <- _. cbn [r_retry_after]. apply div_zero_not_finite.
Qed.

Lemma scope_no_colon req : has_char ":" (_resolve_scope req) = false.
Proof. unfold _resolve_scope. repeat case_match; reflexivity. Qed.

(** Distinct identities never share a bucket; for an anonymous request
    the identity is the first entry of the [X-Forwarded-For] header the client
    sends, so two requests from one address that differ in that entry are counted
    separately. *)
Theorem forwarded_for_selects_bucket (req1 req2 : Request) (h1 h2 : string) :
  st_api_key_id (req_state req1) = None -> st_user (req_state req1) = None ->
  st_api_key_id (req_state req2) = None -> st_user (req_state req2) = None ->
  truthy_header req1 "X-Forwarded-For" = Some h1 -> truthy_header req2 "X-Forwarded-For" = Some h2 ->
  (request_key req1 = request_key req2 <->
   strip (before_char "," h1) = strip (before_char "," h2) /\ _resolve_scope req1 = _resolve_scope req2).
Proof.
  intros Hk1 Hu1 Hk2 Hu2 Hh1 Hh2. unfold request_key, _extract_identity_and_role.
  rewrite Hk1, Hu1, Hk2, Hu2, Hh1, Hh2. cbn [fst]. split.
  - intros E. apply rate_limit_key_inj in E as [E Es]; [|apply scope_no_colon..].
    split; [by apply append_inj_l in E | done].
  - by intros [-> ->].
Qed.

Module RateLimiterWitness.
Definition ok (x : float) : bool := is_finite x.
Definition settings (rpm burst : Z) : Settings :=
  {| s_core := default_CoreSettings; s_source := default_SourceSettings;
     s_ingestion := default_IngestionSettings; s_pattern := default_PatternSettings;
     s_feed := default_FeedSettings; s_literature := default_LiteratureSettings;
     s_backup := default_BackupSettings; s_research := default_ResearchSettings;
     s_gateway := default_GatewaySettings;
     s_ratelimit := {| enable_rate_limiting := true; rate_limit_requests_per_minute := rpm;
                       rate_limit_burst := burst |};
     s_taskqueue := default_TaskQueueSettings; s_worker := default_WorkerSettings;
     s_replan := default_ReplanSettings; s_resilience := default_ResilienceSettings;
     s_auth := default_AuthSettings; s_alert := default_AlertSettings |}.
Definition req (h : list (string * string)) : Request :=
  {| method := "GET"; path := "/api/v1/reports"; headers := h; client_host := Some "10.0.0.7";
     req_state := empty_state |}.
Definition now : float := float_of_Z 1700000000.

Lemma burst_limited_witness :
  repeat_check ok (settings 60 15) now (req []) 7 (None, Store ∅ 0 false []) =
  replicate 5 (Ok tt) ++ replicate 2 (Raise (HTTPException 429 (Some 6))).
Proof.
  apply (burst_limited ok (settings 60 15) now (req []) 5 (fdiv (float_of_Z 10) (float_of_Z 60)) 6 30 7 0);
    (lia || by vm_compute).
Defined.

Lemma token_bucket_level_witness :
  let a := Args (float_of_Z 5) (flit 1 6) (float_of_Z 100) f1 in
  level_ok (float_of_Z 5) (available a (Some (Bucket (flit 1 2) (float_of_Z 97)))).
Proof.
  refine (proj1 (token_bucket_level ok (Args (float_of_Z 5) (flit 1 6) (float_of_Z 100) f1)
                   (Some (Bucket (flit 1 2) (float_of_Z 97))) _ _)).
  - repeat split; by vm_compute.
  - intros b [= <-]. repeat split; by vm_compute.
Defined.

Lemma check_fails_open_witness :
  (@check store (mem_scripts ok) (settings 60 15) now (req []) (None, Store ∅ 0 false [true])).1 = Ok tt.
Proof.
  pose proof (@check_fails_open store (mem_scripts ok) (settings 60 15) now (req [])
                (None, Store ∅ 0 false [true])) as H.
  apply (fun Hs => proj2 (H Hs) ConnectionError); [|reflexivity].
  intros e He. by injection He as <-.
Defined.

Lemma zero_rate_never_blocks_witness :
  (@check store (mem_scripts ok) (settings 0 15) now (req []) (None, Store ∅ 0 false [])).1 = Ok tt.
Proof.
  apply (zero_rate_never_blocks ok (settings 0 15) now (req []) 5); [by vm_compute | done].
Defined.

Lemma forwarded_for_selects_bucket_witness :
  request_key (req [("x-forwarded-for", "1.1.1.1, 10.0.0.7")]) <>
  request_key (req [("x-forwarded-for", "1.1.1.2, 10.0.0.7")]).
Proof.
  intros E. apply (forwarded_for_selects_bucket _ _ "1.1.1.1, 10.0.0.7" "1.1.1.2, 10.0.0.7") in E as [E _];
    [|reflexivity..]. discriminate E.
Defined.
End RateLimiterWitness.
