(* ===== verification/Scaling.v ===== *)
(** * Worker scaling policy ([src/workers/scaling_policy.py])

    The advisory pool size, the telemetry table (insertion, pruning, the window
    query) and the evaluation of sustained threshold breaches.  Instants are
    microseconds.  The queue's answers are inputs, and PostgreSQL's [AVG] is a
    parameter: no other field of the summary depends on it. *)

From stdpp Require Import sorting.
From S2P Require Import Prelude PyFloat FloatRound PyStr Settings Effects.

Definition MIN_AVG_JOB_DURATION_S : float := flit 1 10.
Definition MIN_TARGET_WAIT_S : float := f1.
Definition DEFAULT_AVG_JOB_DURATION_S : float := float_of_Z 30.

(** [math.ceil] raises on infinities ([OverflowError]) and NaN ([ValueError]). *)
Definition math_ceil (x : float) : result pyexn Z :=
  match float_ceil x with
  | Some z => Ok z
  | None => Raise (if is_nan x then ValueError else OtherError "OverflowError")
  end.

Definition recommended_pool_size (settings : WorkerSettings) (current_queue_depth : Z)
    (avg_job_duration_s target_max_wait_s : float) : result pyexn Z :=
  let min_bound := Z.max 1 (worker_pool_size settings) in
  let safe_queue_depth := Z.max 0 current_queue_depth in
  let safe_avg_duration := fmax MIN_AVG_JOB_DURATION_S avg_job_duration_s in
  let safe_target_wait := fmax MIN_TARGET_WAIT_S target_max_wait_s in
  if safe_queue_depth =? 0 then Ok min_bound
  else recommendation ← math_ceil (fdiv (fmul (float_of_Z safe_queue_depth) safe_avg_duration) safe_target_wait);
       Ok (Z.max min_bound recommendation).

(** ** Queue inspection *)

Record ScalingMetrics := {
  m_queue_depth : Z;
  m_utilization_pct : float;
  m_recommended : Z;
  m_active : Z;
  m_busy : Z;
  m_min_pool : Z;
}.

Section inspect.
Variable settings : WorkerSettings.

(** [depth] and [workers] are what RQ answers: [len(q)], and for each worker
    whether its state is ["busy"].  An exception keeps what was read before. *)
Definition get_scaling_metrics (depth : result pyexn Z) (workers : result pyexn (list bool))
    : result pyexn ScalingMetrics :=
  let '(d, active, busy) :=
    match depth with
    | Raise _ => (0, 0, 0)
    | Ok d => match workers with
              | Raise _ => (d, 0, 0)
              | Ok ws => (d, Z.of_nat (length ws), Z.of_nat (length (List.filter id ws)))
              end
    end in
  let utilization := if 0 <? active then fround2 (fmul (fdiv (float_of_Z busy) (float_of_Z active)) (float_of_Z 100))
                     else f0 in
  rec ← recommended_pool_size settings d DEFAULT_AVG_JOB_DURATION_S (worker_target_max_wait_s settings);
  Ok {| m_queue_depth := d; m_utilization_pct := utilization; m_recommended := rec;
        m_active := active; m_busy := busy; m_min_pool := worker_pool_size settings |}.
End inspect.

(** ** Telemetry table *)

Record sample := Sample {
  ts : Z;
  queue_depth : Z;
  worker_utilization_pct : float;
  active_worker_count : Z;
  busy_worker_count : Z;
  recommended : Z;
}.

Definition record_scaling_telemetry_sample (now : Z) (m : ScalingMetrics) (table : list sample) : list sample :=
  table ++ [Sample now (m_queue_depth m) (m_utilization_pct m) (m_active m) (m_busy m) (m_recommended m)].

Definition day_us : Z := 86400000000.

(** The rows left and the number of rows deleted. *)
Definition prune_scaling_telemetry_samples (now retention_days : Z) (table : list sample) : list sample * Z :=
  let cutoff := now - retention_days * day_us in
  (List.filter (fun s => negb (ts s <? cutoff)) table,
   Z.of_nat (length (List.filter (fun s => ts s <? cutoff) table))).

(** ** Sustained breaches *)

(** [(a - b).total_seconds()] *)
Definition total_seconds (a b : Z) : float := int_truediv (a - b) 1000000.

Section sustained.
Variable breach : sample -> bool.
Variables sustained_seconds max_gap_seconds : float.

Definition gap_exceeded (s : sample) (last : Z) : bool := fltb max_gap_seconds (total_seconds (ts s) last).
Definition long_enough (s : sample) (start : Z) : bool := fleb sustained_seconds (total_seconds (ts s) start).

(** The loop, with the start and the last sample of the current run. *)
Fixpoint evaluate_sustained (run : option (Z * Z)) (samples : list sample) : bool :=
  match samples with
  | [] => false
  | s :: samples =>
      if breach s then
        let start := match run with
                     | None => ts s
                     | Some (start, last) => if gap_exceeded s last then ts s else start
                     end in
        if long_enough s start then true else evaluate_sustained (Some (start, ts s)) samples
      else evaluate_sustained None samples
  end.

(** Declarative reading: consecutive breaching samples without a large gap,
    starting where a run starts, that last long enough. *)
Fixpoint unbroken (prev : sample) (run : list sample) : bool :=
  match run with
  | [] => true
  | s :: run => breach s && negb (gap_exceeded s (ts prev)) && unbroken s run
  end.

Definition run_starts (before : list sample) (s : sample) : bool :=
  match last before with
  | None => true
  | Some p => negb (breach p) || gap_exceeded s (ts p)
  end.

Definition sustained_run (samples : list sample) : Prop :=
  exists before first rest after,
    samples = before ++ first :: rest ++ after /\
    breach first = true /\ unbroken first rest = true /\ run_starts before first = true /\
    long_enough (List.last rest first) (ts first) = true.
End sustained.

Definition evaluate_sustained_queue_depth_breach (samples : list sample) (threshold : Z)
    (sustained_seconds max_gap_seconds : float) : bool :=
  evaluate_sustained (fun s => threshold <? queue_depth s) sustained_seconds max_gap_seconds None samples.

Definition evaluate_sustained_utilization_breach (samples : list sample) (threshold : float)
    (sustained_seconds max_gap_seconds : float) : bool :=
  evaluate_sustained (fun s => fleb threshold (worker_utilization_pct s)) sustained_seconds max_gap_seconds
    None samples.

Definition days_map : list (string * Z) := [("1d", 1); ("7d", 7); ("30d", 30); ("90d", 90)].

Inductive verdict := Triggered | DeferredTransient | DeferredNever.

Definition scaling_verdict (v : verdict) : string :=
  match v with
  | Triggered => "Outcome A — Multi-Node Scaling Triggered (Sustained Threshold Met)"
  | DeferredTransient =>
      "Outcome B — Multi-Node Scaling Deferred (Transient Spike Only, Sustained Duration Not Met)"
  | DeferredNever => "Outcome B — Multi-Node Scaling Deferred (Threshold Never Crossed)"
  end.

(** The summary; [triggers_met] repeats [sustained_trigger_satisfied]. *)
Record Telemetry := {
  t_window : string;
  t_sample_count : Z;
  t_max_queue_depth : Z;
  t_avg_queue_depth : float;
  t_max_utilization : float;
  t_avg_utilization : float;
  t_threshold_crossed : bool;
  t_sustained_queue : bool;
  t_sustained_utilization : bool;
  t_sustained_trigger : bool;
  t_verdict : verdict;
}.

Definition earlier (a b : sample) : Prop := ts a <= ts b.
#[global] Instance earlier_dec : RelDecision earlier.
Proof. intros a b. unfold earlier. apply _. Defined.

(** The rows in the window, in time order, as the second query returns them. *)
Definition window_samples (now : Z) (window : string) (table : list sample) : list sample :=
  let days := default 7 (assoc window days_map) in
  merge_sort earlier (List.filter (fun s => now - days * day_us <=? ts s) table).

Definition zmax_list (l : list Z) : Z := match l with [] => 0 | x :: l => fold_left Z.max l x end.
Definition fmax_or_zero (l : list float) : float := match l with [] => f0 | x :: l => fmax_list x l end.

Section summary.
Variable sql_avg_int : list Z -> float.         (* [float(AVG(x))] of a non-empty integer column *)
Variable sql_avg_float : list float -> float.   (* the same of a float column *)

Definition avg_or_zero {A} (avg : list A -> float) (l : list A) : float :=
  match l with [] => f0 | _ => avg l end.

(** [get_historical_scaling_telemetry]; [interval] is [scaling_summary_interval_s]. *)
Definition get_historical_scaling_telemetry (interval : float) (now : Z) (window : string)
    (queue_depth_threshold : Z) (queue_depth_sustained_seconds utilization_threshold
     utilization_sustained_seconds : float) (table : list sample) : Telemetry :=
  let samples := window_samples now window table in
  let max_queue_depth := zmax_list (map queue_depth samples) in
  let max_utilization := fmax_or_zero (map worker_utilization_pct samples) in
  let threshold_crossed := (queue_depth_threshold <? max_queue_depth) || fleb utilization_threshold max_utilization in
  let max_gap_seconds := fmax (float_of_Z 600) (fmul (float_of_Z 2) interval) in
  let sq := evaluate_sustained_queue_depth_breach samples queue_depth_threshold
              queue_depth_sustained_seconds max_gap_seconds in
  let su := evaluate_sustained_utilization_breach samples utilization_threshold
              utilization_sustained_seconds max_gap_seconds in
  {| t_window := window; t_sample_count := Z.of_nat (length samples); t_max_queue_depth := max_queue_depth;
     t_avg_queue_depth := fround2 (avg_or_zero sql_avg_int (map queue_depth samples));
     t_max_utilization := fround2 max_utilization;
     t_avg_utilization := fround2 (avg_or_zero sql_avg_float (map worker_utilization_pct samples));
     t_threshold_crossed := threshold_crossed;
     t_sustained_queue := sq; t_sustained_utilization := su; t_sustained_trigger := sq || su;
     t_verdict := if sq || su then Triggered else if threshold_crossed then DeferredTransient else DeferredNever |}.
End summary.

(** ** Lemmas *)

Section sustained_lemmas.
Variable breach : sample -> bool.
Variables sustained_seconds max_gap_seconds : float.
Notation gap := (gap_exceeded max_gap_seconds).
Notation enough := (long_enough sustained_seconds).
Notation unbroken := (unbroken breach max_gap_seconds).
Notation eval := (evaluate_sustained breach sustained_seconds max_gap_seconds).

(** The run in progress: its start and its last sample. *)
Definition in_progress : Type := option (Z * sample).

Definition forget (r : in_progress) : option (Z * Z) := (fun '(start, p) => (start, ts p)) <$> r.

(** The run in progress goes on long enough. *)
Definition continues (r : in_progress) (samples : list sample) : Prop :=
  exists start p s rest after, r = Some (start, p) /\ samples = (s :: rest) ++ after /\
    unbroken p (s :: rest) = true /\ enough (List.last rest s) start = true.

(** A run that starts in [samples] does. *)
Definition starts (r : in_progress) (before : list sample) (s : sample) : bool :=
  match last before with
  | Some p => negb (breach p) || gap s (ts p)
  | None => match r with None => true | Some (_, p) => gap s (ts p) end
  end.

Lemma starts_cons r r' s c before x : starts r (s :: c :: before) x = starts r' (c :: before) x.
Proof.
  unfold starts. change (last (s :: c :: before)) with (last (c :: before)).
  destruct (last (c :: before)) eqn:E; [done|]. by apply last_None in E.
Qed.

Definition later (r : in_progress) (samples : list sample) : Prop :=
  exists before first rest after, samples = before ++ first :: rest ++ after /\
    breach first = true /\ unbroken first rest = true /\ starts r before first = true /\
    enough (List.last rest first) (ts first) = true.

Lemma last_of_cons (a b : sample) l : List.last (a :: l) b = List.last l a.
Proof. revert a b. induction l as [|c l IH]; intros a b; [done|]. cbn in *. by rewrite IH. Qed.

Lemma later_skip r s samples : breach s = false -> later r (s :: samples) <-> later None samples.
Proof.
  intros Hs. split.
  - intros ([|b before] & first & rest & after & E & Hb & Hu & Hst & He); cbn in E.
    { injection E as -> _. congruence. }
    injection E as <- ->. exists before, first, rest, after. split_and!; try done.
    destruct before as [|c before]; [done|]. by rewrite (starts_cons r None) in Hst.
  - intros (before & first & rest & after & -> & Hb & Hu & Hst & He).
    exists (s :: before), first, rest, after. split_and!; try done.
    destruct before as [|c before]; [cbn; by rewrite Hs | by rewrite (starts_cons r None)].
Qed.

Definition start_of (r : in_progress) (s : sample) : Z :=
  match r with
  | None => ts s
  | Some (start, p) => if gap s (ts p) then ts s else start
  end.

(** Whether [s] extends the run in progress. *)
Definition extends (r : in_progress) (s : sample) : bool :=
  match r with None => false | Some (_, p) => negb (gap s (ts p)) end.

Lemma step_sound r s samples : breach s = true ->
  continues (Some (start_of r s, s)) samples \/ later (Some (start_of r s, s)) samples ->
  continues r (s :: samples) \/ later r (s :: samples).
Proof.
  intros Hs [(start & p & s' & rest & after & [= <- <-] & -> & Hu & He)|Hl].
  - destruct r as [[start p]|]; cbn [start_of] in He.
    + destruct (gap s (ts p)) eqn:Eg.
      * right. exists [], s, (s' :: rest), after. split_and!; try done. by rewrite last_of_cons.
      * left. exists start, p, s, (s' :: rest), after. split_and!; try done.
        -- cbn. rewrite Hs, Eg. exact Hu.
        -- by rewrite last_of_cons.
    + right. exists [], s, (s' :: rest), after. split_and!; try done. by rewrite last_of_cons.
  - right. destruct Hl as (before & first & rest & after & -> & Hb & Hu & Hst & He).
    exists (s :: before), first, rest, after. split_and!; try done.
    destruct before as [|c before]; [cbn in *; by rewrite Hs | by rewrite (starts_cons r (Some (start_of r s, s)))].
Qed.

Lemma step_complete r s samples : breach s = true -> enough s (start_of r s) = false ->
  continues r (s :: samples) \/ later r (s :: samples) ->
  continues (Some (start_of r s, s)) samples \/ later (Some (start_of r s, s)) samples.
Proof.
  intros Hs Hn [(start & p & s' & rest & after & -> & [= -> ->] & Hu & He)|Hl].
  - cbn in Hu. rewrite !andb_true_iff, negb_true_iff in Hu. destruct Hu as [[_ Hg] Hu].
    cbn [start_of] in *. rewrite Hg in *. destruct rest as [|s2 rest]; [cbn in He; congruence|].
    left. exists start, s', s2, rest, after. split_and!; try done. by rewrite last_of_cons in He.
  - destruct Hl as ([|b before] & first & rest & after & E & Hb & Hu & Hst & He); cbn in E.
    + injection E as -> ->. assert (start_of r first = ts first) as Est.
      { destruct r as [[start p]|]; [|done]. cbn in Hst |- *. by rewrite Hst. }
      rewrite Est in *. destruct rest as [|s2 rest]; [cbn in He; congruence|].
      left. exists (ts first), first, s2, rest, after. split_and!; try done. by rewrite last_of_cons in He.
    + injection E as <- ->. right. exists before, first, rest, after. split_and!; try done.
      destruct before as [|c before]; [cbn in *; by rewrite Hs in Hst|].
      by rewrite (starts_cons r (Some (start_of r s, s))) in Hst.
Qed.

Lemma step_now r s samples : breach s = true -> enough s (start_of r s) = true ->
  continues r (s :: samples) \/ later r (s :: samples).
Proof.
  intros Hs He. destruct r as [[start p]|]; cbn [start_of] in He.
  - destruct (gap s (ts p)) eqn:Eg.
    + right. by exists [], s, [], samples.
    + left. exists start, p, s, [], samples. split_and!; try done. cbn. by rewrite Hs, Eg.
  - right. by exists [], s, [], samples.
Qed.

Lemma evaluate_spec r samples :
  eval (forget r) samples = true <-> continues r samples \/ later r samples.
Proof.
  revert r. induction samples as [|s samples IH]; intros r.
  - split; [done|]. intros [(? & ? & ? & ? & ? & _ & ? & _)|([|] & ? & ? & ? & ? & _)]; done.
  - cbn [evaluate_sustained]. destruct (breach s) eqn:Hs.
    + assert (match forget r with None => ts s | Some (start, last) => if gap s last then ts s else start end
              = start_of r s) as -> by (by destruct r as [[]|]).
      destruct (enough s (start_of r s)) eqn:He.
      { split; [intros _; by apply step_now | done]. }
      change (Some (start_of r s, ts s)) with (forget (Some (start_of r s, s))). rewrite IH.
      split; [by apply step_sound | by apply step_complete].
    + rewrite (IH None : eval None samples = true <-> _), <- (later_skip r s samples Hs). split; [|].
      * intros [(? & ? & ? & ? & ? & ? & _)|H]; [done | by right].
      * intros [(? & ? & ? & ? & ? & _ & [= <- _] & Hu & _)|H]; [|by right].
        cbn in Hu. by rewrite Hs in Hu.
Qed.
End sustained_lemmas.

Lemma evaluate_sustained_breached breach a b samples :
  evaluate_sustained breach a b None samples = true -> exists s, s ∈ samples /\ breach s = true.
Proof.
  intros H. apply (evaluate_spec breach a b None) in H as [(? & ? & ? & ? & ? & ? & _)|Hl]; [done|].
  destruct Hl as (before & s & rest & after & -> & Hb & _). exists s. split; [set_solver | done].
Qed.

Lemma zmax_list_ge l x : x ∈ l -> x <= zmax_list l.
Proof.
  destruct l as [|y l]; [by inversion 1|]. cbn. intros Hx.
  assert (forall l a, a <= fold_left Z.max l a) as Ha.
  { clear. induction l as [|b l IH]; intros a; cbn; [lia|]. specialize (IH (Z.max a b)). lia. }
  revert y Hx. induction l as [|z l IH]; intros y Hx; cbn.
  - apply list_elem_of_singleton in Hx. lia.
  - apply elem_of_cons in Hx as [->|Hx]; [etrans; [|apply Ha]; lia|].
    apply elem_of_cons in Hx as [->|Hx]; [etrans; [|apply Ha]; lia|].
    apply IH. by right.
Qed.

Lemma zmax_list_elem l : l <> [] -> zmax_list l ∈ l.
Proof.
  destruct l as [|y l]; [done|]. intros _. cbn. revert y. induction l as [|z l IH]; intros y; cbn.
  - by left.
  - destruct (Z.max_spec y z) as [[_ ->]|[_ ->]].
    + right. apply IH.
    + specialize (IH y). apply elem_of_cons in IH as [->|IH]; [by left | by do 2 right].
Qed.

Lemma window_subset now window table s : s ∈ window_samples now window table -> s ∈ table.
Proof.
  unfold window_samples. rewrite merge_sort_Permutation, list_elem_of_In, filter_In, <- list_elem_of_In.
  by intros [? _].
Qed.

Lemma crossed_iff samples qt ut :
  (forall s, s ∈ samples -> is_nan (worker_utilization_pct s) = false) -> fltb f0 ut = true -> 0 <= qt ->
  (qt <? zmax_list (map queue_depth samples)) || fleb ut (fmax_or_zero (map worker_utilization_pct samples)) = true <->
  exists s, s ∈ samples /\ (qt < queue_depth s \/ fle ut (worker_utilization_pct s)).
Proof.
  intros Hnan Hut Hqt. rewrite orb_true_iff, Z.ltb_lt. destruct samples as [|s0 samples].
  { cbn. split; [|intros (s & Hs & _); by inversion Hs]. intros [H|H]; [lia|].
    by apply flt_not_le in Hut. }
  split.
  - intros [H|H].
    + pose proof (zmax_list_elem (map queue_depth (s0 :: samples)) ltac:(done)) as Hin.
      apply list_elem_of_fmap in Hin as (s & E & Hs). rewrite E in H. eauto.
    + pose proof (fmax_list_elem (worker_utilization_pct s0) (map worker_utilization_pct samples)) as Hin.
      apply (list_elem_of_fmap worker_utilization_pct (s0 :: samples)) in Hin as (s & E & Hs).
      exists s. split; [done|]. right. by rewrite <- E.
  - intros (s & Hs & [H|H]); [left|right].
    + eapply Z.lt_le_trans; [exact H|]. apply zmax_list_ge, list_elem_of_fmap. eauto.
    + eapply fle_trans; [exact H|]. apply fmax_list_ge; [|by apply (list_elem_of_fmap_2 worker_utilization_pct (s0 :: samples))].
      apply Forall_forall. intros x Hx.
      apply (list_elem_of_fmap worker_utilization_pct (s0 :: samples)) in Hx as (s' & -> & Hs'). by apply Hnan.
Qed.

(** ** Properties *)

(** The one-pass loop finds a sustained breach exactly when some run of
    consecutive breaching samples, begun after a sample below the threshold or
    after a gap that is too long, with no such gap inside, spans the required
    time. *)
Theorem sustained_breach_iff (breach : sample -> bool) (sustained_seconds max_gap_seconds : float)
    (samples : list sample) :
  evaluate_sustained breach sustained_seconds max_gap_seconds None samples = true <->
  sustained_run breach sustained_seconds max_gap_seconds samples.
Proof.
  rewrite (evaluate_spec breach sustained_seconds max_gap_seconds None). split.
  - by intros [(? & ? & ? & ? & ? & ? & _)|H].
  - by right.
Qed.

(** A scaling trigger is never reported without a threshold crossing in
    the window, the trigger flag and the verdict agree, and "never crossed" is
    reported exactly when no sample in the window exceeds either threshold. *)
Theorem scaling_verdict_consistent (avg_int : list Z -> float) (avg_float : list float -> float) (interval : float) (now : Z) (window : string) (qt : Z)
    (qs ut us : float) (table : list sample) :
  (forall s, s ∈ table -> is_nan (worker_utilization_pct s) = false) -> fltb f0 ut = true -> 0 <= qt ->
  let t := get_historical_scaling_telemetry avg_int avg_float interval now window qt qs ut us table in
  (t_sustained_trigger t = true <-> t_verdict t = Triggered) /\
  (t_verdict t = Triggered -> t_threshold_crossed t = true) /\
  (t_verdict t = DeferredNever <->
     forall s, s ∈ window_samples now window table -> queue_depth s <= qt /\ fleb ut (worker_utilization_pct s) = false).
Proof.
  intros Hnan Hut Hqt t. unfold t, get_historical_scaling_telemetry.
  set (samples := window_samples now window table). cbn [t_verdict t_threshold_crossed t_sustained_trigger].
  set (crossed := (_ <? _) || _). set (sq := evaluate_sustained_queue_depth_breach _ _ _ _).
  set (su := evaluate_sustained_utilization_breach _ _ _ _).
  assert (crossed = true <-> exists s, s ∈ samples /\ (qt < queue_depth s \/ fle ut (worker_utilization_pct s))) as Hc.
  { apply crossed_iff; [|done|done]. intros s Hs. apply Hnan. by eapply window_subset. }
  assert (sq || su = true -> crossed = true) as Hs.
  { rewrite Hc, orb_true_iff. intros [H|H]; apply evaluate_sustained_breached in H as (s & Hin & Hb); exists s.
    - split; [done|]. left. by apply Z.ltb_lt.
    - split; [done|]. by right. }
  split_and!.
  - by destruct (sq || su), crossed.
  - destruct (sq || su); [auto | by destruct crossed].
  - split.
    + intros Hv s Hin. assert (crossed = false) as Hf by (destruct (sq || su), crossed; done).
      assert (~ (qt < queue_depth s \/ fle ut (worker_utilization_pct s))) as Hno.
      { intros Hx. assert (crossed = true) by (apply Hc; eauto). congruence. }
      split; [lia|]. apply not_true_is_false. intros Hx. apply Hno. by right.
    + intros Hall. assert (crossed = false) as Hf.
      { apply not_true_is_false. rewrite Hc. intros (s & Hin & [Hx|Hx]); destruct (Hall s Hin) as [H1 H2]; [lia|].
        unfold fle in Hx. congruence. }
      rewrite Hf in *. destruct (sq || su); [by specialize (Hs eq_refl) | done].
Qed.

(** The recommendation is never below the configured pool or one worker,
    an empty queue gives exactly that minimum, and the metrics call survives any
    Redis failure with it. *)
Theorem recommendation_bounds (settings : WorkerSettings) (depth : Z)
    (avg wait : float) (n : Z) (e : pyexn) (workers : result pyexn (list bool)) :
  let min_bound := Z.max 1 (worker_pool_size settings) in
  (recommended_pool_size settings depth avg wait = Ok n -> min_bound <= n) /\
  (depth <= 0 -> recommended_pool_size settings depth avg wait = Ok min_bound) /\
  (exists m, get_scaling_metrics settings (Raise e) workers = Ok m /\
     m_recommended m = min_bound /\ m_queue_depth m = 0 /\ m_utilization_pct m = f0).
Proof.
  cbn zeta. unfold recommended_pool_size. split_and!.
  - destruct (Z.eqb_spec (Z.max 0 depth) 0); [intros [= <-]; lia|].
    rewrite result_bind_ok. intros (r & _ & [= <-]). lia.
  - intros Hd. by rewrite (proj2 (Z.eqb_eq (Z.max 0 depth) 0)) by lia.
  - eexists. split; [reflexivity|]. done.
Qed.

Module ScalingWitness.
Definition minutes (n : Z) : Z := n * 60000000.
Definition busy_sample (n depth : Z) : sample := Sample (minutes n) depth (float_of_Z 50) 2 1 2.
Definition table : list sample := map (fun n => busy_sample (5 * Z.of_nat n) 30) (seq 0 4).

Lemma scaling_verdict_consistent_witness :
  let t := get_historical_scaling_telemetry (fun _ => f0) (fun _ => f0) (float_of_Z 300) (minutes 20) "1d" 20 (float_of_Z 900)
             (float_of_Z 100) (float_of_Z 600) table in
  t_verdict t = Triggered /\ t_threshold_crossed t = true.
Proof.
  split; [by vm_compute|].
  apply (scaling_verdict_consistent (fun _ => f0) (fun _ => f0) (float_of_Z 300) (minutes 20) "1d" 20 (float_of_Z 900)
           (float_of_Z 100) (float_of_Z 600) table).
  - intros s Hs. apply list_elem_of_fmap in Hs as (n & -> & _). by vm_compute.
  - by vm_compute.
  - lia.
  - by vm_compute.
Defined.

(** One quarter of an hour of depth 30 triggers; a single low sample in between
    does not. *)
Example broken_run :
  evaluate_sustained_queue_depth_breach
    [busy_sample 0 30; busy_sample 5 30; busy_sample 10 1; busy_sample 15 30] 20
    (float_of_Z 900) (float_of_Z 600) = false.
Proof. by vm_compute. Qed.
End ScalingWitness.
