(* ===== verification/Checkpointer.v ===== *)
(** * Redis checkpointer ([src/orchestrator/graph/checkpointer.py])

    Python objects as the serializer sees them, their normalization, and the
    four asynchronous operations of [RedisCheckpointSaver] over the Redis
    interface extended with SCAN.  LangGraph's [JsonPlusSerializer] is the
    interface [JsonPlus] (typed payloads, with a round-trip law on the data it
    documents: scalars, UUIDs, instants, enumerations, Pydantic models, lists and
    dicts).  The graph's state ([Graph.TaskGraphState]) is given as such data.
    The client is created with or without [decode_responses]: with it, GET
    answers text instead of bytes.  Byte strings are Rocq strings. *)

From stdpp Require Import sorting pretty.
From Stdlib Require Import Ascii.
From S2P Require Import Prelude PyFloat PyStr Effects Uncertainty AgentIO Classifier Replan Graph.

(** ** Objects *)

Inductive key := KStr (s : string) | KInt (n : Z).

#[global] Instance key_eq_dec : EqDecision key.
Proof. solve_decision. Defined.

Definition str_key (k : key) : string := match k with KStr s => s | KInt n => pretty n end.

Inductive obj :=
| ONone
| OStr (s : string)
| OInt (n : Z)
| OFloat (x : float)
| OBool (b : bool)
| OBytes (s : string)
| OUuid (u : uuid)          (* [uuid.UUID] *)
| ODatetime (t : Z)
| OEnum (cls value : string)
| OModel (cls : string) (fields : list (string * obj))   (* a Pydantic model: not a mapping *)
| OCallable                 (* a function or bound method *)
| OType                     (* a class *)
| OTuple (l : list obj)
| OList (l : list obj)
| OSet (l : list obj)
| ODict (fields : list (key * obj)).

Definition _is_unpicklable_callable (o : obj) : bool := match o with OCallable => true | _ => false end.

Fixpoint dict_set (k : key) (v : obj) (fields : list (key * obj)) : list (key * obj) :=
  match fields with
  | [] => [(k, v)]
  | (k', v') :: fields => if decide (k = k') then (k', v) :: fields else (k', v') :: dict_set k v fields
  end.

Fixpoint dict_get (k : string) (fields : list (key * obj)) : option obj :=
  match fields with
  | [] => None
  | (KStr k', v) :: fields => if String.eqb k k' then Some v else dict_get k fields
  | _ :: fields => dict_get k fields
  end.

Definition keep_field (k : key) (v : obj) : bool :=
  negb (bool_decide (k = KStr "stream_writer")) && negb (_is_unpicklable_callable v).

Fixpoint _normalize_serializable (o : obj) : obj :=
  let fix items (l : list obj) : list obj :=
    match l with
    | [] => []
    | x :: l => if _is_unpicklable_callable x then items l else _normalize_serializable x :: items l
    end in
  let fix entries (acc l : list (key * obj)) : list (key * obj) :=
    match l with
    | [] => acc
    | (k, v) :: l =>
        entries (if keep_field k v then dict_set (KStr (str_key k)) (_normalize_serializable v) acc else acc) l
    end in
  match o with
  | OCallable => ONone
  | ODict fields => ODict (entries [] fields)
  | OTuple l => OTuple (items l)
  | OList l | OSet l => OList (items l)
  | o => o
  end.

(** ** Serializer *)

(** What the serializer documents to give back as it was: scalars, identifiers,
    instants, enumerations, models, whose fields may be tuples, and lists and
    string-keyed dicts of such (a bare tuple may come back as a list). *)
Inductive plain_data : obj -> Prop :=
| plain_none : plain_data ONone
| plain_str s : plain_data (OStr s)
| plain_int n : plain_data (OInt n)
| plain_float x : plain_data (OFloat x)
| plain_bool b : plain_data (OBool b)
| plain_bytes s : plain_data (OBytes s)
| plain_uuid u : plain_data (OUuid u)
| plain_datetime t : plain_data (ODatetime t)
| plain_enum cls value : plain_data (OEnum cls value)
| plain_model cls fields :
    Forall (fun kv => plain_data kv.2 \/ exists l, kv.2 = OTuple l /\ Forall plain_data l) fields ->
    plain_data (OModel cls fields)
| plain_list l : Forall plain_data l -> plain_data (OList l)
| plain_dict fields : Forall (fun kv => plain_data kv.2) fields ->
    Forall (fun kv => exists s, kv.1 = KStr s) fields -> plain_data (ODict fields).

Class JsonPlus := {
  dumps_typed : obj -> option (string * string);   (* [None]: it raises *)
  loads_typed : string * string -> result pyexn obj;
  json_fallback : obj -> string;                   (* [json.dumps(o, default=str)] *)
  py_str : obj -> string;                          (* [str(o)] *)
  typed_roundtrip o tp : plain_data o -> dumps_typed o = Some tp -> loads_typed tp = Ok o;
  typed_total o : plain_data o -> is_Some (dumps_typed o);
  tag_no_colon o t p : dumps_typed o = Some (t, p) -> has_char ":" t = false;
}.

(** A Redis value as the program sees it: bytes or text. *)
Inductive rval := RBytes (b : string) | RText (s : string).

(** [data.partition(b":")] when the separator occurs. *)
Fixpoint partition_colon (s : string) : option (string * string) :=
  match s with
  | EmptyString => None
  | String c s' =>
      if Ascii.eqb c ":"%char then Some ("", s')
      else match partition_colon s' with Some (a, b) => Some (String c a, b) | None => None end
  end.

Section serde.
Context `{JsonPlus}.

(** [GaiaOSSerializer.dumps_typed] *)
Definition gaia_dumps_typed (o : obj) : string * string :=
  let sanitized := _normalize_serializable o in
  match dumps_typed sanitized with
  | Some tp => tp
  | None => ("json", json_fallback sanitized)
  end.

(** [GaiaOSSerializer.dumps] *)
Definition serde_dumps (o : obj) : rval :=
  let '(type_, data_) := gaia_dumps_typed o in RBytes (type_ +:+ ":" +:+ data_).

(** [GaiaOSSerializer.loads]; [b":" in data] raises [TypeError] when [data] is a
    [str]. *)
Definition serde_loads (v : rval) : result pyexn obj :=
  match v with
  | RBytes data =>
      match partition_colon data with
      | Some tp => loads_typed tp
      | None => loads_typed ("msgpack", data)
      end
  | RText _ => Raise TypeError
  end.
End serde.

(** ** Redis with SCAN *)

(** SCAN returns every live key with the prefix, possibly more than once, and
    nothing else. *)
Class RedisScan (S V : Type) `{Redis S V} := {
  scan_iter : string -> M S (list string);
  scan_view p s : forall k, view (scan_iter p s).2 k = view s k;
  scan_ok p s ks : (scan_iter p s).1 = Ok ks ->
    forall k, k ∈ ks <-> startswith p k = true /\ is_Some (view s k);
}.

(** ** The saver *)

Record RunnableConfig := Config { thread_id : option string; checkpoint_id : option string }.

Definition config_obj (c : RunnableConfig) : obj :=
  ODict [(KStr "configurable",
          ODict (match thread_id c with Some t => [(KStr "thread_id", OStr t)] | None => [] end ++
                 match checkpoint_id c with Some t => [(KStr "checkpoint_id", OStr t)] | None => [] end))].

Definition latest_key (thread : string) : string := "gaiaos:checkpoint:" +:+ thread +:+ ":latest".
Definition checkpoint_prefix (thread : string) : string := "gaiaos:checkpoint:" +:+ thread +:+ ":checkpoint:".
Definition checkpoint_data_key (thread id : string) : string := checkpoint_prefix thread +:+ id.
Definition writes_prefix (thread id : string) : string :=
  "gaiaos:checkpoint:" +:+ thread +:+ ":writes:" +:+ id +:+ ":".
Definition writes_key (thread id task : string) : string := writes_prefix thread id +:+ task.

Record CheckpointTuple := Tuple {
  t_config : RunnableConfig;
  t_checkpoint : obj;
  t_metadata : obj;
  t_parent_config : option obj;
  t_pending_writes : list (string * string * obj);   (* task, channel, value *)
}.

Definition truthy_str (s : option string) : option string :=
  match s with Some (String _ _ as t) => Some t | _ => None end.

Section operations.
Context {S : Type} `{JsonPlus} `{RedisScan S rval}.
(** Strict UTF-8 decoding, as a client with [decode_responses] does. *)
Variable utf8 : string -> result pyexn string.
Variable decode_responses : bool.
Variable ttl_seconds : option Z.

(** What [client.get] hands to the program; text that was SET reads back as it. *)
Definition delivered (v : rval) : result pyexn rval :=
  match v with
  | RText s => Ok (RText s)
  | RBytes b => if decode_responses then RText <$> utf8 b else Ok (RBytes b)
  end.

Definition client_get (k : string) : M S (option rval) :=
  redis_get k ≫= fun v =>
  match v with
  | None => mret None
  | Some v => lift (Some <$> delivered v)
  end.

(** SET with [ex] when a positive TTL is configured. *)
Definition client_set (k : string) (v : rval) : M S unit :=
  redis_set k v (match ttl_seconds with Some n => if 0 <? n then Some n else None | None => None end).

Definition obj_index (o : obj) (k : string) : result pyexn obj :=
  match o with
  | ODict fields => match dict_get k fields with Some v => Ok v | None => Raise KeyError end
  | _ => Raise TypeError
  end.

(** The checkpoint id in a key: LangGraph's ids are strings. *)
Definition id_text (o : obj) : string := match o with OStr s => s | o => py_str o end.

(** [aput] *)
Definition aput (config : RunnableConfig) (checkpoint metadata : obj) : M S RunnableConfig :=
  lift (obj_index checkpoint "id") ≫= fun cid =>
  match truthy_str (thread_id config) with
  | None => raise ValueError
  | Some thread =>
      let id := id_text cid in
      let data := ODict [(KStr "checkpoint", _normalize_serializable checkpoint);
                         (KStr "metadata", _normalize_serializable metadata);
                         (KStr "parent_config", _normalize_serializable (config_obj config))] in
      client_set (checkpoint_data_key thread id) (serde_dumps data) ≫= fun _ =>
      client_set (latest_key thread) (RText id) ≫= fun _ =>
      mret (Config (Some thread) (Some id))
  end.

(** [aput_writes]; the saver keeps neither the stream writer nor callables, classes included. *)
Definition aput_writes (config : RunnableConfig) (writes : list (string * obj)) (task_id : string) : M S unit :=
  match truthy_str (thread_id config), truthy_str (checkpoint_id config) with
  | Some thread, Some id =>
      let filtered := List.filter (fun '(channel, v) =>
        negb (String.eqb channel "stream_writer") &&
        negb (_is_unpicklable_callable v || match v with OType => true | _ => false end)) writes in
      let data := OList (map (fun '(channel, v) => OTuple [OStr channel; v]) filtered) in
      client_set (writes_key thread id task_id) (serde_dumps (_normalize_serializable data))
  | _, _ => raise ValueError
  end.

(** [for channel, value in channel_values] *)
Definition channel_values (o : obj) : result pyexn (list (string * obj)) :=
  match o with
  | OList l => result_mapM (fun p => match p with
                                    | OTuple [OStr c; v] | OList [OStr c; v] => Ok (c, v)
                                    | _ => Raise ValueError
                                    end) l
  | _ => Raise TypeError
  end.

Fixpoint collect_writes (keys : list string) : M S (list (string * string * obj)) :=
  match keys with
  | [] => mret []
  | k :: keys =>
      client_get k ≫= fun v =>
      (match v with
       | None => mret []
       | Some v => lift (o ← serde_loads v; cs ← channel_values o;
                         Ok (map (fun '(c, x) => (after_last ":" k, c, x)) cs))
       end : M S _) ≫= fun ws =>
      collect_writes keys ≫= fun rest => mret (ws ++ rest)
  end.

(** The stored document of a checkpoint key, if it is still there. *)
Definition load_document (k : string) : M S (option (obj * obj * option obj)) :=
  client_get k ≫= fun v =>
  match v with
  | None => mret None
  | Some v => lift (data ← serde_loads v;
                    checkpoint ← obj_index data "checkpoint";
                    metadata ← obj_index data "metadata";
                    Ok (Some (checkpoint, metadata,
                              match data with ODict f => dict_get "parent_config" f | _ => None end)))
  end.

(** [aget_tuple] *)
Definition aget_tuple (config : RunnableConfig) : M S (option CheckpointTuple) :=
  match truthy_str (thread_id config) with
  | None => mret None
  | Some thread =>
      (match truthy_str (checkpoint_id config) with
       | Some id => mret (Some id)
       | None => client_get (latest_key thread) ≫= fun v =>
                 match v with
                 | Some (RText id) => mret (truthy_str (Some id))
                 | Some (RBytes b) => lift (truthy_str <$> (Some <$> utf8 b))
                 | None => mret None
                 end
       end : M S (option string)) ≫= fun oid =>
      match oid with
      | None => mret None
      | Some id =>
          load_document (checkpoint_data_key thread id) ≫= fun doc =>
          match doc with
          | None => mret None
          | Some (checkpoint, metadata, parent) =>
              scan_iter (writes_prefix thread id) ≫= fun keys =>
              collect_writes keys ≫= fun ws =>
              mret (Some (Tuple config checkpoint metadata parent ws))
          end
      end
  end.

(** One entry of [alist]. *)
Definition list_entry (thread k : string) : M S (option CheckpointTuple) :=
  load_document k ≫= fun doc =>
  match doc with
  | None => mret None
  | Some (checkpoint, metadata, parent) =>
      lift (obj_index checkpoint "id") ≫= fun cid =>
      let id := id_text cid in
      scan_iter (writes_prefix thread id) ≫= fun keys =>
      collect_writes keys ≫= fun ws =>
      mret (Some (Tuple (Config (Some thread) (Some id)) checkpoint metadata parent ws))
  end.

Fixpoint list_entries (thread : string) (keys : list string) : M S (list CheckpointTuple) :=
  match keys with
  | [] => mret []
  | k :: keys => list_entry thread k ≫= fun t =>
                 list_entries thread keys ≫= fun ts =>
                 mret (match t with Some t => t :: ts | None => ts end)
  end.

(** [t.checkpoint.get("ts", "")] *)
Definition sort_key (t : CheckpointTuple) : string :=
  match t_checkpoint t with
  | ODict f => match dict_get "ts" f with Some (OStr s) => s | _ => "" end
  | _ => ""
  end.

Definition newer (a b : CheckpointTuple) : Prop := String.leb (sort_key b) (sort_key a) = true.
#[global] Instance newer_dec : RelDecision newer.
Proof. intros a b. unfold newer. apply _. Defined.

Definition has_id (id : string) (t : CheckpointTuple) : bool := bool_decide (checkpoint_id (t_config t) = Some id).

(** The entries after the [before] checkpoint, exclusive. *)
Fixpoint skip_until (id : string) (ts : list CheckpointTuple) : list CheckpointTuple :=
  match ts with
  | [] => []
  | t :: ts => if has_id id t then ts else skip_until id ts
  end.

(** [if limit and count >= limit: break] after each yield. *)
Definition take_limit (limit : option Z) (ts : list CheckpointTuple) : list CheckpointTuple :=
  match limit with
  | Some n => if n =? 0 then ts else if n <? 0 then firstn 1 ts else firstn (Z.to_nat n) ts
  | None => ts
  end.

(** [alist]: sorting in reverse order is stable on equal keys. *)
Definition alist (config : option RunnableConfig) (before : option RunnableConfig) (limit : option Z)
    : M S (list CheckpointTuple) :=
  match truthy_str (config ≫= thread_id) with
  | None => mret []
  | Some thread =>
      scan_iter (checkpoint_prefix thread) ≫= fun keys =>
      list_entries thread keys ≫= fun ts =>
      let sorted := merge_sort newer ts in
      mret (take_limit limit
              (match truthy_str (before ≫= checkpoint_id) with
               | Some id => skip_until id sorted
               | None => sorted
               end))
  end.
End operations.

(** ** Normalization *)

Section obj_ind.
Variable P : obj -> Prop.
Hypothesis Hnone : P ONone.
Hypothesis Hstr : forall s, P (OStr s).
Hypothesis Hint : forall n, P (OInt n).
Hypothesis Hfloat : forall x, P (OFloat x).
Hypothesis Hbool : forall b, P (OBool b).
Hypothesis Hbytes : forall s, P (OBytes s).
Hypothesis Huuid : forall u, P (OUuid u).
Hypothesis Hdatetime : forall t, P (ODatetime t).
Hypothesis Henum : forall cls value, P (OEnum cls value).
Hypothesis Hmodel : forall cls fields, Forall (fun kv => P kv.2) fields -> P (OModel cls fields).
Hypothesis Hcall : P OCallable.
Hypothesis Htype : P OType.
Hypothesis Htuple : forall l, Forall P l -> P (OTuple l).
Hypothesis Hlist : forall l, Forall P l -> P (OList l).
Hypothesis Hset : forall l, Forall P l -> P (OSet l).
Hypothesis Hdict : forall fields, Forall (fun kv => P kv.2) fields -> P (ODict fields).

(** Induction through lists and dicts. *)
Fixpoint obj_rect' (o : obj) : P o :=
  let fix items (l : list obj) : Forall P l :=
    match l with [] => Forall_nil_2 P | x :: l => Forall_cons_2 P x l (obj_rect' x) (items l) end in
  let fix entries (l : list (key * obj)) : Forall (fun kv => P kv.2) l :=
    match l with
    | [] => Forall_nil_2 _
    | (k, v) :: l => Forall_cons_2 (fun kv => P kv.2) (k, v) l (obj_rect' v) (entries l)
    end in
  let fix model_fields (l : list (string * obj)) : Forall (fun kv => P kv.2) l :=
    match l with
    | [] => Forall_nil_2 _
    | (k, v) :: l => Forall_cons_2 (fun kv => P kv.2) (k, v) l (obj_rect' v) (model_fields l)
    end in
  match o with
  | ONone => Hnone | OStr s => Hstr s | OInt n => Hint n | OFloat x => Hfloat x
  | OBool b => Hbool b | OBytes s => Hbytes s | OUuid u => Huuid u | ODatetime t => Hdatetime t
  | OEnum cls value => Henum cls value | OModel cls fields => Hmodel cls fields (model_fields fields)
  | OCallable => Hcall | OType => Htype
  | OTuple l => Htuple l (items l) | OList l => Hlist l (items l) | OSet l => Hset l (items l)
  | ODict fields => Hdict fields (entries fields)
  end.
End obj_ind.

(** The loops of the normalization. *)
Definition normal_items (l : list obj) : list obj :=
  map _normalize_serializable (List.filter (fun x => negb (_is_unpicklable_callable x)) l).

Definition normal_entry (acc : list (key * obj)) (kv : key * obj) : list (key * obj) :=
  if keep_field kv.1 kv.2 then dict_set (KStr (str_key kv.1)) (_normalize_serializable kv.2) acc else acc.

Lemma normalize_eq o : _normalize_serializable o =
  match o with
  | OCallable => ONone
  | ODict fields => ODict (fold_left normal_entry fields [])
  | OTuple l => OTuple (normal_items l)
  | OList l | OSet l => OList (normal_items l)
  | o => o
  end.
Proof.
  assert (forall l, (fix items (l : list obj) : list obj :=
    match l with
    | [] => []
    | x :: l => if _is_unpicklable_callable x then items l else _normalize_serializable x :: items l
    end) l = normal_items l) as Hi.
  { unfold normal_items. induction l as [|x l IH]; [done|]. cbn [List.filter].
    destruct (_is_unpicklable_callable x); cbn; by rewrite IH. }
  destruct o; try reflexivity; cbn; rewrite ?Hi; try reflexivity.
  f_equal. generalize (@nil (key * obj)). induction fields as [|[k v] fields IH]; intros acc; [done|].
  cbn. by rewrite IH.
Qed.

(** Normal form: no callables, no sets, string keys only, none of them the stream
    writer or repeated. *)
Inductive clean : obj -> Prop :=
| clean_none : clean ONone
| clean_str s : clean (OStr s)
| clean_int n : clean (OInt n)
| clean_float x : clean (OFloat x)
| clean_bool b : clean (OBool b)
| clean_bytes s : clean (OBytes s)
| clean_uuid u : clean (OUuid u)
| clean_datetime t : clean (ODatetime t)
| clean_enum cls value : clean (OEnum cls value)
| clean_model cls fields : clean (OModel cls fields)
| clean_type : clean OType
| clean_tuple l : Forall clean l -> clean (OTuple l)
| clean_list l : Forall clean l -> clean (OList l)
| clean_dict fields : Forall (fun kv => clean kv.2) fields ->
    Forall (fun kv => exists s, kv.1 = KStr s /\ s <> "stream_writer") fields ->
    NoDup (fields.*1) -> clean (ODict fields).

Lemma str_key_int n : KStr (str_key (KInt n)) <> KStr "stream_writer".
Proof.
  assert (all_digits (pretty n) = true) as Hd.
  { destruct n as [|p|p]; [done | |]; cbn.
    - by apply pretty_N_go_digits.
    - by apply pretty_N_go_digits. }
  cbn. intros [= E]. by rewrite E in Hd.
Qed.

Lemma dict_set_keys k v fields :
  (dict_set k v fields).*1 = if decide (k ∈ fields.*1) then fields.*1 else fields.*1 ++ [k].
Proof.
  induction fields as [|[k' v'] fields IH]; [done|]. cbn. destruct (decide (k = k')) as [->|Hne].
  - rewrite decide_True; [done | by left].
  - cbn. rewrite IH. destruct (decide (k ∈ fields.*1)) as [Hin|Hn].
    + rewrite decide_True; [done | by right].
    + rewrite decide_False; [done | by intros [|]%elem_of_cons].
Qed.

Lemma dict_set_forall (P : key * obj -> Prop) k v fields :
  (forall k' v', k = k' -> P (k', v') -> P (k', v)) -> P (k, v) -> Forall P fields -> Forall P (dict_set k v fields).
Proof.
  intros Hk Hp. induction 1 as [|[k' v'] fields H Ht IH]; cbn; [by constructor|].
  destruct (decide (k = k')); constructor; try done; by eapply Hk.
Qed.

Lemma dict_set_nodup k v fields : NoDup (fields.*1) -> NoDup ((dict_set k v fields).*1).
Proof.
  intros Hn. rewrite dict_set_keys. destruct (decide _); [done|].
  apply NoDup_app. split; [done|]. split; [set_solver | apply NoDup_singleton].
Qed.

(** Normalization reaches normal form. *)
Lemma normalize_clean o : clean (_normalize_serializable o).
Proof.
  assert (forall l, Forall (fun o => clean (_normalize_serializable o)) l -> Forall clean (normal_items l)) as Hi.
  { intros l Hl. unfold normal_items. apply Forall_map, Forall_forall. intros x Hx.
    apply list_elem_of_In, filter_In in Hx as [Hx _]. rewrite Forall_forall in Hl. by apply Hl, list_elem_of_In. }
  induction o using obj_rect'; rewrite normalize_eq; try (by constructor); try (constructor; by apply Hi).
  assert (forall acc, clean (ODict acc) -> clean (ODict (fold_left normal_entry fields acc))) as Hf;
    [|apply Hf; repeat constructor].
  induction H as [|[k v] fields Hv _ IH]; intros acc Hacc; [done|]. cbn [fold_left]. apply IH.
  unfold normal_entry. cbn [fst snd]. destruct (keep_field k v) eqn:Ek; [|done].
  inversion Hacc as [| | | | | | | | | | | | |? Hc Hs Hd]; subst.
  constructor; [apply dict_set_forall; by auto | | by apply dict_set_nodup].
  assert (str_key k <> "stream_writer") as Hne.
  { destruct k as [s|n]; cbn.
    - intros ->. by apply andb_prop in Ek as [Ek%negb_true_iff%bool_decide_eq_false _].
    - intros E. by apply (str_key_int n); cbn; rewrite E. }
  apply dict_set_forall; cbn; eauto.
Qed.

Lemma dict_set_new k v acc : ~ k ∈ acc.*1 -> dict_set k v acc = acc ++ [(k, v)].
Proof.
  induction acc as [|[k' v'] acc IH]; intros Hn; [done|]. cbn. rewrite decide_False by set_solver.
  rewrite IH; set_solver.
Qed.

Lemma clean_not_callable o : clean o -> _is_unpicklable_callable o = false.
Proof. by destruct 1. Qed.

(** A normal form is left as it is. *)
Lemma normalize_fixpoint o : clean o -> _normalize_serializable o = o.
Proof.
  assert (forall l, Forall (fun o => clean o -> _normalize_serializable o = o) l -> Forall clean l ->
            normal_items l = l) as Hi.
  { intros l Hl. unfold normal_items. induction Hl as [|x l Hx _ IH]; intros Hc; [done|].
    inversion Hc; subst. cbn. rewrite (clean_not_callable x) by done. cbn. by rewrite Hx, IH. }
  induction o using obj_rect'; intros Hc; rewrite normalize_eq; inversion Hc; subst; try done;
    try (f_equal; by apply Hi).
  f_equal. assert (forall acc, Forall (fun kv => ~ kv.1 ∈ acc.*1) fields ->
    fold_left normal_entry fields acc = acc ++ fields) as Hf.
  { clear Hc. rename H1 into Hcl, H2 into Hk, H3 into Hd.
    revert Hcl Hk Hd. induction H as [|[k v] fields Hv _ IH]; intros Hcl Hk Hd acc Ha; [by rewrite app_nil_r|].
    inversion Hcl as [|?? Hc1 Hc2]; subst. inversion Hk as [|?? (s & E & Hs) Hk2]; subst. cbn in E. subst k.
    inversion Hd as [|?? Hni Hd2]; subst. inversion Ha as [|?? Ha1 Ha2]; subst. cbn [fst snd] in *.
    cbn [fold_left]. unfold normal_entry at 2. cbn [fst snd].
    assert (keep_field (KStr s) v = true) as ->.
    { unfold keep_field. rewrite (clean_not_callable v) by done. rewrite bool_decide_false by congruence. done. }
    cbn [str_key]. rewrite Hv, dict_set_new by done. rewrite IH; try done; [by rewrite <- app_assoc|].
    rewrite fmap_app. apply Forall_forall. intros [k' v'] Hin. cbn.
    rewrite Forall_forall in Ha2. specialize (Ha2 _ Hin). cbn in Ha2.
    assert (k' ∈ fields.*1) by (apply (list_elem_of_fmap_2 fst _ _ Hin)). set_solver. }
  rewrite Hf; [done|]. apply Forall_true. set_solver.
Qed.

(** ** Saving and loading *)

Lemma partition_colon_append t p : has_char ":" t = false ->
  partition_colon (t +:+ ":" +:+ p) = Some (t, p).
Proof.
  induction t as [|c t IH]; intros Hc; [done|]. rewrite append_cons. cbn [has_char partition_colon] in *.
  apply orb_false_iff in Hc as [Hc Ht]. rewrite Ascii.eqb_sym in Hc. by rewrite Hc, (IH Ht).
Qed.

Lemma serde_roundtrip `{JsonPlus} o : clean o -> plain_data o -> serde_loads (serde_dumps o) = Ok o.
Proof.
  intros Hc Hp. unfold serde_dumps, gaia_dumps_typed. rewrite (normalize_fixpoint o Hc).
  destruct (typed_total o Hp) as [[t p] E]. rewrite E. cbn.
  rewrite partition_colon_append by (by eapply tag_no_colon). by eapply typed_roundtrip.
Qed.

(** SCAN answers while Redis is up. *)
Class RedisScanUp {S V} `{RedisScan S V} (up : S -> Prop) := {
  up_scan p s : up s -> is_ok (scan_iter p s).1 = true /\ up (scan_iter p s).2;
}.

(** The document [aput] stores. *)
Definition document (config : RunnableConfig) (checkpoint metadata : obj) : obj :=
  ODict [(KStr "checkpoint", _normalize_serializable checkpoint);
         (KStr "metadata", _normalize_serializable metadata);
         (KStr "parent_config", _normalize_serializable (config_obj config))].

Lemma document_clean config ck md : clean (document config ck md).
Proof.
  unfold document. constructor.
  - repeat (apply Forall_cons_2; [cbn [snd]; apply normalize_clean|]). constructor.
  - repeat (apply Forall_cons_2; [eexists; (split; [reflexivity | discriminate])|]). constructor.
  - cbn. apply (bool_decide_unpack _). by vm_compute.
Qed.

Lemma config_obj_plain c : plain_data (_normalize_serializable (config_obj c)).
Proof.
  unfold config_obj. destruct (thread_id c), (checkpoint_id c); cbn; repeat constructor; by eexists.
Qed.

Lemma document_plain config ck md :
  plain_data (_normalize_serializable ck) -> plain_data (_normalize_serializable md) ->
  plain_data (document config ck md).
Proof.
  intros H1 H2. constructor.
  - do 2 (apply Forall_cons_2; [done|]). apply Forall_cons_2; [apply config_obj_plain | constructor].
  - repeat (apply Forall_cons_2; [by eexists|]). constructor.
Qed.

(** Every key of a thread begins with this. *)
Definition thread_prefix (thread : string) : string := "gaiaos:checkpoint:" +:+ thread +:+ ":".

Lemma data_key_shape thread id : checkpoint_data_key thread id = thread_prefix thread +:+ ("checkpoint:" +:+ id).
Proof. unfold checkpoint_data_key, checkpoint_prefix, thread_prefix. by rewrite !append_assoc. Qed.
Lemma latest_key_shape thread : latest_key thread = thread_prefix thread +:+ "latest".
Proof. unfold latest_key, thread_prefix. by rewrite !append_assoc. Qed.
Lemma writes_prefix_shape thread id : writes_prefix thread id = thread_prefix thread +:+ ("writes:" +:+ (id +:+ ":")).
Proof. unfold writes_prefix, thread_prefix. by rewrite !append_assoc. Qed.

Lemma data_not_latest thread id : checkpoint_data_key thread id <> latest_key thread.
Proof. rewrite data_key_shape, latest_key_shape. intros E%append_inj_l. discriminate E. Qed.

Section saver_lemmas.
Context {S : Type} `{JsonPlus} `{RedisScan S rval} (up : S -> Prop) `{!RedisUp up} `{!RedisScanUp up}.
Variable utf8 : string -> result pyexn string.
Variable ttl_seconds : option Z.

Lemma client_set_up k v s : up s ->
  exists s', client_set ttl_seconds k v s = (Ok tt, s') /\ up s' /\ view s' k = Some v /\
    forall k', k <> k' -> view s' k' = view s k'.
Proof.
  intros Hup. unfold client_set. set (ex := match ttl_seconds with Some n => _ | None => None end).
  assert ((redis_set k v ex s).1 = Ok tt /\ up (redis_set k v ex s).2) as [E Hup'].
  { unfold ex. destruct ttl_seconds as [n|]; [|by apply up_set].
    destruct (Z.ltb_spec 0 n); [by apply up_setex | by apply up_set]. }
  exists (redis_set k v ex s).2. split; [by destruct (redis_set k v ex s); simpl in *; subst|].
  split; [done|]. split; [by apply redis_set_ok | intros k' Hk; by apply redis_set_frame].
Qed.

Lemma redis_get_up k s : up s -> exists s', redis_get k s = (Ok (view s k), s') /\ up s' /\
  forall k', view s' k' = view s k'.
Proof.
  intros Hup. destruct (up_get k s Hup) as [E Hup']. exists (redis_get k s).2.
  split; [by destruct (redis_get k s); simpl in *; subst|]. split; [done | apply redis_get_view].
Qed.

(** The effect of [aput] on a store that is up. *)
Lemma aput_effect thread cid ck md id s :
  up s -> str_truthy thread = true -> obj_index ck "id" = Ok (OStr id) ->
  let config := Config (Some thread) cid in
  exists s', aput ttl_seconds config ck md s = (Ok (Config (Some thread) (Some id)), s') /\ up s' /\
    view s' (checkpoint_data_key thread id) = Some (serde_dumps (document config ck md)) /\
    view s' (latest_key thread) = Some (RText id) /\
    forall k, k <> checkpoint_data_key thread id -> k <> latest_key thread -> view s' k = view s k.
Proof.
  intros Hup Ht Hid config. unfold aput. rewrite Hid.
  assert (truthy_str (thread_id config) = Some thread) as Et by (by destruct thread).
  rewrite M_bind_run. cbn [lift]. rewrite Et. cbn [id_text]. fold (document config ck md).
  destruct (client_set_up (checkpoint_data_key thread id) (serde_dumps (document config ck md)) s Hup)
    as (s1 & E1 & Hup1 & Hv1 & Hf1).
  destruct (client_set_up (latest_key thread) (RText id) s1 Hup1) as (s2 & E2 & Hup2 & Hv2 & Hf2).
  exists s2. rewrite M_bind_run, E1, M_bind_run, E2. split; [done|]. split; [done|].
  split; [|split; [done|]].
  - rewrite Hf2; [done|]. apply not_eq_sym, data_not_latest.
  - intros k Hk1 Hk2. by rewrite Hf2, Hf1.
Qed.

(** Reading the latest checkpoint of a thread up to its document. *)
Lemma aget_latest decode thread id v s :
  up s -> str_truthy thread = true -> str_truthy id = true ->
  view s (latest_key thread) = Some (RText id) -> view s (checkpoint_data_key thread id) = Some v ->
  exists s1, up s1 /\ (forall k, view s1 k = view s k) /\
    aget_tuple utf8 decode (Config (Some thread) None) s =
    (lift (v' ← delivered utf8 decode v; data ← serde_loads v';
           checkpoint ← obj_index data "checkpoint"; metadata ← obj_index data "metadata";
           Ok (checkpoint, metadata, match data with ODict f => dict_get "parent_config" f | _ => None end)) ≫=
     fun '(checkpoint, metadata, parent) =>
     scan_iter (writes_prefix thread id) ≫= fun keys =>
     collect_writes utf8 decode keys ≫= fun ws =>
     mret (Some (Tuple (Config (Some thread) None) checkpoint metadata parent ws))) s1.
Proof.
  intros Hup Ht Hid Hl Hd. unfold aget_tuple.
  assert (truthy_str (Some thread) = Some thread) as Et by (by destruct thread).
  assert (truthy_str (Some id) = Some id) as Ei by (by destruct id).
  cbn [thread_id checkpoint_id]. rewrite Et. change (truthy_str None) with (@None string).
  destruct (redis_get_up (latest_key thread) s Hup) as (s1 & E1 & Hup1 & Hv1).
  destruct (redis_get_up (checkpoint_data_key thread id) s1 Hup1) as (s2 & E2 & Hup2 & Hv2).
  exists s2. split; [done|]. split; [intros k; by rewrite Hv2, Hv1|].
  assert (client_get utf8 decode (latest_key thread) s = (Ok (Some (RText id)), s1)) as G1
    by (unfold client_get; by rewrite M_bind_run, E1, Hl).
  rewrite M_bind_run, M_bind_run, G1. rewrite Ei. unfold mret at 1, M_ret at 1. cbv iota.
  rewrite M_bind_run. unfold load_document. rewrite M_bind_run. unfold client_get.
  rewrite M_bind_run, E2, Hv1, Hd. unfold lift. cbn [fmap result_fmap]. rewrite M_bind_run.
  destruct (delivered utf8 decode v) as [v'|e]; cbn; [|done].
  destruct (serde_loads v') as [data|e]; cbn; [|done].
  destruct (obj_index data "checkpoint") as [c|e]; cbn; [|done].
  by destruct (obj_index data "metadata") as [m|e].
Qed.

Lemma scan_empty p s : up s -> (forall k, startswith p k = true -> view s k = None) ->
  exists s', scan_iter p s = (Ok [], s').
Proof.
  intros Hup Hn. destruct (up_scan p s Hup) as [Hok _]. pose proof (scan_ok p s) as Hs.
  destruct (scan_iter p s) as [[ks|e] s'] eqn:E; [|done]. exists s'.
  destruct ks as [|k ks]; [done|]. destruct (proj1 (Hs (k :: ks) eq_refl k)) as [Hp [v Hv]]; [by left|].
  by rewrite Hn in Hv.
Qed.
End saver_lemmas.

Lemma other_thread_prefix t1 t2 k1 k2 :
  has_char ":" t1 = false -> has_char ":" t2 = false -> t1 <> t2 ->
  thread_prefix t1 +:+ k1 <> thread_prefix t2 +:+ k2.
Proof.
  intros H1 H2 Hne E. unfold thread_prefix in E. rewrite !append_assoc in E. apply append_inj_l in E.
  by apply (append_sep_inj_l ":" t1 k1 t2 k2) in E as [? _].
Qed.

(** Saving and loading any checkpoint of plain data. *)
Lemma saved_and_loaded {S : Type} `{JsonPlus} `{RedisScan S rval} (up : S -> Prop)
    `{!RedisUp up} `{!RedisScanUp up} (utf8 : string -> result pyexn string) (ttl : option Z)
    (thread id : string) (cid : option string) (ck md : obj) (s : S) :
  up s -> str_truthy thread = true -> str_truthy id = true -> obj_index ck "id" = Ok (OStr id) ->
  plain_data (_normalize_serializable ck) -> plain_data (_normalize_serializable md) ->
  (forall k, startswith (writes_prefix thread id) k = true -> view s k = None) ->
  exists s1 s2,
    aput ttl (Config (Some thread) cid) ck md s = (Ok (Config (Some thread) (Some id)), s1) /\
    aget_tuple utf8 false (Config (Some thread) None) s1 =
      (Ok (Some (Tuple (Config (Some thread) None) (_normalize_serializable ck) (_normalize_serializable md)
                   (Some (_normalize_serializable (config_obj (Config (Some thread) cid)))) [])), s2).
Proof.
  intros Hup Ht Hid Hck Hp1 Hp2 Hw.
  destruct (aput_effect up ttl thread cid ck md id s Hup Ht Hck) as (s1 & E1 & Hup1 & Hd & Hl & Hf).
  destruct (aget_latest up utf8 false thread id _ s1 Hup1 Ht Hid Hl Hd) as (s2 & Hup2 & Hv & E2).
  destruct (scan_empty up (writes_prefix thread id) s2 Hup2) as [s3 E3].
  { intros k Hk. rewrite Hv. apply prefix_spec in Hk as Hk'. destruct Hk' as [t ->].
    rewrite writes_prefix_shape, append_assoc in Hk |- *.
    rewrite Hf; [rewrite <- append_assoc, <- writes_prefix_shape; apply Hw, prefix_spec; eauto | |].
    - rewrite data_key_shape. intros E%append_inj_l. discriminate E.
    - rewrite latest_key_shape. intros E%append_inj_l. discriminate E. }
  exists s1, s3. split; [done|]. rewrite E2. clear E2.
  set (doc := document _ _ _). assert (serde_loads (serde_dumps doc) = Ok doc) as El
    by (apply serde_roundtrip; [apply document_clean | by apply document_plain]).
  unfold delivered. unfold serde_dumps in El |- *. destruct (gaia_dumps_typed doc) as [ty da].
  cbn [mbind result_mbind result_bind]. rewrite El. cbn. rewrite M_bind_run. cbn. rewrite M_bind_run, E3. done.
Qed.

(** ** The graph's checkpoints *)

Fixpoint json_obj (j : json) : obj :=
  match j with
  | JNull => ONone
  | JBool b => OBool b
  | JInt n => OInt n
  | JFloat x => OFloat x
  | JStr s => OStr s
  | JList l => OList (map json_obj l)
  | JObj d => ODict (map (fun kv => (KStr kv.1, json_obj kv.2)) d)
  end.

Definition opt_obj {A} (f : A -> obj) (o : option A) : obj := match o with Some a => f a | None => ONone end.
Definition texts (l : list string) : obj := OList (map OStr l).
Definition bounds_obj (b : float * float) : obj := OTuple [OFloat b.1; OFloat b.2].

Definition source_text (s : SourceType) : string :=
  match s with
  | data_sparsity => "data_sparsity" | model_uncertainty => "model_uncertainty"
  | evidence_conflict => "evidence_conflict" | well_supported => "well_supported"
  end.
Definition claim_type_text (t : ClaimType) : string :=
  match t with single_domain => "single_domain" | cross_domain_pattern => "cross_domain_pattern" end.

Definition estimate_obj (u : UncertaintyEstimate) : obj :=
  OModel "UncertaintyEstimate" [("point_estimate", OFloat (point_estimate u)); ("lower_bound", OFloat (lower_bound u));
    ("upper_bound", OFloat (upper_bound u)); ("source", OStr (source_text (source u)))].

Definition evidence_obj (e : Evidence) : obj :=
  OModel "Evidence" [("id", OUuid (ev_id e)); ("source", OStr (ev_source e)); ("claim", OStr (ev_claim e));
    ("uncertainty", estimate_obj (ev_uncertainty e)); ("retrieved_at", ODatetime (ev_retrieved_at e));
    ("document_id", opt_obj OStr (ev_document_id e));
    ("chunk_id", opt_obj (fun c => match c with inl s => OStr s | inr n => OInt n end) (ev_chunk_id e));
    ("title", opt_obj OStr (ev_title e)); ("source_url", opt_obj OStr (ev_source_url e));
    ("extra_metadata", json_obj (JObj (ev_extra_metadata e)));
    ("uncertainty_bounds", opt_obj bounds_obj (ev_uncertainty_bounds e)); ("assumptions", opt_obj texts (ev_assumptions e))].

Definition output_obj (o : AgentOutput) : obj :=
  OModel "AgentOutput" [("agent_name", OStr (agent_name o)); ("evidence", OList (map evidence_obj (evidence o)));
    ("errors", texts (errors o))].

Definition claim_obj (c : SynthesizedClaim) : obj :=
  OModel "SynthesizedClaim" [("text", OStr (cl_text c)); ("claim_type", OStr (claim_type_text (cl_claim_type c)));
    ("supporting_evidence", OList (map evidence_obj (cl_supporting_evidence c)));
    ("uncertainty", estimate_obj (cl_uncertainty c)); ("uncertainty_bounds", opt_obj bounds_obj (cl_uncertainty_bounds c));
    ("assumptions", opt_obj texts (cl_assumptions c))].

Definition synthesis_obj (o : SynthesisOutput) : obj :=
  OModel "SynthesisOutput" [("claims", OList (map claim_obj (claims o))); ("evidence_gaps", texts (evidence_gaps o))].

Definition flag_obj (f : CriticFlag) : obj :=
  OModel "CriticFlag" [("claim_text", OStr (claim_text f)); ("flagged_reason", OStr (flagged_reason f));
    ("severity", OStr (severity_value (severity f))); ("flagged_domains", opt_obj texts (flagged_domains f))].

(** The channels of the graph ([TaskGraphState]). *)
Definition state_channels (st : TaskGraphState) : list (key * obj) :=
  [(KStr "investigation_id", OUuid (investigation_id st)); (KStr "query", OStr (query st));
   (KStr "complexity_tier", opt_obj (fun t => OEnum "ComplexityTier" (tier_value t)) (complexity_tier st));
   (KStr "matched_domains", texts (matched_domains st));
   (KStr "agent_outputs", OList (map (opt_obj output_obj) (agent_outputs st)));
   (KStr "synthesis_output", opt_obj synthesis_obj (synthesis_output st));
   (KStr "critic_flags", OList (map flag_obj (critic_flags st)));
   (KStr "needs_simulation", OBool (needs_simulation st)); (KStr "final_answer", opt_obj OStr (final_answer st));
   (KStr "replan_count", OInt (replan_count st))].

(** What LangGraph adds to a dict of its own: further entries of plain data. *)
Record framework_entries (taken : list (key * obj)) (l : list (key * obj)) : Prop := {
  fe_plain : Forall (fun kv => plain_data kv.2) l;
  fe_clean : Forall (fun kv => clean kv.2) l;
  fe_names : Forall (fun kv => exists s, kv.1 = KStr s /\ s <> "stream_writer") l;
  fe_fresh : NoDup ((taken ++ l).*1);
}.

(** A checkpoint of the graph: its id, the channels with LangGraph's internal
    ones, and LangGraph's other entries (versions and time). *)
Definition graph_checkpoint (id : string) (st : TaskGraphState) (internal extra : list (key * obj)) : obj :=
  ODict ([(KStr "id", OStr id); (KStr "channel_values", ODict (state_channels st ++ internal))] ++ extra).

Ltac plain_fields := repeat (apply Forall_cons_2; [cbn [snd]|]); [.. | by constructor].

Lemma texts_plain l : plain_data (texts l).
Proof. constructor. apply Forall_map, Forall_true. intros. constructor. Qed.

Lemma opt_plain {A} (f : A -> obj) o : (forall a, plain_data (f a)) -> plain_data (opt_obj f o).
Proof. intros Hf. destruct o; [apply Hf | constructor]. Qed.

Lemma list_plain {A} (f : A -> obj) l : (forall a, plain_data (f a)) -> plain_data (OList (map f l)).
Proof. intros Hf. constructor. by apply Forall_map, Forall_true. Qed.

Lemma json_obj_plain j : plain_data (json_obj j).
Proof.
  revert j. apply json_ind_nested; [intros d IH | intros l IH | intros []; try done; constructor]; cbn; constructor.
  - by apply Forall_map.
  - apply Forall_map, Forall_true. by eexists.
  - by apply Forall_map.
Qed.

(** A field of a model: plain data, or optional bounds. *)
Lemma bounds_field (o : option (float * float)) :
  plain_data (opt_obj bounds_obj o) \/ exists l, opt_obj bounds_obj o = OTuple l /\ Forall plain_data l.
Proof. destruct o as [[]|]; [right | left; constructor]. eexists. split; [done|]. by repeat constructor. Qed.

#[local] Hint Resolve texts_plain json_obj_plain : plain.
#[local] Hint Constructors plain_data : plain.
#[local] Hint Extern 1 (plain_data (opt_obj _ _)) => apply opt_plain; intros : plain.
#[local] Hint Extern 1 (plain_data (OList (map _ _))) => apply list_plain; intros : plain.
Ltac plain_model_tac := constructor; plain_fields; first [by apply bounds_field | left; auto with plain].

Lemma estimate_plain u : plain_data (estimate_obj u).
Proof. plain_model_tac. Qed.
#[local] Hint Resolve estimate_plain : plain.
Lemma evidence_plain e : plain_data (evidence_obj e).
Proof. plain_model_tac. apply opt_plain. intros [s|n]; constructor. Qed.
#[local] Hint Resolve evidence_plain : plain.
Lemma output_plain o : plain_data (output_obj o).
Proof. plain_model_tac. Qed.
Lemma claim_plain c : plain_data (claim_obj c).
Proof. plain_model_tac. Qed.
#[local] Hint Resolve output_plain claim_plain : plain.
Lemma synthesis_plain o : plain_data (synthesis_obj o).
Proof. plain_model_tac. Qed.
Lemma flag_plain f : plain_data (flag_obj f).
Proof. plain_model_tac. Qed.
#[local] Hint Resolve synthesis_plain flag_plain : plain.

Lemma state_plain st : Forall (fun kv => plain_data kv.2) (state_channels st).
Proof. plain_fields; auto with plain. Qed.

Lemma clean_opt {A} (f : A -> obj) o : (forall a, clean (f a)) -> clean (opt_obj f o).
Proof. intros Hf. destruct o; [apply Hf | constructor]. Qed.
Lemma clean_map {A} (f : A -> obj) l : (forall a, clean (f a)) -> clean (OList (map f l)).
Proof. intros Hf. constructor. by apply Forall_map, Forall_true. Qed.

Lemma state_clean st : Forall (fun kv => clean kv.2) (state_channels st).
Proof.
  unfold state_channels, texts.
  plain_fields; try (apply clean_map); try (intros; apply clean_opt); intros; constructor.
Qed.

Lemma state_names st : Forall (fun kv => exists s, kv.1 = KStr s /\ s <> "stream_writer") (state_channels st).
Proof. repeat (apply Forall_cons_2; [eexists; by split|]). constructor. Qed.

Lemma names_str (l : list (key * obj)) : Forall (fun kv => exists s, kv.1 = KStr s /\ s <> "stream_writer") l ->
  Forall (fun kv => exists s, kv.1 = KStr s) l.
Proof. intros H. eapply Forall_impl; [exact H|]. intros kv (s & Hs & _). eauto. Qed.

(** Every checkpoint of the graph is plain data in normal form. *)
Lemma graph_checkpoint_data id st internal extra :
  framework_entries (state_channels st) internal ->
  framework_entries [(KStr "id", ONone); (KStr "channel_values", ONone)] extra ->
  plain_data (graph_checkpoint id st internal extra) /\ clean (graph_checkpoint id st internal extra).
Proof.
  intros [P1 C1 N1 F1] [P2 C2 N2 F2].
  assert (plain_data (ODict (state_channels st ++ internal)) /\ clean (ODict (state_channels st ++ internal))) as [Hp Hc].
  { split; constructor; try done.
    - apply Forall_app. split; [apply state_plain | done].
    - apply names_str, Forall_app. split; [apply state_names | done].
    - apply Forall_app. split; [apply state_clean | done].
    - apply Forall_app. split; [apply state_names | done]. }
  split; constructor; try done.
  - do 2 (apply Forall_cons_2; [cbn [snd]; first [exact Hp | constructor]|]). done.
  - apply names_str. do 2 (apply Forall_cons_2; [eexists; by split|]). done.
  - do 2 (apply Forall_cons_2; [cbn [snd]; first [exact Hc | constructor]|]). done.
  - do 2 (apply Forall_cons_2; [eexists; by split|]). done.
Qed.

(** ** Properties *)

(** Normalization yields a value without callables or sets, with unique
    string keys and no stream writer at any depth, and normalizing again changes
    nothing. *)
Theorem normalize_idempotent (o : obj) :
  clean (_normalize_serializable o) /\
  _normalize_serializable (_normalize_serializable o) = _normalize_serializable o.
Proof. split; [apply normalize_clean | apply normalize_fixpoint, normalize_clean]. Qed.

(** C38. With Redis up, on a client that delivers bytes, the checkpoint last saved
    for a thread is the one [aget_tuple] returns without an explicit id: for
    every state of the graph, its UUID, flags, agent outputs and synthesis
    included, the loaded checkpoint is the saved one, unchanged, with the
    normalized metadata and parent configuration, when no writes are pending for
    its id. *)
Theorem saved_checkpoint_is_loaded {S : Type} `{JsonPlus} `{RedisScan S rval} (up : S -> Prop)
    `{!RedisUp up} `{!RedisScanUp up} (utf8 : string -> result pyexn string) (ttl : option Z)
    (thread id : string) (cid : option string) (st : TaskGraphState) (internal extra : list (key * obj)) (md : obj) (s : S) :
  up s -> str_truthy thread = true -> str_truthy id = true ->
  framework_entries (state_channels st) internal ->
  framework_entries [(KStr "id", ONone); (KStr "channel_values", ONone)] extra ->
  plain_data (_normalize_serializable md) ->
  (forall k, startswith (writes_prefix thread id) k = true -> view s k = None) ->
  let ck := graph_checkpoint id st internal extra in
  exists s1 s2,
    aput ttl (Config (Some thread) cid) ck md s = (Ok (Config (Some thread) (Some id)), s1) /\
    aget_tuple utf8 false (Config (Some thread) None) s1 =
      (Ok (Some (Tuple (Config (Some thread) None) ck (_normalize_serializable md)
                   (Some (_normalize_serializable (config_obj (Config (Some thread) cid)))) [])), s2).
Proof.
  intros Hup Ht Hid Hi He Hmd Hw ck. destruct (graph_checkpoint_data id st internal extra Hi He) as [Hp Hc].
  pose proof (normalize_fixpoint _ Hc) as En.
  destruct (saved_and_loaded up utf8 ttl thread id cid ck md s) as (s1 & s2 & E1 & E2); try done.
  { unfold ck. by rewrite En. }
  exists s1, s2. split; [exact E1|]. rewrite E2. unfold ck. by rewrite En.
Qed.

(** On a client created with [decode_responses], as [init_redis] creates
    it, a thread that has a saved checkpoint cannot be loaded: [aget_tuple]
    raises, whatever was saved. *)
Theorem decoding_client_cannot_load {S : Type} `{JsonPlus} `{RedisScan S rval} (up : S -> Prop)
    `{!RedisUp up} `{!RedisScanUp up} (utf8 : string -> result pyexn string) (ttl : option Z)
    (thread id : string) (cid : option string) (ck md : obj) (s : S) :
  up s -> str_truthy thread = true -> str_truthy id = true -> obj_index ck "id" = Ok (OStr id) ->
  exists s1 s2 e,
    aput ttl (Config (Some thread) cid) ck md s = (Ok (Config (Some thread) (Some id)), s1) /\
    aget_tuple utf8 true (Config (Some thread) None) s1 = (Raise e, s2).
Proof.
  intros Hup Ht Hid Hck.
  destruct (aput_effect up ttl thread cid ck md id s Hup Ht Hck) as (s1 & E1 & Hup1 & Hd & Hl & _).
  destruct (aget_latest up utf8 true thread id _ s1 Hup1 Ht Hid Hl Hd) as (s2 & _ & _ & E2).
  exists s1, s2. unfold serde_dumps in E2. destruct (gaia_dumps_typed _) as [ty da].
  cbn [delivered fmap] in E2. rewrite E2. unfold delivered.
  destruct (utf8 _) as [t|e]; [exists TypeError | exists e]; done.
Qed.

(** Saving a checkpoint for one thread leaves every key of another
    thread as it is, even when Redis fails half way. *)
Theorem threads_are_isolated {S : Type} `{JsonPlus} `{Redis S rval} (ttl : option Z)
    (t1 t2 rest : string) (cid : option string) (ck md : obj) (s : S) :
  has_char ":" t1 = false -> has_char ":" t2 = false -> t1 <> t2 -> str_truthy t1 = true ->
  view (aput ttl (Config (Some t1) cid) ck md s).2 (thread_prefix t2 +:+ rest) =
  view s (thread_prefix t2 +:+ rest).
Proof.
  intros H1 H2 Hne Ht. unfold aput.
  assert (truthy_str (thread_id (Config (Some t1) cid)) = Some t1) as Et by (by destruct t1).
  assert (forall k v s, view (client_set ttl (thread_prefix t1 +:+ k) v s).2 (thread_prefix t2 +:+ rest) =
            view s (thread_prefix t2 +:+ rest)) as Hset.
  { intros k v s'. unfold client_set. apply redis_set_frame. by apply other_thread_prefix. }
  rewrite M_bind_run. cbn [lift]. destruct (obj_index ck "id") as [o|e]; [|done]. rewrite Et.
  rewrite data_key_shape, latest_key_shape, M_bind_run.
  pose proof (Hset ("checkpoint:" +:+ id_text o)
    (serde_dumps (document (Config (Some t1) cid) ck md)) s) as Hs1. unfold document in Hs1.
  destruct (client_set _ _ _ s) as [[[]|e] s1]; [|done]. cbn in Hs1. rewrite M_bind_run.
  pose proof (Hset "latest" (RText (id_text o)) s1) as Hs2.
  destruct (client_set _ _ _ s1) as [[[]|e] s2]; cbn in *; congruence.
Qed.

Module CheckpointerWitness.
(** A serializer for the witnesses: objects as trees of strings and integers,
    written in bits after the tag ["bits"]. *)
Notation tree := (gen_tree (string + Z)).

Definition key_leaf (k : key) : string + Z := match k with KStr s => inl s | KInt n => inr n end.
Definition leaf_key (l : string + Z) : key := match l with inl s => KStr s | inr n => KInt n end.
Definition zleaf (n : Z) : tree := GenLeaf (inr n).

Definition float_leaves (x : float) : list tree :=
  match x with
  | S754_zero b => [zleaf 0; zleaf (Z.b2z b)]
  | S754_infinity b => [zleaf 1; zleaf (Z.b2z b)]
  | S754_nan => [zleaf 2]
  | S754_finite b m e => [zleaf 3; zleaf (Z.b2z b); zleaf (Z.pos m); zleaf e]
  end.
Definition leaves_float (l : list tree) : float :=
  match l with
  | [GenLeaf (inr 0); GenLeaf (inr b)] => S754_zero (0 <? b)
  | [GenLeaf (inr 1); GenLeaf (inr b)] => S754_infinity (0 <? b)
  | [GenLeaf (inr 3); GenLeaf (inr b); GenLeaf (inr m); GenLeaf (inr e)] => S754_finite (0 <? b) (Z.to_pos m) e
  | _ => S754_nan
  end.

Fixpoint to_tree (o : obj) : tree :=
  match o with
  | ONone => GenNode 0 []
  | OStr s => GenNode 1 [GenLeaf (inl s)]
  | OInt n => GenNode 2 [zleaf n]
  | OFloat x => GenNode 3 (float_leaves x)
  | OBool b => GenNode 11 [zleaf (Z.b2z b)]
  | OBytes s => GenNode 12 [GenLeaf (inl s)]
  | OUuid u => GenNode 13 [GenLeaf (inl u)]
  | ODatetime t => GenNode 14 [zleaf t]
  | OEnum c v => GenNode 15 [GenLeaf (inl c); GenLeaf (inl v)]
  | OModel c f => GenNode 16 (GenLeaf (inl c) :: map (fun kv => GenNode 10 [GenLeaf (inl kv.1); to_tree kv.2]) f)
  | OCallable => GenNode 4 []
  | OType => GenNode 5 []
  | OTuple l => GenNode 6 (map to_tree l)
  | OList l => GenNode 7 (map to_tree l)
  | OSet l => GenNode 8 (map to_tree l)
  | ODict f => GenNode 9 (map (fun kv => GenNode 10 [GenLeaf (key_leaf kv.1); to_tree kv.2]) f)
  end.

Fixpoint of_tree (t : tree) : obj :=
  match t with
  | GenNode 1 [GenLeaf (inl s)] => OStr s
  | GenNode 2 [GenLeaf (inr n)] => OInt n
  | GenNode 3 l => OFloat (leaves_float l)
  | GenNode 11 [GenLeaf (inr b)] => OBool (0 <? b)
  | GenNode 12 [GenLeaf (inl s)] => OBytes s
  | GenNode 13 [GenLeaf (inl u)] => OUuid u
  | GenNode 14 [GenLeaf (inr n)] => ODatetime n
  | GenNode 15 [GenLeaf (inl c); GenLeaf (inl v)] => OEnum c v
  | GenNode 16 (GenLeaf (inl c) :: l) =>
      OModel c (map (fun t => match t with
                              | GenNode 10 [GenLeaf (inl k); v] => (k, of_tree v)
                              | _ => (EmptyString, ONone)
                              end) l)
  | GenNode 4 _ => OCallable
  | GenNode 5 _ => OType
  | GenNode 6 l => OTuple (map of_tree l)
  | GenNode 7 l => OList (map of_tree l)
  | GenNode 8 l => OSet (map of_tree l)
  | GenNode 9 l => ODict (map (fun t => match t with
                                        | GenNode 10 [GenLeaf k; v] => (leaf_key k, of_tree v)
                                        | _ => (KInt 0, ONone)
                                        end) l)
  | _ => ONone
  end.

Lemma of_to_tree o : of_tree (to_tree o) = o.
Proof.
  assert (forall l, Forall (fun o => of_tree (to_tree o) = o) l -> map of_tree (map to_tree l) = l) as Hm.
  { induction 1 as [|x l Hx _ IH]; [done|]. cbn. by rewrite Hx, IH. }
  induction o using obj_rect'; cbn; try done; try (by rewrite Hm).
  - destruct x as [[]|[]| |[] m e]; done.
  - by destruct b.
  - f_equal. induction H as [|[k v] f Hv _ IH]; [done|]. cbn in *. by rewrite Hv, IH.
  - f_equal. induction H as [|[k v] f Hv _ IH]; [done|]. cbn in *. rewrite Hv, IH. by destruct k.
Qed.

#[export] Instance bits_json : JsonPlus.
Proof.
  refine {| dumps_typed o := Some ("bits", BitIso.print_pos (encode (to_tree o)));
            loads_typed tp := match BitIso.parse_pos tp.2 with
                              | Some n => match decode n with Some t => Ok (of_tree t) | None => Raise ValueError end
                              | None => Raise ValueError
                              end;
            json_fallback _ := "x"; py_str _ := "o" |}.
  - intros o tp _ [= <-]. cbn. by rewrite BitIso.parse_print_pos, decode_encode, of_to_tree.
  - intros o _. by eexists.
  - by intros o t p [= <- <-].
Defined.

(** SCAN on the in-memory store. *)
Definition mem_scan (p : string) : M (MemRedis.store rval) (list string) := fun s =>
  if MemRedis.next_fails s then (Raise ConnectionError, MemRedis.consume s)
  else (Ok (List.filter (fun k => startswith p k && bool_decide (is_Some (MemRedis.mem_view s k)))
              (map_to_list (MemRedis.data s)).*1), MemRedis.consume s).

#[export] Instance mem_redis_scan : RedisScan (MemRedis.store rval) rval.
Proof.
  refine {| scan_iter := mem_scan |}.
  - intros p s k. unfold mem_scan. by destruct (MemRedis.next_fails s).
  - intros p s ks. unfold mem_scan. destruct (MemRedis.next_fails s); [done|]. intros [= <-] k.
    rewrite list_elem_of_In, filter_In, <- list_elem_of_In, andb_true_iff, bool_decide_eq_true.
    split; [by intros [_ ?]|]. intros [Hp Hv]. split; [|done].
    destruct Hv as [v Hv]. cbn in Hv. unfold MemRedis.mem_view in Hv.
    destruct (MemRedis.data s !! k) as [e|] eqn:E; [|done].
    apply list_elem_of_fmap. exists (k, e). split; [done|]. by apply elem_of_map_to_list.
Defined.

#[export] Instance mem_scan_up : RedisScanUp (fun s : MemRedis.store rval => MemRedis.outages s = []).
Proof. constructor. intros p s Hs. cbn. unfold mem_scan, MemRedis.next_fails. rewrite Hs. cbn. by rewrite Hs. Qed.

Definition ck : obj := ODict [(KStr "id", OStr "c1"); (KStr "ts", OStr "2026"); (KInt 7, OSet [OInt 1; OCallable])].
Definition md : obj := ODict [(KStr "step", OInt 1); (KStr "stream_writer", OCallable)].
Definition s0 : MemRedis.store rval := MemRedis.Store ∅ 0 [].
Definition utf8 (b : string) : result pyexn string := Ok b.

Lemma s0_view k : view s0 k = None.
Proof. cbn. unfold MemRedis.mem_view. cbn. by rewrite lookup_empty. Qed.

(** A state with an output, a tier and a flag. *)
Definition st0 : TaskGraphState :=
  State "u" "q" (Some MODERATE) ["ocean"] [Some GraphWitness.ocean_output; None] None [GraphWitness.high_flag] true None 1.
Definition internal0 : list (key * obj) := [(KStr "branch:to:synthesis", ONone)].
Definition extra0 : list (key * obj) :=
  [(KStr "v", OInt 4); (KStr "ts", OStr "2026"); (KStr "channel_versions", ODict [(KStr "query", OStr "1.0")])].

Lemma saved_checkpoint_is_loaded_witness : exists s1 s2,
  let ck := graph_checkpoint "c1" st0 internal0 extra0 in
  aput (Some 60) (Config (Some "t") None) ck md s0 = (Ok (Config (Some "t") (Some "c1")), s1) /\
  aget_tuple utf8 false (Config (Some "t") None) s1 =
    (Ok (Some (Tuple (Config (Some "t") None) ck (ODict [(KStr "step", OInt 1)])
       (Some (ODict [(KStr "configurable", ODict [(KStr "thread_id", OStr "t")])])) [])), s2).
Proof.
  apply (saved_checkpoint_is_loaded (fun s : MemRedis.store rval => MemRedis.outages s = []) utf8 (Some 60)
           "t" "c1" None st0 internal0 extra0 md s0); try reflexivity.
  - split; [by repeat constructor.. | | apply (bool_decide_unpack _); by vm_compute].
    repeat (apply Forall_cons_2; [eexists; by split|]). constructor.
  - split; [| | |apply (bool_decide_unpack _); by vm_compute].
    + repeat constructor; by eexists.
    + do 2 (apply Forall_cons_2; [constructor|]). apply Forall_cons_2; [|constructor]. constructor; [by repeat constructor| |].
      * apply Forall_cons_2; [eexists; by split | constructor].
      * apply NoDup_singleton.
    + repeat (apply Forall_cons_2; [eexists; by split|]). constructor.
  - repeat constructor; by eexists.
Defined.

Lemma decoding_client_cannot_load_witness : exists s1 s2 e,
  aput (Some 60) (Config (Some "t") None) ck md s0 = (Ok (Config (Some "t") (Some "c1")), s1) /\
  aget_tuple utf8 true (Config (Some "t") None) s1 = (Raise e, s2).
Proof.
  by apply (decoding_client_cannot_load (fun s : MemRedis.store rval => MemRedis.outages s = []) utf8 (Some 60)
              "t" "c1" None ck md s0).
Defined.

Lemma threads_are_isolated_witness :
  view (aput None (Config (Some "t") None) ck md s0).2 (thread_prefix "u" +:+ "latest") = None.
Proof.
  etransitivity; [apply (threads_are_isolated None "t" "u" "latest" None ck md s0); done | apply s0_view].
Defined.
End CheckpointerWitness.
