(* ===== verification/Alerting.v ===== *)
(** * Alert rules, burn rates and notifications ([src/alerting/rules.py],
    [src/alerting/evaluator.py], [src/alerting/slo.py],
    [src/alerting/channels/webhook.py])

    The threshold rules evaluated per sliding window, the burn rate of service
    level objectives on binary64 numbers, and the webhook channel with its
    bounded retries.  What PostgreSQL answers to the metric queries and what the
    webhook's server answers to a POST are inputs, any value of them. *)

From Stdlib Require Import Ascii.
From S2P Require Import Prelude PyFloat FloatRound PyStr Settings Effects AgentIO.

(** ** Rules *)

Definition SUPPORTED_METRICS : list string :=
  ["investigation.p95_latency_ms"; "investigation.job_failure_rate"; "investigation.job_success_rate";
   "job_failure_rate"; "investigation.avg_cost_estimate"; "calibration_ece"; "citation_fallback_rate";
   "scaling.queue_depth"; "scaling.worker_utilization_pct"; "scaling.p95_queue_wait_s"].

Record AlertRule := {
  ar_id : Z;
  ar_name : string;
  ar_metric : string;
  ar_threshold : float;
  ar_comparison : string;
  ar_window : string;
  ar_severity : string;
  ar_consecutive_cycles : Z;
  ar_is_enabled : bool;
}.

Record AlertFiring := {
  af_rule_name : string;
  af_metric : string;
  af_current_value : float;
  af_threshold : float;
  af_comparison : string;
  af_severity : string;
  af_slo_name : option string;
  af_fired_at : Z;
}.

Record AlertResolution := {
  re_rule_name : string;
  re_metric : string;
  re_severity : string;
  re_resolved_at : Z;
}.

(** The fields of one entry of [DEFAULT_ALERT_RULES]. *)
Definition default_rule (id : Z) (name metric : string) (threshold : float)
    (comparison window severity : string) (cycles : Z) : AlertRule :=
  {| ar_id := id; ar_name := name; ar_metric := metric; ar_threshold := threshold;
     ar_comparison := comparison; ar_window := window; ar_severity := severity;
     ar_consecutive_cycles := cycles; ar_is_enabled := true |}.

(** The seeded rules; the database assigns their ids. *)
Definition DEFAULT_ALERT_RULES : list AlertRule :=
  [default_rule 0 "high_p95_latency" "investigation.p95_latency_ms" (float_of_Z 10000) "gt" "15m" "warning" 1;
   default_rule 0 "high_job_failure_rate" "investigation.job_failure_rate" (flit 1 10) "gt" "1h" "critical" 1;
   default_rule 0 "scaling_queue_depth_breach" "scaling.queue_depth" (float_of_Z 20) "gt" "15m" "warning" 4;
   default_rule 0 "scaling_worker_utilization_breach" "scaling.worker_utilization_pct" (float_of_Z 100)
     "gte" "15m" "warning" 4;
   default_rule 0 "scaling_p95_queue_wait_breach" "scaling.p95_queue_wait_s" (float_of_Z 60)
     "gt" "15m" "warning" 1].

(** ** Evaluation of rules *)

Definition _is_threshold_violated (current_value threshold : float) (comparison : string) : bool :=
  if String.eqb comparison "gt" then fltb threshold current_value
  else if String.eqb comparison "gte" then fleb threshold current_value
  else if String.eqb comparison "lt" then fltb current_value threshold
  else false.

(** The answers to the three snapshot queries of a window: no row, or the row
    with its nullable columns; each query may raise. *)
Record window_row := {
  p95_latency_ms : option float;
  job_failure_rate : option float;
  avg_cost_estimate : option float;
}.

Record window_answers := {
  q_snapshot : result pyexn (option window_row);
  q_queue_wait : result pyexn (option (option float));
  q_telemetry : result pyexn (option (option Z * option float));
}.

Definition snapshot := list (string * float).

Definition set_some (k : string) (v : option float) (s : snapshot) : snapshot :=
  match v with Some x => assoc_set k x s | None => s end.

Definition zero_snapshot : snapshot :=
  map (fun k => (k, f0))
    ["investigation.p95_latency_ms"; "investigation.job_failure_rate"; "job_failure_rate";
     "investigation.avg_cost_estimate"; "scaling.queue_depth"; "scaling.worker_utilization_pct";
     "scaling.p95_queue_wait_s"].

(** The first query's exception propagates; those of the other two are logged. *)
Definition _fetch_window_metrics_snapshot (q : window_answers) : result pyexn snapshot :=
  row ← q_snapshot q;
  let s1 := match row with
            | Some r => set_some "investigation.avg_cost_estimate" (avg_cost_estimate r)
                          (set_some "job_failure_rate" (job_failure_rate r)
                             (set_some "investigation.job_failure_rate" (job_failure_rate r)
                                (set_some "investigation.p95_latency_ms" (p95_latency_ms r) zero_snapshot)))
            | None => zero_snapshot
            end in
  let s2 := match q_queue_wait q with
            | Ok (Some (Some ms)) => assoc_set "scaling.p95_queue_wait_s" (fdiv ms (float_of_Z 1000)) s1
            | _ => s1
            end in
  Ok (match q_telemetry q with
      | Ok (Some (depth, util)) =>
          set_some "scaling.worker_utilization_pct" util
            (set_some "scaling.queue_depth" (float_of_Z <$> depth) s2)
      | _ => s2
      end).

(** The answers are arguments: a query that fails in one window says nothing here
    of the next.  On PostgreSQL a query the server refused leaves the transaction
    aborted, so that the answers of the later windows, and the statements of the
    session after them, are errors too. *)
Section evaluator.
Variable answers : string -> window_answers.   (* by window *)
Variable worker_pool_size : Z.
Variable now : Z.

Definition effective_threshold (r : AlertRule) : float :=
  if String.eqb (ar_metric r) "scaling.queue_depth" then float_of_Z (10 * worker_pool_size)
  else ar_threshold r.

Definition current_val (s : snapshot) (r : AlertRule) : float := default f0 (assoc (ar_metric r) s).

Definition rule_firing (s : snapshot) (r : AlertRule) : AlertFiring :=
  {| af_rule_name := ar_name r; af_metric := ar_metric r; af_current_value := current_val s r;
     af_threshold := effective_threshold r; af_comparison := ar_comparison r;
     af_severity := ar_severity r; af_slo_name := None; af_fired_at := now |}.

Definition rule_fires (s : snapshot) (r : AlertRule) : bool :=
  bool_decide (ar_metric r ∈ SUPPORTED_METRICS) &&
  _is_threshold_violated (current_val s r) (effective_threshold r) (ar_comparison r).

(** The rules of one window against one snapshot; a failed snapshot query drops
    the window. *)
Definition evaluate_window (rules : list AlertRule) : list AlertFiring :=
  match rules with
  | [] => []
  | r :: _ =>
      match _fetch_window_metrics_snapshot (answers (ar_window r)) with
      | Ok s => map (rule_firing s) (List.filter (rule_fires s) rules)
      | Raise _ => []
      end
  end.

(** Windows in the order of their first enabled rule. *)
Definition windows (rules : list AlertRule) : list string := fold_left add_new (map ar_window rules) [].

Definition evaluate_rules (rules : list AlertRule) : list AlertFiring :=
  let enabled := List.filter ar_is_enabled rules in
  flat_map (fun w => evaluate_window (List.filter (fun r => String.eqb (ar_window r) w) enabled))
    (windows enabled).
End evaluator.

(** ** Service level objectives *)

Record SLODefinition := {
  slo_name : string;
  slo_target : float;
  slo_window : string;
  slo_burn_threshold : float;
  slo_metric : string;
  slo_threshold : option float;
  slo_comparison : string;
}.

Record BurnRateResult := {
  current_burn_rate : float;
  budget_remaining_pct : float;
  alert_severity : option string;
  insufficient_data : bool;
}.

Definition bad_event (slo : SLODefinition) (x : float) : bool :=
  match slo_threshold slo with
  | Some t => if String.eqb (slo_comparison slo) "gt" then fltb t x
              else if String.eqb (slo_comparison slo) "lt" then fltb x t
              else feqb x t
  | None => fltb f0 x
  end.

Definition bad_count (slo : SLODefinition) (actuals : list float) : Z :=
  Z.of_nat (length (List.filter (bad_event slo) actuals)).

Definition allowed_error_rate (slo : SLODefinition) : float := fround 6 (fsub f1 (slo_target slo)).

Definition severity_for (slo : SLODefinition) (burn_rate : float) : option string :=
  if fleb (slo_burn_threshold slo) burn_rate
  then Some (if fleb (flit 144 10) burn_rate then "critical" else "warning")
  else None.

Definition evaluate_slo_burn_rate (slo : SLODefinition) (actuals : list float) : BurnRateResult :=
  match actuals with
  | [] => {| current_burn_rate := f0; budget_remaining_pct := float_of_Z 100; alert_severity := None;
             insufficient_data := true |}
  | _ =>
      let error_rate := int_truediv (bad_count slo actuals) (Pos.of_nat (length actuals)) in
      let '(burn_rate, remaining) :=
        if fleb (allowed_error_rate slo) f0 then (f0, float_of_Z 100)
        else (fround 4 (fdiv error_rate (allowed_error_rate slo)),
              fmax f0 (fmul (fsub f1 (fdiv error_rate (allowed_error_rate slo))) (float_of_Z 100))) in
      {| current_burn_rate := burn_rate; budget_remaining_pct := fround2 remaining;
         alert_severity := severity_for slo burn_rate; insufficient_data := false |}
  end.

(** The query an objective's metric selects, if any. *)
Inductive slo_query := MetricsLatency | MetricsSuccess | EvalEce | EvalFallback.

Definition slo_query_of (metric : string) : option slo_query :=
  if existsb (String.eqb metric) ["investigation.p95_latency_ms"; "p95_latency"] then Some MetricsLatency
  else if existsb (String.eqb metric) ["investigation.job_success_rate"; "job_success_rate"] then Some MetricsSuccess
  else if String.eqb metric "calibration_ece" then Some EvalEce
  else if String.eqb metric "citation_fallback_rate" then Some EvalFallback
  else None.

Section slos.
Variable series : slo_query -> string -> result pyexn (list (option float)).   (* by query and window *)
Variable now : Z.

Definition _fetch_slo_actuals (slo : SLODefinition) : list float :=
  match slo_query_of (slo_metric slo) with
  | Some q => match series q (slo_window slo) with Ok rows => omap id rows | Raise _ => [] end
  | None => []
  end.

Definition slo_result (slo : SLODefinition) : BurnRateResult :=
  evaluate_slo_burn_rate slo (_fetch_slo_actuals slo).

Definition slo_firing (slo : SLODefinition) : option AlertFiring :=
  let res := slo_result slo in
  if insufficient_data res then None
  else match alert_severity res with
       | Some sev =>
           Some {| af_rule_name := slo_name slo; af_metric := slo_metric slo;
                   af_current_value := current_burn_rate res; af_threshold := slo_burn_threshold slo;
                   af_comparison := "gt"; af_severity := sev; af_slo_name := Some (slo_name slo);
                   af_fired_at := now |}
       | None => None
       end.

(** Firings, and the results by objective name (the last one of a name wins). *)
Definition evaluate_slos (slos : list SLODefinition)
    : list AlertFiring * list (string * BurnRateResult) :=
  (omap slo_firing slos,
   fold_left (fun d slo => assoc_set (slo_name slo) (slo_result slo) d) slos []).
End slos.

(** ** Webhook channel *)

Inductive http_outcome := Status (code : Z) | RequestError.

Definition transient (o : http_outcome) : bool :=
  match o with Status c => 500 <=? c | RequestError => true end.

(** The attempts from number [i] on: whether the payload was delivered, and how
    many requests were made in all. *)
Fixpoint post_attempts (post : nat -> http_outcome) (tries i : nat) : bool * nat :=
  match tries with
  | O => (false, i)
  | S tries =>
      match post i with
      | Status c => if c <? 400 then (true, S i)
                    else if c <? 500 then (false, S i)
                    else post_attempts post tries (S i)
      | RequestError => post_attempts post tries (S i)
      end
  end.

Definition max_retries : nat := 3.

(** [WebhookNotificationChannel.notify]: the answer and the number of requests. *)
Definition notify (webhook_url : option string) (post : nat -> http_outcome) : bool * nat :=
  if ostr_truthy webhook_url then post_attempts post max_retries 0 else (true, O).

(** ** Lemmas *)

Lemma windows_elem w rules : w ∈ windows rules <-> exists r, r ∈ rules /\ ar_window r = w.
Proof.
  unfold windows. enough (forall ws acc, w ∈ fold_left add_new ws acc <-> w ∈ acc \/ w ∈ ws) as H.
  { rewrite H. setoid_rewrite list_elem_of_fmap. set_solver. }
  induction ws as [|x ws IH]; intros acc; cbn; [set_solver|]. rewrite IH, add_new_elem. set_solver.
Qed.

Section evaluator_lemmas.
Variables (answers : string -> window_answers) (pool now : Z).
Notation fires := (rule_fires pool).
Notation firing := (rule_firing pool now).

Lemma evaluate_window_elem w rules f :
  (forall r, r ∈ rules -> ar_window r = w) ->
  f ∈ evaluate_window answers pool now rules <->
  exists r s, r ∈ rules /\ _fetch_window_metrics_snapshot (answers w) = Ok s /\ fires s r = true /\ f = firing s r.
Proof.
  intros Hw. unfold evaluate_window. destruct rules as [|r0 rules]; [set_solver|].
  rewrite (Hw r0) by set_solver. destruct (_fetch_window_metrics_snapshot (answers w)) as [s|e].
  - rewrite list_elem_of_fmap. setoid_rewrite elem_of_filter_bool. naive_solver.
  - set_solver.
Qed.

Lemma evaluate_rules_elem rules f :
  f ∈ evaluate_rules answers pool now rules <->
  exists r s, r ∈ rules /\ ar_is_enabled r = true /\
    _fetch_window_metrics_snapshot (answers (ar_window r)) = Ok s /\ fires s r = true /\ f = firing s r.
Proof.
  unfold evaluate_rules. rewrite elem_of_flat_map_bool. setoid_rewrite windows_elem.
  setoid_rewrite elem_of_filter_bool. split.
  - intros (w & _ & Hf). apply (evaluate_window_elem w) in Hf as (r & s & Hr & Hs & Hv & ->).
    + apply elem_of_filter_bool in Hr as [[Hr He]%elem_of_filter_bool Hw%String.eqb_eq]. subst w. eauto 8.
    + intros r Hr. by apply elem_of_filter_bool in Hr as [_ Hw%String.eqb_eq].
  - intros (r & s & Hr & He & Hs & Hv & ->). exists (ar_window r). split; [eauto|].
    apply (evaluate_window_elem (ar_window r)).
    + intros r' Hr'. by apply elem_of_filter_bool in Hr' as [_ Hw%String.eqb_eq].
    + exists r, s. split_and!; try done. apply elem_of_filter_bool. rewrite elem_of_filter_bool.
      split; [done|]. by rewrite String.eqb_refl.
Qed.
End evaluator_lemmas.

(** The metrics a snapshot holds. *)
Lemma snapshot_domain q s k : _fetch_window_metrics_snapshot q = Ok s ->
  assoc k zero_snapshot = None -> assoc k s = None.
Proof.
  assert (forall k' v (l : snapshot), assoc k l = None -> assoc k' zero_snapshot <> None ->
    assoc k zero_snapshot = None -> assoc k (assoc_set k' v l) = None) as Hset.
  { intros k' v l Hl Hk' Hk. rewrite assoc_set_ne; [done|]. by intros ->. }
  assert (forall k' v (l : snapshot), assoc k l = None -> assoc k' zero_snapshot <> None ->
    assoc k zero_snapshot = None -> assoc k (set_some k' v l) = None) as Hsome.
  { intros k' [v|] l; [apply Hset | done]. }
  unfold _fetch_window_metrics_snapshot. destruct (q_snapshot q) as [row|]; [|done]. cbn [mbind result_mbind result_bind].
  intros [= <-] Hk.
  destruct row as [r|], (q_queue_wait q) as [[[ms|]|]|], (q_telemetry q) as [[[d u]|]|];
    repeat first [done | apply Hsome | apply Hset].
Qed.

Lemma post_attempts_spec post tries i b n :
  post_attempts post tries i = (b, n) ->
  (i <= n <= i + tries)%nat /\
  (forall j, (i <= j < n - 1)%nat -> transient (post j) = true) /\
  (if b then (i < n)%nat /\ exists c, post (n - 1)%nat = Status c /\ c < 400
   else (n = i + tries /\ forall j, (i <= j < n)%nat -> transient (post j) = true)%nat \/
        (i < n)%nat /\ exists c, post (n - 1)%nat = Status c /\ 400 <= c < 500).
Proof.
  revert i. induction tries as [|tries IH]; intros i; cbn.
  { intros [= <- <-]. split_and!; [lia.. |]. left. split; [lia|]. intros; lia. }
  assert (transient (post i) = true -> post_attempts post tries (S i) = (b, n) ->
    (i <= n <= i + S tries)%nat /\
    (forall j, (i <= j < n - 1)%nat -> transient (post j) = true) /\
    (if b then (i < n)%nat /\ exists c, post (n - 1)%nat = Status c /\ c < 400
     else (n = i + S tries /\ forall j, (i <= j < n)%nat -> transient (post j) = true)%nat \/
          (i < n)%nat /\ exists c, post (n - 1)%nat = Status c /\ 400 <= c < 500)) as Hnext.
  { intros Hi H. apply IH in H as (Hn & Ht & Hb).
    assert (forall j P, (i <= j)%nat -> (S i <= j -> P -> transient (post j) = true)%nat -> P -> transient (post j) = true)
      as Hj by (intros j P ? Hs ?; destruct (decide (j = i)) as [->|]; [done | apply Hs; [lia | done]]).
    split; [lia|]. split; [intros j ?; eapply Hj; [lia | intros ? ?; by apply Ht; lia | exact I]|].
    destruct b; [destruct Hb; split; [lia | done]|].
    destruct Hb as [[-> Hall]|[? Hb]]; [left | right; split; [lia | done]].
    split; [lia|]. intros j ?. eapply Hj; [lia | intros ? ?; by apply Hall; lia | exact I]. }
  destruct (post i) as [c|] eqn:E; [|by apply Hnext].
  destruct (c <? 400) eqn:E4; [|destruct (c <? 500) eqn:E5]; bool_to_prop;
    [| |apply Hnext; cbn; by apply Z.leb_le].
  all: intros [= <- <-]; replace (S i - 1)%nat with i by lia;
    split; [lia|]; split; [intros; lia|]; try right; split; [lia | by eauto].
Qed.

Lemma fdiv_zero_l x : fdiv f0 x = S754_nan \/ exists s, fdiv f0 x = S754_zero s.
Proof. destruct x as [s|s| |s m e]; cbn; eauto. Qed.

Lemma severity_low slo burn : fltb f0 (slo_burn_threshold slo) = true ->
  fle burn f0 \/ is_nan burn = true -> severity_for slo burn = None.
Proof.
  intros Ht Hb. unfold severity_for. destruct (fleb (slo_burn_threshold slo) burn) eqn:E; [|done].
  exfalso. destruct Hb as [Hb|Hb].
  - apply flt_not_le in Ht. apply Ht. by eapply fle_trans.
  - apply fle_nan in E as [_ E]. congruence.
Qed.

(** ** Properties *)

(** A firing is reported for exactly the enabled rules on a supported metric
    whose window could be queried and whose value violates the effective
    threshold, with that value and that threshold. *)
Theorem evaluate_rules_exact (answers : string -> window_answers) (pool now : Z)
    (rules : list AlertRule) (f : AlertFiring) :
  f ∈ evaluate_rules answers pool now rules <->
  exists r s, r ∈ rules /\ ar_is_enabled r = true /\ ar_metric r ∈ SUPPORTED_METRICS /\
    _fetch_window_metrics_snapshot (answers (ar_window r)) = Ok s /\
    _is_threshold_violated (current_val s r) (effective_threshold pool r) (ar_comparison r) = true /\
    f = rule_firing pool now s r.
Proof.
  rewrite evaluate_rules_elem. unfold rule_fires. setoid_rewrite andb_true_iff.
  setoid_rewrite bool_decide_eq_true. naive_solver.
Qed.

(** Three supported metrics are in no snapshot: a rule on one of them compares
    its threshold with zero, so a "less than" rule with a positive threshold
    fires in every cycle whose query succeeds, and a "greater than" rule with a
    non-negative one never does. *)
Theorem unmeasured_metrics_read_zero (answers : string -> window_answers) (pool now : Z) (r : AlertRule)
    (s : snapshot) :
  ar_metric r ∈ ["investigation.job_success_rate"; "calibration_ece"; "citation_fallback_rate"] ->
  ar_is_enabled r = true -> _fetch_window_metrics_snapshot (answers (ar_window r)) = Ok s ->
  (ar_comparison r = "lt" -> fltb f0 (ar_threshold r) = true ->
     map af_rule_name (evaluate_rules answers pool now [r]) = [ar_name r]) /\
  (ar_comparison r = "gt" -> fleb f0 (ar_threshold r) = true ->
     evaluate_rules answers pool now [r] = []).
Proof.
  intros Hm He Hs.
  assert (current_val s r = f0 /\ effective_threshold pool r = ar_threshold r /\
          bool_decide (ar_metric r ∈ SUPPORTED_METRICS) = true) as (Hv & Ht & Hb).
  { unfold current_val, effective_threshold.
    rewrite (snapshot_domain _ s (ar_metric r) Hs) by (set_unfold in Hm; by destruct Hm as [->|[->|[->|[]]]]).
    set_unfold in Hm. by destruct Hm as [->|[->|[->|[]]]]. }
  unfold evaluate_rules, windows. cbn [List.filter]. rewrite He. cbn [map fold_left]. unfold add_new.
  rewrite decide_False by set_solver. cbn [app flat_map List.filter]. rewrite String.eqb_refl.
  unfold evaluate_window. rewrite Hs. cbn [List.filter].
  unfold rule_fires. rewrite Hb, Ht, Hv. unfold _is_threshold_violated. split; intros -> Hc; cbn.
  - by rewrite Hc.
  - destruct (fltb (ar_threshold r) f0) eqn:E; [|done]. by apply flt_not_le in E.
Qed.

(** An objective alerts exactly when data is there and its burn rate reaches the
    alert threshold, critically from 14.4 on; it stays silent without bad events,
    and also, whatever happens, when its target leaves no error budget. *)
Theorem burn_rate_alerts (slo : SLODefinition) (actuals : list float) :
  fltb f0 (slo_burn_threshold slo) = true ->
  let res := evaluate_slo_burn_rate slo actuals in
  (insufficient_data res = true <-> actuals = []) /\
  (forall sev, alert_severity res = Some sev <->
     actuals <> [] /\ fle (slo_burn_threshold slo) (current_burn_rate res) /\
     sev = if fleb (flit 144 10) (current_burn_rate res) then "critical" else "warning") /\
  (bad_count slo actuals = 0 -> alert_severity res = None) /\
  (fle (allowed_error_rate slo) f0 -> alert_severity res = None).
Proof.
  intros Ht. destruct actuals as [|x xs]; cbn [evaluate_slo_burn_rate].
  { cbn. split_and!; try done. intros sev. split; [done | by intros [? _]]. }
  destruct (if fleb (allowed_error_rate slo) f0 then _ else _) as [burn remaining] eqn:E.
  cbn. split_and!.
  - done.
  - intros sev. unfold severity_for, fle. destruct (fleb (slo_burn_threshold slo) burn); naive_solver.
  - intros Hbad. apply severity_low; [done|]. destruct (fleb (allowed_error_rate slo) f0); [simplify_eq; by left|].
    rewrite Hbad in E. cbn [int_truediv] in E. injection E as <- _.
    destruct (fdiv_zero_l (allowed_error_rate slo)) as [->|[s ->]]; [by right | left; by destruct s].
  - unfold fle. intros Ha. rewrite Ha in E. simplify_eq. apply severity_low; [done | by left].
Qed.

(** A notification is never raised about: at most three requests are made, a
    further one only after a server error or a failed request, and it counts as
    delivered exactly when the last request was answered below 400 (or no
    webhook is configured, when none is made). *)
Theorem webhook_delivery (url : option string) (post : nat -> http_outcome) (b : bool) (n : nat) :
  notify url post = (b, n) ->
  (n <= max_retries)%nat /\
  (forall j, (j + 1 < n)%nat -> transient (post j) = true) /\
  (ostr_truthy url = false -> b = true /\ n = 0%nat) /\
  (ostr_truthy url = true -> (0 < n)%nat /\
     (b = true <-> exists c, post (n - 1)%nat = Status c /\ c < 400) /\
     (b = false -> n = max_retries \/ exists c, post (n - 1)%nat = Status c /\ 400 <= c < 500)).
Proof.
  unfold notify. destruct (ostr_truthy url).
  2: { intros [= <- <-]. split_and!; try done; lia. }
  intros H. apply post_attempts_spec in H as (Hn & Ht & Hb). unfold max_retries in *.
  split; [lia|]. split; [intros j ?; apply Ht; lia|]. split; [done|]. intros _. destruct b.
  - destruct Hb as [? Hb]. split; [lia|]. by split.
  - destruct Hb as [[-> Hall]|[? (c & Hc & ?)]].
    + split; [lia|]. split; [|by left]. split; [done|]. intros (c & Hc & ?).
      specialize (Hall 2%nat ltac:(lia)). cbn in Hc. rewrite Hc in Hall. cbn in Hall. bool_to_prop. lia.
    + split; [lia|]. split; [|by eauto]. split; [done|]. intros (c' & Hc' & ?). rewrite Hc in Hc'. simplify_eq. lia.
Qed.

Module AlertingWitness.
(** The objectives of [config/slo_definitions.yaml]. *)
Definition slo_definitions : list SLODefinition :=
  [{| slo_name := "investigation_p95_latency"; slo_target := flit 95 100; slo_window := "30d";
      slo_burn_threshold := float_of_Z 10; slo_metric := "investigation.p95_latency_ms";
      slo_threshold := Some (float_of_Z 10000); slo_comparison := "gt" |};
   {| slo_name := "job_success_rate"; slo_target := flit 99 100; slo_window := "30d";
      slo_burn_threshold := float_of_Z 10; slo_metric := "investigation.job_success_rate";
      slo_threshold := Some (flit 99 100); slo_comparison := "lt" |};
   {| slo_name := "calibration_ece"; slo_target := flit 95 100; slo_window := "30d";
      slo_burn_threshold := float_of_Z 10; slo_metric := "calibration_ece";
      slo_threshold := Some (flit 5 100); slo_comparison := "gt" |};
   {| slo_name := "citation_fallback_rate"; slo_target := flit 95 100; slo_window := "30d";
      slo_burn_threshold := float_of_Z 10; slo_metric := "citation_fallback_rate";
      slo_threshold := Some (flit 5 100); slo_comparison := "gt" |}].

Definition success_slo : SLODefinition := List.nth 1 slo_definitions (List.hd
  {| slo_name := ""; slo_target := f0; slo_window := ""; slo_burn_threshold := f1; slo_metric := "";
     slo_threshold := None; slo_comparison := "" |} slo_definitions).

(** One failed job in five burns the one-percent budget twenty times as fast as allowed. *)
Lemma burn_rate_alerts_witness :
  alert_severity (evaluate_slo_burn_rate success_slo [f1; f1; f0; f1; f1]) = Some "critical".
Proof.
  apply (burn_rate_alerts success_slo [f1; f1; f0; f1; f1]); [by vm_compute|].
  split; [done|]. split; by vm_compute.
Defined.

Lemma webhook_delivery_witness :
  notify (Some "http://hook") (fun i => match i with O => Status 503 | S _ => Status 200 end) = (true, 2%nat) /\
  (2 <= max_retries)%nat.
Proof.
  split; [reflexivity|].
  apply (webhook_delivery (Some "http://hook") (fun i => match i with O => Status 503 | S _ => Status 200 end) true 2).
  reflexivity.
Defined.

Definition quiet : window_answers :=
  {| q_snapshot := Ok None; q_queue_wait := Raise ConnectionError; q_telemetry := Ok None |}.

Lemma unmeasured_metrics_read_zero_witness :
  let r := default_rule 1 "low_success" "investigation.job_success_rate" (flit 95 100) "lt" "1h" "critical" 1 in
  map af_rule_name (evaluate_rules (fun _ => quiet) 2 0 [r]) = ["low_success"].
Proof.
  intros r. apply (unmeasured_metrics_read_zero (fun _ => quiet) 2 0 r zero_snapshot); try done.
  vm_compute. by left.
Defined.
End AlertingWitness.
