(* ===== verification/AlertJob.v ===== *)
(** * Alert evaluation job ([src/workers/jobs/alert_evaluation_job.py],
    [AlertRepository] of [src/db/repository.py])

    One evaluation cycle: seed the default rules, evaluate rules and objectives,
    open, count and resolve incidents, notify.  The tables are lists in insertion
    order; every statement of the repository may fail (see [Database]).  The order
    in which the database lists rules by name is a parameter.  Identifiers are numbers drawn from a counter; the clock
    is one instant per cycle. *)

From stdpp Require Import sorting.
From S2P Require Import Prelude PyFloat PyStr Settings Effects Database Alerting.

(** ** Tables *)

Inductive incident_status := firing | resolved.

#[global] Instance incident_status_eq_dec : EqDecision incident_status.
Proof. solve_decision. Defined.

Record AlertIncident := {
  in_id : Z;
  in_rule_id : option Z;
  in_rule_name : string;
  in_slo_name : option string;
  in_severity : string;
  in_status : incident_status;
  in_last_value : float;
  in_threshold : float;
  in_violations : Z;
  in_fired_at : Z;
  in_resolved_at : option Z;
}.

Inductive payload := PFiring (f : AlertFiring) | PResolution (r : AlertResolution).

Record world := World {
  rules : list AlertRule;
  incidents : list AlertIncident;
  fresh : Z;                      (* the next identifier *)
  clock : Z;
  db : list bool;                 (* whether each coming statement or commit succeeds; exhausted: yes *)
  notified : list payload;        (* calls of [notifier.notify], oldest first *)
  sent : Z;                       (* [notifications_sent] *)
  failures : Z;                   (* [notification_failures] *)
}.

Definition with_incidents (f : list AlertIncident -> list AlertIncident) (w : world) : world :=
  World (rules w) (f (incidents w)) (fresh w) (clock w) (db w) (notified w) (sent w) (failures w).

#[global] Program Instance world_db : Db world := {|
  script := db;
  set_script cs w := World (rules w) (incidents w) (fresh w) (clock w) cs (notified w) (sent w) (failures w);
|}.
Solve All Obligations with by intros [].

(** ** [AlertRepository] *)

Section repository.
Variable order_by_name : list AlertRule -> list AlertRule.

Definition list_alert_rules : M world (list AlertRule) := select (fun w => order_by_name (rules w)).

(** Update the rule of that name, or insert it with a new id. *)
Definition put_rule (id : Z) (def : AlertRule) (rs : list AlertRule) : list AlertRule :=
  let with_id i := {| ar_id := i; ar_name := ar_name def; ar_metric := ar_metric def;
                      ar_threshold := ar_threshold def; ar_comparison := ar_comparison def;
                      ar_window := ar_window def; ar_severity := ar_severity def;
                      ar_consecutive_cycles := ar_consecutive_cycles def;
                      ar_is_enabled := ar_is_enabled def |} in
  if existsb (fun r => String.eqb (ar_name r) (ar_name def)) rs
  then map (fun r => if String.eqb (ar_name r) (ar_name def) then with_id (ar_id r) else r) rs
  else rs ++ [with_id id].

Definition upsert_alert_rule (def : AlertRule) : M world unit :=
  select (fun _ => tt) ≫= fun _ =>
  save_refresh (fun w => World (put_rule (fresh w) def (rules w)) (incidents w) (fresh w + 1) (clock w) (db w)
                   (notified w) (sent w) (failures w)).

Definition is_open (i : AlertIncident) : bool := bool_decide (in_status i = firing).

Definition open_named (name : string) (i : AlertIncident) : bool :=
  is_open i && String.eqb (in_rule_name i) name.

Definition get_open_incident_by_rule_name (name : string) : M world (option AlertIncident) :=
  select (fun w => List.filter (open_named name) (incidents w)) ≫= scalar_one_or_none.

Definition new_incident (w : world) (rule_id : option Z) (rule_name severity : string)
    (last_value threshold : float) (slo : option string) : AlertIncident :=
  {| in_id := fresh w; in_rule_id := rule_id; in_rule_name := rule_name; in_slo_name := slo;
     in_severity := severity; in_status := firing; in_last_value := last_value;
     in_threshold := threshold; in_violations := 1; in_fired_at := clock w; in_resolved_at := None |}.

(** [create_incident] with [consecutive_violations = 1], as both callers pass. *)
Definition create_incident (rule_id : option Z) (rule_name severity : string)
    (last_value threshold : float) (slo : option string) : M world unit :=
  save_refresh (fun w => World (rules w)
                   (incidents w ++ [new_incident w rule_id rule_name severity last_value threshold slo])
                   (fresh w + 1) (clock w) (db w) (notified w) (sent w) (failures w)).

Definition set_last_value (v : float) (n : Z) (i : AlertIncident) : AlertIncident :=
  {| in_id := in_id i; in_rule_id := in_rule_id i; in_rule_name := in_rule_name i;
     in_slo_name := in_slo_name i; in_severity := in_severity i; in_status := in_status i;
     in_last_value := v; in_threshold := in_threshold i; in_violations := n;
     in_fired_at := in_fired_at i; in_resolved_at := in_resolved_at i |}.

Definition set_resolved (now : Z) (i : AlertIncident) : AlertIncident :=
  {| in_id := in_id i; in_rule_id := in_rule_id i; in_rule_name := in_rule_name i;
     in_slo_name := in_slo_name i; in_severity := in_severity i; in_status := resolved;
     in_last_value := in_last_value i; in_threshold := in_threshold i; in_violations := in_violations i;
     in_fired_at := in_fired_at i; in_resolved_at := Some now |}.

Definition update_at (id : Z) (f : AlertIncident -> AlertIncident) (l : list AlertIncident) : list AlertIncident :=
  map (fun i => if in_id i =? id then f i else i) l.

Definition by_id (id : Z) (w : world) : option AlertIncident :=
  List.find (fun i => in_id i =? id) (incidents w).

(** Says whether the session's objects are still loaded. *)
Definition update_incident_last_value (id : Z) (v : float) (n : Z) : M world bool :=
  select (by_id id) ≫= fun row =>
  match row with
  | None => mret true
  | Some _ => save_or_rollback (with_incidents (update_at id (set_last_value v n)))
  end.

Definition resolve_incident (id : Z) : M world (option AlertIncident) :=
  select (fun w => (by_id id w, clock w)) ≫= fun '(row, now) =>
  match row with
  | Some i =>
      if is_open i
      then save_refresh (with_incidents (update_at id (set_resolved now))) ≫= fun _ => mret (Some (set_resolved now i))
      else mret (Some i)
  | None => mret None
  end.

(** [list_incidents(status="firing")]: the newest fifty. *)
Definition newer (a b : AlertIncident) : Prop := in_fired_at b <= in_fired_at a.
#[global] Instance newer_dec : RelDecision newer.
Proof. intros a b. unfold newer. apply _. Defined.

Definition page_size : nat := 50.

Definition list_firing_incidents : M world (list AlertIncident) :=
  select (fun w => firstn page_size (merge_sort newer (List.filter is_open (incidents w)))).

(** ** The job *)

Variable http : nat -> nat -> http_outcome.   (* by notification and attempt *)
Variable settings : AlertSettings.

Definition read_clock : M world Z := gets clock.

Definition dispatch (p : payload) : M world unit := fun w =>
  let success := (notify (alert_webhook_url settings) (http (length (notified w)))).1 in
  (Ok tt, World (rules w) (incidents w) (fresh w) (clock w) (db w) (notified w ++ [p])
            (if success then sent w + 1 else sent w) (if success then failures w else failures w + 1)).

(** [{f.rule_name: f for f in firings}] *)
Definition firing_names (fs : list AlertFiring) : list (string * AlertFiring) :=
  fold_left (fun d f => assoc_set (af_rule_name f) f d) fs [].

(** Step 3a for one active rule. *)
Definition process_rule (rule_firing_names : list (string * AlertFiring)) (rule : AlertRule) : M world unit :=
  match assoc (ar_name rule) rule_firing_names with
  | None => mret tt
  | Some f =>
      get_open_incident_by_rule_name (ar_name rule) ≫= fun open_incident =>
      match open_incident with
      | None =>
          create_incident (Some (ar_id rule)) (ar_name rule) (ar_severity rule) (af_current_value f)
            (ar_threshold rule) None ≫= fun _ =>
          if ar_consecutive_cycles rule <=? 1 then dispatch (PFiring f) else mret tt
      | Some i =>
          let new_violations := in_violations i + 1 in
          update_incident_last_value (in_id i) (af_current_value f) new_violations ≫= fun loaded =>
          read_attribute loaded ≫= fun _ =>
          if new_violations =? ar_consecutive_cycles rule then dispatch (PFiring f) else mret tt
      end
  end.

(** Step 3b for one objective's firing. *)
Definition process_slo (f : AlertFiring) : M world unit :=
  get_open_incident_by_rule_name (af_rule_name f) ≫= fun open_incident =>
  match open_incident with
  | None =>
      create_incident None (af_rule_name f) (af_severity f) (af_current_value f) (af_threshold f)
        (af_slo_name f) ≫= fun _ =>
      dispatch (PFiring f)
  | Some i => update_incident_last_value (in_id i) (af_current_value f) (in_violations i + 1) ≫= fun _ => mret tt
  end.

Definition resolution (now : Z) (i : AlertIncident) : AlertResolution :=
  {| re_rule_name := in_rule_name i; re_metric := in_rule_name i; re_severity := in_severity i;
     re_resolved_at := now |}.

(** Step 4 for one open incident. *)
Definition resolve_cleared (all_firing_names : list (string * AlertFiring)) (i : AlertIncident) : M world unit :=
  match assoc (in_rule_name i) all_firing_names with
  | Some _ => mret tt
  | None =>
      resolve_incident (in_id i) ≫= fun resolved_inc =>
      match resolved_inc with
      | Some _ => read_clock ≫= fun now => dispatch (PResolution (resolution now i))
      | None => mret tt
      end
  end.

Definition seed_rules : M world (list AlertRule) :=
  list_alert_rules ≫= fun all_rules =>
  match all_rules with
  | [] => for_each upsert_alert_rule DEFAULT_ALERT_RULES ≫= fun _ => list_alert_rules
  | _ => mret all_rules
  end.

(** Steps 3 and 4, given what step 2 found. *)
Definition reconcile (active_rules : list AlertRule) (rule_firings slo_firings : list AlertFiring) : M world unit :=
  for_each (process_rule (firing_names rule_firings)) active_rules ≫= fun _ =>
  for_each process_slo slo_firings ≫= fun _ =>
  list_firing_incidents ≫= fun open_incidents =>
  for_each (resolve_cleared (firing_names (rule_firings ++ slo_firings))) open_incidents.

Variable worker_pool_size : Z.
Variable answers : string -> window_answers.
Variable series : slo_query -> string -> result pyexn (list (option float)).
Variable slos : list SLODefinition.

(** The cycle on a database session. *)
Definition evaluation_cycle : M world unit :=
  seed_rules ≫= fun all_rules =>
  let active_rules := List.filter ar_is_enabled all_rules in
  read_clock ≫= fun now =>
  reconcile active_rules (evaluate_rules answers worker_pool_size now active_rules)
    (evaluate_slos series now slos).1.

(** [_async_run_alert_evaluation]; [session_ready]: a session factory exists. *)
Definition _async_run_alert_evaluation (session_ready : bool) : M world unit :=
  if negb (alerting_enabled settings) then mret tt
  else if negb session_ready then mret tt
  else evaluation_cycle.
End repository.

(** ** Invariant *)

Definition open_of (name : string) (w : world) : list AlertIncident :=
  List.filter (open_named name) (incidents w).

(** Rule names are unique, identifiers are unique and below the counter, and at
    most one incident per name is open. *)
Record inv (w : world) : Prop := Inv {
  inv_rules : NoDup (map ar_name (rules w));
  inv_ids : NoDup (map in_id (incidents w));
  inv_fresh : Forall (fun i => in_id i < fresh w) (incidents w);
  inv_open : forall name, (length (open_of name w) <= 1)%nat;
}.

Lemma update_at_ids id f l : (forall i, in_id (f i) = in_id i) -> map in_id (update_at id f l) = map in_id l.
Proof.
  intros Hf. unfold update_at. rewrite map_map. apply map_ext. intros i. by destruct (in_id i =? id).
Qed.

Lemma update_at_fresh id f l n : (forall i, in_id (f i) = in_id i) ->
  Forall (fun i => in_id i < n) l -> Forall (fun i => in_id i < n) (update_at id f l).
Proof.
  intros Hf H. unfold update_at. apply Forall_fmap. eapply Forall_impl; [exact H|]. cbn.
  intros i Hi. by destruct (in_id i =? id); rewrite ?Hf.
Qed.

Lemma update_at_cons id f i l :
  update_at id f (i :: l) = (if in_id i =? id then f i else i) :: update_at id f l.
Proof. reflexivity. Qed.

Lemma update_at_same_open name id f l : (forall i, open_named name (f i) = open_named name i) ->
  List.filter (open_named name) (update_at id f l) = update_at id f (List.filter (open_named name) l).
Proof.
  intros Hf. induction l as [|i l IH]; [done|]. rewrite update_at_cons. cbn [List.filter]. rewrite IH.
  destruct (in_id i =? id) eqn:E; rewrite ?Hf; destruct (open_named name i); rewrite ?update_at_cons; by rewrite ?E.
Qed.

Lemma update_at_resolved_open name id now l :
  List.filter (open_named name) (update_at id (set_resolved now) l) =
  List.filter (fun i => negb (in_id i =? id)) (List.filter (open_named name) l).
Proof.
  induction l as [|i l IH]; [done|]. rewrite update_at_cons. cbn [List.filter]. rewrite IH.
  destruct (in_id i =? id) eqn:E; [change (open_named name (set_resolved now i)) with false|];
    destruct (open_named name i); cbn; by rewrite ?E.
Qed.

Lemma filter_length_le {A} (f : A -> bool) l : (length (List.filter f l) <= length l)%nat.
Proof. induction l as [|a l IH]; cbn; [lia|]. destruct (f a); cbn; lia. Qed.

Lemma put_rule_names id def rs : NoDup (map ar_name rs) -> NoDup (map ar_name (put_rule id def rs)).
Proof.
  intros H. unfold put_rule. destruct (existsb _ rs) eqn:E.
  - replace (map ar_name (map _ rs)) with (map ar_name rs); [done|].
    rewrite map_map. apply map_ext. intros r. destruct (String.eqb (ar_name r) (ar_name def)) eqn:En; [|done].
    by apply String.eqb_eq in En.
  - rewrite map_app. cbn. apply NoDup_app. split; [done|]. split; [|apply NoDup_singleton].
    intros x Hx. rewrite list_elem_of_singleton. intros ->. apply list_elem_of_fmap in Hx as (r & Hr & Hin).
    rewrite existsb_false in E. specialize (E r Hin). by rewrite <- Hr, String.eqb_refl in E.
Qed.

(** The three changes to the tables keep the invariant. *)
Lemma inv_add_incident w i :
  inv w -> in_id i = fresh w -> (is_open i = true -> open_of (in_rule_name i) w = []) ->
  inv (World (rules w) (incidents w ++ [i]) (fresh w + 1) (clock w) (db w) (notified w) (sent w) (failures w)).
Proof.
  intros [H1 H2 H3 H4] Hid Hopen. split; cbn; [done| | |].
  - rewrite map_app. cbn. apply NoDup_app. split; [done|]. split; [|apply NoDup_singleton].
    intros x Hx. rewrite list_elem_of_singleton. intros ->. apply list_elem_of_fmap in Hx as (j & Hj & Hin).
    rewrite Forall_forall in H3. specialize (H3 j Hin). lia.
  - apply Forall_app. split; [|by constructor; [lia | constructor]].
    eapply Forall_impl; [exact H3|]. cbn. lia.
  - intros name. specialize (H4 name). unfold open_of in *. cbn. rewrite List.filter_app, length_app. cbn.
    destruct (open_named name i) eqn:E; cbn; [|lia]. unfold open_named in E. bool_to_prop. subst name.
    by rewrite Hopen.
Qed.

Lemma inv_last_value w id v n : inv w -> inv (with_incidents (update_at id (set_last_value v n)) w).
Proof.
  intros [H1 H2 H3 H4]. split; cbn; [done| | |].
  - by rewrite update_at_ids.
  - by apply update_at_fresh.
  - intros name. unfold open_of. cbn. rewrite update_at_same_open by done. unfold update_at.
    rewrite length_map. apply H4.
Qed.

Lemma inv_resolved w id now : inv w -> inv (with_incidents (update_at id (set_resolved now)) w).
Proof.
  intros [H1 H2 H3 H4]. split; cbn; [done| | |].
  - by rewrite update_at_ids.
  - by apply update_at_fresh.
  - intros name. unfold open_of. cbn. rewrite update_at_resolved_open. specialize (H4 name).
    unfold open_of in H4. pose proof (filter_length_le (fun i => negb (in_id i =? id))
      (List.filter (open_named name) (incidents w))). lia.
Qed.

Lemma inv_upsert w def : inv w ->
  inv (World (put_rule (fresh w) def (rules w)) (incidents w) (fresh w + 1) (clock w) (db w)
         (notified w) (sent w) (failures w)).
Proof.
  intros [H1 H2 H3 H4]. split; cbn; [by apply put_rule_names | done | | done].
  eapply Forall_impl; [exact H3|]. cbn. lia.
Qed.

(** Fields outside the tables do not matter. *)
Lemma inv_log w cs ns a b : inv w -> inv (World (rules w) (incidents w) (fresh w) (clock w) cs ns a b).
Proof. by intros []; split. Qed.

Notation keeps_inv m := (triple (aborted inv) inv m (fun _ => inv)).

Lemma inv_stable : stable inv.
Proof. intros cs w Hw. by apply inv_log. Qed.

Lemma select_inv {A} (read : world -> A) :
  triple (aborted inv) inv (select read) (fun a w => inv w /\ a = read w).
Proof. apply select_keeps; [done | apply inv_stable]. Qed.

Section preserved.
Variable order_by_name : list AlertRule -> list AlertRule.
Variable http : nat -> nat -> http_outcome.
Variable settings : AlertSettings.

Lemma upsert_inv def : keeps_inv (upsert_alert_rule def).
Proof.
  eapply triple_bind; [apply select_inv|]. intros []. eapply triple_weaken; [by intros w [? _]|].
  apply save_refresh_keeps; [done | apply inv_stable..|]. intros w Hw. by apply inv_upsert.
Qed.

Lemma get_open_spec name :
  triple (aborted inv) inv (get_open_incident_by_rule_name name)
    (fun o w => inv w /\ match o with None => open_of name w = [] | Some i => open_of name w = [i] end).
Proof.
  eapply triple_bind; [apply select_inv|]. intros rows w [Hw ->]. pose proof (inv_open w Hw name) as Hl.
  unfold open_of in *. destruct (List.filter (open_named name) (incidents w)) as [|i [|j l]] eqn:E; cbn;
    [by rewrite E.. | cbn in Hl; lia].
Qed.

Lemma create_inv rid name sev v t slo :
  triple (aborted inv) (fun w => inv w /\ open_of name w = []) (create_incident rid name sev v t slo) (fun _ => inv).
Proof.
  apply save_refresh_keeps; [by intros w [? _] | | apply inv_stable |].
  - intros cs w [Hw Ho]. split; [by apply inv_stable | exact Ho].
  - intros w [Hw Ho]. apply inv_add_incident; [done.. | intros _; exact Ho].
Qed.

Lemma update_inv id v n : keeps_inv (update_incident_last_value id v n).
Proof.
  eapply triple_bind; [apply select_inv|]. intros [i|]; [|by intros w [Hw _]].
  eapply triple_weaken; [by intros w [Hw _]|]. apply save_or_rollback_keeps; [apply inv_stable|].
  intros w Hw. by apply inv_last_value.
Qed.

Lemma resolve_inv id : keeps_inv (resolve_incident id).
Proof.
  eapply triple_bind; [apply select_inv|]. intros [[i|] now]; [|by intros w [Hw _]].
  eapply triple_weaken; [by intros w [Hw _]|]. destruct (is_open i); [|apply (triple_ret _ _ (fun _ => inv))].
  apply (triple_bind _ inv _ (fun _ => inv)); [|intros []; apply (triple_ret _ _ (fun _ => inv))].
  apply save_refresh_keeps; [done | apply inv_stable..|]. intros w Hw. by apply inv_resolved.
Qed.

Lemma dispatch_inv p : keeps_inv (dispatch http settings p).
Proof. intros w Hw. cbn. by apply inv_log. Qed.

Lemma ret_inv {A} (a : A) : keeps_inv (mret a).
Proof. by intros w Hw. Qed.

Lemma for_each_inv {A} (f : A -> M world unit) l : (forall a, keeps_inv (f a)) -> keeps_inv (for_each f l).
Proof. intros Hf. apply (triple_for _ (fun _ => inv)). intros don a todo _. apply Hf. Qed.

Lemma process_rule_inv d r : keeps_inv (process_rule http settings d r).
Proof.
  unfold process_rule. destruct (assoc (ar_name r) d) as [f|]; [|apply ret_inv].
  eapply triple_bind; [apply get_open_spec|]. intros [i|].
  - eapply triple_bind; [eapply triple_weaken; [|apply update_inv]; by intros w [? _]|].
    intros loaded. eapply triple_bind; [apply read_attribute_keeps; done|]. intros [].
    case_match; [apply dispatch_inv | apply ret_inv].
  - eapply triple_bind; [apply create_inv|]. intros []. case_match; [apply dispatch_inv | apply ret_inv].
Qed.

Lemma process_slo_inv f : keeps_inv (process_slo http settings f).
Proof.
  unfold process_slo. eapply triple_bind; [apply get_open_spec|]. intros [i|].
  - eapply triple_bind; [eapply triple_weaken; [|apply update_inv]; by intros w [? _]|]. intros ?. apply ret_inv.
  - eapply triple_bind; [apply create_inv|]. intros []. apply dispatch_inv.
Qed.

Lemma resolve_cleared_inv d i : keeps_inv (resolve_cleared http settings d i).
Proof.
  unfold resolve_cleared. destruct (assoc (in_rule_name i) d); [apply ret_inv|].
  eapply triple_bind; [apply resolve_inv|]. intros [j|]; [|apply ret_inv].
  intros w Hw. cbn. by apply inv_log.
Qed.

Lemma reconcile_inv active fs ss : keeps_inv (reconcile http settings active fs ss).
Proof.
  unfold reconcile. eapply triple_bind; [apply for_each_inv, process_rule_inv|]. intros [].
  eapply triple_bind; [apply for_each_inv, process_slo_inv|]. intros [].
  eapply triple_bind; [apply select_inv|]. intros l. eapply triple_weaken; [by intros w [? _]|].
  apply for_each_inv, resolve_cleared_inv.
Qed.

Lemma seed_inv : keeps_inv (seed_rules order_by_name).
Proof.
  assert (keeps_inv (list_alert_rules order_by_name)) as Hlist.
  { eapply triple_post; [apply select_inv|]. by intros a w [? _]. }
  unfold seed_rules. eapply triple_bind; [exact Hlist|]. intros [|r rs]; [|apply ret_inv].
  eapply triple_bind; [apply for_each_inv, upsert_inv|]. intros []. exact Hlist.
Qed.
End preserved.

(** ** Cycles without failed statements *)

(** What the table and the log say about one name. *)
Definition about (name : string) (p : payload) : bool :=
  match p with
  | PFiring f => String.eqb (af_rule_name f) name
  | PResolution r => String.eqb (re_rule_name r) name
  end.
Definition is_firing_note (p : payload) : bool := match p with PFiring _ => true | PResolution _ => false end.

Definition violations (name : string) (w : world) : option Z := in_violations <$> head (open_of name w).
Definition notes (name : string) (w : world) : list bool :=
  map is_firing_note (List.filter (about name) (notified w)).

(** The abstract life of one rule: the violations counted by its open incident,
    if any, and the notices of one cycle ([true] for firing, [false] for resolved). *)
Definition rule_step (cycles : Z) (fires : bool) (c : option Z) : option Z * list bool :=
  match c, fires with
  | None, true => (Some 1, if cycles <=? 1 then [true] else [])
  | Some k, true => (Some (k + 1), if k + 1 =? cycles then [true] else [])
  | Some _, false => (None, [false])
  | None, false => (None, [])
  end.

Definition good (w : world) : Prop := inv w /\ db w = [].

Lemma open_elem name w i : i ∈ open_of name w <-> i ∈ incidents w /\ is_open i = true /\ in_rule_name i = name.
Proof.
  unfold open_of, open_named. rewrite elem_of_filter_bool, andb_true_iff, String.eqb_eq. naive_solver.
Qed.

Lemma update_at_absent id f l : (forall i, i ∈ l -> in_id i <> id) -> update_at id f l = l.
Proof.
  intros H. unfold update_at. rewrite <- (map_id l) at 2. apply map_ext_in. intros i Hi%list_elem_of_In.
  specialize (H i Hi). by rewrite (proj2 (Z.eqb_neq _ _)).
Qed.

Section one_name.
Variable n : string.

(** Nothing about [n] changes. *)
Definition same (w w' : world) : Prop := open_of n w' = open_of n w /\ notes n w' = notes n w.

(** An incident with another name has another identifier. *)
Lemma other_id w i : inv w -> i ∈ incidents w -> in_rule_name i <> n ->
  forall j, j ∈ open_of n w -> in_id j <> in_id i.
Proof.
  intros Hw Hi Hn j (Hj & _ & Hname)%open_elem Hid.
  apply Hn. rewrite <- Hname. f_equal. symmetry. by apply (NoDup_map_inj in_id (incidents w)); [apply Hw|..].
Qed.

Lemma last_value_other w i v k : inv w -> i ∈ incidents w -> in_rule_name i <> n ->
  open_of n (with_incidents (update_at (in_id i) (set_last_value v k)) w) = open_of n w.
Proof.
  intros Hw Hi Hn. unfold open_of. cbn. rewrite update_at_same_open by done. apply update_at_absent.
  by apply other_id.
Qed.

Lemma resolved_other w i now : inv w -> i ∈ incidents w -> in_rule_name i <> n ->
  open_of n (with_incidents (update_at (in_id i) (set_resolved now)) w) = open_of n w.
Proof.
  intros Hw Hi Hn. unfold open_of. cbn. rewrite update_at_resolved_open. apply filter_keep_all.
  intros j Hj. apply negb_true_iff, Z.eqb_neq. by eapply other_id.
Qed.

Lemma last_value_same w i v k : open_of n w = [i] ->
  open_of n (with_incidents (update_at (in_id i) (set_last_value v k)) w) = [set_last_value v k i].
Proof.
  unfold open_of. intros H. cbn. rewrite update_at_same_open by done. rewrite H, update_at_cons. cbn.
  by rewrite Z.eqb_refl.
Qed.
End one_name.

Section pure.
Variable http : nat -> nat -> http_outcome.
Variable settings : AlertSettings.

Definition note (p : payload) (w : world) : world := (dispatch http settings p w).2.

Lemma note_good p w : good w -> good (note p w).
Proof. intros [Hw Hc]. split; [by apply inv_log | done]. Qed.

Lemma note_open n p w : open_of n (note p w) = open_of n w.
Proof. reflexivity. Qed.

Lemma note_notes n p w : notes n (note p w) = notes n w ++ (if about n p then [is_firing_note p] else []).
Proof.
  unfold notes, note. cbn. rewrite List.filter_app, map_app. cbn. by destruct (about n p).
Qed.

Definition add_incident (rid : option Z) (name sev : string) (v t : float) (slo : option string) (w : world) : world :=
  World (rules w) (incidents w ++ [new_incident w rid name sev v t slo]) (fresh w + 1) (clock w) (db w)
    (notified w) (sent w) (failures w).

Lemma add_incident_good rid name sev v t slo w : good w -> open_of name w = [] ->
  good (add_incident rid name sev v t slo w).
Proof. intros [Hw Hc] Ho. split; [|done]. apply inv_add_incident; [done | done | by intros _]. Qed.

Lemma add_incident_open n rid name sev v t slo w :
  open_of n (add_incident rid name sev v t slo w) =
  open_of n w ++ (if String.eqb name n then [new_incident w rid name sev v t slo] else []).
Proof.
  unfold open_of, add_incident. cbn. rewrite List.filter_app. cbn. unfold open_named at 2. cbn.
  by destruct (String.eqb name n).
Qed.

(** Count one more violation. *)
Definition count_violation (i : AlertIncident) (v : float) (w : world) : world :=
  with_incidents (update_at (in_id i) (set_last_value v (in_violations i + 1))) w.

Lemma count_violation_good i v w : good w -> good (count_violation i v w).
Proof. intros [Hw Hc]. split; [by apply inv_last_value | done]. Qed.

Definition rule_effect (d : list (string * AlertFiring)) (r : AlertRule) (w : world) : world :=
  match assoc (ar_name r) d with
  | None => w
  | Some f =>
      match open_of (ar_name r) w with
      | [] =>
          let w' := add_incident (Some (ar_id r)) (ar_name r) (ar_severity r) (af_current_value f)
                      (ar_threshold r) None w in
          if ar_consecutive_cycles r <=? 1 then note (PFiring f) w' else w'
      | i :: _ =>
          let w' := count_violation i (af_current_value f) w in
          if in_violations i + 1 =? ar_consecutive_cycles r then note (PFiring f) w' else w'
      end
  end.

Definition slo_effect (f : AlertFiring) (w : world) : world :=
  match open_of (af_rule_name f) w with
  | [] => note (PFiring f) (add_incident None (af_rule_name f) (af_severity f) (af_current_value f)
                              (af_threshold f) (af_slo_name f) w)
  | i :: _ => count_violation i (af_current_value f) w
  end.

Definition resolve_effect (d : list (string * AlertFiring)) (i : AlertIncident) (w : world) : world :=
  match assoc (in_rule_name i) d with
  | Some _ => w
  | None => note (PResolution (resolution (clock w) i))
              (with_incidents (update_at (in_id i) (set_resolved (clock w))) w)
  end.

Lemma get_open_run name w : good w ->
  get_open_incident_by_rule_name name w = (Ok (head (open_of name w)), w).
Proof.
  intros [Hw Hdb]. unfold get_open_incident_by_rule_name. rewrite M_bind_run, select_ok by done.
  pose proof (inv_open w Hw name) as Hl. unfold open_of in *.
  destruct (List.filter (open_named name) (incidents w)) as [|i [|j l]]; [done | done | cbn in Hl; lia].
Qed.

Lemma open_singleton name w i l : good w -> open_of name w = i :: l ->
  l = [] /\ i ∈ incidents w /\ in_rule_name i = name.
Proof.
  intros [Hw _] E. pose proof (inv_open w Hw name) as Hl. rewrite E in Hl. destruct l; [|cbn in Hl; lia].
  assert (i ∈ open_of name w) as Hi by (rewrite E; set_solver). apply open_elem in Hi. naive_solver.
Qed.

Lemma by_id_found i w : inv w -> i ∈ incidents w -> by_id (in_id i) w = Some i.
Proof.
  intros Hw Hi. unfold by_id. destruct (List.find _ _) as [j|] eqn:E.
  - apply find_some in E as [Hj%list_elem_of_In Hid%Z.eqb_eq]. f_equal.
    by apply (NoDup_map_inj in_id (incidents w)); [apply Hw|..].
  - apply find_none with (x := i) in E; [|by apply list_elem_of_In]. by rewrite Z.eqb_refl in E.
Qed.

Lemma update_run i v w : good w -> i ∈ incidents w ->
  update_incident_last_value (in_id i) v (in_violations i + 1) w = (Ok true, count_violation i v w).
Proof.
  intros [Hw Hc] Hi. unfold update_incident_last_value. rewrite M_bind_run, select_ok, by_id_found by done.
  by rewrite save_or_rollback_ok.
Qed.

Lemma process_rule_run d r w : good w -> process_rule http settings d r w = (Ok tt, rule_effect d r w).
Proof.
  intros Hw. unfold process_rule, rule_effect. destruct (assoc (ar_name r) d) as [f|]; [|done].
  rewrite M_bind_run, get_open_run by done. destruct (open_of (ar_name r) w) as [|i l] eqn:E; cbn [head].
  - rewrite M_bind_run. unfold create_incident. rewrite save_refresh_ok by apply Hw. by case_match.
  - destruct (open_singleton _ w i l Hw E) as (_ & Hi & _). rewrite !M_bind_run, update_run by done.
    cbn. by case_match.
Qed.

Lemma process_slo_run f w : good w -> process_slo http settings f w = (Ok tt, slo_effect f w).
Proof.
  intros Hw. unfold process_slo, slo_effect. rewrite M_bind_run, get_open_run by done.
  destruct (open_of (af_rule_name f) w) as [|i l] eqn:E; cbn [head].
  - rewrite M_bind_run. unfold create_incident. by rewrite save_refresh_ok by apply Hw.
  - destruct (open_singleton _ w i l Hw E) as (_ & Hi & _). by rewrite M_bind_run, update_run.
Qed.

Lemma resolve_cleared_run d i w : good w -> i ∈ incidents w -> is_open i = true ->
  resolve_cleared http settings d i w = (Ok tt, resolve_effect d i w).
Proof.
  intros [Hw Hc] Hi Ho. unfold resolve_cleared, resolve_effect. destruct (assoc (in_rule_name i) d); [done|].
  rewrite M_bind_run. unfold resolve_incident. rewrite M_bind_run, select_ok, by_id_found, Ho by done.
  rewrite M_bind_run, save_refresh_ok by done. reflexivity.
Qed.

(** The failed commit that [update_incident_last_value] swallows ends the cycle
    all the same: the rollback expires [rule], whose attribute is read next. *)
Lemma swallowed_update_aborts d r f w i : inv w ->
  assoc (ar_name r) d = Some f -> open_of (ar_name r) w = [i] -> db w = [true; true; false] ->
  (process_rule http settings d r w).1 = Raise missing_greenlet.
Proof.
  intros Hw Hd Ho Hs. unfold process_rule. rewrite Hd.
  assert (i ∈ incidents w) as Hi.
  { assert (i ∈ open_of (ar_name r) w) as H by (rewrite Ho; set_solver). by apply open_elem in H as [? _]. }
  destruct w as [rs incs fr ck dbs ns s f']. cbn in Hs. subst dbs. unfold open_of in Ho. cbn in Ho.
  unfold get_open_incident_by_rule_name, select, update_incident_last_value.
  rewrite !M_bind_run. cbn. rewrite Ho. cbn.
  pose proof (by_id_found i _ Hw Hi) as Hb. unfold select. rewrite !M_bind_run. cbn.
  unfold by_id in Hb |- *. cbn in Hb |- *. by rewrite Hb.
Qed.

(** *** Effects on one name *)

Lemma rule_effect_good d r w : good w -> good (rule_effect d r w).
Proof.
  intros Hw. unfold rule_effect. destruct (assoc (ar_name r) d) as [f|]; [|done].
  destruct (open_of (ar_name r) w) as [|i l] eqn:E.
  - case_match; [apply note_good|]; by apply add_incident_good.
  - case_match; [apply note_good|]; by apply count_violation_good.
Qed.

Lemma slo_effect_good f w : good w -> good (slo_effect f w).
Proof.
  intros Hw. unfold slo_effect. destruct (open_of (af_rule_name f) w) as [|i l] eqn:E.
  - by apply note_good, add_incident_good.
  - by apply count_violation_good.
Qed.

Lemma resolve_effect_good d i w : good w -> good (resolve_effect d i w).
Proof.
  intros [Hw Hc]. unfold resolve_effect. destruct (assoc _ d); [done|]. apply note_good.
  split; [by apply inv_resolved | done].
Qed.

(** A dictionary of firings maps names to firings of that name. *)
Definition well_named (d : list (string * AlertFiring)) : Prop :=
  forall name f, assoc name d = Some f -> af_rule_name f = name.

Lemma rule_effect_other d r n w : good w -> well_named d -> ar_name r <> n -> same n w (rule_effect d r w).
Proof.
  intros Hw Hd Hn. unfold rule_effect. destruct (assoc (ar_name r) d) as [f|] eqn:Ef; [|done].
  apply Hd in Ef. assert (about n (PFiring f) = false) as Ha by (cbn; rewrite Ef; by apply String.eqb_neq).
  destruct (open_of (ar_name r) w) as [|i l] eqn:E.
  - assert (same n w (add_incident (Some (ar_id r)) (ar_name r) (ar_severity r) (af_current_value f)
                        (ar_threshold r) None w)) as [H1 H2].
    { split; [|done]. rewrite add_incident_open, (proj2 (String.eqb_neq _ _)) by done. by rewrite app_nil_r. }
    case_match; split; rewrite ?note_open, ?note_notes, ?Ha, ?app_nil_r; done.
  - destruct (open_singleton _ w i l Hw E) as (-> & Hi & Hname).
    assert (same n w (count_violation i (af_current_value f) w)) as [H1 H2].
    { split; [|done]. apply last_value_other; [apply Hw | done | congruence]. }
    case_match; split; rewrite ?note_open, ?note_notes, ?Ha, ?app_nil_r; done.
Qed.

Lemma rule_effect_self d r w : good w -> well_named d -> is_Some (assoc (ar_name r) d) ->
  let '(c, ns) := rule_step (ar_consecutive_cycles r) true (violations (ar_name r) w) in
  violations (ar_name r) (rule_effect d r w) = c /\ notes (ar_name r) (rule_effect d r w) = notes (ar_name r) w ++ ns.
Proof.
  intros Hw Hd [f Ef]. unfold rule_effect. rewrite Ef. apply Hd in Ef.
  assert (about (ar_name r) (PFiring f) = true) as Ha by (cbn; by rewrite Ef, String.eqb_refl).
  unfold violations. destruct (open_of (ar_name r) w) as [|i l] eqn:E; cbn [head fmap option_fmap option_map rule_step].
  - case_match; rewrite ?note_open, ?note_notes, ?Ha, add_incident_open, E, String.eqb_refl; split;
      by rewrite ?app_nil_r.
  - destruct (open_singleton _ w i l Hw E) as (-> & Hi & _).
    case_match; rewrite ?note_open, ?note_notes, ?Ha; unfold count_violation; rewrite (last_value_same _ w i) by done;
      split; by rewrite ?app_nil_r.
Qed.

Lemma slo_effect_other f n w : good w -> af_rule_name f <> n -> same n w (slo_effect f w).
Proof.
  intros Hw Hn. assert (about n (PFiring f) = false) as Ha by by apply String.eqb_neq.
  unfold slo_effect. destruct (open_of (af_rule_name f) w) as [|i l] eqn:E.
  - split; rewrite ?note_open, ?note_notes, ?Ha, ?app_nil_r; [|done].
    rewrite add_incident_open, (proj2 (String.eqb_neq _ _)) by done. by rewrite app_nil_r.
  - destruct (open_singleton _ w i l Hw E) as (-> & Hi & Hname). split; [|done].
    apply last_value_other; [apply Hw | done | congruence].
Qed.

Lemma slo_effect_opens f w : good w -> open_of (af_rule_name f) (slo_effect f w) <> [].
Proof.
  intros Hw. unfold slo_effect. destruct (open_of (af_rule_name f) w) as [|i l] eqn:E.
  - rewrite note_open, add_incident_open, E, String.eqb_refl. done.
  - destruct (open_singleton _ w i l Hw E) as (-> & Hi & _). unfold count_violation.
    by rewrite (last_value_same _ w i).
Qed.

(** *** Loops *)

Lemma rules_run d rs w : good w ->
  for_each (process_rule http settings d) rs w = (Ok tt, fold_left (fun w r => rule_effect d r w) rs w) /\
  good (fold_left (fun w r => rule_effect d r w) rs w).
Proof.
  revert w. induction rs as [|r rs IH]; intros w Hw; [done|]. cbn [for_each fold_left].
  rewrite M_bind_run, process_rule_run by done. apply IH. by apply rule_effect_good.
Qed.

Lemma slos_run fs w : good w ->
  for_each (process_slo http settings) fs w = (Ok tt, fold_left (fun w f => slo_effect f w) fs w) /\
  good (fold_left (fun w f => slo_effect f w) fs w).
Proof.
  revert w. induction fs as [|f fs IH]; intros w Hw; [done|]. cbn [for_each fold_left].
  rewrite M_bind_run, process_slo_run by done. apply IH. by apply slo_effect_good.
Qed.

Lemma rules_other d rs n w : good w -> well_named d -> n ∉ map ar_name rs ->
  same n w (fold_left (fun w r => rule_effect d r w) rs w).
Proof.
  intros Hw Hd. revert w Hw. induction rs as [|r rs IH]; intros w Hw Hn; [done|]. cbn in *.
  apply not_elem_of_cons in Hn as [Hn Hrs].
  destruct (rule_effect_other d r n w Hw Hd) as [H1 H2]; [done|].
  destruct (IH (rule_effect d r w)) as [H3 H4]; [by apply rule_effect_good | done|].
  split; congruence.
Qed.

(** In the first loop each active rule takes its firing step. *)
Lemma rules_self d rs r w : good w -> well_named d -> NoDup (map ar_name rs) -> r ∈ rs ->
  let w' := fold_left (fun w r => rule_effect d r w) rs w in
  match assoc (ar_name r) d with
  | Some _ =>
      let '(c, ns) := rule_step (ar_consecutive_cycles r) true (violations (ar_name r) w) in
      violations (ar_name r) w' = c /\ notes (ar_name r) w' = notes (ar_name r) w ++ ns
  | None => same (ar_name r) w w'
  end.
Proof.
  intros Hw Hd Hnd Hr. revert w Hw. induction rs as [|r' rs IH]; intros w Hw; [set_solver|].
  cbn in Hnd. apply NoDup_cons in Hnd as [Hfst Hnd]. cbn [fold_left].
  apply elem_of_cons in Hr as [<-|Hr].
  - destruct (rules_other d rs (ar_name r) (rule_effect d r w)) as [H1 H2];
      [by apply rule_effect_good | done | done|].
    destruct (assoc (ar_name r) d) as [f|] eqn:Ef.
    + pose proof (rule_effect_self d r w Hw Hd ltac:(by eexists)) as H.
      destruct (rule_step _ _ _) as [c ns]. unfold violations in *. by rewrite H1, H2.
    + assert (rule_effect d r w = w) as E by (unfold rule_effect; by rewrite Ef). rewrite E in *. by split.
  - assert (ar_name r' <> ar_name r) as Hne.
    { intros E. apply Hfst. rewrite E. apply list_elem_of_fmap. eauto. }
    destruct (rule_effect_other d r' (ar_name r) w) as [H1 H2]; [done..|].
    specialize (IH Hnd Hr (rule_effect d r' w) ltac:(by apply rule_effect_good)). cbn zeta in IH.
    unfold violations in *. rewrite H1, H2 in IH. destruct (assoc (ar_name r) d); [done|].
    destruct IH. by split; congruence.
Qed.

Lemma slos_other fs n w : good w -> n ∉ map af_rule_name fs ->
  same n w (fold_left (fun w f => slo_effect f w) fs w).
Proof.
  revert w. induction fs as [|f fs IH]; intros w Hw Hn; [done|]. cbn in *.
  apply not_elem_of_cons in Hn as [Hn Hfs]. destruct (slo_effect_other f n w Hw) as [H1 H2]; [done|].
  destruct (IH (slo_effect f w)) as [H3 H4]; [by apply slo_effect_good | done|]. split; congruence.
Qed.

Lemma slo_effect_stays f n w : good w -> open_of n w <> [] -> open_of n (slo_effect f w) <> [].
Proof.
  intros Hw Hn. destruct (decide (af_rule_name f = n)) as [<-|Hne]; [by apply slo_effect_opens|].
  by rewrite (proj1 (slo_effect_other f n w Hw Hne)).
Qed.

Lemma slos_open fs n w : good w ->
  open_of n (fold_left (fun w f => slo_effect f w) fs w) <> [] <-> open_of n w <> [] \/ n ∈ map af_rule_name fs.
Proof.
  revert w. induction fs as [|f fs IH]; intros w Hw; [set_solver|]. cbn. rewrite IH by by apply slo_effect_good.
  rewrite elem_of_cons. destruct (decide (af_rule_name f = n)) as [<-|Hne].
  - split; [by auto|]. intros _. left. by apply slo_effect_opens.
  - rewrite (proj1 (slo_effect_other f n w Hw Hne)). naive_solver.
Qed.

(** The incidents still to be looked at are open rows of the table. *)
Definition pending (l : list AlertIncident) (w : world) : Prop :=
  good w /\ NoDup (map in_id l) /\ Forall (fun i => i ∈ incidents w /\ is_open i = true) l.

Lemma pending_step d i l w : pending (i :: l) w -> pending l (resolve_effect d i w).
Proof.
  intros (Hw & Hnd & Hl). cbn in Hnd. apply NoDup_cons in Hnd as [Hi Hnd].
  apply Forall_cons in Hl as [_ Hl]. split_and!; [by apply resolve_effect_good | done|].
  unfold resolve_effect. destruct (assoc (in_rule_name i) d); [done|]. cbn.
  rewrite Forall_forall in Hl |- *. intros j Hj. destruct (Hl j Hj) as [Hin Ho]. split; [|done].
  unfold update_at. apply list_elem_of_fmap. exists j. split; [|done].
  rewrite (proj2 (Z.eqb_neq _ _)); [done|]. intros E. apply Hi. rewrite <- E. apply list_elem_of_fmap. eauto.
Qed.

Lemma resolves_run d l w : pending l w ->
  for_each (resolve_cleared http settings d) l w = (Ok tt, fold_left (fun w i => resolve_effect d i w) l w) /\
  good (fold_left (fun w i => resolve_effect d i w) l w).
Proof.
  revert w. induction l as [|i l IH]; intros w Hw; [by split; [|apply Hw]|]. cbn [for_each fold_left].
  pose proof (pending_step d i l w Hw) as Hw'. destruct Hw as (Hg & _ & Hl).
  apply Forall_cons in Hl as [[Hi Ho] _]. rewrite M_bind_run, resolve_cleared_run by done. by apply IH.
Qed.

Lemma resolve_effect_other d i n w : good w -> i ∈ incidents w ->
  in_rule_name i <> n \/ is_Some (assoc n d) -> same n w (resolve_effect d i w).
Proof.
  intros Hw Hi H. unfold resolve_effect. destruct (assoc (in_rule_name i) d) eqn:E; [done|].
  assert (in_rule_name i <> n) as Hn.
  { destruct H as [H|[f H]]; [done|]. intros Hx. congruence. }
  split; [rewrite note_open; apply resolved_other; [apply Hw | done | done]|].
  rewrite note_notes. cbn. rewrite (proj2 (String.eqb_neq _ _)) by done. by rewrite app_nil_r.
Qed.

Lemma resolves_keep d l n w : pending l w -> is_Some (assoc n d) ->
  same n w (fold_left (fun w i => resolve_effect d i w) l w).
Proof.
  intros Hw Hn. revert w Hw. induction l as [|i l IH]; intros w Hw; [done|]. cbn [fold_left].
  pose proof (pending_step d i l w Hw) as Hw'. destruct Hw as (Hg & _ & Hl).
  apply Forall_cons in Hl as [[Hi _] _].
  destruct (resolve_effect_other d i n w Hg Hi) as [H1 H2]; [by right|].
  destruct (IH _ Hw') as [H3 H4]. split; congruence.
Qed.

Definition named (n : string) (i : AlertIncident) : bool := String.eqb (in_rule_name i) n.

Lemma resolves_clear d l n w : pending l w -> assoc n d = None ->
  let w' := fold_left (fun w i => resolve_effect d i w) l w in
  open_of n w' = List.filter (fun j => negb (existsb (fun i => in_id j =? in_id i) l)) (open_of n w) /\
  notes n w' = notes n w ++ map (fun _ => false) (List.filter (named n) l).
Proof.
  intros Hw Hn. revert w Hw. induction l as [|i l IH]; intros w Hw; cbn [fold_left List.filter existsb map].
  { split; [symmetry; by apply filter_keep_all | by rewrite app_nil_r]. }
  destruct (IH _ (pending_step d i l w Hw)) as [IH1 IH2]. cbn zeta in *. rewrite IH1, IH2.
  destruct Hw as (Hg & _ & Hl). apply Forall_cons in Hl as [[Hi Ho] _].
  destruct (named n i) eqn:Hname; unfold named in Hname;
    [apply String.eqb_eq in Hname | apply String.eqb_neq in Hname].
  - unfold resolve_effect. rewrite Hname, Hn, note_open, note_notes. cbn. rewrite Hname, String.eqb_refl.
    split; [|by rewrite <- app_assoc]. unfold open_of. cbn. rewrite update_at_resolved_open.
    induction (List.filter (open_named n) (incidents w)) as [|j js IHj]; [done|]. cbn.
    destruct (in_id j =? in_id i); cbn; [done|]. by rewrite IHj.
  - destruct (resolve_effect_other d i n w Hg Hi) as [H1 H2]; [by left|]. rewrite H1, H2. split; [|done].
    assert (forall j, j ∈ open_of n w -> in_id j <> in_id i) as Hids by (apply other_id; [apply Hg | done | done]).
    clear -Hids. induction (open_of n w) as [|j js IHj]; [done|]. cbn.
    rewrite (proj2 (Z.eqb_neq (in_id j) (in_id i))) by (apply Hids; set_solver). cbn.
    rewrite IHj; [done|]. intros k Hk. apply Hids. set_solver.
Qed.

(** The newest fifty are all open incidents when there are no more. *)
Lemma page_complete w : good w -> (length (List.filter is_open (incidents w)) <= page_size)%nat ->
  let l := firstn page_size (merge_sort newer (List.filter is_open (incidents w))) in
  pending l w /\ l ≡ₚ List.filter is_open (incidents w).
Proof.
  intros Hw Hlen. cbn zeta.
  pose proof (merge_sort_Permutation newer (List.filter is_open (incidents w))) as Hp.
  rewrite firstn_all2 by by rewrite (Permutation_length Hp). split; [|done]. split_and!.
  - done.
  - rewrite (Permutation_map in_id Hp). apply NoDup_map_filter, Hw.
  - apply Forall_forall. intros i Hi. rewrite Hp in Hi. by apply elem_of_filter_bool in Hi.
Qed.
End pure.

(** ** Dictionaries of firings *)

Lemma firing_names_spec fs :
  well_named (firing_names fs) /\
  forall n, is_Some (assoc n (firing_names fs)) <-> n ∈ map af_rule_name fs.
Proof.
  unfold firing_names.
  enough (forall d, well_named d ->
    well_named (fold_left (fun d f => assoc_set (af_rule_name f) f d) fs d) /\
    forall n, is_Some (assoc n (fold_left (fun d f => assoc_set (af_rule_name f) f d) fs d)) <->
      is_Some (assoc n d) \/ n ∈ map af_rule_name fs) as H.
  { destruct (H []) as [H1 H2]; [done|]. split; [done|]. intros n. rewrite H2. cbn. rewrite is_Some_alt. set_solver. }
  induction fs as [|f fs IH]; intros d Hd; cbn.
  { split; [done|]. intros n. set_solver. }
  destruct (IH (assoc_set (af_rule_name f) f d)) as [H1 H2].
  { intros n g. destruct (decide (n = af_rule_name f)) as [->|Hne]; [rewrite assoc_set_eq; by intros [= ->]|].
    rewrite assoc_set_ne by done. apply Hd. }
  split; [done|]. intros n. rewrite H2, elem_of_cons. destruct (decide (n = af_rule_name f)) as [->|Hne].
  - rewrite assoc_set_eq. split; [by auto|]. intros _. left. by eexists.
  - rewrite assoc_set_ne by done. naive_solver.
Qed.

(** ** Open incidents *)

Definition open_count (w : world) : nat := length (List.filter is_open (incidents w)).

Lemma open_count_named n w : List.filter (named n) (List.filter is_open (incidents w)) = open_of n w.
Proof.
  unfold open_of, open_named, named. induction (incidents w) as [|i l IH]; [done|]. cbn.
  destruct (is_open i); cbn; [|done]. destruct (String.eqb (in_rule_name i) n); by rewrite IH.
Qed.

Lemma last_value_count id v k w : open_count (with_incidents (update_at id (set_last_value v k)) w) = open_count w.
Proof.
  unfold open_count. cbn. induction (incidents w) as [|i l IH]; [done|]. rewrite update_at_cons. cbn [List.filter].
  destruct (in_id i =? id); [change (is_open (set_last_value v k i)) with (is_open i)|];
    destruct (is_open i); cbn; by rewrite IH.
Qed.

Lemma add_incident_count rid name sev v t slo w :
  open_count (add_incident rid name sev v t slo w) = S (open_count w).
Proof.
  unfold open_count, add_incident. cbn [incidents]. rewrite List.filter_app, length_app.
  change (List.filter is_open [new_incident w rid name sev v t slo]) with [new_incident w rid name sev v t slo].
  cbn. lia.
Qed.

Lemma note_count http settings p w : open_count (note http settings p w) = open_count w.
Proof. reflexivity. Qed.

Lemma rule_effect_count http settings d r w : (open_count (rule_effect http settings d r w) <= S (open_count w))%nat.
Proof.
  unfold rule_effect, count_violation. destruct (assoc (ar_name r) d) as [f|]; [|lia].
  destruct (open_of (ar_name r) w); case_match;
    rewrite ?note_count, ?add_incident_count, ?last_value_count; lia.
Qed.

Lemma slo_effect_count http settings f w : (open_count (slo_effect http settings f w) <= S (open_count w))%nat.
Proof.
  unfold slo_effect, count_violation. destruct (open_of (af_rule_name f) w);
    rewrite ?note_count, ?add_incident_count, ?last_value_count; lia.
Qed.

Lemma fold_count {A} (eff : A -> world -> world) l w :
  (forall a w, (open_count (eff a w) <= S (open_count w))%nat) ->
  (open_count (fold_left (fun w a => eff a w) l w) <= open_count w + length l)%nat.
Proof.
  intros H. revert w. induction l as [|a l IH]; intros w; cbn; [lia|]. specialize (IH (eff a w)).
  specialize (H a w). lia.
Qed.

(** With at most one open incident per name, names bound their number. *)
Lemma open_count_names w (l : list string) : inv w -> (forall n, open_of n w <> [] -> n ∈ l) ->
  (open_count w <= length l)%nat.
Proof.
  intros Hw Hl. unfold open_count. rewrite <- (length_map in_rule_name). apply NoDup_incl_length.
  - apply NoDup_ListNoDup. pose proof (inv_open w Hw) as Ho. setoid_rewrite <- open_count_named in Ho. clear Hl Hw.
    induction (List.filter is_open (incidents w)) as [|i is' IH]; [constructor|]. cbn. apply NoDup_cons. split.
    + intros (j & E & Hj)%list_elem_of_fmap. specialize (Ho (in_rule_name i)). cbn in Ho. unfold named in Ho at 1.
      rewrite String.eqb_refl in Ho. cbn in Ho.
      assert (j ∈ List.filter (named (in_rule_name i)) is') as Hin.
      { apply elem_of_filter_bool. split; [done|]. unfold named. by rewrite E, String.eqb_refl. }
      destruct (List.filter _ is'); [set_solver | cbn in Ho; lia].
    + apply IH. intros n. specialize (Ho n). cbn in Ho. destruct (named n i); cbn in Ho; lia.
  - intros n (i & <- & Hi)%in_map_iff. apply list_elem_of_In, Hl. apply list_elem_of_In in Hi.
    apply elem_of_filter_bool in Hi as [Hin Ho]. intros E.
    assert (i ∈ open_of (in_rule_name i) w) as Hx by by apply open_elem. rewrite E in Hx. set_solver.
Qed.

(** ** One cycle *)

Section cycle.
Variable order_by_name : list AlertRule -> list AlertRule.
Hypothesis order_permutes : forall l, order_by_name l ≡ₚ l.
Variable http : nat -> nat -> http_outcome.
Variable settings : AlertSettings.
Variables (pool : Z) (answers : string -> window_answers)
  (series : slo_query -> string -> result pyexn (list (option float))) (slos : list SLODefinition).

(** The enabled rules, in the order of processing. *)
Definition active (w : world) : list AlertRule := List.filter ar_is_enabled (order_by_name (rules w)).
Definition rule_firings (w : world) : list AlertFiring := evaluate_rules answers pool (clock w) (active w).
Definition slo_firings (w : world) : list AlertFiring := (evaluate_slos series (clock w) slos).1.
Definition firing_set (w : world) : list string := map af_rule_name (rule_firings w ++ slo_firings w).

Notation cycle := (evaluation_cycle order_by_name http settings pool answers series slos).

Lemma active_names w : inv w -> NoDup (map ar_name (active w)).
Proof.
  intros Hw. apply NoDup_map_filter. rewrite (Permutation_map ar_name (order_permutes (rules w))). apply Hw.
Qed.

Lemma rule_firing_active w n : n ∈ map af_rule_name (rule_firings w) -> n ∈ map ar_name (active w).
Proof.
  intros (f & -> & Hf)%list_elem_of_fmap. apply evaluate_rules_elem in Hf as (r & s & Hr & _ & _ & _ & ->).
  apply list_elem_of_fmap. by exists r.
Qed.

Lemma slo_firing_names w n : n ∈ map af_rule_name (slo_firings w) -> n ∈ map slo_name slos.
Proof.
  intros (f & -> & Hf)%list_elem_of_fmap. unfold slo_firings, evaluate_slos in Hf. cbn in Hf.
  apply list_elem_of_omap in Hf as (slo & Hs & E). apply list_elem_of_fmap. exists slo. split; [|done].
  unfold slo_firing in E. by repeat case_match; simplify_eq.
Qed.

Lemma slo_firings_length w : (length (slo_firings w) <= length slos)%nat.
Proof.
  unfold slo_firings, evaluate_slos. cbn. induction slos as [|s l IH]; [done|]. cbn.
  destruct (slo_firing series (clock w) s); cbn; lia.
Qed.

Lemma active_length w : (length (active w) <= length (rules w))%nat.
Proof.
  unfold active. rewrite <- (Permutation_length (order_permutes (rules w))). apply filter_length_le.
Qed.

Lemma violations_None n w : violations n w = None <-> open_of n w = [].
Proof. unfold violations. by destruct (open_of n w). Qed.

Lemma violations_Some n w : is_Some (violations n w) <-> open_of n w <> [].
Proof. rewrite <- not_eq_None_Some, violations_None. done. Qed.

Lemma rules_open w n : good w ->
  open_of n (fold_left (fun w' r => rule_effect http settings (firing_names (rule_firings w)) r w') (active w) w) <> [] <->
  open_of n w <> [] \/ n ∈ map af_rule_name (rule_firings w).
Proof.
  intros Hw. destruct (firing_names_spec (rule_firings w)) as [Hd Hn].
  destruct (decide (n ∈ map ar_name (active w))) as [Hin|Hout].
  - apply list_elem_of_fmap in Hin as (r & -> & Hr).
    pose proof (rules_self http settings _ _ r w Hw Hd (active_names w (proj1 Hw)) Hr) as H. cbn zeta in H.
    specialize (Hn (ar_name r)). destruct (assoc (ar_name r) (firing_names (rule_firings w))) as [f|].
    + rewrite <- violations_Some. destruct (violations (ar_name r) w); cbn in H; destruct H as [-> _];
        (split; [|by eauto]); intros _; right; by apply Hn.
    + destruct H as [-> _]. split; [by left|]. intros [H|H]; [done|]. by apply Hn in H as [? ?].
  - destruct (rules_other http settings _ (active w) n w Hw Hd Hout) as [-> _]. split; [by left|].
    intros [H|H]; [done|]. by apply rule_firing_active in H.
Qed.

Lemma fold_rules {A} (eff : A -> world -> world) l w :
  (forall a w, rules (eff a w) = rules w) -> rules (fold_left (fun w a => eff a w) l w) = rules w.
Proof. intros H. revert w. induction l as [|a l IH]; intros w; cbn; [done|]. by rewrite IH, H. Qed.

Lemma effects_rules d :
  (forall r w, rules (rule_effect http settings d r w) = rules w) /\
  (forall f w, rules (slo_effect http settings f w) = rules w) /\
  (forall i w, rules (resolve_effect http settings d i w) = rules w).
Proof.
  split_and!; intros x w; unfold rule_effect, slo_effect, resolve_effect, count_violation;
    repeat case_match; reflexivity.
Qed.

(** All that a cycle does, by name. *)
Definition cycle_result (w w' : world) : Prop :=
  good w' /\ rules w' = rules w /\
  (forall n, open_of n w' <> [] <-> n ∈ firing_set w) /\
  (forall r, r ∈ active w -> ar_name r ∉ map slo_name slos ->
     let fires := bool_decide (ar_name r ∈ map af_rule_name (rule_firings w)) in
     let '(c, ns) := rule_step (ar_consecutive_cycles r) fires (violations (ar_name r) w) in
     violations (ar_name r) w' = c /\ notes (ar_name r) w' = notes (ar_name r) w ++ ns).

(** The last loop, on a complete page. *)
Lemma resolve_page d w : good w -> (open_count w <= page_size)%nat ->
  exists w', (list_firing_incidents ≫= fun l => for_each (resolve_cleared http settings d) l) w = (Ok tt, w') /\
    good w' /\ rules w' = rules w /\
    (forall n, is_Some (assoc n d) -> same n w w') /\
    (forall n, assoc n d = None -> open_of n w' = [] /\
       notes n w' = notes n w ++ map (fun _ => false) (open_of n w)).
Proof.
  intros Hw Hlen. destruct (page_complete w Hw Hlen) as [Hp Hl]. cbn zeta in *.
  rewrite M_bind_run. unfold list_firing_incidents. rewrite select_ok by apply Hw.
  set (l := firstn page_size (merge_sort newer (List.filter is_open (incidents w)))) in *.
  destruct (resolves_run http settings d l w Hp) as [E Hg].
  exists (fold_left (fun w i => resolve_effect http settings d i w) l w). split_and!; [exact E | done | | |].
  - apply fold_rules. apply effects_rules.
  - intros n Hn. by apply resolves_keep.
  - intros n Hn. destruct (resolves_clear http settings d l n w Hp Hn) as [-> ->]. split.
    + apply filter_drop_all. intros j (Hj & Ho & _)%open_elem. apply negb_false_iff, existsb_true.
      exists j. split; [|apply Z.eqb_refl]. rewrite Hl. by apply elem_of_filter_bool.
    + f_equal. rewrite <- open_count_named.
      assert (List.filter (named n) l ≡ₚ List.filter (named n) (List.filter is_open (incidents w))) as Hf.
      { clear -Hl. induction Hl; cbn; repeat case_match; eauto using Permutation. }
      apply (Permutation_map (fun _ => false)), Permutation_length in Hf. revert Hf. rewrite !length_map.
      generalize (List.filter (named n) (List.filter is_open (incidents w))). generalize (List.filter (named n) l).
      induction l0 as [|a l0 IH]; intros [|b l1]; cbn; try done. intros [= H]. f_equal. by apply IH.
Qed.

(** The three loops, one after the other. *)
Definition after_rules (w : world) : world :=
  fold_left (fun w' r => rule_effect http settings (firing_names (rule_firings w)) r w') (active w) w.
Definition after_slos (w : world) : world :=
  fold_left (fun w' f => slo_effect http settings f w') (slo_firings w) (after_rules w).
Definition all_firings (w : world) : list (string * AlertFiring) :=
  firing_names (rule_firings w ++ slo_firings w).

Lemma after_slos_count w : (open_count (after_slos w) <= open_count w + length (rules w) + length slos)%nat.
Proof.
  pose proof (fold_count (slo_effect http settings) (slo_firings w) (after_rules w) (slo_effect_count http settings)) as C2.
  pose proof (fold_count (rule_effect http settings (firing_names (rule_firings w))) (active w) w
                (rule_effect_count http settings _)) as C1.
  pose proof (slo_firings_length w). pose proof (active_length w).
  fold (after_rules w) in C1. fold (after_slos w) in C2. lia.
Qed.

Lemma cycle_phases w : good w -> rules w <> [] ->
  cycle w = (list_firing_incidents ≫= fun l => for_each (resolve_cleared http settings (all_firings w)) l) (after_slos w) /\
  good (after_rules w) /\ good (after_slos w) /\ rules (after_slos w) = rules w.
Proof.
  intros Hw Hr. unfold evaluation_cycle, seed_rules. rewrite !M_bind_run. unfold list_alert_rules. rewrite select_ok by apply Hw.
  assert (exists r0 rs0, order_by_name (rules w) = r0 :: rs0) as (r0 & rs0 & Eo).
  { pose proof (order_permutes (rules w)) as Hp. destruct (order_by_name (rules w)) as [|r0 rs0]; [|eauto].
    by apply Permutation_nil_l in Hp. }
  rewrite Eo. cbn [mret M_ret]. rewrite <- Eo, M_bind_run. cbn [read_clock gets]. unfold reconcile.
  destruct (rules_run http settings (firing_names (rule_firings w)) (active w) w Hw) as [E1 H1].
  destruct (slos_run http settings (slo_firings w) (after_rules w) H1) as [E2 H2].
  change (List.filter ar_is_enabled (order_by_name (rules w))) with (active w).
  change (evaluate_rules answers pool (clock w) (active w)) with (rule_firings w).
  change (evaluate_slos series (clock w) slos).1 with (slo_firings w).
  rewrite M_bind_run, E1, M_bind_run. unfold after_rules in E2. rewrite E2. split_and!; [done..|].
  unfold after_slos, after_rules. rewrite fold_rules by apply (effects_rules []). apply fold_rules, effects_rules.
Qed.

Lemma cycle_opens w n : good w ->
  open_of n (after_slos w) <> [] <-> open_of n w <> [] \/ n ∈ firing_set w.
Proof.
  intros Hw. destruct (rules_run http settings (firing_names (rule_firings w)) (active w) w Hw) as [_ H1].
  unfold after_slos. rewrite slos_open by done. unfold after_rules. rewrite rules_open by done.
  unfold firing_set. rewrite map_app, elem_of_app. naive_solver.
Qed.

(** Before the last loop, a rule has taken its firing step or none. *)
Lemma cycle_rule w r : good w -> r ∈ active w -> ar_name r ∉ map slo_name slos ->
  if bool_decide (ar_name r ∈ map af_rule_name (rule_firings w)) then
    is_Some (assoc (ar_name r) (all_firings w)) /\
    let '(c, ns) := rule_step (ar_consecutive_cycles r) true (violations (ar_name r) w) in
    violations (ar_name r) (after_slos w) = c /\ notes (ar_name r) (after_slos w) = notes (ar_name r) w ++ ns
  else assoc (ar_name r) (all_firings w) = None /\ same (ar_name r) w (after_slos w).
Proof.
  intros Hw Hin Hslo. set (n := ar_name r) in *.
  destruct (firing_names_spec (rule_firings w)) as [Hd Hdn]. specialize (Hdn n).
  destruct (firing_names_spec (rule_firings w ++ slo_firings w)) as [_ Hall]. specialize (Hall n).
  rewrite map_app, elem_of_app in Hall. fold (all_firings w) in Hall.
  assert (n ∉ map af_rule_name (slo_firings w)) as Hns by (intros H; by apply slo_firing_names in H).
  destruct (rules_run http settings (firing_names (rule_firings w)) (active w) w Hw) as [_ H1].
  destruct (slos_other http settings (slo_firings w) n _ H1 Hns) as [Ho Hn].
  pose proof (rules_self http settings _ (active w) r w Hw Hd (active_names w (proj1 Hw)) Hin) as Hself.
  cbn zeta in Hself. fold n (after_rules w) in Hself, Ho, Hn. fold (after_slos w) in Ho, Hn.
  destruct (assoc n (firing_names (rule_firings w))) as [f|].
  - rewrite bool_decide_eq_true_2 by (apply Hdn; by eexists). split; [apply Hall; left; apply Hdn; by eexists|].
    destruct (rule_step _ _ _) as [c ns]. unfold violations in *. by rewrite Ho, Hn.
  - rewrite bool_decide_eq_false_2 by (intros H; by apply Hdn in H as [? ?]). split.
    + apply eq_None_not_Some. rewrite Hall. intros [H|H]; [by apply Hdn in H as [? ?] | done].
    + destruct Hself as [Ho1 Hn1]. split; congruence.
Qed.

Lemma cycle_spec w : good w -> rules w <> [] ->
  (open_count w + length (rules w) + length slos <= page_size)%nat ->
  exists w', cycle w = (Ok tt, w') /\ cycle_result w w'.
Proof.
  intros Hw Hr Hlen. destruct (cycle_phases w Hw Hr) as (-> & _ & H2 & Hr2).
  pose proof (after_slos_count w).
  destruct (resolve_page (all_firings w) (after_slos w) H2 ltac:(lia)) as (w' & E & H3 & Hr3 & Hkeep & Hclear).
  exists w'. split; [exact E|]. split_and!; [done | congruence | |].
  - intros n. destruct (firing_names_spec (rule_firings w ++ slo_firings w)) as [_ Hall]. specialize (Hall n).
    fold (firing_set w) (all_firings w) in Hall. destruct (assoc n (all_firings w)) as [f|] eqn:En.
    + destruct (Hkeep n) as [-> _]; [by eexists|]. rewrite cycle_opens by done. rewrite <- Hall. split; by eauto.
    + destruct (Hclear n En) as [-> _]. rewrite <- Hall. split; [done | by intros [? ?]].
  - intros r Hin Hslo. pose proof (cycle_rule w r Hw Hin Hslo) as Hrule. cbn zeta.
    destruct (bool_decide _).
    + destruct Hrule as [Hs Hrule]. destruct (Hkeep _ Hs) as [Ho Hn]. destruct (rule_step _ _ _) as [c ns].
      unfold violations in *. by rewrite Ho, Hn.
    + destruct Hrule as [Hs [Ho Hn]]. destruct (Hclear _ Hs) as [Ho3 Hn3].
      unfold violations. rewrite Ho3, Hn3, Hn, Ho. destruct (open_of (ar_name r) w) as [|i l] eqn:E'; cbn; [done|].
      by destruct (open_singleton _ w i l Hw E') as (-> & _).
Qed.
End cycle.

(** ** Sequences of cycles *)

(** What one cycle meets: the webhook's and the database's answers, the time. *)
Record cycle_env := {
  ce_http : nat -> nat -> http_outcome;
  ce_answers : string -> window_answers;
  ce_series : slo_query -> string -> result pyexn (list (option float));
  ce_now : Z;
}.

Definition at_time (now : Z) (w : world) : world :=
  World (rules w) (incidents w) (fresh w) now (db w) (notified w) (sent w) (failures w).

Fixpoint machine_run (cycles : Z) (fires : list bool) (c : option Z) : option Z * list bool :=
  match fires with
  | [] => (c, [])
  | f :: fires =>
      let '(c1, ns1) := rule_step cycles f c in
      let '(c2, ns2) := machine_run cycles fires c1 in (c2, ns1 ++ ns2)
  end.

Lemma machine_open cycles m k : 
  machine_run cycles (repeat true m) (Some k) =
    (Some (k + Z.of_nat m), if (k <? cycles) && (cycles <=? k + Z.of_nat m) then [true] else []).
Proof.
  revert k. induction m as [|m IH]; intros k; cbn [repeat machine_run rule_step].
  - rewrite Z.add_0_r. f_equal. by destruct (Z.ltb_spec k cycles), (Z.leb_spec cycles k); try lia.
  - rewrite IH. replace (k + Z.of_nat (S m)) with (k + 1 + Z.of_nat m) by lia. f_equal.
    destruct (Z.eqb_spec (k + 1) cycles), (Z.ltb_spec (k + 1) cycles),
      (Z.leb_spec cycles (k + 1 + Z.of_nat m)), (Z.ltb_spec k cycles); cbn; try done; lia.
Qed.

(** A violation that goes on is announced once, in the cycle of the given number. *)
Lemma machine_sustained cycles m : 1 <= cycles ->
  machine_run cycles (repeat true (S m)) None =
    (Some (Z.of_nat (S m)), if cycles <=? Z.of_nat (S m) then [true] else []).
Proof.
  intros Hc. cbn [repeat machine_run rule_step]. rewrite machine_open.
  replace (1 + Z.of_nat m) with (Z.of_nat (S m)) by lia. f_equal.
  destruct (Z.leb_spec cycles 1), (Z.ltb_spec 1 cycles), (Z.leb_spec cycles (Z.of_nat (S m))); cbn; try done; lia.
Qed.

Lemma machine_app cycles fs gs c :
  machine_run cycles (fs ++ gs) c =
  let '(c1, ns1) := machine_run cycles fs c in
  let '(c2, ns2) := machine_run cycles gs c1 in (c2, ns1 ++ ns2).
Proof.
  revert c. induction fs as [|f fs IH]; intros c; cbn.
  - by destruct (machine_run cycles gs c).
  - destruct (rule_step cycles f c) as [c1 ns1]. rewrite IH. destruct (machine_run cycles fs c1) as [c2 ns2].
    destruct (machine_run cycles gs c2) as [c3 ns3]. by rewrite app_assoc.
Qed.

Section cycles.
Variable order_by_name : list AlertRule -> list AlertRule.
Hypothesis order_permutes : forall l, order_by_name l ≡ₚ l.
Variable settings : AlertSettings.
Variables (pool : Z) (slos : list SLODefinition).

Definition run_cycle (e : cycle_env) : M world unit := fun w =>
  evaluation_cycle order_by_name (ce_http e) settings pool (ce_answers e) (ce_series e) slos (at_time (ce_now e) w).

(** Whether rule [r] of the table fires in a cycle. *)
Definition rule_fires_in (rs : list AlertRule) (r : AlertRule) (e : cycle_env) : bool :=
  bool_decide (ar_name r ∈ map af_rule_name
    (evaluate_rules (ce_answers e) pool (ce_now e) (List.filter ar_is_enabled (order_by_name rs)))).

(** Tables small enough for one page of open incidents. *)
Definition small (w : world) : Prop :=
  rules w <> [] /\ (open_count w <= length (rules w) + length slos)%nat /\
  (2 * (length (rules w) + length slos) <= page_size)%nat.

Lemma run_cycle_spec e w : good w -> small w ->
  exists w', run_cycle e w = (Ok tt, w') /\ good w' /\ small w' /\ rules w' = rules w /\
    forall r, r ∈ rules w -> ar_is_enabled r = true -> ar_name r ∉ map slo_name slos ->
      let '(c, ns) := rule_step (ar_consecutive_cycles r) (rule_fires_in (rules w) r e) (violations (ar_name r) w) in
      violations (ar_name r) w' = c /\ notes (ar_name r) w' = notes (ar_name r) w ++ ns.
Proof.
  intros [Hw Hc] (Hr & Hopen & Hsize). unfold run_cycle. set (w0 := at_time (ce_now e) w).
  assert (good w0) as Hw0 by (split; [by destruct Hw; split | done]).
  destruct (cycle_spec order_by_name order_permutes (ce_http e) settings pool (ce_answers e) (ce_series e) slos
              w0 Hw0 Hr) as (w' & E & Hg & Hrules & Hnames & Hstep).
  { unfold w0, at_time, open_count in *. cbn. lia. }
  exists w'. split_and!; [exact E | done | | exact Hrules |].
  - change (rules w0) with (rules w) in Hrules. unfold small. rewrite Hrules. split_and!; [done | | done].
    etrans; [apply (open_count_names w' (map ar_name (active order_by_name w0) ++ map slo_name slos)); [apply Hg|]|].
    + intros n Hn. apply Hnames in Hn. unfold firing_set in Hn. rewrite map_app, elem_of_app in Hn.
      apply elem_of_app. destruct Hn as [Hn|Hn]; [left; by eapply rule_firing_active | right; by eapply slo_firing_names].
    + rewrite length_app, !length_map. pose proof (active_length order_by_name order_permutes w0) as Ha.
      change (rules w0) with (rules w) in Ha. lia.
  - intros r Hin He Hslo. apply (Hstep r); [|done].
    apply elem_of_filter_bool. split; [|done]. by rewrite order_permutes.
Qed.

Lemma run_cycles_spec es w : good w -> small w ->
  exists w', for_each run_cycle es w = (Ok tt, w') /\ good w' /\ small w' /\
    forall r, r ∈ rules w -> ar_is_enabled r = true -> ar_name r ∉ map slo_name slos ->
      let '(c, ns) := machine_run (ar_consecutive_cycles r) (map (rule_fires_in (rules w) r) es)
                        (violations (ar_name r) w) in
      violations (ar_name r) w' = c /\ notes (ar_name r) w' = notes (ar_name r) w ++ ns.
Proof.
  revert w. induction es as [|e es IH]; intros w Hw Hs; cbn [for_each map machine_run].
  { exists w. split_and!; [done..|]. intros. by rewrite app_nil_r. }
  destruct (run_cycle_spec e w Hw Hs) as (w1 & E1 & Hw1 & Hs1 & Hr1 & Hstep1).
  destruct (IH w1 Hw1 Hs1) as (w2 & E2 & Hw2 & Hs2 & Hstep2).
  exists w2. rewrite M_bind_run, E1. split_and!; [done..|]. intros r Hin He Hslo.
  specialize (Hstep1 r Hin He Hslo). rewrite Hr1 in Hstep2. specialize (Hstep2 r Hin He Hslo).
  destruct (rule_step _ _ _) as [c1 ns1]. destruct Hstep1 as [Hv1 Hn1]. rewrite Hv1 in Hstep2.
  destruct (machine_run _ _ c1) as [c2 ns2]. destruct Hstep2 as [Hv2 Hn2]. split; [done|].
  by rewrite Hn2, Hn1, app_assoc.
Qed.

End cycles.

(** ** Properties *)

(** Whatever the queries, the webhook and the database do, a cycle keeps rule
    names, identifiers and open incidents unique: it never meets a second open
    incident of one name, and the only exceptions it ends in are the session's (a
    failed statement, or an attribute read after a rollback). *)
Theorem incidents_stay_unique (order : list AlertRule -> list AlertRule) (http : nat -> nat -> http_outcome)
    (settings : AlertSettings) (pool : Z) (answers : string -> window_answers)
    (series : slo_query -> string -> result pyexn (list (option float))) (slos : list SLODefinition)
    (ready : bool) (w : world) :
  inv w ->
  match _async_run_alert_evaluation order http settings pool answers series slos ready w with
  | (Ok _, w') => inv w'
  | (Raise e, w') => db_exn e /\ inv w'
  end.
Proof.
  intros Hw. unfold _async_run_alert_evaluation. destruct (alerting_enabled settings), ready; try exact Hw.
  cbn [negb]. refine (triple_bind (aborted inv) inv _ (fun _ => inv) _ (fun _ => inv) _ _ w Hw); [apply seed_inv|].
  intros all. apply (triple_bind (aborted inv) inv _ (fun _ => inv)); [by intros w' Hw'|]. intros now. apply reconcile_inv.
Qed.

(** C27. After a cycle without failed statements, on tables whose open incidents fit one
    page, the names with an open incident are exactly the names that fired:
    every violated rule or objective is open and everything else is resolved. *)
Theorem open_incidents_match_firings (order : list AlertRule -> list AlertRule)
    (http : nat -> nat -> http_outcome) (settings : AlertSettings) (pool : Z)
    (answers : string -> window_answers) (series : slo_query -> string -> result pyexn (list (option float)))
    (slos : list SLODefinition) (w : world) :
  (forall l, order l ≡ₚ l) -> alerting_enabled settings = true -> inv w -> db w = [] -> rules w <> [] ->
  (open_count w + length (rules w) + length slos <= page_size)%nat ->
  exists w', _async_run_alert_evaluation order http settings pool answers series slos true w = (Ok tt, w') /\
    forall n, open_of n w' <> [] <-> n ∈ firing_set order pool answers series slos w.
Proof.
  intros Ho He Hw Hc Hr Hlen. unfold _async_run_alert_evaluation. rewrite He. cbn [negb].
  destruct (cycle_spec order Ho http settings pool answers series slos w (conj Hw Hc) Hr Hlen)
    as (w' & E & _ & _ & Hn & _).
  by exists w'.
Qed.

(** C26. With at most 25 rules and objectives in all, and open incidents within their
    number (so that one page of 50 lists them), over any sequence of cycles without
    failed statements, an enabled rule that shares its name with no objective lives
    the life of its three-line machine: one incident counts its consecutive
    violations, one firing notice goes out in the cycle whose number is
    [consecutive_cycles], one resolution when it clears.  A violation of [m]
    cycles is announced once if [m] reaches that number and never otherwise. *)
Theorem rule_lifecycle (order : list AlertRule -> list AlertRule) (settings : AlertSettings) (pool : Z)
    (slos : list SLODefinition) (es : list cycle_env) (w : world) (r : AlertRule) :
  (forall l, order l ≡ₚ l) -> inv w -> db w = [] -> small slos w ->
  r ∈ rules w -> ar_is_enabled r = true -> ar_name r ∉ map slo_name slos ->
  exists w', for_each (run_cycle order settings pool slos) es w = (Ok tt, w') /\
    let '(c, ns) := machine_run (ar_consecutive_cycles r) (map (rule_fires_in order pool (rules w) r) es)
                      (violations (ar_name r) w) in
    violations (ar_name r) w' = c /\ notes (ar_name r) w' = notes (ar_name r) w ++ ns /\
    (violations (ar_name r) w = None -> es <> [] -> 1 <= ar_consecutive_cycles r ->
     Forall (fun e => rule_fires_in order pool (rules w) r e = true) es ->
     ns = if ar_consecutive_cycles r <=? Z.of_nat (length es) then [true] else []).
Proof.
  intros Ho Hw Hc Hs Hr He Hslo.
  destruct (run_cycles_spec order Ho settings pool slos es w (conj Hw Hc) Hs) as (w' & E & _ & _ & Hstep).
  exists w'. split; [exact E|]. specialize (Hstep r Hr He Hslo).
  destruct (machine_run _ _ _) as [c ns] eqn:Em. destruct Hstep as [Hv Hn]. split_and!; [done..|].
  intros Hnone Hes Hcyc Hall. rewrite Hnone in Em. destruct es as [|e es]; [done|].
  replace (map _ (e :: es)) with (repeat true (S (length es))) in Em.
  { rewrite machine_sustained in Em by done. by simplify_eq. }
  change (S (length es)) with (length (e :: es)). clear -Hall. induction Hall as [|e' es' He' _ IH]; cbn; [done|].
  by rewrite He', IH.
Qed.

(** The suppression of flapping covers firing notices only: a violation that
    clears before it was announced still sends its resolution. *)
Theorem unannounced_alert_resolves (order : list AlertRule -> list AlertRule) (settings : AlertSettings) (pool : Z)
    (slos : list SLODefinition) (es : list cycle_env) (e : cycle_env) (w : world) (r : AlertRule) :
  (forall l, order l ≡ₚ l) -> inv w -> db w = [] -> small slos w ->
  r ∈ rules w -> ar_is_enabled r = true -> ar_name r ∉ map slo_name slos ->
  violations (ar_name r) w = None -> es <> [] -> Z.of_nat (length es) < ar_consecutive_cycles r ->
  map (rule_fires_in order pool (rules w) r) (es ++ [e]) = repeat true (length es) ++ [false] ->
  exists w', for_each (run_cycle order settings pool slos) (es ++ [e]) w = (Ok tt, w') /\
    notes (ar_name r) w' = notes (ar_name r) w ++ [false].
Proof.
  intros Ho Hw Hc Hs Hr He Hslo Hnone Hes Hlen Hf.
  destruct (run_cycles_spec order Ho settings pool slos (es ++ [e]) w (conj Hw Hc) Hs) as (w' & E & _ & _ & Hstep).
  exists w'. split; [exact E|]. specialize (Hstep r Hr He Hslo). rewrite Hf, machine_app, Hnone in Hstep.
  destruct es as [|e0 es]; [done|]. cbn [length] in *. rewrite machine_sustained in Hstep by lia.
  rewrite (proj2 (Z.leb_gt _ _)) in Hstep by lia. exact (proj2 Hstep).
Qed.

Module AlertJobWitness.
Definition hook_ok : nat -> nat -> http_outcome := fun _ _ => Status 200.
Definition settings : AlertSettings := default_AlertSettings.

(** A database seeded with the default rules. *)
Definition seeded : world :=
  World (fold_left (fun rs r => put_rule (Z.of_nat (length rs)) r rs) DEFAULT_ALERT_RULES []) [] 5 0 [] [] 0 0.

Definition queue_rule : AlertRule :=
  default_rule 2 "scaling_queue_depth_breach" "scaling.queue_depth" (float_of_Z 20) "gt" "15m" "warning" 4.

(** Depth 30 against ten times two workers. *)
Definition deep : window_answers :=
  {| q_snapshot := Ok None; q_queue_wait := Ok None; q_telemetry := Ok (Some (Some 30, None)) |}.
Definition no_series : slo_query -> string -> result pyexn (list (option float)) := fun _ _ => Ok [].
Definition cycle_with (a : window_answers) (now : Z) : cycle_env :=
  {| ce_http := hook_ok; ce_answers := fun _ => a; ce_series := no_series; ce_now := now |}.

Lemma seeded_inv : inv seeded.
Proof.
  split; [|constructor | constructor | cbn; lia].
  apply (bool_decide_unpack _). by vm_compute.
Qed.

Lemma seeded_small : small AlertingWitness.slo_definitions seeded.
Proof. split_and!; [done | by vm_compute; lia | by vm_compute; lia]. Qed.

Lemma queue_rule_in : queue_rule ∈ rules seeded.
Proof. apply list_elem_of_In. vm_compute. tauto. Qed.

Lemma queue_rule_name : ar_name queue_rule ∉ map slo_name AlertingWitness.slo_definitions.
Proof. apply (bool_decide_unpack _). by vm_compute. Qed.

Lemma incidents_stay_unique_witness :
  inv (_async_run_alert_evaluation id hook_ok settings 2 (fun _ => deep) no_series [] true seeded).2.
Proof.
  pose proof (incidents_stay_unique id hook_ok settings 2 (fun _ => deep) no_series [] true seeded seeded_inv) as H.
  destruct (_async_run_alert_evaluation id hook_ok settings 2 (fun _ => deep) no_series [] true seeded)
    as [[[]|e] w']; [exact H | exact (proj2 H)].
Defined.

Lemma open_incidents_match_firings_witness : exists w',
  _async_run_alert_evaluation id hook_ok settings 2 (fun _ => deep) no_series AlertingWitness.slo_definitions
    true seeded = (Ok tt, w') /\
  (open_of "scaling_queue_depth_breach" w' <> [] <->
   "scaling_queue_depth_breach" ∈ firing_set id 2 (fun _ => deep) no_series AlertingWitness.slo_definitions seeded).
Proof.
  destruct (open_incidents_match_firings id hook_ok settings 2 (fun _ => deep) no_series
              AlertingWitness.slo_definitions seeded) as (w' & E & H);
    [done | done | apply seeded_inv | done | done | by vm_compute; lia|].
  exists w'. split; [exact E | apply H].
Defined.

(** Four deep cycles in a row announce the queue once. *)
Lemma rule_lifecycle_witness : exists w',
  for_each (run_cycle id settings 2 AlertingWitness.slo_definitions) (map (cycle_with deep) [1; 2; 3; 4]) seeded
    = (Ok tt, w') /\ notes "scaling_queue_depth_breach" w' = [true].
Proof.
  destruct (rule_lifecycle id settings 2 AlertingWitness.slo_definitions (map (cycle_with deep) [1; 2; 3; 4])
              seeded queue_rule) as (w' & E & H);
    [done | apply seeded_inv | done | apply seeded_small | apply queue_rule_in | done | apply queue_rule_name|].
  exists w'. split; [exact E|].
  assert (map (rule_fires_in id 2 (rules seeded) queue_rule) (map (cycle_with deep) [1; 2; 3; 4]) =
          [true; true; true; true]) as Hf by by vm_compute.
  rewrite Hf in H. exact (proj1 (proj2 H)).
Defined.

(** One deep cycle, then a quiet one: a resolution without a firing notice. *)
Lemma unannounced_alert_resolves_witness : exists w',
  for_each (run_cycle id settings 2 AlertingWitness.slo_definitions)
    ([cycle_with deep 1] ++ [cycle_with AlertingWitness.quiet 2]) seeded = (Ok tt, w') /\
  notes "scaling_queue_depth_breach" w' = [false].
Proof.
  apply (unannounced_alert_resolves id settings 2 AlertingWitness.slo_definitions [cycle_with deep 1]
           (cycle_with AlertingWitness.quiet 2) seeded queue_rule);
    [done | apply seeded_inv | done | apply seeded_small | apply queue_rule_in | done | apply queue_rule_name
    | done | done | done | by vm_compute].
Defined.
End AlertJobWitness.
