(* ===== verification/Trace.v ===== *)
(** * Explainability trace ([src/orchestrator/explainability/trace_transformer.py])

    The transformation of a stored investigation into a graph of nodes and
    edges.  The stored trace is a JSON document (a JSONB column), so it may hold
    anything; [str] of a JSON value is a parameter that is the identity on
    strings.  The generation time and the fields copied from the row unchanged
    are left out of the metadata. *)

From S2P Require Import Prelude PyFloat PyStr Effects AgentIO Replan Synthesis FanOut CacheClient Critic Graph.
From Stdlib Require Import Ascii.

(** ** Data *)

Record TraceNode := {
  tn_id : string;
  tn_label : string;
  tn_type : string;
  tn_status : string;
  tn_details : list (string * json);
}.

Record TraceEdge := {
  te_id : string;
  te_source : string;
  te_target : string;
  te_label : option string;
  te_type : string;
}.

Record TraceSummary := {
  ts_evidence_count : Z;
  ts_replan_count : Z;
  ts_critic_flag_count : nat;
  ts_collaboration_event_count : nat;
  ts_degraded_sources : list string;
}.

Record TraceMetadata := {
  tm_status : string;
  tm_confidence : option float;
  tm_node_count : nat;
  tm_edge_count : nat;
  tm_has_replan : bool;
  tm_has_collaboration : bool;
  tm_has_degraded_mode : bool;
}.

Record InvestigationTraceResponse := {
  tr_metadata : TraceMetadata;
  tr_nodes : list TraceNode;
  tr_edges : list TraceEdge;
  tr_summary : TraceSummary;
}.

(** The values the column [confidence] can yield: a [Numeric] column gives [Decimal]. *)
Inductive confidence_value := CNone | CNumber (x : float) | CText (s : string) | CDecimal.

(** The attributes of [Investigation] the transformation reads. *)
Record stored_investigation := {
  si_status : string;
  si_confidence : confidence_value;
  si_execution_trace : json;
}.

Definition KNOWN_NODE_MAPPINGS : list (string * (string * string)) :=
  [("supervisor", ("Supervisor Planner", "planning"));
   ("planning", ("Planner Initialized", "planning"));
   ("fan_out", ("Parallel Fan-Out Coordinator", "agent_started"));
   ("air_quality", ("Air Quality Domain Agent", "agent_started"));
   ("seismic", ("Seismic Hazard Agent", "agent_started"));
   ("atmosphere", ("Atmospheric Data Agent", "agent_started"));
   ("ocean", ("Oceanography Agent", "agent_started"));
   ("wildfire", ("Wildfire Risk Agent", "agent_started"));
   ("simulation", ("Plume & Transport Simulation Agent", "agent_started"));
   ("causal_chain", ("Causal Chain Reasoning Agent", "agent_started"));
   ("literature_rag", ("Literature Evidence RAG Agent", "agent_started"));
   ("synthesis", ("Cross-Domain Synthesis", "synthesizing"));
   ("critic", ("Critic Claim Verification", "critic_flag"));
   ("replan", ("Targeted Replan Pass", "replanning"));
   ("finalize", ("Final Answer Synthesis & Persistence", "finalize"))].

(** ** JSON helpers *)

(** Truth value; [a or b]. *)
Definition jtruthy (j : json) : bool :=
  match j with
  | JNull => false
  | JBool b => b
  | JInt n => negb (n =? 0)
  | JFloat x => negb (feqb x f0)
  | JStr s => str_truthy s
  | JList l => match l with [] => false | _ => true end
  | JObj fields => match fields with [] => false | _ => true end
  end.
Definition jor (a b : json) : json := if jtruthy a then a else b.

Definition fields := list (string * json).

(** [d.get(k)] *)
Definition get (k : string) (d : fields) : json := default JNull (assoc k d).

(** [isinstance(x, list)], else empty. *)
Definition as_list (j : json) : list json := match j with JList l => l | _ => [] end.
Definition as_obj (j : json) : fields := match j with JObj d => d | _ => [] end.

(** [d1 | d2] as [{..., **d2}] builds it. *)
Definition update (d d2 : fields) : fields := fold_left (fun d kv => assoc_set kv.1 kv.2 d) d2 d.

(** [isinstance(x, int)], else [int(x)] with [ValueError] and [TypeError] read as 0. *)
Definition count_value (j : json) : result pyexn Z :=
  match j with
  | JInt n => Ok n
  | JBool b => Ok (Z.b2z b)
  | JFloat x => match float_trunc x with
                | Some n => Ok n
                | None => if is_nan x then Ok 0 else Raise (OtherError "OverflowError")
                end
  | JStr s => Ok (default 0 (int_of_str s))
  | _ => Ok 0
  end.

Section transform.
Variable str : json -> string.               (* [str(x)] *)
Variable float_of_str : string -> option float.

(** ** Classification *)

Definition known (name : string) : bool := bool_decide (is_Some (assoc name KNOWN_NODE_MAPPINGS)).

(** (label, type, raw name, extra details) *)
Definition _classify_node (node_obj : json) : string * string * string * fields :=
  let '(raw_name, extra) :=
    match node_obj with
    | JObj d =>
        (str (jor (jor (jor (get "name" d) (get "node" d)) (get "event" d)) (JStr "unknown_event")),
         List.filter (fun kv => negb (existsb (String.eqb kv.1) ["name"; "node"; "event"])) d)
    | _ => (str node_obj, [])
    end in
  let clean_name := lower (strip raw_name) in
  match assoc clean_name KNOWN_NODE_MAPPINGS with
  | Some (label, tax_type) => (label, tax_type, raw_name, extra)
  | None =>
      let label := title (replace_char "_" " " clean_name) in
      if contains "agent" clean_name then (label, "agent_started", raw_name, extra)
      else (label, "custom", raw_name, extra)
  end.

(** ** The fields of the stored trace *)

Record trace_view := {
  v_nodes_executed : list json;
  v_evidence_count : Z;
  v_replan_count : Z;
  v_critic_flags : list json;
  v_collaboration : list json;
  v_degraded_sources : list string;
  v_errors : list string;
  v_domains : json;
  v_extra : fields;
}.

Definition reserved_keys : list string :=
  ["nodes_executed"; "evidence_count"; "replan_count"; "critic_flags"; "collaboration"; "collaboration_events";
   "degraded_sources"; "resilience_degraded"; "errors"; "error"; "domains"; "matched_domains"].

(** A string or a list of things, as a list of strings. *)
Definition strings_of (j : json) : list string :=
  match j with JStr s => [s] | JList l => map str l | _ => [] end.

Definition read_trace (raw : json) : result pyexn trace_view :=
  let raw_trace := as_obj raw in
  evidence ← count_value (default (JInt 0) (assoc "evidence_count" raw_trace));
  replans ← count_value (default (JInt 0) (assoc "replan_count" raw_trace));
  Ok {| v_nodes_executed := as_list (get "nodes_executed" raw_trace);
        v_evidence_count := evidence;
        v_replan_count := replans;
        v_critic_flags := as_list (get "critic_flags" raw_trace);
        v_collaboration := as_list (jor (get "collaboration" raw_trace) (get "collaboration_events" raw_trace));
        v_degraded_sources := strings_of (jor (get "degraded_sources" raw_trace) (get "resilience_degraded" raw_trace));
        v_errors := strings_of (jor (get "errors" raw_trace) (get "error" raw_trace));
        v_domains := jor (get "domains" raw_trace) (get "matched_domains" raw_trace);
        v_extra := List.filter (fun kv => negb (existsb (String.eqb kv.1) reserved_keys)) raw_trace |}.

Definition read_confidence (c : confidence_value) : option float :=
  match c with
  | CNumber x => Some x
  | CText s => float_of_str s
  | CNone | CDecimal => None
  end.

(** ** Nodes and edges of the executed steps *)

Definition node_id (idx : nat) (raw_name : string) : string := "node_" +:+ str_nat idx +:+ "_" +:+ raw_name.

Definition errors_json (v : trace_view) : json := JList (map JStr (v_errors v)).

(** One executed step: its status and details. *)
Definition step_node (v : trace_view) (status : string) (idx : nat) (item : json) : TraceNode :=
  let '(label, tax_type, raw_name, extra) := _classify_node item in
  let details := update [("raw_item", item)] extra in
  let details := match v_extra v with [] => details | e => assoc_set "plugin_context" (JObj e) details end in
  let '(node_status, details) :=
    if String.eqb (str item) "critic" && negb (match v_critic_flags v with [] => true | _ => false end) then
      ("flagged", assoc_set "critic_flags" (JList (v_critic_flags v)) details)
    else if String.eqb (str item) "fan_out" then
      ("completed", if jtruthy (v_domains v) then assoc_set "domains" (v_domains v) details else details)
    else if String.eqb tax_type "agent_started" then
      let details := assoc_set "evidence_count" (JInt (v_evidence_count v)) details in
      if existsb (fun s => contains (str item) s || contains s (str item)) (v_degraded_sources v) then
        ("degraded", assoc_set "degraded_reason" (JStr "Circuit breaker tripped / degraded mode fallback") details)
      else ("completed", details)
    else ("completed", details) in
  let '(node_status, details) :=
    if String.eqb status "failed" && (idx =? pred (length (v_nodes_executed v)))%nat
    then ("failed", assoc_set "errors" (errors_json v) details)
    else (node_status, details) in
  {| tn_id := node_id idx raw_name; tn_label := label; tn_type := tax_type; tn_status := node_status;
     tn_details := details |}.

Definition edge_id (source target : string) : string := "edge_" +:+ source +:+ "_to_" +:+ target.

Definition chain_edge (prev : string) (item : json) (id : string) : TraceEdge :=
  {| te_id := edge_id prev id; te_source := prev; te_target := id; te_label := None;
     te_type := if String.eqb (str item) "replan" then "replan" else "sequential" |}.

(** The loop over [nodes_executed]; node ids are never empty. *)
Fixpoint steps (v : trace_view) (status : string) (idx : nat) (prev : option string) (items : list json)
    : list TraceNode * list TraceEdge :=
  match items with
  | [] => ([], [])
  | item :: items =>
      let n := step_node v status idx item in
      let '(nodes, edges) := steps v status (S idx) (Some (tn_id n)) items in
      (n :: nodes, match prev with Some p => chain_edge p item (tn_id n) :: edges | None => edges end)
  end.

(** The single node of an empty trace. *)
Definition fallback_node (v : trace_view) (status : string) : TraceNode :=
  let details := match v_errors v with
                 | [] => [("trace", JStr "minimal")]
                 | _ => [("errors", errors_json v)]
                 end in
  let details := match v_extra v with [] => details | e => assoc_set "plugin_context" (JObj e) details end in
  {| tn_id := "node_start"; tn_label := "Investigation (" +:+ status +:+ ")"; tn_type := "planning";
     tn_status := if String.eqb status "failed" then "failed" else "completed"; tn_details := details |}.

Definition executed (v : trace_view) (status : string) : list TraceNode * list TraceEdge :=
  match v_nodes_executed v with
  | [] => ([fallback_node v status], [])
  | items => steps v status 0 None items
  end.

(** ** Critic flags without a critic node *)

Definition with_critic (v : trace_view) (g : list TraceNode * list TraceEdge) : list TraceNode * list TraceEdge :=
  let '(nodes, edges) := g in
  match v_critic_flags v with
  | [] => g
  | flags =>
      if existsb (fun n => String.eqb (tn_type n) "critic_flag") nodes then g
      else
        let c_id := "node_critic_flags_" +:+ str_nat (length nodes) in
        let n := {| tn_id := c_id; tn_label := "Critic Verification"; tn_type := "critic_flag";
                    tn_status := "flagged"; tn_details := [("critic_flags", JList flags)] |} in
        (nodes ++ [n],
         match last nodes with
         | Some p => edges ++ [{| te_id := edge_id (tn_id p) c_id; te_source := tn_id p; te_target := c_id;
                                  te_label := None; te_type := "sequential" |}]
         | None => edges
         end)
  end.

(** ** Collaboration events *)

(** [x in n.id] needs a string. *)
Definition agent_name (j : json) : result pyexn string :=
  match j with JStr s => Ok s | _ => Raise TypeError end.

Definition agents_of (event : json) : json * json :=
  match event with
  | JObj d => (default (JStr "unknown") (assoc "from_agent" d), default (JStr "all") (assoc "to_agent" d))
  | _ => (JStr "agent", JStr "peer")
  end.

Definition collaboration_node (idx : nat) (event : json) : TraceNode :=
  let '(from_agent, to_agent) := agents_of event in
  {| tn_id := "node_collab_" +:+ str_nat idx;
     tn_label := "Collaboration (" +:+ str from_agent +:+ " → " +:+ str to_agent +:+ ")";
     tn_type := "collaboration"; tn_status := "completed";
     tn_details := match event with JObj d => d | _ => [("event", JStr (str event))] end |}.

Definition find_node (name : string) (nodes : list TraceNode) : option TraceNode :=
  List.find (fun n => contains name (tn_id n)) nodes.

Fixpoint with_collaboration (idx : nat) (events : list json) (g : list TraceNode * list TraceEdge)
    : result pyexn (list TraceNode * list TraceEdge) :=
  match events with
  | [] => Ok g
  | event :: events =>
      let '(nodes, edges) := g in
      let nodes := nodes ++ [collaboration_node idx event] in
      from_agent ← agent_name (agents_of event).1;
      to_agent ← agent_name (agents_of event).2;
      let edges :=
        match find_node from_agent nodes, find_node to_agent nodes with
        | Some s, Some t => edges ++ [{| te_id := "edge_collab_" +:+ str_nat idx; te_source := tn_id s;
                                         te_target := tn_id t; te_label := Some "peer_refinement";
                                         te_type := "collaboration" |}]
        | _, _ => edges
        end in
      with_collaboration (S idx) events (nodes, edges)
  end.

(** ** The response *)

Definition transform_execution_trace (inv : stored_investigation) : result pyexn InvestigationTraceResponse :=
  v ← read_trace (si_execution_trace inv);
  g ← with_collaboration 0 (v_collaboration v) (with_critic v (executed v (si_status inv)));
  let '(nodes, edges) := g in
  Ok {| tr_metadata :=
          {| tm_status := si_status inv; tm_confidence := read_confidence (si_confidence inv);
             tm_node_count := length nodes; tm_edge_count := length edges;
             tm_has_replan := (0 <? v_replan_count v) || existsb (fun n => String.eqb (tn_type n) "replanning") nodes;
             tm_has_collaboration := match v_collaboration v with [] => false | _ => true end;
             tm_has_degraded_mode := negb (match v_degraded_sources v with [] => true | _ => false end)
               || existsb (fun n => String.eqb (tn_status n) "degraded") nodes |};
        tr_nodes := nodes; tr_edges := edges;
        tr_summary := {| ts_evidence_count := v_evidence_count v; ts_replan_count := v_replan_count v;
                         ts_critic_flag_count := length (v_critic_flags v);
                         ts_collaboration_event_count := length (v_collaboration v);
                         ts_degraded_sources := v_degraded_sources v |} |}.
End transform.

(** ** Identifiers *)

Lemma node_id_inj i j a b : node_id i a = node_id j b -> i = j.
Proof. unfold node_id. intros E%append_inj_l. by apply str_nat_sep_inj in E. Qed.

(** A step's identifier starts with a number. *)
Lemma node_id_numbered i a s : node_id i a = "node_" +:+ s -> all_digits (before_char "_" s) = true.
Proof.
  unfold node_id. intros <-%append_inj_l. change ("_" +:+ a) with (String "_" a).
  by rewrite digits_before; [apply str_nat_digits.. |].
Qed.

Lemma edge_id_step i j a b s t : edge_id (node_id i a) s = edge_id (node_id j b) t -> i = j.
Proof.
  unfold edge_id, node_id. intros E%append_inj_l. rewrite !append_assoc in E. apply append_inj_l in E.
  by apply str_nat_sep_inj in E.
Qed.

Section graph.
Variable str : json -> string.

(** ** The executed steps form a chain *)

Lemma step_node_id v status idx item : exists raw, tn_id (step_node str v status idx item) = node_id idx raw.
Proof.
  unfold step_node. destruct (_classify_node str item) as [[[label tax] raw] extra].
  repeat case_match; simplify_eq; eauto.
Qed.

Lemma steps_nodes v status items : forall idx prev k n, (steps str v status idx prev items).1 !! k = Some n ->
  exists raw, tn_id n = node_id (idx + k) raw.
Proof.
  induction items as [|item items IH]; intros idx prev k n; cbn; [done|].
  destruct (steps _ _ _ (S idx) _ items) as [nodes edges] eqn:E. destruct k as [|k]; cbn.
  - intros [= <-]. rewrite Nat.add_0_r. apply step_node_id.
  - intros Hk. replace (idx + S k)%nat with (S idx + k)%nat by lia. eapply (IH (S idx) (Some _) k n). by rewrite E.
Qed.

Lemma steps_length v status items : forall idx prev, length (steps str v status idx prev items).1 = length items.
Proof.
  induction items as [|item items IH]; intros idx prev; cbn; [done|].
  specialize (IH (S idx) (Some (tn_id (step_node str v status idx item)))).
  destruct (steps _ _ _ (S idx) _ items) as [nodes edges]. cbn in *. by rewrite IH.
Qed.

Lemma steps_edges v status items : forall idx prev k e, (steps str v status idx prev items).2 !! k = Some e ->
  let ids := option_list prev ++ map tn_id (steps str v status idx prev items).1 in
  exists a b item, ids !! k = Some a /\ ids !! S k = Some b /\ e = chain_edge str a item b.
Proof.
  induction items as [|item items IH]; intros idx prev k e; cbn; [done|].
  specialize (IH (S idx) (Some (tn_id (step_node str v status idx item)))).
  destruct (steps _ _ _ (S idx) _ items) as [nodes edges]. cbn in IH |- *.
  destruct prev as [p|]; [|exact (IH k e)]. destruct k as [|k]; [|exact (IH k e)].
  intros [= <-]. by eexists _, _, item.
Qed.

(** ** Well-formed graphs *)

Record graph_ok (nodes : list TraceNode) (edges : list TraceEdge) : Prop := GraphOk {
  ok_nodes : NoDup (map tn_id nodes);
  ok_edges : NoDup (map te_id edges);
  ok_ends : forall e, e ∈ edges -> te_source e ∈ map tn_id nodes /\ te_target e ∈ map tn_id nodes;
}.

(** Before collaboration events: no collaboration identifiers. *)
Definition plain_node (n : TraceNode) : Prop := forall k, tn_id n <> "node_collab_" +:+ str_nat k.
Definition plain_edge (e : TraceEdge) : Prop := forall k, te_id e <> "edge_collab_" +:+ str_nat k.

Lemma NoDup_lookup_inj {A B} (f : A -> B) l :
  (forall i j x y, l !! i = Some x -> l !! j = Some y -> f x = f y -> i = j) -> NoDup (map f l).
Proof.
  intros H. apply NoDup_alt. intros i j b Hi Hj.
  rewrite list_lookup_fmap in Hi, Hj. apply fmap_Some in Hi as (x & Hx & Ex), Hj as (y & Hy & Ey).
  eapply H; [done..|congruence].
Qed.

Lemma numbered_plain n i raw : tn_id n = node_id i raw -> plain_node n.
Proof. intros E k E'. rewrite E in E'. by apply (node_id_numbered _ _ ("collab_" +:+ str_nat k)) in E'. Qed.

Lemma edge_plain e s t : te_id e = edge_id ("node_" +:+ s) t -> plain_edge e.
Proof. by intros E k E'; rewrite E in E'. Qed.

(** The chain of the executed steps, with room for one more edge out of its last node. *)
Record chain_ok (nodes : list TraceNode) (edges : list TraceEdge) : Prop := ChainOk {
  ch_graph : graph_ok nodes edges;
  ch_nodes : forall n, n ∈ nodes -> plain_node n /\ forall k, tn_id n <> "node_critic_flags_" +:+ str_nat k;
  ch_edges : forall e, e ∈ edges -> plain_edge e;
  ch_last : forall p, last nodes = Some p -> (exists s, tn_id p = "node_" +:+ s) /\
    forall e s, e ∈ edges -> te_id e <> edge_id (tn_id p) s;
}.

Lemma steps_chain v status items : items <> [] ->
  let '(nodes, edges) := steps str v status 0 None items in chain_ok nodes edges.
Proof.
  intros Hne. pose proof (steps_nodes v status items 0 None) as Hn. pose proof (steps_edges v status items 0 None) as He.
  pose proof (steps_length v status items 0 None) as Hlen.
  destruct (steps str v status 0 None items) as [nodes edges]. cbn in Hn, He, Hlen.
  assert (forall k e, edges !! k = Some e -> (exists raw s, te_id e = edge_id (node_id k raw) s) /\
    (S k < length nodes)%nat /\ te_source e ∈ map tn_id nodes /\ te_target e ∈ map tn_id nodes) as He'.
  { intros k e Hk. destruct (He k e Hk) as (a & b & item & Ha & Hb & ->). cbn.
    pose proof Hb as Hlt%lookup_lt_Some. rewrite length_map in Hlt.
    split_and!; [|done | by eapply list_elem_of_lookup_2..].
    rewrite list_lookup_fmap in Ha. apply fmap_Some in Ha as (n & Hkn & ->).
    destruct (Hn k n Hkn) as [raw ->]. eauto. }
  split; [split| | |].
  - apply NoDup_lookup_inj. intros i j x y Hi Hj E. destruct (Hn i x Hi) as [a Ea], (Hn j y Hj) as [b Eb].
    rewrite Ea, Eb in E. by apply node_id_inj in E.
  - apply NoDup_lookup_inj. intros i j x y Hi Hj E.
    destruct (He' i x Hi) as [(a & s & Ea) _], (He' j y Hj) as [(b & t & Eb) _].
    rewrite Ea, Eb in E. by apply edge_id_step in E.
  - intros e [k Hk]%list_elem_of_lookup. by apply (He' k e).
  - intros n [k Hk]%list_elem_of_lookup. destruct (Hn k n Hk) as [raw E]. split; [by eapply numbered_plain|].
    intros j Ej. rewrite E in Ej. by apply (node_id_numbered _ _ ("critic_flags_" +:+ str_nat j)) in Ej.
  - intros e [k Hk]%list_elem_of_lookup. destruct (He' k e Hk) as [(a & s & Ea) _]. by eapply edge_plain.
  - intros p Hp. rewrite last_lookup in Hp. destruct (Hn _ p Hp) as [raw E]. split; [by eexists|].
    intros e s [k Hk]%list_elem_of_lookup Ee. destruct (He' k e Hk) as [(a & t & Ea) [Hlt _]].
    rewrite Ea, E in Ee. apply edge_id_step in Ee. lia.
Qed.

Lemma executed_chain v status : let '(nodes, edges) := executed str v status in chain_ok nodes edges.
Proof.
  unfold executed. destruct (v_nodes_executed v) as [|item items] eqn:E; [|by apply steps_chain].
  split; [split; cbn| | |].
  - apply NoDup_singleton.
  - constructor.
  - by intros e ?%elem_of_nil.
  - intros n ->%list_elem_of_singleton. by split; [intros k|].
  - by intros e ?%elem_of_nil.
  - intros p [= <-]. split; [by exists "start"|]. by intros e s ?%elem_of_nil.
Qed.

Lemma with_critic_ok v nodes edges : chain_ok nodes edges ->
  let '(nodes', edges') := with_critic v (nodes, edges) in
  graph_ok nodes' edges' /\ (forall n, n ∈ nodes' -> plain_node n) /\ (forall e, e ∈ edges' -> plain_edge e).
Proof.
  intros [[H1 H2 H3] H4 H5 H6]. unfold with_critic. destruct (v_critic_flags v) as [|f fs].
  { split_and!; [done | intros n Hn; by apply H4 | done]. }
  destruct (existsb _ nodes). { split_and!; [done | intros n Hn; by apply H4 | done]. }
  set (c := Build_TraceNode _ _ _ _ _).
  assert (forall n, n ∈ nodes -> tn_id n <> tn_id c) as Hc by (intros n Hn; by apply H4).
  assert (NoDup (map tn_id (nodes ++ [c]))) as Hnd.
  { rewrite map_app. apply NoDup_app. split; [done|]. split; [|apply NoDup_singleton].
    intros x Hx ->%list_elem_of_singleton. apply list_elem_of_fmap in Hx as (n & E & Hn). by destruct (Hc n Hn). }
  assert (forall n, n ∈ nodes ++ [c] -> plain_node n) as Hp.
  { intros n [Hn| ->%list_elem_of_singleton]%elem_of_app; [by apply H4|]. by intros k E%(append_inj_l "node_c"). }
  assert (forall e, e ∈ edges -> te_source e ∈ map tn_id (nodes ++ [c]) /\ te_target e ∈ map tn_id (nodes ++ [c])) as Hends.
  { intros e He. rewrite map_app. destruct (H3 e He). set_solver. }
  destruct (last nodes) as [p|] eqn:El; [|by split_and!].
  destruct (H6 p eq_refl) as [(s & Es) Hfresh]. split_and!; [split|done|].
  - done.
  - rewrite map_app. apply NoDup_app. split; [done|]. split; [|apply NoDup_singleton].
    intros x Hx ->%list_elem_of_singleton. apply list_elem_of_fmap in Hx as (e & E & He). by destruct (Hfresh e _ He (eq_sym E)).
  - intros e [He| ->%list_elem_of_singleton]%elem_of_app; [by apply Hends|]. cbn. rewrite map_app. split; [|set_solver].
    apply elem_of_app. left. apply list_elem_of_fmap. exists p. split; [done|]. apply last_Some in El as [l ->]. set_solver.
  - intros e [He| ->%list_elem_of_singleton]%elem_of_app; [by apply H5|]. eapply edge_plain. cbn. by rewrite Es.
Qed.

Lemma find_node_in name nodes n : find_node name nodes = Some n -> tn_id n ∈ map tn_id nodes.
Proof. intros [Hn%list_elem_of_In _]%find_some. apply list_elem_of_fmap. eauto. Qed.

Lemma with_collaboration_ok events : forall idx nodes edges nodes' edges',
  with_collaboration str idx events (nodes, edges) = Ok (nodes', edges') -> graph_ok nodes edges ->
  (forall n k, n ∈ nodes -> (idx <= k)%nat -> tn_id n <> "node_collab_" +:+ str_nat k) ->
  (forall e k, e ∈ edges -> (idx <= k)%nat -> te_id e <> "edge_collab_" +:+ str_nat k) ->
  graph_ok nodes' edges'.
Proof.
  induction events as [|event events IH]; intros idx nodes edges nodes' edges'; cbn.
  { by intros [= <- <-]. }
  intros H [H1 H2 H3] H4 H5. set (c := collaboration_node str idx event) in *.
  assert (tn_id c = "node_collab_" +:+ str_nat idx) as Ec
    by (unfold c, collaboration_node; by destruct (agents_of event)).
  apply result_bind_ok in H as (fa & _ & H). apply result_bind_ok in H as (ta & _ & H). revert H.
  assert (NoDup (map tn_id (nodes ++ [c]))) as Hnd.
  { rewrite map_app. apply NoDup_app. split; [done|]. split; [|apply NoDup_singleton].
    intros x Hx ->%list_elem_of_singleton. apply list_elem_of_fmap in Hx as (n & E & Hn).
    apply (H4 n idx Hn (le_n _)). congruence. }
  assert (forall n k, n ∈ nodes ++ [c] -> (S idx <= k)%nat -> tn_id n <> "node_collab_" +:+ str_nat k) as Hn'.
  { intros n k [Hn| ->%list_elem_of_singleton]%elem_of_app Hk; [apply H4; [done|lia]|].
    rewrite Ec. intros E%append_inj_l%str_nat_inj. lia. }
  assert (forall e, e ∈ edges -> te_source e ∈ map tn_id (nodes ++ [c]) /\ te_target e ∈ map tn_id (nodes ++ [c])) as Hends.
  { intros e He. rewrite map_app. destruct (H3 e He). set_solver. }
  destruct (find_node fa (nodes ++ [c])) as [sn|] eqn:Es; [destruct (find_node ta (nodes ++ [c])) as [tn|] eqn:Et|];
    intros H; apply (IH _ _ _ _ _ H); try done; try (by intros e k He Hk; apply H5; [done|lia]).
  - apply find_node_in in Es, Et. split; [done| |].
    + rewrite map_app. apply NoDup_app. split; [done|]. split; [|apply NoDup_singleton].
      intros x Hx ->%list_elem_of_singleton. apply list_elem_of_fmap in Hx as (e & E & He).
      by apply (H5 e idx He (le_n _)).
    + intros e [He| ->%list_elem_of_singleton]%elem_of_app; [by apply Hends | done].
  - intros e k [He| ->%list_elem_of_singleton]%elem_of_app Hk; [apply H5; [done|lia]|]. cbn.
    intros E%append_inj_l%str_nat_inj. lia.
Qed.

(** Later stages only add nodes. *)
Lemma with_collaboration_extends events : forall idx nodes edges nodes' edges',
  with_collaboration str idx events (nodes, edges) = Ok (nodes', edges') -> exists ns, nodes' = nodes ++ ns.
Proof.
  induction events as [|event events IH]; intros idx nodes edges nodes' edges'; cbn.
  { intros [= <- _]. exists []. by rewrite app_nil_r. }
  intros (fa & _ & H)%result_bind_ok. apply result_bind_ok in H as (ta & _ & H).
  apply IH in H as [ns ->]. rewrite <- app_assoc. eauto.
Qed.

Lemma executed_nonempty v status : (executed str v status).1 <> [].
Proof.
  unfold executed. destruct (v_nodes_executed v) as [|item items]; [done|].
  intros E%(f_equal length). by rewrite steps_length in E.
Qed.

(** A collaboration event without agent names that are strings. *)
Definition bad_event (event : json) : bool :=
  match agents_of event with (JStr _, JStr _) => false | _ => true end.

Lemma with_collaboration_total events : forall idx g,
  match with_collaboration str idx events g with
  | Ok _ => existsb bad_event events = false
  | Raise e => e = TypeError /\ existsb bad_event events = true
  end.
Proof.
  induction events as [|event events IH]; intros idx [nodes edges]; [done|]. cbn [existsb with_collaboration].
  unfold bad_event. destruct (agents_of event) as [[] []]; cbn; try done. apply IH.
Qed.
End graph.

(** ** Properties *)

(** Whatever the stored trace holds, a response is a well-formed graph: node and
    edge identifiers are unique, every edge joins two nodes of the response, and
    the metadata counts nodes and edges. *)
Theorem trace_graph_well_formed (str : json -> string) (float_of_str : string -> option float)
    (inv : stored_investigation) (r : InvestigationTraceResponse) :
  transform_execution_trace str float_of_str inv = Ok r ->
  NoDup (map tn_id (tr_nodes r)) /\ NoDup (map te_id (tr_edges r)) /\
  (forall e, e ∈ tr_edges r -> te_source e ∈ map tn_id (tr_nodes r) /\ te_target e ∈ map tn_id (tr_nodes r)) /\
  tr_nodes r <> [] /\
  tm_node_count (tr_metadata r) = length (tr_nodes r) /\ tm_edge_count (tr_metadata r) = length (tr_edges r).
Proof.
  unfold transform_execution_trace. intros (v & _ & H)%result_bind_ok.
  apply result_bind_ok in H as ([nodes edges] & Hg & [= <-]). cbn.
  pose proof (executed_chain str v (si_status inv)) as He. pose proof (executed_nonempty str v (si_status inv)) as Hne.
  destruct (executed str v (si_status inv)) as [nodes0 edges0].
  pose proof (with_critic_ok str v nodes0 edges0 He) as Hc.
  assert (exists ns, (with_critic v (nodes0, edges0)).1 = nodes0 ++ ns) as [ns Ens].
  { unfold with_critic. repeat case_match; cbn; eauto; exists []; by rewrite app_nil_r. }
  destruct (with_critic v (nodes0, edges0)) as [nodes1 edges1]. destruct Hc as (Hc & Hn & Hed). cbn in *. subst nodes1.
  destruct (with_collaboration_ok str _ _ _ _ _ _ Hg Hc) as [H1 H2 H3];
    [by intros n k Hin _; apply Hn | by intros e k Hin _; apply Hed |].
  split_and!; try done. apply with_collaboration_extends in Hg as [ns' ->]. by destruct nodes0.
Qed.

(** The transformation answers for every stored document except one with a
    collaboration event whose agent names are not strings (a [TypeError]), or a
    count that is an infinite float, which JSON cannot express. *)
Theorem trace_total (str : json -> string) (float_of_str : string -> option float) (inv : stored_investigation) (v : trace_view) :
  read_trace str (si_execution_trace inv) = Ok v ->
  match transform_execution_trace str float_of_str inv with
  | Ok _ => existsb bad_event (v_collaboration v) = false
  | Raise e => e = TypeError /\ existsb bad_event (v_collaboration v) = true
  end.
Proof.
  intros Hv. unfold transform_execution_trace. rewrite Hv. cbn.
  pose proof (with_collaboration_total str (v_collaboration v) 0 (with_critic v (executed str v (si_status inv)))) as Ht.
  destruct (with_collaboration _ _ _ _) as [[nodes edges]|e]; exact Ht.
Qed.

(** ** The trace of a finished investigation *)

(** The document [finalize_node] stores. *)
Definition stored_trace (r : InvestigationRow) : json :=
  JObj [("nodes_executed", JList (map JStr (r_nodes_executed r)));
        ("evidence_count", JInt (r_evidence_count r));
        ("replan_count", JInt (r_replan_count r));
        ("critic_flags", JList (map (fun '(claim, reason, severity) =>
            JObj [("claim_text", JStr claim); ("flagged_reason", JStr reason); ("severity", JStr severity)])
          (r_critic_flags r)))].

Definition plain_str (j : json) : string := match j with JStr s => s | _ => "" end.

Lemma steps_plain str v status items : (forall s, str (JStr s) = s) -> forall idx prev,
  steps str v status idx prev (map JStr items) = steps plain_str v status idx prev (map JStr items).
Proof.
  intros Hstr. assert (forall idx s, step_node str v status idx (JStr s) = step_node plain_str v status idx (JStr s)) as Hn.
  { intros idx s. unfold step_node, _classify_node. by rewrite Hstr. }
  induction items as [|s items IH]; intros idx prev; [done|]. cbn [map steps]. rewrite Hn, IH.
  destruct (steps _ _ _ _ _ _). unfold chain_edge. by rewrite Hstr.
Qed.

(** The explanation of an investigation that [finalize_node] stored: one node
    per executed step, in order and chained, the critic flagged exactly when
    flags were left, a replan marked exactly when one ran; the confidence, a
    [Decimal] from its column, is lost. *)
Theorem stored_trace_explained (str : json -> string) (float_of_str : string -> option float)
    {R : Type} (env : Env R) (s : TaskGraphState) (os : list AgentOutput) :
  (forall t, str (JStr t) = t) ->
  exists r, transform_execution_trace str float_of_str
      {| si_status := "complete"; si_confidence := CDecimal;
         si_execution_trace := stored_trace (finalize_row env s os) |} = Ok r /\
    map tn_id (tr_nodes r) = imap node_id (nodes_executed s) /\
    map (fun e => (te_source e, te_target e)) (tr_edges r) =
      zip (map tn_id (tr_nodes r)) (tail (map tn_id (tr_nodes r))) /\
    map tn_status (tr_nodes r) =
      map (fun n => if String.eqb n "critic" && negb (bool_decide (critic_flags s = [])) then "flagged" else "completed")
        (nodes_executed s) /\
    tm_has_replan (tr_metadata r) = (0 <? replan_count s) /\
    ts_evidence_count (tr_summary r) = r_evidence_count (finalize_row env s os) /\
    tm_confidence (tr_metadata r) = None.
Proof.
  intros Hstr. unfold transform_execution_trace, stored_trace, finalize_row. cbn [r_nodes_executed r_evidence_count
    r_replan_count r_critic_flags si_execution_trace si_status si_confidence].
  set (flags := map _ (map _ (critic_flags s))).
  assert (bool_decide (critic_flags s = []) = match flags with [] => true | _ => false end) as ->
    by (unfold flags; by destruct (critic_flags s)).
  generalize (Z.of_nat (list_sum (map (fun o => length (evidence o)) os))) as ev. intros ev. clearbody flags.
  set (v := {| v_nodes_executed := map JStr (nodes_executed s); v_evidence_count := ev;
               v_replan_count := replan_count s; v_critic_flags := flags; v_collaboration := [];
               v_degraded_sources := []; v_errors := []; v_domains := JNull; v_extra := [] |}).
  assert (executed str v "complete" = steps plain_str v "complete" 0 None (map JStr (nodes_executed s))) as He
    by (unfold executed; rewrite <- (steps_plain str) by done; done).
  change (read_trace _ _) with (Ok (E := pyexn) v). cbn -[executed with_critic v]. rewrite He.
  unfold v, nodes_executed. destruct (needs_simulation s), (0 <? replan_count s) eqn:Er, flags as [|f fl].
  all: cbn -[node_id edge_id]; rewrite ?Er; eexists; split; [reflexivity|]; cbn -[node_id edge_id]; rewrite ?Er.
  all: by split_and!.
Qed.

Module TraceWitness.
(** A failed plugin run with an unknown step, stray flags and a collaboration. *)
Definition doc : json :=
  JObj [("nodes_executed", JList [JStr "supervisor"; JObj [("node", JStr "my_agent"); ("took", JInt 3)]]);
        ("evidence_count", JStr " 4 "); ("critic_flags", JList [JStr "flag"]);
        ("collaboration", JList [JObj [("from_agent", JStr "supervisor"); ("to_agent", JStr "my_agent")]]);
        ("error", JStr "boom")].
Definition failed_run : stored_investigation :=
  {| si_status := "failed"; si_confidence := CNumber f1; si_execution_trace := doc |}.

Lemma trace_graph_well_formed_witness : exists r,
  transform_execution_trace plain_str (fun _ => None) failed_run = Ok r /\
  map tn_id (tr_nodes r) = ["node_0_supervisor"; "node_1_my_agent"; "node_critic_flags_2"; "node_collab_0"] /\
  NoDup (map tn_id (tr_nodes r)) /\ tm_edge_count (tr_metadata r) = 3%nat.
Proof.
  eexists. split; [vm_compute; reflexivity|]. split; [vm_compute; reflexivity|].
  destruct (trace_graph_well_formed plain_str (fun _ => None) failed_run _ ltac:(vm_compute; reflexivity))
    as (H & _ & _ & _ & _ & Hc). split; [exact H | exact Hc].
Defined.

Lemma trace_total_witness :
  match transform_execution_trace plain_str (fun _ => None)
          {| si_status := "complete"; si_confidence := CNone;
             si_execution_trace := JObj [("collaboration", JList [JObj [("from_agent", JNull)]])] |} with
  | Ok _ => False | Raise e => e = TypeError end.
Proof.
  pose proof (trace_total plain_str (fun _ => None) {| si_status := "complete"; si_confidence := CNone;
    si_execution_trace := JObj [("collaboration", JList [JObj [("from_agent", JNull)]])] |} _ eq_refl) as H.
  vm_compute in H |- *. exact (proj1 H).
Defined.

Lemma stored_trace_explained_witness : exists r,
  transform_execution_trace plain_str (fun _ => None)
    {| si_status := "complete"; si_confidence := CDecimal;
       si_execution_trace := stored_trace (finalize_row (GraphWitness.env true (Ok JNull)) (initial_state "i" "q") []) |} = Ok r.
Proof.
  destruct (stored_trace_explained plain_str (fun _ => None) (GraphWitness.env true (Ok JNull)) (initial_state "i" "q") [] (fun _ => eq_refl))
    as (r & E & _). by exists r.
Defined.
End TraceWitness.
