(* ===== verification/Investigations.v ===== *)
(** * Investigations: routes, table and worker job
    ([src/app/api/v1/investigations.py], [src/app/api/v1/investigations_stream.py],
    [src/workers/jobs/investigation_job.py], [InvestigationRepository] of
    [src/db/repository.py], the job events of [src/metrics/])

    From the request that creates an investigation to the row its clients read:
    the table [investigations], the metrics table, the RQ queue and the attempts
    of a job.  The graph is modelled in [Graph]; here a run of it is its outcome
    together with the row its last node stores, if it got that far.  RQ runs a
    job again after an exception while retries are left. *)

From S2P Require Import Prelude PyFloat PyStr Settings Effects Database AgentIO Gateway Auth.
From S2P Require Import Graph Trace.

(** ** Tables *)

Record Investigation := {
  i_id : uuid;
  i_user_id : option uuid;
  i_query_text : string;
  i_complexity_tier : option string;
  i_status : string;
  i_answer : option string;
  i_confidence : option float;
  i_execution_trace : option json;
  i_consent_public_research : bool;
  i_created_at : Z;
  i_completed_at : option Z;
}.

Record MetricEventRow := {
  m_event_type : string;
  m_group_key : option string;
  m_duration_ms : Z;
  m_queue_wait_ms : option Z;
  m_success : bool;
}.

(** [queue.enqueue(run_investigation_job, id, query, retry=Retry(max=...))] *)
Record queued_job := { q_investigation_id : uuid; q_query : string; q_max_retries : Z }.

Record world := World {
  investigations : list Investigation;
  metrics : list MetricEventRow;
  queue : list queued_job;
  background : list (uuid * string);     (* [BackgroundTasks] *)
  drawn : nat;
  clock : Z;
  db : list bool;
}.

#[global] Program Instance investigations_db : Db world := {|
  script := db;
  set_script cs w := World (investigations w) (metrics w) (queue w) (background w) (drawn w) (clock w) cs;
|}.
Solve All Obligations with by intros [].

Definition with_investigations (f : list Investigation -> list Investigation) (w : world) : world :=
  World (f (investigations w)) (metrics w) (queue w) (background w) (drawn w) (clock w) (db w).

Definition read_clock : M world Z := gets clock.

(** ** [InvestigationRepository] *)

(** [_normalize_serializable] on a JSON document. *)
Fixpoint _normalize_serializable (j : json) : json :=
  match j with
  | JObj fields => JObj (map (fun kv => (kv.1, _normalize_serializable kv.2)) fields)
  | JList l => JList (map _normalize_serializable l)
  | _ => j
  end.

Definition draw : M world nat := fun w =>
  (Ok (drawn w), World (investigations w) (metrics w) (queue w) (background w) (S (drawn w)) (clock w) (db w)).

Definition insertable (i : Investigation) (w : world) : bool :=
  forallb (fun j => negb (String.eqb (i_id j) (i_id i))) (investigations w).

Definition create_investigation_row (uuid4 : nat -> uuid) (query : string) (user_id : option uuid)
    (consent_public_research : bool) : M world Investigation :=
  draw ≫= fun n => read_clock ≫= fun now =>
  let inv := {| i_id := uuid4 n; i_user_id := user_id; i_query_text := query; i_complexity_tier := None;
                i_status := "planning"; i_answer := None; i_confidence := None; i_execution_trace := None;
                i_consent_public_research := consent_public_research; i_created_at := now;
                i_completed_at := None |} in
  save_if (insertable inv) (with_investigations (fun l => l ++ [inv])) ≫= fun _ =>
  statement ≫= fun _ => mret inv.

Definition get_investigation_row (id : uuid) : M world (option Investigation) :=
  select (fun w => List.filter (fun i => String.eqb (i_id i) id) (investigations w)) ≫= scalar_one_or_none.

(** The arguments of [update_investigation_status] after the status. *)
Record status_update := {
  su_complexity_tier : option string;
  su_answer : option string;
  su_confidence : option float;
  su_execution_trace : option json;
}.

(** [x if x is not None else old] *)
Definition or_old {A} (new old : option A) : option A := match new with Some _ => new | None => old end.

Definition terminal (status : string) : bool := existsb (String.eqb status) ["complete"; "failed"].

Definition set_status (status : string) (u : status_update) (now : Z) (i : Investigation) : Investigation :=
  {| i_id := i_id i; i_user_id := i_user_id i; i_query_text := i_query_text i;
     i_complexity_tier := or_old (su_complexity_tier u) (i_complexity_tier i); i_status := status;
     i_answer := or_old (su_answer u) (i_answer i); i_confidence := or_old (su_confidence u) (i_confidence i);
     i_execution_trace := or_old (_normalize_serializable <$> su_execution_trace u) (i_execution_trace i);
     i_consent_public_research := i_consent_public_research i; i_created_at := i_created_at i;
     i_completed_at := if terminal status then Some now else i_completed_at i |}.

Definition update_row (id : uuid) (f : Investigation -> Investigation) (l : list Investigation) : list Investigation :=
  map (fun i => if String.eqb (i_id i) id then f i else i) l.

Definition update_investigation_status (id : uuid) (status : string) (u : status_update)
    : M world (option Investigation) :=
  get_investigation_row id ≫= fun row =>
  match row with
  | None => mret None
  | Some i =>
      read_clock ≫= fun now =>
      save_refresh (with_investigations (update_row id (set_status status u now))) ≫= fun _ =>
      mret (Some (set_status status u now i))
  end.

(** ** Metrics ([metrics/events.py], [metrics/collector.py]) *)

Inductive job_event :=
| JobStarted (enqueued_at : option Z) (started_at : Z)
| JobCompleted (duration_seconds : float) (complexity_tier : option string)
| JobFailed (error_code : string) (attempt_number : Z).

(** Seconds between two instants, as a float. *)
Definition total_seconds (later earlier : Z) : float := int_truediv (later - earlier) 1000000.
(** [int(x)] of a finite float. *)
Definition to_int (x : float) : Z := default 0 (float_trunc x).

Definition metric_row (e : job_event) : MetricEventRow :=
  match e with
  | JobStarted enqueued_at started_at =>
      {| m_event_type := "JobStarted"; m_group_key := None; m_duration_ms := 0;
         m_queue_wait_ms := (fun t => Z.max 0 (to_int (fmul (total_seconds started_at t) (float_of_Z 1000)))) <$> enqueued_at;
         m_success := true |}
  | JobCompleted duration tier =>
      {| m_event_type := "JobCompleted"; m_group_key := tier; m_duration_ms := to_int (fmul duration (float_of_Z 1000));
         m_queue_wait_ms := None; m_success := true |}
  | JobFailed _ _ =>
      {| m_event_type := "JobFailed"; m_group_key := None; m_duration_ms := 0; m_queue_wait_ms := None;
         m_success := false |}
  end.

(** [persist_metric(session, event)] and [session.commit()] *)
Definition persist_metric (e : job_event) : M world unit :=
  save (fun w => World (investigations w) (metrics w ++ [metric_row e]) (queue w) (background w) (drawn w) (clock w) (db w)).

(** ** The worker job *)

(** How a run of the graph ends: with its final state's tier, with an exception,
    or killed with its process. *)
Inductive graph_end := Finished (tier : option string) | Raised (e : pyexn) | Killed.

(** A run of the graph: the row [finalize_node] stored, if it ran, and its end. *)
Record graph_run := { g_row : option InvestigationRow; g_end : graph_end }.

(** What one attempt meets outside the code. *)
Record attempt_env := {
  at_redis : result pyexn unit;          (* [get_redis()], after [init_redis] if needed *)
  at_job : bool;                         (* [get_current_job()] is a job *)
  at_enqueued_at : option Z;
  at_graph : graph_run;
  at_duration : float;                   (* [round(time.monotonic() - start, 3)] *)
}.

Definition killed : pyexn := OtherError "killed".

Definition complete_update (r : InvestigationRow) : status_update :=
  {| su_complexity_tier := Some (r_complexity_tier r); su_answer := Some (r_answer r);
     su_confidence := Some (r_confidence r); su_execution_trace := Some (stored_trace r) |}.

(** [graph.ainvoke(...)] *)
Definition ainvoke_graph (id : uuid) (g : graph_run) : M world (option string) :=
  (match g_row g with
   | Some r => update_investigation_status id "complete" (complete_update r) ≫= fun _ => mret tt
   | None => mret tt
   end) ≫= fun _ =>
  match g_end g with
  | Finished tier => mret tier
  | Raised e => raise e
  | Killed => raise killed
  end.

(** [except Exception]: a killed process runs no handler. *)
Definition except_exception {A} (m : M world A) (handler : pyexn -> M world A) : M world A :=
  try_except m (fun e => if decide (e = killed) then raise e else handler e).

Section job.
Variable str_exn : pyexn -> string.      (* [str(exc)] *)
Variable id : uuid.

Definition failed_update (error error_code : string) : status_update :=
  {| su_complexity_tier := None; su_answer := None; su_confidence := None;
     su_execution_trace := Some (JObj [("error", JStr error); ("error_code", JStr error_code)]) |}.

(** The handler of a failed run. *)
Definition on_failure (job : bool) (retries_left : option Z) (e : pyexn) : M world unit :=
  let left := if job then default 0 retries_left else 0 in
  let is_terminal_failure := left <=? 0 in
  let error_code := if is_terminal_failure then "job_retries_exhausted" else "job_attempt_failed" in
  let attempt_number := if job then Z.max 1 (3 - left) else 1 in
  (if is_terminal_failure then
     update_investigation_status id "failed" (failed_update (str_exn e) error_code) ≫= fun _ =>
     persist_metric (JobFailed error_code attempt_number)
   else mret tt) ≫= fun _ =>
  raise e.

(** [_async_run_investigation] with a configured database. *)
Definition _async_run_investigation (query : option string) (retries_left : option Z) (a : attempt_env) : M world unit :=
  lift (at_redis a) ≫= fun _ =>
  read_clock ≫= fun now =>
  persist_metric (JobStarted (if at_job a then at_enqueued_at a else None) now) ≫= fun _ =>
  (if ostr_truthy query then mret tt
   else get_investigation_row id ≫= fun row =>
        match row with Some _ => mret tt | None => raise ValueError end) ≫= fun _ =>
  except_exception
    (ainvoke_graph id (at_graph a) ≫= fun tier =>
     persist_metric (JobCompleted (at_duration a) tier))
    (on_failure (at_job a) retries_left).

(** RQ with [Retry(max=retries)]: attempts until one returns or none is left.
    The result says whether the job succeeded. *)
Fixpoint rq_run (query : option string) (retries : nat) (envs : list attempt_env) {struct envs} : M world bool :=
  match envs with
  | [] => mret false
  | a :: envs => fun w =>
      match _async_run_investigation query (Some (Z.of_nat retries)) a w with
      | (Ok _, w') => (Ok true, w')
      | (Raise _, w') =>
          match retries with
          | O => (Ok false, w')
          | S retries => rq_run query retries envs w'
          end
      end
  end.

(** [run_investigation_graph], the background task without a queue. *)
Definition run_investigation_graph (g : graph_run) : M world unit :=
  except_exception (ainvoke_graph id g ≫= fun _ => mret tt)
    (fun e => update_investigation_status id "failed"
                {| su_complexity_tier := None; su_answer := None; su_confidence := None;
                   su_execution_trace := Some (JObj [("error", JStr (str_exn e))]) |} ≫= fun _ => mret tt).
End job.

(** ** Routes *)

Inductive response :=
| ErrorResponse (status : Z) (error_code : string)
| Accepted (investigation_id : uuid) (stream_url poll_url : string)
| StatusBody (i : Investigation)
| TraceBody (t : InvestigationTraceResponse)
| EventStream (investigation_id : uuid).

Section routes.
Variable uuid4 : nat -> uuid.
Variable use_queued_execution : bool.
Variable job_max_retries : Z.

(** [ping]: Redis answers; [enqueue]: the queue accepts the job. *)
Definition create_investigation (ping enqueue : result pyexn unit) (user : option User) (query : string)
    (consent : bool) : M world response :=
  match ping with
  | Raise _ => mret (ErrorResponse 503 "checkpointer_unavailable")
  | Ok _ =>
      create_investigation_row uuid4 query (u_id <$> user) consent ≫= fun inv =>
      (if use_queued_execution then
         lift enqueue ≫= fun _ =>
         modify (fun w => World (investigations w) (metrics w)
                   (queue w ++ [{| q_investigation_id := i_id inv; q_query := query; q_max_retries := job_max_retries |}])
                   (background w) (drawn w) (clock w) (db w))
       else
         modify (fun w => World (investigations w) (metrics w) (queue w) (background w ++ [(i_id inv, query)])
                   (drawn w) (clock w) (db w))) ≫= fun _ =>
      mret (Accepted (i_id inv) ("/api/v1/investigations/" +:+ i_id inv +:+ "/stream")
              ("/api/v1/investigations/" +:+ i_id inv))
  end.

(** [if user: check_owner_or_role(...)] *)
Definition check_reader (user : option User) (i : Investigation) : M world unit :=
  match user with
  | Some u => lift (check_owner_or_role (i_user_id i) u [ADMIN])
  | None => mret tt
  end.

(** Look-up and authorization, common to the three reading routes. *)
Definition readable (id : uuid) (user : option User) (k : Investigation -> M world response) : M world response :=
  get_investigation_row id ≫= fun row =>
  match row with
  | None => mret (ErrorResponse 404 "investigation_not_found")
  | Some i => check_reader user i ≫= fun _ => k i
  end.

Definition get_investigation (id : uuid) (user : option User) : M world response :=
  readable id user (fun i => mret (StatusBody i)).

Section trace.
Variable str : json -> string.
Variable float_of_str : string -> option float.

(** The row as the transformation reads it. *)
Definition as_stored (i : Investigation) : stored_investigation :=
  {| si_status := i_status i; si_confidence := match i_confidence i with Some _ => CDecimal | None => CNone end;
     si_execution_trace := default JNull (i_execution_trace i) |}.

Definition get_investigation_trace (id : uuid) (user : option User) : M world response :=
  readable id user (fun i =>
    lift (transform_execution_trace str float_of_str (as_stored i)) ≫= fun t => mret (TraceBody t)).
End trace.

Definition stream_investigation_events (ping : result pyexn unit) (id : uuid) (user : option User) : M world response :=
  readable id user (fun i =>
    match ping with
    | Raise _ => mret (ErrorResponse 503 "checkpointer_unavailable")
    | Ok _ => mret (EventStream id)
    end).
End routes.

(** ** Lemmas *)

(** Stored documents are JSON already. *)
Lemma normalize_id : forall j, _normalize_serializable j = j.
Proof.
  fix IH 1. intros [| | | | |l|fs]; cbn; try reflexivity.
  - f_equal. induction l as [|j l IHl]; cbn; [reflexivity|]. by rewrite IH, IHl.
  - f_equal. induction fs as [|[k j] fs IHf]; cbn; [reflexivity|]. by rewrite IH, IHf.
Qed.

Definition inv (w : world) : Prop := NoDup (map i_id (investigations w)).

Definition row_with (id : uuid) (w : world) : option Investigation :=
  List.find (fun i => String.eqb (i_id i) id) (investigations w).

Lemma get_row_run id w : inv w -> db w = [] -> get_investigation_row id w = (Ok (row_with id w), w).
Proof.
  intros Hw Hs. apply (lookup_ok _ investigations); [done|]. apply (filter_unique i_id); [done|].
  by intros x y _ _ ->%String.eqb_eq ->%String.eqb_eq.
Qed.

Lemma row_with_id id w i : row_with id w = Some i -> i_id i = id /\ i ∈ investigations w.
Proof. intros [Hi%list_elem_of_In E%String.eqb_eq]%find_some. done. Qed.

(** The status update as a change of the tables. *)
Definition put_status (id : uuid) (status : string) (u : status_update) (w : world) : world :=
  with_investigations (update_row id (set_status status u (clock w))) w.

Lemma put_status_inv id status u w : inv w -> inv (put_status id status u w).
Proof.
  intros Hw. unfold inv, put_status, update_row. cbn. rewrite map_map. erewrite map_ext; [exact Hw|].
  intros i. by destruct (String.eqb (i_id i) id).
Qed.

Lemma put_status_row id status u w i : row_with id w = Some i ->
  row_with id (put_status id status u w) = Some (set_status status u (clock w) i).
Proof.
  unfold row_with, put_status, update_row. cbn. induction (investigations w) as [|j l IH]; cbn; [done|].
  destruct (String.eqb_spec (i_id j) id) as [E|E]; cbn.
  - intros [= ->]. cbn. by rewrite (proj2 (String.eqb_eq _ _) E).
  - rewrite (proj2 (String.eqb_neq _ _) E). exact IH.
Qed.

(** What a status update leaves alone: the other rows, and who asked what when. *)
Definition kept (id : uuid) (w : world) : list Investigation * option (option uuid * string * Z) :=
  (List.filter (fun i => negb (String.eqb (i_id i) id)) (investigations w),
   (fun i => (i_user_id i, i_query_text i, i_created_at i)) <$> row_with id w).

Lemma put_status_kept id status u w : kept id (put_status id status u w) = kept id w.
Proof.
  unfold kept, row_with, put_status, update_row. cbn. f_equal.
  - induction (investigations w) as [|j l IH]; cbn; [done|].
    destruct (String.eqb (i_id j) id) eqn:E; cbn; rewrite ?E; cbn; by rewrite IH.
  - induction (investigations w) as [|j l IH]; cbn; [done|].
    destruct (String.eqb (i_id j) id) eqn:E; cbn; rewrite ?E; [done|exact IH].
Qed.

Lemma update_status_run id status u w i : inv w -> db w = [] -> row_with id w = Some i ->
  update_investigation_status id status u w = (Ok (Some (set_status status u (clock w) i)), put_status id status u w).
Proof.
  intros Hw Hs Hi. unfold update_investigation_status. rewrite M_bind_run, get_row_run, Hi by done.
  rewrite M_bind_run. cbn -[save_refresh]. by rewrite M_bind_run, save_refresh_ok.
Qed.

Definition add_metric (e : job_event) (w : world) : world :=
  World (investigations w) (metrics w ++ [metric_row e]) (queue w) (background w) (drawn w) (clock w) (db w).

Lemma persist_run e w : db w = [] -> persist_metric e w = (Ok tt, add_metric e w).
Proof. intros Hs. unfold persist_metric. by rewrite save_ok. Qed.

Definition after_graph (id : uuid) (g : graph_run) (w : world) : world :=
  match g_row g with Some r => put_status id "complete" (complete_update r) w | None => w end.

(** The facts every attempt keeps: a healthy session and the row in the table. *)
Record ready (id : uuid) (w : world) : Prop := Ready {
  rd_inv : inv w;
  rd_db : db w = [];
  rd_row : is_Some (row_with id w);
}.

Lemma ready_metric id e w : ready id w -> ready id (add_metric e w).
Proof. intros []. by split. Qed.

Lemma ready_status id status u w : ready id w -> ready id (put_status id status u w).
Proof.
  intros [H1 H2 [i Hi]]. split; [by apply put_status_inv | done |]. eexists. by apply put_status_row.
Qed.

Lemma ready_graph id g w : ready id w -> ready id (after_graph id g w).
Proof. intros Hw. unfold after_graph. destruct (g_row g); [by apply ready_status | done]. Qed.

Lemma graph_run_ok id g w : ready id w ->
  ainvoke_graph id g w =
    (match g_end g with Finished tier => Ok tier | Raised e => Raise e | Killed => Raise killed end, after_graph id g w).
Proof.
  intros [H1 H2 [i Hi]]. unfold ainvoke_graph, after_graph. rewrite M_bind_run. destruct (g_row g) as [r|].
  - rewrite M_bind_run, (update_status_run _ _ _ _ i) by done. cbn. by destruct (g_end g).
  - cbn. by destruct (g_end g).
Qed.

Section attempts.
Variable str_exn : pyexn -> string.
Variable id : uuid.

(** The table and metrics of an attempt that reached the graph. *)
Definition started (a : attempt_env) (w : world) : world :=
  add_metric (JobStarted (if at_job a then at_enqueued_at a else None) (clock w)) w.

Lemma attempt_run query retries a w : ready id w -> at_redis a = Ok tt -> ostr_truthy query = true ->
  _async_run_investigation str_exn id query (Some (Z.of_nat retries)) a w =
    let w1 := after_graph id (at_graph a) (started a w) in
    match g_end (at_graph a) with
    | Finished tier => (Ok tt, add_metric (JobCompleted (at_duration a) tier) w1)
    | Raised e => if decide (e = killed) then (Raise e, w1) else on_failure str_exn id (at_job a) (Some (Z.of_nat retries)) e w1
    | Killed => (Raise killed, w1)
    end.
Proof.
  intros Hw Hr Hq. unfold _async_run_investigation. rewrite M_bind_run, Hr. unfold lift at 1.
  rewrite M_bind_run. cbn -[persist_metric ainvoke_graph on_failure except_exception].
  rewrite M_bind_run, persist_run by apply Hw. rewrite Hq, M_bind_run. unfold mret at 1, M_ret at 1.
  fold (started a w). unfold except_exception, try_except.
  assert (ready id (started a w)) as Hw1 by by apply ready_metric.
  rewrite M_bind_run, graph_run_ok by done. cbv zeta. destruct (g_end (at_graph a)) as [tier|e|].
  - rewrite persist_run; [done|]. by apply ready_graph.
  - by destruct (decide (e = killed)).
  - by rewrite decide_True.
Qed.

(** The last attempt of a job records the failure; earlier ones leave it to RQ. *)
Lemma on_failure_run (job : bool) retries e w : ready id w -> job = true ->
  on_failure str_exn id job (Some (Z.of_nat retries)) e w =
    (Raise e, match retries with
              | O => add_metric (JobFailed "job_retries_exhausted" 3)
                       (put_status id "failed" (failed_update (str_exn e) "job_retries_exhausted") w)
              | S _ => w
              end).
Proof.
  intros Hw ->. destruct (rd_row _ _ Hw) as [i Hi]. unfold on_failure. cbn -[update_investigation_status persist_metric Z.of_nat].
  destruct retries as [|n].
  - change (Z.of_nat 0 <=? 0) with true. cbv iota. rewrite !M_bind_run, (update_status_run _ _ _ _ i) by (done || apply Hw).
    rewrite persist_run; [done|]. by apply ready_status.
  - rewrite (proj2 (Z.leb_gt _ _)) by lia. done.
Qed.
End attempts.

(** ** Properties *)

Definition finished (a : attempt_env) : bool := match g_end (at_graph a) with Finished _ => true | _ => false end.

(** An attempt that reaches the graph, in a worker that survives, with a graph
    that stores its row before it returns ([Graph.graph_path]). *)
Definition orderly (a : attempt_env) : Prop :=
  at_redis a = Ok tt /\ at_job a = true /\ g_end (at_graph a) <> Killed /\ g_end (at_graph a) <> Raised killed /\
  (finished a = true -> is_Some (g_row (at_graph a))).

(** The rows and metrics after a job. *)
Definition settled (str_exn : pyexn -> string) (id : uuid) (envs : list attempt_env) (w w' : world) : Prop :=
  exists i, row_with id w' = Some i /\ i_completed_at i = Some (clock w) /\ kept id w' = kept id w /\
  match List.find finished envs with
  | Some a => exists r, g_row (at_graph a) = Some r /\ i_status i = "complete" /\ i_answer i = Some (r_answer r) /\
                i_execution_trace i = Some (stored_trace r)
  | None => i_status i = "failed" /\ exists a e, last envs = Some a /\ g_end (at_graph a) = Raised e /\
              i_execution_trace i =
              Some (JObj [("error", JStr (str_exn e)); ("error_code", JStr "job_retries_exhausted")])
  end.

(** The attempts RQ makes: up to the first that finishes. *)
Fixpoint attempts_made (envs : list attempt_env) : nat :=
  match envs with
  | [] => 0
  | a :: envs => if finished a then 1 else S (attempts_made envs)
  end.

(** What a finished attempt leaves in the tables. *)
Lemma finished_settles str_exn id a envs tier r w : ready id w ->
  g_end (at_graph a) = Finished tier -> g_row (at_graph a) = Some r ->
  settled str_exn id (a :: envs) w
    (add_metric (JobCompleted (at_duration a) tier) (after_graph id (at_graph a) (started a w))).
Proof.
  intros Hw Eg Er. destruct (rd_row _ _ Hw) as [i Hi]. unfold settled, after_graph. rewrite Er.
  eexists. split; [exact (put_status_row _ _ _ (started a w) i Hi)|]. split; [done|].
  split; [exact (put_status_kept id _ _ (started a w))|].
  cbn [List.find]. replace (finished a) with true by (unfold finished; by rewrite Eg). exists r. split; [done|].
  cbn [set_status i_status i_answer i_execution_trace complete_update su_answer su_execution_trace or_old fmap option_fmap option_map].
  by rewrite normalize_id.
Qed.

(** What the failure of the last attempt leaves in the tables. *)
Lemma failed_settles str_exn id a e w : ready id w -> g_end (at_graph a) = Raised e ->
  settled str_exn id [a] w
    (add_metric (JobFailed "job_retries_exhausted" 3)
       (put_status id "failed" (failed_update (str_exn e) "job_retries_exhausted") (after_graph id (at_graph a) (started a w)))).
Proof.
  intros Hw Ef. assert (finished a = false) as Hfin by (unfold finished; by rewrite Ef).
  destruct (rd_row id (after_graph id (at_graph a) (started a w))) as [i Hi].
  { by apply ready_graph, ready_metric. }
  eexists. split; [exact (put_status_row _ _ _ _ _ Hi)|]. split; [unfold after_graph; by destruct (g_row _)|].
  split; [|cbn [List.find]; rewrite Hfin; split; [done|]; by exists a, e].
  etransitivity; [exact (put_status_kept id _ _ _)|]. unfold after_graph.
  destruct (g_row _); [exact (put_status_kept id _ _ (started a w))|done].
Qed.

Lemma after_graph_metrics id g w : metrics (after_graph id g w) = metrics w.
Proof. unfold after_graph. by destruct (g_row g). Qed.

Ltac count_metrics := cbn; rewrite after_graph_metrics; cbn; rewrite !map_app; cbn; by rewrite <- ?app_assoc.

Lemma rq_run_settles str_exn id query retries : forall envs w,
  ready id w -> ostr_truthy query = true -> length envs = S retries -> Forall orderly envs ->
  exists w', rq_run str_exn id query retries envs w = (Ok (existsb finished envs), w') /\
    ready id w' /\ settled str_exn id envs w w' /\
    map m_event_type (metrics w') = map m_event_type (metrics w) ++
      repeat "JobStarted" (attempts_made envs) ++ [if existsb finished envs then "JobCompleted" else "JobFailed"].
Proof.
  induction retries as [|retries IH]; intros [|a envs] w Hw Hq Hl Hall; try done.
  all: apply Forall_cons in Hall as [(Hr & Hj & Hk & Hk' & Hf) Hall].
  all: cbn [rq_run]; rewrite attempt_run by done; cbv zeta; cbn [existsb].
  all: pose proof (ready_graph id (at_graph a) _ (ready_metric id _ w Hw : ready id (started a w))) as Hw2.
  all: destruct (finished a) eqn:Ef; unfold finished in Ef;
    destruct (g_end (at_graph a)) as [tier|e|] eqn:Eg; try done; cbn [orb].
  - destruct (Hf eq_refl) as [r Er]. eexists. split; [reflexivity|]. split; [by apply ready_metric|]. split; [by apply (finished_settles _ _ _ _ _ r)|].
    cbn [attempts_made]. unfold finished. rewrite Eg. count_metrics.
  - destruct envs; [|done]. rewrite decide_False by (intros ->; by apply Hk'). rewrite on_failure_run by done.
    eexists. split; [reflexivity|]. split; [by apply ready_metric, ready_status|]. split; [by apply failed_settles|].
    cbn [attempts_made]. unfold finished. rewrite Eg. count_metrics.
  - destruct (Hf eq_refl) as [r Er]. eexists. split; [reflexivity|]. split; [by apply ready_metric|]. split; [by apply (finished_settles _ _ _ _ _ r)|].
    cbn [attempts_made]. unfold finished. rewrite Eg. count_metrics.
  - rewrite decide_False by (intros ->; by apply Hk'). rewrite on_failure_run by done.
    destruct (IH envs _ Hw2 Hq ltac:(by injection Hl) Hall) as (w' & E & Hrd & (i & Hi & Hc & Ho & Hm) & Hmet).
    exists w'. split; [exact E|]. split; [done|]. split.
    + exists i. split; [done|]. split; [rewrite Hc; unfold after_graph; by destruct (g_row _)|]. split.
      * rewrite Ho. unfold after_graph. destruct (g_row _); [exact (put_status_kept id _ _ (started a w))|done].
      * cbn [List.find]. unfold finished at 1. rewrite Eg. destruct (List.find finished envs); [done|].
        destruct Hm as (Hst & a' & e' & Hlast & He'). split; [done|]. exists a', e'. split; [|done].
        by destruct envs.
    + cbn [attempts_made]. unfold finished at 1. rewrite Eg, Hmet. count_metrics.
Qed.

(** C11. With Redis, database and workers up, an investigation always settles: RQ
    stops at the first attempt whose graph finishes, and then the row is
    complete with that run's answer and trace; when every attempt fails the row
    is failed with the text of the last attempt's exception.  Other rows are not
    touched, and the metrics count one start per attempt made and exactly one
    completion or failure. *)
Theorem job_settles (str_exn : pyexn -> string) (id : uuid) (query : string) (retries : nat)
    (envs : list attempt_env) (w : world) :
  inv w -> db w = [] -> is_Some (row_with id w) -> str_truthy query = true ->
  length envs = S retries -> Forall orderly envs ->
  exists w', rq_run str_exn id (Some query) retries envs w = (Ok (existsb finished envs), w') /\
    settled str_exn id envs w w' /\
    map m_event_type (metrics w') = map m_event_type (metrics w) ++
      repeat "JobStarted" (attempts_made envs) ++ [if existsb finished envs then "JobCompleted" else "JobFailed"].
Proof.
  intros Hw Hs Hi Hq Hl Ha. destruct (rq_run_settles str_exn id (Some query) retries envs w) as (w' & E & _ & H); try done.
  by exists w'.
Qed.

(** An attempt that cannot reach Redis leaves the investigation as it is, the
    last one too: the row stays in planning for ever and no failure is recorded. *)
Theorem unreachable_redis_leaves_planning (str_exn : pyexn -> string) (id : uuid) (query : option string)
    (retries : nat) (envs : list attempt_env) (w : world) :
  Forall (fun a => exists e, at_redis a = Raise e) envs ->
  rq_run str_exn id query retries envs w = (Ok false, w).
Proof.
  intros Ha. revert retries. induction Ha as [|a envs [e He] Ha IH]; intros retries; [done|].
  assert (forall left, _async_run_investigation str_exn id query left a w = (Raise e, w)) as Hrun.
  { intros left. unfold _async_run_investigation. by rewrite M_bind_run, He. }
  cbn [rq_run]. rewrite Hrun. destruct retries; [done | apply IH].
Qed.

(** The completion metric is written inside the guarded block: when its commit
    fails on the last attempt, a completed investigation is marked failed, with
    its answer still in place. *)
Theorem completed_marked_failed (str_exn : pyexn -> string) (id : uuid) (query : string) (a : attempt_env)
    (r : InvestigationRow) (tier : option string) (w : world) (i : Investigation) :
  inv w -> row_with id w = Some i -> str_truthy query = true -> orderly a ->
  g_end (at_graph a) = Finished tier -> g_row (at_graph a) = Some r ->
  db w = [true; true; true; true; false] ->
  exists w' i', rq_run str_exn id (Some query) 0 [a] w = (Ok false, w') /\ row_with id w' = Some i' /\
    i_status i' = "failed" /\ i_answer i' = Some (r_answer r).
Proof.
  intros Hw Hi Hq (Hr & Hj & _) Hg Hrow Hs.
  assert (forall cs w1, inv w1 -> db w1 = true :: cs -> get_investigation_row id w1 = (Ok (row_with id w1), set_script cs w1)) as Hget.
  { intros cs w1 H1 Hcs. apply (lookup_next _ investigations); [done..|]. apply (filter_unique i_id); [done|].
    by intros x y _ _ ->%String.eqb_eq ->%String.eqb_eq. }
  set (w1 := set_script [true; true; true; false] (started a w)).
  set (w2 := set_script [false] (put_status id "complete" (complete_update r) w1)).
  assert (ainvoke_graph id (at_graph a) w1 = (Ok tier, w2)) as Hgraph.
  { unfold ainvoke_graph. rewrite Hrow, M_bind_run. unfold update_investigation_status. rewrite !M_bind_run, (Hget [true; true; false]) by done.
    assert (row_with id w1 = Some i) as -> by exact Hi. rewrite M_bind_run. cbn -[save_refresh].
    unfold save_refresh. rewrite !M_bind_run, (save_next true [true; false]) by done. cbn -[statement].
    rewrite (statement_next true [false]) by done. rewrite Hg. done. }
  assert (ready id (set_script [] w2)) as Hready.
  { split; [|done|].
    - apply (put_status_inv id "complete" (complete_update r) w1). exact Hw.
    - eexists. exact (put_status_row id "complete" (complete_update r) w1 i Hi). }
  eexists _, _. cbn [rq_run]. unfold _async_run_investigation. rewrite M_bind_run, Hr. unfold lift at 1.
  rewrite M_bind_run. cbn -[persist_metric ainvoke_graph on_failure except_exception].
  rewrite M_bind_run. unfold persist_metric at 1. rewrite (save_next true [true; true; true; false]) by done.
  rewrite Hj. change (ostr_truthy (Some query)) with (str_truthy query). rewrite Hq, M_bind_run. unfold mret at 1, M_ret at 1.
  unfold except_exception, try_except. rewrite M_bind_run.
  match goal with |- context[ainvoke_graph id (at_graph a) ?x] => replace x with w1 by (unfold w1, started; by rewrite Hj) end. rewrite Hgraph.
  unfold persist_metric. rewrite (save_next false []) by done. rewrite decide_False by done. rewrite on_failure_run by done.
  split; [reflexivity|]. split; [|split].
  - exact (put_status_row id "failed" _ (set_script [] w2) _ (put_status_row id "complete" (complete_update r) w1 i Hi)).
  - reflexivity.
  - reflexivity.
Qed.

(** Anonymous requests pass; signed-in users must own the investigation or be
    administrators. *)
Definition may_read (user : option User) (i : Investigation) : bool :=
  match user with
  | None => true
  | Some u => has_role u [ADMIN] || bool_decide (i_user_id i = Some (u_id u))
  end.

Lemma check_reader_run user i w :
  check_reader user i w = (if may_read user i then Ok tt else Raise (HTTPException 403 None), w).
Proof.
  destruct user as [u|]; [|done]. unfold check_reader, check_owner_or_role, may_read, lift.
  destruct (has_role u [ADMIN]); [done|]. cbn [orb]. destruct (i_user_id i) as [o|]; [|done].
  destruct (String.eqb_spec o (u_id u)) as [->|Hne]; [by rewrite bool_decide_true|].
  rewrite bool_decide_false; [done | congruence].
Qed.

Lemma readable_run id user k w : inv w -> db w = [] ->
  readable id user k w =
    match row_with id w with
    | None => (Ok (ErrorResponse 404 "investigation_not_found"), w)
    | Some i => if may_read user i then k i w else (Raise (HTTPException 403 None), w)
    end.
Proof.
  intros Hw Hs. unfold readable. rewrite M_bind_run, get_row_run by done. destruct (row_with id w) as [i|]; [|done].
  rewrite M_bind_run, check_reader_run. by destruct (may_read user i).
Qed.

(** Reading an investigation, its trace or its events changes nothing, and the
    three routes decide alike: an unknown id is answered 404, a signed-in user
    who neither owns it nor is an administrator is refused with 403 before any
    of its data is looked at, everyone else is served. *)
Theorem read_access (str : json -> string) (float_of_str : string -> option float) (ping : result pyexn unit)
    (id : uuid) (user : option User) (w : world) :
  inv w -> db w = [] ->
  let guarded (served : Investigation -> result pyexn response) :=
    (match row_with id w with
     | None => Ok (ErrorResponse 404 "investigation_not_found")
     | Some i => if may_read user i then served i else Raise (HTTPException 403 None)
     end, w) in
  get_investigation id user w = guarded (fun i => Ok (StatusBody i)) /\
  get_investigation_trace str float_of_str id user w =
    guarded (fun i => match transform_execution_trace str float_of_str (as_stored i) with
                      | Ok t => Ok (TraceBody t) | Raise e => Raise e end) /\
  stream_investigation_events ping id user w =
    guarded (fun i => Ok (match ping with
                          | Ok _ => EventStream id
                          | Raise _ => ErrorResponse 503 "checkpointer_unavailable" end)).
Proof.
  intros Hw Hs guarded. unfold get_investigation, get_investigation_trace, stream_investigation_events, guarded.
  rewrite !readable_run by done. destruct (row_with id w) as [i|]; [|done].
  destruct (may_read user i); [|done]. split; [done|]. split; [|by destruct ping].
  rewrite M_bind_run. unfold lift. by destruct (transform_execution_trace _ _ _).
Qed.

(** The placeholder row of an accepted request. *)
Definition placeholder (id : uuid) (user_id : option uuid) (query : string) (consent : bool) (now : Z) : Investigation :=
  {| i_id := id; i_user_id := user_id; i_query_text := query; i_complexity_tier := None;
     i_status := "planning"; i_answer := None; i_confidence := None; i_execution_trace := None;
     i_consent_public_research := consent; i_created_at := now; i_completed_at := None |}.

Definition enqueued (id : uuid) (query : string) (retries : Z) (row : Investigation) (w : world) : world :=
  World (investigations w ++ [row]) (metrics w)
    (queue w ++ [{| q_investigation_id := id; q_query := query; q_max_retries := retries |}])
    (background w) (S (drawn w)) (clock w) (db w).

Lemma fresh_insertable id user_id query consent now w : id ∉ map i_id (investigations w) ->
  insertable (placeholder id user_id query consent now) w = true.
Proof.
  intros Hf. apply forallb_forall. intros j Hj%list_elem_of_In. apply negb_true_iff, String.eqb_neq.
  intros E. apply Hf. cbn in E. rewrite <- E. by apply list_elem_of_fmap_2.
Qed.

Lemma create_run uuid4 retries enqueue user query consent w :
  db w = [] -> uuid4 (drawn w) ∉ map i_id (investigations w) ->
  create_investigation uuid4 true retries (Ok tt) (Ok enqueue) user query consent w =
    (Ok (Accepted (uuid4 (drawn w)) ("/api/v1/investigations/" +:+ uuid4 (drawn w) +:+ "/stream")
           ("/api/v1/investigations/" +:+ uuid4 (drawn w))),
     enqueued (uuid4 (drawn w)) query retries (placeholder (uuid4 (drawn w)) (u_id <$> user) query consent (clock w)) w).
Proof.
  intros Hs Hf. unfold create_investigation, create_investigation_row. rewrite !M_bind_run. cbn [draw].
  rewrite !M_bind_run. cbn [read_clock gets]. rewrite !M_bind_run.
  pose proof (fresh_insertable _ (u_id <$> user) query consent (clock w) w Hf) as Hins.
  rewrite save_if_ok by done. match goal with |- context[insertable ?r ?x] => change (insertable r x = true) in Hins end.
  rewrite Hins, M_bind_run, statement_ok by done. done.
Qed.

Lemma enqueued_ready id query retries row w : inv w -> db w = [] -> i_id row = id ->
  id ∉ map i_id (investigations w) ->
  ready id (enqueued id query retries row w) /\ row_with id (enqueued id query retries row w) = Some row.
Proof.
  intros Hw Hs <- Hf.
  assert (row_with (i_id row) (enqueued (i_id row) query retries row w) = Some row) as Hr.
  { unfold row_with, enqueued. cbn. revert Hf. induction (investigations w) as [|j l IH]; intros Hf; cbn.
    - by rewrite String.eqb_refl.
    - cbn in Hf. apply not_elem_of_cons in Hf as [Hne Hf]. rewrite (proj2 (String.eqb_neq _ _)); [by apply IH|congruence]. }
  split; [|done]. split; [|done|by eexists]. unfold inv, enqueued. cbn. rewrite map_app. apply NoDup_app.
  split; [exact Hw|]. split; [|apply NoDup_singleton]. by intros x Hx ->%list_elem_of_singleton.
Qed.

(** Creating, running and reading compose: an accepted request leaves a row in
    planning and one queued job; once RQ has run that job, its creator reads a
    settled investigation, with the query asked, complete with an answer when
    an attempt finished and failed otherwise. *)
Theorem investigation_lifecycle (uuid4 : nat -> uuid) (str_exn : pyexn -> string) (retries : nat) (u : User)
    (query : string) (consent : bool) (envs : list attempt_env) (w : world) :
  inv w -> db w = [] -> uuid4 (drawn w) ∉ map i_id (investigations w) -> str_truthy query = true ->
  length envs = S retries -> Forall orderly envs ->
  let id := uuid4 (drawn w) in
  exists w1 w2 i job,
    create_investigation uuid4 true (Z.of_nat retries) (Ok tt) (Ok tt) (Some u) query consent w =
      (Ok (Accepted id ("/api/v1/investigations/" +:+ id +:+ "/stream") ("/api/v1/investigations/" +:+ id)), w1) /\
    i_status <$> row_with id w1 = Some "planning" /\ queue w1 = queue w ++ [job] /\
    rq_run str_exn (q_investigation_id job) (Some (q_query job)) (Z.to_nat (q_max_retries job)) envs w1 =
      (Ok (existsb finished envs), w2) /\
    get_investigation id (Some u) w2 = (Ok (StatusBody i), w2) /\
    i_query_text i = query /\ i_user_id i = Some (u_id u) /\ i_completed_at i = Some (clock w) /\
    (if existsb finished envs then i_status i = "complete" /\ is_Some (i_answer i) else i_status i = "failed").
Proof.
  intros Hw Hs Hf Hq Hl Ha id. set (row := placeholder id (Some (u_id u)) query consent (clock w)).
  set (w1 := enqueued id query (Z.of_nat retries) row w).
  destruct (enqueued_ready id query (Z.of_nat retries) row w Hw Hs eq_refl Hf) as [Hready Hrow].
  destruct (rq_run_settles str_exn id (Some query) retries envs w1 Hready Hq Hl Ha)
    as (w2 & Hrun & [Hw2 Hs2 _] & (i & Hi & Hc & Hk & Hend) & _).
  exists w1, w2, i, {| q_investigation_id := id; q_query := query; q_max_retries := Z.of_nat retries |}.
  split; [by apply (create_run uuid4 (Z.of_nat retries) tt (Some u))|]. split; [unfold w1; by rewrite Hrow|]. split; [done|].
  split; [by cbn [q_investigation_id q_query q_max_retries]; rewrite Nat2Z.id|].
  injection Hk as _ Hk. unfold w1 in Hk. rewrite Hi, Hrow in Hk. injection Hk as Hu Hqt _.
  unfold get_investigation. rewrite readable_run, Hi by done.
  assert (may_read (Some u) i = true) as ->.
  { unfold may_read. rewrite bool_decide_true by done. apply orb_true_r. }
  split; [done|]. split; [done|]. split; [done|]. split; [exact Hc|].
  rewrite existsb_find. destruct (List.find finished envs) as [a|]; [|by apply Hend].
  destruct Hend as (r & _ & -> & -> & _). by split.
Qed.

(** ** Witnesses *)

Module InvestigationsWitness.
Definition row0 : InvestigationRow :=
  {| r_status := "complete"; r_complexity_tier := "simple"; r_answer := "yes"; r_confidence := float_of_Z 1;
     r_nodes_executed := ["supervisor"; "finalize"]; r_evidence_count := 0; r_replan_count := 0; r_critic_flags := [] |}.
Definition attempt (row : option InvestigationRow) (e : graph_end) : attempt_env :=
  {| at_redis := Ok tt; at_job := true; at_enqueued_at := None; at_graph := {| g_row := row; g_end := e |};
     at_duration := float_of_Z 0 |}.
Definition broken : attempt_env := attempt None (Raised ValueError).
Definition good : attempt_env := attempt (Some row0) (Finished (Some "simple")).
Definition no_redis : attempt_env :=
  {| at_redis := Raise RuntimeError; at_job := true; at_enqueued_at := None;
     at_graph := {| g_row := None; g_end := Killed |}; at_duration := float_of_Z 0 |}.
Definition empty_world : world := World [] [] [] [] 0 7 [].
Definition one_world (cs : list bool) : world := World [placeholder "i" None "q" false 0] [] [] [] 0 7 cs.
Definition uuid4 (n : nat) : uuid := if n is O then "u0" else "u".
Definition owner : User :=
  {| u_id := "o"; u_role := "USER"; u_is_active := true; u_is_verified := true; u_deleted_at := None |}.
Definition no_str (_ : pyexn) : string := "error".

Lemma job_settles_witness : exists w',
  rq_run no_str "i" (Some "q") 1 [broken; good] (one_world []) = (Ok true, w').
Proof.
  destruct (job_settles no_str "i" "q" 1 [broken; good] (one_world [])) as (w' & E & _).
  - apply NoDup_singleton.
  - reflexivity.
  - by eexists.
  - reflexivity.
  - reflexivity.
  - repeat constructor; done.
  - by exists w'.
Defined.

Lemma unreachable_redis_leaves_planning_witness :
  rq_run no_str "i" (Some "q") 0 [no_redis] (one_world []) = (Ok false, one_world []).
Proof. apply unreachable_redis_leaves_planning. repeat constructor. by exists RuntimeError. Defined.

Lemma completed_marked_failed_witness : exists w' i',
  rq_run no_str "i" (Some "q") 0 [good] (one_world [true; true; true; true; false]) = (Ok false, w') /\
  row_with "i" w' = Some i' /\ i_status i' = "failed".
Proof.
  destruct (completed_marked_failed no_str "i" "q" good row0 (Some "simple") (one_world [true; true; true; true; false])
    (placeholder "i" None "q" false 0)) as (w' & i' & H1 & H2 & H3 & _); try reflexivity.
  - apply NoDup_singleton.
  - repeat split; done.
  - by exists w', i'.
Defined.

Lemma read_access_witness :
  get_investigation "x" None (one_world []) = (Ok (ErrorResponse 404 "investigation_not_found"), one_world []).
Proof.
  exact (proj1 (read_access plain_str (fun _ => None) (Ok tt) "x" None (one_world []) (NoDup_singleton _) eq_refl)).
Defined.

Lemma investigation_lifecycle_witness : exists w1 w2 i,
  (create_investigation uuid4 true 0 (Ok tt) (Ok tt) (Some owner) "q" false empty_world).2 = w1 /\
  get_investigation "u0" (Some owner) w2 = (Ok (StatusBody i), w2) /\ i_status i = "complete".
Proof.
  destruct (investigation_lifecycle uuid4 no_str 0 owner "q" false [good] empty_world)
    as (w1 & w2 & i & job & E1 & _ & _ & _ & E2 & _ & _ & _ & E3); try done.
  - apply NoDup_nil_2.
  - apply not_elem_of_nil.
  - repeat constructor; done.
  - exists w1, w2, i. change (Z.of_nat 0) with 0 in E1. rewrite E1. split; [done|]. split; [exact E2|]. apply E3.
Defined.
End InvestigationsWitness.
