(* ===== verification/Research.v ===== *)
(** * Public research data
    ([src/app/api/v1/anonymization.py], [src/app/api/v1/research.py],
    [src/workers/jobs/dataset_export_job.py], [list_research_investigations] of
    [src/db/repository.py])

    What leaves the system for the public: the anonymization policy, the
    read-only listing of completed investigations and hazard events, and the
    monthly export.  Query words are ASCII; [json_text] and [dumps] are the texts
    PostgreSQL and [json] give a document, [str] is Python's. *)

From Stdlib Require Import Ascii.
From stdpp Require Import sorting.
From S2P Require Import Prelude PyFloat PyStr Effects Database AgentIO Gateway Graph Trace Investigations.

(** ** Anonymization policy *)

Definition EXCLUDED_TRACE_KEYS : list string :=
  ["user_id"; "ip_address"; "user_agent"; "client_ip"; "authorization"; "token"; "email"; "password"; "secret";
   "api_key"; "credentials"; "cookie"; "session_id"].

Definition excluded_parts : list string :=
  ["token"; "secret"; "password"; "authorization"; "api_key"; "credentials"; "user_id"; "client_ip"; "user_agent";
   "cookie"; "session_id"].

Definition excluded (key : string) : bool :=
  let key_str := lower key in
  existsb (String.eqb key_str) EXCLUDED_TRACE_KEYS || existsb (fun s => contains s key_str) excluded_parts.

Fixpoint sanitize_execution_trace (trace : json) : json :=
  match trace with
  | JObj d =>
      JObj ((fix fields (d : list (string * json)) : list (string * json) :=
               match d with
               | [] => []
               | (k, v) :: d => if excluded k then fields d else (k, sanitize_execution_trace v) :: fields d
               end) d)
  | JList l => JList (map sanitize_execution_trace l)
  | _ => trace
  end.

(** [re.findall(r"\w+", s)] *)
Fixpoint words_aux (s acc : string) : list string :=
  match s with
  | EmptyString => if str_truthy acc then [acc] else []
  | String c s => if is_word c then words_aux s (acc +:+ String c "")
                  else if str_truthy acc then acc :: words_aux s "" else words_aux s ""
  end.
Definition words (s : string) : list string := words_aux s "".

Definition mentions (query : string) (terms : list string) : bool :=
  existsb (fun w => existsb (String.eqb w) terms) (words (lower query)).

Definition derive_query_category (query : string) (complexity_tier : option string) : string :=
  if mentions query ["earthquake"; "seismic"; "fault"; "tremor"; "magnitude"] then "seismic_research"
  else if mentions query ["wildfire"; "fire"; "burn"; "smoke"; "firms"] then "wildfire_research"
  else if mentions query ["ocean"; "sst"; "marine"; "sea"; "wave"] then "oceanographic_research"
  else if mentions query ["air"; "atmosphere"; "co2"; "emissions"; "pm25"; "ozone"] then "atmospheric_research"
  else match complexity_tier with
       | Some tier => if str_truthy tier then tier +:+ "_environmental_research" else "general_environmental_research"
       | None => "general_environmental_research"
       end.

Record ResearchInvestigationResponse := {
  ri_investigation_id : uuid;
  ri_query_category : string;
  ri_domains_involved : list string;
  ri_complexity_tier : option string;
  ri_confidence_summary : option float;
  ri_consent_public_research : bool;
  ri_query_text : option string;
  ri_execution_trace : option json;
  ri_created_at : string;
  ri_completed_at : option string;
}.

Definition attribute_error : pyexn := OtherError "AttributeError".

Section policy.
Variable str : json -> string.
Variable isoformat : Z -> string.
Variable numeric : float -> float.       (* a [Numeric(3, 2)] value, read back *)

Definition extract_domains_involved (execution_trace : option json) : result pyexn (list string) :=
  match execution_trace with
  | None => Ok []
  | Some t =>
      if negb (jtruthy t) then Ok [] else
      match t with
      | JObj d =>
          match jor (jor (get "domains" d) (get "active_agents" d)) (JList []) with
          | JList l => Ok (map str l)
          | j => Ok [str j]
          end
      | _ => Raise attribute_error
      end
  end.

Definition apply (i : Investigation) : result pyexn ResearchInvestigationResponse :=
  domains ← extract_domains_involved (i_execution_trace i);
  Ok {| ri_investigation_id := i_id i;
        ri_query_category := derive_query_category (i_query_text i) (i_complexity_tier i);
        ri_domains_involved := domains;
        ri_complexity_tier := i_complexity_tier i;
        ri_confidence_summary := numeric <$> i_confidence i;
        ri_consent_public_research := i_consent_public_research i;
        ri_query_text := if i_consent_public_research i then Some (i_query_text i) else None;
        ri_execution_trace := sanitize_execution_trace <$> i_execution_trace i;
        ri_created_at := isoformat (i_created_at i);
        ri_completed_at := isoformat <$> i_completed_at i |}.
End policy.

(** ** Tables, files and storage *)

Record HazardEvent := {
  h_id : uuid;
  h_event_type : string;
  h_region_label : option string;
  h_event_date : Z;
  h_details : option string;
  h_source : option string;
  h_external_id : option string;
  h_created_at : Z;
}.

(** [uploads_ok] says which of the coming uploads succeed, like [db] for statements. *)
Record world := World {
  investigations : list Investigation;
  hazard_events : list HazardEvent;
  files : list (string * string);        (* the export directory *)
  storage : list (string * string);      (* the storage backend *)
  clock : Z;
  uploads_ok : list bool;
  db : list bool;
}.

#[global] Program Instance research_db : Db world := {|
  script := db;
  set_script cs w := World (investigations w) (hazard_events w) (files w) (storage w) (clock w) (uploads_ok w) cs;
|}.
Solve All Obligations with by intros [].

(** ** Listing *)

(** SQL's [LIKE] with [%], [_] and the escape character. *)
Fixpoint like (pattern s : string) : bool :=
  match pattern with
  | EmptyString => match s with EmptyString => true | _ => false end
  | String "%"%char p =>
      (fix any (s : string) : bool := like p s || match s with EmptyString => false | String _ s => any s end) s
  | String "\"%char (String c p) => match s with String d s => Ascii.eqb c d && like p s | EmptyString => false end
  | String "_"%char p => match s with String _ s => like p s | EmptyString => false end
  | String c p => match s with String d s => Ascii.eqb c d && like p s | EmptyString => false end
  end.
Definition ilike (s pattern : string) : bool := like (lower pattern) (lower s).

Section listing.
Variable json_text : json -> string.

Definition domain_matches (domain : string) (i : Investigation) : bool :=
  let pattern := "%" +:+ domain +:+ "%" in
  match i_execution_trace i with
  | Some (JObj d) => match assoc "domains" d with
                     | Some JNull | None => false
                     | Some j => ilike (json_text j) pattern
                     end
  | _ => false
  end ||
  match i_complexity_tier i with Some tier => ilike tier pattern | None => false end.

Definition newer (i j : Investigation) : Prop := i_created_at j <= i_created_at i.
#[global] Instance newer_dec : RelDecision newer.
Proof. intros i j. unfold newer. apply _. Defined.

Definition selected (domain : option string) (since : option Z) (i : Investigation) : bool :=
  String.eqb (i_status i) "complete" &&
  match since with Some t => t <=? i_created_at i | None => true end &&
  match domain with Some d => if str_truthy d then domain_matches d i else true | None => true end.

Definition page {A} (limit offset : Z) (l : list A) : list A := take (Z.to_nat limit) (drop (Z.to_nat offset) l).

Definition list_research_investigations (domain : option string) (since : option Z) (limit offset : Z)
    : M world (list Investigation) :=
  select (fun w => page limit offset (merge_sort newer (List.filter (selected domain since) (investigations w)))).

(** *** Routes; the bounds on [limit] and [offset] are those of the query parameters. *)

Inductive response :=
| Disabled                               (* 503, [public_research_api_disabled] *)
| Findings (l : list ResearchInvestigationResponse)
| HazardEvents (l : list HazardEvent).

Variable str : json -> string.
Variable isoformat : Z -> string.
Variable numeric : float -> float.

Definition list_public_research_investigations (enabled : bool) (domain : option string) (since : option Z)
    (limit offset : Z) : M world response :=
  if negb enabled then mret Disabled else
  list_research_investigations domain since limit offset ≫= fun l =>
  lift (result_mapM (apply str isoformat numeric) l) ≫= fun rs => mret (Findings rs).

Definition later (a b : HazardEvent) : Prop := h_event_date b <= h_event_date a.
#[global] Instance later_dec : RelDecision later.
Proof. intros a b. unfold later. apply _. Defined.

(** [if x: stmt.where(column == x)] *)
Definition given (x column : option string) : bool :=
  match x with Some s => if str_truthy s then bool_decide (column = Some s) else true | None => true end.

Definition list_public_hazard_events (enabled : bool) (event_type source : option string) (limit offset : Z)
    : M world response :=
  if negb enabled then mret Disabled else
  select (fun w => page limit offset (merge_sort later
    (List.filter (fun e => given event_type (Some (h_event_type e)) && given source (h_source e)) (hazard_events w)))) ≫= fun l =>
  mret (HazardEvents l).
End listing.

(** ** Dataset export *)

(** The settings of the job, and the session factory of [db.session]: the one
    this module imported when it was loaded, the one set when the job runs, and
    the one after [init_engine], which may raise. *)
Record export_settings := {
  dataset_export_enabled : bool;
  export_database_url : bool;
  imported_factory : bool;
  current_factory : bool;
  init_engine_factory : result pyexn bool;
}.


Section export.
Variable str : json -> string.
Variable isoformat : Z -> string.
Variable numeric : float -> float.
Variable dumps : json -> string.         (* [json.dumps] *)
Variable dump_indent2 : json -> string.  (* [json.dump(..., indent=2)] *)
Variable sha256 : string -> string.
Variable gzip : string -> string.        (* the bytes of a compressed file *)
Variable strftime : Z -> string.         (* [%Y%m%d_%H%M%S] *)
(** The order in which the server returns rows without [ORDER BY]. *)
Variable scan_investigations : list Investigation -> list Investigation.
Variable scan_hazards : list HazardEvent -> list HazardEvent.
Variable settings : export_settings.











End export.

(** ** Lemmas *)

Definition kept_fields (d : fields) : fields :=
  map (fun kv => (kv.1, sanitize_execution_trace kv.2)) (List.filter (fun kv => negb (excluded kv.1)) d).

Lemma sanitize_obj d : sanitize_execution_trace (JObj d) = JObj (kept_fields d).
Proof.
  cbn. f_equal. unfold kept_fields. induction d as [|[k v] d IH]; cbn; [done|].
  destruct (excluded k); cbn; by rewrite IH.
Qed.

Lemma kept_lookup k d :
  assoc k (kept_fields d) = if excluded k then None else sanitize_execution_trace <$> assoc k d.
Proof.
  unfold kept_fields. induction d as [|[k' v] d IH]; cbn.
  - by destruct (excluded k).
  - destruct (String.eqb_spec k k') as [<-|Hne].
    + destruct (excluded k); cbn; [done|]. by rewrite String.eqb_refl.
    + destruct (excluded k'); cbn; [done|]. by rewrite (proj2 (String.eqb_neq _ _) Hne).
Qed.

Lemma sanitize_idem j : sanitize_execution_trace (sanitize_execution_trace j) = sanitize_execution_trace j.
Proof.
  revert j. apply json_ind_nested; [intros d IH | intros l IH | by intros []].
  - rewrite !sanitize_obj. f_equal. unfold kept_fields.
    induction IH as [|[k v] d Hv _ IHd]; [done|]. cbn in Hv |- *. destruct (excluded k) eqn:E; cbn; [done|].
    rewrite E. cbn. by rewrite Hv, IHd.
  - cbn. f_equal. rewrite map_map. by apply map_ext_Forall.
Qed.

(** Positions in a document. *)
Inductive step := Key (k : string) | Index (n : nat).

Fixpoint at_path (p : list step) (j : json) : option json :=
  match p with
  | [] => Some j
  | Key k :: p => match j with JObj d => assoc k d ≫= at_path p | _ => None end
  | Index n :: p => match j with JList l => l !! n ≫= at_path p | _ => None end
  end.

Definition private (s : step) : bool := match s with Key k => excluded k | Index _ => false end.

(** ** Properties *)

(** Sanitization removes exactly the private fields: below a key that is
    excluded, at any depth, nothing is left; every other position keeps its
    (sanitized) value, so leaves and list positions are unchanged. *)
Theorem sanitized_trace_exact (p : list step) (trace : json) :
  at_path p (sanitize_execution_trace trace) =
    if existsb private p then None else sanitize_execution_trace <$> at_path p trace.
Proof.
  revert trace. induction p as [|[k|n] p IH]; intros trace; [done| |]; cbn [existsb private orb].
  - destruct trace as [| | | | | |d]; try by cbn; destruct (excluded k || _).
    rewrite sanitize_obj. cbn [at_path]. rewrite kept_lookup. destruct (excluded k); [done|]. destruct (assoc k d); cbn; [apply IH|]. by destruct (existsb private p).
  - destruct trace as [| | | | |l|]; try by cbn; destruct (existsb private p).
    cbn [at_path sanitize_execution_trace].
    change (map sanitize_execution_trace l) with (sanitize_execution_trace <$> l). rewrite list_lookup_fmap.
    destruct (l !! n); cbn; [apply IH|]. by destruct (existsb private p).
Qed.

Lemma private_path_gone p trace : (exists x, In x p /\ private x = true) ->
  at_path p (sanitize_execution_trace trace) = None.
Proof. intros Hp. by rewrite sanitized_trace_exact, (proj2 (existsb_exists _ _) Hp). Qed.

(** *** What is private, independently of the sanitizer *)

(** A field whose name, in lower case, contains one of these words, or is an
    address. *)
Definition sensitive (key : string) : Prop :=
  lower key = "ip_address" \/ lower key = "email" \/
  exists word before after, lower key = before +:+ word +:+ after /\
    word ∈ ["token"; "secret"; "password"; "authorization"; "api_key"; "credentials"; "user_id"; "client_ip";
            "user_agent"; "cookie"; "session_id"].

(** Two documents agree but for sensitive fields, which either may have or lack,
    at any depth, inside lists too. *)
Inductive same_public : json -> json -> Prop :=
| same_leaf j : match j with JObj _ | JList _ => False | _ => True end -> same_public j j
| same_list l m : same_items l m -> same_public (JList l) (JList m)
| same_obj d e : same_fields d e -> same_public (JObj d) (JObj e)
with same_items : list json -> list json -> Prop :=
| same_items_nil : same_items [] []
| same_items_cons v w l m : same_public v w -> same_items l m -> same_items (v :: l) (w :: m)
with same_fields : fields -> fields -> Prop :=
| same_fields_nil : same_fields [] []
| same_field k v w d e : ~ sensitive k -> same_public v w -> same_fields d e -> same_fields ((k, v) :: d) ((k, w) :: e)
| private_left k v d e : sensitive k -> same_fields d e -> same_fields ((k, v) :: d) e
| private_right k v d e : sensitive k -> same_fields d e -> same_fields d ((k, v) :: e).

Scheme same_public_mind := Induction for same_public Sort Prop
  with same_items_mind := Induction for same_items Sort Prop
  with same_fields_mind := Induction for same_fields Sort Prop.

Lemma excluded_sensitive key : excluded key = true <-> sensitive key.
Proof.
  unfold excluded, sensitive. rewrite orb_true_iff, !existsb_exists. split.
  - intros [(x & Hx & ->%String.eqb_eq)|(x & Hx & (a & b & E)%contains_spec)].
    + cbn in Hx. destruct Hx as [<-|[<-|[<-|[<-|[<-|[<-|[<-|[<-|[<-|[<-|[<-|[<-|[<-|[]]]]]]]]]]]]]]; try (by left); try (by right; left).
      all: right; right; eexists _, "", ""; split; [by rewrite append_nil_r|]; by apply list_elem_of_In; cbn; tauto.
    + right; right. exists x, a, b. split; [done|]. by apply list_elem_of_In.
  - intros [E|[E|(x & a & b & E & Hx)]].
    + left. exists "ip_address". rewrite E. by split; [cbn; tauto|].
    + left. exists "email". rewrite E. by split; [cbn; tauto|].
    + right. exists x. split; [by apply list_elem_of_In|]. apply contains_spec. by exists a, b.
Qed.

Lemma excluded_false key : excluded key = false <-> ~ sensitive key.
Proof. rewrite <- excluded_sensitive. by destruct (excluded key). Qed.

(** Sensitive fields do not influence the sanitized trace. *)
Lemma same_public_sanitized j j' : same_public j j' -> sanitize_execution_trace j = sanitize_execution_trace j'.
Proof.
  revert j j'. apply (same_public_mind (fun j j' _ => sanitize_execution_trace j = sanitize_execution_trace j')
    (fun l m _ => map sanitize_execution_trace l = map sanitize_execution_trace m)
    (fun d e _ => kept_fields d = kept_fields e)).
  - done.
  - intros l m _ IH. cbn. by rewrite IH.
  - intros d e _ IH. by rewrite !sanitize_obj, IH.
  - done.
  - intros v w l m _ Hv _ IH. cbn. by rewrite Hv, IH.
  - done.
  - intros k v w d e Hk%excluded_false _ Hv _ IH. unfold kept_fields in *. cbn. rewrite Hk. cbn. by rewrite Hv, IH.
  - intros k v d e Hk%excluded_sensitive _ IH. unfold kept_fields in *. cbn. by rewrite Hk.
  - intros k v d e Hk%excluded_sensitive _ IH. unfold kept_fields in *. cbn. by rewrite Hk.
Qed.

(** Nothing but sensitive fields is removed. *)
Lemma sanitized_same_public j : same_public j (sanitize_execution_trace j).
Proof.
  revert j. apply json_ind_nested; [intros d IH | intros l IH | by intros []; try done; apply same_leaf].
  - rewrite sanitize_obj. apply same_obj. unfold kept_fields. induction IH as [|[k v] d Hv _ IHd]; [constructor|]. cbn in *.
    destruct (excluded k) eqn:E; cbn.
    + by apply private_left; [apply excluded_sensitive|].
    + by apply same_field; [apply excluded_false|..].
  - apply same_list. cbn. by induction IH; cbn; constructor.
Qed.

(** What two investigations must share to look alike: everything public, and
    traces that differ at most in sensitive fields. *)
Record alike (i j : Investigation) : Prop := {
  al_id : i_id i = i_id j;
  al_tier : i_complexity_tier i = i_complexity_tier j;
  al_confidence : i_confidence i = i_confidence j;
  al_consent : i_consent_public_research i = i_consent_public_research j;
  al_created : i_created_at i = i_created_at j;
  al_completed : i_completed_at i = i_completed_at j;
  al_trace : match i_execution_trace i, i_execution_trace j with
             | None, None => True
             | Some (JObj d), Some (JObj e) =>
                 same_public (JObj d) (JObj e) /\ get "domains" d = get "domains" e /\
                 get "active_agents" d = get "active_agents" e
             | _, _ => False
             end;
}.

Lemma extract_obj str d : extract_domains_involved str (Some (JObj d)) =
  match jor (jor (get "domains" d) (get "active_agents" d)) (JList []) with
  | JList l => Ok (map str l)
  | j => Ok [str j]
  end.
Proof. by destruct d. Qed.

(** C24. Without consent nothing but the category of the query is published: two
    investigations that agree on public data, on the category and on the domains
    their traces name give the same record, whoever asked, whatever was asked and
    answered and whatever fields with sensitive names the traces hold, at any
    depth and inside lists; the published trace has no field below a sensitive
    name and lacks nothing else; and given the tier there are five categories.
    With consent the query is published as it was asked. *)
Theorem anonymized_noninterference (str : json -> string) (isoformat : Z -> string) (numeric : float -> float)
    (i j : Investigation) :
  alike i j ->
  derive_query_category (i_query_text i) (i_complexity_tier i) =
    derive_query_category (i_query_text j) (i_complexity_tier j) ->
  (i_consent_public_research i = false -> apply str isoformat numeric i = apply str isoformat numeric j) /\
  (forall r t, apply str isoformat numeric i = Ok r -> i_execution_trace i = Some t ->
     exists t', ri_execution_trace r = Some t' /\ same_public t t' /\
       forall p k, Key k ∈ p -> sensitive k -> at_path p t' = None) /\
  (forall r, apply str isoformat numeric i = Ok r ->
     ri_query_text r = if i_consent_public_research i then Some (i_query_text i) else None) /\
  derive_query_category (i_query_text i) (i_complexity_tier i) ∈
    ["seismic_research"; "wildfire_research"; "oceanographic_research"; "atmospheric_research";
     derive_query_category "" (i_complexity_tier i)].
Proof.
  intros [H1 H2 H3 H4 H5 H6 H7] Hc. split_and!.
  - intros Hno. unfold apply. rewrite Hc, <- H1, <- H2, <- H3, <- H5, <- H6, <- H4, Hno.
    destruct (i_execution_trace i) as [[| | | | | |d]|], (i_execution_trace j) as [[| | | | | |e]|]; try done.
    destruct H7 as (Hk & Hd & Ha). rewrite !extract_obj, Hd, Ha.
    cbn [fmap option_fmap option_map]. by rewrite (same_public_sanitized _ _ Hk).
  - intros r t (ds & _ & [= <-])%result_bind_ok Ht. rewrite Ht. eexists. split; [done|].
    split; [apply sanitized_same_public|]. intros p k Hp Hk. apply private_path_gone. exists (Key k).
    split; [by apply list_elem_of_In | by apply excluded_sensitive].
  - intros r (ds & _ & [= <-])%result_bind_ok. done.
  - rewrite !elem_of_cons. unfold derive_query_category at 1 2 3 4 5.
    destruct (mentions _ _); [by left|]. destruct (mentions _ _); [by right; left|].
    destruct (mentions _ _); [by do 2 right; left|]. destruct (mentions _ _); [by do 3 right; left|].
    by do 4 right; left.
Qed.

(** The domains are read from the trace before it is sanitized: an entry of
    ['domains'] that is a document is published as it is, token included. *)
Theorem domains_are_not_sanitized (str : json -> string) (isoformat : Z -> string) (numeric : float -> float)
    (i : Investigation) (secret : json) :
  i_execution_trace i = Some (JObj [("domains", JList [JObj [("token", secret)]])]) ->
  exists r, apply str isoformat numeric i = Ok r /\ ri_domains_involved r = [str (JObj [("token", secret)])].
Proof. intros Ht. unfold apply. rewrite Ht. by eexists. Qed.

(** The public listing: on a healthy database there is one ordering of the
    selected investigations, newest first, and every page is the stretch asked
    for, each row anonymized; only completed investigations appear.  A trace
    that is not an object fails its page. *)
Theorem research_listing_exact (json_text str : json -> string) (isoformat : Z -> string) (numeric : float -> float)
    (domain : option string) (since : option Z) (w : world) : db w = [] ->
  exists rows, Sorted newer rows /\
    rows ≡ₚ List.filter (selected json_text domain since) (investigations w) /\
    (forall i, i ∈ rows -> i_status i = "complete") /\
    forall limit offset,
      list_public_research_investigations json_text str isoformat numeric true domain since limit offset w =
        (match result_mapM (apply str isoformat numeric) (page limit offset rows) with
         | Ok rs => Ok (Findings rs)
         | Raise e => Raise e
         end, w).
Proof.
  intros Hs. exists (merge_sort newer (List.filter (selected json_text domain since) (investigations w))).
  split; [apply Sorted_merge_sort; intros a b; unfold newer; lia|]. split; [apply merge_sort_Permutation|]. split.
  - intros i. rewrite merge_sort_Permutation. intros [_ Hi]%elem_of_filter_bool. unfold selected in Hi.
    apply andb_true_iff in Hi as [[Hi _]%andb_true_iff _]. by apply String.eqb_eq.
  - intros limit offset. unfold list_public_research_investigations, list_research_investigations. cbn [negb].
    rewrite M_bind_run, select_ok, M_bind_run by done. unfold lift. by destruct (result_mapM _ _).
Qed.

(** The rows the graph stores name no domains: their public record lists none,
    and a domain filter sees them only through the complexity tier. *)
Theorem stored_rows_have_no_domains (json_text str : json -> string) (isoformat : Z -> string)
    (numeric : float -> float) (i : Investigation) (r : InvestigationRow) (domain : string) :
  i_execution_trace i = Some (stored_trace r) ->
  (exists record, apply str isoformat numeric i = Ok record /\ ri_domains_involved record = []) /\
  domain_matches json_text domain i =
    match i_complexity_tier i with Some tier => ilike tier ("%" +:+ domain +:+ "%") | None => false end.
Proof.
  intros Ht. split; [|unfold domain_matches; by rewrite Ht].
  unfold apply. rewrite Ht. unfold stored_trace. rewrite extract_obj. by eexists.
Qed.

(** *** The export *)

Section export_run.
Variable isoformat : Z -> string.
Variable dumps : json -> string.
Variable gzip : string -> string.







End export_run.



Section publication.
Variables (str : json -> string) (isoformat : Z -> string) (numeric : float -> float) (dumps dump_indent2 : json -> string).
Variables (sha256 gzip : string -> string) (strftime : Z -> string).

Variable scan_investigations : list Investigation -> list Investigation.
Variable scan_hazards : list HazardEvent -> list HazardEvent.
Hypothesis scan_investigations_rows : forall l, scan_investigations l ≡ₚ l.
Hypothesis scan_hazards_rows : forall l, scan_hazards l ≡ₚ l.









End publication.


(** ** Witnesses *)

Module ResearchWitness.
Definition row (user : option uuid) (query : string) (secret : string) : Investigation :=
  {| i_id := "i"; i_user_id := user; i_query_text := query; i_complexity_tier := Some "simple"; i_status := "complete";
     i_answer := Some query; i_confidence := None;
     i_execution_trace := Some (JObj [("domains", JList [JStr "ocean"]); ("Auth_Token", JStr secret)]);
     i_consent_public_research := false; i_created_at := 1; i_completed_at := None |}.
Definition iso (_ : Z) : string := "t".
Definition num (x : float) : float := x.
Definition w0 : world := World [row None "sea" "x"] [] [] [] 0 [] [].

Lemma anonymized_noninterference_witness :
  apply plain_str iso num (row (Some "ada") "Is the sea warm?" "key-1") = apply plain_str iso num (row None "High wave" "key-2").
Proof.
  refine (proj1 (anonymized_noninterference plain_str iso num (row (Some "ada") "Is the sea warm?" "key-1")
    (row None "High wave" "key-2") _ _) eq_refl).
  - assert (sensitive "Auth_Token") as Hs by (apply excluded_sensitive; by vm_compute).
    split; try done. cbn [row i_execution_trace]. split; [|done]. apply same_obj, same_field.
    + apply excluded_false. by vm_compute.
    + apply same_list. constructor; [by apply same_leaf | constructor].
    + apply private_left, private_right; [done..|constructor].
  - by vm_compute.
Defined.

Definition enabled : export_settings :=
  {| dataset_export_enabled := true; export_database_url := true; imported_factory := false; current_factory := false;
     init_engine_factory := Ok true |}.


Lemma research_listing_exact_witness : exists rows,
  rows ≡ₚ [row None "sea" "x"] /\
  (list_public_research_investigations plain_str plain_str iso num true None None 50 0 w0).2 = w0.
Proof.
  destruct (research_listing_exact plain_str plain_str iso num None None w0 eq_refl) as (rows & _ & Hp & _ & Hl).
  exists rows. split; [exact Hp|]. by rewrite Hl.
Defined.

Definition stored : InvestigationRow := InvestigationsWitness.row0.
Definition stored_row : Investigation :=
  set_status "complete" (complete_update stored) 2 (row None "sea" "x").

Lemma stored_rows_have_no_domains_witness : domain_matches plain_str "ocean" stored_row = false.
Proof. exact (proj2 (stored_rows_have_no_domains plain_str plain_str iso num stored_row stored "ocean" eq_refl)). Defined.
End ResearchWitness.
