(* ===== verification/EvalHarness.v ===== *)
(** * Evaluation harness
    ([src/eval/metrics/], [src/eval/harness/])

    Benchmark metrics (expected calibration error, retrieval precision), scoring
    of questions and suites, the suite runner over its two tables, the
    synchronization of questions and the regression gate of the CI.  Run results
    have the types the scorer documents; [uuid.UUID] and [uuid5] are parameters. *)

From stdpp Require Import sorting.
From S2P Require Import Prelude PyFloat PyStr Effects Database AgentIO.

(** ** Metrics *)

Definition calculate_retrieval_precision (retrieved_chunk_ids relevant_chunk_ids : list string) : float :=
  match retrieved_chunk_ids with
  | [] => f0
  | _ => int_truediv (Z.of_nat (length (List.filter (fun c => existsb (String.eqb c) relevant_chunk_ids) retrieved_chunk_ids)))
           (Pos.of_nat (length retrieved_chunk_ids))
  end.

(** The bounds of bin [i]. *)
Definition bin_size (n_bins : positive) : float := fdiv f1 (float_of_Z (Zpos n_bins)).
Definition bin_lower (n_bins : positive) (i : nat) : float := fmul (float_of_Z (Z.of_nat i)) (bin_size n_bins).
Definition bin_upper (n_bins : positive) (i : nat) : float := fadd (bin_lower n_bins i) (bin_size n_bins).

Definition in_bin (n_bins : positive) (i : nat) (c : float) : bool :=
  fleb (bin_lower n_bins i) c &&
  (if (i =? pred (Pos.to_nat n_bins))%nat then fleb c (bin_upper n_bins i) else fltb c (bin_upper n_bins i)).

Definition bin_error (n_bins : positive) (predictions : list (float * bool)) (i : nat) : option float :=
  match List.filter (fun p => in_bin n_bins i p.1) predictions with
  | [] => None
  | members =>
      let len := float_of_Z (Z.of_nat (length members)) in
      let avg_conf := fdiv (fsum (map fst members)) len in
      let avg_acc := int_truediv (Z.of_nat (length (List.filter snd members))) (Pos.of_nat (length members)) in
      Some (fmul (int_truediv (Z.of_nat (length members)) (Pos.of_nat (length predictions)))
              (SFabs (fsub avg_conf avg_acc)))
  end.

Definition calculate_calibration (predictions : list (float * bool)) (n_bins : positive) : result pyexn float :=
  match predictions with
  | [] => Raise ValueError
  | _ => Ok (fold_left (fun ece i => match bin_error n_bins predictions i with
                                     | Some x => fadd ece x
                                     | None => ece
                                     end) (seq 0 (Pos.to_nat n_bins)) f0)
  end.

(** ** Scoring ([scorer.py]) *)

(** What the runner reports for a question; an evidence item by its [chunk_id]. *)
Record run_result := {
  rr_confidence : option float;
  rr_is_correct : option bool;
  rr_evidence : option (list (option string));
}.

Record question_metrics := {
  qm_status : string;
  qm_error : option string;
  qm_confidence : option float;
  qm_is_correct : option bool;
  qm_retrieval_precision : option float;
  qm_retrieval_precision_status : option string;
}.

Record suite_metrics := {
  sm_ece : option float;
  sm_ece_n_predictions : nat;
  sm_calibration_status : string;
  sm_mean_retrieval_precision : option float;
  sm_precision_n_questions : nat;
  sm_precision_status : string;
}.

Definition judgments := list (uuid * list string).

(** [RELEVANCE_JUDGMENTS] *)
Definition RELEVANCE_JUDGMENTS : judgments := [].

Definition score_result (js : judgments) (question : uuid) (r : run_result) : option float * question_metrics :=
  let evidence_items := default [] (rr_evidence r) in
  let retrieved_chunk_ids := omap id evidence_items in
  let '(precision, status) :=
    match evidence_items with
    | [] => (None, "no_evidence_retrieved")
    | _ =>
        match assoc question js with
        | None => (None, "no_relevance_judgment")
        | Some relevant =>
            match retrieved_chunk_ids with
            | [] => (None, "no_evidence_retrieved")
            | _ => (Some (calculate_retrieval_precision retrieved_chunk_ids relevant), "computed")
            end
        end
    end in
  (None, {| qm_status := "scored"; qm_error := None; qm_confidence := rr_confidence r; qm_is_correct := rr_is_correct r;
            qm_retrieval_precision := precision; qm_retrieval_precision_status := Some status |}).

Definition calibration_pair (m : question_metrics) : option (float * bool) :=
  match qm_confidence m, qm_is_correct m with
  | Some c, Some a => Some (c, a)
  | _, _ => None
  end.

Definition score_suite (per_question_metrics : list question_metrics) : result pyexn suite_metrics :=
  let calibration_pairs := omap calibration_pair per_question_metrics in
  calibration ← match calibration_pairs with
                | [] => Ok (None, "insufficient_data")
                | _ => ece ← calculate_calibration calibration_pairs 10; Ok (Some ece, "computed")
                end;
  let precision_values := omap qm_retrieval_precision per_question_metrics in
  let mean_precision := match precision_values with
                        | [] => None
                        | _ => Some (fdiv (fsum precision_values) (float_of_Z (Z.of_nat (length precision_values))))
                        end in
  Ok {| sm_ece := calibration.1; sm_ece_n_predictions := length calibration_pairs;
        sm_calibration_status := calibration.2; sm_mean_retrieval_precision := mean_precision;
        sm_precision_n_questions := length precision_values;
        sm_precision_status := match mean_precision with Some _ => "computed" | None => "insufficient_data" end |}.

(** ** Tables *)

Record EvalBenchmarkQuestion := {
  q_id : uuid;
  q_question_text : string;
  q_expected_domains : list string;
  q_expected_complexity : string;
  q_reference_answer : string;
  q_reference_evidence : json;
}.

Record EvalBenchmarkRun := {
  b_question_id : uuid;
  b_orchestrator_version : string;
  b_score : option float;
  b_metrics : question_metrics;
  b_suite : suite_metrics;
  b_run_at : Z;
}.

Record world := World {
  questions : list EvalBenchmarkQuestion;
  runs : list EvalBenchmarkRun;
  clock : Z;
  db : list bool;
}.

#[global] Program Instance eval_db : Db world := {|
  script := db;
  set_script cs w := World (questions w) (runs w) (clock w) cs;
|}.
Solve All Obligations with by intros [].

(** ** The suite runner ([runner.py]) *)

Record BenchmarkQuestionResult := {
  br_question_id : uuid;
  br_orchestrator_version : string;
  br_score : option float;
}.

Record BenchmarkSuiteResult := {
  bs_orchestrator_version : string;
  bs_results : list BenchmarkQuestionResult;
  bs_total_questions : nat;
  bs_successful_runs : nat;
}.

Definition run_stub_benchmark (q : EvalBenchmarkQuestion) : result pyexn run_result :=
  Ok {| rr_confidence := None; rr_is_correct := None; rr_evidence := Some [] |}.

Definition failed_metrics (error : string) : question_metrics :=
  {| qm_status := "failed"; qm_error := Some error; qm_confidence := None; qm_is_correct := None;
     qm_retrieval_precision := None; qm_retrieval_precision_status := None |}.

Section runner.
Variable str_exn : pyexn -> string.
Variable run_benchmark : EvalBenchmarkQuestion -> result pyexn run_result.
Variable js : judgments.

(** One question: its score, metrics, and whether it ran. *)
Definition run_question (q : EvalBenchmarkQuestion) : EvalBenchmarkQuestion * option float * question_metrics * bool :=
  match run_benchmark q with
  | Ok r => let '(score, metrics) := score_result js (q_id q) r in (q, score, metrics, true)
  | Raise e => (q, None, failed_metrics (str_exn e), false)
  end.

Definition _run_suite (orchestrator_version : string) : M world BenchmarkSuiteResult :=
  select questions ≫= fun qs =>
  let collected := map run_question qs in
  lift (score_suite (map (fun '(_, _, m, _) => m) collected)) ≫= fun suite =>
  gets clock ≫= fun now =>
  let rows := map (fun '(q, score, m, _) =>
    {| b_question_id := q_id q; b_orchestrator_version := orchestrator_version; b_score := score; b_metrics := m;
       b_suite := suite; b_run_at := now |}) collected in
  (match qs with
   | [] => mret tt
   | _ => save (fun w => World (questions w) (runs w ++ rows) (clock w) (db w))
   end) ≫= fun _ =>
  mret {| bs_orchestrator_version := orchestrator_version;
          bs_results := map (fun b => {| br_question_id := b_question_id b; br_orchestrator_version := b_orchestrator_version b;
                                         br_score := b_score b |}) rows;
          bs_total_questions := length qs;
          bs_successful_runs := length (List.filter (fun '(_, _, _, ok) => ok) collected) |}.
End runner.

Definition run_benchmark_suite (str_exn : pyexn -> string) : string -> M world BenchmarkSuiteResult :=
  _run_suite str_exn run_stub_benchmark RELEVANCE_JUDGMENTS.

Definition fresher (a b : EvalBenchmarkRun) : Prop := b_run_at b <= b_run_at a.
#[global] Instance fresher_dec : RelDecision fresher.
Proof. intros a b. unfold fresher. apply _. Defined.

Section baseline.
Variable numeric : float -> float.       (* a [Numeric(3, 2)] score, read back *)

Definition _fetch_baseline_by_version (current_version : option string) : M world (option BenchmarkSuiteResult) :=
  select (fun w => map b_orchestrator_version (merge_sort fresher
    (List.filter (fun b => match current_version with
                           | Some v => if str_truthy v then negb (String.eqb (b_orchestrator_version b) v) else true
                           | None => true
                           end) (runs w)))) ≫= fun versions_res =>
  (match versions_res with
   | v :: _ => mret (Some v)
   | [] => select (fun w => b_orchestrator_version <$> head (merge_sort fresher (runs w)))
   end) ≫= fun target =>
  match target with
  | None => mret None
  | Some target_version =>
      select (fun w => List.filter (fun b => String.eqb (b_orchestrator_version b) target_version) (runs w)) ≫= fun rows =>
      match rows with
      | [] => mret None
      | _ =>
          let results := map (fun b => {| br_question_id := b_question_id b;
            br_orchestrator_version := b_orchestrator_version b; br_score := numeric <$> b_score b |}) rows in
          mret (Some {| bs_orchestrator_version := target_version; bs_results := results;
                        bs_total_questions := length results;
                        bs_successful_runs := length (List.filter (fun r => match br_score r with Some _ => true | None => false end) results) |})
      end
  end.
End baseline.

(** ** Regression gate ([ci_gate.py]) *)

Record question_item := {
  it_id : option string;
  it_question_text : option string;
  it_expected_domains : option (list string);
  it_expected_complexity : option string;
  it_reference_answer : option string;
  it_reference_evidence : option json;
}.

Section sync.
Variable parse_uuid : string -> option uuid.   (* [uuid.UUID(s)] *)
Variable uuid5 : string -> uuid.               (* in the benchmark namespace *)
Variable uuid4 : nat -> uuid.                  (* the random id of the n-th item *)

Definition get_deterministic_question_id (raw_id : string) : uuid :=
  match parse_uuid raw_id with Some u => u | None => uuid5 raw_id end.

Definition item_question (n : nat) (item : question_item) : EvalBenchmarkQuestion :=
  {| q_id := get_deterministic_question_id (default (uuid4 n) (it_id item));
     q_question_text := default "" (it_question_text item);
     q_expected_domains := default [] (it_expected_domains item);
     q_expected_complexity := default "trivial" (it_expected_complexity item);
     q_reference_answer := default "" (it_reference_answer item);
     q_reference_evidence := default (JObj []) (it_reference_evidence item) |}.

(** The session's pending changes: edited rows, then added rows, which its
    queries do not see before the commit. *)
Fixpoint sync_items (overwrite : bool) (n : nat) (data : list question_item) (edited added : list EvalBenchmarkQuestion)
    : M world (list EvalBenchmarkQuestion * list EvalBenchmarkQuestion) :=
  match data with
  | [] => mret (edited, added)
  | item :: data =>
      let q := item_question n item in
      (select (fun w => List.filter (fun r => String.eqb (q_id r) (q_id q)) (questions w)) ≫= scalar_one_or_none) ≫= fun existing =>
      match existing with
      | Some _ => sync_items overwrite (S n) data (if overwrite then edited ++ [q] else edited) added
      | None => sync_items overwrite (S n) data edited (added ++ [q])
      end
  end.

(** The last edit of a row wins. *)
Definition edit_row (edited : list EvalBenchmarkQuestion) (q : EvalBenchmarkQuestion) : EvalBenchmarkQuestion :=
  default q (List.find (fun e => String.eqb (q_id e) (q_id q)) (rev edited)).

Definition ids_distinct (l : list uuid) : bool := bool_decide (NoDup l).

(** [data]: the items of [questions.json], if the file exists. *)
Definition sync_benchmark_questions (file : option (list question_item)) (overwrite : bool) : M world nat :=
  match file with
  | None => mret 0%nat
  | Some data =>
      sync_items overwrite 0 data [] [] ≫= fun '(edited, added) =>
      save_if (fun w => ids_distinct (map q_id (questions w ++ added)))
        (fun w => World (map (edit_row edited) (questions w) ++ added) (runs w) (clock w) (db w)) ≫= fun _ =>
      mret (length edited + length added)%nat
  end.
End sync.

Record QuestionDelta := {
  qd_question_id : uuid;
  qd_baseline_score : option float;
  qd_current_score : option float;
  qd_delta : option float;
  qd_regressed : bool;
}.

Record RegressionReport := {
  rp_regressed : bool;
  rp_threshold : float;
  rp_average_baseline_score : option float;
  rp_average_current_score : option float;
  rp_overall_delta : option float;
  rp_overall_regressed : bool;
  rp_added_questions_count : nat;
  rp_removed_questions_count : nat;
  rp_per_question_deltas : list QuestionDelta;
  rp_summary : string;
}.

(** [{r.question_id: r.score for r in results}] *)
Definition score_map (rs : list BenchmarkQuestionResult) : list (uuid * option float) :=
  fold_left (fun d r => assoc_set (br_question_id r) (br_score r) d) rs [].

Definition score_of (m : list (uuid * option float)) (k : uuid) : option float := default None (assoc k m).

Definition average (l : list float) : option float :=
  match l with [] => None | _ => Some (fdiv (fsum l) (float_of_Z (Z.of_nat (length l)))) end.

Definition question_delta (threshold : float) (base curr : list (uuid * option float)) (q : uuid) : QuestionDelta :=
  let delta := match score_of base q, score_of curr q with Some b, Some c => Some (fsub b c) | _, _ => None end in
  {| qd_question_id := q; qd_baseline_score := score_of base q; qd_current_score := score_of curr q; qd_delta := delta;
     qd_regressed := match delta with Some d => fltb threshold d | None => false end |}.

Definition first_run (threshold : float) : RegressionReport :=
  {| rp_regressed := false; rp_threshold := threshold; rp_average_baseline_score := None;
     rp_average_current_score := None; rp_overall_delta := None; rp_overall_regressed := false;
     rp_added_questions_count := 0; rp_removed_questions_count := 0; rp_per_question_deltas := [];
     rp_summary := "No prior baseline run available for comparison. Regression check passed trivially (first run)." |}.

Section gate.
Variable iter : list uuid -> list uuid.  (* the order in which Python iterates a set *)
Variable fixed : Z -> float -> string.   (* [f"{x:.nf}"] *)
Variable signed : float -> string.       (* [f"{x:+.4f}"] *)
Variable str_of_nat : nat -> string.

Definition summary_text (regressed : bool) (threshold : float) (avg_base avg_curr overall : option float)
    (regressed_count common_count added removed : nat) : string :=
  let show o := match o with Some x => fixed 4 x | None => "N/A" end in
  join (String (Ascii.ascii_of_nat 10) "")
    (["Regression Gate Result: " +:+ (if regressed then "FAILED (Regressed)" else "PASSED");
      "Threshold: " +:+ fixed 2 threshold;
      "Common Questions Score - Baseline: " +:+ show avg_base +:+ ", Current: " +:+ show avg_curr] ++
     match overall with Some d => ["Overall Delta (Baseline - Current): " +:+ signed d] | None => [] end ++
     ["Regressed Common Questions: " +:+ str_of_nat regressed_count +:+ "/" +:+ str_of_nat common_count] ++
     (if (added =? 0)%nat then [] else ["Added Questions (Not in baseline): " +:+ str_of_nat added]) ++
     (if (removed =? 0)%nat then [] else ["Removed Questions (Missing in current): " +:+ str_of_nat removed])).

Definition check_for_regression (current_run : BenchmarkSuiteResult) (baseline : option BenchmarkSuiteResult)
    (threshold : float) : RegressionReport :=
  match baseline with
  | Some b =>
      match bs_results b with
      | [] => first_run threshold
      | baseline_results =>
          let current_map := score_map (bs_results current_run) in
          let baseline_map := score_map baseline_results in
          let common := List.filter (fun q => in_dict q baseline_map) (map fst current_map) in
          let added := List.filter (fun q => negb (in_dict q baseline_map)) (map fst current_map) in
          let removed := List.filter (fun q => negb (in_dict q current_map)) (map fst baseline_map) in
          let avg_baseline := average (omap (score_of baseline_map) (iter common)) in
          let avg_current := average (omap (score_of current_map) (iter common)) in
          let overall := match avg_baseline, avg_current with Some b, Some c => Some (fsub b c) | _, _ => None end in
          let overall_regressed := match overall with Some d => fltb threshold d | None => false end in
          let deltas := map (question_delta threshold baseline_map current_map) (merge_sort str_le common) in
          let count := length (List.filter qd_regressed deltas) in
          let regressed := overall_regressed || (0 <? count)%nat in
          {| rp_regressed := regressed; rp_threshold := threshold; rp_average_baseline_score := avg_baseline;
             rp_average_current_score := avg_current; rp_overall_delta := overall;
             rp_overall_regressed := overall_regressed; rp_added_questions_count := length added;
             rp_removed_questions_count := length removed; rp_per_question_deltas := deltas;
             rp_summary := summary_text regressed threshold avg_baseline avg_current overall count (length deltas)
                             (length added) (length removed) |}
      end
  | None => first_run threshold
  end.
End gate.

Section ci.
Variable str_exn : pyexn -> string.
Variable numeric : float -> float.
Variable parse_uuid : string -> option uuid.
Variable uuid5 : string -> uuid.
Variable uuid4 : nat -> uuid.
Variable iter : list uuid -> list uuid.
Variable fixed : Z -> float -> string.
Variable signed : float -> string.
Variable str_of_nat : nat -> string.

(** The gate on an open session; the baseline is read before the current run is
    stored. *)
Definition run_ci_gate (file : option (list question_item)) (version : string) (threshold : float)
    (overwrite_questions : bool) : M world RegressionReport :=
  sync_benchmark_questions parse_uuid uuid5 uuid4 file overwrite_questions ≫= fun _ =>
  _fetch_baseline_by_version numeric (Some version) ≫= fun baseline =>
  run_benchmark_suite str_exn version ≫= fun current_run =>
  mret (check_for_regression iter fixed signed str_of_nat current_run baseline threshold).

(** The exit status of [main]. *)
Definition exit_status (r : result pyexn RegressionReport) : Z :=
  match r with Ok report => if rp_regressed report then 1 else 0 | Raise _ => 1 end.
End ci.

(** ** Lemmas *)

Lemma fleb_negb x c : is_nan x = false -> is_nan c = false -> fleb x c = negb (fltb c x).
Proof.
  intros Hx Hc. destruct (fltb c x) eqn:E; cbn.
  - destruct (fleb x c) eqn:E'; [|done]. by destruct (flt_not_le c x E).
  - by apply not_flt_le; [..|rewrite E].
Qed.

Lemma fltb_mono c x y : fle x y -> fltb c x = true -> fltb c y = true.
Proof. intros Hxy Hc. exact (flt_fle_trans c x y Hc Hxy). Qed.

(** The edges of the ten bins: 0, 0.1, ..., and the two floats near 0.6. *)
Definition edges : list float :=
  [bin_lower 10 0; bin_upper 10 0; bin_upper 10 1; bin_upper 10 2; bin_upper 10 3; bin_upper 10 4;
   bin_upper 10 5; bin_lower 10 6; bin_upper 10 6; bin_upper 10 7; bin_upper 10 8].

Definition six_tenths : float := flit 6 10.

Lemma shared_edge i : (i < 9)%nat -> i <> 5%nat -> bin_lower 10 (S i) = bin_upper 10 i.
Proof. intros Hi H5. do 9 (destruct i as [|i]; [try done; vm_compute; reflexivity|]). lia. Qed.

(** Nothing lies between 0.6 and the lower edge of its bin. *)
Lemma six_tenths_gap c : is_nan c = false ->
  fltb c (bin_upper 10 5) = false -> fltb c (bin_lower 10 6) = true -> c = six_tenths.
Proof.
  intros Hc H1 H2. apply not_flt_le in H1; [|done|by vm_compute].
  assert (flt c (bin_lower 10 6)) as H2' by exact H2. clear H2.
  apply fle_key in H1 as (_ & _ & H1). apply flt_key in H2' as (_ & _ & H2).
  let k := eval vm_compute in (fkey (bin_upper 10 5)) in replace (fkey (bin_upper 10 5)) with k in H1 by by vm_compute.
  let k := eval vm_compute in (fkey (bin_lower 10 6)) in replace (fkey (bin_lower 10 6)) with k in H2 by by vm_compute.
  let x := eval vm_compute in six_tenths in replace six_tenths with x by by vm_compute.
  unfold klt in H1, H2. destruct c as [[]|[]| |[] m e]; cbn [fkey] in H1, H2; [exfalso; lia..| |]; [exfalso; lia|].
  assert (e = -53 /\ m = 5404319552844595%positive) as [-> ->] by lia. done.
Qed.

(** Bin membership from the comparisons with the edges. *)
Lemma in_bin_inner i c : is_nan c = false -> (i < 9)%nat ->
  in_bin 10 i c = negb (fltb c (bin_lower 10 i)) && fltb c (bin_upper 10 i).
Proof.
  intros Hc Hi. unfold in_bin. rewrite fleb_negb; [|by do 9 (destruct i as [|i]; [by vm_compute|]); lia|done].
  destruct (Nat.eqb_spec i (pred (Pos.to_nat 10))) as [->|_]; [|done]. by cbn in Hi; lia.
Qed.

Lemma in_bin_last c : is_nan c = false -> fle c f1 -> in_bin 10 9 c = negb (fltb c (bin_upper 10 8)).
Proof.
  intros Hc H1. unfold in_bin. rewrite fleb_negb by (done || by vm_compute). cbn [Nat.eqb].
  change (pred (Pos.to_nat 10)) with 9%nat. cbn [Nat.eqb].
  replace (bin_upper 10 9) with f1 by by vm_compute. replace (bin_lower 10 9) with (bin_upper 10 8) by by vm_compute.
  by rewrite H1, andb_true_r.
Qed.

Lemma in_bin_first c : fle f0 c -> in_bin 10 0 c = fltb c (bin_upper 10 0).
Proof.
  intros H0. pose proof (fle_nan _ _ H0) as [_ Hc]. rewrite (in_bin_inner 0 c Hc) by lia.
  replace (bin_lower 10 0) with f0 by by vm_compute. rewrite <- fleb_negb by done. by rewrite H0.
Qed.

(** With [b] the comparisons with the edges, which are monotone, the membership
    list is this one. *)
Definition members (b : nat -> bool) : list bool :=
  [b 1; negb (b 1) && b 2; negb (b 2) && b 3; negb (b 3) && b 4; negb (b 4) && b 5; negb (b 5) && b 6;
   negb (b 7) && b 8; negb (b 8) && b 9; negb (b 9) && b 10; negb (b 10)]%nat.

Definition below (c : float) (k : nat) : bool := fltb c (nth k edges f0).

Lemma in_bin_members c : fle f0 c -> fle c f1 -> map (fun i => in_bin 10 i c) (seq 0 10) = members (below c).
Proof.
  intros H0 H1. pose proof (fle_nan _ _ H0) as [_ Hc]. cbn [seq map].
  rewrite (in_bin_first c H0), (in_bin_last c Hc H1), !(in_bin_inner _ c Hc) by lia.
  rewrite !shared_edge by lia. reflexivity.
Qed.

Lemma edges_sorted k : (k < 10)%nat -> fle (nth k edges f0) (nth (S k) edges f0).
Proof. intros Hk. do 10 (destruct k as [|k]; [by vm_compute|]). lia. Qed.

Lemma below_mono c k : (k < 10)%nat -> below c k = true -> below c (S k) = true.
Proof. intros Hk. apply fltb_mono. by apply edges_sorted. Qed.

(** Exactly one bin, unless the two edges at 0.6 separate. *)
Lemma members_one (b : nat -> bool) : (forall k, (k < 10)%nat -> b k = true -> b (S k) = true) ->
  length (List.filter id (members b)) = if negb (b 6%nat) && b 7%nat then 0%nat else 1%nat.
Proof.
  intros Hm. pose proof (fun k H => Hm k H) as M.
  pose proof (M 1%nat ltac:(lia)). pose proof (M 2%nat ltac:(lia)). pose proof (M 3%nat ltac:(lia)).
  pose proof (M 4%nat ltac:(lia)). pose proof (M 5%nat ltac:(lia)). pose proof (M 6%nat ltac:(lia)).
  pose proof (M 7%nat ltac:(lia)). pose proof (M 8%nat ltac:(lia)). pose proof (M 9%nat ltac:(lia)). clear M Hm.
  unfold members. destruct (b 1%nat), (b 2%nat), (b 3%nat), (b 4%nat), (b 5%nat), (b 6%nat), (b 7%nat), (b 8%nat), (b 9%nat), (b 10%nat);
    naive_solver.
Qed.

Lemma filter_map_length {A} (f : A -> bool) l : length (List.filter f l) = length (List.filter id (map f l)).
Proof. induction l as [|a l IH]; [done|]. cbn. unfold id at 1. destruct (f a); cbn; by rewrite IH. Qed.

(** *** Dictionaries of scores *)

Lemma assoc_fold_set rs : forall d k,
  assoc k (fold_left (fun d r => assoc_set (br_question_id r) (br_score r) d) rs d) =
    match List.find (fun r => String.eqb (br_question_id r) k) (rev rs) with
    | Some r => Some (br_score r)
    | None => assoc k d
    end.
Proof.
  induction rs as [|r rs IH]; intros d k; [done|]. cbn [fold_left rev]. rewrite IH, find_app. cbn.
  destruct (List.find _ (rev rs)); [done|]. destruct (String.eqb_spec (br_question_id r) k) as [<-|Hne].
  - by rewrite assoc_set_eq.
  - by apply assoc_set_ne.
Qed.

Lemma score_map_keys rs : NoDup (map fst (score_map rs)) /\
  forall k, in_dict k (score_map rs) = true <-> exists r, r ∈ rs /\ br_question_id r = k.
Proof.
  split.
  - unfold score_map. enough (forall d : list (string * option float), NoDup (map fst d) ->
      NoDup (map fst (fold_left (fun d r => assoc_set (br_question_id r) (br_score r) d) rs d))) as H by apply H, NoDup_nil_2.
    induction rs as [|r rs IH]; intros d Hd; [exact Hd|]. cbn. apply IH. by apply assoc_set_NoDup.
  - intros k. unfold in_dict, score_map. rewrite assoc_fold_set.
    destruct (List.find _ (rev rs)) as [r|] eqn:E.
    + apply find_some in E as [Hr%in_rev%list_elem_of_In Ek%String.eqb_eq]. split; [|done]. by exists r.
    + split; [done|]. intros (r & Hr & <-). apply list_elem_of_In, in_rev in Hr.
      pose proof (find_none _ _ E r Hr) as Hn. cbn in Hn. by rewrite String.eqb_refl in Hn.
Qed.

Lemma score_of_in m q s : score_of m q = Some s -> in_dict q m = true.
Proof. unfold score_of, in_dict. by destruct (assoc q m). Qed.

Lemma common_split (a b : list (uuid * option float)) :
  length (map fst a) = (length (List.filter (fun q => in_dict q b) (map fst a)) +
                        length (List.filter (fun q => negb (in_dict q b)) (map fst a)))%nat.
Proof. induction (map fst a) as [|q l IH]; [done|]. cbn. destruct (in_dict q b); cbn; lia. Qed.

(** Two duplicate-free lists of keys share the same elements, from either side. *)
Lemma common_both (a b : list (uuid * option float)) : NoDup (map fst a) -> NoDup (map fst b) ->
  List.filter (fun q => in_dict q b) (map fst a) ≡ₚ List.filter (fun q => in_dict q a) (map fst b).
Proof.
  intros Ha Hb. apply NoDup_Permutation; [by apply NoDup_filter_bool..|]. intros q.
  rewrite !elem_of_filter_bool, !in_dict_elem. naive_solver.
Qed.

(** ** Properties *)

(** The ten bins of the calibration error partition the confidences from 0 to 1,
    except that rounding separates the edges at 0.6: that confidence is in no
    bin, and a wrong prediction made with it costs nothing. *)
Theorem calibration_bins (c : float) :
  fle f0 c -> fle c f1 ->
  (c <> six_tenths -> exists i, List.filter (fun i => in_bin 10 i c) (seq 0 10) = [i]) /\
  (c = six_tenths -> List.filter (fun i => in_bin 10 i c) (seq 0 10) = [] /\
                     calculate_calibration [(c, false)] 10 = Ok f0).
Proof.
  intros H0 H1. split.
  - intros Hne. pose proof (members_one (below c) (below_mono c)) as Hm.
    rewrite <- in_bin_members, <- filter_map_length in Hm by done.
    replace (negb (below c 6) && below c 7) with false in Hm.
    + destruct (List.filter _ (seq 0 10)) as [|i [|]]; [done|by exists i|done].
    + symmetry. apply andb_false_iff. destruct (below c 6) eqn:E6; [by left|]. destruct (below c 7) eqn:E7; [|by right].
      destruct Hne. apply six_tenths_gap; [by apply (fle_nan _ _ H0)|exact E6|exact E7].
  - intros ->. split; by vm_compute.
Qed.

Section gate_properties.
Variable iter : list uuid -> list uuid.
Variable fixed : Z -> float -> string.
Variable signed : float -> string.
Variable str_of_nat : nat -> string.

(** The gate follows its policy: it fails exactly when the mean over the common
    questions, or some common question scored in both runs, drops by more than
    the threshold; each common question is reported once, in order, and the
    other questions are counted as added or removed. *)
Theorem regression_gate_exact (current b : BenchmarkSuiteResult) (threshold : float) :
  bs_results b <> [] ->
  let report := check_for_regression iter fixed signed str_of_nat current (Some b) threshold in
  let cm := score_map (bs_results current) in
  let bm := score_map (bs_results b) in
  (rp_regressed report = true <->
     (exists d, rp_overall_delta report = Some d /\ flt threshold d) \/
     (exists q x y, score_of bm q = Some x /\ score_of cm q = Some y /\ flt threshold (fsub x y))) /\
  Sorted str_le (map qd_question_id (rp_per_question_deltas report)) /\
  NoDup (map qd_question_id (rp_per_question_deltas report)) /\
  (forall q, q ∈ map qd_question_id (rp_per_question_deltas report) <->
     (exists r, r ∈ bs_results current /\ br_question_id r = q) /\ (exists r, r ∈ bs_results b /\ br_question_id r = q)) /\
  length cm = (length (rp_per_question_deltas report) + rp_added_questions_count report)%nat /\
  length bm = (length (rp_per_question_deltas report) + rp_removed_questions_count report)%nat.
Proof.
  intros Hne report cm bm. unfold report, check_for_regression. destruct (bs_results b) as [|r0 rs] eqn:Eb; [done|].
  fold cm bm. cbn [rp_regressed rp_overall_delta rp_per_question_deltas rp_added_questions_count rp_removed_questions_count].
  set (overall := match average _, average _ with Some _, Some _ => _ | _, _ => _ end).
  set (common := List.filter (fun q => in_dict q bm) (map fst cm)).
  destruct (score_map_keys (bs_results current)) as [Hnc Hic]. destruct (score_map_keys (r0 :: rs)) as [Hnb Hib].
  fold cm in Hnc, Hic. fold bm in Hnb, Hib.
  assert (map qd_question_id (map (question_delta threshold bm cm) (merge_sort str_le common)) = merge_sort str_le common) as Hids
    by (rewrite map_map; apply map_id).
  rewrite Hids. split_and!.
  - rewrite orb_true_iff, Nat.ltb_lt. f_equiv.
    + destruct overall as [d|]; [|naive_solver]. unfold flt. naive_solver.
    + rewrite <- filter_nonempty. split.
      * intros (dl & (q & -> & Hq)%list_elem_of_fmap & Hr). cbn [question_delta qd_regressed] in Hr.
        destruct (score_of bm q) as [x|] eqn:Ex; [|done]. destruct (score_of cm q) as [y|] eqn:Ey; [|done].
        by exists q, x, y.
      * intros (q & x & y & Hx & Hy & Ht). exists (question_delta threshold bm cm q). split.
        -- apply list_elem_of_fmap_2. rewrite merge_sort_Permutation. apply elem_of_filter_bool.
           split; [apply in_dict_elem; by eapply score_of_in | by eapply score_of_in].
        -- cbn [question_delta qd_regressed]. by rewrite Hx, Hy.
  - apply Sorted_merge_sort, _.
  - rewrite merge_sort_Permutation. by apply NoDup_filter_bool.
  - intros q. rewrite merge_sort_Permutation. unfold common. rewrite elem_of_filter_bool, <- in_dict_elem, Hic, Hib. done.
  - rewrite !length_map, (Permutation_length (merge_sort_Permutation _ _)). unfold common.
    rewrite <- (length_map fst cm). apply common_split.
  - rewrite !length_map, (Permutation_length (merge_sort_Permutation _ _)). unfold common.
    rewrite <- (length_map fst bm). etransitivity; [exact (common_split bm cm)|]. f_equal. symmetry.
    exact (Permutation_length (common_both cm bm Hnc Hnb)).
Qed.
End gate_properties.

(** *** Suite runs *)

Section suite_properties.
Variable str_exn : pyexn -> string.
Variable run_benchmark : EvalBenchmarkQuestion -> result pyexn run_result.
Variable js : judgments.

Lemma run_question_unscored q : (run_question str_exn run_benchmark js q).1.1.2 = None.
Proof.
  unfold run_question, score_result. destruct (run_benchmark q) as [r|e]; [|done].
  destruct (default [] (rr_evidence r)); [done|]. destruct (assoc (q_id q) js); [|done]. by destruct (omap id _).
Qed.

Lemma run_question_id q : (run_question str_exn run_benchmark js q).1.1.1 = q.
Proof.
  unfold run_question, score_result. destruct (run_benchmark q) as [r|e]; [|done].
  destruct (default [] (rr_evidence r)); [done|]. destruct (assoc (q_id q) js); [|done]. by destruct (omap id _).
Qed.

Lemma suite_unscored version w r w' : _run_suite str_exn run_benchmark js version w = (Ok r, w') ->
  Forall (fun x => br_score x = None) (bs_results r).
Proof.
  intros (qs & w1 & _ & (suite & w2 & _ & (now & w3 & _ & (u & w4 & _ & [= <- _])%M_bind_ok)%M_bind_ok)%M_bind_ok)%M_bind_ok.
  cbn. rewrite !map_map. apply Forall_map, Forall_true. intros q. cbn.
  pose proof (run_question_unscored q) as H. by destruct (run_question _ _ _ q) as [[[? ?] ?] ?].
Qed.
End suite_properties.

Section unscored.
Variable iter : list uuid -> list uuid.
Variable fixed : Z -> float -> string.
Variable signed : float -> string.
Variable str_of_nat : nat -> string.

Lemma unscored_map rs q : Forall (fun x => br_score x = None) rs -> score_of (score_map rs) q = None.
Proof.
  intros Hall. unfold score_of, score_map. rewrite assoc_fold_set. destruct (List.find _ (rev rs)) as [r|] eqn:E; [|done].
  apply find_some in E as [Hr%in_rev%list_elem_of_In _]. exact (proj1 (Forall_forall _ _) Hall r Hr).
Qed.

Lemma omap_none {A B} (f : A -> option B) l : (forall x, f x = None) -> omap f l = [].
Proof. intros Hf. induction l as [|a l IH]; [done|]. cbn. by rewrite Hf. Qed.

Lemma unscored_never_regresses current baseline threshold : Forall (fun x => br_score x = None) (bs_results current) ->
  rp_regressed (check_for_regression iter fixed signed str_of_nat current baseline threshold) = false.
Proof.
  intros Hall. unfold check_for_regression. destruct baseline as [b|]; [|done]. destruct (bs_results b); [done|]. cbn [rp_regressed].
  rewrite (omap_none (score_of (score_map (bs_results current)))) by (intros q; by apply unscored_map). cbn [average].
  destruct (average _); cbn [orb]; apply Nat.ltb_ge; rewrite filter_drop_all; try done.
  all: intros d (q & -> & _)%list_elem_of_fmap; cbn [question_delta qd_regressed].
  all: rewrite (unscored_map _ q Hall); by destruct (score_of _ q).
Qed.
End unscored.

Section sync_run.
Variable parse_uuid : string -> option uuid.
Variable uuid5 : string -> uuid.
Variable uuid4 : nat -> uuid.

(** The rows of a file that the table does not have. *)
Definition missing (w : world) (n : nat) (data : list question_item) : list EvalBenchmarkQuestion :=
  List.filter (fun q => negb (existsb (fun r => String.eqb (q_id r) (q_id q)) (questions w)))
    (imap (fun i => item_question parse_uuid uuid5 uuid4 (n + i)) data).

Definition table_ok (w : world) : Prop := NoDup (map q_id (questions w)).

Lemma sync_items_run w : table_ok w -> db w = [] -> forall data n edited added,
  sync_items parse_uuid uuid5 uuid4 false n data edited added w = (Ok (edited, added ++ missing w n data), w).
Proof.
  intros Hw Hs. induction data as [|item data IH]; intros n edited added; cbn [sync_items].
  - unfold missing. cbn. by rewrite app_nil_r.
  - rewrite M_bind_run, (lookup_ok _ questions); [|done|]; cycle 1.
    { apply (filter_unique q_id); [done|]. by intros x y _ _ ->%String.eqb_eq ->%String.eqb_eq. }
    assert (missing w n (item :: data) =
      (if List.find (fun r => String.eqb (q_id r) (q_id (item_question parse_uuid uuid5 uuid4 n item))) (questions w)
       then [] else [item_question parse_uuid uuid5 uuid4 n item]) ++ missing w (S n) data) as ->.
    { unfold missing. rewrite imap_cons. cbn [List.filter]. rewrite Nat.add_0_r, existsb_find.
      rewrite (imap_ext _ (fun i => item_question parse_uuid uuid5 uuid4 (S n + i))) by (intros i x _; cbn; by rewrite <- Nat.add_succ_r).
      by destruct (List.find _ (questions w)). }
    destruct (List.find _ (questions w)); rewrite IH; [done|]. by rewrite <- app_assoc.
Qed.
End sync_run.

(** The stub's metrics carry no data. *)
Lemma omap_stub {B} (f : question_metrics -> option B) str_exn qs :
  (forall q, f (run_question str_exn run_stub_benchmark RELEVANCE_JUDGMENTS q).1.2 = None) ->
  omap f (map (fun '(_, _, m, _) => m) (map (run_question str_exn run_stub_benchmark RELEVANCE_JUDGMENTS) qs)) = [].
Proof.
  intros Hf. induction qs as [|q qs IH]; [done|]. cbn [map]. specialize (Hf q).
  destruct (run_question _ _ _ q) as [[[? ?] m] ?]. cbn in Hf |- *. by rewrite Hf.
Qed.

Lemma baseline_reads numeric version w : db w = [] -> exists b, _fetch_baseline_by_version numeric version w = (Ok b, w).
Proof.
  intros Hs. unfold _fetch_baseline_by_version. rewrite M_bind_run, select_ok by done.
  destruct (map b_orchestrator_version _) as [|v vs].
  - rewrite M_bind_run, select_ok by done. destruct (_ <$> head _) as [v|]; [|by eexists].
    rewrite M_bind_run, select_ok by done. destruct (List.filter _ (runs w)); by eexists.
  - rewrite M_bind_run. cbn [mret M_ret]. rewrite M_bind_run, select_ok by done.
    destruct (List.filter _ (runs w)); by eexists.
Qed.

Lemma stub_suite_runs str_exn version w : db w = [] -> exists r w',
  run_benchmark_suite str_exn version w = (Ok r, w') /\ length (runs w') = (length (runs w) + length (questions w))%nat.
Proof.
  intros Hs. unfold run_benchmark_suite, _run_suite. rewrite M_bind_run, select_ok by done. rewrite M_bind_run.
  assert (forall qs, exists suite, score_suite (map (fun '(_, _, m, _) => m)
    (map (run_question str_exn run_stub_benchmark RELEVANCE_JUDGMENTS) qs)) = Ok suite) as Hsuite.
  { intros qs. unfold score_suite. rewrite (omap_stub calibration_pair), (omap_stub qm_retrieval_precision) by done. by eexists. }
  destruct (Hsuite (questions w)) as [suite Esuite]. unfold lift at 1. rewrite Esuite, M_bind_run. cbn [gets].
  rewrite M_bind_run. destruct (questions w) as [|q qs] eqn:Eq.
  - eexists _, _. split; [reflexivity|]. cbn. lia.
  - rewrite save_ok by done. eexists _, _. split; [reflexivity|]. cbn [runs]. rewrite length_app, !length_map. done.
Qed.

(** Synchronizing the questions twice is synchronizing them once: the first
    run, with the default setting, appends exactly the questions the table lacks
    and leaves the stored ones alone; the second adds nothing. *)
Theorem sync_idempotent (parse_uuid : string -> option uuid) (uuid5 : string -> uuid) (uuid4 : nat -> uuid)
    (data : list question_item) (w : world) :
  table_ok w -> db w = [] ->
  NoDup (map q_id (imap (item_question parse_uuid uuid5 uuid4) data)) ->
  exists w1, sync_benchmark_questions parse_uuid uuid5 uuid4 (Some data) false w =
      (Ok (length (missing parse_uuid uuid5 uuid4 w 0 data)), w1) /\
    questions w1 = questions w ++ missing parse_uuid uuid5 uuid4 w 0 data /\ runs w1 = runs w /\
    (forall q, q ∈ imap (item_question parse_uuid uuid5 uuid4) data -> q_id q ∈ map q_id (questions w1)) /\
    sync_benchmark_questions parse_uuid uuid5 uuid4 (Some data) false w1 = (Ok 0%nat, w1).
Proof.
  intros Hw Hs Hd. set (new := missing parse_uuid uuid5 uuid4 w 0 data).
  assert (imap (fun i => item_question parse_uuid uuid5 uuid4 (0 + i)) data = imap (item_question parse_uuid uuid5 uuid4) data) as Eimap by done.
  assert (NoDup (map q_id (questions w ++ new))) as Hnew.
  { rewrite map_app. apply NoDup_app. split; [exact Hw|]. split.
    - intros x (r & -> & Hr)%list_elem_of_fmap (q & E & Hq)%list_elem_of_fmap. unfold new, missing in Hq.
      apply elem_of_filter_bool in Hq as [_ Hq%negb_true_iff]. rewrite existsb_false in Hq.
      specialize (Hq r Hr). rewrite E, String.eqb_refl in Hq. done.
    - unfold new, missing. by apply NoDup_map_filter. }
  assert (forall (l : list EvalBenchmarkQuestion), map (edit_row []) l = l) as Hedit by (intros l; apply map_id).
  set (w1 := World (questions w ++ new) (runs w) (clock w) (db w)).
  assert (forall q, q ∈ imap (item_question parse_uuid uuid5 uuid4) data -> q_id q ∈ map q_id (questions w1)) as Hall.
  { intros q Hq. cbn [w1 questions]. rewrite map_app, elem_of_app.
    destruct (existsb (fun r => String.eqb (q_id r) (q_id q)) (questions w)) eqn:E.
    - left. apply existsb_true in E as (r & Hr & <-%String.eqb_eq). by apply list_elem_of_fmap_2.
    - right. apply list_elem_of_fmap_2. apply elem_of_filter_bool. rewrite Eimap. split; [done|]. by rewrite E. }
  assert (missing parse_uuid uuid5 uuid4 w1 0 data = []) as Hnone.
  { apply filter_drop_all. intros q Hq. rewrite Eimap in Hq. apply negb_false_iff, existsb_true.
    apply Hall, list_elem_of_fmap in Hq as (r & E & Hr). exists r. split; [done|]. by rewrite E, String.eqb_refl. }
  exists w1. split_and!; try done; unfold sync_benchmark_questions; rewrite M_bind_run, sync_items_run by done; cbv beta iota.
  - rewrite M_bind_run, save_if_ok by done. unfold ids_distinct. cbn [app]. fold new. rewrite bool_decide_true by done.
    cbn. by rewrite Hedit.
  - rewrite M_bind_run, save_if_ok by done. rewrite Hnone. cbn [app]. rewrite app_nil_r.
    unfold ids_distinct. rewrite bool_decide_true by exact Hnew. cbn. rewrite Hedit, app_nil_r. done.
Qed.

(** The gate as it stands cannot fail: questions are run by a stub and scored
    [None], so whatever the baseline, no report is a regression and the exit
    status of a run that reports is 0.  On a healthy database it does report, and
    stores one run per question. *)
Theorem ci_gate_vacuous (str_exn : pyexn -> string) (numeric : float -> float) (parse_uuid : string -> option uuid)
    (uuid5 : string -> uuid) (uuid4 : nat -> uuid) (iter : list uuid -> list uuid) (fixed : Z -> float -> string)
    (signed : float -> string) (str_of_nat : nat -> string) (file : option (list question_item)) (version : string)
    (threshold : float) (overwrite : bool) (w : world) :
  let gate := run_ci_gate str_exn numeric parse_uuid uuid5 uuid4 iter fixed signed str_of_nat file version threshold overwrite w in
  (forall report, gate.1 = Ok report -> rp_regressed report = false /\ exit_status gate.1 = 0) /\
  (db w = [] -> file = None -> exists report w', gate = (Ok report, w') /\
     length (runs w') = (length (runs w) + length (questions w))%nat).
Proof.
  intros gate. split.
  - intros report Hr. assert (rp_regressed report = false) as Hf.
    { unfold gate, run_ci_gate in Hr. destruct (_ ≫= _) as [r w'] eqn:E. cbn in Hr. subst r.
      apply M_bind_ok in E as (n & w1 & _ & (baseline & w2 & _ & (current & w3 & Hc & [= <- _])%M_bind_ok)%M_bind_ok).
      apply unscored_never_regresses. by eapply suite_unscored. }
    split; [done|]. rewrite Hr. cbn. by rewrite Hf.
  - intros Hs ->. unfold gate, run_ci_gate. rewrite M_bind_run. cbn [sync_benchmark_questions mret M_ret].
    destruct (baseline_reads numeric (Some version) w Hs) as [b Eb]. rewrite M_bind_run, Eb, M_bind_run.
    destruct (stub_suite_runs str_exn version w Hs) as (r & w' & Er & Hl). rewrite Er. by eexists _, w'.
Qed.

(** ** Witnesses *)

Module EvalWitness.
Definition suite (scores : list (uuid * option float)) : BenchmarkSuiteResult :=
  {| bs_orchestrator_version := "v"; bs_total_questions := length scores; bs_successful_runs := 0;
     bs_results := map (fun s => {| br_question_id := s.1; br_orchestrator_version := "v"; br_score := s.2 |}) scores |}.
Definition fixed (_ : Z) (_ : float) : string := "x".
Definition signed (_ : float) : string := "x".
Definition item : question_item :=
  {| it_id := Some "q1"; it_question_text := Some "How warm is the sea?"; it_expected_domains := None;
     it_expected_complexity := None; it_reference_answer := None; it_reference_evidence := None |}.
Definition empty : world := World [] [] 0 [].

Lemma calibration_bins_witness : exists i, List.filter (fun i => in_bin 10 i (flit 1 4)) (seq 0 10) = [i].
Proof.
  refine (proj1 (calibration_bins (flit 1 4) _ _) _); [by vm_compute | by vm_compute | by vm_compute].
Defined.

Lemma regression_gate_exact_witness :
  rp_regressed (check_for_regression id fixed signed str_nat (suite [("a", Some (flit 1 2)); ("b", None)])
    (Some (suite [("a", Some f1); ("c", Some f1)])) (flit 5 100)) = true.
Proof.
  pose proof (regression_gate_exact id fixed signed str_nat (suite [("a", Some (flit 1 2)); ("b", None)])
    (suite [("a", Some f1); ("c", Some f1)]) (flit 5 100) ltac:(done)) as [H _].
  apply H. right. exists "a", f1, (flit 1 2). split_and!; by vm_compute.
Defined.

Lemma sync_idempotent_witness : exists w1,
  sync_benchmark_questions (fun _ => None) id (fun _ => "r") (Some [item]) false empty = (Ok 1%nat, w1).
Proof.
  destruct (sync_idempotent (fun _ => None) id (fun _ => "r") [item] empty) as (w1 & E & _).
  - apply NoDup_nil_2.
  - reflexivity.
  - apply NoDup_singleton.
  - by exists w1.
Defined.

Lemma ci_gate_vacuous_witness : exists report w',
  run_ci_gate (fun _ => "e") id (fun _ => None) id (fun _ => "r") id fixed signed str_nat None "v" (flit 5 100) false empty =
    (Ok report, w').
Proof.
  destruct (ci_gate_vacuous (fun _ => "e") id (fun _ => None) id (fun _ => "r") id fixed signed str_nat None "v" (flit 5 100) false empty)
    as [_ H]. destruct (H eq_refl eq_refl) as (report & w' & E & _). by exists report, w'.
Defined.
End EvalWitness.
