(* ===== verification/PatternMining.v ===== *)
(** * Longitudinal pattern mining
    ([src/workers/jobs/pattern_mining_job.py], [PatternFindingRepository] of
    [src/db/repository.py], the patterns route of [src/app/api/v1/research.py])

    The job that looks for hazard events following one another, its statistics in
    binary64, and the versioned table of findings.  One transaction: statements
    see what the session flushed, and the table changes at the commit only.
    Instants are microseconds; comparing [total_seconds()] with a whole number of
    days is comparing microseconds. *)

From stdpp Require Import sorting.
From S2P Require Import Prelude PyFloat FloatRound PyStr Effects Database AgentIO Uncertainty Research.

Definition ALGORITHM_VERSION : string := "1.0".

(** ** Statistics *)

(** [z] is 1.96; its square is exact to the last bit as a product. *)
Definition z_score : float := flit 196 100.
Definition z_squared : float := fmul z_score z_score.

Definition calculate_wilson_lower_bound (successes trials : Z) : float :=
  if (trials <=? 0) || (successes <=? 0) then f0 else
  let n := float_of_Z trials in
  let p_hat := fmin f1 (fmax f0 (int_truediv successes (Z.to_pos trials))) in
  let denom := fadd f1 (fdiv z_squared n) in
  let center := fadd p_hat (fdiv z_squared (float_of_Z (2 * trials))) in
  let radicand := fadd (fdiv (fmul p_hat (fsub f1 p_hat)) n) (fdiv z_squared (float_of_Z (4 * (trials * trials)))) in
  let spread := fmul z_score (fsqrt (fmax f0 radicand)) in
  let lower := fdiv (fsub center spread) denom in
  fmax f0 (fmin f1 lower).

Definition day : Z := 86400 * 1000000.

(** [0 < time_diff <= window_days * 86400] *)
Definition follows (window_days : Z) (s t : HazardEvent) : bool :=
  (0 <? h_event_date t - h_event_date s) && (h_event_date t - h_event_date s <=? window_days * day).

Definition co_occurrences (window_days : Z) (src tgt : list HazardEvent) : list (HazardEvent * HazardEvent) :=
  List.filter (fun p => follows window_days p.1 p.2) (list_prod src tgt).

Definition clean_type (e : HazardEvent) : string := lower (strip (h_event_type e)).

Section keys.
Variable sha256 : string -> string.
Variable str_of_Z : Z -> string.

Definition raw_key (source_event_type target_event_type : string) (region_label : option string) (time_window_days : Z) : string :=
  ALGORITHM_VERSION +:+ ":" +:+ lower (strip source_event_type) +:+ ":" +:+ lower (strip target_event_type) +:+ ":" +:+
  lower (strip (default "" region_label)) +:+ ":" +:+ str_of_Z time_window_days.

Definition generate_pattern_hash (source_event_type target_event_type : string) (region_label : option string)
    (time_window_days : Z) : string :=
  sha256 (raw_key source_event_type target_event_type region_label time_window_days).
End keys.

(** ** Findings *)

Record PatternFinding := {
  p_pattern_hash : string;
  p_algorithm_version : string;
  p_version : Z;
  p_source_event_type : string;
  p_target_event_type : string;
  p_region_label : option string;
  p_time_window_days : Z;
  p_support_count : Z;
  p_total_source_events : Z;
  p_total_target_events : Z;
  p_observed_rate : float;
  p_baseline_rate : float;
  p_lift : float;
  p_statistical_confidence : float;
  p_uncertainty : UncertaintyEstimate;
  p_supporting_event_ids : list string;
  p_description : string;
  p_mined_at : Z;
  p_is_active : bool;
}.

Record mining_settings := {
  pattern_lookback_days : Z;
  pattern_min_support : Z;
  pattern_min_confidence : float;
}.

Section candidates.
Variable hash : string -> string -> option string -> Z -> string.
(** The text of a finding: types, region, window, observed and baseline rate, lift, confidence. *)
Variable describe : string -> string -> option string -> Z -> float -> float -> float -> float -> string.
Variable settings : mining_settings.

(** One candidate: [None] when it is rejected; its version and activity are set
    when it is stored. *)
Definition evaluate_candidate (events : list HazardEvent) (mined_at : Z) (source_type target_type : string)
    (region : option string) (window_days : Z) : result pyexn (option PatternFinding) :=
  let matching type := List.filter (fun e => String.eqb (clean_type e) type && bool_decide (h_region_label e = region)) events in
  let src_events := matching source_type in
  let tgt_events := matching target_type in
  let total_source_events := Z.of_nat (length src_events) in
  let total_target_events := Z.of_nat (length tgt_events) in
  if (total_source_events =? 0) || (total_target_events =? 0) then Ok None else
  let pairs := co_occurrences window_days src_events tgt_events in
  let support_count := Z.of_nat (length pairs) in
  if support_count <? pattern_min_support settings then Ok None else
  let observed_rate := int_truediv support_count (Z.to_pos total_source_events) in
  let baseline_rate := int_truediv total_target_events (Z.to_pos (Z.max 1 (Z.of_nat (length events)))) in
  if fleb baseline_rate f0 then Ok None else
  let lift := fdiv observed_rate baseline_rate in
  if fleb lift f1 then Ok None else
  let confidence := calculate_wilson_lower_bound support_count total_source_events in
  if fltb confidence (pattern_min_confidence settings) then Ok None else
  match from_point_estimate confidence DEFAULT_POINT_ESTIMATE_INTERVAL_MARGIN
          (if fleb (flit 85 100) confidence then well_supported else model_uncertainty) with
  | Raise _ => Raise ValueError
  | Ok uncertainty =>
      Ok (Some {| p_pattern_hash := hash source_type target_type region window_days;
                  p_algorithm_version := ALGORITHM_VERSION; p_version := 0; p_source_event_type := source_type;
                  p_target_event_type := target_type; p_region_label := region; p_time_window_days := window_days;
                  p_support_count := support_count; p_total_source_events := total_source_events;
                  p_total_target_events := total_target_events; p_observed_rate := fround 4 observed_rate;
                  p_baseline_rate := fround 4 baseline_rate; p_lift := fround 4 lift;
                  p_statistical_confidence := fround 4 confidence; p_uncertainty := uncertainty;
                  p_supporting_event_ids := sorted_set (flat_map (fun p => [h_id p.1; h_id p.2]) pairs);
                  p_description := describe source_type target_type region window_days observed_rate baseline_rate lift confidence;
                  p_mined_at := mined_at; p_is_active := false |})
  end.
End candidates.

(** ** Tables and transaction *)

Record world := World {
  hazard_events : list HazardEvent;
  findings : list PatternFinding;
  view : list PatternFinding;            (* the findings as the open session sees them *)
  clock : Z;
  db : list bool;
}.

#[global] Program Instance mining_db : Db world := {|
  script := db;
  set_script cs w := World (hazard_events w) (findings w) (view w) (clock w) cs;
|}.
Solve All Obligations with by intros [].

Definition with_view (f : list PatternFinding -> list PatternFinding) (w : world) : world :=
  World (hazard_events w) (findings w) (f (view w)) (clock w) (db w).
Definition open_session : M world unit := modify (fun w => with_view (fun _ => findings w) w).
Definition commit : M world unit :=
  save (fun w => World (hazard_events w) (view w) (view w) (clock w) (db w)).

Definition deactivate (p : PatternFinding) : PatternFinding :=
  {| p_pattern_hash := p_pattern_hash p; p_algorithm_version := p_algorithm_version p; p_version := p_version p;
     p_source_event_type := p_source_event_type p; p_target_event_type := p_target_event_type p;
     p_region_label := p_region_label p; p_time_window_days := p_time_window_days p;
     p_support_count := p_support_count p; p_total_source_events := p_total_source_events p;
     p_total_target_events := p_total_target_events p; p_observed_rate := p_observed_rate p;
     p_baseline_rate := p_baseline_rate p; p_lift := p_lift p; p_statistical_confidence := p_statistical_confidence p;
     p_uncertainty := p_uncertainty p; p_supporting_event_ids := p_supporting_event_ids p;
     p_description := p_description p; p_mined_at := p_mined_at p; p_is_active := false |}.

Definition activate (version : Z) (p : PatternFinding) : PatternFinding :=
  {| p_pattern_hash := p_pattern_hash p; p_algorithm_version := p_algorithm_version p; p_version := version;
     p_source_event_type := p_source_event_type p; p_target_event_type := p_target_event_type p;
     p_region_label := p_region_label p; p_time_window_days := p_time_window_days p;
     p_support_count := p_support_count p; p_total_source_events := p_total_source_events p;
     p_total_target_events := p_total_target_events p; p_observed_rate := p_observed_rate p;
     p_baseline_rate := p_baseline_rate p; p_lift := p_lift p; p_statistical_confidence := p_statistical_confidence p;
     p_uncertainty := p_uncertainty p; p_supporting_event_ids := p_supporting_event_ids p;
     p_description := p_description p; p_mined_at := p_mined_at p; p_is_active := true |}.

Definition higher_version (a b : PatternFinding) : Prop := p_version b <= p_version a.
#[global] Instance higher_version_dec : RelDecision higher_version.
Proof. intros a b. unfold higher_version. apply _. Defined.

#[global] Instance higher_version_total : Total higher_version.
Proof. intros a b. unfold higher_version. lia. Qed.
#[global] Instance higher_version_trans : Transitive higher_version.
Proof. intros a b c. unfold higher_version. lia. Qed.

Definition with_hash (h : string) (p : PatternFinding) : bool := String.eqb (p_pattern_hash p) h.

(** Deactivate the versions of the pattern and add the next one, then flush. *)
Definition save_pattern_version (p : PatternFinding) : M world unit :=
  select (fun w => merge_sort higher_version (List.filter (with_hash (p_pattern_hash p)) (view w))) ≫= fun existing =>
  let next_version := match existing with e :: _ => p_version e + 1 | [] => 1 end in
  save (with_view (fun l => map (fun q => if with_hash (p_pattern_hash p) q then deactivate q else q) l ++
                            [activate next_version p])).

(** ** The job *)

Record mining_report := {
  events_scanned : nat;
  candidate_pairs : nat;
  accepted_findings : nat;
  rejected_findings : nat;
}.

(** [sorted({ev.region_label for ev in events})]: [None] does not compare with text. *)
Definition sorted_regions (events : list HazardEvent) : result pyexn (list (option string)) :=
  let labels := map h_region_label events in
  let named := sorted_set (omap id labels) in
  if existsb (fun r => match r with None => true | Some _ => false end) labels then
    match named with [] => Ok [None] | _ => Raise TypeError end
  else Ok (map Some named).

Section job.
Variable hash : string -> string -> option string -> Z -> string.
Variable describe : string -> string -> option string -> Z -> float -> float -> float -> float -> string.
Variable settings : mining_settings.

Definition time_windows : list Z := [7; 14; 30].

(** The candidates in the order of the nested loops. *)
Definition candidates (types : list string) (regions : list (option string)) : list (string * string * option string * Z) :=
  flat_map (fun s => flat_map (fun t =>
    if String.eqb s t then [] else flat_map (fun r => map (fun win => (s, t, r, win)) time_windows) regions) types) types.

Fixpoint mine (events : list HazardEvent) (mined_at : Z) (cs : list (string * string * option string * Z))
    (accepted rejected : nat) : M world (nat * nat) :=
  match cs with
  | [] => mret (accepted, rejected)
  | (s, t, r, win) :: cs =>
      lift (evaluate_candidate hash describe settings events mined_at s t r win) ≫= fun found =>
      match found with
      | None => mine events mined_at cs accepted (S rejected)
      | Some p => save_pattern_version p ≫= fun _ => mine events mined_at cs (S accepted) rejected
      end
  end.

Definition execute_pattern_mining : M world mining_report :=
  gets clock ≫= fun now =>
  open_session ≫= fun _ =>
  select (fun w => List.filter (fun e => now - pattern_lookback_days settings * day <=? h_event_date e) (hazard_events w)) ≫= fun events =>
  if (length events <? 2)%nat then
    mret {| events_scanned := length events; candidate_pairs := 0; accepted_findings := 0; rejected_findings := 0 |}
  else
    let event_types := sorted_set (map clean_type events) in
    lift (sorted_regions events) ≫= fun regions =>
    gets clock ≫= fun mined_at =>
    let cs := candidates event_types regions in
    mine events mined_at cs 0 0 ≫= fun '(accepted, rejected) =>
    commit ≫= fun _ =>
    mret {| events_scanned := length events; candidate_pairs := length cs; accepted_findings := accepted;
            rejected_findings := rejected |}.
End job.

(** ** Listing *)

Inductive sort_key := by_confidence | by_support_count | by_lift | by_mined_at.

(** [a] does not come after [b] in descending order of the key. *)
Definition key_ge (k : sort_key) (a b : PatternFinding) : Prop :=
  match k with
  | by_confidence => fleb (p_statistical_confidence b) (p_statistical_confidence a) = true
  | by_support_count => p_support_count b <= p_support_count a
  | by_lift => fleb (p_lift b) (p_lift a) = true
  | by_mined_at => p_mined_at b <= p_mined_at a
  end.
#[global] Instance key_ge_dec k : RelDecision (key_ge k).
Proof. intros a b. unfold key_ge. destruct k; apply _. Defined.
#[global] Instance key_le_dec k : RelDecision (flip (key_ge k)).
Proof. intros a b. unfold flip. apply _. Defined.

Definition pattern_matches (event_type region : option string) (time_window_days : option Z) (min_confidence : option float)
    (p : PatternFinding) : bool :=
  p_is_active p &&
  match event_type with
  | Some t => if str_truthy t then String.eqb (p_source_event_type p) (lower (strip t)) ||
                                   String.eqb (p_target_event_type p) (lower (strip t)) else true
  | None => true
  end &&
  match region with
  | Some r => if str_truthy r then bool_decide (p_region_label p = Some (strip r)) else true
  | None => true
  end &&
  match time_window_days with Some d => p_time_window_days p =? d | None => true end &&
  match min_confidence with Some c => fleb c (p_statistical_confidence p) | None => true end.

Definition list_active_patterns (event_type region : option string) (time_window_days : option Z)
    (min_confidence : option float) (sort_by : sort_key) (ascending : bool) (limit offset : Z) : M world (list PatternFinding) :=
  select (fun w =>
    let rows := List.filter (pattern_matches event_type region time_window_days min_confidence) (findings w) in
    page limit offset (if ascending then merge_sort (flip (key_ge sort_by)) rows else merge_sort (key_ge sort_by) rows)).

Definition list_public_research_patterns (enabled : bool) (event_type region : option string) (time_window_days : option Z)
    (min_confidence : option float) (sort_by : sort_key) (ascending : bool) (limit offset : Z)
    : M world (option (list PatternFinding)) :=
  if negb enabled then mret None
  else list_active_patterns event_type region time_window_days min_confidence sort_by ascending limit offset ≫= fun l => mret (Some l).

(** ** Lemmas *)

(** *** Statistics *)

Lemma wilson_clamped successes trials : exists x, fvalid x = true /\
  calculate_wilson_lower_bound successes trials = fmax f0 (fmin f1 x).
Proof.
  unfold calculate_wilson_lower_bound. destruct ((trials <=? 0) || (successes <=? 0)).
  - exists f0. by vm_compute.
  - eexists. split; [|reflexivity]. apply fdiv_valid.
Qed.

Lemma wilson_unit successes trials :
  in_unit (calculate_wilson_lower_bound successes trials) = true /\
  fvalid (calculate_wilson_lower_bound successes trials) = true.
Proof.
  destruct (wilson_clamped successes trials) as (x & Hx & ->).
  assert (is_nan f0 = false /\ is_nan f1 = false) as [H0 H1] by done.
  assert (is_nan (fmin f1 x) = false) as Hn.
  { unfold fmin. destruct (fltb x f1) eqn:E; [|done]. by destruct x. }
  split.
  - unfold in_unit. apply andb_true_iff. split; [by apply fmax_ge_l|].
    apply fmax_lub; [by vm_compute|]. by apply fmin_le_l.
  - destruct (fmax_cases f0 (fmin f1 x)) as [-> | ->]; [by vm_compute|].
    destruct (fmin_cases f1 x) as [-> | ->]; [by vm_compute|done].
Qed.

Section evaluation.
Variable hash : string -> string -> option string -> Z -> string.
Variable describe : string -> string -> option string -> Z -> float -> float -> float -> float -> string.
Variable settings : mining_settings.

(** The events of a type in a region. *)
Definition matching (events : list HazardEvent) (region : option string) (type : string) : list HazardEvent :=
  List.filter (fun e => String.eqb (clean_type e) type && bool_decide (h_region_label e = region)) events.

(** *** What the events show, independently of the mining *)

Definition candidate : Type := string * string * option string * Z.

(** [b], of the target type, follows [a], of the source type, in the region and
    within the window. *)
Definition succession (c : candidate) (ab : HazardEvent * HazardEvent) : bool :=
  let '(s, t, region, window) := c in
  let '(a, b) := ab in
  bool_decide (clean_type a = s /\ h_region_label a = region /\ clean_type b = t /\ h_region_label b = region /\
               h_event_date a < h_event_date b <= h_event_date a + window * 86400000000).

Definition support (events : list HazardEvent) (c : candidate) : Z :=
  Z.of_nat (length (List.filter (succession c) (list_prod events events))).

Definition occurrences (events : list HazardEvent) (region : option string) (type : string) : Z :=
  Z.of_nat (length (List.filter (fun e => bool_decide (clean_type e = type /\ h_region_label e = region)) events)).

(** Successions per source event, the share of the target type among all events,
    their quotient, and the Wilson bound of the first. *)
Definition observed (events : list HazardEvent) (c : candidate) : float :=
  let '(s, t, region, window) := c in int_truediv (support events c) (Z.to_pos (occurrences events region s)).
Definition baseline (events : list HazardEvent) (c : candidate) : float :=
  let '(s, t, region, window) := c in int_truediv (occurrences events region t) (Z.to_pos (Z.of_nat (length events))).
Definition lift_of (events : list HazardEvent) (c : candidate) : float := fdiv (observed events c) (baseline events c).
Definition confidence_of (events : list HazardEvent) (c : candidate) : float :=
  let '(s, t, region, window) := c in calculate_wilson_lower_bound (support events c) (occurrences events region s).

(** Both types occur, often enough together, more often than by chance, and with
    enough confidence. *)
Definition worth_noting (events : list HazardEvent) (c : candidate) : bool :=
  let '(s, t, region, window) := c in
  (0 <? occurrences events region s) && (0 <? occurrences events region t) &&
  (pattern_min_support settings <=? support events c) &&
  negb (fleb (baseline events c) f0) && negb (fleb (lift_of events c) f1) &&
  negb (fltb (confidence_of events c) (pattern_min_confidence settings)).

Definition key_of (p : PatternFinding) : candidate :=
  (p_source_event_type p, p_target_event_type p, p_region_label p, p_time_window_days p).

(** A stored finding says what the events show. *)
Record notable (events : list HazardEvent) (mined_at : Z) (p : PatternFinding) : Prop := {
  nt_hash : p_pattern_hash p = hash (p_source_event_type p) (p_target_event_type p) (p_region_label p) (p_time_window_days p);
  nt_support : p_support_count p = support events (key_of p);
  nt_sources : p_total_source_events p = occurrences events (p_region_label p) (p_source_event_type p);
  nt_targets : p_total_target_events p = occurrences events (p_region_label p) (p_target_event_type p);
  nt_ids : forall i, i ∈ p_supporting_event_ids p <->
             exists a b, a ∈ events /\ b ∈ events /\ succession (key_of p) (a, b) = true /\ (i = h_id a \/ i = h_id b);
  nt_observed : p_observed_rate p = fround 4 (observed events (key_of p));
  nt_baseline : p_baseline_rate p = fround 4 (baseline events (key_of p));
  nt_lift : p_lift p = fround 4 (lift_of events (key_of p));
  nt_confidence : p_statistical_confidence p = fround 4 (confidence_of events (key_of p));
  nt_uncertainty : point_estimate (p_uncertainty p) = confidence_of events (key_of p) /\
                   valid_estimate (p_uncertainty p) = true;
  nt_description : p_description p = describe (p_source_event_type p) (p_target_event_type p) (p_region_label p)
                     (p_time_window_days p) (observed events (key_of p)) (baseline events (key_of p))
                     (lift_of events (key_of p)) (confidence_of events (key_of p));
  nt_mined_at : p_mined_at p = mined_at;
}.

Lemma occurrences_matching events region type : occurrences events region type = Z.of_nat (length (matching events region type)).
Proof.
  unfold occurrences, matching. do 2 f_equal. apply filter_ext. intros e.
  apply eq_true_iff_eq. rewrite andb_true_iff, String.eqb_eq, !bool_decide_eq_true. tauto.
Qed.

Lemma filter_prod {A B} (P : A -> bool) (Q : B -> bool) (F : A * B -> bool) l m :
  List.filter F (list_prod (List.filter P l) (List.filter Q m)) =
  List.filter (fun p => P p.1 && Q p.2 && F p) (list_prod l m).
Proof.
  induction l as [|x l IH]; [done|]. cbn [List.filter list_prod]. rewrite List.filter_app, <- IH.
  assert (forall m, List.filter (fun p => P p.1 && Q p.2 && F p) (map (pair x) m) =
                    if P x then List.filter F (map (pair x) (List.filter Q m)) else []) as H.
  { clear. induction m as [|y m IH]; cbn; [by destruct (P x)|]. rewrite IH. destruct (P x), (Q y); cbn; try done. }
  rewrite H. destruct (P x); cbn [list_prod]; [by rewrite List.filter_app | done].
Qed.

(** The pairs the mining counts are the successions. *)
Lemma co_occurrences_successions events s t region window :
  co_occurrences window (matching events region s) (matching events region t) =
  List.filter (succession (s, t, region, window)) (list_prod events events).
Proof.
  unfold co_occurrences, matching. rewrite filter_prod. apply filter_ext. intros [a b]. cbn [fst snd succession].
  apply eq_true_iff_eq. unfold follows, day.
  rewrite !andb_true_iff, !String.eqb_eq, !bool_decide_eq_true, Z.ltb_lt, Z.leb_le. intuition lia.
Qed.

Lemma elem_of_successions events c a b :
  (a, b) ∈ List.filter (succession c) (list_prod events events) <-> a ∈ events /\ b ∈ events /\ succession c (a, b) = true.
Proof.
  rewrite elem_of_filter_bool, list_elem_of_In, in_prod_iff, <- !list_elem_of_In. tauto.
Qed.

(** The evaluation never raises; it finds exactly the candidates worth noting,
    with what the events show. *)
Lemma evaluate_candidate_ok events mined_at s t region window : exists found,
  evaluate_candidate hash describe settings events mined_at s t region window = Ok found /\
  (is_Some found <-> worth_noting events (s, t, region, window) = true) /\
  forall p, found = Some p -> key_of p = (s, t, region, window) /\ notable events mined_at p.
Proof.
  unfold evaluate_candidate. fold (matching events region s) (matching events region t).
  unfold worth_noting. rewrite <- !occurrences_matching.
  rewrite co_occurrences_successions. fold (support events (s, t, region, window)).
  destruct (Z.eqb_spec (occurrences events region s) 0) as [E0|E0].
  { eexists. split; [done|]. split; [|done]. rewrite E0. cbn. split; [by intros [? [=]]|done]. }
  destruct (Z.eqb_spec (occurrences events region t) 0) as [E1|E1].
  { eexists. split; [done|]. split; [|done]. rewrite E1. cbn. rewrite andb_false_r. cbn. split; [by intros [? [=]]|done]. }
  assert (0 < occurrences events region s /\ 0 < occurrences events region t) as [H0 H1] by (unfold occurrences in *; lia).
  rewrite (proj2 (Z.ltb_lt _ _) H0), (proj2 (Z.ltb_lt _ _) H1). cbn [orb andb].
  rewrite Z.leb_antisym. destruct (support _ _ <? _) eqn:Es; cbn [negb andb].
  { eexists. split; [done|]. split; [|done]. split; [by intros [? [=]]|done]. }
  assert (Z.max 1 (Z.of_nat (length events)) = Z.of_nat (length events)) as ->.
  { unfold occurrences in H0. destruct events; [done|]. cbn. lia. }
  change (int_truediv (occurrences events region t) _) with (baseline events (s, t, region, window)).
  change (int_truediv (support events _) _) with (observed events (s, t, region, window)).
  destruct (fleb _ f0); cbn [negb andb].
  { eexists. split; [done|]. split; [|done]. split; [by intros [? [=]]|done]. }
  fold (lift_of events (s, t, region, window)). destruct (fleb _ f1); cbn [negb andb].
  { eexists. split; [done|]. split; [|done]. split; [by intros [? [=]]|done]. }
  destruct (wilson_unit (support events (s, t, region, window)) (occurrences events region s)) as [Hu Hv].
  change (calculate_wilson_lower_bound _ _) with (confidence_of events (s, t, region, window)) in *.
  remember (confidence_of events (s, t, region, window)) as c eqn:Hc. destruct (fltb c _) eqn:Ec.
  { eexists. split; [done|]. split; [|done]. split; [by intros [? [=]]|done]. }
  unfold from_point_estimate. fold (in_unit c). rewrite Hu. cbn [negb raise_if].
  set (src := if fleb (flit 85 100) c then well_supported else model_uncertainty).
  pose proof (margin_interval_ok c DEFAULT_POINT_ESTIMATE_INTERVAL_MARGIN src Hv Hu ltac:(by vm_compute)) as Hm.
  pose proof (proj1 (make_estimate_ok _ _ _ _ _) Hm) as [_ Hvalid].
  cbn -[make_estimate support observed baseline lift_of succession]. rewrite Hm. eexists. split; [reflexivity|].
  split; [by split; [|eauto]|]. intros p [= <-]. split; [done|]. rewrite Hc in *. split; try done.
  intros i. cbn [p_supporting_event_ids]. rewrite (proj2 (proj2 (sorted_set_spec _))), elem_of_flat_map_bool. split.
  - intros ([x y] & (Hx & Hy & Hs)%elem_of_successions & Hi). exists x, y. split_and!; try done. cbn in Hi. set_solver.
  - intros (x & y & Hx & Hy & Hs & Hi). exists (x, y). split; [by apply elem_of_successions|]. cbn. set_solver.
Qed.
End evaluation.

(** *** Versions *)

(** The rows of one pattern, in the order they were stored: versions count up
    from 1 and only the last is active. *)
Definition versioned (l : list PatternFinding) : Prop :=
  forall k p, l !! k = Some p -> p_version p = Z.of_nat (S k) /\ p_is_active p = bool_decide (S k = length l).

Definition table_inv (l : list PatternFinding) : Prop := forall h, versioned (List.filter (with_hash h) l).

Definition superseded (p l : PatternFinding) : PatternFinding :=
  if with_hash (p_pattern_hash p) l then deactivate l else l.

Lemma filter_superseded h p l :
  List.filter (with_hash h) (map (superseded p) l) =
    map (fun q => if String.eqb h (p_pattern_hash p) then deactivate q else q) (List.filter (with_hash h) l).
Proof.
  induction l as [|q l IH]; [done|]. cbn [map List.filter].
  assert (with_hash h (superseded p q) = with_hash h q) as -> by (unfold superseded; by destruct (with_hash _ q)).
  destruct (with_hash h q) eqn:E; [|exact IH]. cbn [map]. rewrite IH. f_equal.
  apply String.eqb_eq in E. unfold superseded, with_hash. rewrite E, String.eqb_sym. done.
Qed.

Lemma versioned_next l p : versioned l -> versioned (map deactivate l ++ [activate (Z.of_nat (S (length l))) p]).
Proof.
  intros Hl k q. rewrite lookup_app_Some, length_app, length_map. cbn [length]. intros [Hk|[Hk Hq]].
  - rewrite list_lookup_fmap in Hk. destruct (l !! k) as [r|] eqn:E; [|done]. injection Hk as <-.
    destruct (Hl k r E) as [Hv _]. split; [exact Hv|]. apply lookup_lt_Some in E. cbn. rewrite bool_decide_false; [done|lia].
  - apply list_lookup_singleton_Some in Hq as [Hk0 <-]. cbn. rewrite bool_decide_true by lia. split; [|done]. f_equal. lia.
Qed.

(** The highest version is the number of rows. *)
Lemma highest_version l e rest : versioned l -> merge_sort higher_version l = e :: rest -> p_version e = Z.of_nat (length l).
Proof.
  intros Hl E. assert (e ∈ l) as He by (rewrite <- (merge_sort_Permutation higher_version l), E; left).
  apply list_elem_of_lookup in He as [k Hk]. destruct (Hl k e Hk) as [-> _].
  apply lookup_lt_Some in Hk as Hlt. destruct (lookup_lt_is_Some_2 l (pred (length l))) as [z Hz]; [lia|].
  destruct (Hl _ _ Hz) as [Hv _].
  assert (StronglySorted higher_version (e :: rest)) as Hs.
  { rewrite <- E. apply (StronglySorted_merge_sort higher_version). }
  assert (z ∈ e :: rest) as Hin by (rewrite <- E, merge_sort_Permutation; by eapply list_elem_of_lookup_2).
  apply elem_of_cons in Hin as [->|Hin]; [destruct (Hl k e Hk) as [H1 _]; lia|].
  apply StronglySorted_inv in Hs as [_ Hs]. rewrite Forall_forall in Hs. specialize (Hs z Hin).
  unfold higher_version in Hs. destruct (Hl k e Hk) as [H1 _]. lia.
Qed.

Definition next_version (h : string) (l : list PatternFinding) : Z :=
  match merge_sort higher_version (List.filter (with_hash h) l) with e :: _ => p_version e + 1 | [] => 1 end.

Definition stored (p : PatternFinding) (l : list PatternFinding) : list PatternFinding :=
  map (superseded p) l ++ [activate (next_version (p_pattern_hash p) l) p].

Lemma stored_inv p l : table_inv l -> table_inv (stored p l).
Proof.
  intros Hl h. unfold stored. rewrite List.filter_app, filter_superseded. cbn [List.filter].
  change (with_hash h (activate _ p)) with (String.eqb (p_pattern_hash p) h).
  rewrite (String.eqb_sym (p_pattern_hash p) h).
  destruct (String.eqb_spec h (p_pattern_hash p)) as [->|Hne].
  - assert (next_version (p_pattern_hash p) l = Z.of_nat (S (length (List.filter (with_hash (p_pattern_hash p)) l)))) as ->;
      [|by apply versioned_next].
    unfold next_version. destruct (merge_sort _ _) as [|e rest] eqn:E.
    + apply (f_equal length) in E. rewrite (Permutation_length (merge_sort_Permutation _ _)) in E. by rewrite E.
    + rewrite (highest_version _ e rest (Hl _) E). lia.
  - rewrite map_id, app_nil_r. apply Hl.
Qed.

Lemma deactivate_superseded p l : map deactivate (map (superseded p) l) = map deactivate l.
Proof. rewrite map_map. apply map_ext. intros q. unfold superseded. by destruct (with_hash _ q). Qed.

(** *** The job *)

Section run.
Variable hash : string -> string -> option string -> Z -> string.
Variable describe : string -> string -> option string -> Z -> float -> float -> float -> float -> string.
Variable settings : mining_settings.

(** Nothing is forgotten: rows are only deactivated and appended. *)
Definition extends (l l' : list PatternFinding) : Prop := exists new, map deactivate l' = map deactivate l ++ new.

Lemma extends_stored p l l' : extends l l' -> extends l (stored p l').
Proof.
  intros [new Hn]. unfold stored, extends. rewrite map_app, deactivate_superseded, Hn, <- app_assoc. by eexists.
Qed.

Record in_transaction (w0 w : world) : Prop := {
  tx_findings : findings w = findings w0;
  tx_view : table_inv (view w);
  tx_extends : extends (findings w0) (view w);
}.

Definition untouched (w0 : world) (_ : pyexn) (w : world) : Prop := findings w = findings w0.

Lemma transaction_statement w0 : triple (untouched w0) (in_transaction w0) statement (fun _ => in_transaction w0).
Proof. intros w [H1 H2 H3]. unfold statement. cbn. by destruct (default true (head (db w))). Qed.

Lemma save_version_keeps w0 p : triple (untouched w0) (in_transaction w0) (save_pattern_version p) (fun _ => in_transaction w0).
Proof.
  intros w Hw. unfold save_pattern_version, select. rewrite !M_bind_run. pose proof (transaction_statement w0 w Hw) as H1.
  assert (view (statement w).2 = view w) as Hv by done.
  destruct (statement w) as [[[]|e] w1]; [|exact H1]. cbn [gets]. cbn in Hv. unfold save. rewrite M_bind_run.
  pose proof (transaction_statement w0 w1 H1) as H2. assert (view (statement w1).2 = view w1) as Hv' by done.
  destruct (statement w1) as [[[]|e] w2]; [|exact H2]. cbn in Hv' |- *. destruct H2 as [F1 F2 F3].
  change (in_transaction w0 (with_view (fun l => map (superseded p) l ++ [activate (next_version (p_pattern_hash p) (view w1)) p]) w2)).
  rewrite <- Hv'. split; cbn; [done | by apply stored_inv | by apply extends_stored].
Qed.

Lemma mine_keeps w0 events t cs : forall a r,
  triple (untouched w0) (in_transaction w0) (mine hash describe settings events t cs a r) (fun _ => in_transaction w0).
Proof.
  induction cs as [|[[[s u] reg] win] cs IH]; intros a r; cbn [mine]; [by intros w Hw|].
  destruct (evaluate_candidate_ok hash describe settings events t s u reg win) as (found & -> & _ & _).
  apply (triple_bind _ _ _ (fun f w => f = found /\ in_transaction w0 w)); [by intros w Hw|].
  intros f. apply triple_pure. intros ->. destruct found as [p|]; [|apply IH].
  eapply triple_bind; [apply save_version_keeps|]. intros []. apply IH.
Qed.

Definition settled_table (w0 w : world) : Prop := table_inv (findings w) /\ extends (findings w0) (findings w).

Lemma commit_settles w0 : triple (untouched w0) (in_transaction w0) commit (fun _ => settled_table w0).
Proof.
  intros w Hw. unfold commit, save. rewrite M_bind_run. pose proof (transaction_statement w0 w Hw) as H1.
  destruct (statement w) as [[[]|e] w1]; [|exact H1]. destruct H1 as [F1 F2 F3]. cbn. by split.
Qed.

Lemma execute_settles w0 : table_inv (findings w0) ->
  triple (untouched w0) (fun w => w = w0) (execute_pattern_mining hash describe settings) (fun _ => settled_table w0).
Proof.
  intros Hinv. unfold execute_pattern_mining.
  apply (triple_bind _ _ _ (fun _ w => w = w0)); [by intros w ->|]. intros now.
  apply (triple_bind _ _ _ (fun _ => in_transaction w0)).
  { intros w ->. cbn. split; [done|exact Hinv|]. exists []. cbn. by rewrite app_nil_r. }
  intros []. apply (triple_bind _ _ _ (fun _ => in_transaction w0)).
  { unfold select. eapply triple_bind; [apply transaction_statement|]. by intros [] w Hw. }
  intros events. destruct (length events <? 2)%nat.
  { intros w [F1 F2 F3]. cbn. split; rewrite F1; [done|]. exists []. by rewrite app_nil_r. }
  destruct (sorted_regions events) as [regions|e].
  2: { intros w [F1 _ _]. cbn. exact F1. }
  apply (triple_bind _ _ _ (fun _ => in_transaction w0)); [by intros w Hw|]. intros regions'.
  apply (triple_bind _ _ _ (fun _ => in_transaction w0)); [by intros w Hw|]. intros mined_at. cbv zeta.
  eapply triple_bind; [apply mine_keeps|]. intros [accepted rejected].
  eapply triple_bind; [apply commit_settles|]. by intros [] w Hw.
Qed.
End run.

Section exact.
Variable hash : string -> string -> option string -> Z -> string.
Variable describe : string -> string -> option string -> Z -> float -> float -> float -> float -> string.
Variable settings : mining_settings.

Definition found_in (events : list HazardEvent) (t : Z) (c : string * string * option string * Z) : option PatternFinding :=
  let '(s, u, r, win) := c in
  match evaluate_candidate hash describe settings events t s u r win with Ok f => f | Raise _ => None end.

Definition store_all (found : list PatternFinding) (l : list PatternFinding) : list PatternFinding :=
  fold_left (fun l p => stored p l) found l.

Lemma save_version_run p w : db w = [] -> save_pattern_version p w = (Ok tt, with_view (stored p) w).
Proof. intros Hs. unfold save_pattern_version. rewrite M_bind_run, select_ok by done. cbv zeta. by rewrite save_ok. Qed.

Lemma mine_run events t cs : forall a r w, db w = [] ->
  mine hash describe settings events t cs a r w =
    (Ok (a + length (omap (found_in events t) cs), r + (length cs - length (omap (found_in events t) cs))),
     with_view (store_all (omap (found_in events t) cs)) w)%nat.
Proof.
  induction cs as [|[[[s u] reg] win] cs IH]; intros a r w Hs.
  - cbn. rewrite !Nat.add_0_r. by destruct w.
  - cbn [mine]. destruct (evaluate_candidate_ok hash describe settings events t s u reg win) as (found & E & _ & _).
    assert (length (omap (found_in events t) cs) <= length cs)%nat as Hle by apply omap_length.
    rewrite M_bind_run, E. unfold lift. cbn [omap list_omap found_in]. cbn [found_in] in *. rewrite E.
    destruct found as [p|].
    + rewrite M_bind_run, save_version_run, IH by done. cbn [length]. f_equal. do 2 f_equal; lia.
    + rewrite IH by done. cbn [length]. f_equal. do 2 f_equal; lia.
Qed.

(** The candidates found are those worth noting, in order. *)
Lemma found_keys events t cs :
  map key_of (omap (found_in events t) cs) = List.filter (worth_noting settings events) cs /\
  Forall (notable hash describe events t) (omap (found_in events t) cs).
Proof.
  induction cs as [|[[[s u] reg] win] cs [IH1 IH2]]; [done|]. cbn [omap list_omap List.filter].
  destruct (evaluate_candidate_ok hash describe settings events t s u reg win) as (found & E & Hw & Hn).
  cbn [found_in]. rewrite E. destruct found as [p|].
  - rewrite (proj1 Hw) by eauto. destruct (Hn p eq_refl) as [Hk Hp]. cbn [map]. rewrite Hk. split; [f_equal; exact IH1|].
    by constructor.
  - destruct (worth_noting settings events _); [|done]. destruct (proj2 Hw eq_refl) as [? [=]].
Qed.
End exact.

Lemma candidates_length types regions : NoDup types ->
  length (candidates types regions) = (length types * (length types - 1) * (length regions * 3))%nat.
Proof.
  intros Hn. unfold candidates.
  assert (forall (A B : Type) (f : A -> list B) l n, (forall x, x ∈ l -> length (f x) = n) -> length (flat_map f l) = (length l * n)%nat) as Hflat.
  { intros A B f l n Hf. induction l as [|x l IH]; [done|]. cbn. rewrite length_app, IH, Hf; [done|left|]. intros y Hy. apply Hf. by right. }
  rewrite <- Nat.mul_assoc. apply Hflat. intros s Hs.
  assert (forall l, NoDup l -> length (flat_map (fun t => if String.eqb s t then [] else
    flat_map (fun r => map (fun win => (s, t, r, win)) time_windows) regions) l) =
    ((length l - (if bool_decide (s ∈ l) then 1 else 0)) * (length regions * 3))%nat) as Hin.
  { induction l as [|t l IH]; intros Hl; [done|]. apply NoDup_cons in Hl as [Ht Hl]. cbn [flat_map]. rewrite length_app, IH by done.
    destruct (String.eqb_spec s t) as [->|Hne].
    - rewrite (bool_decide_false (t ∈ l)) by done. rewrite bool_decide_true by left. cbn. lia.
    - rewrite (Hflat _ _ _ regions 3%nat) by done.
      assert (bool_decide (s ∈ t :: l) = bool_decide (s ∈ l)) as -> by (apply bool_decide_ext; set_solver).
      destruct (bool_decide_reflect (s ∈ l)) as [Hsl|]; [|cbn; lia]. cbn [length].
      destruct l; [by apply elem_of_nil in Hsl|]. cbn [length]. lia. }
  rewrite Hin by done. by rewrite bool_decide_true.
Qed.

Lemma filter_filter {A} (f g : A -> bool) l : List.filter g (List.filter f l) = List.filter (fun x => f x && g x) l.
Proof. induction l as [|x l IH]; [done|]. cbn. destruct (f x); cbn; [|done]. by rewrite IH. Qed.

Lemma active_at_most_one l : versioned l -> (length (List.filter p_is_active l) <= 1)%nat.
Proof.
  intros Hl. destruct (decide (l = [])) as [->|Hne]; [cbn; lia|].
  destruct (exists_last Hne) as (l' & p & ->). rewrite List.filter_app, length_app.
  rewrite (filter_drop_all p_is_active l'); [cbn; destruct (p_is_active p); cbn; lia|].
  intros q [k Hk]%list_elem_of_lookup. destruct (Hl k q) as [_ ->]; [by apply lookup_app_l_Some|].
  apply lookup_lt_Some in Hk. rewrite length_app. apply bool_decide_eq_false. cbn. lia.
Qed.

Lemma elem_of_candidates types regions s t r win :
  (s, t, r, win) ∈ candidates types regions <-> s ∈ types /\ t ∈ types /\ s <> t /\ r ∈ regions /\ win ∈ [7; 14; 30].
Proof.
  unfold candidates. rewrite elem_of_flat_map_bool. split.
  - intros (s' & Hs & H). rewrite elem_of_flat_map_bool in H.
    destruct H as (t' & Ht & H). destruct (String.eqb_spec s' t') as [|Hne]; [by apply elem_of_nil in H|].
    rewrite elem_of_flat_map_bool in H. destruct H as (r' & Hr & H).
    apply list_elem_of_fmap in H as (win' & [= -> -> -> ->] & Hw). done.
  - intros (Hs & Ht & Hne & Hr & Hw). exists s. split; [done|]. rewrite elem_of_flat_map_bool. exists t. split; [done|].
    rewrite (proj2 (String.eqb_neq _ _) Hne). rewrite elem_of_flat_map_bool. exists r. split; [done|].
    apply list_elem_of_fmap. by exists win.
Qed.

Lemma sorted_regions_ok events regions r : sorted_regions events = Ok regions ->
  r ∈ regions <-> r ∈ map h_region_label events.
Proof.
  unfold sorted_regions. set (labels := map h_region_label events).
  assert (forall x, x ∈ sorted_set (omap id labels) <-> Some x ∈ labels) as Hset.
  { intros x. rewrite (proj2 (proj2 (sorted_set_spec _))), list_elem_of_omap. split; [by intros (y & Hy & E); cbn in E; subst y|].
    intros Hx. by exists (Some x). }
  destruct (existsb _ labels) eqn:En.
  - destruct (sorted_set _) as [|x l] eqn:E; [|done]. intros [= <-]. rewrite list_elem_of_singleton. split.
    + intros ->. apply existsb_true in En as ([y|] & Hy & Hb); [done|exact Hy].
    + intros Hr. destruct r as [x|]; [|done]. apply Hset in Hr. by apply elem_of_nil in Hr.
  - intros [= <-]. destruct r as [x|].
    + rewrite <- Hset, list_elem_of_fmap. split; [by intros (y & [= ->] & Hy)|]. intros Hx. by exists x.
    + split; [by intros (y & [=] & _)%list_elem_of_fmap|]. intros Hr. exfalso.
      assert (existsb (fun r : option string => match r with None => true | Some _ => false end) labels = true) as H
        by (apply existsb_true; by exists None). by rewrite H in En.
Qed.

(** ** Properties *)

(** Versioning survives every run, also one cut short by a failing statement:
    the rows of a pattern are numbered from 1 without gaps, only the last of
    them is active, and no row is lost or renumbered. *)
Theorem findings_versioned (hash : string -> string -> option string -> Z -> string)
    (describe : string -> string -> option string -> Z -> float -> float -> float -> float -> string)
    (settings : mining_settings) (w : world) :
  table_inv (findings w) ->
  let w' := (execute_pattern_mining hash describe settings w).2 in
  table_inv (findings w') /\ extends (findings w) (findings w') /\
  forall h, (length (List.filter (fun p => with_hash h p && p_is_active p) (findings w')) <= 1)%nat.
Proof.
  intros Hinv w'. pose proof (execute_settles hash describe settings w Hinv w eq_refl) as H.
  assert (settled_table w w') as [Ht He].
  { unfold w'. destruct (execute_pattern_mining _ _ _ w) as [[r|e] w1]; cbn; [exact H|].
    unfold untouched in H. split; rewrite H; [done|]. exists []. by rewrite app_nil_r. }
  split; [done|]. split; [done|]. intros h. rewrite <- (filter_filter (with_hash h) p_is_active).
  apply active_at_most_one, Ht.
Qed.

(** C30. On a healthy database, with at least two recent events whose regions are
    all named or all missing, mining considers every ordered pair of distinct
    event types in every region and window, each once, and stores exactly those
    worth noting: both types occur, the successions are at least the required
    support, the lift, successions per source event over the share of the target
    type, exceeds one, and the Wilson bound of the rate reaches the required
    confidence.  Each stored finding holds these very numbers and the ids of the
    events of its successions, and the report adds up. *)
Theorem mining_exact (hash : string -> string -> option string -> Z -> string)
    (describe : string -> string -> option string -> Z -> float -> float -> float -> float -> string)
    (settings : mining_settings) (regions : list (option string)) (w : world) :
  db w = [] ->
  let events := List.filter (fun e => clock w - pattern_lookback_days settings * day <=? h_event_date e) (hazard_events w) in
  (2 <= length events)%nat -> sorted_regions events = Ok regions ->
  let types := sorted_set (map clean_type events) in
  exists found report w', execute_pattern_mining hash describe settings w = (Ok report, w') /\
    findings w' = store_all found (findings w) /\
    map key_of found = List.filter (worth_noting settings events) (candidates types regions) /\
    Forall (notable hash describe events (clock w)) found /\
    (forall s t r win, (s, t, r, win) ∈ candidates types regions <->
       s ∈ map clean_type events /\ t ∈ map clean_type events /\ s <> t /\
       r ∈ map h_region_label events /\ win ∈ [7; 14; 30]) /\
    candidate_pairs report = (length types * (length types - 1) * (length regions * 3))%nat /\
    events_scanned report = length events /\ accepted_findings report = length found /\
    (accepted_findings report + rejected_findings report = candidate_pairs report)%nat.
Proof.
  intros Hs events H2 Hreg types. set (found := omap (found_in hash describe settings events (clock w)) (candidates types regions)).
  exists found. unfold execute_pattern_mining.
  rewrite M_bind_run. cbn [gets]. rewrite M_bind_run. cbn [open_session modify]. rewrite M_bind_run, select_ok by done.
  cbn [hazard_events with_view]. fold events. destruct (Nat.ltb_spec (length events) 2) as [Hlt|_]; [lia|].
  cbv zeta. rewrite M_bind_run. unfold lift. rewrite Hreg, M_bind_run. cbn [gets clock with_view]. fold types.
  rewrite M_bind_run, mine_run by done. rewrite M_bind_run. unfold commit. rewrite save_ok by done.
  assert (length found <= length (candidates types regions))%nat as Hle by apply omap_length.
  destruct (found_keys hash describe settings events (clock w) (candidates types regions)) as [Hk Hn].
  eexists _, _. split; [reflexivity|]. split; [done|]. split; [exact Hk|]. split; [exact Hn|]. split.
  { intros s t r win. rewrite elem_of_candidates, (sorted_regions_ok events regions r Hreg).
    unfold types. by rewrite !(proj2 (proj2 (sorted_set_spec _))). }
  cbn [candidate_pairs accepted_findings rejected_findings events_scanned]. fold found.
  split; [apply candidates_length; exact (proj1 (sorted_set_spec _))|]. split; [done|]. split; [done|]. cbn; lia.
Qed.

(** A region label on some events and none on others stops the job: text and
    [None] do not sort, and nothing is stored. *)
Theorem mixed_regions_fail (hash : string -> string -> option string -> Z -> string)
    (describe : string -> string -> option string -> Z -> float -> float -> float -> float -> string)
    (settings : mining_settings) (a b : HazardEvent) (label : string) (w : world) :
  db w = [] -> a ∈ hazard_events w -> b ∈ hazard_events w -> h_region_label a = None -> h_region_label b = Some label ->
  clock w - pattern_lookback_days settings * day <= h_event_date a ->
  clock w - pattern_lookback_days settings * day <= h_event_date b ->
  exists w', execute_pattern_mining hash describe settings w = (Raise TypeError, w') /\ findings w' = findings w.
Proof.
  intros Hs Ha Hb Hna Hsb Hta Htb. unfold execute_pattern_mining.
  rewrite M_bind_run. cbn [gets]. rewrite M_bind_run. cbn [open_session modify]. rewrite M_bind_run, select_ok by done.
  cbn [hazard_events with_view]. set (events := List.filter _ _).
  assert (a ∈ events /\ b ∈ events) as [Hia Hib] by (split; apply elem_of_filter_bool; split; try done; by apply Z.leb_le).
  destruct (Nat.ltb_spec (length events) 2) as [Hlt|_].
  { destruct events as [|x [|y l]]; cbn in Hlt; [by apply elem_of_nil in Hia| |lia].
    apply list_elem_of_singleton in Hia as ->, Hib as ->. congruence. }
  assert (sorted_regions events = Raise TypeError) as Hr.
  { unfold sorted_regions. rewrite (proj2 (existsb_true _ _)); [|exists None; split; [rewrite <- Hna; by apply list_elem_of_fmap_2|done]].
    destruct (sorted_set _) as [|x l] eqn:E; [|done]. assert (label ∈ sorted_set (omap id (map h_region_label events))) as Hl.
    { apply (proj2 (proj2 (sorted_set_spec _))), list_elem_of_omap. exists (Some label). split; [|done]. rewrite <- Hsb. by apply list_elem_of_fmap_2. }
    rewrite E in Hl. by apply elem_of_nil in Hl. }
  cbv zeta. rewrite M_bind_run. unfold lift. rewrite Hr. by eexists.
Qed.

(** The key of a pattern folds case and surrounding space of the region, the
    grouping of events does not: two spellings of a region are mined apart and
    then take each other's place, so that only the last stored is active. *)
Theorem region_spellings_supersede (sha256 : string -> string) (str_of_Z : Z -> string) (s t r r' : string) (window : Z)
    (p q : PatternFinding) (l : list PatternFinding) :
  table_inv l -> lower (strip r) = lower (strip r') ->
  p_pattern_hash p = generate_pattern_hash sha256 str_of_Z s t (Some r) window ->
  p_pattern_hash q = generate_pattern_hash sha256 str_of_Z s t (Some r') window ->
  exists v, List.filter (fun x => with_hash (p_pattern_hash p) x && p_is_active x) (stored q (stored p l)) = [activate v q].
Proof.
  intros Hl Hr Hp Hq. assert (p_pattern_hash p = p_pattern_hash q) as E.
  { rewrite Hp, Hq. unfold generate_pattern_hash, raw_key. change (default "" (Some r)) with r. change (default "" (Some r')) with r'. by rewrite Hr. }
  exists (next_version (p_pattern_hash q) (stored p l)). rewrite E. unfold stored at 1. rewrite List.filter_app.
  rewrite (filter_drop_all _ (map (superseded q) (stored p l))).
  - cbn. change (with_hash (p_pattern_hash q) (activate _ q)) with (String.eqb (p_pattern_hash q) (p_pattern_hash q)).
    by rewrite String.eqb_refl.
  - intros x (y & -> & _)%list_elem_of_fmap. unfold superseded. destruct (with_hash (p_pattern_hash q) y) eqn:Ey; [|by rewrite Ey].
    apply andb_false_r.
Qed.

(** ** Witnesses *)

Module PatternWitness.
Definition event (id type : string) (region : option string) (date : Z) : HazardEvent :=
  {| h_id := id; h_event_type := type; h_region_label := region; h_event_date := date * day; h_details := None;
     h_source := None; h_external_id := None; h_created_at := 0 |}.
Definition hash (s t : string) (r : option string) (d : Z) : string := generate_pattern_hash id (fun _ => "w") s t r d.
Definition describe (_ _ : string) (_ : option string) (_ : Z) (_ _ _ _ : float) : string := "text".
Definition settings : mining_settings :=
  {| pattern_lookback_days := 90; pattern_min_support := 1; pattern_min_confidence := f0 |}.
Definition quakes : list HazardEvent :=
  [event "q" "Earthquake" (Some "Chile") 1; event "t1" "tsunami" (Some "Chile") 2; event "t2" "tsunami" (Some "Chile") 3;
   event "t3" "tsunami " (Some "Chile") 4].
Definition w0 (events : list HazardEvent) : world := World events [] [] (5 * day) [].

(** One earthquake followed by three tsunamis: an observed rate of 300%. *)
Example rate_above_one :
  p_observed_rate <$> found_in hash describe settings quakes 0 ("earthquake", "tsunami", Some "Chile", 7) =
    Some (float_of_Z 3).
Proof. by vm_compute. Qed.

Lemma findings_versioned_witness :
  table_inv (findings (execute_pattern_mining hash describe settings (w0 quakes)).2).
Proof. apply (findings_versioned hash describe settings (w0 quakes)). intros h k p [=]. Defined.

Lemma mining_exact_witness : exists report w',
  execute_pattern_mining hash describe settings (w0 quakes) = (Ok report, w') /\ accepted_findings report = 3%nat.
Proof.
  destruct (mining_exact hash describe settings [Some "Chile"] (w0 quakes) eq_refl)
    as (found & report & w' & E & _ & Hk & _ & _ & _ & _ & Ha & _).
  - vm_compute. lia.
  - by vm_compute.
  - exists report, w'. split; [exact E|]. rewrite Ha. apply (f_equal length) in Hk. rewrite length_map in Hk.
    rewrite Hk. by vm_compute.
Defined.

Lemma mixed_regions_fail_witness : exists w',
  execute_pattern_mining hash describe settings (w0 [event "a" "flood" None 1; event "b" "fire" (Some "Chile") 1]) =
    (Raise TypeError, w').
Proof.
  destruct (mixed_regions_fail hash describe settings (event "a" "flood" None 1) (event "b" "fire" (Some "Chile") 1) "Chile"
    (w0 [event "a" "flood" None 1; event "b" "fire" (Some "Chile") 1])) as (w' & E & _); try done.
  - left.
  - right. left.
  - by exists w'.
Defined.

Definition some_finding : PatternFinding :=
  match found_in hash describe settings quakes 0 ("earthquake", "tsunami", Some "Chile", 7) with
  | Some p => p
  | None => Build_PatternFinding (hash "earthquake" "tsunami" (Some "Chile") 7) "" 0 "" "" None 0 0 0 0 f0 f0 f0 f0
              (Estimate f0 f0 f0 well_supported) [] "" 0 false
  end.

Lemma region_spellings_supersede_witness : exists v,
  List.filter (fun x => with_hash (p_pattern_hash some_finding) x && p_is_active x)
    (stored some_finding (stored some_finding [])) = [activate v some_finding].
Proof.
  apply (region_spellings_supersede id (fun _ => "w") "earthquake" "tsunami" "Chile" " chile" 7 some_finding some_finding []).
  - intros h k p [=].
  - by vm_compute.
  - by vm_compute.
  - by vm_compute.
Defined.
End PatternWitness.
