(* ===== verification/Plugins.v ===== *)
(** * Agent plugins at worker start
    ([src/orchestrator/agents/plugin_loader.py], [src/workers/worker.py],
    [src/eval/agent_contract_validator.py], [validate_domain_name] of
    [src/orchestrator/plugins/scaffold.py])

    Discovery of entry points, validation of manifest, settings and signature,
    registration, and the telemetry written afterwards.  A Python object is what
    the loader asks of it; importing, version specifiers and the environment are
    parameters. *)

From Stdlib Require Import Ascii.
From S2P Require Import Prelude PyStr Regex Effects Database Registry.

(** ** Python objects as the loader sees them *)

Inductive annotation := NoAnnotation | InputType | OutputType | OtherType (name : string).

Record callable := {
  c_name : string;
  c_MANIFEST : option PluginManifest;        (* attribute [MANIFEST], when a manifest *)
  c_manifest : option PluginManifest;        (* attribute [__manifest__] *)
  c_async : bool;
  c_params : list (string * annotation);     (* resolved annotations *)
  c_hints : result pyexn unit;               (* [get_type_hints] *)
  c_return : annotation;
}.

Inductive pyobject :=
| ManifestObject (m : PluginManifest)
| CallableObject (c : callable)
| OtherObject (m : option PluginManifest).   (* a module, say, with its [MANIFEST] *)

Record entry_point := { ep_name : string; ep_value : string; ep_load : result pyexn pyobject }.

(** [runner_callable or ep.value] *)
Inductive runner_ref := RunnerObject (o : pyobject) | RunnerPath (path : string).

Inductive load_error :=
| PluginValidationError (msg : string)
| IncompatibleVersionError (msg : string)
| LoadRaised (e : pyexn)
| RegistryRejected (e : @registry_error).

Definition manifest_attr (o : pyobject) : option PluginManifest :=
  match o with
  | ManifestObject _ => None
  | CallableObject c => c_MANIFEST c
  | OtherObject m => m
  end.

(** The manifest and runner of a loaded entry point. *)
Definition classify_entry (ep : entry_point) (o : pyobject) : option (PluginManifest * runner_ref) :=
  match o with
  | ManifestObject m => Some (m, RunnerPath (ep_value ep))
  | _ =>
      match manifest_attr o with
      | Some m => Some (m, RunnerObject o)
      | None =>
          match o with
          | CallableObject c => (fun m => (m, RunnerObject o)) <$> c_manifest c
          | _ => None
          end
      end
  end.

Fixpoint discover_entries (strict : bool) (eps : list entry_point) : result load_error (list (PluginManifest * runner_ref)) :=
  match eps with
  | [] => Ok []
  | ep :: eps =>
      match ep_load ep with
      | Ok o => rest ← discover_entries strict eps; Ok (option_list (classify_entry ep o) ++ rest)
      | Raise e => if strict then Raise (PluginValidationError ("Failed to load entry point " +:+ ep_name ep))
                   else discover_entries strict eps
      end
  end.

Definition discover_plugins (enabled strict : bool) (eps : result pyexn (list entry_point))
    : result load_error (list (PluginManifest * runner_ref)) :=
  if negb enabled then Ok [] else
  match eps with
  | Raise _ => Ok []
  | Ok eps => discover_entries strict eps
  end.

(** ** Validation *)

(** [s.rpartition(":")] without its middle. *)
Definition rpartition_colon (s : string) : string * string :=
  if has_char ":" s then
    let func := after_last ":" s in
    (String.substring 0 (String.length s - String.length func - 1) s, func)
  else ("", s).

Definition input_ok (a : annotation) : bool := match a with NoAnnotation | InputType => true | _ => false end.
Definition output_ok (a : annotation) : bool := match a with NoAnnotation | OutputType => true | _ => false end.

Definition validate_runner_contract (c : callable) (domain : string) : result pyexn (list string) :=
  if negb (c_async c) then Ok ["Agent '" +:+ domain +:+ "' runner callable is not an async coroutine function."] else
  match c_params c with
  | [] => Ok ["Agent '" +:+ domain +:+ "' runner takes 0 parameters."]
  | (name, type) :: _ =>
      _ ← c_hints c;
      Ok ((if input_ok type then [] else ["Agent '" +:+ domain +:+ "' first parameter '" +:+ name +:+ "' has the wrong type."]) ++
          (if output_ok (c_return c) then [] else ["Agent '" +:+ domain +:+ "' return annotation is wrong."]))
  end.

Section loader.
Variable specifier : string -> option (string -> bool).      (* [SpecifierSet(s)] *)
Variable GAIAOS_VERSION : string.
Variable getenv : string -> option string.
Variable import_attr : string -> string -> result pyexn pyobject.   (* module, attribute *)

Definition validate_plugin_compatibility (m : PluginManifest) : result load_error unit :=
  let version_range := strip (m_gaiaos_version_range m) in
  if negb (str_truthy version_range) then Ok tt else
  match specifier version_range with
  | None => Raise (IncompatibleVersionError "invalid gaiaos_version_range")
  | Some admits => if admits GAIAOS_VERSION then Ok tt else Raise (IncompatibleVersionError "running version")
  end.

Definition missing_settings (m : PluginManifest) : list string :=
  List.filter (fun r => negb (ostr_truthy (getenv r))) (m_required_settings m).

Definition validate_required_settings (m : PluginManifest) : result load_error unit :=
  match missing_settings m with
  | [] => Ok tt
  | missing => Raise (PluginValidationError ("missing required setting(s): " +:+ join ", " missing))
  end.

Definition resolve_runner (r : runner_ref) : result load_error (option callable) :=
  match r with
  | RunnerObject (CallableObject c) => Ok (Some c)
  | RunnerObject _ => Ok None
  | RunnerPath path =>
      let '(module_path, func_name) := rpartition_colon path in
      if negb (str_truthy module_path) || negb (str_truthy func_name) then
        Raise (PluginValidationError "Invalid entry_point string")
      else match import_attr module_path func_name with
           | Raise _ => Raise (PluginValidationError "Failed to import runner")
           | Ok (CallableObject c) => Ok (Some c)
           | Ok _ => Ok None
           end
  end.

Definition load_and_validate_plugin (m : PluginManifest) (r : runner_ref) : result load_error callable :=
  _ ← validate_plugin_compatibility m;
  _ ← validate_required_settings m;
  c ← resolve_runner r;
  match c with
  | None => Raise (PluginValidationError "entry point is not callable")
  | Some c =>
      match validate_runner_contract c (m_domain m) with
      | Raise e => Raise (LoadRaised e)
      | Ok [] => Ok c
      | Ok errors => Raise (PluginValidationError (join "; " errors))
      end
  end.

(** ** Worker start *)

Record InstalledPluginRow := { ip_manifest : PluginManifest; ip_status : string; ip_error_message : option string }.

Record world := World {
  registry : AgentRegistry callable;
  installed_plugins : list InstalledPluginRow;
  db : list bool;
}.

#[global] Program Instance plugins_db : Db world := {|
  script := db;
  set_script cs w := World (registry w) (installed_plugins w) cs;
|}.
Solve All Obligations with by intros [].

Variable str_error : load_error -> string.
Variable has_database : bool.

(** Telemetry is written in one batch, and its failure only logged. *)
Definition record_installed_plugin_telemetry_batch (records : list InstalledPluginRow) (w : world) : world :=
  if has_database && negb (match records with [] => true | _ => false end) then
    (try_except (save (fun w => World (registry w) (installed_plugins w ++ records) (db w))) (fun _ => mret tt) w).2
  else w.

(** One plugin: the registry after it, and what went wrong. *)
Definition load_one (m : PluginManifest) (r : runner_ref) (g : AgentRegistry callable)
    : result load_error (AgentRegistry callable) :=
  c ← load_and_validate_plugin m r;
  match register_plugin m c g with
  | Ok g => Ok g
  | Raise e => Raise (RegistryRejected e)
  end.

Definition telemetry (m : PluginManifest) (outcome : result load_error (AgentRegistry callable)) : InstalledPluginRow :=
  match outcome with
  | Ok _ => {| ip_manifest := m; ip_status := "active"; ip_error_message := None |}
  | Raise e => {| ip_manifest := m; ip_status := "failed"; ip_error_message := Some (str_error e) |}
  end.

(** The loop of [initialize_plugins]: the registry, the telemetry records and,
    in strict mode, the error that ended it. *)
Fixpoint load_all (strict : bool) (plugins : list (PluginManifest * runner_ref)) (g : AgentRegistry callable)
    : AgentRegistry callable * list InstalledPluginRow * option load_error :=
  match plugins with
  | [] => (g, [], None)
  | (m, r) :: plugins =>
      let outcome := load_one m r g in
      match outcome, strict with
      | Raise e, true => (g, [telemetry m outcome], Some (PluginValidationError (str_error e)))
      | _, _ =>
          let '(g', records, err) := load_all strict plugins (match outcome with Ok g' => g' | Raise _ => g end) in
          (g', telemetry m outcome :: records, err)
      end
  end.

Definition initialize_plugins (enabled strict : bool) (eps : result pyexn (list entry_point)) (w : world)
    : result load_error unit * world :=
  if negb enabled then (Ok tt, w) else
  match discover_plugins enabled strict eps with
  | Raise e => (Raise e, w)
  | Ok discovered =>
      let '(g, records, err) := load_all strict discovered (registry w) in
      let w1 := World g (installed_plugins w) (db w) in
      match err with
      | Some e => (Raise e, w1)
      | None => (Ok tt, record_installed_plugin_telemetry_batch records w1)
      end
  end.
End loader.

(** ** Names of new agents ([scaffold.py]) *)

Definition name_char (c : ascii) : bool := is_upper c || is_lower_az c || is_digit c || Ascii.eqb c "_".
(** [^[A-Za-z0-9_]+$] *)
Definition DOMAIN_REGEX : regex := RSeq RStart (RSeq (RChar name_char) (RSeq (RStar (RChar name_char)) REnd)).
Definition RESERVED_NAMES : list string :=
  ["__init__"; "registry"; "base"; "shared"; "contract_validator"; "test"; "tests"; "orchestrator"].

Definition validate_domain_name (name : string) : result pyexn string :=
  let clean_name := strip name in
  if negb (str_truthy clean_name) then Raise ValueError
  else if contains ".." clean_name || contains "/" clean_name || contains "\" clean_name then Raise ValueError
  else if negb (re_match DOMAIN_REGEX clean_name) then Raise ValueError
  else if existsb (String.eqb (lower clean_name)) RESERVED_NAMES then Raise ValueError
  else Ok clean_name.

(** ** Lemmas *)

Section start.
Variable specifier : string -> option (string -> bool).
Variable GAIAOS_VERSION : string.
Variable getenv : string -> option string.
Variable import_attr : string -> string -> result pyexn pyobject.
Variable str_error : load_error -> string.

Notation validated := (load_and_validate_plugin specifier GAIAOS_VERSION getenv import_attr).
Notation load_one := (load_one specifier GAIAOS_VERSION getenv import_attr).
Notation load_all := (load_all specifier GAIAOS_VERSION getenv import_attr str_error).

(** What the loader tells of one plugin, with respect to the registry it leaves. *)
Definition row_true (g' : AgentRegistry callable) (plugin : PluginManifest * runner_ref) (row : InstalledPluginRow) : Prop :=
  ip_manifest row = plugin.1 /\
  (ip_status row = "active" /\ (exists c, validated plugin.1 plugin.2 = Ok c /\ get (m_domain plugin.1) g' = Ok c) \/
   ip_status row = "failed" /\ (is_ok (validated plugin.1 plugin.2) = false \/ m_domain plugin.1 ∈ list_domains g')).

Lemma load_one_ok m r g g1 : load_one m r g = Ok g1 ->
  exists c, validated m r = Ok c /\ register_plugin m c g = Ok g1.
Proof.
  unfold load_one. destruct (validated m r) as [c|]; simpl; [|done].
  destruct (register_plugin m c g) eqn:E; [|done]. intros [= <-]. eauto.
Qed.

Lemma register_plugin_taken (m : PluginManifest) (c : callable) g e :
  register_plugin m c g = Raise e -> m_domain m ∈ list_domains g.
Proof.
  unfold register_plugin, list_domains. rewrite elem_of_app, <- !in_dict_elem. unfold in_dict.
  destruct (assoc (m_domain m) (_first_party_registry g)); [by left|].
  destruct (assoc (m_domain m) (_plugin_registry g)); [by right | done].
Qed.

Lemma load_one_raise m r g e : load_one m r g = Raise e ->
  is_ok (validated m r) = false \/ m_domain m ∈ list_domains g.
Proof.
  unfold load_one. destruct (validated m r) as [c|]; simpl; [|by left].
  destruct (register_plugin m c g) eqn:E; [done|]. right. by eapply register_plugin_taken.
Qed.

Lemma plugins_loaded_domains (g g' : AgentRegistry callable) d :
  plugins_loaded g g' -> d ∈ list_domains g -> d ∈ list_domains g'.
Proof.
  rewrite <- !get_list_domains. intros Hl. destruct (get d g) eqn:E; [|done].
  by rewrite (plugins_loaded_mono _ _ _ _ Hl E).
Qed.

Lemma load_all_registry strict plugins g g' records err :
  load_all strict plugins g = (g', records, err) ->
  plugins_loaded g g' /\
  forall d c, get d g' = Ok c -> get d g = Ok c \/
    exists m r, (m, r) ∈ plugins /\ m_domain m = d /\ validated m r = Ok c.
Proof.
  revert g g' records err. induction plugins as [|[m r] plugins IH]; intros g g' records err; simpl.
  { intros [= <- <- <-]. split; [constructor | auto]. }
  destruct (load_one m r g) as [g1|e] eqn:E.
  - apply load_one_ok in E as (c0 & Hc0 & Hr).
    destruct (load_all strict plugins g1) as [[g2 rs] er] eqn:E1. intros [= <- <- <-].
    apply IH in E1 as [Hl Hg]. split; [by eapply loaded_ok|].
    intros d c Hd. destruct (Hg d c Hd) as [Hd1|(m' & r' & Hin & Hm & Hv)].
    + destruct (decide (d = m_domain m)) as [->|Hne].
      * pose proof (proj2 (proj2 (proj2 (register_plugin_ok _ _ _ _ Hr)))) as Hget.
        rewrite Hget in Hd1. injection Hd1 as <-. right. exists m, r. repeat split; [left | done].
      * left. by rewrite <- (register_plugin_get_other _ _ _ _ _ Hr Hne).
    + right. exists m', r'. repeat split; [by right | done..].
  - destruct strict.
    + intros [= <- <- <-]. split; [constructor | auto].
    + destruct (load_all false plugins g) as [[g2 rs] er] eqn:E1. intros [= <- <- <-].
      apply IH in E1 as [Hl Hg]. split; [done|]. intros d c Hd.
      destruct (Hg d c Hd) as [?|(m' & r' & Hin & Hm & Hv)]; [by left|].
      right. exists m', r'. repeat split; [by right | done..].
Qed.

Lemma load_all_rows strict plugins g g' records :
  load_all strict plugins g = (g', records, None) -> Forall2 (row_true g') plugins records.
Proof.
  revert g g' records. induction plugins as [|[m r] plugins IH]; intros g g' records; simpl.
  { intros [= <- <-]. constructor. }
  destruct (load_one m r g) as [g1|e] eqn:E.
  - apply load_one_ok in E as (c0 & Hc0 & Hr).
    destruct (load_all strict plugins g1) as [[g2 rs] er] eqn:E1. intros [= <- <- ->].
    constructor; [|by eapply IH]. split; [done|]. left. split; [done|]. exists c0. split; [done|].
    apply load_all_registry in E1 as [Hl _]. eapply plugins_loaded_mono; [done|].
    by apply register_plugin_ok in Hr as (_ & _ & _ & ?).
  - destruct strict; [done|].
    destruct (load_all false plugins g) as [[g2 rs] er] eqn:E1. intros [= <- <- ->].
    constructor; [|by eapply IH]. split; [done|]. right. split; [done|].
    apply load_all_registry in E1 as [Hl _].
    apply load_one_raise in E as [?|?]; [by left|]. right. by eapply plugins_loaded_domains.
Qed.

Lemma load_all_lenient plugins g : (load_all false plugins g).2 = None.
Proof.
  revert g. induction plugins as [|[m r] plugins IH]; intros g; simpl; [done|].
  match goal with |- context [load_all false plugins ?x] => specialize (IH x); destruct (load_all false plugins x) as [[? ?] ?] end.
  by destruct (load_one m r g).
Qed.

(** In strict mode the loop is a fold that stops at the first failure. *)
Lemma load_all_strict plugins g g' records err :
  load_all true plugins g = (g', records, err) ->
  match err with
  | None => forall m r, (m, r) ∈ plugins -> exists c, validated m r = Ok c /\ get (m_domain m) g' = Ok c
  | Some _ => exists pre m r post, plugins = pre ++ (m, r) :: post /\
      (load_all true pre g).1.1 = g' /\ (load_all true pre g).2 = None /\ is_ok (load_one m r g') = false
  end.
Proof.
  revert g g' records err. induction plugins as [|[m r] plugins IH]; intros g g' records err; simpl.
  { intros [= <- <- <-]. by intros ? ? ?%elem_of_nil. }
  destruct (load_one m r g) as [g1|e] eqn:E.
  - destruct (load_all true plugins g1) as [[g2 rs] er] eqn:E1. intros [= <- <- <-].
    pose proof (load_all_registry _ _ _ _ _ _ E1) as [Hl _]. specialize (IH _ _ _ _ E1).
    pose proof (load_one_ok _ _ _ _ E) as (c0 & Hc0 & Hr). destruct er as [e'|].
    + destruct IH as (pre & m' & r' & post & -> & Hg & Hn & Hf). exists ((m, r) :: pre), m', r', post.
      split; [done|]. simpl. rewrite E. destruct (load_all true pre g1) as [[? ?] ?]. by simpl in *.
    + intros m' r' [[= -> ->]|Hin]%elem_of_cons; [|by apply IH]. exists c0. split; [done|].
      eapply plugins_loaded_mono; [done|]. by apply register_plugin_ok in Hr as (_ & _ & _ & ?).
  - intros [= <- <- <-]. exists [], m, r, plugins. rewrite E. by repeat split.
Qed.
End start.

(** What [DOMAIN_REGEX] lets through. *)
Lemma domain_regex_inv name : re_match DOMAIN_REGEX name = true ->
  exists w tl, name = w +:+ tl /\ (forall c, has_char c w = true -> name_char c = true) /\ (tl = "" \/ tl = newline).
Proof.
  rewrite re_match_spec. intros [b Hm]. unfold DOMAIN_REGEX in Hm. invert_matches.
  match goal with H : matches (RStar _) _ _ |- _ => apply star_char_inv in H as (w & Ew & Hw) end.
  match goal with H : at_end _ = true |- _ => apply at_end_inv in H as Htl end.
  simpl in *. subst. match goal with |- context [String ?x (w +:+ ?tl)] => exists (String x w), tl end.
  split; [done|]. split; [|done]. intros ch. simpl. rewrite orb_true_iff. intros [->%Ascii.eqb_eq|?]; auto.
Qed.

(** ** Properties *)

Section properties.
Variable specifier : string -> option (string -> bool).
Variable GAIAOS_VERSION : string.
Variable getenv : string -> option string.
Variable import_attr : string -> string -> result pyexn pyobject.
Variable str_error : load_error -> string.
Variable has_database : bool.

Notation validated := (load_and_validate_plugin specifier GAIAOS_VERSION getenv import_attr).
Notation initialize := (initialize_plugins specifier GAIAOS_VERSION getenv import_attr str_error has_database true).

Lemma telemetry_world records w :
  registry (record_installed_plugin_telemetry_batch has_database records w) = registry w /\
  (installed_plugins (record_installed_plugin_telemetry_batch has_database records w) = installed_plugins w ++ records \/
   installed_plugins (record_installed_plugin_telemetry_batch has_database records w) = installed_plugins w).
Proof.
  unfold record_installed_plugin_telemetry_batch. destruct (has_database && _); [|by split; [|right]].
  unfold try_except, save, statement. run_M. destruct w as [g rows [|[] cs]]; simpl; auto.
Qed.

(** Workers start with faulty plugins: in lenient mode [initialize_plugins]
    returns whatever the installed packages contain; the registry only grows,
    first-party agents and earlier plugins resolve as before, every domain that
    is new resolves to a callable that passed all checks of its own manifest, and
    the telemetry, when it is stored, has one true record per discovered plugin. *)
Theorem lenient_start eps w : exists w' discovered records,
  initialize false eps w = (Ok tt, w') /\ discover_plugins true false eps = Ok discovered /\
  plugins_loaded (registry w) (registry w') /\
  (forall d c, get d (registry w') = Ok c -> get d (registry w) = Ok c \/
     exists m r, (m, r) ∈ discovered /\ m_domain m = d /\ validated m r = Ok c) /\
  Forall2 (row_true specifier GAIAOS_VERSION getenv import_attr (registry w')) discovered records /\
  (installed_plugins w' = installed_plugins w ++ records \/ installed_plugins w' = installed_plugins w).
Proof.
  assert (exists discovered, discover_plugins true false eps = Ok discovered) as [discovered Hd].
  { destruct eps as [eps|]; unfold discover_plugins; cbn; [|eauto]. induction eps as [|ep eps [l IH]]; simpl; [eauto|].
    destruct (ep_load ep); [rewrite IH; simpl|]; eauto. }
  unfold initialize_plugins. simpl negb. cbv iota. rewrite Hd.
  pose proof (load_all_lenient specifier GAIAOS_VERSION getenv import_attr str_error discovered (registry w)) as Hn.
  destruct (load_all _ _ _ _ _ false discovered (registry w)) as [[g records] err] eqn:E. simpl in Hn. subst err.
  destruct (telemetry_world records (World g (installed_plugins w) (db w))) as [Hr Hi].
  exists (record_installed_plugin_telemetry_batch has_database records (World g (installed_plugins w) (db w))), discovered, records.
  rewrite Hr. simpl. apply load_all_registry in E as HE. destruct HE as [Hl Hg]. apply load_all_rows in E. auto 10.
Qed.

(** Strict mode is fail-fast: boot goes on exactly when every discovered plugin
    validates and registers; otherwise it raises at the first one that does not,
    with the plugins before it registered and no telemetry stored, so the
    failure the loop recorded is lost. *)
Theorem strict_start eps discovered w : discover_plugins true true eps = Ok discovered ->
  match initialize true eps w with
  | (Ok _, w') => forall m r, (m, r) ∈ discovered ->
      exists c, validated m r = Ok c /\ get (m_domain m) (registry w') = Ok c
  | (Raise _, w') => installed_plugins w' = installed_plugins w /\
      exists pre m r post, discovered = pre ++ (m, r) :: post /\
        (forall m' r', (m', r') ∈ pre -> exists c, validated m' r' = Ok c /\ get (m_domain m') (registry w') = Ok c) /\
        (is_ok (validated m r) = false \/ m_domain m ∈ list_domains (registry w'))
  end.
Proof.
  intros Hd. unfold initialize_plugins. simpl negb. cbv iota. rewrite Hd.
  destruct (load_all _ _ _ _ _ true discovered (registry w)) as [[g records] err] eqn:E.
  apply load_all_strict in E. destruct err as [e|].
  - split; [done|]. destruct E as (pre & m & r & post & -> & Hg & Hn & Hf). exists pre, m, r, post.
    split; [done|]. split.
    + destruct (load_all _ _ _ _ _ true pre (registry w)) as [[g1 rs] er] eqn:E1. simpl in Hg, Hn. subst.
      by apply load_all_strict in E1.
    + simpl. destruct (load_one _ _ _ _ m r g) eqn:E1; [done|]. by eapply load_one_raise.
  - intros m r Hin. rewrite (proj1 (telemetry_world _ _)). simpl. auto.
Qed.

(** Only callables load.  When importing an entry point's value gives the object
    the entry point loads, a plugin passes validation only if that object is
    itself a callable carrying its manifest: an entry point that names a
    [PluginManifest] or a module with a [MANIFEST] never registers, whatever
    [manifest.entry_point] says. *)
Theorem only_callables_load ep o m r c :
  ep_load ep = Ok o ->
  import_attr (rpartition_colon (ep_value ep)).1 (rpartition_colon (ep_value ep)).2 = ep_load ep ->
  classify_entry ep o = Some (m, r) ->
  validated m r = Ok c ->
  o = CallableObject c /\ (c_MANIFEST c = Some m \/ c_MANIFEST c = None /\ c_manifest c = Some m).
Proof.
  intros Hl Hi Hc Hv. unfold load_and_validate_plugin in Hv.
  apply result_bind_ok in Hv as (? & _ & Hv). apply result_bind_ok in Hv as (? & _ & Hv).
  apply result_bind_ok in Hv as ([c'|] & Hr & Hv); [|done].
  assert (c' = c) as ->.
  { destruct (validate_runner_contract c' (m_domain m)) as [[|]|]; by inversion Hv. }
  destruct o as [m'|c''|mo]; simpl in Hc.
  - injection Hc as <- <-. simpl in Hr. destruct (rpartition_colon (ep_value ep)) as [mp fn]. simpl in Hi.
    rewrite Hi, Hl in Hr. by destruct (_ || _).
  - destruct (c_MANIFEST c'') eqn:E.
    + injection Hc as <- <-. injection Hr as ->. auto.
    + destruct (c_manifest c'') eqn:E2; [|done]. injection Hc as <- <-. injection Hr as ->. auto.
  - destruct mo; [|done]. injection Hc as <- <-. done.
Qed.

(** Names accepted for a new agent are plain: stripped of surrounding space they
    are non-empty, made of letters, digits and underscores only, and none of the
    reserved names in any case. *)
Theorem domain_name_safe name clean : validate_domain_name name = Ok clean ->
  clean = strip name /\ clean <> "" /\ (forall c, has_char c clean = true -> name_char c = true) /\
  lower clean ∉ RESERVED_NAMES.
Proof.
  unfold validate_domain_name. destruct (str_truthy (strip name)) eqn:Et; [|done].
  cbn [negb]. destruct (_ || _); [done|]. destruct (re_match _ _) eqn:Em; [|done]. cbn [negb].
  destruct (existsb (String.eqb (lower (strip name))) RESERVED_NAMES) eqn:Er; [done|]. intros [= <-]. split; [done|].
  split; [unfold str_truthy in Et; bool_to_prop; done|]. split.
  - apply domain_regex_inv in Em as (w & tl & E & Hw & [->| ->]); rewrite E.
    + by rewrite append_nil_r.
    + unfold strip in E. by apply rstrip_last in E.
  - intros Hin. rewrite existsb_false in Er. specialize (Er _ Hin). by rewrite String.eqb_refl in Er.
Qed.
End properties.

(** ** The plugin of docs/PLUGIN_DEVELOPMENT.md *)

Module PluginsWitness.
Definition manifest : PluginManifest :=
  {| m_name := "gaiaos-volcano-plugin"; m_version := "1.0.0"; m_domain := "volcanic_activity";
     m_entry_point := "gaiaos_volcano.agent:run"; m_gaiaos_version_range := ">=5.0.0";
     m_required_settings := ["VOLCANO_API_KEY"]; m_eval_benchmark_question_ids := []; m_author := None; m_description := None |}.
Definition run : callable :=
  {| c_name := "run"; c_MANIFEST := None; c_manifest := None; c_async := true;
     c_params := [("agent_input", InputType)]; c_hints := Ok tt; c_return := OutputType |}.
Definition with_manifest : callable :=
  {| c_name := "run"; c_MANIFEST := Some manifest; c_manifest := None; c_async := true;
     c_params := [("agent_input", InputType)]; c_hints := Ok tt; c_return := OutputType |}.
Definition spec (s : string) : option (string -> bool) := Some (fun _ => true).
Definition env (s : string) : option string := if String.eqb s "VOLCANO_API_KEY" then Some "key" else None.
Definition import (obj : pyobject) (module attr : string) : result pyexn pyobject :=
  if String.eqb module "gaiaos_volcano.agent" && String.eqb attr "MANIFEST" then Ok obj
  else if String.eqb module "gaiaos_volcano.agent" && String.eqb attr "run" then Ok (CallableObject run) else Raise KeyError.
Definition ep (o : pyobject) : entry_point :=
  {| ep_name := "volcanic_activity"; ep_value := "gaiaos_volcano.agent:MANIFEST"; ep_load := Ok o |}.
Definition start (strict : bool) (o : pyobject) : result load_error unit * world :=
  initialize_plugins spec "5.1.0" env (import o) (fun _ => "error") true true strict (Ok [ep o])
    (World empty_registry [] []).

(** The documented package is refused, although its runner is sound... *)
Example documented_plugin_fails :
  map ip_status (installed_plugins (start false (ManifestObject manifest)).2) = ["failed"] /\
  list_domains (registry (start false (ManifestObject manifest)).2) = [] /\
  (start true (ManifestObject manifest)).1 = Raise (PluginValidationError "error").
Proof. by vm_compute. Qed.

(** ... while an entry point naming a function with a manifest attribute loads. *)
Example callable_plugin_loads : list_domains (registry (start true (CallableObject with_manifest)).2) = ["volcanic_activity"].
Proof. by vm_compute. Qed.

Lemma strict_start_witness :
  match start true (CallableObject with_manifest) with
  | (Ok _, w') => exists c, get "volcanic_activity" (registry w') = Ok c
  | (Raise _, _) => False
  end.
Proof.
  pose proof (strict_start spec "5.1.0" env (import (CallableObject with_manifest)) (fun _ => "error") true
    (Ok [ep (CallableObject with_manifest)]) [(manifest, RunnerObject (CallableObject with_manifest))]
    (World empty_registry [] []) eq_refl) as H.
  unfold start. destruct (initialize_plugins _ _ _ _ _ _ _ _ _ _) as [[u|e] w'] eqn:E.
  - destruct (H manifest (RunnerObject (CallableObject with_manifest))) as (c & _ & Hc); [left|]. eauto.
  - by vm_compute in E.
Defined.

Lemma only_callables_load_witness : CallableObject with_manifest = CallableObject with_manifest /\
  (c_MANIFEST with_manifest = Some manifest \/ c_MANIFEST with_manifest = None /\ c_manifest with_manifest = Some manifest).
Proof.
  apply (only_callables_load spec "5.1.0" env (import (CallableObject with_manifest)) (ep (CallableObject with_manifest))
    _ manifest (RunnerObject (CallableObject with_manifest))); by vm_compute.
Defined.

Lemma domain_name_safe_witness : lower "Volcano_1" ∉ RESERVED_NAMES.
Proof. by apply (domain_name_safe " Volcano_1 " "Volcano_1"); vm_compute. Defined.
End PluginsWitness.
