(* ===== verification/Scheduler.v ===== *)
(** * Recurring jobs ([src/workers/scheduler.py])

    Start of the scheduler process: each recurring job is looked up in Redis and
    scheduled if it is not there.  The queue is the list of stored jobs; every
    Redis round trip may fail. *)

From S2P Require Import Prelude Effects Database Settings.

Record job := {
  func_name : string;
  args : list string;
  scheduled_time : Z;
  interval : option Z;
  cron_string : option string;
}.

Record world := World { jobs : list job; now : Z; redis : list bool }.

#[global] Program Instance redis_trips : Db world := {|
  script := redis;
  set_script cs w := World (jobs w) (now w) cs;
|}.
Solve All Obligations with by intros [].

(** [job.func_name == func_name and job.args and job.args[0] == source] *)
Definition is_job (func source : string) (j : job) : bool :=
  String.eqb (func_name j) func && match args j with a :: _ => String.eqb a source | [] => false end.

(** A failure to read the queue is logged and answered with "not scheduled". *)
Definition is_job_already_scheduled (func source : string) : M world bool :=
  try_except (select (fun w => existsb (is_job func source) (jobs w))) (fun _ => mret false).

Inductive timing := Every (delay interval : Z) | Cron (cron : string).

Record recurring := { r_func : string; r_source : string; r_timing : timing }.

(** The job that [scheduler.schedule] or [scheduler.cron] stores; [next_run] is
    the library's reading of a cron string. *)
Definition scheduled_job (next_run : string -> Z -> Z) (r : recurring) (t : Z) : job :=
  match r_timing r with
  | Every delay iv => {| func_name := r_func r; args := [r_source r]; scheduled_time := t + delay;
                         interval := Some iv; cron_string := None |}
  | Cron c => {| func_name := r_func r; args := [r_source r]; scheduled_time := next_run c t;
                 interval := None; cron_string := Some c |}
  end.

(** What [main] registers, in its order. *)
Definition recurring_jobs (s : Settings) : list recurring :=
  map (fun source => {| r_func := "workers.jobs.ingestion_jobs.run_ingestion_job"; r_source := source;
                        r_timing := Every 10 (ingestion_poll_interval_hours s * 3600) |})
      ["usgs"; "noaa"; "copernicus"; "era5"; "gdelt"] ++
  [{| r_func := "workers.jobs.literature_ingestion_job.run_literature_ingestion_job"; r_source := "arxiv";
      r_timing := Every 25 (ingestion_poll_interval_hours s * 3600) |};
   {| r_func := "workers.jobs.alert_evaluation_job.run_alert_evaluation_job"; r_source := "alert_evaluation";
      r_timing := Every 15 (alert_evaluation_interval_minutes s * 60) |};
   {| r_func := "workers.jobs.backup_jobs.run_postgres_backup_job"; r_source := "postgres_backup";
      r_timing := Cron (backup_cron s) |};
   {| r_func := "workers.jobs.backup_jobs.run_restore_drill_job"; r_source := "restore_drill";
      r_timing := Cron (restore_drill_cron s) |};
   {| r_func := "workers.scaling_policy.emit_scaling_summary_log"; r_source := "scaling_summary";
      r_timing := Every 20 (scaling_summary_interval_s s) |};
   {| r_func := "workers.jobs.scaling_telemetry_job.run_scaling_telemetry_job"; r_source := "scaling_telemetry";
      r_timing := Every 22 (scaling_summary_interval_s s) |};
   {| r_func := "workers.jobs.calibration_job.run_calibration_job"; r_source := "simulation_calibration";
      r_timing := Every 30 (simulation_calibration_interval_days s * 24 * 3600) |};
   {| r_func := "workers.jobs.pattern_mining_job.run_pattern_mining_job"; r_source := "longitudinal_patterns";
      r_timing := Every 35 (pattern_mining_interval_hours s * 3600) |}].

Section scheduler.
Variable next_run : string -> Z -> Z.

Definition ensure_scheduled (r : recurring) : M world unit :=
  found ← is_job_already_scheduled (r_func r) (r_source r);
  if found : bool then mret tt
  else save (fun w => World (jobs w ++ [scheduled_job next_run r (now w)]) (now w) (redis w)).

(** [main] up to [scheduler.run()]. *)
Definition main (s : Settings) : M world unit := for_each ensure_scheduled (recurring_jobs s).

(** ** Lemmas *)

Definition key (r : recurring) : string * string := (r_func r, r_source r).
Definition present (js : list job) (r : recurring) : bool := existsb (is_job (r_func r) (r_source r)) js.

Lemma is_job_scheduled r r' t : is_job (r_func r') (r_source r') (scheduled_job next_run r t) = bool_decide (key r = key r').
Proof.
  apply Bool.eq_iff_eq_true. rewrite bool_decide_eq_true. unfold scheduled_job, is_job, key.
  destruct (r_timing r); cbn [func_name args]; rewrite andb_true_iff, !String.eqb_eq, pair_eq; naive_solver.
Qed.

Lemma ensure_scheduled_ok r w : redis w = [] ->
  ensure_scheduled r w = (Ok tt, World (jobs w ++ (if present (jobs w) r then [] else [scheduled_job next_run r (now w)])) (now w) []).
Proof.
  intros Hr. unfold ensure_scheduled, is_job_already_scheduled, try_except. rewrite M_bind_run.
  rewrite select_ok by done. unfold present. destruct (existsb _ (jobs w)).
  - rewrite app_nil_r. destruct w; simpl in *. by subst.
  - rewrite save_ok by done. simpl. by rewrite Hr.
Qed.

(** The jobs that a healthy pass over [rs] adds to [js]. *)
Definition missing (js : list job) (rs : list recurring) : list recurring :=
  List.filter (fun r => negb (present js r)) rs.

Lemma missing_after r js rs t : key r ∉ map key rs -> missing (js ++ [scheduled_job next_run r t]) rs = missing js rs.
Proof.
  intros Hni. apply filter_ext_in. intros r' Hr'. f_equal. unfold present. rewrite existsb_app. simpl.
  rewrite is_job_scheduled, orb_false_r, bool_decide_eq_false_2, orb_false_r; [done|].
  intros Hk. apply Hni. rewrite Hk. by apply list_elem_of_In, in_map.
Qed.

Lemma for_each_scheduled rs w : redis w = [] -> NoDup (map key rs) ->
  for_each ensure_scheduled rs w =
    (Ok tt, World (jobs w ++ map (fun r => scheduled_job next_run r (now w)) (missing (jobs w) rs)) (now w) []).
Proof.
  revert w. induction rs as [|r rs IH]; intros w Hw Hn.
  { simpl. rewrite app_nil_r. destruct w; simpl in *. by subst. }
  inversion Hn as [|? ? Hni Hn']; subst. cbn [for_each]. rewrite M_bind_run, ensure_scheduled_ok by done.
  rewrite IH by done. cbn [jobs now]. do 2 f_equal. rewrite <- app_assoc. f_equal. simpl.
  destruct (present (jobs w) r); simpl; [by rewrite app_nil_r | by rewrite missing_after].
Qed.

Lemma recurring_keys s : NoDup (map key (recurring_jobs s)).
Proof.
  cbv [map key recurring_jobs app r_func r_source]. apply (bool_decide_unpack _). by vm_compute.
Qed.

Lemma present_scheduled js r t : present (js ++ [scheduled_job next_run r t]) r = true.
Proof. unfold present. rewrite existsb_app. simpl. rewrite is_job_scheduled, bool_decide_eq_true_2 by done. by rewrite orb_true_r. Qed.

Lemma present_prefix js js' r : js `prefix_of` js' -> present js r = true -> present js' r = true.
Proof. intros [k ->] Hp. unfold present in *. by rewrite existsb_app, Hp. Qed.

(** A pass never removes a job, and the job it looked for is there afterwards,
    whether or not the queue could be read. *)
Lemma ensure_scheduled_progress r w u w' : ensure_scheduled r w = (Ok u, w') ->
  jobs w `prefix_of` jobs w' /\ present (jobs w') r = true.
Proof.
  unfold ensure_scheduled, is_job_already_scheduled, try_except. rewrite M_bind_run.
  destruct (select _ w) as [[b|e] w1] eqn:E.
  - apply select_returns in E as [-> [cs ->]]. cbn. destruct (existsb (is_job (r_func r) (r_source r)) (jobs w)) eqn:Ex.
    + intros [= _ <-]. done.
    + intros (cs' & ->)%save_returns. cbn. split; [by eexists | apply present_scheduled].
  - assert (jobs w1 = jobs w) as Hj.
    { revert E. unfold select, statement, gets. rewrite M_bind_run. destruct (default true _); simpl; by intros [= _ <-]. }
    rewrite <- Hj. intros (cs' & ->)%save_returns. cbn. split; [by eexists | apply present_scheduled].
Qed.

Lemma for_each_progress rs w u w' : for_each ensure_scheduled rs w = (Ok u, w') ->
  jobs w `prefix_of` jobs w' /\ forall r, r ∈ rs -> present (jobs w') r = true.
Proof.
  revert w. induction rs as [|r rs IH]; intros w; cbn [for_each].
  { intros [= _ <-]. split; [done | by intros ? ?%elem_of_nil]. }
  rewrite M_bind_run. destruct (ensure_scheduled r w) as [[u1|] w1] eqn:E; [|done]. intros H.
  apply ensure_scheduled_progress in E as [H1 Hr]. apply IH in H as [H2 Hrs]. split; [by etrans|].
  intros r' [->|Hin]%elem_of_cons; [by eapply present_prefix | auto].
Qed.

(** The queue cannot be read but can be written. *)
Lemma for_each_unreadable rs w cs : redis w = concat (replicate (length rs) [false; true]) ++ cs ->
  for_each ensure_scheduled rs w = (Ok tt, World (jobs w ++ map (fun r => scheduled_job next_run r (now w)) rs) (now w) cs).
Proof.
  revert w. induction rs as [|r rs IH]; intros [js t rd]; simpl; intros ->.
  { by rewrite app_nil_r. }
  rewrite M_bind_run. unfold ensure_scheduled at 1, is_job_already_scheduled, select, save, statement. run_M.
  rewrite IH by done. cbn. by rewrite <- app_assoc.
Qed.

(** ** Properties *)

(** Restarts are idempotent: with Redis reachable, [main] appends exactly the
    recurring jobs whose function and source are not queued yet, each once; a
    later start, with whatever settings, adds nothing, so that a changed
    interval or cron string does not reach a job already queued. *)
Theorem scheduler_exact s w : redis w = [] ->
  exists w', main s w = (Ok tt, w') /\
  jobs w' = jobs w ++ map (fun r => scheduled_job next_run r (now w)) (missing (jobs w) (recurring_jobs s)) /\
  forall s' t, main s' (World (jobs w') t []) = (Ok tt, World (jobs w') t []).
Proof.
  intros Hw. unfold main. rewrite for_each_scheduled by auto using recurring_keys.
  eexists. split; [done|]. split; [done|]. intros s' t. cbn [jobs].
  rewrite for_each_scheduled by auto using recurring_keys. cbn [jobs now].
  unfold missing at 2. rewrite filter_drop_all; [by rewrite app_nil_r|].
  pose proof (for_each_scheduled (recurring_jobs s) w Hw (recurring_keys s)) as E.
  apply for_each_progress in E as [_ Hp]. cbn [jobs] in Hp. intros r Hr. apply negb_false_iff.
  assert (key r ∈ map key (recurring_jobs s)) as Hk.
  { change (map key (recurring_jobs s)) with (map key (recurring_jobs s')). by apply list_elem_of_In, in_map, list_elem_of_In. }
  apply list_elem_of_In, in_map_iff in Hk as (r0 & Hk & Hr0%list_elem_of_In).
  specialize (Hp _ Hr0). unfold present in *. unfold key in Hk. by injection Hk as <- <-.
Qed.

(** Whatever Redis does, a start that comes through leaves every recurring job
    queued and removes none. *)
Theorem scheduler_never_loses s w u w' : main s w = (Ok u, w') ->
  jobs w `prefix_of` jobs w' /\ forall r, r ∈ recurring_jobs s -> existsb (is_job (r_func r) (r_source r)) (jobs w') = true.
Proof. apply for_each_progress. Qed.

(** ... but registration is not idempotent when the queue cannot be read: each
    such start queues all recurring jobs once more. *)
Theorem unreadable_queue_duplicates s w : redis w = concat (replicate 13 [false; true]) ->
  main s w = (Ok tt, World (jobs w ++ map (fun r => scheduled_job next_run r (now w)) (recurring_jobs s)) (now w) []).
Proof. intros Hw. apply for_each_unreadable. by rewrite app_nil_r. Qed.
End scheduler.

Module SchedulerWitness.
Definition next_run (_ : string) (t : Z) : Z := t + 60.
Definition w0 (cs : list bool) : world := World [] 0 cs.

Lemma scheduler_exact_witness : exists w', main next_run default_Settings (w0 []) = (Ok tt, w') /\ length (jobs w') = 13%nat.
Proof.
  destruct (scheduler_exact next_run default_Settings (w0 []) eq_refl) as (w' & E & Hj & _).
  exists w'. split; [exact E|]. rewrite Hj. by vm_compute.
Defined.

Lemma scheduler_never_loses_witness : exists w', main next_run default_Settings (w0 [false]) = (Ok tt, w') /\ jobs (w0 [false]) `prefix_of` jobs w'.
Proof.
  eexists. split; [by vm_compute|]. by eapply (scheduler_never_loses next_run default_Settings (w0 [false]) tt); vm_compute.
Defined.

Lemma unreadable_queue_duplicates_witness : exists w',
  main next_run default_Settings (World (map (fun r => scheduled_job next_run r 0) (recurring_jobs default_Settings)) 5 (concat (replicate 13 [false; true]))) = (Ok tt, w') /\
  length (jobs w') = 26%nat.
Proof.
  eexists. split; [by apply unreadable_queue_duplicates|]. by vm_compute.
Defined.
End SchedulerWitness.
