(* ===== verification/Simulation.v ===== *)
(** * Simulation engine and simulation agent
    ([src/simulation_engine/__init__.py], [registry.py], [parameter_loader.py],
    [models/*.py], [src/orchestrator/agents/simulation/agent.py])

    The four statistical models, the registry that finds them, the loader of
    calibrated coefficients with its cache, and the agent that reads numbers out
    of a query and of other agents' evidence, runs a model and turns its bounds
    into an uncertainty estimate.  The contents of a parameter file are an
    abstract text; YAML is a parameter.  Instants are microseconds. *)

From Stdlib Require Import Ascii.
From stdpp Require Import pretty.
From S2P Require Import Prelude PyFloat FloatRound PyStr Regex Effects Database Uncertainty AgentIO.

Definition params : Type := list (string * float).

(** [cal_params.get(k, defaults[k])] *)
Definition param (cal defaults : params) (k : string) : float := default (default f0 (assoc k defaults)) (assoc k cal).

(** ** Parameter files *)

Inductive scalar := SInt (z : Z) | SFloat (f : float) | SBool (b : bool) | SOther.

(** A loaded document: no dictionary, or one whose ["parameters"], when a dictionary, are given. *)
Inductive document := NotADict | DictDoc (parameters : option (list (string * scalar))).

Definition CACHE_TTL_SECONDS : Z := 30 * 1000000.

Section loader.
Context {Text : Type}.
Variable safe_load : Text -> result pyexn document.

Record file := File { f_mtime : Z; f_text : Text }.

(** The directory of parameter files, the cache [(last_checked, mtime, params)]
    and which of the coming file operations succeed. *)
Record world := World {
  files : list (string * file);
  cache : list (string * (Z * Z * params));
  now : Z;
  io : list bool;
}.

#[global] Program Instance sim_io : Db world := {|
  script := io;
  set_script cs w := World (files w) (cache w) (now w) cs;
|}.
Solve All Obligations with by intros [].

Definition set_cache (m : string) (e : Z * Z * params) (w : world) : world :=
  World (files w) (assoc_set m e (cache w)) (now w) (io w).

(** [float(v)] of a number; [math.isfinite] converts alike, so a huge integer raises. *)
Definition as_float (v : scalar) : result pyexn (option float) :=
  match v with
  | SInt z => if ffinite (float_of_Z z) then Ok (Some (float_of_Z z)) else Raise (OtherError "OverflowError")
  | SFloat f => Ok (Some f)
  | SBool b => Ok (Some (if b then f1 else f0))
  | SOther => Ok None
  end.

Fixpoint check_keys (ps : list (string * scalar)) (required_keys : list string) : result pyexn bool :=
  match required_keys with
  | [] => Ok true
  | k :: ks =>
      match assoc k ps with
      | None => Ok false
      | Some v =>
          f ← as_float v;
          match f with
          | Some f => if ffinite f then check_keys ps ks else Ok false
          | None => Ok false
          end
      end
  end.

Definition validate_parameters_yaml (data : document) (required_keys : list string) : result pyexn bool :=
  match data with
  | DictDoc (Some ps) => check_keys ps required_keys
  | _ => Ok false
  end.

(** [float(data["parameters"][k])] *)
Definition parameter_value (data : document) (k : string) : result pyexn (string * float) :=
  match data with
  | DictDoc (Some ps) =>
      match assoc k ps with
      | None => Raise KeyError
      | Some v => f ← as_float v; match f with Some f => Ok (k, f) | None => Raise TypeError end
      end
  | _ => Raise TypeError
  end.

Definition latest_file (model_name : string) : string := model_name +:+ "_latest.yaml".

(** Step 3: read the file, check it and remember it. *)
Definition reload (model_name : string) (defaults : params) (f : file) : M world params :=
  _ ← statement;                                          (* open and read *)
  data ← lift (safe_load (f_text f));
  let required_keys := map fst defaults in
  valid ← lift (validate_parameters_yaml data required_keys);
  if valid : bool then
    ps ← lift (result_mapM (parameter_value data) required_keys);
    t ← gets now;
    _ ← modify (set_cache model_name (t, f_mtime f, ps));
    mret ps
  else mret defaults.

(** Steps 2 and 3, inside the [try]. *)
Definition check_file (model_name : string) (defaults : params) (f : file) : M world params :=
  _ ← statement;                                          (* stat *)
  cached ← gets (fun w => assoc model_name (cache w));
  t ← gets now;
  match cached with
  | Some (_, cached_mtime, cached_params) =>
      if f_mtime f =? cached_mtime then
        _ ← modify (set_cache model_name (t, f_mtime f, cached_params)); mret cached_params
      else reload model_name defaults f
  | None => reload model_name defaults f
  end.

Definition from_disk (model_name : string) (defaults : params) (w : world) : params * world :=
  match assoc (latest_file model_name) (files w) with
  | None => (defaults, w)
  | Some f =>
      match check_file model_name defaults f w with
      | (Ok ps, w') => (ps, w')
      | (Raise _, w') => (defaults, w')
      end
  end.

(** [load_calibrated_parameters] never raises. *)
Definition load_calibrated_parameters (model_name : string) (defaults : params) (w : world) : params * world :=
  match assoc model_name (cache w) with
  | Some (last_checked, _, cached_params) =>
      if now w - last_checked <=? CACHE_TTL_SECONDS then (cached_params, w) else from_disk model_name defaults w
  | None => from_disk model_name defaults w
  end.

(** [dict.pop(model_name, None)] *)
Definition invalidate_parameter_cache (model_name : option string) (w : world) : world :=
  World (files w)
    (match model_name with
     | None => []
     | Some m => List.filter (fun e => negb (String.eqb m e.1)) (cache w)
     end) (now w) (io w).

(** ** Models *)

Inductive sim_error := MissingInput (name : string) | OutOfBounds (name : string) | NoModel (hazard : string).

(** [f"{x:.1f}"] *)
Definition format_1f (x : float) : string :=
  match x with
  | S754_nan => "nan"
  | S754_infinity s => if s then "-inf" else "inf"
  | S754_zero s => if s then "-0.0" else "0.0"
  | S754_finite s m e =>
      let tenths := if 0 <=? e then Z.pos m * 10 * 2 ^ e else nearest_even (Z.pos m * 10) (2 ^ (- e)) in
      (if s then "-" else "") +:+ pretty (tenths / 10) +:+ "." +:+ pretty (tenths mod 10)
  end.

Inductive model := PlumeDispersionModel | FloodExtentModel | WildfireSpreadModel | ENSOForecastModel.

#[global] Instance model_eq_dec : EqDecision model.
Proof. solve_decision. Defined.

(** Name in the parameter directory and default coefficients. *)
Definition parameter_name (m : model) : string :=
  match m with
  | PlumeDispersionModel => "plume_dispersion"
  | FloodExtentModel => "flood_extent"
  | WildfireSpreadModel => "wildfire_spread"
  | ENSOForecastModel => "enso_forecast"
  end.

Definition defaults (m : model) : params :=
  match m with
  | PlumeDispersionModel =>
      [("wind_coefficient", flit 18 10); ("low_bound_factor", flit 15 10); ("high_bound_factor", flit 21 10)]
  | FloodExtentModel =>
      [("rainfall_coefficient", flit 32 10); ("low_bound_factor", flit 28 10); ("high_bound_factor", flit 36 10)]
  | WildfireSpreadModel =>
      [("wind_coefficient", flit 4 10); ("temp_coefficient", flit 1 10);
       ("low_bound_factor", flit 7 10); ("high_bound_factor", flit 13 10)]
  | ENSOForecastModel =>
      [("el_nino_threshold", flit 5 10); ("la_nina_threshold", flit (-5) 10);
       ("low_bound_offset", flit (-2) 10); ("high_bound_offset", flit 2 10)]
  end.

Definition within (lo hi x : float) : bool := fleb lo x && fleb x hi.

(** A required input inside its sanity bounds. *)
Definition input (name : string) (parameters : params) : result sim_error float :=
  match assoc name parameters with Some x => Ok x | None => Raise (MissingInput name) end.

Definition result_of (m : model) (prediction : string) (low high : float) : SimulationResult :=
  {| sr_prediction := prediction; sr_uncertainty_bounds := (low, high);
     sr_assumptions :=
       match m with
       | PlumeDispersionModel => ["Wind speed remains constant"; "Point source emission at 10m height"]
       | FloodExtentModel => ["Soil is fully saturated"; "Flat topography baseline approximation"]
       | WildfireSpreadModel => ["Homogeneous fuel distribution"; "Zero slope baseline"]
       | ENSOForecastModel => ["Sea surface temperature anomalies persist for at least 3 months";
                               "Niño 3.4 region monitoring baseline"]
       end;
     sr_model_used :=
       match m with
       | PlumeDispersionModel => "PlumeDispersionModel"
       | FloodExtentModel => "FloodExtentModel"
       | WildfireSpreadModel => "WildfireSpreadModel"
       | ENSOForecastModel => "ENSOForecastModel"
       end;
     sr_uncertainty := None |}.

Definition run_plume (parameters cal : params) : result sim_error SimulationResult :=
  wind_speed ← input "wind_speed" parameters;
  raise_if (negb (within (flit 5 10) (float_of_Z 50) wind_speed)) (OutOfBounds "wind_speed") ;;
  let get := param cal (defaults PlumeDispersionModel) in
  let dispersion_distance := fmul wind_speed (get "wind_coefficient") in
  Ok (result_of PlumeDispersionModel
        ("Plume dispersion prediction: plume will disperse up to " +:+ format_1f dispersion_distance +:+ " km downwind.")
        (fmul wind_speed (get "low_bound_factor")) (fmul wind_speed (get "high_bound_factor"))).

Definition run_flood (parameters cal : params) : result sim_error SimulationResult :=
  rainfall ← input "rainfall" parameters;
  raise_if (negb (within (float_of_Z 5) (float_of_Z 500) rainfall)) (OutOfBounds "rainfall") ;;
  let get := param cal (defaults FloodExtentModel) in
  let flooded_area := fmul rainfall (get "rainfall_coefficient") in
  Ok (result_of FloodExtentModel
        ("Flood extent prediction: total flooded area is estimated at " +:+ format_1f flooded_area +:+ " square kilometers.")
        (fmul rainfall (get "low_bound_factor")) (fmul rainfall (get "high_bound_factor"))).

Definition run_wildfire (parameters cal : params) : result sim_error SimulationResult :=
  wind_speed ← input "wind_speed" parameters;
  temperature ← input "temperature" parameters;
  raise_if (negb (within f0 (float_of_Z 80) wind_speed)) (OutOfBounds "wind_speed") ;;
  raise_if (negb (within (float_of_Z 10) (float_of_Z 55) temperature)) (OutOfBounds "temperature") ;;
  let get := param cal (defaults WildfireSpreadModel) in
  let spread_rate := fadd (fmul wind_speed (get "wind_coefficient")) (fmul temperature (get "temp_coefficient")) in
  Ok (result_of WildfireSpreadModel
        ("Wildfire spread rate prediction: fire is propagating at " +:+ format_1f spread_rate +:+ " meters per minute.")
        (fmul spread_rate (get "low_bound_factor")) (fmul spread_rate (get "high_bound_factor"))).

(** The conditions an anomaly indicates under two thresholds. *)
Definition enso_state (nino_thresh nina_thresh sst_anomaly : float) : string :=
  if fleb nino_thresh sst_anomaly then "El Niño"
  else if fleb sst_anomaly nina_thresh then "La Niña"
  else "Neutral".

Definition enso_prediction (state : string) : string :=
  "ENSO Forecast prediction: current SST anomaly indicates " +:+ state +:+ " conditions.".

Definition run_enso (parameters cal : params) : result sim_error SimulationResult :=
  sst_anomaly ← input "sst_anomaly" parameters;
  raise_if (negb (within (float_of_Z (-4)) (float_of_Z 4) sst_anomaly)) (OutOfBounds "sst_anomaly") ;;
  let get := param cal (defaults ENSOForecastModel) in
  Ok (result_of ENSOForecastModel
        (enso_prediction (enso_state (get "el_nino_threshold") (get "la_nina_threshold") sst_anomaly))
        (fadd sst_anomaly (get "low_bound_offset")) (fadd sst_anomaly (get "high_bound_offset"))).

Definition run_with (m : model) : params -> params -> result sim_error SimulationResult :=
  match m with
  | PlumeDispersionModel => run_plume
  | FloodExtentModel => run_flood
  | WildfireSpreadModel => run_wildfire
  | ENSOForecastModel => run_enso
  end.

(** [model.run]: the inputs are checked before the coefficients are loaded. *)
Definition model_run (m : model) (parameters : params) (w : world) : result sim_error SimulationResult * world :=
  match run_with m parameters [] with
  | Raise e => (Raise e, w)
  | Ok _ =>
      let '(cal, w') := load_calibrated_parameters (parameter_name m) (defaults m) w in
      (run_with m parameters cal, w')
  end.

(** ** Registry *)

Definition register (models : list (string * model)) (hazard_type : string) (m : model) : list (string * model) :=
  assoc_set (lower hazard_type) m models.

Definition _models : list (string * model) :=
  fold_left (fun ms e => register ms e.1 e.2)
    [("plume", PlumeDispersionModel); ("plume_dispersion", PlumeDispersionModel);
     ("flood", FloodExtentModel); ("flood_extent", FloodExtentModel);
     ("wildfire", WildfireSpreadModel); ("wildfire_spread", WildfireSpreadModel);
     ("enso", ENSOForecastModel); ("enso_forecast", ENSOForecastModel)] [].

Definition get_model (hazard_type : string) : option model := assoc (lower hazard_type) _models.

Definition run_simulation (hazard_type : string) (parameters : params) (w : world)
    : result sim_error SimulationResult * world :=
  match get_model hazard_type with
  | None => (Raise (NoModel hazard_type), w)
  | Some m => model_run m parameters w
  end.
End loader.
Arguments file : clear implicits.
Arguments world : clear implicits.

(** ** Numbers in text *)

(** The longest prefix of characters in a class. *)
Fixpoint char_run (p : ascii -> bool) (s : string) : string :=
  match s with
  | String c s' => if p c then String c (char_run p s') else ""
  | EmptyString => ""
  end.

(** [re.search(r"<r>([<p>]+)", s).group(1)] *)
Fixpoint search_group (r : regex) (p : ascii -> bool) (prev : option ascii) (s : string) : option string :=
  match List.find str_truthy (map (fun pos => char_run p pos.2) (run r (prev, s))) with
  | Some g => Some g
  | None => match s with String c s' => search_group r p (Some c) s' | EmptyString => None end
  end.

Definition digit_or_dot (c : ascii) : bool := is_digit c || Ascii.eqb c ".".
Definition signed_or_dot (c : ascii) : bool := Ascii.eqb c "-" || digit_or_dot c.

Fixpoint only_digits (s : string) : bool :=
  match s with EmptyString => true | String c s => is_digit c && only_digits s end.
Fixpoint decimal (s : string) (acc : Z) : Z :=
  match s with EmptyString => acc | String c s => decimal s (10 * acc + (ord c - 48)) end.

Definition unsigned_float (s : string) : option float :=
  let whole := before_char "." s in
  let frac := String.substring (S (String.length whole)) (String.length s) s in
  if only_digits whole && only_digits frac && str_truthy (whole +:+ frac) then
    Some (int_truediv (decimal (whole +:+ frac) 0) (Z.to_pos (10 ^ Z.of_nat (String.length frac))))
  else None.

(** [float(s)] on what the patterns capture: digits, dots and minus signs. *)
Definition float_of_str (s : string) : option float :=
  match s with
  | String "-" s' => SFopp <$> unsigned_float s'
  | _ => unsigned_float s
  end.

(** ** The agent *)

Definition any_in (words : list string) (q : string) : bool := existsb (fun x => contains x q) words.

Definition _extract_hazard_type (query : string) : option string :=
  let q := lower query in
  if any_in ["plume"; "dispersion"] q then Some "plume"
  else if any_in ["flood"] q then Some "flood"
  else if any_in ["wildfire"; "fire"] q then Some "wildfire"
  else if any_in ["enso"; "nino"; "nina"] q then Some "enso"
  else None.

Definition spaces : regex := RStar RSpace.
Definition dash : regex := RChar (fun c => Ascii.eqb c "-" || Ascii.eqb c "_" || Ascii.eqb c " ").
(** [\s*(?:is|of)?\s*] *)
Definition is_of : regex := RSeq spaces (RSeq (ROpt (RAlt (RLit "is") (RLit "of"))) spaces).

(** The patterns tried on evidence claims, which ignore case. *)
Definition claim_patterns : list (string * regex) :=
  [("wind_speed", RSeq (RLit "wind speed is") spaces);
   ("temperature", RSeq (RLit "temperature is") spaces);
   ("rainfall", RSeq (RAlt (RLit "rainfall") (RAlt (RLit "precipitation") (RLit "precip"))) is_of);
   ("sst_anomaly", RSeq (RLit "sst") (RSeq dash (RSeq (RLit "anomaly") is_of)))].

(** The patterns tried on the query. *)
Definition query_patterns : list (string * regex) :=
  [("wind_speed", RSeq (RLit "wind") (RSeq dash (RSeq (RLit "speed") is_of)));
   ("temperature", RSeq (RLit "temp") (RSeq (ROpt (RLit "erature")) is_of));
   ("rainfall", RSeq (RAlt (RLit "rainfall") (RLit "precipitation")) is_of);
   ("sst_anomaly", RSeq (RLit "sst") (RSeq dash (RSeq (RLit "anomaly") is_of)))].

(** One pattern on one text: [params[name] = float(...)] unless it is there. *)
Definition try_pattern (text : string) (ps : params) (pat : string * regex) : result pyexn params :=
  if in_dict pat.1 ps then Ok ps
  else match search_group pat.2 digit_or_dot None text with
       | None => Ok ps
       | Some g => match float_of_str g with
                   | Some x => Ok (assoc_set pat.1 x ps)
                   | None => Raise ValueError
                   end
       end.

Fixpoint fold_result {A} (f : params -> A -> result pyexn params) (l : list A) (ps : params) : result pyexn params :=
  match l with
  | [] => Ok ps
  | a :: l => ps' ← f ps a; fold_result f l ps'
  end.

Definition _extract_parameters (query : string) (prior_outputs : option (list AgentOutput)) : result pyexn params :=
  let claims := map ev_claim (flat_map evidence (default [] prior_outputs)) in
  ps ← fold_result (fun ps claim => fold_result (try_pattern (lower claim)) claim_patterns ps) claims [];
  fold_result (try_pattern (lower query)) query_patterns ps.

Definition failed (msg : string) : AgentOutput := {| agent_name := "simulation"; evidence := []; errors := [msg] |}.

Definition error_output (e : sim_error) : AgentOutput :=
  match e with
  | MissingInput name => failed ("Missing required input: " +:+ name)
  | _ => failed "simulation inconclusive"
  end.

Section agent.
Context {Text : Type}.
Variable safe_load : Text -> result pyexn document.
Variable new_id : uuid.

(** The bounds clamped to the unit interval, with their midpoint. *)
Definition sim_uncertainty (low high : float) : result estimate_error UncertaintyEstimate :=
  let low_norm := clamp01 low in
  let high_norm := clamp01 high in
  make_estimate (clamp01 (fdiv (fadd low_norm high_norm) (float_of_Z 2))) low_norm high_norm model_uncertainty.

Definition simulation_evidence (t : Z) (r : SimulationResult) (u : UncertaintyEstimate) : Evidence :=
  {| ev_id := new_id; ev_source := sr_model_used r; ev_claim := sr_prediction r; ev_uncertainty := u;
     ev_retrieved_at := t; ev_document_id := None; ev_chunk_id := None; ev_title := None; ev_source_url := None;
     ev_extra_metadata := [("model_used", JStr (sr_model_used r))];
     ev_uncertainty_bounds := Some (sr_uncertainty_bounds r); ev_assumptions := Some (sr_assumptions r) |}.

Definition agent_run (agent_input : AgentInput) (prior_outputs : option (list AgentOutput)) (w : world Text)
    : result pyexn AgentOutput * world Text :=
  match _extract_hazard_type (in_query agent_input) with
  | None => (Ok (failed "Unknown or unsupported hazard simulation query."), w)
  | Some hazard_type =>
      match _extract_parameters (in_query agent_input) prior_outputs with
      | Raise e => (Raise e, w)
      | Ok parameters =>
          match run_simulation safe_load hazard_type parameters w with
          | (Raise e, w') => (Ok (error_output e), w')
          | (Ok r, w') =>
              let '(low, high) := sr_uncertainty_bounds r in
              match sim_uncertainty low high with
              | Raise _ => (Ok (failed "simulation inconclusive"), w')
              | Ok u => (Ok {| agent_name := "simulation"; evidence := [simulation_evidence (now w') r u]; errors := [] |}, w')
              end
          end
      end
  end.
End agent.

(** ** Lemmas *)

Section loader_lemmas.
Context {Text : Type} (safe_load : Text -> result pyexn document).
Implicit Types w : world Text.

(** Every required key has a finite value. *)
Definition complete (keys : list string) (ps : params) : Prop :=
  forall k, k ∈ keys -> exists x, assoc k ps = Some x /\ ffinite x = true.

(** The cache holds only complete parameter sets. *)
Definition cache_ok (defaults_of : string -> params) w : Prop :=
  forall m t mt ps, assoc m (cache w) = Some (t, mt, ps) -> complete (map fst (defaults_of m)) ps.

Lemma check_keys_true ps keys : check_keys ps keys = Ok true ->
  forall k, k ∈ keys -> exists v x, assoc k ps = Some v /\ as_float v = Ok (Some x) /\ ffinite x = true.
Proof.
  induction keys as [|k ks IH]; simpl; [by intros _ ? ?%elem_of_nil|].
  destruct (assoc k ps) as [v|] eqn:E; [|done]. destruct (as_float v) as [[x|]|] eqn:Ev; simpl; [|done..].
  destruct (ffinite x) eqn:Ex; [|done]. intros H k' [->|Hin]%elem_of_cons; [eauto|by apply IH].
Qed.

Lemma parameter_values_complete data keys ps :
  validate_parameters_yaml data keys = Ok true -> result_mapM (parameter_value data) keys = Ok ps ->
  complete keys ps.
Proof.
  intros Hv Hm k Hk. destruct data as [|[scalars|]]; try done.
  pose proof (check_keys_true _ _ Hv) as Hc. clear Hv. revert ps Hm Hc Hk.
  induction keys as [|k' ks IH]; intros ps Hm Hc Hk; [by apply elem_of_nil in Hk|].
  simpl in Hm. destruct (Hc k') as (v & x & Ea & Ev & Hx); [left|]. rewrite Ea, Ev in Hm. simpl in Hm.
  destruct (result_mapM _ ks) as [ps'|] eqn:E; [|done]. injection Hm as <-. simpl.
  destruct (String.eqb_spec k k') as [->|Hne]; [eauto|].
  apply elem_of_cons in Hk as [->|Hk]; [done|]. apply IH; auto. intros k2 Hk2. apply Hc. by right.
Qed.

Lemma set_cache_ok defaults_of m t mt ps w :
  cache_ok defaults_of w -> complete (map fst (defaults_of m)) ps -> cache_ok defaults_of (set_cache m (t, mt, ps) w).
Proof.
  intros Hw Hp m' t' mt' ps'. simpl. destruct (decide (m = m')) as [->|Hne].
  - rewrite assoc_set_eq. by intros [= <- <- <-].
  - rewrite assoc_set_ne by done. apply Hw.
Qed.

Lemma statement_world w : (statement w).2 = World (files w) (cache w) (now w) (tl (io w)).
Proof. done. Qed.

(** The loader does not write. *)
Lemma reload_files m ds f w :
  files (reload safe_load m ds f w).2 = files w /\ io (reload safe_load m ds f w).2 = tl (io w).
Proof.
  unfold reload. rewrite M_bind_run. pose proof (statement_world w) as Hs.
  destruct (statement w) as [[u|e] w1]; simpl in Hs; subst w1; [|done].
  unfold lift. rewrite M_bind_run. destruct (safe_load (f_text f)) as [data|]; [|done].
  rewrite M_bind_run. destruct (validate_parameters_yaml data (map fst ds)) as [[]|]; [|done..].
  rewrite M_bind_run. by destruct (result_mapM _ _).
Qed.

Lemma check_file_run m ds f w : exists w1, (files w1 = files w /\ io w1 = tl (io w)) /\ cache w1 = cache w /\
  (check_file safe_load m ds f w = (Raise db_error, w1) \/
   (exists t mt ps, assoc m (cache w) = Some (t, mt, ps) /\
      check_file safe_load m ds f w = (Ok ps, set_cache m (now w, f_mtime f, ps) w1)) \/
   check_file safe_load m ds f w = reload safe_load m ds f w1).
Proof.
  unfold check_file. rewrite M_bind_run.
  exists (World (files w) (cache w) (now w) (tl (io w))). split; [done|]. split; [done|].
  unfold statement. destruct (default true _); [right | by left]. unfold gets, mbind, M_bind. cbn -[reload].
  destruct (assoc m (cache w)) as [[[t mt] ps]|] eqn:E; [|by right].
  destruct (f_mtime f =? mt); [left; eauto | by right].
Qed.

Lemma load_files m ds w :
  files (load_calibrated_parameters safe_load m ds w).2 = files w /\
  (io w = [] -> io (load_calibrated_parameters safe_load m ds w).2 = []).
Proof.
  assert (files (from_disk safe_load m ds w).2 = files w /\ (io w = [] -> io (from_disk safe_load m ds w).2 = [])) as Hd.
  { unfold from_disk. destruct (assoc (latest_file m) (files w)) as [f|]; [|done].
    destruct (check_file_run m ds f w) as (w1 & [Hf Hi] & _ & [E|[(t & mt & ps & _ & E)|E]]); rewrite E; simpl; rewrite ?Hi;
      [by split; [|intros ->]..|].
    destruct (reload_files m ds f w1) as [Hr Hri]. destruct (reload _ _ _ _ w1) as [[|] ?]; simpl in *;
      rewrite Hr, Hri, Hi; by split; [|intros ->]. }
  unfold load_calibrated_parameters. destruct (assoc m (cache w)) as [[[t mt] ps]|]; [|done].
  by destruct (_ <=? _).
Qed.

Lemma reload_ok defaults_of m f w : cache_ok defaults_of w -> complete (map fst (defaults_of m)) (defaults_of m) ->
  match reload safe_load m (defaults_of m) f w with
  | (Ok ps, w') => complete (map fst (defaults_of m)) ps /\ cache_ok defaults_of w'
  | (Raise _, w') => cache_ok defaults_of w'
  end.
Proof.
  intros Hw Hd. unfold reload. rewrite M_bind_run. pose proof (statement_world w) as Hs.
  destruct (statement w) as [[u|e] w1]; simpl in Hs; subst w1; [|done].
  unfold lift. rewrite M_bind_run. destruct (safe_load (f_text f)) as [data|]; [|done].
  rewrite M_bind_run. destruct (validate_parameters_yaml data (map fst (defaults_of m))) as [[]|] eqn:Ev; [|done..].
  rewrite M_bind_run. destruct (result_mapM _ _) as [ps|] eqn:Em; [|done].
  pose proof (parameter_values_complete _ _ _ Ev Em) as Hc. split; [done|]. by apply set_cache_ok.
Qed.

Lemma check_file_ok defaults_of m f w : cache_ok defaults_of w -> complete (map fst (defaults_of m)) (defaults_of m) ->
  match check_file safe_load m (defaults_of m) f w with
  | (Ok ps, w') => complete (map fst (defaults_of m)) ps /\ cache_ok defaults_of w'
  | (Raise _, w') => cache_ok defaults_of w'
  end.
Proof.
  intros Hw Hd. destruct (check_file_run m (defaults_of m) f w) as (w1 & _ & Hc & [E|[(t & mt & ps & Ea & E)|E]]); rewrite E.
  - unfold cache_ok. by rewrite Hc.
  - split; [by eapply Hw|]. apply set_cache_ok; [unfold cache_ok; by rewrite Hc | by eapply Hw].
  - apply reload_ok; [unfold cache_ok; by rewrite Hc | done].
Qed.
End loader_lemmas.

(** ** Sanity of inputs *)

(** The inputs of each model with their bounds. *)
Definition requirements (m : model) : list (string * float * float) :=
  match m with
  | PlumeDispersionModel => [("wind_speed", flit 5 10, float_of_Z 50)]
  | FloodExtentModel => [("rainfall", float_of_Z 5, float_of_Z 500)]
  | WildfireSpreadModel => [("wind_speed", f0, float_of_Z 80); ("temperature", float_of_Z 10, float_of_Z 55)]
  | ENSOForecastModel => [("sst_anomaly", float_of_Z (-4), float_of_Z 4)]
  end.

Definition sane (m : model) (parameters : params) : bool :=
  forallb (fun r => match assoc r.1.1 parameters with Some x => within r.1.2 r.2 x | None => false end) (requirements m).

Lemma run_with_sane m parameters cal : is_ok (run_with m parameters cal) = sane m parameters.
Proof.
  destruct m; unfold sane, run_with, run_plume, run_flood, run_wildfire, run_enso, input, raise_if,
    mbind, result_mbind; cbn [requirements forallb fst snd];
    repeat match goal with
    | |- context [assoc ?k parameters] => destruct (assoc k parameters); cbn [result_bind is_ok andb]; [|try done]
    | |- context [within ?lo ?hi ?x] => destruct (within lo hi x); cbn [negb result_bind is_ok andb]; [|try done]
    end; try done.
Qed.

Lemma sane_finite m parameters r : sane m parameters = true -> r ∈ requirements m ->
  exists x, assoc r.1.1 parameters = Some x /\ fle r.1.2 x /\ fle x r.2 /\ ffinite x = true.
Proof.
  unfold sane. rewrite forallb_true. intros Hs Hr. specialize (Hs _ Hr).
  destruct (assoc r.1.1 parameters) as [x|]; [|done]. unfold within in Hs. apply andb_true_iff in Hs as [H1 H2].
  exists x. split; [done|]. split; [done|]. split; [done|].
  destruct m; repeat (apply elem_of_cons in Hr as [->|Hr]); try (by apply elem_of_nil in Hr);
    destruct x as [|[]| |]; done.
Qed.

(** ** Numbers the agent reads *)

Lemma char_run_chars p s c : has_char c (char_run p s) = true -> p c = true.
Proof.
  induction s as [|x s IH]; simpl; [done|]. destruct (p x) eqn:E; [|done]. simpl. rewrite orb_true_iff.
  intros [->%Ascii.eqb_eq|?]; auto.
Qed.

Lemma search_group_chars r p prev s g c : search_group r p prev s = Some g -> has_char c g = true -> p c = true.
Proof.
  revert prev. induction s as [|x s IH]; intros prev; simpl.
  - destruct (List.find _ _) as [g'|] eqn:E; [|done]. intros [= ->].
    apply find_some in E as [(pos & <- & _)%in_map_iff _]. apply char_run_chars.
  - destruct (List.find _ _) as [g'|] eqn:E; [|apply IH]. intros [= ->].
    apply find_some in E as [(pos & <- & _)%in_map_iff _]. apply char_run_chars.
Qed.

Lemma decimal_nonneg s acc : only_digits s = true -> 0 <= acc -> 0 <= decimal s acc.
Proof.
  revert acc. induction s as [|c s IH]; intros acc; simpl; [done|]. unfold is_digit. intros Hd Ha.
  bool_to_prop. apply IH; [done|lia].
Qed.

Lemma only_digits_app a b : only_digits (a +:+ b) = only_digits a && only_digits b.
Proof. induction a as [|c a IH]; [done|]. rewrite append_cons. simpl. by rewrite IH, andb_assoc. Qed.

Lemma unsigned_float_nonneg s x : unsigned_float s = Some x -> fle f0 x /\ fvalid x = true.
Proof.
  unfold unsigned_float. destruct (only_digits _ && _ && _) eqn:E; [|done]. intros [= <-].
  apply andb_true_iff in E as [E _]. rewrite <- only_digits_app in E.
  apply int_truediv_nonneg, decimal_nonneg; [done|lia].
Qed.

Definition nonneg_params (ps : params) : Prop := forall k x, assoc k ps = Some x -> fle f0 x /\ fvalid x = true.

Lemma try_pattern_nonneg text ps pat ps' :
  try_pattern text ps pat = Ok ps' -> nonneg_params ps -> nonneg_params ps'.
Proof.
  unfold try_pattern. destruct (in_dict _ _); [by intros [= <-]|].
  destruct (search_group _ _ _ _) as [g|] eqn:Eg; [|by intros [= <-]].
  destruct (float_of_str g) as [x|] eqn:Ex; [|done]. intros [= <-] Hp k y.
  destruct (decide (pat.1 = k)) as [->|Hne].
  - rewrite assoc_set_eq. intros [= <-]. apply (unsigned_float_nonneg g). revert Ex. unfold float_of_str.
    destruct g as [|c g]; [done|]. pose proof (search_group_chars _ _ _ _ _ c Eg) as Hc.
    simpl in Hc. rewrite Ascii.eqb_refl in Hc. specialize (Hc eq_refl).
    destruct (ascii_dec c "-") as [->|Hn]; [done|].
    destruct c as [[] [] [] [] [] [] [] []]; try done.
  - rewrite assoc_set_ne by done. apply Hp.
Qed.

Lemma fold_result_nonneg {A} (f : params -> A -> result pyexn params) l ps ps' :
  (forall ps a ps', f ps a = Ok ps' -> nonneg_params ps -> nonneg_params ps') ->
  fold_result f l ps = Ok ps' -> nonneg_params ps -> nonneg_params ps'.
Proof.
  intros Hf. revert ps. induction l as [|a l IH]; intros ps; simpl; [by intros [= <-]|].
  destruct (f ps a) eqn:E; simpl; [|done]. intros H Hp. apply (IH _ H). by eapply Hf.
Qed.

Lemma extract_nonneg query prior ps : _extract_parameters query prior = Ok ps -> nonneg_params ps.
Proof.
  unfold _extract_parameters. intros (ps1 & H1 & H2)%result_bind_ok.
  eapply fold_result_nonneg; [|exact H2|]; [intros; by eapply try_pattern_nonneg|].
  eapply fold_result_nonneg; [|exact H1|done]. intros ps0 a ps0' H. eapply fold_result_nonneg; [|exact H].
  intros; by eapply try_pattern_nonneg.
Qed.

(** ** Properties *)

Section properties.
Context {Text : Type} (safe_load : Text -> result pyexn document) (new_id : uuid).
Implicit Types w : world Text.

(** The loader is safe on any file.  Whatever the parameter directory contains
    and whichever file operations fail, [load_calibrated_parameters] returns a
    finite number for every coefficient asked for, and keeps the cache that way;
    it never touches the files. *)
Theorem loaded_parameters_finite defaults_of m w :
  cache_ok defaults_of w -> complete (map fst (defaults_of m)) (defaults_of m) ->
  complete (map fst (defaults_of m)) (load_calibrated_parameters safe_load m (defaults_of m) w).1 /\
  cache_ok defaults_of (load_calibrated_parameters safe_load m (defaults_of m) w).2 /\
  files (load_calibrated_parameters safe_load m (defaults_of m) w).2 = files w.
Proof.
  intros Hw Hd. rewrite (proj1 (load_files _ _ _ _)). split_and!; [..|done];
    unfold load_calibrated_parameters, from_disk; pose proof (fun f => check_file_ok safe_load defaults_of m f w Hw Hd) as Hc.
  all: destruct (assoc m (cache w)) as [[[t mt] ps]|] eqn:E; [destruct (now w - t <=? CACHE_TTL_SECONDS); [by first [done | eapply Hw]|]|].
  all: destruct (assoc (latest_file m) (files w)) as [f|]; [|done]; specialize (Hc f);
    destruct (check_file safe_load m (defaults_of m) f w) as [[|] ?]; simpl in *; naive_solver.
Qed.

(** How stale a coefficient can be: an entry checked within the last thirty
    seconds is served without looking at the disk; after that, a file whose
    modification time differs from the cached one is read again, and a valid one
    replaces the entry. *)
Theorem cache_staleness m defaults w t mt ps f data new :
  assoc m (cache w) = Some (t, mt, ps) ->
  assoc (latest_file m) (files w) = Some f -> f_mtime f <> mt -> io w = [] ->
  safe_load (f_text f) = Ok data -> validate_parameters_yaml data (map fst defaults) = Ok true ->
  result_mapM (parameter_value data) (map fst defaults) = Ok new ->
  load_calibrated_parameters safe_load m defaults w =
    if now w - t <=? CACHE_TTL_SECONDS then (ps, w) else (new, set_cache m (now w, f_mtime f, new) w).
Proof.
  intros Hc Hf Hmt Hio Hl Hv Hn. unfold load_calibrated_parameters. rewrite Hc.
  destruct (now w - t <=? CACHE_TTL_SECONDS); [done|]. unfold from_disk. rewrite Hf.
  unfold check_file. rewrite M_bind_run, statement_ok by done. unfold gets at 1, mbind, M_bind.
  cbn -[reload]. rewrite Hc, (proj2 (Z.eqb_neq _ _) Hmt). unfold reload. rewrite M_bind_run, statement_ok by done.
  unfold lift. rewrite M_bind_run, Hl, M_bind_run, Hv, M_bind_run, Hn. reflexivity.
Qed.

(** A simulation runs exactly on sane input: [run_simulation] succeeds if and
    only if a model is registered for the hazard, in any letter case, and each of
    its inputs is given and inside its bounds, in which case it is finite;
    otherwise it raises before any coefficient is loaded. *)
Theorem simulation_runs_iff_sane hazard parameters w :
  is_ok (run_simulation safe_load hazard parameters w).1 =
    match get_model hazard with Some m => sane m parameters | None => false end /\
  (is_ok (run_simulation safe_load hazard parameters w).1 = false -> (run_simulation safe_load hazard parameters w).2 = w) /\
  (forall m r, get_model hazard = Some m -> sane m parameters = true -> r ∈ requirements m ->
     exists x, assoc r.1.1 parameters = Some x /\ fle r.1.2 x /\ fle x r.2 /\ ffinite x = true).
Proof.
  split; [|split; [|intros m r _; apply sane_finite]]; unfold run_simulation, model_run; destruct (get_model hazard) as [m|]; try done.
  - pose proof (run_with_sane m parameters []) as H0. destruct (run_with m parameters []); simpl in *; [|done].
    destruct (load_calibrated_parameters _ _ _ w) as [cal w']. simpl. rewrite run_with_sane. by rewrite <- H0.
  - pose proof (run_with_sane m parameters []) as H0. destruct (run_with m parameters []); simpl in *; [|done].
    destruct (load_calibrated_parameters _ _ _ w) as [cal w']. simpl. by rewrite run_with_sane, <- H0.
Qed.

(** The agent's only exception is a number it cannot read: [run] raises exactly
    when a captured group is not a float literal, as in ["... of 50.5."]; in all
    other cases it returns either one piece of evidence whose uncertainty is
    valid and no error, or one error and no evidence. *)
Theorem agent_raises_iff_unreadable inp prior w :
  match (agent_run safe_load new_id inp prior w).1 with
  | Raise e => is_Some (_extract_hazard_type (in_query inp)) /\ _extract_parameters (in_query inp) prior = Raise e
  | Ok out =>
      (_extract_hazard_type (in_query inp) = None \/ is_ok (_extract_parameters (in_query inp) prior) = true) /\
      ((exists e, evidence out = [e] /\ errors out = [] /\ valid_estimate (ev_uncertainty e) = true) \/
       (exists msg, evidence out = [] /\ errors out = [msg]))
  end.
Proof.
  unfold agent_run. destruct (_extract_hazard_type (in_query inp)) as [hz|]; [|naive_solver].
  destruct (_extract_parameters (in_query inp) prior) as [ps|e]; [|naive_solver].
  destruct (run_simulation safe_load hz ps w) as [[r|e] w'].
  - destruct (sr_uncertainty_bounds r) as [low high]. destruct (sim_uncertainty low high) as [u|] eqn:Eu; [|naive_solver].
    simpl. split; [by right|]. left. eexists. split; [done|]. split; [done|]. simpl.
    by apply make_estimate_ok in Eu as (_ & ?).
  - simpl. split; [by right|]. right. destruct e; simpl; naive_solver.
Qed.

(** The agent never forecasts La Niña: it reads unsigned numbers only, so that an
    anomaly it finds is non-negative, and with a negative La Niña threshold, as
    the default and every calibrated one are, the forecast is never that. *)
Theorem la_nina_unreachable inp prior w out w' e :
  fltb (param (load_calibrated_parameters safe_load "enso_forecast" (defaults ENSOForecastModel) w).1
          (defaults ENSOForecastModel) "la_nina_threshold") f0 = true ->
  agent_run safe_load new_id inp prior w = (Ok out, w') -> e ∈ evidence out ->
  ev_claim e <> enso_prediction "La Niña".
Proof.
  intros Hneg. unfold agent_run. destruct (_extract_hazard_type (in_query inp)) as [hz|];
    [|intros [= <- <-]; by intros ?%elem_of_nil].
  destruct (_extract_parameters (in_query inp) prior) as [ps|] eqn:Ep; [|done].
  apply extract_nonneg in Ep.
  destruct (run_simulation safe_load hz ps w) as [[r|er] w1] eqn:Er.
  2: { intros [= <- <-]. destruct er; by intros ?%elem_of_nil. }
  destruct (sr_uncertainty_bounds r) as [low high].
  destruct (sim_uncertainty low high) as [u|]; intros [= <- <-]; [|by intros ?%elem_of_nil].
  intros ->%list_elem_of_singleton. cbn [ev_claim simulation_evidence]. revert Er.
  unfold run_simulation, model_run. destruct (get_model hz) as [m|]; [|done].
  destruct (run_with m ps []); [|done].
  destruct (load_calibrated_parameters _ (parameter_name m) _ w) as [cal w2] eqn:El. intros [= Er <-].
  destruct m; cbn [run_with] in Er.
  4: { change (parameter_name ENSOForecastModel) with "enso_forecast" in El. rewrite El in Hneg. cbn [fst] in Hneg.
       unfold run_enso in Er. apply result_bind_ok in Er as (sst & Hs & Er). apply result_bind_ok in Er as (? & _ & Er).
       injection Er as <-. cbn [sr_prediction result_of]. unfold enso_prediction.
       intros Heq%append_inj_l. unfold enso_state in Heq. unfold input in Hs.
       destruct (assoc "sst_anomaly" ps) eqn:Ea; [|done]. injection Hs as ->. apply Ep in Ea as [H0 _].
       destruct (fleb _ sst); [done|]. destruct (fleb sst _) eqn:Ef; [|done].
       eapply flt_not_le; [exact Hneg|]. eapply fle_trans; [exact H0 | exact Ef]. }
  all: unfold run_plume, run_flood, run_wildfire in Er;
    repeat match type of Er with (_ ≫= _) = Ok _ => apply result_bind_ok in Er as (? & _ & Er) end;
    injection Er as <-; cbn [sr_prediction result_of]; discriminate.
Qed.

(** Flood evidence carries no uncertainty: with the default coefficients every
    rainfall the model accepts gives bounds above one, which the agent clamps to
    the estimate [1.0 in [1.0, 1.0]]. *)
Theorem flood_evidence_certain inp prior w out w' e :
  _extract_hazard_type (in_query inp) = Some "flood" ->
  (load_calibrated_parameters safe_load "flood_extent" (defaults FloodExtentModel) w).1 = defaults FloodExtentModel ->
  agent_run safe_load new_id inp prior w = (Ok out, w') -> e ∈ evidence out ->
  ev_uncertainty e = Estimate f1 f1 f1 model_uncertainty.
Proof.
  intros Hh Hl. unfold agent_run. rewrite Hh.
  destruct (_extract_parameters (in_query inp) prior) as [ps|] eqn:Ep; [|done]. apply extract_nonneg in Ep.
  destruct (run_simulation safe_load "flood" ps w) as [[r|er] w1] eqn:Er.
  2: { intros [= <- <-]. destruct er; by intros ?%elem_of_nil. }
  revert Er. unfold run_simulation, model_run. change (get_model "flood") with (Some FloodExtentModel). cbv iota beta.
  destruct (run_with FloodExtentModel ps []); [|done].
  change (parameter_name FloodExtentModel) with "flood_extent".
  destruct (load_calibrated_parameters _ "flood_extent" _ w) as [cal w2]. cbn [fst] in Hl. subst cal.
  cbn [run_with]. intros [= Er <-]. unfold run_flood in Er.
  apply result_bind_ok in Er as (x & Hx & Er). apply result_bind_ok in Er as (? & Hb & Er).
  injection Er as <-. cbn [sr_uncertainty_bounds result_of]. apply raise_if_ok, negb_false_iff, andb_true_iff in Hb as [H5 H500].
  unfold input in Hx. destruct (assoc "rainfall" ps) eqn:Ea; [|done]. injection Hx as ->. apply Ep in Ea as [H0 Hv].
  assert (nonneg_finite x = true) as Hf by (eapply below_finite; [done | exact H500 | done]).
  assert (fle f1 x) as H1 by (eapply fle_trans; [|exact H5]; done).
  assert (forall k, k = flit 28 10 \/ k = flit 36 10 -> clamp01 (fmul x k) = f1) as Hc.
  { intros k Hk. assert (fle f1 (fmul x k)) as Hge.
    { eapply fle_trans; [exact H1|]. destruct Hk as [-> | ->]; vm_compute (flit _ _); by apply fmul_ge. }
    unfold clamp01, fmin. destruct (fltb (fmul x k) f1) eqn:E; [by apply flt_not_le in E | done]. }
  change (param _ _ "low_bound_factor") with (flit 28 10). change (param _ _ "high_bound_factor") with (flit 36 10).
  unfold sim_uncertainty. rewrite !Hc by auto.
  intros [= <- <-] ->%list_elem_of_singleton. reflexivity.
Qed.
End properties.

Module SimulationWitness.
Definition query (q : string) : AgentInput := {| in_investigation_id := "i"; in_query := q; in_region_hint := None |}.
Definition text : Type := document.
Definition read (d : text) : result pyexn document := Ok d.
Definition w0 : world text := World [] [] 0 [].
Definition new_params : list (string * scalar) :=
  [("rainfall_coefficient", SInt 4); ("low_bound_factor", SFloat f1); ("high_bound_factor", SInt 5)].
Definition w1 : world text :=
  World [(latest_file "flood_extent", File 7 (DictDoc (Some new_params)))]
    [("flood_extent", (0, 5, defaults FloodExtentModel))] 40000000 [].
Definition defaults_of (m : string) : params := if String.eqb m "flood_extent" then defaults FloodExtentModel else [].

(** A number at the end of a sentence stops the agent; a negative anomaly is not seen. *)
Example full_stop_raises : (agent_run read "id" (query "Flood after rainfall of 50.5.") None w0).1 = Raise ValueError.
Proof. by vm_compute. Qed.
Example negative_anomaly_missing :
  errors <$> (agent_run read "id" (query "ENSO with sst anomaly of -1.2 degrees") None w0).1 =
    Ok ["Missing required input: sst_anomaly"].
Proof. by vm_compute. Qed.

Lemma default_complete : complete (map fst (defaults FloodExtentModel)) (defaults FloodExtentModel).
Proof.
  intros k Hk. repeat (apply elem_of_cons in Hk as [->|Hk]; [eexists; split; [reflexivity | by vm_compute]|]).
  by apply elem_of_nil in Hk.
Qed.

Lemma loaded_parameters_finite_witness :
  complete (map fst (defaults FloodExtentModel)) (load_calibrated_parameters read "flood_extent" (defaults FloodExtentModel) w1).1.
Proof.
  apply (loaded_parameters_finite read defaults_of "flood_extent" w1); [|apply default_complete].
  intros m t mt ps. simpl. destruct (String.eqb_spec m "flood_extent") as [->|]; [|done]. intros [= <- <- <-].
  apply default_complete.
Defined.

Lemma cache_staleness_witness : exists w',
  load_calibrated_parameters read "flood_extent" (defaults FloodExtentModel) w1 =
    ([("rainfall_coefficient", float_of_Z 4); ("low_bound_factor", f1); ("high_bound_factor", float_of_Z 5)], w').
Proof.
  eexists. rewrite (cache_staleness read "flood_extent" (defaults FloodExtentModel) w1 0 5 (defaults FloodExtentModel)
    (File 7 (DictDoc (Some new_params))) (DictDoc (Some new_params))
    [("rainfall_coefficient", float_of_Z 4); ("low_bound_factor", f1); ("high_bound_factor", float_of_Z 5)]); by vm_compute.
Defined.

Lemma simulation_runs_iff_sane_witness :
  (run_simulation read "Flood" [("rainfall", float_of_Z 4)] w1).2 = w1.
Proof.
  apply (simulation_runs_iff_sane read "Flood" [("rainfall", float_of_Z 4)] w1). by vm_compute.
Defined.

Lemma la_nina_unreachable_witness : forall out w' e,
  agent_run read "id" (query "ENSO with sst anomaly of 0.7") None w0 = (Ok out, w') -> e ∈ evidence out ->
  ev_claim e <> enso_prediction "La Niña".
Proof. intros out w' e. apply (la_nina_unreachable read "id"). by vm_compute. Defined.

Lemma flood_evidence_certain_witness : exists out w' e,
  agent_run read "id" (query "Flood after rainfall of 50.5 mm") None w0 = (Ok out, w') /\ evidence out = [e] /\
  ev_uncertainty e = Estimate f1 f1 f1 model_uncertainty.
Proof.
  eexists _, _, _. split; [by vm_compute|]. split; [reflexivity|].
  eapply (flood_evidence_certain read "id" (query "Flood after rainfall of 50.5 mm") None w0); first [by vm_compute | by left].
Defined.
End SimulationWitness.
