(* ===== verification/Calibration.v ===== *)
(** * Calibration of the simulation models
    ([src/simulation_engine/calibration/*.py], [src/workers/jobs/calibration_job.py])

    The job that assembles samples from hazard events, fits coefficients in
    binary64, compares candidates with the active ones on held-out samples and
    publishes the winners as versioned files.  The C library's [pow], the shuffle
    of the random generator and YAML are parameters. *)

From Stdlib Require Import Ascii.
From stdpp Require Import sorting pretty.
From S2P Require Import Prelude PyFloat FloatRound PyStr Regex Effects Database Uncertainty AgentIO Research Simulation.

Definition MIN_CALIBRATION_SAMPLES : nat := 5.
Definition TRAIN_VALIDATION_SPLIT_RATIO : float := flit 8 10.

(** ** Versioned files *)

(** [s.endswith(p)] *)
Fixpoint endswith (p s : string) : bool :=
  String.eqb s p || match s with EmptyString => false | String _ s' => endswith p s' end.

(** [s[n:]] *)
Fixpoint str_drop (n : nat) (s : string) : string :=
  match n, s with
  | S n, String _ s => str_drop n s
  | _, _ => s
  end.

(** [s.split(sep)[-1]] *)
Fixpoint last_part (sep s : string) : string :=
  match s with
  | EmptyString => ""
  | String _ s' =>
      if contains sep s' then last_part sep s'
      else if startswith sep s then str_drop (String.length sep) s
      else s
  end.

(** [s.replace(p, "")]; [skip] characters of an occurrence are still to be dropped. *)
Fixpoint remove_sub (p : string) (skip : nat) (s : string) : string :=
  match s with
  | EmptyString => ""
  | String c s' =>
      match skip with
      | S k => remove_sub p k s'
      | O => if startswith p s then remove_sub p (String.length p - 1) s' else String c (remove_sub p 0 s')
      end
  end.

(** The glob [{model_name}_v*.yaml] *)
Definition is_version_file (model_name name : string) : bool :=
  startswith (model_name +:+ "_v") name && endswith ".yaml" name &&
  (String.length model_name + 7 <=? String.length name)%nat.

(** The version in a file name; a name without a number is skipped. *)
Definition file_version (name : string) : option Z := int_of_str (remove_sub ".yaml" 0 (last_part "_v" name)).

Definition highest (highest_ver : Z) (ver : option Z) : Z :=
  match ver with Some v => if highest_ver <? v then v else highest_ver | None => highest_ver end.

Definition next_parameter_version (model_name : string) (names : list string) : Z :=
  fold_left highest (map file_version (List.filter (is_version_file model_name) names)) 0 + 1.

Definition version_file (model_name : string) (v : Z) : string := model_name +:+ "_v" +:+ pretty v +:+ ".yaml".

(** ** Statistics *)

(** [math.sqrt] *)
Definition math_sqrt (x : float) : result pyexn float := if fltb x f0 then Raise ValueError else Ok (fsqrt x).

Definition fmean (xs : list float) : float := fdiv (fsum xs) (float_of_Z (Z.of_nat (length xs))).

(** [max(lo, min(hi, x))] *)
Definition clamp (lo hi x : float) : float := fmax lo (fmin hi x).

Definition compute_bounds_factors (mean_pred std_dev default_low default_high : float) : float * float :=
  if fltb (flit 1 10) mean_pred then
    (clamp (flit 1 10) (flit 95 100) (fdiv (fsub mean_pred std_dev) mean_pred),
     clamp (flit 105 100) (float_of_Z 3) (fdiv (fadd mean_pred std_dev) mean_pred))
  else (default_low, default_high).

(** [s[k]] *)
Definition sample_get (s : params) (k : string) : result pyexn float :=
  match assoc k s with Some x => Ok x | None => Raise KeyError end.

(** Mismatches between the thresholds of the baseline and others. *)
Definition enso_mismatches (nino nina : float) (anomalies : list float) : nat :=
  length (List.filter (fun a => negb (String.eqb (enso_state nino nina a) (enso_state (flit 5 10) (flit (-5) 10) a))) anomalies).

(** [fle] decides the order of a list without NaN. *)
#[global] Instance fle_dec : RelDecision fle.
Proof. intros x y. unfold fle. apply _. Defined.
Definition fsorted (xs : list float) : list float := merge_sort fle xs.

Section fitting.
Variable pow : float -> float -> float.

(** [x ** y]: a finite result that overflows raises. *)
Definition py_pow (x y : float) : result pyexn float :=
  if ffinite x && ffinite y && negb (ffinite (pow x y)) then Raise (OtherError "OverflowError") else Ok (pow x y).

Definition square (x : float) : result pyexn float := py_pow x (float_of_Z 2).

(** [x ** 0.5] of a sum of squares; a negative base would give a complex number. *)
Definition half_power (x : float) : result pyexn float := if fltb x f0 then Raise TypeError else py_pow x (flit 5 10).

Definition compute_rmse (predictions observed : list float) : result pyexn float :=
  match predictions, observed with
  | [], _ | _, [] => Ok (float_of_Z 999)
  | _, _ =>
      if negb (length predictions =? length observed)%nat then Ok (float_of_Z 999) else
      ses ← result_mapM square (zip_with fsub predictions observed);
      math_sqrt (fdiv (fsum ses) (float_of_Z (Z.of_nat (length predictions))))
  end.

Definition compute_std_dev (residuals : list float) : result pyexn float :=
  match residuals with
  | [] => Ok f0
  | _ =>
      let mean_res := fmean residuals in
      ses ← result_mapM (fun r => square (fsub r mean_res)) residuals;
      math_sqrt (fdiv (fsum ses) (float_of_Z (Z.of_nat (length residuals))))
  end.

(** ** Fits *)

(** The body shared by [fit_flood_extent] and [fit_plume_dispersion]: one input, one coefficient. *)
Definition fit_single (name input : string) (default_coeff default_low default_high : float)
    (train_samples val_samples : list params) : result pyexn (params * float) :=
  let defaults := [(name, default_coeff); ("low_bound_factor", default_low); ("high_bound_factor", default_high)] in
  match train_samples with
  | [] => Ok (defaults, float_of_Z 999)
  | _ =>
      xs ← result_mapM (fun s => sample_get s input) train_samples;
      ys ← result_mapM (fun s => sample_get s "observed") train_samples;
      let sum_xy := fsum (zip_with fmul xs ys) in
      x2 ← result_mapM square xs;
      let sum_x2 := fsum x2 in
      if fltb sum_x2 (flit 1 1000000) then Ok (defaults, float_of_Z 999) else
      let coeff := clamp (flit 1 10) (float_of_Z 10) (fdiv sum_xy sum_x2) in
      let preds := map (fun x => fmul x coeff) xs in
      std_dev ← compute_std_dev (zip_with fsub ys preds);
      let '(rel_low, rel_high) :=
        compute_bounds_factors (fmean preds) std_dev (fdiv default_low default_coeff) (fdiv default_high default_coeff) in
      let ps := [(name, fround 4 coeff); ("low_bound_factor", fround 4 (fmul rel_low coeff));
                 ("high_bound_factor", fround 4 (fmul rel_high coeff))] in
      match val_samples with
      | [] => Ok (ps, f0)
      | _ =>
          vx ← result_mapM (fun s => sample_get s input) val_samples;
          vy ← result_mapM (fun s => sample_get s "observed") val_samples;
          rmse ← compute_rmse (map (fun x => fmul x coeff) vx) vy;
          Ok (ps, rmse)
      end
  end.

Definition fit_flood_extent : list params -> list params -> result pyexn (params * float) :=
  fit_single "rainfall_coefficient" "rainfall" (flit 32 10) (flit 28 10) (flit 36 10).

Definition fit_plume_dispersion : list params -> list params -> result pyexn (params * float) :=
  fit_single "wind_coefficient" "wind_speed" (flit 18 10) (flit 15 10) (flit 21 10).

Definition fit_wildfire_spread (train_samples val_samples : list params) : result pyexn (params * float) :=
  let defaults := [("wind_coefficient", flit 4 10); ("temp_coefficient", flit 1 10);
                   ("low_bound_factor", flit 7 10); ("high_bound_factor", flit 13 10)] in
  if (length train_samples <? 2)%nat then Ok (defaults, float_of_Z 999) else
  ws ← result_mapM (fun s => sample_get s "wind_speed") train_samples;
  ts ← result_mapM (fun s => sample_get s "temperature") train_samples;
  ys ← result_mapM (fun s => sample_get s "observed") train_samples;
  w2 ← result_mapM square ws;
  t2 ← result_mapM square ts;
  let sum_w2 := fsum w2 in
  let sum_t2 := fsum t2 in
  let sum_wt := fsum (zip_with fmul ws ts) in
  let sum_wy := fsum (zip_with fmul ws ys) in
  let sum_ty := fsum (zip_with fmul ts ys) in
  wt2 ← square sum_wt;
  let det := fsub (fmul sum_w2 sum_t2) wt2 in
  if fltb (SFabs det) (flit 1 1000000) then Ok (defaults, float_of_Z 999) else
  let wind_coeff := clamp (flit 1 100) (float_of_Z 2) (fdiv (fsub (fmul sum_t2 sum_wy) (fmul sum_wt sum_ty)) det) in
  let temp_coeff := clamp (flit 1 100) f1 (fdiv (fsub (fmul sum_w2 sum_ty) (fmul sum_wt sum_wy)) det) in
  let predict w t := fadd (fmul w wind_coeff) (fmul t temp_coeff) in
  let preds := zip_with predict ws ts in
  std_dev ← compute_std_dev (zip_with fsub ys preds);
  let '(low_factor, high_factor) := compute_bounds_factors (fmean preds) std_dev (flit 7 10) (flit 13 10) in
  let ps := [("wind_coefficient", fround 4 wind_coeff); ("temp_coefficient", fround 4 temp_coeff);
             ("low_bound_factor", fround 4 low_factor); ("high_bound_factor", fround 4 high_factor)] in
  match val_samples with
  | [] => Ok (ps, f0)
  | _ =>
      vw ← result_mapM (fun s => sample_get s "wind_speed") val_samples;
      vt ← result_mapM (fun s => sample_get s "temperature") val_samples;
      vy ← result_mapM (fun s => sample_get s "observed") val_samples;
      rmse ← compute_rmse (zip_with predict vw vt) vy;
      Ok (ps, rmse)
  end.

(** [xs[int(n * q)]] *)
Definition percentile (xs : list float) (q : float) : result pyexn float :=
  match float_trunc (fmul (float_of_Z (Z.of_nat (length xs))) q) with
  | Some i => match xs !! Z.to_nat i with Some x => Ok x | None => Raise (OtherError "IndexError") end
  | None => Raise ValueError
  end.

Definition fit_enso_forecast (train_samples val_samples : list params) : result pyexn (params * float) :=
  if (length train_samples <? 5)%nat then Ok (defaults ENSOForecastModel, f1) else
  xs ← result_mapM (fun s => sample_get s "sst_anomaly") train_samples;
  let anomalies := fsorted xs in
  el_nino_val ← percentile anomalies (flit 9 10);
  la_nina_val ← percentile anomalies (flit 1 10);
  let el_nino_threshold := clamp (flit 2 10) (flit 15 10) el_nino_val in
  let la_nina_threshold := clamp (flit (-15) 10) (flit (-2) 10) la_nina_val in
  let mean_anom := fmean anomalies in
  std_dev ← compute_std_dev (map (fun a => fsub a mean_anom) anomalies);
  let offset := clamp (flit 5 100) f1 std_dev in
  let ps := [("el_nino_threshold", fround 4 el_nino_threshold); ("la_nina_threshold", fround 4 la_nina_threshold);
             ("low_bound_offset", fround 4 (SFopp offset)); ("high_bound_offset", fround 4 offset)] in
  match val_samples with
  | [] => Ok (ps, f0)
  | _ =>
      vs ← result_mapM (fun s => sample_get s "sst_anomaly") val_samples;
      Ok (ps, int_truediv (Z.of_nat (enso_mismatches el_nino_threshold la_nina_threshold vs))
                (Pos.of_nat (length val_samples)))
  end.

(** ** Promotion gate *)

Definition rms_error (predict : params -> result pyexn float) (val_samples : list params) : result pyexn float :=
  ses ← result_mapM (fun s => p ← predict s; o ← sample_get s "observed"; square (fsub o p)) val_samples;
  half_power (fdiv (fsum ses) (float_of_Z (Z.of_nat (length val_samples)))).

Definition get_or (ps : params) (k : string) (d : float) : float := default d (assoc k ps).

Definition evaluate_parameters (m : model) (parameters : params) (val_samples : list params) : result pyexn float :=
  match val_samples with
  | [] => Ok f0
  | _ =>
      match m with
      | WildfireSpreadModel =>
          let w := get_or parameters "wind_coefficient" (flit 4 10) in
          let t := get_or parameters "temp_coefficient" (flit 1 10) in
          rms_error (fun s => ws ← sample_get s "wind_speed"; ts ← sample_get s "temperature";
                              Ok (fadd (fmul ws w) (fmul ts t))) val_samples
      | FloodExtentModel =>
          let r := get_or parameters "rainfall_coefficient" (flit 32 10) in
          rms_error (fun s => x ← sample_get s "rainfall"; Ok (fmul x r)) val_samples
      | PlumeDispersionModel =>
          let w := get_or parameters "wind_coefficient" (flit 18 10) in
          rms_error (fun s => x ← sample_get s "wind_speed"; Ok (fmul x w)) val_samples
      | ENSOForecastModel =>
          let nino := get_or parameters "el_nino_threshold" (flit 5 10) in
          let nina := get_or parameters "la_nina_threshold" (flit (-5) 10) in
          vs ← result_mapM (fun s => sample_get s "sst_anomaly") val_samples;
          Ok (int_truediv (Z.of_nat (enso_mismatches nino nina vs)) (Pos.of_nat (length val_samples)))
      end
  end.
End fitting.

Record payload := {
  pl_model_name : string;
  pl_version : Z;
  pl_fitted_at : Z;
  pl_sample_count : nat;
  pl_baseline_score : float;
  pl_promoted_score : float;
  pl_parameters : params;
}.

Record promotion := { promoted : bool; new_version : Z; current_score : float; new_score : float }.

Section promotion.
Context {Text : Type}.
Variable pow : float -> float -> float.
Variable safe_load : Text -> result pyexn document.
Variable safe_dump : payload -> Text.
Variable truncated : Text.               (* what a failed write leaves *)

(** [path.open("w")] and a write: the old contents are gone even if it fails. *)
Definition write_file (name : string) (text : Text) : M (world Text) unit := fun w =>
  let put t w := World (assoc_set name (File (now w) t) (files w)) (cache w) (now w) (io w) in
  match statement w with
  | (Ok _, w') => (Ok tt, put text w')
  | (Raise e, w') => (Raise e, put truncated w')
  end.

Definition load_current (m : model) : M (world Text) params := fun w =>
  let '(ps, w') := load_calibrated_parameters safe_load (parameter_name m) (defaults m) w in (Ok ps, w').

Definition check_and_promote_parameters (m : model) (new_params : params) (val_samples : list params)
    : M (world Text) promotion :=
  let name := parameter_name m in
  _ ← statement;                                          (* mkdir *)
  current_params ← load_current m;
  cur ← lift (evaluate_parameters pow m current_params val_samples);
  new ← lift (evaluate_parameters pow m new_params val_samples);
  names ← gets (fun w => map fst (files w));
  t ← gets now;
  let version := next_parameter_version name names in
  let outcome := {| promoted := fleb new cur; new_version := version; current_score := cur; new_score := new |} in
  if fleb new cur then
    let text := safe_dump {| pl_model_name := name; pl_version := version; pl_fitted_at := t;
                             pl_sample_count := length val_samples; pl_baseline_score := cur;
                             pl_promoted_score := new; pl_parameters := new_params |} in
    _ ← write_file (version_file name version) text;
    _ ← write_file (latest_file name) text;
    _ ← modify (invalidate_parameter_cache (Some name));
    mret outcome
  else mret outcome.
End promotion.

(** ** Samples *)

(** [float(match.group(1)) if match else None] for a label followed by a number. *)
Definition labelled (label details : string) : result pyexn (option float) :=
  match search_group (RSeq (RLit label) spaces) signed_or_dot None details with
  | None => Ok None
  | Some g => match float_of_str g with Some x => Ok (Some x) | None => Raise ValueError end
  end.

Definition parse_era5_details (details : string) : option float * option float * option float :=
  match (temp ← labelled "Mean Temp:" details; wind ← labelled "Max Wind:" details;
         precip ← labelled "Precip:" details; Ok (temp, wind, precip)) with
  | Ok r => r
  | Raise _ => (None, None, None)
  end.

Definition outcome_label (m : model) : string :=
  match m with
  | WildfireSpreadModel => "observed_spread_rate:"
  | FloodExtentModel => "observed_flooded_area:"
  | PlumeDispersionModel => "observed_dispersion_distance:"
  | ENSOForecastModel => "water temperature:"
  end.

Definition extract_observed_outcome (details : option string) (m : model) : option float :=
  match details with
  | None | Some "" => None
  | Some d => match labelled (outcome_label m) d with Ok o => o | Raise _ => None end
  end.

(** [event_date.date()] in UTC. *)
Definition date (h : HazardEvent) : Z := h_event_date h / (24 * 3600 * 1000000).

Definition matching_era5 (era5_events : list HazardEvent) (h : HazardEvent) : option HazardEvent :=
  List.find (fun e => (date e =? date h) && bool_decide (h_region_label e = h_region_label h)) era5_events.

Definition era5_of (era5_events : list HazardEvent) (h : HazardEvent) : option (option float * option float * option float) :=
  (fun e => parse_era5_details (default "" (h_details e))) <$> matching_era5 era5_events h.

Definition fpos (x : float) : bool := fltb f0 x.

Definition wildfire_sample (era5_events : list HazardEvent) (h : HazardEvent) : option params :=
  '(temp, wind, _) ← era5_of era5_events h;
  t ← temp; w ← wind;
  obs ← extract_observed_outcome (h_details h) WildfireSpreadModel;
  Some [("wind_speed", w); ("temperature", t); ("observed", obs)].

Definition flood_sample (era5_events : list HazardEvent) (h : HazardEvent) : option params :=
  '(_, _, precip) ← era5_of era5_events h;
  p ← precip;
  if fpos p then
    obs ← extract_observed_outcome (h_details h) FloodExtentModel; Some [("rainfall", p); ("observed", obs)]
  else None.

Definition plume_sample (era5_events : list HazardEvent) (h : HazardEvent) : option params :=
  '(_, wind, _) ← era5_of era5_events h;
  w ← wind;
  if fpos w then
    obs ← extract_observed_outcome (h_details h) PlumeDispersionModel; Some [("wind_speed", w); ("observed", obs)]
  else None.

(** Anomaly relative to an assumed climatology of 20 degrees. *)
Definition enso_sample (h : HazardEvent) : option params :=
  obs ← extract_observed_outcome (h_details h) ENSOForecastModel;
  Some [("sst_anomaly", fsub obs (float_of_Z 20))].

Definition from_source (s : string) (h : HazardEvent) : bool := bool_decide (h_source h = Some s).
Definition general (h : HazardEvent) : bool :=
  negb (from_source "copernicus" h || from_source "era5" h || from_source "noaa" h).
Definition type_has (words : list string) (h : HazardEvent) : bool := any_in words (lower (h_event_type h)).

Definition samples_of (m : model) (all_events : list HazardEvent) : list params :=
  let era5_events := List.filter (from_source "era5") all_events in
  match m with
  | WildfireSpreadModel => omap (wildfire_sample era5_events) (List.filter (from_source "copernicus") all_events)
  | FloodExtentModel => omap (flood_sample era5_events) (List.filter (type_has ["flood"]) (List.filter general all_events))
  | PlumeDispersionModel =>
      omap (plume_sample era5_events)
        (List.filter (type_has ["wind"; "storm"; "hurricane"; "tornado"]) (List.filter general all_events))
  | ENSOForecastModel => omap enso_sample (List.filter (from_source "noaa") all_events)
  end.

(** ** The job *)

Inductive model_summary := Skipped | Calibrated (p : promotion).

(** [persist_metric] of [CalibrationCompleted]: the model and whether it was promoted. *)
Definition metric : Type := string * bool.

Section job.
Context {Text : Type}.
Variable pow : float -> float -> float.
Variable safe_load : Text -> result pyexn document.
Variable safe_dump : payload -> Text.
Variable truncated : Text.
Variable shuffle : list params -> list params.     (* [random.Random(42).shuffle] *)

Definition fit (m : model) : list params -> list params -> result pyexn (params * float) :=
  match m with
  | WildfireSpreadModel => fit_wildfire_spread pow
  | FloodExtentModel => fit_flood_extent pow
  | PlumeDispersionModel => fit_plume_dispersion pow
  | ENSOForecastModel => fit_enso_forecast pow
  end.

(** [int(len(samples) * 0.8)] *)
Definition split_at (n : nat) : nat :=
  Z.to_nat (default 0 (float_trunc (fmul (float_of_Z (Z.of_nat n)) TRAIN_VALIDATION_SPLIT_RATIO))).

(** What [_calibrate_wildfire], [_calibrate_flood], [_calibrate_plume] and
    [_calibrate_enso] do with their samples. *)
Definition calibrate (m : model) (samples : list params) : M (world Text) model_summary :=
  if (MIN_CALIBRATION_SAMPLES <=? length samples)%nat then
    let shuffled := shuffle samples in
    let split := split_at (length samples) in
    let train := firstn split shuffled in
    let val := skipn split shuffled in
    fitted ← lift (fit m train val);
    p ← check_and_promote_parameters pow safe_load safe_dump truncated m fitted.1 val;
    mret (Calibrated p)
  else mret Skipped.

Definition _calibrate_wildfire (copernicus_events era5_events : list HazardEvent) : M (world Text) model_summary :=
  calibrate WildfireSpreadModel (omap (wildfire_sample era5_events) copernicus_events).

Definition _calibrate_flood (general_hazards era5_events : list HazardEvent) : M (world Text) model_summary :=
  calibrate FloodExtentModel (omap (flood_sample era5_events) (List.filter (type_has ["flood"]) general_hazards)).

Definition _calibrate_plume (general_hazards era5_events : list HazardEvent) : M (world Text) model_summary :=
  calibrate PlumeDispersionModel
    (omap (plume_sample era5_events)
       (List.filter (type_has ["wind"; "storm"; "hurricane"; "tornado"]) general_hazards)).

Definition _calibrate_enso (noaa_events : list HazardEvent) : M (world Text) model_summary :=
  calibrate ENSOForecastModel (omap enso_sample noaa_events).

(** The events of each source go to the model they are about. *)
Definition calibrate_step (m : model) (all_events : list HazardEvent) : M (world Text) model_summary :=
  let era5_events := List.filter (from_source "era5") all_events in
  match m with
  | WildfireSpreadModel => _calibrate_wildfire (List.filter (from_source "copernicus") all_events) era5_events
  | FloodExtentModel => _calibrate_flood (List.filter general all_events) era5_events
  | PlumeDispersionModel => _calibrate_plume (List.filter general all_events) era5_events
  | ENSOForecastModel => _calibrate_enso (List.filter (from_source "noaa") all_events)
  end.

Lemma calibrate_step_samples m all_events : calibrate_step m all_events = calibrate m (samples_of m all_events).
Proof. by destruct m. Qed.

Definition metrics_of (m : model) (s : model_summary) : list metric :=
  match s with Calibrated p => if promoted p then [(parameter_name m, true)] else [] | Skipped => [] end.

Definition models : list model := [WildfireSpreadModel; FloodExtentModel; PlumeDispersionModel; ENSOForecastModel].

Record job_world := JobWorld { sim : world Text; hazard_events : list HazardEvent; metrics : list metric; db : list bool }.

#[global] Program Instance job_db : Db job_world := {|
  script := db;
  set_script cs w := JobWorld (sim w) (hazard_events w) (metrics w) cs;
|}.
Solve All Obligations with by intros [].

(** A step on the parameter files. *)
Definition on_sim {A} (m : M (world Text) A) : M job_world A := fun w =>
  let '(r, s) := m (sim w) in (r, JobWorld s (hazard_events w) (metrics w) (db w)).

Fixpoint calibrate_all (ms : list model) (all_events : list HazardEvent)
    : M job_world (list (model * model_summary) * list metric) :=
  match ms with
  | [] => mret ([], [])
  | m :: ms =>
      s ← on_sim (calibrate_step m all_events);
      rest ← calibrate_all ms all_events;
      mret ((m, s) :: rest.1, metrics_of m s ++ rest.2)
  end.

(** Rows [ORDER BY event_date ASC]; metrics are stored at the commit. *)
Definition by_date (a b : HazardEvent) : Prop := h_event_date a <= h_event_date b.
#[global] Instance by_date_dec : RelDecision by_date.
Proof. intros a b. unfold by_date. apply _. Defined.

Definition _async_run_calibration_job : M job_world (list (model * model_summary)) :=
  all_events ← select (fun w => merge_sort by_date (hazard_events w));
  r ← calibrate_all models all_events;
  _ ← save (fun w => JobWorld (sim w) (hazard_events w) (metrics w ++ r.2) (db w));
  mret r.1.
End job.

(** ** Lemmas: versions *)

Lemma int_digits_pretty x s : (0 < x)%N -> forall b, int_digits (pretty_N_go x s) 0 b = int_digits s (Z.of_N x) true.
Proof.
  revert s. induction (N.lt_wf_0 x) as [x _ IH]. intros s Hx b. rewrite pretty_N_go_step by done.
  assert (forall d acc b, (d < 10)%N -> int_digits (String (pretty_N_char d) s) acc b = int_digits s (10 * acc + Z.of_N d) true) as Hd.
  { intros d acc b' Hlt. assert (d = 0 \/ d = 1 \/ d = 2 \/ d = 3 \/ d = 4 \/ d = 5 \/ d = 6 \/ d = 7 \/ d = 8 \/ d = 9)%N as Hd by lia.
    repeat destruct Hd as [->|Hd]; try done. by subst. }
  assert (x mod 10 < 10)%N by (apply N.mod_lt; lia). pose proof (N.div_mod' x 10).
  destruct (decide (0 < x `div` 10)%N) as [Hq|Hq].
  - rewrite IH by (done || apply N.div_lt; lia). rewrite Hd by done. f_equal. lia.
  - assert (x `div` 10 = 0)%N as -> by lia. rewrite pretty_N_go_0, Hd by done. f_equal. lia.
Qed.

(** Characters of a decimal numeral are digits. *)
Lemma pretty_N_go_only_digits x s : only_digits s = true -> only_digits (pretty_N_go x s) = true.
Proof.
  revert s. induction (N.lt_wf_0 x) as [x _ IH]; intros s Hs.
  destruct (decide (0 < x)%N) as [Hx|Hx].
  - rewrite pretty_N_go_step by done. apply IH; [apply N.div_lt; lia|]. cbn. rewrite Hs, andb_true_r.
    assert (x `mod` 10 < 10)%N as Hm by (apply N.mod_lt; lia).
    destruct (x `mod` 10)%N as [|p]; [done|]. do 4 (destruct p as [p|p|]; try done); lia.
  - assert (x = 0)%N as -> by lia. by rewrite pretty_N_go_0.
Qed.

Lemma pretty_pos_digits p : only_digits (pretty (Z.pos p)) = true /\ pretty (Z.pos p) <> "".
Proof.
  change (pretty (Z.pos p)) with (pretty (N.pos p)). unfold pretty, pretty_N. case_decide; [done|].
  split; [by apply pretty_N_go_only_digits|]. intros E.
  pose proof (int_digits_pretty (N.pos p) "" ltac:(lia) false) as H1. by rewrite E in H1.
Qed.

Lemma digit_char c : is_digit c = true ->
  is_space c = false /\ c <> "_"%char /\ c <> "."%char /\ c <> "-"%char /\ c <> "+"%char.
Proof. destruct c as [[] [] [] [] [] [] [] []]; done. Qed.

Lemma digits_no_char c s : only_digits s = true -> is_digit c = false -> has_char c s = false.
Proof.
  intros Hs Hc. induction s as [|d s IH]; [done|]. simpl in *. apply andb_true_iff in Hs as [Hd Hs].
  rewrite IH by done. destruct (Ascii.eqb_spec c d) as [->|]; [by rewrite Hd in Hc | done].
Qed.

Lemma rstrip_digits s : only_digits s = true -> rstrip s = s.
Proof.
  induction s as [|c s IH]; simpl; [done|]. intros [Hc Hs]%andb_true_iff. rewrite IH by done.
  destruct s; [|done]. by rewrite (proj1 (digit_char c Hc)).
Qed.

Lemma int_of_pretty p : int_of_str (pretty (Z.pos p)) = Some (Z.pos p).
Proof.
  destruct (pretty_pos_digits p) as [Hd Hne]. unfold int_of_str, strip.
  assert (lstrip (pretty (Z.pos p)) = pretty (Z.pos p)) as ->.
  { destruct (pretty (Z.pos p)) as [|c s]; [done|]. simpl in Hd. apply andb_true_iff in Hd as [Hc _].
    simpl. by rewrite (proj1 (digit_char c Hc)). }
  rewrite rstrip_digits by done.
  assert (int_digits (pretty (Z.pos p)) 0 false = Some (Z.pos p)) as Hi.
  { change (pretty (Z.pos p)) with (pretty (N.pos p)). unfold pretty, pretty_N. case_decide; [done|].
    by rewrite int_digits_pretty. }
  destruct (pretty (Z.pos p)) as [|c s]; [done|]. simpl in Hd. apply andb_true_iff in Hd as [Hc _].
  destruct (digit_char c Hc) as (_ & _ & _ & H1 & H2).
  destruct c as [[] [] [] [] [] [] [] []]; done.
Qed.

Lemma contains_no_char c p s : has_char c s = false -> contains (String c p) s = false.
Proof.
  intros Hs. destruct (contains (String c p) s) eqn:E; [|done]. apply contains_spec in E as (a & b & ->).
  rewrite has_char_app, append_cons in Hs. simpl in Hs. by rewrite Ascii.eqb_refl, orb_true_r in Hs.
Qed.

Lemma last_part_app a b : has_char "_" b = false -> last_part "_v" (a +:+ "_v" +:+ b) = b.
Proof.
  intros Hb. induction a as [|c a IH].
  - change ("" +:+ "_v" +:+ b) with (String "_" (String "v" b)). cbn [last_part].
    rewrite (contains_no_char "_" "v") by exact Hb. by destruct b.
  - rewrite append_cons. cbn [last_part].
    assert (contains "_v" (a +:+ "_v" +:+ b) = true) as -> by (apply contains_spec; eauto). done.
Qed.

Lemma remove_yaml s : only_digits s = true -> remove_sub ".yaml" 0 (s +:+ ".yaml") = s.
Proof.
  induction s as [|c s IH]; [done|]. intros Hd. simpl in Hd. apply andb_true_iff in Hd as [Hc Hs].
  rewrite append_cons. cbn [remove_sub].
  assert (startswith ".yaml" (String c (s +:+ ".yaml")) = false) as ->; [|by rewrite IH].
  destruct (digit_char c Hc) as (_ & _ & Hdot & _). apply not_true_iff_false. intros [t Ht]%prefix_spec.
  rewrite append_cons in Ht. by injection Ht as -> _.
Qed.

Lemma endswith_app a p : endswith p (a +:+ p) = true.
Proof.
  induction a as [|c a IH]; [destruct p; simpl; by rewrite ?Ascii.eqb_refl, ?String.eqb_refl|].
  rewrite append_cons. cbn [endswith]. by rewrite IH, orb_true_r.
Qed.

(** The name of a version is found by the scan and read back. *)
Lemma version_file_scanned m p :
  is_version_file m (version_file m (Z.pos p)) = true /\ file_version (version_file m (Z.pos p)) = Some (Z.pos p).
Proof.
  destruct (pretty_pos_digits p) as [Hd _]. unfold is_version_file, file_version, version_file. split.
  - rewrite !andb_true_iff. split_and!.
    + apply prefix_spec. exists (pretty (Z.pos p) +:+ ".yaml"). by rewrite append_assoc.
    + rewrite <- !append_assoc. apply endswith_app.
    + rewrite !length_app_string. simpl. apply Nat.leb_le. lia.
  - rewrite last_part_app; [by rewrite remove_yaml, int_of_pretty|].
    rewrite has_char_app, (digits_no_char "_" _ Hd) by done. done.
Qed.

Lemma highest_ge acc vs : acc <= fold_left highest vs acc /\ forall v, Some v ∈ vs -> v <= fold_left highest vs acc.
Proof.
  revert acc. induction vs as [|o vs IH]; intros acc; simpl; [split; [lia | by intros v ?%elem_of_nil]|].
  destruct (IH (highest acc o)) as [H1 H2].
  assert (acc <= highest acc o /\ forall v, o = Some v -> v <= highest acc o) as [H3 H4].
  { unfold highest. destruct o as [v|]; [|naive_solver lia]. destruct (Z.ltb_spec acc v); naive_solver lia. }
  split; [lia|]. intros v [Hv|Hv]%elem_of_cons; [|auto]. specialize (H4 v (eq_sym Hv)). lia.
Qed.

(** The next version is positive and its file is not there yet. *)
Lemma next_version_fresh m names :
  0 < next_parameter_version m names /\ version_file m (next_parameter_version m names) ∉ names.
Proof.
  unfold next_parameter_version. set (vs := map file_version _). destruct (highest_ge 0 vs) as [H0 Hv].
  split; [lia|]. intros Hin. destruct (fold_left highest vs 0 + 1) as [|p|p] eqn:E; [lia| |lia].
  destruct (version_file_scanned m p) as [Hs Hf].
  specialize (Hv (Z.pos p)). assert (Some (Z.pos p) ∈ vs) as Hi; [|specialize (Hv Hi); lia].
  unfold vs. rewrite <- Hf. apply list_elem_of_In, in_map, filter_In. by rewrite <- list_elem_of_In.
Qed.

(** ** Lemmas: publication *)

Section publication.
Context {Text : Type} (pow : float -> float -> float).
Variable safe_load : Text -> result pyexn document.
Variable safe_dump : payload -> Text.
Variable truncated : Text.
Implicit Types w : world Text.

Lemma write_file_world name text w : exists cs t,
  (write_file truncated name text w).2 = World (assoc_set name (File (now w) t) (files w)) (cache w) (now w) cs.
Proof. unfold write_file, statement. destruct (default true _); simpl; eauto. Qed.

Lemma write_file_ok name text w : io w = [] ->
  write_file truncated name text w = (Ok tt, World (assoc_set name (File (now w) text) (files w)) (cache w) (now w) []).
Proof. intros Hw. unfold write_file. rewrite statement_ok by done. by rewrite Hw. Qed.

(** A document that has the given numbers, in any order, loads as them. *)
Lemma saved_values_load ps new : NoDup (map fst new) -> complete (map fst new) new ->
  (forall k, assoc k ps = SFloat <$> assoc k new) ->
  validate_parameters_yaml (DictDoc (Some ps)) (map fst new) = Ok true /\
  result_mapM (parameter_value (DictDoc (Some ps))) (map fst new) = Ok new.
Proof.
  intros Hn Hc Hps. split.
  - simpl. revert Hc. generalize (map fst new). induction l as [|k ks IH]; intros Hc; [done|].
    simpl. destruct (Hc k) as (x & Ex & Hx); [left|]. rewrite Hps, Ex. simpl. rewrite Hx. apply IH.
    intros k' Hk'. apply Hc. by right.
  - apply result_mapM_ok, Forall2_fmap_l, Forall_Forall2_diag, Forall_forall. intros [k x] Hin.
    simpl. by rewrite Hps, (assoc_entry new k x).
Qed.

Lemma load_fresh_file m ds new f ps w : io w = [] -> assoc m (cache w) = None ->
  assoc (latest_file m) (files w) = Some f -> safe_load (f_text f) = Ok (DictDoc (Some ps)) ->
  map fst new = map fst ds -> NoDup (map fst new) -> complete (map fst new) new ->
  (forall k, assoc k ps = SFloat <$> assoc k new) ->
  (load_calibrated_parameters safe_load m ds w).1 = new.
Proof.
  intros Hio Hc Hf Hl Hk Hn Hcm Hps. destruct (saved_values_load ps new Hn Hcm Hps) as [Hv Hm].
  unfold load_calibrated_parameters, from_disk. rewrite Hc, Hf.
  destruct w as [fs ca t cs]. cbn [files cache now io] in *. subst cs. unfold check_file, statement, gets, mbind, M_bind. cbn -[reload].
  rewrite Hc. unfold reload, statement, lift, gets, modify, mbind, M_bind. cbn -[validate_parameters_yaml parameter_value].
  rewrite Hl, <- Hk, Hv, Hm. done.
Qed.

(** The whole gate when the files can be written; [w2] is the state after loading the active parameters. *)
Definition saved (m : model) (new_params : params) (val_samples : list params) (v t : Z) (cur ns : float) : Text :=
  safe_dump {| pl_model_name := parameter_name m; pl_version := v; pl_fitted_at := t;
               pl_sample_count := length val_samples; pl_baseline_score := cur;
               pl_promoted_score := ns; pl_parameters := new_params |}.

Definition after_promotion (m : model) (text : Text) (v : Z) (w2 : world Text) : world Text :=
  World (assoc_set (latest_file (parameter_name m)) (File (now w2) text)
           (assoc_set (version_file (parameter_name m) v) (File (now w2) text) (files w2)))
    (List.filter (fun e => negb (String.eqb (parameter_name m) e.1)) (cache w2)) (now w2) [].

Lemma promote_run m new_params val_samples w cp w2 cur ns :
  io w = [] -> load_calibrated_parameters safe_load (parameter_name m) (defaults m) w = (cp, w2) ->
  evaluate_parameters pow m cp val_samples = Ok cur -> evaluate_parameters pow m new_params val_samples = Ok ns ->
  let v := next_parameter_version (parameter_name m) (map fst (files w)) in
  check_and_promote_parameters pow safe_load safe_dump truncated m new_params val_samples w =
    (Ok {| promoted := fleb ns cur; new_version := v; current_score := cur; new_score := ns |},
     if fleb ns cur then after_promotion m (saved m new_params val_samples v (now w2) cur ns) v w2 else w2).
Proof.
  intros Hio Hload Hcur Hns v. destruct (load_files safe_load (parameter_name m) (defaults m) w) as [Hl Hio2].
  specialize (Hio2 Hio). rewrite Hload in Hl, Hio2. cbn [snd] in Hl, Hio2. unfold check_and_promote_parameters.
  rewrite M_bind_run, statement_ok by done. rewrite M_bind_run. unfold load_current. rewrite Hload.
  unfold lift. rewrite M_bind_run, Hcur, M_bind_run, Hns. unfold gets. rewrite !M_bind_run. cbv beta iota. rewrite Hl. fold v.
  destruct (fleb ns cur) eqn:Ef; [|reflexivity].
  rewrite M_bind_run, write_file_ok, M_bind_run, write_file_ok by done. unfold modify. by rewrite M_bind_run.
Qed.

(** After a promotion the latest file is read back at any time. *)
Lemma promoted_loads m new_params text ps v w2 t :
  map fst new_params = map fst (defaults m) -> complete (map fst new_params) new_params ->
  safe_load text = Ok (DictDoc (Some ps)) -> (forall k, assoc k ps = SFloat <$> assoc k new_params) ->
  (load_calibrated_parameters safe_load (parameter_name m) (defaults m)
     (World (files (after_promotion m text v w2)) (cache (after_promotion m text v w2)) t [])).1 = new_params.
Proof.
  intros Hk Hc Hl Hps. eapply load_fresh_file; [done | apply assoc_filtered | apply assoc_set_eq | exact Hl | exact Hk | | done..].
  rewrite Hk. destruct m; apply (bool_decide_unpack _); by vm_compute.
Qed.

(** A promotion attempt leaves every file but the latest one, whatever fails. *)
Lemma promote_keeps m new_params val_samples w name f :
  name <> latest_file (parameter_name m) -> assoc name (files w) = Some f ->
  assoc name (files (check_and_promote_parameters pow safe_load safe_dump truncated m new_params val_samples w).2) = Some f.
Proof.
  intros Hne Hf. unfold check_and_promote_parameters. rewrite M_bind_run.
  pose proof (statement_world w) as Hs. destruct (statement w) as [[u|e] w1]; simpl in Hs; subst w1; [|done].
  rewrite M_bind_run. unfold load_current. set (w1 := World (files w) (cache w) (now w) (tl (io w))).
  destruct (load_files safe_load (parameter_name m) (defaults m) w1) as [Hl _].
  destruct (load_calibrated_parameters _ _ _ w1) as [cur w2]. simpl in Hl. unfold lift. rewrite M_bind_run.
  destruct (evaluate_parameters pow m cur val_samples) as [sc|]; [|simpl; by rewrite Hl].
  rewrite M_bind_run. destruct (evaluate_parameters pow m new_params val_samples) as [sn|]; [|simpl; by rewrite Hl].
  unfold gets. rewrite !M_bind_run. cbv beta iota. destruct (fleb sn sc); [|simpl; by rewrite Hl].
  rewrite Hl. set (v := next_parameter_version (parameter_name m) (map fst (files w))).
  destruct (next_version_fresh (parameter_name m) (map fst (files w))) as [_ Hfresh]. fold v in Hfresh.
  assert (name <> version_file (parameter_name m) v) as Hnv.
  { intros ->. apply Hfresh. apply assoc_elem. eauto. }
  rewrite M_bind_run. set (text := safe_dump _).
  destruct (write_file_world (version_file (parameter_name m) v) text w2) as (cs1 & t1 & H1).
  destruct (write_file truncated _ text w2) as [[u1|e1] w3]; simpl in H1; subst w3;
    [|simpl; by rewrite assoc_set_ne, Hl by done].
  rewrite M_bind_run.
  match goal with |- context [write_file truncated ?n text ?x] =>
    destruct (write_file_world n text x) as (cs2 & t2 & H2); destruct (write_file truncated n text x) as [[u2|e2] w4] end;
    simpl in H2; subst w4; simpl; by rewrite !assoc_set_ne, Hl by done.
Qed.

Variable shuffle : list params -> list params.

Lemma calibrate_keeps m samples w name f : name <> latest_file (parameter_name m) -> assoc name (files w) = Some f ->
  assoc name (files (calibrate pow safe_load safe_dump truncated shuffle m samples w).2) = Some f.
Proof.
  intros Hne Hf. unfold calibrate. destruct (_ <=? _)%nat; [|done]. rewrite M_bind_run. unfold lift.
  destruct (fit pow m _ _) as [r|]; [|done]. rewrite M_bind_run.
  match goal with |- context [check_and_promote_parameters pow safe_load safe_dump truncated m ?n ?v w] =>
    pose proof (promote_keeps m n v w name f Hne Hf) as Hk;
    destruct (check_and_promote_parameters pow safe_load safe_dump truncated m n v w) as [[p|e] w'] end; done.
Qed.

Lemma calibrate_all_keeps ms events jw name f :
  (forall m, name <> latest_file (parameter_name m)) -> assoc name (files (sim jw)) = Some f ->
  assoc name (files (sim (calibrate_all pow safe_load safe_dump truncated shuffle ms events jw).2)) = Some f.
Proof.
  intros Hne. revert jw. induction ms as [|m ms IH]; intros jw Hf; [done|]. cbn [calibrate_all].
  rewrite M_bind_run. unfold on_sim. rewrite calibrate_step_samples.
  pose proof (calibrate_keeps m (samples_of m events) (sim jw) name f (Hne m) Hf) as Hk.
  destruct (calibrate _ _ _ _ _ m _ (sim jw)) as [[s|e] w1]; [|done]. cbn [snd] in Hk. rewrite M_bind_run.
  match goal with |- context [calibrate_all _ _ _ _ _ ms events ?j] => specialize (IH j Hk);
    destruct (calibrate_all pow safe_load safe_dump truncated shuffle ms events j) as [[r|e] j'] end; done.
Qed.

(** Calibrating reads and writes parameter files only. *)
Lemma calibrate_all_result ms events jw :
  match calibrate_all pow safe_load safe_dump truncated shuffle ms events jw with
  | (Ok r, jw') =>
      map fst r.1 = ms /\ r.2 = flat_map (fun e => metrics_of e.1 e.2) r.1 /\
      (forall m, (m, Skipped) ∈ r.1 -> (length (samples_of m events) < MIN_CALIBRATION_SAMPLES)%nat) /\
      (forall m p, (m, Calibrated p) ∈ r.1 -> (MIN_CALIBRATION_SAMPLES <= length (samples_of m events))%nat) /\
      metrics jw' = metrics jw /\ hazard_events jw' = hazard_events jw
  | (Raise _, jw') => metrics jw' = metrics jw /\ hazard_events jw' = hazard_events jw
  end.
Proof.
  revert jw. induction ms as [|m ms IH]; intros jw.
  { cbn. split_and!; try done; [by intros m ?%elem_of_nil | by intros m p ?%elem_of_nil]. }
  cbn [calibrate_all]. rewrite M_bind_run. unfold on_sim. rewrite calibrate_step_samples.
  destruct (calibrate pow safe_load safe_dump truncated shuffle m (samples_of m events) (sim jw)) as [[s|e] w1] eqn:Ec; [|done].
  rewrite M_bind_run. match goal with |- context [calibrate_all _ _ _ _ _ ms events ?j] => specialize (IH j);
    destruct (calibrate_all pow safe_load safe_dump truncated shuffle ms events j) as [[r|e] j'] end; [|done].
  destruct IH as (H1 & H2 & H3 & H4 & H5 & H6). cbn. rewrite H1, H2. split; [done|]. split; [done|].
  assert (match s with Skipped => (length (samples_of m events) < MIN_CALIBRATION_SAMPLES)%nat
          | Calibrated _ => (MIN_CALIBRATION_SAMPLES <= length (samples_of m events))%nat end) as Hs.
  { revert Ec. unfold calibrate. destruct (Nat.leb_spec MIN_CALIBRATION_SAMPLES (length (samples_of m events))).
    - intros (? & ? & _ & (p & ? & _ & [= <- _])%M_bind_ok)%M_bind_ok. done.
    - by intros [= <- _]. }
  split; [|split; [|done]].
  - intros m' [[= -> <-]|Hin]%elem_of_cons; [done | auto].
  - intros m' p [[= -> <-]|Hin]%elem_of_cons; [done | eauto].
Qed.

(** The job around it: one query before, one commit after. *)
Lemma job_run jw : exists cs r jw', let events := merge_sort by_date (hazard_events jw) in
  calibrate_all pow safe_load safe_dump truncated shuffle models events (JobWorld (sim jw) (hazard_events jw) (metrics jw) cs) = (r, jw') /\
  let out := _async_run_calibration_job pow safe_load safe_dump truncated shuffle jw in
  (is_ok out.1 = false /\ out.2 = JobWorld (sim jw) (hazard_events jw) (metrics jw) cs) \/
  (exists cs', is_ok out.1 = false /\ out.2 = JobWorld (sim jw') (hazard_events jw') (metrics jw') cs') \/
  (exists a cs', r = Ok a /\ out = (Ok a.1, JobWorld (sim jw') (hazard_events jw') (metrics jw' ++ a.2) cs')).
Proof.
  exists (tl (db jw)).
  destruct (calibrate_all pow safe_load safe_dump truncated shuffle models (merge_sort by_date (hazard_events jw))
    (JobWorld (sim jw) (hazard_events jw) (metrics jw) (tl (db jw)))) as [r jw'] eqn:E.
  exists r, jw'. split; [done|]. cbv zeta. unfold _async_run_calibration_job, select, statement, gets. rewrite !M_bind_run.
  destruct (default true (head (script jw))); [|by left]. right. cbn -[calibrate_all models merge_sort by_date save].
  rewrite M_bind_run. cbn [hazard_events]. rewrite E. destruct r as [a|e]; [|left; exists (db jw'); by destruct jw'].
  unfold save, statement, modify. rewrite !M_bind_run.
  destruct (default true (head (script jw'))); [right; eauto | left; by eexists].
Qed.
End publication.

(** ** Lemmas: fits *)

Lemma ok_fst {E A B} (a a' : A) (b b' : B) : Ok (E := E) (a, b) = Ok (a', b') -> a = a'.
Proof. by intros [= ->]. Qed.

(** A coefficient as the fits publish it: clamped to its limits, then rounded to four decimals. *)
Definition limited (ps : params) (limit : string * float * float) : Prop :=
  exists c, assoc limit.1.1 ps = Some (fround 4 c) /\ fle limit.1.2 c /\ fle c limit.2.

Lemma clamp_limits lo hi x : fle lo hi -> fle lo (clamp lo hi x) /\ fle (clamp lo hi x) hi.
Proof. apply clamp_between. Qed.

Lemma limited_clamp ps k lo hi x : fle lo hi -> assoc k ps = Some (fround 4 (clamp lo hi x)) -> limited ps (k, lo, hi).
Proof. intros Hle E. exists (clamp lo hi x). split; [done|]. by apply clamp_limits. Qed.

Lemma limited_default ps k lo hi c : assoc k ps = Some c -> fround 4 c = c -> fle lo c -> fle c hi -> limited ps (k, lo, hi).
Proof. intros E Hr H1 H2. exists c. by rewrite Hr. Qed.

(** The sanity limits of the fitted coefficients. *)
Definition limits (m : model) : list (string * float * float) :=
  match m with
  | WildfireSpreadModel => [("wind_coefficient", flit 1 100, float_of_Z 2); ("temp_coefficient", flit 1 100, f1)]
  | FloodExtentModel => [("rainfall_coefficient", flit 1 10, float_of_Z 10)]
  | PlumeDispersionModel => [("wind_coefficient", flit 1 10, float_of_Z 10)]
  | ENSOForecastModel => [("el_nino_threshold", flit 2 10, flit 15 10); ("la_nina_threshold", flit (-15) 10, flit (-2) 10)]
  end.

Lemma fit_single_limited pow name input dc dl dh train val ps s :
  fit_single pow name input dc dl dh train val = Ok (ps, s) ->
  fround 4 dc = dc -> fle (flit 1 10) dc -> fle dc (float_of_Z 10) -> limited ps (name, flit 1 10, float_of_Z 10).
Proof.
  intros H Hr H1 H2.
  assert (forall rest, limited ((name, dc) :: rest) (name, flit 1 10, float_of_Z 10)) as Hd.
  { intros rest. eapply limited_default; [|done..]. simpl. by rewrite String.eqb_refl. }
  unfold fit_single in H. destruct train as [|s0 train]; [by apply ok_fst in H as <-|].
  apply result_bind_ok in H as (xs & _ & H). apply result_bind_ok in H as (ys & _ & H).
  apply result_bind_ok in H as (x2 & _ & H). destruct (fltb _ _); [by apply ok_fst in H as <-|].
  apply result_bind_ok in H as (sd & _ & H). destruct (compute_bounds_factors _ _ _ _) as [rl rh].
  assert (ps = [(name, fround 4 (clamp (flit 1 10) (float_of_Z 10) (fdiv (fsum (zip_with fmul xs ys)) (fsum x2))));
    ("low_bound_factor", fround 4 (fmul rl (clamp (flit 1 10) (float_of_Z 10) (fdiv (fsum (zip_with fmul xs ys)) (fsum x2)))));
    ("high_bound_factor", fround 4 (fmul rh (clamp (flit 1 10) (float_of_Z 10) (fdiv (fsum (zip_with fmul xs ys)) (fsum x2)))))]) as ->.
  { destruct val; [by apply ok_fst in H as <-|]. apply result_bind_ok in H as (vx & _ & H).
    apply result_bind_ok in H as (vy & _ & H). apply result_bind_ok in H as (rm & _ & H). by apply ok_fst in H as <-. }
  eapply limited_clamp; [done|]. simpl. by rewrite String.eqb_refl.
Qed.

Lemma fit_wildfire_limited pow train val ps s : fit_wildfire_spread pow train val = Ok (ps, s) ->
  limited ps ("wind_coefficient", flit 1 100, float_of_Z 2) /\ limited ps ("temp_coefficient", flit 1 100, f1).
Proof.
  intros H. unfold fit_wildfire_spread in H. destruct (_ <? _)%nat.
  { apply ok_fst in H as <-. split; (eapply limited_default; [reflexivity | by vm_compute..]). }
  do 6 (apply result_bind_ok in H as (? & _ & H)). destruct (fltb _ _).
  { apply ok_fst in H as <-. split; (eapply limited_default; [reflexivity | by vm_compute..]). }
  apply result_bind_ok in H as (sd & _ & H). destruct (compute_bounds_factors _ _ _ _) as [rl rh].
  destruct val; [|do 4 (apply result_bind_ok in H as (? & _ & H))]; apply ok_fst in H as <-;
    (split; (eapply limited_clamp; [by vm_compute | cbn [assoc String.eqb Ascii.eqb Bool.eqb]; exact eq_refl])).
Qed.

Lemma fit_enso_limited pow train val ps s : fit_enso_forecast pow train val = Ok (ps, s) ->
  limited ps ("el_nino_threshold", flit 2 10, flit 15 10) /\ limited ps ("la_nina_threshold", flit (-15) 10, flit (-2) 10).
Proof.
  intros H. unfold fit_enso_forecast in H. destruct (_ <? _)%nat.
  { apply ok_fst in H as <-. split; (eapply limited_default; [reflexivity | by vm_compute..]). }
  do 4 (apply result_bind_ok in H as (? & _ & H)).
  destruct val; [|apply result_bind_ok in H as (? & _ & H)]; apply ok_fst in H as <-;
    (split; (eapply limited_clamp; [by vm_compute | cbn [assoc String.eqb Ascii.eqb Bool.eqb]; exact eq_refl])).
Qed.

(** ** Lemmas: the ENSO score *)

Definition has_anomaly (s : params) : Prop := is_Some (assoc "sst_anomaly" s).

Lemma anomalies_read val : Forall has_anomaly val -> exists vs, result_mapM (fun s => sample_get s "sst_anomaly") val = Ok vs.
Proof.
  induction 1 as [|s val [x Hx] _ [vs IH]]; [by exists []|]. exists (x :: vs). cbn [result_mapM].
  assert (sample_get s "sst_anomaly" = Ok x) as -> by (unfold sample_get; by rewrite Hx). cbn. by rewrite IH.
Qed.

Lemma no_mismatch vs : enso_mismatches (flit 5 10) (flit (-5) 10) vs = 0%nat.
Proof. unfold enso_mismatches. rewrite filter_drop_all; [done|]. intros a _. by rewrite String.eqb_refl. Qed.

Lemma enso_score pow ps val : Forall has_anomaly val ->
  exists s, evaluate_parameters pow ENSOForecastModel ps val = Ok s /\ fle f0 s.
Proof.
  intros Hv. destruct (anomalies_read val Hv) as [vs Hvs]. destruct val as [|s val]; [by exists f0|].
  unfold evaluate_parameters. rewrite Hvs. eexists. split; [reflexivity|]. apply int_truediv_nonneg. lia.
Qed.

Lemma enso_default_score pow val : Forall has_anomaly val ->
  evaluate_parameters pow ENSOForecastModel (defaults ENSOForecastModel) val = Ok f0.
Proof.
  intros Hv. destruct (anomalies_read val Hv) as [vs Hvs]. destruct val as [|s val]; [done|].
  unfold evaluate_parameters. rewrite Hvs. cbn [mbind result_mbind result_bind].
  change (get_or _ "el_nino_threshold" _) with (flit 5 10). change (get_or _ "la_nina_threshold" _) with (flit (-5) 10).
  by rewrite no_mismatch.
Qed.

Lemma enso_samples_anomaly events : Forall has_anomaly (samples_of ENSOForecastModel events).
Proof.
  apply Forall_forall. intros s Hs. unfold samples_of in Hs. apply list_elem_of_omap in Hs as (h & _ & Hs).
  unfold enso_sample in Hs. destruct (extract_observed_outcome _ _); [|done]. injection Hs as <-. by eexists.
Qed.

Lemma defaults_complete m : complete (map fst (defaults m)) (defaults m).
Proof.
  intros k Hk. destruct m;
    (repeat (apply elem_of_cons in Hk as [->|Hk]; [eexists; split; [reflexivity | by vm_compute]|]); by apply elem_of_nil in Hk).
Qed.

(** ** Properties *)

Section properties.
Context {Text : Type} (pow : float -> float -> float).
Variable safe_load : Text -> result pyexn document.
Variable safe_dump : payload -> Text.
Variable truncated : Text.
Variable shuffle : list params -> list params.
Implicit Types w : world Text.

Notation promote := (check_and_promote_parameters pow safe_load safe_dump truncated).
Notation calibrate_events := (calibrate_step pow safe_load safe_dump truncated shuffle).

(** Published versions are immutable: whatever fails along the way, a run of the
    calibration job leaves every file other than the models' [_latest.yaml] as it
    was; each version it publishes is a new file. *)
Theorem versions_immutable jw name f :
  (forall m, name <> latest_file (parameter_name m)) -> assoc name (files (sim jw)) = Some f ->
  assoc name (files (sim (_async_run_calibration_job pow safe_load safe_dump truncated shuffle jw).2)) = Some f.
Proof.
  intros Hne Hf. destruct (job_run pow safe_load safe_dump truncated shuffle jw) as (cs & r & jw' & Hc & Hout).
  cbv zeta in Hc, Hout. match type of Hc with calibrate_all _ _ _ _ _ _ ?es ?j = _ =>
    pose proof (calibrate_all_keeps pow safe_load safe_dump truncated shuffle models es j name f Hne Hf) as Hk end.
  rewrite Hc in Hk. destruct Hout as [[_ ->]|[(cs' & _ & ->)|(a & cs' & _ & ->)]]; done.
Qed.

(** The job's account is complete and atomic: when it returns, the summary lists
    the four models, skipped exactly when they have fewer than five samples, and
    the stored metrics grew by one per promotion; when it raises, no metric of the
    run is stored, although files may have been published. *)
Theorem calibration_job_account jw :
  let events := merge_sort by_date (hazard_events jw) in
  match _async_run_calibration_job pow safe_load safe_dump truncated shuffle jw with
  | (Ok summary, jw') =>
      map fst summary = models /\ metrics jw' = metrics jw ++ flat_map (fun e => metrics_of e.1 e.2) summary /\
      (forall m, (m, Skipped) ∈ summary -> (length (samples_of m events) < MIN_CALIBRATION_SAMPLES)%nat) /\
      (forall m p, (m, Calibrated p) ∈ summary -> (MIN_CALIBRATION_SAMPLES <= length (samples_of m events))%nat)
  | (Raise _, jw') => metrics jw' = metrics jw
  end.
Proof.
  intros events. destruct (job_run pow safe_load safe_dump truncated shuffle jw) as (cs & r & jw' & Hc & Hout).
  cbv zeta in Hc, Hout. fold events in Hc. match type of Hc with calibrate_all _ _ _ _ _ _ ?es ?j = _ =>
    pose proof (calibrate_all_result pow safe_load safe_dump truncated shuffle models es j) as Hr end.
  rewrite Hc in Hr. destruct Hout as [[Hf Hw]|[(cs' & Hf & Hw)|(a & cs' & -> & ->)]].
  - destruct (_async_run_calibration_job _ _ _ _ _ jw) as [[|] w']; [done|]. simpl in Hw. by subst.
  - destruct (_async_run_calibration_job _ _ _ _ _ jw) as [[|] w']; [done|]. simpl in Hw. subst. simpl.
    destruct r; simpl in Hr; naive_solver.
  - destruct Hr as (H1 & H2 & H3 & H4 & H5 & _). cbn [metrics] in *. by rewrite <- H2, H5.
Qed.

(** The promotion gate and its effect.  With files that can be written, a
    candidate is promoted exactly when its score on the held-out samples is at
    most that of the active parameters (a NaN score never is); then a new version
    and the latest file hold it, and every later load in this process returns it;
    otherwise the directory is unchanged. *)
Theorem promotion_takes_effect m new_params val_samples w cur ns :
  (forall p, exists ps, safe_load (safe_dump p) = Ok (DictDoc (Some ps)) /\
     forall k, assoc k ps = SFloat <$> assoc k (pl_parameters p)) ->
  io w = [] ->
  map fst new_params = map fst (defaults m) -> complete (map fst new_params) new_params ->
  evaluate_parameters pow m (load_calibrated_parameters safe_load (parameter_name m) (defaults m) w).1 val_samples = Ok cur ->
  evaluate_parameters pow m new_params val_samples = Ok ns ->
  exists p w', promote m new_params val_samples w = (Ok p, w') /\ promoted p = fleb ns cur /\
  (fleb ns cur = true ->
     assoc (version_file (parameter_name m) (new_version p)) (files w) = None /\
     is_Some (assoc (version_file (parameter_name m) (new_version p)) (files w')) /\
     forall t, (load_calibrated_parameters safe_load (parameter_name m) (defaults m) (World (files w') (cache w') t [])).1 = new_params) /\
  (fleb ns cur = false -> files w' = files w).
Proof.
  intros Hyaml Hio Hk Hc Hcur Hns.
  destruct (load_files safe_load (parameter_name m) (defaults m) w) as [Hl _].
  destruct (load_calibrated_parameters safe_load (parameter_name m) (defaults m) w) as [cp w2] eqn:El. cbn [fst snd] in *.
  destruct (next_version_fresh (parameter_name m) (map fst (files w))) as [_ Hfresh].
  eexists _, _. split; [by eapply promote_run|]. split; [done|]. cbn [new_version].
  destruct (fleb ns cur); [split; [|done]|by split]. intros _. split; [|split].
  - destruct (assoc _ (files w)) eqn:E; [|done]. exfalso. apply Hfresh, assoc_elem. eauto.
  - cbn [files after_promotion]. set (vf := version_file _ _).
    destruct (decide (latest_file (parameter_name m) = vf)) as [->|Hne];
      [rewrite assoc_set_eq | rewrite assoc_set_ne, assoc_set_eq by done]; eauto.
  - intros t. unfold saved. match goal with |- context [safe_dump ?p] => destruct (Hyaml p) as (ps & Hload & Hps) end.
    by eapply promoted_loads.
Qed.

(** Fitted coefficients stay inside their sanity limits: for any samples,
    including infinite ones and sums that overflow to NaN, every coefficient a
    fit returns is a clamped value rounded to four decimals. *)
Theorem fitted_coefficients_limited m train val ps score :
  fit pow m train val = Ok (ps, score) -> Forall (limited ps) (limits m).
Proof.
  intros H. destruct m; simpl in H; cbn [limits].
  - apply Forall_singleton. eapply fit_single_limited; [exact H | by vm_compute..].
  - apply Forall_singleton. eapply fit_single_limited; [exact H | by vm_compute..].
  - destruct (fit_wildfire_limited _ _ _ _ _ H). by repeat constructor.
  - destruct (fit_enso_limited _ _ _ _ _ H). by repeat constructor.
Qed.

(** Small ENSO samples reset the model: the score of any thresholds is their
    disagreement with the defaults, which therefore always win, and with five or
    six samples the fit returns the defaults; so such a run always promotes them,
    whatever was calibrated before. *)
Theorem enso_small_sample_resets events w :
  (forall p, exists ps, safe_load (safe_dump p) = Ok (DictDoc (Some ps)) /\
     forall k, assoc k ps = SFloat <$> assoc k (pl_parameters p)) ->
  (forall l, Permutation (shuffle l) l) -> io w = [] ->
  length (samples_of ENSOForecastModel events) = 5%nat \/ length (samples_of ENSOForecastModel events) = 6%nat ->
  exists p w', calibrate_events ENSOForecastModel events w = (Ok (Calibrated p), w') /\
  promoted p = true /\ new_score p = f0 /\
  forall t, (load_calibrated_parameters safe_load "enso_forecast" (defaults ENSOForecastModel) (World (files w') (cache w') t [])).1 =
    defaults ENSOForecastModel.
Proof.
  intros Hyaml Hsh Hio Hlen. pose proof (enso_samples_anomaly events) as Ha. rewrite calibrate_step_samples. set (samples := samples_of _ events) in *.
  assert (split_at (length samples) = 4%nat) as Hsp by (destruct Hlen as [-> | ->]; by vm_compute).
  assert ((MIN_CALIBRATION_SAMPLES <=? length samples)%nat = true) as Hmin by (apply Nat.leb_le; unfold MIN_CALIBRATION_SAMPLES; lia).
  unfold calibrate. rewrite Hmin, Hsp. set (val := skipn 4 (shuffle samples)).
  assert (Forall has_anomaly val) as Hv.
  { apply Forall_drop. by rewrite (Hsh samples). }
  assert (fit pow ENSOForecastModel (firstn 4 (shuffle samples)) val = Ok (defaults ENSOForecastModel, f1)) as Hfit.
  { simpl. unfold fit_enso_forecast. rewrite length_firstn, (Permutation_length (Hsh samples)).
    destruct Hlen as [-> | ->]; reflexivity. }
  rewrite M_bind_run. unfold lift. rewrite Hfit, M_bind_run. cbn [fst].
  destruct (load_calibrated_parameters safe_load (parameter_name ENSOForecastModel) (defaults ENSOForecastModel) w) as [cp w2] eqn:El.
  destruct (enso_score pow cp val Hv) as (cur & Hcur & Hnn).
  rewrite (promote_run pow safe_load safe_dump truncated ENSOForecastModel (defaults ENSOForecastModel) val w cp w2 cur f0 Hio El Hcur
    (enso_default_score pow val Hv)). unfold fle in Hnn. rewrite Hnn.
  eexists _, _. split; [reflexivity|]. split; [done|]. split; [done|]. intros t.
  unfold saved. match goal with |- context [safe_dump ?p] => destruct (Hyaml p) as (ps & Hload & Hps) end.
  eapply (promoted_loads safe_load ENSOForecastModel); [done | apply defaults_complete | exact Hload | exact Hps].
Qed.
End properties.

Module CalibrationWitness.
Definition pow (x y : float) : float := if feqb y (float_of_Z 2) then fmul x x else fsqrt x.
Definition load (d : document) : result pyexn document := Ok d.
Definition dump (p : payload) : document := DictDoc (Some (map (fun e => (e.1, SFloat e.2)) (pl_parameters p))).
Definition w0 : world document := World [] [] 0 [].
Definition reading (id details : string) : HazardEvent :=
  {| h_id := id; h_event_type := "ocean"; h_region_label := None; h_event_date := 0; h_details := Some details;
     h_source := Some "noaa"; h_external_id := None; h_created_at := 0 |}.
Definition readings : list HazardEvent :=
  [reading "a" "water temperature: 21.5"; reading "b" "water temperature: 18.0 C"; reading "c" "water temperature: 20";
   reading "d" "water temperature: 19.75"; reading "e" "no reading"; reading "f" "water temperature: 25.0"].
Definition tuned : params := [("rainfall_coefficient", float_of_Z 3); ("low_bound_factor", float_of_Z 2); ("high_bound_factor", float_of_Z 4)].
Definition observed : list params := [[("rainfall", float_of_Z 10); ("observed", float_of_Z 30)]].

Lemma yaml_law p : exists ps, load (dump p) = Ok (DictDoc (Some ps)) /\ forall k, assoc k ps = SFloat <$> assoc k (pl_parameters p).
Proof.
  eexists. split; [reflexivity|]. intros k. induction (pl_parameters p) as [|[k' x] l IH]; [done|]. simpl. by destruct (String.eqb k k').
Qed.

Lemma tuned_complete : complete (map fst tuned) tuned.
Proof.
  intros k Hk. repeat (apply elem_of_cons in Hk as [->|Hk]; [eexists; split; [reflexivity | by vm_compute]|]).
  by apply elem_of_nil in Hk.
Qed.

Lemma promotion_takes_effect_witness : exists p w',
  check_and_promote_parameters pow load dump NotADict FloodExtentModel tuned observed w0 = (Ok p, w') /\
  (load_calibrated_parameters load "flood_extent" (defaults FloodExtentModel) (World (files w') (cache w') 5 [])).1 = tuned.
Proof.
  destruct (promotion_takes_effect pow load dump NotADict FloodExtentModel tuned observed w0 (float_of_Z 2) f0
    yaml_law eq_refl eq_refl tuned_complete) as (p & w' & E & _ & Hp & _); [by vm_compute..|].
  exists p, w'. split; [exact E|]. apply Hp. by vm_compute.
Defined.

Lemma fitted_coefficients_limited_witness : exists ps score,
  fit pow FloodExtentModel observed [] = Ok (ps, score) /\ Forall (limited ps) (limits FloodExtentModel).
Proof.
  eexists _, _. split; [by vm_compute|]. eapply (fitted_coefficients_limited pow FloodExtentModel observed []). by vm_compute.
Defined.

Lemma enso_small_sample_resets_witness : exists p w',
  calibrate_step pow load dump NotADict id ENSOForecastModel readings w0 = (Ok (Calibrated p), w') /\
  promoted p = true.
Proof.
  destruct (enso_small_sample_resets pow load dump NotADict id readings w0 yaml_law (fun l => Permutation_refl l) eq_refl)
    as (p & w' & E & Hp & _); [left; by vm_compute|]. exists p, w'. split; [exact E | exact Hp].
Defined.

Lemma versions_immutable_witness :
  assoc "enso_forecast_v1.yaml"
    (files (sim (_async_run_calibration_job pow load dump NotADict id
       (JobWorld (World [("enso_forecast_v1.yaml", File 3 NotADict)] [] 9 []) readings [] [])).2)) = Some (File 3 NotADict).
Proof.
  apply (versions_immutable pow load dump NotADict id); [|reflexivity]. intros []; by vm_compute.
Defined.
End CalibrationWitness.
