(* ===== verification/DataSources.v ===== *)
(** * Data-source clients and geocoding
    ([src/tools/http_client.py], [src/tools/*/client.py], [src/tools/geocoding.py])

    The clients of the public services (USGS, NOAA, OpenAQ, FIRMS, Open-Meteo,
    GDELT, ERA5, Copernicus) and the geocoder.  Every request goes through
    [resilient_call] under a cache key built from the query.  The network is the
    argument [http_get]; coordinates are the JSON numbers the geocoder returns.
    Arguments too: Python's [str] on a value, the C library's trigonometry and
    [float] on text. *)

From S2P Require Import Prelude PyFloat PyStr Effects Settings RedisKeys CircuitBreaker Resilience.
From Stdlib Require Import Ascii.

(** ** Python values *)

(** Truth of a value. *)
Definition jtruthy (j : json) : bool :=
  match j with
  | JNull => false
  | JBool b => b
  | JInt n => negb (n =? 0)
  | JFloat x => negb (feqb x f0)
  | JStr s => str_truthy s
  | JList l => match l with [] => false | _ => true end
  | JObj fs => match fs with [] => false | _ => true end
  end.

(** [j or d] *)
Definition jor (j d : json) : json := if jtruthy j then j else d.

(** [for x in j] *)
Fixpoint chars (s : string) : list json :=
  match s with EmptyString => [] | String c s => JStr (String c "") :: chars s end.

Definition jiter (j : json) : result pyexn (list json) :=
  match j with
  | JList l => Ok l
  | JObj fs => Ok (map (fun f => JStr f.1) fs)
  | JStr s => Ok (chars s)
  | _ => Raise TypeError
  end.

(** [j[n]] with an integer index. *)
Definition jnth (j : json) (n : nat) : result pyexn json :=
  match j with
  | JList l => match l !! n with Some x => Ok x | None => Raise (OtherError "IndexError") end
  | JStr s => match chars s !! n with Some x => Ok x | None => Raise (OtherError "IndexError") end
  | JObj _ => Raise KeyError
  | _ => Raise TypeError
  end.

(** [for x in j[:n]]; a slice is a key that no dict has. *)
Definition jslice (n : nat) (j : json) : result pyexn (list json) :=
  match j with
  | JList l => Ok (take n l)
  | JStr s => Ok (take n (chars s))
  | JObj _ => Raise KeyError
  | _ => Raise TypeError
  end.

Definition overflow_error : pyexn := OtherError "OverflowError".

(** A number as a float operand: an [int] that does not fit raises. *)
Definition float_operand (j : json) : result pyexn float :=
  match j with
  | JFloat x => Ok x
  | JInt n => if is_finite (float_of_Z n) then Ok (float_of_Z n) else Raise overflow_error
  | JBool b => Ok (float_of_Z (Z.b2z b))
  | _ => Raise TypeError
  end.

(** [round(j, digits)] *)
Definition jround (digits : nat) (j : json) : result pyexn json :=
  match j with
  | JFloat x => Ok (JFloat (fround digits x))
  | JInt n => Ok (JInt n)
  | JBool b => Ok (JInt (Z.b2z b))
  | _ => Raise TypeError
  end.

(** ** CSV text *)

(** [csv.reader] with the default dialect over the lines of a [StringIO]: comma,
    double quote (doubled inside a quoted field). *)
Module Csv.
Inductive state := StartRecord | StartField | InField | InQuoted | QuoteInQuoted | EatNewline.

Definition quote : ascii := ascii_of_N 34.
Definition lf : ascii := ascii_of_N 10.
Definition cr : ascii := ascii_of_N 13.

Record reader := Reader {
  st : state;
  field : string;            (* characters of the current field *)
  fields : list string;      (* finished fields of the current record *)
  records : list (list string);
}.

Definition snoc (s : string) (c : ascii) : string := s +:+ String c "".
Definition add (q : state) (c : ascii) (r : reader) : reader := Reader q (snoc (field r) c) (fields r) (records r).
Definition go (q : state) (r : reader) : reader := Reader q (field r) (fields r) (records r).
Definition end_field (q : state) (r : reader) : reader := Reader q "" (fields r ++ [field r]) (records r).
Definition end_record (r : reader) : reader := Reader StartRecord "" [] (records r ++ [fields r]).

(** The start of a field, the first of a record included. *)
Definition start_field (c : ascii) (r : reader) : reader :=
  if Ascii.eqb c lf then end_record (end_field EatNewline r)
  else if Ascii.eqb c cr then end_field EatNewline r
  else if Ascii.eqb c quote then go InQuoted r
  else if Ascii.eqb c ","%char then end_field StartField r
  else add InField c r.

Definition csv_error : pyexn := OtherError "new-line character seen in unquoted field".

Definition feed (r : reader) (c : ascii) : result pyexn reader :=
  match st r with
  | StartRecord =>
      Ok (if Ascii.eqb c lf then end_record r
          else if Ascii.eqb c cr then go EatNewline r
          else start_field c r)
  | StartField => Ok (start_field c r)
  | InField =>
      Ok (if Ascii.eqb c lf then end_record (end_field EatNewline r)
          else if Ascii.eqb c cr then end_field EatNewline r
          else if Ascii.eqb c ","%char then end_field StartField r
          else add InField c r)
  | InQuoted => Ok (if Ascii.eqb c quote then go QuoteInQuoted r else add InQuoted c r)
  | QuoteInQuoted =>
      Ok (if Ascii.eqb c quote then add InQuoted c r
          else if Ascii.eqb c ","%char then end_field StartField r
          else if Ascii.eqb c lf then end_record (end_field EatNewline r)
          else if Ascii.eqb c cr then end_field EatNewline r
          else add InField c r)
  | EatNewline =>
      if Ascii.eqb c lf then Ok (end_record r)
      else if Ascii.eqb c cr then Ok r else Raise csv_error
  end.

Fixpoint feed_all (r : reader) (s : string) : result pyexn reader :=
  match s with
  | EmptyString => Ok r
  | String c s => r' ← feed r c; feed_all r' s
  end.

(** At the end of the text an unfinished record is kept. *)
Definition finish (r : reader) : list (list string) :=
  match st r with
  | StartRecord => records r
  | EatNewline => records r ++ [fields r]
  | _ => records r ++ [fields r ++ [field r]]
  end.

Definition rows (s : string) : result pyexn (list (list string)) :=
  r ← feed_all (Reader StartRecord "" [] []) s; Ok (finish r).

(** One row of [csv.DictReader] as JSON: missing values are [None], a surplus is
    a list under the key [None] (["null"] in JSON). *)
Fixpoint zip_row (names values : list string) : list (string * json) :=
  match names, values with
  | [], [] => []
  | [], rest => [("null", JList (map JStr rest))]
  | n :: names, [] => (n, JNull) :: zip_row names []
  | n :: names, v :: values => (n, JStr v) :: zip_row names values
  end.

(** Later columns of the same name overwrite. *)
Definition dict_row (names values : list string) : json :=
  JObj (fold_left (fun d e => assoc_set e.1 e.2 d) (zip_row names values) []).

Definition is_empty {A} (l : list A) : bool := match l with [] => true | _ => false end.

(** [list(csv.DictReader(f))]: the first row names the columns, empty rows are
    skipped. *)
Definition DictReader (s : string) : result pyexn (list json) :=
  rs ← rows s;
  Ok match rs with
     | [] => []
     | names :: rs => map (dict_row names) (List.filter (fun r => negb (is_empty r)) rs)
     end.
End Csv.

(** ** The shared HTTP client *)

(** The module globals [_shared_client] and [_client_loop]. *)
Module HttpClient.
Record client := Client { client_id : nat; is_closed : bool }.

Record http_state := State {
  _shared_client : option client;
  _client_loop : option nat;
  created : nat;                 (* clients made so far *)
  closed_ids : list nat;         (* clients whose [aclose] ran *)
}.

(** A failing [aclose] is only logged. *)
Definition close_shared_client (s : http_state) : http_state :=
  match _shared_client s with
  | Some c => State None None (created s) (if is_closed c then closed_ids s else closed_ids s ++ [client_id c])
  | None => s
  end.

Definition init_shared (loop : nat) (s : http_state) : http_state :=
  match _shared_client s with
  | Some _ => s
  | None => State (Some (Client (created s) false)) (Some loop) (S (created s)) (closed_ids s)
  end.

Definition stale (loop : nat) (s : http_state) : bool :=
  match _shared_client s with
  | Some c => is_closed c || negb (bool_decide (_client_loop s = Some loop))
  | None => false
  end.

Definition get_shared_client (loop : nat) (s : http_state) : option client * http_state :=
  let s := if stale loop s then close_shared_client s else s in
  let s := init_shared loop s in
  (_shared_client s, s).
End HttpClient.

(** ** Requests *)

Record HttpResponse := {
  status_code : Z;
  body : result pyexn json;      (* [resp.json()] *)
  resp_text : string;
}.

(** httpx raises for every status outside 200..299. *)
Definition raise_for_status (resp : HttpResponse) : result pyexn unit :=
  if (200 <=? status_code resp) && (status_code resp <=? 299) then Ok tt
  else Raise (HTTPError "status").

(** [if resp.status_code != 200: resp.raise_for_status()] *)
Definition expect_200 (resp : HttpResponse) : result pyexn unit :=
  if status_code resp =? 200 then Ok tt else raise_for_status resp.

Definition dict := list (string * json).

(** A Redis value read as plain text. *)
Class RawText := {
  raw_text : string -> text;
  text_raw : text -> string;
  text_raw_text s : text_raw (raw_text s) = s;
}.

Section sources.
Context {S : Type} `{!Redis S text} `{!IsoTime} `{!Tenacity}.
Variable settings : Settings.
Variable http_get : string -> dict -> dict -> M S HttpResponse.   (* URL, query, headers *)
Variables now later : string -> string -> Z.                      (* instants of the breaker's checks, by source and key *)
Variable str : json -> string.

(** [resilient_call(source=..., fn=..., cache_key=..., ttl=TTL_BY_SOURCE[source])] *)
Definition source_call (source : string) (fn : M S json) (cache_key : string) : M S ResilientResult :=
  resilient_call settings (now source cache_key) (later source cache_key) source fn cache_key
    (assoc source TTL_BY_SOURCE).

Definition fetch (url : string) (params headers : dict) (read : HttpResponse -> result pyexn json) : M S json :=
  resp ← http_get url params headers;
  lift (expect_200 resp) ;;
  lift (read resp).

(** [resp.json()] and [resp.json().get(key, [])] *)
Definition whole_body (resp : HttpResponse) : result pyexn json := body resp.
Definition listing (key : string) (resp : HttpResponse) : result pyexn json :=
  data ← body resp; jget data key (JList []).

(** [round(j, 2)] inside an f-string. *)
Definition rounded (j : json) : result pyexn string := r ← jround 2 j; Ok (str r).

(** *** USGS *)

Definition MICROS_PER_DAY : Z := 86400000000.

Record quake_query := {
  q_lat : option json;
  q_lon : option json;
  q_radius_km : option json;
  q_min_magnitude : json;
  q_days : Z;
  q_starttime : option Z;
  q_endtime : option Z;
}.

Definition or_zero (x : option json) : json := jor (default JNull x) (JInt 0).

Definition earthquakes_key (q : quake_query) : result pyexn string :=
  lat ← rounded (or_zero (q_lat q));
  lon ← rounded (or_zero (q_lon q));
  Ok ("earthquakes:" +:+ lat +:+ ":" +:+ lon +:+ ":" +:+ str (default JNull (q_radius_km q)) +:+ ":" +:+
      str (q_min_magnitude q) +:+ ":" +:+ str (JInt (q_days q))).

Definition earthquakes_params (t : Z) (q : quake_query) : dict :=
  let end_dt := default t (q_endtime q) in
  let start_dt := default (end_dt - q_days q * MICROS_PER_DAY) (q_starttime q) in
  [("format", JStr "geojson"); ("starttime", JStr (isoformat start_dt)); ("endtime", JStr (isoformat end_dt));
   ("minmagnitude", q_min_magnitude q)] ++
  match q_lat q, q_lon q, q_radius_km q with
  | Some lat, Some lon, Some r => [("latitude", lat); ("longitude", lon); ("maxradiuskm", r)]
  | _, _, _ => []
  end.

(** [t] is the current instant. *)
Definition get_recent_earthquakes (t : Z) (q : quake_query) : M S ResilientResult :=
  cache_key ← lift (earthquakes_key q);
  source_call "usgs" (fetch (usgs_api_url settings) (earthquakes_params t q) [] (listing "features")) cache_key.

(** *** NOAA *)

Definition water_params (station_id date : string) (range_hours : option Z) : dict :=
  [("station", JStr station_id); ("product", JStr "water_temperature"); ("date", JStr date);
   ("units", JStr "metric"); ("time_zone", JStr "gmt"); ("application", JStr "gaiaos"); ("format", JStr "json")] ++
  match range_hours with Some h => [("range", JInt h)] | None => [] end.

(** ["error" in data]: a key of a dict, an item of a list, a part of a string. *)
Definition jin (key : string) (j : json) : result pyexn bool :=
  match j with
  | JObj fs => Ok (in_dict key fs)
  | JList l => Ok (existsb (fun x => jeq_str x key) l)
  | JStr s => Ok (contains key s)
  | _ => Raise TypeError
  end.

(** An API error becomes an empty document (reading its text for the log can
    fail on a body that is not an object). *)
Definition water_body (resp : HttpResponse) : result pyexn json :=
  data ← body resp;
  err ← jin "error" data;
  if (err : bool) then jindex data "error" ≫= fun _ => Ok (JObj []) else Ok data.

Definition water_key (station_id date : string) : string := "water_temperature:" +:+ station_id +:+ ":" +:+ date.

Definition get_water_temperature (station_id date : string) (range_hours : option Z) : M S ResilientResult :=
  source_call "noaa" (fetch (noaa_api_url settings) (water_params station_id date range_hours) [] water_body)
    (water_key station_id date).

(** *** OpenAQ *)

Definition get_latest_measurements (api_key : option string) (city : string) : M S ResilientResult :=
  let headers := if ostr_truthy api_key then [("X-API-Key", JStr (default "" api_key))] else [] in
  source_call "openaq"
    (fetch "https://api.openaq.org/v2/latest" [("city", JStr city); ("limit", JInt 10)] headers (listing "results"))
    ("latest_measurements:" +:+ lower city).

(** *** FIRMS *)

Definition firms_key (bbox : json * json * json * json) (days : Z) : result pyexn string :=
  let '(min_x, min_y, max_x, max_y) := bbox in
  a ← rounded min_x; b ← rounded min_y; c ← rounded max_x; d ← rounded max_y;
  Ok ("active_fires:" +:+ (a +:+ ":" +:+ b) +:+ ":" +:+ (c +:+ ":" +:+ d) +:+ ":" +:+ str (JInt days)).

(** [api_key or settings.firms_api_key] *)
Definition firms_client_key (api_key : option string) : option string :=
  if ostr_truthy api_key then api_key else firms_api_key settings.

Definition fires (resp : HttpResponse) : result pyexn json := JList <$> Csv.DictReader (resp_text resp).

Definition get_active_fires (api_key : option string) (bbox : json * json * json * json) (days : Z)
    : M S ResilientResult :=
  let key := firms_client_key api_key in
  if negb (ostr_truthy key) then mret {| value := JList []; degraded := false; status := Live |}
  else
    cache_key ← lift (firms_key bbox days);
    let '(min_x, min_y, max_x, max_y) := bbox in
    let url := firms_api_url settings +:+ "/" +:+ default "" key +:+ "/MODIS_NRT/" +:+ str min_x +:+ "," +:+
               str min_y +:+ "," +:+ str max_x +:+ "," +:+ str max_y +:+ "/" +:+ str (JInt days) in
    source_call "firms" (fetch url [] [] fires) cache_key.

(** *** Open-Meteo weather *)

Definition get_current_weather (lat lon : json) : M S ResilientResult :=
  a ← lift (rounded lat); b ← lift (rounded lon);
  source_call "open_meteo"
    (fetch (open_meteo_weather_url settings)
       [("latitude", lat); ("longitude", lon);
        ("current", JStr "temperature_2m,wind_speed_10m,relative_humidity_2m")] [] whole_body)
    ("current_weather:" +:+ a +:+ ":" +:+ b).

(** *** GDELT *)

Definition or_limit (max_records : option Z) : Z :=
  match max_records with Some n => if n =? 0 then gdelt_max_records_per_run settings else n
                       | None => gdelt_max_records_per_run settings end.

(** A body that cannot be read is an empty listing. *)
Definition articles (resp : HttpResponse) : result pyexn json :=
  Ok (catch (listing "articles" resp) (fun _ => JList [])).

Definition get_hazard_articles (query : string) (max_records : option Z) (start_datetime : option string)
    : M S ResilientResult :=
  let limit := or_limit max_records in
  let start := if ostr_truthy start_datetime then start_datetime else None in
  source_call "gdelt"
    (fetch (gdelt_api_url settings)
       ([("query", JStr query); ("mode", JStr "artlist"); ("maxrecords", JInt limit); ("format", JStr "json")] ++
        match start with Some d => [("startdatetime", JStr d)] | None => [] end) [] articles)
    ("articles:" +:+ query +:+ ":" +:+ str (JInt limit) +:+ ":" +:+ default "latest" start).

(** *** ERA5; dates are their ISO text. *)

Definition get_atmospheric_baseline (lat lon : json) (start_date end_date : string) : M S ResilientResult :=
  a ← lift (rounded lat); b ← lift (rounded lon);
  source_call "era5"
    (fetch (era5_api_url settings)
       [("latitude", lat); ("longitude", lon); ("start_date", JStr start_date); ("end_date", JStr end_date);
        ("daily", JStr "temperature_2m_mean,wind_speed_10m_max,precipitation_sum")] [] whole_body)
    ("baseline:" +:+ a +:+ ":" +:+ b +:+ ":" +:+ start_date +:+ ":" +:+ end_date).

(** *** Copernicus *)

Definition polygon (min_x min_y max_x max_y : string) : string :=
  min_x +:+ " " +:+ min_y +:+ ", " +:+ max_x +:+ " " +:+ min_y +:+ ", " +:+ max_x +:+ " " +:+ max_y +:+ ", " +:+
  min_x +:+ " " +:+ max_y +:+ ", " +:+ min_x +:+ " " +:+ min_y.

Definition get_wildfire_products (bbox : json * json * json * json) (limit : Z) : M S ResilientResult :=
  let '(min_x, min_y, max_x, max_y) := bbox in
  let filter_str := "Collection/Name eq 'SENTINEL-2' and OData.CSC.Intersects(area=geography'SRID=4326;POLYGON((" +:+
                    polygon (str min_x) (str min_y) (str max_x) (str max_y) +:+ "))')" in
  a ← lift (rounded min_x); b ← lift (rounded min_y); c ← lift (rounded max_x); d ← lift (rounded max_y);
  source_call "copernicus"
    (fetch (copernicus_api_url settings +:+ "/Products")
       [("$filter", JStr filter_str); ("$top", JInt limit); ("$orderby", JStr "ContentDate/Start desc")] []
       (listing "value"))
    ("products:" +:+ a +:+ ":" +:+ b +:+ ":" +:+ c +:+ ":" +:+ d +:+ ":" +:+ str (JInt limit)).

(** ** Geocoding *)

Definition MAX_STATION_DISTANCE_KM : float := float_of_Z 500.
Definition NOAA_STATIONS_API_URL : string := "https://api.tidesandcurrents.noaa.gov/mdapi/v1.0/webapi/stations.json".
Definition STATION_TTL : Z := 2592000.

Definition num (n d : Z) : json := JFloat (flit n d).
Definition place (lat lon : json) (bbox : list json) : dict := [("lat", lat); ("lon", lon); ("bbox", JList bbox)].

Definition LOCAL_GEOCODE_DB : list (string * dict) :=
  [("paris", place (num 488566 10000) (num 23522 10000)
      [num 2224 1000; num 48815 1000; num 247 100; num 48902 1000]);
   ("beijing", place (num 399042 10000) (num 1164074 10000)
      [num 1161 10; num 397 10; num 1167 10; num 401 10]);
   ("london", place (num 515074 10000) (num (-1278) 10000)
      [num (-351) 1000; num 51384 1000; num 148 1000; num 51672 1000]);
   ("delhi", place (num 286139 10000) (num 77209 1000)
      [num 77019 1000; num 28413 1000; num 77348 1000; num 28883 1000]);
   ("madrid", place (num 404168 10000) (num (-37038) 10000)
      [num (-3834) 1000; num 40312 1000; num (-3525) 1000; num 40563 1000]);
   ("tokyo", place (num 356762 10000) (num 1396503 10000)
      [num 13956 100; num 3552 100; num 13991 100; num 3582 100]);
   ("california", place (num 367783 10000) (num (-1194179) 10000)
      [num (-124409) 1000; num 32534 1000; num (-114131) 1000; num 42009 1000]);
   ("new york", place (num 407128 10000) (num (-74006) 1000)
      [num (-74259) 1000; num 40477 1000; num (-737) 10; num 40917 1000]);
   ("miami", place (num 257617 10000) (num (-801918) 10000)
      [num (-8032) 100; num 2570 100; num (-8013) 100; num 2585 100]);
   ("san francisco", place (num 377749 10000) (num (-1224194) 10000)
      [num (-12252) 100; num 3770 100; num (-12235) 100; num 3783 100])].

(** The C library ([math.sin] and [math.cos] refuse infinities, [math.sqrt]
    negative numbers) and [float(s)]. *)
Variables sin cos : float -> float.
Variable atan2 : float -> float -> float.
Variable pow : float -> float -> float.
Variable parse_float : string -> option float.

Definition is_infinite (x : float) : bool := negb (is_nan x) && negb (is_finite x).

Definition math (f : float -> float) (x : float) : result pyexn float :=
  if is_infinite x then Raise ValueError else Ok (f x).
Definition math_sqrt (x : float) : result pyexn float := if fltb x f0 then Raise ValueError else Ok (fsqrt x).

Definition PI : float := flit 3141592653589793 1000000000000000.
Definition radians (x : float) : float := fmul x (fdiv PI (float_of_Z 180)).
Definition two : float := float_of_Z 2.

Definition _haversine_distance_km (lat1 lon1 lat2 lon2 : float) : result pyexn float :=
  let r := float_of_Z 6371 in
  let dlat := radians (fsub lat2 lat1) in
  let dlon := radians (fsub lon2 lon1) in
  s1 ← math sin (fdiv dlat two);
  c1 ← math cos (radians lat1);
  c2 ← math cos (radians lat2);
  s2 ← math sin (fdiv dlon two);
  let a := fadd (pow s1 two) (fmul (fmul c1 c2) (pow s2 two)) in
  sa ← math_sqrt a;
  sb ← math_sqrt (fsub f1 a);
  Ok (fmul r (fmul two (atan2 sa sb))).

(** [float(j)] *)
Definition py_float (j : json) : result pyexn float :=
  match j with
  | JStr s => match parse_float s with Some x => Ok x | None => Raise ValueError end
  | j => float_operand j
  end.

(** The coordinates of a station and its distance; an operand that is an [int]
    too large for a float raises [OverflowError]. *)
Definition station_distance (lat lon : json) (st : json) : result pyexn float :=
  v ← jindex st "lat"; st_lat ← py_float v;
  d ← jget st "lon" (JFloat f0); v ← jget st "lng" d; st_lon ← py_float v;
  la ← float_operand lat; lo ← float_operand lon;
  _haversine_distance_km la lo st_lat st_lon.

(** [except (KeyError, ValueError, TypeError)] *)
Definition skipped (e : pyexn) : bool :=
  match e with KeyError | ValueError | TypeError => true | _ => false end.

(** One turn of the loop on ([nearest_id], [min_dist]): the distance is recorded
    before the identifier is read. *)
Definition station_step (lat lon : json) (acc : option string * float) (st : json)
    : result pyexn (option string * float) :=
  match station_distance lat lon st with
  | Raise e => if skipped e then Ok acc else Raise e
  | Ok dist =>
      if fltb dist acc.2 && fleb dist MAX_STATION_DISTANCE_KM then
        match jindex st "id" with
        | Ok id => Ok (Some (str id), dist)
        | Raise e => if skipped e then Ok (acc.1, dist) else Raise e
        end
      else Ok acc
  end.

Fixpoint station_loop (lat lon : json) (acc : option string * float) (sts : list json)
    : result pyexn (option string * float) :=
  match sts with
  | [] => Ok acc
  | st :: sts => acc' ← station_step lat lon acc st; station_loop lat lon acc' sts
  end.

Definition nearest_station (lat lon : json) (sts : list json) : result pyexn (option string) :=
  fst <$> station_loop lat lon (None, S754_infinity false) sts.

Context `{!RawText}.

(** [RedisKeyBuilder.station_key] *)
Definition station_key (lat lon : json) (network : string) : result pyexn string :=
  a ← rounded lat; b ← rounded lon;
  Ok ("gaiaos:cache:station:" +:+ network +:+ ":" +:+ a +:+ ":" +:+ b).

(** A cached, non-empty text, if Redis answers. *)
Definition cached_text (key : string) : M S (option string) :=
  try_except (raw ← redis_get key;
              mret match raw with
                   | Some t => if str_truthy (text_raw t) then Some (text_raw t) else None
                   | None => None
                   end)
    (fun _ => mret None).

Definition resolve_nearest_station (lat lon : json) (network : string) : M S (option string) :=
  key ← lift (station_key lat lon network);
  cached ← cached_text key;
  match cached with
  | Some id => mret (Some id)
  | None =>
      result ← source_call "noaa" (fetch NOAA_STATIONS_API_URL [] [] (listing "stations"))
                 ("stations_metadata:" +:+ network);
      match value result with
      | JNull => mret None
      | stations =>
          sts ← lift (jiter stations);
          nearest ← lift (nearest_station lat lon sts);
          if ostr_truthy nearest then
            try_except (redis_set key (raw_text (default "" nearest)) (Some STATION_TTL)) (fun _ => mret tt) ;;
            mret nearest
          else mret None
      end
  end.

Definition half : float := flit 5 10.

(** [_fetch_geocode]: a successful answer without results is [None]. *)
Definition _fetch_geocode (location : string) : M S json :=
  resp ← http_get (open_meteo_geocoding_url settings) [("name", JStr location); ("count", JInt 1)] [];
  found ← lift (if status_code resp =? 200 then
                  data ← body resp;
                  results ← jget data "results" (JList []);
                  if jtruthy results then
                    res ← jnth results 0;
                    lat ← jget res "latitude" JNull; lon ← jget res "longitude" JNull;
                    la ← float_operand lat; lo ← float_operand lon;
                    Ok (JObj (place lat lon [JFloat (fsub lo half); JFloat (fsub la half);
                                             JFloat (fadd lo half); JFloat (fadd la half)]))
                  else Ok JNull
                else Ok JNull);
  match found with
  | JNull => lift (raise_for_status resp) ;; mret JNull
  | geo => mret geo
  end.

Definition clean (location : string) : string := lower (strip location).

Definition local_place (location : string) : option json := JObj <$> assoc (clean location) LOCAL_GEOCODE_DB.

Definition geocode_location (location : string) : M S json :=
  result ← source_call "geocoding" (_fetch_geocode location) ("geocode:" +:+ clean location);
  let geo_data := match value result with JNull => local_place location | v => Some v end in
  match geo_data with
  | None => raise ValueError
  | Some geo =>
      lat ← lift (jindex geo "lat"); lon ← lift (jindex geo "lon");
      station_id ← resolve_nearest_station lat lon "noaa";
      lift (jset geo "station_id" (match station_id with Some i => JStr i | None => JNull end))
  end.
End sources.

(** ** The nearest station *)

Section nearest.
Variables sin cos : float -> float.
Variable atan2 : float -> float -> float.
Variable pow : float -> float -> float.
Variable parse_float : string -> option float.
Variable str : json -> string.
Variables lat lon : json.

Notation distance := (station_distance sin cos atan2 pow parse_float lat lon).
Notation loop := (station_loop str sin cos atan2 pow parse_float lat lon).

(** A station with a distance of at most 500 km. *)
Definition candidate (st : json) (d : float) : Prop := distance st = Ok d /\ fle d MAX_STATION_DISTANCE_KM.

(** Every failure to read a station is one of those the loop skips, and a
    station whose distance can be computed has an identifier. *)
Definition readable (st : json) : Prop :=
  match distance st with Ok _ => exists id, jindex st "id" = Ok id | Raise e => skipped e = true end.

(** What the loop keeps after the stations [don]. *)
Definition best (don : list json) (acc : option string * float) : Prop :=
  (acc = (None, S754_infinity false) /\ forall st d, st ∈ don -> ~ candidate st d) \/
  (exists st id, st ∈ don /\ candidate st acc.2 /\ jindex st "id" = Ok id /\ acc.1 = Some (str id) /\
    forall st' d, st' ∈ don -> candidate st' d -> fle acc.2 d).

Lemma limit_below_infinity d : fle d MAX_STATION_DISTANCE_KM -> flt d (S754_infinity false).
Proof. intros H. eapply fle_flt_trans; [exact H|]. by vm_compute. Qed.

Lemma candidate_not_nan st d : candidate st d -> is_nan d = false.
Proof. intros [_ H]. by apply fle_nan in H as [? _]. Qed.

Lemma not_closer d m : fle m MAX_STATION_DISTANCE_KM -> fle d MAX_STATION_DISTANCE_KM -> fltb d m = false -> fle m d.
Proof. intros Hm Hd H. apply not_flt_le; [by apply fle_nan in Hd as [? _] | by apply fle_nan in Hm as [? _] | done]. Qed.

(** A station that changes nothing. *)
Lemma best_skip don st acc : best don acc ->
  (forall d, candidate st d -> fltb d acc.2 = false) -> best (don ++ [st]) acc.
Proof.
  intros [[-> Hn]|(s0 & id & Hs & Hc & Hid & Ha & Hm)] Hst.
  - left. split; [done|]. intros s d [Hs| ->%list_elem_of_singleton]%elem_of_app; [by apply Hn|]. intros Hc.
    pose proof (Hst d Hc) as E. destruct Hc as [_ Hd]. apply limit_below_infinity in Hd. unfold flt in Hd.
    cbn [snd] in E. congruence.
  - right. exists s0, id. split; [set_solver|]. do 3 (split; [done|]).
    intros s' d [Hs'| ->%list_elem_of_singleton]%elem_of_app Hc'; [by eapply Hm|].
    apply not_closer; [apply Hc | apply Hc' | by apply Hst].
Qed.

Lemma best_take don st acc d id : best don acc -> candidate st d -> flt d acc.2 -> jindex st "id" = Ok id ->
  best (don ++ [st]) (Some (str id), d).
Proof.
  intros Hb Hc Hlt Hid. right. exists st, id. split; [set_solver|]. do 3 (split; [done|]).
  intros s' d' [Hs'| ->%list_elem_of_singleton]%elem_of_app Hc'; cbn [snd].
  - destruct Hb as [[_ Hn]|(s & i & _ & _ & _ & _ & Hm)]; [by apply Hn in Hc'|].
    eapply fle_trans; [by apply flt_le|]. by eapply Hm.
  - destruct Hc as [E _], Hc' as [E' Hd']. rewrite E in E'. injection E' as <-. apply fle_refl. by apply fle_nan in Hd' as [? _].
Qed.

Lemma station_step_best don st acc : readable st -> best don acc ->
  exists acc', station_step str sin cos atan2 pow parse_float lat lon acc st = Ok acc' /\ best (don ++ [st]) acc'.
Proof.
  intros Hr Hb. unfold station_step, readable in *. destruct (distance st) as [d|e] eqn:E.
  - destruct Hr as [id Hid]. rewrite Hid. destruct (fltb d acc.2) eqn:El; [destruct (fleb d MAX_STATION_DISTANCE_KM) eqn:Em|]; cbn.
    + eexists. split; [done|]. by eapply best_take.
    + exists acc. split; [done|]. apply best_skip; [done|]. intros d' [E' H']. unfold fle in H'. congruence.
    + exists acc. split; [done|]. apply best_skip; [done|]. intros d' [E' _]. congruence.
  - rewrite Hr. exists acc. split; [done|]. apply best_skip; [done|]. intros d [E' _]. congruence.
Qed.

Lemma station_loop_best todo : forall don acc, Forall readable todo -> best don acc ->
  exists acc', loop acc todo = Ok acc' /\ best (don ++ todo) acc'.
Proof.
  induction todo as [|st todo IH]; intros don acc Hr Hb; cbn.
  - exists acc. by rewrite app_nil_r.
  - inversion Hr; subst. destruct (station_step_best don st acc) as (acc1 & -> & Hb1); [done..|]. cbn.
    destruct (IH (don ++ [st]) acc1) as (acc2 & E & Hb2); [done..|]. exists acc2. by rewrite <- app_assoc in Hb2.
Qed.
End nearest.

(** ** Without the network *)

Section down.
Context {S : Type} `{!Redis S text} `{!IsoTime} `{!Tenacity}.
Variable settings : ResilienceSettings.
Hypothesis no_bypass : resilience_bypass settings = false.

(** A call that fails and leaves Redis alone. *)
Definition fails {A} (fn : M S A) : Prop :=
  forall s, exists m s', fn s = (Raise (HTTPError m), s') /\ forall k, view s' k = view s k.

Lemma fails_frame {A} (fn : M S A) : fails fn -> forall s k, view (fn s).2 k = view s k.
Proof. intros Hf s k. by destruct (Hf s) as (m & s' & -> & Hv). Qed.

Lemma retry_fails {A} (fn : M S A) n p : fails fn -> fails (retry (Datatypes.S n) p fn).
Proof.
  intros Hf. induction n as [|n IH]; intros s; destruct (Hf s) as (m & s1 & E & Hv).
  - rewrite (retry_last _ _ _ _ _ E). eauto.
  - destruct (p (HTTPError m)) eqn:Hp; [|rewrite (retry_fatal _ _ _ _ _ _ E Hp); eauto].
    rewrite (retry_again _ _ _ _ _ _ E Hp). destruct (IH s1) as (m2 & s2 & -> & Hv2).
    exists m2, s2. split; [done|]. intros k. by rewrite Hv2.
Qed.

(** The result is what is cached or nothing, and only the breaker's document
    changes. *)
Lemma down_call now now' source fn ck ttl s b : fails fn -> represents s source b -> breaker_inv settings b ->
  exists r s' b', resilient_call settings now now' source fn ck ttl s = (Ok r, s') /\
    result_ok (view s (RedisKeyBuilder.source_cache_key source ck)) r /\ status r <> Live /\
    represents s' source b' /\ breaker_inv settings b' /\
    forall k, k <> RedisKeyBuilder.circuit_key source -> view s' k = view s k.
Proof.
  intros Hf Hr Hb. unfold resilient_call. rewrite no_bypass, M_bind_run.
  set (key := RedisKeyBuilder.source_cache_key source ck).
  assert (key <> RedisKeyBuilder.circuit_key source) as Hne
    by (intros E; symmetry in E; by apply circuit_key_not_cache in E).
  destruct (op_effect_inv settings _ _ _ _ _ _ (breaker_inv_query settings now) Hb
    (is_open_effect settings now source s b Hr)) as (skip & s1 & b1 & -> & Hr1 & Hb1 & Hf1).
  destruct skip.
  { destruct (serve_result_ok key s1 s (Hf1 key Hne)) as (r & s2 & -> & Hv2 & ? & ?). exists r, s2, b1.
    repeat split; auto; [by eapply represents_view|]. intros k Hk. by rewrite Hv2, Hf1. }
  rewrite M_bind_run. destruct (retry_fails fn 2 is_http_error Hf s1) as (m & s2 & E & Hv2).
  unfold with_retry, MAX_ATTEMPTS. rewrite E. cbn beta iota. rewrite M_bind_run.
  assert (represents s2 source b1) as Hr2 by by eapply represents_view.
  destruct (op_effect_inv settings _ _ _ _ _ _ (breaker_inv_failure settings now') Hb1
    (record_failure_effect settings now' source s2 b1 Hr2)) as ([] & s3 & b3 & -> & Hr3 & Hb3 & Hf3).
  destruct (serve_result_ok key s3 s) as (r & s4 & -> & Hv4 & ? & ?); [by rewrite Hf3, Hv2, Hf1|].
  exists r, s4, b3. repeat split; auto; [by eapply represents_view|]. intros k Hk. by rewrite Hv4, Hf3, Hv2, Hf1.
Qed.

(** Nothing cached: nothing to serve. *)
Lemma down_call_empty now now' source fn ck ttl s b : fails fn -> represents s source b -> breaker_inv settings b ->
  view s (RedisKeyBuilder.source_cache_key source ck) = None ->
  exists s', resilient_call settings now now' source fn ck ttl s = (Ok unavailable, s') /\
    forall k, k <> RedisKeyBuilder.circuit_key source -> view s' k = view s k.
Proof.
  intros Hf Hr Hb Hn. destruct (down_call now now' source fn ck ttl s b Hf Hr Hb) as (r & s' & b' & -> & Hok & Hl & _ & _ & Hv).
  exists s'. split; [|done]. unfold result_ok in Hok. rewrite Hn in Hok. destruct r as [v d []]; cbn in *; [done| |].
  - by destruct Hok.
  - by destruct Hok as [-> ->].
Qed.
End down.

(** ** Lemmas on geocoding *)

Section offline.
Context {S : Type} `{!Redis S text} `{!IsoTime} `{!Tenacity} `{!RawText}.
Variable settings : Settings.
Variable http_get : string -> dict -> dict -> M S HttpResponse.
Hypothesis network_down : forall url params headers, fails (http_get url params headers).

Lemma bind_fails {A B} (m : M S A) (k : A -> M S B) : fails m -> fails (m ≫= k).
Proof. intros Hm s. rewrite M_bind_run. destruct (Hm s) as (e & s' & -> & Hv). eauto. Qed.

Lemma fetch_fails url params headers read : fails (fetch http_get url params headers read).
Proof. by apply bind_fails. Qed.

Lemma fetch_geocode_fails location : fails (_fetch_geocode settings http_get location).
Proof. by apply bind_fails. Qed.

Lemma cached_text_absent key s : view s key = None ->
  exists s', cached_text key s = (Ok None, s') /\ forall k, view s' k = view s k.
Proof.
  intros Hn. unfold cached_text, try_except. rewrite M_bind_run.
  pose proof (redis_get_view key s) as Hv. pose proof (redis_get_ok key s) as Hok.
  destruct (redis_get key s) as [[v|e] s1]; cbn in *; [|eauto].
  rewrite (Hok v eq_refl), Hn. eauto.
Qed.
Variables now later : string -> string -> Z.
Variable str : json -> string.
Variables sin cos : float -> float.
Variables atan2 pow : float -> float -> float.
Variable parse_float : string -> option float.
Hypothesis no_bypass : resilience_bypass settings = false.

Lemma resolve_offline x y s b : represents s "noaa" b -> breaker_inv settings b ->
  view s (RedisKeyBuilder.source_cache_key "noaa" "stations_metadata:noaa") = None ->
  (forall k, startswith "gaiaos:cache:station:" k = true -> view s k = None) ->
  exists s', resolve_nearest_station settings http_get now later str sin cos atan2 pow parse_float
    (JFloat x) (JFloat y) "noaa" s = (Ok None, s').
Proof.
  intros Hr Hb Hn Hst. unfold resolve_nearest_station. destruct (station_key str (JFloat x) (JFloat y) "noaa") as [key|] eqn:Ek; [|done].
  assert (startswith "gaiaos:cache:station:" key = true) as Hk by (injection Ek as <-; done). clear Ek.
  rewrite M_bind_run. cbn [lift]. rewrite M_bind_run. destruct (cached_text_absent key s (Hst key Hk)) as (s1 & -> & Hv1).
  rewrite M_bind_run. unfold source_call.
  edestruct (down_call_empty settings no_bypass) as (s2 & -> & _); [by apply fetch_fails | | exact Hb | |].
  - unfold represents. by rewrite Hv1.
  - by rewrite Hv1.
  - by exists s2.
Qed.
End offline.

Lemma local_shape location geo : local_place location = Some geo ->
  exists x y bbox, geo = JObj (place (JFloat x) (JFloat y) bbox).
Proof.
  unfold local_place, LOCAL_GEOCODE_DB. cbn [assoc].
  repeat (case_match; [intros [= <-]; unfold num; eauto|]). done.
Qed.

(** ** The shared client *)

Module HttpClientLemmas.
Import HttpClient.

(** Clients are numbered in the order of their creation; all but the current one
    are closed. *)
Definition inv (s : http_state) : Prop :=
  match _shared_client s with
  | Some c => is_closed c = false /\ created s = Datatypes.S (client_id c) /\ is_Some (_client_loop s) /\
              closed_ids s = seq 0 (client_id c)
  | None => _client_loop s = None /\ closed_ids s = seq 0 (created s)
  end.

Lemma close_inv s : inv s -> inv (close_shared_client s) /\ _shared_client (close_shared_client s) = None.
Proof.
  unfold close_shared_client, inv. destruct (_shared_client s) as [c|] eqn:E; [|by rewrite E].
  intros (-> & -> & _ & ->). cbn. split; [|done]. split; [done|]. by rewrite <- seq_S.
Qed.

Lemma init_inv loop s : inv s -> inv (init_shared loop s).
Proof.
  unfold init_shared, inv. destruct (_shared_client s) as [c|] eqn:E; [by rewrite E|].
  intros [_ ->]. cbn. eauto.
Qed.

Lemma get_inv loop s : inv s -> inv (get_shared_client loop s).2.
Proof.
  intros Hs. unfold get_shared_client. cbn. apply init_inv. destruct (stale loop s); [by apply close_inv | done].
Qed.
End HttpClientLemmas.

(** ** Properties *)

(** When every listed station can be read (or is skipped) and has an identifier,
    the loop returns: the identifier of a station within 500 km that no other
    listed station beats, or [None] when none is within 500 km. *)
Theorem nearest_station_correct (sin cos : float -> float) (atan2 pow : float -> float -> float)
    (parse_float : string -> option float) (str : json -> string) (lat lon : json) (sts : list json) :
  Forall (readable sin cos atan2 pow parse_float lat lon) sts ->
  exists r, nearest_station str sin cos atan2 pow parse_float lat lon sts = Ok r /\
  match r with
  | None => forall st d, st ∈ sts -> ~ candidate sin cos atan2 pow parse_float lat lon st d
  | Some i => exists st id d, st ∈ sts /\ candidate sin cos atan2 pow parse_float lat lon st d /\
      jindex st "id" = Ok id /\ i = str id /\
      forall st' d', st' ∈ sts -> candidate sin cos atan2 pow parse_float lat lon st' d' -> fle d d'
  end.
Proof.
  intros Hr. destruct (station_loop_best sin cos atan2 pow parse_float str lat lon sts [] (None, S754_infinity false) Hr)
    as ([r m] & E & Hb); [left; split; [done|]; intros st d H; by apply elem_of_nil in H|].
  exists r. unfold nearest_station. rewrite E. split; [done|].
  destruct Hb as [[[= -> ->] Hn]|(st & id & Hin & Hc & Hid & Ha & Hm)]; [done|].
  cbn in *. subst r. exists st, id, m. auto.
Qed.

(** With the network down and nothing cached for the place, the geocoder answers
    from the local table: its coordinates and no station for a place it knows
    (whatever the case of the name and the spaces around it), a [ValueError] for
    any other. *)
Theorem geocode_offline {S} `{!Redis S text} `{!IsoTime} `{!Tenacity} `{!RawText} (settings : Settings)
    (http_get : string -> dict -> dict -> M S HttpResponse) (now later : string -> string -> Z) (str : json -> string)
    (sin cos : float -> float) (atan2 pow : float -> float -> float) (parse_float : string -> option float)
    (location : string) (s : S) (b1 b2 : breaker) :
  resilience_bypass settings = false ->
  (forall url params headers, fails (http_get url params headers)) ->
  represents s "geocoding" b1 -> breaker_inv settings b1 -> represents s "noaa" b2 -> breaker_inv settings b2 ->
  view s (RedisKeyBuilder.source_cache_key "geocoding" ("geocode:" +:+ clean location)) = None ->
  view s (RedisKeyBuilder.source_cache_key "noaa" "stations_metadata:noaa") = None ->
  (forall k, startswith "gaiaos:cache:station:" k = true -> view s k = None) ->
  exists s', geocode_location settings http_get now later str sin cos atan2 pow parse_float location s =
    (match local_place location with
     | Some geo => jset geo "station_id" JNull
     | None => Raise ValueError
     end, s').
Proof.
  intros Hb Hd Hr1 Hi1 Hr2 Hi2 Hg Hs Hst. unfold geocode_location, source_call. rewrite M_bind_run.
  edestruct (down_call_empty settings Hb) as (s1 & -> & Hv1); [by apply fetch_geocode_fails|done..|].
  cbn [value unavailable]. destruct (local_place location) as [geo|] eqn:El; [|by eexists].
  destruct (local_shape _ _ El) as (x & y & bbox & ->). rewrite !M_bind_run. cbn [lift jindex place assoc String.eqb Ascii.eqb Bool.eqb].
  destruct (resolve_offline settings http_get Hd now later str sin cos atan2 pow parse_float Hb x y s1 b2) as (s2 & E2);
    [unfold represents; by rewrite Hv1 | done | by rewrite Hv1 | |].
  - intros k Hk. rewrite Hv1; [by apply Hst|]. by intros ->.
  - rewrite !M_bind_run. cbn [lift]. rewrite M_bind_run, E2. by eexists.
Qed.

(** The shared client is open and bound to the calling loop, and of the clients
    made so far every other one is closed, after any history of look-ups from any
    loops and of disposals. *)
Inductive client_call := GetClient (loop : nat) | CloseClient.

Definition client_step (s : HttpClient.http_state) (c : client_call) : HttpClient.http_state :=
  match c with
  | GetClient loop => (HttpClient.get_shared_client loop s).2
  | CloseClient => HttpClient.close_shared_client s
  end.

Definition no_client : HttpClient.http_state := HttpClient.State None None 0 [].

Theorem shared_client_loop_bound (history : list client_call) (loop : nat) :
  exists c s', HttpClient.get_shared_client loop (fold_left client_step history no_client) = (Some c, s') /\
    HttpClient.is_closed c = false /\ HttpClient._client_loop s' = Some loop /\
    HttpClient.closed_ids s' = seq 0 (HttpClient.client_id c) /\ HttpClient.created s' = Datatypes.S (HttpClient.client_id c).
Proof.
  assert (HttpClientLemmas.inv (fold_left client_step history no_client)) as Hi.
  { assert (HttpClientLemmas.inv no_client) as H0 by done. revert H0. generalize no_client.
    induction history as [|[l|] h IH]; intros s0 H0; [done| |]; cbn; apply IH.
    - by apply HttpClientLemmas.get_inv.
    - by apply HttpClientLemmas.close_inv. }
  set (s := fold_left _ _ _) in *. clearbody s. pose proof (HttpClientLemmas.get_inv loop s Hi) as Hg.
  revert Hg. unfold HttpClient.get_shared_client. cbn. set (s1 := if HttpClient.stale loop s then _ else s).
  assert (HttpClient._shared_client s1 = None \/ HttpClient._client_loop s1 = Some loop) as Hl.
  { subst s1. unfold HttpClient.stale. destruct (HttpClient._shared_client s) as [c|] eqn:E; [|by left].
    destruct (HttpClient.is_closed c); cbn; [by left; apply HttpClientLemmas.close_inv|].
    case_bool_decide; cbn; [by right | by left; apply HttpClientLemmas.close_inv]. }
  unfold HttpClient.init_shared, HttpClientLemmas.inv. destruct (HttpClient._shared_client s1) as [c|] eqn:E; cbn.
  - rewrite E. intros (Hc & Hn & _ & Hs). exists c, s1. destruct Hl as [?|?]; [done|]. auto.
  - intros (Hc & Hn & _ & Hs). eexists _, _. split; [done|]. cbn in *. auto.
Qed.


(** A nearer station without an identifier hides one that has it: the loop keeps
    its distance, then fails to read the identifier and goes on.  (Here the C
    library's functions are replaced by simple ones; only the order of the
    distances matters.) *)
Theorem station_without_id_shadows :
  let sin x := x in let cos _ := f1 in let atan2 a _ := a in let pow a _ := a in
  let near := JObj [("lat", JInt 0); ("lng", JInt 0)] in
  let far := JObj [("lat", num 1 100); ("lng", JInt 0); ("id", JStr "9414290")] in
  let nearest := nearest_station (fun j => match j with JStr s => s | _ => "" end) sin cos atan2 pow (fun _ => None)
                   (JInt 0) (JInt 0) in
  nearest [far] = Ok (Some "9414290") /\ nearest [near; far] = Ok None /\ nearest [far; near] = Ok (Some "9414290").
Proof. by vm_compute. Qed.

(** The cache key of an earthquake query ignores its time window: two queries
    that differ in it alone share their cached answer. *)
Lemma earthquakes_key_ignores_window (str : json -> string) (q q' : quake_query) :
  q_lat q = q_lat q' -> q_lon q = q_lon q' -> q_radius_km q = q_radius_km q' ->
  q_min_magnitude q = q_min_magnitude q' -> q_days q = q_days q' ->
  earthquakes_key str q = earthquakes_key str q'.
Proof. unfold earthquakes_key. by intros -> -> -> -> ->. Qed.

(** ** Witnesses *)

Module DataSourcesWitness.
#[export] Instance raw : RawText.
Proof.
  refine {| raw_text := NotJson; text_raw := fun t => match t with NotJson s => s | Json _ => "" end |}. done.
Defined.

Import BitIso RetryLoop.
Definition mem : Type := MemRedis.store text.
Definition mem0 : mem := MemRedis.Store ∅ 0 [].
Definition down (_ : string) (_ _ : dict) : M mem HttpResponse := raise (HTTPError "connect").
Definition instant (_ _ : string) : Z := 0.
Definition plain (j : json) : string := match j with JStr s => s | _ => "" end.
Definition id1 (x : float) : float := x.
Definition fst1 (x _ : float) : float := x.
Definition one (_ : float) : float := f1.
Definition no_float (_ : string) : option float := None.

Definition station (lat : json) (id : string) : json := JObj [("lat", lat); ("lng", JInt 0); ("id", JStr id)].

Lemma nearest_station_correct_witness :
  exists r, nearest_station plain id1 one fst1 fst1 no_float (JInt 0) (JInt 0) [station (num 1 100) "a"; JNull] = Ok r.
Proof.
  destruct (nearest_station_correct id1 one fst1 fst1 no_float plain (JInt 0) (JInt 0) [station (num 1 100) "a"; JNull])
    as (r & E & _); [|by exists r].
  apply Forall_cons; split; [|apply Forall_singleton; reflexivity]. unfold readable.
  assert (exists d, station_distance id1 one fst1 fst1 no_float (JInt 0) (JInt 0) (station (num 1 100) "a") = Ok d) as [d ->].
  { eexists. vm_compute. reflexivity. }
  by eexists.
Defined.

Lemma down_fails url params headers : fails (down url params headers).
Proof. intros s. by exists "connect", s. Qed.

Lemma geocode_offline_witness : exists s',
  geocode_location default_Settings down instant instant plain id1 one fst1 fst1 no_float " Paris " mem0 =
  (match local_place "paris" with Some geo => jset geo "station_id" JNull | None => Raise ValueError end, s').
Proof.
  apply (geocode_offline default_Settings down instant instant plain id1 one fst1 fst1 no_float " Paris " mem0
           breaker_init breaker_init).
  all: try reflexivity.
  - apply down_fails.
  - apply breaker_inv_init.
  - apply breaker_inv_init.
Defined.
End DataSourcesWitness.
