(* ===== verification/DomainAgents.v ===== *)
(** * The domain agents
    ([src/orchestrator/agents/{seismic,ocean,air_quality,wildfire,atmosphere}/agent.py])

    Each agent finds a place in its input, asks one data source about it through
    its client and reports what the answer says as evidence.  Whatever fails
    inside becomes an error of the output, with the evidence gathered so far.
    [report_*] is the part of [run] after the client's answer.  Arguments: Python's
    [str], the text of an exception, the ISO text of [datetime.fromtimestamp],
    fresh identifiers and the clock. *)

From S2P Require Import Prelude PyFloat FloatRound PyStr Regex Effects Settings Uncertainty CircuitBreaker Resilience.
From S2P Require Import AgentIO FanOut DataSources.
From Stdlib Require Import Ascii.

(** ** Places in a query *)

(** [s.capitalize()] *)
Definition capitalize (s : string) : string :=
  match s with EmptyString => "" | String c s => String (upper_char c) (lower s) end.

(** [re.search(r"\b(a|b|...)\b", s, re.IGNORECASE)], the names and the text in
    lower case: the leftmost position, there the first name. *)
Fixpoint search_word (names : list string) (prev : option ascii) (s : string) : option string :=
  match List.find (fun n => nonempty (Regex.run (RWord n) (prev, s))) names with
  | Some n => Some n
  | None => match s with EmptyString => None | String c s' => search_word names (Some c) s' end
  end.

Definition LOCATIONS : list string :=
  ["tokyo"; "japan"; "california"; "new york"; "paris"; "london"; "delhi"; "madrid"; "beijing"].
Definition CITIES : list string := ["paris"; "london"; "delhi"; "madrid"; "beijing"; "tokyo"; "new york"].

Definition _extract_location (query : string) : string :=
  match search_word LOCATIONS None (lower query) with Some n => capitalize n | None => query end.

Definition _extract_city (query : string) : string :=
  match search_word CITIES None (lower query) with Some n => capitalize n | None => "Paris" end.

(** [if not agent_input.region_hint: ... else: ...] *)
Definition location_of (extract : string -> string) (input : AgentInput) : string :=
  if ostr_truthy (in_region_hint input) then default "" (in_region_hint input) else extract (in_query input).

(** ** Evidence *)

Definition status_text (st : source_status) : string :=
  match st with Live => "live" | Cached => "cached" | Unavailable => "unavailable" end.

(** What [run] has when it returns or raises: evidence, errors, exception. *)
Record progress := Progress {
  p_evidence : list Evidence;
  p_errors : list string;
  p_exn : option pyexn;
}.

Section agents.
Context {S : Type} `{!Redis S text} `{!IsoTime} `{!Tenacity} `{!RawText}.
Variable settings : Settings.
Variable http_get : string -> dict -> dict -> M S HttpResponse.
Variables now later : string -> string -> Z.
Variable str : json -> string.
Variables sin cos : float -> float.
Variables atan2 pow : float -> float -> float.
Variable parse_float : string -> option float.
Variable exn_text : pyexn -> string.
Variable fromtimestamp : float -> result pyexn string.   (* [datetime.fromtimestamp(t, UTC).isoformat()] *)
Variable uuid4 : nat -> uuid.
Variable today : Z.                                       (* [datetime.now(UTC)] *)

Definition geocode : string -> M S json := geocode_location settings http_get now later str sin cos atan2 pow parse_float.

(** [UncertaintyEstimate.from_point_estimate(p, source=...)]; a rejected value is
    pydantic's [ValidationError], a [ValueError]. *)
Definition estimate (p : float) (src : SourceType) : result pyexn UncertaintyEstimate :=
  match from_point_estimate p DEFAULT_POINT_ESTIMATE_INTERVAL_MARGIN src with
  | Ok u => Ok u
  | Raise _ => Raise ValueError
  end.

(** The [n]-th evidence item of a run. *)
Definition item (n : nat) (source claim : string) (p : float) (src : SourceType) : result pyexn Evidence :=
  u ← estimate p src;
  Ok {| ev_id := uuid4 n; ev_source := source; ev_claim := claim; ev_uncertainty := u; ev_retrieved_at := today;
        ev_document_id := None; ev_chunk_id := None; ev_title := None; ev_source_url := None;
        ev_extra_metadata := []; ev_uncertainty_bounds := None; ev_assumptions := None |}.

(** The items appended before the loop over [l] ends or raises. *)
Fixpoint collect (f : nat -> json -> list Evidence * option pyexn) (n : nat) (l : list json)
    : list Evidence * option pyexn :=
  match l with
  | [] => ([], None)
  | x :: l =>
      match f n x with
      | (evs, Some e) => (evs, Some e)
      | (evs, None) => let '(evs', e) := collect f (n + length evs)%nat l in (evs ++ evs', e)
      end
  end.

Definition append_one (r : result pyexn Evidence) : list Evidence * option pyexn :=
  match r with Ok e => ([e], None) | Raise e => ([], Some e) end.

(** A loop over what [items] evaluates to. *)
Definition loop_over (items : result pyexn (list json)) (n : nat) (f : nat -> json -> list Evidence * option pyexn)
    : list Evidence * option pyexn :=
  match items with Ok l => collect f n l | Raise e => ([], Some e) end.

Definition loop (items : result pyexn (list json)) (f : nat -> json -> result pyexn Evidence)
    : list Evidence * option pyexn :=
  loop_over items 0 (fun n x => append_one (f n x)).

Definition degraded_note (source what : string) (r : ResilientResult) : list string :=
  if degraded r then ["[degraded:" +:+ source +:+ "] " +:+ status_text (status r) +:+ " — serving stale " +:+ what +:+ " data"]
  else [].

(** [data_sparsity] for stale data. *)
Definition trust (r : ResilientResult) : SourceType := if degraded r then data_sparsity else well_supported.
Definition score (fresh stale : Z) (r : ResilientResult) : float := if degraded r then flit stale 100 else flit fresh 100.

(** The output: an exception adds its text to the errors. *)
Definition finish (name failed : string) (p : progress) : AgentOutput :=
  {| agent_name := name; evidence := p_evidence p;
     errors := p_errors p ++ match p_exn p with Some e => [failed +:+ exn_text e] | None => [] end |}.

(** [try: result = await ...; report except Exception] *)
Definition reported (name failed : string) (client : M S ResilientResult) (report : ResilientResult -> progress)
    : M S AgentOutput := fun s =>
  match client s with
  | (Ok r, s') => (Ok (finish name failed (report r)), s')
  | (Raise e, s') => (Ok (finish name failed (Progress [] [] (Some e))), s')
  end.

(** ** Seismic *)

Definition quake_item (location : string) (r : ResilientResult) (n : nat) (feat : json) : result pyexn Evidence :=
  props ← jget feat "properties" (JObj []);
  mag ← jget props "mag" JNull; place ← jget props "place" JNull; time ← jget props "time" (JInt 0);
  t ← float_operand time;
  dt ← fromtimestamp (fdiv t (float_of_Z 1000));
  item n "USGS Seismic API"
    ("Earthquake of magnitude " +:+ str mag +:+ " occurred at '" +:+ str place +:+ "' on " +:+ dt +:+ ".")
    (score 98 70 r) (trust r).

Definition quake_message (location : string) (features : json) : result pyexn CollaborationMessage :=
  top_feat ← jnth features 0;
  props ← jget top_feat "properties" (JObj []);
  mag ← jget props "mag" (JFloat f0); place ← jget props "place" (JStr location);
  u ← estimate (flit 95 100) well_supported;
  Ok {| from_agent := "seismic";
        finding_summary := "Recent earthquake magnitude " +:+ str mag +:+ " near " +:+ str place +:+ ".";
        msg_uncertainty := u; suggested_refinement := Some [("region_hint", JStr location)]; msg_round := 0 |}.

Definition features_of (r : ResilientResult) : json := jor (value r) (JList []).

(** The message for the peers, when there is a bus and something to report. *)
Definition quake_broadcast (location : string) (with_bus : bool) (r : ResilientResult)
    : result pyexn (option CollaborationMessage) :=
  if jtruthy (features_of r) && with_bus then Some <$> quake_message location (features_of r) else Ok None.

Definition report_seismic (location : string) (with_bus : bool) (r : ResilientResult) : progress :=
  let notes := degraded_note "usgs" "seismic" r ++
    (if jtruthy (features_of r) then [] else ["No recent earthquakes found near " +:+ location +:+ "."]) in
  match quake_broadcast location with_bus r with
  | Raise e => Progress [] notes (Some e)
  | Ok _ =>
      let '(evs, e) := loop (jiter (features_of r)) (quake_item location r) in Progress evs notes e
  end.

Definition quakes_near (location : string) : M S ResilientResult :=
  geo ← geocode location;
  lat ← lift (jindex geo "lat"); lon ← lift (jindex geo "lon");
  get_recent_earthquakes settings http_get now later str today
    {| q_lat := Some lat; q_lon := Some lon; q_radius_km := Some (num 100 1); q_min_magnitude := num 1 1; q_days := 7;
       q_starttime := None; q_endtime := None |}.

(** The output and the bus after the run. *)
Definition run_seismic (input : AgentInput) (bus : option CollaborationBus) : M S (AgentOutput * option CollaborationBus) :=
  let location := location_of _extract_location input in
  let with_bus := match bus with Some _ => true | None => false end in
  fun s =>
    match quakes_near location s with
    | (Ok r, s') =>
        let sent := match quake_broadcast location with_bus r with Ok (Some m) => broadcast m <$> bus | _ => bus end in
        (Ok (finish "seismic" ("Failed to query USGS for " +:+ location +:+ ": ") (report_seismic location with_bus r), sent), s')
    | (Raise e, s') =>
        (Ok (finish "seismic" ("Failed to query USGS for " +:+ location +:+ ": ") (Progress [] [] (Some e)), bus), s')
    end.

(** ** Ocean *)

Definition water_item (station_id location : string) (r : ResilientResult) (n : nat) (meas : json) : result pyexn Evidence :=
  time_str ← jget meas "t" JNull; temp ← jget meas "v" JNull;
  item n ("NOAA Ocean API (Station: " +:+ station_id +:+ ")")
    ("At NOAA ocean station " +:+ station_id +:+ " (" +:+ location +:+ "), water temperature was recorded as " +:+
     str temp +:+ " °C at " +:+ str time_str +:+ ".")
    (score 95 60 r) (trust r).

Definition report_ocean (station_id location : string) (r : ResilientResult) : progress :=
  let notes := degraded_note "noaa" "ocean" r in
  let data := jor (value r) (JObj []) in
  match (if jtruthy data then jin "data" data else Ok false) with
  | Raise e => Progress [] notes (Some e)
  | Ok false => Progress [] (notes ++ ["No active NOAA ocean measurements found for station " +:+ station_id +:+
                                       " (" +:+ location +:+ ")."]) None
  | Ok true =>
      let '(evs, e) := loop (jget data "data" (JList []) ≫= jslice 5) (water_item station_id location r) in
      Progress evs notes e
  end.

Definition no_station (location : string) : AgentOutput :=
  {| agent_name := "ocean"; evidence := [];
     errors := ["No active NOAA ocean station found for location '" +:+ location +:+ "'."] |}.

Definition station_of (location : string) : M S json :=
  geo ← geocode location; lift (jget geo "station_id" JNull).

Definition run_ocean (input : AgentInput) : M S AgentOutput :=
  let location := location_of _extract_location input in
  let failed := "Failed to query NOAA for " +:+ location +:+ ": " in
  fun s =>
    match station_of location s with
    | (Raise e, s') => (Ok (finish "ocean" failed (Progress [] [] (Some e))), s')
    | (Ok station, s') =>
        if jtruthy station then
          reported "ocean" failed (get_water_temperature settings http_get now later (str station) "latest" None)
            (report_ocean (str station) location) s'
        else (Ok (no_station location), s')
    end.

(** A region that is not text is refused by [AgentInput]. *)
Definition on_peer_finding (message : CollaborationMessage) (input : AgentInput) : result pyexn (option AgentInput) :=
  match suggested_refinement message with
  | Some ((_ :: _) as refinement) =>
      if String.eqb (from_agent message) "seismic" then
        let region := default JNull (assoc "region_hint" refinement) in
        let same := match in_region_hint input, region with
                    | Some h, JStr g => String.eqb h g
                    | None, JNull => true
                    | _, _ => false
                    end in
        if jtruthy region && negb same then
          match region with
          | JStr g => Ok (Some {| in_investigation_id := in_investigation_id input; in_query := in_query input;
                                  in_region_hint := Some g |})
          | _ => Raise ValueError
          end
        else Ok None
      else Ok None
  | _ => Ok None
  end.

(** ** Air quality *)

Definition air_item (city : string) (location : json) (r : ResilientResult) (n : nat) (meas : json) : result pyexn Evidence :=
  parameter ← jget meas "parameter" (JStr "unknown");
  v ← jget meas "value" (JFloat f0); unit ← jget meas "unit" (JStr "ug/m3");
  item n ("OpenAQ API (Station: " +:+ str location +:+ ")")
    ("At station '" +:+ str location +:+ "' in " +:+ city +:+ ", the level of '" +:+ str parameter +:+ "' is " +:+
     str v +:+ " " +:+ str unit +:+ ".")
    (score 95 60 r) (trust r).

(** One station: its measurements, counted on from [n]. *)
Definition air_station (city : string) (r : ResilientResult) (n : nat) (res : json) : list Evidence * option pyexn :=
  match (location ← jget res "location" (JStr "unknown"); ms ← jget res "measurements" (JList []); Ok (location, ms)) with
  | Raise e => ([], Some e)
  | Ok (location, ms) => loop_over (jiter ms) n (fun n m => append_one (air_item city location r n m))
  end.

Definition report_air (city : string) (r : ResilientResult) : progress :=
  let results := jor (value r) (JList []) in
  let notes := degraded_note "openaq" "air quality" r ++
    (if jtruthy results then [] else ["No active OpenAQ stations found for city: " +:+ city]) in
  let '(evs, e) := loop_over (jiter results) 0 (air_station city r) in Progress evs notes e.

Definition run_air_quality (input : AgentInput) : M S AgentOutput :=
  let city := location_of _extract_city input in
  reported "air_quality" ("Failed to query OpenAQ for city " +:+ city +:+ ": ")
    (get_latest_measurements settings http_get now later (openaq_api_key settings) city) (report_air city).

(** ** Wildfire *)

Definition fire_score (conf : json) (r : ResilientResult) : float :=
  let confidence_score := if jeq_str conf "h" || jeq_str conf "100" then flit 90 100 else flit 70 100 in
  if degraded r then fmin confidence_score (flit 7 10) else confidence_score.

Definition fire_tag (conf : json) (r : ResilientResult) : SourceType :=
  if degraded r then data_sparsity
  else if fltb (flit 8 10) (fire_score conf r) then well_supported else data_sparsity.

Definition fire_item (location : string) (r : ResilientResult) (n : nat) (fire : json) : result pyexn Evidence :=
  lat ← jget fire "latitude" JNull; lon ← jget fire "longitude" JNull;
  conf ← jget fire "confidence" (JStr "nominal");
  acq_date ← jget fire "acq_date" JNull; acq_time ← jget fire "acq_time" JNull;
  item n "NASA FIRMS API"
    ("Active fire detected in " +:+ location +:+ " region at coordinates (" +:+ str lat +:+ ", " +:+ str lon +:+
     ") with confidence '" +:+ str conf +:+ "' on " +:+ str acq_date +:+ " " +:+ str acq_time +:+ ".")
    (fire_score conf r) (fire_tag conf r).

Definition report_wildfire (location : string) (r : ResilientResult) : progress :=
  let notes := degraded_note "firms" "wildfire" r in
  let fires := jor (value r) (JList []) in
  if jtruthy fires then
    let '(evs, e) := loop (jslice 10 fires) (fire_item location r) in Progress evs notes e
  else
    Progress [] (notes ++ [if ostr_truthy (firms_api_key settings)
                           then "No active wildfires reported in " +:+ location +:+ " region."
                           else "NASA FIRMS API key is not configured; skipped wildfire active search."]) None.

Definition fires_near (location : string) : M S ResilientResult :=
  geo ← geocode location;
  bbox ← lift (jindex geo "bbox");
  min_x ← lift (jnth bbox 0); min_y ← lift (jnth bbox 1); max_x ← lift (jnth bbox 2); max_y ← lift (jnth bbox 3);
  get_active_fires settings http_get now later str (firms_api_key settings) (min_x, min_y, max_x, max_y) 1.

Definition run_wildfire (input : AgentInput) : M S AgentOutput :=
  let location := location_of _extract_location input in
  reported "wildfire" ("Failed to query FIRMS wildfire API for " +:+ location +:+ ": ") (fires_near location)
    (report_wildfire location).

(** ** Atmosphere *)

Definition weather_item (location : string) (r : ResilientResult) (current : json) : result pyexn Evidence :=
  temp ← jget current "temperature_2m" JNull; wind ← jget current "wind_speed_10m" JNull;
  humidity ← jget current "relative_humidity_2m" JNull;
  item 0 "Open-Meteo Weather API"
    ("Current atmospheric conditions in " +:+ location +:+ ": Temperature is " +:+ str temp +:+ "°C, Wind Speed is " +:+
     str wind +:+ " km/h, and Relative Humidity is " +:+ str humidity +:+ "%.")
    (score 95 60 r) (trust r).

Definition report_atmosphere (location : string) (r : ResilientResult) : progress :=
  let notes := degraded_note "open_meteo" "weather" r in
  match jget (jor (value r) (JObj [])) "current" (JObj []) with
  | Raise e => Progress [] notes (Some e)
  | Ok current =>
      if jtruthy current then
        let '(evs, e) := append_one (weather_item location r current) in Progress evs notes e
      else Progress [] (notes ++ ["No atmospheric data returned for " +:+ location +:+ "."]) None
  end.

Definition weather_at (location : string) : M S ResilientResult :=
  geo ← geocode location;
  lat ← lift (jindex geo "lat"); lon ← lift (jindex geo "lon");
  get_current_weather settings http_get now later str lat lon.

Definition run_atmosphere (input : AgentInput) : M S AgentOutput :=
  let location := location_of _extract_location input in
  reported "atmosphere" ("Failed to query Open-Meteo weather for " +:+ location +:+ ": ") (weather_at location)
    (report_atmosphere location).
End agents.

(** ** Lemmas *)

(** The degraded flag says whether the answer is live. *)
Definition coherent (r : ResilientResult) : Prop := degraded r = match status r with Live => false | _ => true end.

Section flags.
Context {S : Type} `{!Redis S text} `{!IsoTime} `{!Tenacity}.

Lemma serve_coherent key s r s' : _serve_from_cache key s = (Ok r, s') -> coherent r.
Proof. unfold _serve_from_cache. intros (c & s1 & _ & [= <- _])%M_bind_ok. by destruct c. Qed.

Lemma live_coherent (m : M S json) key ttl source s r s' :
  (v ← m; _cache_result key v ttl ;; record_success source ;; mret (live_result v)) s = (Ok r, s') -> coherent r.
Proof. intros (v & s1 & _ & (u & s2 & _ & (u2 & s3 & _ & [= <- _])%M_bind_ok)%M_bind_ok)%M_bind_ok. done. Qed.

Lemma resilient_call_coherent settings now now' source (fn : M S json) ck ttl s r s' :
  resilient_call settings now now' source fn ck ttl s = (Ok r, s') -> coherent r.
Proof.
  unfold resilient_call. destruct (resilience_bypass settings).
  { intros (v & s1 & _ & [= <- _])%M_bind_ok. done. }
  intros (skip & s1 & _ & Hc)%M_bind_ok. destruct skip; [by apply serve_coherent in Hc|].
  destruct ((v ← with_retry fn; _) s1) as [[r1|e] s2] eqn:E.
  - injection Hc as -> _. by apply live_coherent in E.
  - destruct e; try discriminate Hc. apply M_bind_ok in Hc as (u & s3 & _ & Hc). by apply serve_coherent in Hc.
Qed.
End flags.

Section reports.
Variable settings : Settings.
Variable str : json -> string.
Variable exn_text : pyexn -> string.
Variable fromtimestamp : float -> result pyexn string.
Variable uuid4 : nat -> uuid.
Variable today : Z.

Lemma estimate_valid p src u : estimate p src = Ok u -> valid_estimate u = true /\ Uncertainty.source u = src /\ point_estimate u = p.
Proof.
  unfold estimate, from_point_estimate. destruct (negb _); [done|]. cbn [raise_if mbind result_mbind result_bind].
  destruct (make_estimate _ _ _ _) as [u'|] eqn:E; [|done]. intros [= ->].
  apply make_estimate_ok in E as [-> Hv]. done.
Qed.

Definition stale_point : float := flit 7 10.

(** What an item says of its source. *)
Definition sound (d : bool) (e : Evidence) : Prop :=
  valid_estimate (ev_uncertainty e) = true /\
  (d = true -> Uncertainty.source (ev_uncertainty e) = data_sparsity /\ fle (ev_confidence e) stale_point).

Lemma item_sound n source claim p src d e : item uuid4 today n source claim p src = Ok e ->
  (d = true -> src = data_sparsity /\ fle p stale_point) -> sound d e.
Proof.
  unfold item. intros (u & Hu & [= <-])%result_bind_ok Hd. apply estimate_valid in Hu as (Hv & Hs & Hp).
  split; [done|]. unfold ev_confidence. cbn. rewrite Hs, Hp. done.
Qed.

Lemma collect_forall (P : Evidence -> Prop) f l : forall n,
  (forall n x, x ∈ l -> Forall P (f n x).1) -> Forall P (collect f n l).1.
Proof.
  induction l as [|x l IH]; intros n Hf; cbn; [constructor|].
  pose proof (Hf n x ltac:(left)) as Hx. destruct (f n x) as [evs [e|]]; [done|].
  pose proof (IH (n + length evs)%nat (fun n y Hy => Hf n y ltac:(by right))) as Hl.
  destruct (collect f _ l) as [evs' e]. cbn in *. by apply Forall_app.
Qed.

Lemma loop_over_forall (P : Evidence -> Prop) items n f :
  (forall n x, Forall P (f n x).1) -> Forall P (loop_over items n f).1.
Proof. intros Hf. destruct items; cbn; [|constructor]. by apply collect_forall. Qed.

Lemma append_one_forall (P : Evidence -> Prop) r : (forall e, r = Ok e -> P e) -> Forall P (append_one r).1.
Proof. intros H. destruct r; cbn; [|constructor]. apply Forall_singleton. by apply H. Qed.

Lemma score_stale fresh stale r : degraded r = true -> fleb (flit stale 100) stale_point = true ->
  trust r = data_sparsity /\ fle (score fresh stale r) stale_point.
Proof. unfold trust, score. by intros ->. Qed.

Lemma fire_stale conf r : degraded r = true -> fire_tag conf r = data_sparsity /\ fle (fire_score conf r) stale_point.
Proof.
  unfold fire_tag, fire_score. intros ->. split; [done|]. destruct (_ || _); by vm_compute.
Qed.

Definition is_note (e : string) : bool := startswith "[degraded:" e.

(** A report on [r]: sound items, and a note exactly when [r] is degraded. *)
Definition report_ok (r : ResilientResult) (p : progress) : Prop :=
  Forall (sound (degraded r)) (p_evidence p) /\ existsb is_note (p_errors p) = degraded r.

Lemma note_iff source what r rest : existsb is_note rest = false ->
  existsb is_note (degraded_note source what r ++ rest) = degraded r.
Proof.
  intros H. rewrite existsb_app, H, orb_false_r. unfold degraded_note.
  destruct (degraded r); [|done]. cbn -[is_note]. rewrite orb_false_r. apply prefix_spec. by eexists.
Qed.

Lemma note_alone source what r : existsb is_note (degraded_note source what r) = degraded r.
Proof. rewrite <- (app_nil_r (degraded_note _ _ _)). by apply note_iff. Qed.

Lemma report_loop r notes items f : existsb is_note notes = degraded r ->
  (forall n x, Forall (sound (degraded r)) (f n x).1) ->
  report_ok r (let '(evs, e) := loop_over items 0 f in Progress evs notes e).
Proof.
  intros Hn Hf. pose proof (loop_over_forall _ items 0 f Hf) as H. destruct (loop_over _ _ _) as [evs e]. by split.
Qed.

(** Every item built with [item] from parts that [trust] the answer is sound. *)
Ltac item_parts := repeat match goal with
  | H : (_ ≫= _) = Ok _ |- _ => apply result_bind_ok in H as (? & _ & H)
  end.

Lemma quake_item_sound location r n x e :
  quake_item str fromtimestamp uuid4 today location r n x = Ok e -> sound (degraded r) e.
Proof.
  unfold quake_item. intros H. item_parts. eapply item_sound; [exact H|]. intros Hd. by apply score_stale.
Qed.

Lemma water_item_sound st location r n x e : water_item str uuid4 today st location r n x = Ok e -> sound (degraded r) e.
Proof.
  unfold water_item. intros H. item_parts. eapply item_sound; [exact H|]. intros Hd. by apply score_stale.
Qed.

Lemma air_item_sound city location r n x e : air_item str uuid4 today city location r n x = Ok e -> sound (degraded r) e.
Proof.
  unfold air_item. intros H. item_parts. eapply item_sound; [exact H|]. intros Hd. by apply score_stale.
Qed.

Lemma fire_item_sound location r n x e : fire_item str uuid4 today location r n x = Ok e -> sound (degraded r) e.
Proof.
  unfold fire_item. intros H. item_parts. eapply item_sound; [exact H|]. intros Hd. by apply fire_stale.
Qed.

Lemma weather_item_sound location r x e : weather_item str uuid4 today location r x = Ok e -> sound (degraded r) e.
Proof.
  unfold weather_item. intros H. item_parts. eapply item_sound; [exact H|]. intros Hd. by apply score_stale.
Qed.

Lemma report_seismic_ok location with_bus r :
  report_ok r (report_seismic str fromtimestamp uuid4 today location with_bus r).
Proof.
  unfold report_seismic. set (notes := degraded_note _ _ _ ++ _).
  assert (existsb is_note notes = degraded r) as Hn by (subst notes; apply note_iff; destruct (jtruthy (features_of r)); [reflexivity|reflexivity]).
  destruct (quake_broadcast _ _ _ _); [|by split].
  apply report_loop; [done|]. intros n x. apply append_one_forall. intros e. apply quake_item_sound.
Qed.

Lemma report_ocean_ok st location r : report_ok r (report_ocean str uuid4 today st location r).
Proof.
  unfold report_ocean. pose proof (note_alone "noaa" "ocean" r) as Hn.
  destruct (if jtruthy _ then _ else _) as [[]|e]; [|split; [constructor | by apply note_iff]|by split].
  apply report_loop; [done|]. intros n x. apply append_one_forall. intros e. apply water_item_sound.
Qed.

Lemma report_air_ok city r : report_ok r (report_air str uuid4 today city r).
Proof.
  unfold report_air. apply report_loop; [apply note_iff; by destruct (jtruthy _)|].
  intros n x. unfold air_station. destruct (_ ≫= _) as [[location ms]|]; [|constructor].
  apply loop_over_forall. intros m y. apply append_one_forall. intros e. apply air_item_sound.
Qed.

Lemma report_wildfire_ok location r : report_ok r (report_wildfire settings str uuid4 today location r).
Proof.
  unfold report_wildfire. destruct (jtruthy _).
  - apply report_loop; [apply note_alone|]. intros n x. apply append_one_forall. intros e. apply fire_item_sound.
  - split; [constructor|]. apply note_iff. by destruct (ostr_truthy _).
Qed.

Lemma report_atmosphere_ok location r : report_ok r (report_atmosphere str uuid4 today location r).
Proof.
  unfold report_atmosphere. pose proof (note_alone "open_meteo" "weather" r) as Hn.
  destruct (jget _ _ _) as [current|e]; [|by split].
  destruct (jtruthy current); [|split; [constructor | by apply note_iff]].
  pose proof (append_one_forall (sound (degraded r)) (weather_item str uuid4 today location r current)) as H.
  destruct (append_one _) as [evs e]. split; [|done]. apply H. intros e'. apply weather_item_sound.
Qed.
End reports.

(** ** What an output says of its source *)

Definition noted (out : AgentOutput) : bool := existsb is_note (errors out).

(** Items are valid; behind a note they count as sparse data with a confidence of
    at most 0.7; without one they come from a live answer. *)
Definition flagged (name : string) (answer : result pyexn ResilientResult) (out : AgentOutput) : Prop :=
  agent_name out = name /\
  (forall ev, ev ∈ evidence out -> valid_estimate (ev_uncertainty ev) = true) /\
  (noted out = true -> forall ev, ev ∈ evidence out ->
     Uncertainty.source (ev_uncertainty ev) = data_sparsity /\ fle (ev_confidence ev) (flit 7 10)) /\
  (noted out = false -> evidence out <> [] -> exists r, answer = Ok r /\ status r = Live).

Inductive domain_agent := Seismic | Ocean | AirQuality | Wildfire | Atmosphere.

Definition name_of (a : domain_agent) : string :=
  match a with
  | Seismic => "seismic" | Ocean => "ocean" | AirQuality => "air_quality" | Wildfire => "wildfire"
  | Atmosphere => "atmosphere"
  end.

Section runs.
Context {S : Type} `{!Redis S text} `{!IsoTime} `{!Tenacity} `{!RawText}.
Variable settings : Settings.
Variable http_get : string -> dict -> dict -> M S HttpResponse.
Variables now later : string -> string -> Z.
Variable str : json -> string.
Variables sin cos : float -> float.
Variables atan2 pow : float -> float -> float.
Variable parse_float : string -> option float.
Variable exn_text : pyexn -> string.
Variable fromtimestamp : float -> result pyexn string.
Variable uuid4 : nat -> uuid.
Variable today : Z.

(** The output of an agent, and the question it asks its source. *)
Definition run_any (a : domain_agent) (input : AgentInput) (bus : option CollaborationBus) : M S AgentOutput :=
  match a with
  | Seismic => o ← run_seismic settings http_get now later str sin cos atan2 pow parse_float exn_text fromtimestamp uuid4 today input bus;
               mret o.1
  | Ocean => run_ocean settings http_get now later str sin cos atan2 pow parse_float exn_text uuid4 today input
  | AirQuality => run_air_quality settings http_get now later str exn_text uuid4 today input
  | Wildfire => run_wildfire settings http_get now later str sin cos atan2 pow parse_float exn_text uuid4 today input
  | Atmosphere => run_atmosphere settings http_get now later str sin cos atan2 pow parse_float exn_text uuid4 today input
  end.

Definition asks (a : domain_agent) (input : AgentInput) : M S ResilientResult :=
  let location := location_of (match a with AirQuality => _extract_city | _ => _extract_location end) input in
  match a with
  | Seismic => quakes_near settings http_get now later str sin cos atan2 pow parse_float today location
  | Ocean => station ← station_of settings http_get now later str sin cos atan2 pow parse_float location;
             get_water_temperature settings http_get now later (str station) "latest" None
  | AirQuality => get_latest_measurements settings http_get now later (openaq_api_key settings) location
  | Wildfire => fires_near settings http_get now later str sin cos atan2 pow parse_float location
  | Atmosphere => weather_at settings http_get now later str sin cos atan2 pow parse_float location
  end.

Lemma source_call_coherent source fn ck s r s' :
  source_call settings now later source fn ck s = (Ok r, s') -> coherent r.
Proof. apply resilient_call_coherent. Qed.

Lemma asks_coherent a input s r s' : asks a input s = (Ok r, s') -> coherent r.
Proof.
  destruct a; cbn [asks]; unfold quakes_near, fires_near, weather_at, get_recent_earthquakes, get_water_temperature,
    get_latest_measurements, get_current_weather; intros Ha;
    repeat (apply M_bind_ok in Ha as (? & ? & _ & Ha)); try by apply source_call_coherent in Ha.
  unfold get_active_fires in Ha. destruct (negb _); [by injection Ha as <- _|].
  apply M_bind_ok in Ha as (? & ? & _ & Ha). by apply source_call_coherent in Ha.
Qed.

Lemma finish_flagged name failed r p : (forall t, is_note (failed +:+ t) = false) -> report_ok r p -> coherent r ->
  flagged name (Ok r) (finish exn_text name failed p).
Proof.
  intros Hf [Hs Hn] Hc. assert (noted (finish exn_text name failed p) = degraded r) as Ed.
  { unfold noted, finish. cbn. rewrite existsb_app, Hn. destruct (p_exn p); cbn; rewrite ?Hf; by rewrite ?orb_false_r. }
  rewrite Forall_forall in Hs. unfold flagged. rewrite Ed. split; [done|]. cbn [finish evidence].
  split; [intros ev He; by apply Hs|]. split.
  - intros Hd ev He. by apply Hs.
  - intros Hd _. exists r. split; [done|]. unfold coherent in Hc. rewrite Hd in Hc. by destruct (status r).
Qed.

Lemma empty_flagged name answer out : agent_name out = name -> evidence out = [] -> flagged name answer out.
Proof.
  intros Hn He. unfold flagged. rewrite He. split; [done|].
  split; [|split; [|done]]; [|intros _]; intros ev Hev; by apply elem_of_nil in Hev.
Qed.

Lemma failed_flagged name failed answer e : flagged name answer (finish exn_text name failed (Progress [] [] (Some e))).
Proof. by apply empty_flagged. Qed.

Lemma reported_flagged name failed client report s : (forall t, is_note (failed +:+ t) = false) ->
  (forall r, report_ok r (report r)) -> (forall r s s', client s = (Ok r, s') -> coherent r) ->
  exists out s', reported (S := S) exn_text name failed client report s = (Ok out, s') /\ flagged name (client s).1 out.
Proof.
  intros Hf Hr Hc. unfold reported. destruct (client s) as [[r|e] s'] eqn:E; (eexists _, _; split; [done|]); cbn.
  - apply finish_flagged; eauto.
  - apply failed_flagged.
Qed.
End runs.

(** ** Outputs that say something *)

Definition silent (out : AgentOutput) : Prop := evidence out = [] /\ errors out = [].

Definition speaks (p : progress) : Prop := p_evidence p <> [] \/ p_errors p <> [] \/ p_exn p <> None.

Lemma jiter_truthy j : jtruthy j = true -> jiter j <> Ok [].
Proof. destruct j as [|b|n|x|[]|[]|[]]; done. Qed.

Lemma jslice_truthy n j : jtruthy j = true -> jslice (S n) j <> Ok [].
Proof. destruct j as [|b|m|x|[]|[]|[]]; done. Qed.

Lemma append_one_speaks r notes : speaks (let '(evs, e) := append_one r in Progress evs notes e).
Proof. destruct r; [by left | by right; right]. Qed.

Lemma loop_speaks items f notes : items <> Ok [] -> speaks (let '(evs, e) := loop items f in Progress evs notes e).
Proof.
  intros Hi. destruct items as [[|x l]|e]; [done| |by right; right]. cbn.
  destruct (f 0%nat x); cbn; [|by right; right]. destruct (collect _ _ l). by left.
Qed.

Lemma app_last_ne {A} (l : list A) x : l ++ [x] <> [].
Proof. by destruct l. Qed.

Lemma finish_speaks exn_text name failed p : speaks p -> ~ silent (finish exn_text name failed p).
Proof.
  intros Hp [He Hr]. cbn in *. apply app_eq_nil in Hr as [Hr Hx]. destruct Hp as [?|[?|Hn]]; [done..|].
  by destruct (p_exn p).
Qed.

Section speaking.
Variable settings : Settings.
Variable str : json -> string.
Variable fromtimestamp : float -> result pyexn string.
Variable uuid4 : nat -> uuid.
Variable today : Z.

Lemma report_seismic_speaks location with_bus r : speaks (report_seismic str fromtimestamp uuid4 today location with_bus r).
Proof.
  unfold report_seismic. destruct (quake_broadcast _ _ _ _); [|by right; right].
  destruct (jtruthy (features_of r)) eqn:Et; [by apply loop_speaks, jiter_truthy|].
  destruct (loop _ _). right. left. apply app_last_ne.
Qed.

Lemma report_wildfire_speaks location r : speaks (report_wildfire settings str uuid4 today location r).
Proof.
  unfold report_wildfire. destruct (jtruthy _) eqn:Et; [by apply loop_speaks, jslice_truthy|].
  right. left. apply app_last_ne.
Qed.

Lemma report_atmosphere_speaks location r : speaks (report_atmosphere str uuid4 today location r).
Proof.
  unfold report_atmosphere. destruct (jget _ _ _) as [current|e]; [|by right; right].
  destruct (jtruthy current); [apply append_one_speaks|]. right. left. apply app_last_ne.
Qed.
End speaking.

(** ** Properties *)

(** C12. Whatever the network, Redis and the answers do, a domain agent returns an
    output under its own name whose items are valid; items served from the cache
    always come with a "[degraded:...]" error, count as sparse data and have a
    confidence of at most 0.7, and items without such an error come from a live
    answer of the source. *)
Theorem stale_data_is_flagged {S} `{!Redis S text} `{!IsoTime} `{!Tenacity} `{!RawText} (settings : Settings)
    (http_get : string -> dict -> dict -> M S HttpResponse) (now later : string -> string -> Z) (str : json -> string)
    (sin cos : float -> float) (atan2 pow : float -> float -> float) (parse_float : string -> option float)
    (exn_text : pyexn -> string) (fromtimestamp : float -> result pyexn string) (uuid4 : nat -> uuid) (today : Z)
    (a : domain_agent) (input : AgentInput) (bus : option CollaborationBus) (s : S) :
  exists out s', run_any settings http_get now later str sin cos atan2 pow parse_float exn_text fromtimestamp uuid4 today
                   a input bus s = (Ok out, s') /\
    flagged (name_of a) (asks settings http_get now later str sin cos atan2 pow parse_float today a input s).1 out.
Proof.
  destruct a; cbn [run_any name_of].
  - rewrite M_bind_run. unfold run_seismic.
    destruct (quakes_near _ _ _ _ _ _ _ _ _ _ _ _ s) as [[r|e] s'] eqn:E; cbn -[finish]; (eexists _, _; split; [done|]).
    + cbn [asks]. rewrite E. apply finish_flagged; [done | apply report_seismic_ok|].
      by eapply (asks_coherent settings http_get now later str sin cos atan2 pow parse_float today Seismic).
    + apply failed_flagged.
  - unfold run_ocean. cbn [asks]. rewrite M_bind_run.
    destruct (station_of _ _ _ _ _ _ _ _ _ _ _ s) as [[st|e] s'] eqn:E; [|eexists _, _; split; [done|]; apply failed_flagged].
    destruct (jtruthy st); [|eexists _, _; split; [done|]; by apply empty_flagged].
    apply reported_flagged; [done | intros r; apply report_ocean_ok|]. intros r s1 s2 Hr. by apply source_call_coherent in Hr.
  - apply reported_flagged; [done | intros r; apply report_air_ok|].
    intros r s1 s2 Hr. by apply source_call_coherent in Hr.
  - apply reported_flagged; [done | intros r; apply report_wildfire_ok|].
    intros r s1 s2 Hr. by eapply (asks_coherent settings http_get now later str sin cos atan2 pow parse_float today Wildfire).
  - apply reported_flagged; [done | intros r; apply report_atmosphere_ok|].
    intros r s1 s2 Hr. by eapply (asks_coherent settings http_get now later str sin cos atan2 pow parse_float today Atmosphere).
Qed.

(** The seismic, wildfire and atmosphere agents never return an output without
    evidence and without an error. *)
Theorem no_silent_output {S} `{!Redis S text} `{!IsoTime} `{!Tenacity} `{!RawText} (settings : Settings)
    (http_get : string -> dict -> dict -> M S HttpResponse) (now later : string -> string -> Z) (str : json -> string)
    (sin cos : float -> float) (atan2 pow : float -> float -> float) (parse_float : string -> option float)
    (exn_text : pyexn -> string) (fromtimestamp : float -> result pyexn string) (uuid4 : nat -> uuid) (today : Z)
    (a : domain_agent) (input : AgentInput) (bus : option CollaborationBus) (s s' : S) (out : AgentOutput) :
  a = Seismic \/ a = Wildfire \/ a = Atmosphere ->
  run_any settings http_get now later str sin cos atan2 pow parse_float exn_text fromtimestamp uuid4 today a input bus s =
    (Ok out, s') ->
  ~ silent out.
Proof.
  intros Ha. destruct Ha as [->|[->| ->]]; cbn [run_any].
  - rewrite M_bind_run. unfold run_seismic.
    destruct (quakes_near _ _ _ _ _ _ _ _ _ _ _ _ s) as [[r|e] s1]; cbn -[finish]; intros [= <- _]; apply finish_speaks;
      [apply report_seismic_speaks | by right; right].
  - unfold run_wildfire, reported. destruct (fires_near _ _ _ _ _ _ _ _ _ _ _ s) as [[r|e] s1];
      intros [= <- _]; apply finish_speaks; [apply report_wildfire_speaks | by right; right].
  - unfold run_atmosphere, reported. destruct (weather_at _ _ _ _ _ _ _ _ _ _ _ s) as [[r|e] s1];
      intros [= <- _]; apply finish_speaks; [apply report_atmosphere_speaks | by right; right].
Qed.

(** The other two can: a live answer whose stations list no measurements, or whose
    measurements are an empty list, leaves neither evidence nor an error. *)
Theorem air_and_ocean_can_be_silent (str : json -> string) (exn_text : pyexn -> string) (uuid4 : nat -> uuid) (today : Z)
    (city failed station location : string) :
  silent (finish exn_text "air_quality" failed (report_air str uuid4 today city (live_result (JList [JObj [("location", JStr "x")]])))) /\
  silent (finish exn_text "ocean" failed (report_ocean str uuid4 today station location (live_result (JObj [("data", JList [])])))).
Proof. done. Qed.

(** What the seismic agent broadcasts sends the ocean agent to the same place: a
    run with a bus adds at most one message, and on it the peer hook gives an
    input for which the ocean agent asks about the seismic agent's location. *)
Theorem seismic_finding_redirects_ocean {S} `{!Redis S text} `{!IsoTime} `{!Tenacity} `{!RawText} (settings : Settings)
    (http_get : string -> dict -> dict -> M S HttpResponse) (now later : string -> string -> Z) (str : json -> string)
    (sin cos : float -> float) (atan2 pow : float -> float -> float) (parse_float : string -> option float)
    (exn_text : pyexn -> string) (fromtimestamp : float -> result pyexn string) (uuid4 : nat -> uuid) (today : Z)
    (input peer : AgentInput) (bus : CollaborationBus) (bus' : option CollaborationBus) (s s' : S) (out : AgentOutput) :
  run_seismic settings http_get now later str sin cos atan2 pow parse_float exn_text fromtimestamp uuid4 today
    input (Some bus) s = (Ok (out, bus'), s') ->
  location_of _extract_location input <> "" ->
  bus' = Some bus \/
  exists m r, bus' = Some (broadcast m bus) /\ from_agent m = "seismic" /\ valid_estimate (msg_uncertainty m) = true /\
    on_peer_finding m peer = Ok r /\
    location_of _extract_location (default peer r) = location_of _extract_location input.
Proof.
  intros Hrun Hne. set (location := location_of _extract_location input) in *. unfold run_seismic in Hrun.
  fold location in Hrun. destruct (quakes_near _ _ _ _ _ _ _ _ _ _ _ _ s) as [[r|e] s1]; [|injection Hrun as _ <- _; by left].
  injection Hrun as _ <- _. unfold quake_broadcast. destruct (_ && true); [|by left].
  destruct (quake_message str location (features_of r)) as [m|] eqn:Em; [|by left]. right. cbn.
  unfold quake_message in Em. apply result_bind_ok in Em as (top & _ & Em). apply result_bind_ok in Em as (props & _ & Em).
  apply result_bind_ok in Em as (mag & _ & Em). apply result_bind_ok in Em as (place & _ & Em).
  apply result_bind_ok in Em as (u & Hu & [= <-]). apply estimate_valid in Hu as (Hv & _).
  assert (str_truthy location = true) as Ht by (unfold str_truthy; by destruct (String.eqb_spec location "")).
  destruct (in_region_hint peer) as [h|] eqn:Eh; [destruct (decide (h = location)) as [->|Hh]|];
    (eexists _, _; do 3 (split; [done|])); unfold on_peer_finding, location_of; cbn -[str_truthy];
    rewrite Ht, Eh, ?String.eqb_refl, ?(proj2 (String.eqb_neq h location)) by done; cbn -[str_truthy];
    (split; [done|]); cbn -[str_truthy]; rewrite ?Eh; cbn -[str_truthy]; by rewrite ?Ht.
Qed.

(** ** Witnesses *)

Module DomainAgentsWitness.
Import BitIso RetryLoop DataSourcesWitness.

Definition tokyo : AgentInput := {| in_investigation_id := "i"; in_query := "Earthquakes in TOKYO?"; in_region_hint := None |}.
Definition elsewhere : AgentInput := {| in_investigation_id := "i"; in_query := "sea"; in_region_hint := Some "Miami" |}.

(** A network on which USGS answers and the other services do not. *)
Definition quake : json := JObj [("properties", JObj [("mag", JInt 5); ("place", JStr "bay"); ("time", JInt 0)])].
Definition usgs_only (url : string) (_ _ : dict) : M mem HttpResponse :=
  if contains "usgs" url then
    mret {| status_code := 200; body := Ok (JObj [("features", JList [quake])]); resp_text := "" |}
  else raise (HTTPError "connect").
Definition exn_text (_ : pyexn) : string := "error".
Definition timestamp (_ : float) : result pyexn string := Ok "1970-01-01T00:00:00+00:00".
Definition ids (n : nat) : uuid := str_nat n.

Definition seismic_run : result pyexn (AgentOutput * option CollaborationBus) * mem :=
  run_seismic default_Settings usgs_only instant instant plain id1 one fst1 fst1 no_float exn_text timestamp ids 0
    tokyo (Some (new_bus "i")) mem0.

Example tokyo_is_found : location_of _extract_location tokyo = "Tokyo".
Proof. by vm_compute. Qed.

Lemma seismic_run_ok : exists out m s', seismic_run = (Ok (out, Some (broadcast m (new_bus "i"))), s').
Proof. unfold seismic_run. eexists _, _, _. vm_compute. reflexivity. Qed.

Lemma seismic_finding_redirects_ocean_witness : exists out bus' s',
  seismic_run = (Ok (out, bus'), s') /\
  (bus' = Some (new_bus "i") \/ exists m r, bus' = Some (broadcast m (new_bus "i")) /\
     on_peer_finding m elsewhere = Ok r /\ location_of _extract_location (default elsewhere r) = "Tokyo").
Proof.
  destruct seismic_run_ok as (out & m & s' & E). exists out, (Some (broadcast m (new_bus "i"))), s'. split; [exact E|].
  unfold seismic_run in E.
  destruct (seismic_finding_redirects_ocean default_Settings usgs_only instant instant plain id1 one fst1 fst1 no_float
    exn_text timestamp ids 0 tokyo elsewhere (new_bus "i") _ mem0 s' out E) as [H|(m' & r & H1 & _ & _ & H2 & H3)].
  - intros H. rewrite tokyo_is_found in H. discriminate.
  - by left.
  - right. exists m', r. split; [exact H1|]. split; [exact H2|]. rewrite H3. exact tokyo_is_found.
Defined.

Lemma no_silent_output_witness : exists out s',
  run_any default_Settings down instant instant plain id1 one fst1 fst1 no_float exn_text timestamp ids 0 Atmosphere tokyo
    None mem0 = (Ok out, s') /\ ~ silent out.
Proof.
  destruct (run_any default_Settings down instant instant plain id1 one fst1 fst1 no_float exn_text timestamp ids 0
    Atmosphere tokyo None mem0) as [r s'] eqn:E.
  destruct r as [out|e].
  - exists out, s'. split; [reflexivity|].
    apply (no_silent_output default_Settings down instant instant plain id1 one fst1 fst1 no_float exn_text timestamp ids 0
      Atmosphere tokyo None mem0 s' out); [right; right; reflexivity | exact E].
  - exfalso. vm_compute in E. discriminate E.
Defined.
End DomainAgentsWitness.
