(* ===== verification/Causal.v ===== *)
(** * Causal chains of hazard events
    ([src/db/causal_repository.py], [find_causal_chain*] of [src/db/repository.py],
    [src/tools/osm_boundaries/client.py], [src/orchestrator/agents/causal_chain/agent.py])

    The recursive query as the database evaluates it (anchors, then one join per
    level, until a level is empty), its rows as evidence, the resolution of an
    administrative boundary and the agent that uses both.  PostGIS predicates,
    the order of rows of equal depth and the parsing of geometries and UUIDs are
    arguments.  A statement fails with a text when the session's script says so. *)

From S2P Require Import Prelude PyFloat FloatRound PyStr Effects Settings RedisKeys Uncertainty CircuitBreaker Resilience.
From S2P Require Import AgentIO DataSources DomainAgents.
From Stdlib Require Import Ascii Sorting.Sorted.

(** ** Tables *)

Section tables.
Variable Geom : Type.

Record HazardEvent := {
  he_id : uuid;
  he_event_type : string;
  he_region : option Geom;
  he_region_label : option string;
  he_details : option string;
}.

(** [confidence] is [Numeric(3, 2)]: hundredths. *)
Record HazardRelationship := {
  hr_id : uuid;
  hr_parent_id : uuid;
  hr_child_id : uuid;
  hr_confidence : Z;
}.

Record AdministrativeBoundary := {
  ab_id : uuid;
  ab_osm_id : string;
  ab_name : string;
  ab_admin_level : option Z;
  ab_geom : Geom;
}.

Record tables := Tables {
  hazard_events : list HazardEvent;
  hazard_relationships : list HazardRelationship;
  administrative_boundaries : list AdministrativeBoundary;
  outcomes : list (option string);     (* text of the failure of each coming statement, if it fails *)
}.
End tables.

Arguments he_id {Geom} _.
Arguments he_event_type {Geom} _.
Arguments he_region {Geom} _.
Arguments he_region_label {Geom} _.
Arguments he_details {Geom} _.
Arguments ab_id {Geom} _.
Arguments ab_osm_id {Geom} _.
Arguments ab_name {Geom} _.
Arguments ab_admin_level {Geom} _.
Arguments ab_geom {Geom} _.
Arguments Tables {Geom} _ _ _ _.
Arguments hazard_events {Geom} _.
Arguments hazard_relationships {Geom} _.
Arguments administrative_boundaries {Geom} _.
Arguments outcomes {Geom} _.

(** ** The recursive query *)

(** A row of [causal_path]. *)
Record path_row := PathRow {
  event_id : uuid;
  event_type : string;
  region : option string;
  details : option string;
  path_ids : list uuid;
  path_types : list string;
  depth : Z;
  edge_confidences : list Z;
}.

Section query.
Context {Geom : Type}.
Variables (events : list (HazardEvent Geom)) (relationships : list HazardRelationship) (max_depth : Z).

Definition anchor_row (he : HazardEvent Geom) : path_row :=
  PathRow (he_id he) (he_event_type he) (he_region_label he) (he_details he) [he_id he] [he_event_type he] 1 [].

(** Anchor member. *)
Definition is_anchor (near : Geom -> bool) (type : string) (he : HazardEvent Geom) : bool :=
  String.eqb (he_event_type he) type && match he_region he with Some g => near g | None => false end.

Definition anchors (near : Geom -> bool) (type : string) : list (HazardEvent Geom) :=
  List.filter (is_anchor near type) events.

(** Recursive member: the rows that follow [cp] through [hr] to [child]. *)
Definition follows (cp : path_row) (hr : HazardRelationship) (child : HazardEvent Geom) : bool :=
  String.eqb (event_id cp) (hr_parent_id hr) && String.eqb (hr_child_id hr) (he_id child) &&
  (depth cp <? max_depth) && negb (bool_decide (he_id child ∈ path_ids cp)).

Definition child_row (cp : path_row) (hr : HazardRelationship) (child : HazardEvent Geom) : path_row :=
  PathRow (he_id child) (he_event_type child) (he_region_label child) (he_details child)
    (path_ids cp ++ [he_id child]) (path_types cp ++ [he_event_type child]) (depth cp + 1)
    (edge_confidences cp ++ [hr_confidence hr]).

Definition joins (cp : path_row) : list (HazardRelationship * HazardEvent Geom) :=
  List.filter (fun p => follows cp p.1 p.2) (list_prod relationships events).

Definition next_level (working : list path_row) : list path_row :=
  flat_map (fun cp => map (fun p => child_row cp p.1 p.2) (joins cp)) working.

(** The working tables, one per level, until one is empty. *)
Fixpoint levels (fuel : nat) (working : list path_row) : list (list path_row) :=
  match working, fuel with
  | [], _ => []
  | _, O => [working]
  | _, S fuel => working :: levels fuel (next_level working)
  end.

(** No row is deeper than [max_depth]: that many levels are all there are. *)
Definition causal_path (arrange : list path_row -> list path_row) (start : list (HazardEvent Geom)) : list path_row :=
  flat_map arrange (levels (Z.to_nat max_depth) (map anchor_row start)).
End query.

(** ** Rows as evidence *)

(** [float(c)] of a numeric with two decimals. *)
Definition hundredths (c : Z) : float := flit c 100.

Definition calculate_chain_confidence (edge_confidences : list float) : float :=
  match edge_confidences with [] => f1 | x :: xs => fmin_list x xs end.

(** [x or d] on text. *)
Definition or_text (x : option string) (d : string) : string := if ostr_truthy x then default "" x else d.

(** What differs between the two queries. *)
Record labels := Labels {
  l_source : string;
  l_prefix : string;
  l_document_id : string;
  l_extra : list (string * json);
}.

Section evidence.
Variable uuid4 : nat -> uuid.
Variable today : Z.
Variable l : labels.

Definition chain_str (row : path_row) : string := join " -> " (path_types row).

Definition chain_metadata (row : path_row) : list (string * json) :=
  [("visited_event_ids", JList (map JStr (path_ids row))); ("event_chain_path", JList (map JStr (path_types row)));
   ("depth", JInt (depth row)); ("edge_confidences", JList (map (fun c => JFloat (hundredths c)) (edge_confidences row)))] ++
  l_extra l.

(** [Evidence(...)] with the legacy [confidence]; pydantic's [ValidationError] is
    a [ValueError]. *)
Definition chain_evidence (n : nat) (row : path_row) : result pyexn Evidence :=
  match init_uncertainty (Some (calculate_chain_confidence (map hundredths (edge_confidences row)))) None with
  | Raise _ => Raise ValueError
  | Ok u =>
      Ok {| ev_id := uuid4 n; ev_source := l_source l;
            ev_claim := l_prefix l +:+ or_text (region row) "unspecified region" +:+ ": " +:+ chain_str row +:+
                        ". Initial trigger details: " +:+ or_text (details row) "N/A";
            ev_uncertainty := u; ev_retrieved_at := today; ev_document_id := Some (l_document_id l);
            ev_chunk_id := Some (inl (event_id row)); ev_title := Some ("Causal Path: " +:+ chain_str row);
            ev_source_url := Some "http://db.planetaryrisk.org/causal_chains";
            ev_extra_metadata := chain_metadata row; ev_uncertainty_bounds := None; ev_assumptions := None |}
  end.

(** The loop over the rows; [n] items are already built. *)
Fixpoint rows_evidence (n : nat) (rows : list path_row) : result pyexn (list Evidence) :=
  match rows with
  | [] => Ok []
  | row :: rows =>
      if depth row <? 2 then rows_evidence n rows
      else e ← chain_evidence n row; es ← rows_evidence (S n) rows; Ok (e :: es)
  end.
End evidence.

(** ** Sessions *)

Section session.
Context {Geom : Type}.
Notation tables := (tables Geom).

Definition execute : M tables unit := fun w =>
  let rest := Tables (hazard_events w) (hazard_relationships w) (administrative_boundaries w) (tl (outcomes w)) in
  match head (outcomes w) with
  | Some (Some t) => (Raise (OtherError t), rest)
  | _ => (Ok tt, rest)
  end.

(** [str(e)] of a failed statement. *)
Definition db_text (e : pyexn) : string := match e with OtherError t => t | _ => "" end.

Definition cancelled (e : pyexn) : bool :=
  let err_msg := lower (db_text e) in
  contains "57014" err_msg || contains "query canceled" err_msg || contains "statement timeout" err_msg.

Definition look {A} (read : tables -> A) : M tables A := fun w => (Ok (read w), w).

(** [SET LOCAL statement_timeout], the query, and its errors. *)
Definition guarded {A} (timeout_msg : string) (read : tables -> A) : M tables A :=
  try_except
    (execute ;; execute ;; look read)
    (fun e => if cancelled e then execute ;; raise (TimeoutError timeout_msg) else raise e).

Variable arrange : list path_row -> list path_row.
Variable ST_DWithin : Geom -> json * json -> float -> bool.    (* region, (lat, lon), metres *)
Variable ST_Within : Geom -> Geom -> bool.
Variable uuid4 : nat -> uuid.
Variable today : Z.

Definition radius_anchors (type : string) (point : json * json) (radius_meters : float) (w : tables)
    : list (HazardEvent Geom) :=
  anchors (hazard_events w) (fun g => ST_DWithin g point radius_meters) type.

(** [FROM hazard_events he, target_boundary tb] *)
Definition boundary_anchors (type : string) (boundary_id : uuid) (w : tables) : list (HazardEvent Geom) :=
  flat_map (fun tb => anchors (hazard_events w) (fun g => ST_Within g (ab_geom tb)) type)
    (List.filter (fun tb => String.eqb (ab_id tb) boundary_id) (administrative_boundaries w)).

Definition radius_labels : labels :=
  Labels "Causal Chain Traversal" "Historical causal chain in " "causal_chain" [].
Definition boundary_labels (boundary_id : uuid) : labels :=
  Labels "Causal Chain Traversal (Boundary Mode)" "Historical causal chain in boundary " "causal_chain_boundary"
    [("boundary_id", JStr boundary_id)].

Definition find_causal_chain (type : string) (point : json * json) (radius_meters : float) (max_depth : Z)
    : M tables (list Evidence) :=
  rows ← guarded "causal chain query exceeded time budget"
    (fun w => causal_path (hazard_events w) (hazard_relationships w) max_depth arrange
                (radius_anchors type point radius_meters w));
  lift (rows_evidence uuid4 today radius_labels 0 rows).

Definition find_causal_chain_within_boundary (type : string) (boundary_id : uuid) (max_depth : Z)
    : M tables (list Evidence) :=
  rows ← guarded "causal chain boundary query exceeded time budget"
    (fun w => causal_path (hazard_events w) (hazard_relationships w) max_depth arrange
                (boundary_anchors type boundary_id w));
  lift (rows_evidence uuid4 today (boundary_labels boundary_id) 0 rows).

(** The functions of [db/repository.py]: a session or a [RuntimeError]. *)
Definition with_session {A} (ready : bool) (m : M tables A) : M tables A := if ready then m else raise RuntimeError.
End session.

(** ** Administrative boundaries *)

(** [int(j)] *)
Definition py_int (j : json) : result pyexn Z :=
  match j with
  | JInt n => Ok n
  | JBool b => Ok (Z.b2z b)
  | JFloat x => match float_trunc x with Some n => Ok n | None => Raise ValueError end
  | JStr s => match int_of_str s with Some n => Ok n | None => Raise ValueError end
  | _ => Raise TypeError
  end.

Fixpoint rstrip_slash (s : string) : string :=
  match s with
  | EmptyString => ""
  | String c s' =>
      let t := rstrip_slash s' in
      if Ascii.eqb c "/" && negb (str_truthy t) then "" else String c t
  end.

(** [admin_level] is a 32-bit column. *)
Definition int32 (n : Z) : bool := (- 2 ^ 31 <=? n) && (n <? 2 ^ 31).

Section boundaries.
Context {Geom S : Type} `{!Redis S text} `{!IsoTime} `{!Tenacity} `{!RawText}.
Notation W := (S * tables Geom)%type.
Variable settings : Settings.
Variable http_get : string -> dict -> dict -> M S HttpResponse.
Variables now later : string -> string -> Z.
Variable str : json -> string.
Variable geom_of_geojson : json -> option Geom.     (* [ST_Multi(ST_SetSRID(ST_GeomFromGeoJSON(...), 4326))] *)
Variable covers : Geom -> json * json -> bool.      (* [ST_Within(ST_MakePoint(lon, lat), geom)] *)
Variable new_boundary_id : uuid.                    (* [uuid.uuid4()] *)
Variable session_ready : bool.                      (* [AsyncSessionLocal is not None] *)

Definition on_redis {A} (m : M S A) : M W A := fun w => let '(r, s) := m w.1 in (r, (s, w.2)).
Definition on_tables {A} (m : M (tables Geom) A) : M W A := fun w => let '(r, t) := m w.2 in (r, (w.1, t)).

Definition rounded3 (j : json) : result pyexn string := r ← jround 3 j; Ok (str r).

(** [RedisKeyBuilder.boundary_key] *)
Definition boundary_key (lat lon : json) : result pyexn string :=
  a ← rounded3 lat; b ← rounded3 lon; Ok ("gaiaos:cache:boundary:" +:+ a +:+ ":" +:+ b).

(** The cached document, when Redis has a readable dict. *)
Definition cached_boundary (key : string) : M S (option json) :=
  try_except
    (raw ← redis_get key;
     match raw with
     | Some t => j ← lift (json_loads t); lift (jget j "id" JNull) ;; lift (jget j "name" JNull) ;; mret (Some j)
     | None => mret None
     end)
    (fun _ => mret None).

Definition _fetch_nominatim (lat lon : json) : M S json :=
  resp ← http_get (rstrip_slash (nominatim_api_url settings) +:+ "/reverse")
    [("format", JStr "jsonv2"); ("lat", JStr (str lat)); ("lon", JStr (str lon)); ("polygon_geojson", JStr "1")]
    [("User-Agent", JStr "GaiaOS/0.5.4 (https://github.com/Diyaaa-12/GaiaOS)")];
  found ← lift (if status_code resp =? 200 then
                  data ← body resp;
                  if jtruthy data then has ← jin "osm_id" data; Ok (if (has : bool) then data else JNull) else Ok JNull
                else Ok JNull);
  match found with
  | JNull => lift (raise_for_status resp) ;; mret JNull
  | data => mret data
  end.

(** The columns read from a Nominatim answer. *)
Record osm_answer := OsmAnswer {
  full_osm_id : string;
  osm_name : json;
  osm_admin_level : Z;
  osm_geojson : json;
}.

Definition osm_name_of (raw_osm : json) : result pyexn json :=
  name ← jget raw_osm "name" JNull;
  if jtruthy name then Ok name
  else
    d ← jget raw_osm "display_name" (JStr "");
    match d with
    | JStr d => Ok (jor (JStr (before_char "," d)) (JStr "Unknown"))
    | _ => Raise (OtherError "AttributeError")
    end.

Definition read_osm (raw_osm : json) : result pyexn osm_answer :=
  osm_type ← jget raw_osm "osm_type" (JStr "relation");
  raw_id ← jget raw_osm "osm_id" (JStr "");
  name ← osm_name_of raw_osm;
  rank ← jget raw_osm "place_rank" (JInt 10);
  admin_level ← py_int rank;
  geojson ← jget raw_osm "geojson" JNull;
  Ok (OsmAnswer (str osm_type +:+ "/" +:+ str raw_id) name admin_level geojson).

Definition boundary_doc (b : AdministrativeBoundary Geom) : json :=
  JObj [("id", JStr (ab_id b)); ("osm_id", JStr (ab_osm_id b)); ("name", JStr (ab_name b));
        ("admin_level", match ab_admin_level b with Some n => JInt n | None => JNull end)].

(** [INSERT ... ON CONFLICT (osm_id) DO UPDATE ... RETURNING]: an existing row
    keeps its identifier. *)
Definition upserted (row : AdministrativeBoundary Geom) (l : list (AdministrativeBoundary Geom))
    : AdministrativeBoundary Geom * list (AdministrativeBoundary Geom) :=
  match List.find (fun b => String.eqb (ab_osm_id b) (ab_osm_id row)) l with
  | Some old =>
      let row := {| ab_id := ab_id old; ab_osm_id := ab_osm_id row; ab_name := ab_name row;
                    ab_admin_level := ab_admin_level row; ab_geom := ab_geom row |} in
      (row, map (fun b => if String.eqb (ab_osm_id b) (ab_osm_id row) then row else b) l)
  | None => (row, l ++ [row])
  end.

Definition set_boundaries (l : list (AdministrativeBoundary Geom)) (w : tables Geom) : tables Geom :=
  Tables (hazard_events w) (hazard_relationships w) l (outcomes w).

(** The columns the statement binds: text, a 32-bit level, a readable geometry. *)
Definition bound_row (a : osm_answer) : option (AdministrativeBoundary Geom) :=
  match osm_name a, geom_of_geojson (osm_geojson a) with
  | JStr name, Some g =>
      if int32 (osm_admin_level a)
      then Some {| ab_id := new_boundary_id; ab_osm_id := full_osm_id a; ab_name := name;
                   ab_admin_level := Some (osm_admin_level a); ab_geom := g |}
      else None
  | _, _ => None
  end.

Definition upsert_boundary (a : osm_answer) : M (tables Geom) (option json) :=
  match bound_row a with
  | None => execute ;; raise (OtherError "DataError")
  | Some row =>
      execute ;;
      let commit : M (tables Geom) json := fun w =>
        let '(r, l) := upserted row (administrative_boundaries w) in
        match execute w with
        | (Ok _, w') => (Ok (boundary_doc r), set_boundaries l w')
        | (Raise e, w') => (Raise e, w')
        end in
      doc ← commit; mret (Some doc)
  end.

(** [ORDER BY admin_level DESC LIMIT 1]: a missing level sorts first. *)
Definition level_ge (a b : AdministrativeBoundary Geom) : bool :=
  match ab_admin_level a, ab_admin_level b with
  | None, _ => true
  | Some _, None => false
  | Some x, Some y => y <=? x
  end.

Fixpoint finest (l : list (AdministrativeBoundary Geom)) : option (AdministrativeBoundary Geom) :=
  match l with
  | [] => None
  | b :: l => match finest l with Some c => Some (if level_ge b c then b else c) | None => Some b end
  end.

Definition enclosing (lat lon : json) : M (tables Geom) (option json) :=
  execute ;;
  look (fun w => boundary_doc <$> finest (List.filter (fun b => covers (ab_geom b) (lat, lon)) (administrative_boundaries w))).

Definition or_none {W' A} (m : M W' (option A)) : M W' (option A) := try_except m (fun _ => mret None).

(** Step 3: an answer with a geometry is stored. *)
Definition from_nominatim (v : json) : M W (option json) :=
  match v with
  | JNull => mret None
  | raw_osm =>
      a ← lift (read_osm raw_osm);
      if jtruthy (osm_geojson a) && session_ready then on_tables (or_none (upsert_boundary a)) else mret None
  end.

Definition resolve_boundary (lat lon : json) : M W (option json) :=
  cache_key ← lift (boundary_key lat lon);
  cached ← on_redis (cached_boundary cache_key);
  match cached with
  | Some doc => mret (Some doc)
  | None =>
      a ← lift (rounded3 lat); b ← lift (rounded3 lon);
      result ← on_redis (source_call settings now later "osm" (_fetch_nominatim lat lon) ("nominatim_reverse:" +:+ a +:+ ":" +:+ b));
      stored ← from_nominatim (value result);
      found ← (match stored with
               | Some doc => mret (Some doc)
               | None => if session_ready then on_tables (or_none (enclosing lat lon)) else mret None
               end : M W (option json));
      match found with
      | Some doc =>
          on_redis (try_except (redis_set cache_key (json_dumps doc) (assoc "osm" TTL_BY_SOURCE)) (fun _ => mret tt)) ;;
          mret (Some doc)
      | None => mret None
      end
  end.
End boundaries.

(** ** The agent *)

Definition _extract_event_type (query : string) : string :=
  let q := lower query in
  let has x := contains x q in
  if has "satellite wildfire" || has "copernicus" then "wildfire_satellite"
  else if has "atmospheric anomaly" || has "era5" || has "reanalysis" then "atmospheric_anomaly"
  else if has "unrest" || has "gdelt" || has "civil" || has "socio" then "civil_unrest_hazard_adjacent"
  else if has "earthquake" || has "seismic" then "earthquake"
  else if has "wildfire" || has "fire" then "wildfire"
  else if has "heatwave" || has "marine heatwave" then "marine heatwave"
  else "earthquake".

Section agent.
Context {Geom S : Type} `{!Redis S text} `{!IsoTime} `{!Tenacity} `{!RawText}.
Notation W := (S * tables Geom)%type.
Variable settings : Settings.
Variable http_get : string -> dict -> dict -> M S HttpResponse.
Variables now later : string -> string -> Z.
Variable str : json -> string.
Variables sin cos : float -> float.
Variables atan2 pow : float -> float -> float.
Variable parse_float : string -> option float.
Variable exn_text : pyexn -> string.
Variable parse_uuid : string -> option uuid.
Variable geom_of_geojson : json -> option Geom.
Variable covers : Geom -> json * json -> bool.
Variable arrange : list path_row -> list path_row.
Variable ST_DWithin : Geom -> json * json -> float -> bool.
Variable ST_Within : Geom -> Geom -> bool.
Variable uuid4 : nat -> uuid.
Variable new_boundary_id : uuid.
Variable session_ready : bool.
Variable today : Z.

Definition causal_output (evidence : list Evidence) (errors : list string) : AgentOutput :=
  {| agent_name := "causal_chain"; AgentIO.evidence := evidence; AgentIO.errors := errors |}.

Definition locate (location : string) : M W (json * json) :=
  geo ← on_redis (geocode_location settings http_get now later str sin cos atan2 pow parse_float location);
  lat ← lift (jindex geo "lat"); lon ← lift (jindex geo "lon");
  mret (lat, lon).

(** Step 2: the chains inside the boundary around the point, if there is one. *)
Definition boundary_mode (type : string) (point : json * json) : M W (list Evidence) :=
  info ← resolve_boundary settings http_get now later str geom_of_geojson covers new_boundary_id session_ready point.1 point.2;
  match info with
  | Some doc =>
      has ← lift (if jtruthy doc then jin "id" doc else Ok false);
      if (has : bool) then
        id ← lift (jindex doc "id");
        match parse_uuid (str id) with
        | None => raise ValueError
        | Some boundary_id =>
            on_tables (with_session session_ready
              (find_causal_chain_within_boundary arrange ST_Within uuid4 today type boundary_id 4))
        end
      else mret []
  | None => mret []
  end.

(** Its outcome: evidence, or what the radius search has to report. *)
Definition boundary_step (type : string) (point : json * json) : M W (list Evidence * list string) :=
  if enable_boundary_reasoning settings then
    try_except
      (evs ← boundary_mode type point; mret (evs, []))
      (fun e => mret ([], ["Boundary mode lookup failed, falling back to radius search: " +:+ exn_text e]))
  else mret ([], []).

Definition radius_step (type : string) (point : json * json) (errors : list string) : M W AgentOutput :=
  try_except
    (evs ← on_tables (with_session session_ready
             (find_causal_chain arrange ST_DWithin uuid4 today type point (causal_chain_search_radius_meters settings) 4));
     mret (causal_output evs errors))
    (fun e =>
       let text := match e with
                   | TimeoutError m => "causal chain query exceeded time budget: " +:+ m
                   | e => "Failed to query causal chain: " +:+ exn_text e
                   end in
       mret (causal_output [] (errors ++ [text]))).

Definition run_causal_chain (input : AgentInput) : M W AgentOutput :=
  let location := location_of _extract_location input in
  let type := _extract_event_type (in_query input) in
  fun w =>
    match locate location w with
    | (Raise ValueError, w') => (Ok (causal_output [] ["could not resolve region for causal analysis"]), w')
    | (Raise e, w') => (Ok (causal_output [] ["could not resolve region for causal analysis: " +:+ exn_text e]), w')
    | (Ok point, w') =>
        (found ← boundary_step type point;
         match found with
         | ((_ :: _) as evs, _) => mret (causal_output evs [])
         | ([], errors) => radius_step type point errors
         end) w'
    end.
End agent.

(** ** Lists *)

Lemma NoDup_flat_map {A B} (f : A -> list B) l : NoDup l -> (forall x, x ∈ l -> NoDup (f x)) ->
  (forall x y z, x ∈ l -> y ∈ l -> z ∈ f x -> z ∈ f y -> x = y) -> NoDup (flat_map f l).
Proof.
  induction l as [|x l IH]; intros Hl Hf Hd; cbn; [constructor|].
  inversion Hl as [|? ? Hx Hl']; subst. apply NoDup_app. split; [apply Hf; by left|]. split.
  - intros z Hz (y & Hy & Hz')%Regex.elem_of_flat_map. assert (x = y) as -> by (apply (Hd x y z); [by left | by right | done..]). done.
  - apply IH; [done | intros; apply Hf; by right |]. intros y y' z Hy Hy'. apply Hd; by right.
Qed.

Lemma NoDup_map_by_inj {A B} (f : A -> B) l : Inj (=) (=) f -> NoDup l -> NoDup (map f l).
Proof. intros Hf. apply NoDup_fmap_2. exact Hf. Qed.

Lemma NoDup_unmap {A B} (f : A -> B) l : NoDup (map f l) -> NoDup l.
Proof. apply NoDup_fmap_1. Qed.

Lemma NoDup_prod {A B} (l : list A) (k : list B) : NoDup l -> NoDup k -> NoDup (list_prod l k).
Proof.
  intros Hl Hk. induction l as [|x l IH]; cbn; [constructor|]. inversion Hl as [|? ? Hx Hl']; subst.
  apply NoDup_app. split; [apply NoDup_map_by_inj; [by intros a b [= ->] | done]|]. split; [|by apply IH].
  intros [a b] (y & [= -> ->] & _)%list_elem_of_fmap Hin. rewrite list_elem_of_In, in_prod_iff, <- !list_elem_of_In in Hin. naive_solver.
Qed.

Lemma NoDup_Lfilter {A} (f : A -> bool) l : NoDup l -> NoDup (List.filter f l).
Proof. rewrite !NoDup_ListNoDup. apply List.NoDup_filter. Qed.

(** ** Chains *)

(** A chain: its first event, then the relationships followed with the events
    they lead to. *)
Definition chain (Geom : Type) : Type := HazardEvent Geom * list (HazardRelationship * HazardEvent Geom).

Section chains.
Context {Geom : Type}.
Implicit Types (c : chain Geom) (e : HazardEvent Geom).
Variables (events : list (HazardEvent Geom)) (relationships : list HazardRelationship) (max_depth : Z).

Definition chain_events c : list (HazardEvent Geom) := c.1 :: map snd c.2.
Definition last_event c : HazardEvent Geom := List.last (chain_events c) c.1.
Definition extend c (p : HazardRelationship * HazardEvent Geom) : chain Geom := (c.1, c.2 ++ [p]).

(** Each relationship leads from the event before it to the event after it. *)
Fixpoint linked e (l : list (HazardRelationship * HazardEvent Geom)) : Prop :=
  match l with
  | [] => True
  | (r, e') :: l => r ∈ relationships /\ e' ∈ events /\ hr_parent_id r = he_id e /\ hr_child_id r = he_id e' /\ linked e' l
  end.

(** A chain that starts at one of [start] and visits no event twice. *)
Definition causal_chain (start : list (HazardEvent Geom)) c : Prop :=
  c.1 ∈ start /\ linked c.1 c.2 /\ NoDup (map he_id (chain_events c)).

Definition row_of c : path_row :=
  PathRow (he_id (last_event c)) (he_event_type (last_event c)) (he_region_label (last_event c)) (he_details (last_event c))
    (map he_id (chain_events c)) (map he_event_type (chain_events c)) (Z.of_nat (length c.2) + 1)
    (map (fun p => hr_confidence p.1) c.2).

Lemma chain_events_extend c p : chain_events (extend c p) = chain_events c ++ [p.2].
Proof. unfold chain_events, extend. cbn. by rewrite map_app. Qed.

Lemma last_event_extend c p : last_event (extend c p) = p.2.
Proof. unfold last_event. by rewrite chain_events_extend, List.last_last. Qed.

Lemma row_of_extend c p : row_of (extend c p) = child_row (row_of c) p.1 p.2.
Proof.
  unfold row_of, child_row. rewrite last_event_extend, chain_events_extend, !map_app. cbn. f_equal.
  - rewrite length_app. cbn. lia.
  - by rewrite map_app.
Qed.

Definition chain_next c : list (chain Geom) := map (extend c) (joins events relationships max_depth (row_of c)).

(** Chains of [n] relationships. *)
Fixpoint chains_at (start : list (HazardEvent Geom)) (n : nat) : list (chain Geom) :=
  match n with
  | O => map (fun e => (e, [])) start
  | S n => flat_map chain_next (chains_at start n)
  end.

Lemma next_level_rows cs : next_level events relationships max_depth (map row_of cs) = map row_of (flat_map chain_next cs).
Proof.
  unfold next_level. induction cs as [|c cs IH]; [done|]. cbn. rewrite IH, map_app. f_equal.
  unfold chain_next. rewrite map_map. apply map_ext. intros p. by rewrite row_of_extend.
Qed.


Lemma last_default {A} (l : list A) (x d d' : A) : List.last (x :: l) d = List.last (x :: l) d'.
Proof. revert x. induction l as [|y l IH]; intros x; [done|]. apply IH. Qed.

(** The end of a chain is where the next relationship must start. *)
Lemma linked_snoc e l r e' :
  linked e (l ++ [(r, e')]) <-> linked e l /\ r ∈ relationships /\ e' ∈ events /\
    hr_parent_id r = he_id (last_event (e, l)) /\ hr_child_id r = he_id e'.
Proof.
  revert e. induction l as [|[r1 e1] l IH]; intros e; cbn -[last_event].
  - cbn. tauto.
  - rewrite IH. replace (last_event (e, (r1, e1) :: l)) with (last_event (e1, l)); [tauto|].
    unfold last_event, chain_events. cbn [fst snd map].
    transitivity (List.last (e1 :: map snd l) e); [apply last_default | done].
Qed.

Lemma joins_spec c p : p ∈ joins events relationships max_depth (row_of c) <->
  p.1 ∈ relationships /\ p.2 ∈ events /\ hr_parent_id p.1 = he_id (last_event c) /\ hr_child_id p.1 = he_id p.2 /\
  Z.of_nat (length c.2) + 1 < max_depth /\ he_id p.2 ∉ map he_id (chain_events c).
Proof.
  unfold joins. rewrite Regex.elem_of_Lfilter, list_elem_of_In. destruct p as [r e]. rewrite in_prod_iff, <- !list_elem_of_In.
  unfold follows, row_of. cbn [event_id depth path_ids fst snd].
  rewrite !andb_true_iff, negb_true_iff, bool_decide_eq_false, Z.ltb_lt, !String.eqb_eq. naive_solver.
Qed.

(** The chains of [n] relationships, and no others. *)
Lemma chains_at_spec start n c : c ∈ chains_at start n <->
  causal_chain start c /\ length c.2 = n /\ (n = 0%nat \/ Z.of_nat n < max_depth).
Proof.
  revert c. induction n as [|n IH]; intros [e l]; cbn [chains_at].
  - rewrite list_elem_of_fmap. unfold causal_chain. cbn. split.
    + intros (x & [= -> ->] & Hx). cbn. repeat split; auto. apply NoDup_singleton.
    + intros ((Hs & _) & Hl & _). apply nil_length_inv in Hl as ->. eauto.
  - rewrite Regex.elem_of_flat_map. setoid_rewrite list_elem_of_fmap. setoid_rewrite joins_spec. setoid_rewrite IH. split.
    + intros ([e0 l0] & (Hc & Hl & Hd) & [r e'] & [= -> ->] & Hr & He & Hp & Hch & Hm & Hn). cbn in *.
      destruct Hc as (Hs & Hk & Hnd). split; [|rewrite length_app; cbn; split; [lia | right; lia]].
      split; [done|]. split; [apply linked_snoc; auto|].
      change (e0, l0 ++ [(r, e')]) with (extend (e0, l0) (r, e')). rewrite chain_events_extend, map_app. apply NoDup_app. split; [done|].
      split; [|apply NoDup_singleton]. intros x Hx ->%list_elem_of_singleton. done.
    + intros ((Hs & Hk & Hnd) & Hl & Hd). cbn in Hs, Hk, Hl. destruct l as [|[r e'] l _] using rev_ind; [done|].
      apply linked_snoc in Hk as (Hk & Hr & He & Hp & Hch).
      change (e, l ++ [(r, e')]) with (extend (e, l) (r, e')) in Hnd. rewrite chain_events_extend, map_app in Hnd. apply NoDup_app in Hnd as (Hnd & Hni & _).
      rewrite length_app in Hl. cbn in Hl. exists (e, l). cbn. split.
      * split; [done|]. split; lia.
      * exists (r, e'). split; [done|]. cbn. repeat split; auto; [lia|]. intros Hin. apply (Hni _ Hin). by left.
Qed.

Lemma extend_inj c c' p p' : extend c p = extend c' p' -> c = c' /\ p = p'.
Proof. destruct c as [e l], c' as [e' l']. unfold extend. cbn. intros [= -> [-> ->]%app_inj_tail]. done. Qed.

Lemma chains_at_NoDup start n : NoDup start -> NoDup events -> NoDup relationships -> NoDup (chains_at start n).
Proof.
  intros Hs He Hr. induction n as [|n IH]; cbn.
  - apply NoDup_map_by_inj; [by intros a b [= ->] | done].
  - apply NoDup_flat_map; [done| |].
    + intros c _. apply NoDup_map_by_inj; [intros p p' Hp; by apply extend_inj in Hp as [_ ?]|].
      by apply NoDup_Lfilter, NoDup_prod.
    + intros c c' x _ _ (p & -> & _)%list_elem_of_fmap (p' & Hp & _)%list_elem_of_fmap. by apply extend_inj in Hp as [? _].
Qed.

Lemma chains_at_empty start n m : chains_at start n = [] -> (n <= m)%nat -> chains_at start m = [].
Proof. intros Hn. induction 1 as [|m _ IH]; [done|]. cbn. by rewrite IH. Qed.

(** The levels from the [n]-th on. *)
Lemma levels_chains (arrange : list path_row -> list path_row) fuel start n : arrange [] = [] ->
  flat_map arrange (levels events relationships max_depth fuel (map row_of (chains_at start n))) =
  flat_map (fun k => arrange (map row_of (chains_at start k))) (seq n (Datatypes.S fuel)).
Proof.
  intros Ha. revert n. induction fuel as [|fuel IH]; intros n.
  - cbn. by destruct (map row_of _) eqn:E; cbn; rewrite ?Ha.
  - assert (levels events relationships max_depth (Datatypes.S fuel) (map row_of (chains_at start n)) =
      match map row_of (chains_at start n) with
      | [] => []
      | l => l :: levels events relationships max_depth fuel (map row_of (chains_at start (Datatypes.S n)))
      end) as ->.
    { cbn. destruct (map row_of (chains_at start n)) as [|x l] eqn:E; [done|]. by rewrite <- E, next_level_rows. }
    change (seq n (Datatypes.S (Datatypes.S fuel))) with (n :: seq (Datatypes.S n) (Datatypes.S fuel)). cbn [flat_map].
    rewrite <- IH. destruct (map row_of (chains_at start n)) as [|x l] eqn:E; [|done].
    apply map_eq_nil in E. rewrite (chains_at_empty start n (Datatypes.S n) E) by lia. cbn. rewrite Ha. by destruct fuel.
Qed.

(** Shorter chains first. *)
Definition shorter c c' : Prop := (length c.2 <= length c'.2)%nat.

Lemma elem_of_chains start n k c : c ∈ flat_map (chains_at start) (seq n k) <->
  causal_chain start c /\ (n <= length c.2 < n + k)%nat /\ (length c.2 = 0%nat \/ Z.of_nat (length c.2) < max_depth).
Proof.
  rewrite Regex.elem_of_flat_map. setoid_rewrite chains_at_spec. setoid_rewrite elem_of_seq. naive_solver.
Qed.

Lemma sorted_app (l l' : list (chain Geom)) : StronglySorted shorter l -> StronglySorted shorter l' ->
  (forall c c', c ∈ l -> c' ∈ l' -> shorter c c') -> StronglySorted shorter (l ++ l').
Proof.
  induction 1 as [|c l Hl IH Hc]; intros Hs Hd; [done|]. cbn. constructor.
  - apply IH; [done|]. intros; apply Hd; [by right | done].
  - apply Forall_app. split; [done|]. apply Forall_forall. intros c' Hc'. apply Hd; [by left | done].
Qed.

Lemma same_length_sorted (l : list (chain Geom)) n : (forall c, c ∈ l -> length c.2 = n) -> StronglySorted shorter l.
Proof.
  induction l as [|c l IH]; intros Hn; constructor; [apply IH; intros; apply Hn; by right|].
  apply Forall_forall. intros c' Hc'. unfold shorter. rewrite !Hn; [lia | by right | by left].
Qed.

Lemma path_chains (arrange : list path_row -> list path_row) start k : (forall l, arrange l ≡ₚ l) -> forall n, exists cs,
  flat_map (fun i => arrange (map row_of (chains_at start i))) (seq n k) = map row_of cs /\
  cs ≡ₚ flat_map (chains_at start) (seq n k) /\ StronglySorted shorter cs.
Proof.
  intros Ha. induction k as [|k IH]; intros n; [exists []; repeat constructor|].
  destruct (IH (Datatypes.S n)) as (cs & E & Hp & Hs). cbn. rewrite E.
  destruct (Permutation_map_inv _ _ (Ha (map row_of (chains_at start n)))) as (l & -> & Hl).
  exists (l ++ cs). rewrite map_app. split; [done|]. split; [by rewrite Hl, Hp|]. apply sorted_app.
  - apply (same_length_sorted _ n). intros c Hc. rewrite <- Hl in Hc. by apply chains_at_spec in Hc as (_ & ? & _).
  - done.
  - intros c c' Hc Hc'. rewrite <- Hl in Hc. apply chains_at_spec in Hc as (_ & Hn & _).
    rewrite Hp in Hc'. apply elem_of_chains in Hc' as (_ & Hn' & _). unfold shorter. lia.
Qed.

(** The rows are the chains, each once, shorter ones first. *)
Lemma causal_path_chains (arrange : list path_row -> list path_row) start : (forall l, arrange l ≡ₚ l) ->
  NoDup start -> NoDup events -> NoDup relationships ->
  exists cs, causal_path events relationships max_depth arrange start = map row_of cs /\ NoDup cs /\
    StronglySorted shorter cs /\
    forall c, c ∈ cs <-> causal_chain start c /\ (length c.2 = 0%nat \/ Z.of_nat (length c.2) < max_depth).
Proof.
  intros Ha Hs He Hr. assert (arrange [] = []) as Hn by (apply Permutation_nil; symmetry; apply Ha).
  destruct (path_chains arrange start (Datatypes.S (Z.to_nat max_depth)) Ha 0) as (cs & E & Hp & Hsort).
  exists cs. split; [|split; [|split; [done|]]].
  - unfold causal_path. rewrite <- E, <- levels_chains by done. cbn [chains_at]. by rewrite map_map.
  - rewrite Hp. apply NoDup_flat_map; [apply NoDup_seq | intros; by apply chains_at_NoDup|].
    intros i j c _ _ Hi Hj. apply chains_at_spec in Hi as (_ & <- & _). by apply chains_at_spec in Hj as (_ & <- & _).
  - intros c. rewrite Hp, elem_of_chains. split; [naive_solver|]. intros [Hc Hd]. split; [done|]. split; [lia | done].
Qed.
End chains.

(** ** Evidence of a chain *)

Lemma hundredths_ok c : 0 <= c <= 100 -> fvalid (hundredths c) = true /\ in_unit (hundredths c) = true.
Proof.
  intros Hc. assert (forallb (fun n => fvalid (hundredths n) && in_unit (hundredths n)) (seqZ 0 101) = true) as H
    by by vm_compute.
  rewrite forallb_true in H. apply andb_true_iff, H, elem_of_seqZ. lia.
Qed.

(** The confidence of a chain is that of its weakest relationship. *)
Lemma weakest_link zs : zs <> [] -> Forall (fun c => 0 <= c <= 100) zs ->
  let f := calculate_chain_confidence (map hundredths zs) in
  (exists c, c ∈ zs /\ f = hundredths c) /\ forall c, c ∈ zs -> fle f (hundredths c).
Proof.
  destruct zs as [|x xs]; [done|]. intros _ Hu. cbn [calculate_chain_confidence map]. split.
  - pose proof (fmin_list_elem (hundredths x) (map hundredths xs)) as Hin.
    change (hundredths x :: map hundredths xs) with (map hundredths (x :: xs)) in Hin.
    apply list_elem_of_fmap in Hin as (c & ? & ?). eauto.
  - intros c Hc. rewrite Forall_forall in Hu. apply fmin_list_le.
    + apply Forall_forall. intros y Hy. change (hundredths x :: map hundredths xs) with (map hundredths (x :: xs)) in Hy.
      apply list_elem_of_fmap in Hy as (c' & -> & Hc'). apply in_unit_finite. by apply hundredths_ok, Hu.
    + change (hundredths x :: map hundredths xs) with (map hundredths (x :: xs)). by apply list_elem_of_fmap_2.
Qed.

Section described.
Context {Geom : Type}.
Variable uuid4 : nat -> uuid.
Variable today : Z.
Variable l : labels.
Implicit Types c : chain Geom.

(** What an item tells of a chain: its path, where it ends, and the confidence of
    its weakest relationship. *)
Definition describes c (e : Evidence) : Prop :=
  ev_source e = l_source l /\ ev_chunk_id e = Some (inl (he_id (last_event c))) /\
  ev_extra_metadata e = chain_metadata l (row_of c) /\ valid_estimate (ev_uncertainty e) = true /\
  (exists p, p ∈ c.2 /\ ev_confidence e = hundredths (hr_confidence p.1)) /\
  forall p, p ∈ c.2 -> fle (ev_confidence e) (hundredths (hr_confidence p.1)).

Definition is_path c : bool := (1 <=? length c.2)%nat.

Lemma row_evidence n c : Forall (fun p => 0 <= hr_confidence p.1 <= 100) c.2 -> is_path c = true ->
  exists e, chain_evidence uuid4 today l n (row_of c) = Ok e /\ describes c e.
Proof.
  intros Hu Hp. destruct c as [e0 [|p ps]]; [done|]. cbn [snd] in Hu.
  assert (Forall (fun z => 0 <= z <= 100) (map (fun p => hr_confidence p.1) (p :: ps))) as Hz by (by apply Forall_map).
  destruct (weakest_link (map (fun p => hr_confidence p.1) (p :: ps))) as [(z & Hz1 & Hz2) Hle]; [done..|]. unfold chain_evidence.
  set (f := calculate_chain_confidence _) in Hz2, Hle.
  change (calculate_chain_confidence (map hundredths (edge_confidences (row_of (e0, p :: ps))))) with f.
  assert (0 <= z <= 100) as Hzr by (rewrite Forall_forall in Hz; by apply Hz).
  destruct (init_ok f) as (u & -> & Hv & Hpt); [rewrite Hz2; by apply hundredths_ok..|].
  eexists. split; [done|]. do 4 (split; [done|]). unfold ev_confidence. cbn [ev_uncertainty]. rewrite Hpt. split.
  - apply list_elem_of_fmap in Hz1 as (q & -> & Hq). exists q. by rewrite Hz2.
  - intros q Hq. apply Hle. by apply (list_elem_of_fmap_2 (fun p => hr_confidence p.1)).
Qed.

Lemma rows_described cs : Forall (fun c => Forall (fun p => 0 <= hr_confidence p.1 <= 100) c.2) cs -> forall n,
  exists es, rows_evidence uuid4 today l n (map row_of cs) = Ok es /\ Forall2 describes (List.filter is_path cs) es.
Proof.
  induction 1 as [|c cs Hc _ IH]; intros n; [by exists []|]. cbn [map rows_evidence List.filter].
  assert ((depth (row_of c) <? 2) = negb (is_path c)) as ->.
  { unfold is_path. cbn [row_of depth]. destruct (length c.2) as [|m]; [done|]. apply Z.ltb_ge. lia. }
  destruct (is_path c) eqn:Ep; cbn [negb]; [|apply IH].
  destruct (row_evidence n c Hc Ep) as (e & -> & Hd). destruct (IH (S n)) as (es & E & Hes). cbn. rewrite E. eauto.
Qed.
End described.

(** ** The queries *)

Section queries.
Context {Geom : Type}.
Variable arrange : list path_row -> list path_row.
Hypothesis arrange_perm : forall l, arrange l ≡ₚ l.
Variable uuid4 : nat -> uuid.
Variable today : Z.

(** Rows with distinct identifiers, confidences between 0 and 1, statements that succeed. *)
Definition sane (w : tables Geom) : Prop :=
  NoDup (map he_id (hazard_events w)) /\ NoDup (map hr_id (hazard_relationships w)) /\
  NoDup (map ab_id (administrative_boundaries w)) /\
  (forall r, r ∈ hazard_relationships w -> 0 <= hr_confidence r <= 100) /\ outcomes w = [].

(** The items are the chains of two to [max_depth] events from an anchor, each
    once, shorter ones first. *)
Definition exact (l : labels) (start : list (HazardEvent Geom)) (max_depth : Z) (w : tables Geom) (es : list Evidence) : Prop :=
  exists cs, NoDup cs /\ StronglySorted shorter cs /\ Forall2 (describes l) cs es /\
  forall c, c ∈ cs <-> causal_chain (hazard_events w) (hazard_relationships w) start c /\
                       2 <= Z.of_nat (length (chain_events c)) <= max_depth.

Lemma guarded_ok {A} msg (read : tables Geom -> A) w : outcomes w = [] -> guarded msg read w = (Ok (read w), w).
Proof. intros Ho. unfold guarded, try_except. destruct w as [a b c o]. cbn in Ho. subst o. done. Qed.

Lemma linked_relationships events relationships (e : HazardEvent Geom) l : linked events relationships e l ->
  forall p, p ∈ l -> p.1 ∈ relationships.
Proof.
  revert e. induction l as [|[r e'] l IH]; intros e Hl p Hp; [by apply elem_of_nil in Hp|].
  destruct Hl as (Hr & _ & _ & _ & Hl). apply elem_of_cons in Hp as [->|Hp]; [done | by eapply IH].
Qed.

Lemma StronglySorted_filter (f : chain Geom -> bool) cs : StronglySorted shorter cs -> StronglySorted shorter (List.filter f cs).
Proof.
  induction 1 as [|c cs Hs IH Hc]; cbn; [constructor|]. destruct (f c); [|done]. constructor; [done|].
  apply Forall_forall. intros x [Hx _]%Regex.elem_of_Lfilter. rewrite Forall_forall in Hc. by apply Hc.
Qed.

Lemma query_exact msg l (start : tables Geom -> list (HazardEvent Geom)) max_depth w : sane w -> NoDup (start w) ->
  exists es, (rows ← guarded msg (fun w => causal_path (hazard_events w) (hazard_relationships w) max_depth arrange (start w));
              lift (rows_evidence uuid4 today l 0 rows)) w = (Ok es, w) /\ exact l (start w) max_depth w es.
Proof.
  intros (He & Hr & _ & Hc & Ho) Hs. apply NoDup_unmap in He, Hr. rewrite M_bind_run, guarded_ok by done.
  destruct (causal_path_chains (hazard_events w) (hazard_relationships w) max_depth arrange (start w) arrange_perm Hs He Hr)
    as (cs & -> & Hn & Hsort & Hcs).
  destruct (rows_described uuid4 today l cs) with (n := 0%nat) as (es & E & Hes).
  { apply Forall_forall. intros c Hin. apply Hcs in Hin as ((_ & Hl & _) & _). apply Forall_forall. intros p Hp.
    apply Hc. by eapply linked_relationships. }
  exists es. unfold lift. rewrite E. split; [done|]. exists (List.filter is_path cs).
  split; [by apply NoDup_Lfilter|]. split; [by apply StronglySorted_filter|]. split; [done|].
  intros c. rewrite Regex.elem_of_Lfilter, Hcs. unfold is_path, chain_events. cbn [length]. rewrite length_map, Nat.leb_le.
  split; [intros [[? ?] ?] | intros [? ?]; split; [split|]]; try done; lia || (split; [done | lia]).
Qed.
End queries.

(** ** Frame of the agent *)

Section frame.
Context {Geom S : Type} `{!Redis S text} `{!IsoTime} `{!Tenacity} `{!RawText}.
Notation W := (S * tables Geom)%type.

(** Hazard data is only read; known boundaries keep their identifiers, and no
    OpenStreetMap object is stored twice. *)
Definition preserved (t t' : tables Geom) : Prop :=
  hazard_events t' = hazard_events t /\ hazard_relationships t' = hazard_relationships t /\
  (NoDup (map ab_osm_id (administrative_boundaries t)) ->
     NoDup (map ab_osm_id (administrative_boundaries t')) /\
     map ab_id (administrative_boundaries t) `prefix_of` map ab_id (administrative_boundaries t')).

#[global] Instance preserved_preorder : PreOrder preserved.
Proof.
  split.
  - intros t. by repeat split.
  - intros t1 t2 t3 (He & Hr & Hn) (He' & Hr' & Hn'). split; [congruence|]. split; [congruence|]. intros Hd1.
    destruct (Hn Hd1) as [Hd2 Hp]. destruct (Hn' Hd2) as [Hd3 Hp']. split; [done | by etrans].
Qed.

Definition keeps {A} (m : M W A) : Prop := forall w, preserved w.2 (m w).2.2.
Definition tkeeps {A} (m : M (tables Geom) A) : Prop := forall t, preserved t (m t).2.

Lemma keeps_then {A B} (m : M W A) (k : A -> M W B) : keeps m -> (forall a, keeps (k a)) -> keeps (m ≫= k).
Proof.
  intros Hm Hk w. rewrite M_bind_run. specialize (Hm w). destruct (m w) as [[a|e] w']; cbn in *; [|done].
  etrans; [done | apply Hk].
Qed.

Lemma tkeeps_bind {A B} (m : M (tables Geom) A) (k : A -> M (tables Geom) B) :
  tkeeps m -> (forall a, tkeeps (k a)) -> tkeeps (m ≫= k).
Proof.
  intros Hm Hk w. rewrite M_bind_run. specialize (Hm w). destruct (m w) as [[a|e] w']; cbn in *; [|done].
  etrans; [done | apply Hk].
Qed.

Lemma keeps_try {A} (m : M W A) h : keeps m -> (forall e, keeps (h e)) -> keeps (try_except m h).
Proof.
  intros Hm Hh w. unfold try_except. specialize (Hm w). destruct (m w) as [[a|e] w']; cbn in *; [done|].
  etrans; [done | apply Hh].
Qed.

Lemma tkeeps_try {A} (m : M (tables Geom) A) h : tkeeps m -> (forall e, tkeeps (h e)) -> tkeeps (try_except m h).
Proof.
  intros Hm Hh w. unfold try_except. specialize (Hm w). destruct (m w) as [[a|e] w']; cbn in *; [done|].
  etrans; [done | apply Hh].
Qed.

Lemma keeps_same {A} (m : M W A) : (forall w, (m w).2 = w) -> keeps m.
Proof. intros Hm w. by rewrite Hm. Qed.

Lemma tkeeps_same {A} (m : M (tables Geom) A) : (forall w, (m w).2 = w) -> tkeeps m.
Proof. intros Hm w. by rewrite Hm. Qed.

Lemma keeps_redis {A} (m : M S A) : keeps (on_redis m).
Proof. intros [s t]. unfold on_redis. cbn. by destruct (m s). Qed.

Lemma keeps_tables {A} (m : M (tables Geom) A) : tkeeps m -> keeps (on_tables m).
Proof. intros Hm [s t]. unfold on_tables. cbn. specialize (Hm t). by destruct (m t). Qed.

Lemma execute_keeps : tkeeps execute.
Proof. intros [a b c o]. unfold execute. cbn. by destruct (head o) as [[]|]. Qed.

Lemma upserted_keeps row (t : tables Geom) : preserved t (set_boundaries (upserted row (administrative_boundaries t)).2 t).
Proof.
  split; [done|]. split; [done|]. cbn. intros Hn. unfold upserted. destruct (List.find _ _) as [old|] eqn:E; cbn.
  - apply find_some in E as [Hin Ho]. apply String.eqb_eq in Ho. rewrite <- list_elem_of_In in Hin.
    set (upd := fun b => if String.eqb (ab_osm_id b) (ab_osm_id row) then _ else b).
    assert (forall b, b ∈ administrative_boundaries t -> ab_osm_id (upd b) = ab_osm_id b /\ ab_id (upd b) = ab_id b) as Hu.
    { intros b Hb. unfold upd. destruct (String.eqb_spec (ab_osm_id b) (ab_osm_id row)) as [Eb|]; [|done].
      cbn. split; [done|]. f_equal. apply (NoDup_map_inj ab_osm_id (administrative_boundaries t)); [done..|congruence]. }
    rewrite !map_map, (map_ext_in (fun x => ab_osm_id (upd x)) ab_osm_id), (map_ext_in (fun x => ab_id (upd x)) ab_id).
    + done.
    + intros b Hb. apply Hu. by apply list_elem_of_In.
    + intros b Hb. apply Hu. by apply list_elem_of_In.
  - rewrite !map_app. split; [|by eexists]. apply NoDup_app. split; [done|]. split; [|apply NoDup_singleton].
    intros x Hx ->%list_elem_of_singleton. apply list_elem_of_fmap in Hx as (b & Eb & Hb).
    apply list_elem_of_In in Hb. pose proof (find_none _ _ E b Hb) as Hf. apply String.eqb_neq in Hf. congruence.
Qed.

Lemma upsert_keeps g i a : tkeeps (upsert_boundary g i a).
Proof.
  unfold upsert_boundary. destruct (bound_row g i a) as [row|].
  - apply tkeeps_bind; [apply execute_keeps|]. intros []. apply tkeeps_bind; [|intros; by apply tkeeps_same].
    intros t. pose proof (upserted_keeps row t) as Hu. destruct (upserted row _) as [r l] eqn:E. cbn [snd] in Hu.
    pose proof (execute_keeps t) as He. unfold execute in *. destruct t as [a1 b1 c1 o1]. cbn in *.
    destruct (head o1) as [[]|]; cbn in *; done.
  - apply tkeeps_bind; [apply execute_keeps|]. intros []. by apply tkeeps_same.
Qed.

Lemma guarded_keeps {A} msg (read : tables Geom -> A) : tkeeps (guarded msg read).
Proof.
  unfold guarded. apply tkeeps_try.
  - apply tkeeps_bind; [apply execute_keeps|]. intros []. apply tkeeps_bind; [apply execute_keeps|]. intros []. by apply tkeeps_same.
  - intros e. destruct (cancelled e); [|by apply tkeeps_same]. apply tkeeps_bind; [apply execute_keeps|]. intros []. by apply tkeeps_same.
Qed.

Lemma session_keeps {A} b (m : M (tables Geom) A) : tkeeps m -> tkeeps (with_session b m).
Proof. intros Hm. destruct b; [done | by apply tkeeps_same]. Qed.

Lemma query_keeps {A} msg (read : tables Geom -> A) (k : A -> result pyexn (list Evidence)) b :
  keeps (on_tables (with_session b (rows ← guarded msg read; lift (k rows)))).
Proof.
  apply keeps_tables, session_keeps, tkeeps_bind; [apply guarded_keeps|]. intros rows. by apply tkeeps_same.
Qed.

Section agent_frame.
Variable settings : Settings.
Variable http_get : string -> dict -> dict -> M S HttpResponse.
Variables now later : string -> string -> Z.
Variable str : json -> string.
Variable geom_of_geojson : json -> option Geom.
Variable covers : Geom -> json * json -> bool.
Variable new_boundary_id : uuid.
Variable session_ready : bool.

Lemma from_nominatim_keeps v : keeps (from_nominatim str geom_of_geojson new_boundary_id session_ready v).
Proof.
  assert (forall raw, keeps (a ← lift (read_osm str raw);
    if jtruthy (osm_geojson a) && session_ready then on_tables (or_none (upsert_boundary geom_of_geojson new_boundary_id a))
    else mret None)) as Hk.
  { intros raw. apply keeps_then; [by apply keeps_same|]. intros a. destruct (_ && _); [|by apply keeps_same].
    apply keeps_tables, tkeeps_try; [apply upsert_keeps | intros; by apply tkeeps_same]. }
  destruct v; try apply Hk. by apply keeps_same.
Qed.

Lemma resolve_keeps lat lon :
  keeps (resolve_boundary settings http_get now later str geom_of_geojson covers new_boundary_id session_ready lat lon).
Proof.
  unfold resolve_boundary. apply keeps_then; [by apply keeps_same|]. intros key.
  apply keeps_then; [apply keeps_redis|]. intros [doc|]; [by apply keeps_same|].
  apply keeps_then; [by apply keeps_same|]. intros a. apply keeps_then; [by apply keeps_same|]. intros b.
  apply keeps_then; [apply keeps_redis|]. intros r. apply keeps_then; [apply from_nominatim_keeps|]. intros stored.
  apply keeps_then.
  - destruct stored; [by apply keeps_same|]. destruct session_ready; [|by apply keeps_same].
    apply keeps_tables, tkeeps_try; [|intros; by apply tkeeps_same].
    apply tkeeps_bind; [apply execute_keeps|]. intros []. by apply tkeeps_same.
  - intros [doc|]; [|by apply keeps_same]. apply keeps_then; [apply keeps_redis|]. intros []. by apply keeps_same.
Qed.
End agent_frame.
End frame.

(** ** Valid evidence *)

Definition valid_items (es : list Evidence) : Prop := Forall (fun e => valid_estimate (ev_uncertainty e) = true) es.

Lemma rows_valid uuid4 today l rows : forall n es, rows_evidence uuid4 today l n rows = Ok es -> valid_items es.
Proof.
  induction rows as [|row rows IH]; intros n es; cbn; [intros [= <-]; constructor|].
  destruct (depth row <? 2); [apply IH|]. intros (e & He & (es' & Hes & [= <-])%result_bind_ok)%result_bind_ok.
  constructor; [|by eapply IH]. unfold chain_evidence in He. destruct (init_uncertainty _ _) as [u|] eqn:E; [|done].
  injection He as <-. by apply init_valid in E.
Qed.

Lemma query_valid {Geom S A} msg (read : tables Geom -> A) uuid4 today l (f : A -> list path_row) b (w : S * tables Geom) es w' :
  on_tables (with_session b (rows ← guarded msg read; lift (rows_evidence uuid4 today l 0 (f rows)))) w = (Ok es, w') ->
  valid_items es.
Proof.
  unfold on_tables. destruct (with_session _ _ w.2) as [r t] eqn:E. intros [= -> _]. destruct b; [|done].
  apply M_bind_ok in E as (rows & t1 & _ & [= E _]). by eapply rows_valid.
Qed.

Section outcome.
Context {Geom S : Type} `{!Redis S text} `{!IsoTime} `{!Tenacity} `{!RawText}.
Variable settings : Settings.
Variable http_get : string -> dict -> dict -> M S HttpResponse.
Variables now later : string -> string -> Z.
Variable str : json -> string.
Variable exn_text : pyexn -> string.
Variable parse_uuid : string -> option uuid.
Variable geom_of_geojson : json -> option Geom.
Variable covers : Geom -> json * json -> bool.
Variable arrange : list path_row -> list path_row.
Variable ST_DWithin : Geom -> json * json -> float -> bool.
Variable ST_Within : Geom -> Geom -> bool.
Variable uuid4 : nat -> uuid.
Variable new_boundary_id : uuid.
Variable session_ready : bool.
Variable today : Z.
Implicit Types w : S * tables Geom.

Notation boundary_mode := (boundary_mode settings http_get now later str parse_uuid geom_of_geojson covers arrange ST_Within
  uuid4 new_boundary_id session_ready today).
Notation boundary_step := (boundary_step settings http_get now later str exn_text parse_uuid geom_of_geojson covers arrange
  ST_Within uuid4 new_boundary_id session_ready today).
Notation radius_step := (radius_step settings exn_text arrange ST_DWithin uuid4 session_ready today).

Lemma boundary_mode_keeps type point : keeps (S := S) (boundary_mode type point).
Proof.
  unfold Causal.boundary_mode. apply keeps_then; [apply resolve_keeps|]. intros [doc|]; [|by apply keeps_same].
  apply keeps_then; [by apply keeps_same|]. intros []; [|by apply keeps_same].
  apply keeps_then; [by apply keeps_same|]. intros id. destruct (parse_uuid _); [|by apply keeps_same]. apply query_keeps.
Qed.

Lemma boundary_mode_valid type point w es w' : boundary_mode type point w = (Ok es, w') -> valid_items es.
Proof.
  unfold Causal.boundary_mode. intros ([doc|] & w1 & _ & Hb)%M_bind_ok; [|injection Hb as <- _; constructor].
  apply M_bind_ok in Hb as ([] & w2 & _ & Hb); [|injection Hb as <- _; constructor].
  apply M_bind_ok in Hb as (id & w3 & _ & Hb). destruct (parse_uuid _) as [i|]; [|done].
  by apply (query_valid _ _ _ _ _ (fun rows => rows)) in Hb.
Qed.

Lemma boundary_step_total type point w : exists es errs w', boundary_step type point w = (Ok (es, errs), w') /\
  valid_items es /\ preserved w.2 w'.2.
Proof.
  unfold Causal.boundary_step. destruct (enable_boundary_reasoning settings); [|eexists _, _, _; split; [done|]; by split; [constructor|]].
  unfold try_except. rewrite M_bind_run. pose proof (boundary_mode_keeps type point w) as Hk.
  pose proof (boundary_mode_valid type point w) as Hv.
  destruct (boundary_mode type point w) as [[es|e] w1]; cbn in Hk; eexists _, _, _; (split; [done|]); split; try done.
  - by eapply Hv.
  - constructor.
Qed.

Lemma radius_step_total type point errs w : exists out w', radius_step type point errs w = (Ok out, w') /\
  agent_name out = "causal_chain" /\ valid_items (evidence out) /\ preserved w.2 w'.2.
Proof.
  unfold Causal.radius_step, try_except. rewrite M_bind_run. set (q := on_tables _).
  assert (keeps (S := S) q) as Hk by apply query_keeps. specialize (Hk w).
  assert (forall es w', q w = (Ok es, w') -> valid_items es) as Hv
    by (intros es w' Hq; by apply (query_valid _ _ _ _ _ (fun rows => rows)) in Hq).
  clearbody q. destruct (q w) as [[es|e] w1]; cbn in Hk; eexists _, _; (split; [done|]); (split; [done|]); split; try done.
  - by eapply Hv.
  - constructor.
Qed.
End outcome.

(** ** Properties *)

(** C13. Over tables with distinct identifiers and confidences in the unit interval,
    with an undisturbed session, both queries return: one item for every chain of
    two to [max_depth] distinct events that starts at an anchor and follows
    stored relationships, each chain once and shorter ones first; the item
    carries the path and the confidence of its weakest relationship. *)
Theorem causal_chains_exact {Geom} (arrange : list path_row -> list path_row)
    (ST_DWithin : Geom -> json * json -> float -> bool) (ST_Within : Geom -> Geom -> bool) (uuid4 : nat -> uuid) (today : Z)
    (type : string) (point : json * json) (radius_meters : float) (boundary_id : uuid) (max_depth : Z) (w : tables Geom) :
  (forall l, arrange l ≡ₚ l) -> sane w ->
  (exists es, find_causal_chain arrange ST_DWithin uuid4 today type point radius_meters max_depth w = (Ok es, w) /\
     exact radius_labels (radius_anchors ST_DWithin type point radius_meters w) max_depth w es) /\
  (exists es, find_causal_chain_within_boundary arrange ST_Within uuid4 today type boundary_id max_depth w = (Ok es, w) /\
     exact (boundary_labels boundary_id) (boundary_anchors ST_Within type boundary_id w) max_depth w es).
Proof.
  intros Ha Hs. pose proof Hs as (He & _ & Hb & _ & _). apply NoDup_unmap in He. split.
  - apply query_exact; [done..|]. by apply NoDup_Lfilter.
  - apply query_exact; [done..|]. apply NoDup_flat_map.
    + apply NoDup_Lfilter. by eapply NoDup_unmap.
    + intros tb _. by apply NoDup_Lfilter.
    + intros x y _ [Hx Ex]%Regex.elem_of_Lfilter [Hy Ey]%Regex.elem_of_Lfilter _ _.
      apply String.eqb_eq in Ex, Ey. by apply (NoDup_map_inj ab_id (administrative_boundaries w)); [..|congruence].
Qed.

(** A failed statement: when its text names a cancellation the transaction is
    rolled back and the caller gets a [TimeoutError] (or the failure of the
    rollback); any other failure reaches the caller as it is.  No table changes. *)
Theorem chain_query_errors {Geom} (arrange : list path_row -> list path_row)
    (ST_DWithin : Geom -> json * json -> float -> bool) (uuid4 : nat -> uuid) (today : Z)
    (type : string) (point : json * json) (radius_meters : float) (max_depth : Z) (w : tables Geom) (t : string)
    (rest : list (option string)) :
  outcomes w = Some t :: rest ->
  exists w', find_causal_chain arrange ST_DWithin uuid4 today type point radius_meters max_depth w =
    (Raise (if cancelled (OtherError t) then
              match rest with Some t' :: _ => OtherError t' | _ => TimeoutError "causal chain query exceeded time budget" end
            else OtherError t), w') /\
  hazard_events w' = hazard_events w /\ hazard_relationships w' = hazard_relationships w /\
  administrative_boundaries w' = administrative_boundaries w.
Proof.
  intros Ho. destruct w as [a b c o]. cbn in Ho. subst o. unfold find_causal_chain, guarded, try_except.
  rewrite !M_bind_run. cbn -[cancelled]. destruct (cancelled (OtherError t)); [|by eexists].
  rewrite M_bind_run. unfold execute. cbn. by destruct rest as [|[t'|] rest]; eexists.
Qed.

(** C37. Whatever fails (geocoding, Redis, the boundary service, the database), the
    causal chain agent returns an output whose items are valid; it never changes
    hazard data, keeps the identifiers of known boundaries and stores no
    OpenStreetMap object twice. *)
Theorem causal_agent_total {Geom S} `{!Redis S text} `{!IsoTime} `{!Tenacity} `{!RawText} (settings : Settings)
    (http_get : string -> dict -> dict -> M S HttpResponse) (now later : string -> string -> Z) (str : json -> string)
    (sin cos : float -> float) (atan2 pow : float -> float -> float) (parse_float : string -> option float)
    (exn_text : pyexn -> string) (parse_uuid : string -> option uuid) (geom_of_geojson : json -> option Geom)
    (covers : Geom -> json * json -> bool) (arrange : list path_row -> list path_row)
    (ST_DWithin : Geom -> json * json -> float -> bool) (ST_Within : Geom -> Geom -> bool) (uuid4 : nat -> uuid)
    (new_boundary_id : uuid) (session_ready : bool) (today : Z) (input : AgentInput) (w : S * tables Geom) :
  exists out w', run_causal_chain settings http_get now later str sin cos atan2 pow parse_float exn_text parse_uuid
      geom_of_geojson covers arrange ST_DWithin ST_Within uuid4 new_boundary_id session_ready today input w = (Ok out, w') /\
    agent_name out = "causal_chain" /\ valid_items (evidence out) /\ preserved w.2 w'.2.
Proof.
  unfold run_causal_chain. set (location := location_of _ _). set (type := _extract_event_type _).
  set (find := locate _ _ _ _ _ _ _ _ _ _ location). assert (keeps (S := S) find) as Hk.
  { apply keeps_then; [apply keeps_redis|]. intros geo. apply keeps_then; [by apply keeps_same|]. intros lat.
    apply keeps_then; [by apply keeps_same|]. intros lon. by apply keeps_same. }
  specialize (Hk w). clearbody find. destruct (find w) as [[point|e] w1]; cbn in Hk.
  - rewrite M_bind_run. destruct (boundary_step_total settings http_get now later str exn_text parse_uuid geom_of_geojson
      covers arrange ST_Within uuid4 new_boundary_id session_ready today type point w1) as (es & errs & w2 & -> & Hv & Hp).
    destruct es as [|x es]; [|eexists _, _; split; [done|]; do 2 (split; [done|]); by etrans].
    destruct (radius_step_total settings exn_text arrange ST_DWithin uuid4 session_ready today type point errs w2) as (out & w3 & E & Hn & Hi & Hp3). exists out, w3. split; [exact E|].
    do 2 (split; [done|]). etrans; [exact Hk|]. by etrans.
  - destruct e; eexists _, _; (split; [done|]); (split; [done|]); (split; [constructor | done]).
Qed.

(** ** Witnesses *)

Module CausalWitness.
(** Three events in a cycle, all at one place. *)
Definition event (id type : string) : HazardEvent unit :=
  {| he_id := id; he_event_type := type; he_region := Some tt; he_region_label := Some "Tokyo"; he_details := Some id |}.
Definition edge (id parent child : string) (c : Z) : HazardRelationship :=
  {| hr_id := id; hr_parent_id := parent; hr_child_id := child; hr_confidence := c |}.
Definition cycle : tables unit :=
  Tables [event "a" "earthquake"; event "b" "tsunami"; event "c" "flood"]
    [edge "1" "a" "b" 90; edge "2" "b" "c" 80; edge "3" "c" "a" 70] [] [].
Definition anywhere (_ : unit) (_ : json * json) (_ : float) : bool := true.
Definition everywhere (_ _ : unit) : bool := true.
Definition keep (l : list path_row) : list path_row := l.

(** Two chains start at the earthquake; the cycle is cut. *)
Example cycle_chains :
  map path_ids (causal_path (hazard_events cycle) (hazard_relationships cycle) 4 keep
                  (radius_anchors anywhere "earthquake" (JInt 0, JInt 0) f1 cycle)) = [["a"]; ["a"; "b"]; ["a"; "b"; "c"]].
Proof. by vm_compute. Qed.

(** The text calls the last event's details those of the initial trigger. *)
Example trigger_details_of_the_last_event :
  (ev_claim <$> chain_evidence (fun _ => "") 0 radius_labels 0
     (row_of (event "a" "earthquake", [(edge "1" "a" "b" 90, event "b" "tsunami")]))) =
  Ok "Historical causal chain in Tokyo: earthquake -> tsunami. Initial trigger details: b".
Proof. by vm_compute. Qed.

Lemma cycle_sane : sane cycle.
Proof.
  unfold sane. cbn. split; [by apply (bool_decide_unpack _); vm_compute|]. split; [by apply (bool_decide_unpack _); vm_compute|].
  split; [constructor|]. split; [|done]. intros r. rewrite !elem_of_cons, elem_of_nil. intros [->|[->|[->|[]]]]; cbn; lia.
Qed.

Lemma causal_chains_exact_witness : exists es,
  find_causal_chain keep anywhere str_nat 0 "earthquake" (JInt 0, JInt 0) f1 4 cycle = (Ok es, cycle) /\ length es = 2%nat.
Proof.
  destruct (causal_chains_exact keep anywhere everywhere str_nat 0 "earthquake" (JInt 0, JInt 0) f1 "x" 4 cycle)
    as [(es & E & _) _].
  - intros l. reflexivity.
  - exact cycle_sane.
  - exists es. split; [exact E|]. vm_compute in E. injection E as <-. reflexivity.
Defined.

Definition failing : tables unit := Tables [] [] [] [Some "ERROR 57014"; None].

Lemma chain_query_errors_witness : exists w',
  find_causal_chain keep anywhere str_nat 0 "earthquake" (JInt 0, JInt 0) f1 4 failing =
    (Raise (TimeoutError "causal chain query exceeded time budget"), w').
Proof.
  destruct (chain_query_errors keep anywhere str_nat 0 "earthquake" (JInt 0, JInt 0) f1 4 failing "ERROR 57014" [None])
    as (w' & E & _); [reflexivity|].
  exists w'. exact E.
Defined.
End CausalWitness.
