(* ===== verification/Backup.v ===== *)
(** * Backups and restore drills
    ([src/ops/backup/], [src/workers/jobs/backup_jobs.py],
    [src/app/api/v1/admin_backups.py], [src/db/models/backup_record.py])

    A backup dumps the database, stores the file and records its checksum and the
    metrics of the audited tables; a drill restores a stored file into a scratch
    database and compares.  The world holds the local files, the S3 bucket, the
    databases of the server (a connection URL stands for the name of its database)
    and a script of the outcomes of external calls.  The rows the runners themselves
    write, [backup_records], [restore_drill_records] and [metrics] of the main
    database, are typed components of the world; [database_at] shows them in their
    place among the tables of that database, which is what [pg_dump] and the audit
    see.  Arguments: what [pg_dump] writes and [psql] leaves behind, the order in
    which PostgreSQL returns rows that no ORDER BY sorts, SHA-256, and the texts of
    rows and exceptions. *)

From stdpp Require Import pretty sorting.
From S2P Require Import Prelude PyFloat PyStr Effects Database Settings RedisKeys CircuitBreaker Resilience.
From Stdlib Require Import Ascii.

(** ** Data *)

Inductive BackupStatus := PENDING | RUNNING | SUCCESS | FAILED.

#[global] Instance BackupStatus_eq_dec : EqDecision BackupStatus.
Proof. solve_decision. Defined.

Record table_info := { t_rows : Z; t_sample_checksum : string; t_sample_size : Z }.

(** [verification_metadata]; the empty dict is [no_metadata]. *)
Record metadata := Metadata {
  m_tables : list (string * table_info);
  m_migration_version : string;
  m_postgres_version : option string;
}.

Definition no_metadata : metadata := Metadata [] "" None.

Record BackupRecord := {
  b_backup_id : string;
  b_created_at : Z;
  b_completed_at : option Z;
  b_status : BackupStatus;
  b_size_bytes : Z;
  b_checksum : string;
  b_storage_location : string;
  b_postgres_version : string;
  b_duration_ms : float;
  b_metadata : metadata;
  b_error_details : option string;
}.

Record RestoreDrillRecord := {
  d_drill_id : string;
  d_backup_id : string;
  d_started_at : Z;
  d_completed_at : option Z;
  d_status : BackupStatus;
  d_duration_ms : float;
  d_row_counts_match : bool;
  d_checksum_match : bool;
  d_migration_version_match : bool;
  d_discrepancies : list (string * string);
  d_error_details : option string;
}.

(** A database: its tables with the text of each row, the row of
    [alembic_version] if that table exists, and the server's version string. *)
Record database := Database_ {
  db_tables : list (string * list string);
  db_alembic : option string;
  db_version : string;
}.

Record s3_object := { o_content : string; o_checksum : string; o_content_type : option string }.

(** [server] has the tables of each database; the rows of [backup_records],
    [restore_drill_records] and the new ones of [metrics] in the main database are
    [records], [drills] and [metric_rows]. *)
Record world (S : Type) := World {
  records : list BackupRecord;
  drills : list RestoreDrillRecord;
  files : list (string * string);        (* local path, content *)
  bucket : option (list (string * s3_object));   (* the bucket, if it exists *)
  s3_ready : bool;                       (* [self._client is not None] *)
  server : list (string * database);
  metric_rows : nat;
  w_script : list bool;
  cache : S;                             (* Redis *)
}.
Arguments World {S} _ _ _ _ _ _ _ _ _.
Arguments records {S} _.
Arguments drills {S} _.
Arguments files {S} _.
Arguments bucket {S} _.
Arguments s3_ready {S} _.
Arguments server {S} _.
Arguments metric_rows {S} _.
Arguments w_script {S} _.
Arguments cache {S} _.

Definition assoc_remove {A} (k : string) (l : list (string * A)) : list (string * A) :=
  List.filter (fun e => negb (String.eqb k e.1)) l.

Section setters.
Context {S : Type}.
Implicit Types w : world S.

Definition set_records l w := World l (drills w) (files w) (bucket w) (s3_ready w) (server w) (metric_rows w) (w_script w) (cache w).
Definition set_drills l w := World (records w) l (files w) (bucket w) (s3_ready w) (server w) (metric_rows w) (w_script w) (cache w).
Definition set_files l w := World (records w) (drills w) l (bucket w) (s3_ready w) (server w) (metric_rows w) (w_script w) (cache w).
Definition set_bucket b ready w := World (records w) (drills w) (files w) b ready (server w) (metric_rows w) (w_script w) (cache w).
Definition set_server l w := World (records w) (drills w) (files w) (bucket w) (s3_ready w) l (metric_rows w) (w_script w) (cache w).
Definition add_metric w := World (records w) (drills w) (files w) (bucket w) (s3_ready w) (server w) (Datatypes.S (metric_rows w)) (w_script w) (cache w).
Definition set_w_script l w := World (records w) (drills w) (files w) (bucket w) (s3_ready w) (server w) (metric_rows w) l (cache w).
Definition set_cache (s : S) w : world S := World (records w) (drills w) (files w) (bucket w) (s3_ready w) (server w) (metric_rows w) (w_script w) s.
End setters.

#[global] Instance world_db S : Db (world S).
Proof. refine {| script := w_script; set_script := set_w_script |}; [by intros [] | done]. Defined.

(** Redis is the [cache] of the world. *)
#[global] Instance world_redis S `{!Redis S text} : Redis (world S) text.
Proof.
  refine {| view := fun w => view (cache w);
            redis_get := fun k w => let '(r, s) := redis_get k (cache w) in (r, set_cache s w);
            redis_set := fun k v ex w => let '(r, s) := redis_set k v ex (cache w) in (r, set_cache s w) |}.
  - intros k w k'. pose proof (redis_get_view k (cache w) k'). by destruct (redis_get k (cache w)).
  - intros k w v. pose proof (redis_get_ok k (cache w) v). by destruct (redis_get k (cache w)).
  - intros k v ex w k' Hk. pose proof (redis_set_frame k v ex (cache w) k' Hk). by destruct (redis_set k v ex (cache w)).
  - intros k v ex w. pose proof (redis_set_ok k v ex (cache w)). by destruct (redis_set k v ex (cache w)).
  - intros k v ex w e. pose proof (redis_set_err k v ex (cache w) e). by destruct (redis_set k v ex (cache w)).
Defined.

Definition file_not_found : pyexn := OtherError "FileNotFoundError".

(** ** Storage *)

(** What the runners use of a storage backend: a file is uploaded from and
    downloaded to a local path. *)
Record BackupStorage (S : Type) := {
  upload : string -> string -> M (world S) string;
  download : string -> string -> M (world S) unit;
  delete : string -> M (world S) unit;
  list_backups : M (world S) (list string);
}.
Arguments upload {S} _ _ _.
Arguments download {S} _ _ _.
Arguments delete {S} _ _.
Arguments list_backups {S} _.

Section storage.
Context {S : Type}.
Variable sha256 : string -> string.
Notation W := (world S).

Definition read_file (path : string) : M W string :=
  statement ;; content ← gets (fun w => assoc path (files w));
  match content with Some c => mret c | None => raise file_not_found end.

Definition write_file (path content : string) : M W unit := save (fun w => set_files (assoc_set path content (files w)) w).
Definition unlink (path : string) : M W unit := save (fun w => set_files (assoc_remove path (files w)) w).
Definition exists_ (path : string) : M W bool := gets (fun w => in_dict path (files w)).

(** The digest of the chunks read in turn is that of the content. *)
Definition compute_file_sha256 (path : string) : M W string := c ← read_file path; mret (sha256 c).

(** [shutil.copy2] *)
Definition copy (src dst : string) : M W unit := c ← read_file src; write_file dst c.

Variable base_dir : string.

Definition local_path (remote_key : string) : string := base_dir +:+ "/" +:+ remote_key.

Definition local_upload (path remote_key : string) : M W string :=
  (if String.eqb path (local_path remote_key) then mret tt else copy path (local_path remote_key)) ;;
  mret (local_path remote_key).

Definition local_download (remote_key path : string) : M W unit :=
  found ← exists_ (local_path remote_key);
  if (found : bool) then (if String.eqb (local_path remote_key) path then mret tt else copy (local_path remote_key) path)
  else raise file_not_found.

(** A failing [unlink] is logged and re-raised. *)
Definition local_delete (remote_key : string) : M W unit :=
  found ← exists_ (local_path remote_key);
  if (found : bool) then unlink (local_path remote_key) else mret tt.

Definition local_list : M W (list string) :=
  gets (fun w => flat_map (fun f => if startswith (base_dir +:+ "/") f.1
                                    then [String.substring (Datatypes.S (String.length base_dir)) (String.length f.1) f.1] else [])
                   (files w)).

Definition LocalBackupStorage : BackupStorage S :=
  {| upload := local_upload; download := local_download; delete := local_delete; list_backups := local_list |}.
End storage.

(** ** MinIO *)

Section minio.
Context {S : Type} `{!Redis S text} `{!IsoTime} `{!Tenacity}.
Variable sha256 : string -> string.
Variable settings : Settings.
Variables now later : string -> string -> Z.
Notation W := (world S).

Definition s3_error : pyexn := HTTPError "MinIO S3 operation failed".

(** One S3 request; its failures are mapped to [httpx.HTTPError] by
    [_execute_s3_call]. *)
Definition s3_request : M W unit := try_except statement (fun _ => raise s3_error).

(** [_get_client]: on first use the bucket is checked and possibly created. *)
Definition _get_client : M W unit :=
  ready ← gets s3_ready;
  if (ready : bool) then mret tt
  else
    s3_request ;;
    b ← gets bucket;
    match b with
    | Some objects => modify (set_bucket (Some objects) true)
    | None =>
        if minio_auto_create_bucket settings then s3_request ;; modify (set_bucket (Some []) true)
        else raise ValueError
    end.

Definition endswith (suffix s : string) : bool :=
  String.eqb (String.substring (String.length s - String.length suffix) (String.length suffix) s) suffix.

Definition content_type (remote_key : string) : option string :=
  if endswith ".gz" remote_key then Some "application/gzip"
  else if endswith ".json" remote_key then Some "application/json"
  else if endswith ".sql" remote_key then Some "application/x-sql"
  else None.

Definition objects_of (w : W) : list (string * s3_object) := default [] (bucket w).

Definition _upload (path remote_key checksum : string) : M W json :=
  _get_client ;;
  content ← read_file path;
  s3_request ;;
  modify (fun w => set_bucket (Some (assoc_set remote_key
    {| o_content := content; o_checksum := checksum; o_content_type := content_type remote_key |} (objects_of w))) (s3_ready w) w) ;;
  mret JNull.

(** The local file is opened, hence truncated, before the request. *)
Definition _download (remote_key path : string) : M W json :=
  _get_client ;;
  write_file path "" ;;
  s3_request ;;
  o ← gets (fun w => assoc remote_key (objects_of w));
  match o with
  | Some o => write_file path (o_content o) ;; mret JNull
  | None => raise s3_error
  end.

Definition _delete (remote_key : string) : M W json :=
  _get_client ;;
  s3_request ;;
  modify (fun w => set_bucket (Some (assoc_remove remote_key (objects_of w))) (s3_ready w) w) ;;
  mret JNull.

(** One page: S3 lists at most 1000 keys. *)
Definition _list : M W json :=
  _get_client ;; s3_request ;; gets (fun w => JList (map (fun o => JStr o.1) (take 1000 (objects_of w)))).

Definition minio_call (fn : M W json) (key : string) (ttl : Z) : M W ResilientResult :=
  resilient_call settings (now "minio" key) (later "minio" key) "minio" fn key (Some ttl).

(** [res.degraded and res.source_status == "unavailable"] *)
Definition out_of_reach (r : ResilientResult) : bool :=
  degraded r && match status r with Unavailable => true | _ => false end.

Definition bucket_name : string := default "" (minio_bucket settings).

Definition minio_upload (path remote_key : string) : M W string :=
  checksum ← compute_file_sha256 sha256 path;
  res ← minio_call (_upload path remote_key checksum) ("upload:" +:+ remote_key) 3600;
  if out_of_reach res then raise RuntimeError else mret ("s3://" +:+ bucket_name +:+ "/" +:+ remote_key).

Definition minio_download (remote_key path : string) : M W unit :=
  res ← minio_call (_download remote_key path) ("download:" +:+ remote_key) 3600;
  if out_of_reach res then
    found ← exists_ path;
    (if (found : bool) then try_except (unlink path) (fun _ => mret tt) else mret tt) ;;
    raise RuntimeError
  else mret tt.

Definition minio_delete (remote_key : string) : M W unit :=
  res ← minio_call (_delete remote_key) ("delete:" +:+ remote_key) 3600;
  if out_of_reach res then raise RuntimeError else mret tt.

Definition strings_of (j : json) : list string :=
  match j with JList l => flat_map (fun x => match x with JStr s => [s] | _ => [] end) l | _ => [] end.

Definition minio_list : M W (list string) :=
  res ← minio_call _list "list_backups" 600;
  if out_of_reach res then raise RuntimeError else mret (strings_of (value res)).

Definition MinIOBackupStorage : BackupStorage S :=
  {| upload := minio_upload; download := minio_download; delete := minio_delete; list_backups := minio_list |}.

Definition get_backup_storage : BackupStorage S :=
  match backup_storage_backend settings with
  | MinioStorage => MinIOBackupStorage
  | LocalStorage => LocalBackupStorage (backup_storage_path settings)
  end.
End minio.

(** ** PostgreSQL *)

(** What the model takes from PostgreSQL: the text of the rows the runners write,
    and the order in which an unordered query returns the rows of a table, which
    may be another one at every query. *)
Class Postgres (S : Type) := {
  record_text : BackupRecord -> string;
  drill_text : RestoreDrillRecord -> string;
  metric_text : nat -> string;
  scan : world S -> string -> string -> list string -> list string;
  scan_perm : forall w name table rows, scan w name table rows ≡ₚ rows;
}.

Section databases.
Context {S : Type} `{!Postgres S}.
Variable main : string.                (* the configured database *)

(** The tables of the main database that the runners write. *)
Definition written_tables : list string := ["backup_records"; "restore_drill_records"; "metrics"].

Definition live_rows (w : world S) (table : string) (rows : list string) : list string :=
  if String.eqb table "backup_records" then map record_text (records w)
  else if String.eqb table "restore_drill_records" then map drill_text (drills w)
  else if String.eqb table "metrics" then rows ++ map metric_text (seq 0 (metric_rows w))
  else rows.

Definition database_at (name : string) (w : world S) : option database :=
  match assoc name (server w) with
  | Some d =>
      Some (if String.eqb name main
            then Database_ (map (fun t => (t.1, live_rows w t.1 t.2)) (db_tables d)) (db_alembic d) (db_version d)
            else d)
  | None => None
  end.

Lemma database_at_other name w : name <> main -> database_at name w = assoc name (server w).
Proof.
  intros Hn. unfold database_at. destruct (assoc name (server w)); [|done]. by rewrite (proj2 (String.eqb_neq _ _) Hn).
Qed.

(** The tables the runners do not write show in place what [server] has. *)
Lemma live_table w d table : table ∉ written_tables ->
  assoc table (map (fun t => (t.1, live_rows w t.1 t.2)) (db_tables d)) = assoc table (db_tables d).
Proof.
  intros Ht. induction (db_tables d) as [|[t rows] l IH]; [done|]. cbn. rewrite IH.
  destruct (String.eqb_spec table t) as [<-|]; [|done]. f_equal. unfold live_rows.
  destruct (String.eqb_spec table "backup_records") as [->|]; [by destruct Ht; left|].
  destruct (String.eqb_spec table "restore_drill_records") as [->|]; [by destruct Ht; right; left|].
  destruct (String.eqb_spec table "metrics") as [->|]; [by destruct Ht; right; right; left | done].
Qed.

(** A table of the main database. *)
Definition table_at (table : string) (w : world S) : option (list string) :=
  match database_at main w with Some d => assoc table (db_tables d) | None => None end.

Lemma table_at_server table w : table ∉ written_tables ->
  table_at table w = match assoc main (server w) with Some d => assoc table (db_tables d) | None => None end.
Proof.
  intros Ht. unfold table_at, database_at. destruct (assoc main (server w)) as [d|]; [|done].
  rewrite String.eqb_refl. by apply (live_table w d).
Qed.
End databases.

(** ** The PostgreSQL provider *)

Section provider.
Context {S : Type} `{!Postgres S}.
Variable sha256 : string -> string.
Variable pg_dump : database -> string.       (* the script a complete dump writes *)
Variable pg_dump_partial : database -> option string.   (* what a failed one may leave *)
Variable psql : string -> database -> database.  (* the database after running a script, errors included *)
Variable rows_text : list string -> string.  (* [json.dumps] of the sampled rows *)
Variables have_pg_dump have_psql : bool.     (* [shutil.which] *)
Variable main : string.
Notation W := (world S).

Definition connect (name : string) : M W database :=
  statement ;; d ← gets (database_at main name);
  match d with Some d => mret d | None => raise db_error end.

(** Whether an external command succeeds. *)
Definition attempt : M W bool := try_except (statement ;; mret true) (fun _ => mret false).

Definition leave_file (path : string) (content : option string) (w : W) : W :=
  match content with Some c => set_files (assoc_set path c (files w)) w | None => w end.

Definition create_backup (name path : string) : M W unit :=
  if have_pg_dump then
    ok ← attempt;
    d ← gets (database_at main name);
    match d with
    | Some d =>
        if (ok : bool) then modify (leave_file path (Some (pg_dump d)))
        else modify (leave_file path (pg_dump_partial d)) ;; raise RuntimeError
    | None => raise RuntimeError
    end
  else raise RuntimeError.

(** The exit code of [psql] is only logged.  The target is a scratch database,
    never the main one. *)
Definition restore_backup (path name : string) : M W unit :=
  found ← exists_ path;
  if (found : bool) then
    if have_psql then
      ok ← attempt;
      modify (fun w =>
        match assoc path (files w), assoc name (server w) with
        | Some content, Some d => if (ok : bool) then set_server (assoc_set name (psql content d) (server w)) w else w
        | _, _ => w
        end)
    else raise RuntimeError
  else raise file_not_found.

Definition tables_to_audit : list string :=
  ["users"; "investigations"; "hazard_events"; "alert_rules"; "alert_incidents"; "api_keys";
   "password_reset_tokens"; "metric_events"].

(** A query on the one connection: it fails when the script says so, when the
    database cannot answer it, or when an earlier query of the transaction
    failed.  The flag says whether the transaction still works. *)
Definition query (works : bool) {A} (answer : option A) : M W (option A * bool) :=
  ok ← attempt;
  mret match answer with
       | Some a => if works && ok then (Some a, true) else (None, false)
       | None => (None, false)
       end.

(** The first two words of the version, unless there are fewer. *)
Fixpoint split_words (s acc : string) : list string :=
  match s with
  | EmptyString => if str_truthy acc then [acc] else []
  | String c s => if is_space c then (if str_truthy acc then acc :: split_words s "" else split_words s "")
                  else split_words s (acc +:+ String c "")
  end.

Definition short_version (v : string) : string :=
  match split_words v "" with a :: b :: _ => a +:+ " " +:+ b | _ => "PostgreSQL" end.

(** [SELECT * FROM name LIMIT 100], without ORDER BY. *)
Definition sample_query (db name : string) (rows : option (list string)) : M W (option (list string) * bool) :=
  fun w => query true ((fun all => take 100 (scan w db name all)) <$> rows) w.

(** The audit of one table: two queries, of which the second returns some 100 rows
    in some order; a failure skips the table. *)
Definition audit_table (db : string) (d : database) (works : bool) (name : string) : M W (list (string * table_info) * bool) :=
  let rows := assoc name (db_tables d) in
  c ← query works rows;
  if (c.2 : bool) then
    s ← sample_query db name rows;
    mret match c.1, s with
         | Some all, (Some sample, works') =>
             ([(name, {| t_rows := Z.of_nat (length all); t_sample_checksum := sha256 (rows_text sample);
                         t_sample_size := Z.of_nat (length sample) |})], works')
         | _, (_, works') => ([], works')
         end
  else mret ([], false).

Fixpoint audit (db : string) (d : database) (works : bool) (names : list string) : M W (list (string * table_info)) :=
  match names with
  | [] => mret []
  | n :: names =>
      r ← audit_table db d works n;
      rest ← audit db d r.2 names;
      mret (r.1 ++ rest)
  end.

Definition extract_verification_metadata (name : string) : M W metadata :=
  d ← connect name;
  v ← query true (Some (db_version d));
  m ← query v.2 (db_alembic d);
  tables ← audit name d m.2 tables_to_audit;
  mret (Metadata tables
          (match m.1 with Some x => if str_truthy x then x else "unknown" | None => "unknown" end)
          (Some (match v.1 with Some x => if str_truthy x then short_version x else "PostgreSQL" | None => "PostgreSQL" end))).
End provider.

(** ** Retention *)

Section retention.
Context {S : Type}.
Notation W := (world S).

Definition remote_key_of (backup_id : string) : string := backup_id +:+ ".sql".

Definition MICROS_PER_DAY : Z := 86400000000.

Definition drop_record (backup_id : string) (l : list BackupRecord) : list BackupRecord :=
  List.filter (fun r => negb (String.eqb (b_backup_id r) backup_id)) l.

(** The loop over the records loaded before.  After a failure the session is
    rolled back: when a transaction is open ([in_tx]: since the query, or since the
    deletion of the row) that expires the loaded records, and the log then reads
    one of them. *)
Fixpoint cleanup_loop (st : BackupStorage S) (in_tx : bool) (expired : list BackupRecord) : M W Z :=
  match expired with
  | [] => mret 0
  | rec :: expired => fun w =>
      match delete st (remote_key_of (b_backup_id rec)) w with
      | (Ok _, w1) =>
          match save (fun w => set_records (drop_record (b_backup_id rec) (records w)) w) w1 with
          | (Ok _, w2) => (n ← cleanup_loop st false expired; mret (n + 1)) w2
          | (Raise _, w2) => (statement ;; raise missing_greenlet) w2
          end
      | (Raise _, w1) => if in_tx then (statement ;; raise missing_greenlet) w1 else cleanup_loop st false expired w1
      end
  end.

Definition cleanup_expired_backups (st : BackupStorage S) (now retention_days : Z) : M W Z :=
  expired ← select (fun w => List.filter (fun r => b_created_at r <? now - retention_days * MICROS_PER_DAY) (records w));
  cleanup_loop st true expired.
End retention.

(** ** The backup *)

Section runner.
Context {S : Type} `{!Postgres S}.
Variable sha256 : string -> string.
Variable pg_dump : database -> string.
Variable pg_dump_partial : database -> option string.
Variable psql : string -> database -> database.
Variable rows_text : list string -> string.
Variables have_pg_dump have_psql : bool.
Variable exn_text : pyexn -> string.
Variable settings : Settings.
Variable st : BackupStorage S.
Variable ready : bool.                 (* whether [get_session_factory()] succeeds *)
Notation W := (world S).

(** The configured database. *)
Notation main := (default "" (database_url settings)).

Notation metadata_of := (extract_verification_metadata sha256 rows_text main).

Definition temp_path (name : string) : string := backup_storage_path settings +:+ "/temp/" +:+ name.

Definition pending_record (backup_id : string) (created_at : Z) : BackupRecord :=
  {| b_backup_id := backup_id; b_created_at := created_at; b_completed_at := None; b_status := PENDING; b_size_bytes := 0;
     b_checksum := ""; b_storage_location := backup_storage_path settings; b_postgres_version := ""; b_duration_ms := f0;
     b_metadata := no_metadata; b_error_details := None |}.

Definition with_status (s : BackupStatus) (r : BackupRecord) : BackupRecord :=
  {| b_backup_id := b_backup_id r; b_created_at := b_created_at r; b_completed_at := b_completed_at r; b_status := s;
     b_size_bytes := b_size_bytes r; b_checksum := b_checksum r; b_storage_location := b_storage_location r;
     b_postgres_version := b_postgres_version r; b_duration_ms := b_duration_ms r; b_metadata := b_metadata r;
     b_error_details := b_error_details r |}.

Definition success_record (completed_at size : Z) (checksum location : string) (duration : float) (m : metadata)
    (r : BackupRecord) : BackupRecord :=
  {| b_backup_id := b_backup_id r; b_created_at := b_created_at r; b_completed_at := Some completed_at; b_status := SUCCESS;
     b_size_bytes := size; b_checksum := checksum; b_storage_location := location;
     b_postgres_version := default "PostgreSQL" (m_postgres_version m); b_duration_ms := duration; b_metadata := m;
     b_error_details := b_error_details r |}.

Definition failed_record (completed_at : Z) (duration : float) (error : string) (r : BackupRecord) : BackupRecord :=
  {| b_backup_id := b_backup_id r; b_created_at := b_created_at r; b_completed_at := Some completed_at; b_status := FAILED;
     b_size_bytes := b_size_bytes r; b_checksum := b_checksum r; b_storage_location := b_storage_location r;
     b_postgres_version := b_postgres_version r; b_duration_ms := duration; b_metadata := b_metadata r;
     b_error_details := Some error |}.

Definition update_record (backup_id : string) (f : BackupRecord -> BackupRecord) (w : W) : W :=
  set_records (map (fun r => if String.eqb (b_backup_id r) backup_id then f r else r) (records w)) w.

Definition swallow (m : M W unit) : M W unit := try_except m (fun _ => mret tt).

(** An in-session step; without a factory it raises. *)
Definition in_session {A} (m : M W A) : M W A := if ready then m else raise RuntimeError.

(** 1. PENDING, then RUNNING, if the database is there. *)
Definition init_record (record : BackupRecord) : M W unit :=
  swallow (in_session
    (save_if (fun w => negb (existsb (fun r => String.eqb (b_backup_id r) (b_backup_id record)) (records w)))
       (fun w => set_records (records w ++ [record]) w) ;;
     statement ;;
     save (update_record (b_backup_id record) (with_status RUNNING)))).

(** 4, 5: size, checksum and upload; afterwards the dump is removed unless it is
    the stored file. *)
Definition remove_dump (path : string) (location : option string) : M W unit :=
  found ← exists_ path;
  if found && negb (bool_decide (location = Some path)) then swallow (unlink path) else mret tt.

Definition size_of (path : string) : M W Z :=
  found ← gets (fun w => assoc path (files w));
  match found with Some c => statement ;; mret (Z.of_nat (String.length c)) | None => mret 0 end.

Definition checksum_of (path : string) : M W string :=
  found ← exists_ path;
  if (found : bool) then compute_file_sha256 sha256 path else mret "".

Definition upload_dump (path backup_id : string) : M W (Z * string * string) := fun w =>
  match (size ← size_of path;
         checksum ← checksum_of path;
         location ← upload st path (remote_key_of backup_id);
         mret (size, checksum, location)) w with
  | (Ok r, w') => (remove_dump path (Some r.2) ;; mret r) w'
  | (Raise e, w') => (remove_dump path None ;; raise e) w'
  end.

(** [size_bytes] is a 32-bit column. *)
Definition fits (size : Z) : bool := (0 <=? size) && (size <? 2 ^ 31).

(** 6. SUCCESS: in the row when the database takes it, always in the returned
    record. *)
Definition mark_success (backup_id : string) (size : Z) (f : BackupRecord -> BackupRecord) : M W unit :=
  swallow (in_session
    (rows ← select (fun w => List.filter (fun r => String.eqb (b_backup_id r) backup_id) (records w));
     row ← scalar_one_or_none rows;
     match row with
     | Some _ => save_if (fun _ => fits size) (update_record backup_id f) ;; statement
     | None => mret tt
     end)).

(** The record after a failure, when its row exists; [session_factory] is only
    bound when it could be obtained. *)
Definition mark_failed (backup_id : string) (f : BackupRecord -> BackupRecord) (e : pyexn) : M W BackupRecord :=
  if ready then
    rows ← select (fun w => List.filter (fun r => String.eqb (b_backup_id r) backup_id) (records w));
    row ← scalar_one_or_none rows;
    match row with
    | Some r => save (update_record backup_id f) ;; mret (f r)
    | None => raise e
    end
  else raise (OtherError "UnboundLocalError").

Definition backup_body (db_url backup_id : string) (record : BackupRecord) (completed_at : Z) (duration : float)
    : M W BackupRecord :=
  m ← metadata_of db_url;
  create_backup pg_dump pg_dump_partial have_pg_dump main db_url (temp_path (remote_key_of backup_id)) ;;
  r ← upload_dump (temp_path (remote_key_of backup_id)) backup_id;
  let '(size, checksum, location) := r in
  let done := success_record completed_at size checksum location duration m in
  mark_success backup_id size done ;;
  swallow (in_session (save add_metric)) ;;
  swallow (in_session (cleanup_expired_backups st completed_at (backup_retention_days settings) ≫= fun _ => mret tt)) ;;
  mret (done record).

Definition run_postgres_backup (backup_id : string) (created_at completed_at : Z) (duration : float) : M W BackupRecord :=
  if ostr_truthy (database_url settings) then
    let record := pending_record backup_id created_at in
    init_record record ;;
    try_except (backup_body (default "" (database_url settings)) backup_id record completed_at duration)
      (fun e => mark_failed backup_id (failed_record completed_at duration (exn_text e)) e)
  else raise RuntimeError.

(** ** The restore drill *)

(** [DROP DATABASE IF EXISTS] then [CREATE DATABASE], in autocommit. *)
Definition empty_database : database := Database_ [] None "".

Definition drop_database (name : string) : M W unit := save (fun w => set_server (assoc_remove name (server w)) w).

Definition permission_error : pyexn := OtherError "PermissionError".

(** A database cannot be dropped over a connection to itself. *)
Definition _create_scratch_database (scratch : string) : M W unit :=
  try_except
    (statement ;;
     (if String.eqb scratch main then raise db_error else drop_database scratch) ;;
     save (fun w => set_server (assoc_set scratch empty_database (server w)) w))
    (fun _ => raise permission_error).

Definition _drop_scratch_database (scratch : string) : M W unit := statement ;; statement ;; drop_database scratch.

(** 7. The comparison of one audited table. *)
Definition info_or_empty (i : option table_info) : table_info :=
  default {| t_rows := 0; t_sample_checksum := ""; t_sample_size := 0 |} i.

Record verdict := Verdict {
  v_rows : bool;
  v_checksums : bool;
  v_discrepancies : list (string * string);
}.

Definition show_text (expected got : string) : string := "Expected " +:+ expected +:+ ", got " +:+ got.
Definition show_rows (expected got : Z) : string := show_text (pretty expected) (pretty got).
Definition first8 (s : string) : string := String.substring 0 8 s.

Definition check_table (extracted : list (string * table_info)) (v : verdict) (e : string * table_info) : verdict :=
  let ext := info_or_empty (assoc e.1 extracted) in
  let v := if t_rows e.2 =? t_rows ext then v
           else Verdict false (v_checksums v)
                  (assoc_set ("table_" +:+ e.1 +:+ "_rows") (show_rows (t_rows e.2) (t_rows ext)) (v_discrepancies v)) in
  let exp_cs := t_sample_checksum e.2 in
  let ext_cs := t_sample_checksum ext in
  if str_truthy exp_cs && str_truthy ext_cs && negb (String.eqb exp_cs ext_cs) then
    Verdict (v_rows v) false
      (assoc_set ("table_" +:+ e.1 +:+ "_checksum") (show_text (first8 exp_cs) (first8 ext_cs)) (v_discrepancies v))
  else v.

Definition compare_tables (expected extracted : list (string * table_info)) : verdict :=
  fold_left (check_table extracted) expected (Verdict true true []).

Definition migration_matches (expected extracted : string) : bool :=
  if str_truthy expected then String.eqb expected extracted else true.

Definition drill_started (drill_id backup_id : string) (t : Z) (s : BackupStatus) : RestoreDrillRecord :=
  {| d_drill_id := drill_id; d_backup_id := backup_id; d_started_at := t; d_completed_at := None; d_status := s;
     d_duration_ms := f0; d_row_counts_match := false; d_checksum_match := false; d_migration_version_match := false;
     d_discrepancies := []; d_error_details := None |}.

Definition drill_ended (t : Z) (duration : float) (v : verdict) (mig : bool) (error : string) (d : RestoreDrillRecord)
    : RestoreDrillRecord :=
  let ok := v_rows v && v_checksums v && mig in
  {| d_drill_id := d_drill_id d; d_backup_id := d_backup_id d; d_started_at := d_started_at d; d_completed_at := Some t;
     d_status := if ok then SUCCESS else FAILED; d_duration_ms := duration; d_row_counts_match := v_rows v;
     d_checksum_match := v_checksums v; d_migration_version_match := mig; d_discrepancies := v_discrepancies v;
     d_error_details := if ok then d_error_details d else Some error |}.

Definition drill_failed (t : Z) (duration : float) (error : string) (d : RestoreDrillRecord) : RestoreDrillRecord :=
  {| d_drill_id := d_drill_id d; d_backup_id := d_backup_id d; d_started_at := d_started_at d; d_completed_at := Some t;
     d_status := FAILED; d_duration_ms := duration; d_row_counts_match := d_row_counts_match d;
     d_checksum_match := d_checksum_match d; d_migration_version_match := d_migration_version_match d;
     d_discrepancies := d_discrepancies d; d_error_details := Some error |}.

Definition update_drill (drill_id : string) (f : RestoreDrillRecord -> RestoreDrillRecord) (w : W) : W :=
  set_drills (map (fun d => if String.eqb (d_drill_id d) drill_id then f d else d) (drills w)) w.

Definition find_drill (drill_id : string) : M W (option RestoreDrillRecord) :=
  rows ← select (fun w => List.filter (fun d => String.eqb (d_drill_id d) drill_id) (drills w));
  scalar_one_or_none rows.

(** 1. The requested backup, or the latest successful one. *)
Definition latest (l : list BackupRecord) : option BackupRecord :=
  fold_left (fun best r => match best with
                           | Some b => if b_created_at b <? b_created_at r then Some r else best
                           | None => Some r
                           end) l None.

Definition target_record (backup_id : option string) (w : W) : option BackupRecord :=
  match backup_id with
  | Some i => if str_truthy i then List.find (fun r => String.eqb (b_backup_id r) i) (records w)
              else latest (List.filter (fun r => bool_decide (b_status r = SUCCESS)) (records w))
  | None => latest (List.filter (fun r => bool_decide (b_status r = SUCCESS)) (records w))
  end.

(** 3 to 9. *)
Definition verify_restore (target : BackupRecord) (scratch : string) : M W (verdict * bool) :=
  extracted ← metadata_of scratch;
  let v := compare_tables (m_tables (b_metadata target)) (m_tables extracted) in
  let mig := migration_matches (m_migration_version (b_metadata target)) (m_migration_version extracted) in
  mret (if mig then v
        else Verdict (v_rows v) (v_checksums v)
               (assoc_set "migration_version" (show_text (m_migration_version (b_metadata target)) (m_migration_version extracted))
                  (v_discrepancies v)), mig).

(** Download and checksum; then the scratch database exists. *)
Definition fetch_dump (target : BackupRecord) (path : string) : M W unit :=
  download st (remote_key_of (b_backup_id target)) path ;;
  actual ← compute_file_sha256 sha256 path;
  if str_truthy (b_checksum target) && negb (String.eqb actual (b_checksum target)) then raise ValueError else mret tt.

Variable show_discrepancies : list (string * string) -> string.

Definition record_verdict (drill_id : string) (v : verdict) (mig : bool) (t : Z) (duration : float) : M W RestoreDrillRecord :=
  d ← find_drill drill_id;
  match d with
  | None => raise (OtherError "NoResultFound")
  | Some d =>
      let f := drill_ended t duration v mig ("Verification discrepancies detected: " +:+ show_discrepancies (v_discrepancies v)) in
      save (update_drill drill_id f) ;; statement ;;
      save add_metric ;;
      mret (f d)
  end.

Definition drill_failure (drill_id : string) (t : Z) (duration : float) (e : pyexn) : M W RestoreDrillRecord :=
  d ← find_drill drill_id;
  match d with
  | Some d =>
      let f := drill_failed t duration (exn_text e) in
      save (update_drill drill_id f) ;; mret (f d)
  | None => raise e
  end.

(** 10. The [finally] block. *)
Definition drill_cleanup (scratch_made : bool) (scratch path : string) : M W unit :=
  (if scratch_made && str_truthy scratch && negb (String.eqb scratch "gaiaos")
   then swallow (_drop_scratch_database scratch) else mret tt) ;;
  found ← exists_ path;
  if (found : bool) then swallow (unlink path) else mret tt.

Definition finally_ {A} (m : M W A) (h : M W unit) : M W A := fun w =>
  let '(r, w1) := m w in
  match h w1 with (Ok _, w2) => (r, w2) | (Raise e, w2) => (Raise e, w2) end.

(** The steps with the scratch database in place. *)
Definition drill_scratch (drill_id : string) (target : BackupRecord) (path scratch : string) (t : Z) (duration : float)
    : M W RestoreDrillRecord :=
  restore_backup psql have_psql path scratch ;;
  r ← verify_restore target scratch;
  record_verdict drill_id r.1 r.2 t duration.

Definition drill_body (drill_id : string) (target : BackupRecord) (scratch : string) (t : Z) (duration : float)
    : M W RestoreDrillRecord :=
  let path := temp_path (b_backup_id target +:+ "_restore.sql") in
  let settle m := try_except m (drill_failure drill_id t duration) in
  fun w =>
    match (fetch_dump target path ;; _create_scratch_database scratch) w with
    | (Ok _, w1) =>
        finally_ (settle (drill_scratch drill_id target path scratch t duration)) (drill_cleanup true scratch path) w1
    | (Raise e, w1) => finally_ (drill_failure drill_id t duration e) (drill_cleanup false scratch path) w1
    end.

Definition no_backup (drill_id : string) (backup_id : option string) (t : Z) (error : string) : RestoreDrillRecord :=
  {| d_drill_id := drill_id; d_backup_id := if ostr_truthy backup_id then default "" backup_id else "unknown";
     d_started_at := t; d_completed_at := Some t; d_status := FAILED; d_duration_ms := f0; d_row_counts_match := false;
     d_checksum_match := false; d_migration_version_match := false; d_discrepancies := []; d_error_details := Some error |}.

Definition no_backup_text (backup_id : option string) : string :=
  "No successful backup found for restore drill (requested backup_id=" +:+ default "None" backup_id +:+ ")".

(** 2. PENDING, then RUNNING. *)
Definition begin_drill (drill_id : string) (target : BackupRecord) (t : Z) : M W unit :=
  save (fun w => set_drills (drills w ++ [drill_started drill_id (b_backup_id target) t PENDING]) w) ;;
  statement ;;
  save (update_drill drill_id (fun d => drill_started drill_id (b_backup_id target) t RUNNING)).

Definition run_restore_drill (backup_id : option string) (drill_id scratch : string) (t t' : Z) (duration : float)
    : M W RestoreDrillRecord :=
  (if ready then mret tt else raise RuntimeError) ;;
  (if ostr_truthy (database_url settings) then mret tt else raise RuntimeError) ;;
  target ← select (target_record backup_id);
  match target with
  | Some target =>
      if bool_decide (b_status target = SUCCESS) then
        begin_drill drill_id target t ;;
        drill_body drill_id target scratch t' duration
      else
        let d := no_backup drill_id backup_id t (no_backup_text backup_id) in
        save (fun w => set_drills (drills w ++ [d]) w) ;; mret d
  | None =>
      let d := no_backup drill_id backup_id t (no_backup_text backup_id) in
      save (fun w => set_drills (drills w ++ [d]) w) ;; mret d
  end.
End runner.

(** ** Redis snapshots *)

Record SnapshotVerificationResult := {
  sv_exists : bool;
  sv_readable : bool;
  sv_magic_valid : bool;
  sv_checksum : string;
  sv_age_seconds : float;
  sv_valid : bool;
  sv_error_message : option string;
}.

(** What the check finds at the path: nothing, a file whose [stat] or contents
    cannot be read, or a file with its contents and age. *)
Inductive snapshot_file :=
| Missing
| NoStat (e : string)
| Unreadable (age : float) (e : string)
| Snapshot (content : string) (age : float).

Section snapshot.
Variable sha256 : string -> string.
Variable format_1f : float -> string.

Definition snapshot_result (exists_ readable magic : bool) (checksum : string) (age : float) (error : option string)
    : SnapshotVerificationResult :=
  {| sv_exists := exists_; sv_readable := readable; sv_magic_valid := magic; sv_checksum := checksum; sv_age_seconds := age;
     sv_valid := match error with None => true | Some _ => false end; sv_error_message := error |}.

Definition default_snapshot : string := "./data/dump.rdb".

(** [path.suffix == ".aof"] *)
Definition is_aof (path : string) : bool := endswith ".aof" path && negb (endswith "/.aof" path || String.eqb path ".aof").

Definition magic_valid (path content : string) : bool := String.eqb (String.substring 0 5 content) "REDIS" || is_aof path.

Definition verify_redis_snapshot (path : string) (file : snapshot_file) (max_age_seconds : Z) : SnapshotVerificationResult :=
  match file with
  | Missing => snapshot_result false false false "" f0 (Some ("Snapshot file not found: " +:+ path))
  | NoStat e => snapshot_result true false false "" f0 (Some ("Failed to stat snapshot file: " +:+ e))
  | Unreadable age e => snapshot_result true false false "" age (Some ("Error reading snapshot file: " +:+ e))
  | Snapshot content age =>
      if (String.length content =? 0)%nat then snapshot_result true true false "" age (Some "Snapshot file is empty (0 bytes)")
      else if fltb (float_of_Z max_age_seconds) age then
        snapshot_result true true (magic_valid path content) (sha256 content) age
          (Some ("Snapshot age (" +:+ format_1f age +:+ "s) exceeds limit (" +:+ pretty max_age_seconds +:+ "s)"))
      else if negb (magic_valid path content) then
        snapshot_result true true false (sha256 content) age (Some "Invalid magic header (expected 'REDIS')")
      else snapshot_result true true true (sha256 content) age None
  end.
End snapshot.

(** ** Jobs and routes *)

Definition status_value (s : BackupStatus) : string :=
  match s with PENDING => "PENDING" | RUNNING => "RUNNING" | SUCCESS => "SUCCESS" | FAILED => "FAILED" end.

Definition run_postgres_backup_job (r : BackupRecord) : list (string * json) :=
  [("backup_id", JStr (b_backup_id r)); ("status", JStr (status_value (b_status r))); ("size_bytes", JInt (b_size_bytes r));
   ("duration_ms", JFloat (b_duration_ms r))].

Definition run_restore_drill_job (d : RestoreDrillRecord) : list (string * json) :=
  [("drill_id", JStr (d_drill_id d)); ("backup_id", JStr (d_backup_id d)); ("status", JStr (status_value (d_status d)));
   ("row_counts_match", JBool (d_row_counts_match d)); ("checksum_match", JBool (d_checksum_match d));
   ("migration_version_match", JBool (d_migration_version_match d)); ("duration_ms", JFloat (d_duration_ms d))].

Definition run_redis_verification_job (r : SnapshotVerificationResult) : list (string * json) :=
  [("exists", JBool (sv_exists r)); ("readable", JBool (sv_readable r)); ("magic_valid", JBool (sv_magic_valid r));
   ("checksum", JStr (sv_checksum r)); ("age_seconds", JFloat (sv_age_seconds r)); ("valid", JBool (sv_valid r))].

Definition newer_backup (a b : BackupRecord) : Prop := b_created_at b <= b_created_at a.
#[global] Instance newer_backup_dec a b : Decision (newer_backup a b).
Proof. unfold newer_backup. apply _. Defined.
Definition newer_drill (a b : RestoreDrillRecord) : Prop := d_started_at b <= d_started_at a.
#[global] Instance newer_drill_dec a b : Decision (newer_drill a b).
Proof. unfold newer_drill. apply _. Defined.

(** [GET /admin/backups] and [GET /admin/restore-drills] for an administrator. *)
Definition list_backup_records {S} (limit : Z) : M (world S) (list BackupRecord) :=
  select (fun w => take (Z.to_nat limit) (merge_sort newer_backup (records w))).
Definition list_restore_drills {S} (limit : Z) : M (world S) (list RestoreDrillRecord) :=
  select (fun w => take (Z.to_nat limit) (merge_sort newer_drill (drills w))).

(** ** Undisturbed runs *)

Section undisturbed.
Context {S : Type} `{!Postgres S}.
Variable main : string.
Variable sha256 : string -> string.
Variable rows_text : list string -> string.
Notation W := (world S).
Implicit Types w : W.

Lemma attempt_ok w : w_script w = [] -> attempt w = (Ok true, w).
Proof. intros Hs. unfold attempt, try_except. rewrite M_bind_run, statement_ok by done. done. Qed.

Lemma query_ok {A} works (answer : option A) w : w_script w = [] ->
  query works answer w = (Ok (match answer with Some a => if works then (Some a, true) else (None, false) | None => (None, false) end), w).
Proof. intros Hs. unfold query. rewrite M_bind_run, attempt_ok by done. cbn. by rewrite andb_true_r. Qed.

(** The audited tables up to the first that is missing. *)
Fixpoint present (d : database) (names : list string) : list (string * list string) :=
  match names with
  | [] => []
  | n :: names => match assoc n (db_tables d) with Some rows => (n, rows) :: present d names | None => [] end
  end.

Definition info_of w (db table : string) (rows : list string) : table_info :=
  let sample := take 100 (scan w db table rows) in
  {| t_rows := Z.of_nat (length rows); t_sample_checksum := sha256 (rows_text sample);
     t_sample_size := Z.of_nat (length sample) |}.

Lemma audit_stopped db d names w : w_script w = [] -> audit sha256 rows_text db d false names w = (Ok [], w).
Proof.
  intros Hs. induction names as [|n names IH]; [done|]. cbn [audit]. rewrite M_bind_run. unfold audit_table.
  rewrite M_bind_run, query_ok by done. destruct (assoc n (db_tables d)); cbn [snd]; cbn -[audit];
    rewrite M_bind_run, IH; done.
Qed.

Lemma audit_ok db d names w : w_script w = [] ->
  audit sha256 rows_text db d true names w = (Ok (map (fun e => (e.1, info_of w db e.1 e.2)) (present d names)), w).
Proof.
  intros Hs. induction names as [|n names IH]; [done|]. cbn [audit present]. rewrite M_bind_run. unfold audit_table.
  rewrite M_bind_run, query_ok by done. destruct (assoc n (db_tables d)) as [rows|]; cbn [snd].
  - rewrite M_bind_run. unfold sample_query. rewrite query_ok by done. cbn -[audit info_of take]. rewrite M_bind_run, IH. done.
  - cbn -[audit]. rewrite M_bind_run, audit_stopped by done. done.
Qed.

Definition meta_of w (db : string) (d : database) : metadata :=
  Metadata
    (match db_alembic d with Some _ => map (fun e => (e.1, info_of w db e.1 e.2)) (present d tables_to_audit) | None => [] end)
    (match db_alembic d with Some x => if str_truthy x then x else "unknown" | None => "unknown" end)
    (Some (if str_truthy (db_version d) then short_version (db_version d) else "PostgreSQL")).

Lemma connect_ok name d w : w_script w = [] -> database_at main name w = Some d -> connect main name w = (Ok d, w).
Proof. intros Hs Hd. unfold connect. rewrite M_bind_run, statement_ok by done. rewrite M_bind_run. cbn. by rewrite Hd. Qed.

Lemma metadata_ok name d w : w_script w = [] -> database_at main name w = Some d ->
  extract_verification_metadata sha256 rows_text main name w = (Ok (meta_of w name d), w).
Proof.
  intros Hs Hd. unfold extract_verification_metadata, meta_of. rewrite M_bind_run, (connect_ok name d) by done.
  rewrite M_bind_run, query_ok by done. cbn beta iota. rewrite M_bind_run, query_ok by done. cbn [snd fst].
  destruct (db_alembic d) as [x|]; rewrite M_bind_run; [rewrite audit_ok by done | rewrite audit_stopped by done]; done.
Qed.

Lemma read_file_ok path c w : w_script w = [] -> assoc path (files w) = Some c -> read_file path w = (Ok c, w).
Proof. intros Hs Hc. unfold read_file. rewrite M_bind_run, statement_ok by done. rewrite M_bind_run. cbn. by rewrite Hc. Qed.

Lemma sha_ok path c w : w_script w = [] -> assoc path (files w) = Some c -> compute_file_sha256 sha256 path w = (Ok (sha256 c), w).
Proof. intros Hs Hc. unfold compute_file_sha256. by rewrite M_bind_run, (read_file_ok path c). Qed.

Lemma copy_ok src dst c w : w_script w = [] -> assoc src (files w) = Some c ->
  copy src dst w = (Ok tt, set_files (assoc_set dst c (files w)) w).
Proof.
  intros Hs Hc. unfold copy. rewrite M_bind_run, (read_file_ok src c) by done. unfold write_file. by rewrite save_ok.
Qed.

Lemma unlink_ok path w : w_script w = [] -> unlink path w = (Ok tt, set_files (assoc_remove path (files w)) w).
Proof. intros Hs. unfold unlink. by rewrite save_ok. Qed.

Lemma swallow_ok (m : M W unit) w w' : m w = (Ok tt, w') -> swallow m w = (Ok tt, w').
Proof. intros Hm. unfold swallow, try_except. by rewrite Hm. Qed.
End undisturbed.

Lemma assoc_remove_eq {A} k (l : list (string * A)) : assoc k (assoc_remove k l) = None.
Proof. apply assoc_filtered. Qed.

Lemma assoc_remove_ne {A} k k' (l : list (string * A)) : k <> k' -> assoc k' (assoc_remove k l) = assoc k' l.
Proof.
  intros Hne. unfold assoc_remove. induction l as [|[j v] l IH]; cbn; [done|].
  destruct (String.eqb_spec k j) as [->|]; cbn; rewrite IH; [|done]. by destruct (String.eqb_spec k' j).
Qed.

(** ** A backup on the local storage *)

Section local_run.
Context {S : Type} `{!Postgres S}.
Variable sha256 : string -> string.
Variable pg_dump : database -> string.
Variable pg_dump_partial : database -> option string.
Variable psql : string -> database -> database.
Variable rows_text : list string -> string.
Variable exn_text : pyexn -> string.
Variable show_discrepancies : list (string * string) -> string.
Variable settings : Settings.
Notation W := (world S).
Implicit Types w : W.
Notation base := (backup_storage_path settings).
Notation local := (LocalBackupStorage (S := S) base).
Notation stored := (local_path base).
Notation temp := (temp_path settings).

(** Temporary files are never stored ones. *)
Lemma temp_not_stored name key : (String.length key <> String.length name + 5)%nat -> temp name <> stored key.
Proof.
  intros Hl. unfold temp_path, local_path. intros E. apply append_inj_l in E. change ("/temp/" +:+ name) with ("/" +:+ ("temp/" +:+ name)) in E.
  apply append_inj_l in E. apply (f_equal String.length) in E. rewrite length_app_string in E. cbn in E. lia.
Qed.

Lemma stored_inj k k' : stored k = stored k' -> k = k'.
Proof. unfold local_path. intros E. by apply append_inj_l, append_inj_l in E. Qed.

Lemma remote_key_inj i i' : remote_key_of i = remote_key_of i' -> i = i'.
Proof.
  unfold remote_key_of. intros E. assert (String.length i = String.length i') as Hl.
  { apply (f_equal String.length) in E. rewrite !length_app_string in E. cbn in E. lia. }
  revert i' E Hl. induction i as [|c i IH]; intros [|c' i'] E Hl; cbn in *; try done.
  injection E as -> E. f_equal. apply IH; [done | lia].
Qed.

Lemma local_upload_ok path key c w : w_script w = [] -> assoc path (files w) = Some c -> path <> stored key ->
  upload local path key w = (Ok (stored key), set_files (assoc_set (stored key) c (files w)) w).
Proof.
  intros Hs Hc Hne. cbn. unfold local_upload. rewrite (proj2 (String.eqb_neq _ _) Hne), M_bind_run, (copy_ok path _ c) by done. done.
Qed.

Lemma local_download_ok path key c w : w_script w = [] -> assoc (stored key) (files w) = Some c -> stored key <> path ->
  download local key path w = (Ok tt, set_files (assoc_set path c (files w)) w).
Proof.
  intros Hs Hc Hne. cbn. unfold local_download. rewrite M_bind_run. unfold exists_, gets, in_dict. rewrite Hc.
  rewrite (proj2 (String.eqb_neq _ _) Hne). by apply copy_ok.
Qed.

Lemma local_delete_ok key w : w_script w = [] -> exists l, delete local key w = (Ok tt, set_files l w) /\
  forall p, p <> stored key -> assoc p l = assoc p (files w).
Proof.
  intros Hs. cbn. unfold local_delete. rewrite M_bind_run. unfold exists_, gets, in_dict.
  destruct (assoc (stored key) (files w)).
  - eexists. rewrite unlink_ok by done. split; [done|]. intros p Hp. by rewrite assoc_remove_ne.
  - exists (files w). split; [by destruct w | done].
Qed.

Definition ids_of (l : list BackupRecord) : list string := map b_backup_id l.

Lemma cleanup_loop_ok expired : forall tx w, w_script w = [] ->
  exists fs rs, cleanup_loop local tx expired w = (Ok (Z.of_nat (length expired)), set_files fs (set_records rs w)) /\
    (forall i, i ∉ ids_of expired -> assoc (stored (remote_key_of i)) fs = assoc (stored (remote_key_of i)) (files w)) /\
    rs = List.filter (fun r => negb (bool_decide (b_backup_id r ∈ ids_of expired))) (records w).
Proof.
  induction expired as [|rec expired IH]; intros tx w Hs.
  - exists (files w), (records w). split; [by destruct w|]. split; [done|].
    symmetry. apply filter_keep_all. intros r _. rewrite bool_decide_eq_false_2; [done|]. apply not_elem_of_nil.
  - cbn [cleanup_loop]. destruct (local_delete_ok (remote_key_of (b_backup_id rec)) w Hs) as (l & -> & Hl).
    rewrite save_ok by done. rewrite M_bind_run.
    destruct (IH false (set_records (drop_record (b_backup_id rec) (records (set_files l w))) (set_files l w)) Hs)
      as (fs & rs & -> & Hfs & Hrs). exists fs, rs. split; [|split].
    + replace (Z.of_nat (length (rec :: expired))) with (Z.of_nat (length expired) + 1) by (cbn [length]; lia). done.
    + intros i Hi. rewrite Hfs by (intros H; apply Hi; by right). cbn. apply Hl.
      intros E. apply stored_inj, remote_key_inj in E as ->. apply Hi. by left.
    + rewrite Hrs. cbn. unfold drop_record. clear. induction (records w) as [|r rs IH]; [done|]. cbn.
      destruct (String.eqb_spec (b_backup_id r) (b_backup_id rec)) as [E|E]; cbn.
      * rewrite (bool_decide_eq_true_2 (b_backup_id r ∈ _)); [done|]. rewrite E. by left.
      * rewrite IH. destruct (decide (b_backup_id r ∈ ids_of expired)) as [Hi|Hi].
        -- rewrite !bool_decide_eq_true_2; [done | by right | done].
        -- rewrite !bool_decide_eq_false_2; [done | by intros [?|?]%elem_of_cons | done].
Qed.

(** The backups the clean-up keeps. *)
Definition wanted (now : Z) (r : BackupRecord) : bool :=
  negb (b_created_at r <? now - backup_retention_days settings * MICROS_PER_DAY).

(** The clean-up leaves the wanted records, and their files. *)
Lemma cleanup_keeps_recent now w : w_script w = [] -> NoDup (ids_of (records w)) ->
  exists fs n,
    cleanup_expired_backups local now (backup_retention_days settings) w =
      (Ok n, set_files fs (set_records (List.filter (wanted now) (records w)) w)) /\
    forall r, r ∈ records w -> wanted now r = true ->
      assoc (stored (remote_key_of (b_backup_id r))) fs = assoc (stored (remote_key_of (b_backup_id r))) (files w).
Proof.
  intros Hs Hn. unfold cleanup_expired_backups. rewrite M_bind_run, select_ok by done.
  set (expired := List.filter _ (records w)). destruct (cleanup_loop_ok expired true w Hs) as (fs & rs & E & Hfs & ->).
  assert (forall r, r ∈ records w -> negb (bool_decide (b_backup_id r ∈ ids_of expired)) = wanted now r) as Hw.
  { intros r Hr. unfold wanted. f_equal. destruct (_ <? _) eqn:Eo.
    - apply bool_decide_eq_true_2, list_elem_of_fmap_2, Regex.elem_of_Lfilter. done.
    - apply bool_decide_eq_false_2. intros (r' & Hid & [Hr' Hold]%Regex.elem_of_Lfilter)%list_elem_of_fmap.
      assert (r = r') as <- by by apply (NoDup_map_inj b_backup_id (records w)). congruence. }
  exists fs, (Z.of_nat (length expired)). split.
  - rewrite E. do 3 f_equal. apply List.filter_ext_in. intros r Hr%list_elem_of_In. by apply Hw.
  - intros r Hr Hwant. apply Hfs. rewrite <- (Hw r Hr) in Hwant. intros Hin. by rewrite bool_decide_eq_true_2 in Hwant.
Qed.

Section one_backup.
Variables (name backup_id : string) (d : database) (created_at completed_at : Z) (duration : float).
Hypothesis url : database_url settings = Some name.
Hypothesis name_given : str_truthy name = true.
Hypothesis recent : completed_at - backup_retention_days settings * MICROS_PER_DAY <= created_at.
Hypothesis small : fits (Z.of_nat (String.length (pg_dump d))) = true.

Notation path := (temp (remote_key_of backup_id)).
Notation key := (stored (remote_key_of backup_id)).
Notation pending := (pending_record settings backup_id created_at).
Notation run_backup := (run_postgres_backup sha256 pg_dump pg_dump_partial rows_text true exn_text settings local true
                          backup_id created_at completed_at duration).

(** While the backup runs, its row is in the database. *)
Definition running w : W := set_records (records w ++ [with_status RUNNING pending]) w.

Definition finished_record w : BackupRecord :=
  success_record completed_at (Z.of_nat (String.length (pg_dump d))) (sha256 (pg_dump d)) key duration
    (meta_of sha256 rows_text (running w) name d) pending.

Lemma path_not_key : path <> key.
Proof. apply temp_not_stored. lia. Qed.

Lemma update_last (f : BackupRecord -> BackupRecord) r l : b_backup_id r = backup_id -> backup_id ∉ ids_of l ->
  map (fun r => if String.eqb (b_backup_id r) backup_id then f r else r) (l ++ [r]) = l ++ [f r].
Proof.
  intros Hr Hl. rewrite map_app. cbn. rewrite Hr, String.eqb_refl. f_equal. rewrite <- (map_id l) at 2.
  apply map_ext_in. intros x Hx. destruct (String.eqb_spec (b_backup_id x) backup_id) as [E|]; [|done].
  exfalso. apply Hl. rewrite <- E. apply list_elem_of_fmap_2. by apply list_elem_of_In.
Qed.

Lemma filter_last r l : b_backup_id r = backup_id -> backup_id ∉ ids_of l ->
  List.filter (fun r => String.eqb (b_backup_id r) backup_id) (l ++ [r]) = [r].
Proof.
  intros Hr Hl. rewrite List.filter_app. cbn. rewrite Hr, String.eqb_refl, filter_drop_all; [done|].
  intros x Hx. apply String.eqb_neq. intros E. apply Hl. rewrite <- E. by apply list_elem_of_fmap_2.
Qed.

Lemma init_record_ok w : w_script w = [] -> backup_id ∉ ids_of (records w) ->
  init_record true pending w = (Ok tt, set_records (records w ++ [with_status RUNNING pending]) w).
Proof.
  intros Hs Hf. unfold init_record, in_session. apply swallow_ok. rewrite M_bind_run, save_if_ok by done.
  replace (existsb _ (records w)) with false.
  2: { symmetry. apply existsb_false. intros r Hr. apply String.eqb_neq. cbn. intros E. apply Hf. rewrite <- E. by apply list_elem_of_fmap_2. }
  cbn [negb]. rewrite M_bind_run, statement_ok by done. rewrite save_ok by done. f_equal.
  unfold update_record. cbn [records set_records b_backup_id pending_record]. by rewrite update_last.
Qed.

Lemma upload_dump_ok w : w_script w = [] -> assoc path (files w) = Some (pg_dump d) ->
  upload_dump sha256 local path backup_id w =
    (Ok (Z.of_nat (String.length (pg_dump d)), sha256 (pg_dump d), key),
     set_files (assoc_remove path (assoc_set key (pg_dump d) (files w))) w).
Proof.
  intros Hs Hc. unfold upload_dump, size_of, checksum_of. rewrite !M_bind_run. cbn [gets]. rewrite Hc.
  rewrite M_bind_run, statement_ok by done. cbn beta iota. unfold mret, M_ret at 1. rewrite M_bind_run, M_bind_run.
  unfold exists_ at 1, gets at 1, in_dict. rewrite Hc. rewrite (sha_ok sha256 path (pg_dump d)) by done.
  rewrite M_bind_run, (local_upload_ok path _ (pg_dump d)) by (done || apply path_not_key).
  unfold mret, M_ret. rewrite M_bind_run. unfold remove_dump. rewrite M_bind_run. unfold exists_, gets, in_dict.
  cbn [files set_files snd]. rewrite assoc_set_ne by (intros E; symmetry in E; by apply path_not_key in E). rewrite Hc.
  rewrite bool_decide_eq_false_2 by (intros [= E]; by apply path_not_key). cbn [andb negb].
  rewrite (swallow_ok _ _ _ (unlink_ok path (set_files (assoc_set key (pg_dump d) (files w)) w) Hs)). done.
Qed.

Lemma mark_success_ok (f : BackupRecord -> BackupRecord) size w l r : w_script w = [] -> fits size = true ->
  records w = l ++ [r] -> b_backup_id r = backup_id -> backup_id ∉ ids_of l ->
  mark_success true backup_id size f w = (Ok tt, set_records (l ++ [f r]) w).
Proof.
  intros Hs Hfit Hw Hr Hl. unfold mark_success, in_session. apply swallow_ok. rewrite M_bind_run, select_ok by done.
  rewrite Hw, filter_last by done. rewrite M_bind_run. cbn [scalar_one_or_none mret M_ret].
  rewrite M_bind_run, save_if_ok by done. rewrite Hfit. unfold update_record. rewrite Hw, update_last by done.
  by rewrite statement_ok.
Qed.

Lemma find_by_id r l : NoDup (ids_of l) -> r ∈ l -> List.find (fun x => String.eqb (b_backup_id x) (b_backup_id r)) l = Some r.
Proof.
  intros Hn Hr. destruct (List.find _ l) as [r'|] eqn:E.
  - apply find_some in E as [Hin E]. apply String.eqb_eq in E. f_equal. apply list_elem_of_In in Hin.
    by apply (NoDup_map_inj b_backup_id l).
  - apply list_elem_of_In in Hr. pose proof (find_none _ _ E r Hr) as Hf. cbn beta in Hf. by rewrite String.eqb_refl in Hf.
Qed.

(** The record is stored as successful and the storage holds the dump. *)
Lemma backup_ok w : w_script w = [] -> database_at name name (running w) = Some d -> backup_id ∉ ids_of (records w) ->
  NoDup (ids_of (records w)) ->
  exists fs, run_backup w = (Ok (finished_record w),
      set_files fs (set_records (List.filter (wanted completed_at) (records w ++ [finished_record w])) (add_metric w))) /\
    List.find (fun r => String.eqb (b_backup_id r) backup_id)
      (List.filter (wanted completed_at) (records w ++ [finished_record w])) = Some (finished_record w) /\
    assoc key fs = Some (pg_dump d).
Proof.
  intros Hs Hd Hf Hn. unfold run_postgres_backup. rewrite url. cbn [ostr_truthy default from_option]. rewrite name_given.
  change (id name) with name. rewrite M_bind_run, init_record_ok by done. unfold try_except, backup_body.
  rewrite url. cbn [default from_option]. change (id name) with name. change (set_records _ w) with (running w).
  set (w1 := running w). rewrite M_bind_run, (metadata_ok name sha256 rows_text name d w1) by done.
  rewrite M_bind_run. unfold create_backup. rewrite M_bind_run, (attempt_ok w1 Hs). rewrite M_bind_run.
  cbn [gets]. unfold w1 at 1. rewrite Hd. cbn [leave_file modify].
  set (w2 := set_files _ w1). rewrite M_bind_run, (upload_dump_ok w2) by (done || apply assoc_set_eq).
  set (w3 := set_files _ w2). rewrite M_bind_run.
  rewrite (mark_success_ok _ _ w3 (records w) (with_status RUNNING pending)) by done.
  change (success_record _ _ _ _ _ _ (with_status RUNNING pending)) with (finished_record w).
  change (success_record _ _ _ _ _ _ pending) with (finished_record w).
  rewrite M_bind_run. unfold in_session at 1. set (w4 := set_records _ w3).
  rewrite (swallow_ok _ w4 (add_metric w4)) by (by rewrite save_ok).
  set (w5 := add_metric _). rewrite M_bind_run.
  assert (NoDup (ids_of (records w5))) as Hn4.
  { unfold ids_of in *. cbn. rewrite map_app. apply NoDup_app. split; [done|]. split; [|apply NoDup_singleton].
    intros x Hx ->%list_elem_of_singleton. by apply Hf. }
  destruct (cleanup_keeps_recent completed_at w5 Hs Hn4) as (fs & n & Ec & Hk).
  rewrite (swallow_ok _ w5 (set_files fs (set_records (List.filter (wanted completed_at) (records w5)) w5))) by
    (unfold in_session; by rewrite M_bind_run, Ec).
  assert (wanted completed_at (finished_record w) = true) as Hwant.
  { unfold wanted. apply negb_true_iff, Z.ltb_ge. exact recent. }
  assert (finished_record w ∈ records w5) as Hin by (cbn; apply elem_of_app; right; by left).
  exists fs. split; [done|]. split.
  - apply (find_by_id (finished_record w)); [by apply NoDup_map_filter|]. by apply Regex.elem_of_Lfilter.
  - rewrite (Hk (finished_record w) Hin Hwant : assoc key fs = _). cbn [w5 w4 w3 w2 files add_metric set_records set_files].
    rewrite assoc_remove_ne by apply path_not_key. apply assoc_set_eq.
Qed.
End one_backup.

(** ** A drill on the local storage *)

Lemma present_keys d names : NoDup names -> NoDup (map fst (present d names)) /\ forall n, n ∈ map fst (present d names) -> n ∈ names.
Proof.
  induction 1 as [|n names Hn Hnames IH]; cbn; [split; [constructor | done]|].
  destruct IH as [IH1 IH2]. destruct (assoc n (db_tables d)); cbn; [|split; [constructor | intros ? []%elem_of_nil]]. split.
  - apply NoDup_cons. split; [|done]. intros H. by apply Hn, IH2.
  - intros m [->|Hm]%elem_of_cons; [by left | right; by apply IH2].
Qed.

Lemma audited_NoDup : NoDup tables_to_audit.
Proof. by apply (bool_decide_unpack _); vm_compute. Qed.

Lemma meta_keys w db d : NoDup (map fst (m_tables (meta_of sha256 rows_text w db d))).
Proof.
  cbn [meta_of m_tables]. destruct (db_alembic d); [|constructor]. rewrite map_map.
  rewrite (map_ext_in _ fst) by done. apply present_keys, audited_NoDup.
Qed.

Lemma assoc_pair {A} k v (l : list (string * A)) : assoc k l = Some v -> (k, v) ∈ l.
Proof.
  induction l as [|[j x] l IH]; cbn; [done|]. destruct (String.eqb_spec k j) as [->|].
  - intros [= ->]. by left.
  - intros E. right. by apply IH.
Qed.

Lemma present_in d names t : t ∈ present d names -> t ∈ db_tables d.
Proof.
  induction names as [|n names IH]; cbn; [inversion 1|]. destruct (assoc n (db_tables d)) as [rows|] eqn:E; [|inversion 1].
  intros [->|Ht]%elem_of_cons; [by apply assoc_pair | by apply IH].
Qed.

(** Two audits that are shown the same rows have the same result. *)
Lemma meta_same w db w' db' d :
  (forall table rows, (table, rows) ∈ db_tables d -> take 100 (scan w db table rows) = take 100 (scan w' db' table rows)) ->
  meta_of sha256 rows_text w db d = meta_of sha256 rows_text w' db' d.
Proof.
  intros Hsame. unfold meta_of. f_equal. destruct (db_alembic d); [|done]. apply map_ext_in.
  intros [table rows] Ht%list_elem_of_In%present_in. cbn [fst snd]. unfold info_of. by rewrite (Hsame table rows Ht).
Qed.

(** Equal metrics pass. *)
Lemma compare_same l : NoDup (map fst l) -> compare_tables l l = Verdict true true [].
Proof.
  intros Hn. unfold compare_tables. enough (forall k, (forall e, e ∈ k -> e ∈ l) ->
    fold_left (check_table l) k (Verdict true true []) = Verdict true true []) as H by by apply H.
  induction k as [|[n i] k IH]; intros Hk; [done|]. cbn [fold_left].
  replace (check_table l (Verdict true true []) (n, i)) with (Verdict true true []); [apply IH; intros; apply Hk; by right|].
  unfold check_table. cbn [fst snd]. rewrite (assoc_entry l n i) by (done || apply Hk; by left). cbn [info_or_empty default from_option].
  change (id i) with i. by rewrite Z.eqb_refl, String.eqb_refl, andb_false_r.
Qed.

Lemma migration_refl m : migration_matches m m = true.
Proof. unfold migration_matches. rewrite String.eqb_refl. by destruct (str_truthy m). Qed.

Section one_drill.
Variables (backup_id drill_id scratch : string) (d : database) (t t' : Z) (duration : float) (target : BackupRecord).
Hypothesis configured : ostr_truthy (database_url settings) = true.
Hypothesis id_given : str_truthy backup_id = true.
Hypothesis scratch_given : str_truthy scratch = true.
Hypothesis scratch_other : scratch <> "gaiaos".
Hypothesis restores : psql (pg_dump d) empty_database = d.
Hypothesis target_id : b_backup_id target = backup_id.
Hypothesis target_done : b_status target = SUCCESS.
Hypothesis target_sum : b_checksum target = sha256 (pg_dump d).
Variables (u : W) (source : string).
Hypothesis target_meta : b_metadata target = meta_of sha256 rows_text u source d.
Hypothesis same_sample : forall v table rows, (table, rows) ∈ db_tables d ->
  take 100 (scan u source table rows) = take 100 (scan v scratch table rows).
Notation main := (default "" (database_url settings)).
Hypothesis scratch_not_main : scratch <> main.

Notation path := (temp (backup_id +:+ "_restore.sql")).
Notation key := (stored (remote_key_of backup_id)).
Notation drill := (run_restore_drill sha256 psql rows_text true exn_text settings local true show_discrepancies
                     (Some backup_id) drill_id scratch t t' duration).

Lemma key_not_path : key <> path.
Proof.
  intros E. symmetry in E. revert E. apply temp_not_stored. unfold remote_key_of. rewrite !length_app_string. cbn. lia.
Qed.

Lemma fetch_dump_ok w : w_script w = [] -> assoc key (files w) = Some (pg_dump d) ->
  fetch_dump sha256 local target path w = (Ok tt, set_files (assoc_set path (pg_dump d) (files w)) w).
Proof.
  intros Hs Hf. unfold fetch_dump. rewrite M_bind_run, target_id, (local_download_ok path _ (pg_dump d)) by (done || apply key_not_path).
  rewrite M_bind_run, (sha_ok sha256 path (pg_dump d)) by (done || apply assoc_set_eq).
  by rewrite target_sum, String.eqb_refl, andb_false_r.
Qed.

Lemma create_scratch_ok w : w_script w = [] ->
  _create_scratch_database settings scratch w =
    (Ok tt, set_server (assoc_set scratch empty_database (assoc_remove scratch (server w))) w).
Proof.
  intros Hs. unfold _create_scratch_database, try_except, drop_database. rewrite M_bind_run, statement_ok by done.
  rewrite M_bind_run, (proj2 (String.eqb_neq _ _) scratch_not_main), save_ok by done. by rewrite save_ok.
Qed.

Lemma restore_ok w : w_script w = [] -> assoc path (files w) = Some (pg_dump d) ->
  assoc scratch (server w) = Some empty_database ->
  restore_backup psql true path scratch w = (Ok tt, set_server (assoc_set scratch d (server w)) w).
Proof.
  intros Hs Hf Hd. unfold restore_backup. rewrite M_bind_run. unfold exists_, gets, in_dict. rewrite Hf.
  rewrite M_bind_run, attempt_ok by done. unfold modify. by rewrite Hf, Hd, restores.
Qed.

Lemma verify_ok w : w_script w = [] -> assoc scratch (server w) = Some d ->
  verify_restore sha256 rows_text settings target scratch w = (Ok (Verdict true true [], true), w).
Proof.
  intros Hs Hd. unfold verify_restore. rewrite M_bind_run, (metadata_ok _ _ _ scratch d) by
    (done || by rewrite database_at_other).
  by rewrite target_meta, (meta_same u source w scratch d (same_sample w)), compare_same, migration_refl by apply meta_keys.
Qed.

Notation row := (drill_started drill_id backup_id t).

Lemma update_last_drill (f : RestoreDrillRecord -> RestoreDrillRecord) x l : d_drill_id x = drill_id -> drill_id ∉ map d_drill_id l ->
  map (fun d => if String.eqb (d_drill_id d) drill_id then f d else d) (l ++ [x]) = l ++ [f x].
Proof.
  intros Hx Hl. rewrite map_app. cbn [map]. rewrite Hx, String.eqb_refl. f_equal. rewrite <- (map_id l) at 2.
  apply map_ext_in. intros y Hy%list_elem_of_In. destruct (String.eqb_spec (d_drill_id y) drill_id) as [E|]; [|done].
  exfalso. apply Hl. rewrite <- E. by apply list_elem_of_fmap_2.
Qed.

Lemma record_verdict_ok w l : w_script w = [] -> drills w = l ++ [row RUNNING] -> drill_id ∉ map d_drill_id l ->
  let f := drill_ended t' duration (Verdict true true []) true ("Verification discrepancies detected: " +:+ show_discrepancies []) in
  record_verdict show_discrepancies drill_id (Verdict true true []) true t' duration w =
    (Ok (f (row RUNNING)), add_metric (set_drills (l ++ [f (row RUNNING)]) w)).
Proof.
  intros Hs Hw Hl f. unfold record_verdict, find_drill. rewrite !M_bind_run, select_ok by done. rewrite Hw.
  assert (forall x, x ∈ l -> d_drill_id x <> drill_id) as Hx
    by (intros x Hx E; apply Hl; rewrite <- E; by apply list_elem_of_fmap_2).
  rewrite List.filter_app, filter_drop_all by (intros x Hin; apply String.eqb_neq; by apply Hx).
  cbn [app List.filter d_drill_id drill_started]. rewrite String.eqb_refl. cbn [scalar_one_or_none mret M_ret].
  rewrite M_bind_run, save_ok by done. rewrite M_bind_run, statement_ok by done. rewrite M_bind_run, save_ok by done.
  unfold update_drill. by rewrite Hw, update_last_drill.
Qed.

Lemma cleanup_ok w c : w_script w = [] -> assoc path (files w) = Some c ->
  drill_cleanup true scratch path w =
    (Ok tt, set_files (assoc_remove path (files w)) (set_server (assoc_remove scratch (server w)) w)).
Proof.
  intros Hs Hf. unfold drill_cleanup. rewrite M_bind_run, scratch_given, (proj2 (String.eqb_neq _ _) scratch_other). cbn [andb negb].
  rewrite (swallow_ok _ w (set_server (assoc_remove scratch (server w)) w)).
  2: { unfold _drop_scratch_database, drop_database. rewrite M_bind_run, statement_ok by done.
       rewrite M_bind_run, statement_ok by done. by rewrite save_ok. }
  rewrite M_bind_run. unfold exists_, gets, in_dict. cbn [files set_server]. rewrite Hf. apply swallow_ok. by rewrite unlink_ok.
Qed.

(** The drill succeeds and leaves neither the scratch database nor the file. *)
Lemma drill_ok w : w_script w = [] -> drill_id ∉ map d_drill_id (drills w) ->
  List.find (fun r => String.eqb (b_backup_id r) backup_id) (records w) = Some target ->
  assoc key (files w) = Some (pg_dump d) ->
  exists dr w', drill w = (Ok dr, w') /\ d_status dr = SUCCESS /\ d_backup_id dr = backup_id /\ drills w' = drills w ++ [dr] /\
    records w' = records w /\ metric_rows w' = Datatypes.S (metric_rows w) /\
    assoc path (files w') = None /\ assoc scratch (server w') = None /\
    forall n, n <> scratch -> assoc n (server w') = assoc n (server w).
Proof.
  intros Hs Hd Hr Hk. unfold run_restore_drill. rewrite configured. rewrite !M_bind_run. cbn [mret M_ret].
  rewrite !M_bind_run. cbn [mret M_ret]. rewrite M_bind_run, select_ok by done. unfold target_record. rewrite id_given, Hr, target_done.
  rewrite bool_decide_eq_true_2 by done. unfold begin_drill. rewrite target_id, M_bind_run.
  rewrite M_bind_run, save_ok by done. rewrite M_bind_run, statement_ok by done. rewrite save_ok by done.
  set (w1 := update_drill _ _ _).
  assert (drills w1 = drills w ++ [row RUNNING]) as Hw1 by (cbn; by apply (update_last_drill (fun _ => row RUNNING))).
  unfold drill_body. rewrite target_id. rewrite M_bind_run, (fetch_dump_ok w1) by done. set (w2 := set_files _ w1).
  rewrite create_scratch_ok by done. set (w3 := set_server _ w2). unfold finally_, try_except, drill_scratch.
  rewrite M_bind_run, (restore_ok w3) by (done || apply assoc_set_eq). set (w4 := set_server _ w3).
  rewrite M_bind_run, (verify_ok w4) by (done || apply assoc_set_eq). cbn [fst snd].
  rewrite (record_verdict_ok w4 (drills w)) by done.
  rewrite (cleanup_ok _ (pg_dump d)) by (done || apply assoc_set_eq).
  eexists _, _. split; [done|]. do 5 (split; [done|]).
  split; [apply assoc_remove_eq|]. split; [apply assoc_remove_eq|]. intros n Hn.
  change (assoc n (assoc_remove scratch (assoc_set scratch d (assoc_set scratch empty_database
    (assoc_remove scratch (server w))))) = assoc n (server w)).
  by rewrite assoc_remove_ne, !assoc_set_ne, assoc_remove_ne by done.
Qed.
End one_drill.
End local_run.

(** ** What a drill leaves alone *)

Section isolation.
Context {S : Type} `{!Postgres S}.
Variable sha256 : string -> string.
Variable psql : string -> database -> database.
Variable rows_text : list string -> string.
Variable have_psql : bool.
Variable exn_text : pyexn -> string.
Variable settings : Settings.
Variable show_discrepancies : list (string * string) -> string.
Variable ready : bool.
Variables scratch n : string.
Hypothesis other : n <> scratch.
Notation W := (world S).

(** The database [n] and the backup records. *)
Definition kept (w : W) : option database * list BackupRecord := (assoc n (server w), records w).
Notation frames := (frames kept).

Lemma frame_statement : frames statement.
Proof. by apply frames_statement. Qed.

Lemma frame_save change : (forall w, kept (change w) = kept w) -> frames (save change).
Proof. intros Hc. by apply frames_save. Qed.

Lemma frame_swallow (m : M W unit) : frames m -> frames (swallow m).
Proof. intros Hm. apply frames_try; [done|]. intros; by apply frames_same. Qed.

Lemma frame_read path : frames (read_file path).
Proof.
  apply frames_bind; [apply frame_statement|]. intros []. apply frames_bind; [by apply frames_same|].
  intros []; by apply frames_same.
Qed.

Lemma frame_sha path : frames (compute_file_sha256 sha256 path).
Proof. apply frames_bind; [apply frame_read|]. intros; by apply frames_same. Qed.

Lemma frame_attempt : frames attempt.
Proof.
  apply frames_try; [|intros; by apply frames_same]. apply frames_bind; [apply frame_statement|]. intros; by apply frames_same.
Qed.

Lemma frame_query {A} works (a : option A) : frames (query works a).
Proof. apply frames_bind; [apply frame_attempt|]. intros; by apply frames_same. Qed.

Lemma frame_audit db d names works : frames (audit sha256 rows_text db d works names).
Proof.
  revert works. induction names as [|x names IH]; intros works; [by apply frames_same|].
  apply frames_bind.
  - apply frames_bind; [apply frame_query|]. intros [? []]; [|by apply frames_same].
    apply frames_bind; [intros w; apply frame_query|]. intros; by apply frames_same.
  - intros r. apply frames_bind; [apply IH|]. intros; by apply frames_same.
Qed.

Lemma frame_metadata main name : frames (extract_verification_metadata sha256 rows_text main name).
Proof.
  apply frames_bind.
  - apply frames_bind; [apply frame_statement|]. intros []. apply frames_bind; [by apply frames_same|].
    intros []; by apply frames_same.
  - intros d. apply frames_bind; [apply frame_query|]. intros v. apply frames_bind; [apply frame_query|]. intros m.
    apply frames_bind; [apply frame_audit|]. intros; by apply frames_same.
Qed.

Lemma kept_server l (w : W) : assoc n l = assoc n (server w) -> kept (set_server l w) = kept w.
Proof. intros Hl. unfold kept. cbn. by rewrite Hl. Qed.

Lemma frame_restore path : frames (restore_backup psql have_psql path scratch).
Proof.
  apply frames_bind; [by apply frames_same|]. intros []; [|by apply frames_same].
  destruct have_psql; [|by apply frames_same]. apply frames_bind; [apply frame_attempt|]. intros ok w. unfold modify. cbn [snd].
  destruct (assoc path (files w)), (assoc scratch (server w)), ok; try done. apply kept_server. by rewrite assoc_set_ne.
Qed.

Lemma frame_create : frames (_create_scratch_database settings scratch).
Proof.
  apply frames_try; [|intros; by apply frames_same]. apply frames_bind; [apply frame_statement|]. intros [].
  apply frames_bind.
  { destruct (String.eqb scratch _); [by apply frames_same|]. apply frame_save. intros w. apply kept_server. by rewrite assoc_remove_ne. }
  intros []. apply frame_save. intros w. apply kept_server. by rewrite assoc_set_ne.
Qed.

Lemma frame_drop : frames (_drop_scratch_database scratch).
Proof.
  apply frames_bind; [apply frame_statement|]. intros []. apply frames_bind; [apply frame_statement|]. intros [].
  apply frame_save. intros w. apply kept_server. by rewrite assoc_remove_ne.
Qed.

Lemma frame_cleanup made path : frames (drill_cleanup made scratch path).
Proof.
  apply frames_bind; [destruct (_ && _); [apply frame_swallow, frame_drop | by apply frames_same]|]. intros [].
  apply frames_bind; [by apply frames_same|]. intros []; [|by apply frames_same]. by apply frame_swallow, frame_save.
Qed.

Lemma frame_finally {A} (m : M W A) h : frames m -> frames h -> frames (finally_ m h).
Proof.
  intros Hm Hh w. unfold finally_. specialize (Hm w). destruct (m w) as [r w1]. specialize (Hh w1).
  destruct (h w1) as [[]]; cbn in *; congruence.
Qed.

Lemma frame_find_drill i : frames (find_drill i).
Proof.
  apply frames_bind; [by apply frames_select|]. intros [|? []]; by apply frames_same.
Qed.

Lemma frame_failure i t duration e : frames (drill_failure exn_text i t duration e).
Proof.
  apply frames_bind; [apply frame_find_drill|]. intros [d|]; [|by apply frames_same].
  apply frames_bind; [by apply frame_save|]. intros []. by apply frames_same.
Qed.

Lemma frame_verdict i v mig t duration : frames (record_verdict show_discrepancies i v mig t duration).
Proof.
  apply frames_bind; [apply frame_find_drill|]. intros [d|]; [|by apply frames_same].
  apply frames_bind; [by apply frame_save|]. intros []. apply frames_bind; [apply frame_statement|]. intros [].
  apply frames_bind; [by apply frame_save|]. intros []. by apply frames_same.
Qed.

Lemma frame_local_download base key path : frames (download (LocalBackupStorage (S := S) base) key path).
Proof.
  cbn. apply frames_bind; [by apply frames_same|]. intros []; [|by apply frames_same].
  destruct (String.eqb _ _); [by apply frames_same|]. apply frames_bind; [apply frame_read|]. intros c. by apply frame_save.
Qed.

Variable st : BackupStorage S.
Hypothesis download_frame : forall key path, frames (download st key path).

Lemma frame_fetch target path : frames (fetch_dump sha256 st target path).
Proof.
  apply frames_bind; [apply download_frame|]. intros []. apply frames_bind; [apply frame_sha|]. intros s.
  destruct (_ && _); by apply frames_same.
Qed.

Lemma frame_body i target t duration :
  frames (drill_body sha256 psql rows_text have_psql exn_text settings st show_discrepancies i target scratch t duration).
Proof.
  intros w. unfold drill_body. set (path := temp_path _ _). set (start := (fetch_dump _ _ _ _ ≫= _)).
  assert (frames start) as Hst.
  { apply frames_bind; [apply frame_fetch|]. intros []. apply frame_create. }
  specialize (Hst w). destruct (start w) as [[[]|e] w1]; cbn in Hst; rewrite <- Hst.
  - apply frame_finally; [|apply frame_cleanup]. apply frames_try; [|intros; apply frame_failure].
    apply frames_bind; [apply frame_restore|]. intros []. apply frames_bind; [|intros; apply frame_verdict].
    apply frames_bind; [apply frame_metadata|]. intros; by apply frames_same.
  - apply frame_finally; [apply frame_failure | apply frame_cleanup].
Qed.
End isolation.

(** ** A successful verdict *)

Lemma check_table_mono extracted v e : v_rows (check_table extracted v e) = true -> v_checksums (check_table extracted v e) = true ->
  v_rows v = true /\ v_checksums v = true /\ t_rows e.2 = t_rows (info_or_empty (assoc e.1 extracted)) /\
  let cs := t_sample_checksum (info_or_empty (assoc e.1 extracted)) in
  t_sample_checksum e.2 = "" \/ cs = "" \/ t_sample_checksum e.2 = cs.
Proof.
  unfold check_table. destruct (Z.eqb_spec (t_rows e.2) (t_rows (info_or_empty (assoc e.1 extracted)))) as [Er|].
  - destruct (str_truthy (t_sample_checksum e.2)) eqn:E1; cbn.
    + destruct (str_truthy (t_sample_checksum (info_or_empty _))) eqn:E2; cbn.
      * destruct (String.eqb_spec (t_sample_checksum e.2) (t_sample_checksum (info_or_empty (assoc e.1 extracted)))); cbn; [|done].
        intros ? ?. do 3 (split; [done|]). by right; right.
      * intros ? ?. do 3 (split; [done|]). right. left. unfold str_truthy in E2. apply negb_false_iff in E2. by apply String.eqb_eq in E2.
    + intros ? ?. do 3 (split; [done|]). left. unfold str_truthy in E1. apply negb_false_iff in E1. by apply String.eqb_eq in E1.
  - by destruct (_ && _).
Qed.

Lemma compare_sound extracted l : forall v, v_rows (fold_left (check_table extracted) l v) = true ->
  v_checksums (fold_left (check_table extracted) l v) = true ->
  v_rows v = true /\ v_checksums v = true /\ forall e, e ∈ l ->
    t_rows e.2 = t_rows (info_or_empty (assoc e.1 extracted)) /\
    (let cs := t_sample_checksum (info_or_empty (assoc e.1 extracted)) in
     t_sample_checksum e.2 = "" \/ cs = "" \/ t_sample_checksum e.2 = cs).
Proof.
  induction l as [|e l IH]; intros v Hr Hc; [do 2 (split; [done|]); intros e He; by apply elem_of_nil in He|].
  cbn in Hr, Hc. destruct (IH _ Hr Hc) as (Hr1 & Hc1 & Hl). destruct (check_table_mono _ _ _ Hr1 Hc1) as (? & ? & ? & ?).
  do 2 (split; [done|]). intros e' [->|He']%elem_of_cons; [done | by apply Hl].
Qed.

(** ** Properties *)

(** C14. On the local storage, a backup that runs undisturbed is recorded as
    successful, and a drill of it then succeeds, when [psql] restores what [pg_dump]
    wrote and the audits of the main and of the scratch database are shown the same
    sample of every table.  Afterwards the scratch database is gone, every database
    but the main one is as it was, and the main one differs in the rows the runners
    write: the backup (and no expired one), the drill and two metrics. *)
Theorem backup_drill_roundtrip {S} `{!Postgres S} (sha256 : string -> string) (pg_dump : database -> string)
    (pg_dump_partial : database -> option string) (psql : string -> database -> database) (rows_text : list string -> string)
    (exn_text : pyexn -> string) (show_discrepancies : list (string * string) -> string) (settings : Settings)
    (name backup_id drill_id scratch : string) (d : database) (created_at completed_at t t' : Z) (duration : float) (w : world S) :
  let st := LocalBackupStorage (backup_storage_path settings) in
  database_url settings = Some name -> str_truthy name = true -> str_truthy backup_id = true ->
  database_at name name (running settings backup_id created_at w) = Some d ->
  psql (pg_dump d) empty_database = d ->
  (forall u v table rows, (table, rows) ∈ db_tables d ->
     take 100 (scan u name table rows) = take 100 (scan v scratch table rows)) ->
  completed_at - backup_retention_days settings * MICROS_PER_DAY <= created_at ->
  fits (Z.of_nat (String.length (pg_dump d))) = true ->
  w_script w = [] -> backup_id ∉ ids_of (records w) -> NoDup (ids_of (records w)) ->
  drill_id ∉ map d_drill_id (drills w) -> str_truthy scratch = true -> scratch <> "gaiaos" -> scratch <> name ->
  exists r w1 dr w2,
    run_postgres_backup sha256 pg_dump pg_dump_partial rows_text true exn_text settings st true backup_id created_at
      completed_at duration w = (Ok r, w1) /\ b_status r = SUCCESS /\ b_checksum r = sha256 (pg_dump d) /\
    run_restore_drill sha256 psql rows_text true exn_text settings st true show_discrepancies (Some backup_id) drill_id
      scratch t t' duration w1 = (Ok dr, w2) /\ d_status dr = SUCCESS /\ d_backup_id dr = backup_id /\
    records w2 = List.filter (wanted settings completed_at) (records w ++ [r]) /\ r ∈ records w2 /\
    drills w2 = drills w ++ [dr] /\ metric_rows w2 = (2 + metric_rows w)%nat /\
    database_at name scratch w2 = None /\
    (forall n, n <> scratch -> n <> name -> database_at name n w2 = database_at name n w) /\
    forall table, table ∉ written_tables -> table_at name table w2 = table_at name table w.
Proof.
  intros st Hu Hname Hid Hd Hp Hsame Hrec Hfit Hs Hf Hn Hdr Hsc Hg Hnm.
  destruct (backup_ok sha256 pg_dump pg_dump_partial rows_text exn_text settings name backup_id d created_at completed_at
    duration Hu Hname Hrec Hfit w Hs Hd Hf Hn) as (fs & E1 & Hfind & Hfile).
  set (r := finished_record _ _ _ _ _ _ _ _ _ _ w) in *. set (w1 := set_files fs _) in *.
  assert (ostr_truthy (database_url settings) = true) as Hc by (by rewrite Hu).
  assert (scratch <> default "" (database_url settings)) as Hnm' by (by rewrite Hu).
  destruct (drill_ok sha256 pg_dump psql rows_text exn_text show_discrepancies settings backup_id drill_id scratch d t t'
    duration r Hc Hid Hsc Hg Hp eq_refl eq_refl eq_refl _ name eq_refl (Hsame _) Hnm' w1 Hs Hdr Hfind Hfile)
    as (dr & w2 & E2 & Hdone & Hb & Hds & Hrs & Hms & _ & Hscr & Hoth).
  exists r, w1, dr, w2. split; [exact E1|]. do 2 (split; [done|]). split; [exact E2|]. do 2 (split; [done|]). split; [done|].
  split. { rewrite Hrs. apply find_some in Hfind as [Hin _]. by apply list_elem_of_In. }
  do 2 (split; [done|]). split; [by rewrite database_at_other|]. split.
  - intros n Hne Hnn. rewrite !database_at_other by done. by rewrite Hoth.
  - intros table Ht. rewrite !table_at_server by done. by rewrite Hoth.
Qed.

(** Whatever fails, a drill changes no backup record and no other table of a
    database but the scratch one, apart from the drill and metric rows it writes. *)
Theorem drill_isolated {S} `{!Postgres S} (sha256 : string -> string) (psql : string -> database -> database) (rows_text : list string -> string)
    (have_psql : bool) (exn_text : pyexn -> string) (settings : Settings) (show_discrepancies : list (string * string) -> string)
    (ready : bool) (backup_id : option string) (drill_id scratch n : string) (t t' : Z) (duration : float) (w : world S) :
  n <> scratch ->
  let w' := (run_restore_drill sha256 psql rows_text have_psql exn_text settings
               (LocalBackupStorage (backup_storage_path settings)) ready show_discrepancies backup_id drill_id scratch t t' duration w).2 in
  assoc n (server w') = assoc n (server w) /\ records w' = records w.
Proof.
  intros Hn. cbn zeta.
  enough (frames (kept n) (run_restore_drill sha256 psql rows_text have_psql exn_text settings
    (LocalBackupStorage (S := S) (backup_storage_path settings)) ready show_discrepancies backup_id drill_id scratch t t' duration)) as H.
  { specialize (H w). unfold kept in H. by injection H. }
  apply frames_bind; [destruct ready; by apply frames_same|]. intros [].
  apply frames_bind; [destruct (ostr_truthy _); by apply frames_same|]. intros [].
  apply frames_bind; [by apply frames_select|].
  assert (forall d, frames (kept n) (save (fun w : world S => set_drills (drills w ++ [d]) w) ≫= fun _ => mret d)) as Hno.
  { intros d. apply frames_bind; [by apply frame_save|]. intros []. by apply frames_same. }
  intros [target|]; [|apply Hno]. destruct (bool_decide _); [|apply Hno].
  apply frames_bind.
  { apply frames_bind; [by apply frame_save|]. intros []. apply frames_bind; [by apply frame_statement|]. intros [].
    by apply frame_save. }
  intros []. apply frame_body; [done|]. intros. by apply frame_local_download.
Qed.

Lemma finally_returns {S A} (m : M (world S) A) h w a w' : finally_ m h w = (Ok a, w') -> exists w1, m w = (Ok a, w1).
Proof. unfold finally_. destruct (m w) as [r w1]. destruct (h w1) as [[]]; intros [= -> ->]; eauto. Qed.

Lemma failure_is_failed {S} exn_text i t duration e (w : world S) d w' :
  drill_failure exn_text i t duration e w = (Ok d, w') -> d_status d = FAILED.
Proof.
  unfold drill_failure. intros ([x|] & w1 & _ & H)%M_bind_ok; [|done].
  apply M_bind_ok in H as ([] & w2 & _ & [= <- _]). done.
Qed.

Lemma select_target {S} backup_id (w : world S) o w1 : select (target_record backup_id) w = (Ok o, w1) -> o = target_record backup_id w.
Proof. intros [-> [cs ->]]%select_returns. done. Qed.

(** What the audit of the database [d] may report of a table: its number of rows,
    and the digest of the first 100 rows in some order. *)
Definition reports (sha256 : string -> string) (rows_text : list string -> string) (d : database) (table : string)
    (i : table_info) : Prop :=
  exists rows order, assoc table (db_tables d) = Some rows /\ order ≡ₚ rows /\
    t_rows i = Z.of_nat (length rows) /\ t_sample_checksum i = sha256 (rows_text (take 100 order)).

Section audit_sound.
Context {S : Type} `{!Postgres S}.
Variable sha256 : string -> string.
Variable rows_text : list string -> string.
Implicit Types w : world S.

Lemma query_sound {A} works (answer : option A) w a works' w' :
  query works answer w = (Ok (Some a, works'), w') -> answer = Some a.
Proof. unfold query. intros (ok & w1 & _ & [= E _])%M_bind_ok. destruct answer; [|done]. by destruct (works && ok); simplify_eq. Qed.

Lemma audit_table_sound db d works name w l works' w' :
  audit_table sha256 rows_text db d works name w = (Ok (l, works'), w') ->
  forall e, e ∈ l -> reports sha256 rows_text d e.1 e.2.
Proof.
  unfold audit_table. intros ([c [|]] & w1 & Ec & H)%M_bind_ok e He; cbn [snd fst] in H;
    [|injection H as <- <- <-; by apply elem_of_nil in He].
  apply M_bind_ok in H as ([s works1] & w2 & Es & [= E _]). unfold sample_query in Es.
  destruct c as [all|], s as [sample|]; injection E as <- <-; try by apply elem_of_nil in He.
  apply list_elem_of_singleton in He as ->. cbn [fst snd]. apply query_sound in Ec, Es. rewrite Ec in Es. injection Es as <-.
  by exists all, (scan w1 db name all); split_and!; [|apply scan_perm| |].
Qed.

Lemma audit_sound db d names : forall works w l w', audit sha256 rows_text db d works names w = (Ok l, w') ->
  forall e, e ∈ l -> reports sha256 rows_text d e.1 e.2.
Proof.
  induction names as [|n names IH]; intros works w l w' H e He; cbn [audit] in H.
  - injection H as <- <-. by apply elem_of_nil in He.
  - apply M_bind_ok in H as ([l1 works1] & w1 & E1 & H). apply M_bind_ok in H as (l2 & w2 & E2 & [= <- <-]).
    apply elem_of_app in He as [He|He]; [by eapply audit_table_sound | by eapply IH].
Qed.

(** The metadata is about the database it was extracted from, whatever query
    failed. *)
Lemma metadata_sound main name d w m w' : database_at main name w = Some d ->
  extract_verification_metadata sha256 rows_text main name w = (Ok m, w') ->
  (forall table i, assoc table (m_tables m) = Some i -> reports sha256 rows_text d table i) /\
  (m_migration_version m = "unknown" \/ db_alembic d = Some (m_migration_version m)).
Proof.
  intros Hd. unfold extract_verification_metadata. intros (d' & w1 & Ec & H)%M_bind_ok.
  assert (d' = d) as ->.
  { unfold connect in Ec. apply M_bind_ok in Ec as ([] & w2 & [cs ->]%statement_returns & Ec).
    apply M_bind_ok in Ec as (o & w3 & [= <- <-] & Ec).
    assert (database_at main name (set_w_script cs w) = Some d) as E' by exact Hd. rewrite E' in Ec. by injection Ec. }
  apply M_bind_ok in H as (v & w2 & _ & H). apply M_bind_ok in H as ([mig works] & w3 & Em & H).
  apply M_bind_ok in H as (l & w4 & Ea & [= <- <-]). cbn [m_tables m_migration_version fst]. split.
  - intros table i Hi%assoc_pair. by apply (audit_sound _ _ _ _ _ _ _ Ea (table, i)).
  - destruct mig as [x|]; [|by left]. apply query_sound in Em. destruct (str_truthy x); [by right | by left].
Qed.
End audit_sound.

(** The content downloaded is the content hashed. *)
Lemma fetch_returns {S} sha256 (st : BackupStorage S) target path (k : M (world S) unit) w1 w3 :
  (fetch_dump sha256 st target path ≫= fun _ => k) w1 = (Ok tt, w3) ->
  exists c w2, download st (remote_key_of (b_backup_id target)) path w1 = (Ok tt, w2) /\ assoc path (files w2) = Some c /\
    (b_checksum target = "" \/ sha256 c = b_checksum target) /\ (statement ≫= fun _ => k) w2 = (Ok tt, w3).
Proof.
  intros ([] & wa & Ef & Hk)%M_bind_ok. unfold fetch_dump in Ef. apply M_bind_ok in Ef as ([] & w2 & Ed & Ef).
  apply M_bind_ok in Ef as (actual & wb & Esha & Ef). unfold compute_file_sha256 in Esha.
  apply M_bind_ok in Esha as (c & wc & Eread & [= <- <-]). unfold read_file in Eread.
  apply M_bind_ok in Eread as ([] & wd & Est & Eread). pose proof Est as [cs ->]%statement_returns.
  apply M_bind_ok in Eread as (o & we & [= <- <-] & Eread). destruct (assoc path (files _)) as [c'|] eqn:Ec; [|done].
  injection Eread as -> <-. exists c, w2. split; [done|]. split; [exact Ec|].
  assert (b_checksum target = "" \/ sha256 c = b_checksum target) as Hsum.
  { destruct (String.eqb_spec (b_checksum target) "") as [|Hne]; [by left|]. right.
    destruct (String.eqb_spec (sha256 c) (b_checksum target)); [done|]. unfold str_truthy in Ef.
    rewrite (proj2 (String.eqb_neq _ _) Hne) in Ef. by cbn in Ef. }
  split; [done|]. rewrite M_bind_run, Est. destruct (_ && _); [done|]. by injection Ef as <-.
Qed.

(** The scratch database is created empty and the files are left alone. *)
Lemma create_scratch_returns {S} settings scratch (w w' : world S) :
  _create_scratch_database settings scratch w = (Ok tt, w') ->
  assoc scratch (server w') = Some empty_database /\ files w' = files w /\ scratch <> default "" (database_url settings).
Proof.
  unfold _create_scratch_database, try_except. destruct ((statement ≫= _) w) as [[[]|e] w1] eqn:E; [|done].
  intros [= <-]. apply M_bind_ok in E as ([] & w2 & [cs ->]%statement_returns & E). apply M_bind_ok in E as ([] & w3 & E3 & E).
  destruct (String.eqb_spec scratch (default "" (database_url settings))) as [|Hne]; [done|].
  apply save_returns in E3 as [cs3 ->]. apply save_returns in E as [cs4 ->]. split; [apply assoc_set_eq | done].
Qed.

(** With the scratch database empty and the file in place, the restore runs [psql]
    on its content there. *)
Lemma restore_returns {S} psql have_psql path scratch c (w w' : world S) :
  assoc path (files w) = Some c -> assoc scratch (server w) = Some empty_database ->
  restore_backup psql have_psql path scratch w = (Ok tt, w') ->
  exists ok w1, attempt w = (Ok ok, w1) /\ assoc scratch (server w1) = Some empty_database /\
    w' = if ok : bool then set_server (assoc_set scratch (psql c empty_database) (server w1)) w1 else w1.
Proof.
  intros Hc Hs. unfold restore_backup. rewrite M_bind_run. unfold exists_, gets, in_dict. rewrite Hc.
  destruct have_psql; [|done]. intros (ok & w1 & Ea & H)%M_bind_ok. exists ok, w1. split; [done|].
  assert (exists cs, w1 = set_script cs w) as [cs ->].
  { unfold attempt, try_except in Ea. rewrite M_bind_run in Ea. unfold statement in Ea.
    destruct (default true _); injection Ea as _ <-; eauto. }
  split; [exact Hs|]. injection H as <-. change (files (set_script cs w)) with (files w).
  change (server (set_script cs w)) with (server w). by rewrite Hc, Hs.
Qed.

(** A recorded verdict of success. *)
Lemma verdict_returns {S} show i v mig t duration (w w' : world S) dr :
  record_verdict show i v mig t duration w = (Ok dr, w') -> d_status dr = SUCCESS ->
  v_rows v = true /\ v_checksums v = true /\ mig = true.
Proof.
  unfold record_verdict. intros ([x|] & w1 & _ & H)%M_bind_ok; [|done]. apply M_bind_ok in H as ([] & w2 & _ & H).
  apply M_bind_ok in H as ([] & w3 & _ & H). apply M_bind_ok in H as ([] & w4 & _ & [= <- _]). cbn.
  by destruct (v_rows v), (v_checksums v), mig.
Qed.

(** C15. A drill that reports success, whatever failed on the way, did this: it chose a
    successful backup and recorded itself as running; it downloaded the backup's
    file, and the content [c] then at the temporary path has the recorded digest
    (when one is recorded); it created the scratch database empty, ran [psql] on
    that content there (a failure of [psql] leaves the database empty), and
    extracted the metadata [m] of the database so [restored].  For every table the
    backup recorded, [m] reports the recorded number of rows of the restored table
    and no other checksum of a sample of it, unless it was recorded empty and [m]
    has no entry for it; and the restored migration version is the recorded one. *)
Theorem drill_success_sound {S} `{!Postgres S} (sha256 : string -> string) (psql : string -> database -> database)
    (rows_text : list string -> string) (have_psql : bool) (exn_text : pyexn -> string) (settings : Settings) (st : BackupStorage S)
    (show_discrepancies : list (string * string) -> string) (ready : bool) (backup_id : option string)
    (drill_id scratch : string) (t t' : Z) (duration : float) (w w' : world S) (dr : RestoreDrillRecord) :
  run_restore_drill sha256 psql rows_text have_psql exn_text settings st ready show_discrepancies backup_id drill_id scratch
    t t' duration w = (Ok dr, w') -> d_status dr = SUCCESS ->
  let main := default "" (database_url settings) in
  exists target w0 w1 c w2 w3 w4 ok w5 m w6,
    target_record backup_id w = Some target /\ b_status target = SUCCESS /\
    let path := temp_path settings (b_backup_id target +:+ "_restore.sql") in
    let restored := if ok : bool then psql c empty_database else empty_database in
    select (target_record backup_id) w = (Ok (Some target), w0) /\ begin_drill drill_id target t w0 = (Ok tt, w1) /\
    download st (remote_key_of (b_backup_id target)) path w1 = (Ok tt, w2) /\
    assoc path (files w2) = Some c /\ (b_checksum target = "" \/ sha256 c = b_checksum target) /\
    (statement ≫= fun _ => _create_scratch_database settings scratch) w2 = (Ok tt, w3) /\
    assoc scratch (server w3) = Some empty_database /\
    attempt w3 = (Ok ok, w4) /\
    w5 = (if ok then set_server (assoc_set scratch restored (server w4)) w4 else w4) /\
    database_at main scratch w5 = Some restored /\
    extract_verification_metadata sha256 rows_text main scratch w5 = (Ok m, w6) /\
    (forall table i, (table, i) ∈ m_tables (b_metadata target) ->
       (t_rows i = 0 /\ assoc table (m_tables m) = None) \/
       exists j, assoc table (m_tables m) = Some j /\ reports sha256 rows_text restored table j /\ t_rows i = t_rows j /\
         (t_sample_checksum i = "" \/ t_sample_checksum j = "" \/ t_sample_checksum i = t_sample_checksum j)) /\
    (let v := m_migration_version (b_metadata target) in v = "" \/ v = "unknown" \/ db_alembic restored = Some v).
Proof.
  intros Hrun Hok main. unfold run_restore_drill in Hrun. apply M_bind_ok in Hrun as ([] & wa & Ea & Hrun).
  apply M_bind_ok in Hrun as ([] & wb & Eb & Hrun). apply M_bind_ok in Hrun as (o & w0 & Ec & Hrun).
  assert (wa = w) as -> by (destruct ready; injection Ea; done).
  assert (wb = w) as -> by (destruct (ostr_truthy _); injection Eb; done).
  pose proof (select_target _ _ _ _ Ec) as Ht. destruct o as [target|].
  2: { apply M_bind_ok in Hrun as ([] & w1 & _ & [= <- _]). done. }
  destruct (bool_decide_reflect (b_status target = SUCCESS)) as [Hst|].
  2: { apply M_bind_ok in Hrun as ([] & w1 & _ & [= <- _]). done. }
  apply M_bind_ok in Hrun as ([] & w1 & Ebegin & Hrun). unfold drill_body in Hrun.
  destruct ((fetch_dump _ _ _ _ ≫= _) w1) as [[[]|e] w3] eqn:Ef; apply finally_returns in Hrun as (wf & Hrun);
    [|by apply failure_is_failed in Hrun; congruence].
  unfold try_except in Hrun. destruct (drill_scratch _ _ _ _ _ _ _ _ _ _ _ _ w3) as [[dr'|e] w6] eqn:Es;
    [|by apply failure_is_failed in Hrun; congruence]. injection Hrun as -> ->.
  apply fetch_returns in Ef as (c & w2 & Ed & Hc & Hsum & Ecreate).
  unfold drill_scratch in Es. apply M_bind_ok in Es as ([] & w5 & Er & Es). apply M_bind_ok in Es as ([v mig] & w7 & Ev & Es).
  unfold verify_restore in Ev. apply M_bind_ok in Ev as (m & w8 & Em & [= Ev Emig _]).
  cbn [fst snd] in Es. destruct (verdict_returns _ _ _ _ _ _ _ _ _ Es Hok) as (Hr & Hcs & ->).
  pose proof Ecreate as ([] & wc & [cs ->]%statement_returns & Ecr)%M_bind_ok.
  destruct (create_scratch_returns _ _ _ _ Ecr) as (Hempty & Hfiles & Hne).
  destruct (restore_returns _ _ _ _ c _ _ (eq_trans (f_equal _ Hfiles) Hc) Hempty Er) as (ok & w4 & Eat & Hs4 & Hw5).
  assert (database_at main scratch w5 = Some (if ok then psql c empty_database else empty_database)) as Hdb.
  { rewrite database_at_other, Hw5 by done. destruct ok; [apply assoc_set_eq | done]. }
  destruct (metadata_sound _ _ _ _ _ _ _ _ Hdb Em) as [Htables Hmig].
  exists target, w0, w1, c, w2, w3, w4, ok, w5, m, w8. cbv zeta. do 10 (split; [done|]).
  split; [by destruct ok|]. do 2 (split; [done|]). rewrite Emig in Ev. subst v. split.
  - intros table i Hi. destruct (compare_sound _ _ _ Hr Hcs) as (_ & _ & Hall). specialize (Hall (table, i) Hi). cbn [fst snd] in Hall.
    destruct (assoc table (m_tables m)) as [j|] eqn:Ej; [right | left; by destruct Hall].
    exists j. destruct Hall as [Hrows Hsum']. split; [done|]. split; [by apply Htables | done].
  - unfold migration_matches in Emig. destruct (str_truthy _) eqn:Et in Emig.
    + right. apply String.eqb_eq in Emig. rewrite Emig. exact Hmig.
    + left. unfold str_truthy in Et. apply negb_false_iff in Et. by apply String.eqb_eq in Et.
Qed.

(** ** Retention *)

Section retention_proofs.
Context {S : Type}.
Variable base : string.
Notation local := (LocalBackupStorage (S := S) base).
Notation stored := (local_path base).
Implicit Types w : world S.

(** From [w0] to [w]: a missing record is among [gone] and its file is absent;
    files are only removed. *)
Definition pruned (gone : list string) w0 w : Prop :=
  (forall r, r ∈ records w0 -> r ∈ records w \/
     (b_backup_id r ∈ gone /\ assoc (stored (remote_key_of (b_backup_id r))) (files w) = None)) /\
  forall p, assoc p (files w0) = None -> assoc p (files w) = None.

Lemma pruned_refl gone w : pruned gone w w.
Proof. split; auto. Qed.

Lemma pruned_trans gone w0 w1 w2 : pruned gone w0 w1 -> pruned gone w1 w2 -> pruned gone w0 w2.
Proof.
  intros [H1 F1] [H2 F2]. split; [|auto]. intros r Hr. destruct (H1 r Hr) as [Hr1|[Hg Hf]]; [auto|]. right. auto.
Qed.

Lemma delete_effect key w : let '(r, w') := delete local key w in
  records w' = records w /\ (forall p, assoc p (files w) = None -> assoc p (files w') = None) /\
  (r = Ok tt -> assoc (stored key) (files w') = None).
Proof.
  cbn. unfold local_delete. rewrite M_bind_run. unfold exists_, gets, in_dict.
  destruct (assoc (stored key) (files w)) eqn:E; [|by cbn]. unfold unlink, save. rewrite M_bind_run. unfold statement.
  destruct (default true _); cbn -[assoc_remove]; [|done]. split; [done|]. split; [|intros _; apply assoc_remove_eq].
  intros p Hp. destruct (decide (stored key = p)) as [<-|]; [apply assoc_remove_eq | by rewrite assoc_remove_ne].
Qed.

Lemma statement_effect w : records (statement w).2 = records w /\ files (statement w).2 = files w.
Proof. done. Qed.

Lemma same_pruned gone w w' : records w' = records w -> (forall p, assoc p (files w) = None -> assoc p (files w') = None) -> pruned gone w w'.
Proof. intros Hr Hf. split; [|done]. rewrite Hr. auto. Qed.

Lemma rollback_pruned {A} gone w0 w e : pruned gone w0 w -> pruned gone w0 ((statement ≫= fun _ => raise (A := A) e) w).2.
Proof.
  intros Hp. rewrite M_bind_run. unfold statement. destruct (default true _); cbn; (eapply pruned_trans; [exact Hp|]); by apply same_pruned.
Qed.

Lemma cleanup_loop_pruned gone expired : (forall r, r ∈ expired -> b_backup_id r ∈ gone) -> forall tx w,
  pruned gone w (cleanup_loop local tx expired w).2.
Proof.
  induction expired as [|rec expired IH]; intros Hg tx w; [apply pruned_refl|]. cbn [cleanup_loop].
  pose proof (delete_effect (remote_key_of (b_backup_id rec)) w) as Hd.
  destruct (delete local _ w) as [[[]|e] w1]; destruct Hd as (Hr & Hf & Ha).
  - specialize (Ha eq_refl). assert (pruned gone w w1) as Hp1 by by apply same_pruned.
    unfold save at 1. rewrite M_bind_run. unfold statement at 1. destruct (default true _).
    + cbn [modify]. set (w2 := set_records _ _). assert (pruned gone w1 w2) as Hp2.
      { split; [|done]. intros r Hin. destruct (String.eqb_spec (b_backup_id r) (b_backup_id rec)) as [E|Hne].
        - right. rewrite E. split; [apply Hg; by left | done].
        - left. apply Regex.elem_of_Lfilter. split; [done|]. by rewrite (proj2 (String.eqb_neq _ _) Hne). }
      rewrite M_bind_run. specialize (IH (fun r Hin => Hg r ltac:(by right)) false w2).
      destruct (cleanup_loop local false expired w2) as [[n|e] w3]; cbn in *; by do 2 (eapply pruned_trans; [eassumption|]).
    + by apply rollback_pruned.
  - assert (pruned gone w w1) as Hp1 by by apply same_pruned. destruct tx; [by apply rollback_pruned|].
    eapply pruned_trans; [exact Hp1|]. apply IH. intros r Hin. apply Hg. by right.
Qed.
End retention_proofs.

(** Whatever fails, the retention pass loses no dump that is still wanted and no
    record of a dump that still exists: a record it removes had expired, and its
    file is gone. *)
Theorem retention_safe {S} (base : string) (now retention_days : Z) (w : world S) (r : BackupRecord) :
  NoDup (ids_of (records w)) -> r ∈ records w ->
  let w' := (cleanup_expired_backups (LocalBackupStorage base) now retention_days w).2 in
  r ∈ records w' \/
  (b_created_at r < now - retention_days * MICROS_PER_DAY /\ assoc (local_path base (remote_key_of (b_backup_id r))) (files w') = None).
Proof.
  intros Hn Hr. cbn zeta. unfold cleanup_expired_backups, select. rewrite !M_bind_run. unfold statement.
  destruct (default true _); [|by left]. cbn [gets]. set (w1 := set_script _ w). set (expired := List.filter _ (records w1)).
  assert (forall x, x ∈ expired -> b_backup_id x ∈ ids_of expired) as Hin by (intros x Hx; by apply list_elem_of_fmap_2).
  destruct (cleanup_loop_pruned base (ids_of expired) expired Hin true w1) as [Hp _].
  destruct (Hp r Hr) as [?|[Hid Hf]]; [by left|]. right. split; [|done].
  apply list_elem_of_fmap in Hid as (x & Eid & [Hx Hold]%Regex.elem_of_Lfilter). apply Z.ltb_lt in Hold.
  by assert (r = x) as -> by by apply (NoDup_map_inj b_backup_id (records w)).
Qed.

(** When the file of the first expired record cannot be removed, the pass ends
    with [MissingGreenlet]: the records after it are not even tried. *)
Theorem retention_stops_at_first {S} (base : string) (now retention_days : Z) (w : world S) (rec : BackupRecord)
    (rest : list BackupRecord) (outcomes : list bool) :
  w_script w = true :: false :: outcomes ->
  List.filter (fun r => b_created_at r <? now - retention_days * MICROS_PER_DAY) (records w) = rec :: rest ->
  in_dict (local_path base (remote_key_of (b_backup_id rec))) (files w) = true ->
  exists e, (cleanup_expired_backups (LocalBackupStorage base) now retention_days w).1 = Raise e /\
    records (cleanup_expired_backups (LocalBackupStorage base) now retention_days w).2 = records w /\
    files (cleanup_expired_backups (LocalBackupStorage base) now retention_days w).2 = files w.
Proof.
  intros Hs He Hd. unfold cleanup_expired_backups, select. rewrite !M_bind_run, (statement_next true (false :: outcomes)) by done.
  cbn [gets]. change (records (set_script (false :: outcomes) w)) with (records w). rewrite He. cbn [cleanup_loop delete LocalBackupStorage].
  unfold local_delete. rewrite M_bind_run. unfold exists_, gets. change (files (set_script (false :: outcomes) w)) with (files w).
  rewrite Hd. unfold unlink. rewrite (save_next false outcomes) by done. cbn beta iota. rewrite M_bind_run. unfold statement.
  destruct (default true _); cbn; eauto.
Qed.

(** ** What the metadata leaves out *)

(** The audited tables that exist are all in the metadata of a database exactly
    when nothing is missing before them: a query on a missing table, or on the
    missing [alembic_version], aborts the transaction for the queries after it. *)
Theorem metadata_tables_iff {S} `{!Postgres S} (sha256 : string -> string) (rows_text : list string -> string) (main name : string) (d : database)
    (w : world S) :
  w_script w = [] -> database_at main name w = Some d ->
  exists m, extract_verification_metadata sha256 rows_text main name w = (Ok m, w) /\
    forall i tbl, tables_to_audit !! i = Some tbl ->
      (tbl ∈ map fst (m_tables m) <->
       is_Some (db_alembic d) /\ forall j before, (j <= i)%nat -> tables_to_audit !! j = Some before -> is_Some (assoc before (db_tables d))).
Proof.
  intros Hs Hd. exists (meta_of sha256 rows_text w name d). split; [by apply metadata_ok|]. intros i tbl Hi. unfold meta_of. cbn [m_tables].
  destruct (db_alembic d) as [a|]; cbn [map fst]; [|by split; [inversion 1 | intros [[] _]]].
  rewrite map_map. cbn [fst]. assert (NoDup tables_to_audit) as Hn by (by apply (bool_decide_unpack _)).
  revert i tbl Hi Hn. generalize tables_to_audit. induction l as [|n l IH]; intros i tbl Hi Hn; [done|]. cbn [present].
  apply NoDup_cons in Hn as [Hnot Hn]. destruct (assoc n (db_tables d)) as [rows|] eqn:E; cbn [map fst].
  - destruct i as [|i]; cbn in Hi.
    + injection Hi as ->. split; [|intros _; by left]. intros _. split; [by eexists|]. intros [|j] before Hj Hb; [|lia].
      injection Hb as <-. by rewrite E.
    + rewrite elem_of_cons. assert (tbl ≠ n) by (intros ->; apply Hnot; by apply list_elem_of_lookup_2 in Hi).
      specialize (IH i tbl Hi Hn). split.
      * intros [?|Hin]; [done|]. apply IH in Hin as [_ Hall]. split; [by eexists|]. intros [|j] before Hj Hb; cbn in Hb.
        { injection Hb as <-. by rewrite E. } apply (Hall j); [lia | done].
      * intros [_ Hall]. right. apply IH. split; [by eexists|]. intros j before Hj Hb. apply (Hall (Datatypes.S j)); [lia | done].
  - split; [inversion 1|]. intros [_ Hall]. specialize (Hall 0%nat n ltac:(lia) eq_refl). by rewrite E in Hall; destruct Hall.
Qed.

(** ** Snapshots *)

(** A snapshot is reported valid exactly when the file is there and readable, is
    not empty, is not older than the limit and has the magic header or is an
    append-only file; an invalid one always carries its reason. *)
Theorem snapshot_valid_iff (sha256 : string -> string) (format_1f : float -> string) (path : string) (file : snapshot_file)
    (max_age_seconds : Z) :
  let r := verify_redis_snapshot sha256 format_1f path file max_age_seconds in
  (sv_valid r = true <-> exists content age, file = Snapshot content age /\ content <> "" /\
     fltb (float_of_Z max_age_seconds) age = false /\ magic_valid path content = true /\ sv_checksum r = sha256 content) /\
  (sv_valid r = false <-> is_Some (sv_error_message r)).
Proof.
  cbn zeta. destruct file as [|e|age e|content age]; cbn -[magic_valid fltb float_of_Z].
  1-3: split; [split; [done | by intros (? & ? & ? & _)] | split; [by eexists | done]].
  destruct content as [|c content]; cbn -[magic_valid fltb float_of_Z].
  { split; [split; [done|] | split; [by eexists | done]]. by intros (? & ? & [= <- <-] & ? & _). }
  destruct (fltb _ age) eqn:Ea; cbn -[magic_valid fltb float_of_Z].
  { split; [split; [done|] | split; [by eexists | done]]. intros (? & ? & [= <- <-] & _ & E & _). congruence. }
  destruct (magic_valid path (String c content)) eqn:Em; cbn -[magic_valid fltb float_of_Z].
  - split; [split; [|done] | split; [done | by intros []]]. intros _. by eexists _, _.
  - split; [split; [done|] | split; [by eexists | done]]. intros (? & ? & [= <- <-] & _ & _ & E & _). congruence.
Qed.

(** ** MinIO out of reach *)

Section minio_frames.
Context {S : Type} `{!Redis S text} `{!IsoTime} `{!Tenacity}.

Lemma frames_redis_get key : frames bucket (redis_get (S := world S) key).
Proof. intros w. cbn. by destruct (redis_get key (cache w)). Qed.

Lemma frames_redis_set key v ex : frames bucket (redis_set (S := world S) key v ex).
Proof. intros w. cbn. by destruct (redis_set key v ex (cache w)). Qed.

Lemma frames_is_open settings now source : frames bucket (is_open (S := world S) settings now source).
Proof.
  apply frames_bind.
  { apply frames_try; [|intros e; by apply frames_same]. apply frames_bind; [apply frames_redis_get|].
    intros [raw|]; by apply frames_same. }
  intros state. apply frames_bind; [by apply frames_same|]. intros st. destruct (jeq_str st CLOSED); [by apply frames_same|].
  destruct (jeq_str st HALF_OPEN); [by apply frames_same|]. apply frames_bind; [by apply frames_same|]. intros field.
  apply frames_bind; [by apply frames_same|]. intros [opened|]; [|by apply frames_same].
  destruct (half_open_due _ _ _); [|by apply frames_same]. apply frames_bind; [by apply frames_same|]. intros state'.
  apply frames_bind; [|intros []; by apply frames_same].
  apply frames_try; [apply frames_redis_set | intros e; by apply frames_same].
Qed.
End minio_frames.

(** While the circuit is open, a deletion whose key was deleted before is answered
    from the cache: it returns normally and the bucket is untouched. *)
Theorem minio_delete_from_cache {S} `{!Redis S text} `{!IsoTime} `{!Tenacity} (settings : Settings)
    (now later : string -> string -> Z) (key : string) (v : json) (w w1 w2 : world S) :
  let call := "delete:" +:+ key in
  resilience_bypass settings = false ->
  is_open settings (now "minio" call) "minio" w = (Ok true, w1) ->
  redis_get (RedisKeyBuilder.source_cache_key "minio" call) w1 = (Ok (Some (Json v)), w2) ->
  minio_delete settings now later key w = (Ok tt, w2) /\ bucket w2 = bucket w.
Proof.
  intros call Hb Ho Hg. split.
  - subst call. unfold minio_delete, minio_call, resilient_call. rewrite M_bind_run, Hb, M_bind_run, Ho. cbn beta iota.
    unfold _serve_from_cache. rewrite M_bind_run. unfold try_except. rewrite M_bind_run, Hg. done.
  - pose proof (frames_is_open settings (now "minio" call) "minio" w) as H1. rewrite Ho in H1.
    pose proof (frames_redis_get (RedisKeyBuilder.source_cache_key "minio" call) w1) as H2. rewrite Hg in H2. cbn in *. congruence.
Qed.

Module BackupWitness.
Definition app_db : database :=
  Database_ [("users", ["ada"; "bob"]); ("investigations", []); ("backup_records", [])] (Some "0042_backups") "PostgreSQL 16.2 on x86_64".
Definition hash (s : string) : string := "#" +:+ s.
Definition dump_of (_ : database) : string := "CREATE TABLE users".
Definition no_partial (_ : database) : option string := None.
Definition text_of (rows : list string) : string := String.concat "," rows.
Definition no_text (_ : pyexn) : string := "error".
Definition no_lines (_ : list (string * string)) : string := "".
Definition conf : Settings := prod_settings.
Definition app : string := default "" (database_url conf).
Definition w0 : world unit := World [] [] [] None false [(app, app_db); ("other", app_db)] 0 [] tt.
Notation st := (LocalBackupStorage (backup_storage_path conf)).

(** Rows are returned in the order of their insertion. *)
#[local] Instance heap_order : Postgres unit :=
  {| record_text := b_backup_id; drill_text := d_drill_id; metric_text := fun _ => "metric"; scan := fun _ _ _ rows => rows;
     scan_perm := fun _ _ _ rows => Permutation_refl rows |}.

(** The main database while the backup runs, and [psql] on its dump. *)
Definition dumped : database := default empty_database (database_at app app (running conf "b1" 10 w0)).
Definition replay (script : string) (d : database) : database := if String.eqb script "CREATE TABLE users" then dumped else d.

Lemma backup_drill_roundtrip_witness : exists r w1 dr w2,
  run_postgres_backup hash dump_of no_partial text_of true no_text conf st true "b1" 10 20 f1 w0 = (Ok r, w1) /\
  b_status r = SUCCESS /\ b_checksum r = hash (dump_of dumped) /\
  run_restore_drill hash replay text_of true no_text conf st true no_lines (Some "b1") "d1" "scratch" 30 40 f1 w1 = (Ok dr, w2) /\
  d_status dr = SUCCESS /\ d_backup_id dr = "b1" /\
  records w2 = List.filter (wanted conf 20) (records w0 ++ [r]) /\ r ∈ records w2 /\
  drills w2 = drills w0 ++ [dr] /\ metric_rows w2 = 2%nat /\ database_at app "scratch" w2 = None /\
  (forall n, n <> "scratch" -> n <> app -> database_at app n w2 = database_at app n w0) /\
  forall table, table ∉ written_tables -> table_at app table w2 = table_at app table w0.
Proof.
  apply (backup_drill_roundtrip hash dump_of no_partial replay text_of no_text no_lines conf app "b1" "d1" "scratch" dumped
           10 20 30 40 f1 w0); try reflexivity; try (by vm_compute); try (apply not_elem_of_nil).
  apply NoDup_nil_2.
Defined.

(** The drill fails half-way: the restore itself is interrupted. *)
Definition disturbed : world unit := World [] [] [] None false [(app, app_db)] 0 [true; true; false] tt.

Lemma drill_isolated_witness :
  let w' := (run_restore_drill hash replay text_of true no_text conf st true no_lines (Some "b1") "d1" "scratch" 30 40 f1 disturbed).2 in
  assoc app (server w') = Some app_db /\ records w' = [].
Proof.
  apply (drill_isolated hash replay text_of true no_text conf no_lines true (Some "b1") "d1" "scratch" app 30 40 f1 disturbed).
  vm_compute. discriminate.
Defined.

(** A world with one stored backup. *)
Definition old_record (i : string) (t : Z) : BackupRecord :=
  finished_record hash dump_of text_of conf app i dumped t (t + 1) f1 w0.
Definition w1 : world unit :=
  World [old_record "b1" 10] [] [(local_path (backup_storage_path conf) (remote_key_of "b1"), dump_of dumped)] None false
    [(app, app_db)] 0 [] tt.

Lemma drill_success_sound_witness : exists target c m restored,
  target_record None w1 = Some target /\ hash c = b_checksum target /\ restored = replay c empty_database /\
  exists j, assoc "users" (m_tables m) = Some j /\ reports hash text_of restored "users" j /\ t_rows j = 2.
Proof.
  destruct (run_restore_drill hash replay text_of true no_text conf st true no_lines None "d1" "scratch" 30 40 f1 w1)
    as [r w'] eqn:E.
  pose proof (f_equal (fun x => match x.1 with Ok d => Some (d_status d) | Raise _ => None end) E) as Hd.
  vm_compute in Hd. destruct r as [d|e]; [|discriminate]. injection Hd as Hd.
  destruct (drill_success_sound hash replay text_of true no_text conf st no_lines true None "d1" "scratch" 30 40 f1 w1 w' d E
              (eq_sym Hd)) as (target & w0' & w1' & c & w2' & w3' & w4' & ok & w5' & m & w6' & Ht & Hst & Hsel & Hbeg & Hdown & Hfile
              & Hc & Hcr & He & Hat & H5 & Hdb & Hm & Htables & _).
  pose proof (f_equal (fun r => r.2) Hsel) as E0. cbn [snd] in E0. subst w0'. injection Ht as <-.
  pose proof (f_equal (fun r => r.2) Hbeg) as E1. cbn [snd] in E1. subst w1'.
  pose proof (f_equal (fun r => r.2) Hdown) as E2. cbn [snd] in E2. subst w2'.
  pose proof (f_equal (fun r => r.2) Hcr) as E3. cbn [snd] in E3. subst w3'.
  vm_compute in Hat. injection Hat as Eok _. subst ok.
  destruct Hc as [Hc|Hc]; [vm_compute in Hc; discriminate Hc|].
  exists (old_record "b1" 10), c, m, (replay c empty_database). split; [reflexivity|]. split; [exact Hc|]. split; [reflexivity|].
  destruct (Htables "users" {| t_rows := 2; t_sample_checksum := "#ada,bob"; t_sample_size := 2 |}) as [[H0 _]|(j & Hj & Hrep & Hr & _)].
  - vm_compute. by left.
  - discriminate H0.
  - exists j. split; [exact Hj|]. split; [exact Hrep | symmetry; exact Hr].
Defined.

(** The main database returns the rows of a table in another order than the
    restored one does. *)
Definition rotated : Postgres unit :=
  {| record_text := b_backup_id; drill_text := d_drill_id; metric_text := fun _ => "metric";
     scan := fun _ name _ rows => if String.eqb name app then rev rows else rows;
     scan_perm := fun _ name _ rows =>
       match String.eqb name app as b return (if b then rev rows else rows) ≡ₚ rows with
       | true => symmetry (Permutation_rev rows)
       | false => Permutation_refl rows
       end |}.

(** The sample of an audit has no ORDER BY: a dump that is restored exactly fails its
    drill when PostgreSQL returns the rows of one table in another order. *)
Theorem unordered_sample_fails_drill :
  let w := (run_postgres_backup (Postgres0 := rotated) hash dump_of no_partial text_of true no_text conf st true "b1" 10 20 f1 w0).2 in
  exists dr w', run_restore_drill (Postgres0 := rotated) hash replay text_of true no_text conf st true no_lines (Some "b1") "d1"
      "scratch" 30 40 f1 w = (Ok dr, w') /\
    d_status dr = FAILED /\ d_row_counts_match dr = true /\ d_checksum_match dr = false /\
    replay (dump_of dumped) empty_database = dumped.
Proof. cbv zeta. eexists _, _. split; [vm_compute; reflexivity|]. by vm_compute. Qed.

Definition days (n : Z) : Z := n * MICROS_PER_DAY.
Definition w2 : world unit :=
  World [old_record "b1" (days 1); old_record "b2" (days 90)] []
    [(local_path "./backups" (remote_key_of "b1"), "dump"); (local_path "./backups" (remote_key_of "b2"), "dump")]
    None false [] 0 [] tt.

Lemma retention_safe_witness :
  let w' := (cleanup_expired_backups (LocalBackupStorage "./backups") (days 100) 30 w2).2 in
  old_record "b2" (days 90) ∈ records w'.
Proof.
  destruct (retention_safe "./backups" (days 100) 30 w2 (old_record "b2" (days 90))) as [H|[H _]].
  - by apply (bool_decide_unpack _).
  - by apply list_elem_of_further, list_elem_of_here.
  - exact H.
  - by vm_compute in H.
Defined.

Lemma retention_stops_at_first_witness :
  records (cleanup_expired_backups (LocalBackupStorage "./backups") (days 100) 30 (set_script [true; false] w2)).2 = records w2.
Proof.
  destruct (retention_stops_at_first "./backups" (days 100) 30 (set_script [true; false] w2) (old_record "b1" (days 1)) [] [])
    as (e & _ & H & _); [reflexivity..|exact H].
Defined.

(** Two audited tables are missing, [hazard_events] first: [metric_events], which
    exists, is not in the metadata. *)
Definition gap_db : database :=
  Database_ [("users", []); ("investigations", []); ("metric_events", ["m"])] (Some "0042") "PostgreSQL 16.2".
Definition w3 : world unit := World [] [] [] None false [(app, gap_db)] 0 [] tt.

Lemma metadata_tables_iff_witness : exists m, extract_verification_metadata hash text_of app app w3 = (Ok m, w3) /\
  "metric_events" ∉ map fst (m_tables m).
Proof.
  destruct (metadata_tables_iff hash text_of app app gap_db w3) as (m & E & H); [reflexivity..|]. exists m. split; [exact E|].
  intros Hin. apply (H 7%nat) in Hin as [_ Hall]; [|reflexivity].
  destruct (Hall 2%nat "hazard_events") as [rows Hr]; [lia | reflexivity | discriminate Hr].
Defined.
End BackupWitness.
