(* ===== verification/PyTime.v ===== *)
(** * Dates of Python's [datetime]

    What the ingestion code uses of the standard library: the proleptic Gregorian
    calendar as [datetime] computes it, [strptime] on the numeric directives (with
    the backtracking of the regular expression it compiles a format to) and
    [strftime].  An instant is a number of microseconds since 1970, UTC. *)

From stdpp Require Import pretty.
From S2P Require Import Prelude PyStr Effects.
From Stdlib Require Import Ascii.

(** ** Calendar *)

Definition MICROS : Z := 1000000.
Definition DAY : Z := 86400 * MICROS.
Definition EPOCH : Z := 719163.                (* the ordinal of 1970-01-01 *)

Definition is_leap (y : Z) : bool := (y mod 4 =? 0) && (negb (y mod 100 =? 0) || (y mod 400 =? 0)).

Definition month_days (leap : bool) (m : Z) : Z :=
  if m =? 2 then (if leap then 29 else 28)
  else if (m =? 4) || (m =? 6) || (m =? 9) || (m =? 11) then 30 else 31.
Definition days_in_month (y m : Z) : Z := month_days (is_leap y) m.

Definition days_before_year (y : Z) : Z := (y - 1) * 365 + (y - 1) / 4 - (y - 1) / 100 + (y - 1) / 400.

Definition before_month (leap : bool) (m : Z) : Z :=
  nth (Z.to_nat (m - 1)) [0; 31; 59; 90; 120; 151; 181; 212; 243; 273; 304; 334] 0 + (if (2 <? m) && leap then 1 else 0).

Definition toordinal (y m d : Z) : Z := days_before_year y + before_month (is_leap y) m + d.

(** The month and day of the [n]-th day of a year, from 0. *)
Definition month_day (leap : bool) (n : Z) : Z * Z :=
  let month := Z.shiftr (n + 50) 5 in
  let month := if n <? before_month leap month then month - 1 else month in
  (month, n - before_month leap month + 1).

(** [_ord2ymd] *)
Definition fromordinal (n : Z) : Z * Z * Z :=
  let n := n - 1 in
  let n400 := n / 146097 in let n := n mod 146097 in
  let n100 := n / 36524 in let n := n mod 36524 in
  let n4 := n / 1461 in let n := n mod 1461 in
  let n1 := n / 365 in let n := n mod 365 in
  let year := n400 * 400 + 1 + n100 * 100 + n4 * 4 + n1 in
  if (n1 =? 4) || (n100 =? 4) then (year - 1, 12, 31)
  else
    let leap := (n1 =? 3) && (negb (n4 =? 24) || (n100 =? 3)) in
    let md := month_day leap n in (year, md.1, md.2).

Definition valid_date (y m d : Z) : bool :=
  (1 <=? y) && (y <=? 9999) && (1 <=? m) && (m <=? 12) && (1 <=? d) && (d <=? days_in_month y m).

(** [datetime(y, m, d, h, mi, s, tzinfo=UTC)]; [None] is its [ValueError]. *)
Definition datetime (y m d h mi s : Z) : option Z :=
  if valid_date y m d && ((0 <=? h) && (h <? 24)) && ((0 <=? mi) && (mi <? 60)) && ((0 <=? s) && (s <? 60)) then
    Some (((((toordinal y m d - EPOCH) * 24 + h) * 60 + mi) * 60 + s) * MICROS)
  else None.

Definition date_of (t : Z) : Z * Z * Z := fromordinal (t / DAY + EPOCH).

(** ** [strptime] *)

Definition char_in (lo hi : Z) (c : ascii) : bool := (lo <=? ord c) && (ord c <=? hi).
Definition digit_in (lo hi : Z) : ascii -> bool := char_in (48 + lo) (48 + hi).
Definition blank (c : ascii) : bool := ord c =? 32.

Inductive directive :=
| Lit (c : ascii)
| Spaces                                       (* a blank of the format *)
| Field (alternatives : list (list (ascii -> bool))).

Definition any : ascii -> bool := digit_in 0 9.
Definition dY : directive := Field [[any; any; any; any]].
Definition dm : directive := Field [[digit_in 1 1; digit_in 0 2]; [digit_in 0 0; digit_in 1 9]; [digit_in 1 9]].
Definition dd : directive :=
  Field [[digit_in 3 3; digit_in 0 1]; [digit_in 1 2; any]; [digit_in 0 0; digit_in 1 9]; [digit_in 1 9]; [blank; digit_in 1 9]].
Definition dH : directive := Field [[digit_in 2 2; digit_in 0 3]; [digit_in 0 1; any]; [any]].
Definition dM : directive := Field [[digit_in 0 5; any]; [any]].
Definition dS : directive := Field [[digit_in 6 6; digit_in 0 1]; [digit_in 0 5; any]; [any]].

(** The value of the matched characters; a blank counts for nothing. *)
Fixpoint take_class (cs : list (ascii -> bool)) (s : string) (acc : Z) : option (Z * string) :=
  match cs, s with
  | [], s => Some (acc, s)
  | c :: cs, String a s => if c a then take_class cs s (if blank a then acc else acc * 10 + (ord a - 48)) else None
  | _ :: _, EmptyString => None
  end.

(** What is left after one or more blanks, longest run first. *)
Fixpoint after_spaces (s : string) : list string :=
  match s with
  | String c s => if is_space c then after_spaces s ++ [s] else []
  | EmptyString => []
  end.

(** All matches of a prefix, in the order the backtracking matcher tries them. *)
Fixpoint matches_of (ds : list directive) (s : string) : list (list Z * string) :=
  match ds with
  | [] => [([], s)]
  | Lit c :: ds => match s with String a s' => if Ascii.eqb a c then matches_of ds s' else [] | EmptyString => [] end
  | Spaces :: ds => flat_map (matches_of ds) (after_spaces s)
  | Field alts :: ds =>
      flat_map (fun alt =>
        match take_class alt s 0 with
        | Some (v, s') => map (fun r => (v :: r.1, r.2)) (matches_of ds s')
        | None => []
        end) alts
  end.

(** The first match has to consume the whole text. *)
Definition scan (ds : list directive) (s : string) : option (list Z) :=
  match matches_of ds s with
  | (vs, EmptyString) :: _ => Some vs
  | _ => None
  end.

Definition date_fields (vs : list Z) : option Z :=
  match vs with
  | [y; m; d] => datetime y m d 0 0 0
  | [y; m; d; h; mi] => datetime y m d h mi 0
  | [y; m; d; h; mi; s] => datetime y m d h mi s
  | _ => None
  end.

Definition strptime (ds : list directive) (s : string) : option Z := scan ds s ≫= date_fields.

(** ["%Y-%m-%d"], ["%Y-%m-%d %H:%M"], ["%Y%m%d"], ["%Y%m%d%H%M%S"] *)
Definition fmt_date : list directive := [dY; Lit "-"; dm; Lit "-"; dd].
Definition fmt_minute : list directive := fmt_date ++ [Spaces; dH; Lit ":"; dM].
Definition fmt_ymd : list directive := [dY; dm; dd].
Definition fmt_stamp : list directive := fmt_ymd ++ [dH; dM; dS].

(** ** Printing *)

Definition digit (n : Z) : ascii := ascii_of_N (Z.to_N (48 + n mod 10)).
Definition pad2 (n : Z) : string := String (digit (n / 10)) (String (digit n) "").
Definition pad4 (n : Z) : string := pad2 (n / 100) +:+ pad2 (n mod 100).

(** [date.isoformat()] *)
Definition isodate (t : Z) : string :=
  let '(y, m, d) := date_of t in pad4 y +:+ "-" +:+ pad2 m +:+ "-" +:+ pad2 d.

(** [strftime("%Y%m%d%H%M%S")]; the C library does not pad the year. *)
Definition strftime_stamp (t : Z) : string :=
  let '(y, m, d) := date_of t in
  let s := t / MICROS mod 86400 in
  pretty y +:+ pad2 m +:+ pad2 d +:+ pad2 (s / 3600) +:+ pad2 (s / 60 mod 60) +:+ pad2 (s mod 60).

Example strptime_examples :
  strptime fmt_minute "2026-07-24 18:05" = Some 1784916300000000 /\
  strptime fmt_stamp "20260724120000" = Some 1784894400000000 /\
  strptime fmt_date "2023-02-29" = None /\
  isodate 1784916300000000 = "2026-07-24" /\
  strftime_stamp 1784916300000000 = "20260724180500".
Proof. repeat split; vm_compute; reflexivity. Qed.

(** ** The calendar is a bijection *)

Fixpoint all_from (f : Z -> bool) (k : Z) (n : nat) : bool :=
  match n with O => true | S n => f k && all_from f (k + 1) n end.

Lemma all_from_spec f n : forall k i, all_from f k n = true -> k <= i < k + Z.of_nat n -> f i = true.
Proof.
  induction n as [|n IH]; cbn [all_from]; intros k i H Hk; [lia|]. apply andb_true_iff in H as [Hf H].
  destruct (Z.eq_dec i k) as [->|]; [done|]. apply (IH (k + 1)); [done | lia].
Qed.

Definition day_found (leap : bool) (n : Z) : bool :=
  let md := month_day leap n in
  (before_month leap md.1 + md.2 =? n + 1) && (1 <=? md.1) && (md.1 <=? 12) && (1 <=? md.2) && (md.2 <=? month_days leap md.1).

Lemma month_day_spec leap n : 0 <= n < 365 ->
  let md := month_day leap n in
  before_month leap md.1 + md.2 = n + 1 /\ 1 <= md.1 <= 12 /\ 1 <= md.2 <= month_days leap md.1.
Proof.
  intros Hn. assert (day_found leap n = true) as H.
  { apply (all_from_spec _ 365 0); [|lia]. destruct leap; vm_compute; reflexivity. }
  unfold day_found in H. rewrite !andb_true_iff, Z.eqb_eq, !Z.leb_le in H. cbn zeta. lia.
Qed.

(** The year [400e + 100a + 4b + c + 1]. *)
Lemma days_before_year_of e a b c : 0 <= a < 4 -> 0 <= b < 25 -> 0 <= c < 4 ->
  days_before_year (400 * e + 1 + 100 * a + 4 * b + c) = 146097 * e + 36524 * a + 1461 * b + 365 * c.
Proof. intros Ha Hb Hc. unfold days_before_year. Z.to_euclidean_division_equations. lia. Qed.

Lemma is_leap_of e a b c : 0 <= a < 4 -> 0 <= b < 25 -> 0 <= c < 4 ->
  is_leap (400 * e + 1 + 100 * a + 4 * b + c) = (c =? 3) && (negb (b =? 24) || (a =? 3)).
Proof.
  intros Ha Hb Hc. unfold is_leap.
  destruct (Z.eqb_spec c 3), (Z.eqb_spec b 24), (Z.eqb_spec a 3); cbn;
  destruct (Z.eqb_spec ((400 * e + 1 + 100 * a + 4 * b + c) mod 4) 0), (Z.eqb_spec ((400 * e + 1 + 100 * a + 4 * b + c) mod 100) 0),
    (Z.eqb_spec ((400 * e + 1 + 100 * a + 4 * b + c) mod 400) 0); cbn; try reflexivity; exfalso;
  Z.to_euclidean_division_equations; lia.
Qed.

(** Every ordinal is the ordinal of the date computed from it, and that date
    exists. *)
Theorem calendar_roundtrip (n : Z) : let '(y, m, d) := fromordinal n in
  toordinal y m d = n /\ 1 <= m <= 12 /\ 1 <= d <= days_in_month y m.
Proof.
  unfold fromordinal. set (e := (n - 1) / 146097). set (r := (n - 1) mod 146097).
  assert (n = 146097 * e + r + 1 /\ 0 <= r < 146097) as [Hn Hr] by (unfold e, r; Z.to_euclidean_division_equations; lia). clearbody e r.
  set (a := r / 36524). set (r2 := r mod 36524). assert (r = 36524 * a + r2 /\ 0 <= r2 < 36524) as [E2 H2] by (unfold a, r2; Z.to_euclidean_division_equations; lia).
  assert (0 <= a <= 4 /\ (a = 4 -> r2 = 0)) as [Ha Ha4] by lia. clearbody a r2.
  set (b := r2 / 1461). set (r3 := r2 mod 1461). assert (r2 = 1461 * b + r3 /\ 0 <= r3 < 1461) as [E3 H3] by (unfold b, r3; Z.to_euclidean_division_equations; lia).
  assert (0 <= b < 25) as Hb by lia. clearbody b r3.
  set (c := r3 / 365). set (k := r3 mod 365). assert (r3 = 365 * c + k /\ 0 <= k < 365) as [E4 H4] by (unfold c, k; Z.to_euclidean_division_equations; lia).
  assert (0 <= c <= 4 /\ (c = 4 -> k = 0)) as [Hc Hc4] by lia. clearbody c k.
  replace (e * 400 + 1 + a * 100 + b * 4 + c) with (400 * e + 1 + 100 * a + 4 * b + c) by lia.
  destruct (Z.eqb_spec c 4) as [->|]; [|destruct (Z.eqb_spec a 4) as [->|]]; cbn [orb].
  - replace (400 * e + 1 + 100 * a + 4 * b + 4 - 1) with (400 * e + 1 + 100 * a + 4 * b + 3) by lia.
    unfold toordinal, days_in_month. rewrite days_before_year_of, is_leap_of by lia.
    assert ((3 =? 3) && (negb (b =? 24) || (a =? 3)) = true) as -> by (destruct (Z.eqb_spec b 24), (Z.eqb_spec a 3); cbn; lia).
    change (before_month true 12) with 335. change (month_days true 12) with 31. lia.
  - assert (b = 0 /\ c = 0) as [-> ->] by lia.
    replace (400 * e + 1 + 100 * 4 + 4 * 0 + 0 - 1) with (400 * e + 1 + 100 * 3 + 4 * 24 + 3) by lia.
    unfold toordinal, days_in_month. rewrite days_before_year_of, is_leap_of by lia.
    change ((3 =? 3) && _) with true. change (before_month true 12) with 335. change (month_days true 12) with 31. lia.
  - unfold toordinal, days_in_month. rewrite days_before_year_of, is_leap_of by lia.
    set (leap := (c =? 3) && _). destruct (month_day_spec leap k H4) as (Hm & ? & ?). cbn zeta in *. lia.
Qed.

(** ** Printed dates are read back *)

Lemma app_cons c s t : String c s +:+ t = String c (s +:+ t).
Proof. done. Qed.
Lemma app_nil t : "" +:+ t = t.
Proof. done. Qed.

Lemma ord_digit n : ord (digit n) = 48 + n mod 10.
Proof.
  unfold ord, digit. pose proof (Z.mod_pos_bound n 10 ltac:(lia)). rewrite N_ascii_embedding by lia. lia.
Qed.

Lemma any_digit n : any (digit n) = true.
Proof.
  unfold any, digit_in, char_in. rewrite ord_digit. pose proof (Z.mod_pos_bound n 10 ltac:(lia)).
  apply andb_true_iff. split; apply Z.leb_le; lia.
Qed.

Lemma take_digit n cs s acc : take_class (any :: cs) (String (digit n) s) acc = take_class cs s (acc * 10 + n mod 10).
Proof.
  cbn [take_class]. rewrite any_digit. unfold blank. rewrite ord_digit. pose proof (Z.mod_pos_bound n 10 ltac:(lia)).
  rewrite (proj2 (Z.eqb_neq _ _)) by lia. f_equal. lia.
Qed.

Lemma take_year y s : 0 <= y < 10000 -> take_class [any; any; any; any] (pad4 y +:+ s) 0 = Some (y, s).
Proof.
  intros Hy. unfold pad4, pad2. rewrite !app_cons, !app_nil, !app_cons, !app_nil, !take_digit. cbn [take_class]. do 2 f_equal.
  Z.to_euclidean_division_equations. lia.
Qed.

Definition month_day_read (m d : Z) : bool :=
  match matches_of [dm; Lit "-"; dd] (pad2 m +:+ "-" +:+ pad2 d) with
  | ([m'; d'], EmptyString) :: _ => (m' =? m) && (d' =? d)
  | _ => false
  end.

Lemma read_month_day m d : 1 <= m <= 12 -> 1 <= d <= 31 ->
  exists rest, matches_of [dm; Lit "-"; dd] (pad2 m +:+ "-" +:+ pad2 d) = ([m; d], "") :: rest.
Proof.
  intros Hm Hd. assert (month_day_read m d = true) as H.
  { apply (all_from_spec _ 31 1); [|lia].
    apply (all_from_spec (fun m => all_from (month_day_read m) 1 31) 12 1); [vm_compute; reflexivity | lia]. }
  unfold month_day_read in H. destruct (matches_of _ _) as [|[[|m' [|d' [|]]] [|]] rest]; try done.
  apply andb_true_iff in H as [->%Z.eqb_eq ->%Z.eqb_eq]. eauto.
Qed.

Lemma matches_lit c ds s : matches_of (Lit c :: ds) (String c s) = matches_of ds s.
Proof. cbn [matches_of]. by rewrite Ascii.eqb_refl. Qed.

Lemma matches_year ds y s : 0 <= y < 10000 ->
  matches_of (dY :: ds) (pad4 y +:+ s) = map (fun r => (y :: r.1, r.2)) (matches_of ds s).
Proof. intros Hy. unfold dY. cbn [matches_of flat_map]. rewrite take_year by done. apply app_nil_r. Qed.

Lemma month_days_max leap m : month_days leap m <= 31.
Proof. unfold month_days. repeat case_match; lia. Qed.

(** [strptime(date.isoformat(), "%Y-%m-%d")] is midnight of that date. *)
Theorem isodate_roundtrip (t : Z) : 1 <= (date_of t).1.1 <= 9999 -> strptime fmt_date (isodate t) = Some (t / DAY * DAY).
Proof.
  unfold isodate, date_of. pose proof (calendar_roundtrip (t / DAY + EPOCH)) as H.
  destruct (fromordinal (t / DAY + EPOCH)) as [[y m] d]. cbn [fst]. intros Hy. destruct H as (Ho & Hm & Hd).
  unfold strptime, scan, fmt_date. rewrite matches_year by lia. rewrite app_cons, app_nil, matches_lit.
  destruct (read_month_day m d) as [rest E]; [lia | pose proof (month_days_max (is_leap y) m); unfold days_in_month in Hd; lia|].
  rewrite E. cbn -[datetime DAY]. unfold datetime, valid_date.
  rewrite !(proj2 (Z.leb_le _ _)) by lia. cbn -[DAY toordinal]. rewrite Ho. f_equal. unfold DAY, MICROS. lia.
Qed.
