(* ===== verification/Ingestion.v ===== *)
(** * Scheduled ingestion
    ([src/ingestion/scheduled/], [src/workers/jobs/ingestion_jobs.py],
    [src/workers/jobs/literature_ingestion_job.py])

    The adapters that turn answers of the public services into hazard events and
    papers, and the two jobs that store them and advance a cursor per source.  The
    jobs run in one transaction: statements work on a copy of the tables that the
    commit makes visible.  Arguments: the network and Redis (as in [DataSources]),
    Python's [str], [float] on text, [fromtimestamp], SHA-256, the reading of ISO
    timestamps and of an Atom feed, and the embedding service. *)

From stdpp Require Import pretty sorting.
From S2P Require Import Prelude PyFloat PyStr PyTime Effects Database Settings RedisKeys CircuitBreaker Resilience DataSources.
From Stdlib Require Import Ascii.

(** ** Records *)

Record HazardEventRecord := {
  h_source : string;
  h_external_id : string;
  h_event_type : string;
  h_region_label : json;               (* whatever the source sent; text once stored *)
  h_point : float * float;             (* latitude, longitude *)
  h_event_date : Z;
  h_details : option string;
}.

(** A [datetime] read from text has a time zone or not; comparing the two kinds
    raises [TypeError]. *)
Inductive stamp := Aware (t : Z) | Naive (t : Z).

Record PaperRecord := {
  p_source_id : string;
  p_title : string;
  p_authors : list string;
  p_published_date : stamp;
  p_abstract_and_body : string;
  p_source_url : string;
  p_extra_metadata : list (string * json);
}.

(** [s.replace(c, r)] for a character. *)
Fixpoint replace_by (c : ascii) (r s : string) : string :=
  match s with
  | EmptyString => ""
  | String a s => if Ascii.eqb a c then r +:+ replace_by c r s else String a (replace_by c r s)
  end.

Definition attribute_error : pyexn := OtherError "AttributeError".

(** [len(j)] *)
Definition jlen (j : json) : result pyexn nat :=
  match j with
  | JList l => Ok (length l)
  | JStr s => Ok (String.length s)
  | JObj fs => Ok (length fs)
  | _ => Raise TypeError
  end.

(** A loop whose body may append a record or raise; the second form sits in a
    [try] that keeps what was appended before. *)
Definition collect {A} (f : json -> result pyexn (option A)) (l : list json) : result pyexn (list A) :=
  match result_mapM f l with Ok os => Ok (omap (fun o : option A => o) (os : list (option A))) | Raise e => Raise e end.

Fixpoint until_error {A} (f : json -> result pyexn (option A)) (l : list json) : list A :=
  match l with
  | [] => []
  | x :: l => match f x with
              | Ok (Some a) => a :: until_error f l
              | Ok None => until_error f l
              | Raise _ => []
              end
  end.

(** [records.sort(key=...)]: stable. *)
Fixpoint insert_by {A} (key : A -> Z) (x : A) (l : list A) : list A :=
  match l with
  | [] => [x]
  | y :: l' => if key x <=? key y then x :: l else y :: insert_by key x l'
  end.
Definition sort_by {A} (key : A -> Z) (l : list A) : list A := foldr (insert_by key) [] l.

Section sources.
Context {S : Type} `{!Redis S text} `{!IsoTime} `{!Tenacity}.
Variable settings : Settings.
Variable http_get : string -> dict -> dict -> M S HttpResponse.
Variables now later : string -> string -> Z.
Variable str : json -> string.
Variable parse_float : string -> option float.
Variable fromtimestamp : float -> result pyexn Z.
Variable sha256 : string -> string.
Variable read_iso : string -> option stamp.     (* [datetime.fromisoformat] *)
Variable t : Z.                                 (* [datetime.now(UTC)] of the run *)

Definition WEEK : Z := 7 * DAY.
Definition start_of (since : option Z) : Z := default (t - WEEK) since.

(** *** USGS *)

Definition usgs_record (feat : json) : result pyexn (option HazardEventRecord) :=
  feat_id ← jget feat "id" JNull;
  props ← jget feat "properties" (JObj []);
  geom ← jget feat "geometry" (JObj []);
  coords ← jget geom "coordinates" (JList []);
  if negb (jtruthy feat_id) || negb (jtruthy coords) then Ok None
  else
    n ← jlen coords;
    if (n <? 2)%nat then Ok None
    else
      lon ← jnth coords 0 ≫= py_float parse_float;
      lat ← jnth coords 1 ≫= py_float parse_float;
      epoch_ms ← jget props "time" JNull;
      match epoch_ms with
      | JNull => Ok None
      | _ =>
          ms ← float_operand epoch_ms;
          event_date ← fromtimestamp (fdiv ms (float_of_Z 1000));
          place ← jget props "place" JNull;
          let place := jor place (JStr "Unknown location") in
          mag ← jget props "mag" JNull;
          let details := match mag with
                         | JNull => "Earthquake - " +:+ str place
                         | _ => "Magnitude " +:+ str mag +:+ " earthquake - " +:+ str place
                         end in
          Ok (Some {| h_source := "usgs"; h_external_id := str feat_id; h_event_type := "earthquake"; h_region_label := place;
                      h_point := (lat, lon); h_event_date := event_date; h_details := Some details |})
      end.

Definition fetch_recent_usgs_events (since : option Z) : M S (list HazardEventRecord) :=
  res ← get_recent_earthquakes settings http_get now later str t
          {| q_lat := None; q_lon := None; q_radius_km := None; q_min_magnitude := num 25 10; q_days := 7;
             q_starttime := Some (start_of since); q_endtime := Some t |};
  features ← lift (jiter (jor (value res) (JList [])));
  lift (collect usgs_record features).

(** *** NOAA *)

Record station_meta := { st_id : string; st_city : string; st_lat : float; st_lon : float }.

Definition stations_to_process : list station_meta :=
  [{| st_id := "8518750"; st_city := "New York"; st_lat := flit 407128 10000; st_lon := flit (-74006) 1000 |};
   {| st_id := "9759110"; st_city := "Tokyo"; st_lat := flit 356762 10000; st_lon := flit 1396503 10000 |};
   {| st_id := "9414290"; st_city := "San Francisco"; st_lat := flit 377749 10000; st_lon := flit (-1224194) 10000 |}].

Definition noaa_record (start : Z) (st : station_meta) (obs : json) : result pyexn (option HazardEventRecord) :=
  match obs with
  | JObj _ =>
      t_str ← jget obs "t" JNull;
      v_str ← jget obs "v" JNull;
      if negb (jtruthy t_str) || negb (jtruthy v_str) then Ok None
      else
        let dt_val := default t (strptime fmt_minute (str t_str)) in
        if dt_val <? start then Ok None
        else Ok (Some {| h_source := "noaa"; h_external_id := "noaa_" +:+ st_id st +:+ "_" +:+ replace_by " " "T" (str t_str);
                         h_event_type := "marine heatwave"; h_region_label := JStr (st_city st); h_point := (st_lat st, st_lon st);
                         h_event_date := dt_val;
                         h_details := Some ("NOAA station " +:+ st_id st +:+ " (" +:+ st_city st +:+ ") water temperature: " +:+
                                            str v_str +:+ "°C") |})
  | _ => Ok None
  end.

Definition noaa_observations (start : Z) (st : station_meta) (v : json) : list HazardEventRecord :=
  match jget (jor v (JObj [])) "data" (JList []) with
  | Ok (JList l) => until_error (noaa_record start st) l
  | _ => []
  end.

Definition noaa_station (start : Z) (st : station_meta) : M S (list HazardEventRecord) :=
  try_except (res ← get_water_temperature settings http_get now later (st_id st) "latest" None;
              mret (noaa_observations start st (value res)))
             (fun _ => mret []).

(** The records of each item in turn. *)
Fixpoint concat_map {A B} (f : A -> M S (list B)) (l : list A) : M S (list B) :=
  match l with
  | [] => mret []
  | a :: l => x ← f a; y ← concat_map f l; mret (x ++ y)
  end.

Definition fetch_recent_noaa_events (since : option Z) : M S (list HazardEventRecord) :=
  concat_map (noaa_station (start_of since)) stations_to_process.

(** *** Copernicus *)

Record bbox := { bb_name : string; bb_min_x : float; bb_min_y : float; bb_max_x : float; bb_max_y : float }.

Definition DEFAULT_BBOXES : list bbox :=
  [{| bb_name := "California"; bb_min_x := flit (-1244) 10; bb_min_y := flit 325 10; bb_max_x := flit (-1141) 10; bb_max_y := flit 420 10 |};
   {| bb_name := "Mediterranean"; bb_min_x := flit (-100) 10; bb_min_y := flit 350 10; bb_max_x := flit 300 10; bb_max_y := flit 450 10 |}].

Definition product_date (date_str : json) : result pyexn stamp :=
  if jtruthy date_str then
    match date_str with
    | JStr d => Ok (default (Aware t) (read_iso (replace_by "Z" "+00:00" d)))
    | _ => Raise attribute_error
    end
  else Ok (Aware t).

Definition copernicus_record (start : Z) (b : bbox) (prod : json) : result pyexn (option HazardEventRecord) :=
  prod_id ← jget prod "Id" JNull;
  name ← jget prod "Name" (JStr "Sentinel-2 Product");
  content ← jget prod "ContentDate" (JObj []);
  date_str ← jget content "Start" JNull;
  if negb (jtruthy prod_id) then Ok None
  else
    event_date ← product_date date_str;
    match event_date with
    | Naive _ => Raise TypeError
    | Aware d =>
        if d <? start then Ok None
        else
          let two := float_of_Z 2 in
          let url := "https://catalogue.dataspace.copernicus.eu/odata/v1/Products(" +:+ str prod_id +:+ ")" in
          Ok (Some {| h_source := "copernicus"; h_external_id := "copernicus_" +:+ str prod_id;
                      h_event_type := "wildfire_satellite"; h_region_label := JStr (bb_name b);
                      h_point := (fdiv (fadd (bb_min_y b) (bb_max_y b)) two, fdiv (fadd (bb_min_x b) (bb_max_x b)) two);
                      h_event_date := d;
                      h_details := Some ("Copernicus Sentinel-2 Satellite Product '" +:+ str name +:+
                        "' | Provider: EU Copernicus Data Space | Original ID: " +:+ str prod_id +:+ " | Source URL: " +:+ url) |})
    end.

Definition copernicus_region (start : Z) (b : bbox) : M S (list HazardEventRecord) :=
  try_except
    (res ← get_wildfire_products settings http_get now later str
             (JFloat (bb_min_x b), JFloat (bb_min_y b), JFloat (bb_max_x b), JFloat (bb_max_y b)) 10;
     mret match jiter (jor (value res) (JList [])) with
          | Ok products => until_error (copernicus_record start b) products
          | Raise _ => []
          end)
    (fun _ => mret []).

Definition fetch_recent_copernicus_events (since : option Z) : M S (list HazardEventRecord) :=
  concat_map (copernicus_region (start_of since)) DEFAULT_BBOXES.

(** *** ERA5 *)

Definition MONITORING_LOCATIONS : list (string * (float * float)) :=
  [("Tokyo", (flit 356762 10000, flit 1396503 10000)); ("London", (flit 515074 10000, flit (-1278) 10000));
   ("Paris", (flit 488566 10000, flit 23522 10000)); ("California", (flit 367783 10000, flit (-1194179) 10000))].

(** [l[i] if i < len(l) else "N/A"] *)
Definition nth_or_na (l : json) (i : nat) : result pyexn json :=
  n ← jlen l; if (i <? n)%nat then jnth l i else Ok (JStr "N/A").

Definition era5_record (start : Z) (city : string) (point : float * float) (temp_list wind_list precip_list : json)
    (i : nat) (time_str : json) : result pyexn (option HazardEventRecord) :=
  let event_date := default t (strptime fmt_date (str time_str)) in
  if event_date <? start then Ok None
  else
    temp ← nth_or_na temp_list i;
    wind ← nth_or_na wind_list i;
    precip ← nth_or_na precip_list i;
    let ext_id := "era5_" +:+ lower city +:+ "_" +:+ str time_str in
    Ok (Some {| h_source := "era5"; h_external_id := ext_id; h_event_type := "atmospheric_anomaly";
                h_region_label := JStr city; h_point := point; h_event_date := event_date;
                h_details := Some ("ERA5 Atmospheric Reanalysis Baseline in " +:+ city +:+ " on " +:+ str time_str +:+ ": Mean Temp: " +:+
                  str temp +:+ "°C, Max Wind: " +:+ str wind +:+ " km/h, Precip: " +:+ str precip +:+
                  " mm | Provider: ECMWF ERA5 | Original ID: " +:+ ext_id +:+
                  " | Source URL: https://archive-api.open-meteo.com/v1/archive") |}).

(** [enumerate] from [i]. *)
Fixpoint era5_days (f : nat -> json -> result pyexn (option HazardEventRecord)) (i : nat) (l : list json) : list HazardEventRecord :=
  match l with
  | [] => []
  | x :: l => match f i x with
              | Ok (Some a) => a :: era5_days f (Datatypes.S i) l
              | Ok None => era5_days f (Datatypes.S i) l
              | Raise _ => []
              end
  end.

Definition era5_city (start : Z) (city : string) (point : float * float) (v : json) : list HazardEventRecord :=
  match (daily ← jget (jor v (JObj [])) "daily" (JObj []);
         time_list ← jget daily "time" (JList []);
         temp ← jget daily "temperature_2m_mean" (JList []);
         wind ← jget daily "wind_speed_10m_max" (JList []);
         precip ← jget daily "precipitation_sum" (JList []);
         days ← jiter time_list;
         Ok (era5_days (era5_record start city point temp wind precip) 0 days)) with
  | Ok l => l
  | Raise _ => []
  end.

Definition era5_location (start : Z) (loc : string * (float * float)) : M S (list HazardEventRecord) :=
  try_except
    (res ← get_atmospheric_baseline settings http_get now later str (JFloat loc.2.1) (JFloat loc.2.2) (isodate start) (isodate t);
     mret (era5_city start loc.1 loc.2 (value res)))
    (fun _ => mret []).

Definition fetch_recent_era5_events (since : option Z) : M S (list HazardEventRecord) :=
  concat_map (era5_location (start_of since)) MONITORING_LOCATIONS.

(** *** GDELT *)

Definition _parse_gdelt_date (seendate : json) : Z :=
  if jtruthy seendate then
    let s := replace_by "T" "" (replace_by "Z" "" (str seendate)) in
    match strptime fmt_stamp (String.substring 0 14 s) with
    | Some d => d
    | None => default t (strptime fmt_ymd (String.substring 0 8 s))
    end
  else t.

Definition gdelt_record (start : Z) (art : json) : result pyexn (option HazardEventRecord) :=
  url ← jget art "url" JNull;
  title ← jget art "title" JNull;
  seendate ← jget art "seendate" JNull;
  domain ← jget art "domain" JNull;
  language ← jget art "language" JNull;
  let title := jor title (JStr "Socio-Political Hazard Event Report") in
  let domain := jor domain (JStr "news") in
  let language := jor language (JStr "English") in
  if negb (jtruthy url) then Ok None
  else
    let event_date := _parse_gdelt_date seendate in
    if event_date <? start then Ok None
    else
      match url with
      | JStr u =>
          let ext_id := "gdelt_" +:+ String.substring 0 16 (sha256 u) in
          Ok (Some {| h_source := "gdelt"; h_external_id := ext_id; h_event_type := "civil_unrest_hazard_adjacent";
                      h_region_label := domain; h_point := (f0, f0); h_event_date := event_date;
                      h_details := Some ("GDELT News Report: '" +:+ str title +:+ "' | Provider: GDELT Project (" +:+ str domain +:+
                        ") | Language: " +:+ str language +:+ " | Original ID: " +:+ ext_id +:+ " | Source URL: " +:+ u) |})
      | _ => Raise attribute_error
      end.

Definition fetch_recent_gdelt_events (since : option Z) : M S (list HazardEventRecord) :=
  res ← get_hazard_articles settings http_get now later str "wildfire OR flood OR earthquake" None
          (Some (strftime_stamp (start_of since)));
  arts ← lift (jiter (jor (value res) (JList [])));
  records ← lift (collect (gdelt_record (start_of since)) arts);
  mret (sort_by h_event_date records).
End sources.

(** ** arXiv *)

(** What the adapter reads of an Atom entry: an element is absent, or present with
    its text if any; links and the category are attribute lists. *)
Record atom_entry := {
  e_id : option (option string);
  e_title : option (option string);
  e_summary : option (option string);
  e_published : option (option string);
  e_updated : option (option string);
  e_author_names : list (option (option string));
  e_links : list (list (string * string));
  e_primary_category : option (list (string * string));
}.

(** The text of an element, when there is any. *)
Definition text_of (e : option (option string)) : option string :=
  match e with Some (Some s) => if str_truthy s then Some s else None | _ => None end.

(** [s.split(p)[-1]]: what follows the last of the occurrences found from the left. *)
Fixpoint last_piece (p s : string) (skip : nat) (piece : string) : string :=
  match s with
  | EmptyString => piece
  | String _ s' =>
      match skip with
      | Datatypes.S k => last_piece p s' k piece
      | O => if startswith p s then
               last_piece p s' (String.length p - 1) (String.substring (String.length p) (String.length s) s)
             else last_piece p s' 0 piece
      end
  end.

Definition newline_char : ascii := ascii_of_N 10.

Section arxiv.
Context {S : Type} `{!Redis S text} `{!IsoTime} `{!Tenacity}.
Variable settings : Settings.
Variable http_get : string -> dict -> dict -> M S HttpResponse.
Variables now later : string -> string -> Z.
Variable read_iso : string -> option stamp.
Variable iso_text : stamp -> string.            (* [datetime.isoformat] *)
Variable parse_feed : string -> option (list atom_entry).
Variable t : Z.

Definition entry_date (e : option (option string)) (d : stamp) : stamp :=
  match text_of e with
  | Some s => default d (read_iso (replace_by "Z" "+00:00" (strip s)))
  | None => d
  end.

Definition is_pdf (link : list (string * string)) : option string :=
  match assoc "href" link with
  | Some href =>
      if str_truthy href &&
         (bool_decide (assoc "title" link = Some "pdf") || bool_decide (assoc "type" link = Some "application/pdf") ||
          bool_decide (assoc "rel" link = Some "related"))
      then Some href else None
  | None => None
  end.

Definition paper_of (since : option Z) (e : atom_entry) : result pyexn (option PaperRecord) :=
  match e_id e with
  | Some (Some id_text) =>
      let raw_url := strip id_text in
      let arxiv_id := if contains "/abs/" raw_url then last_piece "/abs/" raw_url 0 raw_url else raw_url in
      let title := match text_of (e_title e) with Some s => replace_char newline_char " " (strip s) | None => "Unknown" end in
      let summary := match text_of (e_summary e) with Some s => strip s | None => "" end in
      let authors := omap (fun a => strip <$> text_of a) (e_author_names e) in
      let pub_date := entry_date (e_published e) (Aware t) in
      let updated_date := entry_date (e_updated e) pub_date in
      let pdf_url := default raw_url (head (omap is_pdf (e_links e))) in
      let primary_cat := match e_primary_category e with Some attrs => default "unknown" (assoc "term" attrs) | None => "unknown" end in
      let paper :=
        {| p_source_id := arxiv_id; p_title := title; p_authors := authors; p_published_date := pub_date;
           p_abstract_and_body := "Title: " +:+ title +:+ String newline_char "" +:+ "Abstract: " +:+ summary;
           p_source_url := pdf_url;
           p_extra_metadata := [("arxiv_id", JStr arxiv_id); ("primary_category", JStr primary_cat);
                                ("updated_date", JStr (iso_text updated_date)); ("authors", JList (map JStr authors));
                                ("abstract", JStr summary)] |} in
      match since, pub_date with
      | Some c, Aware d => if d <=? c then Ok None else Ok (Some paper)
      | Some _, Naive _ => Raise TypeError
      | None, _ => Ok (Some paper)
      end
  | _ => Ok None
  end.

Fixpoint papers_of (since : option Z) (es : list atom_entry) : result pyexn (list PaperRecord) :=
  match es with
  | [] => Ok []
  | e :: es => p ← paper_of since e; rest ← papers_of since es; Ok (match p with Some p => p :: rest | None => rest end)
  end.

Definition stamp_value (d : stamp) : Z := match d with Aware t => t | Naive t => t end.
Definition is_aware (d : stamp) : bool := match d with Aware _ => true | Naive _ => false end.

(** Sorting or taking a maximum compares every two neighbours of the result. *)
Definition comparable (l : list PaperRecord) : bool :=
  forallb (fun p => is_aware (p_published_date p)) l || forallb (fun p => negb (is_aware (p_published_date p))) l.

Definition sort_papers (l : list PaperRecord) : result pyexn (list PaperRecord) :=
  if comparable l then Ok (sort_by (fun p => stamp_value (p_published_date p)) l) else Raise TypeError.

Fixpoint rstrip_slash (s : string) : string :=
  match s with
  | EmptyString => ""
  | String c s => match rstrip_slash s with
                  | EmptyString => if Ascii.eqb c "/" then "" else String c ""
                  | r => String c r
                  end
  end.

Definition _fetch_arxiv (categories : list string) : M S json :=
  resp ← http_get (rstrip_slash (arxiv_api_url settings))
           [("search_query", JStr (join " OR " (map (fun c => "cat:" +:+ c) categories))); ("sortBy", JStr "lastUpdatedDate");
            ("sortOrder", JStr "descending"); ("max_results", JStr (pretty (arxiv_max_results settings)))] [];
  lift (raise_for_status resp) ;;
  mret (JStr (resp_text resp)).

Definition fetch_new_arxiv_papers (since : option Z) (categories : list string) : M S (list PaperRecord) :=
  res ← source_call settings now later "arxiv" (_fetch_arxiv categories) ("feed:" +:+ join "," (merge_sort str_le categories));
  match value res with
  | JStr feed =>
      if str_truthy feed then
        match parse_feed feed with
        | Some es => papers ← lift (papers_of since es); lift (sort_papers papers)
        | None => mret []
        end
      else mret []
  | _ => mret []
  end.
End arxiv.

(** ** Chunks *)

Fixpoint chunk_loop (fuel : nat) (text : string) (size step start : Z) : list string :=
  match fuel with
  | O => []
  | Datatypes.S fuel =>
      let len := Z.of_nat (String.length text) in
      if start <? len then
        String.substring (Z.to_nat start) (Z.to_nat size) text ::
        (if (len <=? start + step) || (step <=? 0) then [] else chunk_loop fuel text size step (start + step))
      else []
  end.

Definition chunk_text (text : string) (size overlap : Z) : list string :=
  if size <=? 0 then [text] else chunk_loop (Datatypes.S (String.length text)) text size (size - overlap) 0.

(** ** The jobs *)

Record LiteratureChunk := {
  c_document_id : string;
  c_source_id : option string;
  c_chunk_text : string;
  c_embedding : option (list float);
  c_source_url : option string;
  c_extra_metadata : list (string * json);
}.

(** The tables, the cache of the data sources and the script of the database. *)
Record world (S : Type) := World {
  cache : S;
  hazard_events : list HazardEventRecord;      (* the ingested rows; seeded ones have no source and never conflict *)
  ingestion_cursors : list (string * Z);
  literature_chunks : list LiteratureChunk;
  metric_rows : list (string * json);          (* one entry per persisted metric *)
  w_script : list bool;
}.
Arguments World {S} _ _ _ _ _ _.
Arguments cache {S} _.
Arguments hazard_events {S} _.
Arguments ingestion_cursors {S} _.
Arguments literature_chunks {S} _.
Arguments metric_rows {S} _.
Arguments w_script {S} _.

Section setters.
Context {S : Type}.
Implicit Types w : world S.
Definition set_cache (s : S) w : world S :=
  World s (hazard_events w) (ingestion_cursors w) (literature_chunks w) (metric_rows w) (w_script w).
Definition set_w_script l w := World (cache w) (hazard_events w) (ingestion_cursors w) (literature_chunks w) (metric_rows w) l.
Definition set_hazards rows cursors w := World (cache w) rows cursors (literature_chunks w) (metric_rows w) (w_script w).
Definition set_chunks rows cursors w := World (cache w) (hazard_events w) cursors rows (metric_rows w) (w_script w).
Definition add_metric (m : string * json) w :=
  World (cache w) (hazard_events w) (ingestion_cursors w) (literature_chunks w) (metric_rows w ++ [m]) (w_script w).
End setters.

#[global] Instance ingestion_db S : Db (world S).
Proof. refine {| script := w_script; set_script := set_w_script |}; [by intros [] | done]. Defined.

Section jobs.
Context {S : Type} `{!Redis S text} `{!IsoTime} `{!Tenacity}.
Variable settings : Settings.
Variable http_get : string -> dict -> dict -> M S HttpResponse.
Variables now later : string -> string -> Z.
Variable str : json -> string.
Variable parse_float : string -> option float.
Variable fromtimestamp : float -> result pyexn Z.
Variable sha256 : string -> string.
Variable read_iso : string -> option stamp.
Variable iso_text : stamp -> string.
Variable parse_feed : string -> option (list atom_entry).
Variable embed_documents : list string -> M S (list (list float)).
Variable local_time : Z -> Z.                   (* the instant of a zoneless time *)
Variable ready : bool.                          (* whether the session factory exists already *)
Variables (t duration_ms : Z).
Notation W := (world S).

Definition on_cache {A} (m : M S A) : M W A := fun w => let '(r, s) := m (cache w) in (r, set_cache s w).

(** The session factory, initialised on demand. *)
Definition need_session : M W unit :=
  if ready then mret tt else match database_url settings with Some _ => mret tt | None => raise RuntimeError end.

Definition enabled (source : string) : bool :=
  if String.eqb source "usgs" then enable_usgs_ingestion settings
  else if String.eqb source "noaa" then enable_noaa_ingestion settings
  else if String.eqb source "copernicus" then enable_copernicus_ingestion settings
  else if String.eqb source "era5" then enable_era5_ingestion settings
  else if String.eqb source "gdelt" then enable_gdelt_ingestion settings
  else true.

Definition fetch_events (source : string) (since : option Z) : M S (list HazardEventRecord) :=
  if String.eqb source "usgs" then
    fetch_recent_usgs_events settings http_get now later str parse_float fromtimestamp t since
  else if String.eqb source "noaa" then fetch_recent_noaa_events settings http_get now later str t since
  else if String.eqb source "copernicus" then
    fetch_recent_copernicus_events settings http_get now later str read_iso t since
  else if String.eqb source "era5" then fetch_recent_era5_events settings http_get now later str t since
  else if String.eqb source "gdelt" then fetch_recent_gdelt_events settings http_get now later str sha256 t since
  else raise ValueError.

Definition key_of (r : HazardEventRecord) : string * string := (h_source r, h_external_id r).

(** [INSERT ... ON CONFLICT (source, external_id) DO NOTHING]; the columns are text. *)
Definition insert_event (r : HazardEventRecord) (rows : list HazardEventRecord) : list HazardEventRecord * bool :=
  if bool_decide (key_of r ∈ map key_of rows) then (rows, false) else (rows ++ [r], true).

Definition data_error : pyexn := OtherError "DataError".

Fixpoint insert_events (recs rows : list HazardEventRecord) (inserted : Z) : M W (list HazardEventRecord * Z) :=
  match recs with
  | [] => mret (rows, inserted)
  | r :: recs =>
      match h_region_label r with
      | JStr _ =>
          statement ;;
          let '(rows, new) := insert_event r rows in
          insert_events recs rows (if new then inserted + 1 else inserted)
      | _ => raise data_error
      end
  end.

Definition max_date (d : Z) (l : list Z) : Z := fold_left Z.max l d.

Definition disabled_result (source : string) : list (string * json) :=
  [("status", JStr "disabled"); ("source", JStr source); ("records_inserted", JInt 0)].
Definition success_result (source : string) (fetched inserted : Z) : list (string * json) :=
  [("status", JStr "success"); ("source", JStr source); ("records_fetched", JInt fetched); ("records_inserted", JInt inserted);
   ("duration_ms", JInt duration_ms)].

(** [INSERT INTO ingestion_cursors ... ON CONFLICT DO UPDATE] *)
Definition upsert_cursor (source : string) (d : Z) (cursors : list (string * Z)) : list (string * Z) := assoc_set source d cursors.

(** The end of both jobs: the metric in a transaction of its own. *)
Definition report (source : string) (fetched inserted : Z) : M W (list (string * json)) :=
  save (add_metric ("IngestionCompleted", JStr source)) ;;
  mret (success_result source fetched inserted).

Definition _async_run_ingestion_job (source : string) : M W (list (string * json)) :=
  let source_clean := lower (strip source) in
  if enabled source_clean then
    need_session ;;
    cursor ← select (fun w => assoc source_clean (ingestion_cursors w));
    records ← on_cache (fetch_events source_clean cursor);
    match records with
    | [] => statement ;; report source_clean 0 0
    | first :: _ =>
        rows ← gets hazard_events;
        ins ← insert_events records rows 0;
        statement ;;
        save (fun w => set_hazards ins.1
                (upsert_cursor source_clean (max_date (h_event_date first) (map h_event_date records)) (ingestion_cursors w)) w) ;;
        report source_clean (Z.of_nat (length records)) ins.2
    end
  else mret (disabled_result source_clean).

(** *** Literature *)

Definition chunk_row (p : PaperRecord) (idx : nat) (text : string) (emb : list float) : LiteratureChunk :=
  {| c_document_id := "arxiv_" +:+ p_source_id p; c_source_id := Some (p_source_id p); c_chunk_text := text;
     c_embedding := Some emb; c_source_url := Some (p_source_url p);
     c_extra_metadata := fold_left (fun acc kv => assoc_set kv.1 kv.2 acc) (p_extra_metadata p)
       [("title", JStr (p_title p)); ("chunk_id", JInt (Z.of_nat idx + 1)); ("authors", JList (map JStr (p_authors p)))] |}.

Fixpoint chunk_rows (p : PaperRecord) (idx : nat) (texts : list string) (embs : list (list float)) : result pyexn (list LiteratureChunk) :=
  match texts, embs with
  | [], [] => Ok []
  | x :: texts, e :: embs => rest ← chunk_rows p (Datatypes.S idx) texts embs; Ok (chunk_row p idx x e :: rest)
  | _, _ => Raise ValueError
  end.

Definition has_paper (id : string) (rows : list LiteratureChunk) : bool :=
  existsb (fun c => bool_decide (c_source_id c = Some id)) rows.

(** The pending rows and the papers taken in; the session does not flush, so the
    look-up sees committed rows only. *)
Fixpoint ingest_papers (papers : list PaperRecord) : M W (list LiteratureChunk * list PaperRecord) :=
  match papers with
  | [] => mret ([], [])
  | p :: papers =>
      dup ← select (fun w => has_paper (p_source_id p) (literature_chunks w));
      if (dup : bool) then ingest_papers papers
      else
        match chunk_text (p_abstract_and_body p) (chunk_size settings) (chunk_overlap settings) with
        | [] => ingest_papers papers
        | chunks =>
            embs ← on_cache (embed_documents chunks);
            rows ← lift (chunk_rows p 0 chunks embs);
            rest ← ingest_papers papers;
            mret (rows ++ rest.1, p :: rest.2)
        end
  end.

Definition instant (d : stamp) : Z := match d with Aware t => t | Naive t => local_time t end.

Definition latest_paper (first : PaperRecord) (papers : list PaperRecord) : stamp :=
  let v := max_date (stamp_value (p_published_date first)) (map (fun p => stamp_value (p_published_date p)) papers) in
  if is_aware (p_published_date first) then Aware v else Naive v.

Definition _async_run_literature_ingestion_job (source : string) : M W (list (string * json)) :=
  let source_clean := lower (strip source) in
  if enable_arxiv_ingestion settings then
    need_session ;;
    cursor ← select (fun w => assoc source_clean (ingestion_cursors w));
    papers ← on_cache (fetch_new_arxiv_papers settings http_get now later read_iso iso_text parse_feed t cursor (arxiv_categories settings));
    match papers with
    | [] => mret [("status", JStr "success"); ("source", JStr source_clean); ("records_fetched", JInt 0); ("records_inserted", JInt 0)]
    | _ =>
        r ← ingest_papers papers;
        match r.2 with
        | [] => statement ;; report source_clean (Z.of_nat (length papers)) 0
        | first :: _ =>
            statement ;;
            save (fun w => set_chunks (literature_chunks w ++ r.1)
                    (upsert_cursor source_clean (instant (latest_paper first r.2)) (ingestion_cursors w)) w) ;;
            report source_clean (Z.of_nat (length papers)) (Z.of_nat (length r.2))
        end
    end
  else mret (disabled_result source_clean).
End jobs.

(** ** Chunks cover the text *)

Notation codes := String.list_ascii_of_string.

Lemma codes_inj s u : codes s = codes u -> s = u.
Proof. intros E. by rewrite <- (String.string_of_list_ascii_of_string s), E, String.string_of_list_ascii_of_string. Qed.

Lemma codes_length s : length (codes s) = String.length s.
Proof. induction s; cbn; congruence. Qed.

Lemma codes_app s u : codes (s +:+ u) = codes s ++ codes u.
Proof. induction s as [|c s IH]; [done|]. change (String c s +:+ u) with (String c (s +:+ u)). cbn. by rewrite IH. Qed.

Lemma codes_substring n m s : codes (String.substring n m s) = take m (drop n (codes s)).
Proof.
  revert n m. induction s as [|c s IH]; intros [|n] [|m]; cbn; rewrite ?IH, ?drop_0; done.
Qed.

Lemma codes_concat l : codes (String.concat "" l) = concat (map codes l).
Proof.
  induction l as [|s [|u l] IH]; [done | cbn; by rewrite app_nil_r|]. cbn [String.concat map concat] in *.
  rewrite !codes_app. cbn [codes app]. by rewrite IH.
Qed.

Section chunks.
Variables (text : string) (size step : Z).
Hypothesis size_pos : 0 < size.
Hypothesis step_pos : 0 < step.
Notation len := (Z.of_nat (String.length text)).

Lemma chunk_loop_cons fuel start : 0 <= start < len ->
  chunk_loop (Datatypes.S fuel) text size step start =
  String.substring (Z.to_nat start) (Z.to_nat size) text ::
  (if start + step <? len then chunk_loop fuel text size step (start + step) else []).
Proof.
  intros Hs. cbn [chunk_loop]. rewrite (proj2 (Z.ltb_lt _ _)) by lia. f_equal.
  rewrite (proj2 (Z.leb_gt step 0)), orb_false_r by lia.
  destruct (Z.leb_spec len (start + step)), (Z.ltb_spec (start + step) len); try lia; done.
Qed.

Lemma chunk_loop_rebuilds fuel : forall start, step <= size -> 0 <= start -> len - start < Z.of_nat fuel ->
  concat (map codes (map (String.substring 0 (Z.to_nat step)) (chunk_loop fuel text size step start))) =
  drop (Z.to_nat start) (codes text).
Proof.
  intros start Hss. revert start. induction fuel as [|fuel IH]; intros start H0 Hf.
  - rewrite drop_ge; [done | rewrite codes_length; lia].
  - destruct (Z.ltb_spec start len) as [Hlt|].
    + rewrite chunk_loop_cons by lia. cbn [map concat]. rewrite !codes_substring, drop_0, take_take, Nat.min_l by lia.
      destruct (Z.ltb_spec (start + step) len).
      * rewrite IH by lia. replace (Z.to_nat (start + step)) with (Z.to_nat start + Z.to_nat step)%nat by lia.
        rewrite <- drop_drop. apply take_drop.
      * cbn. rewrite app_nil_r. apply take_ge. rewrite length_drop, codes_length. lia.
    + cbn [chunk_loop]. rewrite (proj2 (Z.ltb_ge _ _)) by lia. symmetry. apply drop_ge. rewrite codes_length. lia.
Qed.

Lemma chunk_loop_bounds fuel : forall start c, 0 <= start -> c ∈ chunk_loop fuel text size step start ->
  c <> "" /\ Z.of_nat (String.length c) <= size.
Proof.
  induction fuel as [|fuel IH]; intros start c H0 Hc; [by apply not_elem_of_nil in Hc|].
  destruct (Z.ltb_spec start len) as [Hlt|].
  - rewrite chunk_loop_cons in Hc by lia. apply elem_of_cons in Hc as [->|Hc].
    + assert (String.length (String.substring (Z.to_nat start) (Z.to_nat size) text) =
              Nat.min (Z.to_nat size) (String.length text - Z.to_nat start)) as Hl.
      { by rewrite <- codes_length, codes_substring, length_take, length_drop, codes_length. }
      split; [|lia]. intros E. rewrite E in Hl. cbn in Hl. lia.
    + destruct (start + step <? len); [|by apply not_elem_of_nil in Hc]. apply (IH (start + step)); [lia | done].
  - cbn [chunk_loop] in Hc. rewrite (proj2 (Z.ltb_ge _ _)) in Hc by lia. by apply not_elem_of_nil in Hc.
Qed.

Lemma chunk_loop_window fuel : forall start p l, len - start < Z.of_nat fuel -> 0 <= start <= p -> 0 <= l -> p + l <= len -> p < len ->
  l <= size - step + 1 ->
  exists c q, c ∈ chunk_loop fuel text size step start /\
    String.substring q (Z.to_nat l) c = String.substring (Z.to_nat p) (Z.to_nat l) text.
Proof.
  induction fuel as [|fuel IH]; intros start p l Hf Hp Hl0 Hl Hlt Hw; [lia|]. rewrite chunk_loop_cons by lia.
  destruct (Z.ltb_spec p (start + step)).
  - eexists _, (Z.to_nat (p - start)). split; [by left|]. apply codes_inj. rewrite !codes_substring, skipn_firstn_comm, drop_drop, take_take.
    f_equal; [|f_equal]; lia.
  - rewrite (proj2 (Z.ltb_lt _ _)) by lia. destruct (IH (start + step) p l) as (c & q & Hc & E); [lia..|].
    exists c, q. split; [by right | done].
Qed.
End chunks.

Lemma chunk_text_rebuilds text size overlap : 0 <= overlap < size ->
  String.concat "" (map (String.substring 0 (Z.to_nat (size - overlap))) (chunk_text text size overlap)) = text.
Proof.
  intros Ho. unfold chunk_text. rewrite (proj2 (Z.leb_gt _ _)) by lia. apply codes_inj.
  rewrite codes_concat, chunk_loop_rebuilds by lia. done.
Qed.

(** With an overlap below the chunk size the chunks lose nothing: their leading
    parts, one step each, rebuild the text; no chunk is empty or longer than the
    size; and every passage of up to one more character than the overlap lies
    within one chunk. *)
Theorem chunk_text_covers (text : string) (size overlap : Z) : 0 <= overlap < size ->
  let chunks := chunk_text text size overlap in
  String.concat "" (map (String.substring 0 (Z.to_nat (size - overlap))) chunks) = text /\
  (forall c, c ∈ chunks -> c <> "" /\ Z.of_nat (String.length c) <= size) /\
  (forall p l, 0 <= p -> 0 <= l <= overlap + 1 -> p + l <= Z.of_nat (String.length text) -> p < Z.of_nat (String.length text) ->
     exists c q, c ∈ chunks /\ String.substring q (Z.to_nat l) c = String.substring (Z.to_nat p) (Z.to_nat l) text).
Proof.
  intros Ho. cbn zeta. split; [by apply chunk_text_rebuilds|]. unfold chunk_text. rewrite (proj2 (Z.leb_gt _ _)) by lia. split.
  - intros c. apply chunk_loop_bounds; lia.
  - intros p l Hp Hl Hlen Hlt. apply chunk_loop_window; lia.
Qed.

(** With an overlap of at least the size only the first chunk is kept. *)
Theorem large_overlap_drops_text (text : string) (size overlap : Z) : 0 < size <= overlap -> text <> "" ->
  chunk_text text size overlap = [String.substring 0 (Z.to_nat size) text].
Proof.
  intros Ho Ht. unfold chunk_text. rewrite (proj2 (Z.leb_gt _ _)) by lia. cbn [chunk_loop].
  destruct text as [|c text]; [done|]. rewrite (proj2 (Z.ltb_lt _ _)) by (cbn; lia).
  rewrite (proj2 (Z.leb_le (size - overlap) 0)), orb_true_r by lia. done.
Qed.

(** ** Inserted rows *)

Definition merged (recs rows : list HazardEventRecord) : list HazardEventRecord :=
  fold_left (fun rows r => (insert_event r rows).1) recs rows.

Lemma insert_event_cases r rows :
  (key_of r ∈ map key_of rows /\ insert_event r rows = (rows, false)) \/
  (key_of r ∉ map key_of rows /\ insert_event r rows = (rows ++ [r], true)).
Proof. unfold insert_event. case_bool_decide; auto. Qed.

Lemma merged_prefix recs : forall rows, rows `prefix_of` merged recs rows.
Proof.
  induction recs as [|r recs IH]; intros rows; cbn; [done|]. etrans; [|apply IH].
  destruct (insert_event_cases r rows) as [[_ ->]|[_ ->]]; cbn; [done | by apply prefix_app_r].
Qed.

Lemma merged_NoDup recs : forall rows, NoDup (map key_of rows) -> NoDup (map key_of (merged recs rows)).
Proof.
  induction recs as [|r recs IH]; intros rows Hn; cbn; [done|]. apply IH.
  destruct (insert_event_cases r rows) as [[_ ->]|[Hk ->]]; cbn; [done|]. rewrite map_app. apply NoDup_app.
  split; [done|]. split; [|apply NoDup_singleton]. intros k Hk' ->%list_elem_of_singleton. done.
Qed.

Lemma merged_from recs : forall rows r, r ∈ merged recs rows -> r ∈ rows \/ r ∈ recs.
Proof.
  induction recs as [|x recs IH]; intros rows r; cbn; [by left|]. intros [Hr|Hr]%IH; [|right; by right].
  destruct (insert_event_cases x rows) as [[_ E]|[_ E]]; rewrite E in Hr; cbn in Hr; [by left|].
  apply elem_of_app in Hr as [?| ->%list_elem_of_singleton]; [by left | right; by left].
Qed.

Lemma merged_keys recs : forall rows r, r ∈ recs -> key_of r ∈ map key_of (merged recs rows).
Proof.
  induction recs as [|x recs IH]; intros rows r Hr; [by apply not_elem_of_nil in Hr|].
  change (merged (x :: recs) rows) with (merged recs (insert_event x rows).1). apply elem_of_cons in Hr as [->|Hr]; [|by apply IH].
  assert (key_of x ∈ map key_of (insert_event x rows).1) as Hk.
  { destruct (insert_event_cases x rows) as [[Hk ->]|[_ ->]]; cbn; [done|]. rewrite map_app. apply elem_of_app. right. by left. }
  destruct (merged_prefix recs (insert_event x rows).1) as [l ->]. rewrite map_app. apply elem_of_app. by left.
Qed.

Lemma max_date_ge l : forall d, d <= max_date d l /\ forall x, x ∈ l -> x <= max_date d l.
Proof.
  induction l as [|y l IH]; intros d; [split; [done | intros x Hx; by apply not_elem_of_nil in Hx]|].
  change (max_date d (y :: l)) with (max_date (Z.max d y) l). destruct (IH (Z.max d y)) as [H1 H2]. split; [lia|]. intros x [->|Hx]%elem_of_cons; [lia | by apply H2].
Qed.

Section job_effects.
Context {S : Type}.
Implicit Types w : world S.

Definition tables w := (hazard_events w, ingestion_cursors w, literature_chunks w).

Lemma frame_on_cache {A} (m : M S A) : frames tables (on_cache m).
Proof. intros w. unfold on_cache. by destruct (m (cache w)). Qed.

Lemma frame_db (m : M (world S) unit) : m = statement \/ (exists k, m = save (add_metric k)) -> frames tables m.
Proof.
  intros [->|[k ->]]; [by apply frames_statement | by apply frames_save].
Qed.

Lemma frame_report duration source f i : frames (W := world S) tables (report duration source f i).
Proof. apply frames_bind; [apply frame_db; eauto|]. intros []. by apply frames_same. Qed.

Lemma frame_insert recs : forall rows n, frames (W := world S) tables (insert_events recs rows n).
Proof.
  induction recs as [|r recs IH]; intros rows n; cbn [insert_events]; [by apply frames_same|].
  destruct (h_region_label r); try by apply frames_same. apply frames_bind; [apply frame_db; auto|]. intros [].
  destruct (insert_event r rows) as [rows' new]. apply IH.
Qed.

Lemma insert_events_ok recs : forall rows n w res w', insert_events recs rows n w = (Ok res, w') ->
  res = (merged recs rows, n + Z.of_nat (length (merged recs rows)) - Z.of_nat (length rows)).
Proof.
  induction recs as [|r recs IH]; intros rows n w res w'; cbn [insert_events merged fold_left].
  - intros [= <- _]. f_equal. lia.
  - destruct (h_region_label r); try done. intros ([] & w1 & _ & H)%M_bind_ok.
    destruct (insert_event_cases r rows) as [[_ E]|[_ E]]; rewrite E in *; cbn [fst] in *; apply IH in H; rewrite H; f_equal.
    rewrite length_app. cbn. fold (merged recs (rows ++ [r])). lia.
Qed.
End job_effects.

Section ingestion_effect.
Context {S : Type} `{!Redis S text} `{!IsoTime} `{!Tenacity}.
Variable settings : Settings.
Variable http_get : string -> dict -> dict -> M S HttpResponse.
Variables now later : string -> string -> Z.
Variable str : json -> string.
Variable parse_float : string -> option float.
Variable fromtimestamp : float -> result pyexn Z.
Variable sha256 : string -> string.
Variable read_iso : string -> option stamp.
Variable ready : bool.
Variables (t duration_ms : Z).
Notation fetch_from := (fetch_events settings http_get now later str parse_float fromtimestamp sha256 read_iso t).
Notation job := (_async_run_ingestion_job settings http_get now later str parse_float fromtimestamp sha256 read_iso ready t duration_ms).

Definition inserted_count (r : result pyexn (list (string * json))) (n : Z) : Prop :=
  forall d, r = Ok d -> assoc "records_inserted" d = Some (JInt n).

Definition cursor_of (records : list HazardEventRecord) : Z :=
  match records with [] => 0 | first :: _ => max_date (h_event_date first) (map h_event_date records) end.

Lemma report_outcome source f i (w : world S) :
  inserted_count (report duration_ms source f i w).1 i /\ tables (report duration_ms source f i w).2 = tables w.
Proof.
  split; [|apply frame_report]. intros d. unfold report. rewrite M_bind_run.
  destruct (save _ w) as [[[]|e] w1]; cbn; [by intros [= <-] | done].
Qed.

Lemma ingestion_effect source w : let clean := lower (strip source) in
  (tables (job source w).2 = tables w /\ inserted_count (job source w).1 0) \/
  exists records s', records <> [] /\ fetch_from clean (assoc clean (ingestion_cursors w)) (cache w) = (Ok records, s') /\
    tables (job source w).2 =
      (merged records (hazard_events w), assoc_set clean (cursor_of records) (ingestion_cursors w), literature_chunks w) /\
    inserted_count (job source w).1 (Z.of_nat (length (merged records (hazard_events w))) - Z.of_nat (length (hazard_events w))).
Proof.
  cbn zeta. unfold _async_run_ingestion_job. destruct (enabled settings _); [|left; split; [done | by intros d [= <-]]].
  rewrite M_bind_run. unfold need_session.
  assert (exists r, (if ready then mret tt else match database_url settings with Some _ => mret tt | None => raise RuntimeError end) w
                    = (r, w)) as [[[]|e] ->] by (destruct ready, (database_url settings); eauto); [|by left].
  rewrite M_bind_run. pose proof (frames_select tables (fun _ _ => eq_refl) (fun w => assoc (lower (strip source)) (ingestion_cursors w)) w) as Hs.
  destruct (select _ w) as [[cursor|e] w1] eqn:Es; [|left; by split]. cbn in Hs. apply select_returns in Es as [-> [cs ->]].
  rewrite M_bind_run. unfold on_cache. change (cache (set_script cs w)) with (cache w).
  change (ingestion_cursors (set_script cs w)) with (ingestion_cursors w).
  destruct (fetch_from _ _ (cache w)) as [[records|e] s'] eqn:Ef; [|left; by split]. set (w2 := set_cache s' _).
  assert (tables w2 = tables w) as H2 by done. destruct records as [|first rest].
  { left. rewrite M_bind_run. pose proof (frame_db (S := S) statement (or_introl eq_refl) w2) as H3.
    destruct (statement w2) as [[[]|e] w3]; [|split; [cbn in *; congruence | done]].
    destruct (report_outcome (lower (strip source)) 0 0 w3) as [Hc Ht]. split; [cbn in *; congruence | done]. }
  set (records := first :: rest) in *. rewrite M_bind_run. cbn [gets]. rewrite M_bind_run.
  pose proof (frame_insert records (hazard_events w2) 0 w2) as H3.
  destruct (insert_events records (hazard_events w2) 0 w2) as [[ins|e] w3] eqn:Ei; [|left; split; [cbn in *; congruence | done]].
  apply insert_events_ok in Ei. subst ins. rewrite M_bind_run. pose proof (frame_db (S := S) statement (or_introl eq_refl) w3) as H4.
  destruct (statement w3) as [[[]|e] w4]; [|left; split; [cbn in *; congruence | done]]. rewrite M_bind_run.
  destruct (save _ w4) as [[[]|e] w5] eqn:E5; cbn [snd] in *.
  - right. apply save_returns in E5 as [cs' ->]. exists records, s'. split; [done|]. split; [done|].
    match goal with |- context [report _ _ _ ?i ?w] => destruct (report_outcome (lower (strip source)) (Z.of_nat (length records)) i w) as [Hc ->] end.
    assert (tables w4 = tables w) as Hw by congruence. unfold tables in Hw. injection Hw as Eh Ec El. split.
    + cbn. unfold tables. cbn. by rewrite Ec, El.
    + intros d Hd. by rewrite (Hc d Hd).
  - left. unfold save in E5. rewrite M_bind_run in E5.
    unfold statement in E5. destruct (default true _); [done|]. injection E5 as _ <-. split; [|done]. change (tables w4 = tables w). congruence.
Qed.
End ingestion_effect.

(** ** Records are not older than the cursor *)

Lemma until_error_from {A} (f : json -> result pyexn (option A)) l a : a ∈ until_error f l -> exists x, f x = Ok (Some a).
Proof.
  induction l as [|x l IH]; cbn; [intros H; by apply not_elem_of_nil in H|]. destruct (f x) as [[b|]|e] eqn:E; [|done|].
  - intros [->|H]%elem_of_cons; eauto.
  - intros H. by apply not_elem_of_nil in H.
Qed.

Lemma era5_days_from f l a : forall i, a ∈ era5_days f i l -> exists j x, f j x = Ok (Some a).
Proof.
  induction l as [|x l IH]; intros i; cbn; [intros H; by apply not_elem_of_nil in H|]. destruct (f i x) as [[b|]|e] eqn:E.
  - intros [->|H]%elem_of_cons; eauto.
  - apply IH.
  - intros H. by apply not_elem_of_nil in H.
Qed.

Lemma collect_from {A} (f : json -> result pyexn (option A)) l rs a : collect f l = Ok rs -> a ∈ rs -> exists x, f x = Ok (Some a).
Proof.
  unfold collect. destruct (result_mapM f l) as [os|] eqn:E; [|done]. intros [= <-] (o & Ho & ->)%list_elem_of_omap.
  apply result_mapM_ok in E. apply list_elem_of_lookup in Ho as [i Hi]. destruct (Forall2_lookup_r _ _ _ _ _ E Hi) as (x & _ & Hx). eauto.
Qed.

Lemma insert_by_elem {A} (key : A -> Z) x l a : a ∈ insert_by key x l -> a = x \/ a ∈ l.
Proof.
  induction l as [|y l IH]; cbn; [intros ->%list_elem_of_singleton; by left|]. destruct (key x <=? key y).
  - intros [->|H]%elem_of_cons; auto.
  - intros [->|H]%elem_of_cons; [right; by left|]. destruct (IH H); [by left | right; by right].
Qed.

Lemma sort_by_elem {A} (key : A -> Z) l a : a ∈ sort_by key l -> a ∈ l.
Proof.
  induction l as [|x l IH]; cbn; [done|]. intros [->|H]%insert_by_elem; [by left | right; auto].
Qed.

Lemma concat_map_from {S A B} (f : A -> M S (list B)) l : forall s r s', concat_map f l s = (Ok r, s') ->
  forall b, b ∈ r -> exists a s1 s2 x, a ∈ l /\ f a s1 = (Ok x, s2) /\ b ∈ x.
Proof.
  induction l as [|a l IH]; intros s r s'; cbn [concat_map].
  - intros [= <- _] b Hb. by apply not_elem_of_nil in Hb.
  - intros (x & s1 & E1 & (y & s2 & E2 & [= <- _])%M_bind_ok)%M_bind_ok b [Hb|Hb]%elem_of_app.
    + exists a, s, s1, x. split; [by left | done].
    + destruct (IH _ _ _ E2 b Hb) as (a' & u & v & z & Ha & E & Hz). exists a', u, v, z. split; [by right | done].
Qed.

Section recent.
Context {S : Type} `{!Redis S text} `{!IsoTime} `{!Tenacity}.
Variable settings : Settings.
Variable http_get : string -> dict -> dict -> M S HttpResponse.
Variables now later : string -> string -> Z.
Variable str : json -> string.
Variable sha256 : string -> string.
Variable read_iso : string -> option stamp.
Variables (t start : Z).

Lemma noaa_recent st obs r : noaa_record str t start st obs = Ok (Some r) -> start <= h_event_date r.
Proof.
  unfold noaa_record. destruct obs; try done. intros (a & _ & (b & _ & Hr)%result_bind_ok)%result_bind_ok.
  destruct (negb _ || _); [done|]. destruct (Z.ltb_spec (default t (strptime fmt_minute (str a))) start); [done|].
  by injection Hr as <-.
Qed.

Lemma copernicus_recent b prod r : copernicus_record str read_iso t start b prod = Ok (Some r) -> start <= h_event_date r.
Proof.
  unfold copernicus_record. intros (x & _ & Hr)%result_bind_ok. do 3 apply result_bind_ok in Hr as (? & _ & Hr).
  destruct (negb _); [done|]. apply result_bind_ok in Hr as ([d|d] & _ & Hr); [|done].
  destruct (Z.ltb_spec d start); [done|]. by injection Hr as <-.
Qed.

Lemma era5_recent city point a b c i x r : era5_record str t start city point a b c i x = Ok (Some r) -> start <= h_event_date r.
Proof.
  unfold era5_record. destruct (Z.ltb_spec (default t (strptime fmt_date (str x))) start); [done|]. intros H'.
  do 3 apply result_bind_ok in H' as (? & _ & H'). by injection H' as <-.
Qed.

Lemma gdelt_recent art r : gdelt_record str sha256 t start art = Ok (Some r) -> start <= h_event_date r.
Proof.
  unfold gdelt_record. intros (url & _ & Hr)%result_bind_ok. do 4 apply result_bind_ok in Hr as (? & _ & Hr).
  destruct (negb _); [done|]. match type of Hr with context [?d <? start] => destruct (Z.ltb_spec d start); [done|] end.
  destruct url; try done. by injection Hr as <-.
Qed.
End recent.

(** The sources whose adapter filters by date itself; USGS leaves it to the service. *)
Definition filtering (source : string) : Prop := source ∈ ["noaa"; "copernicus"; "era5"; "gdelt"].

Lemma try_list {S A} (m : M S (list A)) s x s' : try_except m (fun _ => mret []) s = (Ok x, s') -> x = [] \/ m s = (Ok x, s').
Proof. unfold try_except. destruct (m s) as [[y|e] s1]; intros [= <- <-]; auto. Qed.

Section fetched.
Context {S : Type} `{!Redis S text} `{!IsoTime} `{!Tenacity}.
Variable settings : Settings.
Variable http_get : string -> dict -> dict -> M S HttpResponse.
Variables now later : string -> string -> Z.
Variable str : json -> string.
Variable parse_float : string -> option float.
Variable fromtimestamp : float -> result pyexn Z.
Variable sha256 : string -> string.
Variable read_iso : string -> option stamp.
Variable t : Z.

Lemma fetched_recent source since s rs s' r : filtering source ->
  fetch_events settings http_get now later str parse_float fromtimestamp sha256 read_iso t source since s = (Ok rs, s') -> r ∈ rs ->
  start_of t since <= h_event_date r.
Proof.
  intros Hf E Hr. unfold filtering in Hf. rewrite !elem_of_cons, elem_of_nil in Hf.
  destruct Hf as [->|[->|[->|[->|[]]]]]; unfold fetch_events in E; cbn [String.eqb Ascii.eqb Bool.eqb] in E.
  - destruct (concat_map_from _ _ _ _ _ E r Hr) as (st & s1 & s2 & x & _ & Ex & Hx).
    apply try_list in Ex as [->|Ex]; [by apply not_elem_of_nil in Hx|]. apply M_bind_ok in Ex as (res & s3 & _ & [= <- _]).
    unfold noaa_observations in Hx. destruct (jget _ _ _) as [[]|]; try by apply not_elem_of_nil in Hx.
    apply until_error_from in Hx as [o Ho]. by eapply noaa_recent.
  - destruct (concat_map_from _ _ _ _ _ E r Hr) as (b & s1 & s2 & x & _ & Ex & Hx).
    apply try_list in Ex as [->|Ex]; [by apply not_elem_of_nil in Hx|]. apply M_bind_ok in Ex as (res & s3 & _ & [= <- _]).
    destruct (jiter _) as [l|]; [|by apply not_elem_of_nil in Hx]. apply until_error_from in Hx as [o Ho]. by eapply copernicus_recent.
  - destruct (concat_map_from _ _ _ _ _ E r Hr) as (loc & s1 & s2 & x & _ & Ex & Hx).
    apply try_list in Ex as [->|Ex]; [by apply not_elem_of_nil in Hx|]. apply M_bind_ok in Ex as (res & s3 & _ & [= <- _]).
    unfold era5_city in Hx. match type of Hx with context [match ?m with _ => _ end] => destruct m as [l|] eqn:El end; [|by apply not_elem_of_nil in Hx].
    do 6 apply result_bind_ok in El as (? & _ & El). injection El as <-. apply era5_days_from in Hx as (i & o & Ho). by eapply era5_recent.
  - apply M_bind_ok in E as (res & s1 & _ & (arts & s2 & _ & (l & s3 & El & [= <- _])%M_bind_ok)%M_bind_ok).
    apply sort_by_elem in Hr. injection El as El _. destruct (collect_from _ _ _ _ El Hr) as [o Ho]. by eapply gdelt_recent.
Qed.
End fetched.

(** ** Properties *)

(** C16. Whatever fails, a run of the ingestion job stores each event of a source once
    and keeps rows and cursor in step: rows are only added, no two share source
    and external id, and either nothing changed or every fetched event is stored
    and the cursor is the latest date among them.  A run that returns reports the
    number of rows it added. *)
Theorem ingestion_exactly_once {S} `{!Redis S text} `{!IsoTime} `{!Tenacity} (settings : Settings)
    (http_get : string -> dict -> dict -> M S HttpResponse) (now later : string -> string -> Z) (str : json -> string)
    (parse_float : string -> option float) (fromtimestamp : float -> result pyexn Z) (sha256 : string -> string)
    (read_iso : string -> option stamp) (ready : bool) (t duration_ms : Z) (source : string) (w : world S) :
  NoDup (map key_of (hazard_events w)) ->
  let clean := lower (strip source) in
  let '(r, w') := _async_run_ingestion_job settings http_get now later str parse_float fromtimestamp sha256 read_iso
                    ready t duration_ms source w in
  NoDup (map key_of (hazard_events w')) /\ hazard_events w `prefix_of` hazard_events w' /\
  inserted_count r (Z.of_nat (length (hazard_events w')) - Z.of_nat (length (hazard_events w))) /\
  ((hazard_events w' = hazard_events w /\ ingestion_cursors w' = ingestion_cursors w) \/
   exists records s', fetch_events settings http_get now later str parse_float fromtimestamp sha256 read_iso t clean
                        (assoc clean (ingestion_cursors w)) (cache w) = (Ok records, s') /\
     (forall e, e ∈ records -> key_of e ∈ map key_of (hazard_events w')) /\
     (forall e, e ∈ hazard_events w' -> e ∈ hazard_events w \/ e ∈ records) /\
     ingestion_cursors w' = assoc_set clean (cursor_of records) (ingestion_cursors w) /\
     forall e, e ∈ records -> h_event_date e <= cursor_of records).
Proof.
  intros Hn. cbn zeta. pose proof (ingestion_effect settings http_get now later str parse_float fromtimestamp sha256 read_iso
    ready t duration_ms source w) as He. destruct (_async_run_ingestion_job _ _ _ _ _ _ _ _ _ _ _ _ _ w) as [r w'].
  cbn [fst snd] in He. destruct He as [[Ht Hc]|(records & s' & Hne & Ef & Ht & Hc)]; unfold tables in Ht; injection Ht as Eh Ec _; rewrite Eh.
  - split; [done|]. split; [done|]. split; [by rewrite Z.sub_diag | by left].
  - split; [by apply merged_NoDup|]. split; [apply merged_prefix|]. split; [done|]. right. exists records, s'. split; [done|].
    split; [intros e; apply merged_keys|]. split; [intros e; apply merged_from|]. split; [done|]. intros e He.
    destruct records as [|first rest]; [done|]. cbn [cursor_of]. apply max_date_ge. by apply list_elem_of_fmap_2.
Qed.

(** The cursor of a source that filters by date never moves back, whatever the
    services answer and whatever fails. *)
Theorem cursor_never_regresses {S} `{!Redis S text} `{!IsoTime} `{!Tenacity} (settings : Settings)
    (http_get : string -> dict -> dict -> M S HttpResponse) (now later : string -> string -> Z) (str : json -> string)
    (parse_float : string -> option float) (fromtimestamp : float -> result pyexn Z) (sha256 : string -> string)
    (read_iso : string -> option stamp) (ready : bool) (t duration_ms : Z) (source : string) (w : world S) (c : Z) :
  filtering (lower (strip source)) -> assoc (lower (strip source)) (ingestion_cursors w) = Some c ->
  exists c', assoc (lower (strip source)) (ingestion_cursors (_async_run_ingestion_job settings http_get now later str parse_float
               fromtimestamp sha256 read_iso ready t duration_ms source w).2) = Some c' /\ c <= c'.
Proof.
  intros Hf Hc. destruct (ingestion_effect settings http_get now later str parse_float fromtimestamp sha256 read_iso
    ready t duration_ms source w) as [[Ht _]|(records & s' & Hne & Ef & Ht & _)]; unfold tables in Ht; injection Ht as _ -> _.
  - exists c. split; [done | lia].
  - exists (cursor_of records). split; [apply assoc_set_eq|]. destruct records as [|first rest]; [done|].
    rewrite Hc in Ef. eapply fetched_recent in Ef; [|done|by left]. cbn [start_of default] in Ef. cbn [cursor_of].
    destruct (max_date_ge (map h_event_date (first :: rest)) (h_event_date first)) as [? _]. unfold start_of in Ef. cbn in Ef. lia.
Qed.

(** ** Literature *)

Lemma papers_after read_iso iso_text t c es : forall ps, papers_of read_iso iso_text t (Some c) es = Ok ps ->
  forall p, p ∈ ps -> exists d, p_published_date p = Aware d /\ c < d.
Proof.
  induction es as [|e es IH]; intros ps; cbn [papers_of]; [intros [= <-] p Hp; by apply not_elem_of_nil in Hp|].
  intros (o & Eo & (rest & Er & H)%result_bind_ok)%result_bind_ok. specialize (IH rest Er).
  destruct o as [p0|]; injection H as <-; [|done]. intros p [->|Hp]%elem_of_cons; [|by apply IH].
  unfold paper_of in Eo. destruct (e_id e) as [[id|]|]; try done.
  destruct (entry_date read_iso (e_published e) (Aware t)) as [d|d]; [|done].
  destruct (Z.leb_spec d c); [done|]. injection Eo as <-. exists d. done.
Qed.

Lemma sort_papers_from l ps p : sort_papers l = Ok ps -> p ∈ ps -> p ∈ l.
Proof. unfold sort_papers. destruct (comparable l); [|done]. intros [= <-]. apply sort_by_elem. Qed.

(** The rows of one paper. *)
Definition block_of (size overlap : Z) (p : PaperRecord) (b : list LiteratureChunk) : Prop :=
  map c_chunk_text b = chunk_text (p_abstract_and_body p) size overlap /\ forall c, c ∈ b -> c_source_id c = Some (p_source_id p).

Lemma chunk_rows_ok p texts : forall idx embs b, chunk_rows p idx texts embs = Ok b ->
  map c_chunk_text b = texts /\ forall c, c ∈ b -> c_source_id c = Some (p_source_id p).
Proof.
  induction texts as [|x texts IH]; intros idx [|e embs] b; try done; cbn [chunk_rows].
  - intros [= <-]. split; [done|]. intros c Hc. by apply not_elem_of_nil in Hc.
  - intros (rest & Er & [= <-])%result_bind_ok. destruct (IH _ _ _ Er) as [<- Hs]. split; [done|].
    intros c [->|Hc]%elem_of_cons; [done | by apply Hs].
Qed.

Section literature_effect.
Context {S : Type} `{!Redis S text} `{!IsoTime} `{!Tenacity}.
Variable settings : Settings.
Variable http_get : string -> dict -> dict -> M S HttpResponse.
Variables now later : string -> string -> Z.
Variable read_iso : string -> option stamp.
Variable iso_text : stamp -> string.
Variable parse_feed : string -> option (list atom_entry).
Variable embed_documents : list string -> M S (list (list float)).
Variable local_time : Z -> Z.
Variable ready : bool.
Variables (t duration_ms : Z).
Notation fetch_papers := (fetch_new_arxiv_papers settings http_get now later read_iso iso_text parse_feed t).
Notation job := (_async_run_literature_ingestion_job settings http_get now later read_iso iso_text parse_feed embed_documents
                   local_time ready t duration_ms).
Notation block := (block_of (chunk_size settings) (chunk_overlap settings)).

Lemma ingest_effect papers : forall w, tables (ingest_papers settings embed_documents papers w).2 = tables w /\
  forall rows taken w', ingest_papers settings embed_documents papers w = (Ok (rows, taken), w') ->
    (forall p, p ∈ taken -> p ∈ papers /\ has_paper (p_source_id p) (literature_chunks w) = false) /\
    exists blocks, rows = concat blocks /\ Forall2 block taken blocks.
Proof.
  induction papers as [|p papers IH]; intros w; cbn [ingest_papers].
  - split; [done|]. intros rows taken w' [= <- <- _]. split; [intros q Hq; by apply not_elem_of_nil in Hq|]. by exists [].
  - rewrite M_bind_run. destruct (select _ w) as [[dup|e] w1] eqn:Es.
    2: { pose proof (frames_select tables (fun _ _ => eq_refl) (fun w : world S => has_paper (p_source_id p) (literature_chunks w)) w) as Hs.
         rewrite Es in Hs. by split. }
    apply select_returns in Es as [-> [cs ->]]. change (literature_chunks (set_script cs w)) with (literature_chunks w).
    destruct (has_paper (p_source_id p) (literature_chunks w)) eqn:Ed.
    { destruct (IH (set_script cs w)) as [Ht Hr]. split; [done|]. intros rows taken w' E. destruct (Hr _ _ _ E) as [Hp Hb].
      split; [|done]. intros q Hq. destruct (Hp q Hq). split; [by right | done]. }
    destruct (chunk_text _ _ _) as [|x chunks] eqn:Ec.
    { destruct (IH (set_script cs w)) as [Ht Hr]. split; [done|]. intros rows taken w' E. destruct (Hr _ _ _ E) as [Hp Hb].
      split; [|done]. intros q Hq. destruct (Hp q Hq). split; [by right | done]. }
    rewrite M_bind_run. unfold on_cache. destruct (embed_documents _ _) as [[embs|e] s']; [|by split].
    set (w2 := set_cache s' _). rewrite M_bind_run. unfold lift. destruct (chunk_rows p 0 (x :: chunks) embs) as [b|e] eqn:Eb; [|by split].
    rewrite M_bind_run. destruct (IH w2) as [Ht Hr]. destruct (ingest_papers _ _ papers w2) as [[[rows taken]|e] w3]; [|by split].
    split; [done|]. intros rows' taken' w' [= <- <- _]. destruct (Hr _ _ _ eq_refl) as [Hp (blocks & -> & Hb)]. split.
    + intros q [->|Hq]%elem_of_cons; [split; [by left | done]|]. destruct (Hp q Hq). split; [by right | done].
    + exists (b :: blocks). split; [done|]. constructor; [|done]. apply chunk_rows_ok in Eb as [E1 E2]. split; [by rewrite E1, Ec | done].
Qed.

Lemma literature_effect source w : let clean := lower (strip source) in
  tables (job source w).2 = tables w \/
  exists papers taken blocks first s', fetch_papers (assoc clean (ingestion_cursors w)) (arxiv_categories settings) (cache w) = (Ok papers, s') /\
    head taken = Some first /\ Forall2 block taken blocks /\
    (forall p, p ∈ taken -> p ∈ papers /\ has_paper (p_source_id p) (literature_chunks w) = false) /\
    tables (job source w).2 = (hazard_events w, assoc_set clean (instant local_time (latest_paper first taken)) (ingestion_cursors w),
                               literature_chunks w ++ concat blocks).
Proof.
  cbn zeta. unfold _async_run_literature_ingestion_job. destruct (enable_arxiv_ingestion settings); [|by left].
  rewrite M_bind_run. unfold need_session.
  assert (exists r, (if ready then mret tt else match database_url settings with Some _ => mret tt | None => raise RuntimeError end) w
                    = (r, w)) as [[[]|e] ->] by (destruct ready, (database_url settings); eauto); [|by left].
  rewrite M_bind_run. pose proof (frames_select tables (fun _ _ => eq_refl) (fun w => assoc (lower (strip source)) (ingestion_cursors w)) w) as Hs.
  destruct (select _ w) as [[cursor|e] w1] eqn:Es; [|by left]. apply select_returns in Es as [-> [cs ->]]. clear Hs.
  rewrite M_bind_run. unfold on_cache. change (cache (set_script cs w)) with (cache w).
  change (ingestion_cursors (set_script cs w)) with (ingestion_cursors w).
  destruct (fetch_papers _ _ (cache w)) as [[papers|e] s'] eqn:Ef; [|by left]. set (w2 := set_cache s' _).
  assert (tables w2 = tables w) as H2 by done. destruct papers as [|p0 papers]; [by left|]. rewrite M_bind_run. destruct (ingest_effect (p0 :: papers) w2) as [Hi Hr].
  destruct (ingest_papers _ _ _ w2) as [[[rows taken]|e] w3]; cbn [snd] in Hi; [|by left].
  destruct (Hr _ _ _ eq_refl) as [Hp (blocks & -> & Hb)]. cbn [fst snd].
  destruct taken as [|first taken]; rewrite M_bind_run; pose proof (frame_db (S := S) statement (or_introl eq_refl) w3) as H4;
    destruct (statement w3) as [[[]|e] w4]; cbn [snd] in H4; try (left; cbn [snd]; congruence).
  - left. rewrite frame_report. congruence.
  - rewrite M_bind_run. destruct (save _ w4) as [[[]|e] w5] eqn:E5.
    + right. apply save_returns in E5 as [cs' ->]. exists (p0 :: papers), (first :: taken), blocks, first, s'. split; [done|].
      split; [done|]. split; [done|]. split; [done|]. rewrite frame_report. assert (tables w4 = tables w) as Hw by congruence.
      unfold tables in *. injection Hw as Eh Ec El. cbn. by rewrite Eh, Ec, El.
    + left. unfold save in E5. rewrite M_bind_run in E5. unfold statement in E5. destruct (default true _); [done|].
      injection E5 as _ <-. change (tables w4 = tables w). congruence.
Qed.
End literature_effect.

(** Whatever fails, a run of the literature job stores a paper with all its chunks
    or not at all, never one that is stored already; the chunks give its text back
    (for an overlap below the size); and the cursor moves together with the
    chunks, strictly forward. *)
Theorem papers_stored_once {S} `{!Redis S text} `{!IsoTime} `{!Tenacity} (settings : Settings)
    (http_get : string -> dict -> dict -> M S HttpResponse) (now later : string -> string -> Z)
    (read_iso : string -> option stamp) (iso_text : stamp -> string) (parse_feed : string -> option (list atom_entry))
    (embed_documents : list string -> M S (list (list float))) (local_time : Z -> Z) (ready : bool) (t duration_ms : Z)
    (source : string) (w : world S) :
  0 <= chunk_overlap settings < chunk_size settings ->
  let clean := lower (strip source) in
  let w' := (_async_run_literature_ingestion_job settings http_get now later read_iso iso_text parse_feed embed_documents
               local_time ready t duration_ms source w).2 in
  hazard_events w' = hazard_events w /\
  exists taken blocks, literature_chunks w' = literature_chunks w ++ concat blocks /\
    Forall2 (fun p b => (forall c, c ∈ b -> c_source_id c = Some (p_source_id p)) /\
               String.concat "" (map (String.substring 0 (Z.to_nat (chunk_size settings - chunk_overlap settings))) (map c_chunk_text b)) =
               p_abstract_and_body p) taken blocks /\
    (forall p, p ∈ taken -> has_paper (p_source_id p) (literature_chunks w) = false) /\
    (taken = [] /\ ingestion_cursors w' = ingestion_cursors w \/
     exists c', ingestion_cursors w' = assoc_set clean c' (ingestion_cursors w) /\
       forall c, assoc clean (ingestion_cursors w) = Some c -> c < c').
Proof.
  intros Ho. cbn zeta. destruct (literature_effect settings http_get now later read_iso iso_text parse_feed embed_documents local_time
    ready t duration_ms source w) as [Ht|(papers & taken & blocks & first & s' & Ef & Hh & Hb & Hp & Ht)];
    unfold tables in Ht; injection Ht as -> -> ->.
  - split; [done|]. exists [], []. rewrite app_nil_r. split; [done|]. split; [done|].
    split; [intros p Hp; by apply not_elem_of_nil in Hp | by left].
  - split; [done|]. exists taken, blocks. split; [done|]. split.
    { eapply Forall2_impl; [exact Hb|]. intros p b [Hm Hs]. split; [done|]. rewrite Hm. by apply chunk_text_rebuilds. }
    split; [intros p Hin; by apply Hp|]. right. eexists. split; [done|]. intros c Hc. rewrite Hc in Ef.
    destruct taken as [|x taken]; [done|]. injection Hh as ->. destruct (Hp first ltac:(by left)) as [Hin _].
    unfold fetch_new_arxiv_papers in Ef. apply M_bind_ok in Ef as (res & s1 & _ & Ef). destruct (value res) as [| | | |feed| |];
      try (injection Ef as <- _; by apply not_elem_of_nil in Hin). destruct (str_truthy feed); [|injection Ef as <- _; by apply not_elem_of_nil in Hin].
    destruct (parse_feed feed) as [es|]; [|injection Ef as <- _; by apply not_elem_of_nil in Hin].
    apply M_bind_ok in Ef as (ps & s2 & Eps & Es). injection Eps as Eps _. injection Es as Es _.
    eapply sort_papers_from in Hin; [|exact Es]. destruct (papers_after _ _ _ _ _ _ Eps first Hin) as (d & Ed & Hlt).
    unfold latest_paper. rewrite Ed. cbn [is_aware instant stamp_value].
    destruct (max_date_ge (map (fun p => stamp_value (p_published_date p)) (first :: taken)) d) as [? _]. lia.
Qed.

Module IngestionWitness.
Import BitIso RetryLoop.
Definition mem : Type := MemRedis.store text.
Definition plain (j : json) : string := match j with JStr s => s | JInt n => pretty n | JNull => "None" | _ => "0.0" end.
Definition no_float (_ : string) : option float := None.
Definition epoch (x : float) : result pyexn Z := Ok (if feqb x f1 then 1000000 else 0).
Definition id_hash (s : string) : string := s.
Definition no_iso (_ : string) : option stamp := None.
Definition instants (_ _ : string) : Z := 0.

(** The only answer of the network: one observation of a station. *)
Definition reply (j : json) (_ : string) (_ _ : dict) : M mem HttpResponse :=
  mret {| status_code := 200; body := Ok j; resp_text := "" |}.
Definition observation (at_ : string) : json := JObj [("data", JList [JObj [("t", JStr at_); ("v", JStr "21.5")]])].
Definition july : Z := default 0 (strptime fmt_date "2026-07-24").

Definition w0 (cursor : Z) : world mem := World (MemRedis.Store ∅ 0 []) [] [("noaa", cursor)] [] [] [].
Notation run j t source w :=
  (_async_run_ingestion_job default_Settings (reply j) instants instants plain no_float epoch id_hash no_iso true t 5 source w).

Lemma ingestion_exactly_once_witness : exists r w',
  run (observation "2026-07-24 18:00") (july + DAY) " NOAA" (w0 0) = (Ok r, w') /\
  assoc "records_inserted" r = Some (JInt 3) /\ NoDup (map key_of (hazard_events w')).
Proof.
  pose proof (ingestion_exactly_once default_Settings (reply (observation "2026-07-24 18:00")) instants instants plain no_float epoch
                id_hash no_iso true (july + DAY) 5 " NOAA" (w0 0)) as H.
  destruct (run _ _ _ _) as [r w'] eqn:E.
  assert (exists d, r = Ok d) as [d ->].
  { assert (is_ok r = true) as Hr by (pose proof (f_equal (fun x => is_ok x.1) E) as Hx; vm_compute in Hx; symmetry; exact Hx).
    destruct r as [d|]; [by exists d | discriminate Hr]. }
  destruct H as (Hn & _ & Hc & _); [by apply NoDup_nil_2|]. exists d, w'. split; [reflexivity|]. split; [|exact Hn].
  rewrite (Hc d eq_refl). do 2 f_equal.
  etransitivity; [apply (f_equal (fun x => Z.of_nat (length (hazard_events x.2)) - 0) (eq_sym E)) | vm_compute; reflexivity].
Defined.

Lemma cursor_never_regresses_witness : exists c',
  assoc "noaa" (ingestion_cursors (run (observation "2026-07-24 18:00") (july + DAY) "noaa" (w0 july)).2) = Some c' /\ july <= c'.
Proof.
  apply (cursor_never_regresses default_Settings (reply (observation "2026-07-24 18:00")) instants instants plain no_float epoch
           id_hash no_iso true (july + DAY) 5 "noaa" (w0 july) july); [|reflexivity].
  by apply (bool_decide_unpack _).
Defined.

Lemma chunk_text_covers_witness : String.concat "" (map (String.substring 0 3) (chunk_text "seismic risk" 5 2)) = "seismic risk".
Proof. apply (chunk_text_covers "seismic risk" 5 2). lia. Defined.

Definition paper_entry : atom_entry :=
  {| e_id := Some (Some "http://arxiv.org/abs/2401.01234v1"); e_title := Some (Some "Floods"); e_summary := None;
     e_published := None; e_updated := None; e_author_names := []; e_links := []; e_primary_category := None |}.
Definition feed_of (_ : string) : option (list atom_entry) := Some [paper_entry].
Definition feed_reply (_ : string) (_ _ : dict) : M mem HttpResponse :=
  mret {| status_code := 200; body := Ok JNull; resp_text := "<feed/>" |}.
Definition embed (l : list string) : M mem (list (list float)) := mret (map (fun _ => [f1]) l).
Definition iso_plain (_ : stamp) : string := "".
Definition zone (t : Z) : Z := t.

Lemma papers_stored_once_witness :
  let w' := (_async_run_literature_ingestion_job default_Settings feed_reply instants instants no_iso iso_plain feed_of embed zone
               true july 5 "arxiv" (w0 0)).2 in
  length (literature_chunks w') = 1%nat /\ hazard_events w' = [].
Proof.
  cbn zeta. split; [vm_compute; reflexivity|].
  apply (papers_stored_once default_Settings feed_reply instants instants no_iso iso_plain feed_of embed zone true july 5 "arxiv" (w0 0)).
  vm_compute. split; [discriminate | reflexivity].
Defined.

(** USGS is down and the cache answers with an older window: the cursor moves back. *)
Definition old_quake : json :=
  JObj [("id", JStr "us1"); ("properties", JObj [("time", JInt 1000); ("place", JStr "Chile"); ("mag", JNull)]);
        ("geometry", JObj [("coordinates", JList [JInt 1; JInt 2])])].
Definition stale_cache : mem :=
  MemRedis.Store {[ RedisKeyBuilder.source_cache_key "usgs" "earthquakes:0:0:None:0.0:7" := (Json (JList [old_quake]), None) ]} 0 [].
Definition unreachable (_ : string) (_ _ : dict) : M mem HttpResponse := raise (HTTPError "connect").

Example usgs_cursor_regresses :
  assoc "usgs" (ingestion_cursors (_async_run_ingestion_job default_Settings unreachable instants instants plain no_float epoch id_hash
    no_iso true (july + DAY) 5 "usgs" (World stale_cache [] [("usgs", july)] [] [] [])).2) = Some 1000000.
Proof. vm_compute. reflexivity. Qed.

(** An observation without a readable time is dated now, and the cursor with it:
    an observation of the evening before is never stored. *)
Example unreadable_time_skips_events :
  let w1 := (run (observation "soon") (july + DAY) "noaa" (w0 0)).2 in
  let w2 := (run (observation "2026-07-24 18:00") (july + DAY) "noaa" w1).2 in
  assoc "noaa" (ingestion_cursors w1) = Some (july + DAY) /\ hazard_events w2 = hazard_events w1.
Proof. cbn zeta. split; vm_compute; reflexivity. Qed.
End IngestionWitness.
