(* ===== verification/Literature.v ===== *)
(** * Database engines and literature search
    ([src/db/session.py], [src/orchestrator/agents/literature_rag/],
    [LiteratureRepository] of [src/db/repository.py], [src/ingestion/*_seed.py],
    [src/mcp_servers/literature_search/server.py])

    The module state of the session layer (engines bound to an event loop), the
    embedding providers, the hybrid search with reciprocal rank fusion, the
    literature agent and the seeders.  Arguments: the rankings PostgreSQL computes
    (vector distance, full-text rank), the iteration order of a set, the embedding
    service and the pseudo-random vectors of the offline provider. *)

From stdpp Require Import pretty sorting.
From S2P Require Import Prelude PyFloat FloatRound PyStr Effects Database Settings Uncertainty AgentIO DataSources Ingestion.
From Stdlib Require Import Ascii.

(** ** Engines *)

Module DbSession.

(** An engine is a number; a session factory is the engine it is bound to. *)
Record state := State {
  engine : option nat;
  read_engine : option nat;
  AsyncSessionLocal : option nat;
  AsyncReadSessionLocal : option nat;
  _engine_loop : option nat;
  created : list (nat * option nat);     (* every engine with the loop it was created on *)
  closed : list nat;
}.

(** The module as it is imported. *)
Definition fresh : state := State None None None None None [] [].

Section session.
Variable accepts : string -> bool.     (* whether [create_async_engine] takes the URL *)
Variable settings : Settings.

Definition is_some {A} (o : option A) : bool := match o with Some _ => true | None => false end.

Definition _check_loop (loop : option nat) (m : state) : state :=
  match _engine_loop m, loop with
  | Some l, Some l' => if Nat.eqb l l' then m else State None None None None None (created m) (closed m)
  | _, _ => m
  end.

Definition next_engine (m : state) : nat := length (created m).

(** [engine] and [AsyncSessionLocal] are assigned. *)
Definition with_engine (loop : option nat) (m : state) : state :=
  let e := next_engine m in
  State (Some e) (read_engine m) (Some e) (AsyncReadSessionLocal m) (_engine_loop m) (created m ++ [(e, loop)]) (closed m).

(** The replica, if any; then the loop. *)
Definition with_replica (loop : option nat) (m : state) : state :=
  let r := next_engine m in
  State (engine m) (Some r) (AsyncSessionLocal m) (Some r) loop (created m ++ [(r, loop)]) (closed m).

Definition without_replica (loop : option nat) (m : state) : state :=
  State (engine m) None (AsyncSessionLocal m) (AsyncSessionLocal m) loop (created m) (closed m).

(** [settings.read_replica_database_url and settings.read_asyncpg_url]: the URL of
    the replica; the second property may raise. *)
Definition replica_url : result pyexn (option string) :=
  if ostr_truthy (read_replica_database_url settings)
  then match read_asyncpg_url settings with
       | Ok (Some u) => Ok (if str_truthy u then Some u else None)
       | Ok None => Ok None
       | Raise _ => Raise RuntimeError
       end
  else Ok None.

(** [create_async_engine] may refuse a URL.  An exception leaves the assignments
    made before it. *)
Definition init_engine (loop : option nat) (m : state) : result pyexn unit * state :=
  let m := _check_loop loop m in
  match database_url settings with
  | None => (Raise RuntimeError, m)
  | Some _ =>
      match asyncpg_url settings with
      | Raise _ => (Raise RuntimeError, m)
      | Ok u =>
          if accepts u then
            let m := with_engine loop m in
            match replica_url with
            | Raise e => (Raise e, m)
            | Ok None => (Ok tt, without_replica loop m)
            | Ok (Some u) => if accepts u then (Ok tt, with_replica loop m) else (Raise (OtherError "ArgumentError"), m)
            end
          else (Raise (OtherError "ArgumentError"), m)
      end
  end.

(** Errors of the pools are swallowed. *)
Definition dispose_engine (m : state) : state :=
  let gone := match read_engine m with
              | Some r => if bool_decide (engine m = Some r) then [] else [r]
              | None => []
              end ++ match engine m with Some e => [e] | None => [] end in
  State None None None None None (created m) (closed m ++ gone).

Definition get_session_factory (loop : option nat) (m : state) : result pyexn nat * state :=
  let m := _check_loop loop m in
  let '(r, m) := match AsyncSessionLocal m with Some _ => (Ok tt, m) | None => init_engine loop m end in
  match r, AsyncSessionLocal m with
  | Raise e, _ => (Raise e, m)
  | Ok _, Some f => (Ok f, m)
  | Ok _, None => (Raise (OtherError "AssertionError"), m)
  end.

(** The [except OperationalError] block of [get_read_session] for the factory [f]. *)
Definition read_fallback (enter : nat -> bool) (f : nat) (m : state) : result pyexn nat :=
  match AsyncSessionLocal m with
  | Some p => if bool_decide (p = f) then Raise db_error else if enter p then Ok p else Raise db_error
  | None => Raise db_error
  end.

(** Up to the first [yield]: the engine of the session that is yielded, and whether
    that is the [yield] inside the [try]; [enter f] says whether entering a session
    of [f] succeeds or raises [OperationalError]. *)
Definition get_read_session (enter : nat -> bool) (loop : option nat) (m : state) : result pyexn (nat * bool) * state :=
  let m := _check_loop loop m in
  let '(r, m) := match AsyncReadSessionLocal m with
                 | Some f => (Ok f, m)
                 | None => match AsyncSessionLocal m with
                           | Some f => (Ok f, m)
                           | None => get_session_factory loop m
                           end
                 end in
  match r with
  | Raise e => (Raise e, m)
  | Ok f =>
      if enter f then (Ok (f, true), m)
      else match read_fallback enter f m with Ok p => (Ok (p, false), m) | Raise e => (Raise e, m) end
  end.

(** After a [yield]: the caller's block ended, or an exception of it is thrown into
    the generator; the result is a further session that is yielded, if any. *)
Inductive block_end := Ended | Threw (e : pyexn).

Definition is_operational_error (e : pyexn) : bool := bool_decide (e = db_error).

Definition resume_read_session (enter : nat -> bool) (f : nat) (in_try : bool) (b : block_end) (m : state)
    : result pyexn (option nat) :=
  match b with
  | Ended => Ok None
  | Threw e =>
      if in_try && is_operational_error e
      then match read_fallback enter f m with Ok p => Ok (Some p) | Raise e => Raise e end
      else Raise e
  end.

(** [from db.session import AsyncSessionLocal] at the top of a module: the value at
    that moment (the module's own [__getattr__] is only asked for names the module
    does not define, and it defines this one). *)
Definition imported (m : state) : option nat := AsyncSessionLocal m.

Definition verify_extensions (installed : list string) : list (string * bool) :=
  [("postgis", bool_decide ("postgis" ∈ installed)); ("vector", bool_decide ("vector" ∈ installed))].
End session.

(** The operations of the module on a running process. *)
Inductive call :=
| Init (loop : option nat)
| Dispose
| Factory (loop : option nat)
| Read (enter : nat -> bool) (loop : option nat).

Definition call_step (accepts : string -> bool) (settings : Settings) (m : state) (c : call) : state :=
  match c with
  | Init loop => (init_engine accepts settings loop m).2
  | Dispose => dispose_engine m
  | Factory loop => (get_session_factory accepts settings loop m).2
  | Read enter loop => (get_read_session accepts settings enter loop m).2
  end.
End DbSession.

(** ** Embeddings *)

Inductive EmbeddingProvider :=
| MockEmbeddingProvider (dimension : Z) (should_fail : bool)
| OpenAIEmbeddingProvider (api_key model : string) (dimension : Z).

(** [simulate_failure] is the environment variable of that purpose. *)
Definition get_embedding_provider (simulate_failure : bool) (settings : Settings) : EmbeddingProvider :=
  if simulate_failure then MockEmbeddingProvider (embedding_dimension settings) true
  else match embedding_api_key settings with
       | Some key => if str_truthy key then
                       OpenAIEmbeddingProvider key (embedding_model settings) (embedding_dimension settings)
                     else MockEmbeddingProvider (embedding_dimension settings) false
       | None => MockEmbeddingProvider (embedding_dimension settings) false
       end.

Section embedding.
Context {S : Type}.
Variable mock_vector : Z -> string -> list json.                (* the unit vector seeded by the text's digest *)
Variable http_post : dict -> dict -> M S HttpResponse.           (* body and headers, to the embeddings endpoint *)

(** Whatever goes wrong inside becomes [RuntimeError]. *)
Definition _embed (key model : string) (dimension : Z) (texts : list string) : M S (list json) :=
  try_except
    (response ← http_post [("input", JList (map JStr texts)); ("model", JStr model); ("dimensions", JInt dimension)]
                  [("Authorization", JStr ("Bearer " +:+ key)); ("Content-Type", JStr "application/json")];
     if status_code response =? 200 then
       data ← lift (body response);
       items ← lift (jindex data "data" ≫= jiter);
       lift (result_mapM (fun item => jindex item "embedding") items)
     else raise RuntimeError)
    (fun _ => raise RuntimeError).

Definition embed_documents (p : EmbeddingProvider) (texts : list string) : M S (list json) :=
  match p with
  | MockEmbeddingProvider _ true => raise RuntimeError
  | MockEmbeddingProvider d false => mret (map (fun t => JList (mock_vector d t)) texts)
  | OpenAIEmbeddingProvider key model d => _embed key model d texts
  end.

Definition embed_query (p : EmbeddingProvider) (text : string) : M S json :=
  match p with
  | MockEmbeddingProvider _ true => raise RuntimeError
  | MockEmbeddingProvider d false => mret (JList (mock_vector d text))
  | OpenAIEmbeddingProvider key model d =>
      res ← _embed key model d [text];
      match res with v :: _ => mret v | [] => raise (OtherError "IndexError") end
  end.
End embedding.

(** ** Hybrid search *)

Record chunk_row := { row_id : uuid; row : LiteratureChunk }.

Definition rrf_constant : Z := 60.

(** The rank of an id in a result list, from 1. *)
Fixpoint rank_from (i : Z) (id : uuid) (l : list chunk_row) : option Z :=
  match l with
  | [] => None
  | r :: l => if String.eqb (row_id r) id then
                match rank_from (i + 1) id l with Some j => Some j | None => Some i end
              else rank_from (i + 1) id l
  end.
Definition rank_of (id : uuid) (l : list chunk_row) : option Z := rank_from 1 id l.

Definition rrf_part (rank : option Z) (score : float) : float :=
  match rank with Some r => fadd score (fdiv f1 (float_of_Z (rrf_constant + r))) | None => score end.
Definition rrf_score (vector fts : list chunk_row) (id : uuid) : float :=
  rrf_part (rank_of id fts) (rrf_part (rank_of id vector) f0).

Definition max_possible_score : float := fdiv (float_of_Z 2) (float_of_Z (rrf_constant + 1)).

Definition normalized (score : float) : float := fmax f0 (fmin f1 (fdiv score max_possible_score)).

(** [sorted(..., key=score, reverse=True)]: descending, stable. *)
Fixpoint insert_desc {A} (key : A -> float) (x : A) (l : list A) : list A :=
  match l with
  | [] => [x]
  | y :: l' => if fltb (key x) (key y) then y :: insert_desc key x l' else x :: l
  end.
Definition sort_desc {A} (key : A -> float) (l : list A) : list A := foldr (insert_desc key) [] l.

(** The metadata fields of an item; a value of another type fails validation. *)
Definition chunk_id_of (meta : list (string * json)) : result pyexn (option (string + Z)) :=
  match assoc "chunk_id" meta with
  | None | Some JNull => Ok None
  | Some (JStr s) => Ok (Some (inl s))
  | Some (JInt n) => Ok (Some (inr n))
  | Some _ => Raise ValueError
  end.
Definition title_of (meta : list (string * json)) : result pyexn (option string) :=
  match assoc "title" meta with
  | None | Some JNull => Ok None
  | Some (JStr s) => Ok (Some s)
  | Some _ => Raise ValueError
  end.

Record lit_world := LitWorld { lit_rows : list chunk_row; lit_script : list bool }.
#[global] Instance lit_db : Db lit_world.
Proof. refine {| script := lit_script; set_script := fun l w => LitWorld (lit_rows w) l |}; [by intros [] | done]. Defined.

Section search.
Variable nearest : json -> list chunk_row -> list chunk_row.          (* rows by cosine distance *)
Variable matching : string -> list chunk_row -> list chunk_row.       (* rows matching the query, by rank *)
Variable arrange : list uuid -> list uuid.                            (* the iteration order of a set *)
Variable uuid4 : nat -> uuid.
Variable today : Z.
Notation W := lit_world.

Definition all_chunk_ids (vector fts : list chunk_row) : list uuid :=
  arrange (remove_dups (map row_id (vector ++ fts))).

(** [{chunk.id: chunk for ...}]: the last row of an id. *)
Definition chunk_lookup (vector fts : list chunk_row) (id : uuid) : option chunk_row :=
  last (List.filter (fun r => String.eqb (row_id r) id) (vector ++ fts)).

Definition item_of (n : nat) (r : chunk_row) (score : float) : result pyexn Evidence :=
  let c := row r in
  cid ← chunk_id_of (c_extra_metadata c);
  title ← title_of (c_extra_metadata c);
  match init_uncertainty (Some (normalized score)) None with
  | Raise _ => Raise ValueError
  | Ok u =>
      Ok {| ev_id := uuid4 n; ev_source := c_document_id c; ev_claim := c_chunk_text c; ev_uncertainty := u;
            ev_retrieved_at := today; ev_document_id := Some (c_document_id c); ev_chunk_id := cid; ev_title := title;
            ev_source_url := c_source_url c; ev_extra_metadata := []; ev_uncertainty_bounds := None; ev_assumptions := None |}
  end.

Fixpoint items_of (n : nat) (vector fts : list chunk_row) (ids : list uuid) : result pyexn (list Evidence) :=
  match ids with
  | [] => Ok []
  | id :: ids =>
      match chunk_lookup vector fts id with
      | Some r => e ← item_of n r (rrf_score vector fts id); es ← items_of (Datatypes.S n) vector fts ids; Ok (e :: es)
      | None => Raise KeyError
      end
  end.

(** [LIMIT k]; PostgreSQL rejects a negative limit. *)
Definition limited (k : Z) (l : list chunk_row) : option (list chunk_row) := if k <? 0 then None else Some (take (Z.to_nat k) l).
Definition select_limited (k : Z) (read : list chunk_row -> list chunk_row) : M W (list chunk_row) :=
  l ← select (fun w => limited k (read (lit_rows w)));
  match l with Some l => mret l | None => raise db_error end.

Definition top_ids (k : Z) (vector fts : list chunk_row) : list uuid :=
  take (Z.to_nat k) (sort_desc (rrf_score vector fts) (all_chunk_ids vector fts)).

Definition hybrid_search (query : string) (query_embedding : option json) (k : Z) : M W (list Evidence) :=
  vector ← match query_embedding with Some q => select_limited k (nearest q) | None => mret [] end;
  fts ← select_limited k (matching query);
  lift (items_of 0 vector fts (top_ids k vector fts)).
End search.

(** ** Papers to seed *)

Record paper := { pp_document_id : string; pp_title : string; pp_source_url : string; pp_text : string }.

Definition MOCK_PAPERS : list paper :=
  [{| pp_document_id := "paper_tokyo_seismic_2025";
      pp_title := "A Study on Seismic Vulnerability and High-Magnitude Earthquake Probability in Tokyo (2025)";
      pp_source_url := "https://science.planetaryrisk.org/papers/tokyo-seismic-2025.pdf";
      pp_text := "The metropolitan area of Tokyo is situated directly above a complex convergent plate " +:+
                 "boundary. Over the past decade, seismic measurements show a steady build-up of strain " +:+
                 "across the fault lines. We calculate a 70% probability of a magnitude 7.0 or greater " +:+
                 "earthquake occurring within the next 30 years. Local building codes have been upgraded, " +:+
                 "but soft-soil regions near the coast remain vulnerable to liquefaction. In addition, " +:+
                 "secondary tsunami waves present a significant risk to low-lying bayside infrastructure." |};
   {| pp_document_id := "paper_california_wildfires_2026";
      pp_title := "Atmospheric Temperature Increases and Wildfire Propagation Dynamics in California (2026)";
      pp_source_url := "https://science.planetaryrisk.org/papers/california-wildfires-2026.pdf";
      pp_text := "Climate modeling indicates that average atmospheric temperatures in California have risen " +:+
                 "by 1.5 degrees Celsius over the historical baseline. This warming trend, coupled with " +:+
                 "prolonged periods of drought, results in extremely low fuel moisture levels. During high-" +:+
                 "wind events, wildfires propagate at accelerated speeds, often exceeding 10 kilometers per " +:+
                 "hour. Analysis of recent fire perimeters reveals that forest density and dry shrub " +:+
                 "accumulation are the primary drivers of fire intensity, outstripping regional weather " +:+
                 "variances." |};
   {| pp_document_id := "paper_ocean_marine_heatwaves_2025";
      pp_title := "Marine Heatwaves and Sea Surface Temperature Anomalies in the Western Pacific (2025)";
      pp_source_url := "https://science.planetaryrisk.org/papers/ocean-heatwaves-2025.pdf";
      pp_text := "Sea surface temperatures (SST) in the Western Pacific have registered persistent anomalies" +:+
                 " exceeding +2.5 degrees Celsius during summer months. These marine heatwaves disrupt " +:+
                 "regional marine ecosystems, triggering massive coral bleaching events and shifting fish " +:+
                 "migration patterns. High-resolution satellite imagery confirms that these thermal plumes " +:+
                 "are expanding in area. The correlation between increased ocean temperature and severe " +:+
                 "storm intensity is well-documented, indicating a high risk of category 4 typhoons in the " +:+
                 "region." |}].

(** ** The agent and the search tool *)

Section agent.
Context {S : Type}.
Variable settings : Settings.
Variable simulate_failure : bool.
Variable mock_vector : Z -> string -> list json.
Variable http_post : dict -> dict -> M S HttpResponse.
Variable nearest : json -> list chunk_row -> list chunk_row.
Variable matching : string -> list chunk_row -> list chunk_row.
Variable arrange : list uuid -> list uuid.
Variable uuid4 : nat -> uuid.
Variable today : Z.
Variable exn_text : pyexn -> string.
Notation W := (S * lit_world)%type.

Definition on_service {A} (m : M S A) : M W A := fun w => let '(r, s) := m w.1 in (r, (s, w.2)).
Definition on_database {A} (m : M lit_world A) : M W A := fun w => let '(r, d) := m w.2 in (r, (w.1, d)).

Definition failed_output (e : string) : AgentOutput := {| agent_name := "literature"; evidence := []; errors := [e] |}.

(** [run]; [factory] is the value its module imported. *)
Definition run_literature (factory : option nat) (input : AgentInput) : M W AgentOutput := fun w =>
  match on_service (embed_query mock_vector http_post (get_embedding_provider simulate_failure settings) (in_query input)) w with
  | (Raise e, w) => (Ok (failed_output ("embedding service unreachable: " +:+ exn_text e)), w)
  | (Ok q, w) =>
      match factory with
      | None => (Ok (failed_output "Database session factory is not initialised."), w)
      | Some _ =>
          match on_database (hybrid_search nearest matching arrange uuid4 today (in_query input) (Some q) 10) w with
          | (Ok es, w) => (Ok {| agent_name := "literature"; evidence := es; errors := [] |}, w)
          | (Raise e, w) => (Ok (failed_output ("Hybrid search failed: " +:+ exn_text e)), w)
          end
      end
  end.

Variable fixed4 : float -> string.              (* [f"{x:.4f}"] *)
Definition none_or (o : option string) : string := default "None" o.
Definition chunk_text_id (o : option (string + Z)) : string :=
  match o with None => "None" | Some (inl s) => s | Some (inr n) => pretty n end.
Definition nl : string := String newline_char "".

Definition evidence_line (ev : Evidence) : string :=
  "- Claim: " +:+ ev_claim ev +:+ nl +:+ "  Confidence: " +:+ fixed4 (ev_confidence ev) +:+ nl +:+
  "  Doc ID: " +:+ none_or (ev_document_id ev) +:+ " | Chunk ID: " +:+ chunk_text_id (ev_chunk_id ev) +:+ nl +:+
  "  Title: " +:+ none_or (ev_title ev) +:+ nl +:+ "  URL: " +:+ none_or (ev_source_url ev) +:+ nl.

(** The tool of the MCP server. *)
Definition mcp_hybrid_search (factory : option nat) (query : string) (k : Z) : M W string := fun w =>
  match on_service (embed_query mock_vector http_post (get_embedding_provider simulate_failure settings) query) w with
  | (Raise e, w) => (Ok ("Error: embedding service unreachable: " +:+ exn_text e), w)
  | (Ok q, w) =>
      match factory with
      | None => (Ok "Error: database connection factory is not initialised.", w)
      | Some _ =>
          match on_database (hybrid_search nearest matching arrange uuid4 today query (Some q) k) w with
          | (Ok [], w) => (Ok "No matching literature documents found.", w)
          | (Ok es, w) => (Ok (join nl (map evidence_line es)), w)
          | (Raise e, w) => (Ok ("Error executing hybrid search: " +:+ exn_text e), w)
          end
      end
  end.

(** ** Seeding *)

Record seed_chunk := {
  s_document_id : string;
  s_chunk_text : string;
  s_embedding : json;
  s_source_url : option string;
  s_extra_metadata : list (string * json);
}.

(** Chunks by document, documents in the order of their first chunk. *)
Definition doc_ids (chunks : list seed_chunk) : list string :=
  fold_left (fun acc c => if bool_decide (s_document_id c ∈ acc) then acc else acc ++ [s_document_id c]) chunks [].
Definition chunks_of (doc : string) (chunks : list seed_chunk) : list seed_chunk :=
  List.filter (fun c => String.eqb (s_document_id c) doc) chunks.

Definition floats_of (j : json) : list float :=
  match j with JList l => omap (fun x => match x with JFloat x => Some x | _ => None end) l | _ => [] end.

Definition seeded_row (id : uuid) (c : seed_chunk) : chunk_row :=
  {| row_id := id;
     row := {| c_document_id := s_document_id c; c_source_id := None; c_chunk_text := s_chunk_text c;
               c_embedding := Some (floats_of (s_embedding c)); c_source_url := s_source_url c;
               c_extra_metadata := s_extra_metadata c |} |}.

Definition has_document (doc : string) (rows : list chunk_row) : bool :=
  existsb (fun r => String.eqb (c_document_id (row r)) doc) rows.

(** The rows to add for the documents that are not there; the session does not
    flush, and the documents are distinct. *)
Fixpoint seed_loop (docs : list string) (chunks pending : list seed_chunk) : M lit_world (list seed_chunk) :=
  match docs with
  | [] => mret pending
  | doc :: docs =>
      known ← select (fun w => has_document doc (lit_rows w));
      seed_loop docs chunks (if (known : bool) then pending else pending ++ chunks_of doc chunks)
  end.

Definition seed_chunks (chunks : list seed_chunk) : M lit_world unit :=
  pending ← seed_loop (doc_ids chunks) chunks [];
  save (fun w => LitWorld (lit_rows w ++ imap (fun i c => seeded_row (uuid4 (length (lit_rows w) + i)) c) pending) (lit_script w)).

(** The chunks of one paper, numbered from 1. *)
Fixpoint prepare_chunks (p : paper) (idx : nat) (texts : list string) : M S (list seed_chunk) :=
  match texts with
  | [] => mret []
  | x :: texts =>
      v ← embed_query mock_vector http_post (get_embedding_provider simulate_failure settings) x;
      rest ← prepare_chunks p (Datatypes.S idx) texts;
      mret ({| s_document_id := pp_document_id p; s_chunk_text := x; s_embedding := v; s_source_url := Some (pp_source_url p);
               s_extra_metadata := [("title", JStr (pp_title p)); ("chunk_id", JInt (Z.of_nat idx + 1))] |} :: rest)
  end.

Fixpoint prepare_papers (papers : list paper) : M S (list seed_chunk) :=
  match papers with
  | [] => mret []
  | p :: papers =>
      cs ← prepare_chunks p 0 (chunk_text (pp_text p) (chunk_size settings) (chunk_overlap settings));
      rest ← prepare_papers papers;
      mret (cs ++ rest)
  end.

Definition system_exit : pyexn := OtherError "SystemExit".

(** [run_seeder] with the factory its module imported. *)
Definition run_seeder (factory : option nat) : M W unit :=
  match database_url settings with
  | None => raise RuntimeError
  | Some _ =>
      match factory with
      | None => raise system_exit
      | Some _ =>
          chunks ← on_service (prepare_papers MOCK_PAPERS);
          on_database (seed_chunks chunks)
      end
  end.
End agent.

(** ** Engines and loops *)

Module DbSessionLemmas.
Import DbSession.

(** An engine of the module: created on the recorded loop and still open. *)
Definition current (m : state) (e : nat) : Prop := (e, _engine_loop m) ∈ created m /\ e ∉ closed m.

Record inv (m : state) : Prop := {
  inv_factory : AsyncSessionLocal m = engine m;
  inv_reader : match engine m with
               | Some e => exists r, AsyncReadSessionLocal m = Some r /\ (r = e \/ read_engine m = Some r)
               | None => AsyncReadSessionLocal m = None /\ read_engine m = None
               end;
  inv_engine e : engine m = Some e -> current m e;
  inv_read e : read_engine m = Some e -> current m e /\ engine m <> Some e;
  inv_created : map fst (created m) = seq 0 (length (created m));
  inv_closed e : e ∈ closed m -> (e < length (created m))%nat;
  inv_once : NoDup (closed m);
}.

Lemma fresh_inv : inv fresh.
Proof. split; try done; [by intros e He%not_elem_of_nil | apply NoDup_nil_2]. Qed.

(** Without engines. *)
Lemma cleared_inv m cl : inv m -> (forall e, e ∈ cl -> (e < length (created m))%nat) -> NoDup cl ->
  inv (State None None None None None (created m) cl).
Proof. intros Hm Hc Hn. split; try done. apply (inv_created m Hm). Qed.

Lemma check_loop_inv loop m : inv m -> inv (_check_loop loop m).
Proof.
  intros Hm. unfold _check_loop. destruct (_engine_loop m) as [l|] eqn:El, loop as [l'|]; try done.
  destruct (Nat.eqb l l'); [done|]. apply cleared_inv; [done | apply inv_closed, Hm | apply inv_once, Hm].
Qed.

Lemma created_lt m e l : inv m -> (e, l) ∈ created m -> (e < length (created m))%nat.
Proof.
  intros Hm Hin. apply (list_elem_of_fmap_2 fst) in Hin. change (fst <$> created m) with (map fst (created m)) in Hin.
  rewrite (inv_created m Hm), elem_of_seq in Hin. cbn in Hin. lia.
Qed.

(** The configured replica, if any, has a URL that is accepted. *)
Definition replica_ok (accepts : string -> bool) (settings : Settings) : Prop :=
  exists u, replica_url settings = Ok u /\ match u with Some u => accepts u = true | None => True end.

Section good_replica.
Variable accepts : string -> bool.
Variable settings : Settings.
Hypothesis good : replica_ok accepts settings.

(** An initialisation fails without assigning anything, or sets everything. *)
Lemma init_cases loop m : let c := _check_loop loop m in
  (exists e, init_engine accepts settings loop m = (Raise e, c)) \/
  init_engine accepts settings loop m = (Ok tt, without_replica loop (with_engine loop c)) \/
  init_engine accepts settings loop m = (Ok tt, with_replica loop (with_engine loop c)).
Proof.
  cbn zeta. unfold init_engine. destruct (database_url settings); [|eauto]. destruct (asyncpg_url settings) as [u|]; [|eauto].
  destruct (accepts u); [|eauto]. destruct good as (o & -> & Ho). destruct o as [r|]; [rewrite Ho|]; auto.
Qed.

Lemma engine_init_inv loop m : inv m -> inv (init_engine accepts settings loop m).2.
Proof.
  intros H0. assert (inv (_check_loop loop m)) as Hm by by apply check_loop_inv.
  destruct (init_cases loop m) as [[e ->]|H]; [done|]. set (c := _check_loop loop m) in *.
  assert (forall k, (k >= length (created c))%nat -> k ∉ closed c) as Hnew by (intros k Hk Hin%(inv_closed c Hm); lia).
  destruct H as [-> | ->]; split; cbn; unfold next_engine, current; cbn [created closed with_engine _engine_loop];
    rewrite ?map_app, ?length_app, ?(inv_created c Hm); cbn [map fst length].
  all: try done; try apply (inv_once c Hm); try (intros k [= <-]); try (intros k Hk%(inv_closed c Hm); lia).
  - eexists. eauto.
  - split; [|apply Hnew; lia]. apply elem_of_app. right. by left.
  - replace (length (created c) + 1)%nat with (Datatypes.S (length (created c))) by lia. by rewrite seq_S.
  - eexists. eauto.
  - split; [|apply Hnew; lia]. apply elem_of_app. left. apply elem_of_app. right. by left.
  - split; [|intros [=]; unfold next_engine in *; lia]. split; [|apply Hnew; lia]. apply elem_of_app. right.
    assert (next_engine (with_engine loop c) = length (created c) + 1)%nat as -> by apply length_app. by left.
  - replace (length (created c) + 1 + 1)%nat with (Datatypes.S (Datatypes.S (length (created c)))) by lia.
    rewrite !seq_S, Nat.add_0_l. by replace (length (created c) + 1)%nat with (Datatypes.S (length (created c))) by lia.
Qed.

Lemma NoDup_snoc {A} (l : list A) x : NoDup l -> x ∉ l -> NoDup (l ++ [x]).
Proof.
  intros Hl Hx. apply NoDup_app. split; [done|]. split; [|apply NoDup_singleton]. by intros y Hy ->%list_elem_of_singleton.
Qed.

Lemma dispose_inv m : inv m -> inv (dispose_engine m).
Proof.
  intros Hm. apply cleared_inv; [done|..].
  - intros e [He|He]%elem_of_app; [by apply inv_closed|]. apply elem_of_app in He as [He|He].
    + destruct (read_engine m) as [r|] eqn:Er; [|by apply not_elem_of_nil in He]. case_bool_decide; [by apply not_elem_of_nil in He|].
      apply list_elem_of_singleton in He as ->. destruct (inv_read m Hm r Er) as [[Hc _] _]. by eapply created_lt.
    + destruct (engine m) as [x|] eqn:Ee; [|by apply not_elem_of_nil in He]. apply list_elem_of_singleton in He as ->.
      destruct (inv_engine m Hm x Ee) as [Hc _]. by eapply created_lt.
  - pose proof (inv_once m Hm) as Hn. pose proof (inv_engine m Hm) as He. pose proof (inv_read m Hm) as Hr.
    destruct (read_engine m) as [r|], (engine m) as [e|]; try case_bool_decide; cbn; rewrite ?app_nil_r; try done.
    + by apply NoDup_snoc; [|apply He].
    + change (closed m ++ [r; e]) with (closed m ++ ([r] ++ [e])). rewrite app_assoc. apply NoDup_snoc; [apply NoDup_snoc; [done | by apply Hr]|].
      rewrite elem_of_app, list_elem_of_singleton. intros [Hin| ->]; [by apply (He e eq_refl) | done].
    + by apply NoDup_snoc; [|apply Hr].
    + by apply NoDup_snoc; [|apply He].
Qed.

Lemma factory_inv loop m : inv m -> inv (get_session_factory accepts settings loop m).2.
Proof.
  intros H0. assert (inv (_check_loop loop m)) as Hm by by apply check_loop_inv. unfold get_session_factory.
  set (c := _check_loop loop m) in *. destruct (AsyncSessionLocal c) as [f|] eqn:Ef; [by rewrite Ef|].
  pose proof (engine_init_inv loop c Hm) as Hi. destruct (init_engine accepts settings loop c) as [[[]|e] m']; cbn in *; [|done].
  by destruct (AsyncSessionLocal m').
Qed.

Lemma read_inv enter loop m : inv m -> inv (get_read_session accepts settings enter loop m).2.
Proof.
  intros H0. assert (inv (_check_loop loop m)) as Hm by by apply check_loop_inv. unfold get_read_session.
  set (c := _check_loop loop m) in *.
  assert (inv (match AsyncReadSessionLocal c with
               | Some f => (Ok f, c)
               | None => match AsyncSessionLocal c with Some f => (Ok f, c) | None => get_session_factory accepts settings loop c end
               end).2) as Hi.
  { destruct (AsyncReadSessionLocal c); [done|]. destruct (AsyncSessionLocal c); [done|]. by apply factory_inv. }
  destruct (match AsyncReadSessionLocal c with Some _ => _ | None => _ end) as [[f|e] m']; cbn in *; [|done].
  destruct (enter f); [done|]. by destruct (read_fallback enter f m').
Qed.

Lemma engines_inv calls : inv (fold_left (call_step accepts settings) calls fresh).
Proof.
  assert (forall m, inv m -> inv (fold_left (call_step accepts settings) calls m)) as H; [|apply H, fresh_inv].
  induction calls as [|c calls IH]; intros m Hm; cbn; [done|]. apply IH.
  destruct c; cbn; [by apply engine_init_inv | by apply dispose_inv | by apply factory_inv | by apply read_inv].
Qed.

(** The loop of the engines that are kept fits. *)
Definition fits_loop (l loop : option nat) : Prop := l = None \/ loop = None \/ l = loop.

Lemma check_loop_fits loop m : inv m -> is_Some (engine (_check_loop loop m)) -> fits_loop (_engine_loop (_check_loop loop m)) loop.
Proof.
  intros _. unfold _check_loop, fits_loop. destruct (_engine_loop m) as [l|] eqn:El, loop as [l'|]; auto.
  destruct (Nat.eqb_spec l l') as [->|]; [rewrite El; auto | by intros []].
Qed.

(** A factory handed out belongs to an open engine of a loop that fits. *)
Definition usable (loop : option nat) (m : state) (f : nat) : Prop := current m f /\ fits_loop (_engine_loop m) loop.

Lemma init_fits loop m m' : init_engine accepts settings loop m = (Ok tt, m') -> fits_loop (_engine_loop m') loop.
Proof.
  intros E. destruct (init_cases loop m) as [[e H]|[H|H]]; rewrite H in E; [done|..]; injection E as <-; right; by right.
Qed.

Lemma factory_usable loop m f m' : inv m -> get_session_factory accepts settings loop m = (Ok f, m') ->
  usable loop m' f /\ AsyncSessionLocal m' = Some f.
Proof.
  intros H0 E. pose proof (factory_inv loop m H0) as Hm'. rewrite E in Hm'. cbn in Hm'.
  assert (inv (_check_loop loop m)) as Hc by by apply check_loop_inv. unfold get_session_factory in E.
  set (c := _check_loop loop m) in *. destruct (AsyncSessionLocal c) as [g|] eqn:Eg.
  - rewrite Eg in E. injection E as <- <-. rewrite (inv_factory c Hc) in Eg. split; [|by rewrite (inv_factory c Hc)].
    split; [by apply inv_engine|]. apply check_loop_fits; [done|]. by exists g.
  - destruct (init_engine accepts settings loop c) as [[[]|e] m1] eqn:Ei; [|done]. destruct (AsyncSessionLocal m1) as [g|] eqn:Eg'; [|done].
    injection E as <- <-. split; [|done]. rewrite (inv_factory m1 Hm') in Eg'. split; [by apply inv_engine | by eapply init_fits].
Qed.

Lemma reader_current m f : inv m -> AsyncReadSessionLocal m = Some f -> current m f /\ is_Some (engine m).
Proof.
  intros Hm Ef. pose proof (inv_reader m Hm) as Hr. destruct (engine m) as [e|] eqn:Ee.
  - destruct Hr as (r & Er & Hr). rewrite Ef in Er. injection Er as ->. split; [|by eexists].
    destruct Hr as [->|Hr]; [by apply inv_engine | by apply inv_read].
  - destruct Hr as [Hr _]. congruence.
Qed.

Lemma fallback_usable enter loop f m p : inv m -> fits_loop (_engine_loop m) loop -> read_fallback enter f m = Ok p ->
  usable loop m p /\ enter p = true.
Proof.
  intros Hm Hl. unfold read_fallback. rewrite (inv_factory m Hm). destruct (engine m) as [e|] eqn:Ee; [|done].
  case_bool_decide; [done|]. destruct (enter e) eqn:Een; [|done]. intros [= <-]. split; [|done]. split; [by apply inv_engine | done].
Qed.

Lemma read_usable enter loop m f b m' : inv m -> get_read_session accepts settings enter loop m = (Ok (f, b), m') ->
  inv m' /\ usable loop m' f /\ enter f = true.
Proof.
  intros H0 E. pose proof (read_inv enter loop m H0) as Hm'. rewrite E in Hm'. cbn [snd] in Hm'. split; [done|].
  assert (inv (_check_loop loop m)) as Hc by by apply check_loop_inv. unfold get_read_session in E.
  set (c := _check_loop loop m) in *.
  set (choice := match AsyncReadSessionLocal c with Some f => (Ok f, c) | None => _ end) in E.
  assert (forall g m1, choice = (Ok g, m1) -> usable loop m1 g) as Hchoice.
  { intros g m1. unfold choice. destruct (AsyncReadSessionLocal c) as [r|] eqn:Er; [|destruct (AsyncSessionLocal c) as [p|] eqn:Es].
    - intros [= <- <-]. destruct (reader_current c r Hc Er) as [Hg Hs]. split; [done|]. by apply check_loop_fits.
    - intros [= <- <-]. rewrite (inv_factory c Hc) in Es. split; [by apply inv_engine|]. apply check_loop_fits; [done | by exists p].
    - intros Eg. by apply (factory_usable loop c g m1). }
  destruct choice as [[g|e] m1]; [|done]. specialize (Hchoice g m1 eq_refl). destruct (enter g) eqn:Eg.
  - by injection E as <- <- <-.
  - destruct (read_fallback enter g m1) as [p|e] eqn:Ep; [|done]. injection E as <- <- <-.
    by apply (fallback_usable enter loop g); [|apply Hchoice|].
Qed.
End good_replica.
End DbSessionLemmas.

(** C36. With a replica URL that is accepted (or no replica): whatever engines were
    created, replaced, dropped or disposed before, and whichever initialisations
    failed, a session factory handed out belongs to an engine that is open and was
    created on the running loop (or one of the two has no loop); so does every
    session a read generator yields, the second one too that it yields when the
    caller's block fails, and each could be entered; no engine is disposed twice. *)
Theorem sessions_usable (accepts : string -> bool) (settings : Settings) (calls : list DbSession.call) (loop : option nat)
    (enter : nat -> bool) :
  DbSessionLemmas.replica_ok accepts settings ->
  let m := fold_left (DbSession.call_step accepts settings) calls DbSession.fresh in
  (forall f m', DbSession.get_session_factory accepts settings loop m = (Ok f, m') -> DbSessionLemmas.usable loop m' f) /\
  (forall f in_try m', DbSession.get_read_session accepts settings enter loop m = (Ok (f, in_try), m') ->
     DbSessionLemmas.usable loop m' f /\ enter f = true /\
     forall b p, DbSession.resume_read_session enter f in_try b m' = Ok (Some p) -> DbSessionLemmas.usable loop m' p /\ enter p = true) /\
  NoDup (DbSession.closed m).
Proof.
  intros good. cbn zeta. pose proof (DbSessionLemmas.engines_inv accepts settings good calls) as Hm. split; [|split].
  - intros f m' E. by apply (DbSessionLemmas.factory_usable accepts settings good loop _ f m' Hm).
  - intros f in_try m' E. destruct (DbSessionLemmas.read_usable accepts settings good enter loop _ f in_try m' Hm E) as (Hm' & Hu & He).
    do 2 (split; [done|]). intros [|e] p; [done|]. unfold DbSession.resume_read_session. destruct (in_try && _); [|done].
    destruct (DbSession.read_fallback enter f m') as [q|] eqn:Eq; [|done]. intros [= <-].
    by apply (DbSessionLemmas.fallback_usable enter loop f); [|apply Hu|].
  - by apply DbSessionLemmas.inv_once.
Qed.

(** A malformed replica URL: the initialisation raises after it assigned the engine
    and its factory and before it recorded the loop, so the next caller, on
    another loop, is handed the factory of the first loop's engine. *)
Theorem stale_factory_after_failed_init (accepts : string -> bool) (settings : Settings) (url : string) (e : string) (l l' : nat) :
  asyncpg_url settings = Ok url -> accepts url = true ->
  ostr_truthy (read_replica_database_url settings) = true -> read_asyncpg_url settings = Raise e -> l <> l' ->
  let m := (DbSession.init_engine accepts settings (Some l) DbSession.fresh).2 in
  (DbSession.init_engine accepts settings (Some l) DbSession.fresh).1 = Raise RuntimeError /\
  exists f, DbSession.get_session_factory accepts settings (Some l') m = (Ok f, m) /\ (f, Some l) ∈ DbSession.created m /\
    ~ (f, Some l') ∈ DbSession.created m.
Proof.
  intros Hu Ha Hr He Hl. cbn zeta. unfold DbSession.init_engine at 1 2 3 4 5, DbSession.replica_url. rewrite Hr, He, Hu, Ha.
  assert (exists u, database_url settings = Some u) as [u ->].
  { unfold asyncpg_url in Hu. destruct (database_url settings); [eauto | done]. }
  cbn. split; [done|]. exists 0%nat. split; [done|]. split; [by left|].
  intros [[= ?]|H%elem_of_nil]%elem_of_cons; [congruence | done].
Qed.

(** The docstring of [get_read_session] says that an error in the caller's block is
    not caught: on a replica session it is, and the generator yields a second time. *)
Theorem read_error_yields_again (accepts : string -> bool) (settings : Settings) (calls : list DbSession.call) (loop : option nat)
    (enter : nat -> bool) (f p : nat) (m' : DbSession.state) :
  DbSessionLemmas.replica_ok accepts settings ->
  DbSession.get_read_session accepts settings enter loop
    (fold_left (DbSession.call_step accepts settings) calls DbSession.fresh) = (Ok (f, true), m') ->
  DbSession.read_engine m' = Some f -> DbSession.engine m' = Some p -> enter p = true ->
  DbSession.resume_read_session enter f true (DbSession.Threw db_error) m' = Ok (Some p).
Proof.
  intros good E Hr Hp He. pose proof (DbSessionLemmas.engines_inv accepts settings good calls) as Hm.
  destruct (DbSessionLemmas.read_usable accepts settings good enter loop _ f true m' Hm E) as (Hm' & _).
  unfold DbSession.resume_read_session, DbSession.is_operational_error. rewrite bool_decide_eq_true_2 by done. cbn [andb].
  unfold DbSession.read_fallback. rewrite (DbSessionLemmas.inv_factory m' Hm'), Hp.
  destruct (DbSessionLemmas.inv_read m' Hm' f Hr) as [_ Hne]. case_bool_decide; [congruence|]. by rewrite He.
Qed.

(** A module that imports the factory by name while the session layer is fresh
    keeps [None]: its agent never reaches the database, whatever happens later. *)
Theorem imported_factory_is_none {S} (settings : Settings) (simulate_failure : bool) (mock_vector : Z -> string -> list json)
    (http_post : dict -> dict -> M S HttpResponse) (nearest : json -> list chunk_row -> list chunk_row)
    (matching : string -> list chunk_row -> list chunk_row) (arrange : list uuid -> list uuid) (uuid4 : nat -> uuid) (today : Z)
    (exn_text : pyexn -> string) (input : AgentInput) (w : S * lit_world) :
  exists out s', run_literature settings simulate_failure mock_vector http_post nearest matching arrange uuid4 today exn_text
                   (DbSession.imported DbSession.fresh) input w = (Ok out, (s', w.2)) /\
    evidence out = [] /\ length (errors out) = 1%nat.
Proof.
  unfold run_literature, on_service. destruct (embed_query _ _ _ _ w.1) as [[q|e] s']; cbn; eexists _, s'; done.
Qed.

(** ** Scores *)

Lemma float_of_pos p : signed false (float_of_Z (Z.pos p)).
Proof.
  unfold float_of_Z. cbn [binary_normalize]. unfold binary_round. destruct (shl_align p 0 _) as [m e].
  by apply (binary_round_aux_signed false (Z.pos m) e).
Qed.

Lemma fadd_signed x y : signed false x -> signed false y -> signed false (fadd x y).
Proof.
  destruct x as [[]|[]| |[] mx ex], y as [[]|[]| |[] my ey]; try done. intros _ _. unfold fadd, SFadd. cbn [cond_Zopp].
  rewrite !shl_align_value by lia. set (ez := Z.min ex ey).
  assert (0 < Z.pos my * 2 ^ (ey - ez)) by (apply Z.mul_pos_pos; [lia | apply Z.pow_pos_nonneg; lia]).
  assert (0 < Z.pos mx * 2 ^ (ex - ez)) by (apply Z.mul_pos_pos; [lia | apply Z.pow_pos_nonneg; lia]).
  destruct (Z.pos mx * 2 ^ (ex - ez) + Z.pos my * 2 ^ (ey - ez)) as [|p|p] eqn:E; [lia| |lia]. cbn [binary_normalize].
  unfold binary_round. destruct (shl_align p ez _) as [m e]. by apply (binary_round_aux_signed false (Z.pos m) e).
Qed.

Lemma fdiv_nonneg x y : signed false x -> signed false y -> is_finite x = true -> feqb y f0 = false -> signed false (fdiv x y).
Proof.
  destruct x as [[]|[]| |[] mx ex], y as [[]|[]| |[] my ey]; try done. intros _ _ _ _. apply (fdiv_signed false mx ex false my ey).
Qed.

Lemma reciprocal_signed n : 0 < n -> signed false (fdiv f1 (float_of_Z n)).
Proof.
  intros Hn. destruct n as [|p|p]; [lia| |lia]. pose proof (float_of_pos p) as Hs. destruct (float_of_Z (Z.pos p)) as [[]|[]| |[] m e]; try done.
  apply (fdiv_signed false _ _ false m e).
Qed.

Lemma rank_from_ge id l : forall i r, rank_from i id l = Some r -> i <= r.
Proof.
  induction l as [|x l IH]; intros i r; cbn; [done|]. destruct (rank_from (i + 1) id l) as [j|] eqn:E.
  - apply IH in E. destruct (String.eqb _ _); intros [= <-]; lia.
  - destruct (String.eqb _ _); [intros [= <-]; lia | done].
Qed.

Lemma score_signed vector fts id : signed false (rrf_score vector fts id).
Proof.
  assert (forall l s, signed false s -> signed false (rrf_part (rank_of id l) s)) as Hp.
  { intros l s Hs. unfold rrf_part, rank_of. destruct (rank_from 1 id l) as [r|] eqn:E; [|done]. apply rank_from_ge in E.
    apply fadd_signed; [done|]. apply reciprocal_signed. unfold rrf_constant. lia. }
  unfold rrf_score. by do 2 apply Hp.
Qed.

Lemma signed_not_nan x : signed false x -> is_nan x = false.
Proof. by destruct x. Qed.

(** ** Sorting by score *)

Section sort_desc.
Context {A : Type} (key : A -> float).
Hypothesis key_number : forall x, is_nan (key x) = false.
Definition better (a b : A) : Prop := fle (key b) (key a).

Lemma insert_desc_perm x l : insert_desc key x l ≡ₚ x :: l.
Proof. induction l as [|y l IH]; cbn; [done|]. destruct (fltb _ _); [|done]. rewrite IH. apply Permutation_swap. Qed.

Lemma sort_desc_perm l : sort_desc key l ≡ₚ l.
Proof. induction l as [|x l IH]; cbn; [done|]. by rewrite insert_desc_perm, IH. Qed.

Lemma insert_desc_sorted x l : StronglySorted better l -> StronglySorted better (insert_desc key x l).
Proof.
  induction 1 as [|y l Hs IH Hy]; cbn; [by repeat constructor|]. destruct (fltb (key x) (key y)) eqn:E.
  - constructor; [done|]. rewrite insert_desc_perm. constructor; [by apply flt_le | done].
  - apply not_flt_le in E; [|done..]. constructor; [by constructor|]. constructor; [done|].
    eapply Forall_impl; [exact Hy|]. intros z Hz. by eapply fle_trans.
Qed.

Lemma sort_desc_sorted l : StronglySorted better (sort_desc key l).
Proof. induction l as [|x l IH]; [constructor | by apply insert_desc_sorted]. Qed.
End sort_desc.

(** ** Confidence *)

Lemma normalized_ok score : signed false score -> fvalid (normalized score) = true /\ in_unit (normalized score) = true.
Proof.
  intros Hs. assert (signed false (fdiv score max_possible_score)) as Hd.
  { assert (exists m e, max_possible_score = S754_finite false m e) as (m & e & ->) by (vm_compute; eauto).
    destruct score as [[]|[]| |[] mx ex]; try done. apply (fdiv_signed false mx ex false m e). }
  pose proof (signed_nonneg _ Hd) as H0. pose proof (signed_not_nan _ Hd) as Hn. pose proof (fdiv_valid score max_possible_score) as Hv.
  unfold normalized. set (q := fdiv score max_possible_score) in *.
  assert (is_nan f1 = false /\ is_nan f0 = false) as [N1 N0] by done.
  destruct (fmin_cases f1 q) as [E|E]; rewrite E.
  - by vm_compute.
  - assert (fle q f1) as H1 by (rewrite <- E at 1; by apply fmin_le_l).
    destruct (fmax_cases f0 q) as [E'|E']; rewrite E'; [by vm_compute|]. split; [done|]. apply andb_true_iff. by split.
Qed.

(** ** What a search returns *)

(** The metadata of a stored chunk has the types of an evidence item. *)
Definition well_typed (r : chunk_row) : Prop :=
  is_ok (chunk_id_of (c_extra_metadata (row r))) = true /\ is_ok (title_of (c_extra_metadata (row r))) = true.

Definition item_for (rows : list chunk_row) (score : uuid -> float) (id : uuid) (e : Evidence) : Prop :=
  exists r, r ∈ rows /\ row_id r = id /\ ev_claim e = c_chunk_text (row r) /\ ev_source e = c_document_id (row r) /\
    valid_estimate (ev_uncertainty e) = true /\ ev_confidence e = normalized (score id).

Lemma last_filter_elem {A} (f : A -> bool) (l : list A) x : x ∈ l -> f x = true ->
  exists y, last (List.filter f l) = Some y /\ y ∈ l /\ f y = true.
Proof.
  intros Hx Hf. destruct (last (List.filter f l)) as [y|] eqn:E.
  - exists y. split; [done|]. apply last_Some in E as [l' E]. apply (Regex.elem_of_Lfilter f l y). rewrite E. apply elem_of_app. right. by left.
  - apply last_None in E. assert (x ∈ List.filter f l) as Hin by by apply Regex.elem_of_Lfilter. rewrite E in Hin. by apply not_elem_of_nil in Hin.
Qed.

Section fusion.
Variable arrange : list uuid -> list uuid.
Variable uuid4 : nat -> uuid.
Variable today : Z.
Variables vector fts : list chunk_row.
Hypothesis arrange_perm : forall l, arrange l ≡ₚ l.
Hypothesis typed : forall r, r ∈ vector ++ fts -> well_typed r.
Notation score := (rrf_score vector fts).

Lemma item_ok n id : id ∈ map row_id (vector ++ fts) -> exists r e, chunk_lookup vector fts id = Some r /\
  item_of uuid4 today n r (score id) = Ok e /\ item_for (vector ++ fts) score id e.
Proof.
  intros (r0 & -> & Hr0)%list_elem_of_fmap. destruct (last_filter_elem (fun r => String.eqb (row_id r) (row_id r0)) (vector ++ fts) r0 Hr0)
    as (r & El & Hr & Hid%String.eqb_eq); [apply String.eqb_refl|]. exists r.
  destruct (typed r Hr) as [Hc Ht]. unfold item_of.
  destruct (chunk_id_of _) as [cid|]; [|done]. destruct (title_of _) as [ti|]; [|done]. cbn -[init_uncertainty normalized rrf_score].
  destruct (normalized_ok _ (score_signed vector fts (row_id r0))) as [Hv Hu]. destruct (init_ok _ Hv Hu) as (u & -> & Hval & Hpt).
  eexists. split; [exact El|]. split; [done|]. by exists r.
Qed.

Lemma items_ok ids : (forall id, id ∈ ids -> id ∈ map row_id (vector ++ fts)) -> forall n, exists es,
  items_of uuid4 today n vector fts ids = Ok es /\ Forall2 (item_for (vector ++ fts) score) ids es.
Proof.
  induction ids as [|id ids IH]; intros Hin n; cbn [items_of]; [by exists []|].
  destruct (item_ok n id ltac:(apply Hin; by left)) as (r & e & -> & -> & He).
  destruct (IH ltac:(intros x Hx; apply Hin; by right) (Datatypes.S n)) as (es & -> & Hes). exists (e :: es). split; [done|]. by constructor.
Qed.

Lemma ids_perm : all_chunk_ids arrange vector fts ≡ₚ remove_dups (map row_id (vector ++ fts)).
Proof. apply arrange_perm. Qed.

Lemma top_ids_spec k : let ids := top_ids arrange k vector fts in
  NoDup ids /\ (forall id, id ∈ ids -> id ∈ map row_id (vector ++ fts)) /\ (length ids <= Z.to_nat k)%nat /\
  StronglySorted (better score) ids /\
  forall id, id ∈ map row_id (vector ++ fts) -> id ∈ ids \/
    (length ids = Z.to_nat k /\ forall a, a ∈ ids -> better score a id).
Proof.
  cbn zeta. unfold top_ids. set (all := sort_desc score (all_chunk_ids arrange vector fts)).
  assert (all ≡ₚ remove_dups (map row_id (vector ++ fts))) as Hp by (unfold all; rewrite sort_desc_perm; apply ids_perm).
  assert (forall id, id ∈ all <-> id ∈ map row_id (vector ++ fts)) as Hin by (intros id; by rewrite Hp, elem_of_remove_dups).
  assert (NoDup all) as Hn by (rewrite Hp; apply NoDup_remove_dups).
  assert (StronglySorted (better score) all) as Hs by (apply sort_desc_sorted; intros id; apply signed_not_nan, score_signed).
  rewrite <- (take_drop (Z.to_nat k) all) in Hn, Hs. apply NoDup_app in Hn as (Hn & _). split; [done|].
  split; [intros id Hid; apply Hin; rewrite <- (take_drop (Z.to_nat k) all); apply elem_of_app; by left|].
  split; [rewrite length_take; lia|]. split; [by eapply StronglySorted_app_1_l|]. intros id Hid%Hin.
  rewrite <- (take_drop (Z.to_nat k) all) in Hid. apply elem_of_app in Hid as [?|Hd]; [by left|]. right. split.
  - rewrite length_take. assert (0 < length (drop (Z.to_nat k) all))%nat by (destruct (drop _ _); [by apply not_elem_of_nil in Hd | cbn; lia]).
    rewrite length_drop in *. lia.
  - intros a Ha. by eapply StronglySorted_app_1_elem_of.
Qed.
End fusion.

(** ** Fusion respects both rankings *)

(** Rank 11 stands for absence from a list of ten. *)
Definition place_rank (i : Z) : option Z := if i <=? 10 then Some i else None.
Definition pair_score (i j : Z) : float := rrf_part (place_rank j) (rrf_part (place_rank i) f0).
Definition score_table : list (list float) := map (fun i => map (pair_score i) (seqZ 1 11)) (seqZ 1 11).
Definition descending (l : list float) : bool := forallb (fun p => fleb p.2 p.1) (zip l (tl l)).

Lemma table_descends : forallb descending score_table && forallb descending (map (fun j => map (fun i => pair_score i j) (seqZ 1 11)) (seqZ 1 11)) = true.
Proof. vm_compute. reflexivity. Qed.

Lemma descending_step (f : Z -> float) n i : descending (map f (seqZ 1 n)) = true -> 1 <= i < n -> fle (f (i + 1)) (f i).
Proof.
  intros Hd Hi. unfold descending in Hd. rewrite forallb_true in Hd. apply (Hd (f i, f (i + 1))).
  apply list_elem_of_lookup. exists (Z.to_nat (i - 1)). apply lookup_zip_Some. split; [|rewrite lookup_tail];
    rewrite list_lookup_fmap, lookup_seqZ_lt by lia; cbn; do 2 f_equal; lia.
Qed.

Lemma descends (f : Z -> float) n i j : is_nan (f i) = false -> descending (map f (seqZ 1 n)) = true -> 1 <= i <= j -> j <= n ->
  fle (f j) (f i).
Proof.
  intros Hn Hd Hij Hj. replace j with (i + Z.of_nat (Z.to_nat (j - i))) in * by lia. revert Hj.
  induction (Z.to_nat (j - i)) as [|m IH]; intros Hj.
  - rewrite Z.add_0_r. by apply fle_refl.
  - eapply fle_trans; [|apply IH; lia]. replace (i + Z.of_nat (Datatypes.S m)) with (i + Z.of_nat m + 1) by lia.
    apply (descending_step f n); [done | lia].
Qed.

Lemma pair_score_number i j : 0 <= i -> 0 <= j -> is_nan (pair_score i j) = false.
Proof.
  intros Hi Hj. apply signed_not_nan. unfold pair_score.
  assert (forall r s, 0 <= r -> signed false s -> signed false (rrf_part (place_rank r) s)) as Hp.
  { intros r s Hr Hs. unfold rrf_part, place_rank. destruct (r <=? 10); [|done]. apply fadd_signed; [done|].
    apply reciprocal_signed. unfold rrf_constant. lia. }
  apply Hp; [done|]. by apply Hp.
Qed.

Lemma pair_score_antitone i i' j j' : 1 <= i <= i' -> i' <= 11 -> 1 <= j <= j' -> j' <= 11 -> fle (pair_score i' j') (pair_score i j).
Proof.
  intros Hi Hi' Hj Hj'. pose proof table_descends as H. apply andb_true_iff in H as [Hrow Hcol]. rewrite forallb_true in Hrow, Hcol.
  assert (forall k, 1 <= k <= 11 -> k ∈ seqZ 1 11) as Hk by (intros k Hk; apply elem_of_seqZ; lia).
  eapply fle_trans; [apply (descends (pair_score i') 11 j j') | apply (descends (fun i => pair_score i j) 11 i i')]; try lia;
    try (apply pair_score_number; lia).
  - apply Hrow. apply (list_elem_of_fmap_2 (fun i => map (pair_score i) (seqZ 1 11))), Hk. lia.
  - apply Hcol. apply (list_elem_of_fmap_2 (fun j => map (fun i => pair_score i j) (seqZ 1 11))), Hk. lia.
Qed.

Lemma rank_from_lt id l : forall i r, rank_from i id l = Some r -> r < i + Z.of_nat (length l).
Proof.
  induction l as [|x l IH]; intros i r; cbn [rank_from length]; [done|]. destruct (rank_from (i + 1) id l) as [j|] eqn:E.
  - apply IH in E. destruct (String.eqb _ _); intros [= <-]; lia.
  - destruct (String.eqb _ _); [intros [= <-]; lia | done].
Qed.

(** The place of an id in a list of up to ten, 11 when absent. *)
Definition place_in (l : list chunk_row) (id : uuid) : Z := default 11 (rank_of id l).

Lemma place_bounds l id : (length l <= 10)%nat -> 1 <= place_in l id <= 11 /\ place_rank (place_in l id) = rank_of id l.
Proof.
  intros Hl. unfold place_in, rank_of. destruct (rank_from 1 id l) as [r|] eqn:E; [|done]. cbn [default].
  pose proof (rank_from_ge _ _ _ _ E). pose proof (rank_from_lt _ _ _ _ E). split; [cbn; lia|]. unfold place_rank.
  by rewrite (proj2 (Z.leb_le _ _)) by (cbn; lia).
Qed.

Lemma fusion_respects vector fts a b : (length vector <= 10)%nat -> (length fts <= 10)%nat ->
  place_in vector a <= place_in vector b -> place_in fts a <= place_in fts b -> better (rrf_score vector fts) a b.
Proof.
  intros Hv Hf Ha Hb. unfold better.
  assert (forall id, rrf_score vector fts id = pair_score (place_in vector id) (place_in fts id)) as E.
  { intros id. unfold rrf_score, pair_score. by rewrite (proj2 (place_bounds vector id Hv)), (proj2 (place_bounds fts id Hf)). }
  rewrite !E. pose proof (proj1 (place_bounds vector a Hv)). pose proof (proj1 (place_bounds vector b Hv)).
  pose proof (proj1 (place_bounds fts a Hf)). pose proof (proj1 (place_bounds fts b Hf)). apply pair_score_antitone; lia.
Qed.

(** C17. A search over a healthy database returns at most [k] chunks, each once, all of
    them found by vector distance or full text, by descending fused score; a found
    chunk is left out only when [k] others score at least as high.  Each item has
    the chunk's text and its normalized score as confidence, in the unit interval;
    and of two chunks the one that is ahead in both rankings (of ten) does not
    score lower. *)
Theorem hybrid_search_exact (nearest : json -> list chunk_row -> list chunk_row) (matching : string -> list chunk_row -> list chunk_row)
    (arrange : list uuid -> list uuid) (uuid4 : nat -> uuid) (today : Z) (query : string) (q : json) (k : Z) (w : lit_world) :
  (forall l, arrange l ≡ₚ l) -> (forall r, r ∈ nearest q (lit_rows w) -> r ∈ lit_rows w) ->
  (forall r, r ∈ matching query (lit_rows w) -> r ∈ lit_rows w) -> (forall r, r ∈ lit_rows w -> well_typed r) ->
  lit_script w = [] -> 0 <= k ->
  let vector := take (Z.to_nat k) (nearest q (lit_rows w)) in
  let fts := take (Z.to_nat k) (matching query (lit_rows w)) in
  exists es ids, hybrid_search nearest matching arrange uuid4 today query (Some q) k w = (Ok es, w) /\
    Forall2 (item_for (lit_rows w) (rrf_score vector fts)) ids es /\ NoDup ids /\ (length ids <= Z.to_nat k)%nat /\
    StronglySorted (better (rrf_score vector fts)) ids /\
    (forall id, id ∈ map row_id (vector ++ fts) -> id ∈ ids \/
       (length ids = Z.to_nat k /\ forall a, a ∈ ids -> better (rrf_score vector fts) a id)) /\
    (k <= 10 -> forall a b, place_in vector a <= place_in vector b -> place_in fts a <= place_in fts b ->
       better (rrf_score vector fts) a b).
Proof.
  intros Ha Hv Hf Ht Hs Hk vector fts.
  assert (forall r, r ∈ vector ++ fts -> r ∈ lit_rows w) as Hrows.
  { intros r [Hr|Hr]%elem_of_app; [apply Hv | apply Hf]; by eapply elem_of_take in Hr as (i & Hi & _); eapply list_elem_of_lookup_2. }
  assert (forall r, r ∈ vector ++ fts -> well_typed r) as Hty by auto.
  destruct (top_ids_spec arrange vector fts Ha k) as (Hn & Hin & Hl & Hsort & Hall).
  destruct (items_ok uuid4 today vector fts Hty (top_ids arrange k vector fts) Hin 0) as (es & Ees & Hes).
  exists es, (top_ids arrange k vector fts). split.
  { unfold hybrid_search, select_limited, limited. rewrite (proj2 (Z.ltb_ge _ _)) by lia. rewrite !M_bind_run, select_ok by done.
    cbn -[take]. rewrite M_bind_run. rewrite M_bind_run, select_ok by done. cbn -[take items_of top_ids]. fold vector fts. by rewrite Ees. }
  split. { eapply Forall2_impl; [exact Hes|]. intros id e (r & Hr & H). exists r. split; [by apply Hrows | done]. }
  do 4 (split; [done|]). intros Hk10 a b. apply fusion_respects; unfold vector, fts; rewrite length_take; lia.
Qed.

(** ** The agent *)

Lemma items_valid uuid4 today vector fts ids : forall n es, items_of uuid4 today n vector fts ids = Ok es ->
  Forall (fun e => valid_estimate (ev_uncertainty e) = true) es.
Proof.
  induction ids as [|id ids IH]; intros n es; cbn [items_of]; [intros [= <-]; constructor|].
  destruct (chunk_lookup vector fts id) as [r|]; [|done]. intros (e & Ee & (es' & Es & [= <-])%result_bind_ok)%result_bind_ok.
  constructor; [|by eapply IH]. unfold item_of in Ee. do 2 apply result_bind_ok in Ee as (? & _ & Ee).
  destruct (init_uncertainty _ _) as [u|] eqn:E; [|done]. injection Ee as <-. by eapply init_valid.
Qed.

Lemma search_frames nearest matching arrange uuid4 today query q k :
  frames lit_rows (hybrid_search nearest matching arrange uuid4 today query q k).
Proof.
  assert (forall read, frames lit_rows (select_limited k read)) as Hl.
  { intros read. apply frames_bind; [by apply frames_select|]. intros [l|]; by apply frames_same. }
  unfold hybrid_search. apply frames_bind; [destruct q; [apply Hl | by apply frames_same]|]. intros vector.
  apply frames_bind; [apply Hl|]. intros fts. by apply frames_same.
Qed.

(** Whatever fails (the embedding service, the database, a chunk with malformed
    metadata), the literature agent returns an output under its name: valid
    evidence without an error, or one error without evidence; it never changes the
    stored chunks. *)
Theorem literature_agent_total {S} (settings : Settings) (simulate_failure : bool) (mock_vector : Z -> string -> list json)
    (http_post : dict -> dict -> M S HttpResponse) (nearest : json -> list chunk_row -> list chunk_row)
    (matching : string -> list chunk_row -> list chunk_row) (arrange : list uuid -> list uuid) (uuid4 : nat -> uuid) (today : Z)
    (exn_text : pyexn -> string) (factory : option nat) (input : AgentInput) (w : S * lit_world) :
  exists out w', run_literature settings simulate_failure mock_vector http_post nearest matching arrange uuid4 today exn_text
                   factory input w = (Ok out, w') /\
    agent_name out = "literature" /\ lit_rows w'.2 = lit_rows w.2 /\
    (errors out = [] /\ Forall (fun e => valid_estimate (ev_uncertainty e) = true) (evidence out) \/
     evidence out = [] /\ length (errors out) = 1%nat).
Proof.
  unfold run_literature, on_service. destruct (embed_query _ _ _ _ w.1) as [[q|e] s']; [|eexists _, _; split; [done|]; auto].
  destruct factory; [|eexists _, _; split; [done|]; auto]. unfold on_database. cbn [fst snd].
  pose proof (search_frames nearest matching arrange uuid4 today (in_query input) (Some q) 10 w.2) as Hf.
  destruct (hybrid_search _ _ _ _ _ _ _ _ w.2) as [[es|e] d] eqn:E; (eexists _, _; split; [done|]); cbn in *; [|auto].
  split; [done|]. split; [done|]. left. split; [done|]. unfold hybrid_search in E.
  apply M_bind_ok in E as (vector & w1 & _ & (fts & w2 & _ & [= E _])%M_bind_ok). by eapply items_valid.
Qed.

(** ** Seeding *)

Lemma doc_ids_spec chunks d : d ∈ doc_ids chunks <-> exists c, c ∈ chunks /\ s_document_id c = d.
Proof.
  unfold doc_ids. assert (forall acc, d ∈ fold_left (fun acc c => if bool_decide (s_document_id c ∈ acc) then acc else acc ++ [s_document_id c]) chunks acc <->
    d ∈ acc \/ exists c, c ∈ chunks /\ s_document_id c = d) as H; [|rewrite H, elem_of_nil; naive_solver].
  induction chunks as [|c chunks IH]; intros acc; cbn [fold_left].
  - split; [by left|]. intros [?|(c & Hc & _)]; [done | by apply not_elem_of_nil in Hc].
  - rewrite IH. case_bool_decide as Hc; rewrite ?elem_of_app, ?list_elem_of_singleton; setoid_rewrite elem_of_cons; naive_solver.
Qed.

Definition missing_chunks (rows : list chunk_row) (docs : list string) (chunks : list seed_chunk) : list seed_chunk :=
  flat_map (fun d => if has_document d rows then [] else chunks_of d chunks) docs.

Lemma seed_loop_ok docs chunks w : lit_script w = [] -> forall pending,
  seed_loop docs chunks pending w = (Ok (pending ++ missing_chunks (lit_rows w) docs chunks), w).
Proof.
  intros Hs. induction docs as [|d docs IH]; intros pending; cbn [seed_loop missing_chunks flat_map]; [by rewrite app_nil_r|].
  rewrite M_bind_run, select_ok by done. cbn beta iota. rewrite IH. destruct (has_document d (lit_rows w)); [done|].
  by rewrite <- app_assoc.
Qed.

Lemma nothing_missing rows docs chunks : (forall d, d ∈ docs -> has_document d rows = true) -> missing_chunks rows docs chunks = [].
Proof.
  unfold missing_chunks. induction docs as [|d docs IH]; intros Hd; [done|]. cbn [flat_map]. rewrite Hd by by left.
  apply IH. intros d' Hd'. apply Hd. by right.
Qed.

Lemma has_document_app d l l' : has_document d (l ++ l') = has_document d l || has_document d l'.
Proof. unfold has_document. apply existsb_app. Qed.

(** Seeding a healthy database adds the chunks of every document it does not have
    and nothing else: afterwards all documents are there, and seeding again adds
    nothing. *)
Theorem seeding_idempotent (uuid4 : nat -> uuid) (chunks : list seed_chunk) (w : lit_world) : lit_script w = [] ->
  exists w', seed_chunks uuid4 chunks w = (Ok tt, w') /\ lit_rows w `prefix_of` lit_rows w' /\
    (forall c, c ∈ chunks -> has_document (s_document_id c) (lit_rows w') = true) /\
    (forall d, has_document d (lit_rows w) = true ->
       List.filter (fun r => String.eqb (c_document_id (row r)) d) (lit_rows w') =
       List.filter (fun r => String.eqb (c_document_id (row r)) d) (lit_rows w)) /\
    seed_chunks uuid4 chunks w' = (Ok tt, w').
Proof.
  intros Hs. unfold seed_chunks. rewrite M_bind_run, seed_loop_ok by done. cbn beta iota. rewrite save_ok by done. rewrite app_nil_l.
  set (new := imap _ _). set (w' := LitWorld _ _). exists w'. split; [done|]. split; [by apply prefix_app_r|].
  assert (forall d r, r ∈ new -> c_document_id (row r) = d -> has_document d (lit_rows w) = false) as Hnew.
  { intros d r Hr <-. unfold new in Hr. apply list_elem_of_lookup in Hr as [i Hi]. rewrite list_lookup_imap in Hi.
    destruct (missing_chunks (lit_rows w) (doc_ids chunks) chunks !! i) as [c|] eqn:Ec; [|done]. injection Hi as <-. cbn.
    apply list_elem_of_lookup_2 in Ec. unfold missing_chunks in Ec. apply elem_of_flat_map_bool in Ec as (d & _ & Hc).
    destruct (has_document d (lit_rows w)) eqn:E; [by apply not_elem_of_nil in Hc|].
    apply Regex.elem_of_Lfilter in Hc as [_ ->%String.eqb_eq]. done. }
  assert (forall c, c ∈ chunks -> has_document (s_document_id c) (lit_rows w') = true) as Hall.
  { intros c Hc. change (lit_rows w') with (lit_rows w ++ new). rewrite has_document_app. destruct (has_document (s_document_id c) (lit_rows w)) eqn:E; [done|].
    assert (c ∈ missing_chunks (lit_rows w) (doc_ids chunks) chunks) as Hm.
    { unfold missing_chunks. apply elem_of_flat_map_bool. exists (s_document_id c). split; [apply doc_ids_spec; eauto|]. rewrite E.
      apply Regex.elem_of_Lfilter. split; [done | apply String.eqb_refl]. }
    apply list_elem_of_lookup in Hm as [i Hi]. rewrite orb_false_l. unfold has_document. apply existsb_true.
    exists (seeded_row (uuid4 (length (lit_rows w) + i)%nat) c). split; [|apply String.eqb_refl].
    apply list_elem_of_lookup. exists i. unfold new. by rewrite list_lookup_imap, Hi. }
  split; [done|]. split.
  - intros d Hd. change (lit_rows w') with (lit_rows w ++ new). rewrite List.filter_app, (filter_drop_all _ new); [apply app_nil_r|].
    intros r Hr. apply String.eqb_neq. intros E. rewrite (Hnew d r Hr E) in Hd. done.
  - rewrite M_bind_run, seed_loop_ok by done. cbn beta iota. rewrite save_ok by done.
    assert (missing_chunks (lit_rows w') (doc_ids chunks) chunks = []) as ->.
    { apply nothing_missing. intros d (c & Hc & <-)%doc_ids_spec. by apply Hall. }
    cbn [app imap]. f_equal. destruct w'. cbn. by rewrite app_nil_r.
Qed.

Module LiteratureWitness.
Definition chunk_of (doc text : string) : LiteratureChunk :=
  {| c_document_id := doc; c_source_id := None; c_chunk_text := text; c_embedding := None; c_source_url := None;
     c_extra_metadata := [("title", JStr "T"); ("chunk_id", JInt 1)] |}.
Definition row_of (id : uuid) : chunk_row := {| row_id := id; row := chunk_of ("doc-" +:+ id) ("text of " +:+ id) |}.
Definition shelf : lit_world := LitWorld [row_of "a"; row_of "b"; row_of "c"] [].
Definition by_distance (_ : json) (l : list chunk_row) : list chunk_row := l.
Definition by_text (_ : string) (l : list chunk_row) : list chunk_row := rev l.
Definition ids (n : nat) : uuid := str_nat n.

Lemma hybrid_search_exact_witness : exists es found,
  hybrid_search by_distance by_text id ids 0 "floods" (Some JNull) 2 shelf = (Ok es, shelf) /\
  Forall2 (item_for (lit_rows shelf)
             (rrf_score (take 2 (by_distance JNull (lit_rows shelf))) (take 2 (by_text "floods" (lit_rows shelf))))) found es.
Proof.
  destruct (hybrid_search_exact by_distance by_text id ids 0 "floods" JNull 2 shelf) as (es & found & E & H & _).
  - done.
  - done.
  - intros r Hr. unfold by_text in Hr. by rewrite reverse_Permutation in Hr || (apply list_elem_of_In; apply in_rev; by apply list_elem_of_In).
  - intros r Hr. cbn in Hr. rewrite !elem_of_cons, elem_of_nil in Hr. destruct Hr as [->|[->|[->|[]]]]; done.
  - done.
  - lia.
  - exists es, found. split; [exact E | exact H].
Defined.

Definition seeds : list seed_chunk :=
  [{| s_document_id := "p1"; s_chunk_text := "x"; s_embedding := JNull; s_source_url := None; s_extra_metadata := [] |}].

Lemma seeding_idempotent_witness : exists w', seed_chunks ids seeds shelf = (Ok tt, w') /\ seed_chunks ids seeds w' = (Ok tt, w').
Proof.
  destruct (seeding_idempotent ids seeds shelf eq_refl) as (w' & E & _ & _ & _ & E'). exists w'. split; [exact E | exact E'].
Defined.

Lemma sessions_usable_witness : exists f m',
  DbSession.get_session_factory (fun _ => true) prod_settings (Some 2%nat)
    (fold_left (DbSession.call_step (fun _ => true) prod_settings) [DbSession.Init (Some 1%nat); DbSession.Dispose; DbSession.Init None]
       DbSession.fresh) = (Ok f, m') /\
  DbSessionLemmas.usable (Some 2%nat) m' f.
Proof.
  destruct (sessions_usable (fun _ => true) prod_settings [DbSession.Init (Some 1%nat); DbSession.Dispose; DbSession.Init None] (Some 2%nat)
              (fun _ => true)) as [H _].
  { exists None. split; [reflexivity | exact I]. }
  eexists _, _. split; [vm_compute; reflexivity|]. apply H. vm_compute. reflexivity.
Defined.
End LiteratureWitness.
