(* ===== verification/Metrics.v ===== *)
(** * Metrics ([src/metrics/events.py], [src/metrics/collector.py],
    [src/metrics/aggregation.py], [src/db/models/metric_event.py])

    Events of the execution pipeline, the rows they leave in the metrics table, the
    counters kept in a process, and the rollups computed from the table.  The
    column [cost_estimate] is a number of millionths.  Instants are microseconds.
    PostgreSQL's [AVG] of numerics and the order in which it delivers groups with
    equal counts are parameters; [PERCENTILE_CONT] is the interpolation it
    documents, in binary64. *)

From stdpp Require Import sorting.
From S2P Require Import Prelude PyFloat FloatRound FloatValue PyStr Effects Database PyTime Investigations.

(** ** Events *)

Inductive MetricEvent :=
| JobStarted (investigation_id : string) (enqueued_at : option Z) (started_at : Z)
| JobCompleted (investigation_id status : string) (duration_seconds llm_cost_estimate : float)
    (complexity_tier : option string)
| JobFailed (investigation_id error_code error_message : string) (attempt_number : Z)
| IngestionCompleted (source : string) (records_fetched records_inserted duration_ms : Z) (success : bool)
| BackupCompleted (backup_id : string) (size_bytes : Z) (duration_ms : float) (success : bool)
| RestoreDrillCompleted (drill_id backup_id : string) (duration_ms : float) (success : bool)
| RestoreDrillFailed (drill_id backup_id : string) (duration_ms : float) (error_message : string)
    (discrepancies : list (string * json))
| CircuitStateChanged (source previous_state new_state : string)
| CacheHit (source cache_key : string) (degraded : bool)
| DegradedResponseEmitted (source source_status : string)
| CalibrationCompleted (model_name : string) (promoted : bool) (version : Z) (validation_score : float)
| PlannerRegionHintMissing (agent : string)
| LocationRegexFallbackExecuted (agent : string).

(** [event.__class__.__name__] *)
Definition class_name (e : MetricEvent) : string :=
  match e with
  | JobStarted _ _ _ => "JobStarted"
  | JobCompleted _ _ _ _ _ => "JobCompleted"
  | JobFailed _ _ _ _ => "JobFailed"
  | IngestionCompleted _ _ _ _ _ => "IngestionCompleted"
  | BackupCompleted _ _ _ _ => "BackupCompleted"
  | RestoreDrillCompleted _ _ _ _ => "RestoreDrillCompleted"
  | RestoreDrillFailed _ _ _ _ _ => "RestoreDrillFailed"
  | CircuitStateChanged _ _ _ => "CircuitStateChanged"
  | CacheHit _ _ _ => "CacheHit"
  | DegradedResponseEmitted _ _ => "DegradedResponseEmitted"
  | CalibrationCompleted _ _ _ _ => "CalibrationCompleted"
  | PlannerRegionHintMissing _ => "PlannerRegionHintMissing"
  | LocationRegexFallbackExecuted _ => "LocationRegexFallbackExecuted"
  end.

Definition jopt (s : option string) : json := match s with Some s => JStr s | None => JNull end.

(** [MetricEvent.as_dict]: the fields in order, instants as ISO text. *)
Definition as_dict `{IsoTime} (e : MetricEvent) : list (string * json) :=
  match e with
  | JobStarted i enqueued started =>
      [("investigation_id", JStr i); ("enqueued_at", jopt (isoformat <$> enqueued));
       ("started_at", JStr (isoformat started))]
  | JobCompleted i status d cost tier =>
      [("investigation_id", JStr i); ("status", JStr status); ("duration_seconds", JFloat d);
       ("llm_cost_estimate", JFloat cost); ("complexity_tier", jopt tier)]
  | JobFailed i code msg n =>
      [("investigation_id", JStr i); ("error_code", JStr code); ("error_message", JStr msg);
       ("attempt_number", JInt n)]
  | IngestionCompleted s f i d ok =>
      [("source", JStr s); ("records_fetched", JInt f); ("records_inserted", JInt i); ("duration_ms", JInt d);
       ("success", JBool ok)]
  | BackupCompleted b size d ok =>
      [("backup_id", JStr b); ("size_bytes", JInt size); ("duration_ms", JFloat d); ("success", JBool ok)]
  | RestoreDrillCompleted r b d ok =>
      [("drill_id", JStr r); ("backup_id", JStr b); ("duration_ms", JFloat d); ("success", JBool ok)]
  | RestoreDrillFailed r b d msg ds =>
      [("drill_id", JStr r); ("backup_id", JStr b); ("duration_ms", JFloat d); ("error_message", JStr msg);
       ("discrepancies", JObj ds)]
  | CircuitStateChanged s p n => [("source", JStr s); ("previous_state", JStr p); ("new_state", JStr n)]
  | CacheHit s k d => [("source", JStr s); ("cache_key", JStr k); ("degraded", JBool d)]
  | DegradedResponseEmitted s st => [("source", JStr s); ("source_status", JStr st)]
  | CalibrationCompleted m p v x =>
      [("model_name", JStr m); ("promoted", JBool p); ("version", JInt v); ("validation_score", JFloat x)]
  | PlannerRegionHintMissing a | LocationRegexFallbackExecuted a => [("agent", JStr a)]
  end.

(** [emit]: one log entry with the name of the class and the fields as keyword
    arguments; a field named like an argument of the call is a [TypeError]. *)
Definition emit `{IsoTime} (e : MetricEvent) : result pyexn (list (string * json)) :=
  let fields := as_dict e in
  if existsb (fun kv => existsb (String.eqb kv.1) ["event"; "event_type"]) fields then Raise TypeError
  else Ok (("event", JStr "metrics.event") :: ("event_type", JStr (class_name e)) :: fields).

(** ** Rows *)

Record MetricEventRow := {
  m_event_type : string;
  m_group_key : option string;
  m_duration_ms : Z;
  m_queue_wait_ms : option Z;
  m_cost : Z;
  m_success : bool;
}.

(** [int(x)] *)
Definition int_of_float (x : float) : result pyexn Z :=
  match float_trunc x with
  | Some n => Ok n
  | None => Raise (if is_nan x then ValueError else OtherError "OverflowError")
  end.

Section collector.
(** [Decimal(str(x))] in a column of ten digits, six of them decimals. *)
Variable numeric : float -> Z.

Definition plain (name : string) (key : option string) (d : Z) (ok : bool) : MetricEventRow :=
  {| m_event_type := name; m_group_key := key; m_duration_ms := d; m_queue_wait_ms := None; m_cost := 0;
     m_success := ok |}.

(** The row [persist_metric] adds; none for an event it does not know. *)
Definition metric_row (e : MetricEvent) : result pyexn (option MetricEventRow) :=
  match e with
  | JobStarted _ enqueued_at started_at =>
      wait ← match enqueued_at with
             | None => Ok None
             | Some t => ms ← int_of_float (fmul (total_seconds started_at t) (float_of_Z 1000));
                         Ok (Some (Z.max 0 ms))
             end;
      Ok (Some {| m_event_type := "JobStarted"; m_group_key := None; m_duration_ms := 0; m_queue_wait_ms := wait;
                  m_cost := 0; m_success := true |})
  | JobCompleted _ _ duration_seconds cost tier =>
      d ← int_of_float (fmul duration_seconds (float_of_Z 1000));
      Ok (Some {| m_event_type := "JobCompleted"; m_group_key := tier; m_duration_ms := d; m_queue_wait_ms := None;
                  m_cost := numeric cost; m_success := true |})
  | JobFailed _ _ _ _ => Ok (Some (plain "JobFailed" None 0 false))
  | IngestionCompleted source _ _ d ok => Ok (Some (plain "IngestionCompleted" (Some source) d ok))
  | BackupCompleted id _ duration ok =>
      d ← int_of_float duration; Ok (Some (plain "BackupCompleted" (Some id) d ok))
  | RestoreDrillCompleted id _ duration ok =>
      d ← int_of_float duration; Ok (Some (plain "RestoreDrillCompleted" (Some id) d ok))
  | RestoreDrillFailed id _ duration _ _ =>
      d ← int_of_float duration; Ok (Some (plain "RestoreDrillFailed" (Some id) d false))
  | CalibrationCompleted name promoted _ _ => Ok (Some (plain "CalibrationCompleted" (Some name) 0 promoted))
  | PlannerRegionHintMissing agent | LocationRegexFallbackExecuted agent =>
      Ok (Some (plain (class_name e) (Some agent) 0 true))
  | CircuitStateChanged _ _ _ | CacheHit _ _ _ | DegradedResponseEmitted _ _ => Ok None
  end.

(** A session with rows added but not flushed, and the table; [ts] is the instant
    of the flush. *)
Record store := Store {
  pending : list MetricEventRow;
  table : list (Z * MetricEventRow);
  now : Z;
  db : list bool;
}.

Definition persist_metric (e : MetricEvent) : M store unit := fun w =>
  match metric_row e with
  | Ok (Some row) => (Ok tt, Store (pending w ++ [row]) (table w) (now w) (db w))
  | Ok None => (Ok tt, w)
  | Raise x => (Raise x, w)
  end.

(** The integer columns have 32 bits. *)
Definition int4 (n : Z) : bool := (- 2 ^ 31 <=? n) && (n <? 2 ^ 31).
Definition storable (row : MetricEventRow) : bool :=
  int4 (m_duration_ms row) && match m_queue_wait_ms row with Some n => int4 n | None => true end.

End collector.

#[global] Program Instance metrics_db : Db store := {|
  script := db;
  set_script cs w := Store (pending w) (table w) (now w) cs;
|}.
Solve All Obligations with by intros [].

(** The caller's commit: the rows get their timestamp. *)
Definition flush : M store unit := fun w =>
  if forallb storable (pending w)
  then (Ok tt, Store [] (table w ++ map (pair (now w)) (pending w)) (now w) (db w))
  else (Raise db_error, Store [] (table w) (now w) (db w)).

Definition commit : M store unit := statement ≫= fun _ => flush.

(** ** Aggregation *)

Inductive GroupBy := COMPLEXITY_TIER | DAY | EVENT_TYPE.

Definition SUPPORTED_EVENT_TYPES : list string :=
  ["JobCompleted"; "JobFailed"; "IngestionCompleted"; "BackupCompleted"; "RestoreDrillCompleted";
   "RestoreDrillFailed"; "CalibrationCompleted"; "PlannerRegionHintMissing"; "LocationRegexFallbackExecuted"].

Definition _WINDOW_INTERVAL : list (string * Z) :=
  [("1d", PyTime.DAY); ("7d", 7 * PyTime.DAY); ("30d", 30 * PyTime.DAY); ("90d", 90 * PyTime.DAY)].

Record MetricRollup := {
  ro_group_key : option string;
  ro_count : Z;
  ro_p50_latency_ms : float;
  ro_p95_latency_ms : float;
  ro_avg_cost_estimate : float;
  ro_success_rate : float;
}.

(** [PERCENTILE_CONT(p) WITHIN GROUP (ORDER BY x)] of PostgreSQL over integers: the
    queries only name it; this is the server's documented linear interpolation
    between the rows around position [p * (n - 1)], in its binary64 arithmetic. *)
Definition percentile_cont (p : float) (xs : list Z) : float :=
  let sorted := merge_sort Z.le xs in
  let pos := fmul p (float_of_Z (Z.of_nat (length xs) - 1)) in
  let first_row := default 0 (float_floor pos) in
  let second_row := default 0 (float_ceil pos) in
  let at_row k := float_of_Z (default 0 (sorted !! Z.to_nat k)) in
  if first_row =? second_row then at_row first_row
  else fadd (at_row first_row)
         (fmul (fsub pos (float_of_Z first_row)) (fsub (at_row second_row) (at_row first_row))).

(** [float(x or 0.0)] *)
Definition float_or_zero (x : float) : float := if feqb x f0 then f0 else x.

(** [GROUP BY key]: the groups of rows with equal keys. *)
Definition groups {K A} `{EqDecision K} (key : A -> K) (rows : list A) : list (K * list A) :=
  map (fun k => (k, List.filter (fun a => bool_decide (key a = k)) rows)) (remove_dups (map key rows)).

(** [ORDER BY count DESC] and [ORDER BY] the day. *)
Definition more_rows {K A} (a b : K * list A) : Prop := (length b.2 <= length a.2)%nat.
Definition earlier {A} (a b : Z * list A) : Prop := a.1 <= b.1.

#[global] Instance more_rows_dec {K A} : RelDecision (@more_rows K A).
Proof. intros a b. unfold more_rows. apply _. Defined.
#[global] Instance earlier_dec {A} : RelDecision (@earlier A).
Proof. intros a b. unfold earlier. apply _. Defined.

Definition event : Type := Z * MetricEventRow.

Section aggregation.
Variable numeric_avg : list Z -> float.                  (* [float(AVG(x))], [x] in millionths *)
Variable plan : forall A, list A -> list A.              (* the order in which groups are delivered *)

Definition _row_to_rollup (label : option string) (rows : list event) : MetricRollup :=
  let durations := map (fun r => m_duration_ms r.2) rows in
  {| ro_group_key := label;
     ro_count := Z.of_nat (length rows);
     ro_p50_latency_ms := float_or_zero (percentile_cont (flit 1 2) durations);
     ro_p95_latency_ms := float_or_zero (percentile_cont (flit 95 100) durations);
     ro_avg_cost_estimate := float_or_zero (numeric_avg (map (fun r => m_cost r.2) rows));
     ro_success_rate := float_or_zero (numeric_avg (map (fun r => if m_success r.2 then 1000000 else 0) rows)) |}.

(** The [WHERE] clause of the three queries. *)
Definition selected (now interval : Z) (event_type : option string) (r : event) : bool :=
  (now - interval <? r.1) && match event_type with
                             | None => true
                             | Some t => String.eqb (m_event_type r.2) t
                             end.

Definition tier_key (r : event) : option string := m_group_key r.2.
Definition day_key (r : event) : Z := r.1 / PyTime.DAY.
Definition type_key (r : event) : string := m_event_type r.2.

Definition by_count {K} `{EqDecision K} (key : event -> K) (rows : list event) : list (K * list event) :=
  merge_sort more_rows (plan _ (groups key rows)).

(** [_SQL_GROUP_BY_KEY], [_SQL_GROUP_BY_DAY] and [_SQL_GROUP_BY_EVENT_TYPE]. *)
Definition rollups (group_by : GroupBy) (rows : list event) : list MetricRollup :=
  match group_by with
  | COMPLEXITY_TIER => map (fun g => _row_to_rollup g.1 g.2) (by_count tier_key rows)
  | DAY => map (fun g => _row_to_rollup (Some (isodate (g.1 * PyTime.DAY))) g.2)
             (merge_sort earlier (groups day_key rows))
  | EVENT_TYPE => map (fun g => _row_to_rollup (Some g.1) g.2) (by_count type_key rows)
  end.

Definition supported (event_type : option string) : bool :=
  match event_type with Some t => existsb (String.eqb t) SUPPORTED_EVENT_TYPES | None => true end.

Definition aggregate_metrics (window : string) (group_by : GroupBy) (event_type : option string)
    : M store (list MetricRollup) :=
  if negb (supported event_type) then raise ValueError
  else match assoc window _WINDOW_INTERVAL with
       | None => raise (OtherError "KeyError")
       | Some interval =>
           select (fun w => rollups group_by (List.filter (selected (now w) interval event_type) (table w)))
       end.
End aggregation.

(** ** Counters *)

Definition label_set : Type := list (string * string).

(** Tuples compare component by component. *)
Definition item_le (a b : string * string) : Prop :=
  str_le a.1 b.1 /\ (a.1 = b.1 -> str_le a.2 b.2).
#[global] Instance item_le_dec : RelDecision item_le.
Proof. intros a b. unfold item_le. apply _. Defined.

(** [tuple(sorted(label_kwargs.items()))] *)
Definition label_key (labels : label_set) : label_set := merge_sort item_le labels.

Record MetricCounter := Counter {
  c_name : string;
  c_description : string;
  c_counts : gmap label_set Z;
}.

Definition counter_get (c : MetricCounter) (labels : label_set) : Z := default 0 (c_counts c !! label_key labels).

(** [MetricCounterLabel.inc] on the counter's [labels], with the events it emits. *)
Definition inc (labels : label_set) (amount : Z) (c : MetricCounter) : MetricCounter * list MetricEvent :=
  let k := label_key labels in
  let agent := default "unknown" (assoc "agent" labels) in
  (Counter (c_name c) (c_description c) (<[k := default 0 (c_counts c !! k) + amount]> (c_counts c)),
   if String.eqb (c_name c) "gaiaos_planner_region_hint_missing_total" then [PlannerRegionHintMissing agent]
   else if String.eqb (c_name c) "gaiaos_location_regex_fallback_total" then [LocationRegexFallbackExecuted agent]
   else []).

Definition PLANNER_REGION_HINT_MISSING_TOTAL : MetricCounter :=
  Counter "gaiaos_planner_region_hint_missing_total" "Count of queries missing region_hint before fallback" ∅.
Definition LOCATION_REGEX_FALLBACK_TOTAL : MetricCounter :=
  Counter "gaiaos_location_regex_fallback_total" "Count of location extraction regex fallback executions" ∅.

(** ** Groups *)

Section group_lemmas.
Context {K A : Type} `{EqDecision K} (key : A -> K).

Definition part (rows : list A) (k : K) : list A := List.filter (fun a => bool_decide (key a = k)) rows.

Lemma groups_keys rows : map fst (groups key rows) = remove_dups (map key rows).
Proof. unfold groups. rewrite map_map. apply map_id. Qed.

Lemma groups_elem rows g : g ∈ groups key rows <-> g.1 ∈ map key rows /\ g.2 = part rows g.1.
Proof.
  unfold groups. rewrite list_elem_of_fmap. setoid_rewrite elem_of_remove_dups. destruct g as [k p]. cbn. split.
  - intros (k' & [= -> ->] & Hk). done.
  - intros [Hk ->]. by exists k.
Qed.

Lemma part_others rows k k' : k' <> k ->
  part (List.filter (fun a => negb (bool_decide (key a = k))) rows) k' = part rows k'.
Proof.
  intros Hk. unfold part. induction rows as [|a rows IH]; [done|]. cbn.
  destruct (bool_decide (key a = k)) eqn:E; cbn; [|by rewrite IH].
  bool_to_prop. rewrite IH. by rewrite bool_decide_eq_false_2 by congruence.
Qed.

Lemma parts_concat ks rows : NoDup ks -> (forall a, a ∈ rows -> key a ∈ ks) -> concat (map (part rows) ks) ≡ₚ rows.
Proof.
  revert rows. induction ks as [|k ks IH]; intros rows Hn Hk.
  { destruct rows as [|a rows]; [done|]. by specialize (Hk a (list_elem_of_here _ _)) as ?%elem_of_nil. }
  apply NoDup_cons in Hn as [Hin Hn]. cbn.
  set (others := List.filter (fun a => negb (bool_decide (key a = k))) rows).
  replace (map (part rows) ks) with (map (part others) ks).
  - rewrite (IH others Hn).
    + unfold part, others. clear. induction rows as [|a rows IH]; [done|]. cbn.
      destruct (bool_decide (key a = k)); cbn; [by rewrite IH|]. by rewrite <- Permutation_middle, IH.
    + intros a [Ha Hne]%elem_of_filter_bool. bool_to_prop. by specialize (Hk a Ha) as [E|?]%elem_of_cons.
  - apply map_ext_in. intros k' Hk'%list_elem_of_In. apply part_others. congruence.
Qed.

Lemma groups_concat rows : concat (map snd (groups key rows)) ≡ₚ rows.
Proof.
  unfold groups. rewrite map_map. apply parts_concat; [apply NoDup_remove_dups|].
  intros a Ha. apply elem_of_remove_dups, list_elem_of_fmap. eauto.
Qed.
End group_lemmas.

#[global] Instance more_rows_total {K A} : Total (@more_rows K A).
Proof. intros a b. unfold more_rows. lia. Qed.
#[global] Instance earlier_total {A} : Total (@earlier A).
Proof. intros a b. unfold earlier. lia. Qed.

Definition label_of (group_by : GroupBy) (r : event) : option string :=
  match group_by with
  | COMPLEXITY_TIER => m_group_key r.2
  | DAY => Some (isodate r.1)
  | EVENT_TYPE => Some (m_event_type r.2)
  end.

(** What a list of rollups says about the rows: one rollup per label, computed from
    exactly the rows with that label. *)
Record summarizes (avg : list Z -> float) (label : event -> option string) (rows : list event)
    (rs : list MetricRollup) : Prop := {
  one_per_label : NoDup (map ro_group_key rs);
  labels_covered : forall row, row ∈ rows -> exists r, r ∈ rs /\ ro_group_key r = label row;
  from_its_rows : forall r, r ∈ rs ->
    let mine := part label rows (ro_group_key r) in mine <> [] /\ r = _row_to_rollup avg (ro_group_key r) mine;
  all_counted : foldr (fun r n => ro_count r + n) 0 rs = Z.of_nat (length rows);
}.

Section summary.
Variable avg : list Z -> float.
Context {K : Type} `{EqDecision K} (key : event -> K) (lab : K -> option string).

Lemma total_count (gs : list (K * list event)) :
  foldr (fun r n => ro_count r + n) 0 (map (fun g => _row_to_rollup avg (lab g.1) g.2) gs) =
  Z.of_nat (length (concat (map snd gs))).
Proof. induction gs as [|g gs IH]; [done|]. cbn -[_row_to_rollup]. rewrite IH, length_app. cbn. lia. Qed.

Lemma groups_summarize gs rows : gs ≡ₚ groups key rows ->
  (forall a b, a ∈ rows -> b ∈ rows -> lab (key a) = lab (key b) -> key a = key b) ->
  summarizes avg (fun r => lab (key r)) rows (map (fun g => _row_to_rollup avg (lab g.1) g.2) gs).
Proof.
  intros Hgs Hinj.
  assert (forall g, g ∈ gs <-> g.1 ∈ map key rows /\ g.2 = part key rows g.1) as Hg.
  { intros g. rewrite Hgs. apply groups_elem. }
  assert (forall k a, k ∈ map key rows -> a ∈ rows -> lab (key a) = lab k -> key a = k) as Hk.
  { intros k a (b & -> & Hb)%list_elem_of_fmap Ha. by apply Hinj. }
  split.
  - rewrite map_map. cbn. rewrite <- (map_map fst lab). rewrite (fmap_Permutation fst _ _ Hgs : map fst gs ≡ₚ _), groups_keys.
    assert (forall k, k ∈ remove_dups (map key rows) -> k ∈ map key rows) as Hin by (intros k; by rewrite elem_of_remove_dups).
    pose proof (NoDup_remove_dups (map key rows)) as Hn. induction Hn as [|k ks Hnin Hn IH]; [constructor|]. cbn.
    apply NoDup_cons. split; [|apply IH; set_solver]. intros (k' & E & Hk')%list_elem_of_fmap.
    pose proof (Hin k' ltac:(set_solver)) as (a & -> & Ha)%list_elem_of_fmap.
    apply Hnin. rewrite <- (Hk k a); [done | set_solver | done | by symmetry].
  - intros row Hrow. exists (_row_to_rollup avg (lab (key row)) (part key rows (key row))). split; [|done].
    apply list_elem_of_fmap. exists (key row, part key rows (key row)). split; [done|].
    apply Hg. split; [|done]. apply list_elem_of_fmap. eauto.
  - intros r ([k p] & -> & [Hin Hp]%Hg)%list_elem_of_fmap. cbn in *. subst p.
    assert (part (fun r => lab (key r)) rows (lab k) = part key rows k) as ->.
    { unfold part. apply List.filter_ext_in. intros a Ha%list_elem_of_In. apply bool_decide_ext.
      split; [by apply Hk | by intros ->]. }
    split; [|done]. apply list_elem_of_fmap in Hin as (a & -> & Ha). intros E.
    assert (a ∈ part key rows (key a)) as Hm; [|rewrite E in Hm; by apply elem_of_nil in Hm].
    apply elem_of_filter_bool. by rewrite bool_decide_eq_true_2.
  - rewrite total_count, Hgs, groups_concat. done.
Qed.
End summary.

(** ** The rollups *)

Definition in_calendar (t : Z) : Prop := 1 <= (date_of t).1.1 <= 9999.

Lemma date_of_day t : date_of (t / PyTime.DAY * PyTime.DAY) = date_of t.
Proof. unfold date_of. by rewrite Z.div_mul. Qed.

Lemma isodate_day t : isodate (t / PyTime.DAY * PyTime.DAY) = isodate t.
Proof. unfold isodate. by rewrite date_of_day. Qed.

Lemma isodate_inj t u : in_calendar t -> in_calendar u -> isodate t = isodate u -> t / PyTime.DAY = u / PyTime.DAY.
Proof.
  intros Ht%isodate_roundtrip Hu%isodate_roundtrip E. rewrite E, Hu in Ht. injection Ht as E2.
  by apply (Z.mul_reg_r _ _ PyTime.DAY).
Qed.

(** The order the queries ask for. *)
Definition ordered (group_by : GroupBy) (rs : list MetricRollup) : Prop :=
  match group_by with
  | DAY => exists days, Sorted Z.le days /\ map ro_group_key rs = map (fun d => Some (isodate (d * PyTime.DAY))) days
  | _ => Sorted (fun a b => ro_count b <= ro_count a) rs
  end.

Lemma Sorted_map_iff {A B} (R : A -> A -> Prop) (S : B -> B -> Prop) (f : A -> B) l :
  (forall a b, R a b -> S (f a) (f b)) -> Sorted R l -> Sorted S (map f l).
Proof.
  intros Hf. induction 1 as [|a l _ IH Ha]; [constructor|]. cbn. constructor; [done|].
  inversion Ha; subst; cbn; constructor. by apply Hf.
Qed.

Lemma day_label r : Some (isodate (day_key r * PyTime.DAY)) = label_of DAY r.
Proof. unfold day_key. by rewrite isodate_day. Qed.

Lemma summarizes_ext avg label label' rows rs : (forall r, label r = label' r) ->
  summarizes avg label' rows rs -> summarizes avg label rows rs.
Proof.
  intros Hl [H1 H2 H3 H4]. split; [done | | | done].
  - intros row. rewrite Hl. apply H2.
  - intros r Hr. replace (part label rows (ro_group_key r)) with (part label' rows (ro_group_key r)); [by apply H3|].
    unfold part. apply List.filter_ext. intros a. by rewrite Hl.
Qed.

Section aggregate.
Variable avg : list Z -> float.
Variable plan : forall A, list A -> list A.
Hypothesis plan_permutes : forall A (l : list A), plan A l ≡ₚ l.

Lemma by_count_perm {K} `{EqDecision K} (key : event -> K) rows : by_count plan key rows ≡ₚ groups key rows.
Proof. unfold by_count. by rewrite merge_sort_Permutation, plan_permutes. Qed.

Lemma by_count_ordered {K} `{EqDecision K} (key : event -> K) (lab : K -> option string) rows :
  Sorted (fun a b => ro_count b <= ro_count a) (map (fun g => _row_to_rollup avg (lab g.1) g.2) (by_count plan key rows)).
Proof.
  apply (Sorted_map_iff more_rows); [|apply Sorted_merge_sort, _]. intros a b. unfold more_rows. cbn. lia.
Qed.

Lemma rollups_spec group_by rows : (group_by = DAY -> forall r, r ∈ rows -> in_calendar r.1) ->
  summarizes avg (label_of group_by) rows (rollups avg plan group_by rows) /\ ordered group_by (rollups avg plan group_by rows).
Proof.
  intros Hc. destruct group_by; cbn -[_row_to_rollup].
  - split; [|apply (by_count_ordered tier_key (fun k => k))].
    apply (groups_summarize avg tier_key (fun k => k)); [apply by_count_perm | done].
  - split.
    + eapply summarizes_ext; [intros r; symmetry; apply day_label|].
      apply (groups_summarize avg day_key (fun k => Some (isodate (k * PyTime.DAY)))); [apply merge_sort_Permutation|].
      unfold day_key. intros a b Ha Hb [= E]. rewrite !isodate_day in E. apply isodate_inj; auto.
    + exists (map fst (merge_sort earlier (groups day_key rows))). split; [|by rewrite !map_map].
      apply (Sorted_map_iff earlier); [done | apply Sorted_merge_sort, _].
  - split; [|apply (by_count_ordered type_key Some)].
    apply (groups_summarize avg type_key Some); [apply by_count_perm | by intros a b _ _ [= E]].
Qed.
End aggregate.

(** ** Percentiles *)

Lemma sorted_lookup (l : list Z) i j a b : StronglySorted Z.le l -> (i <= j)%nat -> l !! i = Some a -> l !! j = Some b -> a <= b.
Proof.
  intros Hs. revert i j. induction Hs as [|x l _ IH Hx]; intros i j Hij Hi Hj; [done|].
  destruct i as [|i], j as [|j]; cbn in Hi, Hj; simplify_eq; [done| |lia|].
  - rewrite Forall_forall in Hx. apply Hx. by apply list_elem_of_lookup_2 in Hj.
  - apply (IH i j); [lia | done..].
Qed.

Lemma sorted_row (xs : list Z) k : 0 <= k < Z.of_nat (length xs) -> exists x, merge_sort Z.le xs !! Z.to_nat k = Some x /\ x ∈ xs.
Proof.
  intros Hk. destruct (lookup_lt_is_Some_2 (merge_sort Z.le xs) (Z.to_nat k)) as [x Hx].
  { rewrite merge_sort_Permutation. lia. }
  exists x. split; [done|]. apply list_elem_of_lookup_2 in Hx. by rewrite merge_sort_Permutation in Hx.
Qed.

(** The float of a positive integer. *)
Lemma of_Z_form n : 0 < n < MAX_INT -> exists m e,
  float_of_Z n = S754_finite false m e /\ bounded fprec femax m e = true /\ -53 < e <= 0 /\ Z.pos m = n * 2 ^ (- e).
Proof.
  intros Hn. destruct (of_Z_spec n ltac:(lia)) as (V & N & E). destruct (float_of_Z n) as [s| | |[] m e]; try done.
  { cbn in E. assert (0 < 2 ^ 1074) by done. nia. }
  exists m, e. split; [done|]. split; [done|]. cbn [val] in E.
  pose proof (bounded_spec _ _ V) as (Hc & Hm & H53 & H52). pose proof (exponent_range _ _ V) as He.
  assert (0 < 2 ^ 1074) as Hp by done.
  assert (-53 < e) as Hlo.
  { destruct (Z.le_gt_cases e (-53)) as [Hle|]; [|done]. exfalso.
    assert (2 ^ (e + 1074) * 2 ^ 53 <= 2 ^ 1074) by (rewrite <- Z.pow_add_r by lia; apply Z.pow_le_mono_r; lia).
    assert (0 < 2 ^ (e + 1074)) by (apply Z.pow_pos_nonneg; lia). nia. }
  assert (e <= 0) as Hup.
  { destruct (Z.le_gt_cases e 0) as [|Hgt]; [done|]. exfalso. specialize (H52 ltac:(lia)).
    assert (2 ^ 1074 * 2 ^ 1 <= 2 ^ (e + 1074)) by (rewrite <- Z.pow_add_r by lia; apply Z.pow_le_mono_r; lia).
    change (2 ^ 1) with 2 in *.
    unfold MAX_INT in Hn. change (2 ^ 53) with (2 * 2 ^ 52) in *. set (q := 2 ^ 52) in *. nia. }
  split; [lia|]. rewrite (pow_split e), Z.mul_assoc in E by lia.
  apply Z.mul_cancel_r in E; [done|]. apply Z.pow_nonzero; lia.
Qed.

(** Where the position of a percentile lies: [c / 2^53] of [n], rounded, is between
    two integers when the exact product is. *)
Lemma position_between c n lo hi : bounded fprec femax c (-53) = true -> 0 <= n < MAX_INT -> 0 <= lo -> 0 <= hi < MAX_INT ->
  lo * 2 ^ 53 <= Z.pos c * n <= hi * 2 ^ 53 ->
  let pos := fmul (S754_finite false c (-53)) (float_of_Z n) in
  fvalid pos = true /\ nonneg_finite pos = true /\ lo * 2 ^ 1074 <= val pos <= hi * 2 ^ 1074.
Proof.
  intros Hc Hn Hlo Hhi Hp pos. assert (0 < 2 ^ 53) as H53 by done.
  destruct (decide (n = 0)) as [->|Hn0].
  { change pos with (S754_zero false). assert (lo = 0) as -> by nia. cbn [val]. split; [done|]. split; [done|].
    assert (0 < 2 ^ 1074) by done. nia. }
  destruct (of_Z_form n ltac:(lia)) as (m & e & En & Hb & He & Hm).
  destruct (of_Z_spec hi Hhi) as (Vh & Nh & Eh).
  assert (pos = binary_round fprec femax false (c * m) (-53 + e)) as Epos by (unfold pos; by rewrite En, fmul_round).
  assert (fvalid pos = true) as Vp by (rewrite Epos; apply binary_round_valid).
  assert (0 < 2 ^ (- e)) as Hpe by (apply Z.pow_pos_nonneg; lia).
  assert (2 ^ (- (-53 + e)) = 2 ^ 53 * 2 ^ (- e)) as Hpow by (rewrite <- Z.pow_add_r by lia; f_equal; lia).
  assert (fle pos (float_of_Z hi)) as Hup.
  { rewrite Epos. apply round_val_le; [lia | done.. |]. rewrite Eh, (pow_split (-53 + e)), Hpow, Pos2Z.inj_mul, Hm by lia.
    assert (0 < 2 ^ (-53 + e + 1074)) by (apply Z.pow_pos_nonneg; lia). nia. }
  assert (fle f0 pos) as Pp.
  { destruct (of_Z_spec n Hn) as (Vn & Nn & _). by apply fmul_nonneg_valid. }
  pose proof (below_finite _ _ Pp Hup Nh) as Np. split; [done|]. split; [done|]. split.
  - destruct (decide (lo = 0)) as [->|Hl0]; [by apply val_nonneg|].
    assert (lo < MAX_INT) as Hlm by nia.
    destruct (of_Z_form lo ltac:(lia)) as (ml & el & El & Hbl & Hel & Hml). destruct (of_Z_spec lo ltac:(lia)) as (Vl & Nl & Evl).
    rewrite <- Evl. apply fle_val; [done..|]. rewrite Epos, El. apply round_ge; [done | lia |].
    rewrite Hml, Pos2Z.inj_mul, Hm, <- Z.mul_assoc, <- Z.pow_add_r by lia.
    replace (- el + (el - (-53 + e))) with (- (-53 + e)) by lia. rewrite Hpow. nia.
  - rewrite <- Eh. by apply fle_val.
Qed.

(** The part of a position above its floor is in the unit interval. *)
Lemma fraction_range x : fvalid x = true -> nonneg_finite x = true -> val x / 2 ^ 1074 < MAX_INT ->
  let t := fsub x (float_of_Z (val x / 2 ^ 1074)) in fvalid t = true /\ fle f0 t /\ fle t f1.
Proof.
  intros Hx Nx Hlt t. pose proof (val_nonneg x Nx) as Px. set (P := 2 ^ 1074) in *.
  assert (0 < P) by done. pose proof (Z.div_pos (val x) P Px ltac:(done)) as Hpos.
  pose proof (Z.mul_div_le (val x) P ltac:(done)) as Hlo. pose proof (Z.mul_succ_div_gt (val x) P ltac:(done)) as Hup.
  destruct (of_Z_spec (val x / P) ltac:(lia)) as (Vf & Nf & Ef). fold P in Ef.
  assert (fle (float_of_Z (val x / P)) x) as Hle by (apply fle_val; [done..|]; rewrite Ef; lia).
  split; [by apply fsub_valid|]. split; [by apply fsub_nonneg|].
  apply fsub_val_le; [done..| |]; rewrite Ef; [lia|]. change (val f1) with P. lia.
Qed.

(** A percentile lies between the rows around its position. *)
Lemma percentile_between c xs lo hi a b : bounded fprec femax c (-53) = true ->
  xs <> [] -> Z.of_nat (length xs) <= MAX_INT -> (forall x, x ∈ xs -> 0 <= x < MAX_INT) ->
  0 <= lo -> hi < Z.of_nat (length xs) ->
  lo * 2 ^ 53 <= Z.pos c * (Z.of_nat (length xs) - 1) <= hi * 2 ^ 53 ->
  merge_sort Z.le xs !! Z.to_nat lo = Some a -> merge_sort Z.le xs !! Z.to_nat hi = Some b ->
  let y := percentile_cont (S754_finite false c (-53)) xs in
  fle (float_of_Z a) y /\ fle y (float_of_Z b).
Proof.
  intros Hc Hne Hlen Hxs Hlo Hhi Hp Ea Eb y. subst y. unfold percentile_cont.
  assert (0 < Z.of_nat (length xs)) as Hn by (destruct xs; [done | cbn; lia]).
  assert (0 < 2 ^ 53) as H53 by done.
  destruct (position_between c (Z.of_nat (length xs) - 1) lo hi Hc ltac:(lia) Hlo ltac:(nia) Hp) as (Vp & Np & Hv).
  set (pos := fmul _ _) in *. rewrite floor_val, ceil_val by done. cbn [default id from_option].
  set (P := 2 ^ 1074) in *. set (v := val pos) in *. assert (0 < P) as HP by done.
  set (f := v / P). set (k := - (- v / P)).
  assert (lo <= f /\ f <= k /\ k <= hi) as (Hf & Hfk & Hk).
  { unfold f, k. clearbody v P. clear -Hv HP. pose proof (Z.mul_div_le v P HP). pose proof (Z.mul_succ_div_gt v P HP).
    pose proof (Z.mul_div_le (- v) P HP). pose proof (Z.mul_succ_div_gt (- v) P HP).
    repeat split; [apply Z.div_le_lower_bound; lia | nia | nia]. }
  destruct (sorted_row xs f ltac:(lia)) as (x & Ex & Hx). destruct (sorted_row xs k ltac:(lia)) as (z & Ez & Hz).
  assert (StronglySorted Z.le (merge_sort Z.le xs)) as HS by (apply Sorted_StronglySorted, Sorted_merge_sort; apply _).
  pose proof (sorted_lookup _ (Z.to_nat lo) (Z.to_nat f) a x HS ltac:(lia) Ea Ex). pose proof (sorted_lookup _ (Z.to_nat f) (Z.to_nat k) x z HS ltac:(lia) Ex Ez).
  pose proof (sorted_lookup _ (Z.to_nat k) (Z.to_nat hi) z b HS ltac:(lia) Ez Eb).
  assert (forall i u, merge_sort Z.le xs !! i = Some u -> 0 <= u < MAX_INT) as Hr.
  { intros i u Hu%list_elem_of_lookup_2. rewrite merge_sort_Permutation in Hu. by apply Hxs. }
  pose proof (Hr _ _ Ea). pose proof (Hr _ _ Eb). pose proof (Hr _ _ Ex). pose proof (Hr _ _ Ez).
  rewrite Ex, Ez. cbn [default id from_option]. destruct (f =? k); [split; apply of_Z_le; lia|].
  destruct (fraction_range pos Vp Np ltac:(fold v P f; lia)) as (Vt & T0 & T1). fold v P f in Vt, T0, T1.
  destruct (lerp_between x z _ ltac:(lia) ltac:(lia) ltac:(lia) Vt T0 T1) as [L U].
  split; [eapply fle_trans; [|exact L] | eapply fle_trans; [exact U|]]; apply of_Z_le; lia.
Qed.

Lemma float_or_zero_between x lo hi : fle lo x -> fle x hi -> fle lo (float_or_zero x) /\ fle (float_or_zero x) hi.
Proof.
  unfold float_or_zero. destruct (feqb x f0) eqn:E; [|done]. intros Hl Hh.
  assert (exists s, x = S754_zero s) as [s ->].
  { destruct x as [s|[]| |[] m e]; try done. by exists s. }
  split; [by destruct lo as [| | |[]] | by destruct hi as [| | |[]]].
Qed.

(** ** Labels *)

Lemma str_compare_trans a b c : str_le a b -> str_le b c -> str_le a c.
Proof.
  unfold str_le, String.leb. revert b c. induction a as [|x a IH]; intros [|y b] [|z c]; cbn; try done.
  intros H1 H2. destruct (Ascii.compare x y) eqn:E1; [| |done].
  - apply Ascii.compare_eq_iff in E1 as ->. destruct (Ascii.compare y z); [by apply (IH b) | done | done].
  - destruct (Ascii.compare y z) eqn:E2; [| |done].
    + apply Ascii.compare_eq_iff in E2 as <-. by rewrite E1.
    + unfold Ascii.compare in *. apply N.compare_lt_iff in E1, E2.
      by rewrite (proj2 (N.compare_lt_iff _ _) (N.lt_trans _ _ _ E1 E2)).
Qed.

#[global] Instance item_le_trans : Transitive item_le.
Proof.
  intros [a1 a2] [b1 b2] [c1 c2] [H1 H2] [H3 H4]. cbn in *. split; cbn; [by eapply str_compare_trans|].
  intros ->. assert (c1 = b1) as -> by (by apply String.leb_antisym). eapply str_compare_trans; auto.
Qed.

#[global] Instance item_le_antisymm : AntiSymm (=) item_le.
Proof.
  intros [a1 a2] [b1 b2] [H1 H2] [H3 H4]. cbn in *. assert (a1 = b1) as -> by (by apply String.leb_antisym).
  f_equal. apply String.leb_antisym; [by apply H2 | by apply H4].
Qed.

#[global] Instance item_le_total : Total item_le.
Proof.
  intros [a1 a2] [b1 b2]. unfold item_le. cbn. destruct (decide (a1 = b1)) as [->|Hne].
  - destruct (str_le_total a2 b2); [left | right]; (split; [|done]); by destruct (str_le_total b1 b1).
  - destruct (str_le_total a1 b1); [left | right]; by split.
Qed.

(** Labels are a dictionary: their order does not matter. *)
Lemma label_key_perm a b : label_key a = label_key b <-> a ≡ₚ b.
Proof.
  unfold label_key. split.
  - intros E. rewrite <- (merge_sort_Permutation item_le a), E. apply merge_sort_Permutation.
  - intros H. apply (Sorted_unique item_le); [apply Sorted_merge_sort, _..|]. by rewrite !merge_sort_Permutation.
Qed.

(** A process' use of one counter. *)
Fixpoint incs (l : list (label_set * Z)) (c : MetricCounter) : MetricCounter * list MetricEvent :=
  match l with
  | [] => (c, [])
  | (labels, n) :: l => let '(c, es) := inc labels n c in let '(c, es') := incs l c in (c, es ++ es')
  end.

Definition counted (labels : label_set) (l : list (label_set * Z)) : Z :=
  foldr (fun x n => (if bool_decide (label_key x.1 = label_key labels) then x.2 else 0) + n) 0 l.

Lemma inc_get labels k n c : counter_get (inc k n c).1 labels =
  counter_get c labels + if bool_decide (label_key k = label_key labels) then n else 0.
Proof.
  unfold counter_get, inc. cbn [fst c_counts]. destruct (bool_decide _) eqn:E; bool_to_prop.
  - by rewrite E, lookup_insert_eq.
  - rewrite lookup_insert_ne by done. lia.
Qed.

Lemma incs_get labels l c : counter_get (incs l c).1 labels = counter_get c labels + counted labels l.
Proof.
  revert c. induction l as [|[k n] l IH]; intros c; [cbn; lia|].
  assert ((incs ((k, n) :: l) c).1 = (incs l (inc k n c).1).1) as ->.
  { cbn [incs]. destruct (inc k n c) as [c1 es]. cbn [fst]. by destruct (incs l c1). }
  rewrite IH, inc_get. unfold counted at 2. cbn [foldr fst snd]. fold (counted labels l). lia.
Qed.

(** ** Theorems *)

Section theorems.
Variable avg : list Z -> float.
Variable plan : forall A, list A -> list A.

(** What a query that returns has selected. *)
Lemma aggregate_returns window group_by et w rs w' : aggregate_metrics avg plan window group_by et w = (Ok rs, w') ->
  exists interval, assoc window _WINDOW_INTERVAL = Some interval /\
    rs = rollups avg plan group_by (List.filter (selected (now w) interval et) (table w)).
Proof.
  unfold aggregate_metrics. destruct (negb (supported et)); [done|]. destruct (assoc window _WINDOW_INTERVAL) as [i|]; [|done].
  intros (-> & cs & ->)%select_returns. by exists i.
Qed.

(** Rows that a filter keeps stay within the bounds of the table. *)
Lemma kept_rows {P : event -> Prop} (f : event -> bool) l : (forall r, r ∈ l -> P r) -> forall r, r ∈ List.filter f l -> P r.
Proof. intros H r [? _]%elem_of_filter_bool. auto. Qed.

(** On a supported filter and window, the query returns the rollups of exactly the
    rows in the window: one per label, computed from all rows with that label, every
    row counted once, in the order asked for. *)
Lemma aggregate_ok window interval group_by et w :
  (forall A (l : list A), plan A l ≡ₚ l) ->
  (group_by = DAY -> forall e, e ∈ table w -> in_calendar e.1) ->
  db w = [] -> assoc window _WINDOW_INTERVAL = Some interval -> supported et = true ->
  exists rs, aggregate_metrics avg plan window group_by et w = (Ok rs, w) /\
    summarizes avg (label_of group_by) (List.filter (selected (now w) interval et) (table w)) rs /\
    ordered group_by rs.
Proof.
  intros Hplan Hc Hdb Hw Het. unfold aggregate_metrics. rewrite Het, Hw. cbn [negb].
  eexists. split; [by apply select_ok|]. apply rollups_spec; [done|].
  intros E. apply (kept_rows (P := fun e => in_calendar e.1)). by apply Hc.
Qed.

(** The rows a rollup is about: in the window, of the event type asked for, with
    the rollup's label. *)
Definition own_rows (window_start : Z) (et : option string) (group_by : GroupBy) (label : option string) (rows : list event)
    : list event :=
  List.filter (fun e => bool_decide (window_start < e.1 /\ (et = None \/ et = Some (m_event_type e.2)) /\
                                     label_of group_by e = label)) rows.

Lemma own_rows_part now interval et group_by label rows :
  part (label_of group_by) (List.filter (selected now interval et) rows) label =
  own_rows (now - interval) et group_by label rows.
Proof.
  unfold part, own_rows. induction rows as [|e rows IH]; [done|]. cbn [List.filter].
  assert (bool_decide (now - interval < e.1 /\ (et = None \/ et = Some (m_event_type e.2)) /\
            label_of group_by e = label) = selected now interval et e && bool_decide (label_of group_by e = label)) as ->.
  { apply eq_true_iff_eq. unfold selected. rewrite bool_decide_eq_true, !andb_true_iff, Z.ltb_lt, bool_decide_eq_true.
    destruct et as [t|]; [rewrite String.eqb_eq|]; naive_solver. }
  destruct (selected now interval et e); cbn [List.filter andb]; [|exact IH]. by rewrite IH.
Qed.

(** C34. A rollup counts exactly its own rows, those of the window with the event
    type asked for and its label, and its latencies are percentiles of their
    durations: with the [n] durations in ascending order, the median lies
    between those at positions [(n-1)/2] and [n/2], and the 95th percentile
    between that at [19n/20] and the one before it.  Interpolation in binary64
    does not leave these intervals. *)
Theorem latency_bounds (window : string) (interval : Z) (group_by : GroupBy) (et : option string) (w w' : store)
    (rs : list MetricRollup) (r : MetricRollup) :
  (forall A (l : list A), plan A l ≡ₚ l) ->
  (group_by = DAY -> forall e, e ∈ table w -> in_calendar e.1) ->
  Z.of_nat (length (table w)) < 2 ^ 40 ->
  (forall e, e ∈ table w -> 0 <= m_duration_ms e.2 < 2 ^ 31) ->
  assoc window _WINDOW_INTERVAL = Some interval ->
  aggregate_metrics avg plan window group_by et w = (Ok rs, w') -> r ∈ rs ->
  let own := own_rows (now w - interval) et group_by (ro_group_key r) (table w) in
  let n := length own in
  (0 < n)%nat /\ ro_count r = Z.of_nat n /\
  forall ds, Sorted Z.le ds -> ds ≡ₚ map (fun e => m_duration_ms e.2) own ->
  exists a50 b50 a95 b95,
    ds !! ((n - 1) / 2)%nat = Some a50 /\ ds !! (n / 2)%nat = Some b50 /\
    fle (float_of_Z a50) (ro_p50_latency_ms r) /\ fle (ro_p50_latency_ms r) (float_of_Z b50) /\
    ds !! (19 * n / 20 - 1)%nat = Some a95 /\ ds !! (19 * n / 20)%nat = Some b95 /\
    fle (float_of_Z a95) (ro_p95_latency_ms r) /\ fle (ro_p95_latency_ms r) (float_of_Z b95).
Proof.
  intros Hplan Hc Hlen Hd Hi (interval' & Hi' & ->)%aggregate_returns Hr own n. rewrite Hi in Hi'. injection Hi' as <-.
  destruct (rollups_spec avg plan Hplan group_by (List.filter (selected (now w) interval et) (table w))) as [[_ _ Hrows _] _].
  { intros E. apply (kept_rows (P := fun e => in_calendar e.1)). by apply Hc. }
  destruct (Hrows r Hr) as [Hne E]. rewrite own_rows_part in Hne, E. fold own in Hne, E.
  assert (0 < n)%nat as Hn by (unfold n; destruct own; [done | cbn; lia]).
  split; [done|]. split; [by rewrite E|]. intros ds Hs Hp. rewrite E. clear E.
  cbn [ro_p50_latency_ms ro_p95_latency_ms _row_to_rollup].
  set (xs := map (fun e => m_duration_ms e.2) own) in *.
  assert (length xs = n) as Hxl by apply length_map.
  assert (ds = merge_sort Z.le xs) as ->.
  { apply (Sorted_unique Z.le); [done | apply (Sorted_merge_sort Z.le) | by rewrite merge_sort_Permutation]. }
  assert (Z.of_nat n < 2 ^ 40) as Hn40.
  { eapply Z.le_lt_trans; [|exact Hlen]. apply inj_le. unfold n, own, own_rows. apply filter_length_le. }
  assert (forall x, x ∈ xs -> 0 <= x < MAX_INT) as Hx.
  { intros x (e & -> & [He _]%elem_of_filter_bool)%list_elem_of_fmap. specialize (Hd e He). unfold MAX_INT. lia. }
  assert (forall k, (k < n)%nat -> exists x, merge_sort Z.le xs !! k = Some x) as Hrow.
  { intros k Hk. apply lookup_lt_is_Some_2. rewrite merge_sort_Permutation. lia. }
  assert (xs <> []) as Hxne by (intros Hnil; rewrite Hnil in Hxl; cbn in Hxl; lia).
  change (flit 1 2) with (S754_finite false 4503599627370496 (-53)).
  change (flit 95 100) with (S754_finite false 8556839292003942 (-53)).
  destruct (Hrow ((n - 1) / 2)%nat) as [a50 A50]; [apply Nat.div_lt_upper_bound; lia|].
  destruct (Hrow (n / 2)%nat) as [b50 B50]; [apply Nat.div_lt_upper_bound; lia|].
  destruct (Hrow (19 * n / 20 - 1)%nat) as [a95 A95]; [pose proof (Nat.div_lt_upper_bound (19 * n) 20 n ltac:(lia) ltac:(lia)); lia|].
  destruct (Hrow (19 * n / 20)%nat) as [b95 B95]; [apply Nat.div_lt_upper_bound; lia|].
  exists a50, b50, a95, b95.
  destruct (percentile_between 4503599627370496 xs (Z.of_nat ((n - 1) / 2)) (Z.of_nat (n / 2)) a50 b50) as [L50 U50];
    rewrite ?Nat2Z.id, ?Hxl; try done.
  { unfold MAX_INT. lia. } { lia. } { apply inj_lt, Nat.div_lt_upper_bound; lia. }
  { rewrite !Nat2Z.inj_div, Nat2Z.inj_sub by lia. change (2 ^ 53) with 9007199254740992.
    change (Z.of_nat 2) with 2. change (Z.of_nat 1) with 1. Z.div_mod_to_equations. lia. }
  destruct (percentile_between 8556839292003942 xs (Z.of_nat (19 * n / 20 - 1)) (Z.of_nat (19 * n / 20)) a95 b95) as [L95 U95];
    rewrite ?Nat2Z.id, ?Hxl; try done.
  { unfold MAX_INT. lia. } { lia. } { apply inj_lt, Nat.div_lt_upper_bound; lia. }
  { rewrite Nat2Z.inj_sub_max, !Nat2Z.inj_div, Nat2Z.inj_mul. change (2 ^ 53) with 9007199254740992. change (2 ^ 40) with 1099511627776 in Hn40.
    change (Z.of_nat 20) with 20. change (Z.of_nat 19) with 19. change (Z.of_nat 1) with 1. Z.div_mod_to_equations. lia. }
  split; [done|]. split; [done|].
  destruct (float_or_zero_between _ _ _ L50 U50). destruct (float_or_zero_between _ _ _ L95 U95). done.
Qed.

(** The rows of investigation jobs. *)
Definition is_job (e : MetricEvent) : bool :=
  match e with JobStarted _ _ _ | JobCompleted _ _ _ _ _ | JobFailed _ _ _ _ => true | _ => false end.

Lemma tier_rows_succeed numeric e row : is_job e = true -> metric_row numeric e = Ok (Some row) ->
  is_Some (m_group_key row) -> m_success row = true.
Proof.
  destruct e as [i enq st|i s d c t|i c m n| | | | | | | | | |]; try done; intros _; cbn.
  - intros (wait & _ & [= <-])%result_bind_ok. done.
  - intros (ms & _ & [= <-])%result_bind_ok. done.
  - intros [= <-] [? [=]].
Qed.

(** Grouped by tier, investigation jobs never show a failure: a failed job's row has
    no tier, so the success rate of every tier is the average of as many ones as
    the tier has rows. *)
Theorem tier_success_rate_constant (numeric : float -> Z) (window tier : string) (et : option string) (w w' : store)
    (rs : list MetricRollup) (r : MetricRollup) :
  (forall A (l : list A), plan A l ≡ₚ l) ->
  (forall row, row ∈ table w -> exists e, is_job e = true /\ metric_row numeric e = Ok (Some row.2)) ->
  aggregate_metrics avg plan window COMPLEXITY_TIER et w = (Ok rs, w') -> r ∈ rs -> ro_group_key r = Some tier ->
  ro_success_rate r = float_or_zero (avg (repeat 1000000 (Z.to_nat (ro_count r)))).
Proof.
  intros Hplan Hjobs (interval & _ & ->)%aggregate_returns Hr Hk. set (rows := List.filter _ _) in *.
  destruct (rollups_spec avg plan Hplan COMPLEXITY_TIER rows) as [[_ _ Hrows _] _]; [done|].
  destruct (Hrows r Hr) as [_ E]. rewrite E. rewrite Hk. clear E. cbn [ro_success_rate ro_count _row_to_rollup].
  rewrite Nat2Z.id. do 2 f_equal. set (mine := part _ rows _).
  assert (forall e, e ∈ mine -> m_success e.2 = true) as Hok.
  { intros e [He Hl]%elem_of_filter_bool. apply elem_of_filter_bool in He as [He _]. bool_to_prop. cbn in Hl.
    destruct (Hjobs e He) as (ev & Hj & Hrow). apply (tier_rows_succeed numeric ev e.2 Hj Hrow). by rewrite Hl. }
  clearbody mine. induction mine as [|e mine IH]; [done|]. cbn.
  rewrite (Hok e) by set_solver. f_equal. apply IH. set_solver.
Qed.
End theorems.

(** A counter tells, for every label set and in whatever order its labels are
    written, the sum of the increments made with it. *)
Theorem counter_exact (name description : string) (l : list (label_set * Z)) (labels : label_set) :
  counter_get (incs l (Counter name description ∅)).1 labels = counted labels l /\
  forall x, x ∈ l -> (label_key x.1 = label_key labels <-> x.1 ≡ₚ labels).
Proof. split; [by rewrite incs_get | by intros x _; apply label_key_perm]. Qed.

(** Emitting never fails: no event has a field named like an argument of the log
    call. *)
Theorem emit_total `{IsoTime} (e : MetricEvent) : exists entry, emit e = Ok entry /\
  assoc "event_type" entry = Some (JStr (class_name e)).
Proof. destruct e; cbn; eexists; (split; [reflexivity|done]). Qed.

(** ** The rows of the worker job *)

Definition job_event (e : Investigations.job_event) : MetricEvent :=
  match e with
  | Investigations.JobStarted enqueued_at started_at => JobStarted "" enqueued_at started_at
  | Investigations.JobCompleted d tier => JobCompleted "" "complete" d f0 tier
  | Investigations.JobFailed code n => JobFailed "" code "" n
  end.

Definition without_cost (row : MetricEventRow) : Investigations.MetricEventRow :=
  {| Investigations.m_event_type := m_event_type row; Investigations.m_group_key := m_group_key row;
     Investigations.m_duration_ms := m_duration_ms row; Investigations.m_queue_wait_ms := m_queue_wait_ms row;
     Investigations.m_success := m_success row |}.

(** The worker's table holds the rows the collector builds. *)
Lemma worker_rows numeric e row : metric_row numeric (job_event e) = Ok (Some row) ->
  without_cost row = Investigations.metric_row e.
Proof.
  assert (forall x n, int_of_float x = Ok n -> n = to_int x) as Hi.
  { intros x n. unfold int_of_float, to_int. by destruct (float_trunc x); intros [= <-]. }
  destruct e as [enq st|d t|c n]; cbn.
  - intros (wait & Hw & [= <-])%result_bind_ok. unfold without_cost. cbn. f_equal. destruct enq as [t|]; cbn in *; [|by simplify_eq].
    apply result_bind_ok in Hw as (ms & ->%Hi & [= <-]). done.
  - intros (ms & ->%Hi & [= <-])%result_bind_ok. done.
  - by intros [= <-].
Qed.

(** ** Witnesses *)

Module MetricsWitness.
(** The mean of numbers of millionths. *)
Definition mean (l : list Z) : float :=
  match length l with O => f0 | S n => int_truediv (foldr Z.add 0 l) (1000000 * Pos.of_succ_nat n) end.

Definition jobs : list MetricEvent :=
  [JobStarted "a" (Some 0) 250000; JobCompleted "a" "complete" (flit 12 10) f0 (Some "moderate");
   JobStarted "b" None 300000; JobFailed "b" "timeout" "timed out" 1;
   JobCompleted "c" "complete" (flit 28 10) f0 (Some "moderate")].

Definition record : M store unit := for_each (persist_metric (fun _ => 0)) jobs ≫= fun _ => commit.
Definition day0 : Z := 1784894400000000.     (* 2026-07-24 12:00 *)
Definition stored : store := (record (Store [] [] day0 [])).2.

Definition moderate : MetricRollup := _row_to_rollup mean (Some "moderate")
  (part (label_of COMPLEXITY_TIER) (table stored) (Some "moderate")).

Lemma latency_bounds_witness : ro_count moderate = 2 /\
  fle (float_of_Z 1200) (ro_p95_latency_ms moderate) /\ fle (ro_p95_latency_ms moderate) (float_of_Z 2800).
Proof.
  destruct (latency_bounds mean (fun _ l => l) "7d" (7 * PyTime.DAY) COMPLEXITY_TIER None stored stored
    (rollups mean (fun _ l => l) COMPLEXITY_TIER (List.filter (selected day0 (7 * PyTime.DAY) None) (table stored)))
    moderate) as (_ & Hn & H); [done | done | by vm_compute | | done | reflexivity | |].
  - intros e He. vm_compute in He. repeat (apply elem_of_cons in He as [->|He]; [by vm_compute|]). by apply elem_of_nil in He.
  - vm_compute. right. left.
  - split; [by rewrite Hn; vm_compute|].
    destruct (H [1200; 2800]) as (a50 & b50 & a95 & b95 & _ & _ & _ & _ & Ha & Hb & L & U).
    + by repeat constructor.
    + by vm_compute.
    + vm_compute in Ha, Hb. injection Ha as <-. injection Hb as <-. by split.
Defined.
End MetricsWitness.
