(* ===== verification/AdminRoutes.v ===== *)
(** * Administrative and health routes ([src/app/api/v1/admin_metrics.py],
    [src/app/api/v1/admin_alerts.py], [src/app/api/v1/health.py])

    The metrics endpoint over [Metrics] and [Scaling], the Prometheus exposition with
    its own authorization, the routes that manage alert rules over the tables of
    [AlertJob], and the two health probes. *)

From stdpp Require Import sorting pretty.
From S2P Require Import Prelude PyFloat PyStr Settings Effects Database CircuitBreaker Resilience AgentIO Gateway Auth.
From S2P Require Import Scaling Alerting AlertJob Metrics Literature.

Definition newline : string := String (Ascii.ascii_of_nat 10) EmptyString.
Definition quote : string := String (Ascii.ascii_of_nat 34) EmptyString.

(** ** [GET /admin/metrics] *)

Module MetricsRoutes.

Definition parse_group_by (s : string) : option GroupBy :=
  assoc s [("complexity_tier", COMPLEXITY_TIER); ("day", DAY); ("event_type", EVENT_TYPE)].

Record MetricsResponse := {
  mr_window : string;
  mr_group_by : GroupBy;
  mr_event_type : option string;
  mr_rollups : list MetricRollup;
  mr_queue_depth : Z;
  mr_worker_utilization_pct : float;
  mr_recommended_pool_size : Z;
  mr_telemetry : option Telemetry;
}.

Section metrics_route.
Variable numeric_avg : list Z -> float.
Variable plan : forall A, list A -> list A.
Variable settings : WorkerSettings.
(** What RQ and the telemetry query answer. *)
Variable depth : result pyexn Z.
Variable workers : result pyexn (list bool).
Variable telemetry : string -> result pyexn Telemetry.

(** Authorization comes first, then the query parameters are validated. *)
Definition get_admin_metrics (req : Request) (window group_by : string) (event_type : option string)
    : M store MetricsResponse :=
  lift (RequireRole [ADMIN] req) ≫= fun _ =>
  match in_dict window _WINDOW_INTERVAL, parse_group_by group_by with
  | true, Some g =>
      if negb (supported event_type) then raise (HTTPException 422 None)
      else
        try_except (aggregate_metrics numeric_avg plan window g event_type)
          (fun e => raise (if bool_decide (e = ValueError) then HTTPException 422 None else e)) ≫= fun rs =>
        lift (get_scaling_metrics settings depth workers) ≫= fun scaling =>
        mret {| mr_window := window; mr_group_by := g; mr_event_type := event_type; mr_rollups := rs;
                mr_queue_depth := m_queue_depth scaling; mr_worker_utilization_pct := m_utilization_pct scaling;
                mr_recommended_pool_size := m_recommended scaling;
                mr_telemetry := match telemetry window with Ok t => Some t | Raise _ => None end |}
  | _, _ => raise (HTTPException 422 None)
  end.
End metrics_route.

(** ** [GET /admin/metrics/prometheus] *)

(** The text before the first occurrence of [sep]: [s.split(sep)[0]]. *)
Fixpoint before_sep (sep s : string) : string :=
  if startswith sep s then "" else
  match s with EmptyString => "" | String c s' => String c (before_sep sep s') end.

Fixpoint drop_chars (n : nat) (s : string) : string :=
  match n, s with S n, String _ s => drop_chars n s | _, _ => s end.

(** [s.split(sep)[1]] of a text that starts with [sep]. *)
Definition after_scheme (sep s : string) : string := before_sep sep (drop_chars (String.length sep) s).

Fixpoint is_ascii (s : string) : bool :=
  match s with EmptyString => true | String c s => (ord c <? 128) && is_ascii s end.

(** [secrets.compare_digest] of two texts: both must be ASCII. *)
Definition compare_digest (a b : string) : result pyexn bool :=
  if is_ascii a && is_ascii b then Ok (String.eqb a b) else Raise TypeError.

(** The token a scraper presents. *)
Definition presented_token (req : Request) : string :=
  let auth_header := default "" (header req "Authorization") in
  let custom_header := default "" (header req "X-Prometheus-Token") in
  if startswith "Bearer " auth_header then strip (after_scheme "Bearer " auth_header)
  else if startswith "Token " auth_header then strip (after_scheme "Token " auth_header)
  else if str_truthy custom_header then strip custom_header
  else "".

Definition verify_prometheus_auth (settings : AlertSettings) (req : Request) : result pyexn unit :=
  accepted ← match truthy (prometheus_metrics_token settings) with
             | None => Ok false
             | Some expected =>
                 let token := presented_token req in
                 if str_truthy token then compare_digest token expected else Ok false
             end;
  if (accepted : bool) then Ok tt else RequireRole [ADMIN] req ≫= fun _ => Ok tt.

Definition agents : list string := ["seismic"; "ocean"; "atmosphere"; "air_quality"; "wildfire"].
Definition sources : list string := ["usgs"; "noaa"; "copernicus"; "era5"; "gdelt"; "arxiv"].

(** [name{label="value"} number] *)
Definition sample (name label value number : string) : string :=
  name +:+ "{" +:+ label +:+ "=" +:+ quote +:+ value +:+ quote +:+ "} " +:+ number.

Definition counter_lines (c : MetricCounter) (help : string) : list string :=
  ["# HELP " +:+ c_name c +:+ " " +:+ help; "# TYPE " +:+ c_name c +:+ " counter"] ++
  map (fun agent => sample (c_name c) "agent" agent (pretty (counter_get c [("agent", agent)]))) agents.

Definition gauge_value (st : json) : string :=
  if jeq_str st OPEN then "1.0" else if jeq_str st HALF_OPEN then "0.5" else "0.0".

Definition breaker_line (src : string) (st : json) : string :=
  sample "gaiaos_circuit_breaker_state" "source" src (gauge_value st).

Section exposition.
Context {S : Type} `{!Redis S text} `{!IsoTime}.
Variable float_repr : float -> string.          (* [str(x)] *)
Variable planner fallback : MetricCounter.      (* the process' two counters *)

Fixpoint breaker_lines (srcs : list string) : M S (list string) :=
  match srcs with
  | [] => mret []
  | src :: srcs =>
      get_circuit_status src ≫= fun st =>
      breaker_lines srcs ≫= fun rest => mret (breaker_line src st :: rest)
  end.

Definition gauge_lines (name help value : string) : list string :=
  ["# HELP " +:+ name +:+ " " +:+ help; "# TYPE " +:+ name +:+ " gauge"; name +:+ " " +:+ value].

Definition exposition_lines (scaling : ScalingMetrics) (breakers : list string) : list string :=
  counter_lines planner "Missing region_hint before fallback count" ++
  counter_lines fallback "Location regex fallback execution count" ++
  ["# HELP gaiaos_circuit_breaker_state Circuit breaker status gauge (0=closed, 0.5=half-open, 1=open)";
   "# TYPE gaiaos_circuit_breaker_state gauge"] ++ breakers ++
  gauge_lines "gaiaos_queue_depth" "Current RQ task queue depth" (pretty (m_queue_depth scaling)) ++
  gauge_lines "gaiaos_worker_utilization_pct" "Current worker utilization percentage"
    (float_repr (m_utilization_pct scaling)) ++
  gauge_lines "gaiaos_recommended_pool_size" "Recommended RQ worker pool size" (pretty (m_recommended scaling)) ++ [""].

Definition get_prometheus_metrics (alerts : AlertSettings) (settings : WorkerSettings) (depth : result pyexn Z)
    (workers : result pyexn (list bool)) (req : Request) : M S string :=
  lift (verify_prometheus_auth alerts req) ≫= fun _ =>
  lift (get_scaling_metrics settings depth workers) ≫= fun scaling =>
  breaker_lines sources ≫= fun breakers =>
  mret (join newline (exposition_lines scaling breakers)).
End exposition.
End MetricsRoutes.

(** ** Alert rules and incidents *)

Module AlertRoutes.

(** [AlertRuleSchema]: the checks on a payload. *)
Definition str_len (s : string) : Z := Z.of_nat (String.length s).
Definition valid_payload (p : AlertRule) : bool :=
  (1 <=? str_len (ar_name p)) && (str_len (ar_name p) <=? 255) &&
  (1 <=? str_len (ar_metric p)) && (str_len (ar_metric p) <=? 255) &&
  existsb (String.eqb (ar_metric p)) SUPPORTED_METRICS &&
  existsb (String.eqb (ar_comparison p)) ["gt"; "lt"; "gte"] &&
  existsb (String.eqb (ar_window p)) ["15m"; "1h"; "1d"; "30d"] &&
  existsb (String.eqb (ar_severity p)) ["warning"; "critical"] &&
  (1 <=? ar_consecutive_cycles p).

(** [AlertRepository.list_incidents] *)
Definition has_status (st : option incident_status) (i : AlertIncident) : bool :=
  match st with Some st => bool_decide (in_status i = st) | None => true end.

Definition list_incidents (st : option incident_status) (limit offset : Z) : M world (list AlertIncident) :=
  select (fun w => firstn (Z.to_nat limit) (skipn (Z.to_nat offset)
                     (merge_sort newer (List.filter (has_status st) (incidents w))))).

Definition list_alert_incidents (req : Request) (status_filter : option string) (limit offset : Z)
    : M world (list AlertIncident) :=
  lift (RequireRole [ADMIN] req) ≫= fun _ =>
  match match status_filter with
        | None => Some None
        | Some s => Some <$> assoc s [("firing", firing); ("resolved", resolved)]
        end with
  | Some st => if (1 <=? limit) && (limit <=? 200) && (0 <=? offset) then list_incidents st limit offset
               else raise (HTTPException 422 None)
  | None => raise (HTTPException 422 None)
  end.

Definition list_alert_rules_route (order_by_name : list AlertRule -> list AlertRule) (req : Request)
    : M world (list AlertRule) :=
  lift (RequireRole [ADMIN] req) ≫= fun _ => list_alert_rules order_by_name.

(** The stored rule of a name, as the refreshed object shows it. *)
Definition rule_named (name : string) (w : world) : option AlertRule :=
  List.find (fun r => String.eqb (ar_name r) name) (rules w).

Definition upsert_route (req : Request) (p : AlertRule) : M world (option AlertRule) :=
  lift (RequireRole [ADMIN] req) ≫= fun _ =>
  if valid_payload p then upsert_alert_rule p ≫= fun _ => gets (rule_named (ar_name p))
  else raise (HTTPException 422 None).

(** [session.delete(rule)]: the relationship [AlertRule.incidents] has
    [cascade="all, delete-orphan"], so the rule's incidents are loaded and deleted
    with it. *)
Definition without_rule (id : Z) (w : world) : world :=
  World (List.filter (fun r => negb (ar_id r =? id)) (rules w))
    (List.filter (fun i => negb (bool_decide (in_rule_id i = Some id))) (incidents w))
    (fresh w) (AlertJob.clock w) (AlertJob.db w) (notified w) (sent w) (AlertJob.failures w).

(** [AlertRepository.get_alert_rule_by_id] *)
Definition get_alert_rule_by_id (id : Z) : M world (option AlertRule) :=
  select (fun w => List.filter (fun r => ar_id r =? id) (rules w)) ≫= scalar_one_or_none.

(** [AlertRepository.delete_alert_rule] *)
Definition delete_alert_rule (id : Z) : M world bool :=
  get_alert_rule_by_id id ≫= fun rule =>
  match rule with
  | None => mret false
  | Some _ => statement ≫= fun _ => save (without_rule id) ≫= fun _ => mret true
  end.

(** The status code of the response. *)
Definition delete_route (req : Request) (id : Z) : M world Z :=
  lift (RequireRole [ADMIN] req) ≫= fun _ =>
  delete_alert_rule id ≫= fun deleted => mret (if (deleted : bool) then 200 else 404).
End AlertRoutes.

(** ** Health *)

Module Health.

(** SQLAlchemy's own exceptions, or any other (the driver's connection errors). *)
Inductive db_failure := SQLAlchemyError | OtherException.

Inductive readiness_outcome :=
| Ready (schema_version : string)                      (* 200 *)
| NotReady (reason failing_dependency : string)        (* 503 *)
| Propagates.                                          (* the exception leaves the handler *)

(** [liveness]: status and schema version; no dependency is asked. *)
Definition liveness : string * string := ("alive", "unknown").

(** The rows of [SELECT version_num FROM alembic_version LIMIT 1]. *)
Definition _get_schema_version (rows : result db_failure (list string)) : option string :=
  match rows with
  | Ok (v :: _) => Some v
  | Ok [] => Some "unknown"
  | Raise SQLAlchemyError => Some "unknown"
  | Raise OtherException => None
  end.

(** [extensions] are the names in [pg_extension]; [ping] says whether Redis answers. *)
Definition readiness (extensions : result db_failure (list string)) (ping : bool)
    (version : result db_failure (list string)) : readiness_outcome :=
  match extensions with
  | Raise SQLAlchemyError => NotReady "Database connection failed." "database"
  | Raise OtherException => Propagates
  | Ok installed =>
      let ext_status := DbSession.verify_extensions installed in
      if negb (default false (assoc "postgis" ext_status)) then
        NotReady "Required PostgreSQL extension 'postgis' is not installed." "postgis"
      else if negb (default false (assoc "vector" ext_status)) then
        NotReady "Required PostgreSQL extension 'vector' (pgvector) is not installed." "pgvector"
      else if negb ping then NotReady "Redis connection failed." "redis"
      else match _get_schema_version version with Some v => Ready v | None => Propagates end
  end.
End Health.

(** ** Who may scrape *)

Import MetricsRoutes.

Lemma is_admin u : has_role u [ADMIN] = true <-> u_role u = role_value ADMIN.
Proof. unfold has_role. cbn. rewrite orb_false_r, orb_diag. apply String.eqb_eq. Qed.

Lemma require_admin_ok req : (exists u, RequireRole [ADMIN] req = Ok u) <->
  exists u, get_current_active_user req = Ok u /\ u_role u = role_value ADMIN.
Proof.
  unfold RequireRole. split.
  - intros (u & (v & Hv & Hu)%result_bind_ok). exists v. split; [done|]. apply is_admin. by destruct (has_role v _).
  - intros (u & Hu & Hr%is_admin). exists u. apply result_bind_ok. exists u. by rewrite Hr.
Qed.

(** The comparison of the presented token is refused with an exception. *)
Definition token_fault (settings : AlertSettings) (req : Request) : Prop :=
  exists t, truthy (prometheus_metrics_token settings) = Some t /\ presented_token req <> "" /\
    is_ascii (presented_token req) && is_ascii t = false.

(** The exposition is served exactly to requests that present the configured
    non-empty token, and to active verified administrators whose request does not
    make the token comparison fail (non-ASCII text). *)
Theorem prometheus_auth_iff (settings : AlertSettings) (req : Request) :
  verify_prometheus_auth settings req = Ok tt <->
  (exists t, truthy (prometheus_metrics_token settings) = Some t /\ presented_token req = t /\ is_ascii t = true) \/
  (~ token_fault settings req /\ exists u, get_current_active_user req = Ok u /\ u_role u = role_value ADMIN).
Proof.
  rewrite <- require_admin_ok. unfold verify_prometheus_auth, token_fault.
  assert (forall b : bool, (if b then Ok tt else RequireRole [ADMIN] req ≫= fun _ => Ok tt) = (Ok tt : result pyexn unit) <->
    b = true \/ exists u, RequireRole [ADMIN] req = Ok u) as Hrole.
  { intros []; [tauto|]. rewrite result_bind_ok. naive_solver. }
  destruct (truthy (prometheus_metrics_token settings)) as [t|] eqn:Et.
  - assert (t <> "") as Ht by (destruct (prometheus_metrics_token settings) as [[|c s]|]; cbn in Et; naive_solver).
    destruct (decide (presented_token req = "")) as [E|E].
    + rewrite E. etrans; [exact (Hrole false)|]. naive_solver.
    + unfold str_truthy. rewrite (proj2 (String.eqb_neq _ _) E). cbn [negb]. unfold compare_digest.
      destruct (is_ascii (presented_token req) && is_ascii t) eqn:Ea.
      * apply andb_true_iff in Ea as [Ea1 Ea]. etrans; [exact (Hrole (String.eqb (presented_token req) t))|].
        rewrite String.eqb_eq. split; [|intros [(t' & [= <-] & ? & _)|[_ ?]]; auto].
        intros [?|?]; [left; by exists t | right]. split; [|done]. intros (t' & [= <-] & _ & Hf). by rewrite Ea1, Ea in Hf.
      * split; [done|]. intros [(t' & [= <-] & <- & Ha)|[Hf _]]; [by rewrite Ha in Ea|]. destruct Hf. by exists t.
  - etrans; [exact (Hrole false)|]. naive_solver.
Qed.

Lemma strip_no_space s : remove_spaces s = s -> strip s = s.
Proof.
  intros H. unfold strip. assert (lstrip s = s) as ->.
  { destruct s as [|c s]; [done|]. apply no_space_cons in H as [E _]. cbn. by rewrite E. }
  induction s as [|c s IH]; [done|]. apply no_space_cons in H as [E H]. cbn. rewrite IH by done.
  by destruct s; rewrite ?E.
Qed.

Lemma before_sep_no_space s : remove_spaces s = s -> before_sep "Bearer " s = s.
Proof.
  induction s as [|c s IH]; intros H; [done|]. pose proof H as [E Hs]%no_space_cons.
  assert (startswith "Bearer " (String c s) = false) as Hp.
  { destruct (startswith "Bearer " (String c s)) eqn:Hp; [|done]. exfalso. apply prefix_spec in Hp as [t Ht].
    rewrite Ht in H. do 6 apply no_space_cons in H as [_ H]. by apply no_space_cons in H as [? _]. }
  cbn [before_sep]. rewrite Hp. f_equal. by apply IH.
Qed.

Lemma truthy_header_some req name h : header req name = Some h -> h <> "" -> truthy_header req name = Some h.
Proof. unfold truthy_header. intros -> Hh. by destruct h. Qed.

Section scraper.
Context `{Jwt}.
Variables (sha256 : string -> string) (auth : AuthSettings) (parse_uuid : string -> option uuid) (now : Z).
Variable settings : AlertSettings.

Notation chain := [ApiKeyAuthProvider sha256 now;
                   JWTAuthProvider auth parse_uuid (prometheus_metrics_token settings) now].

Lemma chain_without_key req db : truthy_header req "X-API-Key" = None -> settled req = false ->
  run_auth_chain chain req db =
    (jwt_authenticate auth parse_uuid (prometheus_metrics_token settings) now req ≫= fun req' =>
     if settled req' then mret req' else mret req') db.
Proof.
  intros Hk Hs. cbn [run_auth_chain]. rewrite M_bind_run. cbn [authenticate ApiKeyAuthProvider].
  unfold api_key_authenticate. rewrite Hk. by rewrite Hs.
Qed.

(** A scraper that sends the configured token as a bearer token passes the gateway,
    which does not take it for a JWT, and the endpoint's own check. *)
Theorem scraper_admitted (token : string) (req : Request) (db : auth_db) :
  prometheus_metrics_token settings = Some token -> token <> "" -> remove_spaces token = token -> is_ascii token = true ->
  header req "Authorization" = Some ("Bearer " +:+ token) -> truthy_header req "X-API-Key" = None -> settled req = false ->
  exists req', run_auth_chain chain req db = (Ok req', db) /\ verify_prometheus_auth settings req' = Ok tt.
Proof.
  intros Ht Hne Hsp Ha Hh Hk Hs. exists (with_user req None). split.
  - rewrite chain_without_key by done. rewrite M_bind_run. unfold jwt_authenticate.
    rewrite (truthy_header_some _ _ _ Hh) by done. rewrite split_bearer; [|by apply negb_true_iff, String.eqb_neq|done].
    cbn [lower]. rewrite Ht. destruct token as [|c s]; [done|]. cbn [truthy]. rewrite !String.eqb_refl. cbn [negb].
    by destruct (settled (with_user req None)).
  - apply prometheus_auth_iff. left. exists token. rewrite Ht. split; [by destruct token|]. split; [|done].
    unfold presented_token. assert (header (with_user req None) "Authorization" = header req "Authorization") as -> by done.
    rewrite Hh. change (default "" (Some ("Bearer " +:+ token))) with ("Bearer " +:+ token).
    assert (startswith "Bearer " ("Bearer " +:+ token) = true) as -> by (apply prefix_spec; by eexists).
    change (after_scheme "Bearer " ("Bearer " +:+ token)) with (before_sep "Bearer " token).
    rewrite before_sep_no_space, strip_no_space by done. done.
Qed.

(** The scheme [Token], which the endpoint's check accepts, never gets there: the
    gateway refuses every request with such a header. *)
Theorem token_scheme_refused (text : string) (req : Request) (db : auth_db) :
  header req "Authorization" = Some ("Token " +:+ text) -> truthy_header req "X-API-Key" = None -> settled req = false ->
  run_auth_chain chain req db = (Raise (HTTPException 401 None), db).
Proof.
  intros Hh Hk Hs. rewrite chain_without_key by done. rewrite M_bind_run. unfold jwt_authenticate.
  rewrite (truthy_header_some _ _ _ Hh) by done. change (py_split ("Token " +:+ text)) with ("Token" :: words_aux text "").
  by destruct (words_aux text "") as [|x [|y l]].
Qed.
End scraper.

(** ** The exposition *)

(** Breakers of sources that are called but that the exposition does not list. *)
Lemma unexposed_breakers :
  List.filter (fun s => negb (bool_decide (s ∈ sources))) (map fst TTL_BY_SOURCE) =
  ["open_meteo"; "firms"; "openaq"; "geocoding"; "osm"].
Proof. reflexivity. Qed.

Definition breaker_status (b : breaker) : string :=
  match b with BClosed _ => CLOSED | BOpen _ _ => OPEN | BHalfOpen _ _ => HALF_OPEN end.

Section exposition_lemmas.
Context {S : Type} `{!Redis S text} `{!IsoTime} (up : S -> Prop) `{!RedisUp up}.

Lemma circuit_status_up s source b : up s -> represents s source b ->
  exists s', get_circuit_status source s = (Ok (JStr (breaker_status b)), s') /\ up s' /\ (forall k, view s' k = view s k).
Proof.
  intros Hup Hr. destruct (get_state_up up s source b Hup Hr) as (s' & E & Hs').
  exists s'. split; [|done]. unfold get_circuit_status. rewrite M_bind_run, E. by destruct b.
Qed.

Lemma breaker_lines_up srcs (b : string -> breaker) s : up s -> (forall src, src ∈ srcs -> represents s src (b src)) ->
  exists s', breaker_lines srcs s = (Ok (map (fun src => breaker_line src (JStr (breaker_status (b src)))) srcs), s') /\ up s'.
Proof.
  revert s. induction srcs as [|src srcs IH]; intros s Hup Hr; [by exists s|].
  destruct (circuit_status_up s src (b src) Hup (Hr src (list_elem_of_here _ _))) as (s1 & E1 & Hup1 & Hv).
  destruct (IH s1 Hup1) as (s2 & E2 & Hup2).
  { intros x Hx. eapply represents_view; [exact Hv|]. apply Hr. by right. }
  exists s2. split; [|done]. cbn. rewrite M_bind_run, E1, M_bind_run, E2. done.
Qed.

(** While Redis answers, an authorized request gets the text whose lines say, for
    every listed source, the state of its breaker, and for every agent the values
    of the two counters. *)
Theorem exposition_exact (float_repr : float -> string) (planner fallback : MetricCounter) (alerts : AlertSettings)
    (settings : WorkerSettings) (depth : result pyexn Z) (workers : result pyexn (list bool)) (req : Request)
    (scaling : ScalingMetrics) (b : string -> breaker) (s : S) :
  verify_prometheus_auth alerts req = Ok tt -> get_scaling_metrics settings depth workers = Ok scaling ->
  up s -> (forall src, src ∈ sources -> represents s src (b src)) ->
  exists lines s',
    get_prometheus_metrics float_repr planner fallback alerts settings depth workers req s = (Ok (join newline lines), s') /\
    (forall src, src ∈ sources -> breaker_line src (JStr (breaker_status (b src))) ∈ lines) /\
    (forall c agent, c ∈ [planner; fallback] -> agent ∈ agents ->
       sample (c_name c) "agent" agent (pretty (counter_get c [("agent", agent)])) ∈ lines).
Proof.
  intros Ha Hsc Hup Hr. destruct (breaker_lines_up sources b s Hup Hr) as (s' & E & _).
  eexists _, s'. split.
  - unfold get_prometheus_metrics. rewrite M_bind_run. unfold lift at 1. rewrite Ha, M_bind_run. unfold lift at 1.
    rewrite Hsc, M_bind_run, E. reflexivity.
  - unfold exposition_lines. split.
    + intros src Hs. rewrite !elem_of_app. right. right. right. left. apply list_elem_of_fmap. eauto.
    + intros c agent Hc Hag. rewrite !elem_of_app.
      apply elem_of_cons in Hc as [->|Hc]; [left|apply list_elem_of_singleton in Hc as ->; right; left].
      all: unfold counter_lines; apply elem_of_app; right; apply list_elem_of_fmap; eauto.
Qed.
End exposition_lemmas.

(** ** Alert rules *)

Import AlertRoutes.

(** Identifiers of rules are unique and below the next one. *)
Definition rule_ids (w : world) : Prop :=
  NoDup (map ar_id (rules w)) /\ Forall (fun r => ar_id r < fresh w) (rules w).

(** The payload as a row. *)
Definition stored_as (id : Z) (p : AlertRule) : AlertRule :=
  {| ar_id := id; ar_name := ar_name p; ar_metric := ar_metric p; ar_threshold := ar_threshold p;
     ar_comparison := ar_comparison p; ar_window := ar_window p; ar_severity := ar_severity p;
     ar_consecutive_cycles := ar_consecutive_cycles p; ar_is_enabled := ar_is_enabled p |}.

Definition find_name (name : string) (rs : list AlertRule) : option AlertRule :=
  List.find (fun r => String.eqb (ar_name r) name) rs.

Lemma find_absent n rs : find_name n rs = None <-> existsb (fun r => String.eqb (ar_name r) n) rs = false.
Proof. unfold find_name. rewrite existsb_find. by destruct (List.find _ rs). Qed.

Lemma find_updated n p rs :
  find_name n (map (fun r => if String.eqb (ar_name r) (ar_name p) then stored_as (ar_id r) p else r) rs) =
  if String.eqb n (ar_name p) then (fun r => stored_as (ar_id r) p) <$> find_name n rs else find_name n rs.
Proof.
  unfold find_name. induction rs as [|r rs IH]; cbn; [by destruct (String.eqb n (ar_name p))|].
  destruct (String.eqb_spec (ar_name r) (ar_name p)) as [->|E]; cbn.
  - rewrite (String.eqb_sym (ar_name p) n). by destruct (String.eqb n (ar_name p)).
  - destruct (String.eqb_spec (ar_name r) n) as [<-|Hn]; [|done]. by rewrite (proj2 (String.eqb_neq _ _) E).
Qed.

Lemma find_put n id p rs : find_name n (put_rule id p rs) =
  if String.eqb n (ar_name p) then Some (stored_as (from_option ar_id id (find_name n rs)) p) else find_name n rs.
Proof.
  unfold put_rule. destruct (existsb _ rs) eqn:E.
  - etrans; [apply find_updated|]. destruct (String.eqb_spec n (ar_name p)) as [->|]; [|done].
    destruct (find_name (ar_name p) rs) eqn:F; [done|]. apply find_absent in F. by rewrite F in E.
  - apply find_absent in E. unfold find_name in *. rewrite find_app. destruct (String.eqb_spec n (ar_name p)) as [->|Hn].
    + rewrite E. cbn. by rewrite String.eqb_refl.
    + destruct (List.find (fun r => String.eqb (ar_name r) n) rs); [done|].
      cbn. by rewrite (proj2 (String.eqb_neq (ar_name p) n)) by congruence.
Qed.

Lemma put_rule_ids id p rs : NoDup (map ar_id rs) -> Forall (fun r => ar_id r < id) rs ->
  NoDup (map ar_id (put_rule id p rs)) /\ Forall (fun r => ar_id r < id + 1) (put_rule id p rs).
Proof.
  intros Hn Hf. unfold put_rule. destruct (existsb _ rs).
  - replace (map ar_id (map _ rs)) with (map ar_id rs).
    2: { rewrite map_map. apply map_ext. intros r. by destruct (String.eqb _ _). }
    split; [done|]. apply Forall_fmap. eapply Forall_impl; [exact Hf|]. cbn. intros r Hr. destruct (String.eqb _ _); cbn; lia.
  - rewrite map_app. split.
    + apply NoDup_app. split; [done|]. split; [|apply NoDup_singleton].
      intros x (r & -> & Hr)%list_elem_of_fmap. rewrite Forall_forall in Hf. specialize (Hf r Hr).
      cbn. rewrite list_elem_of_singleton. lia.
    + apply Forall_app. split; [eapply Forall_impl; [exact Hf|]; cbn; lia|]. apply Forall_singleton. cbn. lia.
Qed.

Lemma admin_step {A} req (k : M world A) w : (exists u, RequireRole [ADMIN] req = Ok u) ->
  (lift (RequireRole [ADMIN] req) ≫= fun _ => k) w = k w.
Proof. intros [u Hu]. rewrite M_bind_run. unfold lift. by rewrite Hu. Qed.

(** Storing a valid rule: the answer is the row now found under its name, with the
    payload's fields and the old identifier if the name was known; all other rules,
    incidents and notifications are untouched, the tables stay well formed, and
    doing it again changes no rule. *)
Theorem upsert_exact (req : Request) (p : AlertRule) (w : world) :
  (exists u, RequireRole [ADMIN] req = Ok u) -> valid_payload p = true -> inv w -> rule_ids w -> AlertJob.db w = [] ->
  exists w', let row := stored_as (from_option ar_id (fresh w) (rule_named (ar_name p) w)) p in
    upsert_route req p w = (Ok (Some row), w') /\ rule_named (ar_name p) w' = Some row /\
    (forall n, n <> ar_name p -> rule_named n w' = rule_named n w) /\
    incidents w' = incidents w /\ notified w' = notified w /\ inv w' /\ rule_ids w' /\
    forall n, rule_named n (upsert_route req p w').2 = rule_named n w'.
Proof.
  intros Hu Hp Hi [Hn Hf] Hdb.
  assert (forall v, AlertJob.db v = [] -> upsert_route req p v =
    (Ok (rule_named (ar_name p) (World (put_rule (fresh v) p (rules v)) (incidents v) (fresh v + 1) (AlertJob.clock v)
       (AlertJob.db v) (notified v) (sent v) (AlertJob.failures v))),
     World (put_rule (fresh v) p (rules v)) (incidents v) (fresh v + 1) (AlertJob.clock v)
       (AlertJob.db v) (notified v) (sent v) (AlertJob.failures v))) as Hrun.
  { intros v Hv. unfold upsert_route. rewrite admin_step by done. rewrite Hp, M_bind_run. unfold upsert_alert_rule.
    rewrite M_bind_run, select_ok by done. rewrite save_refresh_ok by done. reflexivity. }
  rewrite Hrun by done. eexists. cbn zeta.
  assert (forall n v, rule_named n v = find_name n (rules v)) as Hfind by reflexivity.
  rewrite !Hfind. cbn [rules]. rewrite find_put, String.eqb_refl. split; [reflexivity|].
  split; [cbn [rules]; by rewrite find_put, String.eqb_refl|].
  split; [intros n Hne; rewrite !Hfind; cbn [rules]; by rewrite find_put, (proj2 (String.eqb_neq _ _) Hne)|].
  split; [done|]. split; [done|]. split; [by apply inv_upsert|]. split; [by apply put_rule_ids|].
  intros n. rewrite Hrun by done. cbn [snd]. rewrite !Hfind. cbn [rules]. rewrite !find_put.
  destruct (String.eqb n (ar_name p)) eqn:E; [|done]. cbn. done.
Qed.

(** Deleting: 404 and nothing changed when no rule has the identifier; otherwise the
    rule goes and with it every incident recorded for it, open or resolved, and
    nobody is notified. *)
Theorem delete_exact (req : Request) (id : Z) (w : world) :
  (exists u, RequireRole [ADMIN] req = Ok u) -> inv w -> rule_ids w -> AlertJob.db w = [] ->
  (id ∉ map ar_id (rules w) /\ delete_route req id w = (Ok 404, w)) \/
  (exists r, r ∈ rules w /\ ar_id r = id /\ delete_route req id w = (Ok 200, without_rule id w) /\
    rule_named (ar_name r) (without_rule id w) = None /\
    (forall i, i ∈ incidents (without_rule id w) <-> i ∈ incidents w /\ in_rule_id i <> Some id) /\
    notified (without_rule id w) = notified w /\ inv (without_rule id w) /\ rule_ids (without_rule id w)).
Proof.
  intros Hu Hi [Hn Hf] Hdb.
  destruct (filter_unique ar_id (fun r => ar_id r =? id) (rules w) Hn) as [E|(r & E & Hr & Hid)].
  { intros x y _ _ Hx Hy. bool_to_prop. congruence. }
  - left. split.
    + intros (r & Er & Hr)%list_elem_of_fmap.
      assert (r ∈ List.filter (fun r => ar_id r =? id) (rules w)) as Hx by (apply elem_of_filter_bool; split; [done | by apply Z.eqb_eq]).
      rewrite E in Hx. by apply elem_of_nil in Hx.
    + unfold delete_route. rewrite admin_step by done. unfold delete_alert_rule, get_alert_rule_by_id.
      rewrite !M_bind_run, select_ok by done. by rewrite E.
  - right. exists r. bool_to_prop. split; [done|]. split; [done|]. split.
    { unfold delete_route. rewrite admin_step by done. unfold delete_alert_rule, get_alert_rule_by_id.
      rewrite !M_bind_run, select_ok by done. rewrite E. cbn [scalar_one_or_none]. unfold mret, M_ret.
      rewrite M_bind_run, statement_ok by done. rewrite M_bind_run, save_ok by done. reflexivity. }
    destruct Hi as [I1 I2 I3 I4].
    split.
    { apply find_absent. apply existsb_false. intros x [Hx Hne]%elem_of_filter_bool. apply String.eqb_neq. intros Hname.
      bool_to_prop. apply Hne. rewrite <- Hid. f_equal. by apply (NoDup_map_inj ar_name (rules w)). }
    split.
    { intros i. cbn. rewrite elem_of_filter_bool, negb_true_iff, bool_decide_eq_false. done. }
    split; [done|]. split; [split; cbn|split; cbn].
    + by apply NoDup_map_filter.
    + by apply NoDup_map_filter.
    + apply Forall_forall. intros i [Hin _]%elem_of_filter_bool. by rewrite Forall_forall in I3; apply I3.
    + intros name. etrans; [|apply (I4 name)]. unfold open_of. cbn. clear.
      induction (incidents w) as [|i l IH]; [done|]. cbn.
      destruct (negb (bool_decide (in_rule_id i = Some id))); cbn; destruct (open_named name i); cbn; lia.
    + by apply NoDup_map_filter.
    + apply Forall_forall. intros x [Hin _]%elem_of_filter_bool. by rewrite Forall_forall in Hf; apply Hf.
Qed.

(** The job's page of open incidents is the first page of fifty of the listing. *)
Lemma list_firing_is_page w : list_incidents (Some firing) 50 0 w = list_firing_incidents w.
Proof. reflexivity. Qed.

Lemma pages_concat {A} c m (x : list A) : (length x <= c * m)%nat ->
  concat (map (fun k => firstn c (skipn (c * k) x)) (seq 0 m)) = x.
Proof.
  revert x. induction m as [|m IH]; intros x Hx.
  - destruct x; [done | cbn in Hx; lia].
  - cbn [seq map concat]. rewrite Nat.mul_0_r, <- seq_shift, map_map.
    etrans; [|apply (firstn_skipn c x)]. f_equal. etrans; [|apply (IH (skipn c x)); rewrite length_skipn; nia].
    f_equal. apply map_ext. intros k. by rewrite skipn_skipn, Nat.mul_succ_r.
Qed.

(** A page of the listing: newest first, of the status asked for, and consecutive
    pages show every incident once. *)
Theorem pages_partition (st : option incident_status) (limit : Z) (n : nat) (w : world) :
  0 < limit -> AlertJob.db w = [] -> Z.of_nat (length (incidents w)) <= limit * Z.of_nat n ->
  exists pages, Forall2 (fun k page => list_incidents st limit (limit * Z.of_nat k) w = (Ok page, w)) (seq 0 n) pages /\
    concat pages = merge_sort newer (List.filter (has_status st) (incidents w)) /\ Sorted newer (concat pages).
Proof.
  intros Hl Hdb Hn. set (l := merge_sort newer (List.filter (has_status st) (incidents w))).
  assert (length l <= Z.to_nat limit * n)%nat as Hlen.
  { unfold l. rewrite merge_sort_Permutation. pose proof (List.filter_length_le (has_status st) (incidents w)). nia. }
  set (page k := firstn (Z.to_nat limit) (skipn (Z.to_nat (limit * Z.of_nat k)) l)).
  exists (map page (seq 0 n)). split.
  { apply Forall2_fmap_r, Forall_Forall2_diag, Forall_forall. intros k _. unfold list_incidents. by rewrite select_ok. }
  assert (concat (map page (seq 0 n)) = l) as ->.
  { etrans; [|exact (pages_concat (Z.to_nat limit) n l Hlen)]. f_equal. apply map_ext. intros k. unfold page. do 2 f_equal. lia. }
  split; [done|]. apply Sorted_merge_sort. intros a b. unfold newer. lia.
Qed.

Lemma put_rule_new_names id p rs : ar_name p ∉ map ar_name rs ->
  map ar_name (put_rule id p rs) = map ar_name rs ++ [ar_name p].
Proof.
  intros Hn. unfold put_rule. destruct (existsb _ rs) eqn:E; [|by rewrite map_app].
  apply existsb_true in E as (r & Hr & E). bool_to_prop. destruct Hn. apply list_elem_of_fmap. by exists r.
Qed.

Lemma upserts_run l w : AlertJob.db w = [] -> NoDup (map ar_name (rules w) ++ map ar_name l) ->
  exists w', for_each upsert_alert_rule l w = (Ok tt, w') /\ AlertJob.db w' = [] /\
    map ar_name (rules w') = map ar_name (rules w) ++ map ar_name l.
Proof.
  revert w. induction l as [|p l IH]; intros w Hdb Hn; [exists w; by rewrite app_nil_r|].
  cbn [for_each]. rewrite M_bind_run. unfold upsert_alert_rule at 1. rewrite M_bind_run, select_ok, save_refresh_ok by done.
  assert (map ar_name (put_rule (fresh w) p (rules w)) = map ar_name (rules w) ++ [ar_name p]) as Hp.
  { apply put_rule_new_names. apply NoDup_app in Hn as (_ & Hd & _). intros Hx. apply (Hd _ Hx). left. }
  match goal with |- context [for_each _ l ?v] => destruct (IH v) as (w' & E & Hdb' & Hnames) end; [done| |].
  - cbn [rules]. rewrite Hp, <- app_assoc. exact Hn.
  - exists w'. split; [exact E|]. split; [done|]. rewrite Hnames. cbn [rules]. by rewrite Hp, <- app_assoc.
Qed.

(** Deleting the last rule does not leave an empty table: the next evaluation finds
    none and seeds the defaults again. *)
Theorem delete_last_reseeds (req : Request) (order : list AlertRule -> list AlertRule) (r : AlertRule) (w : world) :
  (exists u, RequireRole [ADMIN] req = Ok u) -> (forall l, order l ≡ₚ l) -> rules w = [r] -> AlertJob.db w = [] ->
  exists w', (delete_route req (ar_id r) ≫= fun _ => seed_rules order) w = (Ok (order (rules w')), w') /\
    map ar_name (rules w') = map ar_name DEFAULT_ALERT_RULES.
Proof.
  intros Hu Ho Hr Hdb. destruct w as [rs ins fr cl cs ns sn fl]. cbn in Hr, Hdb. subst rs cs.
  rewrite M_bind_run. unfold delete_route at 1. rewrite admin_step by done.
  unfold delete_alert_rule, get_alert_rule_by_id. rewrite !M_bind_run, select_ok by done.
  cbn [rules List.filter]. rewrite Z.eqb_refl. cbn [scalar_one_or_none]. unfold mret at 1, M_ret at 1.
  rewrite !M_bind_run, statement_ok by done. rewrite M_bind_run, save_ok by done.
  unfold mret at 1, M_ret at 1. cbn [without_rule rules List.filter incidents fresh AlertJob.clock AlertJob.db].
  unfold without_rule. cbn [rules incidents]. cbn [List.filter]. rewrite Z.eqb_refl. cbn [negb].
  assert (order [] = []) as Hnil by (by apply Permutation_nil_r, Ho).
  unfold mret, M_ret, seed_rules, list_alert_rules. rewrite M_bind_run, select_ok by done. cbn [rules]. rewrite Hnil.
  match goal with |- context [(_ ≫= _) ?v] => destruct (upserts_run DEFAULT_ALERT_RULES v) as (w' & E & Hdb & Hnames) end.
  { done. }
  { by apply (bool_decide_unpack _). }
  exists w'. rewrite M_bind_run, E, select_ok by done. by rewrite Hnames.
Qed.

(** ** Health *)

Import Health.

(** Ready exactly when the database answers, both extensions are installed, Redis
    answers and the version query does not fail outside SQLAlchemy; a 503 names the
    first failing dependency in the order database, PostGIS, pgvector, Redis. *)
Theorem readiness_spec (extensions : result db_failure (list string)) (ping : bool) (version : result db_failure (list string)) :
  (forall v, readiness extensions ping version = Ready v <->
     exists installed, extensions = Ok installed /\ "postgis" ∈ installed /\ "vector" ∈ installed /\ ping = true /\
       _get_schema_version version = Some v) /\
  (forall reason dep, readiness extensions ping version = NotReady reason dep ->
     match extensions with
     | Raise _ => dep = "database"
     | Ok installed =>
         dep = if bool_decide ("postgis" ∈ installed) then
                 if bool_decide ("vector" ∈ installed) then "redis" else "pgvector"
               else "postgis"
     end) /\
  (readiness extensions ping version = Propagates ->
     extensions = Raise OtherException \/ version = Raise OtherException).
Proof.
  unfold readiness. destruct extensions as [installed|[]]; cbn -[_get_schema_version].
  - destruct (bool_decide ("postgis" ∈ installed)) eqn:E1, (bool_decide ("vector" ∈ installed)) eqn:E2, ping; cbn -[_get_schema_version];
      bool_to_prop; (split; [|split]); try naive_solver.
    + intros v. destruct (_get_schema_version version) eqn:E; naive_solver.
    + intros reason dep. by destruct (_get_schema_version version).
    + intros H. right. by destruct version as [[|]|[]].
  - split; [naive_solver|]. split; naive_solver.
  - split; [naive_solver|]. split; naive_solver.
Qed.

(** ** The metrics endpoint *)

Section metrics_route_theorems.
Variable numeric_avg : list Z -> float.
Variable plan : forall A, list A -> list A.
Variables (settings : WorkerSettings) (depth : result pyexn Z) (workers : result pyexn (list bool)).
Variable telemetry : string -> result pyexn Telemetry.
Notation route := (get_admin_metrics numeric_avg plan settings depth workers telemetry).

(** C33. For an administrator and valid parameters the endpoint answers with the exact
    rollups of the window and the scaling metrics, whatever happens to the
    historical telemetry, and leaves the table alone. *)
Theorem metrics_route_exact (req : Request) (window group_by : string) (g : GroupBy) (interval : Z) (et : option string)
    (scaling : ScalingMetrics) (w : store) :
  (forall A (l : list A), plan A l ≡ₚ l) -> (exists u, RequireRole [ADMIN] req = Ok u) ->
  assoc window _WINDOW_INTERVAL = Some interval -> parse_group_by group_by = Some g -> supported et = true ->
  (g = DAY -> forall e, e ∈ table w -> in_calendar e.1) -> db w = [] ->
  get_scaling_metrics settings depth workers = Ok scaling ->
  exists resp, route req window group_by et w = (Ok resp, w) /\
    summarizes numeric_avg (label_of g) (List.filter (selected (now w) interval et) (table w)) (mr_rollups resp) /\
    ordered g (mr_rollups resp) /\ mr_queue_depth resp = m_queue_depth scaling /\
    mr_recommended_pool_size resp = m_recommended scaling.
Proof.
  intros Hplan [u Hu] Hw Hg Het Hc Hdb Hsc.
  destruct (aggregate_ok numeric_avg plan window interval g et w Hplan Hc Hdb Hw Het) as (rs & E & Hs & Ho).
  unfold get_admin_metrics. rewrite M_bind_run. unfold lift at 1. rewrite Hu. unfold in_dict. rewrite Hg.
  rewrite Hw, Het. cbn [negb]. rewrite M_bind_run. unfold try_except. rewrite E, M_bind_run. unfold lift. rewrite Hsc.
  eexists. split; [reflexivity|]. done.
Qed.

(** Everybody else is refused before any query: 401 or 403 by role, then 422 for an
    unknown window, grouping or event type. *)
Theorem metrics_route_refuses (req : Request) (window group_by : string) (et : option string) (w : store) :
  (forall e, RequireRole [ADMIN] req = Raise e -> route req window group_by et w = (Raise e, w)) /\
  ((exists u, RequireRole [ADMIN] req = Ok u) ->
   assoc window _WINDOW_INTERVAL = None \/ parse_group_by group_by = None \/ supported et = false ->
   route req window group_by et w = (Raise (HTTPException 422 None), w)).
Proof.
  unfold get_admin_metrics. split.
  - intros e He. rewrite M_bind_run. unfold lift at 1. by rewrite He.
  - intros [u Hu] Hbad. rewrite M_bind_run. unfold lift at 1. rewrite Hu.
    destruct (in_dict window _WINDOW_INTERVAL) eqn:Ew; [|done].
    apply in_dict_elem, assoc_elem in Ew as [i Ei]. destruct (parse_group_by group_by) as [g|]; [|done].
    destruct Hbad as [?|[?|Hs]]; [congruence | done |]. by rewrite Hs.
Qed.
End metrics_route_theorems.

(** The rows of started jobs are in the table but cannot be asked for. *)
Lemma started_jobs_not_selectable numeric i enqueued started row :
  metric_row numeric (JobStarted i enqueued started) = Ok (Some row) -> supported (Some (m_event_type row)) = false.
Proof. cbn. intros (wait & _ & [= <-])%result_bind_ok. reflexivity. Qed.

(** ** Witnesses *)

Module AdminWitness.
Definition admin : User :=
  {| u_id := "u1"; u_role := "admin"; u_is_active := true; u_is_verified := true; u_deleted_at := None |}.
Definition as_admin : Request :=
  {| method := "GET"; path := "/api/v1/admin/metrics"; headers := []; client_host := None;
     req_state := {| st_request_id := None; st_user := Some admin; st_api_key_id := None; st_api_key_error := None;
                     st_auth_type := None |} |}.

Lemma is_authorized : exists u, RequireRole [ADMIN] as_admin = Ok u.
Proof. by exists admin. Qed.

Definition scaling : ScalingMetrics :=
  match get_scaling_metrics default_WorkerSettings (Ok 0) (Ok [true]) with
  | Ok m => m
  | Raise _ => {| m_queue_depth := 0; m_utilization_pct := f0; m_recommended := 0; m_active := 0; m_busy := 0; m_min_pool := 0 |}
  end.

Lemma metrics_route_exact_witness : exists resp,
  get_admin_metrics MetricsWitness.mean (fun _ l => l) default_WorkerSettings (Ok 0) (Ok [true]) (fun _ => Raise db_error)
    as_admin "7d" "complexity_tier" None MetricsWitness.stored = (Ok resp, MetricsWitness.stored) /\
  foldr (fun r n => ro_count r + n) 0 (mr_rollups resp) = 5.
Proof.
  destruct (metrics_route_exact MetricsWitness.mean (fun _ l => l) default_WorkerSettings (Ok 0) (Ok [true])
    (fun _ => Raise db_error) as_admin "7d" "complexity_tier" COMPLEXITY_TIER (7 * PyTime.DAY) None scaling MetricsWitness.stored)
    as (resp & H & Hs & _); [done | exact is_authorized | reflexivity | reflexivity | reflexivity | done | reflexivity | reflexivity |].
  exists resp. split; [exact H|]. rewrite (all_counted _ _ _ _ Hs). reflexivity.
Defined.

Definition latency_rule : AlertRule := stored_as 1 (default_rule 0 "slow" "investigation.p95_latency_ms" (float_of_Z 900) "gt" "15m" "warning" 1).
Definition open_incident : AlertIncident :=
  {| in_id := 2; in_rule_id := Some 1; in_rule_name := "slow"; in_slo_name := None; in_severity := "warning";
     in_status := firing; in_last_value := float_of_Z 1200; in_threshold := float_of_Z 900; in_violations := 3;
     in_fired_at := 0; in_resolved_at := None |}.
Definition alerting : world := World [latency_rule] [open_incident] 3 0 [] [] 0 0.

Lemma alerting_inv : inv alerting /\ rule_ids alerting.
Proof.
  split; split; cbn; [apply NoDup_singleton.. | | | apply NoDup_singleton |].
  - by constructor.
  - intros name. unfold open_of. cbn. destruct (open_named name open_incident); cbn; lia.
  - by constructor.
Qed.

(** An open incident vanishes with its rule, and no resolution is sent. *)
Lemma delete_exact_witness : exists w', delete_route as_admin 1 alerting = (Ok 200, w') /\ rules w' = [] /\
  incidents w' = [] /\ notified w' = [].
Proof.
  destruct (delete_exact as_admin 1 alerting is_authorized (proj1 alerting_inv) (proj2 alerting_inv) eq_refl)
    as [[H _]|(r & _ & _ & H & _)].
  - exfalso. apply H. left.
  - exists (without_rule 1 alerting). split; [exact H|]. repeat split; reflexivity.
Defined.
End AdminWitness.
