(* ===== verification/SdkTypes.v ===== *)
(** * SdkTypes: the runtime of the generated API client

    What the model classes and endpoint modules under
    [sdk/python/gaiaos_sdk/_generated/] share: Python dicts that are consumed
    key by key ([d.pop]), the [UNSET] marker of [_generated/types.py], the
    standard library's [UUID] and [urllib.parse.quote], values that a tolerant
    parser leaves as they came, and the exceptions the client raises
    ([gaiaos_sdk/exceptions.py], [_generated/errors.py]).  [Model] is the
    contract of a generated model class: its dictionary form can be read back,
    and whatever was read satisfies the invariant that makes this so. *)

From S2P Require Import Prelude PyStr PyFloat Effects.
From Stdlib Require Import Ascii.

(** ** Exceptions *)

(** The classes of [gaiaos_sdk/exceptions.py] below [GaiaAPIError]. *)
Inductive api_class :=
| GaiaAPIError
| AuthenticationError
| PermissionDeniedError
| NotFoundError
| RateLimitError (retry_after : option float)
| ServerError.

Inductive sdk_error :=
| Py (e : pyexn)
| AttributeError
| UnexpectedStatus (status_code : Z)
| ApiError (c : api_class) (status_code : Z) (message : string) (detail error_code : json)
| IncompatibleServerError (msg : string).


(** ** Text *)

Fixpoint lstrip_chars (f : ascii -> bool) (s : string) : string :=
  match s with
  | EmptyString => EmptyString
  | String c s' => if f c then lstrip_chars f s' else s
  end.

Fixpoint rstrip_chars (f : ascii -> bool) (s : string) : string :=
  match s with
  | EmptyString => EmptyString
  | String c s' =>
      match rstrip_chars f s' with
      | EmptyString => if f c then EmptyString else String c EmptyString
      | t => String c t
      end
  end.

Definition strip_chars (f : ascii -> bool) (s : string) : string := rstrip_chars f (lstrip_chars f s).

(** [s.replace(p, "")]: the occurrences of [p], from the left, without overlap. *)
Fixpoint remove_sub_from (p : string) (skip : nat) (s : string) : string :=
  match s with
  | EmptyString => EmptyString
  | String c s' =>
      match skip with
      | S k => remove_sub_from p k s'
      | O => if String.prefix p s then remove_sub_from p (String.length p - 1) s' else String c (remove_sub_from p 0 s')
      end
  end.
Definition remove_sub (p s : string) : string := remove_sub_from p 0 s.

Fixpoint all_chars (f : ascii -> bool) (s : string) : bool :=
  match s with EmptyString => true | String c s => f c && all_chars f s end.

Definition char_is (d c : ascii) : bool := Ascii.eqb c d.

(** ** UUIDs *)

(** A [uuid.UUID] is its 128-bit integer. *)
Definition uuid : Type := Z.
Definition uuid_ok (u : uuid) : Prop := 0 <= u < 2 ^ 128.

Definition hex_value (c : ascii) : option Z :=
  if is_digit c then Some (ord c - 48)
  else if (97 <=? ord c) && (ord c <=? 102) then Some (ord c - 87)
  else if (65 <=? ord c) && (ord c <=? 70) then Some (ord c - 55)
  else None.

(** [int(s, 16)]: white space around, a sign, an optional [0x], digits with
    single underscores between them. *)
Fixpoint hex_digits (s : string) (acc : Z) (after_digit : bool) : option Z :=
  match s with
  | EmptyString => if after_digit then Some acc else None
  | String c s =>
      match hex_value c with
      | Some d => hex_digits s (16 * acc + d) true
      | None => if Ascii.eqb c "_" && after_digit then hex_digits s acc false else None
      end
  end.

Definition hex_unsigned (s : string) : option Z :=
  match s with
  | String "0" (String "x" s) | String "0" (String "X" s) =>
      match s with
      | String "_" s => hex_digits s 0 false
      | s => hex_digits s 0 false
      end
  | s => hex_digits s 0 false
  end.

Definition int_of_hex (s : string) : option Z :=
  match strip s with
  | String "-" s => Z.opp <$> hex_unsigned s
  | String "+" s => hex_unsigned s
  | s => hex_unsigned s
  end.

(** [UUID(hex)] *)
Definition UUID (hex : string) : option uuid :=
  let hex := remove_sub "uuid:" (remove_sub "urn:" hex) in
  let hex := remove_sub "-" (strip_chars (fun c => Ascii.eqb c "{" || Ascii.eqb c "}") hex) in
  if negb (Nat.eqb (String.length hex) 32) then None
  else match int_of_hex hex with
       | Some n => if (0 <=? n) && (n <? 2 ^ 128) then Some n else None
       | None => None
       end.

Definition hex_char (d : Z) : ascii := ascii_of_N (Z.to_N (if d <? 10 then 48 + d else 87 + d)).

(** ["%0nx" % u] for [u] below [16 ^ n]. *)
Fixpoint hex_text (n : nat) (u : Z) : string :=
  match n with
  | O => EmptyString
  | S n => String (hex_char ((u / 16 ^ Z.of_nat n) mod 16)) (hex_text n u)
  end.

(** [str(u)] *)
Definition uuid_str (u : uuid) : string :=
  hex_text 8 (u / 16 ^ 24) +:+ "-" +:+ hex_text 4 (u / 16 ^ 20) +:+ "-" +:+ hex_text 4 (u / 16 ^ 16) +:+ "-" +:+
  hex_text 4 (u / 16 ^ 12) +:+ "-" +:+ hex_text 12 u.

(** ** URLs *)

Definition unreserved (c : ascii) : bool :=
  is_upper c || is_lower_az c || is_digit c || Ascii.eqb c "_" || Ascii.eqb c "." || Ascii.eqb c "-" || Ascii.eqb c "~".

Definition hex_upper (d : Z) : ascii := ascii_of_N (Z.to_N (if d <? 10 then 48 + d else 55 + d)).

(** [quote(s, safe="")] on the bytes of [s]. *)
Fixpoint quote (s : string) : string :=
  match s with
  | EmptyString => EmptyString
  | String c s =>
      if unreserved c then String c (quote s)
      else String "%" (String (hex_upper (ord c / 16)) (String (hex_upper (ord c mod 16)) (quote s)))
  end.

(** What a server does to one path segment. *)
Fixpoint unquote (s : string) : string :=
  match s with
  | String "%" ((String a (String b s')) as rest) =>
      match hex_value a, hex_value b with
      | Some x, Some y => String (ascii_of_N (Z.to_N (16 * x + y))) (unquote s')
      | _, _ => String "%" (unquote rest)
      end
  | String c s => String c (unquote s)
  | EmptyString => EmptyString
  end.

(** ** Dates *)

(** [datetime.isoformat] and [datetime.fromisoformat] on all datetimes, aware or
    naive; reading printed text gives the datetime back. *)
Class DateTimes := {
  datetime : Type;
  dt_isoformat : datetime -> string;
  dt_fromisoformat : string -> option datetime;
  dt_roundtrip t : dt_fromisoformat (dt_isoformat t) = Some t;
}.

(** Instants are datetimes. *)
Definition utc_times `{!IsoTime} : DateTimes :=
  {| datetime := Z; dt_isoformat := isoformat; dt_fromisoformat := fromisoformat; dt_roundtrip := iso_roundtrip |}.

(** ** Values of model attributes *)

(** [T | Unset] *)
Inductive maybe (A : Type) :=
| UNSET
| Val (a : A).
Arguments UNSET {A}.
Arguments Val {A} a.

#[global] Instance maybe_fmap : FMap maybe := fun A B f m =>
  match m with UNSET => UNSET | Val a => Val (f a) end.

(** What a tolerant [_parse_x] returns: the parsed value, or the data as it came. *)
Inductive parsed (A : Type) :=
| Parsed (a : A)
| Raw (data : json).
Arguments Parsed {A} a.
Arguments Raw {A} data.

Definition dict : Type := list (string * json).

(** A payload that [response.json()] can return: the keys of an object differ. *)
Fixpoint json_ok (j : json) : Prop :=
  match j with
  | JList l => (fix go l := match l with [] => True | x :: l => json_ok x /\ go l end) l
  | JObj d => NoDup (map fst d) /\
              (fix go d := match d with [] => True | (_, v) :: d => json_ok v /\ go d end) d
  | _ => True
  end.

(** ** Reading a payload *)

Notation Read := (result sdk_error).

(** [dict(src)]: a mapping is copied, a sequence must hold pairs.  Keys that are
    not text (only possible in such pairs) are refused here. *)
Definition pair_of (j : json) : Read (string * json) :=
  match j with
  | JList [JStr k; v] => Ok (k, v)
  | JList [_; _] => Raise (Py TypeError)
  | JStr (String a (String b EmptyString)) => Ok (String a EmptyString, JStr (String b EmptyString))
  | JObj [(k, _); (v, _)] => Ok (k, JStr v)
  | JList _ | JStr _ | JObj _ => Raise (Py ValueError)
  | _ => Raise (Py TypeError)
  end.

Definition dict_of (src : json) : Read dict :=
  match src with
  | JObj d => Ok d
  | JList l => ps ← result_mapM pair_of l; Ok (fold_left (fun d p => assoc_set p.1 p.2 d) ps [])
  | JStr EmptyString => Ok []
  | JStr _ => Raise (Py ValueError)
  | _ => Raise (Py TypeError)
  end.

(** [for x in j] *)
Definition iter (j : json) : Read (list json) :=
  match j with
  | JList l => Ok l
  | JStr s => Ok (map (fun c => JStr (String c EmptyString)) (String.list_ascii_of_string s))
  | JObj d => Ok (map (fun e => JStr e.1) d)
  | _ => Raise (Py TypeError)
  end.

Fixpoint take_key (k : string) (d : dict) : option (json * dict) :=
  match d with
  | [] => None
  | (k', v) :: d =>
      if String.eqb k k' then Some (v, d)
      else match take_key k d with Some (w, d') => Some (w, (k', v) :: d') | None => None end
  end.

(** [d.pop(k)] and [d.pop(k, UNSET)] *)
Definition pop (k : string) (d : dict) : Read (json * dict) :=
  match take_key k d with Some r => Ok r | None => Raise (Py KeyError) end.
Definition pop_unset (k : string) (d : dict) : maybe json * dict :=
  match take_key k d with Some (v, d) => (Val v, d) | None => (UNSET, d) end.

(** [datetime.datetime.fromisoformat(data)] and [UUID(data)] on any value. *)
Definition read_datetime `{!DateTimes} (data : json) : Read datetime :=
  match data with
  | JStr s => match dt_fromisoformat s with Some t => Ok t | None => Raise (Py ValueError) end
  | _ => Raise (Py TypeError)
  end.

Definition read_uuid (data : json) : Read uuid :=
  match data with
  | JStr s => match UUID s with Some u => Ok u | None => Raise (Py ValueError) end
  | JNull => Raise (Py TypeError)
  | _ => Raise AttributeError
  end.

(** [Enum(data)] *)
Definition read_enum {A} (of_value : string -> option A) (data : json) : Read A :=
  match data with
  | JStr s => match of_value s with Some a => Ok a | None => Raise (Py ValueError) end
  | _ => Raise (Py ValueError)
  end.

(** The exceptions the tolerant parsers swallow. *)
Definition swallowed (e : sdk_error) : bool :=
  match e with
  | Py (TypeError | ValueError | KeyError) | AttributeError => true
  | _ => false
  end.

(** [if data is None: return data; try: return read(data) except (...): return data] *)
Definition tolerant {A} (read : json -> Read A) (data : json) : Read (parsed A) :=
  match data with
  | JNull => Ok (Raw data)
  | _ => match read data with
         | Ok a => Ok (Parsed a)
         | Raise e => if swallowed e then Ok (Raw data) else Raise e
         end
  end.

(** [if not isinstance(data, str): raise TypeError()] before the reader proper *)
Definition if_str {A} (read : json -> Read A) (data : json) : Read A :=
  match data with JStr _ => read data | _ => Raise (Py TypeError) end.
Definition if_dict {A} (read : json -> Read A) (data : json) : Read A :=
  match data with JObj _ => read data | _ => Raise (Py TypeError) end.

(** [if isinstance(data, Unset): return data] *)
Definition unless_unset {A} (read : json -> Read A) (data : maybe json) : Read (maybe A) :=
  match data with
  | UNSET => Ok UNSET
  | Val j => a ← read j; Ok (Val a)
  end.

(** ** Writing a payload *)

Definition write_parsed {A} (write : A -> json) (p : parsed A) : json :=
  match p with Parsed a => write a | Raw j => j end.

(** [field_dict.update({...})], then [if v is not UNSET: field_dict[k] = v] *)
Definition update (d : dict) (kvs : dict) : dict := fold_left (fun d kv => assoc_set kv.1 kv.2 d) kvs d.
Definition set_unless_unset (d : dict) (kv : string * maybe json) : dict :=
  match kv.2 with UNSET => d | Val v => assoc_set kv.1 v d end.
Definition update_set (d : dict) (kvs : list (string * maybe json)) : dict := fold_left set_unless_unset kvs d.

(** ** The contract of a model class *)

(** [model_ok] is the invariant of an object read from a payload: the attributes
    hold what their readers return and [additional_properties] has none of the
    declared keys. *)
Class Model (A : Type) := {
  to_dict : A -> dict;
  from_dict : json -> Read A;
  model_ok : A -> Prop;
  model_roundtrip a : model_ok a -> from_dict (JObj (to_dict a)) = Ok a;
  model_sound j a : json_ok j -> from_dict j = Ok a -> model_ok a;
}.

(** ** Lemmas *)

Section strings.
Implicit Types (s t : string) (f : ascii -> bool).

Lemma all_chars_app f s t : all_chars f (s +:+ t) = all_chars f s && all_chars f t.
Proof. induction s as [|c s IH]; [done|]. rewrite append_cons. cbn. by rewrite IH, andb_assoc. Qed.

Lemma all_chars_impl f g s : (forall c, f c = true -> g c = true) -> all_chars f s = true -> all_chars g s = true.
Proof. intros H. induction s as [|c s IH]; [done|]. cbn. intros [Hc Hs]%andb_true_iff. by rewrite H, IH. Qed.

Lemma remove_sub_absent p c0 p' s : p = String c0 p' ->
  all_chars (fun c => negb (Ascii.eqb c c0)) s = true -> remove_sub p s = s.
Proof.
  intros -> H. unfold remove_sub. induction s as [|c s IH]; [done|]. cbn in H |- *.
  apply andb_true_iff in H as [Hc Hs]. destruct (ascii_dec c0 c) as [->|]; [by rewrite Ascii.eqb_refl in Hc|].
  f_equal. by apply IH.
Qed.

Lemma lstrip_chars_none f s : all_chars (fun c => negb (f c)) s = true -> lstrip_chars f s = s.
Proof. destruct s as [|c s]; [done|]. cbn. by destruct (f c). Qed.

Lemma rstrip_chars_none f s : all_chars (fun c => negb (f c)) s = true -> rstrip_chars f s = s.
Proof.
  induction s as [|c s IH]; [done|]. cbn. intros [Hc Hs]%andb_true_iff. rewrite IH by done.
  destruct s; [|done]. by destruct (f c).
Qed.

Lemma strip_chars_none f s : all_chars (fun c => negb (f c)) s = true -> strip_chars f s = s.
Proof. intros H. unfold strip_chars. by rewrite lstrip_chars_none, rstrip_chars_none. Qed.

Lemma strip_none s : all_chars (fun c => negb (is_space c)) s = true -> strip s = s.
Proof.
  intros H. unfold strip. assert (lstrip s = s) as ->.
  { destruct s as [|c s]; [done|]. cbn in H |- *. by destruct (is_space c). }
  induction s as [|c s IH]; [done|]. cbn in H |- *. apply andb_true_iff in H as [Hc Hs]. rewrite IH by done.
  destruct s; [|done]. by destruct (is_space c).
Qed.

Lemma append_nil_l s : "" +:+ s = s.
Proof. done. Qed.

Lemma rstrip_chars_last f s t c : rstrip_chars f s = t +:+ String c "" -> f c = false.
Proof.
  revert t. induction s as [|d s IH]; intros t; cbn.
  { by destruct t. }
  destruct (rstrip_chars f s) as [|e r] eqn:E.
  - destruct (f d) eqn:Hd; [by destruct t|]. destruct t as [|x t]; [rewrite append_nil_l; congruence|].
    rewrite append_cons. intros [= _ H]. by destruct t.
  - destruct t as [|x t]; [by rewrite append_nil_l|]. rewrite append_cons. intros [= _ H]. by apply (IH t).
Qed.

Lemma rstrip_chars_spec f s : exists t, s = rstrip_chars f s +:+ t /\ all_chars f t = true.
Proof.
  induction s as [|c s (t & Hs & Ht)]; [by exists ""|]. cbn. destruct (rstrip_chars f s) as [|d r] eqn:E.
  - rewrite append_nil_l in Hs. subst t. destruct (f c) eqn:Hc.
    + exists (String c s). split; [done|]. cbn. by rewrite Hc.
    + by exists s.
  - exists t. split; [|done]. rewrite append_cons. by rewrite Hs at 1.
Qed.
End strings.

(** *** UUIDs *)

Definition is_hex (c : ascii) : bool := is_digit c || ((97 <=? ord c) && (ord c <=? 102)).

Lemma hex_digit_cases (P : Z -> Prop) : P 0 -> P 1 -> P 2 -> P 3 -> P 4 -> P 5 -> P 6 -> P 7 ->
  P 8 -> P 9 -> P 10 -> P 11 -> P 12 -> P 13 -> P 14 -> P 15 -> forall d, 0 <= d < 16 -> P d.
Proof.
  intros ? ? ? ? ? ? ? ? ? ? ? ? ? ? ? ? d Hd.
  assert (d = 0 \/ d = 1 \/ d = 2 \/ d = 3 \/ d = 4 \/ d = 5 \/ d = 6 \/ d = 7 \/ d = 8 \/ d = 9 \/ d = 10 \/
          d = 11 \/ d = 12 \/ d = 13 \/ d = 14 \/ d = 15) as C by lia.
  repeat destruct C as [->|C]; by subst.
Qed.

Lemma hex_char_value d : 0 <= d < 16 -> hex_value (hex_char d) = Some d.
Proof. revert d. by apply hex_digit_cases. Qed.

Lemma hex_char_hex d : 0 <= d < 16 -> is_hex (hex_char d) = true.
Proof. revert d. by apply hex_digit_cases. Qed.

Lemma hex_text_hex n u : all_chars is_hex (hex_text n u) = true.
Proof. induction n as [|n IH]; [done|]. cbn [hex_text all_chars]. rewrite hex_char_hex, IH; [done|]. apply Z.mod_pos_bound. lia. Qed.

Lemma hex_text_length n u : String.length (hex_text n u) = n.
Proof. induction n as [|n IH]; [done|]. cbn. by rewrite IH. Qed.

Lemma hex_text_read n u t acc b : (0 < n)%nat ->
  hex_digits (hex_text n u +:+ t) acc b = hex_digits t (16 ^ Z.of_nat n * acc + u mod 16 ^ Z.of_nat n) true.
Proof.
  revert acc b. induction n as [|n IH]; intros acc b Hn; [lia|]. cbn [hex_text]. rewrite append_cons. cbn [hex_digits].
  rewrite hex_char_value by (apply Z.mod_pos_bound; lia).
  assert (0 < 16 ^ Z.of_nat n) as Hp by lia. set (q := 16 ^ Z.of_nat n) in *.
  assert (16 ^ Z.of_nat (S n) = 16 * q) as ->. { unfold q. rewrite Nat2Z.inj_succ, Z.pow_succ_r; lia. }
  assert (u mod (16 * q) = q * ((u / q) mod 16) + u mod q) as E.
  { rewrite (Z.mul_comm 16 q), Z.rem_mul_r by lia. lia. }
  destruct n as [|n].
  { cbn [hex_text]. rewrite append_nil_l. change q with 1 in *. f_equal. rewrite E, Z.mod_1_r. lia. }
  rewrite IH by lia. f_equal. fold q. rewrite E. lia.
Qed.

Lemma remove_hyphens_app s t : all_chars is_hex s = true -> remove_sub "-" (s +:+ t) = s +:+ remove_sub "-" t.
Proof.
  unfold remove_sub. induction s as [|c s IH]; [done|]. rewrite !append_cons. cbn [all_chars]. intros [Hc Hs]%andb_true_iff.
  cbn [remove_sub_from]. replace (String.prefix "-" _) with false.
  - by rewrite IH.
  - cbn [String.prefix]. destruct (ascii_dec "-" c) as [<-|]; [by vm_compute in Hc | done].
Qed.

Lemma remove_hyphen t : remove_sub "-" ("-" +:+ t) = remove_sub "-" t.
Proof. change ("-" +:+ t) with (String "-" t). unfold remove_sub. cbn. by destruct t. Qed.

(** Lower-case hexadecimal text with hyphens, as [str(uuid)] writes it. *)
Definition plain_hex (c : ascii) : bool := is_hex c || Ascii.eqb c "-".

Lemma plain_not d : plain_hex d = false -> forall c, plain_hex c = true -> negb (Ascii.eqb c d) = true.
Proof. intros H c Hc. destruct (Ascii.eqb_spec c d) as [->|]; [congruence | done]. Qed.

Lemma uuid_str_plain u : all_chars plain_hex (uuid_str u) = true.
Proof.
  assert (forall n v, all_chars plain_hex (hex_text n v) = true) as H.
  { intros n v. eapply all_chars_impl, hex_text_hex. intros c Hc. unfold plain_hex. by rewrite Hc. }
  unfold uuid_str. by rewrite !all_chars_app, !H.
Qed.

(** The 32 digits that remain when the hyphens are gone. *)
Definition uuid_hex (u : Z) : string :=
  hex_text 8 (u / 16 ^ 24) +:+ hex_text 4 (u / 16 ^ 20) +:+ hex_text 4 (u / 16 ^ 16) +:+ hex_text 4 (u / 16 ^ 12) +:+
  hex_text 12 u.

Lemma uuid_str_hex u : remove_sub "-" (uuid_str u) = uuid_hex u.
Proof.
  unfold uuid_str, uuid_hex. repeat (rewrite remove_hyphens_app by apply hex_text_hex; rewrite remove_hyphen).
  rewrite <- (append_nil_r (hex_text 12 u)) at 1. rewrite remove_hyphens_app by apply hex_text_hex.
  change (remove_sub "-" "") with "". by rewrite append_nil_r.
Qed.

Lemma uuid_hex_read u : uuid_ok u -> hex_digits (uuid_hex u) 0 false = Some u.
Proof.
  intros Hu. unfold uuid_hex, uuid_ok in *. rewrite !hex_text_read by lia.
  rewrite <- (append_nil_r (hex_text 12 u)), hex_text_read by lia. cbn [hex_digits]. f_equal.
  change (2 ^ 128) with 340282366920938463463374607431768211456 in Hu.
  change (16 ^ Z.of_nat 8) with 4294967296. change (16 ^ Z.of_nat 4) with 65536.
  change (16 ^ Z.of_nat 12) with 281474976710656. change (16 ^ 24) with 79228162514264337593543950336.
  change (16 ^ 20) with 1208925819614629174706176. change (16 ^ 16) with 18446744073709551616.
  change (16 ^ 12) with 281474976710656.
  Z.to_euclidean_division_equations. lia.
Qed.

(** No sign, prefix or white space interferes with hexadecimal digits. *)
Lemma hex_unsigned_plain s : all_chars is_hex s = true -> hex_unsigned s = hex_digits s 0 false.
Proof.
  destruct s as [|c s]; [done|]. intros [Hc Hs]%andb_true_iff.
  destruct c as [[] [] [] [] [] [] [] []]; try done. destruct s as [|c s]; [done|]. apply andb_true_iff in Hs as [Hc' _].
  by destruct c as [[] [] [] [] [] [] [] []].
Qed.

Lemma int_of_hex_plain s : all_chars is_hex s = true -> int_of_hex s = hex_digits s 0 false.
Proof.
  intros H. unfold int_of_hex. rewrite strip_none.
  2: { eapply all_chars_impl, H. intros c. unfold is_space, is_hex, is_digit. lia. }
  rewrite <- hex_unsigned_plain by done. destruct s as [|c s]; [done|]. apply andb_true_iff in H as [Hc _].
  by destruct c as [[] [] [] [] [] [] [] []].
Qed.

(** The text of a UUID names it. *)
Lemma UUID_uuid_str u : uuid_ok u -> UUID (uuid_str u) = Some u.
Proof.
  intros Hu. unfold UUID. pose proof (uuid_str_plain u) as Hp.
  rewrite (remove_sub_absent "urn:" "u" "rn:"); [|done|by eapply all_chars_impl, Hp; apply plain_not].
  rewrite (remove_sub_absent "uuid:" "u" "uid:"); [|done|by eapply all_chars_impl, Hp; apply plain_not].
  rewrite strip_chars_none.
  2: { eapply all_chars_impl, Hp. intros c Hc. rewrite negb_orb. by rewrite !plain_not. }
  rewrite uuid_str_hex. unfold uuid_hex at 1. rewrite !length_app_string, !hex_text_length. cbn [Nat.add Nat.eqb negb].
  rewrite int_of_hex_plain by (unfold uuid_hex; by rewrite !all_chars_app, !hex_text_hex).
  rewrite uuid_hex_read by done. unfold uuid_ok in Hu. by rewrite (proj2 (Z.leb_le _ _)), (proj2 (Z.ltb_lt _ _)) by lia.
Qed.

Lemma UUID_ok s u : UUID s = Some u -> uuid_ok u.
Proof. unfold UUID, uuid_ok. intros H. by_cases. Qed.

(** *** Quoting *)

Lemma hex_upper_value d : 0 <= d < 16 -> hex_value (hex_upper d) = Some d.
Proof. revert d. by apply hex_digit_cases. Qed.

Lemma hex_upper_unreserved d : 0 <= d < 16 -> unreserved (hex_upper d) = true.
Proof. revert d. by apply hex_digit_cases. Qed.

Lemma ord_range c : 0 <= ord c < 256.
Proof. unfold ord. pose proof (N_ascii_bounded c). lia. Qed.

Lemma ascii_of_ord c : ascii_of_N (Z.to_N (ord c)) = c.
Proof. unfold ord. by rewrite N2Z.id, ascii_N_embedding. Qed.

(** The server reads the segment the caller gave. *)
Lemma unquote_quote s : unquote (quote s) = s.
Proof.
  induction s as [|c s IH]; [done|]. cbn [quote]. destruct (unreserved c) eqn:Hc.
  - assert (Ascii.eqb c "%" = false) as Hp by (by destruct (Ascii.eqb_spec c "%") as [->|]).
    revert Hc Hp. rewrite <- IH at 2. generalize (quote s) as t. intros t _.
    by destruct c as [[] [] [] [] [] [] [] []].
  - cbn [unquote]. pose proof (ord_range c).
    rewrite !hex_upper_value by (split; [Z.to_euclidean_division_equations|Z.to_euclidean_division_equations]; lia).
    rewrite IH. replace (16 * (ord c / 16) + ord c mod 16) with (ord c) by (Z.to_euclidean_division_equations; lia).
    by rewrite ascii_of_ord.
Qed.

(** A quoted segment holds nothing that separates parts of a URL. *)
Lemma quote_chars s : all_chars (fun c => unreserved c || Ascii.eqb c "%") (quote s) = true.
Proof.
  induction s as [|c s IH]; [done|]. cbn [quote]. pose proof (ord_range c). destruct (unreserved c) eqn:Hc; cbn [all_chars].
  - by rewrite Hc, IH.
  - rewrite !hex_upper_unreserved, IH by (split; [Z.to_euclidean_division_equations|Z.to_euclidean_division_equations]; lia). done.
Qed.

(** *** Dictionaries *)

Definition keys (d : dict) : list string := map fst d.

(** None of the keys is in the dictionary. *)
Definition fresh (ks : list string) (d : dict) : Prop := Forall (fun k => in_dict k d = false) ks.

Definition dict_ok (d : dict) : Prop := NoDup (keys d) /\ Forall (fun e => json_ok e.2) d.

(** The optional attributes that are set. *)
Definition set_fields (l : list (string * maybe json)) : dict :=
  flat_map (fun e => match e.2 with UNSET => [] | Val v => [(e.1, v)] end) l.

Lemma in_dict_app k (d e : dict) : in_dict k (d ++ e) = in_dict k d || in_dict k e.
Proof.
  unfold in_dict. induction d as [|[k' v] d IH]; [done|]. cbn. by destruct (String.eqb k k').
Qed.

Lemma in_dict_cons k k' v (d : dict) : in_dict k ((k', v) :: d) = String.eqb k k' || in_dict k d.
Proof. unfold in_dict. cbn. by destruct (String.eqb k k'). Qed.

Lemma assoc_set_fresh k v (d : dict) : in_dict k d = false -> assoc_set k v d = d ++ [(k, v)].
Proof.
  induction d as [|[k' v'] d IH]; [done|]. rewrite in_dict_cons. intros [Hk Hd]%orb_false_iff. cbn. rewrite Hk. by rewrite IH.
Qed.

Lemma fresh_snoc ks k v d : fresh ks d -> ~ k ∈ ks -> fresh ks (d ++ [(k, v)]).
Proof.
  intros H Hk. apply Forall_forall. intros x Hx. rewrite in_dict_app, in_dict_cons.
  rewrite (proj1 (Forall_forall _ _) H x Hx). destruct (String.eqb_spec x k) as [->|]; [done|by destruct d].
Qed.

Lemma update_fresh d kvs : NoDup (keys kvs) -> fresh (keys kvs) d -> update d kvs = d ++ kvs.
Proof.
  unfold update, keys. revert d. induction kvs as [|[k v] kvs IH]; intros d; [by rewrite app_nil_r|].
  cbn. intros [Hk Hn]%NoDup_cons Hf. apply Forall_cons in Hf as [Hd Hf]. rewrite assoc_set_fresh by done.
  rewrite IH; [by rewrite <- app_assoc | done | by apply fresh_snoc].
Qed.

Lemma update_set_fresh d kvs : NoDup (map fst kvs) -> fresh (map fst kvs) d -> update_set d kvs = d ++ set_fields kvs.
Proof.
  unfold update_set. revert d. induction kvs as [|[k [|v]] kvs IH]; intros d; [by rewrite app_nil_r|..];
    cbn; intros [Hk Hn]%NoDup_cons Hf; apply Forall_cons in Hf as [Hd Hf].
  - by apply IH.
  - change (set_unless_unset d (k, Val v)) with (assoc_set k v d). rewrite assoc_set_fresh by done.
    rewrite IH; [by rewrite <- app_assoc | done | by apply fresh_snoc].
Qed.

Lemma fresh_app ks ls d : fresh (ks ++ ls) d <-> fresh ks d /\ fresh ls d.
Proof. apply Forall_app. Qed.

Lemma fresh_update ks d kvs : fresh ks d -> (forall k, k ∈ ks -> ~ k ∈ keys kvs) -> fresh ks (d ++ kvs).
Proof.
  intros H Hd. apply Forall_forall. intros x Hx. rewrite in_dict_app, (proj1 (Forall_forall _ _) H x Hx).
  cbn. destruct (in_dict x kvs) eqn:E; [|done]. apply in_dict_elem in E. by destruct (Hd x).
Qed.

(** The dictionary form of an object: its additional properties, then its fields. *)
Lemma fields_shape d req opt : NoDup (keys req ++ map fst opt) -> fresh (keys req ++ map fst opt) d ->
  update_set (update d req) opt = d ++ req ++ set_fields opt.
Proof.
  intros (Hr & Hd & Ho)%NoDup_app [Fr Fo]%fresh_app. rewrite update_fresh by done.
  rewrite update_set_fresh; [by rewrite <- app_assoc | done|]. apply fresh_update; [done|]. intros k Hk Hq. by apply (Hd k).
Qed.

Lemma update_shape d req : NoDup (keys req) -> fresh (keys req) d -> update d req = d ++ req ++ set_fields [].
Proof. intros Hn F. by rewrite update_fresh, app_nil_r. Qed.

Lemma take_key_app k d e : in_dict k d = false ->
  take_key k (d ++ e) = match take_key k e with Some (v, e') => Some (v, d ++ e') | None => None end.
Proof.
  induction d as [|[k' v] d IH]; [intros _; cbn; by destruct (take_key k e) as [[]|]|]. rewrite in_dict_cons. intros [Hk Hd]%orb_false_iff.
  cbn. rewrite Hk, IH by done. by destruct (take_key k e) as [[]|].
Qed.

Lemma take_key_none k d : take_key k d = None <-> in_dict k d = false.
Proof.
  unfold in_dict. induction d as [|[k' v] d IH]; [done|]. cbn. destruct (String.eqb k k'); [done|].
  rewrite <- IH. by destruct (take_key k d) as [[]|].
Qed.

Lemma pop_head k v d rest : in_dict k d = false -> pop k (d ++ (k, v) :: rest) = Ok (v, d ++ rest).
Proof. intros H. unfold pop. rewrite take_key_app by done. cbn. by rewrite String.eqb_refl. Qed.

Lemma set_fields_cons k m l : set_fields ((k, m) :: l) = match m with UNSET => set_fields l | Val v => (k, v) :: set_fields l end.
Proof. by destruct m. Qed.

Lemma set_fields_absent k l : ~ k ∈ map fst l -> in_dict k (set_fields l) = false.
Proof.
  induction l as [|[k' m] l IH]; [done|]. rewrite set_fields_cons. cbn [map fst]. rewrite not_elem_of_cons.
  intros [Hk Hl]. destruct m as [|v]; [by apply IH|]. rewrite in_dict_cons, IH by done. by destruct (String.eqb_spec k k').
Qed.

Lemma pop_unset_head k m d l : in_dict k d = false -> ~ k ∈ map fst l ->
  pop_unset k (d ++ set_fields ((k, m) :: l)) = (m, d ++ set_fields l).
Proof.
  intros Hd Hl. unfold pop_unset. rewrite take_key_app, set_fields_cons by done. destruct m as [|v].
  - by rewrite (proj2 (take_key_none _ _)) by (by apply set_fields_absent).
  - cbn. by rewrite String.eqb_refl.
Qed.

Lemma take_key_spec k d v d' : dict_ok d -> take_key k d = Some (v, d') ->
  json_ok v /\ dict_ok d' /\ fresh [k] d' /\ forall ks, fresh ks d -> fresh ks d'.
Proof.
  intros [Hn Hv]. revert v d'. induction d as [|[k' w] d IH]; [done|]. cbn.
  unfold keys in Hn. cbn in Hn. apply NoDup_cons in Hn as [Hk Hn]. apply Forall_cons in Hv as [Hw Hv]. intros v d'.
  assert (forall ks, fresh ks ((k', w) :: d) -> fresh ks d) as Ht.
  { intros ks F. eapply Forall_impl; [exact F|]. intros x. cbn. rewrite in_dict_cons. by intros [_ ?]%orb_false_iff. }
  destruct (String.eqb_spec k k') as [->|Hne].
  - intros [= <- <-]. repeat split; try done. constructor; [|constructor].
    destruct (in_dict k' d) eqn:E; [|done]. by apply in_dict_elem in E.
  - destruct (take_key k d) as [[u e]|] eqn:E; [|done]. intros [= <- <-].
    destruct (IH Hn Hv _ _ eq_refl) as (Hu & [Hen Hev] & Hf & Hks). split; [done|].
    assert (in_dict k' e = false) as Hke.
    { assert (fresh [k'] d) as F by (constructor; [|constructor]; destruct (in_dict k' d) eqn:E'; [by apply in_dict_elem in E'|done]).
      by apply Hks, Forall_cons in F as [? _]. }
    split; [split|split].
    + unfold keys. cbn. apply NoDup_cons. split; [|done]. intros Hin. by rewrite (proj2 (in_dict_elem _ _) Hin) in Hke.
    + by constructor.
    + apply Forall_cons in Hf as [Hf _]. constructor; [|constructor]. rewrite in_dict_cons, Hf. by destruct (String.eqb_spec k k').
    + intros ks F. pose proof (Hks _ (Ht _ F)) as Fe. apply Forall_forall. intros x Hx. rewrite in_dict_cons.
      apply (proj1 (Forall_forall _ _) F) in Hx as H1. rewrite in_dict_cons in H1. apply orb_false_iff in H1 as [-> _].
      by apply (proj1 (Forall_forall _ _) Fe).
Qed.

Lemma pop_spec k d v d' : dict_ok d -> pop k d = Ok (v, d') ->
  json_ok v /\ dict_ok d' /\ fresh [k] d' /\ forall ks, fresh ks d -> fresh ks d'.
Proof. unfold pop. intros Hd H. destruct (take_key k d) as [[]|] eqn:E; simplify_eq. by apply (take_key_spec k d). Qed.

(** What an optional attribute may hold. *)
Definition maybe_ok {A} (P : A -> Prop) (m : maybe A) : Prop := match m with UNSET => True | Val a => P a end.

Lemma pop_unset_spec k d m d' : dict_ok d -> pop_unset k d = (m, d') ->
  maybe_ok json_ok m /\ dict_ok d' /\ fresh [k] d' /\ forall ks, fresh ks d -> fresh ks d'.
Proof.
  unfold pop_unset. intros Hd H. destruct (take_key k d) as [[]|] eqn:E; simplify_eq; [by apply (take_key_spec k d)|].
  split; [done|]. split; [done|]. split; [|done]. constructor; [|constructor]. by apply take_key_none.
Qed.

Lemma json_ok_list l : json_ok (JList l) <-> Forall json_ok l.
Proof. induction l as [|x l IH]; cbn; [by split|]. rewrite Forall_cons. cbn in IH. by rewrite IH. Qed.

Lemma json_ok_obj d : json_ok (JObj d) <-> dict_ok d.
Proof.
  unfold dict_ok, keys. cbn [json_ok].
  assert (forall d, (fix go d := match d with [] => True | (_, v) :: d => json_ok v /\ go d end) d
                    <-> Forall (fun e : string * json => json_ok e.2) d) as ->; [|done].
  clear. induction d as [|[k v] d IH]; [by split|]. rewrite Forall_cons. cbn in IH |- *. by rewrite IH.
Qed.

Lemma assoc_set_ok k v d : dict_ok d -> json_ok v -> dict_ok (assoc_set k v d).
Proof.
  intros [Hn Hd] Hv. split; [by apply assoc_set_NoDup|]. clear Hn. induction d as [|[k' w] d IH]; cbn; [by constructor|].
  apply Forall_cons in Hd as [Hw Hd]. destruct (String.eqb k k'); constructor; auto.
Qed.

Lemma pair_of_ok j p : json_ok j -> pair_of j = Ok p -> json_ok p.2.
Proof.
  destruct j; cbn [pair_of]; try done.
  - destruct s as [|a [|b []]]; by intros _ [= <-].
  - destruct l as [|[] [|v []]]; try done. intros (_ & Hv & _) [= <-]. exact Hv.
  - destruct fields as [|[] [|[] []]]; try done. by intros _ [= <-].
Qed.

Lemma dict_of_ok j d : json_ok j -> dict_of j = Ok d -> dict_ok d.
Proof.
  destruct j; cbn [dict_of]; try done.
  - destruct s; [|done]. intros _ [= <-]. split; constructor.
  - rewrite json_ok_list. intros Hl (ps & H & [= <-])%result_bind_ok. apply result_mapM_ok in H.
    assert (Forall (fun p : string * json => json_ok p.2) ps) as Hp.
    { induction H; [constructor|]. apply Forall_cons in Hl as [? ?]. constructor; [by eapply pair_of_ok | auto]. }
    assert (dict_ok []) as Ha by (split; constructor). clear H Hl l. revert Ha. generalize ([] : dict).
    induction Hp as [|[k v] ps Hv Hp IH]; intros acc Ha; cbn; [done|]. apply IH. by apply assoc_set_ok.
  - intros H%json_ok_obj [= <-]. exact H.
Qed.

Lemma iter_ok j l : json_ok j -> iter j = Ok l -> Forall json_ok l.
Proof.
  destruct j; cbn [iter]; try done.
  - intros _ [= <-]. apply Forall_forall. by intros x (c & -> & _)%list_elem_of_fmap.
  - rewrite json_ok_list. by intros H [= <-].
  - intros _ [= <-]. apply Forall_forall. by intros x (c & -> & _)%list_elem_of_fmap.
Qed.

(** *** Readers undo writers *)

Section readers.
Context {DT : DateTimes}.

Lemma read_written_datetime t : read_datetime (JStr (dt_isoformat t)) = Ok t.
Proof. cbn. by rewrite dt_roundtrip. Qed.

Lemma read_written_uuid u : uuid_ok u -> read_uuid (JStr (uuid_str u)) = Ok u.
Proof. intros H. cbn. by rewrite UUID_uuid_str. Qed.

Lemma read_uuid_ok j u : read_uuid j = Ok u -> uuid_ok u.
Proof. destruct j; cbn; try done. destruct (UUID s) eqn:E; [|done]. intros [= <-]. by eapply UUID_ok. Qed.

(** A tolerantly parsed attribute is in order when its written form reads back. *)
Definition parsed_ok {A} (read : json -> Read A) (write : A -> json) (p : parsed A) : Prop :=
  tolerant read (write_parsed write p) = Ok p.

Lemma tolerant_ok {A} (read : json -> Read A) (write : A -> json) (good : A -> Prop) data p :
  (forall a, good a -> write a <> JNull /\ read (write a) = Ok a) ->
  (forall a, read data = Ok a -> good a) ->
  tolerant read data = Ok p -> parsed_ok read write p.
Proof.
  intros Hw Hr H. unfold parsed_ok. destruct p as [a|j]; cbn [write_parsed].
  - assert (read data = Ok a) as Ha.
    { unfold tolerant in H. destruct (read data) as [b|e]; destruct data; try destruct (swallowed e); by simplify_eq. }
    destruct (Hw a (Hr a Ha)) as [Hn Hra]. unfold tolerant. rewrite Hra. by destruct (write a).
  - assert (j = data) as ->; [|done].
    unfold tolerant in H. destruct (read data) as [b|e]; destruct data; try destruct (swallowed e); by simplify_eq.
Qed.

Lemma tolerant_datetime_ok data p : tolerant (if_str read_datetime) data = Ok p ->
  parsed_ok (if_str read_datetime) (fun t => JStr (dt_isoformat t)) p.
Proof. apply (tolerant_ok _ _ (fun _ => True)); [|done]. intros t _. split; [done|]. apply read_written_datetime. Qed.

Lemma tolerant_uuid_ok data p : tolerant (if_str read_uuid) data = Ok p ->
  parsed_ok (if_str read_uuid) (fun u => JStr (uuid_str u)) p.
Proof.
  apply (tolerant_ok _ _ uuid_ok).
  - intros u Hu. split; [done|]. by apply read_written_uuid.
  - intros u. destruct data; try done. apply read_uuid_ok.
Qed.

Lemma tolerant_model_ok {A} `{!Model A} data p : json_ok data -> tolerant (if_dict from_dict) data = Ok p ->
  parsed_ok (if_dict from_dict) (fun a => JObj (to_dict a)) p.
Proof.
  intros Hd. apply (tolerant_ok _ _ model_ok).
  - intros a Ha. split; [done|]. by apply model_roundtrip.
  - intros a. destruct data; try done. by apply model_sound.
Qed.

(** [for item in data: items.append(Model.from_dict(item))] *)
Definition read_list {A} (read : json -> Read A) (data : json) : Read (list A) := l ← iter data; result_mapM read l.

Lemma read_written_list {A} `{!Model A} l : Forall model_ok l ->
  read_list from_dict (JList (map (fun a => JObj (to_dict a)) l)) = Ok l.
Proof.
  intros H. unfold read_list. cbn. apply result_mapM_ok. induction H; cbn; constructor; [by apply model_roundtrip | done].
Qed.

Lemma read_list_ok {A} `{!Model A} j l : json_ok j -> read_list from_dict j = Ok l -> Forall model_ok l.
Proof.
  intros Hj (xs & Hi & H)%result_bind_ok. apply iter_ok in Hi; [|done]. apply result_mapM_ok in H.
  induction H; [constructor|]. apply Forall_cons in Hi as [? ?]. constructor; [by eapply model_sound | auto].
Qed.

Lemma unless_unset_written {A} (read : json -> Read A) (write : A -> json) m :
  maybe_ok (fun a => read (write a) = Ok a) m -> unless_unset read (write <$> m) = Ok m.
Proof. destruct m as [|a]; cbn; [done|]. by intros ->. Qed.

Lemma unless_unset_ok {A} (read : json -> Read A) (P : A -> Prop) mj m :
  maybe_ok json_ok mj -> (forall j a, json_ok j -> read j = Ok a -> P a) -> unless_unset read mj = Ok m -> maybe_ok P m.
Proof.
  destruct mj as [|j]; cbn; intros Hj HP; [by intros [= <-]|]. intros (a & Ha & [= <-])%result_bind_ok. by eapply HP.
Qed.

Lemma maybe_ok_impl {A} (P Q : A -> Prop) m : (forall a, P a -> Q a) -> maybe_ok P m -> maybe_ok Q m.
Proof. destruct m; cbn; auto. Qed.
End readers.

(** ** Keyword arguments of a model class *)

(** [cls(k=v, ...)]: an unknown keyword or a missing one is a [TypeError]. *)
Definition only_kwargs (declared : list string) (kwargs : dict) : Read unit :=
  raise_if (existsb (fun kv => negb (existsb (String.eqb kv.1) declared)) kwargs) (Py TypeError).
Definition kwarg (k : string) (kwargs : dict) : Read json :=
  match assoc k kwargs with Some v => Ok v | None => Raise (Py TypeError) end.
Definition kwarg_default (k : string) (dflt : maybe json) (kwargs : dict) : maybe json :=
  match assoc k kwargs with Some v => Val v | None => dflt end.

(** ** Proof automation for model classes *)

Lemma fresh_lookup ks k d : fresh ks d -> existsb (String.eqb k) ks = true -> in_dict k d = false.
Proof.
  intros F H. apply existsb_true in H as (x & Hx & ->%String.eqb_eq). by apply (proj1 (Forall_forall _ _) F).
Qed.

Lemma fresh_sub ks ls d : fresh ks d -> forallb (fun k => existsb (String.eqb k) ks) ls = true -> fresh ls d.
Proof. intros F H. apply Forall_forall. intros k Hk. eapply fresh_lookup; [exact F|]. by apply (proj1 (forallb_true _ _) H). Qed.

Lemma absent_key k ks : existsb (String.eqb k) ks = false -> ~ k ∈ ks.
Proof. intros H Hk. rewrite existsb_false in H. specialize (H k Hk). by rewrite String.eqb_refl in H. Qed.

Lemma NoDup_keys (ks : list string) : bool_decide (NoDup ks) = true -> NoDup ks.
Proof. apply bool_decide_eq_true. Qed.

Lemma bind_Ok {E A B} (a : A) (k : A -> result E B) : (Ok a ≫= k) = k a.
Proof. done. Qed.

Lemma dict_of_obj d : dict_of (JObj d) = Ok d.
Proof. done. Qed.

Lemma iter_list l : iter (JList l) = Ok l.
Proof. done. Qed.

Lemma pop_fresh ks k d v d' : dict_ok d -> fresh ks d -> pop k d = Ok (v, d') -> json_ok v /\ dict_ok d' /\ fresh (k :: ks) d'.
Proof.
  intros Hd F (Hv & Hd' & [Hk _]%Forall_cons & Hks)%pop_spec; [|done]. split; [done|]. split; [done|]. constructor; [done|]. by apply Hks.
Qed.

Lemma pop_unset_fresh ks k d m d' : dict_ok d -> fresh ks d -> pop_unset k d = (m, d') ->
  maybe_ok json_ok m /\ dict_ok d' /\ fresh (k :: ks) d'.
Proof.
  intros Hd F (Hv & Hd' & [Hk _]%Forall_cons & Hks)%pop_unset_spec; [|done]. split; [done|]. split; [done|]. constructor; [done|]. by apply Hks.
Qed.

Lemma maybe_ok_all {A} (P : A -> Prop) m : (forall a, P a) -> maybe_ok P m.
Proof. destruct m; cbn; auto. Qed.

Lemma fresh_nil d : fresh [] d.
Proof. constructor. Qed.

#[global] Arguments from_dict : simpl never.
#[global] Arguments to_dict : simpl never.
#[global] Arguments model_ok : simpl never.
#[global] Arguments iter : simpl never.
#[global] Arguments jeq_str : simpl never.
#[global] Arguments pop : simpl never.
#[global] Arguments pop_unset : simpl never.
#[global] Arguments update : simpl never.
#[global] Arguments update_set : simpl never.
#[global] Arguments set_fields : simpl never.
#[global] Arguments dict_of : simpl never.
#[global] Arguments read_list : simpl never.
#[global] Arguments read_datetime : simpl never.
#[global] Arguments read_uuid : simpl never.
#[global] Arguments read_enum : simpl never.
#[global] Arguments tolerant : simpl never.
#[global] Arguments unless_unset : simpl never.
#[global] Arguments fresh : simpl never.
#[global] Arguments uuid_ok : simpl never.
#[global] Arguments json_ok : simpl never.
#[global] Arguments maybe_ok : simpl never.

Ltac conjs := repeat match goal with H : _ /\ _ |- _ => destruct H end.
Ltac split_conj := repeat match goal with |- _ /\ _ => split end.

(** One attribute of a written object is read back. *)
Ltac sdk_value :=
  first
    [ done
    | assumption
    | apply read_written_datetime
    | by apply read_written_uuid
    | by apply model_roundtrip
    | by apply read_written_list ].

Ltac sdk_read_step :=
  rewrite ?bind_Ok; cbn beta iota;
  first
    [ rewrite pop_head by (eapply fresh_lookup; [eassumption | reflexivity])
    | rewrite pop_unset_head by first [eapply fresh_lookup; [eassumption | reflexivity] | by apply absent_key]
    | rewrite read_written_datetime
    | rewrite iter_list
    | rewrite read_written_uuid by assumption
    | rewrite read_written_list by assumption
    | rewrite model_roundtrip by assumption
    | match goal with H : jeq_str ?s ?t = true |- _ => rewrite H; clear H; cbn [negb] end
    | match goal with H : parsed_ok _ _ _ |- _ => rewrite H; clear H end
    | rewrite unless_unset_written by (first [assumption | eapply maybe_ok_impl; [|eassumption]; intros; sdk_value | apply maybe_ok_all; intros; sdk_value | apply maybe_ok_all; intros []; reflexivity]) ].

Ltac sdk_roundtrip :=
  intros self H; destruct self; cbn in H; conjs; cbn -[app];
  first [ rewrite fields_shape by first [by apply NoDup_keys | assumption]
        | rewrite update_shape by first [by apply NoDup_keys | assumption] ];
  rewrite dict_of_obj; cbn [app];
  repeat sdk_read_step; rewrite ?bind_Ok; cbn beta iota; unfold set_fields; cbn [flat_map]; by rewrite ?app_nil_r.

(** What was read satisfies the invariant of its class. *)
Ltac sdk_pop :=
  match goal with
  | Hd : dict_ok ?d, F : fresh ?ks ?d, E : pop ?k ?d = Ok (?v, ?d') |- _ =>
      destruct (pop_fresh ks k d v d' Hd F E) as (? & ? & ?); clear Hd F E
  | Hd : dict_ok ?d, F : fresh ?ks ?d, E : pop_unset ?k ?d = (?v, ?d') |- _ =>
      destruct (pop_unset_fresh ks k d v d' Hd F E) as (? & ? & ?); clear Hd F E
  end.

Ltac sdk_sound_step :=
  match goal with
  | H : (_ ≫= _) = Ok _ |- _ => apply result_bind_ok in H as (? & ? & H); cbn beta iota in H
  | H : match ?p with (_, _) => _ end = Ok _ |- _ => destruct p eqn:?; cbn beta iota in H
  | H : (if ?b then _ else _) = Ok _ |- _ => destruct b eqn:?; cbn beta iota in H; [|discriminate H]
  | H : (if ?b then _ else _) = Ok _ |- _ => destruct b eqn:?; cbn beta iota in H; [discriminate H|]
  | p : json * dict |- _ => destruct p
  end.

Ltac sdk_attr :=
  first
    [ assumption
    | eapply fresh_sub; [eassumption | reflexivity]
    | by eapply read_uuid_ok
    | by apply negb_false_iff
    | by eapply tolerant_datetime_ok
    | by eapply tolerant_uuid_ok
    | eapply tolerant_model_ok; [|eassumption]; assumption
    | eapply model_sound; [|eassumption]; assumption
    | eapply read_list_ok; [|eassumption]; assumption
    | eapply unless_unset_ok; [ | | eassumption]; [eassumption | intros ?j ?a ?Hj ?Ha; sdk_attr] ].

Ltac sdk_sound :=
  intros j a Hj H; cbn in H; apply result_bind_ok in H as (d & Hd & H); cbn beta iota in H;
  apply dict_of_ok in Hd; [|exact Hj]; pose proof (fresh_nil d);
  repeat (sdk_sound_step; try sdk_pop); simplify_eq; cbn; split_conj; sdk_attr.

(** *** Keys a class does not declare *)

Lemma take_key_other k k' d v d' : take_key k d = Some (v, d') -> k' <> k -> assoc k' d' = assoc k' d.
Proof.
  revert v d'. induction d as [|[j w] d IH]; [done|]. intros v d'. cbn. destruct (String.eqb_spec k j) as [->|Hne].
  - intros [= <- <-] Hk. by destruct (String.eqb_spec k' j).
  - destruct (take_key k d) as [[u e]|] eqn:E; [|done]. intros [= <- <-] Hk. cbn. by rewrite (IH u e).
Qed.

Lemma pop_other k k' d v d' : pop k d = Ok (v, d') -> k' <> k -> assoc k' d' = assoc k' d.
Proof. unfold pop. destruct (take_key k d) as [[u e]|] eqn:E; [|done]. intros [= <- <-]. by eapply take_key_other. Qed.

Lemma pop_unset_other k k' d m d' : pop_unset k d = (m, d') -> k' <> k -> assoc k' d' = assoc k' d.
Proof. unfold pop_unset. destruct (take_key k d) as [[u e]|] eqn:E; intros [= <- <-]; [by eapply take_key_other | done]. Qed.

Lemma assoc_app_fresh {A} k (d e : list (string * A)) : assoc k e = None -> assoc k (d ++ e) = assoc k d.
Proof. intros H. induction d as [|[k' v] d IH]; cbn; [done|]. by destruct (String.eqb k k'). Qed.

Lemma undeclared_key k (e : dict) : ~ k ∈ keys e -> assoc k e = None.
Proof. intros H. destruct (assoc k e) eqn:E; [|done]. destruct H. apply assoc_elem. eauto. Qed.
