(* ===== verification/SdkModels.v ===== *)
(** * SdkModels: the model classes of the API client

    One record per class of [sdk/python/gaiaos_sdk/_generated/models/] that the
    account, investigation and research endpoints use, with its [to_dict] and
    [from_dict] and the proof that it is a [Model].  The classes do not check the
    types of attributes: one that [from_dict] only pops is a [json] value. *)

From S2P Require Import Prelude PyStr Effects SdkTypes.

Section models.
Context {DT : DateTimes}.

(** *** [ApiKeyCreatedResponse] ([models/api_key_created_response.py]) *)

Record ApiKeyCreatedResponse := {
  ApiKeyCreatedResponse_created_at : datetime;
  ApiKeyCreatedResponse_id : uuid;
  ApiKeyCreatedResponse_key : json;
  ApiKeyCreatedResponse_key_id : json;
  ApiKeyCreatedResponse_name : json;
  ApiKeyCreatedResponse_additional_properties : dict;
}.

Definition ApiKeyCreatedResponse_to_dict (self : ApiKeyCreatedResponse) : dict :=
  update (ApiKeyCreatedResponse_additional_properties self)
    [("created_at", JStr (dt_isoformat (ApiKeyCreatedResponse_created_at self)));
     ("id", JStr (uuid_str (ApiKeyCreatedResponse_id self)));
     ("key", ApiKeyCreatedResponse_key self);
     ("key_id", ApiKeyCreatedResponse_key_id self);
     ("name", ApiKeyCreatedResponse_name self)].

Definition ApiKeyCreatedResponse_from_dict (src_dict : json) : Read ApiKeyCreatedResponse :=
  d ← dict_of src_dict;
  '(created_at, d) ← pop "created_at" d;
  created_at ← read_datetime created_at;
  '(id, d) ← pop "id" d;
  id ← read_uuid id;
  '(key, d) ← pop "key" d;
  '(key_id, d) ← pop "key_id" d;
  '(name, d) ← pop "name" d;
  Ok (Build_ApiKeyCreatedResponse created_at id key key_id name d).

Definition ApiKeyCreatedResponse_ok (self : ApiKeyCreatedResponse) : Prop :=
  fresh ["created_at"; "id"; "key"; "key_id"; "name"] (ApiKeyCreatedResponse_additional_properties self) /\
  uuid_ok (ApiKeyCreatedResponse_id self).

Lemma ApiKeyCreatedResponse_roundtrip self : ApiKeyCreatedResponse_ok self -> ApiKeyCreatedResponse_from_dict (JObj (ApiKeyCreatedResponse_to_dict self)) = Ok self.
Proof. revert self. unfold ApiKeyCreatedResponse_from_dict, ApiKeyCreatedResponse_to_dict, ApiKeyCreatedResponse_ok. sdk_roundtrip. Qed.

Lemma ApiKeyCreatedResponse_sound j a : json_ok j -> ApiKeyCreatedResponse_from_dict j = Ok a -> ApiKeyCreatedResponse_ok a.
Proof. revert j a. unfold ApiKeyCreatedResponse_from_dict, ApiKeyCreatedResponse_ok. sdk_sound. Qed.

#[global] Instance ApiKeyCreatedResponse_model : Model ApiKeyCreatedResponse :=
  {| to_dict := ApiKeyCreatedResponse_to_dict; from_dict := ApiKeyCreatedResponse_from_dict; model_ok := ApiKeyCreatedResponse_ok;
     model_roundtrip := ApiKeyCreatedResponse_roundtrip; model_sound := ApiKeyCreatedResponse_sound |}.

(** *** [ApiKeyResponse] ([models/api_key_response.py]) *)

Record ApiKeyResponse := {
  ApiKeyResponse_created_at : datetime;
  ApiKeyResponse_id : uuid;
  ApiKeyResponse_is_revoked : json;
  ApiKeyResponse_key_id : json;
  ApiKeyResponse_name : json;
  ApiKeyResponse_last_used_at : maybe (parsed datetime);
  ApiKeyResponse_revoked_at : maybe (parsed datetime);
  ApiKeyResponse_additional_properties : dict;
}.

Definition ApiKeyResponse_to_dict (self : ApiKeyResponse) : dict :=
  update_set (update (ApiKeyResponse_additional_properties self)
    [("created_at", JStr (dt_isoformat (ApiKeyResponse_created_at self)));
     ("id", JStr (uuid_str (ApiKeyResponse_id self)));
     ("is_revoked", ApiKeyResponse_is_revoked self);
     ("key_id", ApiKeyResponse_key_id self);
     ("name", ApiKeyResponse_name self)])
    [("last_used_at", (write_parsed (fun t => JStr (dt_isoformat t))) <$> ApiKeyResponse_last_used_at self);
     ("revoked_at", (write_parsed (fun t => JStr (dt_isoformat t))) <$> ApiKeyResponse_revoked_at self)].

Definition ApiKeyResponse_from_dict (src_dict : json) : Read ApiKeyResponse :=
  d ← dict_of src_dict;
  '(created_at, d) ← pop "created_at" d;
  created_at ← read_datetime created_at;
  '(id, d) ← pop "id" d;
  id ← read_uuid id;
  '(is_revoked, d) ← pop "is_revoked" d;
  '(key_id, d) ← pop "key_id" d;
  '(name, d) ← pop "name" d;
  let '(last_used_at, d) := pop_unset "last_used_at" d in
  last_used_at ← unless_unset (tolerant (if_str read_datetime)) last_used_at;
  let '(revoked_at, d) := pop_unset "revoked_at" d in
  revoked_at ← unless_unset (tolerant (if_str read_datetime)) revoked_at;
  Ok (Build_ApiKeyResponse created_at id is_revoked key_id name last_used_at revoked_at d).

Definition ApiKeyResponse_ok (self : ApiKeyResponse) : Prop :=
  fresh ["created_at"; "id"; "is_revoked"; "key_id"; "name"; "last_used_at"; "revoked_at"] (ApiKeyResponse_additional_properties self) /\
  uuid_ok (ApiKeyResponse_id self) /\
  maybe_ok (parsed_ok (if_str read_datetime) (fun t => JStr (dt_isoformat t))) (ApiKeyResponse_last_used_at self) /\
  maybe_ok (parsed_ok (if_str read_datetime) (fun t => JStr (dt_isoformat t))) (ApiKeyResponse_revoked_at self).

Lemma ApiKeyResponse_roundtrip self : ApiKeyResponse_ok self -> ApiKeyResponse_from_dict (JObj (ApiKeyResponse_to_dict self)) = Ok self.
Proof. revert self. unfold ApiKeyResponse_from_dict, ApiKeyResponse_to_dict, ApiKeyResponse_ok. sdk_roundtrip. Qed.

Lemma ApiKeyResponse_sound j a : json_ok j -> ApiKeyResponse_from_dict j = Ok a -> ApiKeyResponse_ok a.
Proof. revert j a. unfold ApiKeyResponse_from_dict, ApiKeyResponse_ok. sdk_sound. Qed.

#[global] Instance ApiKeyResponse_model : Model ApiKeyResponse :=
  {| to_dict := ApiKeyResponse_to_dict; from_dict := ApiKeyResponse_from_dict; model_ok := ApiKeyResponse_ok;
     model_roundtrip := ApiKeyResponse_roundtrip; model_sound := ApiKeyResponse_sound |}.

(** *** [ApiKeyRevokedResponse] ([models/api_key_revoked_response.py]) *)

Record ApiKeyRevokedResponse := {
  ApiKeyRevokedResponse_key_id : json;
  ApiKeyRevokedResponse_status : maybe json;
  ApiKeyRevokedResponse_additional_properties : dict;
}.

Definition ApiKeyRevokedResponse_to_dict (self : ApiKeyRevokedResponse) : dict :=
  update_set (update (ApiKeyRevokedResponse_additional_properties self)
    [("key_id", ApiKeyRevokedResponse_key_id self)])
    [("status", ApiKeyRevokedResponse_status self)].

Definition ApiKeyRevokedResponse_from_dict (src_dict : json) : Read ApiKeyRevokedResponse :=
  d ← dict_of src_dict;
  '(key_id, d) ← pop "key_id" d;
  let '(status, d) := pop_unset "status" d in
  Ok (Build_ApiKeyRevokedResponse key_id status d).

Definition ApiKeyRevokedResponse_ok (self : ApiKeyRevokedResponse) : Prop :=
  fresh ["key_id"; "status"] (ApiKeyRevokedResponse_additional_properties self).

Lemma ApiKeyRevokedResponse_roundtrip self : ApiKeyRevokedResponse_ok self -> ApiKeyRevokedResponse_from_dict (JObj (ApiKeyRevokedResponse_to_dict self)) = Ok self.
Proof. revert self. unfold ApiKeyRevokedResponse_from_dict, ApiKeyRevokedResponse_to_dict, ApiKeyRevokedResponse_ok. sdk_roundtrip. Qed.

Lemma ApiKeyRevokedResponse_sound j a : json_ok j -> ApiKeyRevokedResponse_from_dict j = Ok a -> ApiKeyRevokedResponse_ok a.
Proof. revert j a. unfold ApiKeyRevokedResponse_from_dict, ApiKeyRevokedResponse_ok. sdk_sound. Qed.

#[global] Instance ApiKeyRevokedResponse_model : Model ApiKeyRevokedResponse :=
  {| to_dict := ApiKeyRevokedResponse_to_dict; from_dict := ApiKeyRevokedResponse_from_dict; model_ok := ApiKeyRevokedResponse_ok;
     model_roundtrip := ApiKeyRevokedResponse_roundtrip; model_sound := ApiKeyRevokedResponse_sound |}.

(** *** [AuthMessageResponse] ([models/auth_message_response.py]) *)

Record AuthMessageResponse := {
  AuthMessageResponse_message : json;
  AuthMessageResponse_status : maybe json;
  AuthMessageResponse_additional_properties : dict;
}.

Definition AuthMessageResponse_to_dict (self : AuthMessageResponse) : dict :=
  update_set (update (AuthMessageResponse_additional_properties self)
    [("message", AuthMessageResponse_message self)])
    [("status", AuthMessageResponse_status self)].

Definition AuthMessageResponse_from_dict (src_dict : json) : Read AuthMessageResponse :=
  d ← dict_of src_dict;
  '(message, d) ← pop "message" d;
  let '(status, d) := pop_unset "status" d in
  Ok (Build_AuthMessageResponse message status d).

Definition AuthMessageResponse_ok (self : AuthMessageResponse) : Prop :=
  fresh ["message"; "status"] (AuthMessageResponse_additional_properties self).

Lemma AuthMessageResponse_roundtrip self : AuthMessageResponse_ok self -> AuthMessageResponse_from_dict (JObj (AuthMessageResponse_to_dict self)) = Ok self.
Proof. revert self. unfold AuthMessageResponse_from_dict, AuthMessageResponse_to_dict, AuthMessageResponse_ok. sdk_roundtrip. Qed.

Lemma AuthMessageResponse_sound j a : json_ok j -> AuthMessageResponse_from_dict j = Ok a -> AuthMessageResponse_ok a.
Proof. revert j a. unfold AuthMessageResponse_from_dict, AuthMessageResponse_ok. sdk_sound. Qed.

#[global] Instance AuthMessageResponse_model : Model AuthMessageResponse :=
  {| to_dict := AuthMessageResponse_to_dict; from_dict := AuthMessageResponse_from_dict; model_ok := AuthMessageResponse_ok;
     model_roundtrip := AuthMessageResponse_roundtrip; model_sound := AuthMessageResponse_sound |}.

(** *** [CreateApiKeyRequest] ([models/create_api_key_request.py]) *)

Record CreateApiKeyRequest := {
  CreateApiKeyRequest_name : json;
  CreateApiKeyRequest_additional_properties : dict;
}.

Definition CreateApiKeyRequest_to_dict (self : CreateApiKeyRequest) : dict :=
  update (CreateApiKeyRequest_additional_properties self)
    [("name", CreateApiKeyRequest_name self)].

Definition CreateApiKeyRequest_from_dict (src_dict : json) : Read CreateApiKeyRequest :=
  d ← dict_of src_dict;
  '(name, d) ← pop "name" d;
  Ok (Build_CreateApiKeyRequest name d).

Definition CreateApiKeyRequest_ok (self : CreateApiKeyRequest) : Prop :=
  fresh ["name"] (CreateApiKeyRequest_additional_properties self).

Lemma CreateApiKeyRequest_roundtrip self : CreateApiKeyRequest_ok self -> CreateApiKeyRequest_from_dict (JObj (CreateApiKeyRequest_to_dict self)) = Ok self.
Proof. revert self. unfold CreateApiKeyRequest_from_dict, CreateApiKeyRequest_to_dict, CreateApiKeyRequest_ok. sdk_roundtrip. Qed.

Lemma CreateApiKeyRequest_sound j a : json_ok j -> CreateApiKeyRequest_from_dict j = Ok a -> CreateApiKeyRequest_ok a.
Proof. revert j a. unfold CreateApiKeyRequest_from_dict, CreateApiKeyRequest_ok. sdk_sound. Qed.

#[global] Instance CreateApiKeyRequest_model : Model CreateApiKeyRequest :=
  {| to_dict := CreateApiKeyRequest_to_dict; from_dict := CreateApiKeyRequest_from_dict; model_ok := CreateApiKeyRequest_ok;
     model_roundtrip := CreateApiKeyRequest_roundtrip; model_sound := CreateApiKeyRequest_sound |}.

Definition CreateApiKeyRequest_init (kwargs : dict) : Read CreateApiKeyRequest :=
  _ ← only_kwargs ["name"] kwargs;
  name ← kwarg "name" kwargs;
  Ok {| CreateApiKeyRequest_name := name; CreateApiKeyRequest_additional_properties := [] |}.

(** *** [ErrorResponse] ([models/error_response.py]) *)

Record ErrorResponse := {
  ErrorResponse_detail : json;
  ErrorResponse_error_code : json;
  ErrorResponse_additional_properties : dict;
}.

Definition ErrorResponse_to_dict (self : ErrorResponse) : dict :=
  update (ErrorResponse_additional_properties self)
    [("detail", ErrorResponse_detail self);
     ("error_code", ErrorResponse_error_code self)].

Definition ErrorResponse_from_dict (src_dict : json) : Read ErrorResponse :=
  d ← dict_of src_dict;
  '(detail, d) ← pop "detail" d;
  '(error_code, d) ← pop "error_code" d;
  Ok (Build_ErrorResponse detail error_code d).

Definition ErrorResponse_ok (self : ErrorResponse) : Prop :=
  fresh ["detail"; "error_code"] (ErrorResponse_additional_properties self).

Lemma ErrorResponse_roundtrip self : ErrorResponse_ok self -> ErrorResponse_from_dict (JObj (ErrorResponse_to_dict self)) = Ok self.
Proof. revert self. unfold ErrorResponse_from_dict, ErrorResponse_to_dict, ErrorResponse_ok. sdk_roundtrip. Qed.

Lemma ErrorResponse_sound j a : json_ok j -> ErrorResponse_from_dict j = Ok a -> ErrorResponse_ok a.
Proof. revert j a. unfold ErrorResponse_from_dict, ErrorResponse_ok. sdk_sound. Qed.

#[global] Instance ErrorResponse_model : Model ErrorResponse :=
  {| to_dict := ErrorResponse_to_dict; from_dict := ErrorResponse_from_dict; model_ok := ErrorResponse_ok;
     model_roundtrip := ErrorResponse_roundtrip; model_sound := ErrorResponse_sound |}.

(** *** [ValidationErrorContext] ([models/validation_error_context.py]) *)

Record ValidationErrorContext := {
  ValidationErrorContext_additional_properties : dict;
}.

Definition ValidationErrorContext_to_dict (self : ValidationErrorContext) : dict :=
  ValidationErrorContext_additional_properties self.

Definition ValidationErrorContext_from_dict (src_dict : json) : Read ValidationErrorContext :=
  d ← dict_of src_dict;
  Ok (Build_ValidationErrorContext d).

Definition ValidationErrorContext_ok (self : ValidationErrorContext) : Prop :=
  fresh [] (ValidationErrorContext_additional_properties self).

Lemma ValidationErrorContext_roundtrip self : ValidationErrorContext_ok self -> ValidationErrorContext_from_dict (JObj (ValidationErrorContext_to_dict self)) = Ok self.
Proof. by destruct self. Qed.

Lemma ValidationErrorContext_sound j a : json_ok j -> ValidationErrorContext_from_dict j = Ok a -> ValidationErrorContext_ok a.
Proof. revert j a. unfold ValidationErrorContext_from_dict, ValidationErrorContext_ok. sdk_sound. Qed.

#[global] Instance ValidationErrorContext_model : Model ValidationErrorContext :=
  {| to_dict := ValidationErrorContext_to_dict; from_dict := ValidationErrorContext_from_dict; model_ok := ValidationErrorContext_ok;
     model_roundtrip := ValidationErrorContext_roundtrip; model_sound := ValidationErrorContext_sound |}.

(** *** [ValidationError] ([models/validation_error.py]) *)

Record ValidationError := {
  ValidationError_loc : list json;
  ValidationError_msg : json;
  ValidationError_type_ : json;
  ValidationError_ctx : maybe ValidationErrorContext;
  ValidationError_input_ : maybe json;
  ValidationError_additional_properties : dict;
}.

Definition ValidationError_to_dict (self : ValidationError) : dict :=
  update_set (update (ValidationError_additional_properties self)
    [("loc", JList (ValidationError_loc self));
     ("msg", ValidationError_msg self);
     ("type", ValidationError_type_ self)])
    [("ctx", (fun m => JObj (to_dict m)) <$> ValidationError_ctx self);
     ("input", ValidationError_input_ self)].

Definition ValidationError_from_dict (src_dict : json) : Read ValidationError :=
  d ← dict_of src_dict;
  '(loc, d) ← pop "loc" d;
  loc ← iter loc;
  '(msg, d) ← pop "msg" d;
  '(type_, d) ← pop "type" d;
  let '(ctx, d) := pop_unset "ctx" d in
  ctx ← unless_unset from_dict ctx;
  let '(input_, d) := pop_unset "input" d in
  Ok (Build_ValidationError loc msg type_ ctx input_ d).

Definition ValidationError_ok (self : ValidationError) : Prop :=
  fresh ["loc"; "msg"; "type"; "ctx"; "input"] (ValidationError_additional_properties self) /\
  maybe_ok (model_ok) (ValidationError_ctx self).

Lemma ValidationError_roundtrip self : ValidationError_ok self -> ValidationError_from_dict (JObj (ValidationError_to_dict self)) = Ok self.
Proof. revert self. unfold ValidationError_from_dict, ValidationError_to_dict, ValidationError_ok. sdk_roundtrip. Qed.

Lemma ValidationError_sound j a : json_ok j -> ValidationError_from_dict j = Ok a -> ValidationError_ok a.
Proof. revert j a. unfold ValidationError_from_dict, ValidationError_ok. sdk_sound. Qed.

#[global] Instance ValidationError_model : Model ValidationError :=
  {| to_dict := ValidationError_to_dict; from_dict := ValidationError_from_dict; model_ok := ValidationError_ok;
     model_roundtrip := ValidationError_roundtrip; model_sound := ValidationError_sound |}.

(** *** [HTTPValidationError] ([models/http_validation_error.py]) *)

Record HTTPValidationError := {
  HTTPValidationError_detail : maybe (list ValidationError);
  HTTPValidationError_additional_properties : dict;
}.

Definition HTTPValidationError_to_dict (self : HTTPValidationError) : dict :=
  update_set (update (HTTPValidationError_additional_properties self)
    [])
    [("detail", (fun l => JList (map (fun m => JObj (to_dict m)) l)) <$> HTTPValidationError_detail self)].

Definition HTTPValidationError_from_dict (src_dict : json) : Read HTTPValidationError :=
  d ← dict_of src_dict;
  let '(detail, d) := pop_unset "detail" d in
  detail ← unless_unset (read_list from_dict) detail;
  Ok (Build_HTTPValidationError detail d).

Definition HTTPValidationError_ok (self : HTTPValidationError) : Prop :=
  fresh ["detail"] (HTTPValidationError_additional_properties self) /\
  maybe_ok (Forall model_ok) (HTTPValidationError_detail self).

Lemma HTTPValidationError_roundtrip self : HTTPValidationError_ok self -> HTTPValidationError_from_dict (JObj (HTTPValidationError_to_dict self)) = Ok self.
Proof. revert self. unfold HTTPValidationError_from_dict, HTTPValidationError_to_dict, HTTPValidationError_ok. sdk_roundtrip. Qed.

Lemma HTTPValidationError_sound j a : json_ok j -> HTTPValidationError_from_dict j = Ok a -> HTTPValidationError_ok a.
Proof. revert j a. unfold HTTPValidationError_from_dict, HTTPValidationError_ok. sdk_sound. Qed.

#[global] Instance HTTPValidationError_model : Model HTTPValidationError :=
  {| to_dict := HTTPValidationError_to_dict; from_dict := HTTPValidationError_from_dict; model_ok := HTTPValidationError_ok;
     model_roundtrip := HTTPValidationError_roundtrip; model_sound := HTTPValidationError_sound |}.

(** *** [HazardEventResponse] ([models/hazard_event_response.py]) *)

Record HazardEventResponse := {
  HazardEventResponse_created_at : datetime;
  HazardEventResponse_details : json;
  HazardEventResponse_event_date : datetime;
  HazardEventResponse_event_type : json;
  HazardEventResponse_external_id : json;
  HazardEventResponse_id : uuid;
  HazardEventResponse_region_label : json;
  HazardEventResponse_source : json;
  HazardEventResponse_additional_properties : dict;
}.

Definition HazardEventResponse_to_dict (self : HazardEventResponse) : dict :=
  update (HazardEventResponse_additional_properties self)
    [("created_at", JStr (dt_isoformat (HazardEventResponse_created_at self)));
     ("details", HazardEventResponse_details self);
     ("event_date", JStr (dt_isoformat (HazardEventResponse_event_date self)));
     ("event_type", HazardEventResponse_event_type self);
     ("external_id", HazardEventResponse_external_id self);
     ("id", JStr (uuid_str (HazardEventResponse_id self)));
     ("region_label", HazardEventResponse_region_label self);
     ("source", HazardEventResponse_source self)].

Definition HazardEventResponse_from_dict (src_dict : json) : Read HazardEventResponse :=
  d ← dict_of src_dict;
  '(created_at, d) ← pop "created_at" d;
  created_at ← read_datetime created_at;
  '(details, d) ← pop "details" d;
  '(event_date, d) ← pop "event_date" d;
  event_date ← read_datetime event_date;
  '(event_type, d) ← pop "event_type" d;
  '(external_id, d) ← pop "external_id" d;
  '(id, d) ← pop "id" d;
  id ← read_uuid id;
  '(region_label, d) ← pop "region_label" d;
  '(source, d) ← pop "source" d;
  Ok (Build_HazardEventResponse created_at details event_date event_type external_id id region_label source d).

Definition HazardEventResponse_ok (self : HazardEventResponse) : Prop :=
  fresh ["created_at"; "details"; "event_date"; "event_type"; "external_id"; "id"; "region_label"; "source"] (HazardEventResponse_additional_properties self) /\
  uuid_ok (HazardEventResponse_id self).

Lemma HazardEventResponse_roundtrip self : HazardEventResponse_ok self -> HazardEventResponse_from_dict (JObj (HazardEventResponse_to_dict self)) = Ok self.
Proof. revert self. unfold HazardEventResponse_from_dict, HazardEventResponse_to_dict, HazardEventResponse_ok. sdk_roundtrip. Qed.

Lemma HazardEventResponse_sound j a : json_ok j -> HazardEventResponse_from_dict j = Ok a -> HazardEventResponse_ok a.
Proof. revert j a. unfold HazardEventResponse_from_dict, HazardEventResponse_ok. sdk_sound. Qed.

#[global] Instance HazardEventResponse_model : Model HazardEventResponse :=
  {| to_dict := HazardEventResponse_to_dict; from_dict := HazardEventResponse_from_dict; model_ok := HazardEventResponse_ok;
     model_roundtrip := HazardEventResponse_roundtrip; model_sound := HazardEventResponse_sound |}.

(** *** [InvestigationCreateRequest] ([models/investigation_create_request.py]) *)

Record InvestigationCreateRequest := {
  InvestigationCreateRequest_query : json;
  InvestigationCreateRequest_consent_public_research : maybe json;
  InvestigationCreateRequest_additional_properties : dict;
}.

Definition InvestigationCreateRequest_to_dict (self : InvestigationCreateRequest) : dict :=
  update_set (update (InvestigationCreateRequest_additional_properties self)
    [("query", InvestigationCreateRequest_query self)])
    [("consent_public_research", InvestigationCreateRequest_consent_public_research self)].

Definition InvestigationCreateRequest_from_dict (src_dict : json) : Read InvestigationCreateRequest :=
  d ← dict_of src_dict;
  '(query, d) ← pop "query" d;
  let '(consent_public_research, d) := pop_unset "consent_public_research" d in
  Ok (Build_InvestigationCreateRequest query consent_public_research d).

Definition InvestigationCreateRequest_ok (self : InvestigationCreateRequest) : Prop :=
  fresh ["query"; "consent_public_research"] (InvestigationCreateRequest_additional_properties self).

Lemma InvestigationCreateRequest_roundtrip self : InvestigationCreateRequest_ok self -> InvestigationCreateRequest_from_dict (JObj (InvestigationCreateRequest_to_dict self)) = Ok self.
Proof. revert self. unfold InvestigationCreateRequest_from_dict, InvestigationCreateRequest_to_dict, InvestigationCreateRequest_ok. sdk_roundtrip. Qed.

Lemma InvestigationCreateRequest_sound j a : json_ok j -> InvestigationCreateRequest_from_dict j = Ok a -> InvestigationCreateRequest_ok a.
Proof. revert j a. unfold InvestigationCreateRequest_from_dict, InvestigationCreateRequest_ok. sdk_sound. Qed.

#[global] Instance InvestigationCreateRequest_model : Model InvestigationCreateRequest :=
  {| to_dict := InvestigationCreateRequest_to_dict; from_dict := InvestigationCreateRequest_from_dict; model_ok := InvestigationCreateRequest_ok;
     model_roundtrip := InvestigationCreateRequest_roundtrip; model_sound := InvestigationCreateRequest_sound |}.

Definition InvestigationCreateRequest_init (kwargs : dict) : Read InvestigationCreateRequest :=
  _ ← only_kwargs ["query"; "consent_public_research"] kwargs;
  query ← kwarg "query" kwargs;
  Ok {| InvestigationCreateRequest_query := query; InvestigationCreateRequest_consent_public_research := kwarg_default "consent_public_research" (Val (JBool false)) kwargs; InvestigationCreateRequest_additional_properties := [] |}.

(** *** [InvestigationCreateResponse] ([models/investigation_create_response.py]) *)

Record InvestigationCreateResponse := {
  InvestigationCreateResponse_investigation_id : uuid;
  InvestigationCreateResponse_poll_url : json;
  InvestigationCreateResponse_status : json;
  InvestigationCreateResponse_stream_url : json;
  InvestigationCreateResponse_additional_properties : dict;
}.

Definition InvestigationCreateResponse_to_dict (self : InvestigationCreateResponse) : dict :=
  update (InvestigationCreateResponse_additional_properties self)
    [("investigation_id", JStr (uuid_str (InvestigationCreateResponse_investigation_id self)));
     ("poll_url", InvestigationCreateResponse_poll_url self);
     ("status", InvestigationCreateResponse_status self);
     ("stream_url", InvestigationCreateResponse_stream_url self)].

Definition InvestigationCreateResponse_from_dict (src_dict : json) : Read InvestigationCreateResponse :=
  d ← dict_of src_dict;
  '(investigation_id, d) ← pop "investigation_id" d;
  investigation_id ← read_uuid investigation_id;
  '(poll_url, d) ← pop "poll_url" d;
  '(status, d) ← pop "status" d;
  if negb (jeq_str status "accepted") then Raise (Py ValueError) else
  '(stream_url, d) ← pop "stream_url" d;
  Ok (Build_InvestigationCreateResponse investigation_id poll_url status stream_url d).

Definition InvestigationCreateResponse_ok (self : InvestigationCreateResponse) : Prop :=
  fresh ["investigation_id"; "poll_url"; "status"; "stream_url"] (InvestigationCreateResponse_additional_properties self) /\
  uuid_ok (InvestigationCreateResponse_investigation_id self) /\
  (fun s => jeq_str s "accepted" = true) (InvestigationCreateResponse_status self).

Lemma InvestigationCreateResponse_roundtrip self : InvestigationCreateResponse_ok self -> InvestigationCreateResponse_from_dict (JObj (InvestigationCreateResponse_to_dict self)) = Ok self.
Proof. revert self. unfold InvestigationCreateResponse_from_dict, InvestigationCreateResponse_to_dict, InvestigationCreateResponse_ok. sdk_roundtrip. Qed.

Lemma InvestigationCreateResponse_sound j a : json_ok j -> InvestigationCreateResponse_from_dict j = Ok a -> InvestigationCreateResponse_ok a.
Proof. revert j a. unfold InvestigationCreateResponse_from_dict, InvestigationCreateResponse_ok. sdk_sound. Qed.

#[global] Instance InvestigationCreateResponse_model : Model InvestigationCreateResponse :=
  {| to_dict := InvestigationCreateResponse_to_dict; from_dict := InvestigationCreateResponse_from_dict; model_ok := InvestigationCreateResponse_ok;
     model_roundtrip := InvestigationCreateResponse_roundtrip; model_sound := InvestigationCreateResponse_sound |}.

(** *** [InvestigationStatusResponseExecutionTraceType0] ([models/investigation_status_response_execution_trace_type_0.py]) *)

Record InvestigationStatusResponseExecutionTraceType0 := {
  InvestigationStatusResponseExecutionTraceType0_additional_properties : dict;
}.

Definition InvestigationStatusResponseExecutionTraceType0_to_dict (self : InvestigationStatusResponseExecutionTraceType0) : dict :=
  InvestigationStatusResponseExecutionTraceType0_additional_properties self.

Definition InvestigationStatusResponseExecutionTraceType0_from_dict (src_dict : json) : Read InvestigationStatusResponseExecutionTraceType0 :=
  d ← dict_of src_dict;
  Ok (Build_InvestigationStatusResponseExecutionTraceType0 d).

Definition InvestigationStatusResponseExecutionTraceType0_ok (self : InvestigationStatusResponseExecutionTraceType0) : Prop :=
  fresh [] (InvestigationStatusResponseExecutionTraceType0_additional_properties self).

Lemma InvestigationStatusResponseExecutionTraceType0_roundtrip self : InvestigationStatusResponseExecutionTraceType0_ok self -> InvestigationStatusResponseExecutionTraceType0_from_dict (JObj (InvestigationStatusResponseExecutionTraceType0_to_dict self)) = Ok self.
Proof. by destruct self. Qed.

Lemma InvestigationStatusResponseExecutionTraceType0_sound j a : json_ok j -> InvestigationStatusResponseExecutionTraceType0_from_dict j = Ok a -> InvestigationStatusResponseExecutionTraceType0_ok a.
Proof. revert j a. unfold InvestigationStatusResponseExecutionTraceType0_from_dict, InvestigationStatusResponseExecutionTraceType0_ok. sdk_sound. Qed.

#[global] Instance InvestigationStatusResponseExecutionTraceType0_model : Model InvestigationStatusResponseExecutionTraceType0 :=
  {| to_dict := InvestigationStatusResponseExecutionTraceType0_to_dict; from_dict := InvestigationStatusResponseExecutionTraceType0_from_dict; model_ok := InvestigationStatusResponseExecutionTraceType0_ok;
     model_roundtrip := InvestigationStatusResponseExecutionTraceType0_roundtrip; model_sound := InvestigationStatusResponseExecutionTraceType0_sound |}.

(** *** [InvestigationStatusResponse] ([models/investigation_status_response.py]) *)

Record InvestigationStatusResponse := {
  InvestigationStatusResponse_answer : json;
  InvestigationStatusResponse_completed_at : parsed datetime;
  InvestigationStatusResponse_complexity_tier : json;
  InvestigationStatusResponse_confidence : json;
  InvestigationStatusResponse_created_at : datetime;
  InvestigationStatusResponse_execution_trace : parsed InvestigationStatusResponseExecutionTraceType0;
  InvestigationStatusResponse_investigation_id : uuid;
  InvestigationStatusResponse_status : json;
  InvestigationStatusResponse_evidence_gaps : maybe json;
  InvestigationStatusResponse_additional_properties : dict;
}.

Definition InvestigationStatusResponse_to_dict (self : InvestigationStatusResponse) : dict :=
  update_set (update (InvestigationStatusResponse_additional_properties self)
    [("answer", InvestigationStatusResponse_answer self);
     ("completed_at", write_parsed (fun t => JStr (dt_isoformat t)) (InvestigationStatusResponse_completed_at self));
     ("complexity_tier", InvestigationStatusResponse_complexity_tier self);
     ("confidence", InvestigationStatusResponse_confidence self);
     ("created_at", JStr (dt_isoformat (InvestigationStatusResponse_created_at self)));
     ("execution_trace", write_parsed (fun m => JObj (to_dict m)) (InvestigationStatusResponse_execution_trace self));
     ("investigation_id", JStr (uuid_str (InvestigationStatusResponse_investigation_id self)));
     ("status", InvestigationStatusResponse_status self)])
    [("evidence_gaps", InvestigationStatusResponse_evidence_gaps self)].

Definition InvestigationStatusResponse_from_dict (src_dict : json) : Read InvestigationStatusResponse :=
  d ← dict_of src_dict;
  '(answer, d) ← pop "answer" d;
  '(completed_at, d) ← pop "completed_at" d;
  completed_at ← tolerant (if_str read_datetime) completed_at;
  '(complexity_tier, d) ← pop "complexity_tier" d;
  '(confidence, d) ← pop "confidence" d;
  '(created_at, d) ← pop "created_at" d;
  created_at ← read_datetime created_at;
  '(execution_trace, d) ← pop "execution_trace" d;
  execution_trace ← tolerant (if_dict from_dict) execution_trace;
  '(investigation_id, d) ← pop "investigation_id" d;
  investigation_id ← read_uuid investigation_id;
  '(status, d) ← pop "status" d;
  let '(evidence_gaps, d) := pop_unset "evidence_gaps" d in
  Ok (Build_InvestigationStatusResponse answer completed_at complexity_tier confidence created_at execution_trace investigation_id status evidence_gaps d).

Definition InvestigationStatusResponse_ok (self : InvestigationStatusResponse) : Prop :=
  fresh ["answer"; "completed_at"; "complexity_tier"; "confidence"; "created_at"; "execution_trace"; "investigation_id"; "status"; "evidence_gaps"] (InvestigationStatusResponse_additional_properties self) /\
  parsed_ok (if_str read_datetime) (fun t => JStr (dt_isoformat t)) (InvestigationStatusResponse_completed_at self) /\
  parsed_ok (if_dict from_dict) (fun m => JObj (to_dict m)) (InvestigationStatusResponse_execution_trace self) /\
  uuid_ok (InvestigationStatusResponse_investigation_id self).

Lemma InvestigationStatusResponse_roundtrip self : InvestigationStatusResponse_ok self -> InvestigationStatusResponse_from_dict (JObj (InvestigationStatusResponse_to_dict self)) = Ok self.
Proof. revert self. unfold InvestigationStatusResponse_from_dict, InvestigationStatusResponse_to_dict, InvestigationStatusResponse_ok. sdk_roundtrip. Qed.

Lemma InvestigationStatusResponse_sound j a : json_ok j -> InvestigationStatusResponse_from_dict j = Ok a -> InvestigationStatusResponse_ok a.
Proof. revert j a. unfold InvestigationStatusResponse_from_dict, InvestigationStatusResponse_ok. sdk_sound. Qed.

#[global] Instance InvestigationStatusResponse_model : Model InvestigationStatusResponse :=
  {| to_dict := InvestigationStatusResponse_to_dict; from_dict := InvestigationStatusResponse_from_dict; model_ok := InvestigationStatusResponse_ok;
     model_roundtrip := InvestigationStatusResponse_roundtrip; model_sound := InvestigationStatusResponse_sound |}.

(** *** [TraceEdge] ([models/trace_edge.py]) *)

Record TraceEdge := {
  TraceEdge_id : json;
  TraceEdge_source : json;
  TraceEdge_target : json;
  TraceEdge_label : maybe json;
  TraceEdge_type_ : maybe json;
  TraceEdge_additional_properties : dict;
}.

Definition TraceEdge_to_dict (self : TraceEdge) : dict :=
  update_set (update (TraceEdge_additional_properties self)
    [("id", TraceEdge_id self);
     ("source", TraceEdge_source self);
     ("target", TraceEdge_target self)])
    [("label", TraceEdge_label self);
     ("type", TraceEdge_type_ self)].

Definition TraceEdge_from_dict (src_dict : json) : Read TraceEdge :=
  d ← dict_of src_dict;
  '(id, d) ← pop "id" d;
  '(source, d) ← pop "source" d;
  '(target, d) ← pop "target" d;
  let '(label, d) := pop_unset "label" d in
  let '(type_, d) := pop_unset "type" d in
  Ok (Build_TraceEdge id source target label type_ d).

Definition TraceEdge_ok (self : TraceEdge) : Prop :=
  fresh ["id"; "source"; "target"; "label"; "type"] (TraceEdge_additional_properties self).

Lemma TraceEdge_roundtrip self : TraceEdge_ok self -> TraceEdge_from_dict (JObj (TraceEdge_to_dict self)) = Ok self.
Proof. revert self. unfold TraceEdge_from_dict, TraceEdge_to_dict, TraceEdge_ok. sdk_roundtrip. Qed.

Lemma TraceEdge_sound j a : json_ok j -> TraceEdge_from_dict j = Ok a -> TraceEdge_ok a.
Proof. revert j a. unfold TraceEdge_from_dict, TraceEdge_ok. sdk_sound. Qed.

#[global] Instance TraceEdge_model : Model TraceEdge :=
  {| to_dict := TraceEdge_to_dict; from_dict := TraceEdge_from_dict; model_ok := TraceEdge_ok;
     model_roundtrip := TraceEdge_roundtrip; model_sound := TraceEdge_sound |}.

(** *** [TraceMetadata] ([models/trace_metadata.py]) *)

Record TraceMetadata := {
  TraceMetadata_created_at : datetime;
  TraceMetadata_investigation_id : uuid;
  TraceMetadata_status : json;
  TraceMetadata_completed_at : maybe (parsed datetime);
  TraceMetadata_complexity_tier : maybe json;
  TraceMetadata_confidence : maybe json;
  TraceMetadata_edge_count : maybe json;
  TraceMetadata_generated_at : maybe datetime;
  TraceMetadata_has_collaboration : maybe json;
  TraceMetadata_has_degraded_mode : maybe json;
  TraceMetadata_has_replan : maybe json;
  TraceMetadata_node_count : maybe json;
  TraceMetadata_schema_version : maybe json;
  TraceMetadata_additional_properties : dict;
}.

Definition TraceMetadata_to_dict (self : TraceMetadata) : dict :=
  update_set (update (TraceMetadata_additional_properties self)
    [("created_at", JStr (dt_isoformat (TraceMetadata_created_at self)));
     ("investigation_id", JStr (uuid_str (TraceMetadata_investigation_id self)));
     ("status", TraceMetadata_status self)])
    [("completed_at", (write_parsed (fun t => JStr (dt_isoformat t))) <$> TraceMetadata_completed_at self);
     ("complexity_tier", TraceMetadata_complexity_tier self);
     ("confidence", TraceMetadata_confidence self);
     ("edge_count", TraceMetadata_edge_count self);
     ("generated_at", (fun t => JStr (dt_isoformat t)) <$> TraceMetadata_generated_at self);
     ("has_collaboration", TraceMetadata_has_collaboration self);
     ("has_degraded_mode", TraceMetadata_has_degraded_mode self);
     ("has_replan", TraceMetadata_has_replan self);
     ("node_count", TraceMetadata_node_count self);
     ("schema_version", TraceMetadata_schema_version self)].

Definition TraceMetadata_from_dict (src_dict : json) : Read TraceMetadata :=
  d ← dict_of src_dict;
  '(created_at, d) ← pop "created_at" d;
  created_at ← read_datetime created_at;
  '(investigation_id, d) ← pop "investigation_id" d;
  investigation_id ← read_uuid investigation_id;
  '(status, d) ← pop "status" d;
  let '(completed_at, d) := pop_unset "completed_at" d in
  completed_at ← unless_unset (tolerant (if_str read_datetime)) completed_at;
  let '(complexity_tier, d) := pop_unset "complexity_tier" d in
  let '(confidence, d) := pop_unset "confidence" d in
  let '(edge_count, d) := pop_unset "edge_count" d in
  let '(generated_at, d) := pop_unset "generated_at" d in
  generated_at ← unless_unset read_datetime generated_at;
  let '(has_collaboration, d) := pop_unset "has_collaboration" d in
  let '(has_degraded_mode, d) := pop_unset "has_degraded_mode" d in
  let '(has_replan, d) := pop_unset "has_replan" d in
  let '(node_count, d) := pop_unset "node_count" d in
  let '(schema_version, d) := pop_unset "schema_version" d in
  Ok (Build_TraceMetadata created_at investigation_id status completed_at complexity_tier confidence edge_count generated_at has_collaboration has_degraded_mode has_replan node_count schema_version d).

Definition TraceMetadata_ok (self : TraceMetadata) : Prop :=
  fresh ["created_at"; "investigation_id"; "status"; "completed_at"; "complexity_tier"; "confidence"; "edge_count"; "generated_at"; "has_collaboration"; "has_degraded_mode"; "has_replan"; "node_count"; "schema_version"] (TraceMetadata_additional_properties self) /\
  uuid_ok (TraceMetadata_investigation_id self) /\
  maybe_ok (parsed_ok (if_str read_datetime) (fun t => JStr (dt_isoformat t))) (TraceMetadata_completed_at self).

Lemma TraceMetadata_roundtrip self : TraceMetadata_ok self -> TraceMetadata_from_dict (JObj (TraceMetadata_to_dict self)) = Ok self.
Proof. revert self. unfold TraceMetadata_from_dict, TraceMetadata_to_dict, TraceMetadata_ok. sdk_roundtrip. Qed.

Lemma TraceMetadata_sound j a : json_ok j -> TraceMetadata_from_dict j = Ok a -> TraceMetadata_ok a.
Proof. revert j a. unfold TraceMetadata_from_dict, TraceMetadata_ok. sdk_sound. Qed.

#[global] Instance TraceMetadata_model : Model TraceMetadata :=
  {| to_dict := TraceMetadata_to_dict; from_dict := TraceMetadata_from_dict; model_ok := TraceMetadata_ok;
     model_roundtrip := TraceMetadata_roundtrip; model_sound := TraceMetadata_sound |}.

(** *** [TraceNodeDetails] ([models/trace_node_details.py]) *)

Record TraceNodeDetails := {
  TraceNodeDetails_additional_properties : dict;
}.

Definition TraceNodeDetails_to_dict (self : TraceNodeDetails) : dict :=
  TraceNodeDetails_additional_properties self.

Definition TraceNodeDetails_from_dict (src_dict : json) : Read TraceNodeDetails :=
  d ← dict_of src_dict;
  Ok (Build_TraceNodeDetails d).

Definition TraceNodeDetails_ok (self : TraceNodeDetails) : Prop :=
  fresh [] (TraceNodeDetails_additional_properties self).

Lemma TraceNodeDetails_roundtrip self : TraceNodeDetails_ok self -> TraceNodeDetails_from_dict (JObj (TraceNodeDetails_to_dict self)) = Ok self.
Proof. by destruct self. Qed.

Lemma TraceNodeDetails_sound j a : json_ok j -> TraceNodeDetails_from_dict j = Ok a -> TraceNodeDetails_ok a.
Proof. revert j a. unfold TraceNodeDetails_from_dict, TraceNodeDetails_ok. sdk_sound. Qed.

#[global] Instance TraceNodeDetails_model : Model TraceNodeDetails :=
  {| to_dict := TraceNodeDetails_to_dict; from_dict := TraceNodeDetails_from_dict; model_ok := TraceNodeDetails_ok;
     model_roundtrip := TraceNodeDetails_roundtrip; model_sound := TraceNodeDetails_sound |}.

(** *** [TraceNode] ([models/trace_node.py]) *)

Record TraceNode := {
  TraceNode_id : json;
  TraceNode_label : json;
  TraceNode_type_ : json;
  TraceNode_details : maybe TraceNodeDetails;
  TraceNode_status : maybe json;
  TraceNode_timestamp : maybe json;
  TraceNode_additional_properties : dict;
}.

Definition TraceNode_to_dict (self : TraceNode) : dict :=
  update_set (update (TraceNode_additional_properties self)
    [("id", TraceNode_id self);
     ("label", TraceNode_label self);
     ("type", TraceNode_type_ self)])
    [("details", (fun m => JObj (to_dict m)) <$> TraceNode_details self);
     ("status", TraceNode_status self);
     ("timestamp", TraceNode_timestamp self)].

Definition TraceNode_from_dict (src_dict : json) : Read TraceNode :=
  d ← dict_of src_dict;
  '(id, d) ← pop "id" d;
  '(label, d) ← pop "label" d;
  '(type_, d) ← pop "type" d;
  let '(details, d) := pop_unset "details" d in
  details ← unless_unset from_dict details;
  let '(status, d) := pop_unset "status" d in
  let '(timestamp, d) := pop_unset "timestamp" d in
  Ok (Build_TraceNode id label type_ details status timestamp d).

Definition TraceNode_ok (self : TraceNode) : Prop :=
  fresh ["id"; "label"; "type"; "details"; "status"; "timestamp"] (TraceNode_additional_properties self) /\
  maybe_ok (model_ok) (TraceNode_details self).

Lemma TraceNode_roundtrip self : TraceNode_ok self -> TraceNode_from_dict (JObj (TraceNode_to_dict self)) = Ok self.
Proof. revert self. unfold TraceNode_from_dict, TraceNode_to_dict, TraceNode_ok. sdk_roundtrip. Qed.

Lemma TraceNode_sound j a : json_ok j -> TraceNode_from_dict j = Ok a -> TraceNode_ok a.
Proof. revert j a. unfold TraceNode_from_dict, TraceNode_ok. sdk_sound. Qed.

#[global] Instance TraceNode_model : Model TraceNode :=
  {| to_dict := TraceNode_to_dict; from_dict := TraceNode_from_dict; model_ok := TraceNode_ok;
     model_roundtrip := TraceNode_roundtrip; model_sound := TraceNode_sound |}.

(** *** [TraceSummary] ([models/trace_summary.py]) *)

Record TraceSummary := {
  TraceSummary_collaboration_event_count : maybe json;
  TraceSummary_critic_flag_count : maybe json;
  TraceSummary_degraded_sources : maybe json;
  TraceSummary_evidence_count : maybe json;
  TraceSummary_replan_count : maybe json;
  TraceSummary_additional_properties : dict;
}.

Definition TraceSummary_to_dict (self : TraceSummary) : dict :=
  update_set (update (TraceSummary_additional_properties self)
    [])
    [("collaboration_event_count", TraceSummary_collaboration_event_count self);
     ("critic_flag_count", TraceSummary_critic_flag_count self);
     ("degraded_sources", TraceSummary_degraded_sources self);
     ("evidence_count", TraceSummary_evidence_count self);
     ("replan_count", TraceSummary_replan_count self)].

Definition TraceSummary_from_dict (src_dict : json) : Read TraceSummary :=
  d ← dict_of src_dict;
  let '(collaboration_event_count, d) := pop_unset "collaboration_event_count" d in
  let '(critic_flag_count, d) := pop_unset "critic_flag_count" d in
  let '(degraded_sources, d) := pop_unset "degraded_sources" d in
  let '(evidence_count, d) := pop_unset "evidence_count" d in
  let '(replan_count, d) := pop_unset "replan_count" d in
  Ok (Build_TraceSummary collaboration_event_count critic_flag_count degraded_sources evidence_count replan_count d).

Definition TraceSummary_ok (self : TraceSummary) : Prop :=
  fresh ["collaboration_event_count"; "critic_flag_count"; "degraded_sources"; "evidence_count"; "replan_count"] (TraceSummary_additional_properties self).

Lemma TraceSummary_roundtrip self : TraceSummary_ok self -> TraceSummary_from_dict (JObj (TraceSummary_to_dict self)) = Ok self.
Proof. revert self. unfold TraceSummary_from_dict, TraceSummary_to_dict, TraceSummary_ok. sdk_roundtrip. Qed.

Lemma TraceSummary_sound j a : json_ok j -> TraceSummary_from_dict j = Ok a -> TraceSummary_ok a.
Proof. revert j a. unfold TraceSummary_from_dict, TraceSummary_ok. sdk_sound. Qed.

#[global] Instance TraceSummary_model : Model TraceSummary :=
  {| to_dict := TraceSummary_to_dict; from_dict := TraceSummary_from_dict; model_ok := TraceSummary_ok;
     model_roundtrip := TraceSummary_roundtrip; model_sound := TraceSummary_sound |}.

(** *** [InvestigationTraceResponse] ([models/investigation_trace_response.py]) *)

Record InvestigationTraceResponse := {
  InvestigationTraceResponse_edges : list TraceEdge;
  InvestigationTraceResponse_investigation_id : uuid;
  InvestigationTraceResponse_metadata : TraceMetadata;
  InvestigationTraceResponse_nodes : list TraceNode;
  InvestigationTraceResponse_summary : TraceSummary;
  InvestigationTraceResponse_schema_version : maybe json;
  InvestigationTraceResponse_additional_properties : dict;
}.

Definition InvestigationTraceResponse_to_dict (self : InvestigationTraceResponse) : dict :=
  update_set (update (InvestigationTraceResponse_additional_properties self)
    [("edges", JList (map (fun m => JObj (to_dict m)) (InvestigationTraceResponse_edges self)));
     ("investigation_id", JStr (uuid_str (InvestigationTraceResponse_investigation_id self)));
     ("metadata", JObj (to_dict (InvestigationTraceResponse_metadata self)));
     ("nodes", JList (map (fun m => JObj (to_dict m)) (InvestigationTraceResponse_nodes self)));
     ("summary", JObj (to_dict (InvestigationTraceResponse_summary self)))])
    [("schema_version", InvestigationTraceResponse_schema_version self)].

Definition InvestigationTraceResponse_from_dict (src_dict : json) : Read InvestigationTraceResponse :=
  d ← dict_of src_dict;
  '(edges, d) ← pop "edges" d;
  edges ← read_list from_dict edges;
  '(investigation_id, d) ← pop "investigation_id" d;
  investigation_id ← read_uuid investigation_id;
  '(metadata, d) ← pop "metadata" d;
  metadata ← from_dict metadata;
  '(nodes, d) ← pop "nodes" d;
  nodes ← read_list from_dict nodes;
  '(summary, d) ← pop "summary" d;
  summary ← from_dict summary;
  let '(schema_version, d) := pop_unset "schema_version" d in
  Ok (Build_InvestigationTraceResponse edges investigation_id metadata nodes summary schema_version d).

Definition InvestigationTraceResponse_ok (self : InvestigationTraceResponse) : Prop :=
  fresh ["edges"; "investigation_id"; "metadata"; "nodes"; "summary"; "schema_version"] (InvestigationTraceResponse_additional_properties self) /\
  Forall model_ok (InvestigationTraceResponse_edges self) /\
  uuid_ok (InvestigationTraceResponse_investigation_id self) /\
  model_ok (InvestigationTraceResponse_metadata self) /\
  Forall model_ok (InvestigationTraceResponse_nodes self) /\
  model_ok (InvestigationTraceResponse_summary self).

Lemma InvestigationTraceResponse_roundtrip self : InvestigationTraceResponse_ok self -> InvestigationTraceResponse_from_dict (JObj (InvestigationTraceResponse_to_dict self)) = Ok self.
Proof. revert self. unfold InvestigationTraceResponse_from_dict, InvestigationTraceResponse_to_dict, InvestigationTraceResponse_ok. sdk_roundtrip. Qed.

Lemma InvestigationTraceResponse_sound j a : json_ok j -> InvestigationTraceResponse_from_dict j = Ok a -> InvestigationTraceResponse_ok a.
Proof. revert j a. unfold InvestigationTraceResponse_from_dict, InvestigationTraceResponse_ok. sdk_sound. Qed.

#[global] Instance InvestigationTraceResponse_model : Model InvestigationTraceResponse :=
  {| to_dict := InvestigationTraceResponse_to_dict; from_dict := InvestigationTraceResponse_from_dict; model_ok := InvestigationTraceResponse_ok;
     model_roundtrip := InvestigationTraceResponse_roundtrip; model_sound := InvestigationTraceResponse_sound |}.

(** *** [LivenessResponse] ([models/liveness_response.py]) *)

Record LivenessResponse := {
  LivenessResponse_app_version : json;
  LivenessResponse_schema_version : json;
  LivenessResponse_status : json;
  LivenessResponse_additional_properties : dict;
}.

Definition LivenessResponse_to_dict (self : LivenessResponse) : dict :=
  update (LivenessResponse_additional_properties self)
    [("app_version", LivenessResponse_app_version self);
     ("schema_version", LivenessResponse_schema_version self);
     ("status", LivenessResponse_status self)].

Definition LivenessResponse_from_dict (src_dict : json) : Read LivenessResponse :=
  d ← dict_of src_dict;
  '(app_version, d) ← pop "app_version" d;
  '(schema_version, d) ← pop "schema_version" d;
  '(status, d) ← pop "status" d;
  Ok (Build_LivenessResponse app_version schema_version status d).

Definition LivenessResponse_ok (self : LivenessResponse) : Prop :=
  fresh ["app_version"; "schema_version"; "status"] (LivenessResponse_additional_properties self).

Lemma LivenessResponse_roundtrip self : LivenessResponse_ok self -> LivenessResponse_from_dict (JObj (LivenessResponse_to_dict self)) = Ok self.
Proof. revert self. unfold LivenessResponse_from_dict, LivenessResponse_to_dict, LivenessResponse_ok. sdk_roundtrip. Qed.

Lemma LivenessResponse_sound j a : json_ok j -> LivenessResponse_from_dict j = Ok a -> LivenessResponse_ok a.
Proof. revert j a. unfold LivenessResponse_from_dict, LivenessResponse_ok. sdk_sound. Qed.

#[global] Instance LivenessResponse_model : Model LivenessResponse :=
  {| to_dict := LivenessResponse_to_dict; from_dict := LivenessResponse_from_dict; model_ok := LivenessResponse_ok;
     model_roundtrip := LivenessResponse_roundtrip; model_sound := LivenessResponse_sound |}.

(** *** [PasswordResetConfirmPayload] ([models/password_reset_confirm_payload.py]) *)

Record PasswordResetConfirmPayload := {
  PasswordResetConfirmPayload_new_password : json;
  PasswordResetConfirmPayload_token : json;
  PasswordResetConfirmPayload_additional_properties : dict;
}.

Definition PasswordResetConfirmPayload_to_dict (self : PasswordResetConfirmPayload) : dict :=
  update (PasswordResetConfirmPayload_additional_properties self)
    [("new_password", PasswordResetConfirmPayload_new_password self);
     ("token", PasswordResetConfirmPayload_token self)].

Definition PasswordResetConfirmPayload_from_dict (src_dict : json) : Read PasswordResetConfirmPayload :=
  d ← dict_of src_dict;
  '(new_password, d) ← pop "new_password" d;
  '(token, d) ← pop "token" d;
  Ok (Build_PasswordResetConfirmPayload new_password token d).

Definition PasswordResetConfirmPayload_ok (self : PasswordResetConfirmPayload) : Prop :=
  fresh ["new_password"; "token"] (PasswordResetConfirmPayload_additional_properties self).

Lemma PasswordResetConfirmPayload_roundtrip self : PasswordResetConfirmPayload_ok self -> PasswordResetConfirmPayload_from_dict (JObj (PasswordResetConfirmPayload_to_dict self)) = Ok self.
Proof. revert self. unfold PasswordResetConfirmPayload_from_dict, PasswordResetConfirmPayload_to_dict, PasswordResetConfirmPayload_ok. sdk_roundtrip. Qed.

Lemma PasswordResetConfirmPayload_sound j a : json_ok j -> PasswordResetConfirmPayload_from_dict j = Ok a -> PasswordResetConfirmPayload_ok a.
Proof. revert j a. unfold PasswordResetConfirmPayload_from_dict, PasswordResetConfirmPayload_ok. sdk_sound. Qed.

#[global] Instance PasswordResetConfirmPayload_model : Model PasswordResetConfirmPayload :=
  {| to_dict := PasswordResetConfirmPayload_to_dict; from_dict := PasswordResetConfirmPayload_from_dict; model_ok := PasswordResetConfirmPayload_ok;
     model_roundtrip := PasswordResetConfirmPayload_roundtrip; model_sound := PasswordResetConfirmPayload_sound |}.

Definition PasswordResetConfirmPayload_init (kwargs : dict) : Read PasswordResetConfirmPayload :=
  _ ← only_kwargs ["new_password"; "token"] kwargs;
  new_password ← kwarg "new_password" kwargs;
  token ← kwarg "token" kwargs;
  Ok {| PasswordResetConfirmPayload_new_password := new_password; PasswordResetConfirmPayload_token := token; PasswordResetConfirmPayload_additional_properties := [] |}.

(** *** [PasswordResetRequestPayload] ([models/password_reset_request_payload.py]) *)

Record PasswordResetRequestPayload := {
  PasswordResetRequestPayload_email : json;
  PasswordResetRequestPayload_additional_properties : dict;
}.

Definition PasswordResetRequestPayload_to_dict (self : PasswordResetRequestPayload) : dict :=
  update (PasswordResetRequestPayload_additional_properties self)
    [("email", PasswordResetRequestPayload_email self)].

Definition PasswordResetRequestPayload_from_dict (src_dict : json) : Read PasswordResetRequestPayload :=
  d ← dict_of src_dict;
  '(email, d) ← pop "email" d;
  Ok (Build_PasswordResetRequestPayload email d).

Definition PasswordResetRequestPayload_ok (self : PasswordResetRequestPayload) : Prop :=
  fresh ["email"] (PasswordResetRequestPayload_additional_properties self).

Lemma PasswordResetRequestPayload_roundtrip self : PasswordResetRequestPayload_ok self -> PasswordResetRequestPayload_from_dict (JObj (PasswordResetRequestPayload_to_dict self)) = Ok self.
Proof. revert self. unfold PasswordResetRequestPayload_from_dict, PasswordResetRequestPayload_to_dict, PasswordResetRequestPayload_ok. sdk_roundtrip. Qed.

Lemma PasswordResetRequestPayload_sound j a : json_ok j -> PasswordResetRequestPayload_from_dict j = Ok a -> PasswordResetRequestPayload_ok a.
Proof. revert j a. unfold PasswordResetRequestPayload_from_dict, PasswordResetRequestPayload_ok. sdk_sound. Qed.

#[global] Instance PasswordResetRequestPayload_model : Model PasswordResetRequestPayload :=
  {| to_dict := PasswordResetRequestPayload_to_dict; from_dict := PasswordResetRequestPayload_from_dict; model_ok := PasswordResetRequestPayload_ok;
     model_roundtrip := PasswordResetRequestPayload_roundtrip; model_sound := PasswordResetRequestPayload_sound |}.

Definition PasswordResetRequestPayload_init (kwargs : dict) : Read PasswordResetRequestPayload :=
  _ ← only_kwargs ["email"] kwargs;
  email ← kwarg "email" kwargs;
  Ok {| PasswordResetRequestPayload_email := email; PasswordResetRequestPayload_additional_properties := [] |}.

(** *** [PatternFindingResponseUncertainty] ([models/pattern_finding_response_uncertainty.py]) *)

Record PatternFindingResponseUncertainty := {
  PatternFindingResponseUncertainty_additional_properties : dict;
}.

Definition PatternFindingResponseUncertainty_to_dict (self : PatternFindingResponseUncertainty) : dict :=
  PatternFindingResponseUncertainty_additional_properties self.

Definition PatternFindingResponseUncertainty_from_dict (src_dict : json) : Read PatternFindingResponseUncertainty :=
  d ← dict_of src_dict;
  Ok (Build_PatternFindingResponseUncertainty d).

Definition PatternFindingResponseUncertainty_ok (self : PatternFindingResponseUncertainty) : Prop :=
  fresh [] (PatternFindingResponseUncertainty_additional_properties self).

Lemma PatternFindingResponseUncertainty_roundtrip self : PatternFindingResponseUncertainty_ok self -> PatternFindingResponseUncertainty_from_dict (JObj (PatternFindingResponseUncertainty_to_dict self)) = Ok self.
Proof. by destruct self. Qed.

Lemma PatternFindingResponseUncertainty_sound j a : json_ok j -> PatternFindingResponseUncertainty_from_dict j = Ok a -> PatternFindingResponseUncertainty_ok a.
Proof. revert j a. unfold PatternFindingResponseUncertainty_from_dict, PatternFindingResponseUncertainty_ok. sdk_sound. Qed.

#[global] Instance PatternFindingResponseUncertainty_model : Model PatternFindingResponseUncertainty :=
  {| to_dict := PatternFindingResponseUncertainty_to_dict; from_dict := PatternFindingResponseUncertainty_from_dict; model_ok := PatternFindingResponseUncertainty_ok;
     model_roundtrip := PatternFindingResponseUncertainty_roundtrip; model_sound := PatternFindingResponseUncertainty_sound |}.

(** *** [PatternFindingResponse] ([models/pattern_finding_response.py]) *)

Record PatternFindingResponse := {
  PatternFindingResponse_algorithm_version : json;
  PatternFindingResponse_baseline_rate : json;
  PatternFindingResponse_created_at : datetime;
  PatternFindingResponse_description : json;
  PatternFindingResponse_id : uuid;
  PatternFindingResponse_lift : json;
  PatternFindingResponse_mined_at : datetime;
  PatternFindingResponse_observed_rate : json;
  PatternFindingResponse_pattern_hash : json;
  PatternFindingResponse_region_label : json;
  PatternFindingResponse_source_event_type : json;
  PatternFindingResponse_statistical_confidence : json;
  PatternFindingResponse_support_count : json;
  PatternFindingResponse_supporting_event_ids : json;
  PatternFindingResponse_target_event_type : json;
  PatternFindingResponse_time_window_days : json;
  PatternFindingResponse_total_source_events : json;
  PatternFindingResponse_total_target_events : json;
  PatternFindingResponse_uncertainty : PatternFindingResponseUncertainty;
  PatternFindingResponse_version : json;
  PatternFindingResponse_additional_properties : dict;
}.

Definition PatternFindingResponse_to_dict (self : PatternFindingResponse) : dict :=
  update (PatternFindingResponse_additional_properties self)
    [("algorithm_version", PatternFindingResponse_algorithm_version self);
     ("baseline_rate", PatternFindingResponse_baseline_rate self);
     ("created_at", JStr (dt_isoformat (PatternFindingResponse_created_at self)));
     ("description", PatternFindingResponse_description self);
     ("id", JStr (uuid_str (PatternFindingResponse_id self)));
     ("lift", PatternFindingResponse_lift self);
     ("mined_at", JStr (dt_isoformat (PatternFindingResponse_mined_at self)));
     ("observed_rate", PatternFindingResponse_observed_rate self);
     ("pattern_hash", PatternFindingResponse_pattern_hash self);
     ("region_label", PatternFindingResponse_region_label self);
     ("source_event_type", PatternFindingResponse_source_event_type self);
     ("statistical_confidence", PatternFindingResponse_statistical_confidence self);
     ("support_count", PatternFindingResponse_support_count self);
     ("supporting_event_ids", PatternFindingResponse_supporting_event_ids self);
     ("target_event_type", PatternFindingResponse_target_event_type self);
     ("time_window_days", PatternFindingResponse_time_window_days self);
     ("total_source_events", PatternFindingResponse_total_source_events self);
     ("total_target_events", PatternFindingResponse_total_target_events self);
     ("uncertainty", JObj (to_dict (PatternFindingResponse_uncertainty self)));
     ("version", PatternFindingResponse_version self)].

Definition PatternFindingResponse_from_dict (src_dict : json) : Read PatternFindingResponse :=
  d ← dict_of src_dict;
  '(algorithm_version, d) ← pop "algorithm_version" d;
  '(baseline_rate, d) ← pop "baseline_rate" d;
  '(created_at, d) ← pop "created_at" d;
  created_at ← read_datetime created_at;
  '(description, d) ← pop "description" d;
  '(id, d) ← pop "id" d;
  id ← read_uuid id;
  '(lift, d) ← pop "lift" d;
  '(mined_at, d) ← pop "mined_at" d;
  mined_at ← read_datetime mined_at;
  '(observed_rate, d) ← pop "observed_rate" d;
  '(pattern_hash, d) ← pop "pattern_hash" d;
  '(region_label, d) ← pop "region_label" d;
  '(source_event_type, d) ← pop "source_event_type" d;
  '(statistical_confidence, d) ← pop "statistical_confidence" d;
  '(support_count, d) ← pop "support_count" d;
  '(supporting_event_ids, d) ← pop "supporting_event_ids" d;
  '(target_event_type, d) ← pop "target_event_type" d;
  '(time_window_days, d) ← pop "time_window_days" d;
  '(total_source_events, d) ← pop "total_source_events" d;
  '(total_target_events, d) ← pop "total_target_events" d;
  '(uncertainty, d) ← pop "uncertainty" d;
  uncertainty ← from_dict uncertainty;
  '(version, d) ← pop "version" d;
  Ok (Build_PatternFindingResponse algorithm_version baseline_rate created_at description id lift mined_at observed_rate pattern_hash region_label source_event_type statistical_confidence support_count supporting_event_ids target_event_type time_window_days total_source_events total_target_events uncertainty version d).

Definition PatternFindingResponse_ok (self : PatternFindingResponse) : Prop :=
  fresh ["algorithm_version"; "baseline_rate"; "created_at"; "description"; "id"; "lift"; "mined_at"; "observed_rate"; "pattern_hash"; "region_label"; "source_event_type"; "statistical_confidence"; "support_count"; "supporting_event_ids"; "target_event_type"; "time_window_days"; "total_source_events"; "total_target_events"; "uncertainty"; "version"] (PatternFindingResponse_additional_properties self) /\
  uuid_ok (PatternFindingResponse_id self) /\
  model_ok (PatternFindingResponse_uncertainty self).

Lemma PatternFindingResponse_roundtrip self : PatternFindingResponse_ok self -> PatternFindingResponse_from_dict (JObj (PatternFindingResponse_to_dict self)) = Ok self.
Proof. revert self. unfold PatternFindingResponse_from_dict, PatternFindingResponse_to_dict, PatternFindingResponse_ok. sdk_roundtrip. Qed.

Lemma PatternFindingResponse_sound j a : json_ok j -> PatternFindingResponse_from_dict j = Ok a -> PatternFindingResponse_ok a.
Proof. revert j a. unfold PatternFindingResponse_from_dict, PatternFindingResponse_ok. sdk_sound. Qed.

#[global] Instance PatternFindingResponse_model : Model PatternFindingResponse :=
  {| to_dict := PatternFindingResponse_to_dict; from_dict := PatternFindingResponse_from_dict; model_ok := PatternFindingResponse_ok;
     model_roundtrip := PatternFindingResponse_roundtrip; model_sound := PatternFindingResponse_sound |}.

(** *** [ResearchInvestigationResponseExecutionTraceType0] ([models/research_investigation_response_execution_trace_type_0.py]) *)

Record ResearchInvestigationResponseExecutionTraceType0 := {
  ResearchInvestigationResponseExecutionTraceType0_additional_properties : dict;
}.

Definition ResearchInvestigationResponseExecutionTraceType0_to_dict (self : ResearchInvestigationResponseExecutionTraceType0) : dict :=
  ResearchInvestigationResponseExecutionTraceType0_additional_properties self.

Definition ResearchInvestigationResponseExecutionTraceType0_from_dict (src_dict : json) : Read ResearchInvestigationResponseExecutionTraceType0 :=
  d ← dict_of src_dict;
  Ok (Build_ResearchInvestigationResponseExecutionTraceType0 d).

Definition ResearchInvestigationResponseExecutionTraceType0_ok (self : ResearchInvestigationResponseExecutionTraceType0) : Prop :=
  fresh [] (ResearchInvestigationResponseExecutionTraceType0_additional_properties self).

Lemma ResearchInvestigationResponseExecutionTraceType0_roundtrip self : ResearchInvestigationResponseExecutionTraceType0_ok self -> ResearchInvestigationResponseExecutionTraceType0_from_dict (JObj (ResearchInvestigationResponseExecutionTraceType0_to_dict self)) = Ok self.
Proof. by destruct self. Qed.

Lemma ResearchInvestigationResponseExecutionTraceType0_sound j a : json_ok j -> ResearchInvestigationResponseExecutionTraceType0_from_dict j = Ok a -> ResearchInvestigationResponseExecutionTraceType0_ok a.
Proof. revert j a. unfold ResearchInvestigationResponseExecutionTraceType0_from_dict, ResearchInvestigationResponseExecutionTraceType0_ok. sdk_sound. Qed.

#[global] Instance ResearchInvestigationResponseExecutionTraceType0_model : Model ResearchInvestigationResponseExecutionTraceType0 :=
  {| to_dict := ResearchInvestigationResponseExecutionTraceType0_to_dict; from_dict := ResearchInvestigationResponseExecutionTraceType0_from_dict; model_ok := ResearchInvestigationResponseExecutionTraceType0_ok;
     model_roundtrip := ResearchInvestigationResponseExecutionTraceType0_roundtrip; model_sound := ResearchInvestigationResponseExecutionTraceType0_sound |}.

(** *** [ResearchInvestigationResponse] ([models/research_investigation_response.py]) *)

Record ResearchInvestigationResponse := {
  ResearchInvestigationResponse_complexity_tier : json;
  ResearchInvestigationResponse_confidence_summary : json;
  ResearchInvestigationResponse_consent_public_research : json;
  ResearchInvestigationResponse_created_at : datetime;
  ResearchInvestigationResponse_domains_involved : json;
  ResearchInvestigationResponse_investigation_id : uuid;
  ResearchInvestigationResponse_query_category : json;
  ResearchInvestigationResponse_completed_at : maybe (parsed datetime);
  ResearchInvestigationResponse_execution_trace : maybe (parsed ResearchInvestigationResponseExecutionTraceType0);
  ResearchInvestigationResponse_query_text : maybe json;
  ResearchInvestigationResponse_additional_properties : dict;
}.

Definition ResearchInvestigationResponse_to_dict (self : ResearchInvestigationResponse) : dict :=
  update_set (update (ResearchInvestigationResponse_additional_properties self)
    [("complexity_tier", ResearchInvestigationResponse_complexity_tier self);
     ("confidence_summary", ResearchInvestigationResponse_confidence_summary self);
     ("consent_public_research", ResearchInvestigationResponse_consent_public_research self);
     ("created_at", JStr (dt_isoformat (ResearchInvestigationResponse_created_at self)));
     ("domains_involved", ResearchInvestigationResponse_domains_involved self);
     ("investigation_id", JStr (uuid_str (ResearchInvestigationResponse_investigation_id self)));
     ("query_category", ResearchInvestigationResponse_query_category self)])
    [("completed_at", (write_parsed (fun t => JStr (dt_isoformat t))) <$> ResearchInvestigationResponse_completed_at self);
     ("execution_trace", (write_parsed (fun m => JObj (to_dict m))) <$> ResearchInvestigationResponse_execution_trace self);
     ("query_text", ResearchInvestigationResponse_query_text self)].

Definition ResearchInvestigationResponse_from_dict (src_dict : json) : Read ResearchInvestigationResponse :=
  d ← dict_of src_dict;
  '(complexity_tier, d) ← pop "complexity_tier" d;
  '(confidence_summary, d) ← pop "confidence_summary" d;
  '(consent_public_research, d) ← pop "consent_public_research" d;
  '(created_at, d) ← pop "created_at" d;
  created_at ← read_datetime created_at;
  '(domains_involved, d) ← pop "domains_involved" d;
  '(investigation_id, d) ← pop "investigation_id" d;
  investigation_id ← read_uuid investigation_id;
  '(query_category, d) ← pop "query_category" d;
  let '(completed_at, d) := pop_unset "completed_at" d in
  completed_at ← unless_unset (tolerant (if_str read_datetime)) completed_at;
  let '(execution_trace, d) := pop_unset "execution_trace" d in
  execution_trace ← unless_unset (tolerant (if_dict from_dict)) execution_trace;
  let '(query_text, d) := pop_unset "query_text" d in
  Ok (Build_ResearchInvestigationResponse complexity_tier confidence_summary consent_public_research created_at domains_involved investigation_id query_category completed_at execution_trace query_text d).

Definition ResearchInvestigationResponse_ok (self : ResearchInvestigationResponse) : Prop :=
  fresh ["complexity_tier"; "confidence_summary"; "consent_public_research"; "created_at"; "domains_involved"; "investigation_id"; "query_category"; "completed_at"; "execution_trace"; "query_text"] (ResearchInvestigationResponse_additional_properties self) /\
  uuid_ok (ResearchInvestigationResponse_investigation_id self) /\
  maybe_ok (parsed_ok (if_str read_datetime) (fun t => JStr (dt_isoformat t))) (ResearchInvestigationResponse_completed_at self) /\
  maybe_ok (parsed_ok (if_dict from_dict) (fun m => JObj (to_dict m))) (ResearchInvestigationResponse_execution_trace self).

Lemma ResearchInvestigationResponse_roundtrip self : ResearchInvestigationResponse_ok self -> ResearchInvestigationResponse_from_dict (JObj (ResearchInvestigationResponse_to_dict self)) = Ok self.
Proof. revert self. unfold ResearchInvestigationResponse_from_dict, ResearchInvestigationResponse_to_dict, ResearchInvestigationResponse_ok. sdk_roundtrip. Qed.

Lemma ResearchInvestigationResponse_sound j a : json_ok j -> ResearchInvestigationResponse_from_dict j = Ok a -> ResearchInvestigationResponse_ok a.
Proof. revert j a. unfold ResearchInvestigationResponse_from_dict, ResearchInvestigationResponse_ok. sdk_sound. Qed.

#[global] Instance ResearchInvestigationResponse_model : Model ResearchInvestigationResponse :=
  {| to_dict := ResearchInvestigationResponse_to_dict; from_dict := ResearchInvestigationResponse_from_dict; model_ok := ResearchInvestigationResponse_ok;
     model_roundtrip := ResearchInvestigationResponse_roundtrip; model_sound := ResearchInvestigationResponse_sound |}.

(** *** [ResendVerificationRequest] ([models/resend_verification_request.py]) *)

Record ResendVerificationRequest := {
  ResendVerificationRequest_email : json;
  ResendVerificationRequest_additional_properties : dict;
}.

Definition ResendVerificationRequest_to_dict (self : ResendVerificationRequest) : dict :=
  update (ResendVerificationRequest_additional_properties self)
    [("email", ResendVerificationRequest_email self)].

Definition ResendVerificationRequest_from_dict (src_dict : json) : Read ResendVerificationRequest :=
  d ← dict_of src_dict;
  '(email, d) ← pop "email" d;
  Ok (Build_ResendVerificationRequest email d).

Definition ResendVerificationRequest_ok (self : ResendVerificationRequest) : Prop :=
  fresh ["email"] (ResendVerificationRequest_additional_properties self).

Lemma ResendVerificationRequest_roundtrip self : ResendVerificationRequest_ok self -> ResendVerificationRequest_from_dict (JObj (ResendVerificationRequest_to_dict self)) = Ok self.
Proof. revert self. unfold ResendVerificationRequest_from_dict, ResendVerificationRequest_to_dict, ResendVerificationRequest_ok. sdk_roundtrip. Qed.

Lemma ResendVerificationRequest_sound j a : json_ok j -> ResendVerificationRequest_from_dict j = Ok a -> ResendVerificationRequest_ok a.
Proof. revert j a. unfold ResendVerificationRequest_from_dict, ResendVerificationRequest_ok. sdk_sound. Qed.

#[global] Instance ResendVerificationRequest_model : Model ResendVerificationRequest :=
  {| to_dict := ResendVerificationRequest_to_dict; from_dict := ResendVerificationRequest_from_dict; model_ok := ResendVerificationRequest_ok;
     model_roundtrip := ResendVerificationRequest_roundtrip; model_sound := ResendVerificationRequest_sound |}.

Definition ResendVerificationRequest_init (kwargs : dict) : Read ResendVerificationRequest :=
  _ ← only_kwargs ["email"] kwargs;
  email ← kwarg "email" kwargs;
  Ok {| ResendVerificationRequest_email := email; ResendVerificationRequest_additional_properties := [] |}.

(** *** [TokenResponse] ([models/token_response.py]) *)

Record TokenResponse := {
  TokenResponse_access_token : json;
  TokenResponse_expires_in : json;
  TokenResponse_token_type : maybe json;
  TokenResponse_additional_properties : dict;
}.

Definition TokenResponse_to_dict (self : TokenResponse) : dict :=
  update_set (update (TokenResponse_additional_properties self)
    [("access_token", TokenResponse_access_token self);
     ("expires_in", TokenResponse_expires_in self)])
    [("token_type", TokenResponse_token_type self)].

Definition TokenResponse_from_dict (src_dict : json) : Read TokenResponse :=
  d ← dict_of src_dict;
  '(access_token, d) ← pop "access_token" d;
  '(expires_in, d) ← pop "expires_in" d;
  let '(token_type, d) := pop_unset "token_type" d in
  Ok (Build_TokenResponse access_token expires_in token_type d).

Definition TokenResponse_ok (self : TokenResponse) : Prop :=
  fresh ["access_token"; "expires_in"; "token_type"] (TokenResponse_additional_properties self).

Lemma TokenResponse_roundtrip self : TokenResponse_ok self -> TokenResponse_from_dict (JObj (TokenResponse_to_dict self)) = Ok self.
Proof. revert self. unfold TokenResponse_from_dict, TokenResponse_to_dict, TokenResponse_ok. sdk_roundtrip. Qed.

Lemma TokenResponse_sound j a : json_ok j -> TokenResponse_from_dict j = Ok a -> TokenResponse_ok a.
Proof. revert j a. unfold TokenResponse_from_dict, TokenResponse_ok. sdk_sound. Qed.

#[global] Instance TokenResponse_model : Model TokenResponse :=
  {| to_dict := TokenResponse_to_dict; from_dict := TokenResponse_from_dict; model_ok := TokenResponse_ok;
     model_roundtrip := TokenResponse_roundtrip; model_sound := TokenResponse_sound |}.

(** *** [UserLoginRequest] ([models/user_login_request.py]) *)

Record UserLoginRequest := {
  UserLoginRequest_email : json;
  UserLoginRequest_password : json;
  UserLoginRequest_additional_properties : dict;
}.

Definition UserLoginRequest_to_dict (self : UserLoginRequest) : dict :=
  update (UserLoginRequest_additional_properties self)
    [("email", UserLoginRequest_email self);
     ("password", UserLoginRequest_password self)].

Definition UserLoginRequest_from_dict (src_dict : json) : Read UserLoginRequest :=
  d ← dict_of src_dict;
  '(email, d) ← pop "email" d;
  '(password, d) ← pop "password" d;
  Ok (Build_UserLoginRequest email password d).

Definition UserLoginRequest_ok (self : UserLoginRequest) : Prop :=
  fresh ["email"; "password"] (UserLoginRequest_additional_properties self).

Lemma UserLoginRequest_roundtrip self : UserLoginRequest_ok self -> UserLoginRequest_from_dict (JObj (UserLoginRequest_to_dict self)) = Ok self.
Proof. revert self. unfold UserLoginRequest_from_dict, UserLoginRequest_to_dict, UserLoginRequest_ok. sdk_roundtrip. Qed.

Lemma UserLoginRequest_sound j a : json_ok j -> UserLoginRequest_from_dict j = Ok a -> UserLoginRequest_ok a.
Proof. revert j a. unfold UserLoginRequest_from_dict, UserLoginRequest_ok. sdk_sound. Qed.

#[global] Instance UserLoginRequest_model : Model UserLoginRequest :=
  {| to_dict := UserLoginRequest_to_dict; from_dict := UserLoginRequest_from_dict; model_ok := UserLoginRequest_ok;
     model_roundtrip := UserLoginRequest_roundtrip; model_sound := UserLoginRequest_sound |}.

Definition UserLoginRequest_init (kwargs : dict) : Read UserLoginRequest :=
  _ ← only_kwargs ["email"; "password"] kwargs;
  email ← kwarg "email" kwargs;
  password ← kwarg "password" kwargs;
  Ok {| UserLoginRequest_email := email; UserLoginRequest_password := password; UserLoginRequest_additional_properties := [] |}.

(** *** [UserRegisterRequest] ([models/user_register_request.py]) *)

Record UserRegisterRequest := {
  UserRegisterRequest_email : json;
  UserRegisterRequest_password : json;
  UserRegisterRequest_full_name : maybe json;
  UserRegisterRequest_additional_properties : dict;
}.

Definition UserRegisterRequest_to_dict (self : UserRegisterRequest) : dict :=
  update_set (update (UserRegisterRequest_additional_properties self)
    [("email", UserRegisterRequest_email self);
     ("password", UserRegisterRequest_password self)])
    [("full_name", UserRegisterRequest_full_name self)].

Definition UserRegisterRequest_from_dict (src_dict : json) : Read UserRegisterRequest :=
  d ← dict_of src_dict;
  '(email, d) ← pop "email" d;
  '(password, d) ← pop "password" d;
  let '(full_name, d) := pop_unset "full_name" d in
  Ok (Build_UserRegisterRequest email password full_name d).

Definition UserRegisterRequest_ok (self : UserRegisterRequest) : Prop :=
  fresh ["email"; "password"; "full_name"] (UserRegisterRequest_additional_properties self).

Lemma UserRegisterRequest_roundtrip self : UserRegisterRequest_ok self -> UserRegisterRequest_from_dict (JObj (UserRegisterRequest_to_dict self)) = Ok self.
Proof. revert self. unfold UserRegisterRequest_from_dict, UserRegisterRequest_to_dict, UserRegisterRequest_ok. sdk_roundtrip. Qed.

Lemma UserRegisterRequest_sound j a : json_ok j -> UserRegisterRequest_from_dict j = Ok a -> UserRegisterRequest_ok a.
Proof. revert j a. unfold UserRegisterRequest_from_dict, UserRegisterRequest_ok. sdk_sound. Qed.

#[global] Instance UserRegisterRequest_model : Model UserRegisterRequest :=
  {| to_dict := UserRegisterRequest_to_dict; from_dict := UserRegisterRequest_from_dict; model_ok := UserRegisterRequest_ok;
     model_roundtrip := UserRegisterRequest_roundtrip; model_sound := UserRegisterRequest_sound |}.

Definition UserRegisterRequest_init (kwargs : dict) : Read UserRegisterRequest :=
  _ ← only_kwargs ["email"; "password"; "full_name"] kwargs;
  email ← kwarg "email" kwargs;
  password ← kwarg "password" kwargs;
  Ok {| UserRegisterRequest_email := email; UserRegisterRequest_password := password; UserRegisterRequest_full_name := kwarg_default "full_name" (UNSET) kwargs; UserRegisterRequest_additional_properties := [] |}.

(** *** [UserResponse] ([models/user_response.py]) *)

Record UserResponse := {
  UserResponse_created_at : datetime;
  UserResponse_email : json;
  UserResponse_full_name : json;
  UserResponse_id : uuid;
  UserResponse_is_active : json;
  UserResponse_is_verified : json;
  UserResponse_last_login_at : parsed datetime;
  UserResponse_role : json;
  UserResponse_additional_properties : dict;
}.

Definition UserResponse_to_dict (self : UserResponse) : dict :=
  update (UserResponse_additional_properties self)
    [("created_at", JStr (dt_isoformat (UserResponse_created_at self)));
     ("email", UserResponse_email self);
     ("full_name", UserResponse_full_name self);
     ("id", JStr (uuid_str (UserResponse_id self)));
     ("is_active", UserResponse_is_active self);
     ("is_verified", UserResponse_is_verified self);
     ("last_login_at", write_parsed (fun t => JStr (dt_isoformat t)) (UserResponse_last_login_at self));
     ("role", UserResponse_role self)].

Definition UserResponse_from_dict (src_dict : json) : Read UserResponse :=
  d ← dict_of src_dict;
  '(created_at, d) ← pop "created_at" d;
  created_at ← read_datetime created_at;
  '(email, d) ← pop "email" d;
  '(full_name, d) ← pop "full_name" d;
  '(id, d) ← pop "id" d;
  id ← read_uuid id;
  '(is_active, d) ← pop "is_active" d;
  '(is_verified, d) ← pop "is_verified" d;
  '(last_login_at, d) ← pop "last_login_at" d;
  last_login_at ← tolerant (if_str read_datetime) last_login_at;
  '(role, d) ← pop "role" d;
  Ok (Build_UserResponse created_at email full_name id is_active is_verified last_login_at role d).

Definition UserResponse_ok (self : UserResponse) : Prop :=
  fresh ["created_at"; "email"; "full_name"; "id"; "is_active"; "is_verified"; "last_login_at"; "role"] (UserResponse_additional_properties self) /\
  uuid_ok (UserResponse_id self) /\
  parsed_ok (if_str read_datetime) (fun t => JStr (dt_isoformat t)) (UserResponse_last_login_at self).

Lemma UserResponse_roundtrip self : UserResponse_ok self -> UserResponse_from_dict (JObj (UserResponse_to_dict self)) = Ok self.
Proof. revert self. unfold UserResponse_from_dict, UserResponse_to_dict, UserResponse_ok. sdk_roundtrip. Qed.

Lemma UserResponse_sound j a : json_ok j -> UserResponse_from_dict j = Ok a -> UserResponse_ok a.
Proof. revert j a. unfold UserResponse_from_dict, UserResponse_ok. sdk_sound. Qed.

#[global] Instance UserResponse_model : Model UserResponse :=
  {| to_dict := UserResponse_to_dict; from_dict := UserResponse_from_dict; model_ok := UserResponse_ok;
     model_roundtrip := UserResponse_roundtrip; model_sound := UserResponse_sound |}.

(** *** [ListPublicResearchPatternsApiV1ResearchPatternsGetOrder] ([models/list_public_research_patterns_api_v1_research_patterns_get_order.py]) *)

Inductive ListPublicResearchPatternsApiV1ResearchPatternsGetOrder :=
| ListPublicResearchPatternsApiV1ResearchPatternsGetOrder_ASC
| ListPublicResearchPatternsApiV1ResearchPatternsGetOrder_DESC.

Definition ListPublicResearchPatternsApiV1ResearchPatternsGetOrder_value (e : ListPublicResearchPatternsApiV1ResearchPatternsGetOrder) : string :=
  match e with
  | ListPublicResearchPatternsApiV1ResearchPatternsGetOrder_ASC => "asc"
  | ListPublicResearchPatternsApiV1ResearchPatternsGetOrder_DESC => "desc"
  end.

Definition ListPublicResearchPatternsApiV1ResearchPatternsGetOrder_of (s : string) : option ListPublicResearchPatternsApiV1ResearchPatternsGetOrder :=
  if String.eqb s "asc" then Some ListPublicResearchPatternsApiV1ResearchPatternsGetOrder_ASC
  else if String.eqb s "desc" then Some ListPublicResearchPatternsApiV1ResearchPatternsGetOrder_DESC
  else None.

Lemma ListPublicResearchPatternsApiV1ResearchPatternsGetOrder_of_value e : read_enum ListPublicResearchPatternsApiV1ResearchPatternsGetOrder_of (JStr (ListPublicResearchPatternsApiV1ResearchPatternsGetOrder_value e)) = Ok e.
Proof. by destruct e. Qed.

(** *** [ListPublicResearchPatternsApiV1ResearchPatternsGetSortBy] ([models/list_public_research_patterns_api_v1_research_patterns_get_sort_by.py]) *)

Inductive ListPublicResearchPatternsApiV1ResearchPatternsGetSortBy :=
| ListPublicResearchPatternsApiV1ResearchPatternsGetSortBy_CONFIDENCE
| ListPublicResearchPatternsApiV1ResearchPatternsGetSortBy_LIFT
| ListPublicResearchPatternsApiV1ResearchPatternsGetSortBy_MINED_AT
| ListPublicResearchPatternsApiV1ResearchPatternsGetSortBy_SUPPORT_COUNT.

Definition ListPublicResearchPatternsApiV1ResearchPatternsGetSortBy_value (e : ListPublicResearchPatternsApiV1ResearchPatternsGetSortBy) : string :=
  match e with
  | ListPublicResearchPatternsApiV1ResearchPatternsGetSortBy_CONFIDENCE => "confidence"
  | ListPublicResearchPatternsApiV1ResearchPatternsGetSortBy_LIFT => "lift"
  | ListPublicResearchPatternsApiV1ResearchPatternsGetSortBy_MINED_AT => "mined_at"
  | ListPublicResearchPatternsApiV1ResearchPatternsGetSortBy_SUPPORT_COUNT => "support_count"
  end.

Definition ListPublicResearchPatternsApiV1ResearchPatternsGetSortBy_of (s : string) : option ListPublicResearchPatternsApiV1ResearchPatternsGetSortBy :=
  if String.eqb s "confidence" then Some ListPublicResearchPatternsApiV1ResearchPatternsGetSortBy_CONFIDENCE
  else if String.eqb s "lift" then Some ListPublicResearchPatternsApiV1ResearchPatternsGetSortBy_LIFT
  else if String.eqb s "mined_at" then Some ListPublicResearchPatternsApiV1ResearchPatternsGetSortBy_MINED_AT
  else if String.eqb s "support_count" then Some ListPublicResearchPatternsApiV1ResearchPatternsGetSortBy_SUPPORT_COUNT
  else None.

Lemma ListPublicResearchPatternsApiV1ResearchPatternsGetSortBy_of_value e : read_enum ListPublicResearchPatternsApiV1ResearchPatternsGetSortBy_of (JStr (ListPublicResearchPatternsApiV1ResearchPatternsGetSortBy_value e)) = Ok e.
Proof. by destruct e. Qed.

End models.
