(* ===== verification/SdkAdminModels.v ===== *)
(** * SdkAdminModels: the model classes of the administration and health endpoints

    The rest of [sdk/python/gaiaos_sdk/_generated/models/]: alerts, backups,
    restore drills, metrics and health, translated like [SdkModels]. *)

From S2P Require Import Prelude PyStr Effects SdkTypes.

Section models.
Context {DT : DateTimes}.

(** *** [AlertIncidentResponse] ([models/alert_incident_response.py]) *)

Record AlertIncidentResponse := {
  AlertIncidentResponse_consecutive_violations : json;
  AlertIncidentResponse_fired_at : datetime;
  AlertIncidentResponse_id : uuid;
  AlertIncidentResponse_last_value : json;
  AlertIncidentResponse_resolved_at : parsed datetime;
  AlertIncidentResponse_rule_id : parsed uuid;
  AlertIncidentResponse_rule_name : json;
  AlertIncidentResponse_severity : json;
  AlertIncidentResponse_status : json;
  AlertIncidentResponse_threshold : json;
  AlertIncidentResponse_slo_name : maybe json;
  AlertIncidentResponse_additional_properties : dict;
}.

Definition AlertIncidentResponse_to_dict (self : AlertIncidentResponse) : dict :=
  update_set (update (AlertIncidentResponse_additional_properties self)
    [("consecutive_violations", AlertIncidentResponse_consecutive_violations self);
     ("fired_at", JStr (dt_isoformat (AlertIncidentResponse_fired_at self)));
     ("id", JStr (uuid_str (AlertIncidentResponse_id self)));
     ("last_value", AlertIncidentResponse_last_value self);
     ("resolved_at", write_parsed (fun t => JStr (dt_isoformat t)) (AlertIncidentResponse_resolved_at self));
     ("rule_id", write_parsed (fun u => JStr (uuid_str u)) (AlertIncidentResponse_rule_id self));
     ("rule_name", AlertIncidentResponse_rule_name self);
     ("severity", AlertIncidentResponse_severity self);
     ("status", AlertIncidentResponse_status self);
     ("threshold", AlertIncidentResponse_threshold self)])
    [("slo_name", AlertIncidentResponse_slo_name self)].

Definition AlertIncidentResponse_from_dict (src_dict : json) : Read AlertIncidentResponse :=
  d ← dict_of src_dict;
  '(consecutive_violations, d) ← pop "consecutive_violations" d;
  '(fired_at, d) ← pop "fired_at" d;
  fired_at ← read_datetime fired_at;
  '(id, d) ← pop "id" d;
  id ← read_uuid id;
  '(last_value, d) ← pop "last_value" d;
  '(resolved_at, d) ← pop "resolved_at" d;
  resolved_at ← tolerant (if_str read_datetime) resolved_at;
  '(rule_id, d) ← pop "rule_id" d;
  rule_id ← tolerant (if_str read_uuid) rule_id;
  '(rule_name, d) ← pop "rule_name" d;
  '(severity, d) ← pop "severity" d;
  '(status, d) ← pop "status" d;
  '(threshold, d) ← pop "threshold" d;
  let '(slo_name, d) := pop_unset "slo_name" d in
  Ok (Build_AlertIncidentResponse consecutive_violations fired_at id last_value resolved_at rule_id rule_name severity status threshold slo_name d).

Definition AlertIncidentResponse_ok (self : AlertIncidentResponse) : Prop :=
  fresh ["consecutive_violations"; "fired_at"; "id"; "last_value"; "resolved_at"; "rule_id"; "rule_name"; "severity"; "status"; "threshold"; "slo_name"] (AlertIncidentResponse_additional_properties self) /\
  uuid_ok (AlertIncidentResponse_id self) /\
  parsed_ok (if_str read_datetime) (fun t => JStr (dt_isoformat t)) (AlertIncidentResponse_resolved_at self) /\
  parsed_ok (if_str read_uuid) (fun u => JStr (uuid_str u)) (AlertIncidentResponse_rule_id self).

Lemma AlertIncidentResponse_roundtrip self : AlertIncidentResponse_ok self -> AlertIncidentResponse_from_dict (JObj (AlertIncidentResponse_to_dict self)) = Ok self.
Proof. revert self. unfold AlertIncidentResponse_from_dict, AlertIncidentResponse_to_dict, AlertIncidentResponse_ok. sdk_roundtrip. Qed.

Lemma AlertIncidentResponse_sound j a : json_ok j -> AlertIncidentResponse_from_dict j = Ok a -> AlertIncidentResponse_ok a.
Proof. revert j a. unfold AlertIncidentResponse_from_dict, AlertIncidentResponse_ok. sdk_sound. Qed.

#[global] Instance AlertIncidentResponse_model : Model AlertIncidentResponse :=
  {| to_dict := AlertIncidentResponse_to_dict; from_dict := AlertIncidentResponse_from_dict; model_ok := AlertIncidentResponse_ok;
     model_roundtrip := AlertIncidentResponse_roundtrip; model_sound := AlertIncidentResponse_sound |}.

(** *** [AlertMessageResponse] ([models/alert_message_response.py]) *)

Record AlertMessageResponse := {
  AlertMessageResponse_message : json;
  AlertMessageResponse_status : maybe json;
  AlertMessageResponse_additional_properties : dict;
}.

Definition AlertMessageResponse_to_dict (self : AlertMessageResponse) : dict :=
  update_set (update (AlertMessageResponse_additional_properties self)
    [("message", AlertMessageResponse_message self)])
    [("status", AlertMessageResponse_status self)].

Definition AlertMessageResponse_from_dict (src_dict : json) : Read AlertMessageResponse :=
  d ← dict_of src_dict;
  '(message, d) ← pop "message" d;
  let '(status, d) := pop_unset "status" d in
  Ok (Build_AlertMessageResponse message status d).

Definition AlertMessageResponse_ok (self : AlertMessageResponse) : Prop :=
  fresh ["message"; "status"] (AlertMessageResponse_additional_properties self).

Lemma AlertMessageResponse_roundtrip self : AlertMessageResponse_ok self -> AlertMessageResponse_from_dict (JObj (AlertMessageResponse_to_dict self)) = Ok self.
Proof. revert self. unfold AlertMessageResponse_from_dict, AlertMessageResponse_to_dict, AlertMessageResponse_ok. sdk_roundtrip. Qed.

Lemma AlertMessageResponse_sound j a : json_ok j -> AlertMessageResponse_from_dict j = Ok a -> AlertMessageResponse_ok a.
Proof. revert j a. unfold AlertMessageResponse_from_dict, AlertMessageResponse_ok. sdk_sound. Qed.

#[global] Instance AlertMessageResponse_model : Model AlertMessageResponse :=
  {| to_dict := AlertMessageResponse_to_dict; from_dict := AlertMessageResponse_from_dict; model_ok := AlertMessageResponse_ok;
     model_roundtrip := AlertMessageResponse_roundtrip; model_sound := AlertMessageResponse_sound |}.

(** *** [AlertRuleResponse] ([models/alert_rule_response.py]) *)

Record AlertRuleResponse := {
  AlertRuleResponse_comparison : json;
  AlertRuleResponse_consecutive_cycles : json;
  AlertRuleResponse_created_at : datetime;
  AlertRuleResponse_id : uuid;
  AlertRuleResponse_is_enabled : json;
  AlertRuleResponse_metric : json;
  AlertRuleResponse_name : json;
  AlertRuleResponse_severity : json;
  AlertRuleResponse_threshold : json;
  AlertRuleResponse_updated_at : datetime;
  AlertRuleResponse_window : json;
  AlertRuleResponse_additional_properties : dict;
}.

Definition AlertRuleResponse_to_dict (self : AlertRuleResponse) : dict :=
  update (AlertRuleResponse_additional_properties self)
    [("comparison", AlertRuleResponse_comparison self);
     ("consecutive_cycles", AlertRuleResponse_consecutive_cycles self);
     ("created_at", JStr (dt_isoformat (AlertRuleResponse_created_at self)));
     ("id", JStr (uuid_str (AlertRuleResponse_id self)));
     ("is_enabled", AlertRuleResponse_is_enabled self);
     ("metric", AlertRuleResponse_metric self);
     ("name", AlertRuleResponse_name self);
     ("severity", AlertRuleResponse_severity self);
     ("threshold", AlertRuleResponse_threshold self);
     ("updated_at", JStr (dt_isoformat (AlertRuleResponse_updated_at self)));
     ("window", AlertRuleResponse_window self)].

Definition AlertRuleResponse_from_dict (src_dict : json) : Read AlertRuleResponse :=
  d ← dict_of src_dict;
  '(comparison, d) ← pop "comparison" d;
  '(consecutive_cycles, d) ← pop "consecutive_cycles" d;
  '(created_at, d) ← pop "created_at" d;
  created_at ← read_datetime created_at;
  '(id, d) ← pop "id" d;
  id ← read_uuid id;
  '(is_enabled, d) ← pop "is_enabled" d;
  '(metric, d) ← pop "metric" d;
  '(name, d) ← pop "name" d;
  '(severity, d) ← pop "severity" d;
  '(threshold, d) ← pop "threshold" d;
  '(updated_at, d) ← pop "updated_at" d;
  updated_at ← read_datetime updated_at;
  '(window, d) ← pop "window" d;
  Ok (Build_AlertRuleResponse comparison consecutive_cycles created_at id is_enabled metric name severity threshold updated_at window d).

Definition AlertRuleResponse_ok (self : AlertRuleResponse) : Prop :=
  fresh ["comparison"; "consecutive_cycles"; "created_at"; "id"; "is_enabled"; "metric"; "name"; "severity"; "threshold"; "updated_at"; "window"] (AlertRuleResponse_additional_properties self) /\
  uuid_ok (AlertRuleResponse_id self).

Lemma AlertRuleResponse_roundtrip self : AlertRuleResponse_ok self -> AlertRuleResponse_from_dict (JObj (AlertRuleResponse_to_dict self)) = Ok self.
Proof. revert self. unfold AlertRuleResponse_from_dict, AlertRuleResponse_to_dict, AlertRuleResponse_ok. sdk_roundtrip. Qed.

Lemma AlertRuleResponse_sound j a : json_ok j -> AlertRuleResponse_from_dict j = Ok a -> AlertRuleResponse_ok a.
Proof. revert j a. unfold AlertRuleResponse_from_dict, AlertRuleResponse_ok. sdk_sound. Qed.

#[global] Instance AlertRuleResponse_model : Model AlertRuleResponse :=
  {| to_dict := AlertRuleResponse_to_dict; from_dict := AlertRuleResponse_from_dict; model_ok := AlertRuleResponse_ok;
     model_roundtrip := AlertRuleResponse_roundtrip; model_sound := AlertRuleResponse_sound |}.

(** *** [AlertRuleSchemaComparison] ([models/alert_rule_schema_comparison.py]) *)

Inductive AlertRuleSchemaComparison :=
| AlertRuleSchemaComparison_GT
| AlertRuleSchemaComparison_GTE
| AlertRuleSchemaComparison_LT.

Definition AlertRuleSchemaComparison_value (e : AlertRuleSchemaComparison) : string :=
  match e with
  | AlertRuleSchemaComparison_GT => "gt"
  | AlertRuleSchemaComparison_GTE => "gte"
  | AlertRuleSchemaComparison_LT => "lt"
  end.

Definition AlertRuleSchemaComparison_of (s : string) : option AlertRuleSchemaComparison :=
  if String.eqb s "gt" then Some AlertRuleSchemaComparison_GT
  else if String.eqb s "gte" then Some AlertRuleSchemaComparison_GTE
  else if String.eqb s "lt" then Some AlertRuleSchemaComparison_LT
  else None.

Lemma AlertRuleSchemaComparison_of_value e : read_enum AlertRuleSchemaComparison_of (JStr (AlertRuleSchemaComparison_value e)) = Ok e.
Proof. by destruct e. Qed.

(** *** [AlertRuleSchemaSeverity] ([models/alert_rule_schema_severity.py]) *)

Inductive AlertRuleSchemaSeverity :=
| AlertRuleSchemaSeverity_CRITICAL
| AlertRuleSchemaSeverity_WARNING.

Definition AlertRuleSchemaSeverity_value (e : AlertRuleSchemaSeverity) : string :=
  match e with
  | AlertRuleSchemaSeverity_CRITICAL => "critical"
  | AlertRuleSchemaSeverity_WARNING => "warning"
  end.

Definition AlertRuleSchemaSeverity_of (s : string) : option AlertRuleSchemaSeverity :=
  if String.eqb s "critical" then Some AlertRuleSchemaSeverity_CRITICAL
  else if String.eqb s "warning" then Some AlertRuleSchemaSeverity_WARNING
  else None.

Lemma AlertRuleSchemaSeverity_of_value e : read_enum AlertRuleSchemaSeverity_of (JStr (AlertRuleSchemaSeverity_value e)) = Ok e.
Proof. by destruct e. Qed.

(** *** [AlertRuleSchemaWindow] ([models/alert_rule_schema_window.py]) *)

Inductive AlertRuleSchemaWindow :=
| AlertRuleSchemaWindow_VALUE_0
| AlertRuleSchemaWindow_VALUE_1
| AlertRuleSchemaWindow_VALUE_2
| AlertRuleSchemaWindow_VALUE_3.

Definition AlertRuleSchemaWindow_value (e : AlertRuleSchemaWindow) : string :=
  match e with
  | AlertRuleSchemaWindow_VALUE_0 => "15m"
  | AlertRuleSchemaWindow_VALUE_1 => "1h"
  | AlertRuleSchemaWindow_VALUE_2 => "1d"
  | AlertRuleSchemaWindow_VALUE_3 => "30d"
  end.

Definition AlertRuleSchemaWindow_of (s : string) : option AlertRuleSchemaWindow :=
  if String.eqb s "15m" then Some AlertRuleSchemaWindow_VALUE_0
  else if String.eqb s "1h" then Some AlertRuleSchemaWindow_VALUE_1
  else if String.eqb s "1d" then Some AlertRuleSchemaWindow_VALUE_2
  else if String.eqb s "30d" then Some AlertRuleSchemaWindow_VALUE_3
  else None.

Lemma AlertRuleSchemaWindow_of_value e : read_enum AlertRuleSchemaWindow_of (JStr (AlertRuleSchemaWindow_value e)) = Ok e.
Proof. by destruct e. Qed.

(** *** [AlertRuleSchema] ([models/alert_rule_schema.py]) *)

Record AlertRuleSchema := {
  AlertRuleSchema_metric : json;
  AlertRuleSchema_name : json;
  AlertRuleSchema_threshold : json;
  AlertRuleSchema_comparison : maybe AlertRuleSchemaComparison;
  AlertRuleSchema_consecutive_cycles : maybe json;
  AlertRuleSchema_is_enabled : maybe json;
  AlertRuleSchema_severity : maybe AlertRuleSchemaSeverity;
  AlertRuleSchema_slo_name : maybe json;
  AlertRuleSchema_window : maybe AlertRuleSchemaWindow;
  AlertRuleSchema_additional_properties : dict;
}.

Definition AlertRuleSchema_to_dict (self : AlertRuleSchema) : dict :=
  update_set (update (AlertRuleSchema_additional_properties self)
    [("metric", AlertRuleSchema_metric self);
     ("name", AlertRuleSchema_name self);
     ("threshold", AlertRuleSchema_threshold self)])
    [("comparison", (fun e => JStr (AlertRuleSchemaComparison_value e)) <$> AlertRuleSchema_comparison self);
     ("consecutive_cycles", AlertRuleSchema_consecutive_cycles self);
     ("is_enabled", AlertRuleSchema_is_enabled self);
     ("severity", (fun e => JStr (AlertRuleSchemaSeverity_value e)) <$> AlertRuleSchema_severity self);
     ("slo_name", AlertRuleSchema_slo_name self);
     ("window", (fun e => JStr (AlertRuleSchemaWindow_value e)) <$> AlertRuleSchema_window self)].

Definition AlertRuleSchema_from_dict (src_dict : json) : Read AlertRuleSchema :=
  d ← dict_of src_dict;
  '(metric, d) ← pop "metric" d;
  '(name, d) ← pop "name" d;
  '(threshold, d) ← pop "threshold" d;
  let '(comparison, d) := pop_unset "comparison" d in
  comparison ← unless_unset (read_enum AlertRuleSchemaComparison_of) comparison;
  let '(consecutive_cycles, d) := pop_unset "consecutive_cycles" d in
  let '(is_enabled, d) := pop_unset "is_enabled" d in
  let '(severity, d) := pop_unset "severity" d in
  severity ← unless_unset (read_enum AlertRuleSchemaSeverity_of) severity;
  let '(slo_name, d) := pop_unset "slo_name" d in
  let '(window, d) := pop_unset "window" d in
  window ← unless_unset (read_enum AlertRuleSchemaWindow_of) window;
  Ok (Build_AlertRuleSchema metric name threshold comparison consecutive_cycles is_enabled severity slo_name window d).

Definition AlertRuleSchema_ok (self : AlertRuleSchema) : Prop :=
  fresh ["metric"; "name"; "threshold"; "comparison"; "consecutive_cycles"; "is_enabled"; "severity"; "slo_name"; "window"] (AlertRuleSchema_additional_properties self).

Lemma AlertRuleSchema_roundtrip self : AlertRuleSchema_ok self -> AlertRuleSchema_from_dict (JObj (AlertRuleSchema_to_dict self)) = Ok self.
Proof. revert self. unfold AlertRuleSchema_from_dict, AlertRuleSchema_to_dict, AlertRuleSchema_ok. sdk_roundtrip. Qed.

Lemma AlertRuleSchema_sound j a : json_ok j -> AlertRuleSchema_from_dict j = Ok a -> AlertRuleSchema_ok a.
Proof. revert j a. unfold AlertRuleSchema_from_dict, AlertRuleSchema_ok. sdk_sound. Qed.

#[global] Instance AlertRuleSchema_model : Model AlertRuleSchema :=
  {| to_dict := AlertRuleSchema_to_dict; from_dict := AlertRuleSchema_from_dict; model_ok := AlertRuleSchema_ok;
     model_roundtrip := AlertRuleSchema_roundtrip; model_sound := AlertRuleSchema_sound |}.

(** *** [BackupRecordSchemaVerificationMetadata] ([models/backup_record_schema_verification_metadata.py]) *)

Record BackupRecordSchemaVerificationMetadata := {
  BackupRecordSchemaVerificationMetadata_additional_properties : dict;
}.

Definition BackupRecordSchemaVerificationMetadata_to_dict (self : BackupRecordSchemaVerificationMetadata) : dict :=
  BackupRecordSchemaVerificationMetadata_additional_properties self.

Definition BackupRecordSchemaVerificationMetadata_from_dict (src_dict : json) : Read BackupRecordSchemaVerificationMetadata :=
  d ← dict_of src_dict;
  Ok (Build_BackupRecordSchemaVerificationMetadata d).

Definition BackupRecordSchemaVerificationMetadata_ok (self : BackupRecordSchemaVerificationMetadata) : Prop :=
  fresh [] (BackupRecordSchemaVerificationMetadata_additional_properties self).

Lemma BackupRecordSchemaVerificationMetadata_roundtrip self : BackupRecordSchemaVerificationMetadata_ok self -> BackupRecordSchemaVerificationMetadata_from_dict (JObj (BackupRecordSchemaVerificationMetadata_to_dict self)) = Ok self.
Proof. by destruct self. Qed.

Lemma BackupRecordSchemaVerificationMetadata_sound j a : json_ok j -> BackupRecordSchemaVerificationMetadata_from_dict j = Ok a -> BackupRecordSchemaVerificationMetadata_ok a.
Proof. revert j a. unfold BackupRecordSchemaVerificationMetadata_from_dict, BackupRecordSchemaVerificationMetadata_ok. sdk_sound. Qed.

#[global] Instance BackupRecordSchemaVerificationMetadata_model : Model BackupRecordSchemaVerificationMetadata :=
  {| to_dict := BackupRecordSchemaVerificationMetadata_to_dict; from_dict := BackupRecordSchemaVerificationMetadata_from_dict; model_ok := BackupRecordSchemaVerificationMetadata_ok;
     model_roundtrip := BackupRecordSchemaVerificationMetadata_roundtrip; model_sound := BackupRecordSchemaVerificationMetadata_sound |}.

(** *** [BackupRecordSchema] ([models/backup_record_schema.py]) *)

Record BackupRecordSchema := {
  BackupRecordSchema_backup_id : json;
  BackupRecordSchema_checksum : json;
  BackupRecordSchema_completed_at : parsed datetime;
  BackupRecordSchema_created_at : datetime;
  BackupRecordSchema_duration_ms : json;
  BackupRecordSchema_error_details : json;
  BackupRecordSchema_postgres_version : json;
  BackupRecordSchema_size_bytes : json;
  BackupRecordSchema_status : json;
  BackupRecordSchema_storage_location : json;
  BackupRecordSchema_verification_metadata : BackupRecordSchemaVerificationMetadata;
  BackupRecordSchema_additional_properties : dict;
}.

Definition BackupRecordSchema_to_dict (self : BackupRecordSchema) : dict :=
  update (BackupRecordSchema_additional_properties self)
    [("backup_id", BackupRecordSchema_backup_id self);
     ("checksum", BackupRecordSchema_checksum self);
     ("completed_at", write_parsed (fun t => JStr (dt_isoformat t)) (BackupRecordSchema_completed_at self));
     ("created_at", JStr (dt_isoformat (BackupRecordSchema_created_at self)));
     ("duration_ms", BackupRecordSchema_duration_ms self);
     ("error_details", BackupRecordSchema_error_details self);
     ("postgres_version", BackupRecordSchema_postgres_version self);
     ("size_bytes", BackupRecordSchema_size_bytes self);
     ("status", BackupRecordSchema_status self);
     ("storage_location", BackupRecordSchema_storage_location self);
     ("verification_metadata", JObj (to_dict (BackupRecordSchema_verification_metadata self)))].

Definition BackupRecordSchema_from_dict (src_dict : json) : Read BackupRecordSchema :=
  d ← dict_of src_dict;
  '(backup_id, d) ← pop "backup_id" d;
  '(checksum, d) ← pop "checksum" d;
  '(completed_at, d) ← pop "completed_at" d;
  completed_at ← tolerant (if_str read_datetime) completed_at;
  '(created_at, d) ← pop "created_at" d;
  created_at ← read_datetime created_at;
  '(duration_ms, d) ← pop "duration_ms" d;
  '(error_details, d) ← pop "error_details" d;
  '(postgres_version, d) ← pop "postgres_version" d;
  '(size_bytes, d) ← pop "size_bytes" d;
  '(status, d) ← pop "status" d;
  '(storage_location, d) ← pop "storage_location" d;
  '(verification_metadata, d) ← pop "verification_metadata" d;
  verification_metadata ← from_dict verification_metadata;
  Ok (Build_BackupRecordSchema backup_id checksum completed_at created_at duration_ms error_details postgres_version size_bytes status storage_location verification_metadata d).

Definition BackupRecordSchema_ok (self : BackupRecordSchema) : Prop :=
  fresh ["backup_id"; "checksum"; "completed_at"; "created_at"; "duration_ms"; "error_details"; "postgres_version"; "size_bytes"; "status"; "storage_location"; "verification_metadata"] (BackupRecordSchema_additional_properties self) /\
  parsed_ok (if_str read_datetime) (fun t => JStr (dt_isoformat t)) (BackupRecordSchema_completed_at self) /\
  model_ok (BackupRecordSchema_verification_metadata self).

Lemma BackupRecordSchema_roundtrip self : BackupRecordSchema_ok self -> BackupRecordSchema_from_dict (JObj (BackupRecordSchema_to_dict self)) = Ok self.
Proof. revert self. unfold BackupRecordSchema_from_dict, BackupRecordSchema_to_dict, BackupRecordSchema_ok. sdk_roundtrip. Qed.

Lemma BackupRecordSchema_sound j a : json_ok j -> BackupRecordSchema_from_dict j = Ok a -> BackupRecordSchema_ok a.
Proof. revert j a. unfold BackupRecordSchema_from_dict, BackupRecordSchema_ok. sdk_sound. Qed.

#[global] Instance BackupRecordSchema_model : Model BackupRecordSchema :=
  {| to_dict := BackupRecordSchema_to_dict; from_dict := BackupRecordSchema_from_dict; model_ok := BackupRecordSchema_ok;
     model_roundtrip := BackupRecordSchema_roundtrip; model_sound := BackupRecordSchema_sound |}.

(** *** [HistoricalScalingTelemetrySchema] ([models/historical_scaling_telemetry_schema.py]) *)

Record HistoricalScalingTelemetrySchema := {
  HistoricalScalingTelemetrySchema_avg_queue_depth : json;
  HistoricalScalingTelemetrySchema_avg_worker_utilization_pct : json;
  HistoricalScalingTelemetrySchema_max_queue_depth : json;
  HistoricalScalingTelemetrySchema_max_worker_utilization_pct : json;
  HistoricalScalingTelemetrySchema_sample_count : json;
  HistoricalScalingTelemetrySchema_scaling_verdict : json;
  HistoricalScalingTelemetrySchema_sustained_queue_depth_breach : json;
  HistoricalScalingTelemetrySchema_sustained_trigger_satisfied : json;
  HistoricalScalingTelemetrySchema_sustained_utilization_breach : json;
  HistoricalScalingTelemetrySchema_threshold_crossed_at_least_once : json;
  HistoricalScalingTelemetrySchema_triggers_met : json;
  HistoricalScalingTelemetrySchema_window : json;
  HistoricalScalingTelemetrySchema_additional_properties : dict;
}.

Definition HistoricalScalingTelemetrySchema_to_dict (self : HistoricalScalingTelemetrySchema) : dict :=
  update (HistoricalScalingTelemetrySchema_additional_properties self)
    [("avg_queue_depth", HistoricalScalingTelemetrySchema_avg_queue_depth self);
     ("avg_worker_utilization_pct", HistoricalScalingTelemetrySchema_avg_worker_utilization_pct self);
     ("max_queue_depth", HistoricalScalingTelemetrySchema_max_queue_depth self);
     ("max_worker_utilization_pct", HistoricalScalingTelemetrySchema_max_worker_utilization_pct self);
     ("sample_count", HistoricalScalingTelemetrySchema_sample_count self);
     ("scaling_verdict", HistoricalScalingTelemetrySchema_scaling_verdict self);
     ("sustained_queue_depth_breach", HistoricalScalingTelemetrySchema_sustained_queue_depth_breach self);
     ("sustained_trigger_satisfied", HistoricalScalingTelemetrySchema_sustained_trigger_satisfied self);
     ("sustained_utilization_breach", HistoricalScalingTelemetrySchema_sustained_utilization_breach self);
     ("threshold_crossed_at_least_once", HistoricalScalingTelemetrySchema_threshold_crossed_at_least_once self);
     ("triggers_met", HistoricalScalingTelemetrySchema_triggers_met self);
     ("window", HistoricalScalingTelemetrySchema_window self)].

Definition HistoricalScalingTelemetrySchema_from_dict (src_dict : json) : Read HistoricalScalingTelemetrySchema :=
  d ← dict_of src_dict;
  '(avg_queue_depth, d) ← pop "avg_queue_depth" d;
  '(avg_worker_utilization_pct, d) ← pop "avg_worker_utilization_pct" d;
  '(max_queue_depth, d) ← pop "max_queue_depth" d;
  '(max_worker_utilization_pct, d) ← pop "max_worker_utilization_pct" d;
  '(sample_count, d) ← pop "sample_count" d;
  '(scaling_verdict, d) ← pop "scaling_verdict" d;
  '(sustained_queue_depth_breach, d) ← pop "sustained_queue_depth_breach" d;
  '(sustained_trigger_satisfied, d) ← pop "sustained_trigger_satisfied" d;
  '(sustained_utilization_breach, d) ← pop "sustained_utilization_breach" d;
  '(threshold_crossed_at_least_once, d) ← pop "threshold_crossed_at_least_once" d;
  '(triggers_met, d) ← pop "triggers_met" d;
  '(window, d) ← pop "window" d;
  Ok (Build_HistoricalScalingTelemetrySchema avg_queue_depth avg_worker_utilization_pct max_queue_depth max_worker_utilization_pct sample_count scaling_verdict sustained_queue_depth_breach sustained_trigger_satisfied sustained_utilization_breach threshold_crossed_at_least_once triggers_met window d).

Definition HistoricalScalingTelemetrySchema_ok (self : HistoricalScalingTelemetrySchema) : Prop :=
  fresh ["avg_queue_depth"; "avg_worker_utilization_pct"; "max_queue_depth"; "max_worker_utilization_pct"; "sample_count"; "scaling_verdict"; "sustained_queue_depth_breach"; "sustained_trigger_satisfied"; "sustained_utilization_breach"; "threshold_crossed_at_least_once"; "triggers_met"; "window"] (HistoricalScalingTelemetrySchema_additional_properties self).

Lemma HistoricalScalingTelemetrySchema_roundtrip self : HistoricalScalingTelemetrySchema_ok self -> HistoricalScalingTelemetrySchema_from_dict (JObj (HistoricalScalingTelemetrySchema_to_dict self)) = Ok self.
Proof. revert self. unfold HistoricalScalingTelemetrySchema_from_dict, HistoricalScalingTelemetrySchema_to_dict, HistoricalScalingTelemetrySchema_ok. sdk_roundtrip. Qed.

Lemma HistoricalScalingTelemetrySchema_sound j a : json_ok j -> HistoricalScalingTelemetrySchema_from_dict j = Ok a -> HistoricalScalingTelemetrySchema_ok a.
Proof. revert j a. unfold HistoricalScalingTelemetrySchema_from_dict, HistoricalScalingTelemetrySchema_ok. sdk_sound. Qed.

#[global] Instance HistoricalScalingTelemetrySchema_model : Model HistoricalScalingTelemetrySchema :=
  {| to_dict := HistoricalScalingTelemetrySchema_to_dict; from_dict := HistoricalScalingTelemetrySchema_from_dict; model_ok := HistoricalScalingTelemetrySchema_ok;
     model_roundtrip := HistoricalScalingTelemetrySchema_roundtrip; model_sound := HistoricalScalingTelemetrySchema_sound |}.

(** *** [MetricRollupSchema] ([models/metric_rollup_schema.py]) *)

Record MetricRollupSchema := {
  MetricRollupSchema_avg_cost_estimate : json;
  MetricRollupSchema_count : json;
  MetricRollupSchema_group_key : json;
  MetricRollupSchema_p50_latency_ms : json;
  MetricRollupSchema_p95_latency_ms : json;
  MetricRollupSchema_success_rate : json;
  MetricRollupSchema_additional_properties : dict;
}.

Definition MetricRollupSchema_to_dict (self : MetricRollupSchema) : dict :=
  update (MetricRollupSchema_additional_properties self)
    [("avg_cost_estimate", MetricRollupSchema_avg_cost_estimate self);
     ("count", MetricRollupSchema_count self);
     ("group_key", MetricRollupSchema_group_key self);
     ("p50_latency_ms", MetricRollupSchema_p50_latency_ms self);
     ("p95_latency_ms", MetricRollupSchema_p95_latency_ms self);
     ("success_rate", MetricRollupSchema_success_rate self)].

Definition MetricRollupSchema_from_dict (src_dict : json) : Read MetricRollupSchema :=
  d ← dict_of src_dict;
  '(avg_cost_estimate, d) ← pop "avg_cost_estimate" d;
  '(count, d) ← pop "count" d;
  '(group_key, d) ← pop "group_key" d;
  '(p50_latency_ms, d) ← pop "p50_latency_ms" d;
  '(p95_latency_ms, d) ← pop "p95_latency_ms" d;
  '(success_rate, d) ← pop "success_rate" d;
  Ok (Build_MetricRollupSchema avg_cost_estimate count group_key p50_latency_ms p95_latency_ms success_rate d).

Definition MetricRollupSchema_ok (self : MetricRollupSchema) : Prop :=
  fresh ["avg_cost_estimate"; "count"; "group_key"; "p50_latency_ms"; "p95_latency_ms"; "success_rate"] (MetricRollupSchema_additional_properties self).

Lemma MetricRollupSchema_roundtrip self : MetricRollupSchema_ok self -> MetricRollupSchema_from_dict (JObj (MetricRollupSchema_to_dict self)) = Ok self.
Proof. revert self. unfold MetricRollupSchema_from_dict, MetricRollupSchema_to_dict, MetricRollupSchema_ok. sdk_roundtrip. Qed.

Lemma MetricRollupSchema_sound j a : json_ok j -> MetricRollupSchema_from_dict j = Ok a -> MetricRollupSchema_ok a.
Proof. revert j a. unfold MetricRollupSchema_from_dict, MetricRollupSchema_ok. sdk_sound. Qed.

#[global] Instance MetricRollupSchema_model : Model MetricRollupSchema :=
  {| to_dict := MetricRollupSchema_to_dict; from_dict := MetricRollupSchema_from_dict; model_ok := MetricRollupSchema_ok;
     model_roundtrip := MetricRollupSchema_roundtrip; model_sound := MetricRollupSchema_sound |}.

(** *** [MetricsResponse] ([models/metrics_response.py]) *)

Record MetricsResponse := {
  MetricsResponse_group_by : json;
  MetricsResponse_queue_depth : json;
  MetricsResponse_recommended_pool_size : json;
  MetricsResponse_rollups : list MetricRollupSchema;
  MetricsResponse_window : json;
  MetricsResponse_worker_utilization_pct : json;
  MetricsResponse_event_type : maybe json;
  MetricsResponse_generated_at : maybe json;
  MetricsResponse_historical_scaling_telemetry : maybe (parsed HistoricalScalingTelemetrySchema);
  MetricsResponse_additional_properties : dict;
}.

Definition MetricsResponse_to_dict (self : MetricsResponse) : dict :=
  update_set (update (MetricsResponse_additional_properties self)
    [("group_by", MetricsResponse_group_by self);
     ("queue_depth", MetricsResponse_queue_depth self);
     ("recommended_pool_size", MetricsResponse_recommended_pool_size self);
     ("rollups", JList (map (fun m => JObj (to_dict m)) (MetricsResponse_rollups self)));
     ("window", MetricsResponse_window self);
     ("worker_utilization_pct", MetricsResponse_worker_utilization_pct self)])
    [("event_type", MetricsResponse_event_type self);
     ("generated_at", MetricsResponse_generated_at self);
     ("historical_scaling_telemetry", (write_parsed (fun m => JObj (to_dict m))) <$> MetricsResponse_historical_scaling_telemetry self)].

Definition MetricsResponse_from_dict (src_dict : json) : Read MetricsResponse :=
  d ← dict_of src_dict;
  '(group_by, d) ← pop "group_by" d;
  '(queue_depth, d) ← pop "queue_depth" d;
  '(recommended_pool_size, d) ← pop "recommended_pool_size" d;
  '(rollups, d) ← pop "rollups" d;
  rollups ← read_list from_dict rollups;
  '(window, d) ← pop "window" d;
  '(worker_utilization_pct, d) ← pop "worker_utilization_pct" d;
  let '(event_type, d) := pop_unset "event_type" d in
  let '(generated_at, d) := pop_unset "generated_at" d in
  let '(historical_scaling_telemetry, d) := pop_unset "historical_scaling_telemetry" d in
  historical_scaling_telemetry ← unless_unset (tolerant (if_dict from_dict)) historical_scaling_telemetry;
  Ok (Build_MetricsResponse group_by queue_depth recommended_pool_size rollups window worker_utilization_pct event_type generated_at historical_scaling_telemetry d).

Definition MetricsResponse_ok (self : MetricsResponse) : Prop :=
  fresh ["group_by"; "queue_depth"; "recommended_pool_size"; "rollups"; "window"; "worker_utilization_pct"; "event_type"; "generated_at"; "historical_scaling_telemetry"] (MetricsResponse_additional_properties self) /\
  Forall model_ok (MetricsResponse_rollups self) /\
  maybe_ok (parsed_ok (if_dict from_dict) (fun m => JObj (to_dict m))) (MetricsResponse_historical_scaling_telemetry self).

Lemma MetricsResponse_roundtrip self : MetricsResponse_ok self -> MetricsResponse_from_dict (JObj (MetricsResponse_to_dict self)) = Ok self.
Proof. revert self. unfold MetricsResponse_from_dict, MetricsResponse_to_dict, MetricsResponse_ok. sdk_roundtrip. Qed.

Lemma MetricsResponse_sound j a : json_ok j -> MetricsResponse_from_dict j = Ok a -> MetricsResponse_ok a.
Proof. revert j a. unfold MetricsResponse_from_dict, MetricsResponse_ok. sdk_sound. Qed.

#[global] Instance MetricsResponse_model : Model MetricsResponse :=
  {| to_dict := MetricsResponse_to_dict; from_dict := MetricsResponse_from_dict; model_ok := MetricsResponse_ok;
     model_roundtrip := MetricsResponse_roundtrip; model_sound := MetricsResponse_sound |}.

(** *** [PingResponse] ([models/ping_response.py]) *)

Record PingResponse := {
  PingResponse_env : json;
  PingResponse_ping : json;
  PingResponse_additional_properties : dict;
}.

Definition PingResponse_to_dict (self : PingResponse) : dict :=
  update (PingResponse_additional_properties self)
    [("env", PingResponse_env self);
     ("ping", PingResponse_ping self)].

Definition PingResponse_from_dict (src_dict : json) : Read PingResponse :=
  d ← dict_of src_dict;
  '(env, d) ← pop "env" d;
  '(ping, d) ← pop "ping" d;
  Ok (Build_PingResponse env ping d).

Definition PingResponse_ok (self : PingResponse) : Prop :=
  fresh ["env"; "ping"] (PingResponse_additional_properties self).

Lemma PingResponse_roundtrip self : PingResponse_ok self -> PingResponse_from_dict (JObj (PingResponse_to_dict self)) = Ok self.
Proof. revert self. unfold PingResponse_from_dict, PingResponse_to_dict, PingResponse_ok. sdk_roundtrip. Qed.

Lemma PingResponse_sound j a : json_ok j -> PingResponse_from_dict j = Ok a -> PingResponse_ok a.
Proof. revert j a. unfold PingResponse_from_dict, PingResponse_ok. sdk_sound. Qed.

#[global] Instance PingResponse_model : Model PingResponse :=
  {| to_dict := PingResponse_to_dict; from_dict := PingResponse_from_dict; model_ok := PingResponse_ok;
     model_roundtrip := PingResponse_roundtrip; model_sound := PingResponse_sound |}.

(** *** [ReadinessFailureResponse] ([models/readiness_failure_response.py]) *)

Record ReadinessFailureResponse := {
  ReadinessFailureResponse_failing_dependency : json;
  ReadinessFailureResponse_reason : json;
  ReadinessFailureResponse_status : json;
  ReadinessFailureResponse_additional_properties : dict;
}.

Definition ReadinessFailureResponse_to_dict (self : ReadinessFailureResponse) : dict :=
  update (ReadinessFailureResponse_additional_properties self)
    [("failing_dependency", ReadinessFailureResponse_failing_dependency self);
     ("reason", ReadinessFailureResponse_reason self);
     ("status", ReadinessFailureResponse_status self)].

Definition ReadinessFailureResponse_from_dict (src_dict : json) : Read ReadinessFailureResponse :=
  d ← dict_of src_dict;
  '(failing_dependency, d) ← pop "failing_dependency" d;
  '(reason, d) ← pop "reason" d;
  '(status, d) ← pop "status" d;
  Ok (Build_ReadinessFailureResponse failing_dependency reason status d).

Definition ReadinessFailureResponse_ok (self : ReadinessFailureResponse) : Prop :=
  fresh ["failing_dependency"; "reason"; "status"] (ReadinessFailureResponse_additional_properties self).

Lemma ReadinessFailureResponse_roundtrip self : ReadinessFailureResponse_ok self -> ReadinessFailureResponse_from_dict (JObj (ReadinessFailureResponse_to_dict self)) = Ok self.
Proof. revert self. unfold ReadinessFailureResponse_from_dict, ReadinessFailureResponse_to_dict, ReadinessFailureResponse_ok. sdk_roundtrip. Qed.

Lemma ReadinessFailureResponse_sound j a : json_ok j -> ReadinessFailureResponse_from_dict j = Ok a -> ReadinessFailureResponse_ok a.
Proof. revert j a. unfold ReadinessFailureResponse_from_dict, ReadinessFailureResponse_ok. sdk_sound. Qed.

#[global] Instance ReadinessFailureResponse_model : Model ReadinessFailureResponse :=
  {| to_dict := ReadinessFailureResponse_to_dict; from_dict := ReadinessFailureResponse_from_dict; model_ok := ReadinessFailureResponse_ok;
     model_roundtrip := ReadinessFailureResponse_roundtrip; model_sound := ReadinessFailureResponse_sound |}.

(** *** [ReadinessResponse] ([models/readiness_response.py]) *)

Record ReadinessResponse := {
  ReadinessResponse_app_version : json;
  ReadinessResponse_database : json;
  ReadinessResponse_redis : json;
  ReadinessResponse_schema_version : json;
  ReadinessResponse_status : json;
  ReadinessResponse_additional_properties : dict;
}.

Definition ReadinessResponse_to_dict (self : ReadinessResponse) : dict :=
  update (ReadinessResponse_additional_properties self)
    [("app_version", ReadinessResponse_app_version self);
     ("database", ReadinessResponse_database self);
     ("redis", ReadinessResponse_redis self);
     ("schema_version", ReadinessResponse_schema_version self);
     ("status", ReadinessResponse_status self)].

Definition ReadinessResponse_from_dict (src_dict : json) : Read ReadinessResponse :=
  d ← dict_of src_dict;
  '(app_version, d) ← pop "app_version" d;
  '(database, d) ← pop "database" d;
  '(redis, d) ← pop "redis" d;
  '(schema_version, d) ← pop "schema_version" d;
  '(status, d) ← pop "status" d;
  Ok (Build_ReadinessResponse app_version database redis schema_version status d).

Definition ReadinessResponse_ok (self : ReadinessResponse) : Prop :=
  fresh ["app_version"; "database"; "redis"; "schema_version"; "status"] (ReadinessResponse_additional_properties self).

Lemma ReadinessResponse_roundtrip self : ReadinessResponse_ok self -> ReadinessResponse_from_dict (JObj (ReadinessResponse_to_dict self)) = Ok self.
Proof. revert self. unfold ReadinessResponse_from_dict, ReadinessResponse_to_dict, ReadinessResponse_ok. sdk_roundtrip. Qed.

Lemma ReadinessResponse_sound j a : json_ok j -> ReadinessResponse_from_dict j = Ok a -> ReadinessResponse_ok a.
Proof. revert j a. unfold ReadinessResponse_from_dict, ReadinessResponse_ok. sdk_sound. Qed.

#[global] Instance ReadinessResponse_model : Model ReadinessResponse :=
  {| to_dict := ReadinessResponse_to_dict; from_dict := ReadinessResponse_from_dict; model_ok := ReadinessResponse_ok;
     model_roundtrip := ReadinessResponse_roundtrip; model_sound := ReadinessResponse_sound |}.

(** *** [RestoreDrillRecordSchemaDiscrepancies] ([models/restore_drill_record_schema_discrepancies.py]) *)

Record RestoreDrillRecordSchemaDiscrepancies := {
  RestoreDrillRecordSchemaDiscrepancies_additional_properties : dict;
}.

Definition RestoreDrillRecordSchemaDiscrepancies_to_dict (self : RestoreDrillRecordSchemaDiscrepancies) : dict :=
  RestoreDrillRecordSchemaDiscrepancies_additional_properties self.

Definition RestoreDrillRecordSchemaDiscrepancies_from_dict (src_dict : json) : Read RestoreDrillRecordSchemaDiscrepancies :=
  d ← dict_of src_dict;
  Ok (Build_RestoreDrillRecordSchemaDiscrepancies d).

Definition RestoreDrillRecordSchemaDiscrepancies_ok (self : RestoreDrillRecordSchemaDiscrepancies) : Prop :=
  fresh [] (RestoreDrillRecordSchemaDiscrepancies_additional_properties self).

Lemma RestoreDrillRecordSchemaDiscrepancies_roundtrip self : RestoreDrillRecordSchemaDiscrepancies_ok self -> RestoreDrillRecordSchemaDiscrepancies_from_dict (JObj (RestoreDrillRecordSchemaDiscrepancies_to_dict self)) = Ok self.
Proof. by destruct self. Qed.

Lemma RestoreDrillRecordSchemaDiscrepancies_sound j a : json_ok j -> RestoreDrillRecordSchemaDiscrepancies_from_dict j = Ok a -> RestoreDrillRecordSchemaDiscrepancies_ok a.
Proof. revert j a. unfold RestoreDrillRecordSchemaDiscrepancies_from_dict, RestoreDrillRecordSchemaDiscrepancies_ok. sdk_sound. Qed.

#[global] Instance RestoreDrillRecordSchemaDiscrepancies_model : Model RestoreDrillRecordSchemaDiscrepancies :=
  {| to_dict := RestoreDrillRecordSchemaDiscrepancies_to_dict; from_dict := RestoreDrillRecordSchemaDiscrepancies_from_dict; model_ok := RestoreDrillRecordSchemaDiscrepancies_ok;
     model_roundtrip := RestoreDrillRecordSchemaDiscrepancies_roundtrip; model_sound := RestoreDrillRecordSchemaDiscrepancies_sound |}.

(** *** [RestoreDrillRecordSchema] ([models/restore_drill_record_schema.py]) *)

Record RestoreDrillRecordSchema := {
  RestoreDrillRecordSchema_backup_id : json;
  RestoreDrillRecordSchema_checksum_match : json;
  RestoreDrillRecordSchema_completed_at : parsed datetime;
  RestoreDrillRecordSchema_discrepancies : RestoreDrillRecordSchemaDiscrepancies;
  RestoreDrillRecordSchema_drill_id : json;
  RestoreDrillRecordSchema_duration_ms : json;
  RestoreDrillRecordSchema_error_details : json;
  RestoreDrillRecordSchema_migration_version_match : json;
  RestoreDrillRecordSchema_row_counts_match : json;
  RestoreDrillRecordSchema_started_at : datetime;
  RestoreDrillRecordSchema_status : json;
  RestoreDrillRecordSchema_additional_properties : dict;
}.

Definition RestoreDrillRecordSchema_to_dict (self : RestoreDrillRecordSchema) : dict :=
  update (RestoreDrillRecordSchema_additional_properties self)
    [("backup_id", RestoreDrillRecordSchema_backup_id self);
     ("checksum_match", RestoreDrillRecordSchema_checksum_match self);
     ("completed_at", write_parsed (fun t => JStr (dt_isoformat t)) (RestoreDrillRecordSchema_completed_at self));
     ("discrepancies", JObj (to_dict (RestoreDrillRecordSchema_discrepancies self)));
     ("drill_id", RestoreDrillRecordSchema_drill_id self);
     ("duration_ms", RestoreDrillRecordSchema_duration_ms self);
     ("error_details", RestoreDrillRecordSchema_error_details self);
     ("migration_version_match", RestoreDrillRecordSchema_migration_version_match self);
     ("row_counts_match", RestoreDrillRecordSchema_row_counts_match self);
     ("started_at", JStr (dt_isoformat (RestoreDrillRecordSchema_started_at self)));
     ("status", RestoreDrillRecordSchema_status self)].

Definition RestoreDrillRecordSchema_from_dict (src_dict : json) : Read RestoreDrillRecordSchema :=
  d ← dict_of src_dict;
  '(backup_id, d) ← pop "backup_id" d;
  '(checksum_match, d) ← pop "checksum_match" d;
  '(completed_at, d) ← pop "completed_at" d;
  completed_at ← tolerant (if_str read_datetime) completed_at;
  '(discrepancies, d) ← pop "discrepancies" d;
  discrepancies ← from_dict discrepancies;
  '(drill_id, d) ← pop "drill_id" d;
  '(duration_ms, d) ← pop "duration_ms" d;
  '(error_details, d) ← pop "error_details" d;
  '(migration_version_match, d) ← pop "migration_version_match" d;
  '(row_counts_match, d) ← pop "row_counts_match" d;
  '(started_at, d) ← pop "started_at" d;
  started_at ← read_datetime started_at;
  '(status, d) ← pop "status" d;
  Ok (Build_RestoreDrillRecordSchema backup_id checksum_match completed_at discrepancies drill_id duration_ms error_details migration_version_match row_counts_match started_at status d).

Definition RestoreDrillRecordSchema_ok (self : RestoreDrillRecordSchema) : Prop :=
  fresh ["backup_id"; "checksum_match"; "completed_at"; "discrepancies"; "drill_id"; "duration_ms"; "error_details"; "migration_version_match"; "row_counts_match"; "started_at"; "status"] (RestoreDrillRecordSchema_additional_properties self) /\
  parsed_ok (if_str read_datetime) (fun t => JStr (dt_isoformat t)) (RestoreDrillRecordSchema_completed_at self) /\
  model_ok (RestoreDrillRecordSchema_discrepancies self).

Lemma RestoreDrillRecordSchema_roundtrip self : RestoreDrillRecordSchema_ok self -> RestoreDrillRecordSchema_from_dict (JObj (RestoreDrillRecordSchema_to_dict self)) = Ok self.
Proof. revert self. unfold RestoreDrillRecordSchema_from_dict, RestoreDrillRecordSchema_to_dict, RestoreDrillRecordSchema_ok. sdk_roundtrip. Qed.

Lemma RestoreDrillRecordSchema_sound j a : json_ok j -> RestoreDrillRecordSchema_from_dict j = Ok a -> RestoreDrillRecordSchema_ok a.
Proof. revert j a. unfold RestoreDrillRecordSchema_from_dict, RestoreDrillRecordSchema_ok. sdk_sound. Qed.

#[global] Instance RestoreDrillRecordSchema_model : Model RestoreDrillRecordSchema :=
  {| to_dict := RestoreDrillRecordSchema_to_dict; from_dict := RestoreDrillRecordSchema_from_dict; model_ok := RestoreDrillRecordSchema_ok;
     model_roundtrip := RestoreDrillRecordSchema_roundtrip; model_sound := RestoreDrillRecordSchema_sound |}.

(** *** [RootResponse] ([models/root_response.py]) *)

Record RootResponse := {
  RootResponse_env : json;
  RootResponse_service : json;
  RootResponse_status : json;
  RootResponse_version : json;
  RootResponse_additional_properties : dict;
}.

Definition RootResponse_to_dict (self : RootResponse) : dict :=
  update (RootResponse_additional_properties self)
    [("env", RootResponse_env self);
     ("service", RootResponse_service self);
     ("status", RootResponse_status self);
     ("version", RootResponse_version self)].

Definition RootResponse_from_dict (src_dict : json) : Read RootResponse :=
  d ← dict_of src_dict;
  '(env, d) ← pop "env" d;
  '(service, d) ← pop "service" d;
  '(status, d) ← pop "status" d;
  '(version, d) ← pop "version" d;
  Ok (Build_RootResponse env service status version d).

Definition RootResponse_ok (self : RootResponse) : Prop :=
  fresh ["env"; "service"; "status"; "version"] (RootResponse_additional_properties self).

Lemma RootResponse_roundtrip self : RootResponse_ok self -> RootResponse_from_dict (JObj (RootResponse_to_dict self)) = Ok self.
Proof. revert self. unfold RootResponse_from_dict, RootResponse_to_dict, RootResponse_ok. sdk_roundtrip. Qed.

Lemma RootResponse_sound j a : json_ok j -> RootResponse_from_dict j = Ok a -> RootResponse_ok a.
Proof. revert j a. unfold RootResponse_from_dict, RootResponse_ok. sdk_sound. Qed.

#[global] Instance RootResponse_model : Model RootResponse :=
  {| to_dict := RootResponse_to_dict; from_dict := RootResponse_from_dict; model_ok := RootResponse_ok;
     model_roundtrip := RootResponse_roundtrip; model_sound := RootResponse_sound |}.

(** *** [GetAdminMetricsApiV1AdminMetricsGetWindow] ([models/get_admin_metrics_api_v1_admin_metrics_get_window.py]) *)

Inductive GetAdminMetricsApiV1AdminMetricsGetWindow :=
| GetAdminMetricsApiV1AdminMetricsGetWindow_VALUE_0
| GetAdminMetricsApiV1AdminMetricsGetWindow_VALUE_1
| GetAdminMetricsApiV1AdminMetricsGetWindow_VALUE_2
| GetAdminMetricsApiV1AdminMetricsGetWindow_VALUE_3.

Definition GetAdminMetricsApiV1AdminMetricsGetWindow_value (e : GetAdminMetricsApiV1AdminMetricsGetWindow) : string :=
  match e with
  | GetAdminMetricsApiV1AdminMetricsGetWindow_VALUE_0 => "1d"
  | GetAdminMetricsApiV1AdminMetricsGetWindow_VALUE_1 => "7d"
  | GetAdminMetricsApiV1AdminMetricsGetWindow_VALUE_2 => "30d"
  | GetAdminMetricsApiV1AdminMetricsGetWindow_VALUE_3 => "90d"
  end.

Definition GetAdminMetricsApiV1AdminMetricsGetWindow_of (s : string) : option GetAdminMetricsApiV1AdminMetricsGetWindow :=
  if String.eqb s "1d" then Some GetAdminMetricsApiV1AdminMetricsGetWindow_VALUE_0
  else if String.eqb s "7d" then Some GetAdminMetricsApiV1AdminMetricsGetWindow_VALUE_1
  else if String.eqb s "30d" then Some GetAdminMetricsApiV1AdminMetricsGetWindow_VALUE_2
  else if String.eqb s "90d" then Some GetAdminMetricsApiV1AdminMetricsGetWindow_VALUE_3
  else None.

Lemma GetAdminMetricsApiV1AdminMetricsGetWindow_of_value e : read_enum GetAdminMetricsApiV1AdminMetricsGetWindow_of (JStr (GetAdminMetricsApiV1AdminMetricsGetWindow_value e)) = Ok e.
Proof. by destruct e. Qed.

(** *** [GroupBy] ([models/group_by.py]) *)

Inductive GroupBy :=
| GroupBy_COMPLEXITY_TIER
| GroupBy_DAY
| GroupBy_EVENT_TYPE.

Definition GroupBy_value (e : GroupBy) : string :=
  match e with
  | GroupBy_COMPLEXITY_TIER => "complexity_tier"
  | GroupBy_DAY => "day"
  | GroupBy_EVENT_TYPE => "event_type"
  end.

Definition GroupBy_of (s : string) : option GroupBy :=
  if String.eqb s "complexity_tier" then Some GroupBy_COMPLEXITY_TIER
  else if String.eqb s "day" then Some GroupBy_DAY
  else if String.eqb s "event_type" then Some GroupBy_EVENT_TYPE
  else None.

Lemma GroupBy_of_value e : read_enum GroupBy_of (JStr (GroupBy_value e)) = Ok e.
Proof. by destruct e. Qed.

(** *** [ListAlertIncidentsApiV1AdminAlertsGetStatusType0] ([models/list_alert_incidents_api_v1_admin_alerts_get_status_type_0.py]) *)

Inductive ListAlertIncidentsApiV1AdminAlertsGetStatusType0 :=
| ListAlertIncidentsApiV1AdminAlertsGetStatusType0_FIRING
| ListAlertIncidentsApiV1AdminAlertsGetStatusType0_RESOLVED.

Definition ListAlertIncidentsApiV1AdminAlertsGetStatusType0_value (e : ListAlertIncidentsApiV1AdminAlertsGetStatusType0) : string :=
  match e with
  | ListAlertIncidentsApiV1AdminAlertsGetStatusType0_FIRING => "firing"
  | ListAlertIncidentsApiV1AdminAlertsGetStatusType0_RESOLVED => "resolved"
  end.

Definition ListAlertIncidentsApiV1AdminAlertsGetStatusType0_of (s : string) : option ListAlertIncidentsApiV1AdminAlertsGetStatusType0 :=
  if String.eqb s "firing" then Some ListAlertIncidentsApiV1AdminAlertsGetStatusType0_FIRING
  else if String.eqb s "resolved" then Some ListAlertIncidentsApiV1AdminAlertsGetStatusType0_RESOLVED
  else None.

Lemma ListAlertIncidentsApiV1AdminAlertsGetStatusType0_of_value e : read_enum ListAlertIncidentsApiV1AdminAlertsGetStatusType0_of (JStr (ListAlertIncidentsApiV1AdminAlertsGetStatusType0_value e)) = Ok e.
Proof. by destruct e. Qed.

End models.
