(* ===== verification/SdkApi.v ===== *)
(** * SdkApi: the endpoint functions of the API client

    [sdk/python/gaiaos_sdk/_generated/client.py] and the modules under
    [_generated/api/]: for every endpoint the request it describes
    ([_get_kwargs]), the interpretation of the answer ([_parse_response],
    [_build_response]) and the four calling functions.  The HTTP library is an
    argument: [send] and [asend] say what the blocking and the asynchronous
    client return for a request.  An identifier in a path is its text ([str(id)]). *)

From S2P Require Import Prelude PyStr Effects SdkTypes SdkModels SdkAdminModels.

(** ** Requests and answers *)

Record kwargs := {
  k_method : string;
  k_url : string;
  k_params : option dict;
  k_json : option dict;
  k_headers : list (string * string);
}.

(** [params = {k: v for k, v in params.items() if v is not UNSET and v is not None}] *)
Definition query_params (params : list (string * maybe json)) : dict :=
  List.filter (fun kv => match kv.2 with JNull => false | _ => true end) (set_fields params).

(** An [httpx.Response]; header names are in lower case. *)
Record http_response := {
  hr_status_code : Z;
  hr_content : text;
  hr_headers : list (string * string);
}.

(** [response.json()]; a [JSONDecodeError] is a [ValueError]. *)
Definition response_json (response : http_response) : Read json :=
  match json_loads (hr_content response) with Ok j => Ok j | Raise e => Raise (Py e) end.

(** [HTTPStatus(code)] knows these codes. *)
Definition http_statuses : list Z :=
  [100; 101; 102; 103;
   200; 201; 202; 203; 204; 205; 206; 207; 208; 226;
   300; 301; 302; 303; 304; 305; 307; 308;
   400; 401; 402; 403; 404; 405; 406; 407; 408; 409; 410; 411; 412; 413; 414; 415; 416; 417; 418;
   421; 422; 423; 424; 425; 426; 428; 429; 431; 451;
   500; 501; 502; 503; 504; 505; 506; 507; 508; 510; 511].

Definition HTTPStatus (code : Z) : Read Z :=
  if existsb (Z.eqb code) http_statuses then Ok code else Raise (Py ValueError).

(** ** [Client] and [AuthenticatedClient] *)

(** The arguments of the [httpx] client that a generated client builds. *)
Record httpx_client := {
  hx_base_url : string;
  hx_cookies : list (string * string);
  hx_headers : list (string * string);
  hx_timeout : option Z;
}.

(** [AuthenticatedClient] has the three last fields, [Client] has none of them. *)
Record credentials := {
  ac_token : string;
  ac_prefix : string;
  ac_auth_header_name : string;
}.

Record gen_client := {
  raise_on_unexpected_status : bool;
  gc_base_url : string;
  gc_cookies : list (string * string);
  gc_headers : list (string * string);
  gc_timeout : option Z;
  gc_client : option httpx_client;
  gc_async_client : option httpx_client;
  gc_auth : option credentials;
}.

Definition Client (base_url : string) (headers : list (string * string)) (timeout : option Z) : gen_client :=
  {| raise_on_unexpected_status := false; gc_base_url := base_url; gc_cookies := []; gc_headers := headers;
     gc_timeout := timeout; gc_client := None; gc_async_client := None; gc_auth := None |}.

Definition AuthenticatedClient (base_url token : string) (headers : list (string * string)) (timeout : option Z) : gen_client :=
  {| raise_on_unexpected_status := false; gc_base_url := base_url; gc_cookies := []; gc_headers := headers;
     gc_timeout := timeout; gc_client := None; gc_async_client := None;
     gc_auth := Some {| ac_token := token; ac_prefix := "Bearer"; ac_auth_header_name := "Authorization" |} |}.

(** The headers with which the [httpx] client is built. *)
Definition auth_headers (self : gen_client) : list (string * string) :=
  match gc_auth self with
  | None => gc_headers self
  | Some c =>
      assoc_set (ac_auth_header_name c)
        (if str_truthy (ac_prefix c) then ac_prefix c +:+ " " +:+ ac_token c else ac_token c) (gc_headers self)
  end.

Definition new_httpx (self : gen_client) (headers : list (string * string)) : httpx_client :=
  {| hx_base_url := gc_base_url self; hx_cookies := gc_cookies self; hx_headers := headers; hx_timeout := gc_timeout self |}.

(** Each returns the [httpx] client and the object after the call. *)
Definition get_httpx_client (self : gen_client) : httpx_client * gen_client :=
  match gc_client self with
  | Some c => (c, self)
  | None =>
      let headers := auth_headers self in
      let c := new_httpx self headers in
      (c, {| raise_on_unexpected_status := raise_on_unexpected_status self; gc_base_url := gc_base_url self;
             gc_cookies := gc_cookies self; gc_headers := headers; gc_timeout := gc_timeout self;
             gc_client := Some c; gc_async_client := gc_async_client self; gc_auth := gc_auth self |})
  end.

Definition get_async_httpx_client (self : gen_client) : httpx_client * gen_client :=
  match gc_async_client self with
  | Some c => (c, self)
  | None =>
      let headers := auth_headers self in
      let c := new_httpx self headers in
      (c, {| raise_on_unexpected_status := raise_on_unexpected_status self; gc_base_url := gc_base_url self;
             gc_cookies := gc_cookies self; gc_headers := headers; gc_timeout := gc_timeout self;
             gc_client := gc_client self; gc_async_client := Some c; gc_auth := gc_auth self |})
  end.

(** ** Answers *)

(** What [_parse_response] returns: nothing, the documented body, or one of the
    documented error bodies. *)
Inductive answer (A : Type) :=
| PNone
| PBody (a : A)
| PError (e : ErrorResponse)
| PInvalid (e : HTTPValidationError)
| PFailure (e : ReadinessFailureResponse).
Arguments PNone {A}.
Arguments PBody {A} a.
Arguments PError {A} e.
Arguments PInvalid {A} e.
Arguments PFailure {A} e.

(** [_generated/types.py] *)
Record Response (A : Type) := {
  r_status_code : Z;
  r_content : text;
  r_headers : list (string * string);
  r_parsed : answer A;
}.
Arguments r_status_code {A} _.
Arguments r_content {A} _.
Arguments r_headers {A} _.
Arguments r_parsed {A} _.

(** The end of every [_parse_response]. *)
Definition unexpected {A} (client : gen_client) (response : http_response) : Read (answer A) :=
  if raise_on_unexpected_status client then Raise (UnexpectedStatus (hr_status_code response)) else Ok PNone.

(** [_build_response] *)
Definition build_response {A} (parse_response : http_response -> Read (answer A)) (response : http_response) : Read (Response A) :=
  status_code ← HTTPStatus (hr_status_code response);
  parsed ← parse_response response;
  Ok {| r_status_code := status_code; r_content := hr_content response; r_headers := hr_headers response; r_parsed := parsed |}.

Definition py {A} (r : result pyexn A) : Read A := match r with Ok a => Ok a | Raise e => Raise (Py e) end.

Section endpoints.
Context {DT : DateTimes}.

(** What the [httpx] clients return for a request. *)
Variable send asend : httpx_client -> kwargs -> result pyexn http_response.

Definition request (client : gen_client) (k : kwargs) : Read http_response := py (send (get_httpx_client client).1 k).
Definition arequest (client : gen_client) (k : kwargs) : Read http_response := py (asend (get_async_httpx_client client).1 k).

(** *** [create_api_key] ([POST /api/v1/api-keys]) *)

Definition create_api_key_get_kwargs (body : CreateApiKeyRequest) : kwargs :=
  {| k_method := "post"; k_url := "/api/v1/api-keys";
     k_params := None;
     k_json := Some (to_dict body); k_headers := [("Content-Type", "application/json")] |}.

Definition create_api_key_parse_response (client : gen_client) (response : http_response) : Read (answer ApiKeyCreatedResponse) :=
  if hr_status_code response =? 201 then b ← response_json response; m ← from_dict b; Ok (PBody m)
  else if hr_status_code response =? 422 then b ← response_json response; m ← from_dict b; Ok (PInvalid m)
  else unexpected client response.

Definition create_api_key_sync_detailed (client : gen_client) (body : CreateApiKeyRequest) : Read (Response ApiKeyCreatedResponse) :=
  response ← request client (create_api_key_get_kwargs body);
  build_response (create_api_key_parse_response client) response.

Definition create_api_key_asyncio_detailed (client : gen_client) (body : CreateApiKeyRequest) : Read (Response ApiKeyCreatedResponse) :=
  response ← arequest client (create_api_key_get_kwargs body);
  build_response (create_api_key_parse_response client) response.

Definition create_api_key_sync (client : gen_client) (body : CreateApiKeyRequest) : Read (answer ApiKeyCreatedResponse) := r_parsed <$> create_api_key_sync_detailed client body.

Definition create_api_key_asyncio (client : gen_client) (body : CreateApiKeyRequest) : Read (answer ApiKeyCreatedResponse) := r_parsed <$> create_api_key_asyncio_detailed client body.

(** *** [create_investigation] ([POST /api/v1/investigations]) *)

Definition create_investigation_get_kwargs (body : InvestigationCreateRequest) : kwargs :=
  {| k_method := "post"; k_url := "/api/v1/investigations";
     k_params := None;
     k_json := Some (to_dict body); k_headers := [("Content-Type", "application/json")] |}.

Definition create_investigation_parse_response (client : gen_client) (response : http_response) : Read (answer InvestigationCreateResponse) :=
  if hr_status_code response =? 202 then b ← response_json response; m ← from_dict b; Ok (PBody m)
  else if hr_status_code response =? 422 then Ok PNone
  else if hr_status_code response =? 503 then b ← response_json response; m ← from_dict b; Ok (PError m)
  else unexpected client response.

Definition create_investigation_sync_detailed (client : gen_client) (body : InvestigationCreateRequest) : Read (Response InvestigationCreateResponse) :=
  response ← request client (create_investigation_get_kwargs body);
  build_response (create_investigation_parse_response client) response.

Definition create_investigation_asyncio_detailed (client : gen_client) (body : InvestigationCreateRequest) : Read (Response InvestigationCreateResponse) :=
  response ← arequest client (create_investigation_get_kwargs body);
  build_response (create_investigation_parse_response client) response.

Definition create_investigation_sync (client : gen_client) (body : InvestigationCreateRequest) : Read (answer InvestigationCreateResponse) := r_parsed <$> create_investigation_sync_detailed client body.

Definition create_investigation_asyncio (client : gen_client) (body : InvestigationCreateRequest) : Read (answer InvestigationCreateResponse) := r_parsed <$> create_investigation_asyncio_detailed client body.

(** *** [delete_alert_rule] ([DELETE /api/v1/admin/alert-rules/{rule_id}]) *)

Definition delete_alert_rule_get_kwargs (rule_id : string) : kwargs :=
  {| k_method := "delete"; k_url := "/api/v1/admin/alert-rules/" +:+ quote rule_id;
     k_params := None;
     k_json := None; k_headers := [] |}.

Definition delete_alert_rule_parse_response (client : gen_client) (response : http_response) : Read (answer AlertMessageResponse) :=
  if hr_status_code response =? 200 then b ← response_json response; m ← from_dict b; Ok (PBody m)
  else if hr_status_code response =? 404 then Ok PNone
  else if hr_status_code response =? 422 then b ← response_json response; m ← from_dict b; Ok (PInvalid m)
  else unexpected client response.

Definition delete_alert_rule_sync_detailed (client : gen_client) (rule_id : string) : Read (Response AlertMessageResponse) :=
  response ← request client (delete_alert_rule_get_kwargs rule_id);
  build_response (delete_alert_rule_parse_response client) response.

Definition delete_alert_rule_asyncio_detailed (client : gen_client) (rule_id : string) : Read (Response AlertMessageResponse) :=
  response ← arequest client (delete_alert_rule_get_kwargs rule_id);
  build_response (delete_alert_rule_parse_response client) response.

Definition delete_alert_rule_sync (client : gen_client) (rule_id : string) : Read (answer AlertMessageResponse) := r_parsed <$> delete_alert_rule_sync_detailed client rule_id.

Definition delete_alert_rule_asyncio (client : gen_client) (rule_id : string) : Read (answer AlertMessageResponse) := r_parsed <$> delete_alert_rule_asyncio_detailed client rule_id.

(** *** [get_admin_metrics] ([GET /api/v1/admin/metrics]) *)

Definition get_admin_metrics_get_kwargs (window : maybe GetAdminMetricsApiV1AdminMetricsGetWindow) (group_by : maybe GroupBy) (event_type : maybe json) : kwargs :=
  {| k_method := "get"; k_url := "/api/v1/admin/metrics";
     k_params := Some (query_params [("window", (fun e => JStr (GetAdminMetricsApiV1AdminMetricsGetWindow_value e)) <$> window);
       ("group_by", (fun e => JStr (GroupBy_value e)) <$> group_by);
       ("event_type", event_type)]);
     k_json := None; k_headers := [] |}.

Definition get_admin_metrics_parse_response (client : gen_client) (response : http_response) : Read (answer MetricsResponse) :=
  if hr_status_code response =? 200 then b ← response_json response; m ← from_dict b; Ok (PBody m)
  else if hr_status_code response =? 422 then b ← response_json response; m ← from_dict b; Ok (PInvalid m)
  else unexpected client response.

Definition get_admin_metrics_sync_detailed (client : gen_client) (window : maybe GetAdminMetricsApiV1AdminMetricsGetWindow) (group_by : maybe GroupBy) (event_type : maybe json) : Read (Response MetricsResponse) :=
  response ← request client (get_admin_metrics_get_kwargs window group_by event_type);
  build_response (get_admin_metrics_parse_response client) response.

Definition get_admin_metrics_asyncio_detailed (client : gen_client) (window : maybe GetAdminMetricsApiV1AdminMetricsGetWindow) (group_by : maybe GroupBy) (event_type : maybe json) : Read (Response MetricsResponse) :=
  response ← arequest client (get_admin_metrics_get_kwargs window group_by event_type);
  build_response (get_admin_metrics_parse_response client) response.

Definition get_admin_metrics_sync (client : gen_client) (window : maybe GetAdminMetricsApiV1AdminMetricsGetWindow) (group_by : maybe GroupBy) (event_type : maybe json) : Read (answer MetricsResponse) := r_parsed <$> get_admin_metrics_sync_detailed client window group_by event_type.

Definition get_admin_metrics_asyncio (client : gen_client) (window : maybe GetAdminMetricsApiV1AdminMetricsGetWindow) (group_by : maybe GroupBy) (event_type : maybe json) : Read (answer MetricsResponse) := r_parsed <$> get_admin_metrics_asyncio_detailed client window group_by event_type.

(** *** [get_investigation] ([GET /api/v1/investigations/{investigation_id}]) *)

Definition get_investigation_get_kwargs (investigation_id : string) : kwargs :=
  {| k_method := "get"; k_url := "/api/v1/investigations/" +:+ quote investigation_id;
     k_params := None;
     k_json := None; k_headers := [] |}.

Definition get_investigation_parse_response (client : gen_client) (response : http_response) : Read (answer InvestigationStatusResponse) :=
  if hr_status_code response =? 200 then b ← response_json response; m ← from_dict b; Ok (PBody m)
  else if hr_status_code response =? 403 then b ← response_json response; m ← from_dict b; Ok (PError m)
  else if hr_status_code response =? 404 then b ← response_json response; m ← from_dict b; Ok (PError m)
  else if hr_status_code response =? 422 then b ← response_json response; m ← from_dict b; Ok (PInvalid m)
  else unexpected client response.

Definition get_investigation_sync_detailed (client : gen_client) (investigation_id : string) : Read (Response InvestigationStatusResponse) :=
  response ← request client (get_investigation_get_kwargs investigation_id);
  build_response (get_investigation_parse_response client) response.

Definition get_investigation_asyncio_detailed (client : gen_client) (investigation_id : string) : Read (Response InvestigationStatusResponse) :=
  response ← arequest client (get_investigation_get_kwargs investigation_id);
  build_response (get_investigation_parse_response client) response.

Definition get_investigation_sync (client : gen_client) (investigation_id : string) : Read (answer InvestigationStatusResponse) := r_parsed <$> get_investigation_sync_detailed client investigation_id.

Definition get_investigation_asyncio (client : gen_client) (investigation_id : string) : Read (answer InvestigationStatusResponse) := r_parsed <$> get_investigation_asyncio_detailed client investigation_id.

(** *** [get_investigation_trace] ([GET /api/v1/investigations/{investigation_id}/trace]) *)

Definition get_investigation_trace_get_kwargs (investigation_id : string) : kwargs :=
  {| k_method := "get"; k_url := "/api/v1/investigations/" +:+ quote investigation_id +:+ "/trace";
     k_params := None;
     k_json := None; k_headers := [] |}.

Definition get_investigation_trace_parse_response (client : gen_client) (response : http_response) : Read (answer InvestigationTraceResponse) :=
  if hr_status_code response =? 200 then b ← response_json response; m ← from_dict b; Ok (PBody m)
  else if hr_status_code response =? 403 then b ← response_json response; m ← from_dict b; Ok (PError m)
  else if hr_status_code response =? 404 then b ← response_json response; m ← from_dict b; Ok (PError m)
  else if hr_status_code response =? 422 then b ← response_json response; m ← from_dict b; Ok (PInvalid m)
  else unexpected client response.

Definition get_investigation_trace_sync_detailed (client : gen_client) (investigation_id : string) : Read (Response InvestigationTraceResponse) :=
  response ← request client (get_investigation_trace_get_kwargs investigation_id);
  build_response (get_investigation_trace_parse_response client) response.

Definition get_investigation_trace_asyncio_detailed (client : gen_client) (investigation_id : string) : Read (Response InvestigationTraceResponse) :=
  response ← arequest client (get_investigation_trace_get_kwargs investigation_id);
  build_response (get_investigation_trace_parse_response client) response.

Definition get_investigation_trace_sync (client : gen_client) (investigation_id : string) : Read (answer InvestigationTraceResponse) := r_parsed <$> get_investigation_trace_sync_detailed client investigation_id.

Definition get_investigation_trace_asyncio (client : gen_client) (investigation_id : string) : Read (answer InvestigationTraceResponse) := r_parsed <$> get_investigation_trace_asyncio_detailed client investigation_id.

(** *** [get_me] ([GET /api/v1/auth/me]) *)

Definition get_me_get_kwargs : kwargs :=
  {| k_method := "get"; k_url := "/api/v1/auth/me";
     k_params := None;
     k_json := None; k_headers := [] |}.

Definition get_me_parse_response (client : gen_client) (response : http_response) : Read (answer UserResponse) :=
  if hr_status_code response =? 200 then b ← response_json response; m ← from_dict b; Ok (PBody m)
  else unexpected client response.

Definition get_me_sync_detailed (client : gen_client) : Read (Response UserResponse) :=
  response ← request client (get_me_get_kwargs);
  build_response (get_me_parse_response client) response.

Definition get_me_asyncio_detailed (client : gen_client) : Read (Response UserResponse) :=
  response ← arequest client (get_me_get_kwargs);
  build_response (get_me_parse_response client) response.

Definition get_me_sync (client : gen_client) : Read (answer UserResponse) := r_parsed <$> get_me_sync_detailed client.

Definition get_me_asyncio (client : gen_client) : Read (answer UserResponse) := r_parsed <$> get_me_asyncio_detailed client.

(** *** [get_prometheus_metrics] ([GET /api/v1/admin/metrics/prometheus]) *)

Definition get_prometheus_metrics_get_kwargs : kwargs :=
  {| k_method := "get"; k_url := "/api/v1/admin/metrics/prometheus";
     k_params := None;
     k_json := None; k_headers := [] |}.

Definition get_prometheus_metrics_parse_response (client : gen_client) (response : http_response) : Read (answer unit) :=
  if hr_status_code response =? 200 then Ok PNone
  else unexpected client response.

Definition get_prometheus_metrics_sync_detailed (client : gen_client) : Read (Response unit) :=
  response ← request client (get_prometheus_metrics_get_kwargs);
  build_response (get_prometheus_metrics_parse_response client) response.

Definition get_prometheus_metrics_asyncio_detailed (client : gen_client) : Read (Response unit) :=
  response ← arequest client (get_prometheus_metrics_get_kwargs);
  build_response (get_prometheus_metrics_parse_response client) response.

(** *** [list_alert_incidents] ([GET /api/v1/admin/alerts]) *)

Definition list_alert_incidents_get_kwargs (status : maybe (parsed ListAlertIncidentsApiV1AdminAlertsGetStatusType0)) (limit : maybe json) (offset : maybe json) : kwargs :=
  {| k_method := "get"; k_url := "/api/v1/admin/alerts";
     k_params := Some (query_params [("status", write_parsed (fun e => JStr (ListAlertIncidentsApiV1AdminAlertsGetStatusType0_value e)) <$> status);
       ("limit", limit);
       ("offset", offset)]);
     k_json := None; k_headers := [] |}.

Definition list_alert_incidents_parse_response (client : gen_client) (response : http_response) : Read (answer (list AlertIncidentResponse)) :=
  if hr_status_code response =? 200 then b ← response_json response; l ← read_list from_dict b; Ok (PBody l)
  else if hr_status_code response =? 422 then b ← response_json response; m ← from_dict b; Ok (PInvalid m)
  else unexpected client response.

Definition list_alert_incidents_sync_detailed (client : gen_client) (status : maybe (parsed ListAlertIncidentsApiV1AdminAlertsGetStatusType0)) (limit : maybe json) (offset : maybe json) : Read (Response (list AlertIncidentResponse)) :=
  response ← request client (list_alert_incidents_get_kwargs status limit offset);
  build_response (list_alert_incidents_parse_response client) response.

Definition list_alert_incidents_asyncio_detailed (client : gen_client) (status : maybe (parsed ListAlertIncidentsApiV1AdminAlertsGetStatusType0)) (limit : maybe json) (offset : maybe json) : Read (Response (list AlertIncidentResponse)) :=
  response ← arequest client (list_alert_incidents_get_kwargs status limit offset);
  build_response (list_alert_incidents_parse_response client) response.

Definition list_alert_incidents_sync (client : gen_client) (status : maybe (parsed ListAlertIncidentsApiV1AdminAlertsGetStatusType0)) (limit : maybe json) (offset : maybe json) : Read (answer (list AlertIncidentResponse)) := r_parsed <$> list_alert_incidents_sync_detailed client status limit offset.

Definition list_alert_incidents_asyncio (client : gen_client) (status : maybe (parsed ListAlertIncidentsApiV1AdminAlertsGetStatusType0)) (limit : maybe json) (offset : maybe json) : Read (answer (list AlertIncidentResponse)) := r_parsed <$> list_alert_incidents_asyncio_detailed client status limit offset.

(** *** [list_alert_rules] ([GET /api/v1/admin/alert-rules]) *)

Definition list_alert_rules_get_kwargs : kwargs :=
  {| k_method := "get"; k_url := "/api/v1/admin/alert-rules";
     k_params := None;
     k_json := None; k_headers := [] |}.

Definition list_alert_rules_parse_response (client : gen_client) (response : http_response) : Read (answer (list AlertRuleResponse)) :=
  if hr_status_code response =? 200 then b ← response_json response; l ← read_list from_dict b; Ok (PBody l)
  else unexpected client response.

Definition list_alert_rules_sync_detailed (client : gen_client) : Read (Response (list AlertRuleResponse)) :=
  response ← request client (list_alert_rules_get_kwargs);
  build_response (list_alert_rules_parse_response client) response.

Definition list_alert_rules_asyncio_detailed (client : gen_client) : Read (Response (list AlertRuleResponse)) :=
  response ← arequest client (list_alert_rules_get_kwargs);
  build_response (list_alert_rules_parse_response client) response.

Definition list_alert_rules_sync (client : gen_client) : Read (answer (list AlertRuleResponse)) := r_parsed <$> list_alert_rules_sync_detailed client.

Definition list_alert_rules_asyncio (client : gen_client) : Read (answer (list AlertRuleResponse)) := r_parsed <$> list_alert_rules_asyncio_detailed client.

(** *** [list_api_keys] ([GET /api/v1/api-keys]) *)

Definition list_api_keys_get_kwargs : kwargs :=
  {| k_method := "get"; k_url := "/api/v1/api-keys";
     k_params := None;
     k_json := None; k_headers := [] |}.

Definition list_api_keys_parse_response (client : gen_client) (response : http_response) : Read (answer (list ApiKeyResponse)) :=
  if hr_status_code response =? 200 then b ← response_json response; l ← read_list from_dict b; Ok (PBody l)
  else unexpected client response.

Definition list_api_keys_sync_detailed (client : gen_client) : Read (Response (list ApiKeyResponse)) :=
  response ← request client (list_api_keys_get_kwargs);
  build_response (list_api_keys_parse_response client) response.

Definition list_api_keys_asyncio_detailed (client : gen_client) : Read (Response (list ApiKeyResponse)) :=
  response ← arequest client (list_api_keys_get_kwargs);
  build_response (list_api_keys_parse_response client) response.

Definition list_api_keys_sync (client : gen_client) : Read (answer (list ApiKeyResponse)) := r_parsed <$> list_api_keys_sync_detailed client.

Definition list_api_keys_asyncio (client : gen_client) : Read (answer (list ApiKeyResponse)) := r_parsed <$> list_api_keys_asyncio_detailed client.

(** *** [list_backups] ([GET /api/v1/admin/backups]) *)

Definition list_backups_get_kwargs (limit : maybe json) : kwargs :=
  {| k_method := "get"; k_url := "/api/v1/admin/backups";
     k_params := Some (query_params [("limit", limit)]);
     k_json := None; k_headers := [] |}.

Definition list_backups_parse_response (client : gen_client) (response : http_response) : Read (answer (list BackupRecordSchema)) :=
  if hr_status_code response =? 200 then b ← response_json response; l ← read_list from_dict b; Ok (PBody l)
  else if hr_status_code response =? 422 then b ← response_json response; m ← from_dict b; Ok (PInvalid m)
  else unexpected client response.

Definition list_backups_sync_detailed (client : gen_client) (limit : maybe json) : Read (Response (list BackupRecordSchema)) :=
  response ← request client (list_backups_get_kwargs limit);
  build_response (list_backups_parse_response client) response.

Definition list_backups_asyncio_detailed (client : gen_client) (limit : maybe json) : Read (Response (list BackupRecordSchema)) :=
  response ← arequest client (list_backups_get_kwargs limit);
  build_response (list_backups_parse_response client) response.

Definition list_backups_sync (client : gen_client) (limit : maybe json) : Read (answer (list BackupRecordSchema)) := r_parsed <$> list_backups_sync_detailed client limit.

Definition list_backups_asyncio (client : gen_client) (limit : maybe json) : Read (answer (list BackupRecordSchema)) := r_parsed <$> list_backups_asyncio_detailed client limit.

(** *** [list_public_hazard_events] ([GET /api/v1/research/hazard-events]) *)

Definition list_public_hazard_events_get_kwargs (event_type : maybe json) (source : maybe json) (limit : maybe json) (offset : maybe json) : kwargs :=
  {| k_method := "get"; k_url := "/api/v1/research/hazard-events";
     k_params := Some (query_params [("event_type", event_type);
       ("source", source);
       ("limit", limit);
       ("offset", offset)]);
     k_json := None; k_headers := [] |}.

Definition list_public_hazard_events_parse_response (client : gen_client) (response : http_response) : Read (answer (list HazardEventResponse)) :=
  if hr_status_code response =? 200 then b ← response_json response; l ← read_list from_dict b; Ok (PBody l)
  else if hr_status_code response =? 422 then b ← response_json response; m ← from_dict b; Ok (PInvalid m)
  else if hr_status_code response =? 503 then b ← response_json response; m ← from_dict b; Ok (PError m)
  else unexpected client response.

Definition list_public_hazard_events_sync_detailed (client : gen_client) (event_type : maybe json) (source : maybe json) (limit : maybe json) (offset : maybe json) : Read (Response (list HazardEventResponse)) :=
  response ← request client (list_public_hazard_events_get_kwargs event_type source limit offset);
  build_response (list_public_hazard_events_parse_response client) response.

Definition list_public_hazard_events_asyncio_detailed (client : gen_client) (event_type : maybe json) (source : maybe json) (limit : maybe json) (offset : maybe json) : Read (Response (list HazardEventResponse)) :=
  response ← arequest client (list_public_hazard_events_get_kwargs event_type source limit offset);
  build_response (list_public_hazard_events_parse_response client) response.

Definition list_public_hazard_events_sync (client : gen_client) (event_type : maybe json) (source : maybe json) (limit : maybe json) (offset : maybe json) : Read (answer (list HazardEventResponse)) := r_parsed <$> list_public_hazard_events_sync_detailed client event_type source limit offset.

Definition list_public_hazard_events_asyncio (client : gen_client) (event_type : maybe json) (source : maybe json) (limit : maybe json) (offset : maybe json) : Read (answer (list HazardEventResponse)) := r_parsed <$> list_public_hazard_events_asyncio_detailed client event_type source limit offset.

(** *** [list_public_research_investigations] ([GET /api/v1/research/investigations]) *)

Definition list_public_research_investigations_get_kwargs (domain : maybe json) (since : maybe (parsed datetime)) (limit : maybe json) (offset : maybe json) : kwargs :=
  {| k_method := "get"; k_url := "/api/v1/research/investigations";
     k_params := Some (query_params [("domain", domain);
       ("since", write_parsed (fun t => JStr (dt_isoformat t)) <$> since);
       ("limit", limit);
       ("offset", offset)]);
     k_json := None; k_headers := [] |}.

Definition list_public_research_investigations_parse_response (client : gen_client) (response : http_response) : Read (answer (list ResearchInvestigationResponse)) :=
  if hr_status_code response =? 200 then b ← response_json response; l ← read_list from_dict b; Ok (PBody l)
  else if hr_status_code response =? 422 then b ← response_json response; m ← from_dict b; Ok (PInvalid m)
  else if hr_status_code response =? 503 then b ← response_json response; m ← from_dict b; Ok (PError m)
  else unexpected client response.

Definition list_public_research_investigations_sync_detailed (client : gen_client) (domain : maybe json) (since : maybe (parsed datetime)) (limit : maybe json) (offset : maybe json) : Read (Response (list ResearchInvestigationResponse)) :=
  response ← request client (list_public_research_investigations_get_kwargs domain since limit offset);
  build_response (list_public_research_investigations_parse_response client) response.

Definition list_public_research_investigations_asyncio_detailed (client : gen_client) (domain : maybe json) (since : maybe (parsed datetime)) (limit : maybe json) (offset : maybe json) : Read (Response (list ResearchInvestigationResponse)) :=
  response ← arequest client (list_public_research_investigations_get_kwargs domain since limit offset);
  build_response (list_public_research_investigations_parse_response client) response.

Definition list_public_research_investigations_sync (client : gen_client) (domain : maybe json) (since : maybe (parsed datetime)) (limit : maybe json) (offset : maybe json) : Read (answer (list ResearchInvestigationResponse)) := r_parsed <$> list_public_research_investigations_sync_detailed client domain since limit offset.

Definition list_public_research_investigations_asyncio (client : gen_client) (domain : maybe json) (since : maybe (parsed datetime)) (limit : maybe json) (offset : maybe json) : Read (answer (list ResearchInvestigationResponse)) := r_parsed <$> list_public_research_investigations_asyncio_detailed client domain since limit offset.

(** *** [list_public_research_patterns] ([GET /api/v1/research/patterns]) *)

Definition list_public_research_patterns_get_kwargs (event_type : maybe json) (region : maybe json) (time_window_days : maybe json) (min_confidence : maybe json) (sort_by : maybe ListPublicResearchPatternsApiV1ResearchPatternsGetSortBy) (order : maybe ListPublicResearchPatternsApiV1ResearchPatternsGetOrder) (limit : maybe json) (offset : maybe json) : kwargs :=
  {| k_method := "get"; k_url := "/api/v1/research/patterns";
     k_params := Some (query_params [("event_type", event_type);
       ("region", region);
       ("time_window_days", time_window_days);
       ("min_confidence", min_confidence);
       ("sort_by", (fun e => JStr (ListPublicResearchPatternsApiV1ResearchPatternsGetSortBy_value e)) <$> sort_by);
       ("order", (fun e => JStr (ListPublicResearchPatternsApiV1ResearchPatternsGetOrder_value e)) <$> order);
       ("limit", limit);
       ("offset", offset)]);
     k_json := None; k_headers := [] |}.

Definition list_public_research_patterns_parse_response (client : gen_client) (response : http_response) : Read (answer (list PatternFindingResponse)) :=
  if hr_status_code response =? 200 then b ← response_json response; l ← read_list from_dict b; Ok (PBody l)
  else if hr_status_code response =? 422 then b ← response_json response; m ← from_dict b; Ok (PInvalid m)
  else if hr_status_code response =? 503 then b ← response_json response; m ← from_dict b; Ok (PError m)
  else unexpected client response.

Definition list_public_research_patterns_sync_detailed (client : gen_client) (event_type : maybe json) (region : maybe json) (time_window_days : maybe json) (min_confidence : maybe json) (sort_by : maybe ListPublicResearchPatternsApiV1ResearchPatternsGetSortBy) (order : maybe ListPublicResearchPatternsApiV1ResearchPatternsGetOrder) (limit : maybe json) (offset : maybe json) : Read (Response (list PatternFindingResponse)) :=
  response ← request client (list_public_research_patterns_get_kwargs event_type region time_window_days min_confidence sort_by order limit offset);
  build_response (list_public_research_patterns_parse_response client) response.

Definition list_public_research_patterns_asyncio_detailed (client : gen_client) (event_type : maybe json) (region : maybe json) (time_window_days : maybe json) (min_confidence : maybe json) (sort_by : maybe ListPublicResearchPatternsApiV1ResearchPatternsGetSortBy) (order : maybe ListPublicResearchPatternsApiV1ResearchPatternsGetOrder) (limit : maybe json) (offset : maybe json) : Read (Response (list PatternFindingResponse)) :=
  response ← arequest client (list_public_research_patterns_get_kwargs event_type region time_window_days min_confidence sort_by order limit offset);
  build_response (list_public_research_patterns_parse_response client) response.

Definition list_public_research_patterns_sync (client : gen_client) (event_type : maybe json) (region : maybe json) (time_window_days : maybe json) (min_confidence : maybe json) (sort_by : maybe ListPublicResearchPatternsApiV1ResearchPatternsGetSortBy) (order : maybe ListPublicResearchPatternsApiV1ResearchPatternsGetOrder) (limit : maybe json) (offset : maybe json) : Read (answer (list PatternFindingResponse)) := r_parsed <$> list_public_research_patterns_sync_detailed client event_type region time_window_days min_confidence sort_by order limit offset.

Definition list_public_research_patterns_asyncio (client : gen_client) (event_type : maybe json) (region : maybe json) (time_window_days : maybe json) (min_confidence : maybe json) (sort_by : maybe ListPublicResearchPatternsApiV1ResearchPatternsGetSortBy) (order : maybe ListPublicResearchPatternsApiV1ResearchPatternsGetOrder) (limit : maybe json) (offset : maybe json) : Read (answer (list PatternFindingResponse)) := r_parsed <$> list_public_research_patterns_asyncio_detailed client event_type region time_window_days min_confidence sort_by order limit offset.

(** *** [list_restore_drills] ([GET /api/v1/admin/restore-drills]) *)

Definition list_restore_drills_get_kwargs (limit : maybe json) : kwargs :=
  {| k_method := "get"; k_url := "/api/v1/admin/restore-drills";
     k_params := Some (query_params [("limit", limit)]);
     k_json := None; k_headers := [] |}.

Definition list_restore_drills_parse_response (client : gen_client) (response : http_response) : Read (answer (list RestoreDrillRecordSchema)) :=
  if hr_status_code response =? 200 then b ← response_json response; l ← read_list from_dict b; Ok (PBody l)
  else if hr_status_code response =? 422 then b ← response_json response; m ← from_dict b; Ok (PInvalid m)
  else unexpected client response.

Definition list_restore_drills_sync_detailed (client : gen_client) (limit : maybe json) : Read (Response (list RestoreDrillRecordSchema)) :=
  response ← request client (list_restore_drills_get_kwargs limit);
  build_response (list_restore_drills_parse_response client) response.

Definition list_restore_drills_asyncio_detailed (client : gen_client) (limit : maybe json) : Read (Response (list RestoreDrillRecordSchema)) :=
  response ← arequest client (list_restore_drills_get_kwargs limit);
  build_response (list_restore_drills_parse_response client) response.

Definition list_restore_drills_sync (client : gen_client) (limit : maybe json) : Read (answer (list RestoreDrillRecordSchema)) := r_parsed <$> list_restore_drills_sync_detailed client limit.

Definition list_restore_drills_asyncio (client : gen_client) (limit : maybe json) : Read (answer (list RestoreDrillRecordSchema)) := r_parsed <$> list_restore_drills_asyncio_detailed client limit.

(** *** [liveness] ([GET /api/v1/health/live]) *)

Definition liveness_get_kwargs : kwargs :=
  {| k_method := "get"; k_url := "/api/v1/health/live";
     k_params := None;
     k_json := None; k_headers := [] |}.

Definition liveness_parse_response (client : gen_client) (response : http_response) : Read (answer LivenessResponse) :=
  if hr_status_code response =? 200 then b ← response_json response; m ← from_dict b; Ok (PBody m)
  else unexpected client response.

Definition liveness_sync_detailed (client : gen_client) : Read (Response LivenessResponse) :=
  response ← request client (liveness_get_kwargs);
  build_response (liveness_parse_response client) response.

Definition liveness_asyncio_detailed (client : gen_client) : Read (Response LivenessResponse) :=
  response ← arequest client (liveness_get_kwargs);
  build_response (liveness_parse_response client) response.

Definition liveness_sync (client : gen_client) : Read (answer LivenessResponse) := r_parsed <$> liveness_sync_detailed client.

Definition liveness_asyncio (client : gen_client) : Read (answer LivenessResponse) := r_parsed <$> liveness_asyncio_detailed client.

(** *** [login] ([POST /api/v1/auth/login]) *)

Definition login_get_kwargs (body : UserLoginRequest) : kwargs :=
  {| k_method := "post"; k_url := "/api/v1/auth/login";
     k_params := None;
     k_json := Some (to_dict body); k_headers := [("Content-Type", "application/json")] |}.

Definition login_parse_response (client : gen_client) (response : http_response) : Read (answer TokenResponse) :=
  if hr_status_code response =? 200 then b ← response_json response; m ← from_dict b; Ok (PBody m)
  else if hr_status_code response =? 401 then Ok PNone
  else if hr_status_code response =? 422 then b ← response_json response; m ← from_dict b; Ok (PInvalid m)
  else unexpected client response.

Definition login_sync_detailed (client : gen_client) (body : UserLoginRequest) : Read (Response TokenResponse) :=
  response ← request client (login_get_kwargs body);
  build_response (login_parse_response client) response.

Definition login_asyncio_detailed (client : gen_client) (body : UserLoginRequest) : Read (Response TokenResponse) :=
  response ← arequest client (login_get_kwargs body);
  build_response (login_parse_response client) response.

Definition login_sync (client : gen_client) (body : UserLoginRequest) : Read (answer TokenResponse) := r_parsed <$> login_sync_detailed client body.

Definition login_asyncio (client : gen_client) (body : UserLoginRequest) : Read (answer TokenResponse) := r_parsed <$> login_asyncio_detailed client body.

(** *** [ping] ([GET /api/v1/ping]) *)

Definition ping_get_kwargs : kwargs :=
  {| k_method := "get"; k_url := "/api/v1/ping";
     k_params := None;
     k_json := None; k_headers := [] |}.

Definition ping_parse_response (client : gen_client) (response : http_response) : Read (answer PingResponse) :=
  if hr_status_code response =? 200 then b ← response_json response; m ← from_dict b; Ok (PBody m)
  else unexpected client response.

Definition ping_sync_detailed (client : gen_client) : Read (Response PingResponse) :=
  response ← request client (ping_get_kwargs);
  build_response (ping_parse_response client) response.

Definition ping_asyncio_detailed (client : gen_client) : Read (Response PingResponse) :=
  response ← arequest client (ping_get_kwargs);
  build_response (ping_parse_response client) response.

Definition ping_sync (client : gen_client) : Read (answer PingResponse) := r_parsed <$> ping_sync_detailed client.

Definition ping_asyncio (client : gen_client) : Read (answer PingResponse) := r_parsed <$> ping_asyncio_detailed client.

(** *** [read_root] ([GET /]) *)

Definition read_root_get_kwargs : kwargs :=
  {| k_method := "get"; k_url := "/";
     k_params := None;
     k_json := None; k_headers := [] |}.

Definition read_root_parse_response (client : gen_client) (response : http_response) : Read (answer RootResponse) :=
  if hr_status_code response =? 200 then b ← response_json response; m ← from_dict b; Ok (PBody m)
  else unexpected client response.

Definition read_root_sync_detailed (client : gen_client) : Read (Response RootResponse) :=
  response ← request client (read_root_get_kwargs);
  build_response (read_root_parse_response client) response.

Definition read_root_asyncio_detailed (client : gen_client) : Read (Response RootResponse) :=
  response ← arequest client (read_root_get_kwargs);
  build_response (read_root_parse_response client) response.

Definition read_root_sync (client : gen_client) : Read (answer RootResponse) := r_parsed <$> read_root_sync_detailed client.

Definition read_root_asyncio (client : gen_client) : Read (answer RootResponse) := r_parsed <$> read_root_asyncio_detailed client.

(** *** [readiness] ([GET /api/v1/health/ready]) *)

Definition readiness_get_kwargs : kwargs :=
  {| k_method := "get"; k_url := "/api/v1/health/ready";
     k_params := None;
     k_json := None; k_headers := [] |}.

Definition readiness_parse_response (client : gen_client) (response : http_response) : Read (answer ReadinessResponse) :=
  if hr_status_code response =? 200 then b ← response_json response; m ← from_dict b; Ok (PBody m)
  else if hr_status_code response =? 503 then b ← response_json response; m ← from_dict b; Ok (PFailure m)
  else unexpected client response.

Definition readiness_sync_detailed (client : gen_client) : Read (Response ReadinessResponse) :=
  response ← request client (readiness_get_kwargs);
  build_response (readiness_parse_response client) response.

Definition readiness_asyncio_detailed (client : gen_client) : Read (Response ReadinessResponse) :=
  response ← arequest client (readiness_get_kwargs);
  build_response (readiness_parse_response client) response.

Definition readiness_sync (client : gen_client) : Read (answer ReadinessResponse) := r_parsed <$> readiness_sync_detailed client.

Definition readiness_asyncio (client : gen_client) : Read (answer ReadinessResponse) := r_parsed <$> readiness_asyncio_detailed client.

(** *** [register] ([POST /api/v1/auth/register]) *)

Definition register_get_kwargs (body : UserRegisterRequest) : kwargs :=
  {| k_method := "post"; k_url := "/api/v1/auth/register";
     k_params := None;
     k_json := Some (to_dict body); k_headers := [("Content-Type", "application/json")] |}.

Definition register_parse_response (client : gen_client) (response : http_response) : Read (answer UserResponse) :=
  if hr_status_code response =? 201 then b ← response_json response; m ← from_dict b; Ok (PBody m)
  else if hr_status_code response =? 409 then Ok PNone
  else if hr_status_code response =? 422 then Ok PNone
  else unexpected client response.

Definition register_sync_detailed (client : gen_client) (body : UserRegisterRequest) : Read (Response UserResponse) :=
  response ← request client (register_get_kwargs body);
  build_response (register_parse_response client) response.

Definition register_asyncio_detailed (client : gen_client) (body : UserRegisterRequest) : Read (Response UserResponse) :=
  response ← arequest client (register_get_kwargs body);
  build_response (register_parse_response client) response.

Definition register_sync (client : gen_client) (body : UserRegisterRequest) : Read (answer UserResponse) := r_parsed <$> register_sync_detailed client body.

Definition register_asyncio (client : gen_client) (body : UserRegisterRequest) : Read (answer UserResponse) := r_parsed <$> register_asyncio_detailed client body.

(** *** [request_password_reset] ([POST /api/v1/auth/request-reset]) *)

Definition request_password_reset_get_kwargs (body : PasswordResetRequestPayload) : kwargs :=
  {| k_method := "post"; k_url := "/api/v1/auth/request-reset";
     k_params := None;
     k_json := Some (to_dict body); k_headers := [("Content-Type", "application/json")] |}.

Definition request_password_reset_parse_response (client : gen_client) (response : http_response) : Read (answer AuthMessageResponse) :=
  if hr_status_code response =? 202 then b ← response_json response; m ← from_dict b; Ok (PBody m)
  else if hr_status_code response =? 422 then b ← response_json response; m ← from_dict b; Ok (PInvalid m)
  else unexpected client response.

Definition request_password_reset_sync_detailed (client : gen_client) (body : PasswordResetRequestPayload) : Read (Response AuthMessageResponse) :=
  response ← request client (request_password_reset_get_kwargs body);
  build_response (request_password_reset_parse_response client) response.

Definition request_password_reset_asyncio_detailed (client : gen_client) (body : PasswordResetRequestPayload) : Read (Response AuthMessageResponse) :=
  response ← arequest client (request_password_reset_get_kwargs body);
  build_response (request_password_reset_parse_response client) response.

Definition request_password_reset_sync (client : gen_client) (body : PasswordResetRequestPayload) : Read (answer AuthMessageResponse) := r_parsed <$> request_password_reset_sync_detailed client body.

Definition request_password_reset_asyncio (client : gen_client) (body : PasswordResetRequestPayload) : Read (answer AuthMessageResponse) := r_parsed <$> request_password_reset_asyncio_detailed client body.

(** *** [resend_verification] ([POST /api/v1/auth/resend-verification]) *)

Definition resend_verification_get_kwargs (body : ResendVerificationRequest) : kwargs :=
  {| k_method := "post"; k_url := "/api/v1/auth/resend-verification";
     k_params := None;
     k_json := Some (to_dict body); k_headers := [("Content-Type", "application/json")] |}.

Definition resend_verification_parse_response (client : gen_client) (response : http_response) : Read (answer AuthMessageResponse) :=
  if hr_status_code response =? 200 then b ← response_json response; m ← from_dict b; Ok (PBody m)
  else if hr_status_code response =? 422 then b ← response_json response; m ← from_dict b; Ok (PInvalid m)
  else unexpected client response.

Definition resend_verification_sync_detailed (client : gen_client) (body : ResendVerificationRequest) : Read (Response AuthMessageResponse) :=
  response ← request client (resend_verification_get_kwargs body);
  build_response (resend_verification_parse_response client) response.

Definition resend_verification_asyncio_detailed (client : gen_client) (body : ResendVerificationRequest) : Read (Response AuthMessageResponse) :=
  response ← arequest client (resend_verification_get_kwargs body);
  build_response (resend_verification_parse_response client) response.

Definition resend_verification_sync (client : gen_client) (body : ResendVerificationRequest) : Read (answer AuthMessageResponse) := r_parsed <$> resend_verification_sync_detailed client body.

Definition resend_verification_asyncio (client : gen_client) (body : ResendVerificationRequest) : Read (answer AuthMessageResponse) := r_parsed <$> resend_verification_asyncio_detailed client body.

(** *** [reset_password] ([POST /api/v1/auth/reset]) *)

Definition reset_password_get_kwargs (body : PasswordResetConfirmPayload) : kwargs :=
  {| k_method := "post"; k_url := "/api/v1/auth/reset";
     k_params := None;
     k_json := Some (to_dict body); k_headers := [("Content-Type", "application/json")] |}.

Definition reset_password_parse_response (client : gen_client) (response : http_response) : Read (answer AuthMessageResponse) :=
  if hr_status_code response =? 200 then b ← response_json response; m ← from_dict b; Ok (PBody m)
  else if hr_status_code response =? 400 then Ok PNone
  else if hr_status_code response =? 422 then Ok PNone
  else unexpected client response.

Definition reset_password_sync_detailed (client : gen_client) (body : PasswordResetConfirmPayload) : Read (Response AuthMessageResponse) :=
  response ← request client (reset_password_get_kwargs body);
  build_response (reset_password_parse_response client) response.

Definition reset_password_asyncio_detailed (client : gen_client) (body : PasswordResetConfirmPayload) : Read (Response AuthMessageResponse) :=
  response ← arequest client (reset_password_get_kwargs body);
  build_response (reset_password_parse_response client) response.

Definition reset_password_sync (client : gen_client) (body : PasswordResetConfirmPayload) : Read (answer AuthMessageResponse) := r_parsed <$> reset_password_sync_detailed client body.

Definition reset_password_asyncio (client : gen_client) (body : PasswordResetConfirmPayload) : Read (answer AuthMessageResponse) := r_parsed <$> reset_password_asyncio_detailed client body.

(** *** [revoke_api_key] ([DELETE /api/v1/api-keys/{key_id}]) *)

Definition revoke_api_key_get_kwargs (key_id : string) : kwargs :=
  {| k_method := "delete"; k_url := "/api/v1/api-keys/" +:+ quote key_id;
     k_params := None;
     k_json := None; k_headers := [] |}.

Definition revoke_api_key_parse_response (client : gen_client) (response : http_response) : Read (answer ApiKeyRevokedResponse) :=
  if hr_status_code response =? 200 then b ← response_json response; m ← from_dict b; Ok (PBody m)
  else if hr_status_code response =? 422 then b ← response_json response; m ← from_dict b; Ok (PInvalid m)
  else unexpected client response.

Definition revoke_api_key_sync_detailed (client : gen_client) (key_id : string) : Read (Response ApiKeyRevokedResponse) :=
  response ← request client (revoke_api_key_get_kwargs key_id);
  build_response (revoke_api_key_parse_response client) response.

Definition revoke_api_key_asyncio_detailed (client : gen_client) (key_id : string) : Read (Response ApiKeyRevokedResponse) :=
  response ← arequest client (revoke_api_key_get_kwargs key_id);
  build_response (revoke_api_key_parse_response client) response.

Definition revoke_api_key_sync (client : gen_client) (key_id : string) : Read (answer ApiKeyRevokedResponse) := r_parsed <$> revoke_api_key_sync_detailed client key_id.

Definition revoke_api_key_asyncio (client : gen_client) (key_id : string) : Read (answer ApiKeyRevokedResponse) := r_parsed <$> revoke_api_key_asyncio_detailed client key_id.

(** *** [stream_investigation_events] ([GET /api/v1/investigations/{investigation_id}/stream]) *)

Definition stream_investigation_events_get_kwargs (investigation_id : string) : kwargs :=
  {| k_method := "get"; k_url := "/api/v1/investigations/" +:+ quote investigation_id +:+ "/stream";
     k_params := None;
     k_json := None; k_headers := [] |}.

Definition stream_investigation_events_parse_response (client : gen_client) (response : http_response) : Read (answer json) :=
  if hr_status_code response =? 200 then b ← response_json response; Ok (PBody b)
  else if hr_status_code response =? 403 then Ok PNone
  else if hr_status_code response =? 404 then Ok PNone
  else if hr_status_code response =? 422 then b ← response_json response; m ← from_dict b; Ok (PInvalid m)
  else if hr_status_code response =? 503 then Ok PNone
  else unexpected client response.

Definition stream_investigation_events_sync_detailed (client : gen_client) (investigation_id : string) : Read (Response json) :=
  response ← request client (stream_investigation_events_get_kwargs investigation_id);
  build_response (stream_investigation_events_parse_response client) response.

Definition stream_investigation_events_asyncio_detailed (client : gen_client) (investigation_id : string) : Read (Response json) :=
  response ← arequest client (stream_investigation_events_get_kwargs investigation_id);
  build_response (stream_investigation_events_parse_response client) response.

Definition stream_investigation_events_sync (client : gen_client) (investigation_id : string) : Read (answer json) := r_parsed <$> stream_investigation_events_sync_detailed client investigation_id.

Definition stream_investigation_events_asyncio (client : gen_client) (investigation_id : string) : Read (answer json) := r_parsed <$> stream_investigation_events_asyncio_detailed client investigation_id.

(** *** [upsert_alert_rule] ([POST /api/v1/admin/alert-rules]) *)

Definition upsert_alert_rule_get_kwargs (body : AlertRuleSchema) : kwargs :=
  {| k_method := "post"; k_url := "/api/v1/admin/alert-rules";
     k_params := None;
     k_json := Some (to_dict body); k_headers := [("Content-Type", "application/json")] |}.

Definition upsert_alert_rule_parse_response (client : gen_client) (response : http_response) : Read (answer AlertRuleResponse) :=
  if hr_status_code response =? 200 then b ← response_json response; m ← from_dict b; Ok (PBody m)
  else if hr_status_code response =? 422 then b ← response_json response; m ← from_dict b; Ok (PInvalid m)
  else unexpected client response.

Definition upsert_alert_rule_sync_detailed (client : gen_client) (body : AlertRuleSchema) : Read (Response AlertRuleResponse) :=
  response ← request client (upsert_alert_rule_get_kwargs body);
  build_response (upsert_alert_rule_parse_response client) response.

Definition upsert_alert_rule_asyncio_detailed (client : gen_client) (body : AlertRuleSchema) : Read (Response AlertRuleResponse) :=
  response ← arequest client (upsert_alert_rule_get_kwargs body);
  build_response (upsert_alert_rule_parse_response client) response.

Definition upsert_alert_rule_sync (client : gen_client) (body : AlertRuleSchema) : Read (answer AlertRuleResponse) := r_parsed <$> upsert_alert_rule_sync_detailed client body.

Definition upsert_alert_rule_asyncio (client : gen_client) (body : AlertRuleSchema) : Read (answer AlertRuleResponse) := r_parsed <$> upsert_alert_rule_asyncio_detailed client body.

(** *** [verify_email] ([GET /api/v1/auth/verify-email]) *)

Definition verify_email_get_kwargs (token : json) : kwargs :=
  {| k_method := "get"; k_url := "/api/v1/auth/verify-email";
     k_params := Some (query_params [("token", Val token)]);
     k_json := None; k_headers := [] |}.

Definition verify_email_parse_response (client : gen_client) (response : http_response) : Read (answer AuthMessageResponse) :=
  if hr_status_code response =? 200 then b ← response_json response; m ← from_dict b; Ok (PBody m)
  else if hr_status_code response =? 400 then Ok PNone
  else if hr_status_code response =? 422 then b ← response_json response; m ← from_dict b; Ok (PInvalid m)
  else unexpected client response.

Definition verify_email_sync_detailed (client : gen_client) (token : json) : Read (Response AuthMessageResponse) :=
  response ← request client (verify_email_get_kwargs token);
  build_response (verify_email_parse_response client) response.

Definition verify_email_asyncio_detailed (client : gen_client) (token : json) : Read (Response AuthMessageResponse) :=
  response ← arequest client (verify_email_get_kwargs token);
  build_response (verify_email_parse_response client) response.

Definition verify_email_sync (client : gen_client) (token : json) : Read (answer AuthMessageResponse) := r_parsed <$> verify_email_sync_detailed client token.

Definition verify_email_asyncio (client : gen_client) (token : json) : Read (answer AuthMessageResponse) := r_parsed <$> verify_email_asyncio_detailed client token.

End endpoints.
