(* ===== verification/Sdk.v ===== *)
(** * Sdk: the Python client library ([sdk/python/gaiaos_sdk/])

    [exceptions.py] (the mapping from status codes to exceptions), [client.py]
    (the clients and their three groups of calls, blocking and asynchronous) and
    [streaming.py] (server-sent events), on top of the endpoint functions of
    [SdkApi].  The HTTP library, the environment, version numbers
    ([packaging.version]), [json.loads] and [str] of a JSON value are arguments.

    What a call returns or raises for every answer of the server, which requests
    it sends with which credentials, and which calls cannot work at all. *)

From stdpp Require Import pretty.
From S2P Require Import Prelude PyStr PyFloat Effects SdkTypes SdkModels SdkAdminModels SdkApi.
From Stdlib Require Import Ascii.

(** ** [exceptions.py] *)

(** What the callers pass as [response_json]. *)
Inductive raw_payload :=
| NoPayload
| Bytes (content : text)
| Decoded (j : json).

Definition str_Z (z : Z) : string := pretty z.

Definition isdigit (s : string) : bool := str_truthy s && all_chars is_digit s.

(** [float(s)] of a digit string *)
Definition float_of_digits (s : string) : float :=
  match int_of_str s with Some n => float_of_Z n | None => f0 end.

Definition retry_after (headers : option (list (string * string))) : option float :=
  match (match headers with Some h => assoc "retry-after" h | None => None end) with
  | Some hdr => if isdigit hdr then Some (float_of_digits hdr) else None
  | None => None
  end.

Section exceptions.
Variable str : json -> string.

(** [detail], [error_code] and [message] of the exception. *)
Definition error_parts (status_code : Z) (response_json : raw_payload) : json * json * string :=
  let message := "Request failed with status code " +:+ str_Z status_code in
  match response_json with
  | Decoded (JObj d) =>
      let detail := default (JObj d) (assoc "detail" d) in
      let error_code := default JNull (assoc "error_code" d) in
      let message :=
        match detail with
        | JStr s => s
        | JObj e => match assoc "message" e with Some m => str m | None => message end
        | _ => message
        end in
      (detail, error_code, message)
  | _ => (JNull, JNull, message)
  end.

Definition raise_for_status (status_code : Z) (response_json : raw_payload)
    (headers : option (list (string * string))) : Read unit :=
  if status_code <? 400 then Ok tt
  else
    let '(detail, error_code, message) := error_parts status_code response_json in
    let raise c := Raise (ApiError c status_code message detail error_code) in
    if status_code =? 401 then raise AuthenticationError
    else if status_code =? 403 then raise PermissionDeniedError
    else if status_code =? 404 then raise NotFoundError
    else if status_code =? 429 then raise (RateLimitError (retry_after headers))
    else if 500 <=? status_code then raise ServerError
    else raise GaiaAPIError.
End exceptions.

(** ** [streaming.py] *)

(** An event as [httpx_sse] delivers it. *)
Record sse := {
  sse_event : string;
  sse_data : string;
  sse_id : string;
  sse_retry : option Z;
}.

Record StreamEvent := {
  event_type : string;
  se_data : dict;
  se_id : option string;
  se_retry : option Z;
}.

Section streaming.
Variable loads : string -> option json.    (* [json.loads], [None] when it raises *)

Definition _parse_sse_data (raw_data : string) : dict :=
  if negb (str_truthy raw_data) then []
  else match loads raw_data with
       | Some (JObj d) => d
       | Some parsed => [("content", parsed)]
       | None => [("raw", JStr raw_data)]
       end.

Definition stream_event (e : sse) : StreamEvent :=
  {| event_type := if str_truthy (sse_event e) then sse_event e else "message";
     se_data := _parse_sse_data (sse_data e); se_id := Some (sse_id e); se_retry := sse_retry e |}.

(** [connect url headers]: the events of the stream, then how it ended. *)
Variable connect aconnect : string -> list (string * string) -> list sse * result pyexn unit.

Definition stream_investigation_events (url : string) (headers : list (string * string))
    : list StreamEvent * result pyexn unit :=
  let '(events, ending) := connect url headers in (map stream_event events, ending).

Definition astream_investigation_events (url : string) (headers : list (string * string))
    : list StreamEvent * result pyexn unit :=
  let '(events, ending) := aconnect url headers in (map stream_event events, ending).
End streaming.

(** ** [client.py] *)

Definition DEFAULT_BASE_URL : string := "http://localhost:8000".

(** Truthiness of an optional string, and [a or b]. *)
Definition or_else (a b : option string) : option string := if ostr_truthy a then a else b.

Record GaiaClient := {
  base_url : string;
  api_key : option string;
  bearer_token : option string;
  timeout : Z;
  max_retries : Z;
  closed : bool;                     (* of [_httpx_client] *)
}.

Section client.
Variable sdk_version : string.
Variable environ : string -> option string.

Definition GaiaClient_init (base_url api_key bearer_token : option string) (timeout max_retries : Z) : GaiaClient :=
  {| base_url := rstrip_chars (char_is "/")
       (default DEFAULT_BASE_URL (or_else base_url (or_else (environ "GAIAOS_API_URL") (Some DEFAULT_BASE_URL))));
     api_key := or_else api_key (environ "GAIAOS_API_KEY");
     bearer_token := or_else bearer_token (environ "GAIAOS_BEARER_TOKEN");
     timeout := timeout; max_retries := max_retries; closed := false |}.

Definition set_if_truthy (k : string) (f : string -> string) (v : option string) (h : list (string * string))
    : list (string * string) :=
  match v with Some s => if str_truthy s then assoc_set k (f s) h else h | None => h end.

Definition _get_headers (self : GaiaClient) : list (string * string) :=
  set_if_truthy "Authorization" (fun t => "Bearer " +:+ t) (bearer_token self)
    (set_if_truthy "X-API-Key" id (api_key self) [("User-Agent", "gaiaos-sdk-python/" +:+ sdk_version)]).

Definition _get_gen_client (self : GaiaClient) : gen_client :=
  let token := default "" (or_else (bearer_token self) (or_else (api_key self) (Some ""))) in
  if str_truthy token
  then AuthenticatedClient (base_url self) token (_get_headers self) (Some (timeout self))
  else Client (base_url self) (_get_headers self) (Some (timeout self)).

Definition close (self : GaiaClient) : GaiaClient :=
  {| base_url := base_url self; api_key := api_key self; bearer_token := bearer_token self; timeout := timeout self;
     max_retries := max_retries self; closed := true |}.

(** *** Versions *)

Section versions.
Variable Version : string -> option (Z * Z).     (* major and minor; [None] is [InvalidVersion] *)

(** The warnings issued; an exception when the server is incompatible. *)
Definition _check_version_compatibility (server_ver_str : string) : Read (list string) :=
  let incompatible := Raise (IncompatibleServerError
    ("Server (" +:+ server_ver_str +:+ ") major version incompatible with SDK (" +:+ sdk_version +:+ ")")) in
  match Version server_ver_str, Version sdk_version with
  | Some (smaj, smin), Some (kmaj, kmin) =>
      if negb (smaj =? kmaj) then incompatible
      else if negb (smin =? kmin)
      then Ok ["GaiaOS server (" +:+ server_ver_str +:+ ") minor release differs from SDK (" +:+ sdk_version +:+ ")"]
      else Ok []
  | _, _ =>
      if negb (String.eqb (before_char "." server_ver_str) (before_char "." sdk_version)) then incompatible else Ok []
  end.
End versions.

(** *** Calls *)

Section calls.
Context {DT : DateTimes}.
Variable str : json -> string.
Variable Version : string -> option (Z * Z).
Variable loads : string -> option json.
Variable send asend : httpx_client -> kwargs -> result pyexn http_response.
Variable connect aconnect : string -> list (string * string) -> list sse * result pyexn unit.

(** [raise_for_status(resp.status_code, resp.content, resp.headers)] *)
Definition check_status {A} (resp : Response A) : Read unit :=
  raise_for_status str (r_status_code resp) (Bytes (r_content resp)) (Some (r_headers resp)).

(** [if isinstance(resp.parsed, T): return resp.parsed], else the exception. *)
Definition expect {A} (resp : Response A) : Read A :=
  match r_parsed resp with
  | PBody a => Ok a
  | _ => Raise (ApiError GaiaAPIError (r_status_code resp) "Unexpected response payload type" JNull JNull)
  end.

Definition InvestigationsClient_create (parent : GaiaClient) (query : string) (consent_public_research : bool)
    : Read InvestigationCreateResponse :=
  let client := _get_gen_client parent in
  body ← InvestigationCreateRequest_init
    [("query", JStr query); ("consent_public_research", JBool consent_public_research)];
  resp ← create_investigation_sync_detailed send client body;
  _ ← check_status resp; expect resp.

Definition InvestigationsClient_get (parent : GaiaClient) (investigation_id : string) : Read InvestigationStatusResponse :=
  let client := _get_gen_client parent in
  resp ← get_investigation_sync_detailed send client investigation_id;
  _ ← check_status resp; expect resp.

Definition InvestigationsClient_get_trace (parent : GaiaClient) (investigation_id : string) : Read InvestigationTraceResponse :=
  let client := _get_gen_client parent in
  resp ← get_investigation_trace_sync_detailed send client investigation_id;
  _ ← check_status resp; expect resp.

Definition stream_url (parent : GaiaClient) (investigation_id : string) : string :=
  base_url parent +:+ "/api/v1/investigations/" +:+ investigation_id +:+ "/stream".

Definition InvestigationsClient_stream (parent : GaiaClient) (investigation_id : string)
    : list StreamEvent * result pyexn unit :=
  stream_investigation_events loads connect (stream_url parent investigation_id) (_get_headers parent).

Definition AuthClient_login (parent : GaiaClient) (username password : string) : Read TokenResponse :=
  let client := _get_gen_client parent in
  body ← UserLoginRequest_init [("username", JStr username); ("password", JStr password)];
  resp ← login_sync_detailed send client body;
  _ ← check_status resp; expect resp.

Definition AuthClient_register (parent : GaiaClient) (email password : string) (full_name : option string) : Read UserResponse :=
  let client := _get_gen_client parent in
  body ← UserRegisterRequest_init
    [("email", JStr email); ("password", JStr password); ("full_name", match full_name with Some n => JStr n | None => JNull end)];
  resp ← register_sync_detailed send client body;
  _ ← check_status resp; expect resp.

Definition AuthClient_create_api_key (parent : GaiaClient) (name : string) (expires_in_days : option Z)
    : Read ApiKeyCreatedResponse :=
  let client := _get_gen_client parent in
  body ← CreateApiKeyRequest_init
    [("name", JStr name); ("expires_in_days", match expires_in_days with Some n => JInt n | None => JNull end)];
  resp ← create_api_key_sync_detailed send client body;
  _ ← check_status resp; expect resp.

Definition AuthClient_list_api_keys (parent : GaiaClient) : Read (list ApiKeyResponse) :=
  let client := _get_gen_client parent in
  resp ← list_api_keys_sync_detailed send client;
  _ ← check_status resp; expect resp.

Definition AuthClient_revoke_api_key (parent : GaiaClient) (key_id : string) : Read unit :=
  let client := _get_gen_client parent in
  resp ← revoke_api_key_sync_detailed send client key_id;
  check_status resp.

(** The endpoint functions are called with their default parameters. *)
Definition ResearchClient_list_patterns (parent : GaiaClient) : Read (list PatternFindingResponse) :=
  let client := _get_gen_client parent in
  resp ← list_public_research_patterns_sync_detailed send client UNSET UNSET UNSET UNSET
    (Val ListPublicResearchPatternsApiV1ResearchPatternsGetSortBy_CONFIDENCE)
    (Val ListPublicResearchPatternsApiV1ResearchPatternsGetOrder_DESC) (Val (JInt 50)) (Val (JInt 0));
  _ ← check_status resp; expect resp.

Definition ResearchClient_list_hazard_events (parent : GaiaClient) : Read (list HazardEventResponse) :=
  let client := _get_gen_client parent in
  resp ← list_public_hazard_events_sync_detailed send client UNSET UNSET (Val (JInt 50)) (Val (JInt 0));
  _ ← check_status resp; expect resp.

Definition ResearchClient_list_investigations (parent : GaiaClient) : Read (list ResearchInvestigationResponse) :=
  let client := _get_gen_client parent in
  resp ← list_public_research_investigations_sync_detailed send client UNSET UNSET (Val (JInt 50)) (Val (JInt 0));
  _ ← check_status resp; expect resp.

(** [validate_server]: the report and the warnings. *)
Definition server_version (resp : Response LivenessResponse) : Read string :=
  match r_parsed resp with
  | PBody live => Ok (str (LivenessResponse_app_version live))
  | _ => Raise (IncompatibleServerError "Unable to determine GaiaOS server version")
  end.

Definition version_report (server_ver : string) : dict :=
  [("status", JStr "ok"); ("server_version", JStr server_ver); ("sdk_version", JStr sdk_version)].

Definition validate_server (self : GaiaClient) : Read (dict * list string) :=
  let gen_client := _get_gen_client self in
  resp ← liveness_sync_detailed send gen_client;
  _ ← check_status resp;
  server_ver ← server_version resp;
  warnings ← _check_version_compatibility Version server_ver;
  Ok (version_report server_ver, warnings).

(** The asynchronous client makes the same calls through the asynchronous transport. *)

Definition AsyncInvestigationsClient_create (parent : GaiaClient) (query : string) (consent_public_research : bool)
    : Read InvestigationCreateResponse :=
  let client := _get_gen_client parent in
  body ← InvestigationCreateRequest_init
    [("query", JStr query); ("consent_public_research", JBool consent_public_research)];
  resp ← create_investigation_asyncio_detailed asend client body;
  _ ← check_status resp; expect resp.

Definition AsyncInvestigationsClient_get (parent : GaiaClient) (investigation_id : string) : Read InvestigationStatusResponse :=
  let client := _get_gen_client parent in
  resp ← get_investigation_asyncio_detailed asend client investigation_id;
  _ ← check_status resp; expect resp.

Definition AsyncInvestigationsClient_get_trace (parent : GaiaClient) (investigation_id : string) : Read InvestigationTraceResponse :=
  let client := _get_gen_client parent in
  resp ← get_investigation_trace_asyncio_detailed asend client investigation_id;
  _ ← check_status resp; expect resp.

Definition AsyncInvestigationsClient_stream (parent : GaiaClient) (investigation_id : string)
    : list StreamEvent * result pyexn unit :=
  astream_investigation_events loads aconnect (stream_url parent investigation_id) (_get_headers parent).

Definition AsyncAuthClient_login (parent : GaiaClient) (username password : string) : Read TokenResponse :=
  let client := _get_gen_client parent in
  body ← UserLoginRequest_init [("username", JStr username); ("password", JStr password)];
  resp ← login_asyncio_detailed asend client body;
  _ ← check_status resp; expect resp.

Definition AsyncAuthClient_register (parent : GaiaClient) (email password : string) (full_name : option string) : Read UserResponse :=
  let client := _get_gen_client parent in
  body ← UserRegisterRequest_init
    [("email", JStr email); ("password", JStr password); ("full_name", match full_name with Some n => JStr n | None => JNull end)];
  resp ← register_asyncio_detailed asend client body;
  _ ← check_status resp; expect resp.

Definition AsyncAuthClient_create_api_key (parent : GaiaClient) (name : string) (expires_in_days : option Z)
    : Read ApiKeyCreatedResponse :=
  let client := _get_gen_client parent in
  body ← CreateApiKeyRequest_init
    [("name", JStr name); ("expires_in_days", match expires_in_days with Some n => JInt n | None => JNull end)];
  resp ← create_api_key_asyncio_detailed asend client body;
  _ ← check_status resp; expect resp.

Definition AsyncAuthClient_list_api_keys (parent : GaiaClient) : Read (list ApiKeyResponse) :=
  let client := _get_gen_client parent in
  resp ← list_api_keys_asyncio_detailed asend client;
  _ ← check_status resp; expect resp.

Definition AsyncAuthClient_revoke_api_key (parent : GaiaClient) (key_id : string) : Read unit :=
  let client := _get_gen_client parent in
  resp ← revoke_api_key_asyncio_detailed asend client key_id;
  check_status resp.

Definition AsyncResearchClient_list_patterns (parent : GaiaClient) : Read (list PatternFindingResponse) :=
  let client := _get_gen_client parent in
  resp ← list_public_research_patterns_asyncio_detailed asend client UNSET UNSET UNSET UNSET
    (Val ListPublicResearchPatternsApiV1ResearchPatternsGetSortBy_CONFIDENCE)
    (Val ListPublicResearchPatternsApiV1ResearchPatternsGetOrder_DESC) (Val (JInt 50)) (Val (JInt 0));
  _ ← check_status resp; expect resp.

Definition AsyncResearchClient_list_hazard_events (parent : GaiaClient) : Read (list HazardEventResponse) :=
  let client := _get_gen_client parent in
  resp ← list_public_hazard_events_asyncio_detailed asend client UNSET UNSET (Val (JInt 50)) (Val (JInt 0));
  _ ← check_status resp; expect resp.

Definition AsyncResearchClient_list_investigations (parent : GaiaClient) : Read (list ResearchInvestigationResponse) :=
  let client := _get_gen_client parent in
  resp ← list_public_research_investigations_asyncio_detailed asend client UNSET UNSET (Val (JInt 50)) (Val (JInt 0));
  _ ← check_status resp; expect resp.

Definition async_validate_server (self : GaiaClient) : Read (dict * list string) :=
  let gen_client := _get_gen_client self in
  resp ← liveness_asyncio_detailed asend gen_client;
  _ ← check_status resp;
  server_ver ← server_version resp;
  warnings ← _check_version_compatibility Version server_ver;
  Ok (version_report server_ver, warnings).
End calls.
End client.

(** ** Lemmas *)

(** The class of exception for a status code. *)
Definition error_class (status_code : Z) (headers : option (list (string * string))) : option api_class :=
  if status_code <? 400 then None
  else Some (if status_code =? 401 then AuthenticationError
             else if status_code =? 403 then PermissionDeniedError
             else if status_code =? 404 then NotFoundError
             else if status_code =? 429 then RateLimitError (retry_after headers)
             else if 500 <=? status_code then ServerError else GaiaAPIError).

(** The content passed by every caller is bytes: the body never contributes. *)
Lemma check_status_eq {A} str (resp : Response A) :
  check_status str resp =
  match error_class (r_status_code resp) (Some (r_headers resp)) with
  | None => Ok tt
  | Some c => Raise (ApiError c (r_status_code resp)
                ("Request failed with status code " +:+ str_Z (r_status_code resp)) JNull JNull)
  end.
Proof.
  unfold check_status, raise_for_status, error_class, error_parts. destruct (r_status_code resp <? 400); [done|].
  by repeat case_match.
Qed.

Lemma check_status_ok {A} str (resp : Response A) u : check_status str resp = Ok u <-> r_status_code resp < 400.
Proof.
  rewrite check_status_eq. unfold error_class. destruct u, (Z.ltb_spec (r_status_code resp) 400); [done|]. split; [done | lia].
Qed.

Lemma HTTPStatus_ok code c : HTTPStatus code = Ok c <-> c = code /\ existsb (Z.eqb code) http_statuses = true.
Proof. unfold HTTPStatus. case_match; split; [intros [= ->]; done | intros [-> _]; done | done | by intros [_ ?]]. Qed.

Lemma build_response_ok {A} (parse : http_response -> Read (answer A)) r resp :
  build_response parse r = Ok resp <->
  existsb (Z.eqb (hr_status_code r)) http_statuses = true /\
  exists a, parse r = Ok a /\
    resp = {| r_status_code := hr_status_code r; r_content := hr_content r; r_headers := hr_headers r; r_parsed := a |}.
Proof.
  unfold build_response. rewrite result_bind_ok. setoid_rewrite HTTPStatus_ok. setoid_rewrite result_bind_ok. split.
  - intros (? & [-> Hs] & a & Ha & [= <-]). eauto.
  - intros (Hs & a & Ha & ->). eauto 7.
Qed.

Lemma expect_ok {A} (resp : Response A) a : expect resp = Ok a <-> r_parsed resp = PBody a.
Proof. unfold expect. split; [by case_match; intros [= ->] | by intros ->]. Qed.

Lemma py_ok {A} (r : result pyexn A) a : py r = Ok a <-> r = Ok a.
Proof. destruct r; cbn; split; congruence. Qed.

Lemma response_json_ok r j : response_json r = Ok j <-> hr_content r = Json j.
Proof. unfold response_json, json_loads. destruct (hr_content r); split; congruence. Qed.

(** The generated client of a call is new, so its [httpx] client is built from its
    own settings, for blocking and asynchronous calls alike. *)
Definition wire (self : gen_client) : httpx_client := new_httpx self (auth_headers self).

Lemma new_client_wire self : gc_client self = None -> gc_async_client self = None ->
  (get_httpx_client self).1 = wire self /\ (get_async_httpx_client self).1 = wire self.
Proof. intros H1 H2. unfold get_httpx_client, get_async_httpx_client. by rewrite H1, H2. Qed.

Lemma gen_client_new v self : gc_client (_get_gen_client v self) = None /\ gc_async_client (_get_gen_client v self) = None /\
  raise_on_unexpected_status (_get_gen_client v self) = false.
Proof. unfold _get_gen_client. by case_match. Qed.

Lemma request_eq v self (send : httpx_client -> kwargs -> result pyexn http_response) k :
  request send (_get_gen_client v self) k = py (send (wire (_get_gen_client v self)) k).
Proof. destruct (gen_client_new v self) as (H1 & H2 & _). unfold request. by rewrite (proj1 (new_client_wire _ H1 H2)). Qed.

Lemma arequest_eq v self (send : httpx_client -> kwargs -> result pyexn http_response) k :
  arequest send (_get_gen_client v self) k = py (send (wire (_get_gen_client v self)) k).
Proof. destruct (gen_client_new v self) as (H1 & H2 & _). unfold arequest. by rewrite (proj2 (new_client_wire _ H1 H2)). Qed.

Lemma unexpected_eq v self {A} r : unexpected (A := A) (_get_gen_client v self) r = Ok PNone.
Proof. destruct (gen_client_new v self) as (_ & _ & H). unfold unexpected. by rewrite H. Qed.

(** A call returns [a] exactly when the answer has a known status below 400 and
    its interpretation is the body [a]. *)
Lemma call_ok {A} v str self (send : httpx_client -> kwargs -> result pyexn http_response) k
    (parse : gen_client -> http_response -> Read (answer A)) a :
  (resp ← (response ← request send (_get_gen_client v self) k; build_response (parse (_get_gen_client v self)) response);
   _ ← check_status str resp; expect resp) = Ok a <->
  exists r, send (wire (_get_gen_client v self)) k = Ok r /\
    existsb (Z.eqb (hr_status_code r)) http_statuses = true /\ hr_status_code r < 400 /\
    parse (_get_gen_client v self) r = Ok (PBody a).
Proof.
  rewrite request_eq, result_bind_ok. setoid_rewrite result_bind_ok. setoid_rewrite py_ok. setoid_rewrite build_response_ok.
  split.
  - intros (resp & (r & Hr & Hs & p & Hp & ->) & u & Hu%check_status_ok & He%expect_ok). cbn in Hu, He. subst p. eauto.
  - intros (r & Hr & Hs & Hlt & Hp). eexists. split; [by eauto 6|]. exists tt. split; [by apply check_status_ok | by apply expect_ok].
Qed.

(** An answer of at least 400 whose documented body can be read raises the
    exception of its class. *)
Lemma call_error {A} v str self (send : httpx_client -> kwargs -> result pyexn http_response) k
    (parse : gen_client -> http_response -> Read (answer A)) r p c :
  send (wire (_get_gen_client v self)) k = Ok r -> existsb (Z.eqb (hr_status_code r)) http_statuses = true ->
  error_class (hr_status_code r) (Some (hr_headers r)) = Some c -> parse (_get_gen_client v self) r = Ok p ->
  (resp ← (response ← request send (_get_gen_client v self) k; build_response (parse (_get_gen_client v self)) response);
   _ ← check_status str resp; expect resp) =
  Raise (ApiError c (hr_status_code r) ("Request failed with status code " +:+ str_Z (hr_status_code r)) JNull JNull).
Proof.
  intros Hr Hs Hc Hp. rewrite request_eq, Hr. cbn [py]. rewrite !bind_Ok.
  rewrite (proj2 (build_response_ok _ _ _) (conj Hs (ex_intro _ p (conj Hp eq_refl)))), bind_Ok, check_status_eq.
  cbn [r_status_code r_headers]. by rewrite Hc.
Qed.

(** A body that cannot be read as documented replaces the exception of the status. *)
Lemma call_masked {A} v str self (send : httpx_client -> kwargs -> result pyexn http_response) k
    (parse : gen_client -> http_response -> Read (answer A)) r e :
  send (wire (_get_gen_client v self)) k = Ok r -> existsb (Z.eqb (hr_status_code r)) http_statuses = true ->
  parse (_get_gen_client v self) r = Raise e ->
  (resp ← (response ← request send (_get_gen_client v self) k; build_response (parse (_get_gen_client v self)) response);
   _ ← check_status str resp; expect resp) = Raise e.
Proof.
  intros Hr Hs Hp. rewrite request_eq, Hr. cbn [py]. rewrite !bind_Ok. unfold build_response, HTTPStatus. by rewrite Hs, bind_Ok, Hp.
Qed.

(** ** Theorems *)

(** [client.investigations.get(id)] returns a value exactly when the
    server answers the request [GET base_url/api/v1/investigations/<quoted id>] with
    200 and a JSON document that [InvestigationStatusResponse.from_dict] accepts; the
    value is what it reads. *)
Theorem get_returns_iff {DT : DateTimes} (v : string) (str : json -> string)
    (send : httpx_client -> kwargs -> result pyexn http_response) (c : GaiaClient) (id : string)
    (m : InvestigationStatusResponse) :
  InvestigationsClient_get v str send c id = Ok m <->
  exists r j, send (wire (_get_gen_client v c)) (get_investigation_get_kwargs id) = Ok r /\
    hr_status_code r = 200 /\ hr_content r = Json j /\ from_dict j = Ok m.
Proof.
  unfold InvestigationsClient_get, get_investigation_sync_detailed. rewrite call_ok. split.
  - intros (r & Hr & _ & _ & Hp). unfold get_investigation_parse_response in Hp. rewrite unexpected_eq in Hp.
    destruct (Z.eqb_spec (hr_status_code r) 200) as [E|_].
    + apply result_bind_ok in Hp as (j & Hj%response_json_ok & Hm). apply result_bind_ok in Hm as (? & Hm & [= ->]). eauto 7.
    + exfalso. by repeat case_match; repeat (apply result_bind_ok in Hp as (? & ? & Hp)); simplify_eq.
  - intros (r & j & Hr & Hs & Hc & Hm). exists r. rewrite Hs. split; [done|]. split; [done|]. split; [lia|].
    unfold get_investigation_parse_response. rewrite Hs, (proj2 (response_json_ok _ _) Hc). cbn [Z.eqb Pos.eqb].
    by rewrite bind_Ok, Hm, bind_Ok.
Qed.

(** C35. An execution trace read from the server keeps what it was made of: written
    back and read again it is the same object, nested nodes, edges, summary and
    metadata included, and every entry of the payload that the class does not
    declare is still there. *)
Theorem trace_payload_kept {DT : DateTimes} (d : dict) (t : InvestigationTraceResponse) :
  json_ok (JObj d) -> InvestigationTraceResponse_from_dict (JObj d) = Ok t ->
  InvestigationTraceResponse_from_dict (JObj (InvestigationTraceResponse_to_dict t)) = Ok t /\
  forall k, ~ k ∈ ["edges"; "investigation_id"; "metadata"; "nodes"; "summary"; "schema_version"] ->
    assoc k (InvestigationTraceResponse_to_dict t) = assoc k d.
Proof.
  intros Hd Ht. pose proof (InvestigationTraceResponse_sound _ _ Hd Ht) as Hok.
  split; [by apply InvestigationTraceResponse_roundtrip|]. intros k Hk.
  destruct Hok as (F & _). unfold InvestigationTraceResponse_to_dict.
  rewrite fields_shape by first [by apply NoDup_keys | exact F].
  rewrite assoc_app_fresh.
  2: { apply undeclared_key. intros Hin. apply Hk. clear - Hin.
       destruct (InvestigationTraceResponse_schema_version t); cbn in Hin; set_solver. }
  unfold InvestigationTraceResponse_from_dict in Ht. rewrite dict_of_obj, bind_Ok in Ht. cbn beta iota in Ht.
  rewrite !not_elem_of_cons in Hk. destruct Hk as (? & ? & ? & ? & ? & ? & _).
  repeat match type of Ht with
  | (pop _ _ ≫= _) = _ => apply result_bind_ok in Ht as ([? ?] & ? & Ht); cbn beta iota in Ht
  | (_ ≫= _) = _ => apply result_bind_ok in Ht as (? & ? & Ht); cbn beta iota in Ht
  | context [pop_unset ?k ?e] => destruct (pop_unset k e) eqn:?
  end.
  simplify_eq. cbn [InvestigationTraceResponse_additional_properties].
  repeat match goal with
  | E : pop _ _ = Ok (_, ?e) |- assoc k ?e = _ => rewrite (pop_other _ k _ _ _ E) by done; clear E
  | E : pop_unset _ _ = (_, ?e) |- assoc k ?e = _ => rewrite (pop_unset_other _ k _ _ _ E) by done; clear E
  end.
  done.
Qed.

(** [login] and [create_api_key] fail before any request is sent, for
    every server and every argument: they pass a keyword that the request class does
    not have. *)
Theorem login_never_sends {DT : DateTimes} (v : string) (str : json -> string)
    (send : httpx_client -> kwargs -> result pyexn http_response) (c : GaiaClient)
    (username password name : string) (days : option Z) :
  AuthClient_login v str send c username password = Raise (Py TypeError) /\
  AuthClient_create_api_key v str send c name days = Raise (Py TypeError) /\
  AsyncAuthClient_login v str send c username password = Raise (Py TypeError) /\
  AsyncAuthClient_create_api_key v str send c name days = Raise (Py TypeError).
Proof. done. Qed.

(** Registration works: what is sent is what the caller gave. *)
Theorem register_sends {DT : DateTimes} (v : string) (str : json -> string)
    (send : httpx_client -> kwargs -> result pyexn http_response) (c : GaiaClient)
    (email password : string) (full_name : option string) (u : UserResponse) :
  AuthClient_register v str send c email password full_name = Ok u <->
  exists r j, send (wire (_get_gen_client v c))
      {| k_method := "post"; k_url := "/api/v1/auth/register"; k_params := None;
         k_json := Some [("email", JStr email); ("password", JStr password);
                         ("full_name", match full_name with Some n => JStr n | None => JNull end)];
         k_headers := [("Content-Type", "application/json")] |} = Ok r /\
    hr_status_code r = 201 /\ hr_content r = Json j /\ from_dict j = Ok u.
Proof.
  unfold AuthClient_register, register_sync_detailed.
  set (n := match full_name with Some n => JStr n | None => JNull end).
  change (UserRegisterRequest_init _) with (@Ok sdk_error _ (Build_UserRegisterRequest (JStr email) (JStr password) (Val n) [])).
  rewrite bind_Ok, call_ok.
  change (register_get_kwargs _) with
    {| k_method := "post"; k_url := "/api/v1/auth/register"; k_params := None;
       k_json := Some [("email", JStr email); ("password", JStr password); ("full_name", n)];
       k_headers := [("Content-Type", "application/json")] |}.
  split.
  - intros (r & Hr & _ & _ & Hp). unfold register_parse_response in Hp. rewrite unexpected_eq in Hp.
    destruct (Z.eqb_spec (hr_status_code r) 201) as [E|_].
    + apply result_bind_ok in Hp as (j & Hj%response_json_ok & Hm). apply result_bind_ok in Hm as (? & Hm & [= ->]). eauto 7.
    + exfalso. by repeat case_match; simplify_eq.
  - intros (r & j & Hr & Hs & Hc & Hm). exists r. rewrite Hs. split; [done|]. split; [done|]. split; [lia|].
    unfold register_parse_response. rewrite Hs, (proj2 (response_json_ok _ _) Hc). cbn [Z.eqb Pos.eqb].
    by rewrite bind_Ok, Hm, bind_Ok.
Qed.

(** The asynchronous client returns what the blocking one does when the
    transports do. *)
Theorem async_agrees {DT : DateTimes} (v : string) (str : json -> string) (Version : string -> option (Z * Z))
    (send : httpx_client -> kwargs -> result pyexn http_response) (c : GaiaClient)
    (s t : string) (b : bool) (o : option string) :
  AsyncInvestigationsClient_create v str send c s b = InvestigationsClient_create v str send c s b /\
  AsyncInvestigationsClient_get v str send c s = InvestigationsClient_get v str send c s /\
  AsyncInvestigationsClient_get_trace v str send c s = InvestigationsClient_get_trace v str send c s /\
  AsyncAuthClient_register v str send c s t o = AuthClient_register v str send c s t o /\
  AsyncAuthClient_list_api_keys v str send c = AuthClient_list_api_keys v str send c /\
  AsyncAuthClient_revoke_api_key v str send c s = AuthClient_revoke_api_key v str send c s /\
  AsyncResearchClient_list_patterns v str send c = ResearchClient_list_patterns v str send c /\
  AsyncResearchClient_list_hazard_events v str send c = ResearchClient_list_hazard_events v str send c /\
  AsyncResearchClient_list_investigations v str send c = ResearchClient_list_investigations v str send c /\
  async_validate_server v str Version send c = validate_server v str Version send c.
Proof.
  assert (exists g, _get_gen_client v c = g /\ gc_client g = None /\ gc_async_client g = None) as (g & E & H1 & H2).
  { destruct (gen_client_new v c) as (H1 & H2 & _). eauto. }
  destruct g; cbn in H1, H2; subst.
  unfold AsyncInvestigationsClient_create, InvestigationsClient_create, AsyncInvestigationsClient_get, InvestigationsClient_get,
    AsyncInvestigationsClient_get_trace, InvestigationsClient_get_trace, AsyncAuthClient_register, AuthClient_register,
    AsyncAuthClient_list_api_keys, AuthClient_list_api_keys, AsyncAuthClient_revoke_api_key, AuthClient_revoke_api_key,
    AsyncResearchClient_list_patterns, ResearchClient_list_patterns, AsyncResearchClient_list_hazard_events,
    ResearchClient_list_hazard_events, AsyncResearchClient_list_investigations, ResearchClient_list_investigations,
    async_validate_server, validate_server.
  rewrite E. split_conj; reflexivity.
Qed.

(** *** Identifiers in URLs *)

(** Characters that would end the path segment. *)
Definition separates (c : ascii) : bool := Ascii.eqb c "/" || Ascii.eqb c "?" || Ascii.eqb c "#".

(** Any text given as an identifier stays one segment of the path, and
    the server reads the text back from it: no identifier can reach another
    endpoint.  [quote] makes this so for look-ups, traces and revocations. *)
Theorem identifier_is_one_segment (id : string) :
  (exists seg, k_url (get_investigation_get_kwargs id) = "/api/v1/investigations/" +:+ seg /\
     k_url (get_investigation_trace_get_kwargs id) = "/api/v1/investigations/" +:+ seg +:+ "/trace" /\
     k_url (revoke_api_key_get_kwargs id) = "/api/v1/api-keys/" +:+ seg /\
     all_chars (fun c => negb (separates c)) seg = true /\ unquote seg = id).
Proof.
  exists (quote id). split; [done|]. split; [done|]. split; [done|]. split; [|apply unquote_quote].
  eapply all_chars_impl, quote_chars. intros c Hc. unfold separates.
  destruct (Ascii.eqb_spec c "/") as [->|]; [done|]. destruct (Ascii.eqb_spec c "?") as [->|]; [done|].
  by destruct (Ascii.eqb_spec c "#") as [->|].
Qed.

(** The stream's URL is not quoted: an identifier can contain path separators. *)
Example stream_url_unquoted (c : GaiaClient) :
  stream_url c "../admin/metrics?x=" = base_url c +:+ "/api/v1/investigations/" +:+ "../admin/metrics?x=" +:+ "/stream".
Proof. done. Qed.

(** *** Construction *)

(** An argument that is not empty wins over the environment, the environment over
    the default; the base URL never ends in a slash, so that joining it with an
    endpoint's path gives no double slash. *)
Theorem init_settings (environ : string -> option string) (url key tok : option string) (t n : Z) :
  let c := GaiaClient_init environ url key tok t n in
  (forall s, base_url c <> s +:+ "/") /\
  (exists slashes, default DEFAULT_BASE_URL (or_else url (or_else (environ "GAIAOS_API_URL") (Some DEFAULT_BASE_URL)))
     = base_url c +:+ slashes /\ all_chars (char_is "/") slashes = true) /\
  (ostr_truthy key = true -> api_key c = key) /\
  (ostr_truthy key = false -> api_key c = environ "GAIAOS_API_KEY") /\
  (ostr_truthy tok = true -> bearer_token c = tok) /\
  (ostr_truthy tok = false -> bearer_token c = environ "GAIAOS_BEARER_TOKEN").
Proof.
  cbn. split; [|split].
  - intros s E. by apply (rstrip_chars_last (char_is "/")) in E.
  - destruct (rstrip_chars_spec (char_is "/")
      (default DEFAULT_BASE_URL (or_else url (or_else (environ "GAIAOS_API_URL") (Some DEFAULT_BASE_URL)))) ) as (x & Hx & Hs). eauto.
  - unfold or_else. split_conj; by intros ->.
Qed.

(** *** Versions *)

(** A server whose version cannot be parsed is compared by the text before the
    first dot; otherwise only the major versions must agree, and a differing minor
    version warns. *)
Theorem version_accepted_iff (v : string) (Version : string -> option (Z * Z)) (s : string) :
  (exists ws, _check_version_compatibility v Version s = Ok ws) <->
  match Version s, Version v with
  | Some (a, _), Some (b, _) => a = b
  | _, _ => before_char "." s = before_char "." v
  end.
Proof.
  unfold _check_version_compatibility.
  destruct (Version s) as [[a x]|], (Version v) as [[b y]|].
  1: destruct (Z.eqb_spec a b), (Z.eqb_spec x y); cbn; naive_solver.
  all: destruct (String.eqb_spec (before_char "." s) (before_char "." v)); cbn; naive_solver.
Qed.

(** *** Events *)

(** An event's data is the JSON object the server sent, whatever the text:
    other JSON is wrapped, text that is not JSON is kept. *)
Theorem sse_data_cases (loads : string -> option json) (raw : string) :
  _parse_sse_data loads raw = [] /\ raw = "" \/
  (exists d, loads raw = Some (JObj d) /\ _parse_sse_data loads raw = d) \/
  (exists j, loads raw = Some j /\ _parse_sse_data loads raw = [("content", j)]) \/
  loads raw = None /\ _parse_sse_data loads raw = [("raw", JStr raw)].
Proof.
  unfold _parse_sse_data, str_truthy. destruct (String.eqb_spec raw ""); cbn; [by left|]. right.
  destruct (loads raw) as [[]|]; eauto 8.
Qed.
