(* ===== verification/SdkServer.v ===== *)
(** * SdkServer: the client library against the server

    The requests of [Sdk] meet the modelled server: the authentication chain of
    [Gateway]/[Auth] on the headers a client sends, and the answers of the
    investigation routes ([app/api/v1/investigations.py], [auth/dependencies.py])
    as the client reads them.  FastAPI renders a model field by field, an
    [HTTPException] as a document with the key [detail] alone, and an unhandled
    exception as plain text with status 500; pydantic's text of an instant is an
    argument that [datetime.fromisoformat] reads. *)

From S2P Require Import Prelude PyStr PyFloat Settings Effects Database AgentIO Gateway Auth Investigations.
From S2P Require Import SdkTypes SdkModels SdkAdminModels SdkApi Sdk.
From Stdlib Require Import Ascii.

(** ** Answers of the investigation routes *)

Definition jopt_str (o : option string) : json := match o with Some s => JStr s | None => JNull end.

Section rendering.
Variable time_text : Z -> string.      (* the JSON text of an aware UTC instant *)

(** [InvestigationStatusResponse(...)] as JSON *)
Definition status_json (i : Investigation) : json :=
  JObj [("investigation_id", JStr (i_id i)); ("status", JStr (i_status i)); ("complexity_tier", jopt_str (i_complexity_tier i));
        ("answer", jopt_str (i_answer i)); ("confidence", match i_confidence i with Some x => JFloat x | None => JNull end);
        ("evidence_gaps", JList []); ("execution_trace", default JNull (i_execution_trace i));
        ("created_at", JStr (time_text (i_created_at i)));
        ("completed_at", jopt_str (time_text <$> i_completed_at i))].

Definition answer_of (status_code : Z) (j : json) : http_response :=
  {| hr_status_code := status_code; hr_content := Json j; hr_headers := [("content-type", "application/json")] |}.

(** [JSONResponse(404, {"detail": ..., "error_code": ...})] *)
Definition error_json (detail code : string) : json := JObj [("detail", JStr detail); ("error_code", JStr code)].

(** [HTTPException(403, detail=...)] of [check_owner_or_role] *)
Definition forbidden_json : json := JObj [("detail", JStr "You do not have permission to access this resource.")].

Definition server_error : http_response :=
  {| hr_status_code := 500; hr_content := NotJson "Internal Server Error"; hr_headers := [("content-type", "text/plain")] |}.

(** The answer to [GET /api/v1/investigations/{id}].  The id is in its canonical
    spelling: the conversion of other spellings of a UUID by the route is not
    modelled, nor is the validation of the stored [execution_trace] by the response
    model, which is a dict or null. *)
Definition render_status (id : string) (r : result pyexn Investigations.response) : http_response :=
  match r with
  | Ok (StatusBody i) => answer_of 200 (status_json i)
  | Ok (Investigations.ErrorResponse 404 code) => answer_of 404 (error_json ("Investigation " +:+ id +:+ " not found.") code)
  | Raise (HTTPException 403 _) => answer_of 403 forbidden_json
  | _ => server_error
  end.
End rendering.

(** ** The headers a server sees *)

Definition lower_names (h : list (string * string)) : list (string * string) := map (fun kv => (lower kv.1, kv.2)) h.

Definition as_request (hx : httpx_client) (k : kwargs) : Gateway.Request :=
  {| Gateway.method := k_method k; Gateway.path := k_url k; Gateway.headers := lower_names (hx_headers hx ++ k_headers k);
     client_host := None; req_state := empty_state |}.

(** ** Lemmas *)

(** Reading the row that the server rendered. *)
Section reading.
Context {DT : DateTimes}.
Variable time_text : Z -> string.
Variable at_instant : Z -> datetime.
Hypothesis time_read : forall t, dt_fromisoformat (time_text t) = Some (at_instant t).

(** The stored trace as the client holds it: an object of its own class, or the value as it came. *)
Definition trace_value (t : option json) : parsed InvestigationStatusResponseExecutionTraceType0 :=
  match t with
  | Some (JObj d) => Parsed {| InvestigationStatusResponseExecutionTraceType0_additional_properties := d |}
  | Some j => Raw j
  | None => Raw JNull
  end.

Definition row_value (i : Investigation) (u : SdkTypes.uuid) : InvestigationStatusResponse :=
  {| InvestigationStatusResponse_answer := jopt_str (i_answer i);
     InvestigationStatusResponse_completed_at :=
       match i_completed_at i with Some t => Parsed (at_instant t) | None => Raw JNull end;
     InvestigationStatusResponse_complexity_tier := jopt_str (i_complexity_tier i);
     InvestigationStatusResponse_confidence := match i_confidence i with Some x => JFloat x | None => JNull end;
     InvestigationStatusResponse_created_at := at_instant (i_created_at i);
     InvestigationStatusResponse_execution_trace := trace_value (i_execution_trace i);
     InvestigationStatusResponse_investigation_id := u;
     InvestigationStatusResponse_status := JStr (i_status i);
     InvestigationStatusResponse_evidence_gaps := Val (JList []);
     InvestigationStatusResponse_additional_properties := [] |}.

Lemma status_json_read i u : UUID (i_id i) = Some u -> from_dict (status_json time_text i) = Ok (row_value i u).
Proof.
  intros Hu. change from_dict with InvestigationStatusResponse_from_dict.
  unfold InvestigationStatusResponse_from_dict, status_json, row_value, dict_of, pop, pop_unset. cbn -[UUID from_dict].
  unfold tolerant, if_str, if_dict, read_datetime, read_uuid.
  destruct (i_completed_at i) as [t|]; cbn -[UUID from_dict]; rewrite ?time_read; cbn -[UUID from_dict];
    rewrite Hu, ?time_read; by destruct (i_execution_trace i) as [[]|].
Qed.
End reading.

(** ** Theorems *)

(** C31. What [client.investigations.get(id)] yields against the server's
    tables: the stored row, field by field, for a reader who may see it; a
    [NotFoundError] for an unknown identifier; and a [KeyError], not a
    [PermissionDeniedError], for an investigation of someone else, because the
    server's refusal has no [error_code] and the client insists on one. *)
Theorem get_served {DT : DateTimes} (time_text : Z -> string) (at_instant : Z -> datetime) (v : string)
    (str : json -> string) (send : httpx_client -> kwargs -> result pyexn http_response) (c : GaiaClient)
    (id : string) (u : SdkTypes.uuid) (user : option User) (w : world) :
  (forall t, dt_fromisoformat (time_text t) = Some (at_instant t)) ->
  inv w -> db w = [] -> UUID id = Some u ->
  send (wire (_get_gen_client v c)) (get_investigation_get_kwargs id)
    = Ok (render_status time_text id (get_investigation id user w).1) ->
  InvestigationsClient_get v str send c id =
    match row_with id w with
    | None => Raise (ApiError NotFoundError 404 ("Request failed with status code " +:+ str_Z 404) JNull JNull)
    | Some i => if may_read user i then Ok (row_value at_instant i u) else Raise (Py KeyError)
    end.
Proof.
  intros Ht Hw Hs Hu Hsend. unfold get_investigation in Hsend. rewrite readable_run in Hsend by done.
  destruct (row_with id w) as [i|] eqn:Ei.
  - destruct (may_read user i); cbn [fst render_status] in Hsend.
    + apply get_returns_iff. exists (answer_of 200 (status_json time_text i)), (status_json time_text i).
      split; [exact Hsend|]. split; [done|]. split; [done|].
      apply status_json_read; [done|]. by rewrite (proj1 (row_with_id _ _ _ Ei)).
    + unfold InvestigationsClient_get, get_investigation_sync_detailed. by apply (call_masked _ _ _ _ _ _ _ _ Hsend).
  - cbn [fst render_status] in Hsend. unfold InvestigationsClient_get, get_investigation_sync_detailed.
    by eapply (call_error _ _ _ _ _ _ _ _ NotFoundError Hsend).
Qed.

(** *** Credentials *)

(** The headers of a client with an API key, as the server sees them. *)
Lemma api_key_header v c raw k : api_key c = Some raw -> str_truthy raw = true ->
  truthy_header (as_request (wire (_get_gen_client v c)) k) "X-API-Key" = Some raw.
Proof.
  intros Hk Hr. unfold truthy_header, header, as_request, wire, _get_gen_client.
  assert (exists ch t, raw = String ch t) as (ch & t & ->) by (destruct raw; [done|eauto]).
  rewrite Hk. cbn [or_else ostr_truthy]. unfold or_else. destruct (ostr_truthy (bearer_token c)) eqn:Eb.
  - destruct (bearer_token c) as [b|] eqn:Hb; [|done]. cbn in Eb. cbn [default]. unfold str_truthy in *.
    destruct (String.eqb_spec b ""); [done|]. cbn. unfold auth_headers, _get_headers, set_if_truthy. cbn.
    rewrite Hk, Hb. cbn. unfold str_truthy. by destruct (String.eqb_spec b "").
  - cbn. unfold auth_headers, _get_headers. cbn. rewrite Hk. destruct (bearer_token c) as [b|]; [|done].
    cbn in Eb |- *. unfold str_truthy in *. by destruct (String.eqb_spec b "").
Qed.

(** A client that holds a valid API key acts as the owner of the key,
    whatever bearer token it also has, although a client without a bearer token
    sends the key as one too: the server settles on the key first. *)
Theorem api_key_client_authenticated `{Jwt} (sha256 : string -> string) (settings : AuthSettings)
    (parse_uuid : string -> option AgentIO.uuid) (prom : option string) (now : Z) (v : string) (c : GaiaClient)
    (k : kwargs) (d : auth_db) (raw : string) (key : ApiKey) (u : User) :
  api_key c = Some raw -> str_truthy raw = true -> db_ready d = true ->
  api_keys d !! sha256 raw = Some key -> ak_is_revoked key = false ->
  users d !! ak_owner_id key = Some u -> u_is_active u = true -> u_deleted_at u = None ->
  exists req' d',
    run_auth_chain [ApiKeyAuthProvider sha256 now; JWTAuthProvider settings parse_uuid prom now]
      (as_request (wire (_get_gen_client v c)) k) d = (Ok req', d') /\
    st_user (req_state req') = Some u /\ st_auth_type (req_state req') = Some "api_key".
Proof.
  intros Hk Hr Hdb Hkey Hrev Hu Ha Hd. cbn [run_auth_chain]. rewrite M_bind_run.
  change (authenticate (ApiKeyAuthProvider sha256 now)) with (api_key_authenticate sha256 now).
  unfold api_key_authenticate at 1, hash_api_key. rewrite (api_key_header v c raw k Hk Hr), Hdb. cbn [negb].
  rewrite Hkey, Hrev, Hu, Ha, Hd. cbn. eauto.
Qed.

(** A client without credentials sends none. *)
Theorem anonymous_client (v : string) (c : GaiaClient) (k : kwargs) :
  ostr_truthy (api_key c) = false -> ostr_truthy (bearer_token c) = false ->
  assoc "authorization" (lower_names (k_headers k)) = None -> assoc "x-api-key" (lower_names (k_headers k)) = None ->
  truthy_header (as_request (wire (_get_gen_client v c)) k) "X-API-Key" = None /\
  truthy_header (as_request (wire (_get_gen_client v c)) k) "Authorization" = None.
Proof.
  intros Hk Hb H1 H2. unfold truthy_header, header, as_request, wire, _get_gen_client.
  unfold or_else. rewrite Hk, Hb. cbn [default str_truthy String.eqb negb Client]. unfold auth_headers, _get_headers. cbn [gc_auth Client gc_headers].
  assert (forall n f o h, ostr_truthy o = false -> set_if_truthy n f o h = h) as Hs.
  { intros n f [s|] h Ho; [|done]. cbn in Ho |- *. by rewrite Ho. }
  rewrite !Hs by done. cbn [headers hx_headers new_httpx app].
  change (lower_names _) with (("user-agent", "gaiaos-sdk-python/" +:+ v) :: lower_names (k_headers k)).
  change (lower "X-API-Key") with "x-api-key". change (lower "Authorization") with "authorization".
  cbn [assoc String.eqb Ascii.eqb Bool.eqb]. by rewrite H1, H2.
Qed.

(** ** Witnesses *)

Module SdkWitness.
#[local] Existing Instance BitIso.bit_iso.
#[local] Instance times : DateTimes := utc_times.
Definition at_z : Z -> @datetime times := fun t => t.

Definition plain (j : json) : string := match j with JStr s => s | _ => "?" end.
Definition no_env (_ : string) : option string := None.
Definition client : GaiaClient := GaiaClient_init no_env (Some "http://h/") (Some "secret") None 60 2.

Definition the_id : string := "00000000-0000-4000-8000-00000000002a".
Definition row : Investigation :=
  {| i_id := the_id; i_user_id := Some "u9"; i_query_text := "q"; i_complexity_tier := Some "simple";
     i_status := "complete"; i_answer := Some "a"; i_confidence := None; i_execution_trace := Some (JObj [("k", JInt 1)]);
     i_consent_public_research := false; i_created_at := 5; i_completed_at := Some 7 |}.
Definition tables : world := World [row] [] [] [] 0 0 [].
Definition stranger : User :=
  {| u_id := "u1"; u_role := "user"; u_is_active := true; u_is_verified := true; u_deleted_at := None |}.
Definition answers (user : option User) (_ : httpx_client) (_ : kwargs) : result pyexn http_response :=
  Ok (render_status isoformat the_id (get_investigation the_id user tables).1).

(** The row comes back to an anonymous reader, a stranger gets a [KeyError]. *)
Lemma get_served_witness :
  InvestigationsClient_get "1.0" plain (answers None) client the_id = Ok (row_value at_z row 0x4000800000000000002a) /\
  InvestigationsClient_get "1.0" plain (answers (Some stranger)) client the_id = Raise (Py KeyError).
Proof.
  assert (UUID the_id = Some 0x4000800000000000002a) as Hu by (vm_compute; reflexivity).
  assert (row_with the_id tables = Some row) as Hr by reflexivity.
  split.
  - rewrite (get_served (DT := times) isoformat at_z "1.0" plain (answers None) client the_id 0x4000800000000000002a None tables
      iso_roundtrip (NoDup_singleton _) eq_refl Hu eq_refl). by rewrite Hr.
  - rewrite (get_served (DT := times) isoformat at_z "1.0" plain (answers (Some stranger)) client the_id 0x4000800000000000002a
      (Some stranger) tables iso_roundtrip (NoDup_singleton _) eq_refl Hu eq_refl). by rewrite Hr.
Defined.

Definition trace_doc : dict :=
  [("nodes", JList [JObj [("id", JStr "n"); ("label", JStr "N"); ("type", JStr "agent"); ("x", JInt 1)]]);
   ("extra", JInt 3); ("edges", JList []); ("investigation_id", JStr the_id);
   ("metadata", JObj [("created_at", JStr (isoformat 5)); ("investigation_id", JStr the_id); ("status", JStr "complete")]);
   ("summary", JObj [])].

Lemma trace_payload_kept_witness : exists t,
  InvestigationTraceResponse_from_dict (JObj trace_doc) = Ok t /\
  InvestigationTraceResponse_from_dict (JObj (InvestigationTraceResponse_to_dict t)) = Ok t /\
  assoc "extra" (InvestigationTraceResponse_to_dict t) = Some (JInt 3).
Proof.
  eexists. split; [vm_compute; reflexivity|].
  match goal with |- _ (JObj (_ ?t)) = _ /\ _ =>
    destruct (trace_payload_kept trace_doc t) as [H1 H2] end.
  - cbv [json_ok trace_doc]. repeat split; apply NoDup_keys; reflexivity.
  - vm_compute. reflexivity.
  - split; [exact H1|]. transitivity (assoc "extra" trace_doc); [|reflexivity]. apply (H2 "extra"). by apply absent_key.
Defined.
End SdkWitness.
