(* ===== verification/ApiStability.v ===== *)
(** * ApiStability: the breaking-change detector ([scripts/verify_api_stability.py])

    The script compares the OpenAPI document of a release with the one the
    application generates now and lists the changes that break clients of
    [/api/v1/].  Both documents are JSON values; a document of another shape
    makes the script raise, as here.  [str] of a JSON value, which only words the
    messages, is an argument.  [resolve_schema] updates the [properties] of a
    schema in place when it also has an [allOf]; resolving again gives the same
    value, so the model returns it without the side effect.

    The theorems say when the list is empty: for every operation of the baseline,
    which changes are accepted; and which breaking changes are not looked for. *)

From S2P Require Import Prelude PyFloat PyStr Effects SdkTypes DataSources.
From Stdlib Require Import Ascii.

(** ** Python values *)

Definition attribute_error : pyexn := OtherError "AttributeError".

(** [a == b] *)
Definition num_eq (n : Z) (x : float) : bool :=
  bool_decide (float_floor x = Some n) && bool_decide (float_ceil x = Some n).

Fixpoint jeq (a b : json) {struct a} : bool :=
  match a, b with
  | JNull, JNull => true
  | JBool x, JBool y => Bool.eqb x y
  | JBool x, JInt n | JInt n, JBool x => n =? Z.b2z x
  | JInt n, JInt m => n =? m
  | JInt n, JFloat x | JFloat x, JInt n => num_eq n x
  | JBool b, JFloat x | JFloat x, JBool b => num_eq (Z.b2z b) x
  | JFloat x, JFloat y => feqb x y
  | JStr x, JStr y => String.eqb x y
  | JList xs, JList ys =>
      (fix go xs ys := match xs, ys with
                       | [], [] => true
                       | x :: xs, y :: ys => jeq x y && go xs ys
                       | _, _ => false
                       end) xs ys
  | JObj d, JObj e =>
      Nat.eqb (length d) (length e) &&
      (fix go d := match d with
                   | [] => true
                   | (k, v) :: d => match assoc k e with Some w => jeq v w && go d | None => false end
                   end) d
  | _, _ => false
  end.

Definition hashable (j : json) : bool := match j with JList _ | JObj _ => false | _ => true end.

(** [set(j)], as the list of its elements. *)
Definition set_of (j : json) : result pyexn (list json) :=
  l ← jiter j; if forallb hashable l then Ok l else Raise TypeError.

(** [sorted(s)] of a set; only text can be ordered here. *)
Definition strings_of (l : list json) : option (list string) :=
  mapM (fun j => match j with JStr s => Some s | _ => None end) l.
Definition sorted_required (l : list json) : result pyexn json :=
  match strings_of l, l with
  | Some ss, _ => Ok (JList (map JStr (sorted_set ss)))
  | None, [x] => Ok (JList [x])
  | None, _ => Raise TypeError
  end.

(** [d.items()] *)
Definition items (j : json) : result pyexn dict :=
  match j with JObj d => Ok d | _ => Raise attribute_error end.

(** [d.update(j)] *)
Definition update_from (d : dict) (j : json) : result pyexn dict :=
  match dict_of j with
  | Ok e => Ok (update d e)
  | Raise (Py e) => Raise e
  | Raise _ => Raise TypeError
  end.

(** [s.split("/")] *)
Fixpoint split_slash (s : string) : string * list string :=
  match s with
  | EmptyString => (EmptyString, [])
  | String c s =>
      let '(w, ws) := split_slash s in
      if Ascii.eqb c "/" then (EmptyString, w :: ws) else (String c w, ws)
  end.

(** [s.replace(p, q)] *)
Fixpoint replace_from (p q : string) (skip : nat) (s : string) : string :=
  match s with
  | EmptyString => EmptyString
  | String c s' =>
      match skip with
      | S k => replace_from p q k s'
      | O => if String.prefix p s then q +:+ replace_from p q (String.length p - 1) s'
             else String c (replace_from p q 0 s')
      end
  end.
Definition replace_sub (p q s : string) : string := replace_from p q 0 s.

Definition upper (s : string) : string := str_map upper_char s.

(** ** [resolve_schema] *)

(** The name a [$ref] resolves through, if it has the expected form. *)
Definition ref_name (ref : json) : result pyexn (option string) :=
  match ref with
  | JStr r =>
      match split_slash r with
      | (_, "components" :: "schemas" :: name :: _) => Ok (Some name)
      | _ => Ok None
      end
  | _ => Raise attribute_error
  end.

Record merged := Merged { m_props : dict; m_req : list json; m_type : json }.

(** One element of [allOf], already resolved. *)
Definition merge (m : merged) (sub : json) : result pyexn merged :=
  has_props ← jin "properties" sub;
  props ← (if has_props : bool then p ← jindex sub "properties"; update_from (m_props m) p else Ok (m_props m));
  has_req ← jin "required" sub;
  req ← (if has_req : bool then r ← jindex sub "required";
           match r with JList _ => s ← set_of r; Ok (m_req m ++ s) | _ => Ok (m_req m) end
         else Ok (m_req m));
  has_type ← jin "type" sub;
  ty ← (if has_type : bool then jindex sub "type" else Ok (m_type m));
  Ok (Merged props req ty).

Fixpoint merge_all (resolve : json -> result pyexn json) (subs : list json) (m : merged) : result pyexn merged :=
  match subs with
  | [] => Ok m
  | s :: subs => r ← resolve s; m ← merge m r; merge_all resolve subs m
  end.

(** The flattening of [allOf] into the copy [d] of the schema. *)
Definition flatten (d : dict) (m : merged) : result pyexn json :=
  existing ← items (default (JObj []) (assoc "properties" d));
  let props := update existing (m_props m) in
  req ← set_of (default (JList []) (assoc "required" d));
  sorted ← sorted_required (req ++ m_req m);
  Ok (JObj (assoc_set "required" sorted (assoc_set "properties" (JObj props) (assoc_set "type" (m_type m) d)))).

(** [fuel] counts the levels left before [depth > 20]. *)
Fixpoint resolve (fuel : nat) (components schema : json) : result pyexn json :=
  match fuel with
  | O => Ok schema
  | S fuel =>
      match schema with
      | JObj d =>
          name ← match assoc "$ref" d with Some r => ref_name r | None => Ok None end;
          match (name : option string) with
          | Some n =>
              schemas ← jget components "schemas" (JObj []);
              target ← jget schemas n (JObj []);
              resolve fuel components target
          | None =>
              match assoc "allOf" d with
              | Some (JList subs) =>
                  m ← merge_all (resolve fuel components) subs
                        (Merged [] [] (default (JStr "object") (assoc "type" d)));
                  flatten d m
              | _ => Ok schema
              end
          end
      | _ => Ok (JObj [])
      end
  end.

Definition resolve_schema (schema components : json) : result pyexn json := resolve 21 components schema.

Definition extract_schema_properties (schema components : json) : result pyexn (json * list json) :=
  resolved ← resolve_schema schema components;
  props ← jget resolved "properties" (JObj []);
  required ← jget resolved "required" (JList []);
  req ← set_of required;
  Ok (props, req).

(** ** [check_schema_compatibility] *)

(** The errors of a loop's iterations, in order. *)
Definition collect {A} (f : A -> result pyexn (list string)) (l : list A) : result pyexn (list string) :=
  ls ← result_mapM f l; Ok (List.concat ls).

Definition report (b : bool) (msg : string) : list string := if b then [msg] else [].

Section detector.
Variable str : json -> string.

Definition check_property (base_components curr_components : json) (prefix : string) (base_req curr_req : list json)
    (curr_props : json) (entry : string * json) : result pyexn (list string) :=
  let '(p_name, base_p) := entry in
  kept ← jin p_name curr_props;
  if negb kept then Ok [prefix +:+ ": Removed schema property '" +:+ p_name +:+ "'."]
  else
    curr_p ← jindex curr_props p_name;
    base_r ← resolve_schema base_p base_components;
    curr_r ← resolve_schema curr_p curr_components;
    base_type ← jget base_r "type" JNull;
    curr_type ← jget curr_r "type" JNull;
    let changed := jtruthy base_type && jtruthy curr_type && negb (jeq base_type curr_type) in
    let tightened := contains "request" (lower prefix) &&
      negb (existsb (fun x => jeq_str x p_name) base_req) && existsb (fun x => jeq_str x p_name) curr_req in
    Ok (report changed (prefix +:+ ": Changed type of property '" +:+ p_name +:+ "' from '" +:+ str base_type +:+
                        "' to '" +:+ str curr_type +:+ "'.") ++
        report tightened (prefix +:+ ": Optional property '" +:+ p_name +:+ "' became required in request schema.")).

Definition check_schema_compatibility (base_schema curr_schema base_components curr_components : json)
    (location_prefix : string) : result pyexn (list string) :=
  '(base_props, base_req) ← extract_schema_properties base_schema base_components;
  '(curr_props, curr_req) ← extract_schema_properties curr_schema curr_components;
  entries ← items base_props;
  collect (check_property base_components curr_components location_prefix base_req curr_req curr_props) entries.

(** ** [check_spec_stability] *)

(** The dict of parameters by name and place: the position of the first and the
    value of the last with a key. *)
Definition param_key : Type := json * json.
Definition same_key (a b : param_key) : bool := jeq a.1 b.1 && jeq a.2 b.2.

Fixpoint param_set (k : param_key) (v : json) (l : list (param_key * json)) : list (param_key * json) :=
  match l with
  | [] => [(k, v)]
  | (k', v') :: l => if same_key k k' then (k', v) :: l else (k', v') :: param_set k v l
  end.

Definition param_get (k : param_key) (l : list (param_key * json)) : option json :=
  snd <$> List.find (fun e => same_key k e.1) l.

Fixpoint index_params (ps : list json) (acc : list (param_key * json)) : result pyexn (list (param_key * json)) :=
  match ps with
  | [] => Ok acc
  | JObj d :: ps =>
      let k := (default JNull (assoc "name" d), default JNull (assoc "in" d)) in
      if hashable k.1 && hashable k.2 then index_params ps (param_set k (JObj d) acc) else Raise TypeError
  | _ :: ps => index_params ps acc
  end.

Definition params_of (op : json) : result pyexn (list (param_key * json)) :=
  ps ← jget op "parameters" (JList []); l ← jiter ps; index_params l [].

Definition breaking (op_label : string) : string := "BREAKING CHANGE [" +:+ op_label +:+ "]".

Definition check_param (label : string) (curr_params : list (param_key * json)) (entry : param_key * json)
    : result pyexn (list string) :=
  let '((p_name, p_in), base_p) := entry in
  let where_ := "'" +:+ str p_name +:+ "' in '" +:+ str p_in +:+ "'" in
  match param_get (p_name, p_in) curr_params with
  | None => Ok [breaking label +:+ ": Removed parameter " +:+ where_ +:+ "."]
  | Some curr_p =>
      base_required ← jget base_p "required" (JBool false);
      curr_required ← jget curr_p "required" (JBool false);
      Ok (report (negb (jtruthy base_required) && jtruthy curr_required)
            (breaking label +:+ ": Parameter " +:+ where_ +:+ " changed from optional to required."))
  end.

(** One media type of a request body or of a response. *)
Definition check_media (base_components curr_components curr_content : json) (removed : string -> string)
    (prefix : string -> string) (entry : string * json) : result pyexn (list string) :=
  let '(c_type, base_media) := entry in
  kept ← jin c_type curr_content;
  if negb kept then Ok [removed c_type]
  else
    curr_media ← jindex curr_content c_type;
    base_s ← jget base_media "schema" (JObj []);
    curr_s ← jget curr_media "schema" (JObj []);
    check_schema_compatibility base_s curr_s base_components curr_components (prefix c_type).

Definition check_request_body (base_components curr_components : json) (label : string) (base_op curr_op : json)
    : result pyexn (list string) :=
  base_req_body ← jget base_op "requestBody" (JObj []);
  curr_req_body ← jget curr_op "requestBody" (JObj []);
  if jtruthy base_req_body && negb (jtruthy curr_req_body) then Ok [breaking label +:+ ": Request body removed."]
  else if jtruthy base_req_body && jtruthy curr_req_body then
    base_content ← jget base_req_body "content" (JObj []);
    curr_content ← jget curr_req_body "content" (JObj []);
    entries ← items base_content;
    collect (check_media base_components curr_components curr_content
      (fun c_type => breaking label +:+ ": Request body media type '" +:+ c_type +:+ "' removed.")
      (fun c_type => breaking label +:+ " (Request Body " +:+ c_type +:+ ")")) entries
  else Ok [].

Definition check_response (base_components curr_components : json) (label : string) (curr_responses : json)
    (entry : string * json) : result pyexn (list string) :=
  let '(status_code, base_resp) := entry in
  kept ← jin status_code curr_responses;
  if negb kept then Ok [breaking label +:+ ": Response status code '" +:+ status_code +:+ "' removed."]
  else
    curr_resp ← jindex curr_responses status_code;
    base_content ← jget base_resp "content" (JObj []);
    curr_content ← jget curr_resp "content" (JObj []);
    entries ← items base_content;
    collect (check_media base_components curr_components curr_content
      (fun c_type => breaking label +:+ ": Response content media type '" +:+ c_type +:+ "' for status '" +:+ status_code +:+
                     "' removed.")
      (fun c_type => breaking label +:+ " (Response " +:+ status_code +:+ " " +:+ c_type +:+ ")")) entries.

(** Parameters, request body and responses of an operation that is still there. *)
Definition check_contract (base_components curr_components : json) (label : string) (base_op curr_op : json)
    : result pyexn (list string) :=
  base_params ← params_of base_op;
  curr_params ← params_of curr_op;
  param_errs ← collect (check_param label curr_params) base_params;
  body_errs ← check_request_body base_components curr_components label base_op curr_op;
  base_responses ← jget base_op "responses" (JObj []);
  curr_responses ← jget curr_op "responses" (JObj []);
  entries ← items base_responses;
  resp_errs ← collect (check_response base_components curr_components label curr_responses) entries;
  Ok (param_errs ++ body_errs ++ resp_errs).

Definition v2_path (path : string) : string := replace_sub "/api/v1/" "/api/v2/" path.

Definition has_operation (paths : json) (path method : string) : result pyexn bool :=
  known ← jin path paths;
  if negb known then Ok false
  else item ← jindex paths path; match item with JObj d => Ok (in_dict method d) | _ => Ok false end.

Definition skipped_key (method : string) : bool :=
  existsb (String.eqb method) ["parameters"; "summary"; "description"].

Definition check_operation (base_components curr_components curr_paths : json) (path : string) (entry : string * json)
    : result pyexn (list string) :=
  let '(method, base_op) := entry in
  if skipped_key method then Ok []
  else
    let label := upper method +:+ " " +:+ path in
    v2 ← has_operation curr_paths (v2_path path) method;
    known ← jin path curr_paths;
    if negb known then
      Ok (report (negb v2) (breaking label +:+ ": Endpoint removed without equivalent /v2 endpoint."))
    else
      curr_item ← jindex curr_paths path;
      match match curr_item with JObj d => assoc method d | _ => None end with
      | None => Ok (report (negb v2) (breaking label +:+ ": HTTP method '" +:+ upper method +:+
                                      "' removed without equivalent /v2 operation."))
      | Some curr_op =>
          if v2 : bool then Ok [] else check_contract base_components curr_components label base_op curr_op
      end.

Definition check_path (base_components curr_components curr_paths : json) (entry : string * json)
    : result pyexn (list string) :=
  let '(path, base_item) := entry in
  if negb (startswith "/api/v1/" path) then Ok []
  else ops ← items base_item; collect (check_operation base_components curr_components curr_paths path) ops.

Definition check_spec_stability (baseline_spec current_spec : json) : result pyexn (bool * list string) :=
  base_paths ← jget baseline_spec "paths" (JObj []);
  curr_paths ← jget current_spec "paths" (JObj []);
  base_components ← jget baseline_spec "components" (JObj []);
  curr_components ← jget current_spec "components" (JObj []);
  paths ← items base_paths;
  errors ← collect (check_path base_components curr_components curr_paths) paths;
  Ok (Nat.eqb (length errors) 0, errors).

(** ** The command *)

(** [baseline]: the text of the baseline file, if there is one. *)
Definition verify_api_stability (baseline_path : string) (baseline : option text) (current_spec : json)
    : result pyexn (bool * list string) :=
  match baseline with
  | None => Ok (false, ["Baseline OpenAPI spec not found at " +:+ baseline_path])
  | Some t => spec ← json_loads t; check_spec_stability spec current_spec
  end.

(** The exit status. *)
Definition main (baseline_path : string) (baseline : option text) (current_spec : json) : result pyexn Z :=
  '(is_compatible, _) ← verify_api_stability baseline_path baseline current_spec;
  Ok (if is_compatible : bool then 0 else 1).
End detector.

(** ** What the detector looks for *)

(** [j[k]] where it exists. *)
Definition field (j : json) (k : string) : option json := match j with JObj d => assoc k d | _ => None end.
Definition member (p : string) (l : list json) : bool := existsb (fun x => jeq_str x p) l.

(** Every property of the baseline is still there with a compatible type, and in
    a request none of them became required. *)
Definition property_kept (bc cc : json) (request : bool) (base_req curr_req : list json) (curr_props : json)
    (p : string) (base_p : json) : Prop :=
  exists curr_p br cr bt ct, field curr_props p = Some curr_p /\
    resolve_schema base_p bc = Ok br /\ resolve_schema curr_p cc = Ok cr /\
    jget br "type" JNull = Ok bt /\ jget cr "type" JNull = Ok ct /\
    (jtruthy bt = true -> jtruthy ct = true -> jeq bt ct = true) /\
    (request = true -> member p curr_req = true -> member p base_req = true).

Definition schema_kept (bc cc : json) (request : bool) (base_s curr_s : json) : Prop :=
  exists base_props base_req curr_props curr_req,
    extract_schema_properties base_s bc = Ok (JObj base_props, base_req) /\
    extract_schema_properties curr_s cc = Ok (curr_props, curr_req) /\
    forall p base_p, (p, base_p) ∈ base_props -> property_kept bc cc request base_req curr_req curr_props p base_p.

(** A media type is kept with a compatible schema. *)
Definition media_kept (bc cc curr_content : json) (request : string -> bool) (c_type : string) (base_media : json) : Prop :=
  exists curr_media base_s curr_s, field curr_content c_type = Some curr_media /\
    jget base_media "schema" (JObj []) = Ok base_s /\ jget curr_media "schema" (JObj []) = Ok curr_s /\
    schema_kept bc cc (request c_type) base_s curr_s.

Definition content_kept (bc cc base curr : json) (request : string -> bool) : Prop :=
  exists base_content curr_content, jget base "content" (JObj []) = Ok (JObj base_content) /\
    jget curr "content" (JObj []) = Ok curr_content /\
    forall c_type base_media, (c_type, base_media) ∈ base_content ->
      media_kept bc cc curr_content request c_type base_media.

Definition param_kept (curr_params : list (param_key * json)) (k : param_key) (base_p : json) : Prop :=
  exists curr_p b c, param_get k curr_params = Some curr_p /\
    jget base_p "required" (JBool false) = Ok b /\ jget curr_p "required" (JBool false) = Ok c /\
    (jtruthy c = true -> jtruthy b = true).

Definition body_kept (bc cc : json) (label : string) (base_op curr_op : json) : Prop :=
  exists base_body curr_body, jget base_op "requestBody" (JObj []) = Ok base_body /\
    jget curr_op "requestBody" (JObj []) = Ok curr_body /\
    (jtruthy base_body = true -> jtruthy curr_body = true /\
       content_kept bc cc base_body curr_body
         (fun c_type => contains "request" (lower (breaking label +:+ " (Request Body " +:+ c_type +:+ ")")))).

Definition response_kept (bc cc : json) (label : string) (curr_responses : json) (status_code : string) (base_resp : json) : Prop :=
  exists curr_resp, field curr_responses status_code = Some curr_resp /\
    content_kept bc cc base_resp curr_resp
      (fun c_type => contains "request" (lower (breaking label +:+ " (Response " +:+ status_code +:+ " " +:+ c_type +:+ ")"))).

Definition contract_kept (bc cc : json) (label : string) (base_op curr_op : json) : Prop :=
  exists base_params curr_params base_responses curr_responses,
    params_of base_op = Ok base_params /\ params_of curr_op = Ok curr_params /\
    (forall k base_p, (k, base_p) ∈ base_params -> param_kept curr_params k base_p) /\
    body_kept bc cc label base_op curr_op /\
    jget base_op "responses" (JObj []) = Ok (JObj base_responses) /\
    jget curr_op "responses" (JObj []) = Ok curr_responses /\
    forall status_code base_resp, (status_code, base_resp) ∈ base_responses ->
      response_kept bc cc label curr_responses status_code base_resp.

(** An operation of the baseline: replaced under [/api/v2/], or kept. *)
Definition operation_at (paths : json) (path method : string) : option json :=
  item ← field paths path; field item method.

Definition operation_kept (bc cc curr_paths : json) (path method : string) (base_op : json) : Prop :=
  is_Some (operation_at curr_paths (v2_path path) method) \/
  (exists curr_op, operation_at curr_paths path method = Some curr_op /\
     contract_kept bc cc (upper method +:+ " " +:+ path) base_op curr_op).

(** ** Lemmas *)

Lemma collect_nil {A} (f : A -> result pyexn (list string)) l : collect f l = Ok [] <-> forall x, x ∈ l -> f x = Ok [].
Proof.
  unfold collect. rewrite result_bind_ok. split.
  - intros (ls & H%result_mapM_ok & [= E]). intros x Hx. induction H as [|y o l ls Hy H IH]; [by apply elem_of_nil in Hx|].
    cbn in E. apply app_eq_nil in E as [-> E]. apply elem_of_cons in Hx as [->|Hx]; [done|]. by apply IH.
  - intros H. exists (map (fun _ => []) l). split.
    + apply result_mapM_ok. induction l as [|x l IH]; constructor; [apply H; set_solver|]. apply IH. set_solver.
    + f_equal. clear H. induction l; [done|]. cbn. by rewrite IHl.
Qed.

Lemma report_nil b m : report b m = [] <-> b = false.
Proof. by destruct b. Qed.

(** A required entry: removed is an error, otherwise it is looked at. *)
Lemma kept_nil k j msg (K : json -> result pyexn (list string)) :
  (kept ← jin k j; if negb kept then Ok [msg] else v ← jindex j k; K v) = Ok [] <->
  exists v, field j k = Some v /\ K v = Ok [].
Proof.
  destruct j; cbn; try (split; [done | by intros (? & ? & _)]).
  - destruct (contains k s); cbn; split; try done; by intros (? & ? & _).
  - destruct (existsb _ l); cbn; split; try done; by intros (? & ? & _).
  - unfold in_dict. destruct (assoc k fields) as [v|]; cbn; split; try done; [by eauto | by intros (? & [= ->] & ?) | by intros (? & ? & _)].
Qed.

Lemma items_obj j d : items j = Ok d <-> j = JObj d.
Proof. unfold items. destruct j; (split; [|intros E]; try done); intros [= ->] || injection E as ->; done. Qed.

Section spec.
Variable str : json -> string.
Implicit Types bc cc : json.

Lemma check_property_nil bc cc prefix breq creq cprops p bp :
  check_property str bc cc prefix breq creq cprops (p, bp) = Ok [] <->
  property_kept bc cc (contains "request" (lower prefix)) breq creq cprops p bp.
Proof.
  unfold check_property. rewrite kept_nil. unfold property_kept. split.
  - intros (cp & Hf & H). repeat (apply result_bind_ok in H as (? & ? & H)). injection H as H.
    apply app_eq_nil in H as [Ha%report_nil Hb%report_nil].
    eexists cp, _, _, _, _. split_conj; [done..| |].
    + intros Ht1 Ht2. rewrite Ht1, Ht2 in Ha. by apply negb_false_iff in Ha.
    + intros Hq Hc. unfold member in *. rewrite Hq, Hc, andb_true_r in Hb. by apply negb_false_iff in Hb.
  - intros (cp & br & cr & bt & ct & Hf & H1 & H2 & H3 & H4 & Ht & Hr). exists cp. split; [done|].
    rewrite H1, bind_Ok, H2, bind_Ok, H3, bind_Ok, H4, bind_Ok. f_equal.
    assert (jtruthy bt && jtruthy ct && negb (jeq bt ct) = false) as ->.
    { destruct (jtruthy bt), (jtruthy ct); try done. cbn. by rewrite Ht. }
    fold (member p breq) (member p creq). destruct (contains "request" (lower prefix)); [|done].
    destruct (member p creq); [|by rewrite andb_false_r]. by rewrite Hr.
Qed.

Lemma check_schema_nil bc cc bs cs prefix :
  check_schema_compatibility str bs cs bc cc prefix = Ok [] <->
  schema_kept bc cc (contains "request" (lower prefix)) bs cs.
Proof.
  unfold check_schema_compatibility, schema_kept. split.
  - intros ([bp br] & H1 & H)%result_bind_ok. apply result_bind_ok in H as ([cp cr] & H2 & H). cbn beta iota in H.
    apply result_bind_ok in H as (es & ->%items_obj & H). rewrite collect_nil in H.
    exists es, br, cp, cr. split; [done|]. split; [done|]. intros p q Hin. by apply (check_property_nil _ _ prefix), H.
  - intros (es & br & cp & cr & H1 & H2 & H). rewrite H1, bind_Ok, H2, bind_Ok. cbn [items]. rewrite bind_Ok. apply collect_nil.
    intros [p q] Hin. apply check_property_nil. by apply H.
Qed.

Lemma check_media_nil bc cc content removed prefix c m :
  check_media str bc cc content removed prefix (c, m) = Ok [] <->
  media_kept bc cc content (fun c => contains "request" (lower (prefix c))) c m.
Proof.
  unfold check_media. rewrite kept_nil. unfold media_kept. split.
  - intros (v & Hf & H). apply result_bind_ok in H as (bs & H1 & H). apply result_bind_ok in H as (cs & H2 & H%check_schema_nil). eauto 8.
  - intros (v & bs & cs & Hf & H1 & H2 & H). exists v. split; [done|]. rewrite H1, bind_Ok, H2, bind_Ok. by apply check_schema_nil.
Qed.

(** The loop over the media types. *)
Lemma content_nil bc cc base curr removed prefix :
  (bcon ← jget base "content" (JObj []); ccon ← jget curr "content" (JObj []); es ← items bcon;
   collect (check_media str bc cc ccon removed prefix) es) = Ok [] <->
  content_kept bc cc base curr (fun c => contains "request" (lower (prefix c))).
Proof.
  unfold content_kept. split.
  - intros (bcon & H1 & H)%result_bind_ok. apply result_bind_ok in H as (ccon & H2 & H).
    apply result_bind_ok in H as (es & ->%items_obj & H). rewrite collect_nil in H.
    exists es, ccon. split; [done|]. split; [done|]. intros c m Hin. by apply (check_media_nil _ _ _ removed), H.
  - intros (es & ccon & H1 & H2 & H). rewrite H1, bind_Ok, H2, bind_Ok. cbn [items]. rewrite bind_Ok. apply collect_nil.
    intros [c m] Hin. apply check_media_nil. by apply H.
Qed.

Lemma check_param_nil label cps k bp : check_param str label cps (k, bp) = Ok [] <-> param_kept cps k bp.
Proof.
  unfold check_param, param_kept. destruct k as [n i]. destruct (param_get (n, i) cps) as [cp|].
  - split.
    + intros (b & H1 & H)%result_bind_ok. apply result_bind_ok in H as (c & H2 & [= H%report_nil]).
      exists cp, b, c. split_conj; [done..|]. intros Hc. rewrite Hc, andb_true_r in H. by apply negb_false_iff in H.
    + intros (cp' & b & c & [= <-] & H1 & H2 & H). rewrite H1, bind_Ok, H2, bind_Ok. f_equal. apply report_nil.
      destruct (jtruthy c); [|by rewrite andb_false_r]. by rewrite H.
  - split; [done|]. by intros (? & ? & ? & ? & _).
Qed.

Lemma check_body_nil bc cc label bop cop :
  check_request_body str bc cc label bop cop = Ok [] <-> body_kept bc cc label bop cop.
Proof.
  unfold check_request_body, body_kept. split.
  - intros (bb & H1 & H)%result_bind_ok. apply result_bind_ok in H as (cb & H2 & H). exists bb, cb. split; [done|].
    split; [done|]. intros Hb. rewrite Hb in H. destruct (jtruthy cb); cbn [negb andb] in H; [|done].
    split; [done|]. by apply content_nil in H.
  - intros (bb & cb & H1 & H2 & H). rewrite H1, bind_Ok, H2, bind_Ok. destruct (jtruthy bb); [|done].
    destruct H as [-> H]; [done|]. cbn [negb andb]. by apply content_nil.
Qed.

Lemma check_response_nil bc cc label crs s r :
  check_response str bc cc label crs (s, r) = Ok [] <-> response_kept bc cc label crs s r.
Proof.
  unfold check_response. rewrite kept_nil. unfold response_kept. split.
  - intros (v & Hf & H%content_nil). eauto.
  - intros (v & Hf & H). exists v. split; [done|]. by apply content_nil.
Qed.

Lemma check_contract_nil bc cc label bop cop :
  check_contract str bc cc label bop cop = Ok [] <-> contract_kept bc cc label bop cop.
Proof.
  unfold check_contract, contract_kept. split.
  - intros H. repeat (apply result_bind_ok in H as (? & ? & H)). injection H as H.
    apply app_eq_nil in H as [-> H]. apply app_eq_nil in H as [-> ->].
    match goal with H : items _ = Ok _ |- _ => apply items_obj in H as -> end.
    repeat match goal with H : collect _ _ = Ok [] |- _ => rewrite collect_nil in H end.
    do 4 eexists. split_conj; try done.
    + intros k p Hin. by apply (check_param_nil label), H2.
    + by apply check_body_nil.
    + intros s r Hin. by apply check_response_nil, H7.
  - intros (bps & cps & brs & crs & H1 & H2 & Hp & Hb%check_body_nil & H3 & H4 & Hr).
    rewrite H1, bind_Ok, H2, bind_Ok.
    rewrite (proj2 (collect_nil _ _)) by (intros [k p] Hin; by apply check_param_nil, Hp). rewrite bind_Ok.
    rewrite Hb, bind_Ok, H3, bind_Ok, H4, bind_Ok. cbn [items]. rewrite bind_Ok.
    by rewrite (proj2 (collect_nil _ _)) by (intros [s r] Hin; by apply check_response_nil, Hr).
Qed.

Lemma has_operation_obj d path method :
  has_operation (JObj d) path method = Ok (bool_decide (is_Some (operation_at (JObj d) path method))).
Proof.
  unfold has_operation, operation_at. cbn. unfold in_dict. destruct (assoc path d) as [item|] eqn:E; cbn.
  - destruct item as [| | | | | |e]; cbn; try done. by destruct (assoc method e).
  - done.
Qed.

Lemma check_operation_nil bc cc d path m op :
  check_operation str bc cc (JObj d) path (m, op) = Ok [] <->
  skipped_key m = true \/ operation_kept bc cc (JObj d) path m op.
Proof.
  unfold check_operation. destruct (skipped_key m); [split; [by left|done]|].
  rewrite has_operation_obj, bind_Ok. unfold operation_kept.
  assert (forall P Q : Prop, (P <-> Q) -> (P <-> false = true \/ Q)) as Hf by (intros; naive_solver). apply Hf. clear Hf.
  set (v2 := operation_at (JObj d) (v2_path path) m). unfold operation_at. cbn [jin]. rewrite bind_Ok.
  unfold in_dict. cbn [field jindex]. destruct (assoc path d) as [item|]; cbn [negb].
  - rewrite bind_Ok. change (match item with JObj d0 => assoc m d0 | _ => None end) with (field item m).
    cbn [mbind option_bind]. destruct (field item m) as [cop|].
    + case_bool_decide; [naive_solver|]. rewrite check_contract_nil. naive_solver.
    + case_bool_decide; cbn; naive_solver.
  - case_bool_decide; cbn; naive_solver.
Qed.

(** C32. No change is reported exactly when every operation of the baseline
    under [/api/v1/] is kept: its counterpart exists under [/api/v2/], or it is still
    there with all its parameters (none of them newly required), its request body
    and its responses, media type by media type and property by property. *)
Theorem no_errors_iff (base_paths curr_paths : dict) (bc cc base curr : json) :
  jget base "paths" (JObj []) = Ok (JObj base_paths) -> jget curr "paths" (JObj []) = Ok (JObj curr_paths) ->
  jget base "components" (JObj []) = Ok bc -> jget curr "components" (JObj []) = Ok cc ->
  check_spec_stability str base curr = Ok (true, []) <->
  forall path item, (path, item) ∈ base_paths -> startswith "/api/v1/" path = true ->
    exists ops, item = JObj ops /\
      forall method op, (method, op) ∈ ops -> skipped_key method = false ->
        operation_kept bc cc (JObj curr_paths) path method op.
Proof.
  intros Hb Hc Hbc Hcc. unfold check_spec_stability.
  rewrite Hb, bind_Ok, Hc, bind_Ok, Hbc, bind_Ok, Hcc, bind_Ok. cbn [items]. rewrite bind_Ok.
  assert (forall r : result pyexn (list string),
    (errors ← r; Ok (Nat.eqb (length errors) 0, errors)) = Ok (true, []) <-> r = Ok []) as ->.
  { intros [[|e es]|x]; cbn; split; congruence. }
  rewrite collect_nil. split.
  - intros H path item Hin Hp. specialize (H _ Hin). cbn in H. rewrite Hp in H. cbn [negb] in H.
    apply result_bind_ok in H as (ops & ->%items_obj & H). rewrite collect_nil in H. exists ops. split; [done|].
    intros m op Hop Hs. specialize (H _ Hop). apply check_operation_nil in H as [H|H]; [congruence | done].
  - intros H [path item] Hin. cbn. destruct (startswith "/api/v1/" path) eqn:Hp; [|done]. cbn [negb].
    destruct (H _ _ Hin Hp) as (ops & -> & Ho). cbn [items]. rewrite bind_Ok. apply collect_nil. intros [m op] Hop.
    apply check_operation_nil. destruct (skipped_key m) eqn:Es; [by left|]. right. by apply Ho.
Qed.
End spec.

(** *** Extensions *)

Lemma result_mapM_ext {E A B} (f g : A -> result E B) l : (forall x, x ∈ l -> f x = g x) -> result_mapM f l = result_mapM g l.
Proof.
  induction l as [|x l IH]; intros H; cbn; [done|]. rewrite H by set_solver. rewrite IH; [done|]. intros y Hy. apply H. set_solver.
Qed.

Lemma check_path_frame str bc cc d extra path item :
  assoc path extra = None -> assoc (v2_path path) extra = None ->
  check_path str bc cc (JObj (d ++ extra)) (path, item) = check_path str bc cc (JObj d) (path, item).
Proof.
  intros H1 H2. cbn. destruct (startswith "/api/v1/" path); [|done]. cbn [negb].
  destruct (items item) as [ops|e]; [|done]. rewrite !bind_Ok. unfold collect. f_equal. apply result_mapM_ext.
  intros [m op] _. cbn. unfold has_operation. cbn [jin jindex]. unfold in_dict. by rewrite !assoc_app_fresh.
Qed.

(** Endpoints added to the current document never count as a change,
    whatever they are: the report depends on the paths of the baseline and their
    [/api/v2/] counterparts alone. *)
Theorem new_endpoints_accepted (str : json -> string) (base_paths d extra : dict) (components base : json) :
  jget base "paths" (JObj []) = Ok (JObj base_paths) ->
  (forall path item, (path, item) ∈ base_paths -> assoc path extra = None /\ assoc (v2_path path) extra = None) ->
  check_spec_stability str base (JObj [("paths", JObj (d ++ extra)); ("components", components)]) =
  check_spec_stability str base (JObj [("paths", JObj d); ("components", components)]).
Proof.
  intros Hb Hx. unfold check_spec_stability. rewrite Hb, !bind_Ok. cbn [jget assoc String.eqb Ascii.eqb Bool.eqb default].
  rewrite !bind_Ok. destruct (jget base "components" (JObj [])) as [bc|e]; [|done]. rewrite !bind_Ok.
  cbn [jget assoc String.eqb Ascii.eqb Bool.eqb default items]. rewrite !bind_Ok. unfold collect.
  erewrite result_mapM_ext; [done|]. intros [path item] Hin. cbn beta. destruct (Hx _ _ Hin). by apply check_path_frame.
Qed.

(** ** Changes that are not looked for *)

Module ApiStabilityWitness.
Definition no_str (j : json) : string := match j with JStr s => s | _ => "?" end.
Definition spec (paths : dict) : json := JObj [("paths", JObj paths)].
Definition op (params : list json) (body responses : dict) : json :=
  JObj [("parameters", JList params); ("requestBody", JObj body); ("responses", JObj responses)].
Definition json_body (schema : json) : dict := [("content", JObj [("application/json", JObj [("schema", schema)])])].
Definition object_schema (props : dict) (required : list json) : json :=
  JObj [("type", JStr "object"); ("properties", JObj props); ("required", JList required)].
Definition typed (t : string) : json := JObj [("type", JStr t)].

Definition base : json := spec [("/api/v1/x", JObj [("post", op [] (json_body (object_schema [("a", typed "string")] [])) [])])].

(** A parameter that is new and required. *)
Definition with_param : json :=
  spec [("/api/v1/x", JObj [("post", op [JObj [("name", JStr "q"); ("in", JStr "query"); ("required", JBool true)]]
                              (json_body (object_schema [("a", typed "string")] [])) [])])].
Example new_required_parameter_accepted : check_spec_stability no_str base with_param = Ok (true, []).
Proof. vm_compute. reflexivity. Qed.

(** A body property that is new and required. *)
Definition with_property : json :=
  spec [("/api/v1/x", JObj [("post", op [] (json_body (object_schema [("a", typed "string"); ("b", typed "string")] [JStr "b"])) [])])].
Example new_required_property_accepted : check_spec_stability no_str base with_property = Ok (true, []).
Proof. vm_compute. reflexivity. Qed.

(** A property removed inside a nested object, and another type of array items. *)
Definition nested (inner : json) : json :=
  spec [("/api/v1/x", JObj [("get", op [] [] [("200", JObj (json_body (object_schema [("o", inner)] [])))])])].
Example nested_removal_accepted :
  check_spec_stability no_str (nested (object_schema [("k", typed "string")] [])) (nested (object_schema [] [])) = Ok (true, []).
Proof. vm_compute. reflexivity. Qed.

(** In the response of an endpoint whose path contains "request", a property that
    the server now always sends is reported as required in a request schema. *)
Definition reply (path : string) (required : list json) : json :=
  spec [(path, JObj [("post", op [] [] [("200", JObj (json_body (object_schema [("a", typed "string")] required)))])])].
Example guaranteed_property_reported :
  check_spec_stability no_str (reply "/api/v1/auth/request-reset" []) (reply "/api/v1/auth/request-reset" [JStr "a"]) =
    Ok (false, ["BREAKING CHANGE [POST /api/v1/auth/request-reset] (Response 200 application/json): Optional property 'a' became required in request schema."]) /\
  check_spec_stability no_str (reply "/api/v1/auth/reset" []) (reply "/api/v1/auth/reset" [JStr "a"]) = Ok (true, []).
Proof. vm_compute. split; reflexivity. Qed.

(** The changes that are looked for: a removed property and a changed type. *)
Definition two (props : dict) : json :=
  spec [("/api/v1/x", JObj [("get", op [] [] [("200", JObj (json_body (object_schema props [])))])])].
Example removal_and_type_reported :
  check_spec_stability no_str (two [("a", typed "string"); ("b", typed "string")]) (two [("b", typed "integer")]) =
    Ok (false, ["BREAKING CHANGE [GET /api/v1/x] (Response 200 application/json): Removed schema property 'a'.";
                "BREAKING CHANGE [GET /api/v1/x] (Response 200 application/json): Changed type of property 'b' from 'string' to 'integer'."]).
Proof. vm_compute. reflexivity. Qed.

Lemma no_errors_iff_witness : exists ops,
  check_spec_stability no_str base with_property = Ok (true, []) /\
  JObj [("post", op [] (json_body (object_schema [("a", typed "string")] [])) [])] = JObj ops /\
  operation_kept (JObj []) (JObj []) (JObj [("/api/v1/x", JObj [("post", op []
    (json_body (object_schema [("a", typed "string"); ("b", typed "string")] [JStr "b"])) [])])]) "/api/v1/x" "post"
    (op [] (json_body (object_schema [("a", typed "string")] [])) []).
Proof.
  pose proof (no_errors_iff no_str _ _ (JObj []) (JObj []) base with_property eq_refl eq_refl eq_refl eq_refl) as H.
  assert (check_spec_stability no_str base with_property = Ok (true, [])) as E by (vm_compute; reflexivity).
  destruct (proj1 H E "/api/v1/x" _ (list_elem_of_here _ _) eq_refl) as (ops & Ho & Hk).
  exists ops. split; [exact E|]. split; [exact Ho|].
  apply (Hk "post"); [|reflexivity]. injection Ho as <-. apply list_elem_of_here.
Defined.
End ApiStabilityWitness.
