(* ===== verification/Cli.v ===== *)
(** * Cli: the command line client ([cli/gaiaos_cli/])

    [config.py] (the configuration file and the choice of server and
    credentials), [ui.py] (what is printed) and the commands of [main.py] and
    [commands/], on top of [Sdk].  The world is the configuration file with its
    permission bits and the lines printed; a command returns its exit status.
    Rich's markup is part of the text, its layout is not modelled.  Arguments:
    the environment, the HTTP transport, the text of an exception, of a value and
    of a JSON document, and the answer to a prompt. *)

From S2P Require Import Prelude PyStr PyFloat Effects SdkTypes SdkModels SdkAdminModels SdkApi Sdk.
From Stdlib Require Import Ascii.

(** ** [config.py] *)

Record CLIConfig := {
  api_url : string;
  cfg_bearer_token : option string;
  cfg_api_key : option string;
  username : option string;
}.

Definition default_config : CLIConfig :=
  {| api_url := "http://localhost:8000"; cfg_bearer_token := None; cfg_api_key := None; username := None |}.

Inductive line :=
| Success (msg : string)
| Error (msg : string)
| Warning (msg : string)
| Info (msg : string)
| Plain (msg : string)
| PanelOf (content : string)
| TableOf (title : string) (rows : list (list string))
| TreeOf (root : string) (branches : list (string * list string)).

Record world := World {
  config_file : option text;      (* [~/.gaiaos/config.json] *)
  config_mode : Z;                (* its permission bits *)
  readable : bool;                (* [read_text] works *)
  writable : bool;                (* [mkdir] and [write_text] work *)
  chmod_ok : bool;
  output : list line;
}.

Definition print_line (l : line) : M world unit := fun w =>
  (Ok tt, World (config_file w) (config_mode w) (readable w) (writable w) (chmod_ok w) (output w ++ [l])).

(** The permission bits of a file that [write_text] creates. *)
Definition CREATED_MODE : Z := 0x1a4.     (* 0o644 *)
Definition PRIVATE_MODE : Z := 0x180.     (* 0o600 *)

(** [CLIConfig] built from the entries of a dict: unknown keys are ignored, absent ones get
    their default, a value of another type is a [ValidationError]. *)
Definition optional_str (d : dict) (k : string) : option (option string) :=
  match assoc k d with
  | None | Some JNull => Some None
  | Some (JStr s) => Some (Some s)
  | Some _ => None
  end.

Definition config_of (d : dict) : option CLIConfig :=
  match match assoc "api_url" d with None => Some (api_url default_config) | Some (JStr s) => Some s | Some _ => None end,
        optional_str d "bearer_token", optional_str d "api_key", optional_str d "username" with
  | Some u, Some b, Some k, Some n => Some {| api_url := u; cfg_bearer_token := b; cfg_api_key := k; username := n |}
  | _, _, _, _ => None
  end.

Definition load_config : M world CLIConfig := fun w =>
  (Ok match config_file w with
      | Some (Json (JObj d)) => if readable w then default default_config (config_of d) else default_config
      | _ => default_config
      end, w).

Definition jopt (o : option string) : json := match o with Some s => JStr s | None => JNull end.

(** [config.model_dump_json()] *)
Definition config_json (c : CLIConfig) : json :=
  JObj [("api_url", JStr (api_url c)); ("bearer_token", jopt (cfg_bearer_token c)); ("api_key", jopt (cfg_api_key c));
        ("username", jopt (username c))].

Definition write_text (t : text) : M world unit := fun w =>
  if writable w
  then (Ok tt, World (Some t) (match config_file w with Some _ => config_mode w | None => CREATED_MODE end)
                 (readable w) (writable w) (chmod_ok w) (output w))
  else (Raise (OtherError "OSError"), w).

Definition chmod (mode : Z) : M world unit := fun w =>
  (Ok tt, World (config_file w) (if chmod_ok w then mode else config_mode w) (readable w) (writable w) (chmod_ok w) (output w)).

(** The platform is POSIX. *)
Definition save_config (c : CLIConfig) : M world unit :=
  write_text (Json (config_json c)) ≫= fun _ => chmod PRIVATE_MODE.

Section cli.
Variable environ : string -> option string.

(** The two [or] chains, the last operand being the value when all are falsy. *)
Definition get_sdk_client (cfg : CLIConfig) (api_url_override api_key_override token_override : option string) : GaiaClient :=
  let url := or_else api_url_override (or_else (environ "GAIAOS_API_URL")
               (or_else (Some (api_url cfg)) (Some "http://localhost:8000"))) in
  let key := or_else api_key_override (or_else (environ "GAIAOS_API_KEY") (cfg_api_key cfg)) in
  let tok := or_else token_override (or_else (environ "GAIAOS_BEARER_TOKEN") (cfg_bearer_token cfg)) in
  GaiaClient_init environ url key tok 60 2.

(** ** Global options ([main.py]) *)

Record context := {
  o_api_url : option string;
  o_api_key : option string;
  o_token : option string;
  json_output : bool;
}.

(** An option that is not given is read from its environment variable, unless that is empty. *)
Definition from_envvar (given : option string) (var : string) : option string :=
  match given with
  | Some v => Some v
  | None => if ostr_truthy (environ var) then environ var else None
  end.

Definition main (url key token : option string) (json : bool) : context :=
  {| o_api_url := from_envvar url "GAIAOS_API_URL"; o_api_key := from_envvar key "GAIAOS_API_KEY";
     o_token := from_envvar token "GAIAOS_BEARER_TOKEN"; json_output := json |}.

Definition client_of (ctx : context) (cfg : CLIConfig) : GaiaClient :=
  get_sdk_client cfg (o_api_url ctx) (o_api_key ctx) (o_token ctx).

(** ** [ui.py] *)

(** The attributes of a [StreamEvent]; any other is an [AttributeError]. *)
Definition stream_attr (e : StreamEvent) (name : string) : Read json :=
  if String.eqb name "event_type" then Ok (JStr (event_type e))
  else if String.eqb name "data" then Ok (JObj (se_data e))
  else if String.eqb name "id" then Ok (jopt (se_id e))
  else if String.eqb name "retry" then Ok (match se_retry e with Some n => JInt n | None => JNull end)
  else Raise AttributeError.

Section ui.
Variable str : json -> string.
Variable truthy : json -> bool.

Definition event_color (evt_type : string) : string :=
  if String.eqb evt_type "job_started" then "bold cyan"
  else if String.eqb evt_type "step_started" || String.eqb evt_type "agent_started" then "cyan"
  else if String.eqb evt_type "step_completed" || String.eqb evt_type "agent_completed" then "green"
  else if String.eqb evt_type "job_completed" || String.eqb evt_type "completed" then "bold green"
  else if String.eqb evt_type "error" || String.eqb evt_type "job_failed" then "bold red"
  else "white".

Definition format_stream_event (event : StreamEvent) : Read string :=
  let evt_type := event_type event in
  node ← stream_attr event "node";
  let node := if truthy node then str node else "orchestrator" in
  message ← stream_attr event "message";
  msg ← (if truthy message then Ok (str message) else payload ← stream_attr event "payload"; Ok (str payload));
  let color := event_color evt_type in
  Ok ("[" +:+ color +:+ "][" +:+ evt_type +:+ "][/" +:+ color +:+ "] [dim]" +:+ node +:+ ":[/dim] " +:+ msg).

(** [getattr(obj, name, dflt)] on the text of the attributes. *)
Definition getattr_str (attrs : list (string * string)) (name dflt : string) : string := default dflt (assoc name attrs).

Context {DT : DateTimes}.
Variable str_datetime : datetime -> string.

Definition str_maybe (m : maybe json) : string := match m with UNSET => "<unset>" | Val j => str j end.

(** The attributes the functions below may ask for, as text. *)
Definition status_attrs (inv : InvestigationStatusResponse) : list (string * string) :=
  [("answer", str (InvestigationStatusResponse_answer inv));
   ("complexity_tier", str (InvestigationStatusResponse_complexity_tier inv));
   ("confidence", str (InvestigationStatusResponse_confidence inv));
   ("created_at", str_datetime (InvestigationStatusResponse_created_at inv));
   ("investigation_id", uuid_str (InvestigationStatusResponse_investigation_id inv));
   ("status", str (InvestigationStatusResponse_status inv))].
Definition node_attrs (n : TraceNode) : list (string * string) :=
  [("id", str (TraceNode_id n)); ("label", str (TraceNode_label n)); ("type_", str (TraceNode_type_ n));
   ("status", str_maybe (TraceNode_status n))].
Definition edge_attrs (e : TraceEdge) : list (string * string) :=
  [("id", str (TraceEdge_id e)); ("source", str (TraceEdge_source e)); ("target", str (TraceEdge_target e))].
Definition key_attrs (k : ApiKeyResponse) : list (string * string) :=
  [("created_at", str_datetime (ApiKeyResponse_created_at k)); ("id", uuid_str (ApiKeyResponse_id k));
   ("is_revoked", str (ApiKeyResponse_is_revoked k)); ("key_id", str (ApiKeyResponse_key_id k));
   ("name", str (ApiKeyResponse_name k))].

Definition newline : string := String "010" EmptyString.

(** The panel; the class has no attribute [findings], so no table follows. *)
Definition render_investigation_summary (inv : InvestigationStatusResponse) : M world unit :=
  let status := getattr_str (status_attrs inv) "status" "unknown" in
  let status_color := if String.eqb status "complete" then "green" else if String.eqb status "running" then "yellow" else "red" in
  let inv_id := getattr_str (status_attrs inv) "investigation_id" "" in
  let query := getattr_str (status_attrs inv) "query" "" in
  print_line (PanelOf ("[bold]ID:[/bold] " +:+ inv_id +:+ newline +:+ "[bold]Query:[/bold] " +:+ query +:+ newline +:+
    "[bold]Status:[/bold] [" +:+ status_color +:+ "]" +:+ status +:+ "[/" +:+ status_color +:+ "]")).

Definition node_label (n : TraceNode) : string :=
  let attrs := node_attrs n in
  let node_id := getattr_str attrs "node_id" (getattr_str attrs "id" "") in
  let node_type := getattr_str attrs "node_type" (getattr_str attrs "type" "") in
  "[green]" +:+ node_id +:+ "[/green] [dim](" +:+ node_type +:+ ")[/dim]".

Definition edge_label (e : TraceEdge) : string :=
  let attrs := edge_attrs e in
  getattr_str attrs "source" (getattr_str attrs "from_node" "") +:+ " ──▶ " +:+
  getattr_str attrs "target" (getattr_str attrs "to_node" "").

Definition render_trace_graph (trace : InvestigationTraceResponse) : M world unit :=
  let nodes := InvestigationTraceResponse_nodes trace in
  let edges := InvestigationTraceResponse_edges trace in
  print_line (TreeOf
    ("[bold cyan]Execution Trace Graph[/bold cyan] (" +:+ uuid_str (InvestigationTraceResponse_investigation_id trace) +:+ ")")
    (("[bold yellow]Nodes[/bold yellow]", map node_label nodes) ::
     match edges with [] => [] | _ => [("[bold yellow]Edges / Dependencies[/bold yellow]", map edge_label edges)] end)).

Definition key_row (k : ApiKeyResponse) : list string :=
  let attrs := key_attrs k in
  [getattr_str attrs "key_id" (getattr_str attrs "id" ""); getattr_str attrs "name" "";
   getattr_str attrs "prefix" (getattr_str attrs "key_prefix" "****"); getattr_str attrs "created_at" ""].

Definition render_api_keys_table (keys : list ApiKeyResponse) : M world unit :=
  match keys with
  | [] => print_line (Info "No active API keys found.")
  | _ => print_line (TableOf "Active API Keys" (map key_row keys))
  end.
End ui.

(** ** Commands *)

Section commands.
Context {DT : DateTimes}.
Variable str : json -> string.
Variable truthy : json -> bool.
Variable str_datetime : datetime -> string.
Variable dumps : json -> string.            (* [json.dumps(data, indent=2, default=str)] *)
Variable str_error : sdk_error -> string.
Variable sdk_version cli_version : string.
Variable Version : string -> option (Z * Z).
Variable loads : string -> option json.
Variable send : httpx_client -> kwargs -> result pyexn http_response.
Variable connect : string -> list (string * string) -> list sse * result pyexn unit.

(** [except GaiaSDKError] *)
Definition is_sdk_error (e : sdk_error) : bool :=
  match e with ApiError _ _ _ _ _ | IncompatibleServerError _ => true | _ => false end.

(** [try: ... except GaiaSDKError: print; Exit(1)  except Exception: print; Exit(1)]
    around a call and what is done with its result. *)
Definition guarded {A} (sdk_msg other_msg : string) (call : Read A) (k : A -> M world unit) : M world Z :=
  match call with
  | Ok a => fun w =>
      match k a w with
      | (Ok _, w') => (Ok 0, w')
      | (Raise e, w') => (print_line (Error (other_msg +:+ str_error (Py e))) ≫= fun _ => mret 1) w'
      end
  | Raise e =>
      print_line (Error ((if is_sdk_error e then sdk_msg else other_msg) +:+ str_error e)) ≫= fun _ => mret 1
  end.

Definition register (ctx : context) (email password : string) (full_name : option string) : M world Z :=
  load_config ≫= fun config =>
  let client := client_of ctx config in
  guarded "Registration failed: " "Unexpected error during registration: "
    (AuthClient_register sdk_version str send client email password full_name)
    (fun user_resp =>
       if json_output ctx then print_line (Plain (dumps (JObj (to_dict user_resp))))
       else print_line (Success ("Successfully registered account '" +:+ str (UserResponse_email user_resp) +:+ "' (" +:+
                                 str (UserResponse_role user_resp) +:+ ").")) ≫= fun _ =>
            print_line (Info "Run [bold]gaiaos auth login[/bold] to authenticate with your credentials.")).

Definition login (ctx : context) (user password : string) : M world Z :=
  load_config ≫= fun config =>
  let client := client_of ctx config in
  guarded "Authentication failed: " "Unexpected error during login: "
    (AuthClient_login sdk_version str send client user password)
    (fun token_resp =>
       let config := {| api_url := if ostr_truthy (o_api_url ctx) then default "" (o_api_url ctx) else api_url config;
                        cfg_bearer_token := Some (str (TokenResponse_access_token token_resp));
                        cfg_api_key := cfg_api_key config; username := Some user |} in
       save_config config ≫= fun _ =>
       print_line (Success ("Successfully authenticated as '" +:+ user +:+ "'. Token saved to ~/.gaiaos/config.json."))).

Definition status (ctx : context) : M world Z :=
  load_config ≫= fun config =>
  let url := if ostr_truthy (o_api_url ctx) then default "" (o_api_url ctx) else api_url config in
  print_line (Info ("Target Server API URL: [cyan]" +:+ url +:+ "[/cyan]")) ≫= fun _ =>
  (if ostr_truthy (cfg_bearer_token config) then
     let user_str := if ostr_truthy (username config) then " as [green]" +:+ default "" (username config) +:+ "[/green]" else "" in
     print_line (Success ("Logged in" +:+ user_str +:+ " (Bearer token present)."))
   else if ostr_truthy (cfg_api_key config) then print_line (Success "Authenticated via API Key.")
   else print_line (Info "Not authenticated. Run [bold]gaiaos auth login[/bold] to log in.")) ≫= fun _ =>
  mret 0.

Definition logout : M world Z :=
  load_config ≫= fun config =>
  save_config {| api_url := api_url config; cfg_bearer_token := None; cfg_api_key := None; username := None |} ≫= fun _ =>
  print_line (Success "Successfully logged out and cleared saved credentials.") ≫= fun _ => mret 0.

(** *** Investigations ([commands/investigate.py]) *)

Definition show_status (ctx : context) (inv : InvestigationStatusResponse) : M world unit :=
  if json_output ctx then print_line (Plain (dumps (JObj (to_dict inv))))
  else render_investigation_summary str str_datetime inv.

(** [for evt in stream: console.print(format_stream_event(evt))], left at the first exception. *)
Fixpoint show_events (events : list StreamEvent) (ending : result pyexn unit) : M world (option sdk_error) :=
  match events with
  | [] => mret match ending with Ok _ => None | Raise e => Some (Py e) end
  | e :: events =>
      match format_stream_event str truthy e with
      | Ok line => print_line (Plain line) ≫= fun _ => show_events events ending
      | Raise err => mret (Some err)
      end
  end.

Definition show_stream (client : GaiaClient) (inv_id : string) : M world unit :=
  print_line (Info "Streaming real-time SSE execution events...") ≫= fun _ =>
  let '(events, ending) := InvestigationsClient_stream sdk_version loads connect client inv_id in
  show_events events ending ≫= fun err : option sdk_error =>
  match err with
  | Some e => print_line (Error ("Streaming error: " +:+ str_error e))
  | None => mret tt
  end.

(** A call whose exception ends the block it is in. *)
Definition failing {A} (call : Read A) (k : A -> M world (option sdk_error)) : M world (option sdk_error) :=
  match call with Ok a => k a | Raise e => mret (Some e) end.

Definition _run_investigation_submit (ctx : context) (query : string) (stream consent_public : bool) : M world Z :=
  load_config ≫= fun config =>
  let client := client_of ctx config in
  print_line (Info ("Submitting investigation query: [bold]" +:+ query +:+ "[/bold]...")) ≫= fun _ =>
  failing (InvestigationsClient_create sdk_version str send client query consent_public) (fun resp =>
    let inv_id := uuid_str (InvestigationCreateResponse_investigation_id resp) in
    print_line (Success ("Investigation submitted successfully. ID: [cyan]" +:+ inv_id +:+ "[/cyan]")) ≫= fun _ =>
    (if stream && str_truthy inv_id then show_stream client inv_id else mret tt) ≫= fun _ =>
    failing (InvestigationsClient_get sdk_version str send client inv_id) (fun final_status =>
      show_status ctx final_status ≫= fun _ => mret None)) ≫= fun err : option sdk_error =>
  match err with
  | None => mret 0
  | Some e => print_line (Error ((if is_sdk_error e then "API Error: " else "Failed to submit investigation: ") +:+ str_error e)) ≫=
              fun _ => mret 1
  end.

Definition get_investigation (ctx : context) (investigation_id : string) : M world Z :=
  load_config ≫= fun config =>
  let client := client_of ctx config in
  guarded "API Error: " ("Failed to fetch investigation " +:+ investigation_id +:+ ": ")
    (InvestigationsClient_get sdk_version str send client investigation_id) (show_status ctx).

Definition get_trace (ctx : context) (investigation_id : string) : M world Z :=
  load_config ≫= fun config =>
  let client := client_of ctx config in
  guarded "API Error: " ("Failed to fetch trace for " +:+ investigation_id +:+ ": ")
    (InvestigationsClient_get_trace sdk_version str send client investigation_id)
    (fun trace => if json_output ctx then print_line (Plain (dumps (JObj (to_dict trace)))) else render_trace_graph str trace).

(** [gaiaos investigate --query ...] without a subcommand; [help] is the help text. *)
Definition investigate_main (ctx : context) (subcommand : bool) (query : option string) (stream consent_public : bool)
    (help : string) : M world Z :=
  if subcommand then mret 0
  else if ostr_truthy query then _run_investigation_submit ctx (default "" query) stream consent_public
  else print_line (Plain help) ≫= fun _ => mret 0.

(** *** API keys ([commands/admin.py]) *)

Definition create_key (ctx : context) (name : string) (expires_in_days : option Z) : M world Z :=
  load_config ≫= fun config =>
  let client := client_of ctx config in
  guarded "API Error: " "Failed to create API key: "
    (AuthClient_create_api_key sdk_version str send client name expires_in_days)
    (fun resp =>
       if json_output ctx then print_line (Plain (dumps (JObj (to_dict resp))))
       else
         print_line (Success ("API Key '[bold]" +:+ name +:+ "[/bold]' created successfully.")) ≫= fun _ =>
         print_line (Info ("Key ID: [cyan]" +:+ str (ApiKeyCreatedResponse_key_id resp) +:+ "[/cyan]")) ≫= fun _ =>
         print_line (Warning ("API Key Secret: [bold yellow]" +:+ str (ApiKeyCreatedResponse_key resp) +:+ "[/bold yellow]")) ≫= fun _ =>
         print_line (Warning "Save this key securely now. It will NOT be displayed again.")).

Definition list_keys (ctx : context) : M world Z :=
  load_config ≫= fun config =>
  let client := client_of ctx config in
  guarded "API Error: " "Failed to list API keys: " (AuthClient_list_api_keys sdk_version str send client)
    (fun keys => if json_output ctx then print_line (Plain (dumps (JList (map (fun k => JObj (to_dict k)) keys))))
                 else render_api_keys_table str str_datetime keys).

(** [confirm]: the answer to the prompt. *)
Definition revoke_key (ctx : context) (key_id : string) (force confirm : bool) : M world Z :=
  if negb force && negb confirm then print_line (Info "Revocation cancelled.") ≫= fun _ => mret 0
  else
    load_config ≫= fun config =>
    let client := client_of ctx config in
    guarded "API Error: " ("Failed to revoke API key " +:+ key_id +:+ ": ")
      (AuthClient_revoke_api_key sdk_version str send client key_id)
      (fun _ => print_line (Success ("API Key '[cyan]" +:+ key_id +:+ "[/cyan]' successfully revoked."))).

(** *** [gaiaos version] ([main.py]) *)

Definition print_versions : M world unit :=
  print_line (Plain ("gaiaos-cli version: [bold cyan]" +:+ cli_version +:+ "[/bold cyan]")) ≫= fun _ =>
  print_line (Plain ("gaiaos-sdk version: [dim]" +:+ sdk_version +:+ "[/dim]")).

(** [status.get("version", "unknown")] of the report of [validate_server]. *)
Definition reported_version (report : dict) : string := str (default (JStr "unknown") (assoc "version" report)).

Definition version_command (ctx : context) (check : bool) : M world Z :=
  print_versions ≫= fun _ =>
  if negb check then mret 0
  else
    load_config ≫= fun config =>
    let client := client_of ctx config in
    match validate_server sdk_version str Version send client with
    | Ok (report, ws) =>
        print_line (Success ("Connected to GaiaOS server (version: [green]" +:+ reported_version report +:+ "[/green]).")) ≫= fun _ =>
        for_each (fun m => print_line (Warning m)) ws ≫= fun _ => mret 0
    | Raise (IncompatibleServerError msg) =>
        print_line (Error ("Server version incompatible: " +:+ msg)) ≫= fun _ => mret 0
    | Raise e => print_line (Info ("Server offline or unreachable (" +:+ str_error e +:+ ").")) ≫= fun _ => mret 0
    end.
End commands.
End cli.

(** ** Lemmas *)

Lemma load_config_run w : exists c, load_config w = (Ok c, w).
Proof. eexists. reflexivity. Qed.

Lemma config_of_json c : exists d, config_json c = JObj d /\ config_of d = Some c.
Proof. destruct c as [u [b|] [k|] [n|]]; eexists; done. Qed.

Lemma save_run c w : writable w = true -> exists m,
  save_config c w = (Ok tt, World (Some (Json (config_json c))) m (readable w) true (chmod_ok w) (output w)) /\
  (chmod_ok w = true -> m = PRIVATE_MODE).
Proof.
  intros Hw. unfold save_config. rewrite M_bind_run. unfold write_text. rewrite Hw. eexists. split; [reflexivity|].
  cbn. by intros ->.
Qed.

Lemma load_saved c m r wr ch out :
  r = true -> load_config (World (Some (Json (config_json c))) m r wr ch out) = (Ok c, World (Some (Json (config_json c))) m r wr ch out).
Proof.
  intros ->. destruct (config_of_json c) as (d & E & H). rewrite E. unfold load_config. cbn. by rewrite H.
Qed.

(** What a guarded call leaves: its exit status says whether it succeeded. *)
Lemma guarded_exit {A} se m1 m2 (call : Read A) k w :
  (forall a w, exists w', k a w = (Ok tt, w')) ->
  exists w', guarded se m1 m2 call k w = (Ok (if is_ok call then 0 else 1), w').
Proof.
  intros Hk. unfold guarded. destruct call as [a|e]; cbn.
  - destruct (Hk a w) as [w' E]. rewrite E. eauto.
  - eauto.
Qed.

(** ** Theorems *)

(** The configuration that was saved is loaded again, whatever was in the
    file before, and the file can be read by its owner only. *)
Theorem config_roundtrip (c : CLIConfig) (w : world) : writable w = true -> readable w = true ->
  exists w', save_config c w = (Ok tt, w') /\ load_config w' = (Ok c, w') /\
    (chmod_ok w = true -> config_mode w' = PRIVATE_MODE) /\ output w' = output w.
Proof.
  intros Hw Hr. destruct (save_run c w Hw) as (m & E & Hm). eexists. split; [exact E|]. split; [by apply load_saved|].
  split; [exact Hm | done].
Qed.

(** A new configuration file holds the credentials with the default permissions until
    they are changed. *)
Theorem written_before_private (c : CLIConfig) (w : world) : writable w = true -> config_file w = None ->
  exists w', write_text (Json (config_json c)) w = (Ok tt, w') /\ config_mode w' = CREATED_MODE /\
    config_file w' = Some (Json (config_json c)).
Proof. intros Hw Hn. unfold write_text. rewrite Hw, Hn. eexists. done. Qed.

(** An unreadable, malformed or ill-typed file counts as no configuration; loading never fails. *)
Theorem load_total (w : world) : exists c, load_config w = (Ok c, w) /\
  (c = default_config \/ exists d, config_file w = Some (Json (JObj d)) /\ config_of d = Some c).
Proof.
  unfold load_config. eexists. split; [reflexivity|]. destruct (config_file w) as [[[]|]|]; try by left.
  destruct (readable w); [|by left]. destruct (config_of fields) eqn:E; [right; eauto | by left].
Qed.

Lemma or_else_first a b : ostr_truthy a = true -> or_else a b = a.
Proof. unfold or_else. by intros ->. Qed.

Lemma or_else_second a b : ostr_truthy a = false -> or_else a b = b.
Proof. unfold or_else. by intros ->. Qed.

(** Whose credentials a command uses: an option that is not empty, else
    the environment, else the configuration file. *)
Theorem credential_precedence (environ : string -> option string) (cfg : CLIConfig) (url key tok : option string) :
  let c := get_sdk_client environ cfg url key tok in
  (ostr_truthy key = true -> api_key c = key) /\
  (ostr_truthy key = false -> ostr_truthy (environ "GAIAOS_API_KEY") = true -> api_key c = environ "GAIAOS_API_KEY") /\
  (ostr_truthy key = false -> ostr_truthy (environ "GAIAOS_API_KEY") = false -> ostr_truthy (cfg_api_key cfg) = true ->
     api_key c = cfg_api_key cfg) /\
  (ostr_truthy tok = true -> bearer_token c = tok) /\
  (ostr_truthy tok = false -> ostr_truthy (environ "GAIAOS_BEARER_TOKEN") = true -> bearer_token c = environ "GAIAOS_BEARER_TOKEN") /\
  (ostr_truthy tok = false -> ostr_truthy (environ "GAIAOS_BEARER_TOKEN") = false -> ostr_truthy (cfg_bearer_token cfg) = true ->
     bearer_token c = cfg_bearer_token cfg).
Proof.
  cbn. unfold or_else. split_conj; intros; repeat match goal with H : ostr_truthy _ = _ |- _ => rewrite !H end; done.
Qed.

(** [gaiaos auth login] never succeeds: it exits with 1, prints an error and leaves the
    stored configuration as it was, for every server, user and password. *)
Theorem login_always_fails {DT : DateTimes} environ (str : json -> string) (str_error : sdk_error -> string) (v : string)
    (send : httpx_client -> kwargs -> result pyexn http_response) (ctx : context) (user password : string) (w : world) :
  login environ str str_error v send ctx user password w =
  (Ok 1, World (config_file w) (config_mode w) (readable w) (writable w) (chmod_ok w)
           (output w ++ [Error ("Unexpected error during login: " +:+ str_error (Py TypeError))])).
Proof. done. Qed.

(** Logging out removes the stored credentials and keeps the server; a
    client built afterwards has none left, unless an option or the environment
    supplies them. *)
Theorem logout_clears (environ : string -> option string) (w : world) :
  writable w = true -> readable w = true ->
  environ "GAIAOS_API_KEY" = None -> environ "GAIAOS_BEARER_TOKEN" = None ->
  exists w' cfg c0, logout w = (Ok 0, w') /\ load_config w' = (Ok cfg, w') /\ load_config w = (Ok c0, w) /\
    api_url cfg = api_url c0 /\ username cfg = None /\
    api_key (get_sdk_client environ cfg None None None) = None /\
    bearer_token (get_sdk_client environ cfg None None None) = None.
Proof.
  intros Hw Hr Hk Ht. destruct (load_config_run w) as [c0 E0].
  set (cfg := {| api_url := api_url c0; cfg_bearer_token := None; cfg_api_key := None; username := None |}).
  destruct (save_run cfg w Hw) as (m & E & _).
  exists (World (Some (Json (config_json cfg))) m (readable w) true (chmod_ok w)
            (output w ++ [Success "Successfully logged out and cleared saved credentials."])), cfg, c0.
  split; [unfold logout; rewrite M_bind_run, E0; fold cfg; by rewrite M_bind_run, E|].
  split; [by apply load_saved|]. split; [done|]. split; [done|]. split; [done|]. cbn. rewrite Hk, Ht. by split.
Qed.

(** *** What is shown *)

(** No event of a stream is ever printed: formatting the first one
    raises, the loop ends with "Streaming error", and the investigation's status is
    fetched as if the stream had ended. *)
Theorem no_event_is_shown (str : json -> string) (truthy : json -> bool) (e : StreamEvent) (es : list StreamEvent)
    (ending : result pyexn unit) (w : world) :
  show_events str truthy (e :: es) ending w = (Ok (Some AttributeError), w).
Proof. done. Qed.

(** The version that [version --check] reports is "unknown" for every
    server, compatible or not: the report has no key [version]. *)
Theorem checked_version_unknown (str : json -> string) (v server_version : string) :
  reported_version str (version_report v server_version) = str (JStr "unknown").
Proof. done. Qed.

(** The type of a node is never shown. *)
Theorem node_type_blank (str : json -> string) (n : TraceNode) :
  node_label str n = "[green]" +:+ str (TraceNode_id n) +:+ "[/green] [dim](" +:+ "" +:+ ")[/dim]".
Proof. done. Qed.

(** A key is listed as active whether or not it was revoked. *)
Theorem revoked_key_listed_alike {DT : DateTimes} (str : json -> string) (str_datetime : datetime -> string) (k : ApiKeyResponse) (b : json) :
  key_row str str_datetime {| ApiKeyResponse_created_at := ApiKeyResponse_created_at k; ApiKeyResponse_id := ApiKeyResponse_id k;
    ApiKeyResponse_is_revoked := b; ApiKeyResponse_key_id := ApiKeyResponse_key_id k; ApiKeyResponse_name := ApiKeyResponse_name k;
    ApiKeyResponse_last_used_at := ApiKeyResponse_last_used_at k; ApiKeyResponse_revoked_at := ApiKeyResponse_revoked_at k;
    ApiKeyResponse_additional_properties := ApiKeyResponse_additional_properties k |} = key_row str str_datetime k.
Proof. done. Qed.

(** *** Exit status *)

Lemma print_total l w : exists w', print_line l w = (Ok tt, w').
Proof. eexists. reflexivity. Qed.

(** [investigate get] exits with 0 exactly when the call of the library
    returned, with 1 on every exception, and never with a traceback; the
    configuration is not touched. *)
Theorem get_exit_status {DT : DateTimes} environ (str : json -> string) (str_datetime : datetime -> string)
    (dumps : json -> string) (str_error : sdk_error -> string) (v : string)
    (send : httpx_client -> kwargs -> result pyexn http_response) (ctx : context) (id : string) (w : world) :
  exists w' cfg, load_config w = (Ok cfg, w) /\
    get_investigation environ str str_datetime dumps str_error v send ctx id w =
      (Ok (if is_ok (InvestigationsClient_get v str send (client_of environ ctx cfg) id) then 0 else 1), w') /\
    config_file w' = config_file w /\ config_mode w' = config_mode w.
Proof.
  destruct (load_config_run w) as [cfg E]. unfold get_investigation. rewrite M_bind_run, E.
  destruct (InvestigationsClient_get v str send (client_of environ ctx cfg) id) as [m|e] eqn:Eg.
  - unfold guarded, show_status.
    destruct (json_output ctx); (eexists _, cfg; split; [done|]; rewrite Eg; split; [reflexivity|]; by split).
  - eexists _, cfg. split; [done|]. rewrite Eg. split; [reflexivity|]. by split.
Qed.

(** A revocation that is not confirmed sends no request. *)
Theorem unconfirmed_revocation {DT : DateTimes} environ (str : json -> string) (str_error : sdk_error -> string) (v : string)
    (send : httpx_client -> kwargs -> result pyexn http_response) (ctx : context) (key_id : string) (w : world) :
  revoke_key environ str str_error v send ctx key_id false false w =
  (Ok 0, World (config_file w) (config_mode w) (readable w) (writable w) (chmod_ok w) (output w ++ [Info "Revocation cancelled."])).
Proof. done. Qed.

Module CliWitness.
Definition w0 : world := World (Some (NotJson "")) CREATED_MODE true true true [].
Definition cfg : CLIConfig := {| api_url := "http://h"; cfg_bearer_token := Some "t"; cfg_api_key := None; username := Some "a" |}.

Lemma config_roundtrip_witness : exists w', save_config cfg w0 = (Ok tt, w') /\ load_config w' = (Ok cfg, w') /\ config_mode w' = PRIVATE_MODE.
Proof. destruct (config_roundtrip cfg w0 eq_refl eq_refl) as (w' & H1 & H2 & H3 & _). exists w'. split; [exact H1|]. split; [exact H2|]. exact (H3 eq_refl). Defined.
End CliWitness.
