(* ===== verification/PyText.v ===== *)
(** * PyText: lines, words and paths

    What the release scripts use of [str.split], [str.splitlines], text files and
    [pathlib]: splitting at a character and the inverse of [join], the lines of
    a text file in universal-newline mode, and pure paths as lists of parts. *)

From S2P Require Import Prelude PyStr.
From Stdlib Require Import Ascii.

Definition lf : ascii := "010"%char.
Definition cr : ascii := "013"%char.
Definition newline : string := String lf "".

(** [s.split(c)] for a one-character separator. *)
Fixpoint split_on (c : ascii) (s : string) : list string :=
  match s with
  | EmptyString => [EmptyString]
  | String d s =>
      if Ascii.eqb d c then EmptyString :: split_on c s
      else match split_on c s with
           | w :: ws => String d w :: ws
           | [] => [String d EmptyString]
           end
  end.

(** Text as [open(...)] and [read_text] return it: any line end is [\n]. *)
Fixpoint universal_newlines (s : string) : string :=
  match s with
  | EmptyString => EmptyString
  | String c s' =>
      if Ascii.eqb c cr then
        String lf (match s' with
                   | String d s'' => if Ascii.eqb d lf then universal_newlines s'' else universal_newlines s'
                   | EmptyString => EmptyString
                   end)
      else String c (universal_newlines s')
  end.

(** [for line in f], without the line ends; the text after the last line end
    counts as a line even if it is empty. *)
Definition file_lines (text : string) : list string := split_on lf (universal_newlines text).

(** Line boundaries of [str.splitlines] among the ASCII characters. *)
Definition is_line_end (c : ascii) : bool :=
  ((10 <=? ord c) && (ord c <=? 13)) || ((28 <=? ord c) && (ord c <=? 30)).

(** [s.splitlines()]; [prev_cr] says that the last character was a carriage return. *)
Fixpoint splitlines_aux (s line : string) (open prev_cr : bool) : list string :=
  match s with
  | EmptyString => if open then [line] else []
  | String c s =>
      if Ascii.eqb c lf && prev_cr then splitlines_aux s "" false false
      else if is_line_end c then line :: splitlines_aux s "" false (Ascii.eqb c cr)
      else splitlines_aux s (line +:+ String c "") true false
  end.
Definition splitlines (s : string) : list string := splitlines_aux s "" false false.

(** [s.split(maxsplit=1)[1]] of a text without surrounding blanks: what follows
    the first word. *)
Fixpoint after_word (s : string) : string :=
  match s with
  | EmptyString => EmptyString
  | String c s => if is_space c then lstrip s else after_word s
  end.

(** ** Paths *)

(** A pure POSIX path. *)
Record Path := { absolute : bool; parts : list string }.

#[global] Instance Path_eq_dec : EqDecision Path.
Proof. solve_decision. Defined.

(** [Path(s)]: empty and dot parts are dropped. *)
Definition path_of (s : string) : Path :=
  {| absolute := startswith "/" s;
     parts := List.filter (fun p => negb (String.eqb p "") && negb (String.eqb p ".")) (split_on "/" s) |}.

(** [p.parent] *)
Definition parent (p : Path) : Path := {| absolute := absolute p; parts := removelast (parts p) |}.

(** [p / s] *)
Definition joinpath (p : Path) (s : string) : Path :=
  let q := path_of s in
  if absolute q then q else {| absolute := absolute p; parts := parts p ++ parts q |}.

(** [str(p)] *)
Definition str_path (p : Path) : string :=
  if absolute p then "/" +:+ join "/" (parts p)
  else match parts p with [] => "." | ps => join "/" ps end.

(** ** Lemmas *)

Lemma split_on_nonempty c s : split_on c s <> [].
Proof. destruct s as [|d s]; cbn; [done|]. case_match; [done|]. by case_match. Qed.

Lemma split_on_word c w s : has_char c w = false -> split_on c (w +:+ String c s) = w :: split_on c s.
Proof.
  induction w as [|d w IH]; intros H; [change ("" +:+ ?x) with x; cbn; by rewrite Ascii.eqb_refl|].
  rewrite append_cons. cbn. cbn in H. apply orb_false_iff in H as [E H]. rewrite Ascii.eqb_sym, E, IH by done. done.
Qed.

Lemma split_on_plain c w : has_char c w = false -> split_on c w = [w].
Proof.
  induction w as [|d w IH]; intros H; cbn; [done|].
  cbn in H. apply orb_false_iff in H as [E H]. by rewrite Ascii.eqb_sym, E, IH by done.
Qed.

(** Splitting a joined text gives back its parts. *)
Lemma split_join c ws : ws <> [] -> (forall w, w ∈ ws -> has_char c w = false) -> split_on c (join (String c "") ws) = ws.
Proof.
  induction ws as [|w ws IH]; intros Hn H; [done|]. destruct ws as [|w' ws].
  - apply split_on_plain, H. by left.
  - change (join ?e (w :: w' :: ws)) with (w +:+ e +:+ join e (w' :: ws)). rewrite append_cons.
    change ("" +:+ ?s) with s. rewrite split_on_word by (apply H; by left).
    rewrite IH; [done | done |]. intros v Hv. apply H. by right.
Qed.

Lemma universal_plain s : has_char cr s = false -> universal_newlines s = s.
Proof.
  induction s as [|c s IH]; intros H; cbn; [done|]. cbn [has_char] in H. apply orb_false_iff in H as [E H].
  rewrite Ascii.eqb_sym in E. fold cr in E. rewrite E, IH by done. done.
Qed.

Lemma has_char_join c sep ws : has_char c sep = false -> (forall w, w ∈ ws -> has_char c w = false) ->
  has_char c (join sep ws) = false.
Proof.
  intros Hs. induction ws as [|w ws IH]; intros H; [done|]. destruct ws as [|w' ws].
  - apply H. by left.
  - change (join ?e (w :: w' :: ws)) with (w +:+ e +:+ join e (w' :: ws)). rewrite !has_char_app, Hs, (H w), IH; [done | | by left]. intros v Hv. apply H. by right.
Qed.

(** A text joined from lines has these lines. *)
Lemma file_lines_join ws : ws <> [] -> (forall w, w ∈ ws -> has_char lf w = false /\ has_char cr w = false) ->
  file_lines (join newline ws) = ws.
Proof.
  intros Hn H. unfold file_lines. rewrite universal_plain.
  - apply split_join; [done|]. intros w Hw. by apply H.
  - apply has_char_join; [done|]. intros w Hw. by apply H.
Qed.

Lemma join_cons sep w ws : ws <> [] -> join sep (w :: ws) = w +:+ sep +:+ join sep ws.
Proof. by destruct ws. Qed.

Lemma join_app sep ws vs : ws <> [] -> vs <> [] -> join sep (ws ++ vs) = join sep ws +:+ sep +:+ join sep vs.
Proof.
  intros Hw Hv. induction ws as [|w ws IH]; [done|]. destruct ws as [|w' ws].
  - by rewrite <- join_cons.
  - rewrite <- app_comm_cons, !join_cons, IH by done. by rewrite !append_assoc.
Qed.

Lemma join_split c s : join (String c "") (split_on c s) = s.
Proof.
  induction s as [|d s IH]; [done|]. cbn [split_on]. pose proof (split_on_nonempty c s).
  destruct (Ascii.eqb_spec d c) as [->|_].
  - rewrite join_cons, IH by done. done.
  - destruct (split_on c s) as [|w ws] eqn:E; [done|]. destruct ws as [|w' ws].
    + cbn in *. by subst.
    + rewrite join_cons in IH |- * by done. by rewrite append_cons, IH.
Qed.

Lemma split_on_clean c s w : w ∈ split_on c s -> has_char c w = false.
Proof.
  revert w. induction s as [|d s IH]; intros w; cbn [split_on].
  - by intros ->%list_elem_of_singleton.
  - destruct (Ascii.eqb_spec d c) as [->|Hd].
    + intros [->|Hw]%elem_of_cons; auto.
    + destruct (split_on c s) as [|v vs]; intros Hw; apply elem_of_cons in Hw as [->|Hw].
      * cbn. by destruct (Ascii.eqb_spec c d).
      * by apply elem_of_nil in Hw.
      * cbn. rewrite (IH v) by (by left). by destruct (Ascii.eqb_spec c d).
      * apply IH. by right.
Qed.

Lemma split_on_sub c d s w : w ∈ split_on c s -> has_char d s = false -> has_char d w = false.
Proof.
  revert w. induction s as [|e s IH]; intros w; cbn [split_on has_char].
  - by intros ->%list_elem_of_singleton.
  - intros Hw [He Hs]%orb_false_iff. destruct (Ascii.eqb e c).
    + apply elem_of_cons in Hw as [->|Hw]; auto.
    + destruct (split_on c s) as [|v vs]; apply elem_of_cons in Hw as [->|Hw].
      * cbn. by rewrite He.
      * by apply elem_of_nil in Hw.
      * cbn. by rewrite He, (IH v) by (done || by left).
      * apply IH; [by right | done].
Qed.
