(* ===== verification/Requirements.v ===== *)
(** * Requirements: declared ranges and lockfiles
    ([scripts/check_requirements_drift.py], [scripts/regenerate_lockfiles.py])

    A requirements file is read line by line with its [-r] inclusions; the set
    [visited] of resolved paths is shared by the whole recursion, and the recursion
    takes fuel ([None]: not enough).  [packaging] is the class [Packaging]; the disk,
    [Path.resolve] and pip's installation report are arguments.  Files that are
    no UTF-8 text are not modelled. *)

From stdpp Require Import sorting.
From S2P Require Import Prelude PyStr PyFloat Effects PyText.
From Stdlib Require Import Ascii.

(** ** [packaging] *)

(** A parsed requirement: its name, the versions of its specifiers in the order the
    set is iterated, [specifier.contains(v, prereleases=True)], the text of the
    specifier set, and its marker, evaluated in an environment ([None]: a
    variable or comparison is undefined). *)
Record requirement := {
  req_name : string;
  spec_versions : list string;
  spec_contains : string -> result pyexn bool;
  spec_text : string;
  marker : option (list (string * string) -> option bool);
}.

Class Packaging := {
  Requirement : string -> option requirement;
  canonicalize_name : string -> string;
}.

(** ** Requirements files *)

Inductive line_kind :=
| Skipped
| Include (ref : string)
| Entry (line : string).

Definition classify (raw_line : string) : line_kind :=
  let line := strip raw_line in
  if negb (str_truthy line) || startswith "#" line then Skipped
  else if startswith "-r " line || startswith "--requirement " line then Include (strip (after_word line))
  else if startswith "-" line then Skipped
  else Entry line.

(** [d.update(e)] *)
Definition update {V} (d e : list (string * V)) : list (string * V) :=
  fold_left (fun d kv => assoc_set kv.1 kv.2 d) e d.

Section parse.
Context (read : Path -> option string) (resolve : Path -> Path).

(** The recursion of both parsers: [entry] reads a line of the file, [missing] is
    the message for a file that does not exist. *)
Section entries.
Context {V : Type} (missing : string) (entry : Path -> Z -> string -> result pyexn (string * V)).

Definition parsed_file : Type := option (result pyexn (list (string * V) * list Path)).

Fixpoint parse_lines (rec : Path -> list Path -> parsed_file) (file_path : Path) (line_no : Z) (lines : list string)
    (d : list (string * V)) (visited : list Path) : parsed_file :=
  match lines with
  | [] => Some (Ok (d, visited))
  | raw_line :: lines =>
      match classify raw_line with
      | Skipped => parse_lines rec file_path (line_no + 1) lines d visited
      | Include ref_filename =>
          match rec (joinpath (parent file_path) ref_filename) visited with
          | Some (Ok (nested, visited)) => parse_lines rec file_path (line_no + 1) lines (update d nested) visited
          | Some (Raise e) => Some (Raise e)
          | None => None
          end
      | Entry line =>
          match entry file_path line_no line with
          | Ok (name, v) => parse_lines rec file_path (line_no + 1) lines (assoc_set name v d) visited
          | Raise e => Some (Raise e)
          end
      end
  end.

Fixpoint parse_file (fuel : nat) (file_path : Path) (visited : list Path) : parsed_file :=
  match fuel with
  | O => None
  | S fuel =>
      if bool_decide (resolve file_path ∈ visited) then Some (Ok ([], visited))
      else match read file_path with
           | None => Some (Raise (OtherError (missing +:+ str_path file_path)))
           | Some text => parse_lines (parse_file fuel) file_path 1 (file_lines text) [] (resolve file_path :: visited)
           end
  end.
End entries.

Context `{Packaging}.

Definition requirement_entry (file_path : Path) (line_no : Z) (line : string)
    : result pyexn (string * (requirement * Path * Z)) :=
  match Requirement line with
  | Some req => Ok (canonicalize_name (req_name req), (req, file_path, line_no))
  | None => Raise ValueError
  end.

Definition parse_requirements_file (fuel : nat) (file_path : Path) : parsed_file :=
  parse_file "Requirements file not found: " requirement_entry fuel file_path [].

(** The version of the first specifier, blank without one. *)
Definition pinned (req : requirement) : string :=
  match spec_versions req with v :: _ => v | [] => "" end.

Definition lock_entry (file_path : Path) (line_no : Z) (line : string) : result pyexn (string * (string * Path * Z)) :=
  match Requirement line with
  | Some req => Ok (canonicalize_name (req_name req), (pinned req, file_path, line_no))
  | None => Raise ValueError
  end.

Definition parse_lock_file (fuel : nat) (file_path : Path) : parsed_file :=
  parse_file "Lock file not found: " lock_entry fuel file_path [].

(** ** The check *)

Definition check_package (lock_path : Path) (lock_pins : list (string * (string * Path * Z)))
    (declared : string * (requirement * Path * Z)) : result pyexn (list string) :=
  let '(canon_name, (req, req_file, _)) := declared in
  match assoc canon_name lock_pins with
  | None =>
      Ok ["Missing dependency: Package '" +:+ req_name req +:+ "' (declared range: '" +:+ spec_text req +:+ "') " +:+
          "declared in '" +:+ str_path req_file +:+ "' is missing from lock file '" +:+ str_path lock_path +:+ "'."]
  | Some (pinned_version, _, _) =>
      if negb (str_truthy pinned_version) then
        Ok ["Unpinned dependency: Package '" +:+ req_name req +:+ "' in lock file '" +:+ str_path lock_path +:+ "' " +:+
            "has no pinned version ('==x.y.z')."]
      else
        ok ← spec_contains req pinned_version;
        Ok (if ok : bool then [] else
              ["Version drift: Package '" +:+ req_name req +:+ "' locked version '" +:+ pinned_version +:+ "' " +:+
               "does not satisfy declared range '" +:+ spec_text req +:+ "' from '" +:+ str_path req_file +:+ "'."])
  end.

Definition check_requirements_drift (fuel : nat) (txt_path lock_path : Path) : option (result pyexn (list string)) :=
  match parse_requirements_file fuel txt_path with
  | Some (Ok (txt_reqs, _)) =>
      match parse_lock_file fuel lock_path with
      | Some (Ok (lock_pins, _)) =>
          Some (errors ← result_mapM (check_package lock_path lock_pins) txt_reqs; Ok (concat errors))
      | Some (Raise e) => Some (Raise e)
      | None => None
      end
  | Some (Raise e) => Some (Raise e)
  | None => None
  end.

(** Exit status for the arguments after the script's name. *)
Definition drift_main (fuel : nat) (argv : list string) : option (result pyexn Z) :=
  match argv with
  | [txt; lock] =>
      match check_requirements_drift fuel (path_of txt) (path_of lock) with
      | Some (Ok []) => Some (Ok 0)
      | Some (Ok _) => Some (Ok 1)
      | Some (Raise e) => Some (Raise e)
      | None => None
      end
  | _ => Some (Ok 2)
  end.
End parse.

(** ** Lockfiles *)

Section lockfiles.
Context `{Packaging}.

Definition CANONICAL_ENV : list (string * string) :=
  [("sys_platform", "linux"); ("platform_system", "Linux"); ("os_name", "posix"); ("python_version", "3.12")].

Definition tried_extras : list string := [""; "standard"; "crypto"; "email"; "timezone"; "asyncio"; "postgres"; "cffi"].

Definition is_valid_for_canonical_env (req : requirement) : bool :=
  match marker req with
  | None => true
  | Some evaluate =>
      existsb (fun extra => match evaluate (assoc_set "extra" extra CANONICAL_ENV) with Some b => b | None => false end)
              tried_extras
  end.

(** An element of the list [install] of pip's report. *)
Record install_item := {
  it_name : option string;
  it_version : option string;
  requires_dist : list string;
  requested : bool;
}.

Definition add_dependency (dep_map : list (string * list requirement)) (r_str : string) : list (string * list requirement) :=
  match Requirement r_str with
  | Some req =>
      let canon := canonicalize_name (req_name req) in
      assoc_set canon (default [] (assoc canon dep_map) ++ [req]) dep_map
  | None => dep_map
  end.

Definition dep_map (install_items : list install_item) : list (string * list requirement) :=
  fold_left (fun m item => fold_left add_dependency (requires_dist item) m) install_items [].

(** The reachability policy for one installed package. *)
Definition retained (deps : list (string * list requirement)) (item : install_item) (name : string) : bool :=
  if requested item then true
  else match default [] (assoc (canonicalize_name name) deps) with
       | [] => true
       | incoming_reqs => existsb is_valid_for_canonical_env incoming_reqs
       end.

Definition add_package (deps : list (string * list requirement)) (packages : list (string * string)) (item : install_item)
    : list (string * string) :=
  match it_name item, it_version item with
  | Some name, Some version =>
      if str_truthy name && str_truthy version && retained deps item name then assoc_set name version packages
      else packages
  | _, _ => packages
  end.

Definition packages (install_items : list install_item) : list (string * string) :=
  fold_left (add_package (dep_map install_items)) install_items [].

Definition lower_le (a b : string * string) : Prop := str_le (lower a.1) (lower b.1).
#[global] Instance lower_le_dec : RelDecision lower_le.
Proof. intros a b. unfold lower_le. apply _. Defined.

Definition pin_line (p : string * string) : string := p.1 +:+ "==" +:+ p.2.

Definition lock_lines (header_comment : string) (install_items : list install_item) : list string :=
  [strip header_comment; ""] ++ map pin_line (merge_sort lower_le (packages install_items)) ++ [""].

(** The lockfile for pip's answer: an error text or a report. *)
Definition resolve_lockfile_with_pip (pip : string + list install_item) (header_comment : string) : result pyexn string :=
  match pip with
  | inl _ => Raise RuntimeError
  | inr install_items => Ok (join newline (lock_lines header_comment install_items))
  end.

Definition BASE_LOCK_HEADER : string :=
  "# GaiaOS Phase 5 — Production Runtime Lockfile" +:+ newline +:+
  "# Generated by pip dependency resolution (scripts/regenerate_lockfiles.py).".
Definition DEV_LOCK_HEADER : string :=
  "# GaiaOS Phase 5 — Development & Testing Lockfile" +:+ newline +:+
  "# Generated by pip dependency resolution (scripts/regenerate_lockfiles.py).".

(** [main()] on a disk, a dictionary from path names to texts; [pip] answers for
    each of the two requirements files. *)
Definition regenerate_main (pip : string -> string + list install_item) (check_mode : bool)
    (disk : list (string * string)) : result pyexn Z * list (string * string) :=
  match resolve_lockfile_with_pip (pip "requirements/base.txt") BASE_LOCK_HEADER,
        resolve_lockfile_with_pip (pip "requirements/dev.txt") DEV_LOCK_HEADER with
  | Ok base, Ok dev =>
      if check_mode then
        let same lock content := bool_decide (universal_newlines <$> assoc lock disk = Some content) in
        (Ok (if same "requirements/base.lock" base && same "requirements/dev.lock" dev then 0 else 1), disk)
      else (Ok 0, assoc_set "requirements/dev.lock" dev (assoc_set "requirements/base.lock" base disk))
  | Raise e, _ | _, Raise e => (Raise e, disk)
  end.
End lockfiles.

(** ** Dictionaries *)

Section dicts.
Context {V : Type}.
Implicit Types d e : list (string * V).

Lemma assoc_set_from x k v d : x ∈ assoc_set k v d -> x = (k, v) \/ x ∈ d.
Proof.
  induction d as [|[k' v'] d IH]; cbn; [rewrite list_elem_of_singleton; auto|].
  destruct (String.eqb_spec k k') as [->|]; rewrite !elem_of_cons; naive_solver.
Qed.

Lemma assoc_set_key k' k v d : k' ∈ map fst (assoc_set k v d) <-> k' = k \/ k' ∈ map fst d.
Proof.
  rewrite assoc_set_keys. destruct (in_dict k d) eqn:E.
  - apply in_dict_elem in E. naive_solver.
  - rewrite elem_of_app, list_elem_of_singleton. tauto.
Qed.

Lemma update_from x d e : x ∈ update d e -> x ∈ d \/ x ∈ e.
Proof.
  unfold update. revert d. induction e as [|[k v] e IH]; intros d Hx; cbn in Hx; [by left|].
  apply IH in Hx as [[->|Hx]%assoc_set_from|Hx]; rewrite elem_of_cons; auto.
Qed.

Lemma update_key k d e : k ∈ map fst (update d e) <-> k ∈ map fst d \/ k ∈ map fst e.
Proof.
  unfold update. revert d. induction e as [|[k' v] e IH]; intros d; cbn.
  - rewrite elem_of_nil. tauto.
  - rewrite IH, assoc_set_key, elem_of_cons. tauto.
Qed.

Lemma update_NoDup d e : NoDup (map fst d) -> NoDup (map fst (update d e)).
Proof.
  unfold update. revert d. induction e as [|[k v] e IH]; intros d Hd; cbn; [done|]. by apply IH, assoc_set_NoDup.
Qed.
End dicts.

(** ** Reading with inclusions *)

Section reading.
Context (read : Path -> option string) (resolve : Path -> Path).
Context {V : Type} (missing : string) (entry : Path -> Z -> string -> result pyexn (string * V)).
Notation parse_lines := (@parse_lines V entry).
Notation parse_file := (@parse_file read resolve V missing entry).

(** The files that [p] includes, itself among them. *)
Inductive included (p : Path) : Path -> Prop :=
| included_self : included p p
| included_line q text raw ref : included p q -> read q = Some text -> raw ∈ file_lines text ->
    classify raw = Include ref -> included p (joinpath (parent q) ref).

Lemma included_first p text raw ref q : read p = Some text -> raw ∈ file_lines text -> classify raw = Include ref ->
  included (joinpath (parent p) ref) q -> included p q.
Proof. intros Hr Hin Hc. induction 1; [by eapply included_line; [apply included_self|..] | by eapply included_line]. Qed.

(** *** Termination *)

Definition unvisited (univ visited : list Path) : nat :=
  length (List.filter (fun p => negb (bool_decide (p ∈ visited))) univ).

Lemma unvisited_mono univ v v' : v ⊆ v' -> (unvisited univ v' <= unvisited univ v)%nat.
Proof.
  intros Hs. unfold unvisited. induction univ as [|p u IH]; cbn; [done|].
  repeat case_bool_decide; cbn; try lia. set_solver.
Qed.

Lemma unvisited_visit univ v p : p ∈ univ -> p ∉ v -> (unvisited univ (p :: v) < unvisited univ v)%nat.
Proof.
  intros Hin Hv. unfold unvisited. induction univ as [|q u IH]; [by apply elem_of_nil in Hin|]. cbn.
  pose proof (unvisited_mono u v (p :: v) ltac:(set_solver)) as Hm. unfold unvisited in Hm.
  apply elem_of_cons in Hin as [->|Hin].
  - rewrite bool_decide_true by (by left). rewrite bool_decide_false by done. cbn. lia.
  - specialize (IH Hin). repeat case_bool_decide; cbn; try lia. set_solver.
Qed.

Lemma parse_lines_total univ n (rec : Path -> list Path -> parsed_file) p lines :
  (forall q v, (unvisited univ v < n)%nat -> exists r, rec q v = Some r /\ forall d v', r = Ok (d, v') -> v ⊆ v') ->
  forall line_no d v, (unvisited univ v < n)%nat ->
  exists r, parse_lines rec p line_no lines d v = Some r /\ forall d' v', r = Ok (d', v') -> v ⊆ v'.
Proof.
  intros Hrec. induction lines as [|raw lines IH]; intros i d v Hv; cbn; [naive_solver|].
  destruct (classify raw); [by apply IH| |].
  - destruct (Hrec (joinpath (parent p) ref) v Hv) as ([[nested v']|e] & -> & Hs); [|eauto; naive_solver].
    specialize (Hs _ _ eq_refl). pose proof (unvisited_mono univ _ _ Hs).
    destruct (IH (i + 1) (update d nested) v') as (r & Hr & Hs'); [lia|]. exists r. split; [done|]. intros. etrans; eauto.
  - destruct (entry p i line) as [[k w]|e]; [by apply IH | eauto; naive_solver].
Qed.

Lemma parse_file_total univ : (forall q, is_Some (read q) -> resolve q ∈ univ) ->
  forall fuel p v, (unvisited univ v < fuel)%nat ->
  exists r, parse_file fuel p v = Some r /\ forall d v', r = Ok (d, v') -> v ⊆ v'.
Proof.
  intros Hu. induction fuel as [|fuel IH]; intros p v Hv; [lia|]. cbn.
  case_bool_decide as E; [naive_solver|].
  destruct (read p) as [text|] eqn:Er; [|naive_solver].
  pose proof (unvisited_visit univ v (resolve p) ltac:(eauto) E).
  destruct (parse_lines_total univ fuel (parse_file fuel) p (file_lines text) IH 1 [] (resolve p :: v))
    as (r & Hr & Hs); [lia|]. exists r. split; [done|]. intros d v' ->. specialize (Hs _ _ eq_refl). set_solver.
Qed.

(** *** What is collected *)

(** A line of [q] is accounted for in a dictionary and a set of visited files. *)
Definition line_done (q : Path) (d : list (string * V)) (visited : list Path) (raw : string) : Prop :=
  match classify raw with
  | Skipped => True
  | Include ref => resolve (joinpath (parent q) ref) ∈ visited
  | Entry line => exists n k v, entry q n line = Ok (k, v) /\ k ∈ map fst d
  end.

Definition file_done (q : Path) (d : list (string * V)) (visited : list Path) : Prop :=
  exists text, read q = Some text /\ forall raw, raw ∈ file_lines text -> line_done q d visited raw.

Lemma line_done_mono q d d' v v' raw : map fst d ⊆ map fst d' -> v ⊆ v' -> line_done q d v raw -> line_done q d' v' raw.
Proof. intros Hd Hv. unfold line_done. destruct (classify raw); naive_solver. Qed.

Lemma file_done_mono q d d' v v' : map fst d ⊆ map fst d' -> v ⊆ v' -> file_done q d v -> file_done q d' v'.
Proof. intros Hd Hv (text & Hr & H). exists text. eauto using line_done_mono. Qed.

(** What a call adds: every file newly visited is included in [p] and done. *)
Definition visits (p : Path) (v : list Path) (d : list (string * V)) (v' : list Path) : Prop :=
  v ⊆ v' /\ forall x, x ∈ v' -> x ∈ v \/ exists q, resolve q = x /\ included p q /\ file_done q d v'.

Lemma parse_lines_done (rec : Path -> list Path -> parsed_file) p text :
  read p = Some text ->
  (forall q v d v', rec q v = Some (Ok (d, v')) -> resolve q ∈ v' /\ visits q v d v') ->
  forall lines line_no d v d' v', lines ⊆ file_lines text ->
  parse_lines rec p line_no lines d v = Some (Ok (d', v')) ->
  map fst d ⊆ map fst d' /\ (forall raw, raw ∈ lines -> line_done p d' v' raw) /\ visits p v d' v'.
Proof.
  intros Hr Hrec. induction lines as [|raw lines IH]; intros i d v d' v' Hsub H; cbn in H.
  { simplify_eq. split; [done|]. split; [set_solver|]. split; [done | auto]. }
  assert (lines ⊆ file_lines text) as Hsub' by set_solver.
  assert (forall P : string -> Prop, P raw -> (forall r, r ∈ lines -> P r) -> forall r, r ∈ raw :: lines -> P r) as Hcons.
  { intros P H0 H1 r [->|?]%elem_of_cons; auto. }
  destruct (classify raw) as [|ref|line] eqn:Hc.
  - destruct (IH _ _ _ _ _ Hsub' H) as (Hd & Hl & Hv). split; [done|]. split; [|done].
    apply Hcons; [|done]. unfold line_done. by rewrite Hc.
  - destruct (rec _ v) as [[[nested v1]|e]|] eqn:Er; [|done..].
    destruct (Hrec _ _ _ _ Er) as (Hq & Hs1 & Hv1). destruct (IH _ _ _ _ _ Hsub' H) as (Hd & Hl & Hs2 & Hv2).
    split; [intros k Hk; apply Hd, update_key; auto|]. split.
    { apply Hcons; [|done]. unfold line_done. rewrite Hc. set_solver. }
    split; [set_solver|]. intros x Hx. destruct (Hv2 _ Hx) as [Hx1|?]; [|auto].
    destruct (Hv1 _ Hx1) as [?|(q & Hx' & Hi & Hf)]; [auto|]. right. exists q. split; [done|].
    split; [eapply included_first; eauto; set_solver|].
    eapply file_done_mono; [|done|exact Hf]. intros k Hk. apply Hd, update_key. auto.
  - destruct (entry p i line) as [[k w]|e] eqn:Ee; [|done].
    destruct (IH _ _ _ _ _ Hsub' H) as (Hd & Hl & Hv). split; [intros k' Hk; apply Hd, assoc_set_key; auto|].
    split; [|done]. apply Hcons; [|done]. unfold line_done. rewrite Hc. exists i, k, w. split; [done|].
    apply Hd, assoc_set_key. auto.
Qed.

Lemma parse_file_done fuel : forall p v d v', parse_file fuel p v = Some (Ok (d, v')) ->
  resolve p ∈ v' /\ visits p v d v'.
Proof.
  induction fuel as [|fuel IH]; intros p v d v' H; [done|]. cbn in H.
  case_bool_decide as E; [simplify_eq; split; [done|]; split; [done | auto]|].
  destruct (read p) as [text|] eqn:Hr; [|done].
  destruct (parse_lines_done (parse_file fuel) p text Hr IH _ _ _ _ _ _ ltac:(done) H) as (_ & Hl & Hs & Hv).
  split; [set_solver|]. split; [set_solver|]. intros x Hx. destruct (Hv _ Hx) as [[->|?]%elem_of_cons|?]; [|auto..].
  right. exists p. split; [done|]. split; [apply included_self|]. by exists text.
Qed.

(** Paths that name the same file have the same text and include the same files. *)
Definition same_files : Prop := forall p q, resolve p = resolve q ->
  read p = read q /\ forall ref, resolve (joinpath (parent p) ref) = resolve (joinpath (parent q) ref).

Lemma all_included_done fuel p d v q : same_files -> parse_file fuel p [] = Some (Ok (d, v)) -> included p q ->
  exists q', resolve q' = resolve q /\ file_done q' d v.
Proof.
  intros Hsame H Hq. destruct (parse_file_done _ _ _ _ _ H) as (Hp & _ & Hv).
  assert (forall x, x ∈ v -> exists q', resolve q' = x /\ file_done q' d v) as Hall.
  { intros x [Hx|(q' & ? & _ & ?)]%Hv; [by apply elem_of_nil in Hx | eauto]. }
  apply Hall. induction Hq as [|q text raw ref Hq IH Hr Hin Hc]; [done|].
  destruct (Hall _ IH) as (q' & E & text' & Hr' & Hl). destruct (Hsame _ _ E) as [Er Ei].
  assert (text' = text) as -> by congruence. specialize (Hl _ Hin). unfold line_done in Hl. rewrite Hc in Hl. by rewrite <- Ei.
Qed.

(** *** Where an entry comes from *)

(** [x] is what the parser makes of line [n] of [q]. *)
Definition entry_of (x : string * V) (p : Path) : Prop :=
  exists q n text raw line, included p q /\ read q = Some text /\ raw ∈ file_lines text /\
    classify raw = Entry line /\ entry q n line = Ok x.

Lemma parse_lines_from (rec : Path -> list Path -> parsed_file) p text :
  read p = Some text ->
  (forall q v d v', rec q v = Some (Ok (d, v')) -> forall x, x ∈ d -> entry_of x q) ->
  forall lines line_no d v d' v', lines ⊆ file_lines text ->
  parse_lines rec p line_no lines d v = Some (Ok (d', v')) -> forall x, x ∈ d' -> x ∈ d \/ entry_of x p.
Proof.
  intros Hr Hrec. induction lines as [|raw lines IH]; intros i d v d' v' Hsub H x Hx; cbn in H.
  { simplify_eq. by left. }
  assert (lines ⊆ file_lines text) as Hsub' by set_solver.
  destruct (classify raw) as [|ref|line] eqn:Hc; [by eapply IH| |].
  - destruct (rec _ v) as [[[nested v1]|e]|] eqn:Er; [|done..].
    destruct (IH _ _ _ _ _ Hsub' H _ Hx) as [[?|Hn]%update_from|?]; [by left| |by right].
    right. destruct (Hrec _ _ _ _ Er _ Hn) as (q & n & t & r & l & Hi & Hrest). exists q, n, t, r, l. split; [|done].
    eapply included_first; eauto; set_solver.
  - destruct (entry p i line) as [[k w]|e] eqn:Ee; [|done].
    destruct (IH _ _ _ _ _ Hsub' H _ Hx) as [[->|?]%assoc_set_from|?]; [|by left|by right].
    right. exists p, i, text, raw, line. split; [apply included_self|]. split; [done|]. split; [set_solver | done].
Qed.

Lemma parse_file_from fuel : forall p v d v', parse_file fuel p v = Some (Ok (d, v')) ->
  forall x, x ∈ d -> entry_of x p.
Proof.
  induction fuel as [|fuel IH]; intros p v d v' H x Hx; [done|]. cbn in H.
  case_bool_decide; [simplify_eq; by apply elem_of_nil in Hx|]. destruct (read p) as [text|] eqn:Hr; [|done].
  destruct (parse_lines_from (parse_file fuel) p text Hr IH _ _ _ _ _ _ ltac:(done) H _ Hx) as [Hn|?]; [|done].
  by apply elem_of_nil in Hn.
Qed.

Lemma parse_lines_NoDup (rec : Path -> list Path -> parsed_file) p lines : forall i d v d' v',
  parse_lines rec p i lines d v = Some (Ok (d', v')) -> NoDup (map fst d) -> NoDup (map fst d').
Proof.
  induction lines as [|raw lines IH]; intros i d v d' v' H Hd; cbn in H; [by simplify_eq|].
  destruct (classify raw); [by eauto| |].
  - destruct (rec _ v) as [[[? ?]|]|]; [|done..]. eauto using update_NoDup.
  - destruct (entry _ _ _) as [[? ?]|]; [|done]. eauto using assoc_set_NoDup.
Qed.

Lemma parse_file_NoDup fuel p v d v' : parse_file fuel p v = Some (Ok (d, v')) -> NoDup (map fst d).
Proof.
  destruct fuel; [done|]. cbn. case_bool_decide; [intros; simplify_eq; constructor|].
  destruct (read p); [|done]. intros E. eapply parse_lines_NoDup; [exact E | constructor].
Qed.
End reading.

(** ** The check on the files *)

Lemma check_package_ok lock_path pins k req f n :
  check_package lock_path pins (k, (req, f, n)) = Ok [] <->
  exists v g m, assoc k pins = Some (v, g, m) /\ v <> "" /\ spec_contains req v = Ok true.
Proof.
  unfold check_package. destruct (assoc k pins) as [[[v g] m]|]; [|naive_solver].
  unfold str_truthy. destruct (String.eqb_spec v "") as [->|Hv]; cbn [negb]; [naive_solver|].
  destruct (spec_contains req v) as [[]|e] eqn:E; cbn; split; [by eauto 7|done|..].
  all: try (by intros [=]). all: intros (? & ? & ? & ? & _ & ?); simplify_eq; congruence.
Qed.

Section drift.
Context (read : Path -> option string) (resolve : Path -> Path) `{Packaging}.

(** [line] is an entry of a file that [p] includes. *)
Definition has_entry (p : Path) (line : string) : Prop :=
  exists q text raw, included read p q /\ read q = Some text /\ raw ∈ file_lines text /\ classify raw = Entry line.

Lemma entry_collected {V} missing (entry : Path -> Z -> string -> result pyexn (string * V)) fuel p d v line :
  same_files read resolve -> parse_file read resolve missing entry fuel p [] = Some (Ok (d, v)) -> has_entry p line ->
  exists q n k w, entry q n line = Ok (k, w) /\ k ∈ map fst d.
Proof.
  intros Hs Hp (q & text & raw & Hq & Hr & Hin & Hc).
  destruct (all_included_done _ _ _ _ _ _ _ _ _ Hs Hp Hq) as (q' & E & text' & Hr' & Hl).
  assert (text' = text) as -> by (destruct (Hs _ _ E); congruence). specialize (Hl _ Hin). unfold line_done in Hl.
  rewrite Hc in Hl. destruct Hl as (n & k & w & ? & ?). eauto 6.
Qed.

Lemma check_ok fuel txt lock : check_requirements_drift read resolve fuel txt lock = Some (Ok []) <->
  exists reqs v pins v', parse_requirements_file read resolve fuel txt = Some (Ok (reqs, v)) /\
    parse_lock_file read resolve fuel lock = Some (Ok (pins, v')) /\
    forall x, x ∈ reqs -> check_package lock pins x = Ok [].
Proof.
  unfold check_requirements_drift.
  destruct (parse_requirements_file _ _ _ _) as [[[reqs v]|]|]; [|naive_solver..].
  destruct (parse_lock_file _ _ _ _) as [[[pins v']|]|]; [|naive_solver..].
  assert (forall l, (errors ← result_mapM (check_package lock pins) l; Ok (concat errors)) = Ok [] <->
                    forall x, x ∈ l -> check_package lock pins x = Ok []) as Hl.
  { induction l as [|x l IH]; cbn; [split; [set_solver | done]|].
    destruct (check_package lock pins x) as [[|s es]|e] eqn:E; cbn.
    - destruct (result_mapM _ l) as [ess|]; cbn in *; rewrite ?IH; setoid_rewrite elem_of_cons; naive_solver.
    - destruct (result_mapM _ l) as [ess|]; cbn in *; split; try done; intros Hx; specialize (Hx x ltac:(by left)); congruence.
    - split; [done|]. intros Hx. specialize (Hx x ltac:(by left)). congruence. }
  split.
  - intros [= E]. exists reqs, v, pins, v'. rewrite <- Hl. done.
  - intros (? & ? & ? & ? & [= <- <-] & [= <- <-] & Hx). f_equal. by apply Hl.
Qed.

(** A check without complaints vouches for every requirement declared in any
    included file: a line of the lockfile pins the package, and the pinned version
    is in the declared range, as long as the package has one range in these files
    (of several, the last one read counts). *)
Theorem no_drift_covers (fuel : nat) (txt lock : Path) (line : string) :
  same_files read resolve -> check_requirements_drift read resolve fuel txt lock = Some (Ok []) -> has_entry txt line ->
  exists req pin_text pin, Requirement line = Some req /\
    has_entry lock pin_text /\ Requirement pin_text = Some pin /\
    canonicalize_name (req_name pin) = canonicalize_name (req_name req) /\ pinned pin <> "" /\
    ((forall other req', has_entry txt other -> Requirement other = Some req' ->
        canonicalize_name (req_name req') = canonicalize_name (req_name req) -> spec_contains req' = spec_contains req) ->
     spec_contains req (pinned pin) = Ok true).
Proof.
  intros Hs (reqs & v & pins & v' & Hreqs & Hpins & Hall)%check_ok Hline.
  destruct (entry_collected _ _ _ _ _ _ _ Hs Hreqs Hline) as (q & n & k & w & He & Hk).
  unfold requirement_entry in He. destruct (Requirement line) as [req|] eqn:Er; [|done]. simplify_eq/=.
  apply list_elem_of_fmap in Hk as ([k [[req' f] m]] & Ek & Hin). cbn in Ek.
  destruct (parse_file_from _ _ _ _ _ _ _ _ _ Hreqs _ Hin) as (q1 & n1 & text1 & raw1 & line1 & Hq1 & Hr1 & Hin1 & Hc1 & He1).
  unfold requirement_entry in He1. destruct (Requirement line1) as [r1|] eqn:E1; [|done]. injection He1 as <- <- <- <-.
  apply Hall, check_package_ok in Hin as (ver & g & i & Hpin & Hne & Hsat).
  assert ((canonicalize_name (req_name r1), (ver, g, i)) ∈ pins) as Hp.
  { clear - Hpin. induction pins as [|[k u] pins IH]; cbn in Hpin; [done|].
    destruct (String.eqb_spec (canonicalize_name (req_name r1)) k) as [->|]; [simplify_eq; by left | right; auto]. }
  destruct (parse_file_from _ _ _ _ _ _ _ _ _ Hpins _ Hp) as (q2 & n2 & text2 & raw2 & line2 & Hq2 & Hr2 & Hin2 & Hc2 & He2).
  unfold lock_entry in He2. destruct (Requirement line2) as [pin|] eqn:E2; [|done]. injection He2 as Ec <- _ _.
  exists req, line2, pin. split; [done|]. split; [by exists q2, text2, raw2|]. split; [done|].
  split; [congruence|]. split; [done|]. intros Hone. rewrite <- (Hone line1 r1); [done | by exists q1, text1, raw1 | done | congruence].
Qed.

(** Inclusions may be circular: the check always comes to an end, with one
    level of recursion more than there are files. *)
Theorem drift_check_total (univ : list Path) (fuel : nat) (txt lock : Path) :
  (forall q, is_Some (read q) -> resolve q ∈ univ) -> (length univ < fuel)%nat ->
  is_Some (check_requirements_drift read resolve fuel txt lock).
Proof.
  intros Hu Hf. assert (forall v, (unvisited univ v < fuel)%nat) as Hlt.
  { intros v. unfold unvisited. pose proof (List.filter_length_le (fun p => negb (bool_decide (p ∈ v))) univ). lia. }
  unfold check_requirements_drift, parse_requirements_file, parse_lock_file.
  destruct (parse_file_total read resolve "Requirements file not found: " requirement_entry univ Hu fuel txt [] (Hlt _))
    as ([[reqs v]|e] & -> & _); [|eauto].
  destruct (parse_file_total read resolve "Lock file not found: " lock_entry univ Hu fuel lock [] (Hlt _))
    as ([[pins v']|e] & -> & _); eauto.
Qed.
End drift.

(** ** Lockfiles on disk *)

Fixpoint blank_free (s : string) : bool :=
  match s with EmptyString => true | String c s => negb (is_space c) && blank_free s end.

Lemma blank_free_app a b : blank_free (a +:+ b) = blank_free a && blank_free b.
Proof. induction a as [|c a IH]; [done|]. rewrite append_cons. cbn. by rewrite IH, andb_assoc. Qed.

Lemma blank_free_char c s : is_space c = true -> blank_free s = true -> has_char c s = false.
Proof.
  intros Hc. induction s as [|d s IH]; cbn; [done|]. intros [Hd Hs]%andb_true_iff. rewrite IH by done.
  destruct (Ascii.eqb_spec c d) as [->|]; [by rewrite Hc in Hd | done].
Qed.

Lemma strip_blank_free s : blank_free s = true -> strip s = s.
Proof.
  intros Hs. unfold strip. assert (lstrip s = s) as ->.
  { destruct s as [|c s]; [done|]. cbn in *. by destruct (is_space c). }
  induction s as [|c s IH]; [done|]. cbn in *. apply andb_true_iff in Hs as [Hc Hs]. rewrite IH by done.
  by destruct (is_space c); destruct s.
Qed.

Section locks.
Context `{Packaging}.

(** What the script relies on in a name and a version of pip's report: they make
    up one line that [packaging] reads back. *)
Definition pin_ok (p : string * string) : Prop :=
  blank_free p.1 = true /\ blank_free p.2 = true /\ p.1 <> "" /\ p.2 <> "" /\
  startswith "#" p.1 = false /\ startswith "-" p.1 = false /\
  exists req, Requirement (pin_line p) = Some req /\ req_name req = p.1 /\ spec_versions req = [p.2].

(** Canonical names are installed once. *)
Definition report_ok (items : list install_item) : Prop :=
  NoDup (map canonicalize_name (omap it_name items)) /\
  forall item name version, item ∈ items -> it_name item = Some name -> it_version item = Some version ->
    name <> "" -> version <> "" -> pin_ok (name, version).

Definition header_ok (header : string) : Prop :=
  has_char cr (strip header) = false /\ forall l, l ∈ split_on lf (strip header) -> classify l = Skipped.

Lemma header_okb header :
  negb (has_char cr (strip header)) &&
  forallb (fun l => match classify l with Skipped => true | _ => false end) (split_on lf (strip header)) = true ->
  header_ok header.
Proof.
  intros [Hc Hl]%andb_true_iff. split; [by apply negb_true_iff|]. intros l Hin. rewrite forallb_true in Hl.
  specialize (Hl l Hin). by destruct (classify l).
Qed.

Lemma startswith_char c a b : a <> "" -> startswith (String c "") (a +:+ b) = startswith (String c "") a.
Proof. destruct a as [|d a]; [done|]. intros _. rewrite append_cons. unfold startswith. cbn. case_match; [by destruct (a +:+ b), a | done]. Qed.

Lemma startswith_more c p s : startswith (String c "") s = false -> startswith (String c p) s = false.
Proof. destruct s as [|d s]; [done|]. unfold startswith. cbn. case_match; [|done]. by destruct s. Qed.

Lemma classify_pin p : pin_ok p -> classify (pin_line p) = Entry (pin_line p).
Proof.
  intros (Hn & Hv & Hne & _ & Hh & Hd & _). unfold classify, pin_line.
  rewrite strip_blank_free by (by rewrite !blank_free_app, Hn, Hv).
  rewrite !startswith_char, Hh, Hd by done.
  rewrite !(startswith_more "-") by (by rewrite startswith_char).
  destruct p as [[|c n] v]; [done|]. by rewrite append_cons.
Qed.

Lemma pin_line_clean p c : is_space c = true -> pin_ok p -> has_char c (pin_line p) = false.
Proof. intros Hc (Hn & Hv & _). apply blank_free_char; [done|]. unfold pin_line. by rewrite !blank_free_app, Hn, Hv. Qed.

Lemma fold_packages deps l : forall acc n v, NoDup (omap it_name l) ->
  (forall k, k ∈ map fst acc -> k ∉ omap it_name l) ->
  (n, v) ∈ fold_left (add_package deps) l acc <->
  (n, v) ∈ acc \/ exists item, item ∈ l /\ it_name item = Some n /\ it_version item = Some v /\
    n <> "" /\ v <> "" /\ retained deps item n = true.
Proof.
  induction l as [|item l IH]; intros acc n v Hnd Hacc; cbn [fold_left].
  { split; [auto|]. intros [?|(? & []%elem_of_nil & _)]; done. }
  cbn in Hnd, Hacc.
  assert (forall b, (item = b \/ b ∈ l) <-> b ∈ item :: l) as Hc by (intros b; rewrite elem_of_cons; naive_solver).
  unfold add_package at 2. destruct (it_name item) as [n0|] eqn:En.
  2: { rewrite IH by done. split; [intros [?|(b & ? & ?)]; [by left|right; exists b; set_solver]|].
       intros [?|(b & Hb & ?)]; [by left|]. right. exists b. split; [|done]. apply Hc in Hb as [<-|?]; [naive_solver | done]. }
  cbn in Hnd, Hacc. inversion Hnd as [|? ? Hn0 Hnd']; subst.
  assert (n0 ∉ map fst acc) as Hfresh by (intros Hk; apply (Hacc _ Hk); by left).
  set (acc' := match it_version item with Some _ => _ | None => _ end).
  assert (forall x, x ∈ acc' <-> x ∈ acc \/ exists w, it_version item = Some w /\ x = (n0, w) /\
            n0 <> "" /\ w <> "" /\ retained deps item n0 = true) as Hacc'.
  { intros x. unfold acc'. destruct (it_version item) as [w|]; [|naive_solver].
    unfold str_truthy. destruct (String.eqb_spec n0 ""), (String.eqb_spec w ""); cbn; [naive_solver..|].
    destruct (retained deps item n0) eqn:Hr; [|naive_solver].
    assert (x ∈ assoc_set n0 w acc <-> x = (n0, w) \/ x ∈ acc) as ->; [|naive_solver].
    clear - Hfresh. induction acc as [|[k u] acc IH]; cbn; [by rewrite list_elem_of_singleton, elem_of_nil; tauto|].
    cbn in Hfresh. rewrite not_elem_of_cons in Hfresh. destruct (String.eqb_spec n0 k); [naive_solver|].
    rewrite !elem_of_cons, IH by naive_solver. tauto. }
  rewrite IH; [|done|].
  - rewrite Hacc'. setoid_rewrite elem_of_cons. split.
    + intros [[?|(w & ? & [= -> ->] & ?)]|(b & ? & ?)]; [by left|right; exists item; tauto|right; exists b; tauto].
    + intros [?|(b & [->|?] & Hb)]; [by auto| |by eauto]. left. right. exists v. naive_solver.
  - intros k Hk. apply list_elem_of_fmap in Hk as ([k' u] & -> & [Hk|(w & _ & [= -> ->] & _)]%Hacc'); [|done].
    intros Hin. apply (Hacc k'); [apply list_elem_of_fmap; by exists (k', u) | by right].
Qed.

Lemma report_names items : report_ok items -> NoDup (omap it_name items).
Proof. intros [Hn _]. by apply NoDup_fmap_1 in Hn. Qed.

Lemma packages_spec items n v : report_ok items ->
  (n, v) ∈ packages items <->
  exists item, item ∈ items /\ it_name item = Some n /\ it_version item = Some v /\
    n <> "" /\ v <> "" /\ retained (dep_map items) item n = true.
Proof.
  intros Hok. unfold packages. rewrite fold_packages; [|by apply report_names | by intros k Hk; apply elem_of_nil in Hk].
  split; [intros [Hx|?]; [by apply elem_of_nil in Hx | done] | auto].
Qed.

Lemma fold_packages_NoDup deps l : forall acc, NoDup (map fst acc) -> NoDup (map fst (fold_left (add_package deps) l acc)).
Proof.
  induction l as [|item l IH]; intros acc Hacc; cbn; [done|]. apply IH. unfold add_package.
  repeat case_match; auto using assoc_set_NoDup.
Qed.

Lemma package_names items : report_ok items -> NoDup (map canonicalize_name (map fst (packages items))).
Proof.
  intros Hok. apply NoDup_fmap_2_strong; [|apply fold_packages_NoDup; constructor].
  assert (forall n, n ∈ map fst (packages items) -> n ∈ omap it_name items) as Hin.
  { intros n ([n' v] & -> & Hx)%list_elem_of_fmap. apply packages_spec in Hx as (item & ? & ? & _); [|done].
    apply list_elem_of_omap. eauto. }
  intros a b Ha%Hin Hb%Hin. apply (NoDup_map_inj _ (omap it_name items)); [apply Hok | done | done].
Qed.

(** The lines of a generated lockfile. *)
Lemma lock_text_lines header items : header_ok header -> report_ok items ->
  file_lines (join newline (lock_lines header items)) =
  split_on lf (strip header) ++ [""] ++ map pin_line (merge_sort lower_le (packages items)) ++ [""].
Proof.
  intros [Hcr Hh] Hok. set (pins := map pin_line (merge_sort lower_le (packages items))).
  assert (join newline (lock_lines header items) = join newline (split_on lf (strip header) ++ [""] ++ pins ++ [""])) as ->.
  { unfold lock_lines. fold pins. cbn [app]. rewrite join_cons, join_app by (done || apply split_on_nonempty).
    f_equal. unfold newline. by rewrite join_split. }
  apply file_lines_join; [by destruct (split_on lf (strip header))|].
  intros w. rewrite !elem_of_app, !list_elem_of_singleton. intros [Hw|[->|[Hw| ->]]]; [|done| |done].
  - split; [by eapply split_on_clean | by eapply split_on_sub].
  - apply list_elem_of_fmap in Hw as ([n v] & -> & Hin). rewrite merge_sort_Permutation in Hin.
    apply packages_spec in Hin as (item & Hi & En & Ev & Hn & Hv & _); [|done].
    assert (pin_ok (n, v)) by (eapply Hok; eauto). split; by apply pin_line_clean.
Qed.

(** Reading lines without entries or inclusions. *)
Lemma parse_skipped {V} (entry : Path -> Z -> string -> result pyexn (string * V)) rec p l :
  (forall raw, raw ∈ l -> classify raw = Skipped) -> forall i rest d v,
  parse_lines entry rec p i (l ++ rest) d v = parse_lines entry rec p (i + Z.of_nat (length l)) rest d v.
Proof.
  induction l as [|raw l IH]; intros Hl i rest d v; cbn [app parse_lines length].
  - f_equal. lia.
  - rewrite (Hl raw) by (by left). rewrite IH by (intros; apply Hl; by right). f_equal. lia.
Qed.

Lemma parse_pins rec p l : (forall x, x ∈ l -> pin_ok x) -> NoDup (map canonicalize_name (map fst l)) ->
  forall i rest d v, exists d' j,
  parse_lines lock_entry rec p i (map pin_line l ++ rest) d v = parse_lines lock_entry rec p j rest d' v /\
  (forall n w, (n, w) ∈ l -> exists m, assoc (canonicalize_name n) d' = Some (w, p, m)) /\
  (forall k, k ∉ map canonicalize_name (map fst l) -> assoc k d' = assoc k d).
Proof.
  induction l as [|[n w] l IH]; intros Hl Hnd i rest d v; cbn [map app].
  { exists d, i. split; [done|]. split; [by intros ? ? ?%elem_of_nil | done]. }
  assert (pin_ok (n, w)) as Hp by (apply Hl; by left). cbn [parse_lines]. rewrite classify_pin by done.
  destruct Hp as (_ & _ & _ & _ & _ & _ & req & Hreq & Hname & Hver). unfold lock_entry at 1. rewrite Hreq, Hname.
  unfold pinned. rewrite Hver. cbn [fst snd] in *. inversion Hnd as [|? ? Hni Hnd']; subst.
  destruct (IH ltac:(intros; apply Hl; by right) Hnd' (i + 1) rest
              (assoc_set (canonicalize_name (req_name req)) (w, p, i) d) v) as (d' & j & Hd & Hin & Hout).
  exists d', j. split; [done|]. split.
  - intros n' w' [[= -> ->]|?]%elem_of_cons; [|by apply Hin]. exists i. rewrite Hout by done. apply assoc_set_eq.
  - intros k Hk. rewrite not_elem_of_cons in Hk. rewrite Hout by naive_solver. apply assoc_set_ne. naive_solver.
Qed.

(** A generated lockfile pins exactly the packages that are requested, or that no
    dependency mentions, or that some dependency demands in the canonical
    environment. *)
Lemma lock_pins read resolve fuel lock header items : header_ok header -> report_ok items ->
  read lock = Some (join newline (lock_lines header items)) ->
  exists pins v, parse_lock_file read resolve (S fuel) lock = Some (Ok (pins, v)) /\
    (forall n w, (n, w) ∈ packages items -> exists m, assoc (canonicalize_name n) pins = Some (w, lock, m)) /\
    (forall k, k ∉ map canonicalize_name (map fst (packages items)) -> assoc k pins = None).
Proof.
  intros Hh Hok Hr. unfold parse_lock_file. cbn [parse_file]. rewrite bool_decide_false by (apply not_elem_of_nil).
  rewrite Hr, lock_text_lines by done. set (l := merge_sort lower_le (packages items)).
  assert (l ≡ₚ packages items) as Hperm by apply merge_sort_Permutation.
  assert (forall x, x ∈ l -> pin_ok x) as Hpins.
  { intros [n w] Hx. rewrite Hperm in Hx. apply packages_spec in Hx as (item & ? & ? & ? & ? & ? & _); [|done].
    by eapply Hok. }
  assert (NoDup (map canonicalize_name (map fst l))) as Hnd by (rewrite Hperm; apply package_names; done).
  rewrite app_assoc, parse_skipped.
  2: { intros raw [?| ->%list_elem_of_singleton]%elem_of_app; [by apply Hh | done]. }
  destruct (parse_pins (parse_file read resolve "Lock file not found: " lock_entry fuel) lock l Hpins Hnd
    (1 + Z.of_nat (length (split_on lf (strip header) ++ [""]))) [""] [] [resolve lock]) as (d' & j & -> & Hin & Hout).
  exists d', [resolve lock]. split; [done|]. split.
  - intros n w Hx. apply Hin. by rewrite Hperm.
  - intros k Hk. apply Hout. by rewrite Hperm.
Qed.
End locks.

(** ** Theorems on lockfiles *)

(** A freshly generated lockfile passes the check, circular inclusions and all: if
    pip's report has, for every requirement declared in the included files, a
    requested package of that name in the declared range, the lockfile written
    from it is read back with these versions and no drift is reported. *)
Theorem fresh_lock_no_drift `{Packaging} (read : Path -> option string) (resolve : Path -> Path) (fuel : nat)
    (txt lock : Path) (header text : string) (items : list install_item)
    (reqs : list (string * (requirement * Path * Z))) (v : list Path) :
  header_ok header -> report_ok items ->
  resolve_lockfile_with_pip (inr items) header = Ok text -> read lock = Some text ->
  parse_requirements_file read resolve (S fuel) txt = Some (Ok (reqs, v)) ->
  (forall line req, has_entry read txt line -> Requirement line = Some req ->
     exists item name version, item ∈ items /\ requested item = true /\ it_name item = Some name /\
       it_version item = Some version /\ name <> "" /\ version <> "" /\
       canonicalize_name name = canonicalize_name (req_name req) /\ spec_contains req version = Ok true) ->
  check_requirements_drift read resolve (S fuel) txt lock = Some (Ok []).
Proof.
  intros Hh Hok [= <-] Hr Hreqs Hpip.
  destruct (lock_pins read resolve fuel lock header items Hh Hok Hr) as (pins & v' & Hpins & Hin & _).
  apply check_ok. exists reqs, v, pins, v'. split; [done|]. split; [done|]. intros [k [[req f] n]] Hx.
  destruct (parse_file_from _ _ _ _ _ _ _ _ _ Hreqs _ Hx) as (q & i & t & raw & line & Hq & Ht & Hraw & Hc & He).
  unfold requirement_entry in He. destruct (Requirement line) as [req'|] eqn:Er; [|done]. injection He as <- -> _ _.
  destruct (Hpip line req) as (item & name & version & Hi & Hreq & Hn & Hv & Hne & Hve & Hcan & Hsat);
    [by exists q, t, raw | done|].
  destruct (Hin name version) as (m & Hm).
  { apply packages_spec; [done|]. exists item. unfold retained. by rewrite Hreq. }
  apply check_package_ok. exists version, lock, m. by rewrite <- Hcan.
Qed.

(** Which installed packages a generated lockfile pins: those requested, those
    no dependency mentions, and those that a dependency demands under one of the
    eight extras that are tried in the canonical environment. *)
Theorem lock_pins_iff `{Packaging} (read : Path -> option string) (resolve : Path -> Path) (fuel : nat)
    (lock : Path) (header text : string) (items : list install_item) (item : install_item) (name version : string) :
  header_ok header -> report_ok items -> resolve_lockfile_with_pip (inr items) header = Ok text -> read lock = Some text ->
  item ∈ items -> it_name item = Some name -> it_version item = Some version -> name <> "" -> version <> "" ->
  exists pins v, parse_lock_file read resolve (S fuel) lock = Some (Ok (pins, v)) /\
    (is_Some (assoc (canonicalize_name name) pins) <->
     requested item = true \/ default [] (assoc (canonicalize_name name) (dep_map items)) = [] \/
     exists req, req ∈ default [] (assoc (canonicalize_name name) (dep_map items)) /\ is_valid_for_canonical_env req = true).
Proof.
  intros Hh Hok [= <-] Hr Hi Hn Hv Hne Hve.
  destruct (lock_pins read resolve fuel lock header items Hh Hok Hr) as (pins & v' & Hpins & Hin & Hout).
  exists pins, v'. split; [done|].
  assert (retained (dep_map items) item name = true <-> is_Some (assoc (canonicalize_name name) pins)) as <-.
  { split.
    - intros Hret. destruct (Hin name version) as (m & ->); [|eauto]. apply packages_spec; [done|]. by exists item.
    - intros [x Hx]. destruct (decide (canonicalize_name name ∈ map canonicalize_name (map fst (packages items)))) as [Hk|Hk];
        [|by rewrite Hout in Hx].
      apply list_elem_of_fmap in Hk as (n' & En & ([n2 v2] & -> & Hp)%list_elem_of_fmap). cbn in En.
      apply packages_spec in Hp as (item' & Hi' & Hn' & Hv' & _ & _ & Hret); [|done].
      assert (name = n2) as <-.
      { apply (NoDup_map_inj canonicalize_name (omap it_name items)); [apply Hok| | |done]; apply list_elem_of_omap; eauto. }
      assert (item = item') as <-; [|done].
      clear - Hok Hi Hi' Hn Hn'. pose proof (report_names _ Hok) as Hnd. clear Hok.
      induction items as [|it items IH]; [by apply elem_of_nil in Hi|].
      assert (forall b, b ∈ items -> it_name b = Some name -> name ∈ omap it_name items) as Hmem
        by (intros; apply list_elem_of_omap; eauto).
      apply elem_of_cons in Hi as [->|Hi]; apply elem_of_cons in Hi' as [->|Hi']; [done|..].
      + cbn in Hnd. rewrite Hn in Hnd. inversion Hnd; subst. exfalso. by eauto.
      + cbn in Hnd. rewrite Hn' in Hnd. inversion Hnd; subst. exfalso. eauto.
      + apply IH; try done. cbn in Hnd. destruct (it_name it); [by inversion Hnd | done]. }
  unfold retained. destruct (requested item); [naive_solver|].
  destruct (default [] (assoc (canonicalize_name name) (dep_map items))) as [|r rs]; [naive_solver|].
  rewrite existsb_true. naive_solver.
Qed.

(** [--check] after a run that wrote the lockfiles succeeds, whatever was on the
    disk before, and changes nothing; a run that cannot resolve writes nothing. *)
Theorem regenerate_then_check `{Packaging} (pip : string -> string + list install_item) (disk disk' : list (string * string)) z :
  (forall items, pip "requirements/base.txt" = inr items \/ pip "requirements/dev.txt" = inr items -> report_ok items) ->
  regenerate_main pip false disk = (z, disk') ->
  match z with
  | Ok _ => regenerate_main pip true disk' = (Ok 0, disk')
  | Raise _ => disk' = disk
  end.
Proof.
  intros Hok.
  assert (forall h items, header_ok h -> report_ok items ->
    universal_newlines (join newline (lock_lines h items)) = join newline (lock_lines h items)) as Hu.
  { intros h items [Hcr _] Hit. apply universal_plain, has_char_join; [done|]. unfold lock_lines.
    intros w [[->|[->|[]%elem_of_nil]%elem_of_cons]%elem_of_cons|[Hw| ->%list_elem_of_singleton]%elem_of_app]%elem_of_app;
      [done..| |done].
    apply list_elem_of_fmap in Hw as ([n v] & -> & Hin). rewrite merge_sort_Permutation in Hin.
    apply packages_spec in Hin as (item & ? & ? & ? & ? & ? & _); [|done]. apply pin_line_clean; [done|]. by eapply Hit. }
  assert (header_ok BASE_LOCK_HEADER /\ header_ok DEV_LOCK_HEADER) as [Hb Hd] by (split; apply header_okb; by vm_compute).
  unfold regenerate_main, resolve_lockfile_with_pip.
  destruct (pip "requirements/base.txt") as [|b] eqn:Eb; [by destruct (pip "requirements/dev.txt"); intros [= <- <-]|].
  destruct (pip "requirements/dev.txt") as [|d] eqn:Ed; [by intros [= <- <-]|].
  pose proof (Hu _ _ Hb (Hok b ltac:(auto))) as Hub. pose proof (Hu _ _ Hd (Hok d ltac:(auto))) as Hud.
  revert Hub Hud. generalize (join newline (lock_lines BASE_LOCK_HEADER b)), (join newline (lock_lines DEV_LOCK_HEADER d)).
  intros base dev Hub Hud [= <- <-]. rewrite assoc_set_ne, !assoc_set_eq by done. cbn [fmap option_fmap option_map].
  rewrite Hub, Hud, !bool_decide_true by done. done.
Qed.

(** ** Concrete files *)

Module RequirementsWitness.

(** Name, operator, version: enough of the grammar for these files. *)
Fixpoint cut (s : string) : string * string :=
  match s with
  | EmptyString => (EmptyString, EmptyString)
  | String c s' =>
      if Ascii.eqb c "=" || Ascii.eqb c ">" then (EmptyString, s)
      else let '(name, rest) := cut s' in (String c name, rest)
  end.

#[export] Instance simple_packaging : Packaging :=
  {| Requirement line :=
       let '(name, rest) := cut line in
       let version := String.substring 2 (String.length rest) rest in
       if str_truthy name then
         Some {| req_name := name; spec_versions := if str_truthy rest then [version] else [];
                 spec_contains v := Ok (if startswith "==" rest then String.eqb v version else String.leb version v);
                 spec_text := rest; marker := None |}
       else None;
     canonicalize_name := lower |}.

Definition dev := path_of "requirements/dev.txt".
Definition lock := path_of "requirements/dev.lock".

Definition item (name version : string) : install_item :=
  {| it_name := Some name; it_version := Some version; requires_dist := []; requested := true |}.
Definition report : list install_item := [item "pytest" "9.0"; item "HTTPX" "0.28"].

(** [dev.txt] and [base.txt] include each other. *)
Definition disk : list (string * string) :=
  [("requirements/base.txt", "httpx>=0.27" +:+ newline +:+ "-r dev.txt" +:+ newline);
   ("requirements/dev.txt", "-r base.txt" +:+ newline +:+ "# testing" +:+ newline +:+ "pytest>=8.2" +:+ newline);
   ("requirements/dev.lock", join newline (lock_lines DEV_LOCK_HEADER report))].
Definition files (p : Path) : option string := assoc (str_path p) disk.

Example circular_inclusion : check_requirements_drift files (fun p => p) 5 dev lock = Some (Ok []).
Proof. by vm_compute. Qed.

Lemma same : same_files files (fun p => p).
Proof. intros p q ->. done. Qed.

Lemma no_drift_covers_witness : exists req pin, Requirement "httpx>=0.27" = Some req /\
  canonicalize_name (req_name pin) = canonicalize_name (req_name req) /\ pinned pin <> "".
Proof.
  destruct (no_drift_covers files (fun p => p) 5 dev lock "httpx>=0.27") as (req & t & pin & ? & _ & _ & ? & ? & _).
  - exact same.
  - exact circular_inclusion.
  - exists (joinpath (parent dev) "base.txt"), ("httpx>=0.27" +:+ newline +:+ "-r dev.txt" +:+ newline), "httpx>=0.27".
    split; [|split; [by vm_compute | split; [vm_compute; by left | by vm_compute]]].
    apply (included_line files dev dev (default "" (files dev)) "-r base.txt" "base.txt");
      [apply included_self | by vm_compute | vm_compute; by left | by vm_compute].
  - eauto.
Defined.

(** The range of an included file is replaced by a later one without comparison:
    the pin violates the first of the two. *)
Example later_range_wins :
  check_requirements_drift
    (fun p => assoc (str_path p) [("dev.txt", "-r base.txt" +:+ newline +:+ "httpx>=0.20"); ("base.txt", "httpx>=0.27");
                                  ("dev.lock", "httpx==0.25")])
    (fun p => p) 5 (path_of "dev.txt") (path_of "dev.lock") = Some (Ok []).
Proof. by vm_compute. Qed.

(** A lower bound in the lockfile counts as a pin. *)
Example range_counts_as_pin :
  check_requirements_drift
    (fun p => assoc (str_path p) [("base.txt", "httpx>=0.27"); ("base.lock", "httpx>=0.28")])
    (fun p => p) 5 (path_of "base.txt") (path_of "base.lock") = Some (Ok []).
Proof. by vm_compute. Qed.

(** A requirement that holds only under an extra that is not tried: the package
    is installed and yet not pinned. *)
Example untried_extra_dropped :
  let http2 := {| req_name := "h2"; spec_versions := []; spec_contains _ := Ok true; spec_text := "";
                  marker := Some (fun env => Some (bool_decide (assoc "extra" env = Some "http2"))) |} in
  let P := {| Requirement line := if String.eqb line "h2; extra == 'http2'" then Some http2 else Requirement line;
              canonicalize_name := lower |} in
  @packages P [{| it_name := Some "httpx"; it_version := Some "0.28"; requires_dist := ["h2; extra == 'http2'"]; requested := true |};
               {| it_name := Some "h2"; it_version := Some "4.1"; requires_dist := []; requested := false |}]
  = [("httpx", "0.28")].
Proof. by vm_compute. Qed.
End RequirementsWitness.
