(* ===== verification/ReleaseDocs.v ===== *)
(** * ReleaseDocs: release gates and release notes
    ([scripts/verify_release_readiness.py], [scripts/verify_documentation_drift.py],
    [scripts/generate_release_notes.py])

    The texts of the documents, the output of git and the command line are
    arguments ([None]: the file or the command is missing or fails). *)

From stdpp Require Import pretty.
From S2P Require Import Prelude PyStr Regex PyFloat Effects PyText.
From Stdlib Require Import Ascii.

(** ** Release readiness *)

(** [^v\d+\.\d+\.\d+(-rc\d+)?$] *)
Definition TAG_REGEX : regex :=
  RSeq RStart (RSeq (RSeq (RLit "v") (RSeq (RPlus RDigit) (RSeq (RLit ".") (RSeq (RPlus RDigit) (RSeq (RLit ".")
    (RSeq (RPlus RDigit) (ROpt (RSeq (RLit "-rc") (RPlus RDigit))))))))) REnd).

Definition validate_tag_format (tag : string) : bool := re_match TAG_REGEX tag.

Definition verify_versioning_doc (tag : string) (versioning_doc : option string) : bool :=
  match versioning_doc with
  | None => false
  | Some content => contains tag content
  end.

Definition verify_release_readiness (tag : string) (versioning_doc : option string) : bool * string :=
  if negb (validate_tag_format tag) then
    (false, "[ERROR] Invalid release tag format: '" +:+ tag +:+ "'. " +:+
            "Release tags must match vX.Y.Z or vX.Y.Z-rcW (e.g., v1.0.0 or v1.0.0-rc1).")
  else if negb (verify_versioning_doc tag versioning_doc) then
    (false, "[ERROR] Release Gate Failed: Tag '" +:+ tag +:+ "' is not described in " +:+
            "docs/releases/Versioning.md. Please update docs/releases/Versioning.md " +:+
            "with release notes and tag entry before pushing tag.")
  else (true, "[OK] Release readiness gate passed for tag '" +:+ tag +:+ "'.").

Definition readiness_main (tag : string) (versioning_doc : option string) : Z :=
  let '(is_ready, _) := verify_release_readiness tag versioning_doc in if is_ready : bool then 0 else 1.

(** ** Documentation drift *)

Definition quote : ascii := "034"%char.

(** A match of the pattern at the start of [s] (the word, an equals sign between
    blanks, a quoted text that is not empty): the quoted text. *)
Definition version_here (s : string) : option string :=
  if startswith "version" s then
    match lstrip (String.substring 7 (String.length s) s) with
    | String "=" s =>
        match lstrip s with
        | String c s =>
            if Ascii.eqb c quote && has_char quote s && str_truthy (before_char quote s) then Some (before_char quote s) else None
        | EmptyString => None
        end
    | _ => None
    end
  else None.

(** [re.search]: the leftmost match. *)
Fixpoint search_version (s : string) : option string :=
  match version_here s with
  | Some v => Some v
  | None => match s with String _ s => search_version s | EmptyString => None end
  end.

Definition parse_pyproject_version (pyproject : option string) : option string :=
  match pyproject with None => None | Some content => search_version content end.

(** [stdout]: what [git tag -l] prints when it succeeds. *)
Definition get_git_tags (git_dir_exists : bool) (stdout : option string) : option (list string) :=
  if negb git_dir_exists then None
  else match stdout with
       | Some out => if str_truthy out then Some (List.filter str_truthy (map strip (splitlines out))) else None
       | None => None
       end.

Definition parse_patch (t : string) : Z :=
  match int_of_str (List.last (split_on "." t) "") with Some z => z | None => -1 end.

(** [max(...)] of a non-empty sequence. *)
Definition max_of (z : Z) (zs : list Z) : Z := fold_left Z.max zs z.

Definition str_int (z : Z) : string := pretty z.

Fixpoint digits (s : string) : bool :=
  match s with EmptyString => true | String c s => is_digit c && digits s end.
Definition isdigit (s : string) : bool := str_truthy s && digits s.

Record documents := {
  pyproject : option string;
  readme : option string;
  versioning : option string;
  architecture : option string;
}.

(** What the version [major.minor.patch] leads the documents to mention. *)
Definition expected_phase (major_str minor_str : string) : string :=
  if String.eqb major_str "1" then "Phase 8" else "Phase " +:+ minor_str.

Definition expected_series_versions (major_str minor_str patch_str latest_tag : string) : list string :=
  match int_of_str patch_str with
  | Some patch_int =>
      map (fun p => "v" +:+ major_str +:+ "." +:+ minor_str +:+ "." +:+ str_int p) (seqZ 0 (patch_int + 1))
  | None => [latest_tag]
  end.

Definition behind_tags (version major_str minor_str patch_str : string) (git_tags : option (list string)) : list string :=
  match git_tags with
  | Some (t :: ts) =>
      let matching_prefix := "v" +:+ major_str +:+ "." +:+ minor_str +:+ "." in
      match List.filter (startswith matching_prefix) (t :: ts) with
      | [] => []
      | s :: ss =>
          let max_tag_patch := max_of (parse_patch s) (map parse_patch ss) in
          if isdigit patch_str && (default 0 (int_of_str patch_str) <? max_tag_patch) then
            ["pyproject.toml version (" +:+ version +:+ ") is behind git tag v" +:+ major_str +:+ "." +:+ minor_str +:+ "." +:+
             str_int max_tag_patch]
          else []
      end
  | _ => []
  end.

(** [if what not in content: errors.append(message)] *)
Definition missing (what content message : string) : list string :=
  if contains what content then [] else [message].

Definition verify_documentation_drift (repo_root : Path) (docs : documents) (git_tags : option (list string)) : bool * list string :=
  match parse_pyproject_version (pyproject docs) with
  | None | Some EmptyString => (false, ["Could not parse 'version' from " +:+ str_path (joinpath repo_root "pyproject.toml")])
  | Some version =>
      match readme docs, versioning docs, architecture docs with
      | None, _, _ => (false, ["README.md not found at " +:+ str_path (joinpath repo_root "README.md")])
      | _, None, _ => (false, ["Versioning.md not found at " +:+ str_path (joinpath repo_root "docs/releases/Versioning.md")])
      | _, _, None => (false, ["Architecture.md not found at " +:+ str_path (joinpath repo_root "docs/Architecture.md")])
      | Some readme_content, Some versioning_content, Some architecture_content =>
          let latest_tag := "v" +:+ version in
          match split_on "." version with
          | major_str :: minor_str :: patch_str :: _ =>
              let phase := expected_phase major_str minor_str in
              let series := expected_series_versions major_str minor_str patch_str latest_tag in
              let errors :=
                behind_tags version major_str minor_str patch_str git_tags ++
                missing phase readme_content ("README.md is missing reference to '" +:+ phase +:+ "'") ++
                missing latest_tag readme_content ("README.md is missing reference to latest tag '" +:+ latest_tag +:+ "'") ++
                concat (map (fun ver => missing ver readme_content
                  ("README.md status table is missing entry for version '" +:+ ver +:+ "'")) series) ++
                missing phase versioning_content ("Versioning.md is missing reference to '" +:+ phase +:+ "'") ++
                missing latest_tag versioning_content
                  ("Versioning.md Release Map is missing reference to latest tag '" +:+ latest_tag +:+ "'") ++
                concat (map (fun ver => missing ver versioning_content
                  ("Versioning.md Release Map is missing entry for version '" +:+ ver +:+ "'")) series) ++
                missing phase architecture_content ("Architecture.md is missing reference to '" +:+ phase +:+ "'") in
              (Nat.eqb (length errors) 0, errors)
          | _ => (false, ["Invalid semver string '" +:+ version +:+ "' in pyproject.toml"])
          end
      end
  end.

Definition documentation_main (repo_root : Path) (docs : documents) (git_tags : option (list string)) : Z :=
  let '(is_valid, _) := verify_documentation_drift repo_root docs git_tags in if is_valid : bool then 0 else 1.

(** ** Release notes *)

Definition commit_types : list string :=
  ["feat"; "fix"; "docs"; "refactor"; "perf"; "ci"; "build"; "ops"; "infra"; "chore"; "test"].

(** The groups of [CONVENTIONAL_REGEX]. *)
Record conventional := {
  ctype : string;
  scope : option string;
  breaking : bool;
  subject : string;
}.

Definition drop (n : nat) (s : string) : string := String.substring n (String.length s - n) s.

(** [(?:\((?P<scope>[^)]+)\))?] at the start of [s], and the rest: an open
    parenthesis that is not the start of a scope leaves nothing to match. *)
Definition match_scope (s : string) : option (option string * string) :=
  match s with
  | String "(" s =>
      let scope := before_char ")" s in
      if has_char ")" s && str_truthy scope then Some (Some scope, drop (S (String.length scope)) s) else None
  | s => Some (None, s)
  end.

Definition match_breaking (s : string) : bool * string :=
  match s with String "!" s => (true, s) | s => (false, s) end.

(** [CONVENTIONAL_REGEX.match(header)] of a header of one line. *)
Definition CONVENTIONAL_REGEX (header : string) : option conventional :=
  match List.find (fun t => startswith t header) commit_types with
  | None => None
  | Some t =>
      match match_scope (drop (String.length t) header) with
      | None => None
      | Some (scope, rest) =>
          let '(bang, rest) := match_breaking rest in
          match rest with
          | String ":" (String " " subject) =>
              if str_truthy subject then Some {| ctype := t; scope := scope; breaking := bang; subject := subject |} else None
          | _ => None
          end
      end
  end.

Inductive section := Breaking | Features | Fixes | Documentation | Performance | Build | Other.

#[global] Instance section_eq_dec : EqDecision section.
Proof. solve_decision. Defined.

Definition section_titles : list (section * string) :=
  [(Breaking, "Breaking Changes"); (Features, "New Features & Capabilities"); (Fixes, "Bug Fixes & Corrections");
   (Documentation, "Documentation"); (Performance, "Performance & Refactoring"); (Build, "Build, CI & Infrastructure");
   (Other, "Other Changes")].

Definition in_types (t : string) (ts : list string) : bool := existsb (String.eqb t) ts.

(** Where a commit goes and how it is shown; [None] for a commit without lines. *)
Definition categorize (commit : string) : option (section * string) :=
  match splitlines commit with
  | [] => None
  | line :: _ =>
      let header := strip line in
      let is_breaking := contains "BREAKING CHANGE:" commit || contains "BREAKING-CHANGE:" commit in
      Some match CONVENTIONAL_REGEX header with
           | Some m =>
               let subject := strip (subject m) in
               let formatted_item := match scope m with Some s => "**" +:+ s +:+ "**: " +:+ subject | None => subject end in
               (if is_breaking || breaking m then Breaking
                else if String.eqb (ctype m) "feat" then Features
                else if String.eqb (ctype m) "fix" then Fixes
                else if String.eqb (ctype m) "docs" then Documentation
                else if in_types (ctype m) ["refactor"; "perf"] then Performance
                else if in_types (ctype m) ["ci"; "build"; "ops"; "infra"; "chore"] then Build
                else Other, formatted_item)
           | None => (if is_breaking then Breaking else Other, header)
           end
  end.

(** [categories[section].append(item)] *)
Definition append_item (categories : list (section * list string)) (entry : section * string) : list (section * list string) :=
  map (fun c => if bool_decide (c.1 = entry.1) then (c.1, c.2 ++ [entry.2]) else c) categories.

Definition parse_and_categorize_commits (commits : list string) : list (section * list string) :=
  fold_left (fun categories commit => match categorize commit with Some e => append_item categories e | None => categories end)
            commits (map (fun t => (t.1, [])) section_titles).

Definition title (s : section) : string :=
  match List.find (fun t => bool_decide (t.1 = s)) section_titles with Some t => t.2 | None => "" end.

(** [s.split(sep)] for a separator that is not empty. *)
Fixpoint split_str (sep : string) (skip : nat) (s word : string) : list string :=
  match s with
  | EmptyString => [word]
  | String c s' =>
      match skip with
      | S k => split_str sep k s' word
      | O => if String.prefix sep s then word :: split_str sep (String.length sep - 1) s' ""
             else split_str sep 0 s' (word +:+ String c "")
      end
  end.

(** The tag that precedes [tag] in git's list, newest first. *)
Fixpoint following (tag : string) (tags : list string) : option string :=
  match tags with
  | t :: ts => if String.eqb t tag then head ts else following tag ts
  | [] => None
  end.

(** [git_tags] and [git_log]: what the two commands print, [None] when they fail. *)
Definition get_commit_logs (git_tags : option string) (git_log : list string -> option string) (tag : option string) : list string :=
  let prev_tag :=
    match tag, git_tags with
    | Some t, Some out => if str_truthy t then following t (splitlines (strip out)) else None
    | _, _ => None
    end in
  let range :=
    if ostr_truthy prev_tag && ostr_truthy tag then [default "" prev_tag +:+ ".." +:+ default "" tag]
    else if ostr_truthy tag then [default "" tag] else [] in
  match git_log (["git"; "log"] ++ range ++ ["--pretty=format:%B---END_COMMIT---"]) with
  | Some raw_out => List.filter str_truthy (map strip (split_str "---END_COMMIT---" 0 raw_out ""))
  | None => []
  end.

Definition section_lines (c : section * list string) : list string :=
  match c.2 with
  | [] => []
  | items => ("### " +:+ title c.1 +:+ PyText.newline) :: map (fun i => "- " +:+ i) items ++ [""]
  end.

Definition notes_markdown (commits : list string) (tag : option string) : string :=
  let sections := concat (map section_lines (parse_and_categorize_commits commits)) in
  let heading := if ostr_truthy tag then "# GaiaOS Release Notes — " +:+ default "" tag +:+ PyText.newline
                 else "# GaiaOS Release Notes" +:+ PyText.newline in
  join PyText.newline
    (heading :: match sections with
                | [] => ["No significant commit changes recorded for this release." +:+ PyText.newline]
                | _ => sections
                end).

Definition generate_release_notes_markdown (git_tags : option string) (git_log : list string -> option string)
    (tag : option string) : string :=
  notes_markdown (get_commit_logs git_tags git_log tag) tag.

(** ** Lemmas *)

Lemma digits_chars d : digits d = true <-> forall c, has_char c d = true -> is_digit c = true.
Proof.
  induction d as [|e d IH]; cbn; [done|]. rewrite andb_true_iff, IH. setoid_rewrite orb_true_iff. split.
  - intros [? ?] c [->%Ascii.eqb_eq|?]; auto.
  - intros H. split; [apply H; left; apply Ascii.eqb_refl | auto].
Qed.

Lemma lit_inv s : forall p t b, matches (RLit s) (p, t) b -> t = s +:+ b.2.
Proof.
  induction s as [|c s IH]; intros p t b Hm; cbn [RLit] in Hm; inversion Hm; subst; [done|].
  match goal with X : matches (RChar _) _ _ |- _ => inversion X; subst end.
  match goal with X : Ascii.eqb _ _ = true |- _ => apply Ascii.eqb_eq in X as <- end.
  rewrite append_cons. f_equal. eauto.
Qed.

Lemma lit_intro s : forall p t, exists p', matches (RLit s) (p, s +:+ t) (p', t).
Proof.
  induction s as [|c s IH]; intros p t; cbn [RLit]; [exists p; apply m_eps|].
  destruct (IH (Some c) t) as [p' Hp]. exists p'. eapply m_seq; [apply m_char; by rewrite Ascii.eqb_refl | done].
Qed.

Lemma number_inv a b : matches (RPlus RDigit) a b -> exists d, isdigit d = true /\ a.2 = d +:+ b.2.
Proof.
  intros Hm. inversion Hm as [| |? ? ? m ? H1 H2| | | | | | |]; subst. inversion H1; subst.
  apply star_char_inv in H2 as (w & E & Hw). cbn in *. exists (String c w). split; [|by rewrite E, append_cons].
  unfold isdigit. cbn. apply andb_true_iff. split; [done | by apply digits_chars].
Qed.

Lemma number_intro d : forall p t, isdigit d = true -> exists p', matches (RPlus RDigit) (p, d +:+ t) (p', t).
Proof.
  assert (forall d p t, digits d = true -> exists p', matches (RStar RDigit) (p, d +:+ t) (p', t)) as Hstar.
  { clear d. induction d as [|c d IH]; intros p t Hd; [exists p; apply m_star_nil|]. cbn in Hd.
    apply andb_true_iff in Hd as [Hc Hd]. destruct (IH (Some c) t Hd) as [p' Hp]. exists p'.
    eapply m_star_step; [by apply m_char | done]. }
  destruct d as [|c d]; [done|]. intros p t [_ [Hc Hd]%andb_true_iff]%andb_true_iff.
  destruct (Hstar d (Some c) t) as [p' Hp]; [done|]. exists p'. eapply m_seq; [by apply m_char | done].
Qed.

(** [r] consumes exactly the texts of [P], wherever it stands. *)
Definition denotes (r : regex) (P : string -> Prop) : Prop :=
  (forall a b, matches r a b -> exists w, P w /\ a.2 = w +:+ b.2) /\
  (forall w p t, P w -> exists p', matches r (p, w +:+ t) (p', t)).

Lemma denotes_lit s : denotes (RLit s) (fun w => w = s).
Proof.
  split; [intros [p t] b H%lit_inv; by exists s | intros w p t ->; apply lit_intro].
Qed.

Lemma denotes_number : denotes (RPlus RDigit) (fun w => isdigit w = true).
Proof. split; [apply number_inv | intros w p t Hw; by apply number_intro]. Qed.

Lemma denotes_seq r1 r2 P Q : denotes r1 P -> denotes r2 Q ->
  denotes (RSeq r1 r2) (fun w => exists u v, P u /\ Q v /\ w = u +:+ v).
Proof.
  intros [I1 C1] [I2 C2]. split.
  - intros a c Hm. inversion Hm as [| |? ? ? b ? H1 H2| | | | | | |]; subst.
    destruct (I1 _ _ H1) as (u & Hu & E1), (I2 _ _ H2) as (v & Hv & E2). exists (u +:+ v).
    split; [by exists u, v|]. by rewrite E1, E2, append_assoc.
  - intros w p t (u & v & Hu & Hv & ->). rewrite append_assoc.
    destruct (C1 u p (v +:+ t) Hu) as [p1 H1], (C2 v p1 t Hv) as [p2 H2]. exists p2. by eapply m_seq.
Qed.

Lemma denotes_opt r P : denotes r P -> denotes (ROpt r) (fun w => w = "" \/ P w).
Proof.
  intros [I C]. split.
  - intros a b Hm. unfold ROpt in Hm. inversion Hm as [| | |? ? ? ? H|? ? ? ? H| | | | |]; subst.
    + destruct (I _ _ H) as (w & ? & ?). eauto.
    + inversion H; subst. exists "". auto.
  - intros w p t [->|Hw]; [exists p; apply m_alt_r, m_eps|]. destruct (C w p t Hw) as [p' H]. exists p'. by apply m_alt_l.
Qed.

(** [^r$] *)
Lemma denotes_whole r P s : denotes r P ->
  re_match (RSeq RStart (RSeq r REnd)) s = true <-> exists w e, P w /\ (e = "" \/ e = Regex.newline) /\ s = w +:+ e.
Proof.
  intros [I C]. rewrite re_match_spec. split.
  - intros [c Hm]. inversion Hm as [| |? ? ? b ? H1 H2| | | | | | |]; subst. inversion H1; subst.
    inversion H2 as [| |? ? ? b ? H3 H4| | | | | | |]; subst. inversion H4; subst.
    destruct (I _ _ H3) as (w & Hw & E). exists w, c.2. split; [done|]. split; [by apply at_end_inv | done].
  - intros (w & e & Hw & He & ->). destruct (C w None e Hw) as [p Hp]. exists (p, e).
    eapply m_seq; [apply m_start|]. eapply m_seq; [exact Hp|]. apply m_end. by destruct He as [-> | ->].
Qed.

(** ** Theorems *)

(** The tags that are accepted: [v] and three numbers, with or without a release
    candidate number, and also followed by a line end, which [$] lets through. *)
Theorem tag_format_iff (tag : string) : validate_tag_format tag = true <->
  exists x y z rc e, isdigit x = true /\ isdigit y = true /\ isdigit z = true /\
    (rc = "" \/ exists w, isdigit w = true /\ rc = "-rc" +:+ w) /\ (e = "" \/ e = Regex.newline) /\
    tag = "v" +:+ x +:+ "." +:+ y +:+ "." +:+ z +:+ rc +:+ e.
Proof.
  unfold validate_tag_format, TAG_REGEX.
  erewrite denotes_whole by (repeat first [eapply denotes_number | eapply denotes_lit | eapply denotes_opt | eapply denotes_seq]).
  cbn beta. split.
  - intros (? & e & (? & ? & -> & (x & ? & Hx & (? & ? & -> & (y & ? & Hy & (? & ? & -> & (z & rc & Hz & Hrc & ->) & ->) & ->) & ->) & ->) & ->) & He & ->).
    exists x, y, z, rc, e. rewrite !append_assoc. do 3 (split; [done|]). split; [|done].
    destruct Hrc as [->|(? & w & -> & Hw & ->)]; eauto.
  - intros (x & y & z & rc & e & Hx & Hy & Hz & Hrc & He & ->).
    exists ("v" +:+ x +:+ "." +:+ y +:+ "." +:+ z +:+ rc), e. rewrite !append_assoc. split; [|done].
    eexists _, _. split; [done|]. split; [|done]. eexists _, _. split; [exact Hx|]. split; [|done].
    eexists _, _. split; [done|]. split; [|done]. eexists _, _. split; [exact Hy|]. split; [|done].
    eexists _, _. split; [done|]. split; [|done]. eexists _, _. split; [exact Hz|]. split; [|done].
    destruct Hrc as [->|(w & Hw & ->)]; [by left | right; by eexists _, _].
Qed.

(** The gate opens for a well-formed tag whose text occurs anywhere in the
    versioning document. *)
Theorem ready_iff (tag : string) (doc : option string) : readiness_main tag doc = 0 <->
  validate_tag_format tag = true /\ exists content, doc = Some content /\ contains tag content = true.
Proof.
  unfold readiness_main, verify_release_readiness. destruct (validate_tag_format tag); cbn [negb]; [|by split; [|intros [? _]]].
  unfold verify_versioning_doc. destruct doc as [content|]; [|by split; [|intros (_ & ? & [=] & _)]].
  destruct (contains tag content) eqn:E; cbn [negb]; split; [by eauto|done|done|].
  intros (_ & ? & [= <-] & ?). congruence.
Qed.

(** The entry of a release candidate, or of a later release whose name starts the
    same, stands for the tag itself. *)
Example candidate_entry_suffices : readiness_main "v1.0.0" (Some "| v1.0.0-rc1 | candidate |") = 0.
Proof. by vm_compute. Qed.
Example longer_entry_suffices : readiness_main "v1.0.1" (Some "| v1.0.10 | patch |") = 0.
Proof. by vm_compute. Qed.

Lemma missing_nil what content message : missing what content message = [] <-> contains what content = true.
Proof. unfold missing. by destruct (contains what content). Qed.

Lemma missing_all (message : string -> string) content vs :
  concat (map (fun v => missing v content (message v)) vs) = [] <-> forall v, v ∈ vs -> contains v content = true.
Proof.
  induction vs as [|v vs IH]; cbn; [split; [set_solver | done]|].
  rewrite app_nil, IH, missing_nil. setoid_rewrite elem_of_cons. naive_solver.
Qed.

(** The drift check passes exactly when a version with three parts is found in
    [pyproject.toml], no tag of its series is newer, README and versioning document
    mention the phase, the latest tag and every patch release of the series, and the
    architecture document mentions the phase. *)
Theorem documentation_ok_iff (root : Path) (docs : documents) (git_tags : option (list string)) :
  documentation_main root docs git_tags = 0 <->
  exists version major minor patch more r v a,
    parse_pyproject_version (pyproject docs) = Some version /\ version <> "" /\
    split_on "." version = major :: minor :: patch :: more /\
    readme docs = Some r /\ versioning docs = Some v /\ architecture docs = Some a /\
    behind_tags version major minor patch git_tags = [] /\
    contains (expected_phase major minor) a = true /\
    forall text, text = r \/ text = v ->
      contains (expected_phase major minor) text = true /\ contains ("v" +:+ version) text = true /\
      forall ver, ver ∈ expected_series_versions major minor patch ("v" +:+ version) -> contains ver text = true.
Proof.
  unfold documentation_main, verify_documentation_drift.
  destruct (parse_pyproject_version (pyproject docs)) as [[|c version]|]; [naive_solver| |naive_solver].
  destruct (readme docs) as [r|], (versioning docs) as [v|], (architecture docs) as [a|]; try naive_solver.
  cbv zeta. destruct (split_on "." (String c version)) as [|major [|minor [|patch more]]] eqn:Es.
  1-3: split; [done|]; intros (? & ? & ? & ? & ? & ? & ? & ? & [= <-] & _ & Es' & _); congruence.
  match goal with |- context [Nat.eqb (length ?e) 0] => assert ((if Nat.eqb (length e) 0 then 0 else 1) = 0 <-> e = []) as ->
    by (destruct e; cbn; split; done) end.
  rewrite !app_nil, !missing_nil, !missing_all. split.
  - intros (Hb & H1 & H2 & H3 & H4 & H5 & H6 & H7).
    exists (String c version), major, minor, patch, more, r, v, a. do 8 (split; [done|]). intros t [->| ->]; done.
  - intros (? & ? & ? & ? & ? & ? & ? & ? & [= <-] & _ & Es' & [= <-] & [= <-] & [= <-] & Hb & Ha & Ht).
    rewrite Es in Es'. injection Es' as <- <- <- <-.
    destruct (Ht r (or_introl eq_refl)) as (? & ? & ?), (Ht v (or_intror eq_refl)) as (? & ? & ?). done.
Qed.

(** Any key whose name ends in [version] can be taken for the version. *)
Example other_key_taken :
  parse_pyproject_version (Some ("target-version = " +:+ String quote ("py312" +:+ String quote
    (PyText.newline +:+ "version = " +:+ String quote ("1.0.0" +:+ String quote ""))))) = Some "py312".
Proof. by vm_compute. Qed.

(** *** Conventional commits *)

(** The header that a match describes. *)
Definition print_conventional (m : conventional) : string :=
  ctype m +:+ match scope m with Some s => "(" +:+ s +:+ ")" | None => "" end +:+
  (if breaking m then "!" else "") +:+ ": " +:+ subject m.

Definition conventional_ok (m : conventional) : Prop :=
  ctype m ∈ commit_types /\ subject m <> "" /\
  match scope m with Some s => s <> "" /\ has_char ")" s = false | None => True end.

Lemma substring_all s : String.substring 0 (String.length s) s = s.
Proof. induction s as [|c s IH]; [done|]. cbn. by rewrite IH. Qed.

Lemma drop_app a b : drop (String.length a) (a +:+ b) = b.
Proof.
  unfold drop. rewrite length_app_string. replace (_ + _ - _)%nat with (String.length b) by lia.
  induction a as [|c a IH]; [apply substring_all | by rewrite append_cons].
Qed.

Lemma drop_word a c b : drop (S (String.length a)) (a +:+ String c b) = b.
Proof.
  replace (a +:+ String c b) with ((a +:+ String c "") +:+ b) by (by rewrite append_assoc).
  replace (S (String.length a)) with (String.length (a +:+ String c "")) by (rewrite length_app_string; cbn; lia).
  apply drop_app.
Qed.

Lemma before_char_word c a b : has_char c a = false -> before_char c (a +:+ String c b) = a.
Proof.
  induction a as [|d a IH]; intros H; [change ("" +:+ ?x) with x; cbn; by rewrite Ascii.eqb_refl|].
  rewrite append_cons. cbn in *. apply orb_false_iff in H as [-> H]. by rewrite IH.
Qed.

Lemma before_char_split c s : has_char c s = true -> exists b, s = before_char c s +:+ String c b /\ has_char c (before_char c s) = false.
Proof.
  induction s as [|d s IH]; cbn; [done|]. destruct (Ascii.eqb_spec c d) as [->|Hd]; [by exists s|].
  intros (b & E & Hb)%IH. exists b. rewrite append_cons, <- E. split; [done|]. cbn. rewrite Hb.
  by destruct (Ascii.eqb_spec c d).
Qed.

Lemma prefixes_comparable a b s : startswith a s = true -> startswith b s = true -> startswith a b || startswith b a = true.
Proof.
  unfold startswith. revert a b. induction s as [|c s IH]; intros [|x a] [|y b]; cbn; try done.
  repeat case_match; subst; try done. apply IH.
Qed.

Lemma find_type h t : List.find (fun t => startswith t h) commit_types = Some t <-> t ∈ commit_types /\ startswith t h = true.
Proof.
  split; [intros [? ?]%find_some; by rewrite list_elem_of_In|]. intros [Hin Ht].
  destruct (List.find _ _) as [t'|] eqn:E.
  - apply find_some in E as [Hin' Ht']. f_equal.
    assert (forallb (fun a => forallb (fun b => implb (startswith a b) (String.eqb a b)) commit_types) commit_types = true) as Hp
      by by vm_compute.
    rewrite forallb_forall in Hp. pose proof (prefixes_comparable _ _ _ Ht Ht') as Hc. apply list_elem_of_In in Hin.
    apply orb_true_iff in Hc as [Hc|Hc].
    + pose proof (Hp _ Hin) as Hq. rewrite forallb_forall in Hq. specialize (Hq _ Hin'). rewrite Hc in Hq. symmetry. by apply String.eqb_eq.
    + pose proof (Hp _ Hin') as Hq. rewrite forallb_forall in Hq. specialize (Hq _ Hin). rewrite Hc in Hq. by apply String.eqb_eq.
  - apply list_elem_of_In in Hin. by rewrite (find_none _ _ E _ Hin) in Ht.
Qed.

Lemma match_scope_iff s sc rest : match_scope s = Some (sc, rest) <->
  s = match sc with Some x => "(" +:+ x +:+ ")" | None => "" end +:+ rest /\
  match sc with Some x => x <> "" /\ has_char ")" x = false | None => startswith "(" s = false end.
Proof.
  destruct (decide (startswith "(" s = true)) as [[t ->]%prefix_spec|Hs].
  - rewrite append_cons. change ("" +:+ ?x) with x. cbn [match_scope]. cbv zeta. split.
    + destruct (has_char ")" t && str_truthy (before_char ")" t)) eqn:E; [|done].
      apply andb_true_iff in E as [Hc Hn]. intros [= <- <-].
      destruct (before_char_split _ _ Hc) as (b & Et & Hb). split.
      * set (x := before_char ")" t) in *. clearbody x. subst t. by rewrite drop_word, !append_assoc.
      * split; [|done]. intros E. rewrite E in Hn. done.
    + intros [E Hsc]. destruct sc as [x|]; [|by cbn in Hsc; destruct t].
      rewrite !append_assoc, append_cons in E. change ("" +:+ ?x) with x in E. injection E as ->.
      change (")" +:+ rest) with (String ")" rest). destruct Hsc as [Hx Hc].
      rewrite before_char_word, has_char_app by done. cbn [has_char]. rewrite Ascii.eqb_refl, orb_true_r.
      unfold str_truthy. destruct (String.eqb_spec x ""); [done|]. cbn [negb andb].
      by rewrite drop_word.
  - apply not_true_iff_false in Hs. assert (match_scope s = Some (None, s)) as ->.
    { destruct s as [|c s]; [done|]. cbn. destruct c as [[] [] [] [] [] [] [] []]; try done. by destruct s. }
    split; [by intros [= <- <-]|]. intros [E Hsc]. destruct sc as [x|]; [|by subst].
    subst s. rewrite append_assoc, append_cons in Hs. unfold startswith in Hs.
    by rewrite (proj2 (prefix_spec _ _)) in Hs by (by eexists).
Qed.

Lemma match_breaking_rest s b r : match_breaking s = (b, r) -> s = (if b then "!" else "") +:+ r.
Proof. destruct s as [|[[] [] [] [] [] [] [] []] s]; by intros [= <- <-]. Qed.

(** Parsing and printing of commit headers are inverse to each other: a header is
    recognized with given parts exactly when it is these parts written out. *)
Theorem conventional_iff (header : string) (m : conventional) :
  CONVENTIONAL_REGEX header = Some m <-> conventional_ok m /\ header = print_conventional m.
Proof.
  unfold CONVENTIONAL_REGEX. split.
  - destruct (List.find _ _) as [t|] eqn:Et; [|done]. apply find_type in Et as [Hin [rest ->]%prefix_spec].
    rewrite drop_app. destruct (match_scope rest) as [[sc r]|] eqn:Es; [|done].
    apply match_scope_iff in Es as [-> Hsc].
    assert (forall (b : bool) r', match r' with
              | String ":" (String " " subject) =>
                  if str_truthy subject then Some {| ctype := t; scope := sc; breaking := b; subject := subject |} else None
              | _ => None
              end = Some m -> r = (if b then "!" else "") +:+ r' ->
              conventional_ok m /\ t +:+ match sc with Some x => "(" +:+ x +:+ ")" | None => "" end +:+ r = print_conventional m) as Hend.
    { intros b r' H ->. destruct r' as [|[[] [] [] [] [] [] [] []] r']; try done.
      destruct r' as [|[[] [] [] [] [] [] [] []] subj]; try done. destruct (str_truthy subj) eqn:Hsub; [|done].
      injection H as <-. split; [|done]. split; [done|]. split; [cbn; by intros ->|]. by destruct sc. }
    destruct (match_breaking r) as [b r'] eqn:Eb. intros H. by apply (Hend b r' H), match_breaking_rest.
  - intros [(Ht & Hsub & Hsc) ->]. unfold print_conventional.
    rewrite (proj2 (find_type _ (ctype m))) by (split; [done | apply prefix_spec; by eexists]). rewrite drop_app.
    rewrite (proj2 (match_scope_iff _ (scope m) ((if breaking m then "!" else "") +:+ ": " +:+ subject m))).
    2: { split; [done|]. destruct (scope m); [done|]. by destruct (breaking m). }
    destruct m as [t sc b subj]; cbn [ctype scope breaking subject] in *.
    assert (match_breaking ((if b then "!" else "") +:+ ": " +:+ subj) = (b, String ":" (String " " subj))) as -> by (by destruct b).
    unfold str_truthy. by destruct (String.eqb_spec subj "").
Qed.

(** *** Categories *)

(** The items of the commits that belong to a section, in order. *)
Definition items_of (s : section) (commits : list string) : list string :=
  omap (fun c => e ← categorize c; if bool_decide (e.1 = s) then Some e.2 else None) commits.

Lemma append_item_map (f : section -> list string) l e :
  append_item (map (fun t : section * string => (t.1, f t.1)) l) e =
  map (fun t : section * string => (t.1, f t.1 ++ if bool_decide (e.1 = t.1) then [e.2] else [])) l.
Proof.
  unfold append_item. rewrite map_map. apply map_ext. intros t. cbn.
  repeat case_bool_decide; try congruence; by rewrite ?app_nil_r.
Qed.

(** Every commit with a line is listed once, in the section its header and its
    breaking-change marks select, and the items of a section are in the order of
    the commits; the sections are always the same seven in the same order. *)
Theorem categories_exact (commits : list string) :
  parse_and_categorize_commits commits = map (fun t => (t.1, items_of t.1 commits)) section_titles /\
  length (concat (map snd (parse_and_categorize_commits commits))) =
    length (List.filter (fun c => match categorize c with Some _ => true | None => false end) commits).
Proof.
  assert (parse_and_categorize_commits commits = map (fun t => (t.1, items_of t.1 commits)) section_titles) as Heq.
  { unfold parse_and_categorize_commits.
    assert (forall pre, fold_left (fun categories commit => match categorize commit with Some e => append_item categories e | None => categories end)
        commits (map (fun t => (t.1, items_of t.1 pre)) section_titles)
      = map (fun t => (t.1, items_of t.1 (pre ++ commits))) section_titles) as H; [|by apply (H [])].
    induction commits as [|c cs IH]; intros pre; cbn [fold_left]; [by rewrite app_nil_r|].
    rewrite (cons_middle c pre cs), app_assoc, <- IH. f_equal.
    destruct (categorize c) as [e|] eqn:Ec.
    - rewrite (append_item_map (fun s => items_of s pre)). apply map_ext. intros t. unfold items_of. rewrite omap_app. cbn. rewrite Ec. cbn. by case_bool_decide.
    - apply map_ext. intros t. unfold items_of. rewrite omap_app. cbn. by rewrite Ec, app_nil_r. }
  split; [exact Heq|]. rewrite Heq. clear Heq. rewrite map_map. cbn [snd].
  induction commits as [|c cs IH]; [done|]. cbn [List.filter]. unfold items_of in *. cbn [omap list_omap].
  destruct (categorize c) as [[s i]|]; cbn [mbind option_bind fst snd]; [|done].
  cbn [length]. rewrite <- IH. clear IH. cbn [map section_titles fst concat].
  rewrite !length_app. destruct s; cbn; repeat (case_bool_decide; try congruence); cbn; lia.
Qed.

Module ReleaseWitness.

Example notes :
  notes_markdown ["feat(api)!: drop v1"; "fix: typo"; "Merge branch"] None =
  join PyText.newline ["# GaiaOS Release Notes" +:+ PyText.newline;
    "### Breaking Changes" +:+ PyText.newline; "- **api**: drop v1"; "";
    "### Bug Fixes & Corrections" +:+ PyText.newline; "- typo"; "";
    "### Other Changes" +:+ PyText.newline; "- Merge branch"; ""].
Proof. by vm_compute. Qed.

Example previous_tag :
  get_commit_logs (Some ("v1.1.0" +:+ PyText.newline +:+ "v1.0.0"))
    (fun cmd => if existsb (String.eqb "v1.0.0..v1.1.0") cmd then Some "feat: x---END_COMMIT---" else None) (Some "v1.1.0")
  = ["feat: x"].
Proof. by vm_compute. Qed.

(** A README that mentions only [v1.0.10] passes for version 1.0.1. *)
Example longer_patch_suffices :
  documentation_main (path_of "/repo")
    {| pyproject := Some ("version = " +:+ String quote ("1.0.1" +:+ String quote ""));
       readme := Some "Phase 8: v1.0.0, v1.0.10"; versioning := Some "Phase 8: v1.0.0, v1.0.10";
       architecture := Some "Phase 8" |} None = 0.
Proof. by vm_compute. Qed.
End ReleaseWitness.
