(* ===== verification/CreateAdmin.v ===== *)
(** * CreateAdmin: the first administrator ([tools/create_admin.py])

    [create_admin] creates or promotes an account of [Accounts] out of band, with
    the password policy of [Auth].  A run returns its exit status or ends in an
    exception of the session; what is printed and logged is not modelled.
    Arguments: whether a session factory exists, and the answers to the two
    password prompts. *)

From S2P Require Import Prelude PyFloat PyStr Settings Effects Database AgentIO Gateway Auth Accounts.

Section create.
Context `{Argon2}.
Variable uuid4 : nat -> uuid.

(** The columns that promotion sets; a blank name leaves the stored one. *)
Definition promote (hashed_pw : string) (full_name : option string) (a : account) : account :=
  {| a_id := a_id a; a_email := a_email a; a_hashed_password := hashed_pw;
     a_full_name := if ostr_truthy full_name then full_name else a_full_name a;
     a_role := "admin"; a_is_active := true; a_is_verified := true;
     a_verification_token := a_verification_token a; a_verification_expires_at := a_verification_expires_at a;
     a_last_login_at := a_last_login_at a; a_deleted_at := a_deleted_at a; a_created_at := a_created_at a |}.

Definition create_admin (session_factory : bool) (email password : string) (full_name : option string) : M world Z :=
  if negb (validate_password_policy password).1 then mret 1
  else if negb session_factory then mret 1
  else
    get_user_by_email email false ≫= fun user =>
    hash_password password ≫= fun hashed_pw =>
    match user with
    | Some user =>
        save (with_accounts (update_account (a_id user) (promote hashed_pw full_name))) ≫= fun _ => mret 0
    | None =>
        create_user uuid4 email hashed_pw full_name "admin" true None None ≫= fun _ => mret 0
    end.

(** [prompts]: what is typed at the two password prompts. *)
Definition admin_main (session_factory : bool) (email : string) (password : option string) (full_name : option string)
    (prompts : string * string) : M world Z :=
  let full_name := match full_name with Some n => Some n | None => Some "System Administrator" end in
  if ostr_truthy password then create_admin session_factory email (default "" password) full_name
  else if negb (String.eqb prompts.1 prompts.2) then mret 1
  else create_admin session_factory email prompts.1 full_name.
End create.

(** ** The table after a promotion *)

Section invariant.
Context (token_urlsafe : nat -> string) (sha256 : string -> string).
Notation inv := (inv token_urlsafe sha256).

Lemma promote_inv hashed name u w : inv w -> u ∈ accounts w -> not_deleted u = true ->
  inv (with_accounts (update_account (a_id u) (promote hashed name)) w).
Proof.
  intros Hw Hu Hd. destruct Hw as [H1 H2 H3 H4 H5 H6 H7].
  split; cbn; rewrite ?(update_account_map a_id), ?(update_account_map a_email) by done; try done.
  - intros a b h (a0 & Ha & ->)%update_account_elem (b0 & Hb & ->)%update_account_elem Va Vb.
    assert (a_id a0 = a_id b0) by (apply (H3 a0 b0 h); [done..| |];
      [by destruct (String.eqb (a_id a0) (a_id u)) | by destruct (String.eqb (a_id b0) (a_id u))]).
    by destruct (String.eqb (a_id a0) (a_id u)), (String.eqb (a_id b0) (a_id u)).
  - intros a h (a0 & Ha & ->)%update_account_elem Va. apply (H4 a0); [done|].
    by destruct (String.eqb (a_id a0) (a_id u)).
  - intros a (a0 & Ha & ->)%update_account_elem. destruct (String.eqb_spec (a_id a0) (a_id u)) as [E|E]; [|by apply H5].
    assert (a0 = u) as -> by (by apply (NoDup_map_inj a_id (accounts w))).
    change (not_deleted (promote hashed name u)) with (not_deleted u). by rewrite Hd.
Qed.

Definition with_draws (k : nat) (w : world) : world :=
  World (accounts w) (tokens w) (k + drawn w) (clock w) (outbox w) (db w).

Lemma draws_inv k w : inv w -> inv (with_draws k w).
Proof. intros Hw. apply (same_tables_inv _ _ w); [|done]. split_and!; cbn; [done..|lia]. Qed.

Lemma found_spec email w a : found_by_email email w = Some a ->
  a ∈ accounts w /\ a_email a = norm_email email /\ not_deleted a = true.
Proof. by intros [Ha%list_elem_of_In [He%String.eqb_eq Hd]%andb_true_iff]%find_some. Qed.
End invariant.

(** ** Theorems *)

(** The administrator's account that [create_admin] adds. *)
Definition new_admin `{Argon2} (uuid4 : nat -> uuid) (email password : string) (full_name : option string) (w : world) : account :=
  {| a_id := uuid4 (S (drawn w)); a_email := norm_email email; a_hashed_password := ph_hash (drawn w) password;
     a_full_name := full_name; a_role := "admin"; a_is_active := true; a_is_verified := true;
     a_verification_token := None; a_verification_expires_at := None; a_last_login_at := None; a_deleted_at := None;
     a_created_at := clock w |}.

(** On a healthy database and for a password within the policy, the run ends with
    status 0 and an active, verified administrator under that address whose
    password it is, while every other account stays as it was; the invariant of
    the tables is kept.  The exception is an address that a deleted account still
    holds: the look-up does not see it and the insertion violates the constraint. *)
Theorem create_admin_spec `{Argon2} (token_urlsafe : nat -> string) (sha256 : string -> string) (uuid4 : nat -> uuid)
    (email password : string) (full_name : option string) (w : world) :
  inv token_urlsafe sha256 w -> db w = [] -> (validate_password_policy password).1 = true ->
  (forall a, a ∈ accounts w -> a_id a <> uuid4 (S (drawn w))) -> Z.of_nat (String.length (norm_email email)) <= 255 ->
  let '(r, w') := create_admin uuid4 true email password full_name w in
  inv token_urlsafe sha256 w' /\
  if existsb (fun a => String.eqb (a_email a) (norm_email email) && negb (not_deleted a)) (accounts w)
  then r = Raise integrity_error /\ accounts w' = accounts w
  else r = Ok 0 /\ exists a, found_by_email email w' = Some a /\ a_role a = "admin" /\ a_is_active a = true /\
         a_is_verified a = true /\ verify_password password (a_hashed_password a) = true /\
         forall b, a_email b <> norm_email email -> b ∈ accounts w' <-> b ∈ accounts w.
Proof.
  intros Hw Hs Hp Hid Hlen. unfold create_admin. rewrite Hp. cbn [negb].
  rewrite M_bind_run, (by_email_run token_urlsafe sha256) by done. unfold hash_password. rewrite !M_bind_run. cbn -[found_by_email save create_user].
  fold (with_draws 1 w). pose proof (draws_inv _ _ 1 w Hw) as Hw1.
  destruct (found_by_email email w) as [u|] eqn:Ef.
  - destruct (found_spec _ _ _ Ef) as (Hu & He & Hd).
    rewrite M_bind_run, save_ok by done. cbn -[with_accounts]. set (f := promote (ph_hash (drawn w) password) full_name).
    set (w' := with_accounts (update_account (a_id u) f) (with_draws 1 w)).
    assert (inv token_urlsafe sha256 w') as Hw' by (by apply promote_inv). split; [done|].
    assert (existsb (fun a => String.eqb (a_email a) (norm_email email) && negb (not_deleted a)) (accounts w) = false) as ->.
    { apply existsb_false. intros b Hb. destruct (String.eqb_spec (a_email b) (norm_email email)) as [E|]; [|done].
      assert (b = u) as -> by (apply (NoDup_map_inj a_email (accounts w)); [apply Hw | done | done | congruence]). by rewrite Hd. }
    assert (f u ∈ accounts w') as Hfu by (apply update_account_elem; exists u; by rewrite String.eqb_refl).
    split; [done|]. exists (f u). split; [by apply (found_email token_urlsafe sha256)|].
    do 3 (split; [done|]). split; [apply verify_own|]. intros b Hb. unfold w'. cbn [accounts with_accounts with_draws]. rewrite update_account_elem. split.
    + intros (b0 & Hb0 & ->). destruct (String.eqb_spec (a_id b0) (a_id u)) as [E|]; [|done].
      assert (b0 = u) as -> by (apply (NoDup_map_inj a_id (accounts w)); [apply Hw | done..]). by destruct Hb.
    + intros Hin. exists b. split; [done|]. destruct (String.eqb_spec (a_id b) (a_id u)) as [E|]; [|done].
      assert (b = u) as -> by (apply (NoDup_map_inj a_id (accounts w)); [apply Hw | done..]). by destruct Hb.
  - unfold create_user. rewrite !M_bind_run. cbn -[save_if insertable statement]. rewrite M_bind_run. cbn -[save_if insertable statement].
    set (u := new_admin uuid4 email password full_name w). change (World _ _ (S (S (drawn w))) _ _ _) with (with_draws 2 w). pose proof (draws_inv _ _ 2 w Hw) as Hw2.
    rewrite M_bind_run, save_if_ok by done. change (insertable _ (with_draws 2 w)) with (insertable u (with_draws 2 w)).
    destruct (existsb _ (accounts w)) eqn:Ex.
    + apply existsb_true in Ex as (b & Hb & [Eb _]%andb_true_iff).
      assert (insertable u (with_draws 2 w) = false) as ->; [|done].
      apply not_true_iff_false. intros [Hi _]%andb_true_iff. specialize (proj1 (forallb_true _ _) Hi b Hb). cbn. by rewrite Eb.
    + assert (forall a, a ∈ accounts w -> a_email a <> norm_email email) as Hne.
      { intros a Ha E. unfold found_by_email in Ef. pose proof (find_none _ _ Ef a) as Hn. cbn in Hn.
        rewrite existsb_false in Ex. specialize (Ex a Ha). rewrite E, String.eqb_refl in Ex, Hn. cbn in Ex, Hn.
        specialize (Hn (proj1 (list_elem_of_In _ _) Ha)). by rewrite Hn in Ex. }
      assert (insertable u (with_draws 2 w) = true) as Hins.
      { apply insertable_ok; [|done]. intros a Ha. split; [by apply Hne | by apply Hid]. }
      rewrite Hins, M_bind_run, statement_ok by done. cbn -[with_accounts]. set (w' := with_accounts _ _).
      assert (inv token_urlsafe sha256 w') as Hw' by (apply insert_account_inv; [done..|by intros h [=]|done]).
      split; [done|]. split; [done|]. exists u. split; [apply (found_email token_urlsafe sha256); [done | by apply elem_of_app; right; left | done..]|].
      do 3 (split; [done|]). split; [apply verify_own|]. intros b Hb. unfold w'. cbn.
      rewrite elem_of_app, list_elem_of_singleton. split; [by intros [?| ->] | auto].
Qed.

(** A password outside the policy, prompts that differ or a missing session
    factory: status 1, and nothing is touched. *)
Theorem create_admin_refused `{Argon2} (uuid4 : nat -> uuid) (session_factory : bool) (email : string)
    (password full_name : option string) (prompts : string * string) (w : world) :
  let typed := if ostr_truthy password then default "" password else prompts.1 in
  (validate_password_policy typed).1 = false \/ session_factory = false \/
    (ostr_truthy password = false /\ prompts.1 <> prompts.2) ->
  admin_main uuid4 session_factory email password full_name prompts w = (Ok 1, w).
Proof.
  unfold admin_main, create_admin. cbv zeta. destruct (ostr_truthy password).
  - intros [->|[->|[[=] _]]]; [done|]. by destruct (validate_password_policy _).1.
  - destruct (String.eqb_spec prompts.1 prompts.2) as [E|E]; cbn [negb]; [|done].
    intros [->|[->|[_ []]]]; [done| |done]. by destruct (validate_password_policy _).1.
Qed.

(** An administrator created on empty tables, then promoted again under another
    spelling of the address: still one account. *)
Example bootstrap_twice :
  let run := create_admin (H := AccountsWitness.plain_argon2) AccountsWitness.uuid4 true in
  let w := (run "Root@Example.org" AccountsWitness.password None AccountsWitness.empty).2 in
  let '(r, w') := run " root@example.org" AccountsWitness.password (Some "Root") w in
  r = Ok 0 /\ map a_full_name (accounts w) = [None] /\ map a_full_name (accounts w') = [Some "Root"].
Proof. by vm_compute. Qed.
