(* ===== verification/Scaffold.v ===== *)
(** * Scaffold: files of a new agent ([orchestrator/plugins/scaffold.py],
    [cli/gaiaos_cli/commands/plugin.py])

    [scaffold_agent] on a disk of files and directories, and the command that
    reports on it.  A run that fails halfway leaves what it has written.
    Arguments: the resolved root directory, the directory of the module's own
    repository, and the text of an exception. *)

From S2P Require Import Prelude PyStr PyFloat Effects Plugins PyText ApiStability.
From Stdlib Require Import Ascii.

Record disk := Disk { files : list (Path * string); dirs : list Path }.

Definition text_of (p : Path) (d : disk) : option string :=
  snd <$> List.find (fun f => bool_decide (f.1 = p)) (files d).

(** [p.exists()] *)
Definition path_exists (p : Path) (d : disk) : bool :=
  bool_decide (p ∈ dirs d) || bool_decide (p ∈ map fst (files d)).

Definition file_exists_error (p : Path) : pyexn := OtherError ("FileExistsError: " +:+ str_path p).
Definition file_not_found (p : Path) : pyexn := OtherError ("FileNotFoundError: " +:+ str_path p).

Definition read_file (p : Path) : M disk string := fun d =>
  match text_of p d with Some t => (Ok t, d) | None => (Raise (file_not_found p), d) end.

(** [p.write_text(text)]: an existing file is replaced. *)
Definition write_file (p : Path) (text : string) : M disk unit := fun d =>
  (Ok tt, Disk ((p, text) :: List.filter (fun f => negb (bool_decide (f.1 = p))) (files d)) (dirs d)).

(** [p.mkdir(parents=True, exist_ok=True)]: the directory and those above it. *)
Fixpoint ancestors (abs : bool) (above : list string) (ps : list string) : list Path :=
  match ps with
  | [] => []
  | p :: ps => {| absolute := abs; parts := above ++ [p] |} :: ancestors abs (above ++ [p]) ps
  end.
Definition mkdir (p : Path) : M disk unit := fun d =>
  (Ok tt, Disk (files d) (ancestors (absolute p) [] (parts p) ++ dirs d)).

Definition raise_if_exists (p : Path) : M disk unit := fun d =>
  if path_exists p d then (Raise (file_exists_error p), d) else (Ok tt, d).

(** ** [scaffold_agent] *)

Section scaffold.
Variables (base_dir own_repository : Path).

Definition sub (p : Path) (ps : list string) : Path := {| absolute := absolute p; parts := parts p ++ ps |}.

Definition domain_title (clean_domain : string) : string :=
  replace_sub " " "" (title (replace_char "_" " " clean_domain)).

Definition render (clean_domain : string) (template : Path) : M disk string :=
  read_file template ≫= fun content =>
  mret (replace_sub "${DomainTitle}" (domain_title clean_domain) (replace_sub "${domain_name}" clean_domain content)).

Definition template_dir (d : disk) : Path :=
  let here := sub base_dir ["scripts"; "new_agent_template"] in
  if path_exists here d then here else sub own_repository ["scripts"; "new_agent_template"].

Definition target_agent_dir (clean_domain : string) : Path := sub base_dir ["orchestrator"; "agents"; clean_domain].
Definition target_test_file (clean_domain : string) : Path :=
  sub base_dir ["tests"; "test_" +:+ clean_domain +:+ "_agent.py"].

Definition scaffold_agent (domain_name : string) : M disk (list (string * Path)) :=
  lift (validate_domain_name domain_name) ≫= fun clean_domain =>
  (fun d => (Ok (template_dir d), d)) ≫= fun templates =>
  let agent_dir := target_agent_dir clean_domain in
  let test_file := target_test_file clean_domain in
  raise_if_exists agent_dir ≫= fun _ =>
  raise_if_exists test_file ≫= fun _ =>
  mkdir agent_dir ≫= fun _ =>
  render clean_domain (sub templates ["__init__.py.template"]) ≫= fun text =>
  write_file (sub agent_dir ["__init__.py"]) text ≫= fun _ =>
  render clean_domain (sub templates ["agent.py.template"]) ≫= fun text =>
  write_file (sub agent_dir ["agent.py"]) text ≫= fun _ =>
  mkdir (parent test_file) ≫= fun _ =>
  render clean_domain (sub templates ["test_agent.py.template"]) ≫= fun text =>
  write_file test_file text ≫= fun _ =>
  mret [("init", sub agent_dir ["__init__.py"]); ("agent", sub agent_dir ["agent.py"]); ("test", test_file)].

(** ** The command *)

(** Exit status and lines of [gaiaos plugin scaffold]; [str_exn] is the text of an
    exception.  [ValueError] and [FileExistsError] have their own messages. *)
Definition scaffold_command (str_exn : pyexn -> string) (domain_name : string) : disk -> Z * list string * disk := fun d =>
  let start := "Scaffolding new domain agent plugin '[bold]" +:+ domain_name +:+ "[/bold]'..." in
  match scaffold_agent domain_name d with
  | (Ok paths, d') =>
      (0, [start; "Successfully scaffolded new domain agent '" +:+ domain_name +:+ "':"] ++
          map (fun kp => "  • Created [cyan]" +:+ kp.1 +:+ "[/cyan]: " +:+ str_path kp.2) paths ++
          [PyText.newline +:+ "[bold yellow]Next steps to complete plugin registration:[/bold yellow]";
           "1. Register agent runner in [bold]orchestrator/agents/registry.py[/bold]:";
           "     [dim]from orchestrator.agents." +:+ domain_name +:+ ".agent import run as run_" +:+ domain_name +:+ "[/dim]" +:+
           PyText.newline +:+ "     [dim]agent_registry.register('" +:+ domain_name +:+ "', run_" +:+ domain_name +:+ ")[/dim]";
           "2. Add at least one domain evaluation question in [bold]eval/benchmarks/questions.json[/bold].";
           "3. Run contract validator: [bold]python -m eval.agent_contract_validator[/bold]"], d')
  | (Raise e, d') =>
      let message := match e with
                     | ValueError => "Invalid domain name: "
                     | OtherError m => if startswith "FileExistsError" m then "Directory or test file already exists: "
                                       else "Failed to scaffold agent: "
                     | _ => "Failed to scaffold agent: "
                     end in
      (1, [start; message +:+ str_exn e], d')
  end.
End scaffold.

(** ** Nothing existing is touched *)

Lemma text_of_write p t q d : text_of q (write_file p t d).2 = if bool_decide (q = p) then Some t else text_of q d.
Proof.
  unfold text_of, write_file. cbn. case_bool_decide as E; case_bool_decide as E2; try congruence; [done|].
  f_equal. induction (files d) as [|[f u] l IH]; cbn; [done|]. repeat case_bool_decide; cbn; subst; try done.
  - by rewrite bool_decide_true.
  - by rewrite bool_decide_false.
Qed.

Lemma text_of_elem p d : is_Some (text_of p d) <-> p ∈ map fst (files d).
Proof.
  unfold text_of. rewrite fmap_is_Some. split.
  - intros [[q t] [Hin E]%find_some]. cbn in E. apply bool_decide_eq_true in E as <-.
    apply list_elem_of_fmap. exists (q, t). by rewrite list_elem_of_In.
  - intros (f & -> & Hin)%list_elem_of_fmap. destruct (List.find _ _) eqn:E; [by eauto|].
    apply list_elem_of_In in Hin. pose proof (find_none _ _ E _ Hin) as Hn. cbn in Hn. by rewrite bool_decide_true in Hn.
Qed.

(** Every file is in a directory. *)
Definition disk_ok (d : disk) : Prop := forall p, is_Some (text_of p d) -> parent p ∈ dirs d.

(** [d] has the files of [d0], and beyond them only files of [new]. *)
Definition only_adds (d0 : disk) (new : list Path) (d : disk) : Prop :=
  (forall p t, text_of p d0 = Some t -> text_of p d = Some t) /\
  (forall p, text_of p d0 = None -> is_Some (text_of p d) -> p ∈ new).

Section steps.
Variables (d0 : disk) (new : list Path).
Notation keeps m := (triple (fun _ => only_adds d0 new) (only_adds d0 new) m (fun _ => only_adds d0 new)).

Lemma only_adds_refl : only_adds d0 new d0.
Proof. split; [done|]. intros p ->. by intros [? [=]]. Qed.

Lemma mkdir_keeps p : keeps (mkdir p).
Proof. by intros d. Qed.

Lemma exists_keeps p : keeps (raise_if_exists p).
Proof. intros d Hd. unfold raise_if_exists. by destruct (path_exists p d). Qed.

Lemma render_keeps name p : keeps (render name p).
Proof. intros d Hd. unfold render, read_file. rewrite M_bind_run. by destruct (text_of p d). Qed.

Lemma write_keeps p t : text_of p d0 = None -> p ∈ new -> keeps (write_file p t).
Proof.
  intros Hp Hn d [H1 H2]. change (only_adds d0 new (write_file p t d).2). split.
  - intros q u Hq. rewrite text_of_write. case_bool_decide; [congruence | auto].
  - intros q Hq. rewrite text_of_write. case_bool_decide; [by subst | auto].
Qed.
End steps.

Definition new_files (base_dir : Path) (name : string) : list Path :=
  [sub (target_agent_dir base_dir name) ["__init__.py"]; sub (target_agent_dir base_dir name) ["agent.py"];
   target_test_file base_dir name].

Lemma parent_sub p n : parent (sub p [n]) = p.
Proof. unfold parent, sub. cbn. rewrite removelast_last. by destruct p. Qed.

Lemma not_existing p d : path_exists p d = false -> text_of p d = None /\ p ∉ dirs d.
Proof.
  intros [Hd Hf]%orb_false_iff. apply bool_decide_eq_false in Hd, Hf. split; [|done].
  destruct (text_of p d) eqn:E; [|done]. exfalso. apply Hf, text_of_elem. by rewrite E.
Qed.

Lemma raise_if_exists_ok p d u d' : raise_if_exists p d = (Ok u, d') -> d' = d /\ path_exists p d = false.
Proof. unfold raise_if_exists. destruct (path_exists p d) eqn:E; [done|]. by intros [= _ <-]. Qed.

(** Scaffolding an agent, successful or not, changes no file that was there, and
    what it adds are at most the three files of the agent, whose name is a plain
    word: nothing is written outside the agent's own directory and its test. *)
Theorem scaffold_only_adds (base_dir own : Path) (domain_name : string) (d : disk) : disk_ok d ->
  let '(r, d') := scaffold_agent base_dir own domain_name d in
  (forall p t, text_of p d = Some t -> text_of p d' = Some t) /\
  (forall p, text_of p d = None -> is_Some (text_of p d') ->
     exists name, validate_domain_name domain_name = Ok name /\ p ∈ new_files base_dir name) /\
  (forall paths, r = Ok paths -> exists name, validate_domain_name domain_name = Ok name /\
     map snd paths = new_files base_dir name).
Proof.
  intros Hok. unfold scaffold_agent. rewrite M_bind_run. unfold lift.
  destruct (validate_domain_name domain_name) as [name|e]; [|split; [done|]; split; [by intros p ->; intros [? [=]] | by intros ? [=]]].
  rewrite M_bind_run. cbv zeta. rewrite M_bind_run.
  assert (only_adds d (new_files base_dir name) d) as Hrefl by apply only_adds_refl.
  destruct (raise_if_exists (target_agent_dir base_dir name) d) as [[u|e] d1] eqn:E1.
  2: { pose proof (exists_keeps d (new_files base_dir name) (target_agent_dir base_dir name) d Hrefl) as H1. rewrite E1 in H1.
       destruct H1 as [H1 H2]. split; [exact H1|]. split; [by eauto | by intros ? [=]]. }
  apply raise_if_exists_ok in E1 as [-> Ha]. rewrite M_bind_run.
  destruct (raise_if_exists (target_test_file base_dir name) d) as [[u'|e] d1] eqn:E2.
  2: { pose proof (exists_keeps d (new_files base_dir name) (target_test_file base_dir name) d Hrefl) as H1. rewrite E2 in H1.
       destruct H1 as [H1 H2]. split; [exact H1|]. split; [by eauto | by intros ? [=]]. }
  apply raise_if_exists_ok in E2 as [-> Ht].
  destruct (not_existing _ _ Ha) as [_ Hdir]. destruct (not_existing _ _ Ht) as [Htest _].
  assert (forall n, text_of (sub (target_agent_dir base_dir name) [n]) d = None) as Hnew.
  { intros n. apply eq_None_not_Some. intros Hs. apply Hdir. rewrite <- (parent_sub _ n). by apply Hok. }
  match goal with |- context [(mkdir ?a ≫= ?k) d] =>
    assert (triple (fun _ => only_adds d (new_files base_dir name)) (only_adds d (new_files base_dir name)) (mkdir a ≫= k)
      (fun paths d' => only_adds d (new_files base_dir name) d' /\ map snd paths = new_files base_dir name)) as Htr end.
  { repeat (eapply triple_bind;
      [first [apply mkdir_keeps | apply render_keeps | apply write_keeps; [first [apply Hnew | exact Htest] | unfold new_files; set_solver]]
      | intros ?]).
    intros d' Hd'. by split. }
  specialize (Htr d Hrefl). destruct ((mkdir _ ≫= _) d) as [[paths|e] d'].
  - destruct Htr as [[H1 H2] H3]. split; [done|]. split; [by eauto|]. intros ? [= <-]. eauto.
  - destruct Htr as [H1 H2]. split; [done|]. split; [by eauto | by intros ? [=]].
Qed.

Module ScaffoldWitness.
Definition root : Path := path_of "/repo".
Definition template (n : string) : Path := sub root ["scripts"; "new_agent_template"; n].
Definition start : disk :=
  Disk [(template "__init__.py.template", "# ${domain_name}"); (template "agent.py.template", "class ${DomainTitle}Agent");
        (template "test_agent.py.template", "import ${domain_name}")]
       [root; sub root ["scripts"]; sub root ["scripts"; "new_agent_template"]].

Example scaffolded :
  let '(r, d) := scaffold_agent root root "ground_water" start in
  is_ok r = true /\ text_of (path_of "/repo/orchestrator/agents/ground_water/agent.py") d = Some "class GroundWaterAgent".
Proof. by vm_compute. Qed.

(** Without the last template the run fails, and because its directory is there the
    next one is refused, also when the template is back. *)
Example halfway :
  let '(r, d) := scaffold_agent root root "ground_water" (Disk (take 2 (files start)) (dirs start)) in
  is_ok r = false /\
  (scaffold_agent root root "ground_water" (Disk (files d ++ files start) (dirs d))).1
    = Raise (file_exists_error (target_agent_dir root "ground_water")).
Proof. by vm_compute. Qed.
End ScaffoldWitness.
